(* ===== verification/_CoqProject ===== *)
-Q . S2P
Prelude.v
Net.v
Common.v
BpfMaps.v
Str.v
Fmt.v
Lines.v
Cidr.v
Entry.v
Metadata.v
Attribution.v
Cache.v
Parser.v
Import.v
Loader.v
MapManager.v
Wire.v
Xdp.v
FireholSync.v
Pipeline.v
Schedule.v
Spool.v
EndToEnd.v
Git.v
Directory.v
Blocklist.v
Console.v
Doubles.v
TopN.v
RingBuf.v
LogText.v
Telemetry.v
Server.v
Blocked.v
ImportGauges.v
Collectors.v
Build.v
XdpLoader.v
Daemon.v
Banner.v
Shutdown.v
Packet.v
Generator.v
Bench.v
Report.v
Attack.v
Probe.v
RawSocket.v
Archived.v
Checks.v
TestsKernel.v
TestsRules.v
TestsImport.v
TestsMetadata.v
TestsCache.v
TestsTelemetry.v
TestsDaemon.v
TestsTools.v
