(* ===== verification/Prelude.v ===== *)
(** * eBPF IP-reputation firewall: a verification development

    ** The program

    A Linux firewall in Rust. An XDP program ([firewall-ebpf]) looks up the
    source address of every received frame in four eBPF maps (exact and
    longest-prefix, IPv4 and IPv6), drops it when a drop rule matches, counts it in
    one record shared by all processors and writes an event of each drop to a ring
    buffer. A daemon ([src/])
    fills the maps from two sources, static rule files and FireHOL blocklists kept
    in a git checkout and imported by worker threads in memory or through a RocksDB
    cache; it drains the ring buffer, attributes each drop to the files and lines
    that caused it, ranks the blocked addresses and exports Prometheus metrics.
    [firewall-common] holds the data both sides share. Two tools under [scripts/]
    send traffic at the firewall: a benchmark and a verification tool.

    Data flows in this order, which is also the order of the files:

      git checkout -> list files -> lines -> targets -> entries -> rule set
      rule files -> rule set -> map manager -> eBPF maps
      frame -> XDP program -> verdict, statistics, event -> consumer -> metrics
      traffic tools -> packets -> frames

    State is explicit: an operation on [&mut self] takes the record and returns
    it. Repeated source loops are folds or structural [Fixpoint]s. Threads are step
    relations, other tasks sequences of events. Code outside the repository is a
    class or an argument; its laws state documented behaviour and every class of
    laws has an executable instance.

    ** Files and what they model

    Foundations:
    - [Prelude]: outcomes ([Ok], [Err], [Fault] for a panic or an out-of-bounds
      read), machine integers as [Z] with written-out wrap-around, big- and
      little-endian bytes, tactics, the hint database [firewall], lemmas on lists.
    - [Net]: [IpAddr], masks by shifting, and the reference notion that the first
      [p] bits of two addresses agree.
    - [Common]: [firewall-common/src/lib.rs]; constants, [RuleValue], LPM keys,
      [PacketLogEvent] with its 64-byte memory image, [FirewallStats].
    - [BpfMaps]: what the kernel promises: [BpfMap]/[BpfMapLaws] (insert, remove,
      key iteration), [HashGet], [LpmGet] (longest prefix), [RingBuffer], and
      [HashOrder] (the unspecified iteration order of a Rust hash map).
    - [Str]: strings as scalar values, UTF-8 bytes, [trim], [split_once] and the
      address parsers of [std::net]. [Fmt]: printed numbers and reading them.
    Rules and lists:
    - [Lines]: [visit_file_lines] of [src/firehol/parser.rs], with the operating
      system's reads as a list of events (short reads, interruptions, failures).
    - [Cidr]: the interface of the [ipnet] crate and [exclude_v4_from_cidr],
      [exclude_v6_from_cidr]. [Entry]: [src/firehol/entry.rs] and the keys of
      [src/cache_rocksdb.rs].
    - [Metadata]: [src/firehol/metadata.rs]; categories, masks, the registry in
      memory and on a [ContextStore]. [Attribution]: theorems on its address index.
    - [Cache]: [src/cache_rocksdb.rs]; the database, the bulk writer, contexts from
      sorted contributions, over [RocksDb] and [Rkyv].
    - [Parser]: tokens of [src/firehol/parser.rs]. [Import]: one file through one
      worker, with metadata comments and [normalize_firehol_date].
    - [Loader]: [src/loader.rs]; static rule files, rule sets, rule identifiers.
    - [MapManager]: [src/maps.rs]; both differential synchronisations. The source
      writes each loop four times, once per map; Section [Family] has it once,
      over the map interface, and the manager's operations use it four times.
    - [Wire]: [firewall-ebpf/src/lib.rs], the reference classifier. [Xdp]:
      [firewall-ebpf/src/main.rs], the data path as a state monad over the record
      [kernel] (maps, ring buffer, the one record of statistics), and a reference
      reading of every frame, [frame_view]: malformed, not IP, or a packet.
    - [FireholSync]: [src/firehol/sync.rs] and the data set of an import.
    - [Pipeline]: the worker threads, the channel and the coordinator of
      [parse_directory_impl] as a step relation. [Schedule]: its accounts over
      every interleaving. [Spool]: the coordinator with the disk cache, and the
      simulation between both imports. [Directory]: discovery and entry points.
    - [EndToEnd]: loader, import, preparation, manager and XDP program together.
    - [Git]: [src/firehol/git_repository.rs] over [Git2]. [Blocklist]:
      [src/firehol/blocklist.rs] and the job of [src/firehol/scheduler.rs].
    Telemetry and the daemon:
    - [Console]: [src/console.rs]; colours, numbers, IEEE 754 doubles as
      [spec_float]. [Doubles]: what rounding a quotient of doubles costs. [TopN]:
      [src/top_n.rs] over [CounterVec]. [RingBuf]: [src/ringbuf.rs] and what it
      records. [LogText]: the text of a logged drop.
    - [Telemetry]: [src/metrics.rs], [src/stats.rs] and the HTTP endpoint.
      [Server]: its accept loop and connection tasks as a step relation.
      [Blocked]: the XDP program and the consumer interleaved.
      [ImportGauges]: what an import publishes ([src/firehol/metrics.rs]).
      [Collectors]: every metric family as both constructors register it.
    - [Build]: [build.rs], [xtask]. [XdpLoader]: [src/xdp.rs], [src/error.rs].
    - [Daemon]: [src/main.rs], [src/config.rs]; start-up and running tasks as
      events on the shared state. [Shutdown]: the rest of [src/firehol/scheduler.rs]
      and the end of [main], tasks with their select loops as a step relation.
      [Banner]: the start-up lines and the report of an import.
    Traffic tools:
    - [Packet]: builders and checksums. [Generator]: random numbers and the address
      pool. [Bench]: a benchmark thread. [Report]: arguments, pacing, sampling,
      summary and report. [Attack]: the benchmark against the firewall. [Probe]: the
      verification tool, and its packets against the firewall. [RawSocket]: the
      sender of [scripts/common/src/socket.rs] over an interface of the C library.
    Last, [Archived] holds the archived and serialized forms of the metadata.

    The repository's own tests: [Checks] has the vocabulary, [TestsKernel],
    [TestsRules], [TestsImport], [TestsMetadata], [TestsCache], [TestsTelemetry],
    [TestsDaemon] and [TestsTools] the test functions under their names, each a list of
    what it asserts; one lemma per file evaluates them on the model. They tie the
    definitions to values the authors of the code wrote down, where the theorems
    speak of all inputs.

    ** What is proved

    - Enforcement. [Xdp.firewall_enforces_policy]: where the classifier of the library
      and the data path read a frame alike (at most one tag), the data path refines a
      policy stated on the classifier's result and on map contents;
      [Xdp.firewall_accounting]: on arbitrary bytes it never reads outside the
      packet, its verdicts are those of the reference reading, and the counters are
      the numbers and lengths of the frames received, dropped and accepted;
      [EndToEnd.packet_dropped_iff_source_listed]: from the text of the files, over
      every schedule of the import, to the verdict on any frame;
      [Daemon.daemon_drops_listed_sources]: the same for the running daemon, from
      start-up through reloads, jobs that fail or are skipped, ticks and requests.
      The last two, [Attack] and [Probe] suppose what [MapManager.reachable] says: every
      rule found room, and no key is named by a static and a FireHOL rule at once.
      Both can fail of the program; lemmas of [MapManager] show what happens then.
    - The import. Every finished schedule imports every line with its file, line
      and category or fails ([Schedule]); no execution is infinite or stuck
      ([Pipeline]); through the disk cache the result is the same, and equal when
      the disk does not fail ([Spool]); the bulk writer's limit never shows and the
      ordered scan rebuilds every context ([Cache]); the gauges count the lines
      ([ImportGauges]).
    - Rule maintenance. Contents of the maps after each synchronisation, errors
      included, and over all reachable managers ([MapManager]); the first entry for
      a target wins ([FireholSync]); a failed job changes nothing that is active
      ([Blocklist]); what a synchronisation leaves in the checkout, local changes and
      untracked files included ([Git]).
    - Reading. Chunking never shows ([Lines]); entries are exactly those of the
      file's lines ([Import]); excluded addresses are never covered and nothing else
      is lost ([Cidr], [Parser]); the fast IPv4 reader agrees with the standard one
      ([Parser]); static rules are attributed to their lines ([Loader]).
    - Encodings and frames: round trips of frames and memory safety ([Wire]), of
      entries, keys, events ([Entry], [Metadata], [Common]), durations ([Report]).
    - Telemetry. However packets and reads of the ring buffer interleave, what is
      exported is what was dropped but for events without room ([Blocked]); what is
      logged explains the drop, from memory and, for IPv4, from the disk cache
      ([RingBuf]); the exported series are those of the ranked addresses, raised to
      the current counts and never lowered ([TopN]); accepted traffic is exported exactly; the drop-log switch answers the tools' request
      ([Telemetry]); the HTTP server answers every connection once, in the order of
      the reads, whatever is interleaved ([Server]); registration succeeds and no
      operation passes a wrong number of labels, which would panic ([Collectors]).
    - The end of the daemon. After a signal [main] returns within the work that is
      left, whatever the tasks were doing ([Shutdown]); the rules keep being enforced
      until then ([Daemon]).
    - Traffic tools. Built packets verify and classify ([Packet]); the pool
      constructor ends exactly within its limit ([Generator]); a thread's statistics
      add up ([Bench]), its rate is bounded, in exact arithmetic although it is computed in
      doubles ([Report]), its packets are dropped
      ([Attack]); what the verification tool sends, and that its verdict does not
      depend on the firewall ([Probe]); a raw socket is never leaked ([RawSocket]).
    - Lemmas on behaviour that departs from what the source says: [mask_v6] on octet
      boundaries and its effect on attribution, static rules lost to FireHOL
      withdrawals or to a refused insert, double-tagged frames, an emptying update
      taken for none, rounding in printed numbers, the benchmark's restore, a flood of
      records that keeps the consumer from the shutdown signal ([Metadata],
      [Attribution], [MapManager], [Xdp], [Blocklist], [Console], [Report],
      [Shutdown]).

    ** Bounds and fuel

    Fuelled functions never run out where a theorem speaks of them.
    [Cidr.exclude_loop]: the prefix grows each round, so [8 * n + 1] rounds suffice
    ([exclude_from_cidr_exact]). [Lines.visit_loop]: each round consumes a read event
    or input ([visit_file_lines_reads_every_line]). [RingBuf.drain]: one round per
    queued record, and the queue is proved empty. [Import.replace_fuel],
    [Metadata.chunks]: the length of the text or list. [Fmt.to_radix]: 20 digits hold
    64 bits; [Console.spaced_loop]: seven groups do. [Packet.fold_carry]: three
    rounds fold 32 bits, exhaustion would be a [Fault]. [Generator.fill_pool]: the
    loop of the source need not end; [blocked_pool_ends_iff] says when it does, for
    some fuel. [Pipeline.run], [Spool.run_cached]: schedulers that only produce
    witnesses. [Git.retry] (three attempts) and the rounds of a benchmark thread are
    the source's own bounds. [Report.raise_peak] takes the number of spurious
    failures of the exchange. Counters of 32 and 64 bits wrap as in a release build.
    File-level theorems assume fewer than 2^32 lines, where identifiers would wrap.

    ** Not modelled

    - Updates of the kernel's counters that overlap. The record of statistics is shared
      and its increments are not atomic; the theorems on counters let one frame follow
      the other. [Xdp.shared_counter_bounded] says what remains true of any
      interleaving (a counter never exceeds what was counted) and [Xdp.lost_update]
      shows the loss.
    - Third-party code behind interfaces: git, RocksDB, rkyv, serde, aya, the cron and
      Prometheus libraries, pretty_console, chrono, ipnet. The text of metrics and of
      JSON and the parsing of command lines are theirs.
    - Sockets below accept, read and write; the memory-lock limit; what clocks measure
      (readings are arguments) and the histograms that only observe durations.
    - Log lines other than the banner, a drop, a tick, an import's report and the
      benchmark's report; the lines the verification tool prints.
    - The locks of the blocklist manager: each guards one field for one read or write
      and never spans a wait, so an operation is one step.
    - Tests that open sockets or git repositories, format dates or parse command lines
      with options; the benchmarks under [benches/], which only call the library.
*)
From stdpp Require Import base numbers list gmap fin_maps strings sorting.
From Stdlib Require Import ZArith Lia.

Local Open Scope Z_scope.

(** ** Outcomes of fallible code

    [Ok] and [Err] are the two arms of Rust's [Result]; [Fault] is what the
    source never means to do: a panic (index out of range, [unwrap] on an
    error) or an out-of-bounds raw read. *)
Inductive outcome (E A : Type) : Type :=
| Ok (a : A)
| Err (e : E)
| Fault.
Arguments Ok {E A} _.
Arguments Err {E A} _.
Arguments Fault {E A}.

(** [Result::map_err]. *)
Definition map_err {E F B} (f : E → F) (m : outcome E B) : outcome F B :=
  match m with Ok b => Ok b | Err e => Err (f e) | Fault => Fault end.

#[global] Instance outcome_ret {E} : MRet (outcome E) := λ A a, Ok a.
#[global] Instance outcome_bind {E} : MBind (outcome E) := λ A B f m,
  match m with Ok a => f a | Err e => Err e | Fault => Fault end.
#[global] Instance outcome_fmap {E} : FMap (outcome E) := λ A B f m,
  match m with Ok a => Ok (f a) | Err e => Err e | Fault => Fault end.

#[global] Instance outcome_eq_dec {E A} `{EqDecision E, EqDecision A} :
  EqDecision (outcome E A).
Proof. solve_decision. Defined.

Definition is_fault {E A} (m : outcome E A) : bool :=
  match m with Fault => true | _ => false end.

Definition is_ok {E A} (m : outcome E A) : bool := match m with Ok _ => true | _ => false end.
Definition from_ok {E A} (d : A) (m : outcome E A) : A := match m with Ok a => a | _ => d end.

(** A property of every normal outcome; an outcome satisfying it is no fault. *)
Definition outcome_sat {E A} (P : A → Prop) (m : outcome E A) : Prop :=
  match m with Ok a => P a | Err _ => True | Fault => False end.

(** ** Machine integers: values are [Z], every wrap-around is written out. *)
Definition wrap (w z : Z) : Z := z mod 2 ^ w.
Abbreviation wrap_u8 := (wrap 8).
Abbreviation wrap_u16 := (wrap 16).
Abbreviation wrap_u32 := (wrap 32).
Abbreviation wrap_u64 := (wrap 64).

Definition in_width (w z : Z) : Prop := 0 <= z < 2 ^ w.
#[global] Instance in_width_dec w z : Decision (in_width w z).
Proof. unfold in_width. apply _. Defined.

(** [usize] of the 64-bit targets. *)
Definition usize_max : Z := 2 ^ 64 - 1.

Definition checked_add_usize (a b : Z) : option Z :=
  if a + b <=? usize_max then Some (a + b) else None.

(** [x.checked_shl(n)] on a [w]-bit value. *)
Definition checked_shl (w x n : Z) : option Z :=
  if n <? w then Some (wrap w (Z.shiftl x n)) else None.

(** ** Bytes and byte arrays *)
Definition byte_ok (b : Z) : Prop := 0 <= b < 256.
Definition bytes_ok (n : nat) (l : list Z) : Prop :=
  length l = n ∧ Forall byte_ok l.
#[global] Instance byte_ok_dec b : Decision (byte_ok b).
Proof. unfold byte_ok. apply _. Defined.
#[global] Instance bytes_ok_dec n l : Decision (bytes_ok n l).
Proof. unfold bytes_ok. apply _. Defined.

(** [l.len()]. *)
Definition len {A} (l : list A) : Z := Z.of_nat (length l).

(** [uN::from_be_bytes] and [uN::to_be_bytes]. *)
Definition from_be_bytes (l : list Z) : Z :=
  fold_left (λ acc b, acc * 256 + b) l 0.
Fixpoint to_be_bytes (n : nat) (z : Z) : list Z :=
  match n with
  | O => []
  | S n' => (z / 256 ^ Z.of_nat n') mod 256 :: to_be_bytes n' z
  end.

(** The little-endian in-memory representation of the targets
    ([bpfel-unknown-none], x86_64, AArch64). *)
Definition from_le_bytes (l : list Z) : Z := from_be_bytes (reverse l).
Definition to_le_bytes (n : nat) (z : Z) : list Z := reverse (to_be_bytes n z).

(** [u16::from_be] / [u32::from_be] on a little-endian machine: a byte swap. *)
Definition from_be (n : nat) (z : Z) : Z := from_be_bytes (to_le_bytes n z).

(** ** Indexing: [l[i]] and [&l[off..off+n]] panic out of range. *)
Definition idx {E A} (l : list A) (i : Z) : outcome E A :=
  if i <? 0 then Fault
  else match l !! Z.to_nat i with Some a => Ok a | None => Fault end.

Definition slice {A} (l : list A) (off n : Z) : list A :=
  take (Z.to_nat n) (drop (Z.to_nat off) l).

Definition read_at {E A} (l : list A) (off n : Z) : outcome E (list A) :=
  if (0 <=? off) && (0 <=? n) && (off + n <=? Z.of_nat (length l))
  then Ok (slice l off n) else Fault.

Create HintDb firewall.

(** ** Tactics *)

(** Splits every boolean test of the goal into its arithmetic meaning. *)
Ltac case_Z :=
  repeat match goal with
  | |- context [?a =? ?b] => destruct (Z.eqb_spec a b); try lia
  | |- context [?a <? ?b] => destruct (Z.ltb_spec a b); try lia
  | |- context [?a <=? ?b] => destruct (Z.leb_spec a b); try lia
  end.

(** Closed decidable facts, by evaluation. *)
Ltac by_decide :=
  first [ refine (bool_decide_unpack _ _); vm_compute; exact I
        | vm_compute; reflexivity ].

(** Closed [decide]s of the goal, by evaluation. *)
Ltac closed_decide :=
  repeat match goal with
  | |- context [@decide ?P _] =>
      let r := eval vm_compute in (bool_decide P) in
      lazymatch r with
      | true => rewrite (decide_True (P := P)) by by_decide
      | false => rewrite (decide_False (P := P)) by by_decide
      end
  end.

(** Boolean hypotheses to propositions. *)
Ltac bool_Z :=
  repeat match goal with
  | H : (_ && _)%bool = true |- _ => apply andb_true_iff in H as [? ?]
  | H : (_ || _)%bool = false |- _ => apply orb_false_iff in H as [? ?]
  | H : (_ =? _) = true |- _ => apply Z.eqb_eq in H
  | H : (_ =? _) = false |- _ => apply Z.eqb_neq in H
  | H : (_ <? _) = true |- _ => apply Z.ltb_lt in H
  | H : (_ <? _) = false |- _ => apply Z.ltb_ge in H
  | H : (_ <=? _) = true |- _ => apply Z.leb_le in H
  | H : (_ <=? _) = false |- _ => apply Z.leb_gt in H
  | H : negb _ = true |- _ => apply negb_true_iff in H
  | H : negb _ = false |- _ => apply negb_false_iff in H
  end.

(** Steps the outcome monad and nothing else (the arithmetic stays folded). *)
Tactic Notation "osimpl" :=
  cbn [negb andb orb mbind outcome_bind mret outcome_ret fmap outcome_fmap
       outcome_sat is_fault fst snd].
Tactic Notation "osimpl" "in" hyp(H) :=
  cbn [negb andb orb mbind outcome_bind mret outcome_ret fmap outcome_fmap
       outcome_sat is_fault fst snd] in H.

(** ** Outcomes *)

Lemma outcome_sat_bind {E A B} (P : A → Prop) (Q : B → Prop) (m : outcome E A) k :
  outcome_sat P m → (∀ a, P a → outcome_sat Q (k a)) → outcome_sat Q (m ≫= k).
Proof. destruct m; simpl; auto. Qed.

Lemma from_ok_eq {E A} (d : A) (m : outcome E A) : is_ok m = true → m = Ok (from_ok d m).
Proof. by destruct m. Qed.

Lemma outcome_sat_weaken {E A} (P Q : A → Prop) (m : outcome E A) :
  outcome_sat P m → (∀ a, P a → Q a) → outcome_sat Q m.
Proof. destruct m; simpl; auto. Qed.

Lemma outcome_bind_Ok {E A B} (m : outcome E A) (k : A → outcome E B) b :
  m ≫= k = Ok b → ∃ a, m = Ok a ∧ k a = Ok b.
Proof. destruct m; naive_solver. Qed.

Lemma outcome_sat_no_fault {E A} (P : A → Prop) (m : outcome E A) :
  outcome_sat P m → is_fault m = false.
Proof. by destruct m. Qed.

(** ** Lemmas on bits *)

Lemma wrap_in_width w z : 0 <= w → in_width w (wrap w z).
Proof. intros Hw. unfold in_width, wrap. apply Z.mod_pos_bound. lia. Qed.
Lemma wrap_small w z : 0 <= z < 2 ^ w → wrap w z = z.
Proof. apply Z.mod_small. Qed.

Lemma wrap_wrap w z : 0 <= w → wrap w (wrap w z) = wrap w z.
Proof. intros Hw. unfold wrap. apply Z.mod_mod. lia. Qed.

Lemma wrap_add_l w a b : wrap w (wrap w a + b) = wrap w (a + b).
Proof.
  unfold wrap. destruct (decide (2 ^ w = 0)) as [E|].
  - by rewrite E, !Zmod_0_r.
  - by apply Z.add_mod_idemp_l.
Qed.

Lemma land_low_bound x n : 0 <= n → 0 <= Z.land x (2 ^ n - 1) <= 2 ^ n - 1.
Proof.
  intros Hn. rewrite Z.sub_1_r, <-Z.ones_equiv, Z.land_ones by done.
  pose proof (Z.mod_pos_bound x (2 ^ n) (Z.pow_pos_nonneg 2 n ltac:(lia) Hn)).
  rewrite Z.ones_equiv. lia.
Qed.

(** ** Lemmas on big-endian arrays *)

Lemma pow256_pos n : 0 < 256 ^ Z.of_nat n.
Proof. apply Z.pow_pos_nonneg; lia. Qed.

Lemma pow256_S n : 256 ^ Z.of_nat (S n) = 256 * 256 ^ Z.of_nat n.
Proof. rewrite Nat2Z.inj_succ, Z.pow_succ_r by lia. done. Qed.

Lemma length_to_be_bytes n z : length (to_be_bytes n z) = n.
Proof. induction n; simpl; auto. Qed.

Lemma to_be_bytes_ok n z : bytes_ok n (to_be_bytes n z).
Proof.
  split; [apply length_to_be_bytes|].
  induction n; simpl; constructor; auto.
  unfold byte_ok. apply Z.mod_pos_bound. lia.
Qed.

Lemma fold_be_acc l : ∀ acc,
  fold_left (λ acc b, acc * 256 + b) l acc =
  acc * 256 ^ Z.of_nat (length l) + from_be_bytes l.
Proof.
  unfold from_be_bytes. induction l as [|b l IH]; intros acc; [simpl; lia|].
  cbn [fold_left length]. rewrite IH, (IH (0 * 256 + b)), pow256_S. lia.
Qed.

Lemma from_be_bytes_nil : from_be_bytes [] = 0.
Proof. done. Qed.

Lemma from_be_bytes_cons b l :
  from_be_bytes (b :: l) = b * 256 ^ Z.of_nat (length l) + from_be_bytes l.
Proof. unfold from_be_bytes at 1. cbn [fold_left]. rewrite fold_be_acc. lia. Qed.

Lemma from_be_bytes_app l1 l2 :
  from_be_bytes (l1 ++ l2) =
  from_be_bytes l1 * 256 ^ Z.of_nat (length l2) + from_be_bytes l2.
Proof.
  unfold from_be_bytes at 1. rewrite fold_left_app. apply fold_be_acc.
Qed.

Lemma from_be_bytes_bound l :
  Forall byte_ok l → 0 <= from_be_bytes l < 256 ^ Z.of_nat (length l).
Proof.
  induction 1 as [|b l Hb _ IH]; [done|].
  rewrite from_be_bytes_cons. cbn [length]. rewrite pow256_S.
  unfold byte_ok in Hb. nia.
Qed.

Lemma from_to_be_bytes n z : from_be_bytes (to_be_bytes n z) = z mod 256 ^ Z.of_nat n.
Proof.
  induction n as [|n IH]; [by rewrite Z.mod_1_r|].
  cbn [to_be_bytes]. rewrite from_be_bytes_cons, length_to_be_bytes, IH, pow256_S.
  pose proof (pow256_pos n). rewrite (Z.mul_comm 256), Z.rem_mul_r by lia. lia.
Qed.

Lemma from_to_be_bytes_id n z :
  0 <= z < 256 ^ Z.of_nat n → from_be_bytes (to_be_bytes n z) = z.
Proof. intros. rewrite from_to_be_bytes. by apply Z.mod_small. Qed.

Lemma to_be_bytes_mod_high n z k :
  0 <= k → to_be_bytes n (k * 256 ^ Z.of_nat n + z) = to_be_bytes n z.
Proof.
  revert k. induction n as [|n IH]; intros k Hk; [done|].
  cbn [to_be_bytes]. rewrite pow256_S. pose proof (pow256_pos n).
  replace (k * (256 * 256 ^ Z.of_nat n) + z)
    with ((k * 256) * 256 ^ Z.of_nat n + z) by lia.
  rewrite IH by lia. f_equal. rewrite Z.div_add_l by lia.
  rewrite Z.add_comm, Z.mul_comm, (Z.mul_comm 256), Z.mod_add by lia. done.
Qed.

Lemma to_from_be_bytes l :
  Forall byte_ok l → to_be_bytes (length l) (from_be_bytes l) = l.
Proof.
  induction 1 as [|b l Hb Hl IH]; [done|].
  cbn [length to_be_bytes]. rewrite from_be_bytes_cons.
  pose proof (from_be_bytes_bound l Hl). unfold byte_ok in Hb.
  rewrite to_be_bytes_mod_high, IH by lia. f_equal.
  rewrite Z.div_add_l, Z.div_small, Z.add_0_r by lia.
  apply Z.mod_small. lia.
Qed.

Lemma from_be_bytes_inj l1 l2 :
  Forall byte_ok l1 → Forall byte_ok l2 → length l1 = length l2 →
  from_be_bytes l1 = from_be_bytes l2 → l1 = l2.
Proof.
  intros H1 H2 Hlen Heq.
  rewrite <-(to_from_be_bytes l1), <-(to_from_be_bytes l2), Hlen, Heq by done. done.
Qed.

Lemma from_to_le_bytes_id n z :
  0 <= z < 256 ^ Z.of_nat n → from_le_bytes (to_le_bytes n z) = z.
Proof.
  intros. unfold from_le_bytes, to_le_bytes. rewrite reverse_involutive.
  by apply from_to_be_bytes_id.
Qed.

Lemma length_to_le_bytes n z : length (to_le_bytes n z) = n.
Proof. unfold to_le_bytes. by rewrite length_reverse, length_to_be_bytes. Qed.

Lemma to_le_bytes_ok n z : bytes_ok n (to_le_bytes n z).
Proof.
  split; [apply length_to_le_bytes|].
  apply Forall_reverse, to_be_bytes_ok.
Qed.

(** Swapping what a little-endian load read gives the network-order value. *)
Lemma from_be_le_load l :
  Forall byte_ok l → from_be (length l) (from_le_bytes l) = from_be_bytes l.
Proof.
  intros Hl. unfold from_be, to_le_bytes, from_le_bytes.
  rewrite <-(length_reverse l), to_from_be_bytes by by apply Forall_reverse.
  by rewrite reverse_involutive.
Qed.

#[export] Hint Resolve length_to_be_bytes length_to_le_bytes to_be_bytes_ok
  to_le_bytes_ok : firewall.

(** ** Lemmas on slices *)

Lemma len_nonneg {A} (l : list A) : 0 <= len l.
Proof. unfold len. lia. Qed.

Lemma length_slice {A} (l : list A) off n :
  0 <= off → 0 <= n → off + n <= Z.of_nat (length l) →
  length (slice l off n) = Z.to_nat n.
Proof. intros. unfold slice. rewrite length_take, length_drop. lia. Qed.

Lemma slice_ok l off n :
  Forall byte_ok l → 0 <= off → 0 <= n → off + n <= Z.of_nat (length l) →
  bytes_ok (Z.to_nat n) (slice l off n).
Proof.
  intros. split; [by apply length_slice|]. unfold slice.
  by apply Forall_take, Forall_drop.
Qed.

Lemma read_at_ok {E A} (l : list A) off n :
  0 <= off → 0 <= n → off + n <= Z.of_nat (length l) →
  read_at (E := E) l off n = Ok (slice l off n).
Proof.
  intros. unfold read_at.
  rewrite (proj2 (Z.leb_le 0 off)), (proj2 (Z.leb_le 0 n)) by done.
  by rewrite (proj2 (Z.leb_le _ _)).
Qed.

Lemma read_at_inv {E A} (l r : list A) off n :
  read_at (E := E) l off n = Ok r →
  0 <= off ∧ 0 <= n ∧ off + n <= Z.of_nat (length l) ∧ r = slice l off n.
Proof.
  unfold read_at. destruct (_ && _) eqn:Hb; [|done]. bool_Z. by intros [= <-].
Qed.

Lemma idx_ok {E A} (l : list A) i :
  0 <= i < Z.of_nat (length l) → ∃ a, idx (E := E) l i = Ok a ∧ l !! Z.to_nat i = Some a.
Proof.
  intros. unfold idx. destruct (Z.ltb_spec i 0); [lia|].
  destruct (lookup_lt_is_Some_2 l (Z.to_nat i)) as [a Ha]; [lia|].
  exists a. by rewrite Ha.
Qed.

Lemma idx_app_mid {E A} (l1 l2 : list A) x i :
  i = Z.of_nat (length l1) → idx (E := E) (l1 ++ x :: l2) i = Ok x.
Proof.
  intros ->. unfold idx. destruct (Z.ltb_spec (Z.of_nat (length l1)) 0); [lia|].
  by rewrite Nat2Z.id, list_lookup_middle.
Qed.

Lemma slice_app_skip {A} (l1 l2 : list A) off n :
  Z.of_nat (length l1) <= off →
  slice (l1 ++ l2) off n = slice l2 (off - Z.of_nat (length l1)) n.
Proof.
  intros. unfold slice. f_equal. rewrite drop_app_ge by lia. f_equal. lia.
Qed.

Lemma slice_app_head {A} (l1 l2 : list A) n :
  Z.of_nat (length l1) = n → slice (l1 ++ l2) 0 n = l1.
Proof. intros <-. unfold slice. rewrite drop_0, Nat2Z.id. apply take_app_length. Qed.

Lemma slice_app_mid {A} (l1 l2 l3 : list A) off n :
  Z.of_nat (length l1) = off → Z.of_nat (length l2) = n →
  slice (l1 ++ l2 ++ l3) off n = l2.
Proof.
  intros <- <-. rewrite slice_app_skip, Z.sub_diag by lia. by apply slice_app_head.
Qed.

Lemma slice_app_tail {A} (l1 l2 : list A) off n :
  Z.of_nat (length l1) = off → Z.of_nat (length l2) = n → slice (l1 ++ l2) off n = l2.
Proof. intros. rewrite <-(app_nil_r l2) at 1. by apply slice_app_mid. Qed.

Lemma read_at_app_mid {E A} (l1 l2 l3 : list A) off n :
  Z.of_nat (length l1) = off → Z.of_nat (length l2) = n →
  read_at (E := E) (l1 ++ l2 ++ l3) off n = Ok l2.
Proof.
  intros. rewrite read_at_ok by (rewrite ?length_app; lia). by rewrite slice_app_mid.
Qed.

#[global] Arguments to_be_bytes : simpl never.
#[global] Arguments to_le_bytes : simpl never.
#[global] Arguments from_be_bytes : simpl never.
#[global] Arguments from_le_bytes : simpl never.
#[global] Arguments wrap : simpl never.

Lemma from_be_width n z : in_width (8 * Z.of_nat n) (from_be n z).
Proof.
  pose proof (to_le_bytes_ok n z) as [Hl Hb]. unfold from_be, in_width.
  pose proof (from_be_bytes_bound _ Hb) as Hbd. rewrite Hl in Hbd.
  by rewrite Z.pow_mul_r by lia.
Qed.
