(* ===== verification/Net.v ===== *)
(** * Internet addresses and CIDR arithmetic

    The parts of [std::net] and of the integer operations on addresses that the
    firewall uses: [IpAddr], network masks computed by shifting, and the
    reference meaning of "the first [p] bits agree" to which every mask
    computation of the source is compared. *)
From stdpp Require Import base numbers list gmap fin_maps strings sorting.
From Stdlib Require Import ZArith Lia.
From S2P Require Import Prelude.

Local Open Scope Z_scope.

(** [std::net::IpAddr]: the octets in network order, 4 or 16 of them. *)
Inductive IpAddr : Type :=
| V4 (octets : list Z)
| V6 (octets : list Z).

#[global] Instance IpAddr_eq_dec : EqDecision IpAddr.
Proof. solve_decision. Defined.
#[global] Instance IpAddr_countable : Countable IpAddr.
Proof.
  refine (inj_countable' (λ a, match a with V4 o => inl o | V6 o => inr o end)
            (λ s, match s with inl o => V4 o | inr o => V6 o end) _).
  by intros [].
Defined.

Definition ip_ok (a : IpAddr) : Prop :=
  match a with V4 o => bytes_ok 4 o | V6 o => bytes_ok 16 o end.
#[global] Instance ip_ok_dec a : Decision (ip_ok a).
Proof. destruct a; simpl; apply _. Defined.

(** Ordering of [IpAddr]: every V4 before every V6, then lexicographic on the
    octets, which have the same length. *)
Fixpoint octets_leb (a b : list Z) : bool :=
  match a, b with
  | [], _ => true
  | _ :: _, [] => false
  | x :: a', y :: b' => (x <? y) || ((x =? y) && octets_leb a' b')
  end.

Definition ip_leb (a b : IpAddr) : bool :=
  match a, b with
  | V4 x, V4 y => octets_leb x y
  | V4 _, V6 _ => true
  | V6 _, V4 _ => false
  | V6 x, V6 y => octets_leb x y
  end.

(** ** Prefixes *)

(** Reference meaning of a CIDR test on [w]-bit addresses: the [p] high bits
    of [a] and [b] are the same. *)
Definition prefix_eqb (w p a b : Z) : bool := Z.shiftr a (w - p) =? Z.shiftr b (w - p).

(** The [w]-bit mask with its [p] high bits set. *)
Definition mask (w p : Z) : Z := 2 ^ w - 2 ^ (w - p).

(** [uN::MAX.checked_shl(w - p).unwrap_or(0)]. *)
Definition shl_mask (w p : Z) : Z :=
  match checked_shl w (2 ^ w - 1) (w - p) with Some m => m | None => 0 end.

(** CIDR test on octet arrays. *)
Definition octets_match (p : Z) (net ip : list Z) : bool :=
  prefix_eqb (8 * Z.of_nat (length net)) p (from_be_bytes net) (from_be_bytes ip).

(** ** Lemmas *)

Lemma octets_leb_refl a : octets_leb a a = true.
Proof. induction a as [|x a IH]; simpl; [done|]. rewrite Z.eqb_refl, IH. by destruct (x <? x). Qed.

Lemma octets_leb_total a b : octets_leb a b = true ∨ octets_leb b a = true.
Proof.
  revert b. induction a as [|x a IH]; intros [|y b]; simpl; auto.
  destruct (IH b) as [-> | ->];
    destruct (Z.ltb_spec x y), (Z.ltb_spec y x), (Z.eqb_spec x y), (Z.eqb_spec y x);
    simpl; auto; lia.
Qed.

Lemma octets_leb_trans a b c :
  octets_leb a b = true → octets_leb b c = true → octets_leb a c = true.
Proof.
  revert b c. induction a as [|x a IH]; intros [|y b] [|z c]; simpl; try done.
  intros H1 H2. apply orb_true_iff in H1, H2. apply orb_true_iff.
  destruct H1 as [H1|H1], H2 as [H2|H2]; bool_Z.
  - left. apply Z.ltb_lt. lia.
  - left. apply Z.ltb_lt. lia.
  - left. apply Z.ltb_lt. lia.
  - right. apply andb_true_iff. split; [apply Z.eqb_eq; lia|eauto].
Qed.

Lemma octets_leb_antisym a b :
  octets_leb a b = true → octets_leb b a = true → a = b.
Proof.
  revert b. induction a as [|x a IH]; intros [|y b]; simpl; try done.
  intros H1 H2. apply orb_true_iff in H1, H2.
  destruct H1 as [H1|H1], H2 as [H2|H2]; bool_Z; try lia.
  f_equal; [lia|eauto].
Qed.

Lemma ip_leb_refl a : ip_leb a a = true.
Proof. destruct a; apply octets_leb_refl. Qed.
Lemma ip_leb_total a b : ip_leb a b = true ∨ ip_leb b a = true.
Proof. destruct a, b; simpl; auto using octets_leb_total. Qed.
Lemma ip_leb_trans a b c : ip_leb a b = true → ip_leb b c = true → ip_leb a c = true.
Proof. destruct a, b, c; simpl; auto; try done; apply octets_leb_trans. Qed.
Lemma ip_leb_antisym a b : ip_leb a b = true → ip_leb b a = true → a = b.
Proof. destruct a, b; simpl; intros; f_equal; try done; by apply octets_leb_antisym. Qed.

Lemma pow2_split w p : 0 <= p <= w → 2 ^ w = 2 ^ p * 2 ^ (w - p).
Proof. intros. rewrite <-Z.pow_add_r by lia. f_equal. lia. Qed.

Lemma mask_ones w p : 0 <= p <= w → mask w p = Z.shiftl (Z.ones p) (w - p).
Proof.
  intros. unfold mask. rewrite Z.shiftl_mul_pow2 by lia.
  rewrite Z.ones_equiv, (pow2_split w p) by lia. nia.
Qed.

Lemma mask_range w p : 0 <= p <= w → 0 <= mask w p < 2 ^ w.
Proof.
  intros. unfold mask.
  assert (2 ^ (w - p) <= 2 ^ w) by (apply Z.pow_le_mono_r; lia).
  assert (0 < 2 ^ (w - p)) by (apply Z.pow_pos_nonneg; lia). lia.
Qed.

(** Masking clears the low [w - p] bits and nothing else. *)
Lemma land_mask w p x :
  0 <= p <= w → in_width w x →
  Z.land x (mask w p) = Z.shiftl (Z.shiftr x (w - p)) (w - p).
Proof.
  intros Hp [Hx Hx']. rewrite mask_ones by done.
  apply Z.bits_inj'. intros i Hi.
  rewrite Z.land_spec, !Z.shiftl_spec by lia.
  destruct (Z.ltb_spec i (w - p)).
  { rewrite !(Z.testbit_neg_r _ (i - (w - p))) by lia. by rewrite andb_false_r. }
  rewrite Z.shiftr_spec by lia. replace (i - (w - p) + (w - p)) with i by lia.
  destruct (Z.ltb_spec i w).
  - rewrite Z.ones_spec_low by lia. apply andb_true_r.
  - rewrite Z.ones_spec_high by lia. rewrite andb_false_r. symmetry.
    rewrite <-(Z.mod_small x (2 ^ w)) by lia. apply Z.mod_pow2_bits_high. lia.
Qed.

Lemma shl_mask_eq w p : 0 < w → 0 <= p <= w → shl_mask w p = mask w p.
Proof.
  intros Hw Hp. unfold shl_mask, checked_shl. destruct (Z.ltb_spec (w - p) w).
  - unfold wrap. rewrite Z.shiftl_mul_pow2 by lia. unfold mask.
    rewrite (pow2_split w p) by lia.
    set (m := 2 ^ (w - p)). assert (0 < m) by (apply Z.pow_pos_nonneg; lia).
    assert (0 < 2 ^ p) by (apply Z.pow_pos_nonneg; lia).
    replace ((2 ^ p * m - 1) * m) with ((2 ^ p - 1) * m + (m - 1) * (2 ^ p * m)) by nia.
    rewrite Z.mod_add by nia. rewrite Z.mod_small; nia.
  - assert (p = 0) as -> by lia. unfold mask. rewrite Z.sub_0_r. lia.
Qed.

(** Two addresses have the same masked value exactly when their first [p] bits
    agree. *)
Lemma land_mask_eq_iff w p a b :
  0 <= p <= w → in_width w a → in_width w b →
  (Z.land a (mask w p) =? Z.land b (mask w p)) = prefix_eqb w p a b.
Proof.
  intros Hp Ha Hb. rewrite !land_mask by done. unfold prefix_eqb.
  rewrite !Z.shiftl_mul_pow2 by lia.
  assert (0 < 2 ^ (w - p)) by (apply Z.pow_pos_nonneg; lia).
  apply eq_true_iff_eq. rewrite !Z.eqb_eq. split; [|by intros ->].
  intros. nia.
Qed.

Lemma land_mask_in_width w p x :
  0 <= p <= w → in_width w x → in_width w (Z.land x (mask w p)).
Proof.
  intros Hp Hx. pose proof (mask_range w p Hp).
  split; [apply Z.land_nonneg; unfold in_width in *; lia|].
  rewrite land_mask by done. rewrite Z.shiftl_mul_pow2, Z.shiftr_div_pow2 by lia.
  assert (0 < 2 ^ (w - p)) by (apply Z.pow_pos_nonneg; lia).
  pose proof (Z.mul_div_le x (2 ^ (w - p))). unfold in_width in *. lia.
Qed.

Lemma land_mask_idem w p x :
  Z.land (Z.land x (mask w p)) (mask w p) = Z.land x (mask w p).
Proof. by rewrite <-Z.land_assoc, Z.land_diag. Qed.

Lemma prefix_eqb_refl w p a : prefix_eqb w p a a = true.
Proof. apply Z.eqb_refl. Qed.
Lemma prefix_eqb_sym w p a b : prefix_eqb w p a b = prefix_eqb w p b a.
Proof. apply Z.eqb_sym. Qed.
Lemma prefix_eqb_trans w p a b c :
  prefix_eqb w p a b = true → prefix_eqb w p b c = true → prefix_eqb w p a c = true.
Proof. unfold prefix_eqb. rewrite !Z.eqb_eq. congruence. Qed.

Lemma prefix_eqb_masked w p a b :
  0 <= p <= w → in_width w a → in_width w b →
  prefix_eqb w p (Z.land a (mask w p)) b = prefix_eqb w p a b.
Proof.
  intros. rewrite <-!land_mask_eq_iff by auto using land_mask_in_width.
  by rewrite land_mask_idem.
Qed.

(** A shorter prefix of equal prefixes is equal. *)
Lemma prefix_eqb_le w p q a b :
  q <= p <= w → prefix_eqb w p a b = true → prefix_eqb w q a b = true.
Proof.
  unfold prefix_eqb. rewrite !Z.eqb_eq. intros ? H.
  replace (w - q) with ((w - p) + (p - q)) by lia.
  rewrite <-!Z.shiftr_shiftr by lia. by rewrite H.
Qed.

Lemma prefix_eqb_full w a b : prefix_eqb w w a b = (a =? b).
Proof. unfold prefix_eqb. by rewrite Z.sub_diag, !Z.shiftr_0_r. Qed.

Lemma prefix_eqb_zero w a b : in_width w a → in_width w b → prefix_eqb w 0 a b = true.
Proof.
  intros [] []. unfold prefix_eqb. rewrite Z.sub_0_r.
  destruct (decide (0 <= w)).
  - rewrite !Z.shiftr_div_pow2, !Z.div_small by lia. done.
  - rewrite Z.pow_neg_r in * by lia. lia.
Qed.

Lemma octets_in_width n l :
  bytes_ok n l → in_width (8 * Z.of_nat n) (from_be_bytes l).
Proof.
  intros [<- Hl]. unfold in_width. rewrite Z.pow_mul_r by lia.
  by apply from_be_bytes_bound.
Qed.

(** ** CIDR tests octet by octet *)

Lemma from_be_bytes_cons_pow2 x l :
  from_be_bytes (x :: l) = x * 2 ^ (8 * len l) + from_be_bytes l.
Proof. rewrite from_be_bytes_cons. unfold len. by rewrite Z.pow_mul_r by lia. Qed.

Lemma from_be_bytes_lt l : Forall byte_ok l → 0 <= from_be_bytes l < 2 ^ (8 * len l).
Proof. intros H. unfold len. rewrite Z.pow_mul_r by lia. by apply from_be_bytes_bound. Qed.

(** A prefix that covers the first octet compares it and goes on. *)
Lemma octets_match_cons_ge p x y net ip :
  8 <= p <= 8 + 8 * len net → length net = length ip →
  Forall byte_ok net → Forall byte_ok ip →
  octets_match p (x :: net) (y :: ip) = (x =? y) && octets_match (p - 8) net ip.
Proof.
  intros Hp Hlen Hn Hi. unfold octets_match, prefix_eqb.
  pose proof (from_be_bytes_lt net Hn) as Bn. pose proof (from_be_bytes_lt ip Hi) as Bi.
  rewrite !from_be_bytes_cons_pow2. cbn [length]. rewrite Nat2Z.inj_succ.
  assert (len net = len ip) as Hll by (unfold len; by rewrite Hlen). rewrite <-Hll in *.
  fold (len net). set (n := len net) in *. set (k := 8 * n - (p - 8)).
  replace (8 * Z.succ n - p) with k by lia.
  assert (Hk : 0 <= k <= 8 * n) by lia.
  assert (0 < 2 ^ k) by (apply Z.pow_pos_nonneg; lia).
  assert (Hsp : 2 ^ (8 * n) = 2 ^ (8 * n - k) * 2 ^ k).
  { rewrite <-Z.pow_add_r by lia. f_equal. lia. }
  rewrite !Z.shiftr_div_pow2 by lia. rewrite Hsp, !Z.mul_assoc, !Z.div_add_l by lia.
  set (u := from_be_bytes net / 2 ^ k). set (v := from_be_bytes ip / 2 ^ k).
  assert (0 <= u < 2 ^ (8 * n - k)).
  { split; [apply Z.div_pos; lia|apply Z.div_lt_upper_bound; lia]. }
  assert (0 <= v < 2 ^ (8 * n - k)).
  { split; [apply Z.div_pos; lia|apply Z.div_lt_upper_bound; lia]. }
  apply eq_true_iff_eq. rewrite andb_true_iff, !Z.eqb_eq. split; [|by intros [-> ->]].
  intros E. assert (x = y) as -> by nia. split; [done|nia].
Qed.

(** A prefix that ends in the first octet compares its high bits. *)
Lemma octets_match_cons_le p x y net ip :
  0 <= p <= 8 → length net = length ip → Forall byte_ok net → Forall byte_ok ip →
  octets_match p (x :: net) (y :: ip) = (Z.shiftr x (8 - p) =? Z.shiftr y (8 - p)).
Proof.
  intros Hp Hlen Hn Hi. unfold octets_match, prefix_eqb.
  pose proof (from_be_bytes_lt net Hn) as Bn. pose proof (from_be_bytes_lt ip Hi) as Bi.
  rewrite !from_be_bytes_cons_pow2. cbn [length]. rewrite Nat2Z.inj_succ.
  assert (len net = len ip) as Hll by (unfold len; by rewrite Hlen). rewrite <-Hll in *.
  fold (len net). set (n := len net) in *.
  assert (0 <= n) by (unfold n, len; lia).
  replace (8 * Z.succ n - p) with (8 * n + (8 - p)) by lia.
  rewrite <-!Z.shiftr_shiftr by lia. rewrite !(Z.shiftr_div_pow2 _ (8 * n)) by lia.
  rewrite !Z.div_add_l, !Z.div_small, !Z.add_0_r by lia. done.
Qed.

(** Facts about one octet, by trying all 256. *)
Definition all_bytes (f : Z → bool) : bool := forallb f (Z.of_nat <$> seq 0 256).

Lemma all_bytes_spec f c : all_bytes f = true → byte_ok c → f c = true.
Proof.
  unfold all_bytes, byte_ok. intros Hall Hc. rewrite forallb_forall in Hall. apply Hall.
  apply list_elem_of_In, list_elem_of_fmap. exists (Z.to_nat c).
  split; [lia|]. apply elem_of_seq. lia.
Qed.

Lemma all_bytes_eqb f g c :
  all_bytes (λ c, Bool.eqb (f c) (g c)) = true → byte_ok c → f c = g c.
Proof. intros Hall Hc. by apply eqb_prop, (all_bytes_spec _ c Hall). Qed.

#[export] Hint Resolve octets_in_width land_mask_in_width prefix_eqb_refl : firewall.
