(* ===== verification/Common.v ===== *)
(** * [firewall-common]: the data shared by kernel and user space

    Constants, the rule value stored in the eBPF maps, the LPM keys, the 64-byte
    telemetry event with its [repr(C)] memory image, and the statistics record
    ([firewall-common/src/lib.rs]). *)
From stdpp Require Import base numbers list gmap fin_maps strings sorting.
From Stdlib Require Import ZArith Lia.
From S2P Require Import Prelude Net.

Local Open Scope Z_scope.

Definition ACTION_ACCEPT : Z := 0.
Definition ACTION_PASS : Z := ACTION_ACCEPT.
Definition ACTION_DROP : Z := 1.

Definition MATCH_NONE : Z := 0.
Definition MATCH_EXACT_HASH : Z := 1.
Definition MATCH_LPM_TRIE : Z := 2.

Definition PROTO_ICMP : Z := 1.
Definition PROTO_TCP : Z := 6.
Definition PROTO_UDP : Z := 17.
Definition PROTO_ICMPV6 : Z := 58.

Definition MAX_IPV4_HASH_ENTRIES : Z := 4194304.
Definition MAX_IPV6_HASH_ENTRIES : Z := 262144.
Definition MAX_IPV4_LPM_ENTRIES : Z := 524288.
Definition MAX_IPV6_LPM_ENTRIES : Z := 65536.
Definition RING_BUF_SIZE_BYTES : Z := 512 * 1024.

(** ** [RuleValue] *)
Record RuleValue : Type := mkRuleValue {
  rv_rule_id : Z;
  rv_action : Z;
  rv_flags : Z;
  rv_pad : list Z;
}.
#[global] Instance RuleValue_eq_dec : EqDecision RuleValue.
Proof. solve_decision. Defined.

Definition RuleValue_default : RuleValue := mkRuleValue 0 0 0 [0; 0].
Definition rule_drop (rule_id : Z) : RuleValue := mkRuleValue rule_id ACTION_DROP 0 [0; 0].
Definition rule_accept (rule_id : Z) : RuleValue := mkRuleValue rule_id ACTION_ACCEPT 0 [0; 0].
Definition rule_pass (rule_id : Z) : RuleValue := rule_accept rule_id.

(** ** LPM keys *)
Record LpmKeyV4 : Type := mkLpmKeyV4 { k4_prefixlen : Z; k4_data : list Z }.
Record LpmKeyV6 : Type := mkLpmKeyV6 { k6_prefixlen : Z; k6_data : list Z }.
Definition LpmKeyV4_new (prefixlen : Z) (data : list Z) : LpmKeyV4 := mkLpmKeyV4 prefixlen data.
Definition LpmKeyV4_from_u32 (prefixlen addr_be : Z) : LpmKeyV4 :=
  mkLpmKeyV4 prefixlen (to_be_bytes 4 addr_be).
Definition LpmKeyV6_new (prefixlen : Z) (data : list Z) : LpmKeyV6 := mkLpmKeyV6 prefixlen data.

(** ** [PacketLogEvent] *)
Record PacketLogEvent : Type := mkEvent {
  ev_timestamp_ns : Z;
  ev_src_ip : list Z;
  ev_dst_ip : list Z;
  ev_rule_id : Z;
  ev_packet_len : Z;
  ev_ifindex : Z;
  ev_src_port : Z;
  ev_dst_port : Z;
  ev_protocol : Z;
  ev_ip_version : Z;
  ev_action : Z;
  ev_match_type : Z;
  ev_pad : list Z;
}.
#[global] Instance PacketLogEvent_eq_dec : EqDecision PacketLogEvent.
Proof. solve_decision. Defined.

Definition PacketLogEvent_default : PacketLogEvent :=
  mkEvent 0 (replicate 16 0) (replicate 16 0) 0 0 0 0 0 0 4 ACTION_DROP MATCH_NONE
    (replicate 4 0).

(** Every field holds a value of its Rust type. *)
Definition event_ok (e : PacketLogEvent) : Prop :=
  in_width 64 (ev_timestamp_ns e) ∧ bytes_ok 16 (ev_src_ip e) ∧ bytes_ok 16 (ev_dst_ip e) ∧
  in_width 32 (ev_rule_id e) ∧ in_width 32 (ev_packet_len e) ∧ in_width 32 (ev_ifindex e) ∧
  in_width 16 (ev_src_port e) ∧ in_width 16 (ev_dst_port e) ∧
  in_width 8 (ev_protocol e) ∧ in_width 8 (ev_ip_version e) ∧
  in_width 8 (ev_action e) ∧ in_width 8 (ev_match_type e) ∧ bytes_ok 4 (ev_pad e).

(** [size_of::<PacketLogEvent>()], the expected length of a ring-buffer item. *)
Definition EVENT_SIZE : Z := 64.

(** The [repr(C)] image of an event in memory: the fields in declaration order
    at offsets 0, 8, 24, 40, 44, 48, 52, 54, 56, 57, 58, 59 and 60. *)
Definition event_to_bytes (e : PacketLogEvent) : list Z :=
  to_le_bytes 8 (ev_timestamp_ns e) ++ ev_src_ip e ++ ev_dst_ip e ++
  to_le_bytes 4 (ev_rule_id e) ++ to_le_bytes 4 (ev_packet_len e) ++
  to_le_bytes 4 (ev_ifindex e) ++ to_le_bytes 2 (ev_src_port e) ++
  to_le_bytes 2 (ev_dst_port e) ++
  [ev_protocol e; ev_ip_version e; ev_action e; ev_match_type e] ++ ev_pad e.

(** Reinterpreting 64 bytes as an event, as the consumer's pointer cast does. *)
Definition event_of_bytes (b : list Z) : PacketLogEvent :=
  mkEvent (from_le_bytes (slice b 0 8)) (slice b 8 16) (slice b 24 16)
    (from_le_bytes (slice b 40 4)) (from_le_bytes (slice b 44 4))
    (from_le_bytes (slice b 48 4)) (from_le_bytes (slice b 52 2))
    (from_le_bytes (slice b 54 2)) (from_le_bytes (slice b 56 1))
    (from_le_bytes (slice b 57 1)) (from_le_bytes (slice b 58 1))
    (from_le_bytes (slice b 59 1)) (slice b 60 4).

(** ** Conversions and display helpers *)
Definition src_addr (e : PacketLogEvent) : IpAddr :=
  if ev_ip_version e =? 4 then V4 (take 4 (ev_src_ip e)) else V6 (ev_src_ip e).
Definition dst_addr (e : PacketLogEvent) : IpAddr :=
  if ev_ip_version e =? 4 then V4 (take 4 (ev_dst_ip e)) else V6 (ev_dst_ip e).

Definition protocol_name (e : PacketLogEvent) : string :=
  let p := ev_protocol e in
  if p =? PROTO_TCP then "TCP" else if p =? PROTO_UDP then "UDP"
  else if p =? PROTO_ICMP then "ICMP" else if p =? PROTO_ICMPV6 then "ICMPv6"
  else "UNKNOWN".
Definition action_name (e : PacketLogEvent) : string :=
  if ev_action e =? ACTION_DROP then "DROP"
  else if ev_action e =? ACTION_ACCEPT then "ACCEPT" else "OTHER".
Definition match_type_name (e : PacketLogEvent) : string :=
  if ev_match_type e =? MATCH_EXACT_HASH then "Exact HashMap"
  else if ev_match_type e =? MATCH_LPM_TRIE then "LPM Trie CIDR" else "None".

(** ** [FirewallStats] *)
Record FirewallStats : Type := mkStats {
  rx_packets : Z;
  rx_bytes : Z;
  dropped_packets : Z;
  dropped_bytes : Z;
  accepted_packets : Z;
  accepted_bytes : Z;
  ringbuf_events : Z;
  ringbuf_drops : Z;
}.
#[global] Instance FirewallStats_eq_dec : EqDecision FirewallStats.
Proof. solve_decision. Defined.

Definition FirewallStats_default : FirewallStats := mkStats 0 0 0 0 0 0 0 0.

(** ** The event image *)

Lemma from_le_bytes_single b : from_le_bytes [b] = b.
Proof. unfold from_le_bytes, from_be_bytes. simpl. lia. Qed.

Lemma length_event_to_bytes e :
  event_ok e → Z.of_nat (length (event_to_bytes e)) = EVENT_SIZE.
Proof.
  intros (_ & [Hs _] & [Hd _] & _ & _ & _ & _ & _ & _ & _ & _ & _ & [Hp _]).
  unfold event_to_bytes. rewrite !length_app, !length_to_le_bytes, Hs, Hd. simpl.
  rewrite Hp. done.
Qed.

Lemma event_slices (t s d r p i sp dp a : list Z) b1 b2 b3 b4 :
  length t = 8%nat → length s = 16%nat → length d = 16%nat → length r = 4%nat →
  length p = 4%nat → length i = 4%nat → length sp = 2%nat → length dp = 2%nat →
  length a = 4%nat →
  let b := t ++ s ++ d ++ r ++ p ++ i ++ sp ++ dp ++ [b1; b2; b3; b4] ++ a in
  slice b 0 8 = t ∧ slice b 8 16 = s ∧ slice b 24 16 = d ∧ slice b 40 4 = r ∧
  slice b 44 4 = p ∧ slice b 48 4 = i ∧ slice b 52 2 = sp ∧ slice b 54 2 = dp ∧
  slice b 56 1 = [b1] ∧ slice b 57 1 = [b2] ∧ slice b 58 1 = [b3] ∧
  slice b 59 1 = [b4] ∧ slice b 60 4 = a.
Proof.
  intros. subst b.
  repeat match goal with
  | H : length ?l = _ |- _ =>
      repeat (destruct l as [|? l]; try discriminate H); clear H
  end.
  repeat split.
Qed.

(** The kernel's event and the consumer's view of its 64 bytes agree. *)
Lemma event_bytes_roundtrip e :
  event_ok e →
  Z.of_nat (length (event_to_bytes e)) = EVENT_SIZE ∧
  event_of_bytes (event_to_bytes e) = e.
Proof.
  intros He. split; [by apply length_event_to_bytes|].
  destruct He as (H1 & [H2 _] & [H3 _] & H4 & H5 & H6 & H7 & H8 & H9 & H10 & H11 & H12 & [H13 _]).
  destruct e as [t s d r p i sp dp b1 b2 b3 b4 a]; simpl in *.
  unfold event_of_bytes, event_to_bytes; cbn [ev_timestamp_ns ev_src_ip ev_dst_ip
    ev_rule_id ev_packet_len ev_ifindex ev_src_port ev_dst_port ev_protocol
    ev_ip_version ev_action ev_match_type ev_pad].
  edestruct (event_slices (to_le_bytes 8 t) s d (to_le_bytes 4 r) (to_le_bytes 4 p)
    (to_le_bytes 4 i) (to_le_bytes 2 sp) (to_le_bytes 2 dp) a b1 b2 b3 b4)
    as (-> & -> & -> & -> & -> & -> & -> & -> & -> & -> & -> & -> & ->);
    try (by apply length_to_le_bytes); try done.
  rewrite !from_to_le_bytes_id, !from_le_bytes_single by done. done.
Qed.
