(* ===== verification/BpfMaps.v ===== *)
(** * Interfaces: eBPF maps, the ring buffer, and hash-table iteration order

    The Linux maps (reached through [aya] and [aya_ebpf]) and the iteration
    order of [std::collections::HashMap] are not code of the repository: they
    are type classes with the documented laws the firewall relies on. Each class
    has an executable instance, so that every theorem stated against it applies
    to a concrete map. *)
From stdpp Require Import base numbers list gmap fin_maps strings sorting.
From Stdlib Require Import ZArith Lia.
From S2P Require Import Prelude Net.

Local Open Scope Z_scope.

(** ** Iteration order of hash tables: any permutation of the entries. *)
Class HashOrder : Type := {
  map_iter : ∀ {K V : Type} `{Countable K}, gmap K V → list (K * V);
  set_iter : ∀ {K : Type} `{Countable K}, gset K → list K;
  map_iter_perm : ∀ {K V : Type} `{Countable K} (m : gmap K V),
    map_iter m ≡ₚ map_to_list m;
  set_iter_perm : ∀ {K : Type} `{Countable K} (X : gset K), set_iter X ≡ₚ elements X;
}.

Definition canonical_order : HashOrder := {|
  map_iter _ _ _ _ m := map_to_list m;
  set_iter _ _ _ X := elements X;
  map_iter_perm _ _ _ _ m := reflexivity _;
  set_iter_perm _ _ _ X := reflexivity _;
|}.

(** ** Maps as user space sees them *)

(** [bm_contents] is the abstract contents; the other fields are the operations
    of [aya::maps::HashMap] and [aya::maps::LpmTrie]. [None] is an error
    return, which leaves the map as it was. [bm_key_ok] delimits the keys the
    laws speak of: an LPM trie identifies keys that agree on their prefix, so
    its laws are stated for network addresses only. *)
Class BpfMap (M K V : Type) `{Countable K} : Type := {
  bm_contents : M → gmap K V;
  bm_key_ok : K → Prop;
  bm_insert : M → K → V → option M;
  bm_remove : M → K → option M;
  bm_keys : M → list (option K);
}.

Class BpfMapLaws (M K V : Type) `{BpfMap M K V} : Prop := {
  bm_insert_spec m k v m' :
    bm_key_ok k → bm_insert m k v = Some m' → bm_contents m' = <[k := v]> (bm_contents m);
  bm_remove_spec m k m' :
    bm_key_ok k → bm_remove m k = Some m' → bm_contents m' = delete k (bm_contents m);
  bm_remove_present m k :
    bm_key_ok k → is_Some (bm_contents m !! k) → is_Some (bm_remove m k);
  bm_keys_spec m k : Some k ∈ bm_keys m ↔ k ∈ dom (bm_contents m);
  bm_contents_ok m k : is_Some (bm_contents m !! k) → bm_key_ok k;
}.

(** ** Lookups as the XDP program sees them *)

Class HashGet (M K V : Type) `{BpfMap M K V} : Type := {
  hash_get : M → K → option V;
  hash_get_spec m k : hash_get m k = bm_contents m !! k;
}.

(** The network address of the [p]-bit prefix of an [n]-octet address. *)
Definition network (n : nat) (p : Z) (addr : list Z) : list Z :=
  to_be_bytes n (Z.land (from_be_bytes addr) (mask (8 * Z.of_nat n) p)).

(** A key of a trie over [n]-octet addresses: a network address. *)
Definition lpm_key_ok (n : nat) (k : Z * list Z) : Prop :=
  0 <= k.1 <= 8 * Z.of_nat n ∧ bytes_ok n k.2 ∧ network n k.1 k.2 = k.2.
#[global] Instance lpm_key_ok_dec n k : Decision (lpm_key_ok n k).
Proof. unfold lpm_key_ok. apply _. Defined.

(** Longest-prefix match: tries the prefixes of [addr] from [p] bits down. *)
Fixpoint lpm_search {V} (n p : nat) (m : gmap (Z * list Z) V) (addr : list Z) : option V :=
  match m !! (Z.of_nat p, network n (Z.of_nat p) addr) with
  | Some v => Some v
  | None => match p with O => None | S p' => lpm_search n p' m addr end
  end.
Definition lpm_lookup {V} (n : nat) (m : gmap (Z * list Z) V) (addr : list Z) : option V :=
  lpm_search n (8 * n) m addr.

(** [trie.get(&Key::new(8 * n, addr))] returns the longest matching prefix. *)
Class LpmGet (n : nat) (M V : Type) `{!BpfMap M (Z * list Z) V} : Type := {
  lpm_get : M → Z * list Z → option V;
  lpm_get_spec m addr :
    bytes_ok n addr → lpm_get m (8 * Z.of_nat n, addr) = lpm_lookup n (bm_contents m) addr;
}.

(** ** Ring buffer: a queue of records, [output] fails when it is full. *)
Class RingBuffer (R : Type) : Type := {
  rb_queue : R → list (list Z);
  rb_output : R → list Z → option R;
  rb_next : R → option (list Z * R);
  rb_output_spec r b r' : rb_output r b = Some r' → rb_queue r' = rb_queue r ++ [b];
  rb_next_spec r :
    match rb_next r with
    | Some (b, r') => rb_queue r = b :: rb_queue r'
    | None => rb_queue r = []
    end;
}.

(** ** Executable instances *)

Record CapMap (K V : Type) `{Countable K} : Type := mkCapMap {
  cm_max : nat; cm_map : gmap K V }.
Arguments mkCapMap {K V _ _} _ _.
Arguments cm_max {K V _ _} _.
Arguments cm_map {K V _ _} _.

Section CapMap.
Context {K V : Type} `{Countable K}.
Context (key_ok : K → Prop) `{∀ k, Decision (key_ok k)}.

Definition cap_insert (m : CapMap K V) (k : K) (v : V) : option (CapMap K V) :=
  if decide (key_ok k ∧ (is_Some (cm_map m !! k) ∨ (size (cm_map m) < cm_max m)%nat))
  then Some (mkCapMap (cm_max m) (<[k := v]> (cm_map m))) else None.
Definition cap_remove (m : CapMap K V) (k : K) : option (CapMap K V) :=
  match cm_map m !! k with
  | Some _ => Some (mkCapMap (cm_max m) (delete k (cm_map m)))
  | None => None
  end.
(** Entries whose key the map could not have accepted are not part of it. *)
Definition cap_contents (m : CapMap K V) : gmap K V :=
  filter (λ kv, key_ok kv.1) (cm_map m).
End CapMap.

#[global] Instance hash_bpf_map {K V} `{Countable K} : BpfMap (CapMap K V) K V := {|
  bm_contents m := cm_map m;
  bm_key_ok _ := True;
  bm_insert m k v := cap_insert (λ _, True) m k v;
  bm_remove m k := cap_remove m k;
  bm_keys m := Some ∘ fst <$> map_to_list (cm_map m);
|}.

Lemma elem_of_keys {K V} `{Countable K} (m : gmap K V) k :
  Some k ∈ (Some ∘ fst <$> map_to_list m) ↔ k ∈ dom m.
Proof.
  rewrite list_elem_of_fmap, elem_of_dom. split.
  - intros ([k' v] & [= <-] & Hk). apply elem_of_map_to_list in Hk. simpl. eauto.
  - intros [v Hv]. exists (k, v). split; [done|]. by apply elem_of_map_to_list.
Qed.

#[global] Instance hash_bpf_map_laws {K V} `{Countable K} : BpfMapLaws (CapMap K V) K V.
Proof.
  split; simpl.
  - unfold cap_insert. intros m k v m' _. case_decide; [|done]. by intros [= <-].
  - unfold cap_remove. intros m k m' _. destruct (_ !! _); [|done]. by intros [= <-].
  - unfold cap_remove. intros m k _ [v ->]. eauto.
  - intros m k. apply elem_of_keys.
  - done.
Qed.

#[global] Instance hash_get_cap {K V} `{Countable K} : HashGet (CapMap K V) K V := {|
  hash_get m k := cm_map m !! k; hash_get_spec m k := eq_refl |}.

(** A trie is a map restricted to network-address keys. *)
Record Trie (n : nat) (V : Type) : Type := mkTrie { trie_map : CapMap (Z * list Z) V }.
Arguments mkTrie {n V} _.
Arguments trie_map {n V} _.

#[global] Instance trie_bpf_map {n V} : BpfMap (Trie n V) (Z * list Z) V := {|
  bm_contents m := cap_contents (lpm_key_ok n) (trie_map m);
  bm_key_ok k := lpm_key_ok n k;
  bm_insert m k v := mkTrie <$> cap_insert (lpm_key_ok n) (trie_map m) k v;
  bm_remove m k := mkTrie <$> cap_remove (trie_map m) k;
  bm_keys m := Some ∘ fst <$> map_to_list (cap_contents (lpm_key_ok n) (trie_map m));
|}.

#[global] Instance trie_bpf_map_laws {n V} : BpfMapLaws (Trie n V) (Z * list Z) V.
Proof.
  split; simpl.
  - intros m k v m' Hk (m1 & Hm1 & ->)%fmap_Some. unfold cap_insert in Hm1.
    case_decide; [|done]. injection Hm1 as <-. unfold cap_contents; simpl.
    by rewrite map_filter_insert_True.
  - intros m k m' Hk (m1 & Hm1 & ->)%fmap_Some. unfold cap_remove in Hm1.
    case_match; [|done]. injection Hm1 as <-. unfold cap_contents; simpl.
    apply map_filter_delete.
  - intros m k Hk [v [Hv _]%map_lookup_filter_Some]. unfold cap_remove.
    rewrite Hv. by eexists.
  - intros m k. apply elem_of_keys.
  - intros m k [v [_ Hk]%map_lookup_filter_Some]. done.
Qed.

#[global] Instance trie_lpm_get {n V} : LpmGet n (Trie n V) V := {|
  lpm_get m k := lpm_lookup n (bm_contents m) k.2; lpm_get_spec m addr _ := eq_refl |}.

Record BoundedQueue : Type := mkQueue { bq_slots : nat; bq_items : list (list Z) }.
#[global] Program Instance bounded_queue : RingBuffer BoundedQueue := {|
  rb_queue r := bq_items r;
  rb_output r b := if decide (length (bq_items r) < bq_slots r)%nat
    then Some (mkQueue (bq_slots r) (bq_items r ++ [b])) else None;
  rb_next r := match bq_items r with [] => None | b :: l => Some (b, mkQueue (bq_slots r) l) end;
|}.
Next Obligation. intros r b r'. simpl. case_decide; [|done]. by intros [= <-]. Qed.
Next Obligation. intros [n [|b l]]; done. Qed.

(** ** Longest-prefix match *)

Lemma network_ok n p addr : bytes_ok n (network n p addr).
Proof. apply to_be_bytes_ok. Qed.

Lemma from_network n p addr :
  0 <= p <= 8 * Z.of_nat n → bytes_ok n addr →
  from_be_bytes (network n p addr) = Z.land (from_be_bytes addr) (mask (8 * Z.of_nat n) p).
Proof.
  intros Hp Ha. unfold network. apply from_to_be_bytes_id.
  destruct (land_mask_in_width (8 * Z.of_nat n) p (from_be_bytes addr) Hp
    (octets_in_width n addr Ha)) as [? Hlt].
  rewrite Z.pow_mul_r in Hlt by lia. done.
Qed.

(** A key is the [p]-bit network of an address exactly when it is a network
    address whose first [p] bits are those of the address. *)
Lemma network_eq_iff n p net addr :
  lpm_key_ok n (p, net) → bytes_ok n addr →
  net = network n p addr ↔ octets_match p net addr = true.
Proof.
  intros (Hp & Hnet & Hfix) Ha; simpl in *. unfold octets_match.
  destruct (Hnet) as [Hln Hbn]. rewrite Hln.
  rewrite <-land_mask_eq_iff, Z.eqb_eq by auto with firewall.
  rewrite <-!from_network by done. rewrite Hfix. split; [by intros ->|].
  intros Heq. apply from_be_bytes_inj; [done|apply network_ok|..|done].
  by rewrite Hln, (proj1 (network_ok n p addr)).
Qed.

Section Lpm.
Context {V : Type} (n : nat) (m : gmap (Z * list Z) V) (addr : list Z).
Hypothesis keys_ok : ∀ k, is_Some (m !! k) → lpm_key_ok n k.
Hypothesis addr_ok : bytes_ok n addr.

(** [(p, net)] is a rule that covers [addr]. *)
Definition covers (p : Z) (net : list Z) (v : V) : Prop :=
  m !! (p, net) = Some v ∧ octets_match p net addr = true.

Lemma covers_iff p net v : covers p net v ↔ m !! (p, net) = Some v ∧ net = network n p addr.
Proof using keys_ok addr_ok.
  unfold covers. split; intros [Hm He]; (split; [done|]);
    apply (network_eq_iff n p net addr); eauto.
Qed.

Lemma lpm_search_spec q :
  match lpm_search n q m addr with
  | Some v => ∃ p, 0 <= p <= Z.of_nat q ∧ covers p (network n p addr) v ∧
      ∀ p' net' v', covers p' net' v' → p' <= Z.of_nat q → p' <= p
  | None => ∀ p' net' v', covers p' net' v' → p' <= Z.of_nat q → False
  end.
Proof using keys_ok addr_ok.
  assert (Hat : ∀ q', m !! (Z.of_nat q', network n (Z.of_nat q') addr) = None →
    ∀ net' v', ¬ covers (Z.of_nat q') net' v').
  { intros q' Hn net' v' [Hm ->]%covers_iff. congruence. }
  induction q as [|q IH]; cbn [lpm_search];
    destruct (m !! _) as [v|] eqn:Hm; try (
      eexists; split; [|split; [apply covers_iff; split; [exact Hm|done]|]]; [lia|];
      intros; lia).
  - intros p' net' v' Hc Hle. destruct (decide (p' = 0)) as [->|]; [by eapply (Hat 0%nat)|].
    destruct Hc as [Hk _]. destruct (keys_ok _ (mk_is_Some _ _ Hk)) as [? _]. simpl in *. lia.
  - assert (Hstep : ∀ p' net' v', covers p' net' v' → p' <= Z.of_nat (S q) → p' <= Z.of_nat q).
    { intros p' net' v' Hc Hle. destruct (decide (p' = Z.of_nat (S q))) as [->|]; [|lia].
      by eapply Hat in Hc. }
    destruct (lpm_search n q m addr).
    + destruct IH as (p & Hp & Hc & Hmax). exists p. split_and!; [lia..|done|]. eauto.
    + eauto.
Qed.

(** The lookup returns the value of the longest covering prefix, and nothing
    exactly when no rule covers the address. *)
Lemma lpm_lookup_spec :
  match lpm_lookup n m addr with
  | Some v => ∃ p net, covers p net v ∧ ∀ p' net' v', covers p' net' v' → p' <= p
  | None => ∀ p net v, ¬ covers p net v
  end.
Proof using keys_ok addr_ok.
  assert (Hle : ∀ p net v, covers p net v → p <= Z.of_nat (8 * n)).
  { intros p net v [Hk _]. destruct (keys_ok _ (mk_is_Some _ _ Hk)) as [? _].
    simpl in *. lia. }
  pose proof (lpm_search_spec (8 * n)) as H. unfold lpm_lookup.
  destruct (lpm_search _ _ _ _).
  - destruct H as (p & _ & Hc & Hmax). eauto 10.
  - intros p net v Hc. eauto.
Qed.
End Lpm.
