(* ===== verification/Str.v ===== *)
(** * Text: [&str] operations and the address parsers of [std::net]

    A Rust string is the list of its Unicode scalar values; [as_bytes] is its
    UTF-8 encoding. The parsers of [std::net] are a cursor over bytes that
    either consumes input or gives up and leaves the cursor where it was. *)
From stdpp Require Import base numbers list gmap fin_maps strings sorting.
From Stdlib Require Import ZArith Lia.
From S2P Require Import Prelude Net.

Local Open Scope Z_scope.

(** String literals, as scalar values. *)
Definition lit (s : String.string) : list Z :=
  Z.of_N ∘ Ascii.N_of_ascii <$> String.list_ascii_of_string s.

(** [char::is_whitespace]: the Unicode White_Space property. *)
Definition is_whitespace (c : Z) : bool :=
  ((9 <=? c) && (c <=? 13)) || (c =? 32) || (c =? 0x85) || (c =? 0xA0) || (c =? 0x1680) ||
  ((0x2000 <=? c) && (c <=? 0x200A)) || (c =? 0x2028) || (c =? 0x2029) || (c =? 0x202F) ||
  (c =? 0x205F) || (c =? 0x3000).

Fixpoint trim_start (s : list Z) : list Z :=
  match s with
  | c :: s' => if is_whitespace c then trim_start s' else s
  | [] => []
  end.
Definition trim_end (s : list Z) : list Z := reverse (trim_start (reverse s)).
Definition trim (s : list Z) : list Z := trim_end (trim_start s).

(** [s.split_once(c)]. *)
Fixpoint split_once (c : Z) (s : list Z) : option (list Z * list Z) :=
  match s with
  | [] => None
  | x :: s' =>
      if x =? c then Some ([], s')
      else match split_once c s' with
           | Some (a, b) => Some (x :: a, b)
           | None => None
           end
  end.

(** [match s.find(c) { Some(i) => &s[..i], None => s }]. *)
Definition up_to (c : Z) (s : list Z) : list Z :=
  match split_once c s with Some (a, _) => a | None => s end.

(** [s.split(c)]: always at least one piece. *)
Fixpoint split (c : Z) (s : list Z) : list (list Z) :=
  match s with
  | [] => [[]]
  | x :: s' =>
      if x =? c then [] :: split c s'
      else match split c s' with
           | p :: ps => (x :: p) :: ps
           | [] => [[x]]
           end
  end.

(** [s.starts_with(pat)] and [s.contains(pat)] for string patterns. *)
Fixpoint starts_with (pat s : list Z) : bool :=
  match pat, s with
  | [], _ => true
  | p :: pat', x :: s' => (p =? x) && starts_with pat' s'
  | _ :: _, [] => false
  end.

Fixpoint contains (pat s : list Z) : bool :=
  starts_with pat s || match s with [] => false | _ :: s' => contains pat s' end.

Definition ends_with (pat s : list Z) : bool := starts_with (reverse pat) (reverse s).

Lemma starts_with_self s b : starts_with s (s ++ b) = true.
Proof. induction s as [|x s IH]; [done|]. cbn. by rewrite Z.eqb_refl. Qed.

Lemma ends_with_app s pat : ends_with pat (s ++ pat) = true.
Proof. unfold ends_with. rewrite reverse_app. apply starts_with_self. Qed.

(** Surrounding white space does not matter. *)
Lemma trim_start_spaces ws s :
  Forall (λ c, is_whitespace c = true) ws → trim_start (ws ++ s) = trim_start s.
Proof. induction 1 as [|c ws Hc _ IH]; [done|]. cbn [app trim_start]. by rewrite Hc. Qed.

Lemma trim_start_text s c : head s = Some c → is_whitespace c = false → trim_start s = s.
Proof. destruct s as [|x s]; intros [= ->] Hc. cbn. by rewrite Hc. Qed.

Lemma trim_padded before after s c d :
  Forall (λ c, is_whitespace c = true) before → Forall (λ c, is_whitespace c = true) after →
  head s = Some c → last s = Some d → is_whitespace c = false → is_whitespace d = false →
  trim (before ++ s ++ after) = s.
Proof.
  intros Hb Ha Hc Hd Wc Wd. unfold trim, trim_end.
  rewrite trim_start_spaces by done.
  rewrite (trim_start_text (s ++ after) c); [|by destruct s|done].
  rewrite reverse_app, trim_start_spaces by (by apply Forall_reverse).
  rewrite (trim_start_text (reverse s) d), reverse_involutive; [done| |done].
  by rewrite head_reverse.
Qed.

(** [s.strip_prefix(c)]. *)
Definition strip_prefix (c : Z) (s : list Z) : option (list Z) :=
  match s with x :: s' => if x =? c then Some s' else None | [] => None end.

Definition is_ascii_digit (b : Z) : bool := (48 <=? b) && (b <=? 57).

(** [s.as_bytes()]: UTF-8. *)
Definition utf8_char (c : Z) : list Z :=
  if c <? 0x80 then [c]
  else if c <? 0x800 then [0xC0 + Z.shiftr c 6; 0x80 + Z.land c 0x3F]
  else if c <? 0x10000 then
    [0xE0 + Z.shiftr c 12; 0x80 + Z.land (Z.shiftr c 6) 0x3F; 0x80 + Z.land c 0x3F]
  else
    [0xF0 + Z.shiftr c 18; 0x80 + Z.land (Z.shiftr c 12) 0x3F;
     0x80 + Z.land (Z.shiftr c 6) 0x3F; 0x80 + Z.land c 0x3F].
Definition as_bytes (s : list Z) : list Z := s ≫= utf8_char.

(** A scalar value. *)
Definition char_ok (c : Z) : Prop := 0 <= c < 0x110000.

(** ** [std::net] parsers: [None] leaves the cursor where it was. *)
Definition parser (A : Type) : Type := list Z → option (A * list Z).

Definition read_given_char (c : Z) : parser unit := λ s,
  match s with x :: s' => if x =? c then Some ((), s') else None | [] => None end.

(** [char::to_digit(radix)] for the radixes 10 and 16. *)
Definition to_digit (radix b : Z) : option Z :=
  if is_ascii_digit b then Some (b - 48)
  else if (radix =? 16) && (97 <=? b) && (b <=? 102) then Some (b - 87)
  else if (radix =? 16) && (65 <=? b) && (b <=? 70) then Some (b - 55)
  else None.

(** The digit loop of [read_number]: value and number of digits so far. *)
Fixpoint read_digits (radix limit max_digits : Z) (s : list Z) (value count : Z)
    : option (Z * Z * list Z) :=
  match s with
  | b :: s' =>
      match to_digit radix b with
      | Some d =>
          let value' := value * radix + d in
          if limit <? value' then None
          else if max_digits <? count + 1 then None
          else read_digits radix limit max_digits s' value' (count + 1)
      | None => Some (value, count, s)
      end
  | [] => Some (value, count, s)
  end.

(** [read_number::<uN>(radix, Some(max_digits), allow_zero_prefix)], with
    [limit] the type's maximum. *)
Definition read_number (radix limit max_digits : Z) (allow_zero_prefix : bool) : parser Z := λ s,
  match read_digits radix limit max_digits s 0 0 with
  | Some (v, count, rest) =>
      let leading_zero := match s with 48 :: _ => true | _ => false end in
      if count =? 0 then None
      else if negb allow_zero_prefix && leading_zero && (1 <? count) then None
      else Some (v, rest)
  | None => None
  end.

(** [read_separator(sep, index, inner)]. *)
Definition read_separator {A} (sep : Z) (index : nat) (inner : parser A) : parser A := λ s,
  match index with
  | O => inner s
  | S _ => match read_given_char sep s with Some (_, s') => inner s' | None => None end
  end.

Fixpoint read_ipv4_slots (i todo : nat) : parser (list Z) := λ s,
  match todo with
  | O => Some ([], s)
  | S todo' =>
      match read_separator 46 i (read_number 10 255 3 false) s with
      | Some (v, s') =>
          match read_ipv4_slots (S i) todo' s' with
          | Some (vs, s'') => Some (v :: vs, s'')
          | None => None
          end
      | None => None
      end
  end.
Definition read_ipv4_addr : parser (list Z) := read_ipv4_slots 0 4.

(** [read_groups] over [limit] slots from slot [i]: the octets read, whether an
    embedded IPv4 address ended them, and the rest. *)
Fixpoint read_groups (i todo : nat) (s : list Z) : list Z * bool * list Z :=
  match todo with
  | O => ([], false, s)
  | S todo' =>
      match (if (0 <? todo')%nat then read_separator 58 i read_ipv4_addr s else None) with
      | Some (v4, s') => (v4, true, s')
      | None =>
          match read_separator 58 i (read_number 16 65535 4 true) s with
          | Some (g, s') =>
              let '(gs, v4, s'') := read_groups (S i) todo' s' in
              (to_be_bytes 2 g ++ gs, v4, s'')
          | None => ([], false, s)
          end
      end
  end.

Definition read_ipv6_addr : parser (list Z) := λ s,
  let '(head, head_ipv4, s1) := read_groups 0 8 s in
  if (length head =? 16)%nat then Some (head, s1)
  else if head_ipv4 then None
  else
    match read_given_char 58 s1 with
    | Some (_, s2) =>
        match read_given_char 58 s2 with
        | Some (_, s3) =>
            let limit := (8 - (length head / 2 + 1))%nat in
            let '(tail, _, s4) := read_groups 0 limit s3 in
            Some (head ++ replicate (16 - length head - length tail) 0 ++ tail, s4)
        | None => None
        end
    | None => None
    end.

(** [parse_with]: the whole input must be consumed. *)
Definition parse_with {A} (p : parser A) (s : list Z) : option A :=
  match p s with Some (a, []) => Some a | _ => None end.

Definition Ipv6Addr_from_str (s : list Z) : option (list Z) :=
  parse_with read_ipv6_addr (as_bytes s).

(** [IpAddr::from_str]. *)
Definition IpAddr_from_str (s : list Z) : option IpAddr :=
  parse_with (λ b, match read_ipv4_addr b with
                   | Some (o, r) => Some (V4 o, r)
                   | None => match read_ipv6_addr b with
                             | Some (o, r) => Some (V6 o, r)
                             | None => None
                             end
                   end) (as_bytes s).

Example ip_examples :
  IpAddr_from_str (lit "192.168.1.20") = Some (V4 [192; 168; 1; 20]) ∧
  IpAddr_from_str (lit "192.168.01.20") = None ∧
  IpAddr_from_str (lit "2001:db8::1:0:5") =
    Some (V6 [0x20; 1; 0xd; 0xb8; 0; 0; 0; 0; 0; 0; 0; 1; 0; 0; 0; 5]) ∧
  IpAddr_from_str (lit "::ffff:10.0.0.1") =
    Some (V6 (replicate 10 0 ++ [255; 255; 10; 0; 0; 1])) ∧
  IpAddr_from_str (lit "1:2:3:4:5:6:7::8") = None ∧
  IpAddr_from_str (lit "::") = Some (V6 (replicate 16 0)).
Proof. vm_compute. done. Qed.

(** ** What the parsers return *)

Lemma to_digit_range radix b d : to_digit radix b = Some d → 0 <= d < 16.
Proof.
  unfold to_digit, is_ascii_digit. repeat case_match; intros; simplify_eq; bool_Z; lia.
Qed.

Lemma read_digits_range radix limit maxd s : ∀ v c v' c' r,
  0 <= radix → 0 <= v <= limit → read_digits radix limit maxd s v c = Some (v', c', r) →
  0 <= v' <= limit.
Proof.
  induction s as [|b s IH]; intros v c v' c' r Hr Hv; simpl; [by intros [= <- _ _]|].
  destruct (to_digit radix b) as [d|] eqn:Hd; [|by intros [= <- _ _]].
  apply to_digit_range in Hd.
  destruct (Z.ltb_spec limit (v * radix + d)); [done|].
  destruct (Z.ltb_spec maxd (c + 1)); [done|]. apply IH; [done|nia].
Qed.

Lemma read_number_range radix limit maxd z s v r :
  0 <= radix → 0 <= limit → read_number radix limit maxd z s = Some (v, r) → 0 <= v <= limit.
Proof.
  intros Hr Hl. unfold read_number. destruct (read_digits _ _ _ _ _ _) as [[[v' c] r']|] eqn:Hd; [|done].
  apply read_digits_range in Hd; [|lia..].
  destruct (c =? 0); [done|]. destruct (_ && (1 <? c)); [done|]. by intros [= <- _].
Qed.

Lemma read_separator_inv {A} sep i (p : parser A) s a r :
  read_separator sep i p s = Some (a, r) → ∃ s', p s' = Some (a, r).
Proof.
  destruct i; simpl; [eauto|]. destruct (read_given_char sep s) as [[? s']|]; [eauto|done].
Qed.

Lemma read_ipv4_slots_ok todo : ∀ i s o r,
  read_ipv4_slots i todo s = Some (o, r) → bytes_ok todo o.
Proof.
  induction todo as [|todo IH]; intros i s o r; simpl; [intros [= <- _]; done|].
  destruct (read_separator _ _ _ _) as [[v s']|] eqn:Hv; [|done].
  destruct (read_ipv4_slots (S i) todo s') as [[vs s'']|] eqn:Hs; [|done].
  intros [= <- <-]. apply IH in Hs as [Hl Hb].
  apply read_separator_inv in Hv as [s0 Hv]. apply read_number_range in Hv; [|lia..].
  split; [simpl; lia|]. constructor; [unfold byte_ok; lia|done].
Qed.

Lemma read_groups_ok todo : ∀ i s o v4 r,
  read_groups i todo s = (o, v4, r) →
  ∃ k, (k <= todo)%nat ∧ bytes_ok (2 * k) o.
Proof.
  induction todo as [|todo IH]; intros i s o v4 r.
  { intros [= <- <- <-]. by exists 0%nat. }
  cbn [read_groups].
  assert (Hnum : match read_separator 58 i (read_number 16 65535 4 true) s with
    | Some (g, s') => let '(gs, v4, s'') := read_groups (S i) todo s' in
        (to_be_bytes 2 g ++ gs, v4, s'')
    | None => ([], false, s) end = (o, v4, r) →
    ∃ k, (k <= S todo)%nat ∧ bytes_ok (2 * k) o).
  { destruct (read_separator _ _ _ _) as [[g s']|].
    - destruct (read_groups (S i) todo s') as [[gs v4'] s''] eqn:Hg. intros E.
      assert (o = to_be_bytes 2 g ++ gs) as -> by congruence.
      apply IH in Hg as (k & Hk & Hl & Hb). exists (S k). split; [lia|]. split.
      + rewrite length_app, length_to_be_bytes. lia.
      + apply Forall_app. split; [apply to_be_bytes_ok|done].
    - intros [= <- <- <-]. exists 0%nat. split; [lia|done]. }
  destruct (0 <? todo)%nat eqn:Ht; [|exact Hnum].
  destruct (read_separator 58 i read_ipv4_addr s) as [[o4 s']|] eqn:H4; [|exact Hnum].
  intros [= <- <- <-]. apply read_separator_inv in H4 as [s0 H4].
  apply read_ipv4_slots_ok in H4. apply Nat.ltb_lt in Ht. exists 2%nat. split; [lia|done].
Qed.

Lemma read_ipv6_addr_ok s o r : read_ipv6_addr s = Some (o, r) → bytes_ok 16 o.
Proof.
  unfold read_ipv6_addr. destruct (read_groups 0 8 s) as [[head h4] s1] eqn:Hh.
  apply read_groups_ok in Hh as (k & Hk & Hl & Hb).
  destruct (Nat.eqb_spec (length head) 16) as [He|Hne].
  { intros [= <- <-]. done. }
  destruct h4; [done|].
  destruct (read_given_char 58 s1) as [[_ s2]|]; [|done].
  destruct (read_given_char 58 s2) as [[_ s3]|]; [|done].
  destruct (read_groups 0 _ s3) as [[tail t4] s4] eqn:Ht.
  apply read_groups_ok in Ht as (k' & Hk' & Hl' & Hb').
  intros [= <- <-]. rewrite Hl, Nat.mul_comm, Nat.div_mul in Hk' by lia. split.
  - rewrite !length_app, length_replicate. lia.
  - rewrite !Forall_app. split_and!; [done| |done]. by apply Forall_replicate.
Qed.

Lemma parse_with_inv {A} (p : parser A) s a : parse_with p s = Some a → p s = Some (a, []).
Proof. unfold parse_with. repeat case_match; naive_solver. Qed.

Lemma IpAddr_from_str_ok s a : IpAddr_from_str s = Some a → ip_ok a.
Proof.
  unfold IpAddr_from_str. intros H%parse_with_inv.
  destruct (read_ipv4_addr (as_bytes s)) as [[o r]|] eqn:H4.
  { injection H as <- ->. by apply read_ipv4_slots_ok in H4. }
  destruct (read_ipv6_addr (as_bytes s)) as [[o r]|] eqn:H6; [|done].
  injection H as <- ->. by apply read_ipv6_addr_ok in H6.
Qed.

Lemma Ipv6Addr_from_str_ok s o : Ipv6Addr_from_str s = Some o → bytes_ok 16 o.
Proof. unfold Ipv6Addr_from_str. intros H%parse_with_inv. by apply read_ipv6_addr_ok in H. Qed.

Lemma utf8_char_high c : char_ok c → 128 <= c → Forall (λ b, 128 <= b) (utf8_char c).
Proof.
  intros Hc Hge. unfold char_ok in Hc. unfold utf8_char.
  assert (Hl : ∀ x, 128 <= 0x80 + Z.land x 0x3F).
  { intros x. pose proof (land_low_bound x 6 ltac:(lia)). change (2 ^ 6 - 1) with 63 in *. lia. }
  assert (Hs : ∀ x k, 128 <= x → 0 <= k → 128 <= x + Z.shiftr c k).
  { intros x k Hx Hk. pose proof (proj2 (Z.shiftr_nonneg c k)). lia. }
  destruct (Z.ltb_spec c 0x80); [lia|].
  destruct (c <? 0x800); [|destruct (c <? 0x10000)]; rewrite ?Forall_cons, Forall_nil;
    split_and!; auto with lia.
Qed.

(** An ASCII byte of the encoding is that character of the string. *)
Lemma as_bytes_ascii b s :
  Forall char_ok s → 0 <= b < 128 → b ∈ as_bytes s ↔ b ∈ s.
Proof.
  intros Hs Hb. unfold as_bytes. rewrite list_elem_of_bind. split.
  - intros (c & Hc & Hin). rewrite Forall_forall in Hs. specialize (Hs c Hin).
    destruct (Z.ltb_spec c 128) as [Hlt|Hge].
    { unfold utf8_char in Hc. rewrite (proj2 (Z.ltb_lt c 0x80) Hlt) in Hc.
      by apply list_elem_of_singleton in Hc as ->. }
    pose proof (utf8_char_high c Hs Hge) as Hall. rewrite Forall_forall in Hall.
    apply Hall in Hc. lia.
  - intros Hin. exists b. split; [|done]. unfold utf8_char.
    destruct (Z.ltb_spec b 128); [|lia]. by left.
Qed.
