(* ===== verification/Fmt.v ===== *)
(** * Printing numbers: [format!] as the sources use it

    Unsigned decimals and hexadecimals ([{}], [{:x}]), zero padding ([{:03}]),
    space padding ([{:<5}]), joining with a separator, and the lemmas that read the
    printed digits back. *)
From stdpp Require Import base numbers list gmap fin_maps strings sorting.
From Stdlib Require Import ZArith Lia.
From S2P Require Import Prelude Net Str.

Local Open Scope Z_scope.

Definition digit_char (d : Z) : Z := if d <? 10 then 48 + d else 87 + d.
Fixpoint to_radix (fuel : nat) (radix n : Z) : list Z :=
  match fuel with
  | O => []
  | S fuel' =>
      if n <? radix then [digit_char n]
      else to_radix fuel' radix (n / radix) ++ [digit_char (n mod radix)]
  end.
Fixpoint join_with (sep : Z) (l : list (list Z)) : list Z :=
  match l with
  | [] => []
  | [x] => x
  | x :: rest => x ++ sep :: join_with sep rest
  end.

(** [{}] of a [u64]: at most twenty digits. *)
Definition decimal (n : Z) : list Z := to_radix 20 10 n.
(** [{:0w$}] and [{:<w$}] of a text. *)
Definition pad_zeros (w : nat) (s : list Z) : list Z := replicate (w - length s) 48 ++ s.
Definition pad_right (w : nat) (s : list Z) : list Z := s ++ replicate (w - length s) 32.

(** Reading decimal digits back, most significant first. *)
Definition digits_value (s : list Z) : Z := fold_left (λ acc c, acc * 10 + (c - 48)) s 0.

Lemma fold_digits_shift s : ∀ acc,
  fold_left (λ acc c, acc * 10 + (c - 48)) s acc = acc * 10 ^ len s + digits_value s.
Proof.
  unfold digits_value, len. induction s as [|c s IH]; intros acc; cbn [fold_left length]; [lia|].
  rewrite IH, (IH (0 * 10 + (c - 48))), Nat2Z.inj_succ, Z.pow_succ_r by lia. lia.
Qed.

Lemma digits_value_app s t : digits_value (s ++ t) = digits_value s * 10 ^ len t + digits_value t.
Proof. unfold digits_value at 1. by rewrite fold_left_app, fold_digits_shift. Qed.

Lemma digits_value_zeros k s : digits_value (replicate k 48 ++ s) = digits_value s.
Proof.
  rewrite digits_value_app. assert (digits_value (replicate k 48) = 0) as ->; [|lia].
  unfold digits_value. by induction k.
Qed.

Lemma pad_zeros_value w s : digits_value (pad_zeros w s) = digits_value s.
Proof. apply digits_value_zeros. Qed.

Lemma to_radix_value fuel : ∀ n, 0 <= n < 10 ^ Z.of_nat fuel → digits_value (to_radix fuel 10 n) = n.
Proof.
  induction fuel as [|fuel IH]; intros n Hn; [change (10 ^ Z.of_nat 0) with 1 in Hn; cbn; lia|].
  cbn [to_radix]. case_Z; [unfold digits_value, digit_char; cbn [fold_left]; case_Z|].
  rewrite Nat2Z.inj_succ, Z.pow_succ_r in Hn by lia.
  rewrite digits_value_app, IH; cycle 1.
  { split; [apply Z.div_pos; lia|]. apply Z.div_lt_upper_bound; lia. }
  change (len [digit_char (n mod 10)]) with 1. pose proof (Z.mod_pos_bound n 10 ltac:(lia)).
  unfold digits_value, digit_char. cbn [fold_left]. case_Z. rewrite (Z.div_mod n 10) at 3 by lia. lia.
Qed.

Lemma to_radix_digits fuel : ∀ n, 0 <= n → Forall (λ c, 48 <= c <= 57) (to_radix fuel 10 n).
Proof.
  induction fuel as [|fuel IH]; intros n Hn; [constructor|]. cbn [to_radix].
  case_Z; [apply Forall_singleton; unfold digit_char; case_Z|].
  apply Forall_app. split; [apply IH, Z.div_pos; lia|]. apply Forall_singleton.
  pose proof (Z.mod_pos_bound n 10 ltac:(lia)). unfold digit_char. case_Z.
Qed.

Lemma to_radix_length fuel k : ∀ n,
  (0 < k)%nat → 0 <= n < 10 ^ Z.of_nat k → (length (to_radix fuel 10 n) <= k)%nat.
Proof.
  revert k. induction fuel as [|fuel IH]; intros k n Hk Hn; [simpl; lia|]. cbn [to_radix].
  case_Z; [simpl; lia|]. rewrite length_app. cbn [length].
  destruct k as [|[|k]]; [lia|change (10 ^ Z.of_nat 1) with 10 in Hn; lia|].
  assert (length (to_radix fuel 10 (n / 10)) <= S k)%nat; [|lia]. apply IH; [lia|].
  rewrite Nat2Z.inj_succ, Z.pow_succ_r in Hn by lia.
  split; [apply Z.div_pos; lia|apply Z.div_lt_upper_bound; lia].
Qed.

(** A printed number is not empty and, unless it is zero, does not start with one. *)
Lemma to_radix_head fuel : ∀ n,
  0 < n < 10 ^ Z.of_nat fuel → ∃ c s, to_radix fuel 10 n = c :: s ∧ c ≠ 48.
Proof.
  induction fuel as [|fuel IH]; intros n Hn; [change (10 ^ Z.of_nat 0) with 1 in Hn; lia|].
  cbn [to_radix]. case_Z; [eexists _, _; split; [done|]; unfold digit_char; case_Z|].
  rewrite Nat2Z.inj_succ, Z.pow_succ_r in Hn by lia.
  destruct (IH (n / 10)) as (c & s & -> & Hc).
  { split; [apply Z.div_str_pos; lia|apply Z.div_lt_upper_bound; lia]. }
  by eexists _, _.
Qed.

Lemma split_join sep l :
  l ≠ [] → Forall (λ p, sep ∉ p) l → split sep (join_with sep l) = l.
Proof.
  intros Hne Hl. induction Hl as [|p l Hp Hl IH]; [done|].
  assert (∀ t, split sep (p ++ t) = match split sep t with q :: qs => (p ++ q) :: qs | [] => [] end)
    as Hcons.
  { intros t. assert (split sep t ≠ []) as Ht.
    { destruct t as [|x t]; [done|]. simpl. destruct (x =? sep); [done|]. by destruct (split sep t). }
    clear Hl IH Hne. induction p as [|c p IH]; [simpl; by destruct (split sep t)|].
    apply not_elem_of_cons in Hp as [Hc Hp]. cbn [app split].
    rewrite (proj2 (Z.eqb_neq c sep)) by congruence. rewrite (IH Hp).
    by destruct (split sep t). }
  destruct l as [|q l].
  - cbn [join_with]. rewrite <-(app_nil_r p) at 1. rewrite Hcons. simpl. by rewrite app_nil_r.
  - specialize (IH ltac:(done)). change (join_with sep (p :: q :: l)) with (p ++ sep :: join_with sep (q :: l)).
    rewrite Hcons. cbn [split]. rewrite Z.eqb_refl, IH. by rewrite app_nil_r.
Qed.

(** ** Searching text around a character the pattern does not have *)
Lemma starts_with_sep pat c a b : c ∉ pat → starts_with pat (a ++ c :: b) = starts_with pat a.
Proof.
  revert a. induction pat as [|p pat IH]; intros a Hc; [done|]. apply not_elem_of_cons in Hc as [Hp Hc].
  destruct a as [|x a]; cbn [app starts_with]; [by rewrite (proj2 (Z.eqb_neq p c)) by congruence|].
  by rewrite IH.
Qed.

Lemma contains_sep pat c a b : pat ≠ [] → c ∉ pat → contains pat (a ++ c :: b) = contains pat a || contains pat b.
Proof.
  intros Hne Hc. induction a as [|x a IH].
  - cbn [app contains]. change (c :: b) with ([] ++ c :: b). rewrite starts_with_sep by done.
    by destruct pat.
  - rewrite <-app_comm_cons. cbn [contains]. rewrite IH, app_comm_cons, starts_with_sep by done.
    by rewrite orb_assoc.
Qed.

Lemma contains_absent p pat s : p ∉ s → contains (p :: pat) s = false.
Proof.
  induction s as [|x s IH]; intros Hp; [done|]. apply not_elem_of_cons in Hp as [Hx Hp].
  cbn [contains starts_with]. rewrite (proj2 (Z.eqb_neq p x)) by done. by rewrite IH.
Qed.

Lemma join_with_chars (P : Z → Prop) sep l :
  P sep → Forall (Forall P) l → Forall P (join_with sep l).
Proof.
  intros Hs Hl. induction Hl as [|x l Hx Hl IH]; [constructor|]. destruct l as [|y l]; [done|].
  change (join_with sep (x :: y :: l)) with (x ++ sep :: join_with sep (y :: l)).
  apply Forall_app. split; [done|]. by constructor.
Qed.

(** ** Reading numbers: [str::parse::<u64>] *)
Inductive int_error : Type := EmptyText | InvalidDigit | PosOverflow.
Fixpoint parse_digits (acc : Z) (s : list Z) : outcome int_error Z :=
  match s with
  | [] => Ok acc
  | c :: s' =>
      if negb ((48 <=? c) && (c <=? 57)) then Err InvalidDigit else
      if 2 ^ 64 <=? acc * 10 then Err PosOverflow else
      if 2 ^ 64 <=? acc * 10 + (c - 48) then Err PosOverflow else
      parse_digits (acc * 10 + (c - 48)) s'
  end.
Definition parse_u64 (s : list Z) : outcome int_error Z :=
  match s with
  | [] => Err EmptyText
  | c :: digits =>
      if c =? 43 then
        match digits with [] => Err InvalidDigit | _ => parse_digits 0 digits end
      else parse_digits 0 s
  end.

Lemma digits_value_nonneg s : Forall (λ c, 48 <= c <= 57) s → 0 <= digits_value s.
Proof.
  induction 1 as [|c s Hc _ IH]; [done|]. unfold digits_value. cbn [fold_left].
  rewrite fold_digits_shift. nia.
Qed.

Lemma parse_digits_value s : ∀ acc,
  0 <= acc → Forall (λ c, 48 <= c <= 57) s → acc * 10 ^ len s + digits_value s < 2 ^ 64 →
  parse_digits acc s = Ok (acc * 10 ^ len s + digits_value s).
Proof.
  intros acc Ha Hs. revert acc Ha. induction Hs as [|c s Hc Hs IH]; intros acc Ha Hb.
  { change (10 ^ len []) with 1. change (digits_value []) with 0. cbn [parse_digits]. f_equal. lia. }
  unfold digits_value, len in *. cbn [fold_left length parse_digits] in *.
  rewrite fold_digits_shift, Nat2Z.inj_succ, Z.pow_succ_r in * by lia.
  pose proof (digits_value_nonneg s Hs) as Hn. unfold digits_value, len in *.
  set (v := fold_left _ s 0) in *. assert (0 < 10 ^ Z.of_nat (length s)) by (apply Z.pow_pos_nonneg; lia).
  rewrite (proj2 (Z.leb_le 48 c)), (proj2 (Z.leb_le c 57)) by lia. cbn [negb andb].
  rewrite !(proj2 (Z.leb_gt (2 ^ 64) _)) by nia. rewrite IH by nia. f_equal. lia.
Qed.

Lemma parse_decimal n : 0 <= n < 2 ^ 64 → parse_u64 (decimal n) = Ok n.
Proof.
  intros Hn. pose proof (to_radix_digits 20 n ltac:(lia)) as Hd. fold (decimal n) in Hd.
  assert (digits_value (decimal n) = n) as Hv.
  { apply to_radix_value. change (10 ^ Z.of_nat 20) with 100000000000000000000. lia. }
  assert (parse_u64 (decimal n) = parse_digits 0 (decimal n)) as ->.
  { unfold parse_u64. destruct (decimal n) as [|c s] eqn:E.
    - unfold decimal in E. cbn [to_radix] in E. destruct (n <? 10); [done|]. by apply app_nil in E as [_ ?].
    - inversion_clear Hd. by rewrite (proj2 (Z.eqb_neq c 43)) by lia. }
  rewrite parse_digits_value by (done || (rewrite ?Hv; lia)). by rewrite Hv.
Qed.
