(* ===== verification/Lines.v ===== *)
(** * Reading the lines of a file in chunks ([src/firehol/parser.rs], [visit_file_lines])

    A growing buffer is filled by reads of the operating system's choosing; the
    complete lines of each chunk are lent to a visitor and the unfinished last
    line moves to the front of the buffer. The main theorem says that none of
    this shows: the visitor sees the lines of the whole text. *)
From stdpp Require Import base numbers list gmap fin_maps strings sorting.
From Stdlib Require Import ZArith Lia.
From S2P Require Import Prelude Str.

Local Open Scope Z_scope.

(** ** [std::str::from_utf8] *)
Definition between (lo hi b : Z) : bool := (lo <=? b) && (b <=? hi).
Definition continuation (b : Z) : bool := between 0x80 0xBF b.

(** Second bytes allowed after a first byte of a three- or four-byte sequence. *)
Definition second_of_three (b0 b1 : Z) : bool :=
  if b0 =? 0xE0 then between 0xA0 0xBF b1
  else if b0 =? 0xED then between 0x80 0x9F b1
  else between 0xE1 0xEF b0 && continuation b1.
Definition second_of_four (b0 b1 : Z) : bool :=
  if b0 =? 0xF0 then between 0x90 0xBF b1
  else if b0 =? 0xF4 then between 0x80 0x8F b1
  else between 0xF1 0xF3 b0 && continuation b1.

Definition low6 (b : Z) : Z := Z.land b 0x3F.

Fixpoint from_utf8 (bytes : list Z) : option (list Z) :=
  match bytes with
  | [] => Some []
  | b0 :: r0 =>
      if b0 <? 0x80 then cons b0 <$> from_utf8 r0 else
      match r0 with
      | [] => None
      | b1 :: r1 =>
          if between 0xC2 0xDF b0 && continuation b1 then
            cons (Z.shiftl (Z.land b0 0x1F) 6 + low6 b1) <$> from_utf8 r1 else
          match r1 with
          | [] => None
          | b2 :: r2 =>
              if second_of_three b0 b1 && continuation b2 then
                cons (Z.shiftl (Z.land b0 0x0F) 12 + Z.shiftl (low6 b1) 6 + low6 b2) <$>
                  from_utf8 r2 else
              match r2 with
              | [] => None
              | b3 :: r3 =>
                  if second_of_four b0 b1 && continuation b2 && continuation b3 then
                    cons (Z.shiftl (Z.land b0 0x07) 18 + Z.shiftl (low6 b1) 12 +
                          Z.shiftl (low6 b2) 6 + low6 b3) <$> from_utf8 r3
                  else None
              end
          end
      end
  end.

(** A literal of the source with characters beyond ASCII, whose bytes are UTF-8. *)
Definition uni (s : String.string) : list Z := default [] (from_utf8 (lit s)).
Example uni_decodes : uni "é🚫" = [0xE9; 0x1F6AB].
Proof. reflexivity. Qed.

(** [text.split_terminator(c)]: like [split], but nothing after a final terminator. *)
Fixpoint split_terminator (c : Z) (s : list Z) : list (list Z) :=
  match s with
  | [] => []
  | x :: s' =>
      if x =? c then [] :: split_terminator c s'
      else match split_terminator c s' with
           | p :: ps => (x :: p) :: ps
           | [] => [[x]]
           end
  end.

Definition newline : Z := 10.

(** [buffer[..used].iter().rposition(|b| b == newline).map_or(0, |i| i + 1)]. *)
Fixpoint line_end (buffer : list Z) : nat :=
  match buffer with
  | [] => 0
  | b :: rest =>
      match line_end rest with
      | O => if b =? newline then 1 else 0
      | S n => S (S n)
      end
  end.

(** What one [file.read] does: an interruption, an error, or a read of at most
    [n] bytes (and at least one when there is room and data left). *)
Inductive read_event : Type :=
| Interrupted
| Failed
| Upto (n : Z).
#[global] Instance read_event_eq_dec : EqDecision read_event.
Proof. solve_decision. Defined.

Section Visit.
Context {E St : Type} (io_error : E) (visit : list Z → Z → St → outcome E St).

(** [for line in text.split_terminator { line_number += 1; visit(line, line_number)?; }]. *)
Fixpoint visit_lines (lines : list (list Z)) (line_number : Z) (st : St)
    : outcome E (Z * St) :=
  match lines with
  | [] => Ok (line_number, st)
  | line :: rest =>
      st' ← visit line (line_number + 1) st;
      visit_lines rest (line_number + 1) st'
  end.

(** Bytes [file.read] returns into [room] free bytes of the buffer. *)
Definition read_size (ev : option read_event) (room : Z) : Z :=
  match ev with Some (Upto n) => Z.min (Z.max 1 n) room | _ => room end.

(** After a read of [chunk]: visit the complete lines, keep the unfinished one,
    and go on with [next] (buffer, line number, bytes, state) unless it was the end. *)
Definition after_read (next : list Z → Z → Z → St → outcome E (Z * St))
    (chunk buffer : list Z) (line_number bytes : Z) (st : St) : outcome E (Z * St) :=
  let read := len chunk in
  let buffer := buffer ++ chunk in
  let stop := if read =? 0 then length buffer else line_end buffer in
  match from_utf8 (take stop buffer) with
  | None => Err io_error
  | Some text =>
      '(line_number, st) ← visit_lines (split_terminator newline text) line_number st;
      if read =? 0 then mret (bytes, st)
      else next (drop stop buffer) line_number (bytes + read) st
  end.

(** The loop: [rest] is what the file still holds, [buffer] the [used] bytes,
    [cap] the length of the buffer. *)
Fixpoint visit_loop (fuel : nat) (evs : list read_event) (rest buffer : list Z)
    (cap line_number bytes : Z) (st : St) : outcome E (Z * St) :=
  match fuel with
  | O => Fault
  | S fuel' =>
      let cap := if len buffer =? cap then cap * 2 else cap in
      match head evs with
      | Some Interrupted => visit_loop fuel' (tail evs) rest buffer cap line_number bytes st
      | Some Failed => Err io_error
      | ev =>
          let n := Z.to_nat (read_size ev (cap - len buffer)) in
          after_read (λ buffer, visit_loop fuel' (tail evs) (drop n rest) buffer cap)
            (take n rest) buffer line_number bytes st
      end
  end.

(** Every iteration takes an event or a byte, except the last. *)
Definition visit_file_lines (evs : list read_event) (content : list Z) (st : St)
    : outcome E (Z * St) :=
  visit_loop (S (length evs + length content)) evs content [] (1024 * 1024) 0 0 st.
End Visit.

(** ** Cutting at a line end *)
Lemma split_terminator_app c a b :
  split_terminator c (a ++ c :: b) = split_terminator c (a ++ [c]) ++ split_terminator c b.
Proof.
  induction a as [|x a IH]; simpl; [by rewrite Z.eqb_refl|].
  destruct (x =? c); simpl; [by rewrite IH|]. rewrite IH.
  destruct (split_terminator c (a ++ [c])) eqn:Es; [|done].
  destruct a as [|y a]; simpl in Es; [by rewrite Z.eqb_refl in Es|].
  destruct (y =? c), (split_terminator c (a ++ [c])); discriminate.
Qed.

Lemma line_end_le buffer : (line_end buffer <= length buffer)%nat.
Proof.
  induction buffer as [|b r IH]; simpl; [lia|].
  destruct (line_end r); [destruct (b =? newline)|]; lia.
Qed.

Lemma line_end_newline buffer :
  line_end buffer = 0%nat ∨ ∃ a, take (line_end buffer) buffer = a ++ [newline].
Proof.
  induction buffer as [|b r IH]; simpl; [by left|].
  destruct (line_end r) as [|n] eqn:En.
  - destruct (Z.eqb_spec b newline) as [->|]; [|by left]. right. by exists [].
  - destruct IH as [?|[a Ha]]; [done|]. right. exists (b :: a).
    change (take (S (S n)) (b :: r)) with (b :: take (S n) r). by rewrite Ha.
Qed.

Lemma newline_not_inside b :
  continuation newline = false ∧ second_of_three b newline = false ∧
  second_of_four b newline = false.
Proof.
  unfold second_of_three, second_of_four. split_and!; [done|..].
  - destruct (b =? 0xE0), (b =? 0xED); rewrite ?andb_false_r; done.
  - destruct (b =? 0xF0), (b =? 0xF4); rewrite ?andb_false_r; done.
Qed.

(** A byte below 128 ends every sequence before it. *)
Lemma from_utf8_app a b :
  from_utf8 (a ++ newline :: b) =
    s ← from_utf8 a; t ← from_utf8 b; Some (s ++ newline :: t).
Proof.
  remember (length a) as n eqn:Hn. revert a Hn.
  induction (lt_wf n) as [n _ IH]. intros a ->.
  assert (Hrec : ∀ c a', (length a' < length a)%nat →
    cons c <$> from_utf8 (a' ++ newline :: b) =
    s ← cons c <$> from_utf8 a'; t ← from_utf8 b; Some (s ++ newline :: t)).
  { intros c a' Hl. rewrite (IH _ Hl a' eq_refl).
    destruct (from_utf8 a'); simpl; [|done]. by destruct (from_utf8 b). }
  destruct a as [|b0 a]; cbn [app from_utf8].
  { change (newline <? 0x80) with true. cbn. by destruct (from_utf8 b). }
  destruct (newline_not_inside b0) as (Hc & H3 & H4).
  destruct (b0 <? 0x80); [apply Hrec; simpl; lia|].
  destruct a as [|b1 a]; cbn [app].
  { rewrite Hc, H3, H4, !andb_false_r. by destruct b as [|? [|]]. }
  destruct (between 0xC2 0xDF b0 && continuation b1); [apply Hrec; simpl; lia|].
  destruct a as [|b2 a]; cbn [app].
  { rewrite Hc, !andb_false_r. by destruct b. }
  destruct (second_of_three b0 b1 && continuation b2); [apply Hrec; simpl; lia|].
  destruct a as [|b3 a]; cbn [app].
  { by rewrite Hc, !andb_false_r. }
  destruct (second_of_four b0 b1 && continuation b2 && continuation b3); [|done].
  apply Hrec. simpl. lia.
Qed.

Section VisitProofs.
Context {E St : Type} (io_error : E) (visit : list Z → Z → St → outcome E St).

Lemma visit_lines_app l1 l2 : ∀ n st,
  visit_lines visit (l1 ++ l2) n st =
    '(n', st') ← visit_lines visit l1 n st; visit_lines visit l2 n' st'.
Proof.
  induction l1 as [|l l1 IH]; intros n st; simpl; [done|].
  destruct (visit l (n + 1) st); simpl; auto.
Qed.

Hypothesis visit_no_fault : ∀ l n st, is_fault (visit l n st) = false.

Lemma visit_lines_no_fault l : ∀ n st, is_fault (visit_lines visit l n st) = false.
Proof.
  induction l as [|x l IH]; intros n st; simpl; [done|].
  pose proof (visit_no_fault x (n + 1) st). by destruct (visit x (n + 1) st); simpl.
Qed.

(** What the loop must return when [content] is still to be visited. *)
Definition visits (content : list Z) (n total : Z) (st : St) (r : outcome E (Z * St)) : Prop :=
  match from_utf8 content with
  | Some text =>
      r = '(_, st') ← visit_lines visit (split_terminator newline text) n st; mret (total, st')
  | None => ∃ e, r = Err e
  end.

(** Visiting the complete lines [a] first. *)
Lemma visits_app a b n total st r :
  (∀ s n' st', from_utf8 a = Some s →
     visit_lines visit (split_terminator newline (s ++ [newline])) n st = Ok (n', st') →
     visits b n' total st' (r n' st')) →
  visits (a ++ newline :: b) n total st
    (match from_utf8 (a ++ [newline]) with
     | None => Err io_error
     | Some text =>
         '(n', st') ← visit_lines visit (split_terminator newline text) n st; r n' st'
     end).
Proof using visit_no_fault.
  intros Hr. unfold visits in *. rewrite !from_utf8_app. cbn [from_utf8].
  destruct (from_utf8 a) as [s|] eqn:Es; simpl; [|eauto].
  specialize (Hr s). pose proof (visit_lines_no_fault (split_terminator newline (s ++ [newline])) n st) as Hnf.
  destruct (visit_lines _ (split_terminator newline (s ++ [newline])) n st) as [[n' st']|e|] eqn:Ev;
    [| |done]; simpl.
  - specialize (Hr n' st' eq_refl eq_refl). destruct (from_utf8 b) as [t|]; simpl; [|done].
    rewrite Hr, split_terminator_app, visit_lines_app, Ev. done.
  - destruct (from_utf8 b) as [t|]; simpl; [|eauto].
    by rewrite split_terminator_app, visit_lines_app, Ev.
Qed.

Lemma read_size_pos ev room : 0 < room → 1 <= read_size ev room <= room.
Proof. destruct ev as [[]|]; simpl; lia. Qed.

(** One read of [k > 0] bytes, when what follows is handled correctly. *)
Lemma after_read_spec next k rest buffer n bytes st :
  (0 < k)%nat →
  (∀ b' n' st', rest ≠ [] → (length b' <= length buffer + k)%nat →
     visits (b' ++ drop k rest) n' (bytes + len rest) st'
       (next b' n' (bytes + len (take k rest)) st')) →
  visits (buffer ++ rest) n (bytes + len rest) st
    (after_read io_error visit next (take k rest) buffer n bytes st).
Proof using visit_no_fault.
  intros Hk Hnext. unfold after_read. destruct rest as [|x rest].
  { rewrite take_nil. change (len [] =? 0) with true. cbv iota.
    rewrite take_ge, !app_nil_r by done. unfold visits, len at 1. simpl. rewrite Z.add_0_r.
    destruct (from_utf8 buffer); eauto. }
  assert ((len (take k (x :: rest)) =? 0) = false) as -> by (destruct k; [lia|done]).
  assert (Hne : x :: rest ≠ []) by done.
  set (all := x :: rest) in *. set (buf := buffer ++ take k all).
  assert (length buf <= length buffer + k)%nat as Hlen
    by (unfold buf; rewrite length_app, length_take; lia).
  assert (buffer ++ all = take (line_end buf) buf ++ drop (line_end buf) buf ++ drop k all) as ->.
  { rewrite app_assoc, take_drop. unfold buf. by rewrite <-app_assoc, take_drop. }
  assert (length (drop (line_end buf) buf) <= length buffer + k)%nat by (rewrite length_drop; lia).
  destruct (line_end_newline buf) as [E0|[a Ha]].
  - rewrite E0. simpl. rewrite <-E0. by apply Hnext.
  - rewrite Ha, <-app_assoc. simpl app.
    apply (visits_app a _ n _ st (λ n' st', next _ n' (bytes + len (take k all)) st')).
    intros. by apply Hnext.
Qed.

Lemma visit_loop_spec fuel : ∀ evs rest buffer cap n bytes st,
  Failed ∉ evs → len buffer <= cap → 0 < cap → (length evs + length rest < fuel)%nat →
  visits (buffer ++ rest) n (bytes + len rest) st
    (visit_loop io_error visit fuel evs rest buffer cap n bytes st).
Proof using visit_no_fault.
  induction fuel as [|fuel IH]; intros evs rest buffer cap n bytes st Hf Hb Hc Hfuel; [lia|].
  cbn [visit_loop]. set (cap' := if len buffer =? cap then cap * 2 else cap).
  assert (len buffer < cap') as Hroom
    by (unfold cap'; destruct (Z.eqb_spec (len buffer) cap); lia).
  pose proof (len_nonneg buffer).
  assert (Failed ∉ tail evs ∧ (length (tail evs) <= length evs)%nat) as [Hf' Hl']
    by (destruct evs; set_solver).
  assert (∀ ev, let k := Z.to_nat (read_size ev (cap' - len buffer)) in
    visits (buffer ++ rest) n (bytes + len rest) st
      (after_read io_error visit (λ b, visit_loop io_error visit fuel (tail evs) (drop k rest) b cap')
         (take k rest) buffer n bytes st)) as Hread.
  { intros ev k. pose proof (read_size_pos ev (cap' - len buffer) ltac:(lia)).
    apply after_read_spec; [lia|]. intros b' n' st' Hne Hb'.
    assert (bytes + len rest = bytes + len (take k rest) + len (drop k rest)) as ->.
    { rewrite <-(take_drop k rest) at 1. unfold len. rewrite length_app. lia. }
    apply IH; [done|unfold len in *; lia|lia|].
    rewrite length_drop. destruct rest; [done|]. simpl in *. lia. }
  destruct (head evs) as [[]|] eqn:Eh; [|destruct evs; set_solver|apply Hread..].
  apply IH; [done|lia|lia|]. destruct evs; [done|]. simpl in *. lia.
Qed.
End VisitProofs.

(** C17 (functional). However the operating system splits the reads, and however
    often it interrupts them, the visitor is called on the lines of the whole
    text, in order and numbered from 1, and the byte count is the file's; if the
    file is not UTF-8 the result is an error. The buffer always has room, so a
    line of any length is read completely, and the loop ends. *)
Theorem visit_file_lines_reads_every_line {E St : Type} (io_error : E)
    (visit : list Z → Z → St → outcome E St) evs content st :
  (∀ l n st, is_fault (visit l n st) = false) → Failed ∉ evs →
  match from_utf8 content with
  | Some text =>
      visit_file_lines io_error visit evs content st =
        '(_, st') ← visit_lines visit (split_terminator newline text) 0 st;
        mret (len content, st')
  | None => ∃ e, visit_file_lines io_error visit evs content st = Err e
  end.
Proof.
  intros Hv Hf. apply (visit_loop_spec io_error visit Hv _ evs content [] _ 0 0 st); [done|..].
  - done.
  - done.
  - lia.
Qed.

(** A file of two lines and an unfinished third one, read one byte, then two
    bytes, then the rest, with an interruption. *)
Lemma visit_file_lines_reads_every_line_witness :
  visit_file_lines () (λ l n seen, Ok (seen ++ [(n, l)])) [Upto 1; Interrupted; Upto 2]
    (as_bytes [49; 10; 233; 10; 50]) [] =
  Ok (6, [(1, [49]); (2, [233]); (3, [50])]).
Proof.
  refine (visit_file_lines_reads_every_line () (λ l n seen, Ok (seen ++ [(n, l)]))
    [Upto 1; Interrupted; Upto 2] (as_bytes [49; 10; 233; 10; 50]) [] _ _); [done|by_decide].
Defined.
