(* ===== verification/Cidr.v ===== *)
(** * CIDR blocks and punching holes into them

    The networks of the [ipnet] crate are an interface (its documented
    constructors, accessors and containment test, for IPv4 and IPv6 at once);
    on top of it, [exclude_v4_from_cidr] and [exclude_v6_from_cidr] of
    [src/firehol/parser.rs], which differ only in the width of addresses. *)
From stdpp Require Import base numbers list gmap fin_maps strings sorting.
From Stdlib Require Import ZArith Lia.
From S2P Require Import Prelude Net BpfMaps Str.

Local Open Scope Z_scope.

(** [Ipv4Net] ([n = 4]) and [Ipv6Net] ([n = 16]); addresses as integers. *)
Class IpNet (n : nat) (T : Type) : Type := {
  net_new : Z → Z → option T;
  net_addr : T → Z;
  net_prefix_len : T → Z;
  net_network : T → Z;
  net_contains : T → Z → bool;
  net_addr_range t : in_width (8 * Z.of_nat n) (net_addr t);
  net_prefix_range t : 0 <= net_prefix_len t <= 8 * Z.of_nat n;
  net_new_spec a p : in_width (8 * Z.of_nat n) a → 0 <= p <= 8 * Z.of_nat n →
    ∃ t, net_new a p = Some t ∧ net_addr t = a ∧ net_prefix_len t = p;
  net_network_spec t :
    net_network t = Z.land (net_addr t) (mask (8 * Z.of_nat n) (net_prefix_len t));
  net_contains_spec t ip : in_width (8 * Z.of_nat n) ip →
    net_contains t ip = prefix_eqb (8 * Z.of_nat n) (net_prefix_len t) (net_addr t) ip;
}.

(** ** Text form of networks (interface): [IpNet::from_str] and
    [Ipv6Net::from_str]. *)
Inductive ParsedNet (N4 N6 : Type) : Type := NetV4 (t : N4) | NetV6 (t : N6).
Arguments NetV4 {N4 N6} _.
Arguments NetV6 {N4 N6} _.

Class IpNetText (N4 N6 : Type) : Type := {
  IpNet_from_str : list Z → option (ParsedNet N4 N6);
  Ipv6Net_from_str : list Z → option N6;
  (** CIDR notation has a slash. *)
  IpNet_from_str_slash s : is_Some (IpNet_from_str s) → 47 ∈ s;
}.

Lemma lor_2_1 q : Z.lor (2 * q) 1 = 2 * q + 1.
Proof.
  apply Z.bits_inj'. intros i Hi. rewrite Z.lor_spec.
  destruct (decide (i = 0)) as [->|Hne].
  - by rewrite Z.testbit_even_0, Z.testbit_odd_0.
  - replace i with (Z.succ (i - 1)) by lia.
    rewrite Z.testbit_even_succ, Z.testbit_odd_succ by lia.
    change 1 with (2 * 0 + 1) at 2. rewrite Z.testbit_odd_succ, Z.testbit_0_l by lia.
    apply orb_false_r.
Qed.

(** [net.network().octets()] and [net.addr().octets()]. *)
Definition network_octets {n T} `{!IpNet n T} (t : T) : list Z :=
  to_be_bytes n (net_network (n := n) t).
Definition addr_octets {n T} `{!IpNet n T} (t : T) : list Z := to_be_bytes n (net_addr (n := n) t).

Section Exclude.
Context {n : nat} {T : Type} `{!IpNet n T}.
Notation w := (8 * Z.of_nat n).

(** The [while current.prefix_len() < w] loop. The fuel bounds its rounds;
    running out of it is a [Fault], as is [unwrap] on an error. *)
Fixpoint exclude_loop (fuel : nat) (current : T) (target_ip : Z) (result : list T)
    : outcome unit (list T) :=
  match fuel with
  | O => Fault
  | S fuel' =>
      if net_prefix_len current <? w then
        let p := net_prefix_len current in
        let base := net_network current in
        match net_new base (p + 1),
              net_new (Z.lor base (Z.shiftl 1 (w - 1 - p))) (p + 1) with
        | Some half0, Some half1 =>
            if net_contains half0 target_ip
            then exclude_loop fuel' half0 target_ip (result ++ [half1])
            else exclude_loop fuel' half1 target_ip (result ++ [half0])
        | _, _ => Fault
        end
      else Ok result
  end.

Definition exclude_from_cidr (net : T) (target_ip : Z) : outcome unit (list T) :=
  if negb (net_contains net target_ip) then Ok [net]
  else exclude_loop (S (8 * n)) net target_ip [].

(** An address is in one of the networks. *)
Definition covered (l : list T) (ip : Z) : Prop := ∃ t, t ∈ l ∧ net_contains t ip = true.

(** Networks no two of which share an address. *)
Fixpoint disjoint_nets (l : list T) : Prop :=
  match l with
  | [] => True
  | t :: l' =>
      (∀ u ip, u ∈ l' → in_width w ip → net_contains t ip = true → net_contains u ip = false)
      ∧ disjoint_nets l'
  end.

(** ** The two halves of a network *)

Lemma lor_bit base p :
  0 <= p < w → in_width w base →
  Z.lor (Z.land base (mask w p)) (Z.shiftl 1 (w - 1 - p)) =
  Z.shiftl (2 * Z.shiftr base (w - p) + 1) (w - 1 - p).
Proof.
  intros Hp Hb. rewrite land_mask by (done || lia). set (q := Z.shiftr base (w - p)).
  replace (w - p) with (1 + (w - 1 - p)) by lia.
  rewrite <-Z.shiftl_shiftl by lia. rewrite <-Z.shiftl_lor. f_equal.
  rewrite Z.shiftl_mul_pow2, Z.mul_comm by lia. apply lor_2_1.
Qed.

(** Splitting a network at its next bit gives two networks of one more bit
    that share no address and together hold the same addresses. *)
Lemma halves cur :
  net_prefix_len cur < w →
  ∃ h0 h1,
    net_new (net_network cur) (net_prefix_len cur + 1) = Some h0 ∧
    net_new (Z.lor (net_network cur) (Z.shiftl 1 (w - 1 - net_prefix_len cur)))
      (net_prefix_len cur + 1) = Some h1 ∧
    net_prefix_len h0 = net_prefix_len cur + 1 ∧ net_prefix_len h1 = net_prefix_len cur + 1 ∧
    net_network h0 = net_addr h0 ∧ net_network h1 = net_addr h1 ∧
    ∀ ip, in_width w ip →
      net_contains cur ip = net_contains h0 ip || net_contains h1 ip ∧
      net_contains h0 ip && net_contains h1 ip = false.
Proof.
  intros Hlt. pose proof (net_prefix_range cur) as Hp. pose proof (net_addr_range cur) as Ha.
  rewrite net_network_spec. set (p := net_prefix_len cur) in *. set (a := net_addr cur) in *.
  set (q := Z.shiftr a (w - p)). set (k := w - 1 - p).
  assert (Hq : 0 <= q < 2 ^ p).
  { unfold q. rewrite Z.shiftr_div_pow2 by lia. destruct Ha as [Ha0 Ha1].
    rewrite (pow2_split w p) in Ha1 by lia.
    assert (0 < 2 ^ (w - p)) by (apply Z.pow_pos_nonneg; lia).
    split; [apply Z.div_pos; lia|apply Z.div_lt_upper_bound; lia]. }
  assert (Hw : 2 ^ w = 2 ^ p * (2 * 2 ^ k)).
  { rewrite <-(Z.pow_succ_r 2 k), <-Z.pow_add_r by lia. f_equal. lia. }
  assert (Hk : 0 < 2 ^ k) by (apply Z.pow_pos_nonneg; lia).
  assert (B0 : Z.land a (mask w p) = Z.shiftl (2 * q) k).
  { rewrite land_mask by (done || lia). fold q. rewrite !Z.shiftl_mul_pow2 by lia.
    replace (w - p) with (Z.succ k) by lia. rewrite Z.pow_succ_r by lia. lia. }
  assert (B1 : Z.lor (Z.land a (mask w p)) (Z.shiftl 1 k) = Z.shiftl (2 * q + 1) k)
    by (apply lor_bit; done || lia).
  assert (Hr : ∀ b, 0 <= b <= 1 → in_width w (Z.shiftl (2 * q + b) k) ∧
    Z.land (Z.shiftl (2 * q + b) k) (mask w (p + 1)) = Z.shiftl (2 * q + b) k ∧
    Z.shiftr (Z.shiftl (2 * q + b) k) k = 2 * q + b).
  { intros b Hb. assert (in_width w (Z.shiftl (2 * q + b) k)) as Hin.
    { unfold in_width. rewrite Z.shiftl_mul_pow2, Hw by lia. nia. }
    assert (Z.shiftr (Z.shiftl (2 * q + b) k) k = 2 * q + b) as Hs.
    { rewrite Z.shiftr_shiftl_l, Z.sub_diag, Z.shiftl_0_r by lia. done. }
    split_and!; [done| |done].
    rewrite land_mask by (done || lia). replace (w - (p + 1)) with k by lia. by rewrite Hs. }
  destruct (Hr 0) as (I0 & M0 & S0); [lia|]. destruct (Hr 1) as (I1 & M1 & S1); [lia|].
  rewrite Z.add_0_r in I0, M0, S0. rewrite B1, B0.
  destruct (net_new_spec (T := T) _ (p + 1) I0) as (h0 & -> & A0 & P0); [lia|].
  destruct (net_new_spec (T := T) _ (p + 1) I1) as (h1 & -> & A1 & P1); [lia|].
  exists h0, h1. rewrite !net_network_spec, P0, P1, A0, A1, M0, M1. split_and!; [done..|].
  intros ip Hip. rewrite !net_contains_spec by done. fold p a. rewrite P0, P1, A0, A1.
  unfold prefix_eqb. fold q. replace (w - (p + 1)) with k by lia. rewrite S0, S1.
  replace (w - p) with (k + 1) by lia. rewrite <-(Z.shiftr_shiftr ip k 1) by lia.
  rewrite (Z.shiftr_div_pow2 _ 1) by lia. change (2 ^ 1) with 2.
  set (s := Z.shiftr ip k). pose proof (Z.div_mod s 2). pose proof (Z.mod_pos_bound s 2).
  split; repeat case_bool_decide; case_Z; simpl; try done; lia.
Qed.

(** [R] is [cur] without the one address [target]: disjoint networks, one per
    remaining bit, that hold every address of [cur] but the target. *)
Record punched (cur : T) (target : Z) (R : list T) : Prop := {
  punched_length : len R = w - net_prefix_len cur;
  punched_disjoint : disjoint_nets R;
  punched_nets :
    Forall (λ t, net_network t = net_addr t ∧ net_prefix_len cur < net_prefix_len t) R;
  punched_cover ip :
    in_width w ip → covered R ip ↔ net_contains cur ip = true ∧ ip ≠ target;
}.

(** [h] and [h'] are the two halves of [cur]. *)
Definition halves_of (cur h h' : T) : Prop :=
  net_prefix_len h = net_prefix_len cur + 1 ∧ net_prefix_len h' = net_prefix_len cur + 1 ∧
  net_network h' = net_addr h' ∧
  ∀ ip, in_width w ip → net_contains cur ip = net_contains h ip || net_contains h' ip ∧
    net_contains h ip && net_contains h' ip = false.

Lemma punched_step cur h h' target R :
  halves_of cur h h' → in_width w target → net_contains h target = true →
  punched h target R → punched cur target (h' :: R).
Proof.
  intros (Ph & Ph' & Nh' & Hhs) Ht Hch [Hl Hd HF Hcov].
  split.
  - unfold len in *. cbn [length]. lia.
  - split; [|done]. intros u ip Hu Hip Hch'. destruct (net_contains u ip) eqn:Hcu; [|done].
    destruct (proj1 (Hcov ip Hip)) as [Hhip _]; [by exists u|].
    destruct (Hhs ip Hip) as [_ Hx]. by rewrite Hhip, Hch' in Hx.
  - constructor; [split; [done|lia]|]. eapply Forall_impl; [exact HF|]. simpl.
    intros ? []. split; [done|lia].
  - intros ip Hip. destruct (Hhs ip Hip) as [-> Hx]. unfold covered in *. split.
    + intros (t & [->|HtR]%elem_of_cons & Hct).
      * rewrite Hct, orb_true_r. split; [done|]. intros ->. by rewrite Hch, Hct in Hx.
      * destruct (proj1 (Hcov ip Hip)) as [-> ?]; [by exists t|]. done.
    + intros [Hor Hne]. destruct (net_contains h ip) eqn:Hhip.
      * destruct (proj2 (Hcov ip Hip)) as (t & HtR & Hct); [done|]. exists t.
        split; [by right|done].
      * exists h'. split; [by left|done].
Qed.

Lemma punched_single cur target :
  net_prefix_len cur = w → in_width w target → net_contains cur target = true →
  punched cur target [].
Proof.
  intros Hp Ht Hc. split; [unfold len; simpl; lia|done|constructor|].
  intros ip Hip. unfold covered. split; [intros (t & []%elem_of_nil & _)|].
  intros [Hci Hne]. exfalso. rewrite net_contains_spec in Hci, Hc by done.
  rewrite Hp, prefix_eqb_full in *. bool_Z. congruence.
Qed.

Lemma exclude_loop_spec fuel : ∀ cur target result,
  (Z.to_nat (w - net_prefix_len cur) < fuel)%nat → in_width w target →
  net_contains cur target = true →
  ∃ R, exclude_loop fuel cur target result = Ok (result ++ R) ∧ punched cur target R.
Proof.
  induction fuel as [|fuel IH]; intros cur target result Hf Ht Hc; [lia|].
  pose proof (net_prefix_range cur) as Hp. cbn [exclude_loop].
  destruct (Z.ltb_spec (net_prefix_len cur) w) as [Hlt|Hge].
  2: { exists []. rewrite app_nil_r. split; [done|]. apply punched_single; done || lia. }
  destruct (halves cur Hlt) as (h0 & h1 & -> & -> & P0 & P1 & N0 & N1 & Hh).
  assert (Hgo : ∀ h h', halves_of cur h h' → net_contains h target = true →
    ∃ R, exclude_loop fuel h target (result ++ [h']) = Ok (result ++ R) ∧ punched cur target R).
  { intros h h' Hhh Hch.
    destruct (IH h target (result ++ [h'])) as (R & -> & HR); [|done..|].
    { destruct Hhh as (-> & _). lia. }
    exists (h' :: R). rewrite <-app_assoc. split; [done|]. by eapply punched_step. }
  destruct (net_contains h0 target) eqn:H0; apply Hgo; try done.
  - split_and!; try done. intros ip Hip. destruct (Hh ip Hip). by rewrite orb_comm, andb_comm.
  - destruct (Hh target Ht) as [Hx _]. by rewrite Hc, H0 in Hx.
Qed.

Lemma exclude_from_cidr_spec net target :
  in_width w target →
  ∃ R, exclude_from_cidr net target = Ok R ∧ disjoint_nets R ∧
    (∀ ip, in_width w ip → covered R ip ↔ net_contains net ip = true ∧ ip ≠ target) ∧
    if net_contains net target then punched net target R else R = [net].
Proof.
  intros Ht. unfold exclude_from_cidr. destruct (net_contains net target) eqn:Hc; osimpl.
  - pose proof (net_prefix_range net).
    destruct (exclude_loop_spec (S (8 * n)) net target []) as (R & -> & HR); [lia|done..|].
    exists R. split_and!; [done|apply HR|apply HR|done].
  - exists [net]. split_and!; [done|split; [|done]; by intros ?? ?%elem_of_nil| |done].
    intros ip Hip. unfold covered. split.
    + intros (t & ->%list_elem_of_singleton & Hct). split; [done|]. intros ->. congruence.
    + intros [? _]. exists net. by rewrite list_elem_of_singleton.
Qed.
End Exclude.

(** [exclude_v4_from_cidr] and [exclude_v6_from_cidr]. *)
Definition exclude_v4_from_cidr {T} `{!IpNet 4 T} : T → Z → outcome unit (list T) :=
  exclude_from_cidr (n := 4).
Definition exclude_v6_from_cidr {T} `{!IpNet 16 T} : T → Z → outcome unit (list T) :=
  exclude_from_cidr (n := 16).

(** ** An executable network type *)
Definition net_okb (n : nat) (a p : Z) : bool :=
  (0 <=? a) && (a <? 2 ^ (8 * Z.of_nat n)) && (0 <=? p) && (p <=? 8 * Z.of_nat n).

Record Net (n : nat) : Type := mkNet {
  nt_addr : Z; nt_prefix : Z; nt_ok : net_okb n nt_addr nt_prefix = true }.
Arguments mkNet {n} _ _ _.
Arguments nt_addr {n} _.
Arguments nt_prefix {n} _.

Definition nt_new {n} (a p : Z) : option (Net n) :=
  match decide (net_okb n a p = true) with
  | left H => Some (mkNet a p H)
  | right _ => None
  end.

Lemma nt_range {n} (t : Net n) :
  in_width (8 * Z.of_nat n) (nt_addr t) ∧ 0 <= nt_prefix t <= 8 * Z.of_nat n.
Proof. destruct t as [a p H]. unfold net_okb in H. simpl. bool_Z. unfold in_width. lia. Qed.

Lemma nt_new_spec {n} a p :
  in_width (8 * Z.of_nat n) a → 0 <= p <= 8 * Z.of_nat n →
  ∃ t : Net n, nt_new a p = Some t ∧ nt_addr t = a ∧ nt_prefix t = p.
Proof.
  intros [] []. unfold nt_new. destruct (decide _) as [Hok|Hok]; [by eexists|].
  destruct Hok. unfold net_okb. rewrite !andb_true_iff, !Z.leb_le, Z.ltb_lt. lia.
Qed.

#[global] Program Instance Net_IpNet n : IpNet n (Net n) := {|
  net_new := nt_new;
  net_addr := nt_addr;
  net_prefix_len := nt_prefix;
  net_network t := Z.land (nt_addr t) (mask (8 * Z.of_nat n) (nt_prefix t));
  net_contains t ip := prefix_eqb (8 * Z.of_nat n) (nt_prefix t) (nt_addr t) ip;
|}.
Next Obligation. intros n t. apply nt_range. Qed.
Next Obligation. intros n t. apply nt_range. Qed.
Next Obligation. intros n a p. apply nt_new_spec. Qed.
Next Obligation. done. Qed.
Next Obligation. done. Qed.

(** C21 (functional). Punching one address out of a CIDR block: the loop ends, the
    networks it returns share no address, and together they hold exactly the
    addresses of the block except the excluded one; when the address was in
    the block they are one network per remaining prefix bit, each given by its
    network address. For IPv4 and IPv6. *)
Theorem exclude_from_cidr_exact {n T} `{!IpNet n T} (net : T) (target : Z) :
  in_width (8 * Z.of_nat n) target →
  ∃ R, exclude_from_cidr (n := n) net target = Ok R ∧ disjoint_nets (n := n) R ∧
    (∀ ip, in_width (8 * Z.of_nat n) ip →
       covered (n := n) R ip ↔ net_contains (n := n) net ip = true ∧ ip ≠ target) ∧
    if net_contains (n := n) net target then punched (n := n) net target R else R = [net].
Proof. apply exclude_from_cidr_spec. Qed.

Lemma exclude_from_cidr_exact_witness :
  ∃ net : Net 4, nt_new 0x0A000000 30 = Some net ∧
  ∃ R, exclude_v4_from_cidr net 0x0A000002 = Ok R ∧
    (nt_addr <$> R) = [0x0A000000; 0x0A000003] ∧
    ¬ covered (n := 4) R 0x0A000002.
Proof.
  eexists. split; [vm_compute; reflexivity|].
  destruct (exclude_from_cidr_exact (n := 4) (@mkNet 4 0x0A000000 30 eq_refl) 0x0A000002)
    as (R & HR & _ & Hcov & _); [by_decide|].
  exists R. split; [exact HR|]. split.
  - vm_compute in HR. injection HR as <-. reflexivity.
  - rewrite Hcov by by_decide. by intros [_ []].
Defined.


(** A network text parser for IPv4: an address, a slash, a decimal prefix length. *)
Definition demo_net_text (s : list Z) : option (ParsedNet (Net 4) (Net 16)) :=
  '(addr, prefix) ← split_once 47 s;
  octets ← parse_with read_ipv4_addr (as_bytes addr);
  p ← parse_with (read_number 10 255 3 false) (as_bytes prefix);
  NetV4 <$> nt_new (from_be_bytes octets) p.
#[global] Program Instance demo_IpNetText : IpNetText (Net 4) (Net 16) :=
  {| IpNet_from_str := demo_net_text; Ipv6Net_from_str _ := None |}.
Next Obligation.
  intros s [t H]. unfold demo_net_text in H.
  destruct (split_once 47 s) as [[a p]|] eqn:E; [|done]. clear H. revert a p E.
  induction s as [|x s IH]; intros a p E; simpl in E; [done|].
  destruct (Z.eqb_spec x 47) as [->|]; [apply list_elem_of_here|].
  destruct (split_once 47 s) as [[a' p']|]; [|done]. by eapply list_elem_of_further, IH.
Qed.
