(* ===== verification/Entry.v ===== *)
(** * FireHOL targets and entries ([src/firehol/entry.rs]), cache keys
    ([src/cache_rocksdb.rs])

    The four kinds of target, their containment test, their key in the RocksDB
    column families and the 30-byte record of an entry in the import spool. *)
From stdpp Require Import base numbers list gmap fin_maps strings sorting.
From Stdlib Require Import ZArith Lia.
From S2P Require Import Prelude Net BpfMaps.

Local Open Scope Z_scope.

Inductive FireholIpTarget : Type :=
| TExactV4 (ip : list Z)
| TExactV6 (ip : list Z)
| TCidrV4 (prefix : Z) (net : list Z)
| TCidrV6 (prefix : Z) (net : list Z).
#[global] Instance FireholIpTarget_eq_dec : EqDecision FireholIpTarget.
Proof. solve_decision. Defined.
#[global] Instance FireholIpTarget_countable : Countable FireholIpTarget.
Proof.
  refine (inj_countable'
    (λ t, match t with
          | TExactV4 o => (0, 0, o) | TExactV6 o => (1, 0, o)
          | TCidrV4 p o => (2, p, o) | TCidrV6 p o => (3, p, o)
          end)
    (λ x, match x with
          | (0, _, o) => TExactV4 o | (1, _, o) => TExactV6 o
          | (2, p, o) => TCidrV4 p o | (_, p, o) => TCidrV6 p o
          end) _).
  by intros [].
Defined.

(** Fields hold values of their Rust types, and networks are network addresses. *)
Definition target_ok (t : FireholIpTarget) : Prop :=
  match t with
  | TExactV4 ip => bytes_ok 4 ip
  | TExactV6 ip => bytes_ok 16 ip
  | TCidrV4 p net => lpm_key_ok 4 (p, net)
  | TCidrV6 p net => lpm_key_ok 16 (p, net)
  end.
#[global] Instance target_ok_dec t : Decision (target_ok t).
Proof. destruct t; simpl; apply _. Defined.

(** ** Cache keys *)
Definition TAG_V4_EXACT : Z := 0x01.
Definition TAG_V6_EXACT : Z := 0x02.
Definition TAG_V4_LPM : Z := 0x03.
Definition TAG_V6_LPM : Z := 0x04.

Definition metadata_key (id : Z) : list Z := to_be_bytes 4 id.
Definition ctx_key_v4_exact (octets : list Z) : list Z := TAG_V4_EXACT :: octets.
Definition ctx_key_v6_exact (octets : list Z) : list Z := TAG_V6_EXACT :: octets.
Definition ctx_key_v4_lpm (prefix : Z) (net : list Z) : list Z := TAG_V4_LPM :: prefix :: net.
Definition ctx_key_v6_lpm (prefix : Z) (net : list Z) : list Z := TAG_V6_LPM :: prefix :: net.

Definition context_key (t : FireholIpTarget) : list Z :=
  match t with
  | TExactV4 ip => ctx_key_v4_exact ip
  | TExactV6 ip => ctx_key_v6_exact ip
  | TCidrV4 prefix ip => ctx_key_v4_lpm (wrap_u8 prefix) ip
  | TCidrV6 prefix ip => ctx_key_v6_lpm (wrap_u8 prefix) ip
  end.

(** ** Target operations *)

(** [uN::MAX.checked_shl(w - p).unwrap_or(0)], the subtraction in [u32]. *)
Definition cidr_mask (w p : Z) : Z :=
  match checked_shl w (2 ^ w - 1) (wrap_u32 (w - p)) with Some m => m | None => 0 end.

Definition contains_ip (t : FireholIpTarget) (ip : IpAddr) : bool :=
  match t, ip with
  | TExactV4 a, V4 b => bool_decide (a = b)
  | TExactV6 a, V6 b => bool_decide (a = b)
  | TCidrV4 p a, V4 b => Z.land (from_be_bytes b) (cidr_mask 32 p) =? from_be_bytes a
  | TCidrV6 p a, V6 b => Z.land (from_be_bytes b) (cidr_mask 128 p) =? from_be_bytes a
  | _, _ => false
  end.

Definition target_is_exact (t : FireholIpTarget) : bool :=
  match t with TExactV4 _ | TExactV6 _ => true | _ => false end.
Definition target_ip_version (t : FireholIpTarget) : Z :=
  match t with TExactV4 _ | TCidrV4 _ _ => 4 | TExactV6 _ | TCidrV6 _ _ => 6 end.
Definition target_entry_type (t : FireholIpTarget) : string :=
  if target_is_exact t then "exact" else "cidr".
Definition target_prefix_len (t : FireholIpTarget) : Z :=
  match t with
  | TExactV4 _ => 32 | TExactV6 _ => 128
  | TCidrV4 p _ => wrap_u8 p | TCidrV6 p _ => wrap_u8 p
  end.

(** ** Entries *)
Record FireholEntry : Type := mkEntry {
  fe_target : FireholIpTarget; fe_rule_id : Z; fe_metadata_id : Z; fe_line : Z }.
#[global] Instance FireholEntry_eq_dec : EqDecision FireholEntry.
Proof. solve_decision. Defined.

Definition entry_is_exact (e : FireholEntry) : bool := target_is_exact (fe_target e).
Definition entry_ip_version (e : FireholEntry) : Z := target_ip_version (fe_target e).
Definition entry_entry_type (e : FireholEntry) : string := target_entry_type (fe_target e).
Definition entry_prefix_len (e : FireholEntry) : Z := target_prefix_len (fe_target e).

Definition fe_ok (e : FireholEntry) : Prop :=
  target_ok (fe_target e) ∧ in_width 32 (fe_rule_id e) ∧ in_width 32 (fe_metadata_id e) ∧
  in_width 32 (fe_line e).
#[global] Instance fe_ok_dec e : Decision (fe_ok e).
Proof. unfold fe_ok. apply _. Defined.

(** The 18 leading bytes: kind, prefix, address padded to 16 octets. *)
Definition encode_target (t : FireholIpTarget) : list Z :=
  match t with
  | TExactV4 ip => 1 :: 0 :: ip ++ replicate 12 0
  | TExactV6 ip => 2 :: 0 :: ip
  | TCidrV4 p ip => 3 :: wrap_u8 p :: ip ++ replicate 12 0
  | TCidrV6 p ip => 4 :: wrap_u8 p :: ip
  end.
Definition encode (e : FireholEntry) : list Z :=
  encode_target (fe_target e) ++ to_be_bytes 4 (fe_rule_id e) ++
  to_be_bytes 4 (fe_metadata_id e) ++ to_be_bytes 4 (fe_line e).

Inductive CacheError : Type := InvalidLength | InvalidTarget.

Definition decode (bytes : list Z) : outcome CacheError FireholEntry :=
  if negb (len bytes =? 30) then Err InvalidLength else
  let kind := nth 0 bytes 0 in
  let prefix := nth 1 bytes 0 in
  let finish t := Ok (mkEntry t (from_be_bytes (slice bytes 18 4))
    (from_be_bytes (slice bytes 22 4)) (from_be_bytes (slice bytes 26 4))) in
  if kind =? 1 then finish (TExactV4 (slice bytes 2 4))
  else if kind =? 2 then finish (TExactV6 (slice bytes 2 16))
  else if (kind =? 3) && (prefix <=? 32) then finish (TCidrV4 prefix (slice bytes 2 4))
  else if (kind =? 4) && (prefix <=? 128) then finish (TCidrV6 prefix (slice bytes 2 16))
  else Err InvalidTarget.

(** ** Containment is prefix equality *)

Lemma cidr_mask_eq w p : 0 < w <= 128 → 0 <= p <= w → cidr_mask w p = mask w p.
Proof.
  intros Hw Hp. unfold cidr_mask. rewrite wrap_small by lia. apply shl_mask_eq; lia.
Qed.

Lemma contains_ip_cidr n p net o :
  (n = 4 ∨ n = 16)%nat → lpm_key_ok n (p, net) → bytes_ok n o →
  (Z.land (from_be_bytes o) (cidr_mask (8 * Z.of_nat n) p) =? from_be_bytes net)
  = octets_match p net o.
Proof.
  intros Hn Hk Ho. pose proof Hk as (Hp & Hnet & Hfix). simpl in *.
  rewrite cidr_mask_eq by lia. apply eq_true_iff_eq.
  rewrite <-network_eq_iff, Z.eqb_eq by done. rewrite <-from_network by done.
  split; [|by intros ->]. intros Heq.
  destruct Hnet as [Hl Hb]. destruct (network_ok n p o) as [Hl' Hb'].
  apply from_be_bytes_inj; [done..|by rewrite Hl, Hl'|done].
Qed.

(** What a target stands for: the addresses whose first bits are the network's. *)
Definition target_covers (t : FireholIpTarget) (ip : IpAddr) : Prop :=
  match t, ip with
  | TExactV4 a, V4 b => a = b
  | TExactV6 a, V6 b => a = b
  | TCidrV4 p a, V4 b => octets_match p a b = true
  | TCidrV6 p a, V6 b => octets_match p a b = true
  | _, _ => False
  end.

Lemma contains_ip_spec t ip :
  target_ok t → ip_ok ip → contains_ip t ip = true ↔ target_covers t ip.
Proof.
  intros Ht Hip. destruct t as [a|a|p a|p a], ip as [b|b]; simpl in *; try done.
  - by rewrite bool_decide_eq_true.
  - by rewrite bool_decide_eq_true.
  - by rewrite <-(contains_ip_cidr 4 p a b) by (done || by left).
  - by rewrite <-(contains_ip_cidr 16 p a b) by (done || by right).
Qed.

(** ** Keys *)
Lemma context_key_inj t u :
  target_ok t → target_ok u → context_key t = context_key u → t = u.
Proof.
  intros Ht Hu. destruct t as [a|a|p a|p a], u as [b|b|q b|q b]; intros [= H]; subst; try done;
    destruct Ht as (Hp & _), Hu as (Hq & _); simpl in *; rewrite !wrap_small in * by lia;
    by subst.
Qed.

(** ** Round trip of the spool record *)
Lemma encode_length e : fe_ok e → length (encode e) = 30%nat.
Proof.
  intros (Ht & _). unfold encode. rewrite !length_app, !length_to_be_bytes.
  destruct (fe_target e) as [a|a|p a|p a]; simpl in *;
    [destruct Ht as [Hl _]|destruct Ht as [Hl _]|destruct Ht as (_ & [Hl _] & _)
    |destruct Ht as (_ & [Hl _] & _)]; simpl in Hl; rewrite ?length_app, Hl; done.
Qed.

Lemma decode_fields (tgt r m l : list Z) :
  length tgt = 18%nat → length r = 4%nat → length m = 4%nat → length l = 4%nat →
  let b := tgt ++ r ++ m ++ l in
  slice b 18 4 = r ∧ slice b 22 4 = m ∧ slice b 26 4 = l ∧ slice b 2 4 = slice tgt 2 4 ∧
  slice b 2 16 = slice tgt 2 16 ∧ nth 0 b 0 = nth 0 tgt 0 ∧ nth 1 b 0 = nth 1 tgt 0.
Proof.
  intros. subst b.
  repeat match goal with
  | H : length ?l = _ |- _ => repeat (destruct l as [|? l]; try discriminate H); clear H
  end.
  repeat split.
Qed.

Lemma decode_encode e : fe_ok e → decode (encode e) = Ok e.
Proof.
  intros He. pose proof (encode_length e He) as Hlen. destruct He as (Ht & Hr & Hm & Hl).
  destruct e as [t r m l]; cbn [fe_target fe_rule_id fe_metadata_id fe_line] in *.
  unfold decode, encode in *. cbn [fe_target fe_rule_id fe_metadata_id fe_line] in *.
  unfold len. rewrite Hlen. cbn [negb Z.of_nat Z.eqb Pos.of_succ_nat Pos.succ Pos.eqb].
  assert (length (encode_target t) = 18%nat) as Htl.
  { rewrite !length_app, !length_to_be_bytes in Hlen. lia. }
  destruct (decode_fields (encode_target t) (to_be_bytes 4 r) (to_be_bytes 4 m) (to_be_bytes 4 l))
    as (-> & -> & -> & -> & -> & -> & ->); [done|apply length_to_be_bytes..|].
  rewrite !from_to_be_bytes_id by done. clear Hlen Htl.
  destruct t as [a|a|p a|p a]; cbn [encode_target nth target_ok] in *.
  - destruct Ht as [Ha _]. cbn [Z.eqb Pos.eqb]. do 3 f_equal.
    by repeat (destruct a as [|? a]; try discriminate Ha).
  - destruct Ht as [Ha _]. cbn [Z.eqb Pos.eqb]. do 3 f_equal.
    by repeat (destruct a as [|? a]; try discriminate Ha).
  - destruct Ht as (Hp & [Ha _] & _). cbn [fst snd] in *. rewrite wrap_small by lia.
    cbn [Z.eqb Pos.eqb andb]. rewrite (proj2 (Z.leb_le p 32)) by lia. do 3 f_equal.
    by repeat (destruct a as [|? a]; try discriminate Ha).
  - destruct Ht as (Hp & [Ha _] & _). cbn [fst snd] in *. rewrite wrap_small by lia.
    cbn [Z.eqb Pos.eqb andb]. rewrite (proj2 (Z.leb_le p 128)) by lia. do 3 f_equal.
    by repeat (destruct a as [|? a]; try discriminate Ha).
Qed.

(** C40 (round trip). Decoding the 30-byte spool record of an entry gives the
    entry back. *)
Theorem entry_encode_roundtrip e : fe_ok e → len (encode e) = 30 ∧ decode (encode e) = Ok e.
Proof.
  intros He. split; [unfold len; by rewrite encode_length|]. by apply decode_encode.
Qed.

Lemma entry_encode_roundtrip_witness :
  decode (encode (mkEntry (TCidrV4 8 [10; 0; 0; 0]) 77 3 1200)) =
  Ok (mkEntry (TCidrV4 8 [10; 0; 0; 0]) 77 3 1200).
Proof. apply entry_encode_roundtrip. by_decide. Defined.

