(* ===== verification/Metadata.v ===== *)
(** * FireHOL categories, metadata and the rule registry
    ([src/firehol/metadata.rs])

    The registry answers, for a rule identifier or an address, which blocklist
    files, lines and categories stand behind it. It keeps everything in memory,
    or, with a RocksDB cache, keeps the contexts on disk under the keys of
    [Entry]; the store is an interface here. *)
From stdpp Require Import base numbers list gmap fin_maps strings sorting.
From Stdlib Require Import ZArith Lia.
From S2P Require Import Prelude Net BpfMaps Str Entry.

Local Open Scope Z_scope.

(** ** Categories *)
Inductive FireholCategory : Type :=
| Abuse | Attacks | Malware | Spam | Proxy | Botnet | Unroutable | Anonymizers | Other.
#[global] Instance FireholCategory_eq_dec : EqDecision FireholCategory.
Proof. solve_decision. Defined.

Definition as_str (c : FireholCategory) : list Z :=
  match c with
  | Abuse => lit "abuse" | Attacks => lit "attacks" | Malware => lit "malware"
  | Spam => lit "spam" | Proxy => lit "proxy" | Botnet => lit "botnet"
  | Unroutable => lit "unroutable" | Anonymizers => lit "anonymizers" | Other => lit "other"
  end.

Definition category_id (c : FireholCategory) : Z :=
  match c with
  | Abuse => 1 | Attacks => 2 | Malware => 3 | Spam => 4 | Proxy => 5
  | Botnet => 6 | Unroutable => 7 | Anonymizers => 9 | Other => 8
  end.
Definition from_id (id : Z) : FireholCategory :=
  match id with
  | 1 => Abuse | 2 => Attacks | 3 => Malware | 4 => Spam | 5 => Proxy
  | 6 => Botnet | 7 => Unroutable | 9 => Anonymizers | _ => Other
  end.
#[global] Instance FireholCategory_countable : Countable FireholCategory.
Proof. refine (inj_countable' category_id from_id _). by intros []. Defined.

(** [str::to_lowercase]: ASCII letters here, other scalar values by the Unicode
    tables of the standard library. *)
Class Lowercase : Type := { lower_non_ascii : Z → list Z }.
Definition to_lowercase `{!Lowercase} (s : list Z) : list Z :=
  s ≫= λ c, if (65 <=? c) && (c <=? 90) then [c + 32]
            else if c <? 128 then [c] else lower_non_ascii c.

Definition category_table : list (list Z * FireholCategory) :=
  [(lit "abuse", Abuse); (lit "attacks", Attacks); (lit "attack", Attacks);
   (lit "malware", Malware); (lit "spam", Spam); (lit "spammer", Spam);
   (lit "proxy", Proxy); (lit "proxies", Proxy); (lit "botnet", Botnet);
   (lit "bots", Botnet); (lit "bot", Botnet); (lit "unroutable", Unroutable);
   (lit "unallocated", Unroutable); (lit "anonymizers", Anonymizers);
   (lit "anonymous", Anonymizers); (lit "anonymizer", Anonymizers)].
Definition parse_category `{!Lowercase} (s : list Z) : FireholCategory :=
  let key := to_lowercase (trim s) in
  match list_find (λ kv, kv.1 = key) category_table with
  | Some (_, (_, c)) => c
  | None => Other
  end.

(** ** Prefix tests and masks on octet arrays *)
Definition u32_prefix_mask (prefix : Z) : Z :=
  if prefix =? 0 then 0 else if 32 <=? prefix then 2 ^ 32 - 1
  else wrap_u32 (Z.shiftl (2 ^ 32 - 1) (32 - prefix)).
Definition prefix_contains_v4 (prefix : Z) (net ip : list Z) : bool :=
  Z.land (from_be_bytes net) (u32_prefix_mask prefix) =?
  Z.land (from_be_bytes ip) (u32_prefix_mask prefix).
Definition mask_v4 (prefix : Z) (ip : list Z) : list Z :=
  to_be_bytes 4 (Z.land (from_be_bytes ip) (u32_prefix_mask prefix)).

(** [0xFFu8 << (8 - rem)]. *)
Definition byte_mask (rem : Z) : Z := wrap_u8 (Z.shiftl 0xFF (8 - rem)).

(** Arrays are indexed within their bounds. *)
Definition prefix_contains_v6 (prefix : Z) (net ip : list Z) : bool :=
  let full_bytes := Z.to_nat (prefix / 8) in
  let rem_bits := prefix mod 8 in
  bool_decide (take full_bytes net = take full_bytes ip) &&
  (if (0 <? rem_bits) && (full_bytes <? 16)%nat then
     Z.land (nth full_bytes net 0) (byte_mask rem_bits) =?
     Z.land (nth full_bytes ip 0) (byte_mask rem_bits)
   else true).

Definition mask_v6 (prefix : Z) (ip : list Z) : list Z :=
  let full := Z.to_nat (prefix / 8) in
  let rem := prefix mod 8 in
  if (full <? 16)%nat then
    let out := if 0 <? rem
      then <[full := Z.land (nth full ip 0) (byte_mask rem)]> ip else ip in
    take (S full) out ++ replicate (16 - S full) 0
  else ip.

(** ** Metadata *)
Record FireholMetadata : Type := mkMetadata {
  md_id : Z;
  md_category : FireholCategory;
  md_source_url : option (list Z);
  md_maintainer : option (list Z);
  md_maintainer_url : option (list Z);
  md_source_file_date : option (list Z);
  md_file_name : list Z;
  md_version : option (list Z);
  md_update_frequency : option (list Z);
}.
Record RuleBlockContext : Type := mkContext {
  cx_files : list (list Z); cx_lines : list Z; cx_categories : list FireholCategory }.
#[global] Instance RuleBlockContext_eq_dec : EqDecision RuleBlockContext.
Proof. solve_decision. Defined.
Definition RuleBlockContext_default : RuleBlockContext := mkContext [] [] [].

Record FireholRuleInfo : Type := mkRuleInfo {
  ri_rule_id : Z; ri_metadata_id : Z; ri_category : FireholCategory; ri_line : Z }.
Record RuleBlockEntry : Type := mkBlockEntry {
  be_metadata_id : Z; be_category : FireholCategory; be_line : Z;
  be_block : option RuleBlockContext }.
Definition placeholder : RuleBlockEntry := mkBlockEntry 0 Other 0 None.

(** ** The disk store (interface): contexts by target key, metadata by id.
    [None] is an I/O error; a failed write changes nothing. A store in order
    ([st_ok]) answers every read, and writes keep it in order. *)
Class ContextStore (S : Type) : Type := {
  st_ok : S → Prop;
  st_contexts : S → gmap (list Z) RuleBlockContext;
  st_metadata : S → gmap (list Z) FireholMetadata;
  get_rule_context : S → list Z → option (option RuleBlockContext);
  get_metadata : S → list Z → option (option FireholMetadata);
  put_metadata : S → list Z → FireholMetadata → option S;
  write_contexts : S → list (list Z * RuleBlockContext) → option S;
}.
Class ContextStoreLaws (S : Type) `{ContextStore S} : Prop := {
  get_rule_context_spec s k : st_ok s → get_rule_context s k = Some (st_contexts s !! k);
  get_metadata_spec s k : st_ok s → get_metadata s k = Some (st_metadata s !! k);
  put_metadata_spec s k m s' : st_ok s → put_metadata s k m = Some s' →
    st_ok s' ∧ st_metadata s' = <[k := m]> (st_metadata s) ∧ st_contexts s' = st_contexts s;
  write_contexts_spec s l s' : st_ok s → write_contexts s l = Some s' →
    st_ok s' ∧ st_metadata s' = st_metadata s ∧
    st_contexts s' = list_to_map (reverse l) ∪ st_contexts s;
}.

(** [if !files.iter().zip(&lines).any(..) { push }; if !categories.contains(..) { push }]. *)
Definition add_source (cx : RuleBlockContext) (file : list Z) (line : Z)
    (category : FireholCategory) : RuleBlockContext :=
  let '(fs, ls) :=
    if existsb (λ fl, bool_decide (fl = (file, line))) (zip (cx_files cx) (cx_lines cx))
    then (cx_files cx, cx_lines cx) else (cx_files cx ++ [file], cx_lines cx ++ [line]) in
  mkContext fs ls
    (if bool_decide (category ∈ cx_categories cx) then cx_categories cx
     else cx_categories cx ++ [category]).

(** ** The registry *)
Section Registry.
Context {S : Type} `{!ContextStore S} `{!HashOrder}.

Record FireholMetadataRegistry : Type := mkRegistry {
  rg_cache : option S;
  rg_metadata_light : gmap Z (FireholCategory * list Z);
  rg_metadata_by_id : gmap Z FireholMetadata;
  rg_rules : list RuleBlockEntry;
  rg_rules_cache : list (Z * Z);
  rg_rule_count : nat;
  rg_category_counts : gmap FireholCategory nat;
  rg_blocklist_counts : gmap (list Z) nat;
  rg_v4_exact : gmap (list Z) RuleBlockContext;
  rg_v6_exact : gmap (list Z) RuleBlockContext;
  rg_v4_lpm : list (Z * list Z * RuleBlockContext);
  rg_v6_lpm : list (Z * list Z * RuleBlockContext);
}.
Implicit Types (r : FireholMetadataRegistry).

Definition registry_new : FireholMetadataRegistry :=
  mkRegistry None ∅ ∅ [] [] 0 ∅ ∅ ∅ ∅ [] [].
Definition with_cache (cache : S) : FireholMetadataRegistry :=
  mkRegistry (Some cache) ∅ ∅ [] [] 0 ∅ ∅ ∅ ∅ [] [].

Definition file_name_for r (metadata_id : Z) : option (list Z) :=
  match rg_cache r with
  | Some _ => snd <$> rg_metadata_light r !! metadata_id
  | None => md_file_name <$> rg_metadata_by_id r !! metadata_id
  end.
Definition category_for r (metadata_id : Z) : option FireholCategory :=
  match rg_cache r with
  | Some _ => fst <$> rg_metadata_light r !! metadata_id
  | None => md_category <$> rg_metadata_by_id r !! metadata_id
  end.

Definition set_metadata r cache light by_id : FireholMetadataRegistry :=
  mkRegistry cache light by_id (rg_rules r) (rg_rules_cache r) (rg_rule_count r)
    (rg_category_counts r) (rg_blocklist_counts r) (rg_v4_exact r) (rg_v6_exact r)
    (rg_v4_lpm r) (rg_v6_lpm r).

Definition try_register_metadata r (m : FireholMetadata)
    : outcome unit (FireholMetadataRegistry * Z) :=
  match rg_cache r with
  | Some cache =>
      match put_metadata cache (metadata_key (md_id m)) m with
      | Some cache' =>
          Ok (set_metadata r (Some cache')
                (<[md_id m := (md_category m, md_file_name m)]> (rg_metadata_light r))
                (rg_metadata_by_id r), md_id m)
      | None => Err ()
      end
  | None => Ok (set_metadata r None (rg_metadata_light r)
                  (<[md_id m := m]> (rg_metadata_by_id r)), md_id m)
  end.
Definition register_metadata r (m : FireholMetadata) : FireholMetadataRegistry * Z :=
  match try_register_metadata r m with Ok (r', id) => (r', id) | _ => (r, md_id m) end.

(** [vec.resize(idx + 1, default)] when the vector is too short. *)
Definition grow {A} (l : list A) (idx : nat) (d : A) : list A :=
  if (length l <=? idx)%nat then l ++ replicate (idx + 1 - length l) d else l.

(** [*map.entry(k).or_insert(0) += n]. *)
Definition bump {K} `{Countable K} (m : gmap K nat) (k : K) (n : nat) : gmap K nat :=
  <[k := (default 0 (m !! k) + n)%nat]> m.

Definition register_rule r (rule : FireholRuleInfo) : FireholMetadataRegistry :=
  let cats := bump (rg_category_counts r) (ri_category rule) 1 in
  let blocks := match file_name_for r (ri_metadata_id rule) with
    | Some name => bump (rg_blocklist_counts r) name 1
    | None => rg_blocklist_counts r end in
  let idx := Z.to_nat (ri_rule_id rule) in
  let '(rules, rules_cache) := match rg_cache r with
    | Some _ => (rg_rules r,
        <[idx := (ri_metadata_id rule, ri_line rule)]> (grow (rg_rules_cache r) idx (0, 0)))
    | None =>
        (<[idx := mkBlockEntry (ri_metadata_id rule) (ri_category rule) (ri_line rule) None]>
           (grow (rg_rules r) idx placeholder), rg_rules_cache r)
    end in
  mkRegistry (rg_cache r) (rg_metadata_light r) (rg_metadata_by_id r) rules rules_cache
    (rg_rule_count r + 1) cats blocks (rg_v4_exact r) (rg_v6_exact r) (rg_v4_lpm r) (rg_v6_lpm r).

Definition resolve_rule r (rule_id : Z) : option RuleBlockEntry :=
  match rg_cache r with
  | Some _ =>
      '(metadata_id, line) ← rg_rules_cache r !! Z.to_nat rule_id;
      if metadata_id =? 0 then None
      else Some (mkBlockEntry metadata_id (default Other (category_for r metadata_id)) line None)
  | None => rg_rules r !! Z.to_nat rule_id
  end.

Definition resolve_rule_block r (rule_id : Z) : option RuleBlockContext :=
  match rg_cache r with
  | Some _ =>
      '(metadata_id, line) ← rg_rules_cache r !! Z.to_nat rule_id;
      if metadata_id =? 0 then None else
      file_name ← file_name_for r metadata_id;
      Some (mkContext [file_name] [line] [default Other (category_for r metadata_id)])
  | None =>
      entry ← rg_rules r !! Z.to_nat rule_id;
      match be_block entry with
      | Some block => Some block
      | None =>
          meta ← rg_metadata_by_id r !! be_metadata_id entry;
          Some (mkContext [md_file_name meta] [be_line entry] [be_category entry])
      end
  end.

Definition resolve_metadata r (metadata_id : Z) : option FireholMetadata :=
  match rg_cache r with
  | Some cache => mjoin (get_metadata cache (metadata_key metadata_id))
  | None => rg_metadata_by_id r !! metadata_id
  end.

(** *** Contexts shared by the rules of one target *)
Definition by_target (entries : list FireholEntry) : gmap FireholIpTarget (list Z) :=
  fold_left (λ m e, <[fe_target e := default [] (m !! fe_target e) ++ [fe_rule_id e]]> m)
    entries ∅.

Definition rule_context r (rule_ids : list Z) : RuleBlockContext :=
  fold_left (λ cx rid,
    match rg_rules r !! Z.to_nat rid with
    | Some entry =>
        let '(fs, ls) :=
          match rg_metadata_by_id r !! be_metadata_id entry with
          | Some meta =>
              if existsb (λ fl, bool_decide (fl = (md_file_name meta, be_line entry)))
                   (zip (cx_files cx) (cx_lines cx))
              then (cx_files cx, cx_lines cx)
              else (cx_files cx ++ [md_file_name meta], cx_lines cx ++ [be_line entry])
          | None => (cx_files cx, cx_lines cx)
          end in
        mkContext fs ls
          (if bool_decide (be_category entry ∈ cx_categories cx) then cx_categories cx
           else cx_categories cx ++ [be_category entry])
    | None => cx
    end) rule_ids RuleBlockContext_default.

Definition set_block (rules : list RuleBlockEntry) (cx : RuleBlockContext) (rid : Z)
    : list RuleBlockEntry :=
  alter (λ e, mkBlockEntry (be_metadata_id e) (be_category e) (be_line e) (Some cx))
    (Z.to_nat rid) rules.

Definition set_rules r rules : FireholMetadataRegistry :=
  mkRegistry (rg_cache r) (rg_metadata_light r) (rg_metadata_by_id r) rules (rg_rules_cache r)
    (rg_rule_count r) (rg_category_counts r) (rg_blocklist_counts r) (rg_v4_exact r)
    (rg_v6_exact r) (rg_v4_lpm r) (rg_v6_lpm r).

Definition build_rule_block_index r (entries : list FireholEntry) : FireholMetadataRegistry :=
  match rg_cache r with
  | Some _ => r
  | None =>
      fold_left (λ r '(_, rule_ids),
        if (length rule_ids <=? 1)%nat then r
        else set_rules r
          (fold_left (λ rules rid, set_block rules (rule_context r rule_ids) rid) rule_ids
             (rg_rules r)))
        (map_iter (by_target entries)) r
  end.

(** *** The reverse index in memory *)
Definition index_step (by_id : gmap Z FireholMetadata)
    (acc : gmap FireholIpTarget (list (list Z * Z)) * gmap FireholIpTarget (list FireholCategory))
    (e : FireholEntry) :=
  let '(files_by_target, cats_by_target) := acc in
  match by_id !! fe_metadata_id e with
  | Some meta =>
      let files := default [] (files_by_target !! fe_target e) in
      let files' := if bool_decide ((md_file_name meta, fe_line e) ∈ files) then files
        else files ++ [(md_file_name meta, fe_line e)] in
      let cats := default [] (cats_by_target !! fe_target e) in
      let cats' := if bool_decide (md_category meta ∈ cats) then cats
        else cats ++ [md_category meta] in
      (<[fe_target e := files']> files_by_target, <[fe_target e := cats']> cats_by_target)
  | None => acc
  end.

Definition index_insert r (target : FireholIpTarget) (cx : RuleBlockContext)
    : FireholMetadataRegistry :=
  let '(v4, v6, l4, l6) := match target with
    | TExactV4 o => (<[o := cx]> (rg_v4_exact r), rg_v6_exact r, rg_v4_lpm r, rg_v6_lpm r)
    | TExactV6 o => (rg_v4_exact r, <[o := cx]> (rg_v6_exact r), rg_v4_lpm r, rg_v6_lpm r)
    | TCidrV4 p o => (rg_v4_exact r, rg_v6_exact r, rg_v4_lpm r ++ [(wrap_u8 p, o, cx)], rg_v6_lpm r)
    | TCidrV6 p o => (rg_v4_exact r, rg_v6_exact r, rg_v4_lpm r, rg_v6_lpm r ++ [(wrap_u8 p, o, cx)])
    end in
  mkRegistry (rg_cache r) (rg_metadata_light r) (rg_metadata_by_id r) (rg_rules r)
    (rg_rules_cache r) (rg_rule_count r) (rg_category_counts r) (rg_blocklist_counts r)
    v4 v6 l4 l6.

Definition clear_index r : FireholMetadataRegistry :=
  mkRegistry (rg_cache r) (rg_metadata_light r) (rg_metadata_by_id r) (rg_rules r)
    (rg_rules_cache r) (rg_rule_count r) (rg_category_counts r) (rg_blocklist_counts r)
    ∅ ∅ [] [].

Definition build_ip_index_ram r (entries : list FireholEntry) : FireholMetadataRegistry :=
  let '(files_by_target, cats_by_target) :=
    fold_left (index_step (rg_metadata_by_id r)) entries (∅, ∅) in
  fold_left (λ r '(target, files),
    index_insert r target
      (mkContext files.*1 files.*2 (default [] (cats_by_target !! target))))
    (map_iter files_by_target) (clear_index r).

(** *** The reverse index on disk *)

(** One batch merged into the stored contexts. *)
Definition merge_contexts r (cache : S) (entries : list FireholEntry)
    : option (gmap FireholIpTarget RuleBlockContext) :=
  fold_left (λ acc e,
    contexts ← acc;
    match rg_metadata_light r !! fe_metadata_id e with
    | None => Some contexts
    | Some (category, file) =>
        cx ← match contexts !! fe_target e with
             | Some cx => Some cx
             | None => default RuleBlockContext_default <$>
                         get_rule_context cache (context_key (fe_target e))
             end;
        Some (<[fe_target e := add_source cx file (fe_line e) category]>
                (contexts : gmap FireholIpTarget RuleBlockContext))
    end) entries (Some ∅).

Definition set_cache r (cache : S) : FireholMetadataRegistry :=
  set_metadata r (Some cache) (rg_metadata_light r) (rg_metadata_by_id r).

Definition cache_entry_contexts r (entries : list FireholEntry)
    : outcome unit FireholMetadataRegistry :=
  match rg_cache r with
  | None => Fault
  | Some cache =>
      match merge_contexts r cache entries with
      | None => Err ()
      | Some contexts =>
          match write_contexts cache
                  ((λ '(t, cx), (context_key t, cx)) <$> map_iter contexts) with
          | Some cache' => Ok (set_cache r cache')
          | None => Err ()
          end
      end
  end.

(** [entries.chunks(n)] for [n > 0]. *)
Fixpoint chunks {A} (fuel n : nat) (l : list A) : list (list A) :=
  match fuel, l with
  | O, _ | _, [] => []
  | Datatypes.S fuel', _ => take n l :: chunks fuel' n (drop n l)
  end.

Fixpoint cache_batches r (batches : list (list FireholEntry)) : FireholMetadataRegistry :=
  match batches with
  | [] => r
  | b :: rest =>
      match cache_entry_contexts r b with
      | Ok r' => cache_batches r' rest
      | _ => r
      end
  end.

Definition WORKER_BATCH_SIZE : nat := Z.to_nat 32768.
Definition build_ip_index r (entries : list FireholEntry) : FireholMetadataRegistry :=
  match rg_cache r with
  | Some _ => cache_batches r (chunks (length entries) WORKER_BATCH_SIZE entries)
  | None => build_ip_index_ram r entries
  end.

Definition register_cached_entry r (e : FireholEntry) : FireholMetadataRegistry :=
  let idx := Z.to_nat (fe_rule_id e) in
  mkRegistry (rg_cache r) (rg_metadata_light r) (rg_metadata_by_id r) (rg_rules r)
    (<[idx := (fe_metadata_id e, fe_line e)]> (grow (rg_rules_cache r) idx (0, 0)))
    (rg_rule_count r + 1) (rg_category_counts r) (rg_blocklist_counts r) (rg_v4_exact r)
    (rg_v6_exact r) (rg_v4_lpm r) (rg_v6_lpm r).

Definition count_cached_metadata r (id : Z) (count : nat) : FireholMetadataRegistry :=
  match rg_metadata_light r !! id with
  | Some (category, file) =>
      mkRegistry (rg_cache r) (rg_metadata_light r) (rg_metadata_by_id r) (rg_rules r)
        (rg_rules_cache r) (rg_rule_count r) (bump (rg_category_counts r) category count)
        (bump (rg_blocklist_counts r) file count) (rg_v4_exact r) (rg_v6_exact r)
        (rg_v4_lpm r) (rg_v6_lpm r)
  | None => r
  end.

(** *** Lookups by address *)

(** [for prefix in (0..=p).rev()]. *)
Fixpoint probe_prefixes (cache : S) (key : Z → list Z) (p : nat) : list RuleBlockContext :=
  let here := match get_rule_context cache (key (Z.of_nat p)) with
    | Some (Some cx) => [cx] | _ => [] end in
  match p with O => here | Datatypes.S p' => here ++ probe_prefixes cache key p' end.

Definition lookup_ip_v4 r (octets : list Z) : list RuleBlockContext :=
  if negb (length octets =? 4)%nat then [] else
  match rg_cache r with
  | Some cache =>
      match get_rule_context cache (ctx_key_v4_exact octets) with Some (Some cx) => [cx] | _ => [] end
      ++ probe_prefixes cache (λ p, ctx_key_v4_lpm p (mask_v4 p octets)) 32
  | None =>
      match rg_v4_exact r !! octets with Some cx => [cx] | None => [] end ++
      omap (λ '(prefix, net, cx),
        if prefix_contains_v4 prefix net octets then Some cx else None) (rg_v4_lpm r)
  end.

Definition lookup_ip_v6 r (octets : list Z) : list RuleBlockContext :=
  if negb (length octets =? 16)%nat then [] else
  match rg_cache r with
  | Some cache =>
      match get_rule_context cache (ctx_key_v6_exact octets) with Some (Some cx) => [cx] | _ => [] end
      ++ probe_prefixes cache (λ p, ctx_key_v6_lpm p (mask_v6 p octets)) 128
  | None =>
      match rg_v6_exact r !! octets with Some cx => [cx] | None => [] end ++
      omap (λ '(prefix, net, cx),
        if prefix_contains_v6 prefix net octets then Some cx else None) (rg_v6_lpm r)
  end.

Definition lookup_ip r (ip_version : Z) (octets : list Z) : list RuleBlockContext :=
  if ip_version =? 4 then lookup_ip_v4 r octets
  else if ip_version =? 6 then lookup_ip_v6 r octets else [].

Definition registry_is_empty r : bool := (rg_rule_count r =? 0)%nat.
Definition total_rules r : nat := rg_rule_count r.
Definition total_blocklists r : nat := size (rg_blocklist_counts r).
End Registry.
Arguments FireholMetadataRegistry : clear implicits.

(** ** Categories: names and identifiers *)

Lemma from_id_id c : from_id (category_id c) = c.
Proof. by destruct c. Qed.

Lemma parse_as_str `{!Lowercase} c : parse_category (as_str c) = c.
Proof. by destruct c. Qed.

(** ** Masks *)

Lemma u32_prefix_mask_eq p : 0 <= p <= 32 → u32_prefix_mask p = mask 32 p.
Proof.
  intros Hp. unfold u32_prefix_mask.
  destruct (Z.eqb_spec p 0) as [->|]; [done|].
  destruct (Z.leb_spec 32 p); [by replace p with 32 by lia|].
  rewrite <-shl_mask_eq by lia. unfold shl_mask, checked_shl.
  by rewrite (proj2 (Z.ltb_lt _ _)) by lia.
Qed.

Lemma prefix_contains_v4_eq p net ip :
  0 <= p <= 32 → bytes_ok 4 net → bytes_ok 4 ip →
  prefix_contains_v4 p net ip = octets_match p net ip.
Proof.
  intros Hp Hn Hi. unfold prefix_contains_v4, octets_match. rewrite u32_prefix_mask_eq by done.
  destruct (Hn) as [-> _].
  apply land_mask_eq_iff; [done|by apply (octets_in_width 4)|by apply (octets_in_width 4)].
Qed.

Lemma mask_v4_eq p ip : 0 <= p <= 32 → mask_v4 p ip = network 4 p ip.
Proof. intros Hp. unfold mask_v4, network. by rewrite u32_prefix_mask_eq. Qed.

Lemma byte_mask_eq r : 0 < r < 8 → byte_mask r = mask 8 r.
Proof.
  intros Hr. unfold byte_mask. rewrite <-shl_mask_eq by lia. unfold shl_mask, checked_shl.
  by rewrite (proj2 (Z.ltb_lt _ _)) by lia.
Qed.

Lemma byte_prefix r x y :
  0 < r < 8 → byte_ok x → byte_ok y →
  (Z.land x (byte_mask r) =? Z.land y (byte_mask r)) =
  (Z.shiftr x (8 - r) =? Z.shiftr y (8 - r)).
Proof.
  intros Hr Hx Hy. rewrite byte_mask_eq by done.
  rewrite land_mask_eq_iff by (done || lia). done.
Qed.

(** The octet-wise comparison of [prefix_contains_v6], for any length. *)
Lemma octets_match_bytes net : ∀ p ip,
  0 <= p <= 8 * len net → length net = length ip → Forall byte_ok net → Forall byte_ok ip →
  octets_match p net ip =
    bool_decide (take (Z.to_nat (p / 8)) net = take (Z.to_nat (p / 8)) ip) &&
    (if (0 <? p mod 8) && (Z.to_nat (p / 8) <? length net)%nat then
       Z.land (nth (Z.to_nat (p / 8)) net 0) (byte_mask (p mod 8)) =?
       Z.land (nth (Z.to_nat (p / 8)) ip 0) (byte_mask (p mod 8))
     else true).
Proof.
  induction net as [|x net IH]; intros p [|y ip] Hp Hl Hn Hi; try discriminate Hl.
  { unfold len in Hp. simpl in Hp. assert (p = 0) as -> by lia. done. }
  injection Hl as Hl. inversion_clear Hn as [|?? Hx Hn']. inversion_clear Hi as [|?? Hy Hi'].
  assert (len (x :: net) = len net + 1) as Hlen by (unfold len; simpl length; lia).
  destruct (Z.ltb_spec p 8) as [Hlt|Hge].
  - rewrite octets_match_cons_le by (done || lia).
    rewrite Z.div_small, Z.mod_small by lia. cbn [Z.to_nat take nth].
    rewrite bool_decide_true by done. cbn [andb].
    destruct (Z.ltb_spec 0 p) as [Hpos|].
    + cbn [andb Nat.ltb Nat.leb length]. by rewrite byte_prefix by (done || lia).
    + assert (p = 0) as -> by lia. rewrite !Z.shiftr_div_pow2 by lia.
      unfold byte_ok in *. rewrite !Z.div_small by (simpl; lia). done.
  - rewrite octets_match_cons_ge by (done || lia).
    rewrite IH by (done || lia).
    replace (p / 8) with (1 + (p - 8) / 8) by
      (replace p with (p - 8 + 1 * 8) at 2 by lia; rewrite Z.div_add by lia; lia).
    replace (p mod 8) with ((p - 8) mod 8) by
      (replace p with (p - 8 + 1 * 8) at 2 by lia; by rewrite Z.mod_add by lia).
    assert (0 <= (p - 8) / 8) by (apply Z.div_pos; lia).
    rewrite Z2Nat.inj_add by lia. change (Z.to_nat 1) with 1%nat. cbn [Nat.add take nth length].
    rewrite andb_assoc. f_equal.
    destruct (Z.eqb_spec x y) as [->|Hne]; cbn [andb].
    + apply bool_decide_ext. split; [by intros ->|by intros [= ->]].
    + symmetry. apply bool_decide_false. by intros [= ? _].
Qed.

Lemma prefix_contains_v6_eq p net ip :
  0 <= p <= 128 → bytes_ok 16 net → bytes_ok 16 ip →
  prefix_contains_v6 p net ip = octets_match p net ip.
Proof.
  intros Hp [Hln Hbn] [Hli Hbi]. rewrite octets_match_bytes; try done.
  - unfold prefix_contains_v6. by rewrite Hln.
  - unfold len. rewrite Hln. done.
  - by rewrite Hln, Hli.
Qed.

(** ** Network addresses octet by octet *)

Lemma to_be_bytes_cons n x y :
  byte_ok x → 0 <= y < 256 ^ Z.of_nat n →
  to_be_bytes (S n) (x * 256 ^ Z.of_nat n + y) = x :: to_be_bytes n y.
Proof.
  intros Hx Hy. pose proof (pow256_pos n). unfold byte_ok in Hx.
  change (to_be_bytes (S n) (x * 256 ^ Z.of_nat n + y)) with
    (((x * 256 ^ Z.of_nat n + y) / 256 ^ Z.of_nat n) mod 256
       :: to_be_bytes n (x * 256 ^ Z.of_nat n + y)).
  rewrite to_be_bytes_mod_high by lia. f_equal.
  rewrite Z.div_add_l, Z.div_small, Z.add_0_r by lia. apply Z.mod_small. lia.
Qed.

Lemma to_be_bytes_0 n : to_be_bytes n 0 = replicate n 0.
Proof.
  induction n as [|n IH]; [done|].
  change (to_be_bytes (S n) 0) with ((0 / 256 ^ Z.of_nat n) mod 256 :: to_be_bytes n 0).
  by rewrite IH, Z.div_0_l by (pose proof (pow256_pos n); lia).
Qed.

Lemma land_mask_sub w p x :
  0 <= p <= w → in_width w x → Z.land x (mask w p) = x - x mod 2 ^ (w - p).
Proof.
  intros Hp Hx. rewrite land_mask by done.
  rewrite Z.shiftl_mul_pow2, Z.shiftr_div_pow2 by lia.
  pose proof (Z.div_mod x (2 ^ (w - p))). assert (0 < 2 ^ (w - p)) by (apply Z.pow_pos_nonneg; lia).
  lia.
Qed.

Lemma network_cons_ge n p x l :
  8 <= p <= 8 * Z.of_nat (S n) → byte_ok x → bytes_ok n l →
  network (S n) p (x :: l) = x :: network n (p - 8) l.
Proof.
  intros Hp Hx Hl. pose proof (octets_in_width n l Hl) as Hw. unfold network.
  rewrite from_be_bytes_cons. destruct Hl as [Hlen Hb]. rewrite Hlen.
  assert (H256 : 256 ^ Z.of_nat n = 2 ^ (8 * Z.of_nat n)) by (by rewrite Z.pow_mul_r by lia).
  assert (0 < 2 ^ (8 * Z.of_nat n)) by (apply Z.pow_pos_nonneg; lia).
  assert (in_width (8 * Z.of_nat (S n)) (x * 256 ^ Z.of_nat n + from_be_bytes l)) as Hw'.
  { unfold in_width, byte_ok in *. rewrite H256.
    replace (8 * Z.of_nat (S n)) with (8 + 8 * Z.of_nat n) by lia.
    rewrite Z.pow_add_r by lia. change (2 ^ 8) with 256. nia. }
  rewrite !land_mask_sub by (done || lia).
  replace (8 * Z.of_nat (S n) - p) with (8 * Z.of_nat n - (p - 8)) by lia.
  set (k := 8 * Z.of_nat n - (p - 8)).
  assert (0 < 2 ^ k) by (apply Z.pow_pos_nonneg; lia).
  assert (2 ^ (8 * Z.of_nat n) = 2 ^ (8 * Z.of_nat n - k) * 2 ^ k) as Hsp.
  { rewrite <-Z.pow_add_r by lia. f_equal. lia. }
  replace ((x * 256 ^ Z.of_nat n + from_be_bytes l) mod 2 ^ k) with (from_be_bytes l mod 2 ^ k).
  2: { rewrite H256, Hsp, Z.mul_assoc, Z.add_comm, Z.mod_add by lia. done. }
  rewrite <-Z.add_sub_assoc. apply to_be_bytes_cons; [done|].
  pose proof (Z.mod_pos_bound (from_be_bytes l) (2 ^ k)).
  pose proof (Z.mod_le (from_be_bytes l) (2 ^ k)). unfold in_width in Hw. lia.
Qed.

Lemma network_cons_le n p x l :
  0 <= p <= 8 → byte_ok x → bytes_ok n l →
  network (S n) p (x :: l) = Z.land x (mask 8 p) :: replicate n 0.
Proof.
  intros Hp Hx Hl. pose proof (octets_in_width n l Hl) as Hw. unfold network.
  rewrite from_be_bytes_cons. destruct Hl as [Hlen Hb]. rewrite Hlen.
  assert (H256 : 256 ^ Z.of_nat n = 2 ^ (8 * Z.of_nat n)) by (by rewrite Z.pow_mul_r by lia).
  assert (0 < 2 ^ (8 * Z.of_nat n)) by (apply Z.pow_pos_nonneg; lia).
  assert (in_width 8 x) as Hx8 by done.
  assert (in_width (8 * Z.of_nat (S n)) (x * 256 ^ Z.of_nat n + from_be_bytes l)) as Hw'.
  { unfold in_width, byte_ok in *. rewrite H256.
    replace (8 * Z.of_nat (S n)) with (8 + 8 * Z.of_nat n) by lia.
    rewrite Z.pow_add_r by lia. change (2 ^ 8) with 256. nia. }
  rewrite !land_mask by (done || lia).
  replace (8 * Z.of_nat (S n) - p) with (8 * Z.of_nat n + (8 - p)) by lia.
  rewrite <-Z.shiftr_shiftr, (Z.shiftr_div_pow2 _ (8 * Z.of_nat n)) by lia.
  rewrite H256, Z.div_add_l, Z.div_small, Z.add_0_r by (done || lia).
  rewrite (Z.add_comm (8 * Z.of_nat n)), <-Z.shiftl_shiftl by lia.
  rewrite (Z.shiftl_mul_pow2 _ (8 * Z.of_nat n)), <-H256 by lia.
  rewrite <-(Z.add_0_r (_ * 256 ^ Z.of_nat n)), <-to_be_bytes_0.
  apply to_be_bytes_cons; [|pose proof (pow256_pos n); lia].
  rewrite <-land_mask by (done || lia). apply (land_mask_in_width 8 p x); [lia|done].
Qed.

(** The octets of a network address: those of the prefix, the masked octet it
    ends in, zeros. *)
Lemma network_octets_eq n : ∀ p l,
  0 <= p < 8 * Z.of_nat n → bytes_ok n l →
  network n p l =
    take (Z.to_nat (p / 8)) l ++
    Z.land (nth (Z.to_nat (p / 8)) l 0) (mask 8 (p mod 8)) ::
    replicate (n - S (Z.to_nat (p / 8))) 0.
Proof.
  induction n as [|n IH]; intros p l Hp Hl; [lia|].
  destruct Hl as [Hlen Hb]. destruct l as [|x l]; [discriminate Hlen|].
  injection Hlen as Hlen. inversion_clear Hb as [|?? Hx Hb'].
  destruct (Z.ltb_spec p 8) as [Hlt|Hge].
  - rewrite network_cons_le by (done || lia). rewrite Z.div_small, Z.mod_small by lia.
    cbn [Z.to_nat take nth app Nat.sub]. by rewrite Nat.sub_0_r.
  - rewrite network_cons_ge, IH by (done || lia).
    replace (p / 8) with (1 + (p - 8) / 8) by
      (replace p with (p - 8 + 1 * 8) at 2 by lia; rewrite Z.div_add by lia; lia).
    replace (p mod 8) with ((p - 8) mod 8) by
      (replace p with (p - 8 + 1 * 8) at 2 by lia; by rewrite Z.mod_add by lia).
    assert (0 <= (p - 8) / 8) by (apply Z.div_pos; lia).
    rewrite Z2Nat.inj_add by lia. change (Z.to_nat 1) with 1%nat. cbn [Nat.add take nth app Nat.sub].
    done.
Qed.

Lemma take_insert_S {A} (l : list A) i x :
  (i < length l)%nat → take (S i) (<[i := x]> l) = take i l ++ [x].
Proof.
  intros Hi. rewrite (take_S_r _ i x) by (apply list_lookup_insert_eq; lia).
  by rewrite take_insert_ge by lia.
Qed.

Lemma nth_take_S (l : list Z) i : (i < length l)%nat → take (S i) l = take i l ++ [nth i l 0].
Proof.
  intros Hi. apply take_S_r. destruct (lookup_lt_is_Some_2 l i Hi) as [x Hx]. rewrite Hx.
  f_equal. symmetry. by apply nth_lookup_Some.
Qed.

(** [mask_v6] is right exactly when the prefix ends inside an octet, is 128, or
    the octet after it is already zero: for a prefix that is a multiple of 8 the
    octet [out[full]] is left as it was. *)
Lemma mask_v6_spec p ip :
  0 <= p <= 128 → bytes_ok 16 ip →
  mask_v6 p ip = network 16 p ip ↔
    p = 128 ∨ p mod 8 ≠ 0 ∨ nth (Z.to_nat (p / 8)) ip 0 = 0.
Proof.
  intros Hp Hip. pose proof Hip as [Hl Hb]. unfold mask_v6.
  destruct (decide (p = 128)) as [->|Hne].
  { split; [by left|intros _]. change (Z.to_nat (128 / 8) <? 16)%nat with false. cbn [Nat.ltb].
    symmetry. unfold network. change (8 * Z.of_nat 16) with 128.
    change (mask 128 128) with (Z.ones 128). rewrite Z.land_ones by lia.
    rewrite Z.mod_small by exact (octets_in_width 16 ip Hip). rewrite <-Hl at 1.
    by apply to_from_be_bytes. }
  pose proof (Z.mod_pos_bound p 8 ltac:(lia)). pose proof (Z.div_mod p 8 ltac:(lia)).
  assert (Z.to_nat (p / 8) < 16)%nat as Hf by lia.
  rewrite (proj2 (Nat.ltb_lt _ _) Hf), network_octets_eq by (done || lia).
  set (full := Z.to_nat (p / 8)) in *.
  destruct (Z.ltb_spec 0 (p mod 8)) as [Hr|Hr].
  - rewrite take_insert_S, byte_mask_eq by lia. rewrite <-app_assoc.
    split; [intros _; right; left; lia|done].
  - assert (p mod 8 = 0) as Hz by lia. rewrite Hz.
    change (mask 8 0) with 0. rewrite Z.land_0_r, nth_take_S, <-app_assoc by lia. split.
    + intros Heq%app_inv_head. injection Heq as Heq. auto.
    + intros [?|[?|Heq]]; [lia|done|]. by rewrite Heq.
Qed.

(** [mask_v6] computes the network address exactly when the
    prefix is 128, is not a multiple of 8, or the octet after the prefix is zero
    already. *)
Theorem mask_v6_correct_iff p ip :
  0 <= p <= 128 → bytes_ok 16 ip →
  mask_v6 p ip = network 16 p ip ↔
    p = 128 ∨ p mod 8 ≠ 0 ∨ nth (Z.to_nat (p / 8)) ip 0 = 0.
Proof. apply mask_v6_spec. Qed.

Lemma mask_v6_correct_iff_witness :
  mask_v6 32 (32 :: 1 :: 13 :: 184 :: 7 :: replicate 11 0) ≠
  network 16 32 (32 :: 1 :: 13 :: 184 :: 7 :: replicate 11 0).
Proof.
  intros [?|[Hm|Hn]]%mask_v6_correct_iff; [done|by apply Hm|done|by_decide|by_decide].
Defined.


(** ** Counting with [bump] *)

(** A counter raised by [n]; a counter at nought is not there. *)
Definition add_count (o : option nat) (n : nat) : option nat :=
  match n with O => o | S _ => Some (default 0%nat o + n)%nat end.

Lemma add_count_add o n m : add_count (add_count o n) m = add_count o (n + m).
Proof.
  destruct n as [|n]; [done|]. destruct m as [|m]; [by rewrite Nat.add_0_r|].
  destruct o; cbn; f_equal; lia.
Qed.

Lemma lookup_bump `{Countable K} (m : gmap K nat) k n j :
  (0 < n)%nat → bump m k n !! j = add_count (m !! j) (if decide (k = j) then n else 0%nat).
Proof.
  intros Hn. unfold bump. destruct (decide (k = j)) as [->|Hne]; simpl_map; [|done]. by destruct n; [lia|].
Qed.

(** The elements that count for [k]. *)
Definition tally {A K} `{EqDecision K} (g : A → option K) (k : K) (l : list A) : nat :=
  length (filter (λ a, g a = Some k) l).

Lemma tally_cons {A K} `{EqDecision K} (g : A → option K) k a l :
  tally g k (a :: l) = ((if decide (g a = Some k) then 1 else 0) + tally g k l)%nat.
Proof. unfold tally. rewrite filter_cons. by case_decide. Qed.

Lemma tally_ext {A K} `{EqDecision K} (g g' : A → option K) k l :
  (∀ a, a ∈ l → g a = g' a) → tally g k l = tally g' k l.
Proof.
  induction l as [|a l IH]; intros Hg; [done|]. rewrite !tally_cons, IH, Hg by set_solver. done.
Qed.
