(* ===== verification/Attribution.v ===== *)
(** * Which blocklists cover an address

    Soundness and completeness of the registry's reverse index
    ([build_ip_index], [lookup_ip] of [src/firehol/metadata.rs]): in memory for
    both families, on disk for IPv4 from any store that holds the contexts of the
    entries; and the defect of the IPv6 lookup on disk. *)
From stdpp Require Import base numbers list gmap fin_maps strings sorting.
From Stdlib Require Import ZArith Lia.
From S2P Require Import Prelude Net BpfMaps Str Entry Metadata.

Local Open Scope Z_scope.

(** The (file, line) pairs a context lists. *)
Definition sources (cx : RuleBlockContext) : list (list Z * Z) := zip (cx_files cx) (cx_lines cx).
Definition context_wf (cx : RuleBlockContext) : Prop := length (cx_files cx) = length (cx_lines cx).

(** Some context of the result lists the pair. *)
Definition listed (cxs : list RuleBlockContext) (fl : list Z * Z) : Prop :=
  ∃ cx, cx ∈ cxs ∧ fl ∈ sources cx.

(** Some entry for the target [t] comes from line [fl.2] of file [fl.1]. *)
Definition contributed (name_of : Z → option (list Z)) (entries : list FireholEntry)
    (t : FireholIpTarget) (fl : list Z * Z) : Prop :=
  ∃ e, e ∈ entries ∧ fe_target e = t ∧ name_of (fe_metadata_id e) = Some fl.1 ∧ fe_line e = fl.2.

Lemma contributed_cons name_of e entries t fl :
  contributed name_of (e :: entries) t fl ↔
  (fe_target e = t ∧ name_of (fe_metadata_id e) = Some fl.1 ∧ fe_line e = fl.2) ∨
  contributed name_of entries t fl.
Proof. unfold contributed. set_solver. Qed.

Lemma contributed_app name_of l1 l2 t fl :
  contributed name_of (l1 ++ l2) t fl ↔ contributed name_of l1 t fl ∨ contributed name_of l2 t fl.
Proof. unfold contributed. set_solver. Qed.

(** ** In memory *)
Section Ram.
Context {S : Type} `{!ContextStore S} `{!HashOrder}.
Implicit Types (r : FireholMetadataRegistry S).

Lemma index_fold_files by_id entries : ∀ acc t fl,
  fl ∈ default [] ((fold_left (index_step by_id) entries acc).1 !! t) ↔
  fl ∈ default [] (acc.1 !! t) ∨
  contributed (λ id, md_file_name <$> by_id !! id) entries t fl.
Proof.
  induction entries as [|e entries IH]; intros [files cats] t [f l]; cbn [fold_left].
  { simpl. unfold contributed. set_solver. }
  rewrite IH, contributed_cons. unfold index_step. cbn [fst snd].
  destruct (by_id !! fe_metadata_id e) as [meta|] eqn:Hm; cbn [fst snd fmap option_fmap option_map].
  2: { naive_solver. }
  destruct (decide (t = fe_target e)) as [->|Hne].
  - rewrite lookup_insert_eq. cbn [default id].
    case_bool_decide as Hin; rewrite ?elem_of_app, ?list_elem_of_singleton; naive_solver.
  - rewrite lookup_insert_ne by done. naive_solver.
Qed.

Lemma index_fold_keys by_id entries : ∀ acc t,
  is_Some ((fold_left (index_step by_id) entries acc).1 !! t) →
  is_Some (acc.1 !! t) ∨ ∃ e, e ∈ entries ∧ fe_target e = t.
Proof.
  induction entries as [|e entries IH]; intros [files cats] t; cbn [fold_left]; [auto|].
  intros [Hs|(e' & He' & Ht)]%IH; [|set_solver]. unfold index_step in Hs.
  destruct (by_id !! fe_metadata_id e); cbn [fst] in *; [|auto].
  destruct (decide (t = fe_target e)) as [->|]; [set_solver|].
  rewrite lookup_insert_ne in Hs by done. auto.
Qed.

(** Filling the four index structures from a list of targets. *)
Definition fill {X} (cx : FireholIpTarget → X → RuleBlockContext)
    (l : list (FireholIpTarget * X)) r : FireholMetadataRegistry S :=
  fold_left (λ r '(t, x), index_insert r t (cx t x)) l r.

Record filled {X} (cx : FireholIpTarget → X → RuleBlockContext)
    (l : list (FireholIpTarget * X)) r : Prop := {
  filled_v4 o c : rg_v4_exact r !! o = Some c ↔ ∃ x, (TExactV4 o, x) ∈ l ∧ c = cx (TExactV4 o) x;
  filled_v6 o c : rg_v6_exact r !! o = Some c ↔ ∃ x, (TExactV6 o, x) ∈ l ∧ c = cx (TExactV6 o) x;
  filled_l4 q o c : (q, o, c) ∈ rg_v4_lpm r ↔
    ∃ p x, (TCidrV4 p o, x) ∈ l ∧ q = wrap_u8 p ∧ c = cx (TCidrV4 p o) x;
  filled_l6 q o c : (q, o, c) ∈ rg_v6_lpm r ↔
    ∃ p x, (TCidrV6 p o, x) ∈ l ∧ q = wrap_u8 p ∧ c = cx (TCidrV6 p o) x;
}.

Lemma fill_spec {X} (cx : FireholIpTarget → X → RuleBlockContext) l r :
  NoDup l.*1 → filled cx l (fill cx l (clear_index r)).
Proof.
  induction l as [|[t x] l IH] using rev_ind; intros Hnd.
  { split; simpl; intros; rewrite ?lookup_empty; set_solver. }
  rewrite fmap_app in Hnd. apply NoDup_app in Hnd as (Hnd & Hdisj & _).
  destruct (IH Hnd) as [E4 E6 L4 L6]. unfold fill in *. rewrite fold_left_app. cbn [fold_left].
  set (r0 := fold_left _ l (clear_index r)) in *.
  assert (Hnew : ∀ x', (t, x') ∉ l).
  { intros x' Hin. apply (Hdisj t); [|by left]. apply list_elem_of_fmap. by exists (t, x'). }
  split; intros; destruct t as [o'|o'|p' o'|p' o']; cbn [index_insert rg_v4_exact rg_v6_exact
    rg_v4_lpm rg_v6_lpm]; rewrite ?lookup_insert_Some, ?elem_of_app, ?list_elem_of_singleton,
    ?E4, ?E6, ?L4, ?L6; setoid_rewrite elem_of_app; setoid_rewrite list_elem_of_singleton;
    naive_solver.
Qed.

Lemma elem_of_map_iter {K V} `{Countable K} (m : gmap K V) k v :
  (k, v) ∈ map_iter m ↔ m !! k = Some v.
Proof. rewrite map_iter_perm. apply elem_of_map_to_list. Qed.

Lemma map_iter_NoDup {K V} `{Countable K} (m : gmap K V) : NoDup (map_iter m).*1.
Proof. rewrite map_iter_perm. apply NoDup_fst_map_to_list. Qed.

Lemma fill_cache {X} (cx : FireholIpTarget → X → RuleBlockContext) l r :
  rg_cache (fill cx l r) = rg_cache r.
Proof.
  unfold fill. revert r. induction l as [|[t x] l IH]; intros r; cbn [fold_left]; [done|].
  rewrite IH. by destruct t.
Qed.

Lemma fill_names {X} (cx : FireholIpTarget → X → RuleBlockContext) l : ∀ r,
  file_name_for (fill cx l r) = file_name_for r.
Proof.
  unfold fill. induction l as [|[t x] l IH]; intros r; cbn [fold_left]; [done|].
  rewrite IH. by destruct t.
Qed.
Lemma build_ip_index_names r entries :
  rg_cache r = None → file_name_for (build_ip_index r entries) = file_name_for r.
Proof.
  intros Hc. unfold build_ip_index. rewrite Hc. unfold build_ip_index_ram.
  destruct (fold_left _ entries (∅, ∅)) as [files cats].
  exact (fill_names (λ t (fs : list (list Z * Z)), mkContext fs.*1 fs.*2 (default [] (cats !! t))) _ _).
Qed.

Lemma lookup_v4_ram {X} (cx : FireholIpTarget → X → RuleBlockContext) l r ip c :
  filled cx l r → rg_cache r = None → (∀ t x, (t, x) ∈ l → target_ok t) → bytes_ok 4 ip →
  c ∈ lookup_ip_v4 r ip ↔ ∃ t x, (t, x) ∈ l ∧ target_covers t (V4 ip) ∧ c = cx t x.
Proof.
  intros [E4 _ L4 _] Hc Hok Hip. unfold lookup_ip_v4. rewrite Hc.
  destruct (Hip) as [-> _]. cbn [Nat.eqb negb]. rewrite elem_of_app, list_elem_of_omap.
  assert (c ∈ match rg_v4_exact r !! ip with Some cx => [cx] | None => [] end ↔
    rg_v4_exact r !! ip = Some c) as ->.
  { destruct (rg_v4_exact r !! ip); set_solver. }
  rewrite E4. split.
  - intros [(x & Hx & ->)|([[q net] c'] & (p & x & Hx & -> & ->)%L4 & Hcx)].
    { exists (TExactV4 ip), x. done. }
    pose proof (Hok _ _ Hx) as Hk. simpl in Hk. pose proof Hk as (Hp & Hnet & _). simpl in *.
    rewrite wrap_small in Hcx by lia. rewrite prefix_contains_v4_eq in Hcx by done.
    destruct (octets_match p net ip) eqn:Hm; [|done]. injection Hcx as <-.
    exists (TCidrV4 p net), x. done.
  - intros (t & x & Hx & Ht & ->). destruct t as [o|o|p net|p net]; simpl in Ht; try done.
    + subst o. left. eauto.
    + right. exists (wrap_u8 p, net, cx (TCidrV4 p net) x). split; [apply L4; eauto|].
      pose proof (Hok _ _ Hx) as (Hp & Hnet & _). simpl in *.
      rewrite wrap_small by lia. rewrite prefix_contains_v4_eq by done. by rewrite Ht.
Qed.

Lemma lookup_v6_ram {X} (cx : FireholIpTarget → X → RuleBlockContext) l r ip c :
  filled cx l r → rg_cache r = None → (∀ t x, (t, x) ∈ l → target_ok t) → bytes_ok 16 ip →
  c ∈ lookup_ip_v6 r ip ↔ ∃ t x, (t, x) ∈ l ∧ target_covers t (V6 ip) ∧ c = cx t x.
Proof.
  intros [_ E6 _ L6] Hc Hok Hip. unfold lookup_ip_v6. rewrite Hc.
  destruct (Hip) as [-> _]. cbn [Nat.eqb negb]. rewrite elem_of_app, list_elem_of_omap.
  assert (c ∈ match rg_v6_exact r !! ip with Some cx => [cx] | None => [] end ↔
    rg_v6_exact r !! ip = Some c) as ->.
  { destruct (rg_v6_exact r !! ip); set_solver. }
  rewrite E6. split.
  - intros [(x & Hx & ->)|([[q net] c'] & (p & x & Hx & -> & ->)%L6 & Hcx)].
    { exists (TExactV6 ip), x. done. }
    pose proof (Hok _ _ Hx) as Hk. simpl in Hk. pose proof Hk as (Hp & Hnet & _). simpl in *.
    rewrite wrap_small in Hcx by lia. rewrite prefix_contains_v6_eq in Hcx by done.
    destruct (octets_match p net ip) eqn:Hm; [|done]. injection Hcx as <-.
    exists (TCidrV6 p net), x. done.
  - intros (t & x & Hx & Ht & ->). destruct t as [o|o|p net|p net]; simpl in Ht; try done.
    + subst o. left. eauto.
    + right. exists (wrap_u8 p, net, cx (TCidrV6 p net) x). split; [apply L6; eauto|].
      pose proof (Hok _ _ Hx) as (Hp & Hnet & _). simpl in *.
      rewrite wrap_small by lia. rewrite prefix_contains_v6_eq by done. by rewrite Ht.
Qed.

(** Addresses by version, as the callers pass them. *)
Definition lookup_addr r (ip : IpAddr) : list RuleBlockContext :=
  match ip with V4 o => lookup_ip r 4 o | V6 o => lookup_ip r 6 o end.

Lemma lookup_addr_ram {X} (cx : FireholIpTarget → X → RuleBlockContext) l r ip c :
  filled cx l r → rg_cache r = None → (∀ t x, (t, x) ∈ l → target_ok t) → ip_ok ip →
  c ∈ lookup_addr r ip ↔ ∃ t x, (t, x) ∈ l ∧ target_covers t ip ∧ c = cx t x.
Proof. destruct ip; [apply lookup_v4_ram|apply lookup_v6_ram]. Qed.

(** The contexts a lookup in memory returns. *)
Lemma ram_lookup r entries ip :
  rg_cache r = None → (∀ e, e ∈ entries → target_ok (fe_target e)) → ip_ok ip →
  ∃ (files : gmap FireholIpTarget (list (list Z * Z))) (cats : gmap FireholIpTarget _),
    (∀ t fl, contributed (file_name_for r) entries t fl ↔ fl ∈ default [] (files !! t)) ∧
    ∀ c, c ∈ lookup_addr (build_ip_index r entries) ip ↔
      ∃ t fs, files !! t = Some fs ∧ target_covers t ip ∧
        c = mkContext fs.*1 fs.*2 (default [] (cats !! t)).
Proof.
  intros Hc Hok Hip. unfold build_ip_index. rewrite Hc. unfold build_ip_index_ram.
  pose proof (index_fold_files (rg_metadata_by_id r) entries (∅, ∅)) as Hfiles.
  pose proof (index_fold_keys (rg_metadata_by_id r) entries (∅, ∅)) as Hkeys.
  destruct (fold_left _ entries (∅, ∅)) as [files cats]; cbn [fst] in *.
  set (cx := λ (t : FireholIpTarget) (fs : list (list Z * Z)),
    mkContext fs.*1 fs.*2 (default [] (cats !! t))).
  change (fold_left _ (map_iter files) (clear_index r)) with
    (fill cx (map_iter files) (clear_index r)).
  assert (Hok' : ∀ t x, (t, x) ∈ map_iter files → target_ok t).
  { intros t x Hx%elem_of_map_iter. destruct (Hkeys t (mk_is_Some _ _ Hx)) as [[? Hs]|(e & He & <-)].
    - by rewrite lookup_empty in Hs.
    - auto. }
  pose proof (fill_spec cx (map_iter files) r (map_iter_NoDup files)) as Hfill.
  exists files, cats. split.
  - intros t fl. rewrite Hfiles, lookup_empty. unfold contributed, file_name_for. rewrite Hc.
    simpl. set_solver.
  - intros c. rewrite (lookup_addr_ram cx (map_iter files) _ ip) by
      (done || (rewrite fill_cache; exact Hc)).
    by setoid_rewrite elem_of_map_iter.
Qed.

Lemma ram_contexts_wf r entries ip :
  rg_cache r = None → (∀ e, e ∈ entries → target_ok (fe_target e)) → ip_ok ip →
  Forall context_wf (lookup_addr (build_ip_index r entries) ip).
Proof.
  intros Hc Hok Hip. destruct (ram_lookup r entries ip Hc Hok Hip) as (files & cats & _ & Hl).
  apply Forall_forall. intros c (t & fs & _ & _ & ->)%Hl. unfold context_wf. simpl.
  by rewrite !length_fmap.
Qed.

Lemma ram_attribution r entries ip fl :
  rg_cache r = None → (∀ e, e ∈ entries → target_ok (fe_target e)) → ip_ok ip →
  listed (lookup_addr (build_ip_index r entries) ip) fl ↔
  ∃ t, target_covers t ip ∧ contributed (file_name_for r) entries t fl.
Proof.
  intros Hc Hok Hip. destruct (ram_lookup r entries ip Hc Hok Hip) as (files & cats & Hname & Hl).
  unfold listed. setoid_rewrite Hname. setoid_rewrite Hl. unfold sources. split.
  - intros (c & (t & fs & Hx & Ht & ->) & Hin). simpl in Hin. rewrite zip_fst_snd in Hin.
    exists t. by rewrite Hx.
  - intros (t & Ht & Hin). destruct (files !! t) as [fs|] eqn:Hf; [|by apply elem_of_nil in Hin].
    eexists. split; [by exists t, fs|]. simpl. by rewrite zip_fst_snd.
Qed.
End Ram.

(** ** On disk *)

Lemma add_source_wf cx f l c : context_wf cx → context_wf (add_source cx f l c).
Proof.
  unfold context_wf, add_source. intros Hw. destruct (existsb _ _); [done|].
  cbn [cx_files cx_lines]. rewrite !length_app. simpl. lia.
Qed.

Lemma add_source_sources cx f l c fl :
  context_wf cx → fl ∈ sources (add_source cx f l c) ↔ fl ∈ sources cx ∨ fl = (f, l).
Proof.
  intros Hw. unfold add_source, sources, context_wf in *.
  destruct (existsb _ _) eqn:He; cbn [cx_files cx_lines].
  - apply existsb_exists in He as (x & Hin & ->%bool_decide_eq_true).
    apply list_elem_of_In in Hin. naive_solver.
  - rewrite zip_with_app by done. rewrite elem_of_app. simpl. by rewrite list_elem_of_singleton.
Qed.

Section Disk.
Context {S : Type} `{!ContextStore S} `{!ContextStoreLaws S} `{!HashOrder}.
Implicit Types (r : FireholMetadataRegistry S) (s : S).

(** What the store knows about a target. *)
Definition stored s (t : FireholIpTarget) : RuleBlockContext :=
  default RuleBlockContext_default (st_contexts s !! context_key t).
Definition store_wf s : Prop :=
  st_ok s ∧ ∀ k cx, st_contexts s !! k = Some cx → context_wf cx.

(** The contexts of the current batch shadow the stored ones. *)
Definition current s (m : gmap FireholIpTarget RuleBlockContext) t : RuleBlockContext :=
  default (stored s t) (m !! t).

Lemma stored_wf s t : store_wf s → context_wf (stored s t).
Proof. intros [_ Hw]. unfold stored. destruct (_ !! _) eqn:E; [by eapply Hw|done]. Qed.

Lemma merge_contexts_spec r s entries : ∀ m0,
  store_wf s → (∀ t, context_wf (current s m0 t)) →
  ∃ m, fold_left (λ acc e,
      contexts ← acc;
      match rg_metadata_light r !! fe_metadata_id e with
      | None => Some contexts
      | Some (category, file) =>
          cx ← match contexts !! fe_target e with
               | Some cx => Some cx
               | None => default RuleBlockContext_default <$>
                           get_rule_context s (context_key (fe_target e))
               end;
          Some (<[fe_target e := add_source cx file (fe_line e) category]>
                  (contexts : gmap FireholIpTarget RuleBlockContext))
      end) entries (Some m0) = Some m ∧
    (∀ t, context_wf (current s m t)) ∧
    (∀ t, is_Some (m !! t) → is_Some (m0 !! t) ∨ ∃ e, e ∈ entries ∧ fe_target e = t) ∧
    ∀ t fl, fl ∈ sources (current s m t) ↔
      fl ∈ sources (current s m0 t) ∨
      contributed (λ id, snd <$> rg_metadata_light r !! id) entries t fl.
Proof.
  induction entries as [|e entries IH]; intros m0 Hs Hw; cbn [fold_left].
  { exists m0. split_and!; [done|done|auto|]. unfold contributed. set_solver. }
  cbn [mbind option_bind]. destruct (rg_metadata_light r !! fe_metadata_id e) as [[c f]|] eqn:Hl.
  - assert (match m0 !! fe_target e with
      | Some cx => Some cx
      | None => default RuleBlockContext_default <$>
                  get_rule_context s (context_key (fe_target e)) end =
      Some (current s m0 (fe_target e))) as ->.
    { unfold current, stored. destruct (m0 !! fe_target e); [done|].
      by rewrite get_rule_context_spec by apply Hs. }
    cbn [mbind option_bind].
    set (cx' := add_source (current s m0 (fe_target e)) f (fe_line e) c).
    assert (Hcur : ∀ t, current s (<[fe_target e := cx']> m0) t =
      if decide (t = fe_target e) then cx' else current s m0 t).
    { intros t. unfold current. case_decide as Hd; [subst t|].
      - by rewrite lookup_insert_eq.
      - by rewrite lookup_insert_ne. }
    destruct (IH (<[fe_target e := cx']> m0) Hs) as (m & Hm & Hwm & Hdom & Hsrc).
    { intros t. rewrite Hcur. case_decide; [by apply add_source_wf|done]. }
    exists m. split; [exact Hm|]. split; [done|]. split.
    + intros t Ht. destruct (Hdom t Ht) as [Hi|(e' & He' & <-)]; [|set_solver].
      apply lookup_insert_is_Some in Hi as [<-|[_ ?]]; [set_solver|auto].
    + intros t [f' l']. rewrite Hsrc, Hcur, contributed_cons, Hl. cbn [fst snd fmap option_fmap option_map].
      case_decide as Hd; [|naive_solver]. subst t. unfold cx'.
      rewrite add_source_sources by done. naive_solver.
  - destruct (IH m0 Hs Hw) as (m & Hm & Hwm & Hdom & Hsrc).
    exists m. split; [exact Hm|]. split; [done|]. split.
    + intros t Ht. destruct (Hdom t Ht) as [?|(e' & He' & <-)]; [auto|set_solver].
    + intros t fl. rewrite Hsrc, contributed_cons, Hl. naive_solver.
Qed.

(** Writing the batch: the stored context of every target of the batch is the
    merged one. *)
Lemma write_contexts_stored s s' (m : gmap FireholIpTarget RuleBlockContext) t :
  st_ok s → (∀ t', is_Some (m !! t') → target_ok t') → target_ok t →
  write_contexts s ((λ '(t, cx), (context_key t, cx)) <$> map_iter m) = Some s' →
  st_contexts s' !! context_key t =
    match m !! t with Some cx => Some cx | None => st_contexts s !! context_key t end.
Proof.
  intros Hs Hok Ht Hw. destruct (write_contexts_spec _ _ _ Hs Hw) as (_ & _ & ->).
  set (l := (λ '(t, cx), (context_key t, cx)) <$> map_iter m).
  assert (Hin : ∀ k cx, (k, cx) ∈ l ↔ ∃ u, m !! u = Some cx ∧ k = context_key u).
  { intros k cx. unfold l. rewrite list_elem_of_fmap. split.
    - intros ([u cx'] & [= -> ->] & Hu%elem_of_map_iter). eauto.
    - intros (u & Hu & ->). exists (u, cx). by rewrite elem_of_map_iter. }
  assert (Hnd : NoDup l.*1).
  { assert (l.*1 = context_key <$> (map_iter m).*1) as ->.
    { unfold l. rewrite <-!list_fmap_compose. apply list_fmap_ext. by intros ? [] _. }
    apply NoDup_fmap_2_strong; [|apply map_iter_NoDup].
    intros x y ([? ?] & -> & Hx%elem_of_map_iter)%list_elem_of_fmap
      ([? ?] & -> & Hy%elem_of_map_iter)%list_elem_of_fmap.
    simpl in *. apply context_key_inj; eauto. }
  assert (Hnd' : NoDup (reverse l).*1).
  { by rewrite fmap_reverse, reverse_Permutation. }
  destruct (m !! t) as [cx|] eqn:Hm.
  - apply lookup_union_Some_l. apply elem_of_list_to_map_1; [done|].
    apply elem_of_reverse, Hin. eauto.
  - rewrite lookup_union_r; [done|]. apply not_elem_of_list_to_map_1.
    rewrite fmap_reverse, elem_of_reverse. intros ([k cx] & Hk & Hkx)%list_elem_of_fmap.
    simpl in Hk. subst k. apply Hin in Hkx as (u & Hu & Hku).
    apply context_key_inj in Hku; [|done|by eauto]. subst u. congruence.
Qed.

Hypothesis write_total : ∀ s l, st_ok s → is_Some (write_contexts s l).

Lemma cache_entry_contexts_spec r s entries :
  rg_cache r = Some s → store_wf s → (∀ e, e ∈ entries → target_ok (fe_target e)) →
  ∃ s', cache_entry_contexts r entries = Ok (set_cache r s') ∧ store_wf s' ∧
    ∀ t fl, target_ok t → fl ∈ sources (stored s' t) ↔
      fl ∈ sources (stored s t) ∨
      contributed (λ id, snd <$> rg_metadata_light r !! id) entries t fl.
Proof using All.
  intros Hc Hs Hok. unfold cache_entry_contexts, merge_contexts. rewrite Hc.
  destruct (merge_contexts_spec r s entries ∅ Hs) as (m & -> & Hw & Hdom & Hsrc).
  { intros t. unfold current. rewrite lookup_empty. by apply stored_wf. }
  assert (Hmok : ∀ t, is_Some (m !! t) → target_ok t).
  { intros t [[? E]|(e & He & <-)]%Hdom; [by rewrite lookup_empty in E|auto]. }
  set (l := (λ '(t, cx), (context_key t, cx)) <$> map_iter m).
  pose proof Hs as [Hst0 Hwf0].
  destruct (write_total s l Hst0) as [s' Hs']. rewrite Hs'. exists s'. split; [done|].
  destruct (write_contexts_spec _ _ _ Hst0 Hs') as (Hok' & _ & Hst). split; [split; [done|]|].
  - intros k cx Hk. rewrite Hst in Hk.
    apply lookup_union_Some_raw in Hk as [Hk|[_ Hk]]; [|by eapply Hwf0].
    apply elem_of_list_to_map_2 in Hk. rewrite elem_of_reverse in Hk. unfold l in Hk.
    apply list_elem_of_fmap in Hk as ([t cx'] & [= -> ->] & Ht%elem_of_map_iter).
    specialize (Hw t). unfold current in Hw. by rewrite Ht in Hw.
  - intros t fl Ht. unfold stored at 1. rewrite (write_contexts_stored s s' m t Hst0 Hmok Ht Hs').
    specialize (Hsrc t fl). unfold current in Hsrc. rewrite lookup_empty in Hsrc.
    rewrite <-Hsrc. by destruct (m !! t).
Qed.

Lemma cache_batches_spec batches : ∀ r s,
  rg_cache r = Some s → store_wf s →
  (∀ e, e ∈ mjoin batches → target_ok (fe_target e)) →
  ∃ s', cache_batches r batches = set_cache r s' ∧ store_wf s' ∧
    ∀ t fl, target_ok t → fl ∈ sources (stored s' t) ↔
      fl ∈ sources (stored s t) ∨
      contributed (λ id, snd <$> rg_metadata_light r !! id) (mjoin batches) t fl.
Proof using All.
  induction batches as [|b batches IH]; intros r s Hc Hs Hok.
  { exists s. split; [by destruct r; simpl in *; subst|]. split; [done|].
    intros t fl _. unfold contributed. set_solver. }
  change (mjoin (b :: batches)) with (b ++ mjoin batches) in *.
  destruct (cache_entry_contexts_spec r s b Hc Hs) as (s1 & H1 & Hs1 & Hsrc1).
  { intros e He. apply Hok. set_solver. }
  cbn [cache_batches]. rewrite H1.
  destruct (IH (set_cache r s1) s1) as (s' & H2 & Hs' & Hsrc2); [done|done| |].
  { intros e He. apply Hok. set_solver. }
  exists s'. split; [by rewrite H2|]. split; [done|]. intros t fl Ht.
  rewrite Hsrc2, Hsrc1, contributed_app by done. simpl. tauto.
Qed.

Lemma mjoin_chunks {A} n : ∀ fuel (l : list A),
  (0 < n)%nat → (length l <= fuel)%nat → mjoin (chunks fuel n l) = l.
Proof.
  induction fuel as [|fuel IH]; intros l Hn Hl.
  { by destruct l; [|simpl in Hl; lia]. }
  destruct l as [|x l]; [done|]. cbn [chunks].
  change (mjoin (take n (x :: l) :: chunks fuel n (drop n (x :: l)))) with
    (take n (x :: l) ++ mjoin (chunks fuel n (drop n (x :: l)))).
  rewrite IH; [apply take_drop|done|]. rewrite length_drop. simpl length in *. lia.
Qed.

Lemma probe_prefixes_spec s key p c :
  st_ok s →
  c ∈ probe_prefixes s key p ↔
  ∃ q, 0 <= q <= Z.of_nat p ∧ st_contexts s !! key q = Some c.
Proof using ContextStoreLaws0.
  intros Hs. induction p as [|p IH]; cbn [probe_prefixes]; rewrite get_rule_context_spec by done.
  - split.
    + destruct (_ !! _) eqn:E; [|by intros ?%elem_of_nil].
      intros ->%list_elem_of_singleton. exists 0. simpl in E. split; [lia|done].
    + intros (q & Hq & E). replace q with (Z.of_nat 0) in E by lia. rewrite E. by left.
  - rewrite elem_of_app, IH. split.
    + intros [Hin|(q & Hq & E)]; [|exists q; split; [lia|done]].
      destruct (_ !! _) eqn:E; [|by apply elem_of_nil in Hin].
      apply list_elem_of_singleton in Hin as ->. exists (Z.of_nat (Datatypes.S p)).
      split; [lia|done].
    + intros (q & Hq & E). destruct (decide (q = Z.of_nat (Datatypes.S p))) as [->|].
      * left. rewrite E. by left.
      * right. exists q. split; [lia|done].
Qed.

Lemma lookup_v4_disk r s ip c :
  rg_cache r = Some s → st_ok s → bytes_ok 4 ip →
  c ∈ lookup_ip_v4 r ip ↔
  ∃ t, target_ok t ∧ target_covers t (V4 ip) ∧ st_contexts s !! context_key t = Some c.
Proof using ContextStoreLaws0.
  intros Hc Hs Hip. unfold lookup_ip_v4. rewrite Hc. destruct (Hip) as [-> _].
  cbn [Nat.eqb negb]. rewrite elem_of_app, probe_prefixes_spec, get_rule_context_spec by done.
  assert (Hkey : ∀ q, 0 <= q <= 32 → lpm_key_ok 4 (q, network 4 q ip)).
  { intros q Hq. split_and!; simpl; [lia..|apply network_ok|].
    unfold network at 1. rewrite from_network by (done || lia). by rewrite land_mask_idem. }
  split.
  - intros [Hin|(q & Hq & E)].
    + destruct (_ !! _) eqn:E; [|by apply elem_of_nil in Hin].
      apply list_elem_of_singleton in Hin as ->. by exists (TExactV4 ip).
    + rewrite mask_v4_eq in E by lia. exists (TCidrV4 q (network 4 q ip)).
      assert (0 <= q <= 32) as Hq' by lia. split_and!; [by apply Hkey| |].
      * simpl. apply (network_eq_iff 4 q); [by apply Hkey|done|done].
      * simpl. by rewrite wrap_small by lia.
  - intros (t & Ht & Hcov & E). destruct t as [o|o|p net|p net]; simpl in Hcov; try done.
    + subst o. left. simpl in E. rewrite E. by left.
    + right. pose proof Ht as (Hp & _). simpl in Hp, E. exists p. split; [lia|].
      rewrite wrap_small in E by lia. rewrite mask_v4_eq by lia.
      apply (network_eq_iff 4 p net ip) in Hcov; [|done..]. by rewrite <-Hcov.
Qed.

(** The store has the sources of these entries, target by target. *)
Definition holds_contexts r s entries : Prop :=
  st_ok s ∧ ∀ t, target_ok t → context_wf (stored s t) ∧
    ∀ fl, fl ∈ sources (stored s t) ↔ contributed (file_name_for r) entries t fl.

Lemma held_contexts_wf r s entries ip :
  rg_cache r = Some s → holds_contexts r s entries → bytes_ok 4 ip →
  Forall context_wf (lookup_addr r (V4 ip)).
Proof using ContextStoreLaws0.
  intros Hc [Hst Hs] Hip. apply Forall_forall. intros cx Hin.
  apply (lookup_v4_disk r s) in Hin as (t & Ht & _ & E); [|done..].
  destruct (Hs t Ht) as [Hw _]. unfold stored in Hw. by rewrite E in Hw.
Qed.

Lemma held_attribution_v4 r s entries ip fl :
  rg_cache r = Some s → holds_contexts r s entries →
  (∀ e, e ∈ entries → target_ok (fe_target e)) → bytes_ok 4 ip →
  listed (lookup_addr r (V4 ip)) fl ↔
  ∃ t, target_covers t (V4 ip) ∧ contributed (file_name_for r) entries t fl.
Proof using ContextStoreLaws0.
  intros Hc [Hst Hs] Hok Hip. unfold listed.
  change (lookup_addr r (V4 ip)) with (lookup_ip_v4 r ip).
  setoid_rewrite (lookup_v4_disk r s ip); [|done..]. split.
  - intros (cx & (t & Ht & Hcov & E) & Hin). exists t. split; [done|].
    apply (Hs t Ht). unfold stored. by rewrite E.
  - intros (t & Hcov & Hcon).
    assert (target_ok t) as Ht by (destruct Hcon as (e & He & <- & _); auto).
    pose proof (proj2 (proj2 (Hs t Ht) fl) Hcon) as Hin. unfold stored in Hin.
    destruct (st_contexts s !! context_key t) as [cx|] eqn:E; [|by apply elem_of_nil in Hin].
    exists cx. eauto.
Qed.

(** The index built on an empty store has them. *)
Lemma build_ip_index_holds r s entries :
  rg_cache r = Some s → st_ok s → st_contexts s = ∅ →
  (∀ e, e ∈ entries → target_ok (fe_target e)) →
  ∃ s', build_ip_index r entries = set_cache r s' ∧ holds_contexts (set_cache r s') s' entries.
Proof using All.
  intros Hc Hst Hs Hok. unfold build_ip_index. rewrite Hc.
  assert (Hch : mjoin (chunks (length entries) WORKER_BATCH_SIZE entries) = entries).
  { apply mjoin_chunks; [unfold WORKER_BATCH_SIZE; lia|done]. }
  destruct (cache_batches_spec (chunks (length entries) WORKER_BATCH_SIZE entries) r s)
    as (s' & -> & Hs' & Hsrc);
    [done|split; [done|intros ??; by rewrite Hs, lookup_empty]|by rewrite Hch|].
  rewrite Hch in Hsrc. exists s'. split; [done|]. split; [apply Hs'|]. intros t Ht.
  split; [by apply stored_wf|]. intros fl. rewrite Hsrc by done. unfold stored. rewrite Hs, lookup_empty.
  unfold file_name_for. cbn. split; [|by right]. by intros [?%elem_of_nil|?].
Qed.
End Disk.

(** ** The IPv6 lookup on disk *)
Section DiskV6.
Context {S : Type} `{!ContextStore S} `{!ContextStoreLaws S} `{!HashOrder}.
Implicit Types (r : FireholMetadataRegistry S) (s : S).

Lemma map_iter_singleton {K V} `{Countable K} (k : K) (v : V) :
  map_iter ({[k := v]} : gmap K V) = [(k, v)].
Proof.
  pose proof (map_iter_perm ({[k := v]} : gmap K V)) as Hp.
  rewrite map_to_list_singleton in Hp. by apply Permutation_singleton_r in Hp.
Qed.

(** The index of one entry is one stored context. *)
Lemma build_index_single r s e c f :
  rg_cache r = Some s → st_ok s → st_contexts s = ∅ →
  rg_metadata_light r !! fe_metadata_id e = Some (c, f) → (∀ l, is_Some (write_contexts s l)) →
  ∃ s', build_ip_index r [e] = set_cache r s' ∧ st_ok s' ∧
    st_contexts s' = {[ context_key (fe_target e) :=
      add_source RuleBlockContext_default f (fe_line e) c ]}.
Proof.
  intros Hc Hst Hs Hl Hw. unfold build_ip_index. rewrite Hc.
  change (chunks (length [e]) WORKER_BATCH_SIZE [e]) with [take WORKER_BATCH_SIZE [e]].
  rewrite take_ge by (unfold WORKER_BATCH_SIZE; simpl length; lia).
  cbn [cache_batches]. unfold cache_entry_contexts, merge_contexts. rewrite Hc.
  cbn [fold_left mbind option_bind]. rewrite Hl, lookup_empty, get_rule_context_spec, Hs, lookup_empty by done.
  cbn [fmap option_fmap option_map default id mbind option_bind].
  rewrite insert_empty, map_iter_singleton. cbn [fmap list_fmap].
  destruct (Hw [(context_key (fe_target e),
    add_source RuleBlockContext_default f (fe_line e) c)]) as [s' Hs'].
  rewrite Hs'. exists s'. split; [done|].
  destruct (write_contexts_spec _ _ _ Hst Hs') as (? & _ & ->). by rewrite Hs, (right_id_L ∅ (∪)).
Qed.

Lemma disk_v6_misses r s e c f p net ip :
  rg_cache r = Some s → st_ok s → st_contexts s = ∅ →
  rg_metadata_light r !! fe_metadata_id e = Some (c, f) → (∀ l, is_Some (write_contexts s l)) →
  fe_target e = TCidrV6 p net → target_ok (TCidrV6 p net) → p < 128 → p mod 8 = 0 →
  bytes_ok 16 ip → target_covers (TCidrV6 p net) (V6 ip) → nth (Z.to_nat (p / 8)) ip 0 ≠ 0 →
  lookup_addr (build_ip_index r [e]) (V6 ip) = [].
Proof.
  intros Hc Hst0 Hs Hl Hw Ht Hok Hp Hmod Hip Hcov Hnz.
  destruct (build_index_single r s e c f Hc Hst0 Hs Hl Hw) as (s' & -> & Hst' & Hst). rewrite Ht in Hst.
  pose proof Hok as (Hpr & Hnet & _). cbn [fst snd] in *.
  apply elem_of_nil_inv. intros cx.
  change (lookup_addr (set_cache r s') (V6 ip)) with (lookup_ip_v6 (set_cache r s') ip).
  unfold lookup_ip_v6. destruct (Hip) as [-> _]. cbn [Nat.eqb negb].
  change (rg_cache (set_cache r s')) with (Some s'). cbv beta iota.
  rewrite elem_of_app, probe_prefixes_spec, get_rule_context_spec, Hst by done.
  rewrite lookup_singleton_ne by done. intros [?%elem_of_nil|(q & Hq & E)]; [done|].
  apply lookup_singleton_Some in E as [Hk _]. unfold context_key, ctx_key_v6_lpm in Hk.
  rewrite wrap_small in Hk by lia. injection Hk as -> Hm.
  simpl in Hcov. apply (network_eq_iff 16 q net ip Hok Hip) in Hcov.
  assert (mask_v6 q ip = network 16 q ip) as Hbad by congruence.
  apply mask_v6_spec in Hbad; [|lia|done]. lia.
Qed.
End DiskV6.

(** ** Theorems *)

(** In memory, looking up an address lists exactly the file and
    line of every imported entry whose target covers the address (for both
    address families), whatever the iteration order of the hash tables. *)
Theorem lookup_ip_lists_covering_entries {S : Type} `{!ContextStore S} `{!HashOrder}
    (r : FireholMetadataRegistry S) entries ip fl :
  rg_cache r = None → (∀ e, e ∈ entries → target_ok (fe_target e)) → ip_ok ip →
  listed (lookup_addr (build_ip_index r entries) ip) fl ↔
  ∃ t, target_covers t ip ∧ contributed (file_name_for r) entries t fl.
Proof. apply ram_attribution. Qed.

(** So, with the disk cache, an address inside an IPv6 block
    whose prefix is a multiple of 8 (such as a /32 or /48) is attributed to no
    list at all when its next octet is not zero. *)
Theorem cached_lookup_ipv6_misses {S : Type} `{!ContextStore S} `{!ContextStoreLaws S}
    `{!HashOrder} (r : FireholMetadataRegistry S) s e c f p net ip :
  rg_cache r = Some s → st_ok s → st_contexts s = ∅ →
  rg_metadata_light r !! fe_metadata_id e = Some (c, f) → (∀ l, is_Some (write_contexts s l)) →
  fe_target e = TCidrV6 p net → target_ok (TCidrV6 p net) → p < 128 → p mod 8 = 0 →
  bytes_ok 16 ip → target_covers (TCidrV6 p net) (V6 ip) → nth (Z.to_nat (p / 8)) ip 0 ≠ 0 →
  lookup_addr (build_ip_index r [e]) (V6 ip) = [].
Proof. apply disk_v6_misses. Qed.

(** ** A store in memory, and witnesses *)
Record MemStore : Type := mkStore {
  ms_contexts : gmap (list Z) RuleBlockContext; ms_metadata : gmap (list Z) FireholMetadata }.
#[global] Instance MemStore_store : ContextStore MemStore := {|
  st_ok _ := True;
  st_contexts := ms_contexts;
  st_metadata := ms_metadata;
  get_rule_context s k := Some (ms_contexts s !! k);
  get_metadata s k := Some (ms_metadata s !! k);
  put_metadata s k m := Some (mkStore (ms_contexts s) (<[k := m]> (ms_metadata s)));
  write_contexts s l := Some (mkStore (list_to_map (reverse l) ∪ ms_contexts s) (ms_metadata s));
|}.
#[global] Instance MemStore_laws : ContextStoreLaws MemStore.
Proof. split; simpl; try done; intros; simplify_eq; done. Qed.
#[local] Existing Instance canonical_order.

Definition demo_metadata : FireholMetadata :=
  mkMetadata 1 Malware None None None None (lit "dshield.netset") None None.
Definition demo_ram : FireholMetadataRegistry MemStore :=
  (register_metadata registry_new demo_metadata).1.
Definition demo_disk : FireholMetadataRegistry MemStore :=
  (register_metadata (with_cache (mkStore ∅ ∅)) demo_metadata).1.
Definition demo_entries : list FireholEntry :=
  [mkEntry (TCidrV4 8 [10; 0; 0; 0]) 1 1 5; mkEntry (TExactV4 [10; 1; 1; 1]) 2 1 9;
   mkEntry (TExactV4 [9; 9; 9; 9]) 3 1 10].

Lemma demo_entries_ok e : e ∈ demo_entries → target_ok (fe_target e).
Proof.
  assert (Forall (λ e, target_ok (fe_target e)) demo_entries) as H by by_decide.
  rewrite Forall_forall in H. apply H.
Qed.

Lemma lookup_ip_lists_covering_entries_witness :
  listed (lookup_addr (build_ip_index demo_ram demo_entries) (V4 [10; 1; 1; 1]))
    (lit "dshield.netset", 5).
Proof.
  apply lookup_ip_lists_covering_entries; [done|apply demo_entries_ok|by_decide|].
  exists (TCidrV4 8 [10; 0; 0; 0]). split; [by_decide|].
  exists (mkEntry (TCidrV4 8 [10; 0; 0; 0]) 1 1 5). split; [by left|]. by_decide.
Defined.

Lemma cached_lookup_ipv6_misses_witness :
  lookup_addr (build_ip_index demo_disk
      [mkEntry (TCidrV6 32 (32 :: 1 :: 13 :: 184 :: replicate 12 0)) 1 1 5])
    (V6 (32 :: 1 :: 13 :: 184 :: 7 :: replicate 11 0)) = [] ∧
  lookup_addr (build_ip_index demo_ram
      [mkEntry (TCidrV6 32 (32 :: 1 :: 13 :: 184 :: replicate 12 0)) 1 1 5])
    (V6 (32 :: 1 :: 13 :: 184 :: 7 :: replicate 11 0)) ≠ [].
Proof.
  split; [|by vm_compute].
  eapply (cached_lookup_ipv6_misses demo_disk);
    [reflexivity|exact I|reflexivity|reflexivity|by eexists|reflexivity|by_decide|lia|by_decide|
     by_decide|by_decide|by vm_compute].
Defined.
