(* ===== verification/Cache.v ===== *)
(** * The disk cache ([src/cache_rocksdb.rs])

    RocksDB and rkyv are interfaces: a database is a family of sorted key-value
    maps written by atomic batches, an archive is a byte string that reads back.
    On them, the operations of [CacheRocksDb], the bulk writer of the import and
    the construction of contexts from sorted contributions
    ([build_ordered_contexts] of [src/firehol/metadata.rs]). The cache is an
    instance of the store interface the registry is written against. *)
From stdpp Require Import base numbers list gmap fin_maps strings sorting.
From Stdlib Require Import ZArith Lia.
From S2P Require Import Prelude Net BpfMaps Str Entry Metadata Attribution.

Local Open Scope Z_scope.

(** ** RocksDB *)

(** The column families. *)
Definition CONTRIBUTIONS : string := "contributions".
Definition ENTRIES : string := "entries".
Definition METADATA : string := "meta".
Definition RULE_CONTEXT : string := "rule_ctx".

Abbreviation family := (gmap (list Z) (list Z)).
Abbreviation families := (gmap string family).

Inductive write_op : Type :=
| WPut (name : string) (key value : list Z)
| WDelete (name : string) (key : list Z).
Definition apply_op (F : families) (op : write_op) : families :=
  match op with
  | WPut name key value => alter (λ m : family, <[key := value]> m) name F
  | WDelete name key => alter (λ m : family, delete key m) name F
  end.
Definition apply_ops (F : families) (ops : list write_op) : families := fold_left apply_op ops F.

(** The bytewise comparator. *)
Fixpoint bytes_ltb (a b : list Z) : bool :=
  match a, b with
  | [], [] => false
  | [], _ :: _ => true
  | _ :: _, [] => false
  | x :: a', y :: b' => (x <? y) || ((x =? y) && bytes_ltb a' b')
  end.
Definition bytes_lt (a b : list Z) : Prop := bytes_ltb a b = true.
(** [lo <= key < hi]. *)
Definition in_range (lo hi key : list Z) : bool := negb (bytes_ltb key lo) && bytes_ltb key hi.

(** [None] is an I/O error. A cursor yields pairs until it is exhausted or fails:
    the flag is its final status. *)
Class RocksDb (DB : Type) : Type := {
  db_families : DB → families;
  db_open_new : option DB;
  db_cf_handle : DB → string → bool;
  db_get : DB → string → list Z → option (option (list Z));
  db_write : bool → DB → list write_op → option DB;
  db_delete_range : DB → string → list Z → list Z → option DB;
  db_cursor : DB → string → list (list Z * list Z) * bool;
  db_flush : DB → option DB;
  db_batch_size : list write_op → Z;
}.
Class RocksDbLaws (DB : Type) `{RocksDb DB} : Prop := {
  db_open_new_spec db : db_open_new = Some db →
    db_families db = list_to_map ((., ∅) <$> [METADATA; RULE_CONTEXT; ENTRIES; CONTRIBUTIONS]);
  db_cf_handle_spec db name : db_cf_handle db name = true ↔ is_Some (db_families db !! name);
  db_get_spec db name key m v : db_families db !! name = Some m →
    db_get db name key = Some v → v = m !! key;
  db_write_spec wal db ops db' : db_write wal db ops = Some db' →
    db_families db' = apply_ops (db_families db) ops;
  db_delete_range_spec db name lo hi db' : db_delete_range db name lo hi = Some db' →
    db_families db' =
      alter (filter (λ kv : list Z * list Z, in_range lo hi kv.1 = false)) name (db_families db);
  db_flush_spec db db' : db_flush db = Some db' → db_families db' = db_families db;
  db_cursor_sorted db name : StronglySorted bytes_lt (db_cursor db name).1.*1;
  db_cursor_sound db name m key value : db_families db !! name = Some m →
    (key, value) ∈ (db_cursor db name).1 → m !! key = Some value;
  db_cursor_complete db name m key value : db_families db !! name = Some m →
    (db_cursor db name).2 = true → m !! key = Some value → (key, value) ∈ (db_cursor db name).1;
}.
(** Reads do not fail. *)
Class RocksDbReads (DB : Type) `{RocksDb DB} : Prop := {
  db_get_total db name key : db_cf_handle db name = true → is_Some (db_get db name key);
  db_cursor_status db name : (db_cursor db name).2 = true;
}.

(** ** rkyv archives *)
Class Rkyv (A : Type) : Type := {
  to_bytes : A → option (list Z);
  from_bytes : list Z → option A;
}.
Class RkyvLaws (A : Type) `{Rkyv A} : Prop :=
  from_to_bytes a b : to_bytes a = Some b → from_bytes b = Some a.

(** ** The cache *)
Definition io {A} (o : option A) : outcome unit A :=
  match o with Some a => Ok a | None => Err tt end.

Section Cache.
Context {DB : Type} `{!RocksDb DB} `{!Rkyv FireholMetadata} `{!Rkyv RuleBlockContext}.

Record CacheRocksDb : Type := mkCache { cr_db : DB; cr_temporary : bool }.
Implicit Type self : CacheRocksDb.

Definition set_db self (db : DB) : CacheRocksDb := mkCache db (cr_temporary self).

Definition cache_open : outcome unit CacheRocksDb :=
  db ← io db_open_new; mret (mkCache db false).
Definition import_generation : outcome unit CacheRocksDb :=
  cache ← cache_open; mret (mkCache (cr_db cache) true).

Definition cf self (name : string) : outcome unit unit :=
  if db_cf_handle (cr_db self) name then Ok tt else Err tt.

Definition cache_get self (name : string) (key : list Z) : outcome unit (option (list Z)) :=
  _ ← cf self name; io (db_get (cr_db self) name key).
Definition cache_put self (name : string) (key value : list Z) : outcome unit CacheRocksDb :=
  _ ← cf self name; db ← io (db_write true (cr_db self) [WPut name key value]); mret (set_db self db).
Definition cache_delete self (name : string) (key : list Z) : outcome unit CacheRocksDb :=
  _ ← cf self name; db ← io (db_write true (cr_db self) [WDelete name key]); mret (set_db self db).

Definition batch_put self (batch : list write_op) (name : string) (key value : list Z)
    : outcome unit (list write_op) :=
  _ ← cf self name; mret (batch ++ [WPut name key value]).
Definition apply_batch self (batch : list write_op) : outcome unit CacheRocksDb :=
  db ← io (db_write true (cr_db self) batch); mret (set_db self db).

Definition clear_entries self : outcome unit CacheRocksDb :=
  _ ← cf self ENTRIES;
  db ← io (db_delete_range (cr_db self) ENTRIES (replicate 8 0) (replicate 8 255));
  mret (set_db self db).
Definition clear_contributions self : outcome unit CacheRocksDb :=
  _ ← cf self CONTRIBUTIONS;
  db ← io (db_delete_range (cr_db self) CONTRIBUTIONS (replicate 26 0) (replicate 26 255));
  mret (set_db self db).
Definition flush_import self : outcome unit CacheRocksDb :=
  _ ← cf self ENTRIES; _ ← cf self CONTRIBUTIONS; _ ← cf self RULE_CONTEXT; _ ← cf self METADATA;
  db ← io (db_flush (cr_db self)); mret (set_db self db).

Fixpoint visit_cursor {A} (visitor : list Z → list Z → A → outcome unit A)
    (pairs : list (list Z * list Z)) (a : A) : outcome unit A :=
  match pairs with
  | [] => Ok a
  | (key, value) :: rest => a' ← visitor key value a; visit_cursor visitor rest a'
  end.
Definition visit_pairs {A} self (name : string) (visitor : list Z → list Z → A → outcome unit A)
    (a : A) : outcome unit A :=
  _ ← cf self name;
  let '(pairs, status) := db_cursor (cr_db self) name in
  a' ← visit_cursor visitor pairs a;
  if status then Ok a' else Err tt.
Definition visit_values {A} self (name : string) (visitor : list Z → A → outcome unit A) (a : A)
    : outcome unit A :=
  visit_pairs self name (λ _, visitor) a.

(** *** Archived values *)
Definition cache_put_metadata self (m : FireholMetadata) : outcome unit CacheRocksDb :=
  buf ← io (to_bytes m); cache_put self METADATA (metadata_key (md_id m)) buf.
Definition deserialize_metadata (bytes : list Z) : outcome unit FireholMetadata :=
  io (from_bytes bytes).
Definition cache_get_metadata self (id : Z) : outcome unit (option FireholMetadata) :=
  pinned ← cache_get self METADATA (metadata_key id);
  match pinned with
  | None => Ok None
  | Some p => m ← deserialize_metadata p; mret (Some m)
  end.
Definition with_metadata {R} self (id : Z) (f : FireholMetadata → R) : outcome unit (option R) :=
  pinned ← cache_get self METADATA (metadata_key id);
  match pinned with
  | None => Ok None
  | Some p => archived ← io (from_bytes p); mret (Some (f archived))
  end.
Definition cache_put_rule_context self (key : list Z) (cx : RuleBlockContext)
    : outcome unit CacheRocksDb :=
  buf ← io (to_bytes cx); cache_put self RULE_CONTEXT key buf.
Definition deserialize_rule_context (bytes : list Z) : outcome unit RuleBlockContext :=
  io (from_bytes bytes).
Definition cache_get_rule_context self (key : list Z) : outcome unit (option RuleBlockContext) :=
  pinned ← cache_get self RULE_CONTEXT key;
  match pinned with
  | None => Ok None
  | Some p => cx ← deserialize_rule_context p; mret (Some cx)
  end.
Definition with_rule_context {R} self (key : list Z) (f : RuleBlockContext → R)
    : outcome unit (option R) :=
  pinned ← cache_get self RULE_CONTEXT key;
  match pinned with
  | None => Ok None
  | Some p => archived ← io (from_bytes p); mret (Some (f archived))
  end.

(** The writes of one merged batch ([cache_entry_contexts]). *)
Fixpoint context_batch self (batch : list write_op) (l : list (list Z * RuleBlockContext))
    : outcome unit (list write_op) :=
  match l with
  | [] => Ok batch
  | (key, cx) :: rest =>
      buf ← io (to_bytes cx);
      batch' ← batch_put self batch RULE_CONTEXT key buf;
      context_batch self batch' rest
  end.
Definition cache_write_contexts self (l : list (list Z * RuleBlockContext))
    : outcome unit CacheRocksDb :=
  batch ← context_batch self [] l; apply_batch self batch.

(** *** The bulk writer *)
Definition MAX_IMPORT_BATCH_BYTES : Z := 300 * 1024 * 1024.
Record BulkWriter : Type := mkWriter {
  bw_batch : list write_op; bw_limit : Z; bw_written_bytes : Z }.
Implicit Type w : BulkWriter.

Definition BulkWriter_new (limit : Z) : BulkWriter :=
  mkWriter [] (Z.min (Z.max limit (1024 * 1024)) MAX_IMPORT_BATCH_BYTES) 0.

Definition commit self w : outcome unit (CacheRocksDb * BulkWriter) :=
  if bool_decide (bw_batch w = []) then Ok (self, w) else
  let bytes := db_batch_size (bw_batch w) in
  db ← io (db_write (negb (cr_temporary self)) (cr_db self) (bw_batch w));
  mret (set_db self db, mkWriter [] (bw_limit w) (bw_written_bytes w + bytes)).

(** [if self.batch.size_in_bytes() >= self.limit { self.commit()? }]. *)
Definition commit_if_full self w : outcome unit (CacheRocksDb * BulkWriter) :=
  if bw_limit w <=? db_batch_size (bw_batch w) then commit self w else Ok (self, w).

Definition push_ops w (ops : list write_op) : BulkWriter :=
  mkWriter (bw_batch w ++ ops) (bw_limit w) (bw_written_bytes w).

Definition bw_put self w (name : string) (key value : list Z)
    : outcome unit (CacheRocksDb * BulkWriter) :=
  _ ← cf self name; commit_if_full self (push_ops w [WPut name key value]).

(** Target and import sequence, to metadata identifier and line. *)
Definition contribution_key (n : Z) (e : FireholEntry) : list Z :=
  context_key (fe_target e) ++ to_be_bytes 8 n.
Definition contribution_value (e : FireholEntry) : list Z := drop 22 (encode e).
Definition contribution (n : Z) (e : FireholEntry) : write_op :=
  WPut CONTRIBUTIONS (contribution_key n e) (contribution_value e).
Definition contributions_of (sequence : Z) (entries : list FireholEntry) : list write_op :=
  imap (λ offset e, contribution (sequence + Z.of_nat offset) e) entries.
Definition bw_entries self w (entries : list FireholEntry) (sequence : Z) (spool : bool)
    : outcome unit (CacheRocksDb * BulkWriter) :=
  _ ← cf self CONTRIBUTIONS;
  let w := push_ops w (contributions_of sequence entries) in
  w ← (if spool then
         _ ← cf self ENTRIES;
         mret (push_ops w [WPut ENTRIES (to_be_bytes 8 sequence) (mjoin (encode <$> entries))])
       else mret w);
  commit_if_full self w.
End Cache.
Arguments CacheRocksDb : clear implicits.

(** ** The cache is the store of the registry *)
Definition opt {E A} (m : outcome E A) : option A := match m with Ok a => Some a | _ => None end.

(** One family under a batch. *)
Definition apply_on (name : string) (m : family) (op : write_op) : family :=
  match op with
  | WPut n key value => if decide (n = name) then <[key := value]> m else m
  | WDelete n key => if decide (n = name) then delete key m else m
  end.

Lemma apply_ops_app F a b : apply_ops F (a ++ b) = apply_ops (apply_ops F a) b.
Proof. apply fold_left_app. Qed.

Lemma apply_op_lookup F op name :
  apply_op F op !! name = (λ m, apply_on name m op) <$> F !! name.
Proof.
  destruct op as [n k v|n k]; simpl; case_decide; subst;
    rewrite ?lookup_alter_eq, ?lookup_alter_ne by done; by destruct (F !! name).
Qed.

Lemma apply_ops_lookup ops : ∀ F name,
  apply_ops F ops !! name = (λ m, fold_left (apply_on name) ops m) <$> F !! name.
Proof.
  induction ops as [|op ops IH]; intros F name; cbn [apply_ops fold_left].
  { by destruct (F !! name). }
  change (apply_ops (apply_op F op) ops !! name =
    (λ m, fold_left (apply_on name) ops (apply_on name m op)) <$> F !! name).
  rewrite IH, apply_op_lookup. by destruct (F !! name).
Qed.

Lemma apply_on_puts {A} name (key value : A → list Z) l : ∀ m,
  fold_left (apply_on name) ((λ x, WPut name (key x) (value x)) <$> l) m =
  list_to_map (reverse ((λ x, (key x, value x)) <$> l)) ∪ m.
Proof.
  induction l as [|x l IH]; intros m; cbn [fmap list_fmap fold_left apply_on].
  { change (reverse []) with (@nil (list Z * list Z)). cbn. by rewrite (left_id_L ∅ (∪)). }
  rewrite decide_True by done. rewrite IH, reverse_cons, list_to_map_app. cbn.
  rewrite insert_empty, <-(assoc_L (∪)). by rewrite insert_union_singleton_l.
Qed.

Section Store.
Context {DB : Type} `{!RocksDb DB} `{!Rkyv FireholMetadata} `{!Rkyv RuleBlockContext}.
Implicit Type self : CacheRocksDb DB.

Definition family_of self (name : string) : family := default ∅ (db_families (cr_db self) !! name).
(** The families exist and every archived value reads back. *)
Definition cache_ok self : Prop :=
  Forall (λ name, is_Some (db_families (cr_db self) !! name))
    [METADATA; RULE_CONTEXT; ENTRIES; CONTRIBUTIONS] ∧
  map_Forall (λ _ v, is_Some (from_bytes v : option FireholMetadata)) (family_of self METADATA) ∧
  map_Forall (λ _ v, is_Some (from_bytes v : option RuleBlockContext)) (family_of self RULE_CONTEXT).

(** Callers pass the key of the metadata's own identifier. *)
#[global] Instance CacheRocksDb_store : ContextStore (CacheRocksDb DB) := {|
  st_ok := cache_ok;
  st_contexts self := omap from_bytes (family_of self RULE_CONTEXT);
  st_metadata self := omap from_bytes (family_of self METADATA);
  get_rule_context self key := opt (cache_get_rule_context self key);
  get_metadata self key := opt (
    pinned ← cache_get self METADATA key;
    match pinned with None => Ok None | Some p => m ← deserialize_metadata p; mret (Some m) end);
  put_metadata self key m := opt (buf ← io (to_bytes m); cache_put self METADATA key buf);
  write_contexts self l := opt (cache_write_contexts self l);
|}.

Context `{!RocksDbLaws DB}.

Definition names : list string := [METADATA; RULE_CONTEXT; ENTRIES; CONTRIBUTIONS].

Lemma cf_ok self name : is_Some (db_families (cr_db self) !! name) → cf self name = Ok tt.
Proof. intros H. unfold cf. by rewrite (proj2 (db_cf_handle_spec _ _) H). Qed.
Lemma cf_inv self name : cf self name = Ok tt → is_Some (db_families (cr_db self) !! name).
Proof. unfold cf. intros H. apply db_cf_handle_spec. by destruct (db_cf_handle _ _). Qed.

Lemma cache_ok_family self name :
  cache_ok self → name ∈ names → db_families (cr_db self) !! name = Some (family_of self name).
Proof.
  intros (Hf & _) Hn. rewrite Forall_forall in Hf. destruct (Hf name Hn) as [m Hm].
  unfold family_of. by rewrite Hm.
Qed.

(** A write, on the families. *)
Lemma family_of_write self ops db' name :
  db_families db' = apply_ops (db_families (cr_db self)) ops → is_Some (db_families (cr_db self) !! name) →
  db_families db' !! name = Some (fold_left (apply_on name) ops (family_of self name)).
Proof.
  intros -> [m Hm]. rewrite apply_ops_lookup. unfold family_of.
  by rewrite Hm.
Qed.

Lemma context_batch_spec self l : ∀ batch batch',
  context_batch self batch l = Ok batch' →
  ∃ bufs, Forall2 (λ kc b, to_bytes kc.2 = Some b) l bufs ∧
    batch' = batch ++ ((λ kb, WPut RULE_CONTEXT kb.1 kb.2) <$> zip l.*1 bufs).
Proof.
  induction l as [|[k cx] l IH]; intros batch batch'; cbn [context_batch].
  { intros [= <-]. exists []. by rewrite app_nil_r. }
  intros (buf & Hb & (b1 & Hb1 & H)%outcome_bind_Ok)%outcome_bind_Ok.
  unfold batch_put in Hb1. apply outcome_bind_Ok in Hb1 as ([] & _ & [= <-]).
  apply IH in H as (bufs & Hf & ->). exists (buf :: bufs). split.
  - constructor; [|done]. simpl. destruct (to_bytes cx); simpl in Hb; congruence.
  - rewrite <-app_assoc. done.
Qed.

Lemma omap_from_bytes_puts {A} `{!Rkyv A} `{!RkyvLaws A} (l : list (list Z * A)) (bufs : list (list Z))
    (m : family) :
  Forall2 (λ ka b, to_bytes ka.2 = Some b) l bufs →
  omap from_bytes (list_to_map (reverse (zip l.*1 bufs)) ∪ m) =
  list_to_map (reverse l) ∪ (omap from_bytes m : gmap (list Z) A).
Proof.
  induction 1 as [|[k a] b l bufs Hb Hl IH] in m |- *.
  { change (reverse (zip [].*1 [])) with (@nil (list Z * list Z)).
    change (reverse []) with (@nil (list Z * A)). cbn. by rewrite !(left_id_L ∅ (∪)). }
  cbn [fmap list_fmap zip zip_with fst]. rewrite !reverse_cons, !list_to_map_app. cbn.
  rewrite !insert_empty, <-!(assoc_L (∪)), <-!insert_union_singleton_l. simpl in Hb.
  rewrite IH. f_equal. by rewrite (omap_insert_Some _ _ _ _ a) by by apply from_to_bytes.
Qed.

Context `{!RocksDbReads DB} `{!RkyvLaws FireholMetadata} `{!RkyvLaws RuleBlockContext}.

Lemma cache_get_ok self name key :
  cache_ok self → name ∈ names → cache_get self name key = Ok (family_of self name !! key).
Proof.
  intros Hok Hn. pose proof (cache_ok_family self name Hok Hn) as Hf. unfold cache_get.
  rewrite cf_ok by by eexists. osimpl.
  destruct (db_get_total (cr_db self) name key) as [v Hv].
  { apply db_cf_handle_spec. by eexists. }
  rewrite Hv. cbn. by rewrite (db_get_spec _ _ _ _ _ Hf Hv).
Qed.

Lemma lookup_omap_total {A} (f : list Z → option A) (m : family) key :
  map_Forall (λ _ v, is_Some (f v)) m →
  match m !! key with
  | None => Some None
  | Some v => opt (a ← io (f v); mret (Some a))
  end = Some ((omap f m : gmap (list Z) A) !! key).
Proof.
  intros Hm. rewrite lookup_omap. destruct (m !! key) as [v|] eqn:Hv; [|done].
  destruct (Hm key v Hv) as [a Ha]. cbn. by rewrite Ha.
Qed.

(** Writes into one family leave the others alone. *)
Lemma puts_elsewhere {A} name other (key value : A → list Z) l m :
  name ≠ other → fold_left (apply_on other) ((λ x, WPut name (key x) (value x)) <$> l) m = m.
Proof.
  intros Hne. induction l as [|x l IH] in m |- *; [done|].
  cbn [fmap list_fmap fold_left apply_on]. rewrite decide_False by done. apply IH.
Qed.

Lemma write_puts self name (l : list (list Z * list Z)) db' :
  cache_ok self →
  db_families db' = apply_ops (db_families (cr_db self)) ((λ kb, WPut name kb.1 kb.2) <$> l) →
  ∀ n, n ∈ names → is_Some (db_families db' !! n) ∧
    family_of (set_db self db') n =
      if decide (n = name) then list_to_map (reverse l) ∪ family_of self n else family_of self n.
Proof.
  intros Hok Hw n Hn. assert (Hs : is_Some (db_families (cr_db self) !! n)).
  { rewrite (cache_ok_family self n) by done. by eexists. }
  pose proof (family_of_write _ _ _ n Hw Hs) as Hd. split; [by eexists|].
  unfold family_of at 1. cbn [cr_db set_db]. rewrite Hd. cbn [default]. unfold id. case_decide as He.
  - subst n. rewrite apply_on_puts. f_equal. f_equal. f_equal.
    rewrite <-(list_fmap_id l) at 2. apply list_fmap_ext. by intros ? [].
  - by apply puts_elsewhere.
Qed.

Lemma puts_decode {A} `{!Rkyv A} `{!RkyvLaws A} (l : list (list Z * A)) (bufs : list (list Z))
    (m : family) :
  Forall2 (λ ka b, to_bytes ka.2 = Some b) l bufs →
  map_Forall (λ _ v, is_Some (from_bytes v : option A)) m →
  map_Forall (λ _ v, is_Some (from_bytes v : option A))
    (list_to_map (reverse (zip l.*1 bufs)) ∪ m).
Proof.
  intros Hf Hm k v [Hk|[_ Hk]]%lookup_union_Some_raw; [|by apply (Hm k)].
  apply elem_of_list_to_map_2 in Hk. rewrite elem_of_reverse in Hk.
  apply list_elem_of_lookup in Hk as [i Hi].
  apply lookup_zip_with_Some in Hi as (k' & b & [= <- <-] & _ & Hb).
  destruct (Forall2_lookup_r _ _ _ _ _ Hf Hb) as ([k2 a] & _ & Ha). exists a. by apply from_to_bytes.
Qed.

Lemma write_archived {A} `{!Rkyv A} `{!RkyvLaws A} self name l (bufs : list (list Z)) db' :
  cache_ok self → name ∈ names → Forall2 (λ (ka : list Z * A) b, to_bytes ka.2 = Some b) l bufs →
  db_families db' =
    apply_ops (db_families (cr_db self)) ((λ kb, WPut name kb.1 kb.2) <$> zip l.*1 bufs) →
  omap from_bytes (family_of (set_db self db') name) =
    list_to_map (reverse l) ∪ (omap from_bytes (family_of self name) : gmap (list Z) A) ∧
  (map_Forall (λ _ v, is_Some (from_bytes v : option A)) (family_of self name) →
   map_Forall (λ _ v, is_Some (from_bytes v : option A)) (family_of (set_db self db') name)) ∧
  (∀ n, n ∈ names → n ≠ name → family_of (set_db self db') n = family_of self n) ∧
  Forall (λ n, is_Some (db_families db' !! n)) names.
Proof.
  intros Hok Hn Hf Hw. pose proof (write_puts self name _ db' Hok Hw) as H.
  destruct (H name Hn) as [_ Hd]. rewrite decide_True in Hd by done. split_and!.
  - rewrite Hd. by apply omap_from_bytes_puts.
  - intros Hm. rewrite Hd. by apply puts_decode.
  - intros n Hn' Hne. destruct (H n Hn') as [_ ->]. by rewrite decide_False.
  - apply Forall_forall. intros n Hn'. by apply H.
Qed.

Lemma put_metadata_effect self key m self' :
  cache_ok self → put_metadata self key m = Some self' →
  cache_ok self' ∧ st_metadata self' = <[key := m]> (st_metadata self) ∧
  ∀ n, n ∈ names → n ≠ METADATA → family_of self' n = family_of self n.
Proof.
  intros Hok Hp. cbn in Hp |- *.
  destruct (to_bytes m) as [buf|] eqn:Hb; [|done]. cbn in Hp. unfold cache_put in Hp.
  destruct (cf self METADATA); [|done..]. osimpl in Hp.
  destruct (db_write _ _ _) as [db'|] eqn:Hw; [|done]. cbn in Hp. injection Hp as <-.
  destruct (write_archived self METADATA [(key, m)] [buf] db') as (He & Hm & Hn & Hs);
    [done|set_solver|by repeat constructor|exact (db_write_spec _ _ _ _ Hw)|].
  destruct Hok as (_ & Hm0 & Hc0). split_and!; [split_and!; [done|auto|]| |done].
  - by rewrite (Hn RULE_CONTEXT) by set_solver.
  - rewrite He. cbn. by rewrite insert_empty, <-insert_union_singleton_l.
Qed.

#[global] Instance CacheRocksDb_laws : ContextStoreLaws (CacheRocksDb DB).
Proof.
  split.
  - intros self key Hok. cbn. unfold cache_get_rule_context.
    rewrite cache_get_ok by (done || set_solver). osimpl. pose proof Hok as (_ & _ & Hc).
    rewrite <-(lookup_omap_total from_bytes (family_of self RULE_CONTEXT)) by done.
    by destruct (_ !! key).
  - intros self key Hok. cbn. rewrite cache_get_ok by (done || set_solver). osimpl.
    pose proof Hok as (_ & Hm & _).
    rewrite <-(lookup_omap_total from_bytes (family_of self METADATA)) by done.
    by destruct (_ !! key).
  - intros self key m self' Hok Hp. destruct (put_metadata_effect _ _ _ _ Hok Hp) as (? & ? & Hn).
    split_and!; [done..|]. cbn. by rewrite (Hn RULE_CONTEXT) by set_solver.
  - intros self l self' Hok Hp. cbn in Hp |- *. unfold cache_write_contexts, apply_batch in Hp.
    destruct (context_batch self [] l) as [batch| |] eqn:Hb; [|done..]. osimpl in Hp.
    apply context_batch_spec in Hb as (bufs & Hf & ->). cbn [app] in Hp.
    destruct (db_write _ _ _) as [db'|] eqn:Hw; [|done]. cbn in Hp. injection Hp as <-.
    destruct (write_archived self RULE_CONTEXT l bufs db') as (He & Hm & Hn & Hs);
      [done|set_solver|done|exact (db_write_spec _ _ _ _ Hw)|].
    destruct Hok as (_ & Hm0 & Hc0).
    rewrite (Hn METADATA) by set_solver. split_and!; [|done|done].
    split_and!; [done| |auto]. by rewrite (Hn METADATA) by set_solver.
Qed.
End Store.

(** ** The bulk writer *)
Section Writer.
Context {DB : Type} `{!RocksDb DB} `{!RocksDbLaws DB}.
Implicit Types (self : CacheRocksDb DB) (w : BulkWriter).

(** What the database will hold once the pending batch is written. *)
Definition view self w : families := apply_ops (db_families (cr_db self)) (bw_batch w).

Lemma view_push self w ops : view self (push_ops w ops) = apply_ops (view self w) ops.
Proof. apply apply_ops_app. Qed.

Lemma commit_view self w self' w' :
  commit self w = Ok (self', w') →
  view self' w' = view self w ∧ bw_batch w' = [] ∧ bw_limit w' = bw_limit w ∧
  cr_temporary self' = cr_temporary self.
Proof.
  unfold commit. case_bool_decide as He; [by intros [= <- <-]|].
  destruct (db_write _ _ _) as [db'|] eqn:Hw; [|done]. intros [= <- <-].
  split_and!; [|done..]. unfold view. cbn. by rewrite (db_write_spec _ _ _ _ Hw).
Qed.

Lemma commit_if_full_view self w self' w' :
  commit_if_full self w = Ok (self', w') →
  view self' w' = view self w ∧ bw_limit w' = bw_limit w ∧
  (db_batch_size [] < bw_limit w → db_batch_size (bw_batch w') < bw_limit w).
Proof.
  unfold commit_if_full. destruct (Z.leb_spec (bw_limit w) (db_batch_size (bw_batch w))).
  - intros (-> & -> & -> & _)%commit_view. done.
  - intros [= <- <-]. done.
Qed.

(** A sequence of calls on one writer. *)
Inductive request : Type :=
| RPut (name : string) (key value : list Z)
| REntries (entries : list FireholEntry) (sequence : Z) (spool : bool)
| RCommit.
Definition serve self w (q : request) : outcome unit (CacheRocksDb DB * BulkWriter) :=
  match q with
  | RPut name key value => bw_put self w name key value
  | REntries entries sequence spool => bw_entries self w entries sequence spool
  | RCommit => commit self w
  end.
Fixpoint serve_all self w (qs : list request) : outcome unit (CacheRocksDb DB * BulkWriter) :=
  match qs with
  | [] => Ok (self, w)
  | q :: rest => '(self', w') ← serve self w q; serve_all self' w' rest
  end.

(** Their writes, in order. *)
Definition entries_ops (entries : list FireholEntry) (sequence : Z) (spool : bool)
    : list write_op :=
  contributions_of sequence entries ++
  (if spool then [WPut ENTRIES (to_be_bytes 8 sequence) (mjoin (encode <$> entries))] else []).
Definition request_ops (q : request) : list write_op :=
  match q with
  | RPut name key value => [WPut name key value]
  | REntries entries sequence spool => entries_ops entries sequence spool
  | RCommit => []
  end.

Lemma bw_put_view self w name key value self' w' :
  bw_put self w name key value = Ok (self', w') →
  view self' w' = apply_ops (view self w) [WPut name key value] ∧ bw_limit w' = bw_limit w ∧
  (db_batch_size [] < bw_limit w → db_batch_size (bw_batch w') < bw_limit w).
Proof.
  unfold bw_put. intros ([] & _ & H)%outcome_bind_Ok.
  apply commit_if_full_view in H. by rewrite view_push in H.
Qed.

Lemma bw_entries_view self w entries sequence spool self' w' :
  bw_entries self w entries sequence spool = Ok (self', w') →
  view self' w' = apply_ops (view self w) (entries_ops entries sequence spool) ∧
  bw_limit w' = bw_limit w ∧
  (db_batch_size [] < bw_limit w → db_batch_size (bw_batch w') < bw_limit w).
Proof.
  unfold bw_entries, entries_ops.
  intros ([] & _ & (w1 & Hw1 & H)%outcome_bind_Ok)%outcome_bind_Ok.
  apply commit_if_full_view in H. rewrite apply_ops_app, <-view_push. destruct spool.
  - apply outcome_bind_Ok in Hw1 as ([] & _ & [= <-]). by rewrite view_push in H.
  - by injection Hw1 as <-.
Qed.

Lemma serve_view self w q self' w' :
  serve self w q = Ok (self', w') →
  view self' w' = apply_ops (view self w) (request_ops q) ∧ bw_limit w' = bw_limit w ∧
  (db_batch_size [] < bw_limit w → db_batch_size (bw_batch w') < bw_limit w).
Proof.
  destruct q; [apply bw_put_view|apply bw_entries_view|].
  cbn. intros (-> & -> & -> & _)%commit_view. done.
Qed.

Lemma serve_all_view qs : ∀ self w self' w',
  serve_all self w qs = Ok (self', w') →
  view self' w' = apply_ops (view self w) (qs ≫= request_ops) ∧ bw_limit w' = bw_limit w ∧
  (db_batch_size [] < bw_limit w → db_batch_size (bw_batch w) < bw_limit w →
   db_batch_size (bw_batch w') < bw_limit w).
Proof.
  induction qs as [|q qs IH]; intros self w self' w'; cbn [serve_all].
  { by intros [= <- <-]. }
  intros ([self1 w1] & H1 & H2)%outcome_bind_Ok.
  apply serve_view in H1 as (V1 & L1 & B1). apply IH in H2 as (V2 & L2 & B2).
  cbn [mbind list_bind]. rewrite apply_ops_app, <-V1, <-V2, L2, L1. rewrite L1 in B2. auto.
Qed.
End Writer.

(** ** Contexts from sorted contributions *)
Definition contribution_ok (key value : list Z) : bool :=
  let l := (length key - 8)%nat in
  (length value =? 8)%nat &&
  match key with
  | 1 :: _ => (l =? 5)%nat
  | 2 :: _ => (l =? 17)%nat
  | 3 :: _ => (l =? 6)%nat
  | 4 :: _ => (l =? 18)%nat
  | _ => false
  end.

Section Contexts.
Context {DB : Type} `{!RocksDb DB} `{!Rkyv FireholMetadata} `{!Rkyv RuleBlockContext}.
Implicit Types (r : FireholMetadataRegistry (CacheRocksDb DB)).

(** The scan: the current target and its context, the cache and the writer. *)
Record context_scan : Type := mkScan {
  sn_current : list Z; sn_context : RuleBlockContext;
  sn_cache : CacheRocksDb DB; sn_writer : BulkWriter }.
Implicit Type st : context_scan.

Definition emit st : outcome unit context_scan :=
  buf ← io (to_bytes (sn_context st));
  '(cache, writer) ← bw_put (sn_cache st) (sn_writer st) RULE_CONTEXT (sn_current st) buf;
  mret (mkScan (sn_current st) (sn_context st) cache writer).

(** The first contribution of a target: the previous context is written out. *)
Definition enter_target (target : list Z) st : outcome unit context_scan :=
  if bool_decide (sn_current st = target) then mret st else
  st' ← (if bool_decide (sn_current st = []) then mret st else emit st);
  mret (mkScan target RuleBlockContext_default (sn_cache st') (sn_writer st')).

Definition contribute r (key value : list Z) st : outcome unit context_scan :=
  if negb (contribution_ok key value) then Err tt else
  st' ← enter_target (take (length key - 8) key) st;
  let metadata_id := from_be_bytes (slice value 0 4) in
  let line := from_be_bytes (slice value 4 4) in
  match rg_metadata_light r !! metadata_id with
  | None => Err tt
  | Some (category, file) =>
      mret (mkScan (sn_current st') (add_source (sn_context st') file line category)
              (sn_cache st') (sn_writer st'))
  end.

Definition build_ordered_contexts r (writer : BulkWriter)
    : outcome unit (FireholMetadataRegistry (CacheRocksDb DB) * BulkWriter) :=
  match rg_cache r with
  | None => Fault
  | Some cache =>
      st ← visit_pairs cache CONTRIBUTIONS (contribute r)
             (mkScan [] RuleBlockContext_default cache writer);
      st' ← (if bool_decide (sn_current st = []) then mret st else emit st);
      mret (set_cache r (sn_cache st'), sn_writer st')
  end.
End Contexts.
Arguments context_scan : clear implicits.

(** *** The comparator *)
Lemma bytes_ltb_irrefl a : bytes_ltb a a = false.
Proof. induction a as [|x a IH]; [done|]. cbn. by rewrite Z.ltb_irrefl, Z.eqb_refl, IH. Qed.

Lemma bytes_lt_trans a : ∀ b c, bytes_lt a b → bytes_lt b c → bytes_lt a c.
Proof.
  unfold bytes_lt. induction a as [|x a IH]; intros [|y b] [|z c]; cbn; try done.
  rewrite !orb_true_iff, !andb_true_iff, !Z.ltb_lt, !Z.eqb_eq.
  intros [?|[-> ?]] [?|[-> ?]]; [left; lia|left; lia|left; lia|]. right. eauto.
Qed.

Lemma bytes_ltb_app a : ∀ b c d, length a = length b →
  bytes_ltb (a ++ c) (b ++ d) = bytes_ltb a b || bool_decide (a = b) && bytes_ltb c d.
Proof.
  induction a as [|x a IH]; intros [|y b] c d Hl; try done. cbn. rewrite IH by (simpl in Hl; lia).
  destruct (Z.ltb_spec x y); [done|]. destruct (Z.eqb_spec x y) as [->|]; cbn.
  - by rewrite (bool_decide_ext (y :: a = y :: b) (a = b)) by naive_solver.
  - by rewrite bool_decide_eq_false_2 by congruence.
Qed.

Lemma bytes_ltb_be a : ∀ b, length a = length b → Forall byte_ok a → Forall byte_ok b →
  bytes_ltb a b = (from_be_bytes a <? from_be_bytes b).
Proof.
  induction a as [|x a IH]; intros [|y b] Hl Ha Hb; try done.
  apply Forall_cons in Ha as [Hx Ha], Hb as [Hy Hb]. cbn [bytes_ltb].
  rewrite !from_be_bytes_cons, IH by (done || simpl in Hl; lia).
  pose proof (from_be_bytes_bound a Ha). pose proof (from_be_bytes_bound b Hb).
  simpl in Hl. replace (length b) with (length a) in * by lia. unfold byte_ok in *.
  assert (0 < 256 ^ Z.of_nat (length a)) by apply pow256_pos.
  apply eq_true_iff_eq. rewrite orb_true_iff, andb_true_iff, !Z.ltb_lt, Z.eqb_eq. nia.
Qed.

(** *** Contribution records *)
Lemma context_key_shape t :
  target_ok t → ∃ tag rest, context_key t = tag :: rest ∧
    (tag = 1 ∧ length rest = 4%nat ∨ tag = 2 ∧ length rest = 16%nat ∨
     tag = 3 ∧ length rest = 5%nat ∨ tag = 4 ∧ length rest = 17%nat).
Proof.
  destruct t as [a|a|q a|q a]; simpl; intros Ht; eexists _, _; (split; [done|]); cbn [length].
  - left. split; [done|apply Ht].
  - right; left. split; [done|apply Ht].
  - right; right; left. destruct Ht as (_ & [Hl _] & _). simpl in Hl. by rewrite Hl.
  - right; right; right. destruct Ht as (_ & [Hl _] & _). simpl in Hl. by rewrite Hl.
Qed.

Lemma contribution_key_lt n e m f :
  target_ok (fe_target e) → target_ok (fe_target f) → in_width 64 n → in_width 64 m →
  bytes_lt (contribution_key n e) (contribution_key m f) →
  bytes_lt (context_key (fe_target e)) (context_key (fe_target f)) ∨
  fe_target e = fe_target f ∧ n < m.
Proof.
  unfold contribution_key, bytes_lt. intros He Hf Hn Hm.
  destruct (decide (length (context_key (fe_target e)) = length (context_key (fe_target f)))) as [Hl|Hl].
  - rewrite bytes_ltb_app, orb_true_iff, andb_true_iff, bool_decide_eq_true by done.
    intros [?|[Hk Hlt]]; [by left|]. right. split; [by apply context_key_inj|].
    rewrite bytes_ltb_be in Hlt by (rewrite ?length_to_be_bytes; done || apply to_be_bytes_ok).
    rewrite !from_to_be_bytes_id in Hlt by done. by apply Z.ltb_lt.
  - destruct (context_key_shape _ He) as (a & ra & Ea & Ha), (context_key_shape _ Hf) as (b & rb & Eb & Hb).
    rewrite Ea, Eb in *. simpl in Hl |- *. rewrite (proj2 (Z.eqb_neq a b)) by lia.
    rewrite !andb_false_l, !orb_false_r. auto.
Qed.

Lemma contribution_read n e :
  fe_ok e → contribution_ok (contribution_key n e) (contribution_value e) = true ∧
  take (length (contribution_key n e) - 8) (contribution_key n e) = context_key (fe_target e) ∧
  from_be_bytes (slice (contribution_value e) 0 4) = fe_metadata_id e ∧
  from_be_bytes (slice (contribution_value e) 4 4) = fe_line e.
Proof.
  intros He. pose proof (encode_length e He) as Hlen.
  destruct He as (Ht & _ & Hm & Hl).
  assert (Hv : contribution_value e = to_be_bytes 4 (fe_metadata_id e) ++ to_be_bytes 4 (fe_line e)).
  { unfold contribution_value, encode in *. rewrite !length_app, !length_to_be_bytes in Hlen.
    rewrite app_assoc, drop_app_length'; [done|]. rewrite length_app, length_to_be_bytes. lia. }
  assert (Hk : (length (contribution_key n e) - 8 = length (context_key (fe_target e)))%nat).
  { unfold contribution_key. rewrite length_app, length_to_be_bytes. lia. }
  split_and!.
  - unfold contribution_ok. rewrite Hk, Hv, length_app, !length_to_be_bytes.
    destruct (context_key_shape _ Ht) as (a & ra & Ea & Ha). unfold contribution_key. rewrite Ea.
    cbn [length app]. by destruct Ha as [[-> ->]|[[-> ->]|[[-> ->]|[-> ->]]]].
  - rewrite Hk. unfold contribution_key. by rewrite take_app_length.
  - rewrite Hv, slice_app_head by by rewrite length_to_be_bytes. by apply from_to_be_bytes_id.
  - rewrite Hv, slice_app_tail by by rewrite length_to_be_bytes. by apply from_to_be_bytes_id.
Qed.

(** *** What the scan computes *)
Definition entries_for (t : FireholIpTarget) (es : list FireholEntry) : list FireholEntry :=
  filter (λ e, fe_target e = t) es.

Lemma entries_for_app t a b : entries_for t (a ++ b) = entries_for t a ++ entries_for t b.
Proof. apply filter_app. Qed.
Lemma entries_for_cons t e es :
  entries_for t (e :: es) = if decide (fe_target e = t) then e :: entries_for t es else entries_for t es.
Proof. unfold entries_for. by rewrite filter_cons. Qed.

Lemma elem_of_targets t es : t ∈ fe_target <$> es ↔ entries_for t es ≠ [].
Proof.
  split.
  - intros (e & -> & He)%list_elem_of_fmap Hn.
    assert (Hin : e ∈ entries_for (fe_target e) es) by (by apply list_elem_of_filter).
    rewrite Hn in Hin. by apply not_elem_of_nil in Hin.
  - destruct (entries_for t es) as [|e l] eqn:E; [done|]. intros _.
    assert (Hin : e ∈ entries_for t es) by (rewrite E; apply list_elem_of_here).
    apply list_elem_of_filter in Hin as [<- Hin]. apply list_elem_of_fmap. eauto.
Qed.

Section ScanSpec.
Context {DB : Type} `{!RocksDb DB} `{!RocksDbLaws DB}.
Context `{!Rkyv FireholMetadata} `{!Rkyv RuleBlockContext}.
Context (r : FireholMetadataRegistry (CacheRocksDb DB)) (F0 : families).
Implicit Types (st : context_scan DB) (es pre : list FireholEntry).

Definition context_step (cx : RuleBlockContext) (e : FireholEntry) : RuleBlockContext :=
  match rg_metadata_light r !! fe_metadata_id e with
  | Some (category, file) => add_source cx file (fe_line e) category
  | None => cx
  end.
Definition context_of es : RuleBlockContext := fold_left context_step es RuleBlockContext_default.

(** Targets in key order, equal targets together. *)
Definition key_le (e f : FireholEntry) : Prop :=
  bytes_lt (context_key (fe_target e)) (context_key (fe_target f)) ∨ fe_target e = fe_target f.

(** The contexts of the targets before the current one. *)
Definition closed_context pre (t : FireholIpTarget) : option RuleBlockContext :=
  if decide (t ∈ fe_target <$> pre ∧ fe_target <$> last pre ≠ Some t)
  then Some (context_of (entries_for t pre)) else None.

Definition puts_of (out : list (list Z * RuleBlockContext)) (bufs : list (list Z)) : list write_op :=
  (λ kb, WPut RULE_CONTEXT kb.1 kb.2) <$> zip out.*1 bufs.
Definition archived (out : list (list Z * RuleBlockContext)) (bufs : list (list Z)) : Prop :=
  Forall2 (λ kc b, to_bytes kc.2 = Some b) out bufs.

(** The last value written under each key. *)
Definition written (out : list (list Z * RuleBlockContext)) : gmap (list Z) RuleBlockContext :=
  list_to_map (reverse out).

Definition scanned pre st : Prop :=
  sn_current st = default [] ((λ e, context_key (fe_target e)) <$> last pre) ∧
  (∀ e, last pre = Some e → sn_context st = context_of (entries_for (fe_target e) pre)) ∧
  ∃ out bufs, archived out bufs ∧
    view (sn_cache st) (sn_writer st) = apply_ops F0 (puts_of out bufs) ∧
    ∀ t, target_ok t → written out !! context_key t = closed_context pre t.

Lemma archived_snoc out bufs k cx buf :
  archived out bufs → to_bytes cx = Some buf →
  archived (out ++ [(k, cx)]) (bufs ++ [buf]) ∧
  puts_of (out ++ [(k, cx)]) (bufs ++ [buf]) = puts_of out bufs ++ [WPut RULE_CONTEXT k buf].
Proof.
  intros Ha Hb. split; [by apply Forall2_app; [|constructor]|]. unfold puts_of.
  rewrite fmap_app, zip_with_app by (rewrite length_fmap; by eapply Forall2_length).
  by rewrite fmap_app.
Qed.

Lemma emit_spec st st' :
  emit st = Ok st' →
  sn_current st' = sn_current st ∧ sn_context st' = sn_context st ∧
  ∃ buf, to_bytes (sn_context st) = Some buf ∧
    view (sn_cache st') (sn_writer st') =
      apply_ops (view (sn_cache st) (sn_writer st)) [WPut RULE_CONTEXT (sn_current st) buf].
Proof.
  unfold emit. intros (buf & Hb & ([c w] & Hp & [= <-])%outcome_bind_Ok)%outcome_bind_Ok.
  destruct (to_bytes _) as [b|]; [|done]. injection Hb as ->.
  apply bw_put_view in Hp as (Hv & _). cbn. eauto.
Qed.

(** Writing out the current context closes its target. *)
Lemma emit_closes pre e st st' :
  scanned pre st → last pre = Some e → Forall fe_ok pre → emit st = Ok st' →
  ∃ out bufs, archived out bufs ∧
    view (sn_cache st') (sn_writer st') = apply_ops F0 (puts_of out bufs) ∧
    ∀ t, target_ok t → written out !! context_key t =
      if decide (t ∈ fe_target <$> pre) then Some (context_of (entries_for t pre)) else None.
Proof.
  intros (Hc & Hx & out & bufs & Ha & Hv & Ho) Hl Hok He.
  apply emit_spec in He as (_ & _ & buf & Hb & Hv'). rewrite Hl in Hc. cbn in Hc.
  destruct (archived_snoc out bufs (sn_current st) _ _ Ha Hb) as [Ha' Hp].
  exists (out ++ [(sn_current st, sn_context st)]), (bufs ++ [buf]). split; [done|].
  rewrite Hp, apply_ops_app, <-Hv, <-Hv'. split; [done|]. intros t Ht.
  assert (Hin : e ∈ pre) by (apply last_Some_elem_of; done).
  unfold written. rewrite reverse_app. cbn. rewrite Hc. fold (written out).
  destruct (decide (t = fe_target e)) as [->|Hne].
  - rewrite lookup_insert_eq, decide_True by (apply list_elem_of_fmap; eauto).
    f_equal. by apply Hx.
  - rewrite lookup_insert_ne, Ho by
      (done || (intros Hk%context_key_inj; [done| |done]; rewrite Forall_forall in Hok; by apply Hok)).
    unfold closed_context. rewrite Hl. cbn.
    apply decide_ext. split; [by intros [? _]|]. split; [done|congruence].
Qed.

Lemma entries_for_none t es : t ∉ fe_target <$> es → entries_for t es = [].
Proof.
  intros Hn. apply elem_of_nil_inv. intros e Hin. unfold entries_for in Hin.
  apply list_elem_of_filter in Hin as [<- Hin]. apply Hn, list_elem_of_fmap. eauto.
Qed.

(** In key order, a new target has not been seen. *)
Lemma new_target_unseen pre l e :
  StronglySorted key_le (pre ++ [e]) → last pre = Some l → fe_target l ≠ fe_target e →
  fe_target e ∉ fe_target <$> pre.
Proof.
  intros Hs Hl Hne (f & Hf & Hin)%list_elem_of_fmap.
  apply last_Some in Hl as [pre' ->]. apply StronglySorted_app in Hs as (He & Hp & _).
  destruct (He l e) as [Hle|]; [set_solver|set_solver| |done].
  apply elem_of_app in Hin as [Hin|Hin%list_elem_of_singleton]; [|congruence].
  assert (Hlt : bytes_lt (context_key (fe_target f)) (context_key (fe_target e))).
  { apply StronglySorted_app in Hp as (Hp & _).
    destruct (Hp f l) as [H|H]; [done|set_solver|by eapply bytes_lt_trans|by rewrite H]. }
  unfold bytes_lt in Hlt. by rewrite Hf, bytes_ltb_irrefl in Hlt.
Qed.

Lemma enter_target_spec pre e st st' :
  scanned pre st → Forall fe_ok pre → fe_ok e → StronglySorted key_le (pre ++ [e]) →
  enter_target (context_key (fe_target e)) st = Ok st' →
  sn_current st' = context_key (fe_target e) ∧
  sn_context st' = context_of (entries_for (fe_target e) pre) ∧
  ∃ out bufs, archived out bufs ∧
    view (sn_cache st') (sn_writer st') = apply_ops F0 (puts_of out bufs) ∧
    ∀ t, target_ok t → written out !! context_key t =
      if decide (t ∈ fe_target <$> pre ∧ t ≠ fe_target e)
      then Some (context_of (entries_for t pre)) else None.
Proof.
  intros Hsc Hok He Hs. pose proof Hsc as (Hc & Hx & out & bufs & Ha & Hv & Ho).
  assert (Hte : target_ok (fe_target e)) by apply He.
  destruct (context_key_shape _ Hte) as (tag & rest & Ek & _).
  unfold enter_target. destruct (last pre) as [l|] eqn:Hl; cbn in Hc.
  - assert (Htl : target_ok (fe_target l)).
    { rewrite Forall_forall in Hok. apply Hok. by apply last_Some_elem_of. }
    case_bool_decide as Hcur.
    + intros [= <-]. rewrite Hc in Hcur. apply context_key_inj in Hcur; [|done..].
      rewrite Hc, Hcur. split; [done|]. rewrite <-Hcur. split; [by apply Hx|].
      exists out, bufs. split; [done|]. split; [done|]. intros t Ht. rewrite Ho by done.
      unfold closed_context. rewrite Hl. cbn. apply decide_ext. naive_solver.
    + destruct (context_key_shape _ Htl) as (tag' & rest' & Ek' & _).
      rewrite bool_decide_eq_false_2 by (rewrite Hc, Ek'; done).
      intros (st1 & H1 & [= <-])%outcome_bind_Ok. cbn.
      assert (Hun : fe_target e ∉ fe_target <$> pre).
      { eapply new_target_unseen; [done|done|]. intros H. by rewrite Hc, H in Hcur. }
      rewrite entries_for_none by done. split; [done|]. split; [done|].
      destruct (emit_closes pre l st st1 Hsc Hl Hok H1) as (out1 & bufs1 & Ha1 & Hv1 & Ho1).
      exists out1, bufs1. split; [done|]. split; [done|]. intros t Ht. rewrite Ho1 by done.
      apply decide_ext. naive_solver.
  - apply last_None in Hl as ->. rewrite Hc. rewrite bool_decide_eq_false_2 by (rewrite Ek; done).
    cbn. intros [= <-]. cbn. split; [done|]. split; [done|]. by exists out, bufs.
Qed.

Lemma contribute_spec pre n e st st' :
  scanned pre st → Forall fe_ok pre → fe_ok e → StronglySorted key_le (pre ++ [e]) →
  contribute r (contribution_key n e) (contribution_value e) st = Ok st' →
  scanned (pre ++ [e]) st'.
Proof.
  intros Hsc Hok He Hs Hc. destruct (contribution_read n e He) as (Hr & Ht & Hm & Hli).
  unfold contribute in Hc. rewrite Hr, Ht, Hm, Hli in Hc. cbn [negb] in Hc.
  apply outcome_bind_Ok in Hc as (st1 & H1 & Hc).
  apply (enter_target_spec pre e) in H1 as (Hcur & Hx & out & bufs & Ha & Hv & Ho); [|done..].
  destruct (rg_metadata_light r !! fe_metadata_id e) as [[c f]|] eqn:Hlt; [|done].
  injection Hc as <-. unfold scanned. rewrite last_snoc. cbn. split; [done|]. split.
  - intros e' [= <-]. rewrite entries_for_app, entries_for_cons, decide_True by done.
    unfold context_of. rewrite fold_left_app. cbn. fold (context_of (entries_for (fe_target e) pre)).
    unfold context_step. by rewrite Hlt, Hx.
  - exists out, bufs. split; [done|]. split; [done|]. intros t Htt. rewrite Ho by done.
    unfold closed_context. rewrite last_snoc. cbn.
    destruct (decide (t = fe_target e)) as [->|Hne].
    { by rewrite !decide_False by naive_solver. }
    rewrite entries_for_app, entries_for_cons, (decide_False (P := fe_target e = t)) by congruence.
    rewrite app_nil_r.
    apply decide_ext. rewrite fmap_app, elem_of_app. set_solver.
Qed.

Lemma scan_spec cs : ∀ pre st st',
  scanned pre st → Forall fe_ok (pre ++ cs.*2) → StronglySorted key_le (pre ++ cs.*2) →
  visit_cursor (contribute r)
    ((λ ne, (contribution_key ne.1 ne.2, contribution_value ne.2)) <$> cs) st = Ok st' →
  scanned (pre ++ cs.*2) st'.
Proof.
  induction cs as [|[n e] cs IH]; intros pre st st' Hsc Hok Hs.
  { cbn. intros [= <-]. by rewrite app_nil_r. }
  replace (pre ++ ((n, e) :: cs).*2) with ((pre ++ [e]) ++ cs.*2) in *
    by (by rewrite <-(assoc_L (++))).
  cbn [fmap list_fmap visit_cursor]. intros (st1 & H1 & H2)%outcome_bind_Ok. cbn [fst snd] in H1.
  eapply IH; [|done|done|exact H2].
  apply Forall_app in Hok as [Hok _]. apply Forall_app in Hok as [Hok He].
  eapply contribute_spec; [done|done|by inversion He|by eapply StronglySorted_app_1_l|done].
Qed.
End ScanSpec.

(** *** The contributions of an import *)
Lemma Forall_preimage {A B} (f : B → A) (P : B → Prop) l :
  Forall (λ x, ∃ y, x = f y ∧ P y) l → ∃ ys, l = f <$> ys ∧ Forall P ys.
Proof.
  induction 1 as [|x l (y & -> & Hy) _ (ys & -> & Hys)]; [by exists []|].
  exists (y :: ys). split; [done|by constructor].
Qed.

Lemma StronglySorted_fmap {A B} (f : A → B) (R : relation B) l :
  StronglySorted R (f <$> l) ↔ StronglySorted (λ x y, R (f x) (f y)) l.
Proof.
  induction l as [|x l IH]; [by split; constructor|]. rewrite fmap_cons.
  split; intros H; inversion_clear H; constructor; try (by apply IH);
    by apply Forall_fmap.
Qed.

Lemma StronglySorted_NoDup {A} (R : relation A) l :
  (∀ x, ¬ R x x) → StronglySorted R l → NoDup l.
Proof.
  intros Hirr. induction 1 as [|x l Hs IH Hx]; constructor; [|done].
  intros Hin. rewrite Forall_forall in Hx. by apply (Hirr x), Hx.
Qed.

Lemma StronglySorted_impl {A} (R R' : relation A) l :
  StronglySorted R l → (∀ x y, x ∈ l → y ∈ l → R x y → R' x y) → StronglySorted R' l.
Proof.
  induction 1 as [|x l Hs IH Hx]; intros HR; constructor.
  - apply IH. intros y z ??. apply HR; set_solver.
  - rewrite Forall_forall in Hx |- *. intros y Hy. apply HR; [set_solver..|auto].
Qed.

Lemma StronglySorted_filter {A} (R : relation A) (P : A → Prop) `{∀ x, Decision (P x)} l :
  StronglySorted R l → StronglySorted R (filter P l).
Proof.
  induction 1 as [|x l Hs IH Hx]; [constructor|]. rewrite filter_cons.
  case_decide; [|done]. constructor; [done|]. rewrite Forall_forall in Hx |- *.
  intros y [_ Hy]%list_elem_of_filter. auto.
Qed.

(** Entries with their place in the import. *)
Definition numbered (E : list FireholEntry) : list (Z * FireholEntry) :=
  imap (λ n e, (Z.of_nat n, e)) E.

Lemma elem_of_numbered E n e : (n, e) ∈ numbered E ↔ ∃ i, n = Z.of_nat i ∧ E !! i = Some e.
Proof.
  unfold numbered. rewrite list_elem_of_lookup. setoid_rewrite list_lookup_imap_Some. naive_solver.
Qed.

Lemma numbered_sorted E : StronglySorted (λ a b, a.1 < b.1) (numbered E).
Proof.
  induction E as [|e E IH] using rev_ind; [constructor|]. unfold numbered. rewrite imap_app.
  apply StronglySorted_app. split_and!; [|done|repeat constructor].
  intros [n f] y Hn Hy. cbn in Hy. apply list_elem_of_singleton in Hy as ->. cbn.
  apply elem_of_numbered in Hn as (i & -> & Hi). apply lookup_lt_Some in Hi. lia.
Qed.

Lemma numbered_snd E : (numbered E).*2 = E.
Proof.
  unfold numbered. rewrite fmap_imap. change (imap (λ _ x, x) E = E).
  apply list_eq. intros i. rewrite list_lookup_imap. by destruct (E !! i).
Qed.

(** A family that holds the contributions of [E] and nothing else. *)
Definition holds_contributions (m : family) (E : list FireholEntry) : Prop :=
  ∀ key value, m !! key = Some value ↔
    ∃ i e, E !! i = Some e ∧ key = contribution_key (Z.of_nat i) e ∧ value = contribution_value e.

Lemma contribution_key_inj n e m f :
  in_width 64 n → in_width 64 m → target_ok (fe_target e) → target_ok (fe_target f) →
  contribution_key n e = contribution_key m f → n = m ∧ fe_target e = fe_target f.
Proof.
  unfold contribution_key. intros Hn Hm He Hf Hk.
  apply app_inj_2 in Hk as [Hk Hb]; [|by rewrite !length_to_be_bytes].
  split; [|by apply context_key_inj].
  by rewrite <-(from_to_be_bytes_id 8 n), <-(from_to_be_bytes_id 8 m), Hb.
Qed.

Lemma holds_contributions_snoc m E e :
  holds_contributions m E → Forall fe_ok E → fe_ok e → len E < 2 ^ 64 →
  holds_contributions (<[contribution_key (len E) e := contribution_value e]> m) (E ++ [e]).
Proof.
  intros Hh HE He Hlen key value. rewrite lookup_insert_Some, (Hh key value). split.
  - intros [[<- <-]|[_ (i & f & Hi & -> & ->)]].
    + exists (length E), e. split; [by apply list_lookup_middle|done].
    + exists i, f. split; [by apply lookup_app_l_Some|done].
  - intros (i & f & [Hi|[Hi Hf]]%lookup_app_Some & -> & ->).
    + right. split; [|eauto]. intros Hk. pose proof (lookup_lt_Some _ _ _ Hi) as Hlt.
      rewrite Forall_forall in HE.
      apply contribution_key_inj in Hk as [Hk _]; [unfold len in *; lia| | |apply He|].
      1,2: unfold in_width, len in *; lia.
      apply HE. by apply list_elem_of_lookup_2 in Hi.
    + left. apply list_lookup_singleton_Some in Hf as [Hz <-].
      replace i with (length E) by lia. done.
Qed.

Lemma holds_contributions_app b : ∀ m E,
  holds_contributions m E → Forall fe_ok (E ++ b) → len (E ++ b) <= 2 ^ 64 →
  holds_contributions (fold_left (apply_on CONTRIBUTIONS) (contributions_of (len E) b) m) (E ++ b).
Proof.
  induction b as [|e b IH]; intros m E Hh Hok Hlen; [by rewrite app_nil_r|].
  unfold contributions_of. rewrite imap_cons. cbn [fold_left].
  replace (E ++ e :: b) with ((E ++ [e]) ++ b) in * by (by rewrite <-(assoc_L (++))).
  assert (Hl : len (E ++ [e]) = len E + 1) by (unfold len; rewrite length_app; simpl; lia).
  assert (len (E ++ [e]) <= 2 ^ 64) by (unfold len in *; rewrite !length_app in *; lia).
  pose proof Hok as [[HE He]%Forall_app _]%Forall_app. inversion_clear He as [|?? He' _].
  replace (imap _ b) with (contributions_of (len (E ++ [e])) b).
  - apply IH; [|done|done]. unfold contribution, apply_on. rewrite decide_True by done.
    rewrite Z.add_0_r. apply holds_contributions_snoc; [done..|lia].
  - apply imap_ext. intros i x _. cbn. f_equal. lia.
Qed.

Lemma filter_snd (P : FireholEntry → Prop) `{∀ e, Decision (P e)} (cs : list (Z * FireholEntry)) :
  filter P cs.*2 = (filter (λ ne, P ne.2) cs).*2.
Proof.
  induction cs as [|[n e] cs IH]; [done|]. rewrite fmap_cons, !filter_cons. cbn [snd].
  destruct (decide (P e)); [by rewrite fmap_cons, IH|done].
Qed.

Section Cursor.
Context {DB : Type} `{!RocksDb DB} `{!RocksDbLaws DB}.

(** Read in key order, the contributions come grouped by target, and within a
    target in the order of the import. *)
Lemma cursor_contributions db m E :
  db_families db !! CONTRIBUTIONS = Some m → holds_contributions m E → Forall fe_ok E →
  len E < 2 ^ 64 → (db_cursor db CONTRIBUTIONS).2 = true →
  ∃ cs : list (Z * FireholEntry),
    (db_cursor db CONTRIBUTIONS).1 =
      ((λ ne, (contribution_key ne.1 ne.2, contribution_value ne.2)) <$> cs) ∧
    Forall fe_ok cs.*2 ∧ StronglySorted key_le cs.*2 ∧
    ∀ t, entries_for t cs.*2 = entries_for t E.
Proof.
  intros Hm Hh Hok Hlen Hst. pose proof (db_cursor_sorted db CONTRIBUTIONS) as Hsort.
  assert (Hin : ∀ key value, (key, value) ∈ (db_cursor db CONTRIBUTIONS).1 ↔
      ∃ ne, ne ∈ numbered E ∧ (key, value) = (contribution_key ne.1 ne.2, contribution_value ne.2)).
  { intros key value. transitivity (m !! key = Some value).
    - split; [by eapply db_cursor_sound|by eapply db_cursor_complete].
    - rewrite (Hh key value). split.
      + intros (i & e & Hi & -> & ->). exists (Z.of_nat i, e). split; [|done].
        apply elem_of_numbered. eauto.
      + intros ([n e] & (i & -> & Hi)%elem_of_numbered & [= -> ->]). eauto. }
  destruct (Forall_preimage (λ ne, (contribution_key ne.1 ne.2, contribution_value ne.2))
    (.∈ numbered E) (db_cursor db CONTRIBUTIONS).1) as (cs & Hcs & Hmem).
  { apply Forall_forall. intros [k v] (ne & ? & ?)%Hin. eauto. }
  assert (Hw : ∀ n e, (n, e) ∈ numbered E → in_width 64 n ∧ fe_ok e).
  { intros n e (i & -> & Hi)%elem_of_numbered. pose proof (lookup_lt_Some _ _ _ Hi).
    split; [unfold in_width, len in *; lia|]. rewrite Forall_forall in Hok.
    by apply Hok, (list_elem_of_lookup_2 _ i). }
  rewrite Hcs in Hsort. rewrite <-list_fmap_compose in Hsort.
  rewrite StronglySorted_fmap in Hsort. cbn in Hsort. rewrite Forall_forall in Hmem.
  assert (Hnd : NoDup cs).
  { eapply StronglySorted_NoDup; [|exact Hsort]. intros ne H. unfold bytes_lt in H.
    by rewrite bytes_ltb_irrefl in H. }
  assert (Hperm : cs ≡ₚ numbered E).
  { apply NoDup_Permutation; [done| |].
    { eapply StronglySorted_NoDup; [|apply numbered_sorted]. intros ne. cbn. lia. }
    intros [n e]. split; [apply Hmem|]. intros Hne.
    assert (Hc : (contribution_key n e, contribution_value e) ∈ (db_cursor db CONTRIBUTIONS).1).
    { apply Hin. by exists (n, e). }
    rewrite Hcs in Hc. apply list_elem_of_fmap in Hc as ([n' e'] & [= Hk _] & Hc).
    destruct (Hw n e Hne) as [Hn He], (Hw n' e' (Hmem _ Hc)) as [Hn' He'].
    apply contribution_key_inj in Hk as [<- _]; [|done|done|apply He|apply He'].
    apply Hmem in Hc as Hne'. apply elem_of_numbered in Hne as (i & -> & Hi), Hne' as (j & Hj & Hej).
    apply Nat2Z.inj in Hj as <-. by simplify_eq. }
  assert (Hpair : StronglySorted (λ a b, bytes_lt (context_key (fe_target a.2))
      (context_key (fe_target b.2)) ∨ fe_target a.2 = fe_target b.2 ∧ a.1 < b.1) cs).
  { eapply StronglySorted_impl; [exact Hsort|]. intros [n e] [n' e'] Ha Hb Hlt.
    destruct (Hw n e (Hmem _ Ha)) as [? He], (Hw n' e' (Hmem _ Hb)) as [? He'].
    apply contribution_key_lt; [apply He|apply He'|done..]. }
  exists cs. split; [exact Hcs|]. split; [|split].
  - apply Forall_fmap, Forall_forall. intros [n e] Ha. by apply (Hw n e), Hmem.
  - rewrite StronglySorted_fmap. eapply StronglySorted_impl; [exact Hpair|].
    intros x y _ _ [?|[? _]]; [by left|by right].
  - intros t. rewrite <-(numbered_snd E) at 1. unfold entries_for. rewrite !filter_snd. f_equal.
    apply (StronglySorted_unique_strong (λ a b, a.1 < b.1)).
    + lia.
    + eapply StronglySorted_impl; [apply StronglySorted_filter, Hpair|].
      intros x y [Hx _]%list_elem_of_filter [Hy _]%list_elem_of_filter [Hlt|[_ ?]]; [|done].
      unfold bytes_lt in Hlt. by rewrite Hx, Hy, bytes_ltb_irrefl in Hlt.
    + apply StronglySorted_filter, numbered_sorted.
    + by rewrite Hperm.
Qed.

(** A cursor that reaches the end yields the only sorted list of the family. *)
Lemma cursor_unique db name m (l : list (list Z * list Z)) :
  db_families db !! name = Some m → (db_cursor db name).2 = true →
  StronglySorted bytes_lt l.*1 → (∀ key value, m !! key = Some value ↔ (key, value) ∈ l) →
  (db_cursor db name).1 = l.
Proof.
  intros Hm Hst Hl Hin. pose proof (db_cursor_sorted db name) as Hs. rewrite StronglySorted_fmap in Hs, Hl.
  assert (Hirr : ∀ x : list Z * list Z, ¬ bytes_lt x.1 x.1)
    by (intros x H; unfold bytes_lt in H; by rewrite bytes_ltb_irrefl in H).
  eapply StronglySorted_unique_strong; [|exact Hs|exact Hl|].
  - intros x y _ _ H1 H2. destruct (Hirr x). exact (bytes_lt_trans _ _ _ H1 H2).
  - apply NoDup_Permutation;
      [exact (StronglySorted_NoDup _ _ Hirr Hs)|exact (StronglySorted_NoDup _ _ Hirr Hl)|].
    intros [key value]. rewrite <-Hin. split; [by eapply db_cursor_sound|by eapply db_cursor_complete].
Qed.
End Cursor.

(** *** The contexts on disk *)
Section Built.
Context {DB : Type} `{!RocksDb DB} `{!RocksDbLaws DB} `{!Rkyv FireholMetadata} `{!Rkyv RuleBlockContext}.
Context `{!RkyvLaws FireholMetadata} `{!RkyvLaws RuleBlockContext}.
Implicit Types (r : FireholMetadataRegistry (CacheRocksDb DB)).

(** [build_ordered_contexts] followed by the commit. *)
Definition finish_contexts r (writer : BulkWriter)
    : outcome unit (FireholMetadataRegistry (CacheRocksDb DB) * BulkWriter) :=
  '(r', writer') ← build_ordered_contexts r writer;
  match rg_cache r' with
  | None => Fault
  | Some cache => '(cache', writer'') ← commit cache writer'; mret (set_cache r' cache', writer'')
  end.

Lemma build_ordered_contexts_spec r cache w E r' w' :
  rg_cache r = Some cache → bw_batch w = [] →
  is_Some (db_families (cr_db cache) !! CONTRIBUTIONS) →
  holds_contributions (family_of cache CONTRIBUTIONS) E → Forall fe_ok E → len E < 2 ^ 64 →
  build_ordered_contexts r w = Ok (r', w') →
  ∃ cache' out bufs, r' = set_cache r cache' ∧ archived out bufs ∧
    view cache' w' = apply_ops (db_families (cr_db cache)) (puts_of out bufs) ∧
    ∀ t, target_ok t → written out !! context_key t =
      if decide (t ∈ fe_target <$> E) then Some (context_of r (entries_for t E)) else None.
Proof.
  intros Hc Hw [m Hm] Hh Hok Hlen. unfold build_ordered_contexts, visit_pairs. rewrite Hc.
  intros (st & Hst & (st' & Hfin & [= <- <-])%outcome_bind_Ok)%outcome_bind_Ok.
  apply outcome_bind_Ok in Hst as ([] & _ & Hst). unfold family_of in Hh. rewrite Hm in Hh. cbn in Hh.
  pose proof (cursor_contributions (cr_db cache) m E Hm Hh Hok Hlen) as Hcur.
  destruct (db_cursor (cr_db cache) CONTRIBUTIONS) as [pairs status]. cbn [fst snd] in Hcur.
  apply outcome_bind_Ok in Hst as (st0 & Hv & Hst). destruct status; [|done]. injection Hst as ->.
  destruct (Hcur eq_refl) as (cs & -> & Hcok & Hcs & Hfor).
  apply (scan_spec r (view cache w) cs []) in Hv; [|split_and!; [done|done|]|done|done].
  2: { exists [], []. split_and!; [constructor|done|]. intros t _. unfold closed_context.
       by rewrite decide_False by set_solver. }
  cbn [app] in Hv. unfold view in Hv at 1. rewrite Hw in Hv. cbn in Hv.
  assert (Hin : ∀ t, t ∈ fe_target <$> cs.*2 ↔ t ∈ fe_target <$> E).
  { intros t. by rewrite !elem_of_targets, Hfor. }
  destruct (last cs.*2) as [e|] eqn:Hl; pose proof Hv as (Hcu & _ & out & bufs & Ha & Hvw & Ho);
    rewrite Hl in Hcu; cbn in Hcu.
  - assert (He : target_ok (fe_target e)).
    { rewrite Forall_forall in Hcok. apply Hcok. by apply last_Some_elem_of. }
    destruct (context_key_shape _ He) as (tag & rest & Ek & _).
    rewrite Hcu, Ek, bool_decide_eq_false_2 in Hfin by done.
    destruct (emit_closes _ _ _ _ _ _ Hv Hl Hcok Hfin) as (out' & bufs' & Ha' & Hv' & Ho').
    exists (sn_cache st'), out', bufs'. split_and!; [done..|]. intros t Ht. rewrite Ho', Hfor by done.
    by apply decide_ext.
  - rewrite Hcu, bool_decide_eq_true_2 in Hfin by done. injection Hfin as <-.
    exists (sn_cache st), out, bufs. split_and!; [done..|]. intros t Ht. rewrite Ho by done.
    unfold closed_context. apply last_None in Hl.
    rewrite !decide_False; [done| |]; rewrite <-?Hin, Hl; set_solver.
Qed.

(** Committed, they are what the store answers. *)
Lemma finish_contexts_spec r cache w E r' w' :
  cache_ok cache → rg_cache r = Some cache → bw_batch w = [] →
  family_of cache RULE_CONTEXT = ∅ →
  holds_contributions (family_of cache CONTRIBUTIONS) E → Forall fe_ok E → len E < 2 ^ 64 →
  finish_contexts r w = Ok (r', w') →
  ∃ cache', r' = set_cache r cache' ∧ cache_ok cache' ∧ bw_batch w' = [] ∧
    (∀ n, n ∈ names → n ≠ RULE_CONTEXT → family_of cache' n = family_of cache n) ∧
    ∀ t, target_ok t → st_contexts cache' !! context_key t =
      if decide (t ∈ fe_target <$> E) then Some (context_of r (entries_for t E)) else None.
Proof.
  intros Hok Hc Hw H0 Hh He Hlen ([r1 w1] & Hb & Hf)%outcome_bind_Ok.
  destruct (build_ordered_contexts_spec r cache w E r1 w1) as (c1 & out & bufs & -> & Ha & Hv & Ho);
    [done|done| |done..|].
  { rewrite (cache_ok_family cache CONTRIBUTIONS) by (done || set_solver). by eexists. }
  cbn in Hf. apply outcome_bind_Ok in Hf as ([c2 w2] & Hcm & [= <- <-]).
  apply commit_view in Hcm as (Hv2 & Hb2 & _). rewrite Hv in Hv2. unfold view in Hv2.
  rewrite Hb2 in Hv2. cbn in Hv2.
  destruct (write_archived cache RULE_CONTEXT out bufs (cr_db c2)) as (Hm & Hd & Hn & Hs);
    [done|set_solver|done|exact Hv2|].
  assert (Hfam : ∀ n, family_of (set_db cache (cr_db c2)) n = family_of c2 n) by done.
  rewrite Hfam in Hm, Hd. destruct Hok as (_ & Hmd & Hrc).
  exists c2. split; [done|]. split; [split_and!|split_and!].
  - exact Hs.
  - rewrite <-Hfam, Hn by set_solver. done.
  - auto.
  - done.
  - intros n ? ?. rewrite <-Hfam. by apply Hn.
  - intros t Ht. cbn. rewrite Hm, H0, omap_empty, (right_id_L ∅ (∪)). by apply Ho.
Qed.
End Built.

(** ** Theorems *)

(** C38 (equivalence). Batching is transparent and bounded: whatever the size limit,
    a sequence of puts, entry blocks and commits through one bulk writer, ended by
    a commit, leaves the database exactly as writing each record directly in order
    would; between calls the pending batch stays below the limit, which is at most
    300 MiB. *)
Theorem bulk_writer_transparent {DB : Type} `{!RocksDb DB} `{!RocksDbLaws DB}
    (self self1 self2 : CacheRocksDb DB) limit w1 w2 qs :
  db_batch_size [] < 1024 * 1024 →
  serve_all self (BulkWriter_new limit) qs = Ok (self1, w1) → commit self1 w1 = Ok (self2, w2) →
  db_families (cr_db self2) = apply_ops (db_families (cr_db self)) (qs ≫= request_ops) ∧
  db_batch_size (bw_batch w1) < bw_limit w1 <= MAX_IMPORT_BATCH_BYTES.
Proof.
  intros Hs (Hv & Hl & Hb)%serve_all_view (Hv2 & He & _)%commit_view.
  unfold view in Hv, Hv2. rewrite He in Hv2. cbn in Hv, Hv2. split; [congruence|].
  rewrite Hl. unfold BulkWriter_new, MAX_IMPORT_BATCH_BYTES in *. cbn in *. split; [apply Hb|]; lia.
Qed.

(** C39 (functional). Contexts are rebuilt from the contributions in one scan: after the
    scan and its commit, the store answers for every target the context of exactly
    the imported entries with that target, merged in the order of the import, and
    none for a target no entry has. *)
Theorem ordered_contexts_merge_every_entry {DB : Type} `{!RocksDb DB} `{!RocksDbLaws DB}
    `{!RocksDbReads DB} `{!Rkyv FireholMetadata} `{!Rkyv RuleBlockContext}
    `{!RkyvLaws FireholMetadata} `{!RkyvLaws RuleBlockContext}
    (r r' : FireholMetadataRegistry (CacheRocksDb DB)) cache w w' E :
  cache_ok cache → rg_cache r = Some cache → bw_batch w = [] →
  family_of cache RULE_CONTEXT = ∅ →
  holds_contributions (family_of cache CONTRIBUTIONS) E → Forall fe_ok E → len E < 2 ^ 64 →
  finish_contexts r w = Ok (r', w') →
  ∃ cache', r' = set_cache r cache' ∧
    ∀ t, target_ok t → cache_get_rule_context cache' (context_key t) =
      Ok (if decide (t ∈ fe_target <$> E) then Some (context_of r (entries_for t E)) else None).
Proof.
  intros Hok Hc Hw H0 Hh He Hlen Hf.
  destruct (finish_contexts_spec r cache w E r' w') as (cache' & -> & Hok' & _ & _ & Hst); [done..|].
  exists cache'. split; [done|]. intros t Ht. pose proof (get_rule_context_spec cache' (context_key t) Hok') as Hg.
  rewrite Hst in Hg by done. cbn in Hg. by destruct (cache_get_rule_context _ _); simplify_eq/=.
Qed.

(** ** A database in memory, and witnesses *)
Lemma bytes_ltb_total a : ∀ b, bytes_ltb a b = false → bytes_ltb b a = false → a = b.
Proof.
  induction a as [|x a IH]; intros [|y b]; cbn; try done.
  destruct (Z.ltb_spec x y), (Z.ltb_spec y x), (Z.eqb_spec x y), (Z.eqb_spec y x); cbn; try (done || lia).
  intros ? ?. f_equal; auto.
Qed.

Definition MemDb : Type := families.
Definition key_leb (a b : list Z * list Z) : Prop := bytes_ltb b.1 a.1 = false.
#[local] Instance key_leb_dec a b : Decision (key_leb a b).
Proof. unfold key_leb. apply _. Defined.
#[local] Instance key_leb_total : Total key_leb.
Proof.
  intros a b. unfold key_leb. destruct (bytes_ltb b.1 a.1) eqn:E1; [|by left].
  right. destruct (bytes_ltb a.1 b.1) eqn:E2; [|done].
  by rewrite <-(bytes_ltb_irrefl b.1), (bytes_lt_trans b.1 a.1 b.1).
Qed.
#[local] Instance key_leb_trans : Transitive key_leb.
Proof.
  intros a b c. unfold key_leb. intros H1 H2. destruct (bytes_ltb c.1 a.1) eqn:E; [|done].
  destruct (bytes_ltb b.1 c.1) eqn:E2.
  - by rewrite <-H1, (bytes_lt_trans b.1 c.1 a.1).
  - rewrite (bytes_ltb_total _ _ E2 H2) in H1. congruence.
Qed.

#[global] Instance MemDb_db : RocksDb MemDb := {|
  db_families F := F;
  db_open_new := Some (list_to_map ((., ∅) <$> [METADATA; RULE_CONTEXT; ENTRIES; CONTRIBUTIONS]));
  db_cf_handle F name := bool_decide (is_Some (F !! name));
  db_get F name key := Some (F !! name ≫= (.!! key));
  db_write _ F ops := Some (apply_ops F ops);
  db_delete_range F name lo hi :=
    Some (alter (filter (λ kv : list Z * list Z, in_range lo hi kv.1 = false)) name F);
  db_cursor F name := (merge_sort key_leb (map_to_list (default ∅ (F !! name) : family)), true);
  db_flush F := Some F;
  db_batch_size ops := Z.of_nat (sum_list_with (λ op, match op with
    | WPut _ k v => length k + length v | WDelete _ k => length k end)%nat ops);
|}.
#[global] Instance MemDb_reads : RocksDbReads MemDb.
Proof. split; [intros F name key _; by eexists|done]. Qed.
(** Without equal keys, sorted is strictly sorted. *)
Lemma sorted_keys_strict (l : list (list Z * list Z)) :
  StronglySorted key_leb l → NoDup l.*1 → StronglySorted bytes_lt l.*1.
Proof.
  induction 1 as [|x l Hs IH Hx]; intros Hnd; [constructor|]. rewrite fmap_cons in *.
  apply NoDup_cons in Hnd as [Hx' Hnd]. constructor; [by apply IH|].
  apply Forall_fmap, Forall_forall. intros y Hy. rewrite Forall_forall in Hx.
  specialize (Hx y Hy). unfold key_leb in Hx. unfold bytes_lt. cbn.
  destruct (bytes_ltb x.1 y.1) eqn:E; [done|]. destruct Hx'.
  rewrite (bytes_ltb_total _ _ E Hx). apply list_elem_of_fmap. eauto.
Qed.

#[global] Instance MemDb_laws : RocksDbLaws MemDb.
Proof.
  split; cbn; try (by intros; simplify_eq).
  - intros. apply bool_decide_eq_true.
  - intros F name key m v Hm [= <-]. by rewrite Hm.
  - intros F name. apply sorted_keys_strict; [apply StronglySorted_merge_sort; apply _|].
    rewrite merge_sort_Permutation. apply NoDup_fst_map_to_list.
  - intros F name m key value ->. cbn. by rewrite merge_sort_Permutation, elem_of_map_to_list.
  - intros F name m key value -> _. cbn. by rewrite merge_sort_Permutation, elem_of_map_to_list.
Qed.

#[global] Instance RuleBlockContext_countable : Countable RuleBlockContext.
Proof.
  refine (inj_countable' (λ c, (cx_files c, cx_lines c, cx_categories c))
    (λ '(fs, ls, cs), mkContext fs ls cs) _). by intros [].
Defined.
#[global] Instance FireholMetadata_eq_dec : EqDecision FireholMetadata.
Proof. solve_decision. Defined.
#[global] Instance FireholMetadata_countable : Countable FireholMetadata.
Proof.
  refine (inj_countable' (λ m, (md_id m, md_category m, (md_source_url m, md_maintainer m,
      md_maintainer_url m, md_source_file_date m), md_file_name m, md_version m, md_update_frequency m))
    (λ '(id, c, (u, a, au, d), f, v, q), mkMetadata id c u a au d f v q) _). by intros [].
Defined.
Definition demo_rkyv (A : Type) `{Countable A} : Rkyv A := {|
  to_bytes a := Some [Zpos (countable.encode a)];
  from_bytes l := match l with [Zpos p] => countable.decode p | _ => None end;
|}.
#[local] Existing Instance demo_rkyv.
#[local] Instance demo_rkyv_laws (A : Type) `{Countable A} : RkyvLaws A.
Proof. intros a b [= <-]. cbn. apply countable.decode_encode. Qed.
#[local] Existing Instance canonical_order.

Definition demo_cache : CacheRocksDb MemDb :=
  match cache_open with Ok c => c | _ => mkCache ∅ false end.
Definition demo_requests : list request :=
  [RPut METADATA (metadata_key 7) [1; 2]; REntries demo_entries 0 true; RCommit;
   REntries demo_entries 3 false].
Definition demo_served : CacheRocksDb MemDb * BulkWriter :=
  from_ok (demo_cache, BulkWriter_new 0) (serve_all demo_cache (BulkWriter_new 0) demo_requests).
Definition demo_committed : CacheRocksDb MemDb * BulkWriter :=
  from_ok demo_served (commit demo_served.1 demo_served.2).

Lemma bulk_writer_transparent_witness :
  db_families (cr_db demo_committed.1) =
    apply_ops (db_families (cr_db demo_cache)) (demo_requests ≫= request_ops) ∧
  db_batch_size (bw_batch demo_served.2) < bw_limit demo_served.2 <= MAX_IMPORT_BATCH_BYTES.
Proof.
  apply (bulk_writer_transparent demo_cache demo_served.1 demo_committed.1 0 demo_served.2
    demo_committed.2 demo_requests); [by_decide|rewrite <-surjective_pairing; apply from_ok_eq..];
    vm_compute; reflexivity.
Defined.

Definition demo_registry : FireholMetadataRegistry (CacheRocksDb MemDb) :=
  (register_metadata (with_cache demo_cache) demo_metadata).1.
Definition demo_import_cache : CacheRocksDb MemDb * BulkWriter :=
  from_ok (demo_cache, BulkWriter_new 0)
    ('(c, w) ← bw_entries (default demo_cache (rg_cache demo_registry)) (BulkWriter_new 0)
                 demo_entries 0 true; commit c w).
Definition demo_scan : FireholMetadataRegistry (CacheRocksDb MemDb) :=
  set_cache demo_registry demo_import_cache.1.

Lemma ordered_contexts_merge_every_entry_witness :
  ∃ r' w' cache', finish_contexts demo_scan demo_import_cache.2 = Ok (r', w') ∧
    r' = set_cache demo_scan cache' ∧
    cache_get_rule_context cache' (context_key (TExactV4 [10; 1; 1; 1])) =
      Ok (Some (mkContext [lit "dshield.netset"] [9] [Malware])).
Proof.
  set (res := finish_contexts demo_scan demo_import_cache.2).
  assert (Hf : res = Ok (from_ok (demo_scan, demo_import_cache.2) res))
    by (apply from_ok_eq; vm_compute; reflexivity).
  destruct (from_ok (demo_scan, demo_import_cache.2) res) as [r' w'].
  destruct (ordered_contexts_merge_every_entry demo_scan r' demo_import_cache.1 demo_import_cache.2 w'
    demo_entries) as (cache' & -> & Hg).
  - split_and!; by_decide.
  - reflexivity.
  - vm_compute. reflexivity.
  - vm_compute. reflexivity.
  - apply (holds_contributions_app demo_entries ∅ []); [|by_decide|by_decide].
    intros k v. rewrite lookup_empty. split; [done|]. by intros (i & e & Hi & _).
  - by_decide.
  - by_decide.
  - exact Hf.
  - exists (set_cache demo_scan cache'), w', cache'. split; [exact Hf|]. split; [reflexivity|].
    rewrite Hg by by_decide. vm_compute. reflexivity.
Defined.
