(* ===== verification/Parser.v ===== *)
(** * FireHOL list parser ([src/firehol/parser.rs])

    From one text token to targets, with and without the ignored addresses. *)
From stdpp Require Import base numbers list gmap fin_maps strings sorting.
From Stdlib Require Import ZArith Lia.
From S2P Require Import Prelude Net BpfMaps Str Cidr Entry Metadata.

Local Open Scope Z_scope.

(** ** [parse_ipv4_target] *)

(** The digit loop: value and number of digits so far. *)
Fixpoint octet_digits (bytes : list Z) (value count : Z) : option (Z * Z * list Z) :=
  match bytes with
  | b :: rest =>
      if is_ascii_digit b then
        let value' := value * 10 + (b - 48) in
        if (3 <? count + 1) || (255 <? value') then None
        else octet_digits rest value' (count + 1)
      else Some (value, count, bytes)
  | [] => Some (value, count, bytes)
  end.

(** The loop over the octets still to read. *)
Fixpoint parse_octets (todo : nat) (bytes : list Z) (padded : bool)
    : option (list Z * bool * list Z) :=
  match todo with
  | O => Some ([], padded, bytes)
  | S todo' =>
      match octet_digits bytes 0 0 with
      | None => None
      | Some (value, count, rest) =>
          if count =? 0 then None else
          let padded' := padded ||
            ((1 <? count) && match bytes with 48 :: _ => true | _ => false end) in
          match todo' with
          | O => Some ([value], padded', rest)
          | S _ =>
              match rest with
              | 46 :: rest' =>
                  match parse_octets todo' rest' padded' with
                  | Some (os, pd, r) => Some (value :: os, pd, r)
                  | None => None
                  end
              | _ => None
              end
          end
      end
  end.

(** The decimal prefix after the slash. *)
Fixpoint prefix_digits (suffix : list Z) (prefix : Z) : option Z :=
  match suffix with
  | [] => Some prefix
  | d :: rest => if is_ascii_digit d then prefix_digits rest (prefix * 10 + (d - 48)) else None
  end.

Definition parse_ipv4_target (bytes : list Z) : option FireholIpTarget :=
  match parse_octets 4 bytes false with
  | None => None
  | Some (octets, padded, rest) =>
      match rest with
      | [] => if padded then None else Some (TExactV4 octets)
      | 47 :: suffix =>
          if (len suffix =? 0) || (2 <? len suffix) then None else
          match prefix_digits suffix 0 with
          | None => None
          | Some prefix =>
              if prefix =? 32 then Some (TExactV4 octets)
              else if (0 <=? prefix) && (prefix <=? 31) then
                Some (TCidrV4 prefix (to_be_bytes 4 (Z.land (from_be_bytes octets)
                  (cidr_mask 32 prefix))))
              else None
          end
      | _ => None
      end
  end.

(** ** Ignored addresses *)
Definition parse_ignore_ips (raw : list Z) : list IpAddr :=
  omap IpAddr_from_str (filter (λ s, len s ≠ 0) (trim <$> split 44 raw)).

Section Tokens.
Context {N4 N6 : Type} `{!IpNet 4 N4} `{!IpNet 16 N6} `{!IpNetText N4 N6}.

Definition parse_ip_or_cidr (token : list Z) : option FireholIpTarget :=
  if negb (bool_decide (58 ∈ as_bytes token)) then parse_ipv4_target (as_bytes token)
  else if bool_decide (47 ∈ as_bytes token) then
    net ← Ipv6Net_from_str token;
    if net_prefix_len (n := 16) net =? 128 then Some (TExactV6 (addr_octets (n := 16) net))
    else Some (TCidrV6 (net_prefix_len (n := 16) net) (network_octets (n := 16) net))
  else TExactV6 <$> Ipv6Addr_from_str token.

(** [for sub in subnets { next.extend(exclude(sub, ip)) }]. *)
Fixpoint exclude_each {n T} `{!IpNet n T} (subnets : list T) (ip : Z) : outcome unit (list T) :=
  match subnets with
  | [] => Ok []
  | sub :: rest =>
      a ← exclude_from_cidr (n := n) sub ip;
      b ← exclude_each (n := n) rest ip;
      mret (a ++ b)
  end.

(** The loop over the ignored addresses of the family, already as integers. *)
Fixpoint exclude_all {n T} `{!IpNet n T} (net : T) (ignored : list Z) (matched : bool)
    (subnets : list T) : outcome unit (bool * list T) :=
  match ignored with
  | [] => Ok (matched, subnets)
  | ip :: rest =>
      if net_contains (n := n) net ip then
        next ← exclude_each (n := n) subnets ip;
        exclude_all (n := n) net rest true next
      else exclude_all (n := n) net rest matched subnets
  end.

Definition ignored_v4 (ips : list IpAddr) : list Z :=
  omap (λ ip, match ip with V4 o => Some (from_be_bytes o) | V6 _ => None end) ips.
Definition ignored_v6 (ips : list IpAddr) : list Z :=
  omap (λ ip, match ip with V6 o => Some (from_be_bytes o) | V4 _ => None end) ips.

(** A subnet as a target: the full prefix is an exact address. *)
Definition subnet_target {n T} `{!IpNet n T} (exact : list Z → FireholIpTarget)
    (cidr : Z → list Z → FireholIpTarget) (sub : T) : FireholIpTarget :=
  if net_prefix_len (n := n) sub =? 8 * Z.of_nat n then exact (addr_octets (n := n) sub)
  else cidr (net_prefix_len (n := n) sub) (network_octets (n := n) sub).

(** One family of the CIDR branch. *)
Definition cidr_with_ignore {n T} `{!IpNet n T} (mk : list Z → IpAddr)
    (exact : list Z → FireholIpTarget) (cidr : Z → list Z → FireholIpTarget)
    (ignore_ips : list IpAddr) (ignored : list Z) (net : T)
    : outcome unit (list FireholIpTarget) :=
  let p := net_prefix_len (n := n) net in
  if 8 * Z.of_nat n <? p then Err ()
  else if p =? 8 * Z.of_nat n then
    let addr := mk (addr_octets (n := n) net) in
    if bool_decide (addr ∈ ignore_ips) then Ok [] else Ok [exact (addr_octets (n := n) net)]
  else
    '(matched_any, subnets) ← exclude_all (n := n) (T := T) net ignored false [net];
    if negb matched_any then mret [cidr p (network_octets (n := n) net)]
    else mret (fmap (M := list) (subnet_target (n := n) (T := T) exact cidr) subnets).

(** [Err] is the source's [None], [Fault] a panic inside it. *)
Definition parse_ip_or_cidr_with_ignore (token : list Z) (ignore_ips : list IpAddr)
    : outcome unit (list FireholIpTarget) :=
  if bool_decide (47 ∈ token) then
    match IpNet_from_str token with
    | Some (NetV4 net) =>
        cidr_with_ignore (n := 4) V4 TExactV4 TCidrV4 ignore_ips (ignored_v4 ignore_ips) net
    | Some (NetV6 net) =>
        cidr_with_ignore (n := 16) V6 TExactV6 TCidrV6 ignore_ips (ignored_v6 ignore_ips) net
    | None => Err ()
    end
  else
    match IpAddr_from_str token with
    | Some addr =>
        if bool_decide (addr ∈ ignore_ips) then Ok []
        else Ok [match addr with V4 o => TExactV4 o | V6 o => TExactV6 o end]
    | None => Err ()
    end.
End Tokens.

(** ** The IPv4 fast path reads the grammar of [std] *)

Lemma octet_digits_eq s : ∀ v c, octet_digits s v c = read_digits 10 255 3 s v c.
Proof.
  induction s as [|b s IH]; intros v c; simpl; [done|]. unfold to_digit. simpl.
  destruct (is_ascii_digit b); [|done]. rewrite IH.
  destruct (255 <? v * 10 + (b - 48)), (3 <? c + 1); done.
Qed.

(** Branches on a byte [x] that is not the one the pattern names. *)
Ltac other_byte x :=
  destruct x as [|?p|?p]; try done;
  repeat match goal with p : positive |- _ => destruct p; try done end.

(** Octets read one after the other, the first without its separator. *)
Definition std_octets (todo : nat) (s : list Z) : option (list Z * list Z) :=
  match read_number 10 255 3 false s with
  | Some (v, s') =>
      match read_ipv4_slots 1 todo s' with Some (vs, s'') => Some (v :: vs, s'') | None => None end
  | None => None
  end.

Lemma read_ipv4_slots_sep todo : ∀ i s,
  read_ipv4_slots (S i) (S todo) s =
  match s with 46 :: s' => std_octets todo s' | _ => None end.
Proof.
  assert (Hi : ∀ todo i j s, read_ipv4_slots (S i) todo s = read_ipv4_slots (S j) todo s).
  { clear. induction todo as [|todo IH]; intros i j s; [done|].
    cbn [read_ipv4_slots read_separator]. destruct (read_given_char 46 s) as [[[] s1]|]; [|done].
    destruct (read_number 10 255 3 false s1) as [[v r]|]; [|done]. by rewrite (IH (S i) (S j)). }
  intros i s. unfold std_octets. cbn [read_ipv4_slots read_separator].
  destruct s as [|x s]; [done|]. unfold read_given_char.
  destruct (Z.eqb_spec x 46) as [->|Hne].
  - destruct (read_number 10 255 3 false s) as [[v s']|]; [|done]. by rewrite (Hi todo (S i) 0%nat).
  - other_byte x.
Qed.

Lemma parse_octets_step todo s padded :
  parse_octets (S (S todo)) s padded =
  match octet_digits s 0 0 with
  | None => None
  | Some (value, count, rest) =>
      if count =? 0 then None else
      match rest with
      | 46 :: rest' =>
          match parse_octets (S todo) rest' (padded ||
            ((1 <? count) && match s with 48 :: _ => true | _ => false end)) with
          | Some (os, pd, r) => Some (value :: os, pd, r)
          | None => None
          end
      | _ => None
      end
  end.
Proof. done. Qed.

(** A successful [std] read is a read without zero padding, and conversely. *)
Lemma parse_octets_std todo : ∀ s padded,
  match std_octets todo s with
  | Some (o, r) => parse_octets (S todo) s padded = Some (o, padded, r)
  | None => ∀ o r, parse_octets (S todo) s padded ≠ Some (o, false, r)
  end.
Proof.
  induction todo as [|todo IH]; intros s padded.
  - unfold std_octets, read_number. cbn [parse_octets read_ipv4_slots].
    rewrite octet_digits_eq. destruct (read_digits _ _ _ _ _ _) as [[[v c] r]|]; [|done].
    destruct (c =? 0); [done|]. cbn [negb andb].
    set (z := match s with 48 :: _ => true | _ => false end).
    rewrite (andb_comm (1 <? c)). destruct (z && (1 <? c)).
    + rewrite orb_true_r. congruence.
    + by rewrite orb_false_r.
  - unfold std_octets, read_number. rewrite parse_octets_step.
    rewrite octet_digits_eq. destruct (read_digits _ _ _ _ _ _) as [[[v c] r]|]; [|done].
    destruct (c =? 0); [done|]. cbn [negb andb].
    set (z := match s with 48 :: _ => true | _ => false end).
    rewrite (andb_comm (1 <? c)).
    assert (Hpad : ∀ (s' : list Z) o r', parse_octets (S todo) s' true ≠ Some (o, false, r')).
    { intros s' o r' Hp. specialize (IH s' true).
      destruct (std_octets todo s') as [[o' r'']|]; [congruence|by eapply IH]. }
    destruct (z && (1 <? c)).
    + rewrite orb_true_r. intros o r'. destruct r as [|x r]; [done|].
      destruct (decide (x = 46)) as [->|Hne]; [|other_byte x].
      specialize (Hpad r). destruct (parse_octets (S todo) r true) as [[[os pd] rr]|]; [|done].
      intros [= <- -> <-]. by eapply Hpad.
    + rewrite orb_false_r, read_ipv4_slots_sep.
      destruct r as [|x r]; [done|].
      destruct (decide (x = 46)) as [->|Hne].
      * specialize (IH r padded). destruct (std_octets todo r) as [[o' r'']|].
        -- by rewrite IH.
        -- intros o r' Hp. destruct (parse_octets (S todo) r padded) as [[[os pd] rr]|] eqn:E;
             [|done]. injection Hp as <- -> <-. by eapply IH.
      * other_byte x.
Qed.

Lemma parse_ipv4_target_std s o :
  47 ∉ s → parse_ipv4_target s = Some (TExactV4 o) ↔ parse_with read_ipv4_addr s = Some o.
Proof.
  intros Hs. unfold parse_ipv4_target, parse_with.
  change (read_ipv4_addr s) with (std_octets 3 s).
  pose proof (parse_octets_std 3 s false) as H.
  assert (Hsfx : ∀ n s p os pd r, parse_octets n s p = Some (os, pd, r) → suffix r s).
  { clear. assert (Hd : ∀ s v c v' c' r, octet_digits s v c = Some (v', c', r) → suffix r s).
    { induction s as [|b s IH]; intros v c v' c' r; simpl; [by intros [= _ _ <-]|].
      destruct (is_ascii_digit b); [|by intros [= _ _ <-]].
      destruct (_ || _); [done|]. intros Hr%IH. by apply suffix_cons_r. }
    induction n as [|n IH]; intros s p os pd r; simpl; [by intros [= _ _ <-]|].
    destruct (octet_digits s 0 0) as [[[v c] r1]|] eqn:E; [|done]. apply Hd in E.
    destruct (c =? 0); [done|]. destruct n as [|n]; [by intros [= _ _ <-]|].
    destruct r1 as [|x r1]; [done|]. intros Hrun.
    assert (∃ os' p', parse_octets (S n) r1 p' = Some (os', pd, r)) as (os' & p' & Hr).
    { repeat case_match; naive_solver. }
    apply IH in Hr. etrans; [exact Hr|]. etrans; [|exact E]. by apply suffix_cons_r. }
  destruct (std_octets 3 s) as [[o' r]|].
  - rewrite H. apply Hsfx in H. destruct r as [|x r]; [naive_solver|].
    split; [|done]. intros Hp. exfalso. apply Hs. destruct H as [l ->].
    apply elem_of_app. right. destruct (decide (x = 47)) as [->|Hne]; [by left|].
    exfalso. other_byte x.
  - split; [|done]. destruct (parse_octets 4 s false) as [[[os pd] r]|] eqn:E; [|done].
    apply Hsfx in E as Hr. destruct r as [|x r].
    + destruct pd; [done|]. by destruct (H os []).
    + intros Hp. exfalso. apply Hs. destruct Hr as [l ->].
      apply elem_of_app. right. destruct (decide (x = 47)) as [->|Hne]; [by left|].
      exfalso. other_byte x.
Qed.

(** ** Parsed targets are well formed *)

Lemma parse_octets_ok n : ∀ s p os pd r,
  parse_octets n s p = Some (os, pd, r) → bytes_ok n os.
Proof.
  induction n as [|n IH]; intros s p os pd r; simpl; [by intros [= <- _ _]|].
  destruct (octet_digits s 0 0) as [[[v c] r1]|] eqn:E; [|done].
  rewrite octet_digits_eq in E. apply read_digits_range in E; [|lia..].
  destruct (c =? 0); [done|]. destruct n as [|n].
  - intros [= <- _ _]. split; [done|]. constructor; [unfold byte_ok; lia|constructor].
  - intros Hrun. assert (∃ os' p' s', os = v :: os' ∧ parse_octets (S n) s' p' = Some (os', pd, r))
      as (os' & p' & s' & -> & Hr).
    { destruct r1 as [|x r1]; [done|]. destruct (decide (x = 46)) as [->|Hne]; [|other_byte x].
      destruct (parse_octets (S n) r1 _) as [[[os' pd'] r']|] eqn:E'; [|done].
      injection Hrun as <- -> ->. eauto. }
    apply IH in Hr as [Hl Hb]. split; [simpl; lia|]. constructor; [unfold byte_ok; lia|done].
Qed.

Lemma network_key_ok n p o :
  0 <= p <= 8 * Z.of_nat n → bytes_ok n o → lpm_key_ok n (p, network n p o).
Proof.
  intros Hp Ho. split_and!; cbn [fst snd]; [lia..|apply network_ok|].
  unfold network at 1. rewrite from_network by done. by rewrite land_mask_idem.
Qed.

Lemma parse_ipv4_target_ok s t : parse_ipv4_target s = Some t → target_ok t.
Proof.
  unfold parse_ipv4_target. destruct (parse_octets 4 s false) as [[[os pd] r]|] eqn:E; [|done].
  apply parse_octets_ok in E. destruct r as [|x r].
  { destruct pd; [done|]. by intros [= <-]. }
  destruct (decide (x = 47)) as [->|Hne]; [|other_byte x].
  destruct (_ || _); [done|]. destruct (prefix_digits r 0) as [p|]; [|done].
  destruct (p =? 32); [by intros [= <-]|].
  destruct (_ && _) eqn:Hp; [|done]. bool_Z. intros [= <-].
  rewrite cidr_mask_eq by lia. apply (network_key_ok 4 p os); [lia|done].
Qed.

Section TokenProofs.
Context {N4 N6 : Type} `{!IpNet 4 N4} `{!IpNet 16 N6} `{!IpNetText N4 N6}.

Lemma net_octets_key {n T} `{!IpNet n T} (t : T) :
  network_octets (n := n) t = network n (net_prefix_len (n := n) t) (addr_octets (n := n) t) ∧
  bytes_ok n (addr_octets (n := n) t) ∧ from_be_bytes (addr_octets (n := n) t) = net_addr (n := n) t.
Proof.
  pose proof (net_addr_range (n := n) t) as [H0 H1]. rewrite Z.pow_mul_r in H1 by lia.
  assert (from_be_bytes (addr_octets (n := n) t) = net_addr (n := n) t) as Ha
    by (apply from_to_be_bytes_id; done).
  split_and!; [|apply to_be_bytes_ok|done].
  unfold network_octets, network. by rewrite Ha, net_network_spec.
Qed.

Lemma parse_ip_or_cidr_ok token t : parse_ip_or_cidr (N6 := N6) token = Some t → target_ok t.
Proof.
  unfold parse_ip_or_cidr. destruct (negb _); [apply parse_ipv4_target_ok|].
  case_bool_decide.
  - destruct (Ipv6Net_from_str token) as [net|]; [|done]. cbn [mbind option_bind].
    destruct (net_octets_key (n := 16) net) as (Ho & Hb & _).
    pose proof (net_prefix_range (n := 16) net).
    destruct (_ =? 128); intros [= <-]; [exact Hb|].
    rewrite Ho. apply (network_key_ok 16); [lia|done].
  - destruct (Ipv6Addr_from_str token) as [o|] eqn:E; [|done]. intros [= <-].
    by apply Ipv6Addr_from_str_ok in E.
Qed.

(** *** Holes *)
Section Holes.
Context {n : nat} {T : Type} `{!IpNet n T}.
Notation w := (8 * Z.of_nat n).
Notation cov := (covered (n := n) (T := T)).

Lemma covered_app l1 l2 ip : cov (l1 ++ l2) ip ↔ cov l1 ip ∨ cov l2 ip.
Proof. unfold covered. set_solver. Qed.

Lemma exclude_each_spec subnets target :
  in_width w target →
  ∃ R, exclude_each (n := n) (T := T) subnets target = Ok R ∧
    ∀ ip, in_width w ip → cov R ip ↔ cov subnets ip ∧ ip ≠ target.
Proof.
  intros Ht. induction subnets as [|s subs (R & HR & Hcov)]; cbn [exclude_each].
  { exists []. split; [done|]. unfold covered. set_solver. }
  destruct (exclude_from_cidr_spec s target Ht) as (R1 & -> & _ & Hc1 & _).
  osimpl. rewrite HR. osimpl. exists (R1 ++ R). split; [done|]. intros ip Hip.
  rewrite covered_app, Hc1, Hcov by done.
  change (s :: subs) with ([s] ++ subs). rewrite covered_app.
  assert (cov [s] ip ↔ net_contains (n := n) s ip = true) as ->.
  { unfold covered. set_solver. }
  tauto.
Qed.

Lemma exclude_all_spec net ignored : ∀ matched subnets,
  Forall (in_width w) ignored →
  ∃ m R, exclude_all (n := n) (T := T) net ignored matched subnets = Ok (m, R) ∧
    (m = false → R = subnets ∧ matched = false ∧
       Forall (λ ip, net_contains (n := n) net ip = false) ignored) ∧
    ∀ ip, in_width w ip → cov R ip ↔
      cov subnets ip ∧ ¬ (ip ∈ ignored ∧ net_contains (n := n) net ip = true).
Proof.
  induction ignored as [|i ignored IH]; intros matched subnets Hi; cbn [exclude_all].
  { exists matched, subnets. split; [done|]. split; [intros ->; done|]. set_solver. }
  inversion_clear Hi as [|?? Hw Hi']. destruct (net_contains (n := n) net i) eqn:Hc.
  - destruct (exclude_each_spec subnets i Hw) as (R1 & -> & Hc1). osimpl.
    destruct (IH true R1 Hi') as (m & R & -> & Hm & Hcov). exists m, R. split; [done|].
    split; [intros Hf; by destruct (Hm Hf) as (_ & ? & _)|].
    intros ip Hip. rewrite Hcov, Hc1, elem_of_cons by done.
    destruct (decide (ip = i)) as [->|]; tauto.
  - destruct (IH matched subnets Hi') as (m & R & -> & Hm & Hcov). exists m, R.
    split; [done|]. split.
    + intros Hf. destruct (Hm Hf) as (? & ? & ?). auto.
    + intros ip Hip. rewrite Hcov, elem_of_cons by done.
      destruct (decide (ip = i)) as [->|]; [rewrite Hc; naive_solver|tauto].
Qed.

(** A target made from a network covers the network's addresses. *)
Context (mk : list Z → IpAddr) (exact : list Z → FireholIpTarget)
  (cidr : Z → list Z → FireholIpTarget).
Hypothesis exact_covers : ∀ a o, target_covers (exact a) (mk o) ↔ a = o.
Hypothesis cidr_covers : ∀ p a o, target_covers (cidr p a) (mk o) ↔ octets_match p a o = true.

Lemma cidr_target_covers (net : T) o :
  bytes_ok n o →
  target_covers (cidr (net_prefix_len (n := n) net) (network_octets (n := n) net)) (mk o) ↔
  net_contains (n := n) net (from_be_bytes o) = true.
Proof using cidr_covers.
  intros Ho. pose proof (octets_in_width n o Ho) as Hw.
  destruct (net_octets_key (n := n) net) as (Hn & Hb & Ha).
  pose proof (net_prefix_range (n := n) net) as Hp.
  rewrite cidr_covers, net_contains_spec by done. unfold octets_match.
  rewrite Hn, (proj1 (network_ok n _ _)), from_network, Ha by done.
  by rewrite prefix_eqb_masked by (done || apply net_addr_range).
Qed.

Lemma exact_target_covers (net : T) o :
  bytes_ok n o → net_prefix_len (n := n) net = w →
  target_covers (exact (addr_octets (n := n) net)) (mk o) ↔
  net_contains (n := n) net (from_be_bytes o) = true.
Proof using exact_covers.
  intros Ho Hp. pose proof (octets_in_width n o Ho) as Hw.
  destruct (net_octets_key (n := n) net) as (_ & Hb & Ha).
  rewrite exact_covers, net_contains_spec, Hp, prefix_eqb_full, Z.eqb_eq, <-Ha by done.
  split; [by intros ->|]. intros E. destruct Ho as [Hl Ho], Hb as [Hl' Hb].
  apply from_be_bytes_inj; [done..|congruence|done].
Qed.

Lemma subnet_target_covers (sub : T) o :
  bytes_ok n o →
  target_covers (subnet_target (n := n) exact cidr sub) (mk o) ↔
  net_contains (n := n) sub (from_be_bytes o) = true.
Proof using exact_covers cidr_covers.
  intros Ho. unfold subnet_target. destruct (Z.eqb_spec (net_prefix_len (n := n) sub) w).
  - by apply exact_target_covers.
  - by apply cidr_target_covers.
Qed.

Lemma cidr_with_ignore_spec ignore_ips ignored (net : T) :
  Forall (in_width w) ignored →
  (∀ o, bytes_ok n o → mk o ∈ ignore_ips ↔ from_be_bytes o ∈ ignored) →
  ∃ ts, cidr_with_ignore (n := n) mk exact cidr ignore_ips ignored net = Ok ts ∧
    (∀ t, t ∈ ts → (∃ a, t = exact a) ∨ ∃ p a, t = cidr p a) ∧
    ∀ o, bytes_ok n o → (∃ t, t ∈ ts ∧ target_covers t (mk o)) ↔
      net_contains (n := n) net (from_be_bytes o) = true ∧ mk o ∉ ignore_ips.
Proof using exact_covers cidr_covers.
  intros Hw Hign. unfold cidr_with_ignore. pose proof (net_prefix_range (n := n) net) as Hp.
  destruct (Z.ltb_spec w (net_prefix_len (n := n) net)); [lia|].
  destruct (Z.eqb_spec (net_prefix_len (n := n) net) w) as [He|Hne].
  - pose proof (λ o Ho, exact_target_covers net o Ho He) as Hcov.
    destruct (net_octets_key (n := n) net) as (_ & Hb & _). case_bool_decide as Hin.
    + exists []. split; [done|]. split; [set_solver|]. intros o Ho. split; [set_solver|].
      intros [Hc Hni]. destruct Hni. apply (Hcov o Ho), exact_covers in Hc. by subst o.
    + eexists [_]. split; [done|]. split; [intros t ->%list_elem_of_singleton; eauto|].
      intros o Ho. setoid_rewrite list_elem_of_singleton.
      rewrite <-(Hcov o Ho), exact_covers. split; [|naive_solver].
      intros (t & -> & Hc%exact_covers). subst o. done.
  - destruct (exclude_all_spec net ignored false [net] Hw) as (m & R & -> & Hm & Hcov).
    osimpl. destruct m; cbn [negb].
    + eexists. split; [done|]. split.
      { intros t (s & -> & _)%list_elem_of_fmap. unfold subnet_target.
        destruct (_ =? _); eauto. }
      intros o Ho. pose proof (octets_in_width n o Ho) as Hwo.
      rewrite Hign by done. split.
      * intros (t & (s & -> & Hs)%list_elem_of_fmap & Hc%subnet_target_covers); [|done].
        destruct (proj1 (Hcov _ Hwo)) as [(net' & ->%list_elem_of_singleton & Hnc) Hno];
          [by exists s|]. tauto.
      * intros [Hnc Hni]. destruct (proj2 (Hcov _ Hwo)) as (s & Hs & Hc).
        { split; [|tauto]. exists net. set_solver. }
        exists (subnet_target (n := n) exact cidr s). split; [apply list_elem_of_fmap; eauto|].
        by apply subnet_target_covers.
    + destruct (Hm eq_refl) as (_ & _ & Hno). eexists [_]. split; [done|].
      split; [intros t ->%list_elem_of_singleton; eauto|].
      intros o Ho. setoid_rewrite list_elem_of_singleton.
      rewrite <-(cidr_target_covers net o Ho). split; [|naive_solver].
      intros (t & -> & Hc). split; [done|]. rewrite Hign by done. intros Hin.
      rewrite Forall_forall in Hno. apply cidr_target_covers in Hc; [|done].
      specialize (Hno _ Hin). congruence.
Qed.
End Holes.

(** The addresses a token names, before any exclusion. *)
Definition token_covers (token : list Z) (ip : IpAddr) : Prop :=
  if bool_decide (47 ∈ token) then
    match IpNet_from_str (N4 := N4) (N6 := N6) token, ip with
    | Some (NetV4 net), V4 o => net_contains (n := 4) net (from_be_bytes o) = true
    | Some (NetV6 net), V6 o => net_contains (n := 16) net (from_be_bytes o) = true
    | _, _ => False
    end
  else IpAddr_from_str token = Some ip.

(** Whether the token is an address or a network at all. *)
Definition token_valid (token : list Z) : bool :=
  if bool_decide (47 ∈ token) then
    match IpNet_from_str (N4 := N4) (N6 := N6) token with Some _ => true | None => false end
  else match IpAddr_from_str token with Some _ => true | None => false end.

Lemma ignored_v4_spec ips o :
  Forall ip_ok ips → bytes_ok 4 o → V4 o ∈ ips ↔ from_be_bytes o ∈ ignored_v4 ips.
Proof.
  intros Hok Ho. unfold ignored_v4. rewrite list_elem_of_omap. split.
  - intros Hin. by exists (V4 o).
  - intros ([o'|o'] & Hin & E); [|done]. injection E as E.
    rewrite Forall_forall in Hok. destruct (Hok _ Hin) as [Hl Hb], Ho as [Hl' Hb'].
    by rewrite (from_be_bytes_inj o o') by (done || congruence).
Qed.

Lemma ignored_v6_spec ips o :
  Forall ip_ok ips → bytes_ok 16 o → V6 o ∈ ips ↔ from_be_bytes o ∈ ignored_v6 ips.
Proof.
  intros Hok Ho. unfold ignored_v6. rewrite list_elem_of_omap. split.
  - intros Hin. by exists (V6 o).
  - intros ([o'|o'] & Hin & E); [done|]. injection E as E.
    rewrite Forall_forall in Hok. destruct (Hok _ Hin) as [Hl Hb], Ho as [Hl' Hb'].
    by rewrite (from_be_bytes_inj o o') by (done || congruence).
Qed.

Lemma ignored_widths ips :
  Forall ip_ok ips → Forall (in_width (8 * Z.of_nat 4)) (ignored_v4 ips) ∧
  Forall (in_width (8 * Z.of_nat 16)) (ignored_v6 ips).
Proof.
  intros Hok. rewrite Forall_forall in Hok. unfold ignored_v4, ignored_v6.
  split; apply Forall_forall; intros z ([o|o] & Hin & [= <-])%list_elem_of_omap;
    apply Hok in Hin; auto with firewall.
Qed.

Lemma with_ignore_spec token ips :
  Forall ip_ok ips →
  if token_valid token then
    ∃ ts, parse_ip_or_cidr_with_ignore (N4 := N4) (N6 := N6) token ips = Ok ts ∧
      ∀ ip, ip_ok ip → (∃ t, t ∈ ts ∧ target_covers t ip) ↔ token_covers token ip ∧ ip ∉ ips
  else parse_ip_or_cidr_with_ignore (N4 := N4) (N6 := N6) token ips = Err ().
Proof.
  intros Hok. destruct (ignored_widths ips Hok) as [W4 W6].
  unfold token_valid, parse_ip_or_cidr_with_ignore, token_covers. case_bool_decide.
  - destruct (IpNet_from_str token) as [[net|net]|]; [..|done].
    + destruct (cidr_with_ignore_spec (n := 4) V4 TExactV4 TCidrV4
        ltac:(done) ltac:(done) ips (ignored_v4 ips) net W4) as (ts & -> & Hkind & Hcov).
      { intros o Ho. by apply ignored_v4_spec. }
      exists ts. split; [done|]. intros [o|o] Hip; [by apply Hcov|].
      split; [|tauto]. intros (t & [(a & ->)|(p & a & ->)]%Hkind & Hbad); done.
    + destruct (cidr_with_ignore_spec (n := 16) V6 TExactV6 TCidrV6
        ltac:(done) ltac:(done) ips (ignored_v6 ips) net W6) as (ts & -> & Hkind & Hcov).
      { intros o Ho. by apply ignored_v6_spec. }
      exists ts. split; [done|]. intros [o|o] Hip; [|by apply Hcov].
      split; [|tauto]. intros (t & [(a & ->)|(p & a & ->)]%Hkind & Hbad); done.
  - destruct (IpAddr_from_str token) as [addr|]; [|done].
    case_bool_decide; eexists; (split; [done|]); intros ip _; split; try set_solver.
    + intros (t & ->%list_elem_of_singleton & Hc).
      destruct addr, ip; simpl in Hc; try done; by subst.
    + intros [[= ->] _]. eexists. split; [by left|]. by destruct ip.
Qed.

(** Targets with holes are well-formed too. *)
Lemma cidr_with_ignore_ok {n T} `{!IpNet n T} mk exact cidr ignore_ips ignored (net : T) ts :
  (∀ o, bytes_ok n o → target_ok (exact o)) →
  (∀ p o, lpm_key_ok n (p, o) → target_ok (cidr p o)) →
  cidr_with_ignore (n := n) mk exact cidr ignore_ips ignored net = Ok ts → Forall target_ok ts.
Proof.
  intros He Hc. unfold cidr_with_ignore.
  assert (Hs : ∀ t : T, target_ok (exact (addr_octets (n := n) t)) ∧
    target_ok (cidr (net_prefix_len (n := n) t) (network_octets (n := n) t))).
  { intros t. destruct (net_octets_key (n := n) t) as (Ho & Hb & _). split; [by apply He|].
    apply Hc. rewrite Ho. pose proof (net_prefix_range (n := n) t).
    apply (network_key_ok n); [lia|done]. }
  destruct (_ <? _); [done|]. destruct (_ =? _).
  { case_bool_decide; intros [= <-]; [done|]. constructor; [apply Hs|done]. }
  destruct (exclude_all _ _ _ _) as [[m subs]| |]; osimpl; [|done..].
  destruct m; intros [= <-]; [|constructor; [apply Hs|done]].
  apply Forall_fmap, Forall_forall. intros t _. unfold subnet_target. cbn.
  destruct (_ =? _); apply Hs.
Qed.

Lemma with_ignore_ok token ips ts :
  parse_ip_or_cidr_with_ignore (N4 := N4) (N6 := N6) token ips = Ok ts → Forall target_ok ts.
Proof.
  unfold parse_ip_or_cidr_with_ignore. case_bool_decide.
  - destruct (IpNet_from_str token) as [[net|net]|]; [..|done]; by apply cidr_with_ignore_ok.
  - destruct (IpAddr_from_str token) as [addr|] eqn:Ea; [|done]. apply IpAddr_from_str_ok in Ea.
    case_bool_decide; intros [= <-]; [done|]. constructor; [by destruct addr|done].
Qed.
End TokenProofs.

(** C35 (equivalence). On text without a slash the hand-written IPv4 reader accepts
    exactly what [Ipv4Addr::from_str] accepts (so no zero-padded octets) and
    returns the same address. *)
Theorem parse_ipv4_target_agrees_with_std s o :
  47 ∉ s → parse_ipv4_target s = Some (TExactV4 o) ↔ parse_with read_ipv4_addr s = Some o.
Proof. apply parse_ipv4_target_std. Qed.

(** C36 (invariant). Every target the parser accepts has octets of its family and,
    for a CIDR, a prefix in range and the network address of that prefix: a
    key the kernel maps and the cache accept. *)
Theorem parse_ip_or_cidr_well_formed {N6 : Type} `{!IpNet 16 N6} {N4 : Type} `{!IpNetText N4 N6}
    token t :
  parse_ip_or_cidr token = Some t → target_ok t.
Proof. apply parse_ip_or_cidr_ok. Qed.

(** C20 (functional). Reading a token while excluding addresses returns targets
    that cover exactly the addresses the token names except the ignored ones,
    for addresses and CIDR blocks of both families and any list of ignored
    addresses; it fails exactly on tokens that are neither, and never panics. *)
Theorem parse_with_ignore_covers_the_rest {N4 N6 : Type} `{!IpNet 4 N4} `{!IpNet 16 N6}
    `{!IpNetText N4 N6} token ips :
  Forall ip_ok ips →
  if token_valid token then
    ∃ ts, parse_ip_or_cidr_with_ignore token ips = Ok ts ∧
      ∀ ip, ip_ok ip → (∃ t, t ∈ ts ∧ target_covers t ip) ↔ token_covers token ip ∧ ip ∉ ips
  else parse_ip_or_cidr_with_ignore token ips = Err ().
Proof. apply with_ignore_spec. Qed.

Lemma parse_ipv4_target_agrees_with_std_witness :
  47 ∉ lit "192.0.2.7" ∧ parse_ipv4_target (lit "192.0.2.7") = Some (TExactV4 [192; 0; 2; 7]).
Proof.
  split; [by_decide|]. apply parse_ipv4_target_agrees_with_std; [by_decide|].
  vm_compute. reflexivity.
Defined.

Lemma parse_ip_or_cidr_well_formed_witness :
  parse_ip_or_cidr (N4 := Net 4) (N6 := Net 16) (lit "192.168.7.9/20") =
    Some (TCidrV4 20 [192; 168; 0; 0]) ∧ target_ok (TCidrV4 20 [192; 168; 0; 0]).
Proof.
  split; [vm_compute; reflexivity|].
  apply (parse_ip_or_cidr_well_formed (N4 := Net 4) (N6 := Net 16) (lit "192.168.7.9/20")).
  vm_compute. reflexivity.
Defined.

(** Excluding 10.0.0.1 and 8.8.8.8 from 10.1.2.3/8. *)
Lemma parse_with_ignore_covers_the_rest_witness :
  ∃ ts, parse_ip_or_cidr_with_ignore (N4 := Net 4) (N6 := Net 16) (lit "10.1.2.3/8")
      [V4 [10; 0; 0; 1]; V4 [8; 8; 8; 8]] = Ok ts ∧
    (∃ t, t ∈ ts ∧ target_covers t (V4 [10; 0; 0; 2])) ∧
    ¬ (∃ t, t ∈ ts ∧ target_covers t (V4 [10; 0; 0; 1])).
Proof.
  pose proof (parse_with_ignore_covers_the_rest (N4 := Net 4) (N6 := Net 16)
    (lit "10.1.2.3/8") [V4 [10; 0; 0; 1]; V4 [8; 8; 8; 8]] ltac:(by_decide)) as H.
  assert (token_valid (N4 := Net 4) (N6 := Net 16) (lit "10.1.2.3/8") = true) as E
    by (vm_compute; reflexivity).
  rewrite E in H. destruct H as (ts & Hts & Hc). exists ts. split; [exact Hts|]. split.
  - apply Hc; [by_decide|]. split; [vm_compute; reflexivity|by_decide].
  - rewrite Hc by by_decide. intros [_ Hn]. apply Hn. by_decide.
Defined.
