(* ===== verification/Import.v ===== *)
(** * Importing one FireHOL file ([src/firehol/parser.rs])

    The metadata comments of a list and [parse_single_file]: from the lines of a
    file to entries (handed over in batches) and metadata records. *)
From stdpp Require Import base numbers list gmap fin_maps strings sorting.
From Stdlib Require Import ZArith Lia.
From S2P Require Import Prelude Net BpfMaps Str Lines Cidr Entry Metadata Parser.

Local Open Scope Z_scope.

Inductive FireholParseError : Type :=
| ECache
| EIo
| EInvalidEntry (line : Z) (entry : list Z)
| EInvalidDirectory
| EWorkerPanic.

(** ** Dates: the formats are those of the [chrono] crate (interface), each
    function being a successful parse printed in RFC 3339. *)
Class Chrono : Type := {
  parse_from_rfc3339 : list Z → option (list Z);
  parse_from_str : list Z → list Z → option (list Z);
  parse_naive_datetime : list Z → list Z → option (list Z);
  parse_naive_date : list Z → list Z → option (list Z);
}.

(** [s.replace(pat, by)] for a non-empty pattern; a step uses one character or
    the pattern. *)
Fixpoint replace_fuel (fuel : nat) (pat rep s : list Z) : list Z :=
  match fuel, s with
  | S fuel', x :: s' =>
      if starts_with pat s then rep ++ replace_fuel fuel' pat rep (drop (length pat) s)
      else x :: replace_fuel fuel' pat rep s'
  | _, _ => []
  end.
Definition replace (pat rep s : list Z) : list Z := replace_fuel (length s) pat rep s.

Definition normalize_firehol_date `{!Chrono} (raw : list Z) : option (list Z) :=
  let trimmed := trim raw in
  if len trimmed =? 0 then None else
  match parse_from_rfc3339 trimmed with
  | Some d => Some d
  | None =>
  match parse_from_str (replace (lit " UTC ") (lit " +0000 ") trimmed)
          (lit "%a %b %e %H:%M:%S %z %Y") with
  | Some d => Some d
  | None =>
  match parse_naive_datetime (replace (lit " UTC") [] trimmed) (lit "%a %b %e %H:%M:%S %Y") with
  | Some d => Some d
  | None =>
  match parse_naive_datetime trimmed (lit "%Y-%m-%d %H:%M:%S") with
  | Some d => Some d
  | None =>
  match parse_naive_date trimmed (lit "%Y-%m-%d") with
  | Some d => Some d
  | None => Some trimmed
  end end end end end.

(** ** Metadata in force while reading a file *)
Record ActiveFileMetadata : Type := mkActive {
  am_file_name : list Z;
  am_category : FireholCategory;
  am_source_url : option (list Z);
  am_maintainer : option (list Z);
  am_maintainer_url : option (list Z);
  am_source_file_date : option (list Z);
  am_version : option (list Z);
  am_update_frequency : option (list Z);
  am_current_metadata_id : Z;
}.
Definition ActiveFileMetadata_new (file_name : list Z) (initial_id : Z) : ActiveFileMetadata :=
  mkActive file_name Other None None None None None None initial_id.
Definition to_metadata (m : ActiveFileMetadata) : FireholMetadata :=
  mkMetadata (am_current_metadata_id m) (am_category m) (am_source_url m) (am_maintainer m)
    (am_maintainer_url m) (am_source_file_date m) (am_file_name m) (am_version m)
    (am_update_frequency m).

(** ** State of [parse_single_file]: its locals, the worker's buffers, the batches
    already handed over and the shared identifier counter. *)
Record file_parse : Type := mkParse {
  fp_meta : ActiveFileMetadata;
  fp_emitted : bool;
  fp_next_id : Z;
  fp_entries : list FireholEntry;
  fp_metadata : list FireholMetadata;
  fp_sent : list (list FireholEntry);
}.

Definition set_meta (st : file_parse) (m : ActiveFileMetadata) : file_parse :=
  mkParse m (fp_emitted st) (fp_next_id st) (fp_entries st) (fp_metadata st) (fp_sent st).

Section ParseFile.
Context {N4 N6 : Type} `{!IpNet 4 N4} `{!IpNet 16 N6} `{!IpNetText N4 N6}.
Context `{!Lowercase} `{!Chrono}.
(** Whether the import writer has stopped once it has taken these batches. *)
Context (stopped : list (list FireholEntry) → bool).
Context (ignore_ips : list IpAddr).

(** [match key.as_str() { "category" => .., .. }]. *)
Definition apply_comment (key val : list Z) (st : file_parse) : file_parse :=
  let m := fp_meta st in
  if bool_decide (key = lit "category") then
    let new_cat := parse_category val in
    let fresh := negb (bool_decide (new_cat = am_category m)) && fp_emitted st in
    let id := if fresh then fp_next_id st else am_current_metadata_id m in
    mkParse (mkActive (am_file_name m) new_cat (am_source_url m) (am_maintainer m)
               (am_maintainer_url m) (am_source_file_date m) (am_version m)
               (am_update_frequency m) id)
      (if fresh then false else fp_emitted st)
      (if fresh then wrap_u32 (fp_next_id st + 1) else fp_next_id st)
      (fp_entries st) (fp_metadata st) (fp_sent st)
  else if bool_decide (key = lit "maintainer") then
    set_meta st (mkActive (am_file_name m) (am_category m) (am_source_url m) (Some val)
      (am_maintainer_url m) (am_source_file_date m) (am_version m) (am_update_frequency m)
      (am_current_metadata_id m))
  else if bool_decide (key = lit "maintainer url") then
    set_meta st (mkActive (am_file_name m) (am_category m) (am_source_url m) (am_maintainer m)
      (Some val) (am_source_file_date m) (am_version m) (am_update_frequency m)
      (am_current_metadata_id m))
  else if bool_decide (key = lit "list source url") then
    set_meta st (mkActive (am_file_name m) (am_category m) (Some val) (am_maintainer m)
      (am_maintainer_url m) (am_source_file_date m) (am_version m) (am_update_frequency m)
      (am_current_metadata_id m))
  else if bool_decide (key = lit "source file date") then
    set_meta st (mkActive (am_file_name m) (am_category m) (am_source_url m) (am_maintainer m)
      (am_maintainer_url m) (normalize_firehol_date val) (am_version m) (am_update_frequency m)
      (am_current_metadata_id m))
  else if bool_decide (key = lit "version") then
    set_meta st (mkActive (am_file_name m) (am_category m) (am_source_url m) (am_maintainer m)
      (am_maintainer_url m) (am_source_file_date m) (Some val) (am_update_frequency m)
      (am_current_metadata_id m))
  else if bool_decide (key = lit "update frequency") then
    set_meta st (mkActive (am_file_name m) (am_category m) (am_source_url m) (am_maintainer m)
      (am_maintainer_url m) (am_source_file_date m) (am_version m) (Some val)
      (am_current_metadata_id m))
  else st.

(** The key and value of a comment line, [None] when it holds no colon. *)
Definition comment_field (stripped : list Z) : option (list Z * list Z) :=
  '(k, v) ← split_once 58 (trim stripped); Some (to_lowercase (trim k), trim v).

(** [if !has_emitted_current_metadata { metadata_out.push(..); .. }]. *)
Definition emit_metadata (st : file_parse) : file_parse :=
  if fp_emitted st then st
  else mkParse (fp_meta st) true (fp_next_id st) (fp_entries st)
    (fp_metadata st ++ [to_metadata (fp_meta st)]) (fp_sent st).

(** The worker's [flush]: hands a non-empty batch to the writer's channel. *)
Definition flush (st : file_parse) : outcome FireholParseError file_parse :=
  match fp_entries st with
  | [] => Ok st
  | full =>
      if stopped (fp_sent st) then Err EWorkerPanic
      else Ok (mkParse (fp_meta st) (fp_emitted st) (fp_next_id st) [] (fp_metadata st)
             (fp_sent st ++ [full]))
  end.

(** The targets of one token: expanded only when it holds an ignored address. *)
Definition line_targets (ip_part : list Z) : outcome unit (list FireholIpTarget) :=
  match parse_ip_or_cidr (N6 := N6) (N4 := N4) ip_part with
  | None => Err ()
  | Some single =>
      if existsb (contains_ip single) ignore_ips
      then parse_ip_or_cidr_with_ignore (N4 := N4) (N6 := N6) ip_part ignore_ips
      else Ok [single]
  end.

(** [for target in targets { entries_out.push(..); if full { flush(..)? } }]. *)
Fixpoint push_targets (line_num : Z) (targets : list FireholIpTarget) (st : file_parse)
    : outcome FireholParseError file_parse :=
  match targets with
  | [] => Ok st
  | t :: rest =>
      let e := mkEntry t 0 (am_current_metadata_id (fp_meta st)) (wrap_u32 line_num) in
      let st1 := mkParse (fp_meta st) (fp_emitted st) (fp_next_id st) (fp_entries st ++ [e])
        (fp_metadata st) (fp_sent st) in
      st2 ← (if (WORKER_BATCH_SIZE <=? length (fp_entries st1))%nat then flush st1 else Ok st1);
      push_targets line_num rest st2
  end.

(** The visitor closure. *)
Definition parse_file_line (line : list Z) (line_num : Z) (st : file_parse)
    : outcome FireholParseError file_parse :=
  let trimmed := trim line in
  if len trimmed =? 0 then Ok st else
  match strip_prefix 35 trimmed with
  | Some stripped =>
      match comment_field stripped with
      | Some (key, val) => Ok (apply_comment key val st)
      | None => Ok st
      end
  | None =>
      let ip_part := match split_once 35 trimmed with
        | Some (before_hash, _) => trim before_hash
        | None => trimmed
        end in
      if len ip_part =? 0 then Ok st else
      let st := emit_metadata st in
      match line_targets ip_part with
      | Ok targets => push_targets line_num targets st
      | Err _ => Err (EInvalidEntry line_num ip_part)
      | Fault => Fault
      end
  end.

Definition parse_single_file (file_name : list Z) (evs : list read_event) (content : list Z)
    (next_id : Z) (entries : list FireholEntry) (metadata : list FireholMetadata)
    (sent : list (list FireholEntry)) : outcome FireholParseError (Z * file_parse) :=
  let st := mkParse (ActiveFileMetadata_new file_name next_id) false (wrap_u32 (next_id + 1))
    entries metadata sent in
  '(bytes, st) ← visit_file_lines EIo parse_file_line evs content st;
  mret (bytes, emit_metadata st).
End ParseFile.

(** ** What a list file means *)

(** A line is ignored, declares the category of what follows, or names addresses. *)
Inductive line_class : Type :=
| SkipLine
| CategoryLine (c : FireholCategory)
| TokenLine (token : list Z).

Definition classify_line `{!Lowercase} (line : list Z) : line_class :=
  let trimmed := trim line in
  if len trimmed =? 0 then SkipLine else
  match strip_prefix 35 trimmed with
  | Some stripped =>
      match comment_field stripped with
      | Some (key, val) =>
          if bool_decide (key = lit "category") then CategoryLine (parse_category val)
          else SkipLine
      | None => SkipLine
      end
  | None =>
      let token := match split_once 35 trimmed with
        | Some (before, _) => trim before | None => trimmed end in
      if len token =? 0 then SkipLine else TokenLine token
  end.

(** The address lines of a text with their number and the category in force. *)
Fixpoint data_lines `{!Lowercase} (category : FireholCategory) (lines : list (list Z)) (n : Z)
    : list (Z * list Z * FireholCategory) :=
  match lines with
  | [] => []
  | line :: rest =>
      match classify_line line with
      | SkipLine => data_lines category rest (n + 1)
      | CategoryLine c => data_lines c rest (n + 1)
      | TokenLine token => (n + 1, token, category) :: data_lines category rest (n + 1)
      end
  end.

(** Their targets, or the first invalid line. *)
Definition sourced : Type := FireholIpTarget * Z * FireholCategory.
Fixpoint expand (targets_of : list Z → outcome unit (list FireholIpTarget))
    (ds : list (Z * list Z * FireholCategory)) : outcome FireholParseError (list sourced) :=
  match ds with
  | [] => Ok []
  | (n, token, c) :: rest =>
      match targets_of token with
      | Ok ts => more ← expand targets_of rest; mret (((λ t, (t, n, c)) <$> ts) ++ more)
      | Err _ => Err (EInvalidEntry n token)
      | Fault => Fault
      end
  end.

(** An entry of [file] for a sourced target, whose metadata record names the file
    and the category. *)
Definition produced (file : list Z) (metadata : list FireholMetadata) (e : FireholEntry)
    (x : sourced) : Prop :=
  let '(t, n, c) := x in
  fe_target e = t ∧ fe_line e = wrap_u32 n ∧ fe_rule_id e = 0 ∧
  ∃ m, m ∈ metadata ∧ md_id m = fe_metadata_id e ∧ md_file_name m = file ∧ md_category m = c.

(** All entries handed over or still buffered, in order. *)
Definition all_entries (st : file_parse) : list FireholEntry := mjoin (fp_sent st) ++ fp_entries st.

(** The writer takes every batch. *)
Abbreviation writing := (λ _ : list (list FireholEntry), false).

Section FileProofs.
Context {N4 N6 : Type} `{!IpNet 4 N4} `{!IpNet 16 N6} `{!IpNetText N4 N6}.
Context {low : Lowercase} {chrono : Chrono}.
Context (ignore_ips : list IpAddr).
Hypothesis ignored_ok : Forall ip_ok ignore_ips.

Abbreviation targets_of := (line_targets (N4 := N4) (N6 := N6) ignore_ips).
Abbreviation on_line := (parse_file_line (N4 := N4) (N6 := N6) writing ignore_ips).

Lemma line_targets_no_fault token : is_fault (targets_of token) = false.
Proof using ignored_ok.
  unfold line_targets. destruct (parse_ip_or_cidr token); [|done].
  destruct (existsb _ _); [|done].
  pose proof (with_ignore_spec (N4 := N4) (N6 := N6) token ignore_ips ignored_ok) as Hi.
  destruct (token_valid token); [by destruct Hi as (ts & -> & _)|by rewrite Hi].
Qed.

(** No target of a line covers an ignored address. *)
Lemma line_targets_exclude token ts ip t :
  targets_of token = Ok ts → ip ∈ ignore_ips → t ∈ ts → ¬ target_covers t ip.
Proof using ignored_ok.
  intros Ht Hin Hts Hc. pose proof (proj1 (Forall_forall _ _) ignored_ok ip Hin) as Hip.
  unfold line_targets in Ht. destruct (parse_ip_or_cidr token) as [single|] eqn:Hs; [|done].
  destruct (existsb _ _) eqn:He.
  - pose proof (with_ignore_spec (N4 := N4) (N6 := N6) token ignore_ips ignored_ok) as Hi.
    destruct (token_valid token); [|by rewrite Hi in Ht].
    destruct Hi as (ts' & E & Hcov). rewrite E in Ht. injection Ht as ->.
    destruct (proj1 (Hcov ip Hip)) as [_ Hno]; [eauto|done].
  - injection Ht as <-. apply list_elem_of_singleton in Hts as ->.
    apply not_true_iff_false in He. apply He, existsb_exists. exists ip.
    split; [by apply list_elem_of_In|]. apply contains_ip_spec; [|done..].
    by eapply parse_ip_or_cidr_ok.
Qed.

Lemma line_targets_ok token ts : targets_of token = Ok ts → Forall target_ok ts.
Proof using Type.
  clear ignored_ok. unfold line_targets.
  destruct (parse_ip_or_cidr token) as [single|] eqn:Hs; [|done].
  destruct (existsb _ _); [apply with_ignore_ok|]. intros [= <-].
  constructor; [by eapply parse_ip_or_cidr_ok|done].
Qed.

(** The state after reading some lines: [base] is what was there before, [acc]
    the sourced targets so far. *)
Record parse_inv (file : list Z) (base : list FireholEntry) (st : file_parse)
    (acc : list sourced) (c : FireholCategory) : Prop := {
  pi_file : am_file_name (fp_meta st) = file;
  pi_category : am_category (fp_meta st) = c;
  pi_entries : ∃ new, all_entries st = base ++ new ∧ Forall2 (produced file (fp_metadata st)) new acc;
  pi_batch : (length (fp_entries st) < WORKER_BATCH_SIZE)%nat ∧
    Forall (λ b, length b = WORKER_BATCH_SIZE) (fp_sent st);
  pi_current :
    if fp_emitted st then ∃ m, m ∈ fp_metadata st ∧ md_id m = am_current_metadata_id (fp_meta st) ∧
      md_file_name m = file ∧ md_category m = c
    else am_current_metadata_id (fp_meta st) ∉ md_id <$> fp_metadata st;
  pi_ids : NoDup (md_id <$> fp_metadata st);
  pi_next : Forall (λ i, i < fp_next_id st)
    (am_current_metadata_id (fp_meta st) :: (md_id <$> fp_metadata st));
}.

Lemma produced_grow file m m' e x : produced file m e x → produced file (m ++ m') e x.
Proof. destruct x as [[t n] c]. intros (? & ? & ? & r & ? & ?). split_and!; [done..|]. exists r. set_solver. Qed.

Lemma emit_inv file base st acc c :
  parse_inv file base st acc c →
  parse_inv file base (emit_metadata st) acc c ∧ fp_emitted (emit_metadata st) = true ∧
  fp_next_id (emit_metadata st) = fp_next_id st ∧
  fp_meta (emit_metadata st) = fp_meta st.
Proof.
  intros []. unfold emit_metadata. destruct (fp_emitted st) eqn:He.
  { split_and!; [|done..]. constructor; try done. by rewrite He. }
  split_and!; [|done..]. destruct pi_entries0 as (new & Hb & Hnew).
  constructor; cbn [fp_meta fp_emitted fp_next_id fp_entries fp_metadata fp_sent]; try done.
  - exists new. split; [done|]. eapply Forall2_impl; [done|]. intros. by apply produced_grow.
  - exists (to_metadata (fp_meta st)). split; [set_solver|]. by rewrite <-pi_file0, <-pi_category0.
  - rewrite fmap_app. apply NoDup_app. split_and!; [done| |apply NoDup_singleton].
    intros i Hi ->%list_elem_of_singleton. done.
  - inversion_clear pi_next0. rewrite fmap_app. constructor; [done|].
    apply Forall_app. split; [done|]. by constructor.
Qed.

(** Pushing one entry, with the hand-over of a full batch. *)
Lemma push_one_inv file base st acc c t n :
  parse_inv file base st acc c → fp_emitted st = true →
  let e := mkEntry t 0 (am_current_metadata_id (fp_meta st)) (wrap_u32 n) in
  let st1 := mkParse (fp_meta st) (fp_emitted st) (fp_next_id st) (fp_entries st ++ [e])
    (fp_metadata st) (fp_sent st) in
  ∃ st', (if (WORKER_BATCH_SIZE <=? length (fp_entries st1))%nat then flush writing st1 else Ok st1)
      = Ok st' ∧
    parse_inv file base st' (acc ++ [(t, n, c)]) c ∧ fp_emitted st' = true ∧
    fp_next_id st' = fp_next_id st.
Proof.
  intros [] He e st1. rewrite He in pi_current0. destruct pi_entries0 as (new & Hb & Hnew).
  destruct pi_batch0 as [Hlt Hfull]. destruct pi_current0 as (m & Hm & Hid & Hf & Hc).
  assert (Hnew' : Forall2 (produced file (fp_metadata st)) (new ++ [e]) (acc ++ [(t, n, c)])).
  { apply Forall2_app; [done|]. constructor; [|done]. split_and!; [done..|]. eauto. }
  assert (Hlen : length (fp_entries st1) = S (length (fp_entries st)))
    by (unfold st1; cbn [fp_entries]; rewrite length_app; simpl; lia).
  assert (Hall : all_entries st ++ [e] = base ++ new ++ [e]) by (by rewrite Hb, app_assoc).
  unfold all_entries in Hall. rewrite <-app_assoc in Hall.
  destruct (Nat.leb_spec WORKER_BATCH_SIZE (length (fp_entries st1))) as [Hge|Hl].
  - unfold flush. destruct (fp_entries st1) as [|x l] eqn:Es; [done|]. rewrite <-Es in *.
    eexists. split; [done|]. split_and!; [|done..].
    constructor; cbn [fp_meta fp_emitted fp_next_id fp_entries fp_metadata fp_sent]; try done.
    + exists (new ++ [e]). split; [|done]. unfold all_entries.
      cbn [fp_entries fp_sent st1]. rewrite join_app, app_nil_r. simpl. by rewrite app_nil_r.
    + split; [by_decide|]. apply Forall_app. split; [done|].
      constructor; [lia|done].
    + unfold st1; cbn [fp_meta fp_emitted fp_metadata]. rewrite He. eauto.
  - exists st1. split; [done|]. split_and!; [|done..].
    constructor; cbn [fp_meta fp_emitted fp_next_id fp_entries fp_metadata fp_sent st1]; try done.
    + eauto.
    + rewrite He. eauto.
Qed.

Lemma push_targets_inv file base ts n : ∀ st acc c,
  parse_inv file base st acc c → fp_emitted st = true →
  ∃ st', push_targets writing n ts st = Ok st' ∧
    parse_inv file base st' (acc ++ ((λ t, (t, n, c)) <$> ts)) c ∧
    fp_next_id st' = fp_next_id st.
Proof.
  induction ts as [|t ts IH]; intros st acc c Hi He; cbn [push_targets].
  { exists st. simpl. by rewrite app_nil_r. }
  destruct (push_one_inv file base st acc c t n Hi He) as (st1 & -> & Hi1 & He1 & Hn1).
  osimpl. destruct (IH st1 _ c Hi1 He1) as (st2 & -> & Hi2 & Hn2).
  exists st2. rewrite fmap_cons, <-app_assoc in *. split_and!; [done..|congruence].
Qed.

(** A comment changes nothing but the metadata in force. *)
Lemma comment_inv file base st acc c key val :
  parse_inv file base st acc c → fp_next_id st + 1 < 2 ^ 32 → 0 <= fp_next_id st →
  parse_inv file base (apply_comment key val st) acc
    (if bool_decide (key = lit "category") then parse_category val else c) ∧
  fp_next_id st <= fp_next_id (apply_comment key val st) <= fp_next_id st + 1.
Proof.
  intros [] Hn H0. unfold apply_comment. case_bool_decide.
  - set (cat := parse_category val). rewrite pi_category0, wrap_small by (unfold in_width; lia).
    inversion pi_next0 as [|?? Hcur Hrest]; subst.
    case_bool_decide as Hcat; cbn [negb andb]; [|destruct (fp_emitted st) eqn:He].
    + split; [|cbn; lia]. constructor; cbn [fp_meta fp_emitted fp_next_id fp_entries fp_metadata
        fp_sent am_file_name am_category am_current_metadata_id]; try done; by rewrite ?Hcat.
    + split; [|cbn; lia]. constructor; cbn [fp_meta fp_emitted fp_next_id fp_entries fp_metadata
        fp_sent am_file_name am_category am_current_metadata_id]; try done.
      * rewrite Forall_forall in Hrest. intros Hin%Hrest. lia.
      * constructor; [lia|]. eapply Forall_impl; [done|]. simpl. lia.
    + split; [|cbn; lia]. constructor; cbn [fp_meta fp_emitted fp_next_id fp_entries fp_metadata
        fp_sent am_file_name am_category am_current_metadata_id]; try done; by rewrite ?He.
  - repeat (case_bool_decide; [split; [by constructor|cbn; lia]|]).
    split; [by constructor|lia].
Qed.

Lemma file_line_inv file base line n st acc c :
  parse_inv file base st acc c → fp_next_id st + 1 < 2 ^ 32 → 0 <= fp_next_id st →
  match classify_line line with
  | TokenLine token =>
      match targets_of token with
      | Ok ts => ∃ st', on_line line n st = Ok st' ∧
          parse_inv file base st' (acc ++ ((λ t, (t, n, c)) <$> ts)) c ∧
          fp_next_id st' = fp_next_id st
      | _ => on_line line n st = Err (EInvalidEntry n token)
      end
  | k => ∃ st', on_line line n st = Ok st' ∧
      parse_inv file base st' acc (match k with CategoryLine c' => c' | _ => c end) ∧
      fp_next_id st <= fp_next_id st' <= fp_next_id st + 1
  end.
Proof using ignored_ok.
  intros Hi Hn H0. unfold classify_line, parse_file_line.
  assert (Hsame : fp_next_id st <= fp_next_id st <= fp_next_id st + 1) by lia.
  destruct (len (trim line) =? 0); [by eauto|].
  destruct (strip_prefix 35 (trim line)) as [stripped|].
  - destruct (comment_field stripped) as [[key val]|]; [|by eauto].
    destruct (comment_inv file base st acc c key val Hi Hn H0) as [Hc Hb].
    case_bool_decide; eauto.
  - set (token := match split_once 35 (trim line) with Some _ => _ | None => _ end).
    destruct (len token =? 0); [by eauto|].
    destruct (emit_inv file base st acc c Hi) as (Hi' & He & Hn' & _).
    pose proof (line_targets_no_fault token) as Hnf.
    destruct (targets_of token) as [ts| |]; [|done|done].
    destruct (push_targets_inv file base ts n _ acc c Hi' He) as (st' & -> & ? & ?).
    exists st'. split_and!; [done..|congruence].
Qed.

Lemma file_lines_inv file base lines : ∀ n st acc c,
  parse_inv file base st acc c → 0 <= fp_next_id st → fp_next_id st + len lines < 2 ^ 32 →
  match expand targets_of (data_lines c lines n) with
  | Ok xs => ∃ n' st' c', visit_lines on_line lines n st = Ok (n', st') ∧
      parse_inv file base st' (acc ++ xs) c'
  | Err e => visit_lines on_line lines n st = Err e
  | Fault => False
  end.
Proof using ignored_ok.
  induction lines as [|line lines IH]; intros n st acc c Hi H0 Hb; cbn [data_lines visit_lines].
  { exists n, st, c. rewrite app_nil_r. eauto. }
  unfold len in *. cbn [length] in Hb.
  pose proof (file_line_inv file base line (n + 1) st acc c Hi ltac:(lia) H0) as Hl.
  destruct (classify_line line) as [|c'|token].
  - destruct Hl as (st1 & -> & Hi1 & Hn1). osimpl. apply (IH (n + 1) st1 acc c); [done|lia..].
  - destruct Hl as (st1 & -> & Hi1 & Hn1). osimpl. apply (IH (n + 1) st1 acc c'); [done|lia..].
  - cbn [expand]. pose proof (line_targets_no_fault token) as Hnf.
    destruct (targets_of token) as [ts| |]; [|by rewrite Hl|done].
    destruct Hl as (st1 & -> & Hi1 & Hn1). osimpl.
    specialize (IH (n + 1) st1 _ c Hi1 ltac:(lia) ltac:(lia)).
    destruct (expand _ _) as [xs| |]; osimpl; [|done..].
    destruct IH as (n' & st' & c' & Hv & Hi'). exists n', st', c'.
    rewrite app_assoc. eauto.
Qed.

Lemma push_targets_no_fault n ts : ∀ st, is_fault (push_targets writing n ts st) = false.
Proof.
  induction ts as [|t ts IH]; intros st; cbn [push_targets]; [done|].
  destruct (_ <=? _)%nat; [|apply IH]. unfold flush. cbn [fp_entries].
  destruct (fp_entries st ++ _); osimpl; apply IH.
Qed.

Lemma on_line_no_fault line n st : is_fault (on_line line n st) = false.
Proof using ignored_ok.
  unfold parse_file_line. destruct (_ =? _); [done|].
  destruct (strip_prefix 35 (trim line)) as [stripped|].
  { by destruct (comment_field stripped) as [[]|]. }
  destruct (len _ =? 0); [done|].
  pose proof (line_targets_no_fault
    (match split_once 35 (trim line) with Some (b, _) => trim b | None => trim line end)) as Hnf.
  destruct (targets_of _); [apply push_targets_no_fault|done..].
Qed.

Lemma expand_targets ds xs x :
  expand targets_of ds = Ok xs → x ∈ xs →
  ∃ token ts, targets_of token = Ok ts ∧ x.1.1 ∈ ts.
Proof using Type.
  clear ignored_ok. revert xs. induction ds as [|[[n token] c] ds IH]; intros xs He Hx; cbn [expand] in He.
  { injection He as <-. set_solver. }
  destruct (targets_of token) as [ts| |] eqn:Et; [|done..].
  destruct (expand _ ds) as [more| |]; osimpl; [|done..]. injection He as <-.
  apply elem_of_app in Hx as [(t & -> & Ht)%list_elem_of_fmap|Hx]; [eauto|].
  by apply (IH more).
Qed.

Lemma parse_start_inv file next_id entries metadata sent :
  in_width 32 (next_id + 1) → Forall (λ m, md_id m < next_id) metadata → NoDup (md_id <$> metadata) →
  (length entries < WORKER_BATCH_SIZE)%nat → Forall (λ b, length b = WORKER_BATCH_SIZE) sent →
  parse_inv file (mjoin sent ++ entries)
    (mkParse (ActiveFileMetadata_new file next_id) false (wrap_u32 (next_id + 1)) entries
       metadata sent) [] Other.
Proof.
  intros Hw Hm Hnd He Hs. constructor; cbn [fp_meta fp_emitted fp_next_id fp_entries fp_metadata
    fp_sent am_file_name am_category am_current_metadata_id ActiveFileMetadata_new]; try done.
  - exists []. by rewrite app_nil_r.
  - rewrite Forall_forall in Hm. intros (m & Hid & Hin%Hm)%list_elem_of_fmap. lia.
  - rewrite wrap_small by done. constructor; [lia|]. apply Forall_fmap.
    eapply Forall_impl; [done|]. simpl. lia.
Qed.

Lemma single_file_spec file evs content text next_id entries metadata sent :
  Failed ∉ evs → from_utf8 content = Some text →
  0 <= next_id → next_id + 1 + len (split_terminator newline text) < 2 ^ 32 →
  Forall (λ m, md_id m < next_id) metadata → NoDup (md_id <$> metadata) →
  (length entries < WORKER_BATCH_SIZE)%nat → Forall (λ b, length b = WORKER_BATCH_SIZE) sent →
  match expand targets_of (data_lines Other (split_terminator newline text) 0) with
  | Ok xs => ∃ st new,
      parse_single_file (N4 := N4) (N6 := N6) writing ignore_ips file evs content next_id entries
        metadata sent = Ok (len content, st) ∧
      all_entries st = (mjoin sent ++ entries) ++ new ∧
      Forall2 (produced file (fp_metadata st)) new xs ∧
      NoDup (md_id <$> fp_metadata st) ∧
      Forall (λ b, length b = WORKER_BATCH_SIZE) (fp_sent st)
  | Err e =>
      parse_single_file (N4 := N4) (N6 := N6) writing ignore_ips file evs content next_id entries
        metadata sent = Err e
  | Fault => False
  end.
Proof using ignored_ok.
  intros Hev Htext H0 Hb Hm Hnd He Hs. unfold len in Hb.
  assert (Hw : in_width 32 (next_id + 1)) by (unfold in_width; lia).
  pose proof (parse_start_inv file next_id entries metadata sent Hw Hm Hnd He Hs) as Hi.
  unfold parse_single_file. set (st0 := mkParse _ _ _ _ _ _) in *.
  assert (Hn : fp_next_id st0 = next_id + 1) by (unfold st0; cbn; by apply wrap_small).
  pose proof (visit_loop_spec EIo on_line on_line_no_fault
    (S (length evs + length content)) evs content [] (1024 * 1024) 0 0 st0 Hev) as Hv.
  unfold visits in Hv. cbn [app] in Hv. rewrite Htext in Hv. unfold visit_file_lines.
  rewrite Hv by (done || lia). clear Hv.
  pose proof (file_lines_inv file _ (split_terminator newline text) 0 st0 [] Other Hi
    ltac:(lia) ltac:(unfold len; lia)) as Hl.
  destruct (expand _ _) as [xs|e|]; [|by rewrite Hl|done].
  destruct Hl as (n' & st' & c' & -> & Hi'). osimpl.
  destruct (emit_inv _ _ _ _ _ Hi') as ([_ _ (new & Hall & Hnew) [_ Hfull] _ Hids _] & _).
  exists (emit_metadata st'), new. done.
Qed.
End FileProofs.

Section FileClaims.
Context {N4 N6 : Type} `{!IpNet 4 N4} `{!IpNet 16 N6} `{!IpNetText N4 N6}.
Context {low : Lowercase} {chrono : Chrono} (ignore_ips : list IpAddr).
Abbreviation targets_of := (line_targets (N4 := N4) (N6 := N6) ignore_ips).
Abbreviation parse := (parse_single_file (N4 := N4) (N6 := N6) writing ignore_ips).

(** C13 (functional). Reading one list file: when every address line is valid, the
    entries handed over and buffered are, after those already there, exactly the
    targets of the address lines in order, each with its line number and with
    the identifier of a metadata record that names the file and the category in
    force at that line; identifiers stay unique and every batch handed over is
    full. The first invalid line aborts the file with its number and text. *)
Theorem parse_single_file_spec file evs content text next_id entries metadata sent :
  Forall ip_ok ignore_ips → Failed ∉ evs → from_utf8 content = Some text →
  0 <= next_id → next_id + 1 + len (split_terminator newline text) < 2 ^ 32 →
  Forall (λ m, md_id m < next_id) metadata → NoDup (md_id <$> metadata) →
  (length entries < WORKER_BATCH_SIZE)%nat → Forall (λ b, length b = WORKER_BATCH_SIZE) sent →
  match expand targets_of (data_lines Other (split_terminator newline text) 0) with
  | Ok xs => ∃ st new,
      parse file evs content next_id entries metadata sent = Ok (len content, st) ∧
      all_entries st = (mjoin sent ++ entries) ++ new ∧
      Forall2 (produced file (fp_metadata st)) new xs ∧
      NoDup (md_id <$> fp_metadata st) ∧
      Forall (λ b, length b = WORKER_BATCH_SIZE) (fp_sent st)
  | Err e =>
      parse file evs content next_id entries metadata sent = Err e
  | Fault => False
  end.
Proof. intros Hok. by apply single_file_spec. Qed.

(** No entry that a list file contributes covers an address of the
    ignore list, whatever CIDR blocks the file holds. *)
Theorem imported_entries_spare_ignored_ips file evs content text next_id bytes st e ip :
  Forall ip_ok ignore_ips → Failed ∉ evs → from_utf8 content = Some text →
  0 <= next_id → next_id + 1 + len (split_terminator newline text) < 2 ^ 32 →
  parse file evs content next_id [] [] [] = Ok (bytes, st) →
  e ∈ all_entries st → ip ∈ ignore_ips → ¬ target_covers (fe_target e) ip.
Proof.
  intros Hok Hev Htext H0 Hb Hp He Hip.
  pose proof (single_file_spec ignore_ips Hok file evs content text next_id [] [] [] Hev Htext H0 Hb
    ltac:(constructor) ltac:(constructor) ltac:(by_decide) ltac:(constructor)) as Hs.
  rewrite Hp in Hs. destruct (expand _ _) as [xs| |] eqn:Ex; [|done..].
  destruct Hs as (st' & new & [= -> <-] & Hall & Hnew & _). rewrite Hall in He. simpl in He.
  apply list_elem_of_lookup in He as [i Hi].
  destruct (Forall2_lookup_l _ _ _ _ _ Hnew Hi) as ([[t n] c] & Hx & Ht & _).
  edestruct expand_targets as (token & ts & Hts & Hin);
    [exact Ex|by eapply list_elem_of_lookup_2|].
  subst t. by eapply line_targets_exclude.
Qed.
End FileClaims.

(** ** Witnesses *)
Definition demo_lower : Lowercase := {| lower_non_ascii c := [c] |}.
Definition demo_chrono : Chrono :=
  {| parse_from_rfc3339 _ := None; parse_from_str _ _ := None;
     parse_naive_datetime _ _ := None; parse_naive_date _ _ := None |}.
#[local] Existing Instance demo_lower.
#[local] Existing Instance demo_chrono.

(** A list with a header, an address, a change of category and a network. *)
Definition demo_list : list Z :=
  lit "# Category: malware" ++ [10] ++ lit "192.0.2.1" ++ [10] ++ lit "# category : spam" ++ [10] ++
  lit "10.1.2.3/8 # lab" ++ [10].
Definition demo_ignore : list IpAddr := [V4 [10; 0; 0; 1]].

Lemma parse_single_file_spec_witness :
  ∃ xs st new,
    parse_single_file (N4 := Net 4) (N6 := Net 16) writing demo_ignore (lit "a.netset") [Upto 7]
      demo_list 1 [] [] [] = Ok (len demo_list, st) ∧
    expand (line_targets (N4 := Net 4) (N6 := Net 16) demo_ignore)
      (data_lines Other (split_terminator newline demo_list) 0) = Ok xs ∧
    all_entries st = new ∧ Forall2 (produced (lit "a.netset") (fp_metadata st)) new xs ∧
    NoDup (md_id <$> fp_metadata st).
Proof.
  pose proof (parse_single_file_spec (N4 := Net 4) (N6 := Net 16) demo_ignore (lit "a.netset")
    [Upto 7] demo_list demo_list 1 [] [] [] ltac:(by_decide) ltac:(by_decide) eq_refl ltac:(lia)
    ltac:(by_decide) ltac:(constructor) ltac:(constructor) ltac:(by_decide) ltac:(constructor)) as H.
  assert (∃ xs, expand (line_targets (N4 := Net 4) (N6 := Net 16) demo_ignore)
    (data_lines Other (split_terminator newline demo_list) 0) = Ok xs) as [xs Hx]
    by (eexists; vm_compute; reflexivity).
  rewrite Hx in H. destruct H as (st & new & Hp & Hall & Hnew & Hnd & _).
  exists xs, st, new. split; [exact Hp|]. split; [exact Hx|]. split; [exact Hall|].
  split; [exact Hnew|exact Hnd].
Defined.

Lemma imported_entries_spare_ignored_ips_witness :
  ∃ bytes st,
    parse_single_file (N4 := Net 4) (N6 := Net 16) writing demo_ignore (lit "a.netset") [Upto 7]
      demo_list 1 [] [] [] = Ok (bytes, st) ∧
    length (all_entries st) = 25%nat ∧
    ∀ e, e ∈ all_entries st → ¬ target_covers (fe_target e) (V4 [10; 0; 0; 1]).
Proof.
  eexists _, _. split; [vm_compute; reflexivity|]. split; [vm_compute; reflexivity|].
  intros e He. eapply (imported_entries_spare_ignored_ips (N4 := Net 4) (N6 := Net 16) demo_ignore
    (lit "a.netset") [Upto 7] demo_list demo_list 1);
    [by_decide|by_decide|reflexivity|lia|by_decide|vm_compute; reflexivity|exact He|by_decide].
Defined.
