(* ===== verification/Loader.v ===== *)
(** * Static rules ([src/loader.rs])

    The rule set shared with the map manager, the static-rule registry, and the
    loader that turns text files into rules. Files are what [BufRead::lines]
    yields: a sequence of lines, each of which may be an I/O error. *)
From stdpp Require Import base numbers list gmap fin_maps strings sorting.
From Stdlib Require Import ZArith Lia.
From S2P Require Import Prelude Net Common BpfMaps Str Cidr.

Local Open Scope Z_scope.

Definition STATIC_RULE_BASE : Z := Z.shiftl 1 28.

Inductive FirewallError : Type :=
| IoError
| ParseError (line : Z) (reason : list Z).

(** ** Static rule metadata *)
Record StaticRuleInfo : Type := mkStaticInfo {
  si_rule_id : Z; si_file : list Z; si_line : Z }.
#[global] Instance StaticRuleInfo_eq_dec : EqDecision StaticRuleInfo.
Proof. solve_decision. Defined.

Record StaticRuleRegistry : Type := mkStaticRegistry { sr_inner : gmap Z StaticRuleInfo }.
Definition StaticRuleRegistry_new : StaticRuleRegistry := mkStaticRegistry ∅.
Definition registry_set (_ : StaticRuleRegistry) (m : gmap Z StaticRuleInfo)
    : StaticRuleRegistry := mkStaticRegistry m.
Definition registry_get (r : StaticRuleRegistry) (rule_id : Z) : option StaticRuleInfo :=
  sr_inner r !! rule_id.

(** ** [ParsedRuleSet] *)
Record ParsedRuleSet : Type := mkRuleSet {
  rs_exact_v4 : gmap (list Z) RuleValue;
  rs_exact_v6 : gmap (list Z) RuleValue;
  rs_lpm_v4 : list (Z * list Z * RuleValue);
  rs_lpm_v6 : list (Z * list Z * RuleValue);
  rs_total_rules : Z;
  rs_skipped_rules : Z;
}.
Definition ParsedRuleSet_new : ParsedRuleSet := mkRuleSet ∅ ∅ [] [] 0 0.

Definition rs_is_empty (r : ParsedRuleSet) : bool :=
  bool_decide (rs_exact_v4 r = ∅) && bool_decide (rs_exact_v6 r = ∅) &&
  (len (rs_lpm_v4 r) =? 0) && (len (rs_lpm_v6 r) =? 0).

Definition rs_count (r : ParsedRuleSet) : Z :=
  Z.of_nat (size (rs_exact_v4 r)) + Z.of_nat (size (rs_exact_v6 r)) +
  len (rs_lpm_v4 r) + len (rs_lpm_v6 r).

(** The entries of [other] overwrite; the iteration order does not matter since
    its keys are distinct. *)
Definition insert_all (l : list (list Z * RuleValue)) (m : gmap (list Z) RuleValue)
    : gmap (list Z) RuleValue :=
  fold_left (λ m kv, <[kv.1 := kv.2]> m) l m.

Section Merge.
Context `{!HashOrder}.
Definition rs_merge (self other : ParsedRuleSet) : ParsedRuleSet :=
  let r := mkRuleSet
    (insert_all (map_iter (rs_exact_v4 other)) (rs_exact_v4 self))
    (insert_all (map_iter (rs_exact_v6 other)) (rs_exact_v6 self))
    (rs_lpm_v4 self ++ rs_lpm_v4 other) (rs_lpm_v6 self ++ rs_lpm_v6 other)
    (rs_total_rules self) (rs_skipped_rules self) in
  mkRuleSet (rs_exact_v4 r) (rs_exact_v6 r) (rs_lpm_v4 r) (rs_lpm_v6 r) (rs_count r)
    (rs_skipped_rules r + rs_skipped_rules other).
End Merge.

(** ** Parsing *)
Inductive ParsedEntry : Type :=
| ExactV4 (addr : list Z) (val : RuleValue)
| ExactV6 (addr : list Z) (val : RuleValue)
| LpmV4 (prefix_len : Z) (addr : list Z) (val : RuleValue)
| LpmV6 (prefix_len : Z) (addr : list Z) (val : RuleValue).
#[global] Instance ParsedEntry_eq_dec : EqDecision ParsedEntry.
Proof. solve_decision. Defined.

Definition entry_rule_id (e : ParsedEntry) : Z :=
  match e with
  | ExactV4 _ v | ExactV6 _ v | LpmV4 _ _ v | LpmV6 _ _ v => rv_rule_id v
  end.

Section Load.
Context {N4 N6 : Type} `{!IpNet 4 N4} `{!IpNet 16 N6} `{!IpNetText N4 N6}.

Definition parse_line (raw_line : list Z) (rule_id : Z)
    : outcome FirewallError (option ParsedEntry) :=
  let line := trim (up_to 35 raw_line) in
  if (len line =? 0) then Ok None else
  let rule_val := rule_drop rule_id in
  match IpNet_from_str line with
  | Some (NetV4 net4) =>
      let prefix_len := net_prefix_len (n := 4) net4 in
      let addr_octets := network_octets (n := 4) net4 in
      if prefix_len =? 32 then Ok (Some (ExactV4 addr_octets rule_val))
      else Ok (Some (LpmV4 prefix_len addr_octets rule_val))
  | Some (NetV6 net6) =>
      let prefix_len := net_prefix_len (n := 16) net6 in
      let addr_octets := network_octets (n := 16) net6 in
      if prefix_len =? 128 then Ok (Some (ExactV6 addr_octets rule_val))
      else Ok (Some (LpmV6 prefix_len addr_octets rule_val))
  | None =>
      match IpAddr_from_str line with
      | Some (V4 v4) => Ok (Some (ExactV4 v4 rule_val))
      | Some (V6 v6) => Ok (Some (ExactV6 v6 rule_val))
      | None => Err (ParseError 0 (lit "Unrecognized IP address or CIDR notation: '"
                                     ++ line ++ lit "'"))
      end
  end.

(** The mutable state [load_file_into] works on. *)
Record load_state : Type := mkLoad {
  ls_rules : ParsedRuleSet;
  ls_meta : gmap Z StaticRuleInfo;
  ls_next : Z;
}.

Definition skip_rule (r : ParsedRuleSet) : ParsedRuleSet :=
  mkRuleSet (rs_exact_v4 r) (rs_exact_v6 r) (rs_lpm_v4 r) (rs_lpm_v6 r) (rs_total_rules r)
    (rs_skipped_rules r + 1).

(** [map.insert(k, v).is_some()] counts the replaced entry as skipped. *)
Definition add_entry (e : ParsedEntry) (r : ParsedRuleSet) : ParsedRuleSet :=
  match e with
  | ExactV4 addr val =>
      let r' := mkRuleSet (<[addr := val]> (rs_exact_v4 r)) (rs_exact_v6 r) (rs_lpm_v4 r)
        (rs_lpm_v6 r) (rs_total_rules r) (rs_skipped_rules r) in
      if rs_exact_v4 r !! addr then skip_rule r' else r'
  | ExactV6 addr val =>
      let r' := mkRuleSet (rs_exact_v4 r) (<[addr := val]> (rs_exact_v6 r)) (rs_lpm_v4 r)
        (rs_lpm_v6 r) (rs_total_rules r) (rs_skipped_rules r) in
      if rs_exact_v6 r !! addr then skip_rule r' else r'
  | LpmV4 p addr val =>
      mkRuleSet (rs_exact_v4 r) (rs_exact_v6 r) (rs_lpm_v4 r ++ [(p, addr, val)])
        (rs_lpm_v6 r) (rs_total_rules r) (rs_skipped_rules r)
  | LpmV6 p addr val =>
      mkRuleSet (rs_exact_v4 r) (rs_exact_v6 r) (rs_lpm_v4 r)
        (rs_lpm_v6 r ++ [(p, addr, val)]) (rs_total_rules r) (rs_skipped_rules r)
  end.

(** One iteration of the line loop; [None] is a read error. *)
Definition load_line (file_name : list Z) (line_number : Z) (line_res : option (list Z))
    (st : load_state) : outcome FirewallError load_state :=
  match line_res with
  | None => Err IoError
  | Some raw_line =>
      match parse_line raw_line (ls_next st) with
      | Ok (Some entry) =>
          let rule_id := entry_rule_id entry in
          Ok (mkLoad (add_entry entry (ls_rules st))
               (<[rule_id := mkStaticInfo rule_id file_name (wrap_u32 line_number)]> (ls_meta st))
               (wrap_u32 (ls_next st + 1)))
      | Ok None => Ok st
      | Err _ => Ok (mkLoad (skip_rule (ls_rules st)) (ls_meta st) (ls_next st))
      | Fault => Fault
      end
  end.

Fixpoint load_lines (file_name : list Z) (line_number : Z) (lines : list (option (list Z)))
    (st : load_state) : outcome FirewallError load_state :=
  match lines with
  | [] => Ok st
  | l :: rest =>
      st' ← load_line file_name line_number l st;
      load_lines file_name (line_number + 1) rest st'
  end.

(** A path: whether it exists, whether it opens, its name and its lines. *)
Record rule_file : Type := mkFile {
  rf_exists : bool; rf_opens : bool; rf_name : list Z; rf_lines : list (option (list Z)) }.

Definition load_file_into (f : rule_file) (st : load_state) : outcome FirewallError load_state :=
  if negb (rf_opens f) then Err IoError else load_lines (rf_name f) 1 (rf_lines f) st.

Fixpoint load_paths (paths : list rule_file) (st : load_state)
    : outcome FirewallError load_state :=
  match paths with
  | [] => Ok st
  | f :: rest =>
      if negb (rf_exists f) then load_paths rest st
      else st' ← load_file_into f st; load_paths rest st'
  end.

Definition set_total (r : ParsedRuleSet) : ParsedRuleSet :=
  mkRuleSet (rs_exact_v4 r) (rs_exact_v6 r) (rs_lpm_v4 r) (rs_lpm_v6 r) (rs_count r)
    (rs_skipped_rules r).

Definition load_start : load_state := mkLoad ParsedRuleSet_new ∅ STATIC_RULE_BASE.

Definition load_from_paths_with_meta (paths : list rule_file)
    : outcome FirewallError (ParsedRuleSet * gmap Z StaticRuleInfo) :=
  st ← load_paths paths load_start;
  mret (set_total (ls_rules st), ls_meta st).

Definition load_from_paths (paths : list rule_file) : outcome FirewallError ParsedRuleSet :=
  fst <$> load_from_paths_with_meta paths.

Definition load_file (f : rule_file) : outcome FirewallError ParsedRuleSet :=
  st ← load_file_into f load_start; mret (set_total (ls_rules st)).

(** ** Every rule is attributed to the line it came from *)

Definition entry_in (e : ParsedEntry) (r : ParsedRuleSet) : Prop :=
  match e with
  | ExactV4 a v => rs_exact_v4 r !! a = Some v
  | ExactV6 a v => rs_exact_v6 r !! a = Some v
  | LpmV4 p a v => (p, a, v) ∈ rs_lpm_v4 r
  | LpmV6 p a v => (p, a, v) ∈ rs_lpm_v6 r
  end.

(** The keys the map manager will install: whole addresses, or network
    addresses of a proper prefix. *)
Definition entry_ok (e : ParsedEntry) : Prop :=
  match e with
  | ExactV4 a _ => bytes_ok 4 a
  | ExactV6 a _ => bytes_ok 16 a
  | LpmV4 p a _ => lpm_key_ok 4 (p, a) ∧ p < 32
  | LpmV6 p a _ => lpm_key_ok 16 (p, a) ∧ p < 128
  end.
Definition entry_val (e : ParsedEntry) : RuleValue :=
  match e with ExactV4 _ v | ExactV6 _ v | LpmV4 _ _ v | LpmV6 _ _ v => v end.

Lemma network_octets_key {n T} `{!IpNet n T} (t : T) :
  lpm_key_ok n (net_prefix_len (n := n) t, network_octets (n := n) t).
Proof.
  pose proof (net_prefix_range (n := n) t) as Hp. pose proof (net_addr_range (n := n) t) as Ha.
  unfold lpm_key_ok, network_octets; simpl. split_and!; [lia..|apply to_be_bytes_ok|].
  unfold network. rewrite net_network_spec. f_equal.
  rewrite from_to_be_bytes_id; [apply land_mask_idem|].
  destruct (land_mask_in_width _ _ _ Hp Ha) as [? Hlt]. by rewrite Z.pow_mul_r in Hlt by lia.
Qed.

Lemma parse_line_spec raw id e :
  parse_line raw id = Ok (Some e) → entry_val e = rule_drop id ∧ entry_ok e.
Proof.
  unfold parse_line. destruct (_ =? 0); [done|].
  destruct (IpNet_from_str _) as [[net|net]|].
  - pose proof (network_octets_key (n := 4) net) as Hk.
    pose proof (net_prefix_range (n := 4) net).
    destruct (Z.eqb_spec (net_prefix_len (n := 4) net) 32); intros [= <-]; split; try done.
    + by destruct Hk as (_ & ? & _).
    + split; [done|lia].
  - pose proof (network_octets_key (n := 16) net) as Hk.
    pose proof (net_prefix_range (n := 16) net).
    destruct (Z.eqb_spec (net_prefix_len (n := 16) net) 128); intros [= <-]; split; try done.
    + by destruct Hk as (_ & ? & _).
    + split; [done|lia].
  - destruct (IpAddr_from_str _) as [[o|o]|] eqn:Hip; [..|done];
      apply IpAddr_from_str_ok in Hip; intros [= <-]; done.
Qed.

Lemma parse_line_no_fault raw id : is_fault (parse_line raw id) = false.
Proof. unfold parse_line. repeat case_match; done. Qed.

Lemma entry_in_add e e' r : entry_in e' (add_entry e r) → e' = e ∨ entry_in e' r.
Proof.
  destruct e as [a v|a v|p a v|p a v], e' as [a' v'|a' v'|p' a' v'|p' a' v'];
    simpl; try (destruct (_ !! a); simpl); auto;
    rewrite ?lookup_insert_Some, ?elem_of_app, ?list_elem_of_singleton; naive_solver.
Qed.

Definition attributed (paths : list rule_file) (meta : gmap Z StaticRuleInfo)
    (e : ParsedEntry) : Prop :=
  ∃ info f raw, meta !! entry_rule_id e = Some info ∧ si_rule_id info = entry_rule_id e ∧
    f ∈ paths ∧ si_file info = rf_name f ∧ 1 <= si_line info ∧
    rf_lines f !! (Z.to_nat (si_line info) - 1)%nat = Some (Some raw) ∧
    parse_line raw (entry_rule_id e) = Ok (Some e).

(** The invariant of the loop, [done] lines in. *)
Definition load_inv (paths : list rule_file) (count : Z) (st : load_state) : Prop :=
  STATIC_RULE_BASE <= ls_next st <= STATIC_RULE_BASE + count ∧
  ∀ e, entry_in e (ls_rules st) →
    attributed paths (ls_meta st) e ∧ entry_ok e ∧ entry_val e = rule_drop (entry_rule_id e) ∧
    STATIC_RULE_BASE <= entry_rule_id e < ls_next st.

Lemma load_inv_weaken paths c c' st : c <= c' → load_inv paths c st → load_inv paths c' st.
Proof. intros ? [? H]. split; [lia|done]. Qed.

Lemma load_line_inv paths f i c st st' :
  f ∈ paths → 0 <= i → STATIC_RULE_BASE + c + 1 < 2 ^ 32 → i + 1 < 2 ^ 32 → 0 <= c →
  (∃ l, rf_lines f !! Z.to_nat i = Some l ∧ load_line (rf_name f) (i + 1) l st = Ok st') →
  load_inv paths c st → load_inv paths (c + 1) st'.
Proof.
  intros Hf Hi Hc Hi32 Hc0 (l & Hl & Hload) [Hn Hinv]. unfold load_line in Hload.
  destruct l as [raw|]; [|done].
  destruct (parse_line raw (ls_next st)) as [[e|]|err|] eqn:Hp; simplify_eq.
  - destruct (parse_line_spec _ _ _ Hp) as [Hv Hok].
    assert (entry_rule_id e = ls_next st) as Hid by (destruct e; simpl in *; by rewrite Hv).
    assert (STATIC_RULE_BASE = 268435456) as HB by done.
    assert (wrap_u32 (ls_next st + 1) = ls_next st + 1) as Hw by (apply wrap_small; lia).
    split; cbn [ls_next ls_rules ls_meta]; rewrite Hw; [lia|].
    intros e' [->|He']%entry_in_add.
    + split_and!; [|done|by rewrite Hid|lia..].
      exists (mkStaticInfo (entry_rule_id e) (rf_name f) (wrap_u32 (i + 1))), f, raw.
      cbn [si_rule_id si_file si_line]. rewrite lookup_insert_eq, wrap_small by lia.
      split_and!; [done..|lia| |by rewrite Hid].
      replace (Z.to_nat (i + 1) - 1)%nat with (Z.to_nat i) by lia. done.
    + destruct (Hinv e' He') as ((info & f' & raw' & Hm & Hrest) & Hok' & Hv' & Hr').
      split_and!; [|done|done|lia..]. exists info, f', raw'. split; [|done].
      rewrite lookup_insert_ne by lia. done.
  - split; [lia|done].
  - split; cbn [ls_next ls_rules ls_meta]; [lia|]. intros e He. apply Hinv.
    by destruct e.
Qed.

Lemma load_lines_inv paths f lines : ∀ i c st st',
  f ∈ paths → 0 <= i → 0 <= c → drop (Z.to_nat i) (rf_lines f) = lines →
  STATIC_RULE_BASE + c + len lines < 2 ^ 32 → i + len lines < 2 ^ 32 →
  load_lines (rf_name f) (i + 1) lines st = Ok st' →
  load_inv paths c st → load_inv paths (c + len lines) st'.
Proof.
  induction lines as [|l lines IH]; intros i c st st' Hf Hi Hc Hd Hb Hi32 Hl Hinv.
  { injection Hl as <-. unfold len. simpl. by rewrite Z.add_0_r. }
  cbn [load_lines] in Hl. apply outcome_bind_Ok in Hl as (st1 & H1 & Hl).
  unfold len in *. cbn [length] in *. rewrite Nat2Z.inj_succ in *.
  assert (Hlk : rf_lines f !! Z.to_nat i = Some l).
  { rewrite <-(Nat.add_0_r (Z.to_nat i)), <-lookup_drop, Hd. done. }
  assert (load_inv paths (c + 1) st1) as Hinv1 
    by (apply (load_line_inv paths f i c st); try done; try lia; by exists l).
  replace (c + Z.succ (Z.of_nat (length lines))) with (c + 1 + Z.of_nat (length lines)) by lia.
  eapply (IH (i + 1)); try done; try lia.
  replace (Z.to_nat (i + 1)) with (1 + Z.to_nat i)%nat by lia.
  by rewrite Nat.add_comm, <-drop_drop, Hd.
Qed.

(** Lines of all files. *)
Definition total_lines (paths : list rule_file) : Z :=
  fold_right Z.add 0 ((λ f, len (rf_lines f)) <$> paths).

Lemma total_lines_nonneg paths : 0 <= total_lines paths.
Proof.
  induction paths as [|f paths IH]; [done|].
  change (total_lines (f :: paths)) with (len (rf_lines f) + total_lines paths).
  pose proof (len_nonneg (rf_lines f)). lia.
Qed.

Lemma load_paths_inv all paths : ∀ c st st',
  (∀ f, f ∈ paths → f ∈ all) → 0 <= c →
  STATIC_RULE_BASE + c + total_lines paths < 2 ^ 32 → load_paths paths st = Ok st' →
  load_inv all c st → load_inv all (c + total_lines paths) st'.
Proof.
  induction paths as [|f paths IH]; intros c st st' Hsub Hc Hb Hl Hinv.
  { injection Hl as <-. unfold total_lines. simpl. by rewrite Z.add_0_r. }
  cbn [load_paths] in Hl. pose proof (len_nonneg (rf_lines f)). pose proof (total_lines_nonneg paths).
  change (total_lines (f :: paths)) with (len (rf_lines f) + total_lines paths) in *.
  assert (STATIC_RULE_BASE = 268435456) as HB by done.
  destruct (rf_exists f); cbn [negb] in Hl.
  - apply outcome_bind_Ok in Hl as (st1 & H1 & Hl). unfold load_file_into in H1.
    destruct (rf_opens f); [|done].
    assert (load_inv all (c + len (rf_lines f)) st1) as Hinv1.
    { eapply (load_lines_inv all f _ 0); try done; try lia.
      - apply Hsub. by left.
      - exact H1. }
    rewrite Z.add_assoc. eapply IH; try done; try lia. intros. apply Hsub. by right.
  - apply (load_inv_weaken _ (c + total_lines paths)); [lia|].
    eapply IH; try done; try lia. intros. apply Hsub. by right.
Qed.
Lemma loaded_entries paths rules meta e :
  total_lines paths < 2 ^ 32 - STATIC_RULE_BASE →
  load_from_paths_with_meta paths = Ok (rules, meta) → entry_in e rules →
  attributed paths meta e ∧ entry_ok e ∧ entry_val e = rule_drop (entry_rule_id e) ∧
  STATIC_RULE_BASE <= entry_rule_id e ∧ rs_total_rules rules = rs_count rules.
Proof.
  intros Hb Hl He. unfold load_from_paths_with_meta in Hl.
  apply outcome_bind_Ok in Hl as (st & Hst & [= <- <-]).
  assert (load_inv paths (0 + total_lines paths) st) as [_ Hinv].
  { eapply (load_paths_inv paths paths 0 load_start); try done; [lia|].
    split; [cbn; lia|]. intros []; cbn; rewrite ?lookup_empty; try done;
      by intros ?%elem_of_nil. }
  destruct (Hinv e) as (Ha & Hok & Hv & Hr); [by destruct e|].
  split_and!; [done..|lia|done].
Qed.
End Load.

(** C37 (functional). Loading static rules: every rule of the result drops, has a
    well-formed key (a whole address, or the network address of a proper
    prefix), carries an identifier in the static name space, and the metadata
    map resolves that identifier to the file and the 1-based line whose text
    parses to exactly this rule. The total is the number of rules. (Files of
    fewer than 2^32 - 2^28 lines in all, so that identifiers do not wrap.) *)
Theorem load_from_paths_attribution {N4 N6 : Type} `{!IpNet 4 N4} `{!IpNet 16 N6}
    `{!IpNetText N4 N6} paths rules meta e :
  total_lines paths < 2 ^ 32 - STATIC_RULE_BASE →
  load_from_paths_with_meta paths = Ok (rules, meta) → entry_in e rules →
  attributed paths meta e ∧ entry_ok e ∧ entry_val e = rule_drop (entry_rule_id e) ∧
  STATIC_RULE_BASE <= entry_rule_id e ∧ rs_total_rules rules = rs_count rules.
Proof. apply loaded_entries. Qed.

Definition demo_files : list rule_file :=
  [mkFile false true (lit "absent") [];
   mkFile true true (lit "cidr_ranges.txt")
     [Some (lit "# comment"); Some (lit " 10.1.2.3/8  # private"); Some (lit "oops");
      Some (lit "2001:db8::1"); Some (lit "1.2.3.4/32")]].

Lemma load_from_paths_attribution_witness :
  ∃ rules meta, load_from_paths_with_meta demo_files = Ok (rules, meta) ∧
    attributed demo_files meta (LpmV4 8 [10; 0; 0; 0] (rule_drop STATIC_RULE_BASE)) ∧
    rs_total_rules rules = 3.
Proof.
  eexists _, _. split; [vm_compute; reflexivity|]. split; [|vm_compute; reflexivity].
  eapply load_from_paths_attribution; [by_decide|vm_compute; reflexivity|].
  simpl. by left.
Defined.
