(* ===== verification/MapManager.v ===== *)
(** * The map manager ([src/maps.rs])

    Differential synchronisation of rule sets into the four kernel maps, which
    static rules and FireHOL rules share: [MapManager] remembers which keys
    FireHOL installed. The source repeats the same two loops for the four maps;
    they are one pair of definitions here ([Family]), used four times. *)
From stdpp Require Import base numbers list gmap fin_maps strings sorting.
From Stdlib Require Import ZArith Lia.
From S2P Require Import Prelude Net Common BpfMaps Str Cidr Loader.

Local Open Scope Z_scope.

(** ** One map *)
Section Family.
Context {M K : Type} `{Countable K} `{!BpfMap M K RuleValue} `{!HashOrder}.
Implicit Types (m : M) (fh installed : gset K) (rules : list (K * RuleValue)).

(** [current_*]: the keys the kernel reports, errors skipped. *)
Definition current_keys m : gset K := list_to_set (omap id (bm_keys m)).
(** [static_*]: the keys FireHOL does not own. *)
Definition static_keys m fh : gset K := current_keys m ∖ fh.

(** The insertion loop: after the first error the other rules are skipped. *)
Fixpoint insert_loop rules m installed (inserted : nat) (warned : bool)
    : M * gset K * nat :=
  match rules with
  | [] => (m, installed, inserted)
  | (k, v) :: rest =>
      if warned then insert_loop rest m installed inserted warned
      else match bm_insert m k v with
           | None => insert_loop rest m installed inserted true
           | Some m' => insert_loop rest m' ({[k]} ∪ installed) (S inserted) false
           end
  end.

(** [let _ = map.remove(&k)]. *)
Definition remove_ignoring m (k : K) : M :=
  match bm_remove m k with Some m' => m' | None => m end.

Fixpoint remove_stale_static (keys : list K) fh m (removed : nat) : M * nat :=
  match keys with
  | [] => (m, removed)
  | k :: rest =>
      if decide (k ∈ fh) then remove_stale_static rest fh m removed
      else remove_stale_static rest fh (remove_ignoring m k) (S removed)
  end.

Definition sync_static rules m fh : M * nat * nat :=
  let '(m1, installed, n) := insert_loop rules m ∅ 0 false in
  let '(m2, removed) :=
    remove_stale_static (set_iter (static_keys m1 fh ∖ installed)) fh m1 0 in
  (m2, n, removed).

(** The guard [!self.static_*().contains(&k)] reads the map again each time. *)
Fixpoint remove_stale_firehol (keys : list K) fh m (removed : nat) : M * nat :=
  match keys with
  | [] => (m, removed)
  | k :: rest =>
      if decide (k ∈ static_keys m fh) then remove_stale_firehol rest fh m removed
      else remove_stale_firehol rest fh (remove_ignoring m k) (S removed)
  end.

Definition sync_firehol rules m fh : M * gset K * nat * nat :=
  let '(m1, installed, n) := insert_loop rules m ∅ 0 false in
  let '(m2, removed) := remove_stale_firehol (set_iter (fh ∖ installed)) fh m1 0 in
  (m2, installed, n, removed).
End Family.

(** ** What one map holds after a synchronisation *)
Section FamilyProofs.
Context {M K : Type} `{Countable K} `{!BpfMap M K RuleValue} `{!BpfMapLaws M K RuleValue}.
Context `{!HashOrder}.
Implicit Types (m : M) (fh installed : gset K) (rules : list (K * RuleValue)).

(** A list of rules as a map: the last rule of a key wins. *)
Definition rules_map rules : gmap K RuleValue := list_to_map (reverse rules).
(** The part of a map FireHOL owns, and the rest. *)
Definition owned fh (c : gmap K RuleValue) : gmap K RuleValue := filter (λ kv, kv.1 ∈ fh) c.
Definition not_owned fh (c : gmap K RuleValue) : gmap K RuleValue := filter (λ kv, kv.1 ∉ fh) c.
Definition rules_ok rules : Prop := Forall (λ kv, bm_key_ok kv.1) rules.

(** The loop inserted the rules [ins]; the others were skipped because the
    first of them could not be inserted. *)
Definition inserted_part rules m (ins : list (K * RuleValue)) : Prop :=
  ∃ rest, rules = ins ++ rest ∧
    match rest with
    | [] => True
    | (k, v) :: _ =>
        ∃ m1, bm_contents m1 = rules_map ins ∪ bm_contents m ∧ bm_insert m1 k v = None
    end.

Lemma rules_map_nil : rules_map [] = ∅.
Proof. done. Qed.

Lemma rules_map_cons k v rules : rules_map ((k, v) :: rules) = rules_map rules ∪ {[k := v]}.
Proof.
  unfold rules_map. rewrite reverse_cons, list_to_map_app. f_equal.
Qed.

Lemma insert_loop_warned rules m installed n :
  insert_loop rules m installed n true = (m, installed, n).
Proof. revert m installed n. induction rules as [|[k v] rules IH]; simpl; auto. Qed.

Lemma insert_loop_spec rules : ∀ m installed n m' installed' n',
  rules_ok rules → insert_loop rules m installed n false = (m', installed', n') →
  ∃ ins, inserted_part rules m ins ∧ bm_contents m' = rules_map ins ∪ bm_contents m ∧
    installed' = dom (rules_map ins) ∪ installed ∧ n' = (n + length ins)%nat.
Proof.
  induction rules as [|[k v] rules IH]; intros m installed n m' installed' n' Hok Hrun.
  { injection Hrun as <- <- <-. exists []. split_and!; [exists []; done|..].
    - by rewrite rules_map_nil, (left_id_L ∅ (∪)).
    - rewrite rules_map_nil. set_solver.
    - simpl. lia. }
  cbn [insert_loop] in Hrun. inversion_clear Hok as [|?? Hk Hok']. simpl in Hk.
  destruct (bm_insert m k v) as [m1|] eqn:Hins.
  - destruct (IH _ _ _ _ _ _ Hok' Hrun) as (ins & (rest & -> & Hrest) & Hc & Hi & Hn).
    assert (rules_map ((k, v) :: ins) ∪ bm_contents m = rules_map ins ∪ bm_contents m1) as Hu.
    { rewrite (bm_insert_spec m k v m1 Hk Hins), rules_map_cons.
      by rewrite insert_union_singleton_l, (assoc_L (∪)). }
    exists ((k, v) :: ins). split_and!.
    + exists rest. split; [done|]. destruct rest as [|[k' v'] rest]; [done|]. by rewrite Hu.
    + by rewrite Hu.
    + rewrite Hi, rules_map_cons. set_solver.
    + simpl. lia.
  - rewrite insert_loop_warned in Hrun. injection Hrun as <- <- <-.
    exists []. split_and!.
    + exists ((k, v) :: rules). split; [done|]. exists m.
      by rewrite rules_map_nil, (left_id_L ∅ (∪)).
    + by rewrite rules_map_nil, (left_id_L ∅ (∪)).
    + rewrite rules_map_nil. set_solver.
    + simpl. lia.
Qed.

Lemma current_keys_dom m : current_keys m = dom (bm_contents m).
Proof.
  apply set_eq. intros k. unfold current_keys.
  rewrite elem_of_list_to_set, list_elem_of_omap, <-bm_keys_spec.
  split; [intros ([k'|] & Hin & Hk); simpl in Hk; by simplify_eq|].
  intros Hk. by exists (Some k).
Qed.

Lemma remove_ignoring_contents m k :
  bm_key_ok k → bm_contents (remove_ignoring m k) = delete k (bm_contents m).
Proof.
  intros Hk. unfold remove_ignoring. destruct (bm_remove m k) as [m'|] eqn:Hr.
  - by apply bm_remove_spec.
  - symmetry. apply delete_id. destruct (bm_contents m !! k) as [v|] eqn:Hm; [|done].
    destruct (bm_remove_present m k Hk) as [? ?]; [by rewrite Hm|]. congruence.
Qed.

(** Removing the keys of a list from a map. *)
Definition without (keys : list K) (c : gmap K RuleValue) : gmap K RuleValue :=
  filter (λ kv, kv.1 ∉ keys) c.

Lemma without_cons k keys c : without (k :: keys) c = without keys (delete k c).
Proof.
  unfold without. apply map_eq. intros j. apply option_eq. intros v.
  rewrite !map_lookup_filter_Some, lookup_delete_Some. simpl. set_solver.
Qed.

Lemma remove_stale_static_spec keys fh : ∀ m r,
  Forall bm_key_ok keys → Forall (λ k, k ∉ fh) keys →
  ∃ m', remove_stale_static keys fh m r = (m', (r + length keys)%nat) ∧
    bm_contents m' = without keys (bm_contents m).
Proof.
  induction keys as [|k keys IH]; intros m r Hok Hfh; simpl.
  { exists m. rewrite Nat.add_0_r. split; [done|]. unfold without. symmetry.
    apply map_filter_id. intros; apply not_elem_of_nil. }
  inversion_clear Hok as [|?? Hk Hok']. inversion_clear Hfh as [|?? Hn Hfh'].
  rewrite decide_False by done.
  destruct (IH (remove_ignoring m k) (S r) Hok' Hfh') as (m' & -> & Hc).
  exists m'. split; [f_equal; lia|]. by rewrite Hc, remove_ignoring_contents, without_cons.
Qed.

(** The guard of the FireHOL loop never holds: what it tests for is a key of
    the set it is looping over. *)
Lemma remove_stale_firehol_spec keys fh : ∀ m r,
  Forall bm_key_ok keys → Forall (λ k, k ∈ fh) keys →
  ∃ m', remove_stale_firehol keys fh m r = (m', (r + length keys)%nat) ∧
    bm_contents m' = without keys (bm_contents m).
Proof.
  induction keys as [|k keys IH]; intros m r Hok Hfh; simpl.
  { exists m. rewrite Nat.add_0_r. split; [done|]. unfold without. symmetry.
    apply map_filter_id. intros; apply not_elem_of_nil. }
  inversion_clear Hok as [|?? Hk Hok']. inversion_clear Hfh as [|?? Hn Hfh'].
  rewrite decide_False by (unfold static_keys; set_solver).
  destruct (IH (remove_ignoring m k) (S r) Hok' Hfh') as (m' & -> & Hc).
  exists m'. split; [f_equal; lia|]. by rewrite Hc, remove_ignoring_contents, without_cons.
Qed.

(** *** The two synchronisations, on contents *)

Lemma sync_static_spec rules m fh m' n r :
  rules_ok rules → sync_static rules m fh = (m', n, r) →
  ∃ ins, inserted_part rules m ins ∧ n = length ins ∧
    bm_contents m' = rules_map ins ∪ owned fh (bm_contents m) ∧
    r = size (dom (bm_contents m) ∖ fh ∖ dom (rules_map ins)).
Proof.
  intros Hok. unfold sync_static.
  destruct (insert_loop rules m ∅ 0 false) as [[m1 installed] n1] eqn:Hins.
  destruct (insert_loop_spec _ _ _ _ _ _ _ Hok Hins) as (ins & Hpart & Hc1 & -> & ->).
  rewrite (right_id_L ∅ (∪)).
  set (stale := static_keys m1 fh ∖ dom (rules_map ins)).
  assert (Hel : ∀ k, k ∈ set_iter stale ↔ k ∈ dom (bm_contents m) ∧ k ∉ fh ∧ k ∉ dom (rules_map ins)).
  { intros k. rewrite set_iter_perm, elem_of_elements. unfold stale, static_keys.
    rewrite current_keys_dom, Hc1. set_solver. }
  destruct (remove_stale_static_spec (set_iter stale) fh m1 0) as (m2 & -> & Hc2).
  { apply Forall_forall. intros k [Hk _]%Hel. apply elem_of_dom in Hk. by eapply bm_contents_ok. }
  { apply Forall_forall. intros k Hk%Hel. naive_solver. }
  intros [= <- <- <-]. exists ins. split_and!; [done|done| |].
  - rewrite Hc2, Hc1. apply map_eq. intros j. apply option_eq. intros v.
    unfold without, owned. rewrite map_lookup_filter_Some, !lookup_union_Some_raw,
      map_lookup_filter_Some. simpl. rewrite Hel.
    destruct (decide (j ∈ fh)), (rules_map ins !! j) eqn:Hj;
      rewrite ?not_elem_of_dom, ?elem_of_dom, ?Hj in *; naive_solver.
  - assert (dom (bm_contents m) ∖ fh ∖ dom (rules_map ins) = stale) as ->.
    { unfold stale, static_keys. rewrite current_keys_dom, Hc1. set_solver. }
    unfold size, set_size. simpl. apply Permutation_length, set_iter_perm.
Qed.

Lemma sync_firehol_spec rules m fh m' fh' n r :
  rules_ok rules → (∀ k, k ∈ fh → bm_key_ok k) → sync_firehol rules m fh = (m', fh', n, r) →
  ∃ ins, inserted_part rules m ins ∧ n = length ins ∧ fh' = dom (rules_map ins) ∧
    bm_contents m' = rules_map ins ∪ not_owned fh (bm_contents m) ∧
    r = size (fh ∖ dom (rules_map ins)).
Proof.
  intros Hok Hfh. unfold sync_firehol.
  destruct (insert_loop rules m ∅ 0 false) as [[m1 installed] n1] eqn:Hins.
  destruct (insert_loop_spec _ _ _ _ _ _ _ Hok Hins) as (ins & Hpart & Hc1 & -> & ->).
  rewrite (right_id_L ∅ (∪)). set (stale := fh ∖ dom (rules_map ins)).
  assert (Hel : ∀ k, k ∈ set_iter stale ↔ k ∈ fh ∧ k ∉ dom (rules_map ins)).
  { intros k. rewrite set_iter_perm, elem_of_elements. unfold stale. set_solver. }
  destruct (remove_stale_firehol_spec (set_iter stale) fh m1 0) as (m2 & -> & Hc2).
  { apply Forall_forall. intros k [Hk _]%Hel. auto. }
  { apply Forall_forall. intros k Hk%Hel. naive_solver. }
  intros [= <- <- <- <-]. exists ins. split_and!; [done|done|done| |].
  - rewrite Hc2, Hc1. apply map_eq. intros j. apply option_eq. intros v.
    unfold without, not_owned. rewrite map_lookup_filter_Some, !lookup_union_Some_raw,
      map_lookup_filter_Some. simpl. rewrite Hel.
    destruct (decide (j ∈ fh)), (rules_map ins !! j) eqn:Hj;
      rewrite ?not_elem_of_dom, ?elem_of_dom, ?Hj in *; naive_solver.
  - unfold size, set_size. simpl. apply Permutation_length, set_iter_perm.
Qed.

(** *** Two owners of one map *)

(** The map holds the static rules [S] and the FireHOL rules [F], which share
    no key, and the manager knows the FireHOL keys. *)
Definition family_rel m fh (S F : gmap K RuleValue) : Prop :=
  bm_contents m = S ∪ F ∧ S ##ₘ F ∧ fh = dom F.

Lemma owned_union S F : S ##ₘ F → owned (dom F) (S ∪ F) = F.
Proof.
  intros Hd. apply map_eq. intros j. apply option_eq. intros v. unfold owned.
  rewrite map_lookup_filter_Some, lookup_union_Some_raw, elem_of_dom. simpl.
  pose proof (map_disjoint_spec S F) as Hs. rewrite Hs in Hd. clear Hs.
  destruct (S !! j) eqn:HS, (F !! j) eqn:HF; unfold is_Some; naive_solver.
Qed.

Lemma not_owned_union S F : S ##ₘ F → not_owned (dom F) (S ∪ F) = S.
Proof.
  intros Hd. apply map_eq. intros j. apply option_eq. intros v. unfold not_owned.
  rewrite map_lookup_filter_Some, lookup_union_Some_raw, not_elem_of_dom. simpl.
  pose proof (map_disjoint_spec S F) as Hs. rewrite Hs in Hd. clear Hs.
  destruct (S !! j) eqn:HS, (F !! j) eqn:HF; naive_solver.
Qed.

Lemma inserted_all rules m ins :
  inserted_part rules m ins → length ins = length rules → ins = rules.
Proof.
  intros (rest & -> & _) Hl. rewrite length_app in Hl.
  destruct rest; [by rewrite app_nil_r|simpl in Hl; lia].
Qed.

Lemma family_keys_ok m fh S F k : family_rel m fh S F → k ∈ fh → bm_key_ok k.
Proof.
  intros (Hc & Hd & ->) [v Hv]%elem_of_dom. apply (bm_contents_ok m). rewrite Hc.
  rewrite lookup_union_r; [by rewrite Hv|]. by eapply map_disjoint_Some_r.
Qed.

Lemma sync_static_rel rules m fh m' n r S F :
  family_rel m fh S F → rules_ok rules → rules_map rules ##ₘ F →
  sync_static rules m fh = (m', n, r) → n = length rules →
  family_rel m' fh (rules_map rules) F.
Proof.
  intros (Hc & Hd & ->) Hok Hd' Hs Hn.
  destruct (sync_static_spec _ _ _ _ _ _ Hok Hs) as (ins & Hp & Hl & Hc' & _).
  rewrite (inserted_all _ _ _ Hp) in Hc' by lia.
  rewrite Hc, owned_union in Hc' by done. done.
Qed.

Lemma sync_firehol_rel rules m fh m' fh' n r S F :
  family_rel m fh S F → rules_ok rules → S ##ₘ rules_map rules →
  sync_firehol rules m fh = (m', fh', n, r) → n = length rules →
  family_rel m' fh' S (rules_map rules).
Proof.
  intros Hrel Hok Hd' Hs Hn.
  destruct (sync_firehol_spec _ _ _ _ _ _ _ Hok (λ k, family_keys_ok m fh S F k Hrel) Hs)
    as (ins & Hp & Hl & Hf & Hc' & _).
  destruct Hrel as (Hc & Hd & ->).
  rewrite (inserted_all _ _ _ Hp) in Hc', Hf by lia.
  rewrite Hc, not_owned_union in Hc' by done. split_and!; [|done|done].
  rewrite Hc'. by apply map_union_comm.
Qed.

Lemma rules_map_iter (c : gmap K RuleValue) : rules_map (map_iter c) = c.
Proof.
  unfold rules_map. rewrite <-(list_to_map_to_list c) at 2.
  apply list_to_map_proper.
  - rewrite fmap_reverse. rewrite reverse_Permutation, map_iter_perm. apply NoDup_fst_map_to_list.
  - by rewrite reverse_Permutation, map_iter_perm.
Qed.
End FamilyProofs.

(** ** The manager *)
Record SyncReport : Type := mkReport {
  ipv4_exact_inserted : nat;
  ipv6_exact_inserted : nat;
  ipv4_lpm_inserted : nat;
  ipv6_lpm_inserted : nat;
  entries_removed : nat;
}.

(** A [Vec] of [(prefix_len, addr, val)] as keyed rules. *)
Definition lpm_rules (l : list (Z * list Z * RuleValue)) : list ((Z * list Z) * RuleValue) := l.

Section Manager.
Context {H4 H6 L4 L6 : Type}.
Context `{!BpfMap H4 (list Z) RuleValue} `{!BpfMap H6 (list Z) RuleValue}.
Context `{!BpfMap L4 (Z * list Z) RuleValue} `{!BpfMap L6 (Z * list Z) RuleValue}.
Context `{!HashOrder}.

Record MapManager : Type := mkManager {
  mm_ipv4_exact : H4;
  mm_ipv6_exact : H6;
  mm_ipv4_lpm : L4;
  mm_ipv6_lpm : L6;
  mm_stats : list FirewallStats;
  installed_firehol_v4_exact : gset (list Z);
  installed_firehol_v6_exact : gset (list Z);
  installed_firehol_v4_lpm : gset (Z * list Z);
  installed_firehol_v6_lpm : gset (Z * list Z);
}.

(** [MapManager::new] on the maps taken from the loaded program. *)
Definition MapManager_new (h4 : option H4) (h6 : option H6) (l4 : option L4) (l6 : option L6)
    (stats : option (list FirewallStats)) : outcome unit MapManager :=
  match h4, h6, l4, l6, stats with
  | Some h4, Some h6, Some l4, Some l6, Some s => Ok (mkManager h4 h6 l4 l6 s ∅ ∅ ∅ ∅)
  | _, _, _, _, _ => Err ()
  end.

Definition sync_rules (self : MapManager) (rules : ParsedRuleSet) : MapManager * SyncReport :=
  let '(m4, n4, r1) := sync_static (map_iter (rs_exact_v4 rules)) (mm_ipv4_exact self)
    (installed_firehol_v4_exact self) in
  let '(m6, n6, r2) := sync_static (map_iter (rs_exact_v6 rules)) (mm_ipv6_exact self)
    (installed_firehol_v6_exact self) in
  let '(t4, p4, r3) := sync_static (lpm_rules (rs_lpm_v4 rules)) (mm_ipv4_lpm self)
    (installed_firehol_v4_lpm self) in
  let '(t6, p6, r4) := sync_static (lpm_rules (rs_lpm_v6 rules)) (mm_ipv6_lpm self)
    (installed_firehol_v6_lpm self) in
  (mkManager m4 m6 t4 t6 (mm_stats self) (installed_firehol_v4_exact self)
     (installed_firehol_v6_exact self) (installed_firehol_v4_lpm self)
     (installed_firehol_v6_lpm self),
   mkReport n4 n6 p4 p6 (r1 + r2 + r3 + r4)).

Definition sync_firehol_rules (self : MapManager) (rules : ParsedRuleSet)
    : MapManager * SyncReport :=
  let '(m4, f4, n4, r1) := sync_firehol (map_iter (rs_exact_v4 rules)) (mm_ipv4_exact self)
    (installed_firehol_v4_exact self) in
  let '(m6, f6, n6, r2) := sync_firehol (map_iter (rs_exact_v6 rules)) (mm_ipv6_exact self)
    (installed_firehol_v6_exact self) in
  let '(t4, g4, p4, r3) := sync_firehol (lpm_rules (rs_lpm_v4 rules)) (mm_ipv4_lpm self)
    (installed_firehol_v4_lpm self) in
  let '(t6, g6, p6, r4) := sync_firehol (lpm_rules (rs_lpm_v6 rules)) (mm_ipv6_lpm self)
    (installed_firehol_v6_lpm self) in
  (mkManager m4 m6 t4 t6 (mm_stats self) f4 f6 g4 g6, mkReport n4 n6 p4 p6 (r1 + r2 + r3 + r4)).

Definition total_exact_v4 (self : MapManager) : nat := size (current_keys (mm_ipv4_exact self)).
Definition total_exact_v6 (self : MapManager) : nat := size (current_keys (mm_ipv6_exact self)).
Definition total_lpm_v4 (self : MapManager) : nat := size (current_keys (mm_ipv4_lpm self)).
Definition total_lpm_v6 (self : MapManager) : nat := size (current_keys (mm_ipv6_lpm self)).

(** *** Single-rule operations *)
Definition set_v4_exact (self : MapManager) (m : H4) : MapManager :=
  mkManager m (mm_ipv6_exact self) (mm_ipv4_lpm self) (mm_ipv6_lpm self) (mm_stats self)
    (installed_firehol_v4_exact self) (installed_firehol_v6_exact self)
    (installed_firehol_v4_lpm self) (installed_firehol_v6_lpm self).
Definition set_v6_exact (self : MapManager) (m : H6) : MapManager :=
  mkManager (mm_ipv4_exact self) m (mm_ipv4_lpm self) (mm_ipv6_lpm self) (mm_stats self)
    (installed_firehol_v4_exact self) (installed_firehol_v6_exact self)
    (installed_firehol_v4_lpm self) (installed_firehol_v6_lpm self).
Definition set_v4_lpm (self : MapManager) (m : L4) : MapManager :=
  mkManager (mm_ipv4_exact self) (mm_ipv6_exact self) m (mm_ipv6_lpm self) (mm_stats self)
    (installed_firehol_v4_exact self) (installed_firehol_v6_exact self)
    (installed_firehol_v4_lpm self) (installed_firehol_v6_lpm self).
Definition set_v6_lpm (self : MapManager) (m : L6) : MapManager :=
  mkManager (mm_ipv4_exact self) (mm_ipv6_exact self) (mm_ipv4_lpm self) m (mm_stats self)
    (installed_firehol_v4_exact self) (installed_firehol_v6_exact self)
    (installed_firehol_v4_lpm self) (installed_firehol_v6_lpm self).

Definition insert_exact_v4 self addr val : option MapManager :=
  set_v4_exact self <$> bm_insert (mm_ipv4_exact self) addr val.
Definition insert_exact_v6 self addr val : option MapManager :=
  set_v6_exact self <$> bm_insert (mm_ipv6_exact self) addr val.
Definition insert_lpm_v4 self prefix_len addr val : option MapManager :=
  set_v4_lpm self <$> bm_insert (mm_ipv4_lpm self) (prefix_len, addr) val.
Definition insert_lpm_v6 self prefix_len addr val : option MapManager :=
  set_v6_lpm self <$> bm_insert (mm_ipv6_lpm self) (prefix_len, addr) val.
Definition remove_exact_v4 self addr : option MapManager :=
  set_v4_exact self <$> bm_remove (mm_ipv4_exact self) addr.
Definition remove_exact_v6 self addr : option MapManager :=
  set_v6_exact self <$> bm_remove (mm_ipv6_exact self) addr.
Definition remove_lpm_v4 self prefix_len addr : option MapManager :=
  set_v4_lpm self <$> bm_remove (mm_ipv4_lpm self) (prefix_len, addr).
Definition remove_lpm_v6 self prefix_len addr : option MapManager :=
  set_v6_lpm self <$> bm_remove (mm_ipv6_lpm self) (prefix_len, addr).

(** [get_stats] never fails: an unreadable array reads as zeros. *)
Definition get_stats (self : MapManager) : FirewallStats :=
  match mm_stats self !! 0%nat with Some s => s | None => FirewallStats_default end.
Definition reset_stats (self : MapManager) : option MapManager :=
  match mm_stats self with
  | [] => None
  | _ :: l => Some (mkManager (mm_ipv4_exact self) (mm_ipv6_exact self) (mm_ipv4_lpm self)
      (mm_ipv6_lpm self) (FirewallStats_default :: l) (installed_firehol_v4_exact self)
      (installed_firehol_v6_exact self) (installed_firehol_v4_lpm self)
      (installed_firehol_v6_lpm self))
  end.

(** ** The abstract state: what each owner wants in each map *)
Record tables : Type := mkTables {
  t_exact_v4 : gmap (list Z) RuleValue;
  t_exact_v6 : gmap (list Z) RuleValue;
  t_lpm_v4 : gmap (Z * list Z) RuleValue;
  t_lpm_v6 : gmap (Z * list Z) RuleValue;
}.
Definition no_tables : tables := mkTables ∅ ∅ ∅ ∅.
Definition tables_of (r : ParsedRuleSet) : tables :=
  mkTables (rs_exact_v4 r) (rs_exact_v6 r) (rules_map (lpm_rules (rs_lpm_v4 r)))
    (rules_map (lpm_rules (rs_lpm_v6 r))).
Definition tables_disjoint (a b : tables) : Prop :=
  t_exact_v4 a ##ₘ t_exact_v4 b ∧ t_exact_v6 a ##ₘ t_exact_v6 b ∧
  t_lpm_v4 a ##ₘ t_lpm_v4 b ∧ t_lpm_v6 a ##ₘ t_lpm_v6 b.

Definition manager_rel (self : MapManager) (S F : tables) : Prop :=
  family_rel (mm_ipv4_exact self) (installed_firehol_v4_exact self) (t_exact_v4 S) (t_exact_v4 F) ∧
  family_rel (mm_ipv6_exact self) (installed_firehol_v6_exact self) (t_exact_v6 S) (t_exact_v6 F) ∧
  family_rel (mm_ipv4_lpm self) (installed_firehol_v4_lpm self) (t_lpm_v4 S) (t_lpm_v4 F) ∧
  family_rel (mm_ipv6_lpm self) (installed_firehol_v6_lpm self) (t_lpm_v6 S) (t_lpm_v6 F).

(** Keys the maps accept. *)
Definition rule_set_ok (r : ParsedRuleSet) : Prop :=
  rules_ok (M := H4) (map_iter (rs_exact_v4 r)) ∧ rules_ok (M := H6) (map_iter (rs_exact_v6 r)) ∧
  rules_ok (M := L4) (lpm_rules (rs_lpm_v4 r)) ∧ rules_ok (M := L6) (lpm_rules (rs_lpm_v6 r)).

(** The report says that every rule was inserted. *)
Definition complete (r : ParsedRuleSet) (rep : SyncReport) : Prop :=
  ipv4_exact_inserted rep = length (map_iter (rs_exact_v4 r)) ∧
  ipv6_exact_inserted rep = length (map_iter (rs_exact_v6 r)) ∧
  ipv4_lpm_inserted rep = length (rs_lpm_v4 r) ∧
  ipv6_lpm_inserted rep = length (rs_lpm_v6 r).

(** States reached by synchronisations that inserted all of their rules and
    whose keys the other owner did not use, with what each owner asked for last. *)
Inductive reachable : MapManager → tables → tables → Prop :=
| reach_new h4 h6 l4 l6 stats :
    bm_contents h4 = ∅ → bm_contents h6 = ∅ → bm_contents l4 = ∅ → bm_contents l6 = ∅ →
    reachable (mkManager h4 h6 l4 l6 stats ∅ ∅ ∅ ∅) no_tables no_tables
| reach_static self S F rules :
    reachable self S F → rule_set_ok rules → tables_disjoint (tables_of rules) F →
    complete rules (sync_rules self rules).2 →
    reachable (sync_rules self rules).1 (tables_of rules) F
| reach_firehol self S F rules :
    reachable self S F → rule_set_ok rules → tables_disjoint S (tables_of rules) →
    complete rules (sync_firehol_rules self rules).2 →
    reachable (sync_firehol_rules self rules).1 S (tables_of rules).

Context `{!BpfMapLaws H4 (list Z) RuleValue} `{!BpfMapLaws H6 (list Z) RuleValue}.
Context `{!BpfMapLaws L4 (Z * list Z) RuleValue} `{!BpfMapLaws L6 (Z * list Z) RuleValue}.

Lemma sync_rules_rel self S F rules :
  manager_rel self S F → rule_set_ok rules → tables_disjoint (tables_of rules) F →
  complete rules (sync_rules self rules).2 →
  manager_rel (sync_rules self rules).1 (tables_of rules) F.
Proof.
  intros (R1 & R2 & R3 & R4) (K1 & K2 & K3 & K4) (D1 & D2 & D3 & D4). unfold sync_rules.
  destruct (sync_static _ _ _) as [[m4 n4] r1] eqn:E1.
  destruct (sync_static _ _ _) as [[m6 n6] r2] eqn:E2 in |- *.
  destruct (sync_static (lpm_rules (rs_lpm_v4 rules)) _ _) as [[t4 p4] r3] eqn:E3.
  destruct (sync_static (lpm_rules (rs_lpm_v6 rules)) _ _) as [[t6 p6] r4] eqn:E4.
  intros (C1 & C2 & C3 & C4). cbn in D1, D2, C1, C2, C3, C4.
  unfold manager_rel, tables_of; cbn. split_and!.
  - rewrite <-(rules_map_iter (rs_exact_v4 rules)) in D1 |- *. by eapply sync_static_rel.
  - rewrite <-(rules_map_iter (rs_exact_v6 rules)) in D2 |- *. by eapply sync_static_rel.
  - by eapply sync_static_rel.
  - by eapply sync_static_rel.
Qed.

Lemma sync_firehol_rules_rel self S F rules :
  manager_rel self S F → rule_set_ok rules → tables_disjoint S (tables_of rules) →
  complete rules (sync_firehol_rules self rules).2 →
  manager_rel (sync_firehol_rules self rules).1 S (tables_of rules).
Proof.
  intros (R1 & R2 & R3 & R4) (K1 & K2 & K3 & K4) (D1 & D2 & D3 & D4). unfold sync_firehol_rules.
  destruct (sync_firehol _ _ _) as [[[m4 f4] n4] r1] eqn:E1.
  destruct (sync_firehol _ _ _) as [[[m6 f6] n6] r2] eqn:E2 in |- *.
  destruct (sync_firehol (lpm_rules (rs_lpm_v4 rules)) _ _) as [[[t4 g4] p4] r3] eqn:E3.
  destruct (sync_firehol (lpm_rules (rs_lpm_v6 rules)) _ _) as [[[t6 g6] p6] r4] eqn:E4.
  intros (C1 & C2 & C3 & C4). cbn in D1, D2, C1, C2, C3, C4.
  unfold manager_rel, tables_of; cbn. split_and!.
  - rewrite <-(rules_map_iter (rs_exact_v4 rules)) in D1 |- *. by eapply sync_firehol_rel.
  - rewrite <-(rules_map_iter (rs_exact_v6 rules)) in D2 |- *. by eapply sync_firehol_rel.
  - by eapply sync_firehol_rel.
  - by eapply sync_firehol_rel.
Qed.

Lemma family_rel_new {M K} `{Countable K} `{!BpfMap M K RuleValue} (m : M) :
  bm_contents m = ∅ → family_rel m ∅ ∅ ∅.
Proof.
  intros Hm. split_and!; [|apply map_disjoint_empty_l|by rewrite dom_empty_L].
  by rewrite Hm, (left_id_L ∅ (∪)).
Qed.

Lemma reachable_rel self S F : reachable self S F → manager_rel self S F.
Proof.
  induction 1.
  - split_and!; by apply family_rel_new.
  - by eapply sync_rules_rel.
  - by eapply sync_firehol_rules_rel.
Qed.
End Manager.
Arguments MapManager : clear implicits.

(** ** Theorems *)
Section Claims.
Context {M K : Type} `{Countable K} `{!BpfMap M K RuleValue} `{!BpfMapLaws M K RuleValue}.
Context `{!HashOrder}.
Implicit Types (m : M) (fh : gset K) (rules : list (K * RuleValue)).

(** A static rule whose address a FireHOL list also names is
    lost when the list drops the address: after a static synchronisation of one
    rule, a FireHOL synchronisation of a rule for the same key and one without
    it, the map no longer holds the key, although the static rule set was never
    changed. *)
Theorem firehol_withdrawal_drops_static_rule m k v v' m1 n1 r1 m2 fh2 n2 r2 m3 fh3 n3 r3 :
  bm_key_ok (M := M) k → bm_contents m = ∅ →
  sync_static [(k, v)] m ∅ = (m1, n1, r1) → n1 = 1%nat →
  sync_firehol [(k, v')] m1 ∅ = (m2, fh2, n2, r2) → n2 = 1%nat →
  sync_firehol [] m2 fh2 = (m3, fh3, n3, r3) →
  bm_contents m1 !! k = Some v ∧ bm_contents m2 !! k = Some v' ∧ bm_contents m3 !! k = None.
Proof.
  intros Hk Hm H1 Hn1 H2 Hn2 H3.
  assert (Hok : ∀ x, rules_ok (M := M) [(k, x)]) by (intros; by constructor).
  assert (Hmap : ∀ x, rules_map [(k, x)] = {[k := x]}) by done.
  destruct (sync_static_spec _ _ _ _ _ _ (Hok v) H1) as (ins1 & Hp1 & Hl1 & Hc1 & _).
  rewrite (inserted_all _ _ _ Hp1), Hm, Hmap in Hc1 by (simpl; lia).
  destruct (sync_firehol_spec _ _ _ _ _ _ _ (Hok v') (λ k', λ E, match not_elem_of_empty k' E with end) H2)
    as (ins2 & Hp2 & Hl2 & Hf2 & Hc2 & _).
  rewrite (inserted_all _ _ _ Hp2), Hmap in Hc2, Hf2 by (simpl; lia).
  destruct (sync_firehol_spec [] m2 fh2 m3 fh3 n3 r3) as (ins3 & Hp3 & _ & _ & Hc3 & _);
    [constructor| |done|].
  { intros k'. rewrite Hf2, dom_singleton_L. by intros ->%elem_of_singleton. }
  destruct Hp3 as (rest & Hnil & _). symmetry in Hnil. apply app_eq_nil in Hnil as [-> _].
  split_and!.
  - rewrite Hc1, lookup_union_l'; [apply lookup_singleton_eq|]. by rewrite lookup_singleton_eq.
  - rewrite Hc2, lookup_union_l'; [apply lookup_singleton_eq|]. by rewrite lookup_singleton_eq.
  - rewrite Hc3, rules_map_nil, (left_id_L ∅ (∪)). apply map_lookup_filter_None_2. right.
    intros x _. rewrite Hf2, dom_singleton_L. set_solver.
Qed.

(** When the kernel refuses one static rule, the rules after
    it are not only skipped: those that were already installed are removed as
    stale, so a failed reload uninstalls rules that are still wanted. *)
Theorem skipped_static_rules_are_removed rules m fh m' n r i k v :
  rules_ok (M := M) rules → NoDup rules.*1 → sync_static rules m fh = (m', n, r) →
  rules !! i = Some (k, v) → (n <= i)%nat → k ∉ fh →
  bm_contents m' !! k = None.
Proof.
  intros Hok Hnd Hs Hi Hle Hk.
  destruct (sync_static_spec _ _ _ _ _ _ Hok Hs) as (ins & (rest & -> & _) & -> & -> & _).
  apply lookup_union_None. split.
  - unfold rules_map. apply not_elem_of_list_to_map_1. rewrite fmap_reverse, elem_of_reverse.
    intros Hin. rewrite fmap_app in Hnd. apply NoDup_app in Hnd as (_ & Hdisj & _).
    apply (Hdisj k Hin). rewrite lookup_app_r in Hi by done.
    apply list_elem_of_fmap. exists (k, v). split; [done|]. by eapply list_elem_of_lookup_2.
  - apply map_lookup_filter_None_2. by right.
Qed.
End Claims.

(** C4 (refinement). Over every sequence of static and FireHOL
    synchronisations, in any order, in which all rules fit into the maps and
    the two owners name different keys, each of the four kernel maps holds
    exactly the union of the last static rule set and the last FireHOL rule
    set, and the recorded keys are FireHOL's. *)
Theorem manager_holds_both_rule_sets {H4 H6 L4 L6 : Type}
    `{!BpfMap H4 (list Z) RuleValue} `{!BpfMap H6 (list Z) RuleValue}
    `{!BpfMap L4 (Z * list Z) RuleValue} `{!BpfMap L6 (Z * list Z) RuleValue} `{!HashOrder}
    `{!BpfMapLaws H4 (list Z) RuleValue} `{!BpfMapLaws H6 (list Z) RuleValue}
    `{!BpfMapLaws L4 (Z * list Z) RuleValue} `{!BpfMapLaws L6 (Z * list Z) RuleValue}
    (self : MapManager H4 H6 L4 L6) (S F : tables) :
  reachable self S F → manager_rel self S F.
Proof. apply reachable_rel. Qed.

(** ** Witnesses *)
#[local] Existing Instance canonical_order.

Definition demo_map (n : nat) (c : gmap (list Z) RuleValue) : CapMap (list Z) RuleValue :=
  mkCapMap n c.
Definition ip_a : list Z := [1; 2; 3; 4].
Definition ip_b : list Z := [5; 6; 7; 8].
Definition ip_c : list Z := [9; 9; 9; 9].

Lemma rules_ok_hash (l : list (list Z * RuleValue)) :
  rules_ok (M := CapMap (list Z) RuleValue) l.
Proof. by apply Forall_true. Qed.

Lemma firehol_withdrawal_drops_static_rule_witness :
  ∃ m1 m2 m3 : CapMap (list Z) RuleValue,
    bm_contents m1 !! ip_a = Some (rule_drop 10) ∧
    bm_contents m2 !! ip_a = Some (rule_drop 1) ∧ bm_contents m3 !! ip_a = None.
Proof.
  eexists _, _, _.
  eapply (firehol_withdrawal_drops_static_rule (M := CapMap (list Z) RuleValue) (demo_map 8 ∅)
    ip_a (rule_drop 10) (rule_drop 1)); [done|done|reflexivity|vm_compute; reflexivity|
    reflexivity|vm_compute; reflexivity|reflexivity].
Defined.

Lemma skipped_static_rules_are_removed_witness :
  ∃ m' n r, sync_static [(ip_b, rule_drop 1); (ip_a, rule_drop 2)]
      (demo_map 1 {[ ip_a := rule_drop 2 ]}) ∅ = (m', n, r) ∧ bm_contents m' !! ip_a = None.
Proof.
  eexists _, _, _. split; [reflexivity|].
  eapply (skipped_static_rules_are_removed (M := CapMap (list Z) RuleValue)
    [(ip_b, rule_drop 1); (ip_a, rule_drop 2)] (demo_map 1 {[ ip_a := rule_drop 2 ]}) ∅
    _ _ _ 1 ip_a (rule_drop 2));
    [apply rules_ok_hash|by_decide|reflexivity|reflexivity|vm_compute; lia|set_solver].
Defined.

Definition demo_manager : MapManager (CapMap (list Z) RuleValue) (CapMap (list Z) RuleValue)
    (Trie 4 RuleValue) (Trie 16 RuleValue) :=
  mkManager (mkCapMap 8 ∅) (mkCapMap 8 ∅) (mkTrie (mkCapMap 8 ∅)) (mkTrie (mkCapMap 8 ∅))
    [FirewallStats_default] ∅ ∅ ∅ ∅.
Definition demo_static : ParsedRuleSet :=
  mkRuleSet {[ ip_a := rule_drop STATIC_RULE_BASE ]} ∅
    [(8, [10; 0; 0; 0], rule_drop (STATIC_RULE_BASE + 1))] [] 2 0.
Definition demo_firehol : ParsedRuleSet :=
  mkRuleSet {[ ip_b := rule_drop 1; ip_c := rule_drop 2 ]} ∅ [] [] 2 0.

Lemma manager_holds_both_rule_sets_witness :
  manager_rel (sync_firehol_rules (sync_rules demo_manager demo_static).1 demo_firehol).1
    (tables_of demo_static) (tables_of demo_firehol).
Proof.
  apply manager_holds_both_rule_sets. apply (reach_firehol _ _ no_tables).
  - apply (reach_static _ no_tables no_tables).
    + by apply reach_new.
    + split_and!; by_decide.
    + split_and!; apply map_disjoint_empty_r.
    + by_decide.
  - split_and!; by_decide.
  - split_and!; by_decide.
  - by_decide.
Defined.
