(* ===== verification/Wire.v ===== *)
(** * Packet parsing library ([firewall-ebpf/src/lib.rs])

    Header structures, bounds checks and the end-to-end classification of a raw
    frame. Raw reads ([core::ptr::read_unaligned]) and slice indexing are
    [Fault] outside the buffer, so that "the parser never reads out of bounds"
    is a theorem and not an assumption of the model. *)
From stdpp Require Import base numbers list gmap fin_maps strings sorting.
From Stdlib Require Import ZArith Lia.
From S2P Require Import Prelude Net Common.

Local Open Scope Z_scope.

Definition ETH_P_IP : Z := 0x0800.
Definition ETH_P_IPV6 : Z := 0x86DD.
Definition ETH_P_8021Q : Z := 0x8100.
Definition ETH_P_8021AD : Z := 0x88A8.
Definition ETH_HDR_LEN : Z := 14.
Definition IPV4_MIN_HDR_LEN : Z := 20.
Definition IPV6_HDR_LEN : Z := 40.

(** ** Headers: multi-byte fields hold the value a little-endian load reads. *)
Record EthernetHeader : Type := mkEth {
  eth_dst_mac : list Z; eth_src_mac : list Z; eth_ether_type : Z }.
Record Ipv4Header : Type := mkIp4 {
  ip4_vhl : Z; ip4_tos : Z; ip4_tot_len : Z; ip4_id : Z; ip4_frag_off : Z;
  ip4_ttl : Z; ip4_protocol : Z; ip4_check : Z;
  ip4_src_addr : list Z; ip4_dst_addr : list Z }.
Record Ipv6Header : Type := mkIp6 {
  ip6_vtc_fl : Z; ip6_payload_len : Z; ip6_next_header : Z; ip6_hop_limit : Z;
  ip6_src_addr : list Z; ip6_dst_addr : list Z }.
Record TransportPorts : Type := mkPorts { tp_src_port : Z; tp_dst_port : Z }.

Record ParsedPacket : Type := mkParsed {
  pp_ip_version : Z;
  pp_src_ip : list Z;
  pp_dst_ip : list Z;
  pp_protocol : Z;
  pp_src_port : Z;
  pp_dst_port : Z;
  pp_packet_len : Z;
  pp_l4_offset : Z;
}.

(** Reinterpretation of bytes as the packed structures. *)
Definition EthernetHeader_of (b : list Z) : EthernetHeader :=
  mkEth (slice b 0 6) (slice b 6 6) (from_le_bytes (slice b 12 2)).
Definition Ipv4Header_of (b : list Z) : Ipv4Header :=
  mkIp4 (from_le_bytes (slice b 0 1)) (from_le_bytes (slice b 1 1))
    (from_le_bytes (slice b 2 2)) (from_le_bytes (slice b 4 2))
    (from_le_bytes (slice b 6 2)) (from_le_bytes (slice b 8 1))
    (from_le_bytes (slice b 9 1)) (from_le_bytes (slice b 10 2))
    (slice b 12 4) (slice b 16 4).
Definition Ipv6Header_of (b : list Z) : Ipv6Header :=
  mkIp6 (from_le_bytes (slice b 0 4)) (from_le_bytes (slice b 4 2))
    (from_le_bytes (slice b 6 1)) (from_le_bytes (slice b 7 1))
    (slice b 8 16) (slice b 24 16).
Definition TransportPorts_of (b : list Z) : TransportPorts :=
  mkPorts (from_le_bytes (slice b 0 2)) (from_le_bytes (slice b 2 2)).

(** ** Functions *)
Definition check_bounds (total_len offset needed : Z) : bool :=
  match checked_add_usize offset needed with
  | Some e => e <=? total_len
  | None => false
  end.

(** The [for _ in 0..2] loop stripping VLAN tags: [n] iterations left. *)
Fixpoint vlan_loop (n : nat) (data : list Z) (ether_type offset : Z)
    : outcome unit (Z * Z) :=
  match n with
  | O => mret (ether_type, offset)
  | S n' =>
      if (ether_type =? ETH_P_8021Q) || (ether_type =? ETH_P_8021AD) then
        if negb (check_bounds (len data) offset 4) then Err () else
        b2 ← idx data (offset + 2);
        b3 ← idx data (offset + 3);
        vlan_loop n' data (from_be_bytes [b2; b3]) (offset + 4)
      else mret (ether_type, offset)
  end.

Definition parse_ethernet (data : list Z) : outcome unit (EthernetHeader * Z * Z) :=
  if negb (check_bounds (len data) 0 ETH_HDR_LEN) then Err () else
  b ← read_at data 0 14;
  let eth_hdr := EthernetHeader_of b in
  '(ether_type, offset) ←
    vlan_loop 2 data (from_be 2 (eth_ether_type eth_hdr)) ETH_HDR_LEN;
  mret (eth_hdr, offset, ether_type).

Definition parse_ipv4 (data : list Z) (offset : Z) : outcome unit (Ipv4Header * Z) :=
  if negb (check_bounds (len data) offset IPV4_MIN_HDR_LEN) then Err () else
  b ← read_at data offset 20;
  let ip_hdr := Ipv4Header_of b in
  if negb (Z.shiftr (ip4_vhl ip_hdr) 4 =? 4) then Err () else
  let ihl := Z.land (ip4_vhl ip_hdr) 0x0F * 4 in
  if ihl <? IPV4_MIN_HDR_LEN then Err () else
  if negb (check_bounds (len data) offset ihl) then Err () else
  mret (ip_hdr, offset + ihl).

Definition parse_ipv6 (data : list Z) (offset : Z) : outcome unit (Ipv6Header * Z) :=
  if negb (check_bounds (len data) offset IPV6_HDR_LEN) then Err () else
  b ← read_at data offset 40;
  let ip_hdr := Ipv6Header_of b in
  let version := wrap_u8 (Z.shiftr (from_be 4 (ip6_vtc_fl ip_hdr)) 28) in
  if negb (version =? 6) then Err () else
  mret (ip_hdr, offset + IPV6_HDR_LEN).

Definition extract_transport_ports (data : list Z) (l4_offset protocol : Z)
    : outcome unit (Z * Z) :=
  if (protocol =? PROTO_TCP) || (protocol =? PROTO_UDP) then
    if check_bounds (len data) l4_offset 4 then
      b ← read_at data l4_offset 4;
      let ports := TransportPorts_of b in
      mret (from_be 2 (tp_src_port ports), from_be 2 (tp_dst_port ports))
    else mret (0, 0)
  else mret (0, 0).

(** [let mut ip = [0u8; 16]; ip[..4].copy_from_slice(a)]. *)
Definition pad16 (a : list Z) : list Z := a ++ replicate 12 0.

Definition classify_packet (data : list Z) : outcome unit ParsedPacket :=
  '(_, l3_offset, ether_type) ← parse_ethernet data;
  if ether_type =? ETH_P_IP then
    '(ip_hdr, l4_offset) ← parse_ipv4 data l3_offset;
    '(src_port, dst_port) ← extract_transport_ports data l4_offset (ip4_protocol ip_hdr);
    mret (mkParsed 4 (pad16 (ip4_src_addr ip_hdr)) (pad16 (ip4_dst_addr ip_hdr))
            (ip4_protocol ip_hdr) src_port dst_port (len data) l4_offset)
  else if ether_type =? ETH_P_IPV6 then
    '(ip_hdr, l4_offset) ← parse_ipv6 data l3_offset;
    '(src_port, dst_port) ← extract_transport_ports data l4_offset (ip6_next_header ip_hdr);
    mret (mkParsed 6 (ip6_src_addr ip_hdr) (ip6_dst_addr ip_hdr)
            (ip6_next_header ip_hdr) src_port dst_port (len data) l4_offset)
  else Err ().

Definition simulate_exact_match (parsed : ParsedPacket)
    (exact_v4 exact_v6 : list (list Z)) : Z * Z :=
  if pp_ip_version parsed =? 4 then
    if bool_decide (take 4 (pp_src_ip parsed) ∈ exact_v4)
    then (ACTION_DROP, MATCH_EXACT_HASH) else (ACTION_ACCEPT, MATCH_NONE)
  else if pp_ip_version parsed =? 6 then
    if bool_decide (pp_src_ip parsed ∈ exact_v6)
    then (ACTION_DROP, MATCH_EXACT_HASH) else (ACTION_ACCEPT, MATCH_NONE)
  else (ACTION_ACCEPT, MATCH_NONE).

(** ** Memory safety *)

(** A buffer a Rust slice can denote: bytes, at most [isize::MAX] of them. *)
Definition buffer_ok (data : list Z) : Prop := Forall byte_ok data ∧ len data < 2 ^ 63.

Lemma check_bounds_spec total off n :
  0 <= off → 0 <= n → total < 2 ^ 63 →
  check_bounds total off n = (off + n <=? total).
Proof.
  intros. unfold check_bounds, checked_add_usize, usize_max.
  destruct (Z.leb_spec (off + n) (2 ^ 64 - 1)); [done|].
  symmetry. apply Z.leb_gt. lia.
Qed.

Lemma vlan_loop_safe n : ∀ data et off,
  len data < 2 ^ 63 → 0 <= off <= len data →
  outcome_sat (λ r, off <= r.2 <= len data ∧ r.2 <= off + 4 * Z.of_nat n)
    (vlan_loop n data et off).
Proof.
  induction n as [|n IH]; intros data et off Hlen Hoff; cbn [vlan_loop]; osimpl; [lia|].
  destruct (_ || _); osimpl; [|lia].
  rewrite check_bounds_spec by lia. destruct (Z.leb_spec (off + 4) (len data)); osimpl; [|done].
  destruct (idx_ok (E := unit) data (off + 2)) as (b2 & -> & _); [unfold len in *; lia|].
  destruct (idx_ok (E := unit) data (off + 3)) as (b3 & -> & _); [unfold len in *; lia|].
  osimpl. eapply outcome_sat_weaken; [apply IH; lia|]. osimpl. lia.
Qed.

Lemma parse_ethernet_safe data :
  len data < 2 ^ 63 →
  outcome_sat (λ r, ETH_HDR_LEN <= r.1.2 <= len data ∧ r.1.2 <= 22) (parse_ethernet data).
Proof.
  intros Hlen. unfold parse_ethernet, ETH_HDR_LEN. rewrite check_bounds_spec by lia.
  destruct (Z.leb_spec (0 + 14) (len data)); osimpl; [|done].
  rewrite read_at_ok by (unfold len in *; lia). osimpl.
  eapply outcome_sat_bind; [apply (vlan_loop_safe 2); lia|].
  intros [et off]; osimpl. lia.
Qed.

Lemma parse_ipv4_safe data off :
  len data < 2 ^ 63 → 0 <= off <= len data →
  outcome_sat (λ r, off + 20 <= r.2 <= len data) (parse_ipv4 data off).
Proof.
  intros Hlen Hoff. unfold parse_ipv4, IPV4_MIN_HDR_LEN. rewrite check_bounds_spec by lia.
  destruct (Z.leb_spec (off + 20) (len data)); osimpl; [|done].
  rewrite read_at_ok by (unfold len in *; lia). osimpl.
  destruct (negb _); [done|].
  set (ihl := Z.land _ 15 * 4). destruct (Z.ltb_spec ihl 20); [done|].
  rewrite check_bounds_spec by lia.
  destruct (Z.leb_spec (off + ihl) (len data)); osimpl; [lia|done].
Qed.

Lemma parse_ipv6_safe data off :
  len data < 2 ^ 63 → 0 <= off <= len data →
  outcome_sat (λ r, r.2 = off + 40 ∧ off + 40 <= len data) (parse_ipv6 data off).
Proof.
  intros Hlen Hoff. unfold parse_ipv6, IPV6_HDR_LEN. rewrite check_bounds_spec by lia.
  destruct (Z.leb_spec (off + 40) (len data)); osimpl; [|done].
  rewrite read_at_ok by (unfold len in *; lia). osimpl.
  destruct (negb _); osimpl; [done|lia].
Qed.

Lemma extract_ports_safe data off proto :
  len data < 2 ^ 63 → 0 <= off →
  outcome_sat (λ _, True) (extract_transport_ports data off proto).
Proof.
  intros Hlen Hoff. unfold extract_transport_ports.
  destruct (_ || _); osimpl; [|done]. rewrite check_bounds_spec by lia.
  destruct (Z.leb_spec (off + 4) (len data)); osimpl; [|done].
  by rewrite read_at_ok by (unfold len in *; lia).
Qed.

Lemma classify_packet_bounds data :
  len data < 2 ^ 63 →
  outcome_sat (λ p, pp_packet_len p = len data ∧ 34 <= pp_l4_offset p <= len data ∧
                    (pp_ip_version p = 4 ∨ pp_ip_version p = 6)) (classify_packet data).
Proof.
  intros Hlen. unfold classify_packet.
  eapply outcome_sat_bind; [by apply parse_ethernet_safe|].
  intros [[eth off] et] Hoff; unfold ETH_HDR_LEN in Hoff; osimpl in Hoff.
  destruct (et =? ETH_P_IP).
  { eapply outcome_sat_bind; [apply parse_ipv4_safe; lia|].
    intros [h l4] Hl4; osimpl in Hl4.
    eapply outcome_sat_bind; [apply extract_ports_safe; lia|].
    intros [sp dp] _; osimpl. cbn [pp_packet_len pp_l4_offset pp_ip_version]. lia. }
  destruct (et =? ETH_P_IPV6); [|done].
  eapply outcome_sat_bind; [apply parse_ipv6_safe; lia|].
  intros [h l4] Hl4; osimpl in Hl4.
  eapply outcome_sat_bind; [apply extract_ports_safe; lia|].
  intros [sp dp] _; osimpl. cbn [pp_packet_len pp_l4_offset pp_ip_version]. lia.
Qed.

(** ** What a successful parse says of the bytes *)

Lemma parse_ipv4_inv data off h l4 :
  len data < 2 ^ 63 → 0 <= off → parse_ipv4 data off = Ok (h, l4) →
  off + 20 <= len data ∧ h = Ipv4Header_of (slice data off 20) ∧
  20 <= Z.land (ip4_vhl h) 15 * 4 ∧ l4 = off + Z.land (ip4_vhl h) 15 * 4 ∧ l4 <= len data.
Proof.
  intros Hlen Hoff. unfold parse_ipv4, IPV4_MIN_HDR_LEN. rewrite check_bounds_spec by lia.
  destruct (Z.leb_spec (off + 20) (len data)); osimpl; [|done].
  rewrite read_at_ok by (unfold len in *; lia). osimpl.
  destruct (negb _); [done|]. set (h0 := Ipv4Header_of _).
  destruct (Z.ltb_spec (Z.land (ip4_vhl h0) 15 * 4) 20); [done|].
  rewrite check_bounds_spec by lia.
  destruct (Z.leb_spec (off + Z.land (ip4_vhl h0) 15 * 4) (len data)); osimpl; [|done].
  intros [= <- <-]. done.
Qed.

Lemma parse_ipv6_inv data off h l4 :
  len data < 2 ^ 63 → 0 <= off → parse_ipv6 data off = Ok (h, l4) →
  off + 40 <= len data ∧ h = Ipv6Header_of (slice data off 40) ∧ l4 = off + 40.
Proof.
  intros Hlen Hoff. unfold parse_ipv6, IPV6_HDR_LEN. rewrite check_bounds_spec by lia.
  destruct (Z.leb_spec (off + 40) (len data)); osimpl; [|done].
  rewrite read_at_ok by (unfold len in *; lia). osimpl.
  destruct (negb _); [done|]. osimpl. intros [= <- <-]. done.
Qed.

Lemma Ipv4Header_of_src data off :
  Forall byte_ok data → 0 <= off → off + 20 <= len data →
  bytes_ok 4 (ip4_src_addr (Ipv4Header_of (slice data off 20))).
Proof.
  intros. simpl. destruct (slice_ok data off 20) as [Hl Hb]; try done.
  apply (slice_ok _ 12 4); [done|lia..|]. rewrite Hl. done.
Qed.

Lemma Ipv6Header_of_src data off :
  Forall byte_ok data → 0 <= off → off + 40 <= len data →
  bytes_ok 16 (ip6_src_addr (Ipv6Header_of (slice data off 40))).
Proof.
  intros. simpl. destruct (slice_ok data off 40) as [Hl Hb]; try done.
  apply (slice_ok _ 8 16); [done|lia..|]. rewrite Hl. done.
Qed.

(** ** Building frames, and reading them back *)

(** The memory images of the packed headers. *)
Definition Ipv4Header_bytes (h : Ipv4Header) : list Z :=
  [ip4_vhl h; ip4_tos h] ++ to_le_bytes 2 (ip4_tot_len h) ++ to_le_bytes 2 (ip4_id h) ++
  to_le_bytes 2 (ip4_frag_off h) ++ [ip4_ttl h; ip4_protocol h] ++
  to_le_bytes 2 (ip4_check h) ++ ip4_src_addr h ++ ip4_dst_addr h.
Definition Ipv6Header_bytes (h : Ipv6Header) : list Z :=
  to_le_bytes 4 (ip6_vtc_fl h) ++ to_le_bytes 2 (ip6_payload_len h) ++
  [ip6_next_header h; ip6_hop_limit h] ++ ip6_src_addr h ++ ip6_dst_addr h.

(** Every field holds a value of its type. *)
Definition Ipv4Header_ok (h : Ipv4Header) : Prop :=
  byte_ok (ip4_vhl h) ∧ byte_ok (ip4_tos h) ∧ in_width 16 (ip4_tot_len h) ∧
  in_width 16 (ip4_id h) ∧ in_width 16 (ip4_frag_off h) ∧ byte_ok (ip4_ttl h) ∧
  byte_ok (ip4_protocol h) ∧ in_width 16 (ip4_check h) ∧
  bytes_ok 4 (ip4_src_addr h) ∧ bytes_ok 4 (ip4_dst_addr h).
Definition Ipv6Header_ok (h : Ipv6Header) : Prop :=
  in_width 32 (ip6_vtc_fl h) ∧ in_width 16 (ip6_payload_len h) ∧
  byte_ok (ip6_next_header h) ∧ byte_ok (ip6_hop_limit h) ∧
  bytes_ok 16 (ip6_src_addr h) ∧ bytes_ok 16 (ip6_dst_addr h).

#[global] Instance Ipv4Header_ok_dec h : Decision (Ipv4Header_ok h).
Proof. unfold Ipv4Header_ok. apply _. Defined.
#[global] Instance Ipv6Header_ok_dec h : Decision (Ipv6Header_ok h).
Proof. unfold Ipv6Header_ok. apply _. Defined.

(** A VLAN tag: the tag protocol identifier and the control information. *)
Definition vlan_bytes (t : Z * Z) : list Z := to_be_bytes 2 t.1 ++ to_be_bytes 2 t.2.
Definition is_vlan (et : Z) : bool := (et =? ETH_P_8021Q) || (et =? ETH_P_8021AD).

(** An Ethernet frame with VLAN tags. *)
Definition eth_frame (dst src : list Z) (tags : list (Z * Z)) (et : Z) (l3 : list Z)
    : list Z :=
  dst ++ src ++ mjoin (vlan_bytes <$> tags) ++ to_be_bytes 2 et ++ l3.

(** Ports of a layer-4 segment, as the protocol defines them. *)
Definition l4_ports (protocol : Z) (l4 : list Z) : Z * Z :=
  if ((protocol =? PROTO_TCP) || (protocol =? PROTO_UDP)) && (4 <=? len l4)
  then (from_be_bytes (take 2 l4), from_be_bytes (take 2 (drop 2 l4)))
  else (0, 0).

Lemma Ipv4Header_roundtrip h :
  Ipv4Header_ok h →
  length (Ipv4Header_bytes h) = 20%nat ∧ Ipv4Header_of (Ipv4Header_bytes h) = h.
Proof.
  intros (_ & _ & Hl & Hi & Hf & _ & _ & Hc & [Hs _] & [Hd _]).
  destruct h as [v t l i f tt p c s d]; simpl in *.
  pose proof (from_to_le_bytes_id 2 l Hl) as Fl. pose proof (length_to_le_bytes 2 l).
  pose proof (from_to_le_bytes_id 2 i Hi) as Fi. pose proof (length_to_le_bytes 2 i).
  pose proof (from_to_le_bytes_id 2 f Hf) as Ff. pose proof (length_to_le_bytes 2 f).
  pose proof (from_to_le_bytes_id 2 c Hc) as Fc. pose proof (length_to_le_bytes 2 c).
  unfold Ipv4Header_bytes; cbn [ip4_vhl ip4_tos ip4_tot_len ip4_id ip4_frag_off ip4_ttl
    ip4_protocol ip4_check ip4_src_addr ip4_dst_addr].
  destruct (to_le_bytes 2 l) as [|? [|? []]], (to_le_bytes 2 i) as [|? [|? []]],
    (to_le_bytes 2 f) as [|? [|? []]], (to_le_bytes 2 c) as [|? [|? []]]; try discriminate.
  repeat (destruct s as [|? s]; try discriminate Hs).
  repeat (destruct d as [|? d]; try discriminate Hd).
  split; [done|]. unfold Ipv4Header_of, slice; simpl.
  by rewrite Fl, Fi, Ff, Fc, !from_le_bytes_single.
Qed.

Lemma Ipv6Header_roundtrip h :
  Ipv6Header_ok h →
  length (Ipv6Header_bytes h) = 40%nat ∧ Ipv6Header_of (Ipv6Header_bytes h) = h.
Proof.
  intros (Hv & Hl & _ & _ & [Hs _] & [Hd _]).
  destruct h as [v l n hl s d]; unfold Ipv6Header_bytes;
    cbn [ip6_vtc_fl ip6_payload_len ip6_next_header ip6_hop_limit ip6_src_addr ip6_dst_addr] in *.
  pose proof (from_to_le_bytes_id 4 v Hv) as Fv.
  pose proof (from_to_le_bytes_id 2 l Hl) as Fl.
  pose proof (length_to_le_bytes 4 v). pose proof (length_to_le_bytes 2 l).
  destruct (to_le_bytes 4 v) as [|? [|? [|? [|? []]]]]; try discriminate.
  destruct (to_le_bytes 2 l) as [|? [|? []]]; try discriminate.
  repeat (destruct s as [|? s]; try discriminate Hs).
  repeat (destruct d as [|? d]; try discriminate Hd).
  split; [done|]. unfold Ipv6Header_of, slice; simpl.
  by rewrite Fl, Fv, !from_le_bytes_single.
Qed.

Lemma be2_split z : in_width 16 z →
  ∃ a b, to_be_bytes 2 z = [a; b] ∧ from_be_bytes [a; b] = z.
Proof.
  intros Hz. pose proof (from_to_be_bytes_id 2 z Hz) as H.
  pose proof (length_to_be_bytes 2 z). destruct (to_be_bytes 2 z) as [|a [|b []]]; try done. eauto.
Qed.

Lemma is_vlan_width t : is_vlan t = true → in_width 16 t.
Proof.
  unfold is_vlan, ETH_P_8021Q, ETH_P_8021AD, in_width.
  intros [?|?]%orb_true_iff; bool_Z; lia.
Qed.

(** The loop strips exactly the tags that are there, up to its two rounds. *)
Lemma vlan_loop_tags tags : ∀ n pre et l3 data,
  data = pre ++ mjoin (vlan_bytes <$> tags) ++ to_be_bytes 2 et ++ l3 →
  (length tags <= n)%nat → Forall (λ t, is_vlan t.1 = true) tags →
  in_width 16 et → is_vlan et = false → len data < 2 ^ 63 →
  vlan_loop n data (default et (fst <$> head tags)) (len pre + 2)
  = Ok (et, len pre + 2 + 4 * len tags).
Proof.
  induction tags as [|[tpid tci] tags IH]; intros n pre et l3 data Hd Hn Ht Het Hnv Hlen.
  { simpl. destruct n; cbn [vlan_loop]; [|fold (is_vlan et); rewrite Hnv]; osimpl;
      by rewrite Z.add_0_r. }
  destruct n as [|n]; [simpl in Hn; lia|]. inversion_clear Ht as [|?? Hv Ht'].
  assert (Hnext : in_width 16 (default et (fst <$> head tags))).
  { destruct tags as [|t' ?]; [done|]. inversion_clear Ht'. by apply is_vlan_width. }
  destruct (be2_split _ Hnext) as (a & b & Eab & Fab).
  assert (∃ post, mjoin (vlan_bytes <$> tags) ++ to_be_bytes 2 et ++ l3 = [a; b] ++ post)
    as [post Hpost'].
  { destruct tags as [|t' tags']; cbn [head fmap option_fmap option_map default id] in Eab.
    - cbn [fmap list_fmap mjoin list_join app]. rewrite Eab. by eexists.
    - cbn [fmap list_fmap mjoin list_join]. unfold vlan_bytes at 1. rewrite Eab. by eexists. }
  assert (Hpost : data = pre ++ vlan_bytes (tpid, tci) ++ [a; b] ++ post).
  { rewrite Hd, <-Hpost'. cbn [fmap list_fmap mjoin list_join]. by rewrite <-!app_assoc. }
  assert (Hpl : length (vlan_bytes (tpid, tci)) = 4%nat).
  { unfold vlan_bytes. by rewrite length_app, !length_to_be_bytes. }
  cbn [head vlan_loop fmap option_fmap option_map default id fst].
  cbn [fst] in Hv. fold (is_vlan tpid). rewrite Hv.
  assert (Hl : len data = len pre + 6 + len post).
  { subst data. rewrite Hpost. unfold len. rewrite !length_app, Hpl. simpl. lia. }
  rewrite check_bounds_spec by (unfold len in *; lia).
  destruct (Z.leb_spec (len pre + 2 + 4) (len data)); [|unfold len in *; lia].
  assert (idx (E := unit) data (len pre + 2 + 2) = Ok a) as ->.
  { rewrite Hpost, (app_assoc pre). apply idx_app_mid.
    unfold len. rewrite length_app, Hpl. lia. }
  assert (idx (E := unit) data (len pre + 2 + 3) = Ok b) as ->.
  { replace data with ((pre ++ vlan_bytes (tpid, tci) ++ [a]) ++ b :: post)
      by (rewrite Hpost; by rewrite <-!app_assoc).
    apply idx_app_mid. unfold len. rewrite !length_app, Hpl. simpl. lia. }
  osimpl. rewrite Fab.
  assert (len (pre ++ vlan_bytes (tpid, tci)) = len pre + 4) as Hpre'.
  { unfold len. rewrite length_app, Hpl. lia. }
  replace (len pre + 2 + 4) with (len (pre ++ vlan_bytes (tpid, tci)) + 2) by lia.
  rewrite (IH n (pre ++ vlan_bytes (tpid, tci)) et l3 data); try done.
  - rewrite Hpre'. do 2 f_equal. unfold len. simpl length. lia.
  - subst data. simpl. by rewrite <-!app_assoc.
  - simpl in Hn. lia.
Qed.

Definition frame_ok (dst src : list Z) (tags : list (Z * Z)) (et : Z) : Prop :=
  bytes_ok 6 dst ∧ bytes_ok 6 src ∧ Forall (λ t, is_vlan t.1 = true) tags ∧
  in_width 16 et ∧ is_vlan et = false.

#[global] Instance frame_ok_dec dst src tags et : Decision (frame_ok dst src tags et).
Proof. unfold frame_ok. apply _. Defined.

(** The VLAN loop on a whole frame, for [n] rounds. *)
Lemma parse_frame_start n dst src tags et l3 :
  frame_ok dst src tags et → (length tags <= n)%nat →
  let data := eth_frame dst src tags et l3 in
  len data < 2 ^ 63 →
  read_at (E := unit) data 0 14 = Ok (slice data 0 14) ∧
  from_be 2 (eth_ether_type (EthernetHeader_of (slice data 0 14)))
    = default et (fst <$> head tags) ∧
  vlan_loop n data (default et (fst <$> head tags)) 14 = Ok (et, 14 + 4 * len tags) ∧
  14 + 4 * len tags + len l3 = len data ∧
  (∃ pre, data = pre ++ l3 ∧ len pre = 14 + 4 * len tags).
Proof.
  intros ([Hdl _] & [Hsl _] & Ht & Het & Hnv) Hn data Hlen.
  assert (Hw : in_width 16 (default et (fst <$> head tags))).
  { destruct tags as [|t' ?]; [done|]. inversion_clear Ht. by apply is_vlan_width. }
  assert (Hmac : len (dst ++ src) = 12) by (unfold len; rewrite length_app; lia).
  assert (∃ post, mjoin (vlan_bytes <$> tags) ++ to_be_bytes 2 et ++ l3 =
            to_be_bytes 2 (default et (fst <$> head tags)) ++ post) as [post Hpost].
  { destruct tags as [|t' tags']; cbn [head fmap option_fmap option_map default id].
    - by eexists.
    - cbn [fmap list_fmap mjoin list_join]. unfold vlan_bytes at 1.
      rewrite <-!app_assoc. by eexists. }
  assert (Hmj : len (mjoin (vlan_bytes <$> tags)) = 4 * len tags).
  { unfold len. clear. induction tags as [|t tags IH]; [done|].
    change (mjoin (vlan_bytes <$> t :: tags)) with (vlan_bytes t ++ mjoin (vlan_bytes <$> tags)).
    rewrite length_app, length_cons.
    unfold vlan_bytes at 1. rewrite length_app, !length_to_be_bytes. lia. }
  assert (Htot : 14 + 4 * len tags + len l3 = len data).
  { unfold data, eth_frame. unfold len in *. rewrite !length_app in *.
    rewrite length_to_be_bytes. lia. }
  assert (Hdata : data = (dst ++ src) ++ mjoin (vlan_bytes <$> tags) ++ to_be_bytes 2 et ++ l3)
    by (unfold data, eth_frame; by rewrite <-!app_assoc).
  split_and!.
  - apply read_at_ok; unfold len in *; lia.
  - assert (slice data 0 14 = (dst ++ src) ++ to_be_bytes 2 (default et (fst <$> head tags)))
      as ->.
    { rewrite Hdata, Hpost, app_assoc. apply slice_app_head.
      unfold len in *. rewrite length_app, length_to_be_bytes. lia. }
    unfold EthernetHeader_of; cbn [eth_ether_type].
    rewrite slice_app_tail by (unfold len in *; rewrite ?length_to_be_bytes; lia).
    rewrite <-(length_to_be_bytes 2 (default et (fst <$> head tags))) at 1.
    rewrite from_be_le_load by apply to_be_bytes_ok. by apply from_to_be_bytes_id.
  - replace 14 with (len (dst ++ src) + 2) by lia. by eapply vlan_loop_tags.
  - done.
  - exists ((dst ++ src) ++ mjoin (vlan_bytes <$> tags) ++ to_be_bytes 2 et).
    split; [rewrite Hdata; by rewrite <-!app_assoc|].
    unfold len in *. rewrite !length_app in *. rewrite length_to_be_bytes. lia.
Qed.

Lemma parse_ethernet_frame dst src tags et l3 :
  frame_ok dst src tags et → (length tags <= 2)%nat →
  len (eth_frame dst src tags et l3) < 2 ^ 63 →
  ∃ hdr, parse_ethernet (eth_frame dst src tags et l3) = Ok (hdr, 14 + 4 * len tags, et).
Proof.
  intros Hf Hn Hlen.
  destruct (parse_frame_start 2 dst src tags et l3 Hf Hn Hlen) as (Hr & Ht & Hv & Hl & _).
  unfold parse_ethernet, ETH_HDR_LEN. rewrite check_bounds_spec by lia.
  destruct (Z.leb_spec (0 + 14) (len (eth_frame dst src tags et l3))); [|unfold len in *; lia].
  osimpl. rewrite Hr. osimpl. rewrite Ht, Hv. osimpl. eauto.
Qed.

Lemma parse_ipv4_at pre h opts l4 :
  Ipv4Header_ok h → Z.shiftr (ip4_vhl h) 4 = 4 →
  Z.land (ip4_vhl h) 15 * 4 = 20 + len opts →
  len (pre ++ Ipv4Header_bytes h ++ opts ++ l4) < 2 ^ 63 →
  parse_ipv4 (pre ++ Ipv4Header_bytes h ++ opts ++ l4) (len pre)
  = Ok (h, len pre + 20 + len opts).
Proof.
  intros Hh Hv Hihl Hlen. destruct (Ipv4Header_roundtrip h Hh) as [Hl Hr].
  set (data := pre ++ _) in *.
  assert (len data = len pre + 20 + len opts + len l4) as Hd.
  { unfold data, len. rewrite !length_app, Hl. lia. }
  unfold parse_ipv4, IPV4_MIN_HDR_LEN. rewrite check_bounds_spec by (unfold len in *; lia).
  destruct (Z.leb_spec (len pre + 20) (len data)); [|unfold len in *; lia].
  osimpl. assert (read_at (E := unit) data (len pre) 20 = Ok (Ipv4Header_bytes h)) as ->
    by (apply read_at_app_mid; [done|by rewrite Hl]).
  osimpl. rewrite Hr, Hv, Hihl. cbn [Z.eqb negb Pos.eqb].
  destruct (Z.ltb_spec (20 + len opts) 20); [unfold len in *; lia|].
  rewrite check_bounds_spec by (unfold len in *; lia).
  destruct (Z.leb_spec (len pre + (20 + len opts)) (len data)); [|unfold len in *; lia].
  osimpl. do 2 f_equal. lia.
Qed.

Lemma parse_ipv6_at pre h l4 :
  Ipv6Header_ok h → Z.shiftr (from_be 4 (ip6_vtc_fl h)) 28 = 6 →
  len (pre ++ Ipv6Header_bytes h ++ l4) < 2 ^ 63 →
  parse_ipv6 (pre ++ Ipv6Header_bytes h ++ l4) (len pre) = Ok (h, len pre + 40).
Proof.
  intros Hh Hv Hlen. destruct (Ipv6Header_roundtrip h Hh) as [Hl Hr].
  set (data := pre ++ _) in *.
  assert (len data = len pre + 40 + len l4) as Hd.
  { unfold data, len. rewrite !length_app, Hl. lia. }
  unfold parse_ipv6, IPV6_HDR_LEN. rewrite check_bounds_spec by (unfold len in *; lia).
  destruct (Z.leb_spec (len pre + 40) (len data)); [|unfold len in *; lia].
  osimpl. assert (read_at (E := unit) data (len pre) 40 = Ok (Ipv6Header_bytes h)) as ->
    by (apply read_at_app_mid; [done|by rewrite Hl]).
  osimpl. by rewrite Hr, Hv.
Qed.

Lemma extract_ports_at pre l4 proto :
  Forall byte_ok l4 → len (pre ++ l4) < 2 ^ 63 →
  extract_transport_ports (pre ++ l4) (len pre) proto = Ok (l4_ports proto l4).
Proof.
  intros Hb Hlen. unfold extract_transport_ports, l4_ports.
  destruct (_ || _); osimpl; [|done].
  assert (len (pre ++ l4) = len pre + len l4) as Hl by (unfold len; rewrite length_app; lia).
  rewrite check_bounds_spec by (unfold len in *; lia). rewrite Hl.
  destruct (Z.leb_spec 4 (len l4)) as [H4|], (Z.leb_spec (len pre + 4) (len pre + len l4));
    try lia; [|done].
  destruct l4 as [|a [|b [|c [|d l4]]]]; try (unfold len in H4; simpl in H4; lia).
  change (a :: b :: c :: d :: l4) with ([a; b; c; d] ++ l4).
  rewrite read_at_app_mid by done. osimpl.
  unfold TransportPorts_of, slice; simpl.
  inversion_clear Hb as [|?? Ha Hb1]. inversion_clear Hb1 as [|?? Hb' Hb2].
  inversion_clear Hb2 as [|?? Hc Hb3]. inversion_clear Hb3 as [|?? Hd _].
  assert (Forall byte_ok [a; b]) as H1 by (by rewrite !Forall_cons, Forall_nil).
  assert (Forall byte_ok [c; d]) as H2 by (by rewrite !Forall_cons, Forall_nil).
  apply from_be_le_load in H1, H2. simpl in H1, H2. by rewrite H1, H2.
Qed.

(** What the Ethernet layer hands to the IP parsers. *)
Lemma classify_frame_l3 dst src tags et l3 :
  frame_ok dst src tags et → (length tags <= 2)%nat →
  len (eth_frame dst src tags et l3) < 2 ^ 63 →
  ∃ hdr pre, eth_frame dst src tags et l3 = pre ++ l3 ∧ len pre = 14 + 4 * len tags ∧
    parse_ethernet (pre ++ l3) = Ok (hdr, len pre, et).
Proof.
  intros Hf Hn Hlen. destruct (parse_ethernet_frame _ _ _ _ _ Hf Hn Hlen) as [eth He].
  destruct (parse_frame_start 2 _ _ _ _ _ Hf Hn Hlen) as (_ & _ & _ & _ & pre & Hd & Hp).
  exists eth, pre. split_and!; [done..|]. by rewrite <-Hd, Hp.
Qed.

Lemma classify_ipv4_at pre eth h opts l4 :
  parse_ethernet (pre ++ Ipv4Header_bytes h ++ opts ++ l4) = Ok (eth, len pre, ETH_P_IP) →
  Ipv4Header_ok h → Z.shiftr (ip4_vhl h) 4 = 4 →
  Z.land (ip4_vhl h) 15 * 4 = 20 + len opts → Forall byte_ok l4 →
  let data := pre ++ Ipv4Header_bytes h ++ opts ++ l4 in
  len data < 2 ^ 63 →
  classify_packet data =
    Ok (mkParsed 4 (pad16 (ip4_src_addr h)) (pad16 (ip4_dst_addr h)) (ip4_protocol h)
          (l4_ports (ip4_protocol h) l4).1 (l4_ports (ip4_protocol h) l4).2
          (len data) (len pre + 20 + len opts)).
Proof.
  intros Heth Hh Hv Hihl Hb data Hlen. unfold classify_packet, data.
  rewrite Heth. osimpl. rewrite Z.eqb_refl, parse_ipv4_at by done. osimpl.
  pose proof (extract_ports_at (pre ++ Ipv4Header_bytes h ++ opts) l4 (ip4_protocol h) Hb) as He.
  destruct (Ipv4Header_roundtrip h Hh) as [Hl _].
  assert (len (pre ++ Ipv4Header_bytes h ++ opts) = len pre + 20 + len opts) as Hlp.
  { unfold len. rewrite !length_app, Hl. lia. }
  rewrite <-!app_assoc, Hlp in He. rewrite He by done. osimpl.
  by destruct (l4_ports _ _) as [sp dp].
Qed.

Lemma classify_ipv6_at pre eth h l4 :
  parse_ethernet (pre ++ Ipv6Header_bytes h ++ l4) = Ok (eth, len pre, ETH_P_IPV6) →
  Ipv6Header_ok h → Z.shiftr (from_be 4 (ip6_vtc_fl h)) 28 = 6 → Forall byte_ok l4 →
  let data := pre ++ Ipv6Header_bytes h ++ l4 in
  len data < 2 ^ 63 →
  classify_packet data =
    Ok (mkParsed 6 (ip6_src_addr h) (ip6_dst_addr h) (ip6_next_header h)
          (l4_ports (ip6_next_header h) l4).1 (l4_ports (ip6_next_header h) l4).2
          (len data) (len pre + 40)).
Proof.
  intros Heth Hh Hv Hb data Hlen. unfold classify_packet, data.
  rewrite Heth. osimpl. cbn [Z.eqb ETH_P_IP ETH_P_IPV6 Pos.eqb].
  rewrite parse_ipv6_at by done. osimpl.
  pose proof (extract_ports_at (pre ++ Ipv6Header_bytes h) l4 (ip6_next_header h) Hb) as He.
  destruct (Ipv6Header_roundtrip h Hh) as [Hl _].
  assert (len (pre ++ Ipv6Header_bytes h) = len pre + 40) as Hlp.
  { unfold len. rewrite !length_app, Hl. lia. }
  rewrite <-!app_assoc, Hlp in He. rewrite He by done. osimpl.
  by destruct (l4_ports _ _) as [sp dp].
Qed.

(** C18 (round trip). A frame built with any two MAC addresses, at most two
    802.1Q/802.1ad tags, an IPv4 header with [opts] bytes of options and a
    layer-4 segment is classified as exactly what was built: version,
    addresses, protocol, the segment's TCP/UDP ports in host order (zero for
    other protocols and truncated segments), length and layer-4 offset. *)
Theorem classify_ipv4_frame dst src tags h opts l4 :
  frame_ok dst src tags ETH_P_IP → (length tags <= 2)%nat → Ipv4Header_ok h →
  Z.shiftr (ip4_vhl h) 4 = 4 → Z.land (ip4_vhl h) 15 * 4 = 20 + len opts →
  Forall byte_ok l4 →
  len (eth_frame dst src tags ETH_P_IP (Ipv4Header_bytes h ++ opts ++ l4)) < 2 ^ 63 →
  classify_packet (eth_frame dst src tags ETH_P_IP (Ipv4Header_bytes h ++ opts ++ l4)) =
    Ok (mkParsed 4 (pad16 (ip4_src_addr h)) (pad16 (ip4_dst_addr h)) (ip4_protocol h)
          (l4_ports (ip4_protocol h) l4).1 (l4_ports (ip4_protocol h) l4).2
          (len (eth_frame dst src tags ETH_P_IP (Ipv4Header_bytes h ++ opts ++ l4)))
          (34 + 4 * len tags + len opts)).
Proof.
  intros Hf Hn Hh Hv Hihl Hb Hlen.
  destruct (classify_frame_l3 _ _ _ _ _ Hf Hn Hlen) as (eth & pre & Hd & Hp & He).
  rewrite Hd in *. rewrite (classify_ipv4_at _ _ _ _ _ He) by done. do 2 f_equal. lia.
Qed.

(** The same for IPv6 frames. *)
Theorem classify_ipv6_frame dst src tags h l4 :
  frame_ok dst src tags ETH_P_IPV6 → (length tags <= 2)%nat → Ipv6Header_ok h →
  Z.shiftr (from_be 4 (ip6_vtc_fl h)) 28 = 6 → Forall byte_ok l4 →
  len (eth_frame dst src tags ETH_P_IPV6 (Ipv6Header_bytes h ++ l4)) < 2 ^ 63 →
  classify_packet (eth_frame dst src tags ETH_P_IPV6 (Ipv6Header_bytes h ++ l4)) =
    Ok (mkParsed 6 (ip6_src_addr h) (ip6_dst_addr h) (ip6_next_header h)
          (l4_ports (ip6_next_header h) l4).1 (l4_ports (ip6_next_header h) l4).2
          (len (eth_frame dst src tags ETH_P_IPV6 (Ipv6Header_bytes h ++ l4)))
          (54 + 4 * len tags)).
Proof.
  intros Hf Hn Hh Hv Hb Hlen.
  destruct (classify_frame_l3 _ _ _ _ _ Hf Hn Hlen) as (eth & pre & Hd & Hp & He).
  rewrite Hd in *. rewrite (classify_ipv6_at _ _ _ _ He) by done. do 2 f_equal. lia.
Qed.

(** C19 (safety). The classifier never reads outside the buffer and never
    panics, and what it accepts lies inside it: the layer-4 offset is at least
    34 and at most the length of the frame. *)
Theorem classify_packet_safe data :
  len data < 2 ^ 63 →
  is_fault (classify_packet data) = false ∧
  ∀ p, classify_packet data = Ok p →
    pp_packet_len p = len data ∧ 34 <= pp_l4_offset p <= len data ∧
    (pp_ip_version p = 4 ∨ pp_ip_version p = 6).
Proof.
  intros Hlen. pose proof (classify_packet_bounds data Hlen) as H.
  split; [by eapply outcome_sat_no_fault|]. intros p Hp. by rewrite Hp in H.
Qed.

(** A QinQ-tagged TCP segment from 45.33.32.156:4660 to 10.0.0.1:443, with four
    bytes of IPv4 options. *)
Definition demo_mac (b : Z) : list Z := [2; 0; 0; 0; 0; b].
Definition demo_ip4 : Ipv4Header :=
  mkIp4 0x46 0 0x2C00 0 0 64 PROTO_TCP 0 [45; 33; 32; 156] [10; 0; 0; 1].
Definition demo_ip6 : Ipv6Header :=
  mkIp6 0x60 0x0800 PROTO_UDP 64 (32 :: 1 :: 13 :: 184 :: replicate 12 9)
    (32 :: 1 :: 13 :: 184 :: replicate 12 7).

Lemma classify_ipv4_frame_witness :
  classify_packet (eth_frame (demo_mac 1) (demo_mac 2) [(0x88A8, 100); (0x8100, 5)] ETH_P_IP
      (Ipv4Header_bytes demo_ip4 ++ [1; 1; 1; 1] ++ [0x12; 0x34; 1; 0xBB; 0; 0]))
  = Ok (mkParsed 4 (pad16 [45; 33; 32; 156]) (pad16 [10; 0; 0; 1]) 6 4660 443 52 46).
Proof.
  rewrite classify_ipv4_frame; [vm_compute; reflexivity|by_decide..].
Defined.

Lemma classify_ipv6_frame_witness :
  classify_packet (eth_frame (demo_mac 1) (demo_mac 2) [] ETH_P_IPV6
      (Ipv6Header_bytes demo_ip6 ++ [0x12; 0x34; 0; 53]))
  = Ok (mkParsed 6 (ip6_src_addr demo_ip6) (ip6_dst_addr demo_ip6) 17 4660 53 58 54).
Proof.
  rewrite classify_ipv6_frame; [vm_compute; reflexivity|by_decide..].
Defined.

Lemma classify_packet_safe_witness : is_fault (classify_packet (replicate 14 0x81)) = false.
Proof. apply classify_packet_safe. done. Defined.
