(* ===== verification/Xdp.v ===== *)
(** * The XDP program ([firewall-ebpf/src/main.rs])

    The per-packet data path: bounds-checked pointer reads in the packet,
    exact-match and longest-prefix lookups, enforcement, statistics and
    telemetry. The kernel maps are the interfaces of [BpfMaps]; the packet is
    memory between two addresses, and a read outside it is a [Fault]. *)
From stdpp Require Import base numbers list gmap fin_maps strings sorting.
From Stdlib Require Import ZArith Lia.
From S2P Require Import Prelude Net Common BpfMaps Wire.

Local Open Scope Z_scope.

Definition XDP_DROP : Z := 1.
Definition XDP_PASS : Z := 2.

(** ** The invocation context *)
Record XdpContext : Type := mkCtx {
  ctx_data : Z;
  ctx_data_end : Z;
  ctx_bytes : list Z;          (* memory from [ctx_data] on *)
  ctx_ingress_ifindex : Z;
  ctx_ktime_ns : Z;            (* what [bpf_ktime_get_ns] returns *)
}.

(** The driver's promise: the packet's bytes lie between the two pointers, in
    the lower half of the address space. *)
Definition ctx_ok (ctx : XdpContext) : Prop :=
  0 <= ctx_data ctx ∧ ctx_data_end ctx = ctx_data ctx + len (ctx_bytes ctx) ∧
  ctx_data_end ctx < 2 ^ 63 ∧ Forall byte_ok (ctx_bytes ctx).

Definition ptr_at (ctx : XdpContext) (size offset : Z) : outcome unit Z :=
  if ctx_data_end ctx <? wrap_u64 (ctx_data ctx + offset + size) then Err ()
  else Ok (wrap_u64 (ctx_data ctx + offset)).

(** [read_unaligned(ptr)]: a load of [size] bytes. *)
Definition deref (ctx : XdpContext) (ptr size : Z) : outcome unit (list Z) :=
  read_at (ctx_bytes ctx) (ptr - ctx_data ctx) size.

Definition extract_ports (ctx : XdpContext) (l4_offset protocol : Z) : outcome unit (Z * Z) :=
  if (protocol =? PROTO_TCP) || (protocol =? PROTO_UDP) then
    match ptr_at ctx 4 l4_offset with
    | Ok ports_ptr =>
        b ← deref ctx ports_ptr 4;
        let ports := TransportPorts_of b in
        mret (from_be 2 (tp_src_port ports), from_be 2 (tp_dst_port ports))
    | Err _ => mret (0, 0)
    | Fault => Fault
    end
  else mret (0, 0).

(** The source indexes a [[u8; 4]] by constants, which cannot fail. *)
Definition octet (ip : list Z) (i : nat) : Z := nth i ip 0.

Definition is_github_ipv4 (ip : list Z) : bool :=
  let o := octet ip in
  ((o 0%nat =? 140) && (o 1%nat =? 82) && (Z.land (o 2%nat) 0xF0 =? 112)) ||
  ((o 0%nat =? 192) && (o 1%nat =? 30) && (Z.land (o 2%nat) 0xFC =? 252)) ||
  ((o 0%nat =? 185) && (o 1%nat =? 199) && (Z.land (o 2%nat) 0xFC =? 108)) ||
  ((o 0%nat =? 143) && (o 1%nat =? 55) && (Z.land (o 2%nat) 0xF0 =? 64)) ||
  ((o 0%nat =? 20) && (o 1%nat =? 201) && (o 2%nat =? 28) && (o 3%nat =? 151)) ||
  ((o 0%nat =? 20) && (o 1%nat =? 205) && (o 2%nat =? 243) && (o 3%nat =? 166)) ||
  ((o 0%nat =? 4) && (o 1%nat =? 237) && ((o 2%nat =? 22) || (o 2%nat =? 23))).

(** ** Statistics *)
Definition update_stats_entry (s : FirewallStats) (rx dropped_b : Z)
    (dropped ringbuf_emitted : bool) : FirewallStats :=
  mkStats
    (wrap_u64 (rx_packets s + 1))
    (wrap_u64 (rx_bytes s + rx))
    (if dropped then wrap_u64 (dropped_packets s + 1) else dropped_packets s)
    (if dropped then wrap_u64 (dropped_bytes s + dropped_b) else dropped_bytes s)
    (if dropped then accepted_packets s else wrap_u64 (accepted_packets s + 1))
    (if dropped then accepted_bytes s else wrap_u64 (accepted_bytes s + rx))
    (if ringbuf_emitted then wrap_u64 (ringbuf_events s + 1) else ringbuf_events s)
    (ringbuf_drops s).

(** [STATS.get_ptr_mut(0)] on the array map. *)
Definition update_stats (stats : list FirewallStats) (rx : Z) (dropped : bool)
    (dropped_b : Z) (ringbuf_emitted : bool) : list FirewallStats :=
  match stats !! 0%nat with
  | Some s => <[0%nat := update_stats_entry s rx dropped_b dropped ringbuf_emitted]> stats
  | None => stats
  end.

(** ** The program *)
Section Firewall.
Context {H4 H6 L4 L6 RB : Type}.
Context `{!BpfMap H4 (list Z) RuleValue} `{!HashGet H4 (list Z) RuleValue}.
Context `{!BpfMap H6 (list Z) RuleValue} `{!HashGet H6 (list Z) RuleValue}.
Context `{!BpfMap L4 (Z * list Z) RuleValue} `{!LpmGet 4 L4 RuleValue}.
Context `{!BpfMap L6 (Z * list Z) RuleValue} `{!LpmGet 16 L6 RuleValue}.
Context `{!RingBuffer RB}.

Record kernel : Type := mkKernel {
  IPV4_EXACT_MAP : H4;
  IPV6_EXACT_MAP : H6;
  IPV4_LPM_MAP : L4;
  IPV6_LPM_MAP : L6;
  EVENTS : RB;
  STATS : list FirewallStats;
}.

Definition set_stats (k : kernel) (s : list FirewallStats) : kernel :=
  mkKernel (IPV4_EXACT_MAP k) (IPV6_EXACT_MAP k) (IPV4_LPM_MAP k) (IPV6_LPM_MAP k)
    (EVENTS k) s.
Definition set_events (k : kernel) (r : RB) : kernel :=
  mkKernel (IPV4_EXACT_MAP k) (IPV6_EXACT_MAP k) (IPV4_LPM_MAP k) (IPV6_LPM_MAP k)
    r (STATS k).

(** The program's effects: a kernel state and the result of fallible code. *)
Definition xdp (A : Type) : Type := kernel → outcome unit A * kernel.
#[local] Instance xdp_ret : MRet xdp := λ A a k, (Ok a, k).
#[local] Instance xdp_bind : MBind xdp := λ A B f m k,
  match m k with
  | (Ok a, k') => f a k'
  | (Err e, k') => (Err e, k')
  | (Fault, k') => (Fault, k')
  end.
Definition lift {A} (m : outcome unit A) : xdp A := λ k, (m, k).
Definition gets {A} (f : kernel → A) : xdp A := λ k, (Ok (f k), k).
Definition bump_stats (rx : Z) (dropped : bool) (dropped_b : Z) (emitted : bool) : xdp unit :=
  λ k, (Ok (), set_stats k (update_stats (STATS k) rx dropped dropped_b emitted)).
(** [EVENTS.output(&event, 0).is_ok()]. *)
Definition events_output (e : PacketLogEvent) : xdp bool := λ k,
  match rb_output (EVENTS k) (event_to_bytes e) with
  | Some r => (Ok true, set_events k r)
  | None => (Ok false, k)
  end.

Definition process_ipv4 (ctx : XdpContext) (offset packet_len : Z) : xdp Z :=
  ip_ptr ← lift (ptr_at ctx 20 offset);
  b ← lift (deref ctx ip_ptr 20);
  let ip_hdr := Ipv4Header_of b in
  let ihl := Z.land (ip4_vhl ip_hdr) 0x0F * 4 in
  if ihl <? 20 then lift (Err ()) else
  let l4_offset := offset + ihl in
  if ctx_data_end ctx <? wrap_u64 (ctx_data ctx + l4_offset) then lift (Err ()) else
  let src_ip := ip4_src_addr ip_hdr in
  let dst_ip := ip4_dst_addr ip_hdr in
  let protocol := ip4_protocol ip_hdr in
  '(src_port, dst_port) ← lift (extract_ports ctx l4_offset protocol);
  if ((protocol =? PROTO_UDP) || (protocol =? PROTO_TCP)) && (src_port =? 53) then
    _ ← bump_stats packet_len false 0 false; mret XDP_PASS
  else if (protocol =? PROTO_TCP) && (src_port =? 443) && is_github_ipv4 src_ip then
    _ ← bump_stats packet_len false 0 false; mret XDP_PASS
  else
  '(matched_rule, match_type) ← gets (λ k,
    match hash_get (IPV4_EXACT_MAP k) src_ip with
    | Some rule => (Some rule, MATCH_EXACT_HASH)
    | None =>
        match lpm_get (n := 4) (IPV4_LPM_MAP k) (32, src_ip) with
        | Some rule => (Some rule, MATCH_LPM_TRIE)
        | None => (None, MATCH_NONE)
        end
    end);
  let accept := _ ← bump_stats packet_len false 0 false; mret XDP_PASS in
   match matched_rule with
   | Some rule =>
       if rv_action rule =? ACTION_DROP then
         let event :=
           mkEvent (ctx_ktime_ns ctx) (pad16 src_ip) (pad16 dst_ip) (rv_rule_id rule)
             packet_len (wrap_u32 (ctx_ingress_ifindex ctx)) src_port dst_port protocol
             4 ACTION_DROP match_type (replicate 4 0) in
         ringbuf_success ← events_output event;
         _ ← bump_stats packet_len true packet_len ringbuf_success;
         mret XDP_DROP
       else accept
   | None => accept
   end.

Definition process_ipv6 (ctx : XdpContext) (offset packet_len : Z) : xdp Z :=
  ip_ptr ← lift (ptr_at ctx 40 offset);
  b ← lift (deref ctx ip_ptr 40);
  let ip_hdr := Ipv6Header_of b in
  let l4_offset := offset + 40 in
  if ctx_data_end ctx <? wrap_u64 (ctx_data ctx + l4_offset) then lift (Err ()) else
  let src_ip := ip6_src_addr ip_hdr in
  let dst_ip := ip6_dst_addr ip_hdr in
  let protocol := ip6_next_header ip_hdr in
  '(src_port, dst_port) ← lift (extract_ports ctx l4_offset protocol);
  '(matched_rule, match_type) ← gets (λ k,
    match hash_get (IPV6_EXACT_MAP k) src_ip with
    | Some rule => (Some rule, MATCH_EXACT_HASH)
    | None =>
        match lpm_get (n := 16) (IPV6_LPM_MAP k) (128, src_ip) with
        | Some rule => (Some rule, MATCH_LPM_TRIE)
        | None => (None, MATCH_NONE)
        end
    end);
  let accept := _ ← bump_stats packet_len false 0 false; mret XDP_PASS in
   match matched_rule with
   | Some rule =>
       if rv_action rule =? ACTION_DROP then
         let event :=
           mkEvent (ctx_ktime_ns ctx) src_ip dst_ip (rv_rule_id rule)
             packet_len (wrap_u32 (ctx_ingress_ifindex ctx)) src_port dst_port protocol
             6 ACTION_DROP match_type (replicate 4 0) in
         ringbuf_success ← events_output event;
         _ ← bump_stats packet_len true packet_len ringbuf_success;
         mret XDP_DROP
       else accept
   | None => accept
   end.

Definition try_firewall (ctx : XdpContext) : xdp Z :=
  let packet_len := wrap_u32 (ctx_data_end ctx - ctx_data ctx) in
  eth_ptr ← lift (ptr_at ctx 14 0);
  b ← lift (deref ctx eth_ptr 14);
  let ether_type := from_be 2 (eth_ether_type (EthernetHeader_of b)) in
  '(ether_type, offset) ←
    (if (ether_type =? ETH_P_8021Q) || (ether_type =? ETH_P_8021AD) then
       vlan_ptr ← lift (ptr_at ctx 4 ETH_HDR_LEN);
       v ← lift (deref ctx vlan_ptr 4);
       mret (from_be_bytes [octet v 2; octet v 3], ETH_HDR_LEN + 4)
     else mret (ether_type, ETH_HDR_LEN));
  if ether_type =? ETH_P_IP then process_ipv4 ctx offset packet_len
  else if ether_type =? ETH_P_IPV6 then process_ipv6 ctx offset packet_len
  else _ ← bump_stats packet_len false 0 false; mret XDP_PASS.

Definition firewall (ctx : XdpContext) : xdp Z := λ k,
  match try_firewall ctx k with
  | (Err _, k') => (Ok XDP_PASS, k')
  | r => r
  end.

(** ** Reference policy, on classified packets and abstract map contents *)

Definition src_key (p : ParsedPacket) : list Z :=
  if pp_ip_version p =? 4 then take 4 (pp_src_ip p) else pp_src_ip p.

(** Exact rules take precedence over CIDR rules; among CIDR rules the longest
    prefix wins. *)
Definition lookup_rule (k : kernel) (p : ParsedPacket) : option (RuleValue * Z) :=
  let exact := if pp_ip_version p =? 4
    then bm_contents (IPV4_EXACT_MAP k) !! src_key p
    else bm_contents (IPV6_EXACT_MAP k) !! src_key p in
  let lpm := if pp_ip_version p =? 4
    then lpm_lookup 4 (bm_contents (IPV4_LPM_MAP k)) (src_key p)
    else lpm_lookup 16 (bm_contents (IPV6_LPM_MAP k)) (src_key p) in
  match exact, lpm with
  | Some r, _ => Some (r, MATCH_EXACT_HASH)
  | None, Some r => Some (r, MATCH_LPM_TRIE)
  | None, None => None
  end.

(** Management traffic that reputation rules never drop (IPv4 only). *)
Definition bypass (p : ParsedPacket) : bool :=
  (pp_ip_version p =? 4) &&
  ((((pp_protocol p =? PROTO_UDP) || (pp_protocol p =? PROTO_TCP)) && (pp_src_port p =? 53)) ||
   ((pp_protocol p =? PROTO_TCP) && (pp_src_port p =? 443) && is_github_ipv4 (src_key p))).

(** The rule that drops the packet, if one does. *)
Definition drop_rule (k : kernel) (p : ParsedPacket) : option (RuleValue * Z) :=
  if bypass p then None else
  match lookup_rule k p with
  | Some (r, mt) => if rv_action r =? ACTION_DROP then Some (r, mt) else None
  | None => None
  end.

Definition drop_event (ctx : XdpContext) (p : ParsedPacket) (r : RuleValue) (mt : Z)
    : PacketLogEvent :=
  mkEvent (ctx_ktime_ns ctx) (pp_src_ip p) (pp_dst_ip p) (rv_rule_id r)
    (wrap_u32 (pp_packet_len p)) (wrap_u32 (ctx_ingress_ifindex ctx))
    (pp_src_port p) (pp_dst_port p) (pp_protocol p) (pp_ip_version p)
    ACTION_DROP mt (replicate 4 0).

(** What enforcing the policy on one packet does to the kernel's state. *)
Definition enforce (ctx : XdpContext) (p : ParsedPacket) (k : kernel) : Z * kernel :=
  let n := wrap_u32 (pp_packet_len p) in
  match drop_rule k p with
  | Some (r, mt) =>
      match rb_output (EVENTS k) (event_to_bytes (drop_event ctx p r mt)) with
      | Some ev => (XDP_DROP, set_stats (set_events k ev) (update_stats (STATS k) n true n true))
      | None => (XDP_DROP, set_stats k (update_stats (STATS k) n true n false))
      end
  | None => (XDP_PASS, set_stats k (update_stats (STATS k) n false 0 false))
  end.

(** ** Reference reading of a frame, byte by byte: at most one VLAN tag is looked
    behind, the IP version field is not looked at. *)
Inductive frame : Type :=
(** A header the frame has no room for, or an IPv4 header length below twenty. *)
| Malformed
| NonIp
| IpPacket (p : ParsedPacket).

Definition byte_at (data : list Z) (off : Z) : Z := from_be_bytes (slice data off 1).
Definition be16_at (data : list Z) (off : Z) : Z := from_be_bytes (slice data off 2).

Definition ipv4_view (data : list Z) (off : Z) : frame :=
  let l4 := off + 4 * (byte_at data off mod 16) in
  if (off + 20 <=? len data) && (off + 20 <=? l4) && (l4 <=? len data) then
    let proto := byte_at data (off + 9) in
    let ports := l4_ports proto (drop (Z.to_nat l4) data) in
    IpPacket (mkParsed 4 (pad16 (slice data (off + 12) 4)) (pad16 (slice data (off + 16) 4))
      proto ports.1 ports.2 (len data) l4)
  else Malformed.
Definition ipv6_view (data : list Z) (off : Z) : frame :=
  let l4 := off + 40 in
  if l4 <=? len data then
    let proto := byte_at data (off + 6) in
    let ports := l4_ports proto (drop (Z.to_nat l4) data) in
    IpPacket (mkParsed 6 (slice data (off + 8) 16) (slice data (off + 24) 16)
      proto ports.1 ports.2 (len data) l4)
  else Malformed.
Definition network_view (data : list Z) (et off : Z) : frame :=
  if et =? ETH_P_IP then ipv4_view data off
  else if et =? ETH_P_IPV6 then ipv6_view data off
  else NonIp.
Definition frame_view (data : list Z) : frame :=
  if len data <? 14 then Malformed
  else if is_vlan (be16_at data 12) then
    if len data <? 18 then Malformed else network_view data (be16_at data 16) 18
  else network_view data (be16_at data 12) 14.

Definition ctx_packet_len (ctx : XdpContext) : Z := wrap_u32 (ctx_data_end ctx - ctx_data ctx).

(** What the program is to do with any frame: a malformed one passes uncounted, one
    that is not IP passes and is counted. *)
Definition enforce_frame (ctx : XdpContext) (k : kernel) : Z * kernel :=
  match frame_view (ctx_bytes ctx) with
  | Malformed => (XDP_PASS, k)
  | NonIp => (XDP_PASS, set_stats k (update_stats (STATS k) (ctx_packet_len ctx) false 0 false))
  | IpPacket p => enforce ctx p k
  end.

(** At most one VLAN tag in front of the network layer. *)
Definition one_tag (data : list Z) : bool :=
  match parse_ethernet data with Ok (_, off, _) => off <=? 18 | _ => false end.

(** ** Pointer arithmetic *)

Lemma ptr_at_spec ctx size off :
  ctx_ok ctx → 0 <= off → 0 <= size → ctx_data ctx + off + size < 2 ^ 64 →
  ptr_at ctx size off =
    if off + size <=? len (ctx_bytes ctx) then Ok (ctx_data ctx + off) else Err ().
Proof.
  intros (Hd & He & Hm & _) Ho Hs Hlt. unfold ptr_at, wrap.
  pose proof (len_nonneg (ctx_bytes ctx)).
  rewrite !Z.mod_small by lia.
  destruct (Z.ltb_spec (ctx_data_end ctx) (ctx_data ctx + off + size)),
    (Z.leb_spec (off + size) (len (ctx_bytes ctx))); try lia; done.
Qed.

Lemma deref_spec ctx off size :
  deref ctx (ctx_data ctx + off) size = read_at (ctx_bytes ctx) off size.
Proof. unfold deref. f_equal. lia. Qed.

Lemma ctx_len ctx : ctx_ok ctx → len (ctx_bytes ctx) < 2 ^ 63.
Proof. intros (? & ? & ? & _). lia. Qed.

(** Runs one bounds-checked load of the program. *)
Lemma load_ok {A} ctx off size (f : list Z → xdp A) k :
  ctx_ok ctx → 0 <= off → 0 <= size → off + size <= len (ctx_bytes ctx) →
  (ptr ← lift (ptr_at ctx size off); b ← lift (deref ctx ptr size); f b) k
  = f (slice (ctx_bytes ctx) off size) k.
Proof.
  intros Hc Ho Hs Hle. pose proof Hc as (? & ? & ? & _).
  unfold mbind, xdp_bind, lift. rewrite ptr_at_spec by (done || lia).
  rewrite (proj2 (Z.leb_le _ _) Hle), deref_spec.
  by rewrite read_at_ok by (unfold len in *; lia).
Qed.

Lemma load_err {A} ctx off size (f : list Z → xdp A) k :
  ctx_ok ctx → 0 <= off → 0 <= size → ctx_data ctx + off + size < 2 ^ 64 →
  len (ctx_bytes ctx) < off + size →
  (ptr ← lift (ptr_at ctx size off); b ← lift (deref ctx ptr size); f b) k = (Err (), k).
Proof.
  intros Hc Ho Hs Hlt Hle. unfold mbind, xdp_bind, lift. rewrite ptr_at_spec by (done || lia).
  by rewrite (proj2 (Z.leb_gt _ _) Hle).
Qed.

(** ** Fields of the headers are bytes of the frame *)
Lemma slice_slice (data : list Z) off n a m :
  0 <= off → 0 <= a → 0 <= m → a + m <= n → off + n <= len data →
  slice (slice data off n) a m = slice data (off + a) m.
Proof.
  intros. unfold slice. rewrite skipn_firstn_comm, drop_drop, take_take. f_equal; [lia|].
  f_equal. lia.
Qed.

Lemma from_le_byte b off :
  Forall byte_ok b → 0 <= off → off + 1 <= len b → from_le_bytes (slice b off 1) = byte_at b off.
Proof.
  intros Hb Ho Hl. unfold byte_at. destruct (slice_ok b off 1 Hb Ho ltac:(lia) Hl) as [Hlen _].
  destruct (slice b off 1) as [|x [|]]; try done.
Qed.

Lemma land_15 b : Z.land b 15 * 4 = 4 * (b mod 16).
Proof. change 15 with (Z.ones 4). rewrite Z.land_ones by lia. change (2 ^ 4) with 16. lia. Qed.

Lemma ipv4_fields data off (h := Ipv4Header_of (slice data off 20)) :
  Forall byte_ok data → 0 <= off → off + 20 <= len data →
  ip4_vhl h = byte_at data off ∧ ip4_protocol h = byte_at data (off + 9) ∧
  ip4_src_addr h = slice data (off + 12) 4 ∧ ip4_dst_addr h = slice data (off + 16) 4.
Proof.
  intros Hb Ho Hl. destruct (slice_ok data off 20 Hb Ho ltac:(lia) Hl) as [Hlen Hs].
  subst h. cbn [Ipv4Header_of ip4_vhl ip4_protocol ip4_src_addr ip4_dst_addr].
  rewrite !from_le_byte by (done || (unfold len; lia)). unfold byte_at.
  rewrite !slice_slice by lia. by rewrite Z.add_0_r.
Qed.

Lemma ipv6_fields data off (h := Ipv6Header_of (slice data off 40)) :
  Forall byte_ok data → 0 <= off → off + 40 <= len data →
  ip6_next_header h = byte_at data (off + 6) ∧
  ip6_src_addr h = slice data (off + 8) 16 ∧ ip6_dst_addr h = slice data (off + 24) 16.
Proof.
  intros Hb Ho Hl. destruct (slice_ok data off 40 Hb Ho ltac:(lia) Hl) as [Hlen Hs].
  subst h. cbn [Ipv6Header_of ip6_next_header ip6_src_addr ip6_dst_addr].
  rewrite !from_le_byte by (done || (unfold len; lia)). unfold byte_at.
  by rewrite !slice_slice by lia.
Qed.

(** Both readers of the ports read the segment behind the header. *)
Lemma transport_ports_view data l4 proto :
  Forall byte_ok data → len data < 2 ^ 63 → 0 <= l4 <= len data →
  extract_transport_ports data l4 proto = Ok (l4_ports proto (drop (Z.to_nat l4) data)).
Proof.
  intros Hb Hlen Hl. pose proof (extract_ports_at (take (Z.to_nat l4) data) (drop (Z.to_nat l4) data) proto) as H.
  rewrite take_drop in H.
  assert (len (take (Z.to_nat l4) data) = l4) as Ht by (unfold len in *; rewrite length_take; lia).
  rewrite Ht in H. apply H; [by apply Forall_drop|done].
Qed.
Lemma extract_ports_view ctx l4 proto :
  ctx_ok ctx → 0 <= l4 <= len (ctx_bytes ctx) →
  extract_ports ctx l4 proto = Ok (l4_ports proto (drop (Z.to_nat l4) (ctx_bytes ctx))).
Proof.
  intros Hc Ho. pose proof Hc as (Hd & He & Hm & Hb).
  rewrite <-transport_ports_view by (done || lia).
  unfold extract_ports, extract_transport_ports. destruct (_ || _); [|done].
  rewrite ptr_at_spec, check_bounds_spec by (done || lia).
  destruct (l4 + 4 <=? _); [|done]. by rewrite deref_spec.
Qed.

(** ** Agreement with the reference reading and the policy *)

Lemma lift_bind {A B} (a : A) (f : A → xdp B) k : (lift (Ok a) ≫= f) k = f a k.
Proof. done. Qed.
Lemma gets_bind {A B} (g : kernel → A) (f : A → xdp B) k : (gets g ≫= f) k = f (g k) k.
Proof. done. Qed.

Definition run_enforce (ctx : XdpContext) (p : ParsedPacket) : xdp Z := λ k,
  let '(v, k') := enforce ctx p k in (Ok v, k').
(** The result of [try_firewall] on a frame; a malformed one is an [Err]. *)
Definition run_view (ctx : XdpContext) (f : frame) : xdp Z := λ k,
  match f with
  | Malformed => (Err (), k)
  | NonIp => (Ok XDP_PASS, set_stats k (update_stats (STATS k) (ctx_packet_len ctx) false 0 false))
  | IpPacket p => run_enforce ctx p k
  end.

Lemma process_ipv4_view ctx off k :
  ctx_ok ctx → 0 <= off <= 22 →
  process_ipv4 ctx off (ctx_packet_len ctx) k = run_view ctx (ipv4_view (ctx_bytes ctx) off) k.
Proof.
  intros Hc Ho. pose proof Hc as (Hd & He & Hm & Hb). pose proof (ctx_len ctx Hc).
  pose proof (len_nonneg (ctx_bytes ctx)). unfold ipv4_view. destruct (Z.leb_spec (off + 20) (len (ctx_bytes ctx))) as [Hle|]; cbn [andb].
  2: { unfold process_ipv4. apply load_err; done || lia. }
  unfold process_ipv4. rewrite load_ok by (done || lia). cbv zeta.
  destruct (ipv4_fields (ctx_bytes ctx) off Hb ltac:(lia) Hle) as (-> & -> & -> & ->). rewrite land_15.
  set (ihl := 4 * _). assert (0 <= ihl <= 60) as Hihl
    by (unfold ihl; pose proof (Z.mod_pos_bound (byte_at (ctx_bytes ctx) off) 16); lia).
  destruct (Z.ltb_spec ihl 20), (Z.leb_spec (off + 20) (off + ihl)); try lia; cbn [andb]; [done|].
  rewrite (wrap_small 64) by lia.
  destruct (Z.ltb_spec (ctx_data_end ctx) (ctx_data ctx + (off + ihl))),
    (Z.leb_spec (off + ihl) (len (ctx_bytes ctx))); try lia; [done|].
  rewrite extract_ports_view, lift_bind by (done || lia). destruct (l4_ports _ _) as [sp dp]. cbn [fst snd].
  pose proof (slice_ok (ctx_bytes ctx) (off + 12) 4 Hb ltac:(lia) ltac:(lia) ltac:(unfold len in *; lia)) as Hsrc.
  unfold run_view, run_enforce, enforce, drop_rule, bypass, lookup_rule, src_key, drop_event, ctx_packet_len.
  cbn [pp_ip_version pp_src_ip pp_dst_ip pp_protocol pp_src_port pp_dst_port pp_packet_len].
  cbn [Z.eqb Pos.eqb andb]. rewrite He, Z.add_simpl_l.
  assert (take 4 (pad16 (slice (ctx_bytes ctx) (off + 12) 4)) = slice (ctx_bytes ctx) (off + 12) 4) as ->.
  { unfold pad16. apply take_app_length'. by destruct Hsrc. }
  destruct (_ && (sp =? 53)); cbn [orb]; [done|].
  destruct (_ && is_github_ipv4 _); [done|].
  rewrite gets_bind, hash_get_spec.
  rewrite (lpm_get_spec (n := 4) _ _ Hsrc : lpm_get _ (32, _) = _).
  destruct (bm_contents _ !! _) as [r|].
  2: destruct (lpm_lookup 4 _ _) as [r|]; [|done].
  all: destruct (rv_action r =? ACTION_DROP); [|done].
  all: unfold mbind, xdp_bind, events_output; by destruct (rb_output _ _).
Qed.

Lemma process_ipv6_view ctx off k :
  ctx_ok ctx → 0 <= off <= 22 →
  process_ipv6 ctx off (ctx_packet_len ctx) k = run_view ctx (ipv6_view (ctx_bytes ctx) off) k.
Proof.
  intros Hc Ho. pose proof Hc as (Hd & He & Hm & Hb). pose proof (ctx_len ctx Hc).
  pose proof (len_nonneg (ctx_bytes ctx)). unfold ipv6_view. destruct (Z.leb_spec (off + 40) (len (ctx_bytes ctx))) as [Hle|].
  2: { unfold process_ipv6. apply load_err; done || lia. }
  unfold process_ipv6. rewrite load_ok by (done || lia). cbv zeta.
  destruct (ipv6_fields (ctx_bytes ctx) off Hb ltac:(lia) Hle) as (-> & -> & ->).
  rewrite (wrap_small 64) by lia.
  destruct (Z.ltb_spec (ctx_data_end ctx) (ctx_data ctx + (off + 40))); [lia|].
  rewrite extract_ports_view, lift_bind by (done || lia). destruct (l4_ports _ _) as [sp dp]. cbn [fst snd].
  pose proof (slice_ok (ctx_bytes ctx) (off + 8) 16 Hb ltac:(lia) ltac:(lia) ltac:(unfold len in *; lia)) as Hsrc.
  unfold run_view, run_enforce, enforce, drop_rule, bypass, lookup_rule, src_key, drop_event, ctx_packet_len.
  cbn [pp_ip_version pp_src_ip pp_dst_ip pp_protocol pp_src_port pp_dst_port pp_packet_len].
  cbn [Z.eqb Pos.eqb andb]. rewrite He, Z.add_simpl_l.
  rewrite gets_bind, hash_get_spec.
  rewrite (lpm_get_spec (n := 16) _ _ Hsrc : lpm_get _ (128, _) = _).
  destruct (bm_contents _ !! _) as [r|].
  2: destruct (lpm_lookup 16 _ _) as [r|]; [|done].
  all: destruct (rv_action r =? ACTION_DROP); [|done].
  all: unfold mbind, xdp_bind, events_output; by destruct (rb_output _ _).
Qed.

(** The dispatch on the ether type of the frame's network layer. *)
Definition dispatch (ctx : XdpContext) (et off : Z) : xdp Z :=
  let n := ctx_packet_len ctx in
  if et =? ETH_P_IP then process_ipv4 ctx off n
  else if et =? ETH_P_IPV6 then process_ipv6 ctx off n
  else _ ← bump_stats n false 0 false; mret XDP_PASS.

(** The ether type in the Ethernet header, and the one behind the first tag. *)
Definition outer_type (data : list Z) : Z :=
  from_be 2 (eth_ether_type (EthernetHeader_of (slice data 0 14))).
Definition tagged_type (data : list Z) : Z :=
  from_be_bytes [octet (slice data 14 4) 2; octet (slice data 14 4) 3].

Lemma try_firewall_dispatch ctx k :
  ctx_ok ctx → 14 <= len (ctx_bytes ctx) →
  try_firewall ctx k =
    if is_vlan (outer_type (ctx_bytes ctx)) then
      if 18 <=? len (ctx_bytes ctx)
      then dispatch ctx (tagged_type (ctx_bytes ctx)) 18 k else (Err (), k)
    else dispatch ctx (outer_type (ctx_bytes ctx)) 14 k.
Proof.
  intros Hc Hle. pose proof Hc as (Hd & He & Hm & Hb).
  unfold try_firewall. cbv zeta. rewrite load_ok by (done || lia).
  fold (outer_type (ctx_bytes ctx)). fold (is_vlan (outer_type (ctx_bytes ctx))).
  destruct (is_vlan _); [|done].
  unfold ETH_HDR_LEN. unfold mbind, xdp_bind at 1 2 3, lift.
  rewrite ptr_at_spec by (done || lia). change (14 + 4) with 18.
  destruct (Z.leb_spec 18 (len (ctx_bytes ctx))); [|done].
  rewrite deref_spec, read_at_ok by (unfold len in *; lia). done.
Qed.

Lemma octet_slice data off i b :
  data !! Z.to_nat (off + Z.of_nat i) = Some b → 0 <= off → (i < 4)%nat →
  octet (slice data off 4) i = b.
Proof.
  intros Hl Ho Hi. unfold octet, slice. apply nth_lookup_Some.
  rewrite lookup_take_lt by (simpl; lia). rewrite lookup_drop. rewrite <-Hl. f_equal. lia.
Qed.

Lemma parse_ethernet_inv data eth off et :
  len data < 2 ^ 63 → parse_ethernet data = Ok (eth, off, et) → off <= 18 →
  14 <= len data ∧
  if is_vlan (outer_type data)
  then 18 <= len data ∧ off = 18 ∧ et = tagged_type data
  else off = 14 ∧ et = outer_type data.
Proof.
  intros Hlen. unfold parse_ethernet, ETH_HDR_LEN. rewrite check_bounds_spec by lia.
  destruct (Z.leb_spec (0 + 14) (len data)); osimpl; [|done].
  rewrite read_at_ok by (unfold len in *; lia). osimpl. fold (outer_type data).
  cbn [vlan_loop]. fold (is_vlan (outer_type data)).
  destruct (is_vlan (outer_type data)).
  2: { osimpl. by intros [= <- <- <-] _. }
  rewrite check_bounds_spec by lia.
  destruct (Z.leb_spec (14 + 4) (len data)); osimpl; [|done].
  destruct (idx_ok (E := unit) data (14 + 2)) as (b2 & -> & Hb2); [unfold len in *; lia|].
  destruct (idx_ok (E := unit) data (14 + 3)) as (b3 & -> & Hb3); [unfold len in *; lia|].
  osimpl. fold (is_vlan (from_be_bytes [b2; b3])).
  assert (tagged_type data = from_be_bytes [b2; b3]) as ->.
  { unfold tagged_type. by rewrite (octet_slice data 14 2 b2), (octet_slice data 14 3 b3) by (done || lia). }
  destruct (is_vlan (from_be_bytes [b2; b3])).
  - rewrite check_bounds_spec by lia. destruct (Z.leb_spec (14 + 4 + 4) (len data)); osimpl; [|done].
    destruct (idx_ok (E := unit) data (14 + 4 + 2)) as (? & -> & _); [unfold len in *; lia|].
    destruct (idx_ok (E := unit) data (14 + 4 + 3)) as (? & -> & _); [unfold len in *; lia|].
    osimpl.
    intros [= <- <- <-] ?. lia.
  - osimpl. by intros [= <- <- <-] _.
Qed.

Lemma outer_type_view data : Forall byte_ok data → 14 <= len data → outer_type data = be16_at data 12.
Proof.
  intros Hb Hl. unfold outer_type, be16_at. cbn [EthernetHeader_of eth_ether_type].
  rewrite slice_slice, Z.add_0_l by lia.
  destruct (slice_ok data 12 2 Hb ltac:(lia) ltac:(lia) ltac:(unfold len in *; lia)) as [Hlen Hs].
  apply from_be_le_load in Hs. by rewrite Hlen in Hs.
Qed.
Lemma tagged_type_view data : Forall byte_ok data → 18 <= len data → tagged_type data = be16_at data 16.
Proof.
  intros Hb Hl. unfold tagged_type, be16_at.
  change (slice data 16 2) with (slice data (14 + 2) 2). rewrite <-(slice_slice data 14 4 2 2) by lia.
  destruct (slice_ok data 14 4 Hb ltac:(lia) ltac:(lia) ltac:(unfold len in *; lia)) as [Hlen _].
  destruct (slice data 14 4) as [|a [|b [|c [|d []]]]]; done.
Qed.

Lemma dispatch_view ctx et off k :
  ctx_ok ctx → 0 <= off <= 22 →
  dispatch ctx et off k = run_view ctx (network_view (ctx_bytes ctx) et off) k.
Proof.
  intros Hc Ho. unfold dispatch, network_view. destruct (et =? ETH_P_IP); [by apply process_ipv4_view|].
  destruct (et =? ETH_P_IPV6); [by apply process_ipv6_view|done].
Qed.

(** The program is the reference on every frame. *)
Lemma firewall_view ctx k :
  ctx_ok ctx → firewall ctx k = (Ok (enforce_frame ctx k).1, (enforce_frame ctx k).2).
Proof.
  intros Hc. pose proof Hc as (_ & _ & _ & Hb). pose proof (len_nonneg (ctx_bytes ctx)).
  assert (try_firewall ctx k = run_view ctx (frame_view (ctx_bytes ctx)) k) as Hrun.
  { unfold frame_view. destruct (Z.ltb_spec (len (ctx_bytes ctx)) 14).
    { unfold try_firewall. destruct Hc as (? & ? & ? & ?). by apply load_err; [|lia..]. }
    rewrite try_firewall_dispatch, outer_type_view by done.
    destruct (is_vlan _); [|by apply dispatch_view].
    destruct (Z.leb_spec 18 (len (ctx_bytes ctx))), (Z.ltb_spec (len (ctx_bytes ctx)) 18); try lia; [|done].
    rewrite tagged_type_view by done. by apply dispatch_view. }
  unfold firewall, enforce_frame. rewrite Hrun. destruct (frame_view _) as [| |p]; [done..|].
  cbn [run_view]. unfold run_enforce. by destruct (enforce ctx p k).
Qed.

(** What the classifying library reads behind at most one tag is what the reference
    reads. *)
Lemma ipv4_classified data off h l4 sp dp :
  Forall byte_ok data → len data < 2 ^ 63 → 0 <= off → parse_ipv4 data off = Ok (h, l4) →
  extract_transport_ports data l4 (ip4_protocol h) = Ok (sp, dp) →
  ipv4_view data off = IpPacket (mkParsed 4 (pad16 (ip4_src_addr h)) (pad16 (ip4_dst_addr h))
    (ip4_protocol h) sp dp (len data) l4).
Proof.
  intros Hb Hlen Ho Hp Hx. apply parse_ipv4_inv in Hp as (Hle & -> & Hihl & -> & Hl4); [|done..].
  destruct (ipv4_fields data off Hb Ho Hle) as (Hv & Hpr & Hs & Hd). rewrite Hv, land_15 in *.
  rewrite transport_ports_view in Hx by (done || lia). rewrite Hpr in *. injection Hx as Hx.
  unfold ipv4_view. rewrite (proj2 (Z.leb_le _ _) Hle), (proj2 (Z.leb_le _ _) Hl4).
  destruct (Z.leb_spec (off + 20) (off + 4 * (byte_at data off mod 16))); [|lia]. cbn [andb].
  by rewrite Hx, Hs, Hd.
Qed.
Lemma ipv6_classified data off h l4 sp dp :
  Forall byte_ok data → len data < 2 ^ 63 → 0 <= off → parse_ipv6 data off = Ok (h, l4) →
  extract_transport_ports data l4 (ip6_next_header h) = Ok (sp, dp) →
  ipv6_view data off = IpPacket (mkParsed 6 (ip6_src_addr h) (ip6_dst_addr h)
    (ip6_next_header h) sp dp (len data) l4).
Proof.
  intros Hb Hlen Ho Hp Hx. apply parse_ipv6_inv in Hp as (Hle & -> & ->); [|done..].
  destruct (ipv6_fields data off Hb Ho Hle) as (Hpr & Hs & Hd).
  rewrite transport_ports_view in Hx by (done || lia). rewrite Hpr in *. injection Hx as Hx.
  unfold ipv6_view. rewrite (proj2 (Z.leb_le _ _) Hle). by rewrite Hx, Hs, Hd.
Qed.

Lemma classify_view data p :
  Forall byte_ok data → len data < 2 ^ 63 → one_tag data = true → classify_packet data = Ok p →
  frame_view data = IpPacket p.
Proof.
  intros Hb Hlen Hone Hp. unfold one_tag in Hone.
  destruct (parse_ethernet data) as [[[eth off] et]| |] eqn:Heth; [|done..].
  bool_Z. destruct (parse_ethernet_inv _ _ _ _ Hlen Heth Hone) as [H14 Htag].
  assert (frame_view data = network_view data et off ∧ 0 <= off) as [-> Hoff].
  { unfold frame_view. rewrite (proj2 (Z.ltb_ge _ _) H14), <-outer_type_view by done.
    destruct (is_vlan _); [|by destruct Htag as [-> ->]]. destruct Htag as (H18 & -> & ->).
    by rewrite (proj2 (Z.ltb_ge _ _) H18), <-tagged_type_view. }
  unfold classify_packet in Hp. rewrite Heth in Hp. osimpl in Hp. unfold network_view.
  destruct (et =? ETH_P_IP); [|destruct (et =? ETH_P_IPV6); [|done]].
  all: apply outcome_bind_Ok in Hp as ([h l4] & Hh & Hp).
  all: apply outcome_bind_Ok in Hp as ([sp dp] & Hx & [= <-]).
  - by apply ipv4_classified.
  - by apply ipv6_classified.
Qed.

Lemma firewall_policy ctx p k :
  ctx_ok ctx → one_tag (ctx_bytes ctx) = true → classify_packet (ctx_bytes ctx) = Ok p →
  firewall ctx k = run_enforce ctx p k.
Proof.
  intros Hc Hone Hp. pose proof Hc as (_ & _ & _ & Hb). rewrite firewall_view by done.
  unfold enforce_frame. rewrite (classify_view _ p) by (done || by apply ctx_len).
  unfold run_enforce. by destruct (enforce ctx p k).
Qed.

(** ** Every frame has one of four effects *)
Inductive packet_effect (n : Z) (k : kernel) : Z → kernel → Prop :=
| eff_uncounted : packet_effect n k XDP_PASS k
| eff_accepted :
    packet_effect n k XDP_PASS (set_stats k (update_stats (STATS k) n false 0 false))
| eff_logged e r :
    rb_output (EVENTS k) (event_to_bytes e) = Some r →
    packet_effect n k XDP_DROP
      (set_stats (set_events k r) (update_stats (STATS k) n true n true))
| eff_unlogged e :
    rb_output (EVENTS k) (event_to_bytes e) = None →
    packet_effect n k XDP_DROP (set_stats k (update_stats (STATS k) n true n false)).

Lemma view_packet_len ctx p :
  ctx_ok ctx → frame_view (ctx_bytes ctx) = IpPacket p → wrap_u32 (pp_packet_len p) = ctx_packet_len ctx.
Proof.
  intros (_ & He & _) Hv. assert (pp_packet_len p = len (ctx_bytes ctx)) as ->.
  { revert Hv. unfold frame_view, network_view, ipv4_view, ipv6_view.
    repeat case_match; try done; by intros [= <-]. }
  unfold ctx_packet_len. by rewrite He, Z.add_simpl_l.
Qed.

Lemma firewall_effect ctx k :
  ctx_ok ctx →
  ∃ v k', firewall ctx k = (Ok v, k') ∧ packet_effect (ctx_packet_len ctx) k v k'.
Proof.
  intros Hc. rewrite firewall_view by done. do 2 eexists. split; [done|]. unfold enforce_frame.
  destruct (frame_view _) as [| |p] eqn:Hv; [constructor..|].
  unfold enforce. rewrite (view_packet_len ctx p) by done.
  destruct (drop_rule k p) as [[r mt]|]; [|constructor].
  destruct (rb_output _ _) eqn:Hr; [by eapply eff_logged|by eapply eff_unlogged].
Qed.

(** ** Sequences of packets *)
Fixpoint run_packets (ctxs : list XdpContext) (k : kernel) : list (outcome unit Z) * kernel :=
  match ctxs with
  | [] => ([], k)
  | ctx :: rest =>
      let '(v, k1) := firewall ctx k in
      let '(vs, k2) := run_packets rest k1 in (v :: vs, k2)
  end.

(** Two kernel states with the same rules. *)
Definition same_rules (k k' : kernel) : Prop :=
  IPV4_EXACT_MAP k' = IPV4_EXACT_MAP k ∧ IPV6_EXACT_MAP k' = IPV6_EXACT_MAP k ∧
  IPV4_LPM_MAP k' = IPV4_LPM_MAP k ∧ IPV6_LPM_MAP k' = IPV6_LPM_MAP k.

(** The frames that are counted at all, those that are dropped, and the verdict. *)
Definition counted (ctx : XdpContext) : bool :=
  match frame_view (ctx_bytes ctx) with Malformed => false | _ => true end.
Definition drops (k : kernel) (ctx : XdpContext) : bool :=
  match frame_view (ctx_bytes ctx) with
  | IpPacket p => bool_decide (is_Some (drop_rule k p))
  | _ => false
  end.
Definition accepts (k : kernel) (ctx : XdpContext) : bool := counted ctx && negb (drops k ctx).
Definition verdict (k : kernel) (ctx : XdpContext) : Z := if drops k ctx then XDP_DROP else XDP_PASS.

(** How many frames satisfy a condition, and their lengths. *)
Definition frames (P : XdpContext → bool) (ctxs : list XdpContext) : Z :=
  foldr (λ c n, Z.b2z (P c) + n) 0 ctxs.
Definition octets (P : XdpContext → bool) (ctxs : list XdpContext) : Z :=
  foldr (λ c n, (if P c then ctx_packet_len c else 0) + n) 0 ctxs.

(** The counters [s] after the frames, [events] of which entered the ring buffer. *)
Definition stats_after (k : kernel) (ctxs : list XdpContext) (events : Z) (s : FirewallStats)
    : FirewallStats :=
  mkStats
    (wrap_u64 (rx_packets s + frames counted ctxs)) (wrap_u64 (rx_bytes s + octets counted ctxs))
    (wrap_u64 (dropped_packets s + frames (drops k) ctxs)) (wrap_u64 (dropped_bytes s + octets (drops k) ctxs))
    (wrap_u64 (accepted_packets s + frames (accepts k) ctxs))
    (wrap_u64 (accepted_bytes s + octets (accepts k) ctxs))
    (wrap_u64 (ringbuf_events s + events)) (ringbuf_drops s).
Definition stats_ok (s : FirewallStats) : Prop :=
  in_width 64 (rx_packets s) ∧ in_width 64 (rx_bytes s) ∧ in_width 64 (dropped_packets s) ∧
  in_width 64 (dropped_bytes s) ∧ in_width 64 (accepted_packets s) ∧ in_width 64 (accepted_bytes s) ∧
  in_width 64 (ringbuf_events s).

Lemma stats_after_nil k s : stats_ok s → stats_after k [] 0 s = s.
Proof.
  intros (? & ? & ? & ? & ? & ? & ?). unfold stats_after, frames, octets. cbn [foldr].
  rewrite !Z.add_0_r, !wrap_small by done. by destruct s.
Qed.
Lemma stats_after_ok k ctxs e s : stats_ok (stats_after k ctxs e s).
Proof. split_and!; by apply wrap_in_width. Qed.
Lemma stats_after_app k c ctxs e e' s :
  stats_after k ctxs e' (stats_after k [c] e s) = stats_after k (c :: ctxs) (e + e') s.
Proof.
  unfold stats_after, frames, octets. cbn [foldr rx_packets rx_bytes dropped_packets dropped_bytes accepted_packets
    accepted_bytes ringbuf_events ringbuf_drops]. rewrite !wrap_add_l. f_equal; f_equal; lia.
Qed.

Lemma frames_ext (P Q : XdpContext → bool) ctxs : (∀ c, P c = Q c) → frames P ctxs = frames Q ctxs.
Proof. intros H. unfold frames. induction ctxs as [|c ctxs IH]; cbn [foldr]; [done|]. by rewrite H, IH. Qed.
Lemma octets_ext (P Q : XdpContext → bool) ctxs : (∀ c, P c = Q c) → octets P ctxs = octets Q ctxs.
Proof. intros H. unfold octets. induction ctxs as [|c ctxs IH]; cbn [foldr]; [done|]. by rewrite H, IH. Qed.

Lemma same_rules_drops k k' ctx : same_rules k k' → drops k' ctx = drops k ctx.
Proof.
  intros (E1 & E2 & E3 & E4). unfold drops, drop_rule, lookup_rule. by rewrite E1, E2, E3, E4.
Qed.
Lemma same_rules_stats k k' ctxs e s : same_rules k k' → stats_after k' ctxs e s = stats_after k ctxs e s.
Proof.
  intros Hr. assert (∀ c, drops k' c = drops k c) as Hd by (intros c; by apply same_rules_drops).
  assert (∀ c, accepts k' c = accepts k c) as Ha by (intros c; unfold accepts; by rewrite Hd).
  unfold stats_after. by rewrite (frames_ext _ _ _ Hd), (octets_ext _ _ _ Hd), (frames_ext _ _ _ Ha), (octets_ext _ _ _ Ha).
Qed.

(** One frame: its verdict, and the counters. *)
Lemma firewall_counts ctx k s :
  ctx_ok ctx → STATS k = [s] → stats_ok s →
  ∃ k' e, firewall ctx k = (Ok (verdict k ctx), k') ∧ same_rules k k' ∧
    STATS k' = [stats_after k [ctx] e s] ∧ 0 <= e <= frames (drops k) [ctx] ∧
    e = len (rb_queue (EVENTS k')) - len (rb_queue (EVENTS k)).
Proof.
  intros Hc Hs Hok. rewrite firewall_view by done. pose proof Hok as (? & ? & ? & ? & ? & ? & ?).
  unfold enforce_frame, verdict, stats_after, frames, octets, accepts, counted, drops, update_stats.
  cbn [foldr]. destruct (frame_view (ctx_bytes ctx)) as [| |p] eqn:Hv.
  - exists k, 0. cbn [fst snd andb Z.b2z]. rewrite !Z.add_0_r, !wrap_small by done.
    split_and!; [done..|by destruct s|lia|lia|lia].
  - eexists _, 0. cbn [fst snd andb negb Z.b2z set_stats STATS EVENTS]. rewrite Hs, !Z.add_0_r.
    rewrite !(wrap_small 64 (dropped_packets _)), !(wrap_small 64 (dropped_bytes _)),
      !(wrap_small 64 (ringbuf_events _)) by done.
    split_and!; [done..|lia|lia|cbn; lia].
  - unfold enforce, update_stats. rewrite (view_packet_len ctx p) by done.
    destruct (drop_rule k p) as [[r mt]|] eqn:Hd; [rewrite bool_decide_eq_true_2 by done|].
    + destruct (rb_output _ _) as [ev|] eqn:Hr; [eexists _, 1|eexists _, 0];
        cbn [fst snd andb negb Z.b2z set_stats set_events STATS EVENTS]; rewrite Hs, !Z.add_0_r;
        rewrite !(wrap_small 64 (accepted_packets _)), !(wrap_small 64 (accepted_bytes _)),
          ?(wrap_small 64 (ringbuf_events _)) by done.
      * split_and!; [done..|lia|lia|]. cbn. rewrite (rb_output_spec _ _ _ Hr). unfold len.
        rewrite length_app. simpl. lia.
      * split_and!; [done..|lia|lia|cbn; lia].
    + rewrite bool_decide_eq_false_2 by (by intros [? ?]). eexists _, 0.
      cbn [fst snd andb negb Z.b2z set_stats STATS EVENTS]. rewrite Hs, !Z.add_0_r.
      rewrite !(wrap_small 64 (dropped_packets _)), !(wrap_small 64 (dropped_bytes _)),
        !(wrap_small 64 (ringbuf_events _)) by done.
      split_and!; [done..|lia|lia|cbn; lia].
Qed.

Lemma run_packets_counts ctxs : ∀ k s,
  Forall ctx_ok ctxs → STATS k = [s] → stats_ok s →
  ∃ k' e, run_packets ctxs k = ((λ c, Ok (verdict k c)) <$> ctxs, k') ∧ same_rules k k' ∧
    STATS k' = [stats_after k ctxs e s] ∧ 0 <= e <= frames (drops k) ctxs ∧
    e = len (rb_queue (EVENTS k')) - len (rb_queue (EVENTS k)).
Proof.
  induction ctxs as [|ctx ctxs IH]; intros k s Hok Hs Hw.
  { exists k, 0. rewrite stats_after_nil by done. unfold frames. cbn [foldr]. split_and!; [done..|lia|lia|lia]. }
  apply Forall_cons in Hok as [Hc Hok].
  destruct (firewall_counts ctx k s Hc Hs Hw) as (k1 & e1 & Hrun & Hr1 & Hs1 & Hb1 & He1).
  destruct (IH k1 _ Hok Hs1 (stats_after_ok _ _ _ _)) as (k' & e & Hrun' & Hr & Hs' & Hb & He).
  assert (frames (drops k1) ctxs = frames (drops k) ctxs) as Hfr.
  { apply frames_ext. intros c. by apply same_rules_drops. }
  assert ((λ c, Ok (E := unit) (verdict k1 c)) <$> ctxs = (λ c, Ok (verdict k c)) <$> ctxs) as Hvs.
  { apply list_fmap_ext. intros ? c _. unfold verdict. by rewrite (same_rules_drops k k1 c Hr1). }
  exists k', (e1 + e). cbn [run_packets]. rewrite Hrun, Hrun', Hvs, fmap_cons. split_and!.
  - reflexivity.
  - unfold same_rules in *. destruct_and!. split_and!; congruence.
  - rewrite Hs', (same_rules_stats k k1) by exact Hr1. by rewrite stats_after_app.
  - lia.
  - rewrite Hfr in Hb. revert Hb1. unfold frames in *. cbn [foldr]. lia.
  - lia.
Qed.

(** ** Frames with two VLAN tags *)
Lemma double_tag_types dst src t1 t2 et l3 :
  frame_ok dst src [t1; t2] et →
  len (eth_frame dst src [t1; t2] et l3) < 2 ^ 63 →
  let data := eth_frame dst src [t1; t2] et l3 in
  22 <= len data ∧ outer_type data = t1.1 ∧ tagged_type data = t2.1.
Proof.
  intros Hf Hlen data. destruct t1 as [tp1 tc1], t2 as [tp2 tc2].
  destruct (parse_frame_start 2 _ _ _ _ l3 Hf ltac:(simpl; lia) Hlen)
    as (_ & Ht & _ & Hl & _).
  fold data in Ht, Hl. split_and!.
  - unfold len in *. simpl in Hl. lia.
  - exact Ht.
  - destruct Hf as ([Hdl _] & [Hsl _] & Hv & _).
    inversion_clear Hv as [|?? _ Hv2]. inversion_clear Hv2 as [|?? Hv2' _].
    destruct (be2_split tp2 (is_vlan_width _ Hv2')) as (a & b & Hab & Hfab).
    unfold tagged_type.
    assert (slice data 14 4 = to_be_bytes 2 tc1 ++ [a; b]) as ->.
    { unfold data, eth_frame. cbn [fmap list_fmap mjoin list_join].
      unfold vlan_bytes at 1 2. cbn [fst snd]. rewrite Hab.
      rewrite !app_assoc. rewrite <-!app_assoc.
      rewrite (app_assoc dst), (app_assoc (dst ++ src)), (app_assoc (to_be_bytes 2 tc1)).
      apply slice_app_mid; rewrite !length_app, ?length_to_be_bytes; simpl; lia. }
    pose proof (length_to_be_bytes 2 tc1).
    destruct (to_be_bytes 2 tc1) as [|x [|y []]]; try done.
Qed.

Lemma double_tag_accepts ctx dst src t1 t2 et l3 k :
  ctx_ok ctx → ctx_bytes ctx = eth_frame dst src [t1; t2] et l3 →
  frame_ok dst src [t1; t2] et →
  firewall ctx k =
    (Ok XDP_PASS, set_stats k (update_stats (STATS k) (ctx_packet_len ctx) false 0 false)).
Proof.
  intros Hc Hb Hf. pose proof (ctx_len ctx Hc) as Hlen. rewrite Hb in Hlen.
  destruct (double_tag_types dst src t1 t2 et l3 Hf Hlen) as (Hl & Ho & Ht).
  destruct Hf as (_ & _ & Hv & _).
  inversion_clear Hv as [|?? Hv1 Hv2]. inversion_clear Hv2 as [|?? Hv2' _].
  unfold firewall. rewrite try_firewall_dispatch, Hb, Ho, Hv1, Ht by (done || rewrite Hb; lia).
  destruct (Z.leb_spec 18 (len (eth_frame dst src [t1; t2] et l3))); [|lia].
  unfold dispatch. unfold is_vlan, ETH_P_8021Q, ETH_P_8021AD in Hv2'.
  assert (t2.1 =? ETH_P_IP = false) as ->.
  { apply Z.eqb_neq. unfold ETH_P_IP. intros Heq. by rewrite Heq in Hv2'. }
  assert (t2.1 =? ETH_P_IPV6 = false) as ->.
  { apply Z.eqb_neq. unfold ETH_P_IPV6. intros Heq. by rewrite Heq in Hv2'. }
  done.
Qed.
End Firewall.
Arguments kernel : clear implicits.
Arguments xdp : clear implicits.

(** ** The GitHub allow-list is a list of CIDR blocks *)

(** The blocks the comments of [is_github_ipv4] name. *)
Definition github_cidrs : list (Z * list Z) :=
  [(20, [140; 82; 112; 0]); (22, [192; 30; 252; 0]); (22, [185; 199; 108; 0]);
   (20, [143; 55; 64; 0]); (32, [20; 201; 28; 151]); (32, [20; 205; 243; 166]);
   (23, [4; 237; 22; 0])].

Definition in_cidrs (l : list (Z * list Z)) (ip : list Z) : bool :=
  existsb (λ c, octets_match c.1 c.2 ip) l.

Lemma octets_match_4 p x y z t a b c d :
  bytes_ok 4 [x; y; z; t] → bytes_ok 4 [a; b; c; d] →
  (16 <= p <= 24 → octets_match p [x; y; z; t] [a; b; c; d] =
     (a =? x) && (b =? y) && (Z.shiftr z (24 - p) =? Z.shiftr c (24 - p))) ∧
  octets_match 32 [x; y; z; t] [a; b; c; d] = (a =? x) && (b =? y) && (c =? z) && (d =? t).
Proof.
  intros [_ Hn] [_ Hi]. rewrite !Forall_cons in *. destruct_and!.
  rewrite (Z.eqb_sym a), (Z.eqb_sym b), (Z.eqb_sym c), (Z.eqb_sym d). split.
  - intros Hp.
    do 2 (rewrite octets_match_cons_ge by
      (rewrite ?Forall_cons; done || (unfold len; simpl; lia))).
    rewrite octets_match_cons_le by (rewrite ?Forall_cons; done || lia).
    rewrite andb_assoc. do 2 f_equal; f_equal; lia.
  - do 3 (rewrite octets_match_cons_ge by
      (rewrite ?Forall_cons; done || (unfold len; simpl; lia))).
    rewrite octets_match_cons_le by (rewrite ?Forall_cons; done || lia).
    simpl. rewrite !Z.shiftr_0_r. by rewrite !andb_assoc.
Qed.

Lemma third_octet f z p c :
  all_bytes (λ c, Bool.eqb (f c) (Z.shiftr z (24 - p) =? Z.shiftr c (24 - p))) = true →
  byte_ok c → f c = (Z.shiftr z (24 - p) =? Z.shiftr c (24 - p)).
Proof. apply (all_bytes_eqb f (λ c, Z.shiftr z (24 - p) =? Z.shiftr c (24 - p))). Qed.

Lemma is_github_ipv4_blocks ip :
  bytes_ok 4 ip → is_github_ipv4 ip = in_cidrs github_cidrs ip.
Proof.
  intros Hip. pose proof Hip as [Hl _].
  destruct ip as [|a [|b [|c [|d []]]]]; try discriminate Hl.
  unfold is_github_ipv4, octet, in_cidrs, github_cidrs. cbn [existsb nth fst snd].
  rewrite (proj1 (octets_match_4 20 140 82 112 0 a b c d ltac:(by_decide) Hip)) by lia.
  rewrite (proj1 (octets_match_4 22 192 30 252 0 a b c d ltac:(by_decide) Hip)) by lia.
  rewrite (proj1 (octets_match_4 22 185 199 108 0 a b c d ltac:(by_decide) Hip)) by lia.
  rewrite (proj1 (octets_match_4 20 143 55 64 0 a b c d ltac:(by_decide) Hip)) by lia.
  rewrite (proj1 (octets_match_4 23 4 237 22 0 a b c d ltac:(by_decide) Hip)) by lia.
  rewrite (proj2 (octets_match_4 32 20 201 28 151 a b c d ltac:(by_decide) Hip)).
  rewrite (proj2 (octets_match_4 32 20 205 243 166 a b c d ltac:(by_decide) Hip)).
  destruct Hip as [_ Hb]. rewrite !Forall_cons in Hb. destruct Hb as (_ & _ & Hc & _).
  rewrite (third_octet (λ c, Z.land c 0xF0 =? 112) 112 20 c (eq_refl _) Hc : (Z.land c 0xF0 =? 112) = _).
  rewrite (third_octet (λ c, Z.land c 0xFC =? 252) 252 22 c (eq_refl _) Hc : (Z.land c 0xFC =? 252) = _).
  rewrite (third_octet (λ c, Z.land c 0xFC =? 108) 108 22 c (eq_refl _) Hc : (Z.land c 0xFC =? 108) = _).
  rewrite (third_octet (λ c, Z.land c 0xF0 =? 64) 64 20 c (eq_refl _) Hc : (Z.land c 0xF0 =? 64) = _).
  rewrite (third_octet (λ c, (c =? 22) || (c =? 23)) 22 23 c (eq_refl _) Hc : ((c =? 22) || (c =? 23)) = _).
  by rewrite !orb_false_r, !orb_assoc.
Qed.

(** ** Several processors

    [STATS] is one element shared by all processors, and [update_stats] increments each
    of its fields by a load and a store that nothing makes atomic. Elsewhere in this
    development updates follow each other; here, one counter under any interleaving:
    its value, and what each processor has loaded and not yet stored. *)
Inductive access : Type :=
| Load (cpu : nat)
| Store (cpu : nat) (amount : Z).
Definition counter_access (st : Z * gmap nat Z) (a : access) : Z * gmap nat Z :=
  match a with
  | Load cpu => (st.1, <[cpu := st.1]> st.2)
  | Store cpu amount =>
      match st.2 !! cpu with
      | Some loaded => (wrap_u64 (loaded + amount), delete cpu st.2)
      | None => st
      end
  end.
Definition amount_of (a : access) : Z := match a with Load _ => 0 | Store _ n => n end.
Definition amounts (l : list access) : Z := foldr (λ a n, amount_of a + n) 0 l.

Lemma amounts_nonneg l : Forall (λ a, 0 <= amount_of a) l → 0 <= amounts l.
Proof. induction 1 as [|a l ? _ IH]; [done|]. change (0 <= amount_of a + amounts l). lia. Qed.

(** A counter is never above what was counted; *)
Lemma shared_counter_bounded l : ∀ n regs,
  0 <= n → map_Forall (λ _ v, 0 <= v <= n) regs → Forall (λ a, 0 <= amount_of a) l → n + amounts l < 2 ^ 64 →
  0 <= (fold_left counter_access l (n, regs)).1 <= n + amounts l.
Proof.
  enough (∀ c b regs, 0 <= c <= b → map_Forall (λ _ v, 0 <= v <= b) regs →
    Forall (λ a, 0 <= amount_of a) l → b + amounts l < 2 ^ 64 →
    0 <= (fold_left counter_access l (c, regs)).1 <= b + amounts l) as H by (intros; by apply H).
  induction l as [|a l IH]; intros c b regs Hc Hr Ha Hb; [cbn; lia|].
  inversion_clear Ha as [|?? Ha1 Ha2]. change (amounts (a :: l)) with (amount_of a + amounts l) in *.
  pose proof (amounts_nonneg l Ha2).
  destruct a as [cpu|cpu n]; cbn [counter_access fold_left amount_of fst snd] in *.
  - apply IH; [done| |done|done]. apply map_Forall_insert_2; [exact Hc|exact Hr].
  - rewrite Z.add_assoc. destruct (regs !! cpu) as [v|] eqn:E.
    + pose proof (Hr cpu v E) as Hv. cbn in Hv. rewrite wrap_small by lia.
      apply IH; [lia| |done|lia]. apply map_Forall_delete. eapply map_Forall_impl; [exact Hr|]. cbn. lia.
    + apply IH; [lia| |done|lia]. eapply map_Forall_impl; [exact Hr|]. cbn. lia.
Qed.
(** it is exact when each store follows its own load; *)
Lemma serial_counter_exact l : ∀ n,
  fold_left counter_access (l ≫= λ '(cpu, amount), [Load cpu; Store cpu amount]) (n, ∅) =
    (fold_left (λ n '(_, amount), wrap_u64 (n + amount)) l n, ∅).
Proof.
  induction l as [|[cpu amount] l IH]; intros n; [done|]. rewrite bind_cons, fold_left_app.
  cbn [fold_left counter_access fst snd]. rewrite lookup_insert_eq, delete_insert_id by done. apply IH.
Qed.
(** and when two processors count at once, a packet can be lost. *)
Example lost_update :
  (fold_left counter_access [Load 0; Load 1; Store 0 1; Store 1 1] (7, ∅)).1 = 8.
Proof. vm_compute. done. Qed.

(** ** Theorems *)
Section Claims.
Context {H4 H6 L4 L6 RB : Type}.
Context `{!BpfMap H4 (list Z) RuleValue} `{!HashGet H4 (list Z) RuleValue}.
Context `{!BpfMap H6 (list Z) RuleValue} `{!HashGet H6 (list Z) RuleValue}.
Context `{!BpfMap L4 (Z * list Z) RuleValue} `{!LpmGet 4 L4 RuleValue}.
Context `{!BpfMap L6 (Z * list Z) RuleValue} `{!LpmGet 16 L6 RuleValue}.
Context `{!RingBuffer RB}.
Implicit Type k : kernel H4 H6 L4 L6 RB.

(** C3 (refinement). On every packet with at most one VLAN tag that the parsing
    library classifies, the XDP program does what the reference policy says,
    on the abstract contents of the maps: management traffic passes; otherwise
    an exact rule for the source address decides, or else the longest matching
    CIDR rule; a DROP rule drops the packet, counts it, and emits the event that
    describes it when the ring buffer has room; anything else passes and is
    counted as accepted. *)
Theorem firewall_enforces_policy ctx p k :
  ctx_ok ctx → one_tag (ctx_bytes ctx) = true → classify_packet (ctx_bytes ctx) = Ok p →
  firewall ctx k = (Ok (enforce ctx p k).1, (enforce ctx p k).2).
Proof.
  intros Hc H1 Hp. rewrite (firewall_policy ctx p k Hc H1 Hp). unfold run_enforce.
  by destruct (enforce ctx p k).
Qed.

(** C5 (safety). Over any sequence of frames, whatever their bytes: the program never
    reads outside a frame; its verdict on each is DROP exactly when the frame, read
    behind at most one VLAN tag, is an IP packet that a drop rule matches and no
    exemption covers, and PASS otherwise; the rule maps stay as they were. The counters
    grow, modulo 2^64, by the number and the lengths of the frames received, dropped and
    accepted, where frames whose headers do not fit, and IPv4 headers of a length field
    below five, pass without being received at all; the event counter grows by the
    records that entered the ring buffer, at most one for each drop, and the counter of
    lost events never moves. The frames are handled one after the other, each update of
    the counters being finished before the next begins. *)
Theorem firewall_accounting ctxs k s :
  Forall ctx_ok ctxs → STATS k = [s] → stats_ok s →
  ∃ k' e, run_packets ctxs k = ((λ c, Ok (verdict k c)) <$> ctxs, k') ∧ same_rules k k' ∧
    STATS k' = [stats_after k ctxs e s] ∧ 0 <= e <= frames (drops k) ctxs ∧
    e = len (rb_queue (EVENTS k')) - len (rb_queue (EVENTS k)).
Proof. intros Hok Hs Hw. by apply run_packets_counts. Qed.

(** A frame with two VLAN tags is accepted without any lookup,
    whatever rules are installed: the program strips one tag, where the parsing
    library and its comments strip two. *)
Theorem double_tagged_frames_bypass ctx dst src t1 t2 et l3 k :
  ctx_ok ctx → ctx_bytes ctx = eth_frame dst src [t1; t2] et l3 →
  frame_ok dst src [t1; t2] et →
  firewall ctx k =
    (Ok XDP_PASS, set_stats k (update_stats (STATS k) (ctx_packet_len ctx) false 0 false)).
Proof. apply double_tag_accepts. Qed.
End Claims.

(** ** Witnesses: a kernel with one exact rule and two nested CIDR rules *)
Definition demo_kernel : kernel (CapMap (list Z) RuleValue) (CapMap (list Z) RuleValue)
    (Trie 4 RuleValue) (Trie 16 RuleValue) BoundedQueue :=
  mkKernel (mkCapMap 8 {[ [45; 33; 32; 156] := rule_drop 7 ]}) (mkCapMap 8 ∅)
    (mkTrie (mkCapMap 8
      {[ (8, [10; 0; 0; 0]) := rule_drop 3; (16, [10; 1; 0; 0]) := rule_accept 4 ]}))
    (mkTrie (mkCapMap 8 ∅)) (mkQueue 4 []) [FirewallStats_default].

Definition demo_tcp (src : list Z) (sport : Z) : list Z :=
  eth_frame (demo_mac 1) (demo_mac 2) [] ETH_P_IP
    (Ipv4Header_bytes (mkIp4 0x45 0 0x2800 0 0 64 PROTO_TCP 0 src [192; 168; 0; 1]) ++
     to_be_bytes 2 sport ++ to_be_bytes 2 8080 ++ replicate 16 0).
Definition demo_ctx (bytes : list Z) : XdpContext :=
  mkCtx 4096 (4096 + len bytes) bytes 2 1000.
#[global] Instance ctx_ok_dec ctx : Decision (ctx_ok ctx).
Proof. unfold ctx_ok. apply _. Defined.

Definition demo_parsed : ParsedPacket :=
  mkParsed 4 (pad16 [45; 33; 32; 156]) (pad16 [192; 168; 0; 1]) 6 50000 8080 54 34.

Lemma firewall_enforces_policy_witness :
  (firewall (demo_ctx (demo_tcp [45; 33; 32; 156] 50000)) demo_kernel).1 = Ok XDP_DROP.
Proof.
  rewrite (firewall_enforces_policy _ demo_parsed); [vm_compute; reflexivity|by_decide..].
Defined.

Definition demo_traffic : list XdpContext :=
  demo_ctx <$> [demo_tcp [45; 33; 32; 156] 50000; demo_tcp [45; 33; 32; 156] 53;
    demo_tcp [10; 9; 9; 9] 50000; demo_tcp [10; 1; 9; 9] 50000; [1; 2; 3]].

(** Five frames, the last one too short to be counted: two are dropped. *)
Lemma firewall_accounting_witness :
  ∃ k' e, run_packets demo_traffic demo_kernel =
      ([Ok XDP_DROP; Ok XDP_PASS; Ok XDP_DROP; Ok XDP_PASS; Ok XDP_PASS], k') ∧
    STATS k' = [mkStats 4 216 2 108 2 108 e 0] ∧ 0 <= e <= 2.
Proof.
  destruct (firewall_accounting demo_traffic demo_kernel FirewallStats_default)
    as (k' & e & Hr & _ & Hs & Hb & He); [by_decide|reflexivity|by_decide|].
  assert (wrap_u64 (0 + e) = e) as Hw.
  { apply wrap_small. change (frames _ _) with 2 in Hb. lia. }
  exists k', e. split; [exact Hr|]. split; [|exact Hb]. rewrite Hs.
  assert (frames counted demo_traffic = 4) as E1 by (vm_compute; reflexivity).
  assert (octets counted demo_traffic = 216) as E2 by (vm_compute; reflexivity).
  assert (frames (drops demo_kernel) demo_traffic = 2) as E3 by (vm_compute; reflexivity).
  assert (octets (drops demo_kernel) demo_traffic = 108) as E4 by (vm_compute; reflexivity).
  assert (frames (accepts demo_kernel) demo_traffic = 2) as E5 by (vm_compute; reflexivity).
  assert (octets (accepts demo_kernel) demo_traffic = 108) as E6 by (vm_compute; reflexivity).
  unfold stats_after. rewrite E1, E2, E3, E4, E5, E6. cbn [ringbuf_events FirewallStats_default].
  rewrite Hw. reflexivity.
Defined.

Lemma double_tagged_frames_bypass_witness :
  (firewall (demo_ctx (eth_frame (demo_mac 1) (demo_mac 2) [(0x88A8, 1); (0x8100, 2)] ETH_P_IP
     (Ipv4Header_bytes (mkIp4 0x45 0 0x2800 0 0 64 PROTO_TCP 0 [45; 33; 32; 156]
       [192; 168; 0; 1])))) demo_kernel).1 = Ok XDP_PASS.
Proof. by erewrite double_tagged_frames_bypass; [|by_decide|reflexivity|by_decide]. Defined.

