(* ===== verification/FireholSync.v ===== *)
(** * From imported entries to kernel rules ([src/firehol/sync.rs])

    The imported data set, in memory or spooled to disk, and its translation
    into the rule set the map manager installs: infrastructure addresses are
    skipped, full-length networks become exact rules, and of several entries for
    one target the first wins. *)
From stdpp Require Import base numbers list gmap fin_maps strings sorting.
From Stdlib Require Import ZArith Lia.
From S2P Require Import Prelude Net Common BpfMaps Str Entry Metadata Attribution Loader.
From S2P Require Import MapManager Wire Xdp.

Local Open Scope Z_scope.

(** ** The data set ([src/firehol/parser.rs]) *)

(** The spool: the values of the entries column family in key order, and whether
    the scan ends with an I/O error. *)
Record spool : Type := mkSpool { sp_values : list (list Z); sp_failed : bool }.

Record FireholDataSet (S : Type) `{!ContextStore S} : Type := mkDataSet {
  ds_entries : list FireholEntry;
  ds_stored_entries : option spool;
  ds_registry : FireholMetadataRegistry S;
  ds_total_files : Z;
  ds_total_bytes : Z;
  ds_exact_v4_count : Z;
  ds_exact_v6_count : Z;
  ds_lpm_v4_count : Z;
  ds_lpm_v6_count : Z;
}.
Arguments mkDataSet {_ _} _ _ _ _ _ _ _ _ _.
Arguments ds_entries {_ _} _.
Arguments ds_stored_entries {_ _} _.
Arguments ds_registry {_ _} _.
Arguments ds_exact_v4_count {_ _} _.
Arguments ds_exact_v6_count {_ _} _.
Arguments ds_lpm_v4_count {_ _} _.
Arguments ds_lpm_v6_count {_ _} _.

(** Errors of the cache layer, as far as they are told apart. *)
Inductive SpoolError : Type :=
| InvalidSpoolBlock
| BadRecord (e : CacheError)
| ScanFailed.

Section DataSet.
Context {S : Type} `{!ContextStore S}.
Implicit Type ds : FireholDataSet S.

Definition total_hashmap_entries ds : Z := ds_exact_v4_count ds + ds_exact_v6_count ds.
Definition total_lpm_entries ds : Z := ds_lpm_v4_count ds + ds_lpm_v6_count ds.
Definition total_entries ds : Z :=
  match ds_stored_entries ds with
  | Some _ => total_hashmap_entries ds + total_lpm_entries ds
  | None => len (ds_entries ds)
  end.
Definition ds_is_empty ds : bool := total_entries ds =? 0.

Section VisitEntries.
Context {St : Type} (visitor : FireholEntry → St → outcome SpoolError St).

Fixpoint visit_all (entries : list FireholEntry) (st : St) : outcome SpoolError St :=
  match entries with
  | [] => Ok st
  | e :: rest => st' ← visitor e st; visit_all rest st'
  end.

Definition decode_record (bytes : list Z) : outcome SpoolError FireholEntry :=
  match decode bytes with Ok e => Ok e | Err x => Err (BadRecord x) | Fault => Fault end.

Fixpoint visit_encoded (records : list (list Z)) (st : St) : outcome SpoolError St :=
  match records with
  | [] => Ok st
  | r :: rest => e ← decode_record r; st' ← visitor e st; visit_encoded rest st'
  end.

(** [cache.visit_values(ENTRIES, ..)]. *)
Fixpoint visit_blocks (blocks : list (list Z)) (failed : bool) (st : St) : outcome SpoolError St :=
  match blocks with
  | [] => if failed then Err ScanFailed else Ok st
  | bytes :: rest =>
      if (len bytes =? 0) || negb (len bytes mod 30 =? 0) then Err InvalidSpoolBlock else
      st' ← visit_encoded (chunks (length bytes) 30 bytes) st;
      visit_blocks rest failed st'
  end.

Definition visit_entries ds (st : St) : outcome SpoolError St :=
  match ds_stored_entries ds with
  | Some sp => visit_blocks (sp_values sp) (sp_failed sp) st
  | None => visit_all (ds_entries ds) st
  end.
End VisitEntries.
End DataSet.

(** ** Infrastructure that is never blocked *)
Definition is_infrastructure_allowlisted_v4 (octets : list Z) : bool :=
  let o := octet octets in
  let within lo hi x := (lo <=? x) && (x <=? hi) in
  ((o 0%nat =? 140) && (o 1%nat =? 82) && within 112 127 (o 2%nat)) ||
  ((o 0%nat =? 192) && (o 1%nat =? 30) && within 252 255 (o 2%nat)) ||
  ((o 0%nat =? 185) && (o 1%nat =? 199) && within 108 111 (o 2%nat)) ||
  ((o 0%nat =? 143) && (o 1%nat =? 55) && within 64 79 (o 2%nat)) ||
  (((o 0%nat =? 20) && (o 1%nat =? 201) && (o 2%nat =? 28) && (o 3%nat =? 151)) ||
   ((o 0%nat =? 20) && (o 1%nat =? 205) && (o 2%nat =? 243) && (o 3%nat =? 166)) ||
   ((o 0%nat =? 4) && (o 1%nat =? 237) && within 22 23 (o 2%nat))) ||
  (o 0%nat =? 127).

Definition is_infrastructure_cidr_allowlisted_v4 (prefix_len : Z) (octets : list Z) : bool :=
  let o := octet octets in
  let block p a b c := (prefix_len =? p) && (o 0%nat =? a) && (o 1%nat =? b) && (o 2%nat =? c) &&
    (o 3%nat =? 0) in
  block 20 140 82 112 || block 22 192 30 252 || block 22 185 199 108 || block 20 143 55 64.

(** ** Preparing rules *)
Record FireholSyncReport : Type := mkSyncReport {
  fr_map_report : SyncReport;
  fr_exact_v4_count : Z;
  fr_exact_v6_count : Z;
  fr_lpm_v4_count : Z;
  fr_lpm_v6_count : Z;
  fr_duplicates_deduped : Z;
  fr_allowlisted_skipped : Z;
}.
Definition FireholSyncReport_default : FireholSyncReport :=
  mkSyncReport (mkReport 0 0 0 0 0) 0 0 0 0 0 0.
Definition report_total_rules (r : FireholSyncReport) : Z :=
  fr_exact_v4_count r + fr_exact_v6_count r + fr_lpm_v4_count r + fr_lpm_v6_count r.

(** The locals of [try_prepare_rules]; a count names what one entry did. *)
Record prepare : Type := mkPrepare {
  pr_rules : ParsedRuleSet;
  pr_report : FireholSyncReport;
  seen_v4_lpm : gset (Z * list Z);
  seen_v6_lpm : gset (Z * list Z);
}.
Inductive counted : Type := NewV4 | NewV6 | NewLpm4 | NewLpm6 | Duplicate | Allowlisted.
#[global] Instance counted_eq_dec : EqDecision counted.
Proof. solve_decision. Defined.
Definition count (what : counted) (r : FireholSyncReport) : FireholSyncReport :=
  let inc c n := if bool_decide (what = c) then n + 1 else n in
  mkSyncReport (fr_map_report r) (inc NewV4 (fr_exact_v4_count r)) (inc NewV6 (fr_exact_v6_count r))
    (inc NewLpm4 (fr_lpm_v4_count r)) (inc NewLpm6 (fr_lpm_v6_count r))
    (inc Duplicate (fr_duplicates_deduped r)) (inc Allowlisted (fr_allowlisted_skipped r)).
Definition counting (what : counted) (p : prepare) (rules : ParsedRuleSet) : prepare :=
  mkPrepare rules (count what (pr_report p)) (seen_v4_lpm p) (seen_v6_lpm p).

(** [if let Vacant(slot) = rules.exact_v4.entry(octets) { .. } else { .. }]. *)
Definition offer_exact_v4 (octets : list Z) (v : RuleValue) (p : prepare) : prepare :=
  let r := pr_rules p in
  match rs_exact_v4 r !! octets with
  | None => counting NewV4 p (mkRuleSet (<[octets := v]> (rs_exact_v4 r)) (rs_exact_v6 r)
      (rs_lpm_v4 r) (rs_lpm_v6 r) (rs_total_rules r) (rs_skipped_rules r))
  | Some _ => counting Duplicate p r
  end.
Definition offer_exact_v6 (octets : list Z) (v : RuleValue) (p : prepare) : prepare :=
  let r := pr_rules p in
  match rs_exact_v6 r !! octets with
  | None => counting NewV6 p (mkRuleSet (rs_exact_v4 r) (<[octets := v]> (rs_exact_v6 r))
      (rs_lpm_v4 r) (rs_lpm_v6 r) (rs_total_rules r) (rs_skipped_rules r))
  | Some _ => counting Duplicate p r
  end.

(** [if seen.insert(key) { push } else { duplicate }]. *)
Definition offer_lpm_v4 (prefix_len : Z) (octets : list Z) (v : RuleValue) (p : prepare) : prepare :=
  let r := pr_rules p in
  if bool_decide ((prefix_len, octets) ∈ seen_v4_lpm p) then counting Duplicate p r
  else
    let r' := mkRuleSet (rs_exact_v4 r) (rs_exact_v6 r) (rs_lpm_v4 r ++ [(prefix_len, octets, v)])
      (rs_lpm_v6 r) (rs_total_rules r) (rs_skipped_rules r) in
    mkPrepare r' (count NewLpm4 (pr_report p)) ({[ (prefix_len, octets) ]} ∪ seen_v4_lpm p)
      (seen_v6_lpm p).
Definition offer_lpm_v6 (prefix_len : Z) (octets : list Z) (v : RuleValue) (p : prepare) : prepare :=
  let r := pr_rules p in
  if bool_decide ((prefix_len, octets) ∈ seen_v6_lpm p) then counting Duplicate p r
  else
    let r' := mkRuleSet (rs_exact_v4 r) (rs_exact_v6 r) (rs_lpm_v4 r)
      (rs_lpm_v6 r ++ [(prefix_len, octets, v)]) (rs_total_rules r) (rs_skipped_rules r) in
    mkPrepare r' (count NewLpm6 (pr_report p)) (seen_v4_lpm p)
      ({[ (prefix_len, octets) ]} ∪ seen_v6_lpm p).

(** The visitor. *)
Definition prepare_entry (entry : FireholEntry) (p : prepare) : prepare :=
  let v := rule_drop (fe_rule_id entry) in
  match fe_target entry with
  | TExactV4 octets =>
      if is_infrastructure_allowlisted_v4 octets then counting Allowlisted p (pr_rules p)
      else offer_exact_v4 octets v p
  | TExactV6 octets => offer_exact_v6 octets v p
  | TCidrV4 prefix_len octets =>
      if prefix_len =? 32 then
        if is_infrastructure_allowlisted_v4 octets then counting Allowlisted p (pr_rules p)
        else offer_exact_v4 octets v p
      else if is_infrastructure_cidr_allowlisted_v4 prefix_len octets
      then counting Allowlisted p (pr_rules p)
      else offer_lpm_v4 prefix_len octets v p
  | TCidrV6 prefix_len octets =>
      if prefix_len =? 128 then offer_exact_v6 octets v p
      else offer_lpm_v6 prefix_len octets v p
  end.

Definition prepare_start : prepare :=
  mkPrepare ParsedRuleSet_new FireholSyncReport_default ∅ ∅.

Definition prepare_finish (p : prepare) : ParsedRuleSet * FireholSyncReport :=
  let r := pr_rules p in
  (mkRuleSet (rs_exact_v4 r) (rs_exact_v6 r) (rs_lpm_v4 r) (rs_lpm_v6 r) (rs_count r)
     (fr_duplicates_deduped (pr_report p)), pr_report p).

Section Prepare.
Context {S : Type} `{!ContextStore S}.

Definition try_prepare_rules (ds : FireholDataSet S)
    : outcome SpoolError (ParsedRuleSet * FireholSyncReport) :=
  p ← visit_entries (λ e p, Ok (prepare_entry e p)) ds prepare_start;
  mret (prepare_finish p).

(** [.expect(..)]: an error is a panic. *)
Definition prepare_rules (ds : FireholDataSet S)
    : outcome SpoolError (ParsedRuleSet * FireholSyncReport) :=
  match try_prepare_rules ds with Ok r => Ok r | _ => Fault end.
End Prepare.

Section LoadIntoMaps.
Context {H4 H6 L4 L6 : Type}.
Context `{!BpfMap H4 (list Z) RuleValue} `{!BpfMap H6 (list Z) RuleValue}.
Context `{!BpfMap L4 (Z * list Z) RuleValue} `{!BpfMap L6 (Z * list Z) RuleValue}.
Context `{!HashOrder}.

Definition load_into_maps (manager : MapManager H4 H6 L4 L6) (prepared : ParsedRuleSet)
    (report : FireholSyncReport) : MapManager H4 H6 L4 L6 * FireholSyncReport :=
  let '(manager', map_report) := sync_firehol_rules manager prepared in
  (manager', mkSyncReport map_report (fr_exact_v4_count report) (fr_exact_v6_count report)
     (fr_lpm_v4_count report) (fr_lpm_v6_count report) (fr_duplicates_deduped report)
     (fr_allowlisted_skipped report)).
End LoadIntoMaps.

(** ** Reference: one rule per routed target, from its first entry *)

(** Where a target goes: a full-length network is an exact address. *)
Definition route (t : FireholIpTarget) : FireholIpTarget :=
  match t with
  | TCidrV4 p o => if p =? 32 then TExactV4 o else t
  | TCidrV6 p o => if p =? 128 then TExactV6 o else t
  | _ => t
  end.
Definition allowlisted (t : FireholIpTarget) : bool :=
  match t with
  | TExactV4 o => is_infrastructure_allowlisted_v4 o
  | TCidrV4 p o => is_infrastructure_cidr_allowlisted_v4 p o
  | _ => false
  end.

(** The rule of a target in a rule set. *)
Definition rule_of (r : ParsedRuleSet) (t : FireholIpTarget) : option RuleValue :=
  match t with
  | TExactV4 o => rs_exact_v4 r !! o
  | TExactV6 o => rs_exact_v6 r !! o
  | TCidrV4 p o => rules_map (lpm_rules (rs_lpm_v4 r)) !! (p, o)
  | TCidrV6 p o => rules_map (lpm_rules (rs_lpm_v6 r)) !! (p, o)
  end.

Definition first_rule (entries : list FireholEntry) (t : FireholIpTarget) : option RuleValue :=
  if allowlisted t then None
  else rule_drop ∘ fe_rule_id <$> head (filter (λ e, route (fe_target e) = t) entries).

Lemma rules_map_snoc {K} `{Countable K} (l : list (K * RuleValue)) k v :
  rules_map (l ++ [(k, v)]) = <[k := v]> (rules_map l).
Proof. unfold rules_map. by rewrite reverse_app. Qed.

(** What holds of the locals: the sets hold the keys of the lists, which have no
    duplicates, and the counters count. *)
Record prepare_inv (p : prepare) (visited : list FireholEntry) : Prop := {
  pv_rules t : rule_of (pr_rules p) t = first_rule visited t;
  pv_seen4 : seen_v4_lpm p = dom (rules_map (lpm_rules (rs_lpm_v4 (pr_rules p))));
  pv_seen6 : seen_v6_lpm p = dom (rules_map (lpm_rules (rs_lpm_v6 (pr_rules p))));
  pv_nodup : NoDup (lpm_rules (rs_lpm_v4 (pr_rules p))).*1 ∧
    NoDup (lpm_rules (rs_lpm_v6 (pr_rules p))).*1;
  pv_counts :
    fr_exact_v4_count (pr_report p) = Z.of_nat (size (rs_exact_v4 (pr_rules p))) ∧
    fr_exact_v6_count (pr_report p) = Z.of_nat (size (rs_exact_v6 (pr_rules p))) ∧
    fr_lpm_v4_count (pr_report p) = len (rs_lpm_v4 (pr_rules p)) ∧
    fr_lpm_v6_count (pr_report p) = len (rs_lpm_v6 (pr_rules p)) ∧
    report_total_rules (pr_report p) + fr_duplicates_deduped (pr_report p) +
      fr_allowlisted_skipped (pr_report p) = len visited;
}.

Lemma first_rule_snoc visited e t :
  first_rule (visited ++ [e]) t =
    match first_rule visited t with
    | Some v => Some v
    | None => if decide (route (fe_target e) = t) then
        (if allowlisted t then None else Some (rule_drop (fe_rule_id e))) else None
    end.
Proof.
  unfold first_rule. destruct (allowlisted t); [by case_decide|].
  rewrite filter_app, head_app. destruct (head (filter _ visited)); simpl; [done|].
  rewrite filter_cons, filter_nil. by case_decide.
Qed.

(** Offering a rule to the table of a routed target. *)
Definition offer (t : FireholIpTarget) (v : RuleValue) (p : prepare) : prepare :=
  match t with
  | TExactV4 o => offer_exact_v4 o v p
  | TExactV6 o => offer_exact_v6 o v p
  | TCidrV4 len o => offer_lpm_v4 len o v p
  | TCidrV6 len o => offer_lpm_v6 len o v p
  end.

Lemma prepare_entry_offer e p :
  prepare_entry e p =
    if allowlisted (route (fe_target e)) then counting Allowlisted p (pr_rules p)
    else offer (route (fe_target e)) (rule_drop (fe_rule_id e)) p.
Proof.
  unfold prepare_entry, route. destruct (fe_target e) as [o|o|q o|q o]; simpl; [done..| |].
  - by destruct (q =? 32).
  - by destruct (q =? 128).
Qed.

(** A table in which the first rule of a key stays. *)
Definition offered {K} `{Countable K} (m : gmap K RuleValue) (k : K) (v : RuleValue)
    : gmap K RuleValue :=
  match m !! k with None => <[k := v]> m | Some _ => m end.

Lemma lookup_offered {K} `{Countable K} (m : gmap K RuleValue) k v k' :
  offered m k v !! k' =
    match m !! k' with Some x => Some x | None => if decide (k = k') then Some v else None end.
Proof.
  unfold offered. destruct (m !! k) eqn:E; case_decide as Hk; subst; rewrite ?E.
  - done.
  - by destruct (m !! k').
  - by rewrite lookup_insert_eq.
  - rewrite lookup_insert_ne by done. by destruct (m !! k').
Qed.

Lemma offered_size {K} `{Countable K} (m : gmap K RuleValue) k v :
  Z.of_nat (size (offered m k v)) =
    match m !! k with None => Z.of_nat (size m) + 1 | Some _ => Z.of_nat (size m) end.
Proof. unfold offered. destruct (m !! k) eqn:E; [done|]. rewrite map_size_insert_None by done. lia. Qed.

(** The table of the networks of one family, next to the set of keys seen. *)
Lemma lpm_offered (l : list (Z * list Z * RuleValue)) k v :
  rules_map (lpm_rules (if bool_decide (k ∈ dom (rules_map (lpm_rules l))) then l else l ++ [(k, v)]))
  = offered (rules_map (lpm_rules l)) k v.
Proof.
  unfold offered, lpm_rules. case_bool_decide as E.
  - apply elem_of_dom in E as [x E]. by rewrite E.
  - apply not_elem_of_dom in E. by rewrite E, rules_map_snoc.
Qed.

(** Offering changes the table of the target's kind only. *)
Lemma offer_tables p t v :
  seen_v4_lpm p = dom (rules_map (lpm_rules (rs_lpm_v4 (pr_rules p)))) →
  seen_v6_lpm p = dom (rules_map (lpm_rules (rs_lpm_v6 (pr_rules p)))) →
  tables_of (pr_rules (offer t v p)) =
    let '(mkTables e4 e6 l4 l6) := tables_of (pr_rules p) in
    match t with
    | TExactV4 o => mkTables (offered e4 o v) e6 l4 l6
    | TExactV6 o => mkTables e4 (offered e6 o v) l4 l6
    | TCidrV4 q o => mkTables e4 e6 (offered l4 (q, o) v) l6
    | TCidrV6 q o => mkTables e4 e6 l4 (offered l6 (q, o) v)
    end.
Proof.
  intros H4 H6. unfold tables_of. destruct t as [o|o|q o|q o]; cbn [offer].
  - unfold offer_exact_v4, offered. by destruct (rs_exact_v4 _ !! o).
  - unfold offer_exact_v6, offered. by destruct (rs_exact_v6 _ !! o).
  - rewrite <-lpm_offered. unfold offer_lpm_v4. rewrite H4. by case_bool_decide.
  - rewrite <-lpm_offered. unfold offer_lpm_v6. rewrite H6. by case_bool_decide.
Qed.

Lemma offer_rules p t v t' :
  seen_v4_lpm p = dom (rules_map (lpm_rules (rs_lpm_v4 (pr_rules p)))) →
  seen_v6_lpm p = dom (rules_map (lpm_rules (rs_lpm_v6 (pr_rules p)))) →
  rule_of (pr_rules (offer t v p)) t' =
    match rule_of (pr_rules p) t' with
    | Some x => Some x
    | None => if decide (t = t') then Some v else None
    end.
Proof.
  intros H4 H6. pose proof (offer_tables p t v H4 H6) as Ht.
  pose proof (f_equal t_exact_v4 Ht) as E1. pose proof (f_equal t_exact_v6 Ht) as E2.
  pose proof (f_equal t_lpm_v4 Ht) as E3. pose proof (f_equal t_lpm_v6 Ht) as E4. clear Ht.
  destruct t as [o|o|q o|q o], t' as [o'|o'|q' o'|q' o'];
    cbn [rule_of t_exact_v4 t_exact_v6 t_lpm_v4 t_lpm_v6 tables_of] in *;
    rewrite ?E1, ?E2, ?E3, ?E4, ?lookup_offered;
    destruct (_ !! _); try done; repeat case_decide; by simplify_eq.
Qed.

Lemma len_snoc {A} (l : list A) x : len (l ++ [x]) = len l + 1.
Proof. unfold len. rewrite length_app. simpl. lia. Qed.

Lemma rules_map_fresh {K} `{Countable K} (l : list (K * RuleValue)) k v :
  k ∉ dom (rules_map l) → NoDup l.*1 → NoDup (l ++ [(k, v)]).*1.
Proof.
  intros Hk Hnd. rewrite fmap_app. apply NoDup_app. split_and!; [done| |apply NoDup_singleton].
  intros k' Hin ->%list_elem_of_singleton. apply Hk. unfold rules_map.
  rewrite dom_list_to_map_L, elem_of_list_to_set, fmap_reverse. by apply elem_of_reverse.
Qed.

(** The counters of the report after one of them moved. *)
Ltac count_step :=
  unfold report_total_rules, count in *; cbn in *;
  repeat (case_bool_decide; try done); rewrite ?len_snoc, ?map_size_insert_None by done;
  unfold len in *; split_and!; lia.

(** The rest of the invariant after an offer. *)
Lemma offer_inv p visited e t v :
  prepare_inv p visited →
  (∀ t', rule_of (pr_rules (offer t v p)) t' = first_rule (visited ++ [e]) t') →
  prepare_inv (offer t v p) (visited ++ [e]).
Proof.
  intros [_ H4 H6 [N4 N6] HC] Hr. pose proof (len_snoc visited e) as Hl. revert Hr.
  destruct t as [o|o|q o|q o]; cbn [offer].
  - unfold offer_exact_v4. destruct (rs_exact_v4 _ !! o) eqn:E; intros Hr;
      (constructor; [exact Hr|done|done|done|count_step]).
  - unfold offer_exact_v6. destruct (rs_exact_v6 _ !! o) eqn:E; intros Hr;
      (constructor; [exact Hr|done|done|done|count_step]).
  - unfold offer_lpm_v4. case_bool_decide as E; intros Hr;
      (constructor; [exact Hr|..|count_step]); try done; rewrite H4 in E.
    + cbn [pr_rules seen_v4_lpm seen_v6_lpm rs_lpm_v4 rs_lpm_v6]. unfold lpm_rules in *. by rewrite rules_map_snoc, dom_insert_L, H4.
    + split; [by apply rules_map_fresh|done].
  - unfold offer_lpm_v6. case_bool_decide as E; intros Hr;
      (constructor; [exact Hr|..|count_step]); try done; rewrite H6 in E.
    + cbn [pr_rules seen_v4_lpm seen_v6_lpm rs_lpm_v4 rs_lpm_v6]. unfold lpm_rules in *. by rewrite rules_map_snoc, dom_insert_L, H6.
    + split; [done|by apply rules_map_fresh].
Qed.

Lemma prepare_entry_inv p visited e :
  prepare_inv p visited → prepare_inv (prepare_entry e p) (visited ++ [e]).
Proof.
  intros Hp. rewrite prepare_entry_offer. destruct (allowlisted _) eqn:Ha.
  - destruct Hp as [Hr H4 H6 HN HC]. pose proof (len_snoc visited e) as Hl.
    constructor; [|done|done|done|count_step].
    intros t. rewrite first_rule_snoc, <-Hr. cbn. destruct (rule_of _ t); [done|].
    case_decide as Ht; [|done]. by rewrite <-Ht, Ha.
  - apply offer_inv; [done|]. destruct Hp as [Hr H4 H6 _ _]. intros t.
    rewrite offer_rules, first_rule_snoc, <-Hr by done. destruct (rule_of _ t); [done|].
    case_decide as Ht; [|done]. by rewrite <-Ht, Ha.
Qed.

Lemma visit_all_prepare entries : ∀ p visited,
  prepare_inv p visited →
  ∃ p', visit_all (λ e p, Ok (prepare_entry e p)) entries p = Ok p' ∧
    prepare_inv p' (visited ++ entries).
Proof.
  induction entries as [|e entries IH]; intros p visited Hp; cbn [visit_all].
  { exists p. by rewrite app_nil_r. }
  destruct (IH _ _ (prepare_entry_inv p visited e Hp)) as (p' & Hv & Hp').
  exists p'. by rewrite <-app_assoc in Hp'.
Qed.

Lemma prepare_start_inv : prepare_inv prepare_start [].
Proof.
  constructor; try done.
  - intros t. unfold first_rule. by destruct (allowlisted t), t.
  - split; apply NoDup_nil_2.
Qed.

Lemma try_prepare_memory {S} `{!ContextStore S} (ds : FireholDataSet S) :
  ds_stored_entries ds = None →
  ∃ p, try_prepare_rules ds = Ok (prepare_finish p) ∧ prepare_inv p (ds_entries ds).
Proof.
  intros Hm. unfold try_prepare_rules, visit_entries. rewrite Hm.
  destruct (visit_all_prepare (ds_entries ds) _ _ prepare_start_inv) as (p & -> & Hp).
  by exists p.
Qed.

(** ** The spool *)
Definition encode_block (b : list FireholEntry) : list Z := mjoin (encode <$> b).

Lemma chunks_cons {A} fuel n (l : list A) :
  l ≠ [] → chunks (Datatypes.S fuel) n l = take n l :: chunks fuel n (drop n l).
Proof. by destruct l. Qed.

Lemma chunks_encoded b : ∀ fuel,
  Forall fe_ok b → (length b <= fuel)%nat → chunks fuel 30 (encode_block b) = encode <$> b.
Proof.
  induction b as [|e b IH]; intros fuel Hb Hf; [by destruct fuel|].
  destruct fuel as [|fuel]; simpl in Hf; [lia|]. inversion_clear Hb as [|?? He Hb'].
  pose proof (encode_length e He) as Hl.
  change (encode_block (e :: b)) with (encode e ++ encode_block b).
  rewrite chunks_cons, take_app_length', drop_app_length' by
    (done || (intros Hn%(f_equal length); rewrite length_app, Hl in Hn; done)).
  rewrite fmap_cons. f_equal. apply IH; [done|lia].
Qed.

Lemma length_encode_block b : Forall fe_ok b → len (encode_block b) = 30 * len b.
Proof.
  unfold len. induction 1 as [|e b He Hb IH]; [done|].
  change (encode_block (e :: b)) with (encode e ++ encode_block b).
  rewrite length_app, encode_length by done. cbn [length]. lia.
Qed.

Section Spool.
Context {St : Type} (visitor : FireholEntry → St → outcome SpoolError St).

Lemma visit_all_app a b : ∀ st,
  visit_all visitor (a ++ b) st = st' ← visit_all visitor a st; visit_all visitor b st'.
Proof.
  induction a as [|e a IH]; intros st; cbn [visit_all app]; [done|].
  destruct (visitor e st); osimpl; auto.
Qed.

Lemma visit_encoded_all b : ∀ st,
  Forall fe_ok b → visit_encoded visitor (encode <$> b) st = visit_all visitor b st.
Proof.
  induction b as [|e b IH]; intros st Hb; [done|]. inversion_clear Hb as [|?? He Hb'].
  rewrite fmap_cons. cbn [visit_encoded visit_all]. unfold decode_record.
  rewrite decode_encode by done. osimpl. destruct (visitor e st); osimpl; auto.
Qed.

Lemma visit_blocks_all blocks : ∀ st,
  Forall (λ b, b ≠ [] ∧ Forall fe_ok b) blocks →
  visit_blocks visitor (encode_block <$> blocks) false st = visit_all visitor (mjoin blocks) st.
Proof.
  induction blocks as [|b blocks IH]; intros st Hb; [done|].
  inversion_clear Hb as [|?? [Hne Hok] Hb'].
  rewrite fmap_cons. cbn [visit_blocks mjoin list_join]. rewrite visit_all_app.
  pose proof (length_encode_block b Hok) as Hlen.
  assert (0 < len b) by (unfold len; destruct b; simpl; [done|lia]).
  assert (len (encode_block b) mod 30 = 0) as Hmod
    by (rewrite Hlen, Z.mul_comm; apply Z.mod_mul; lia).
  rewrite Hmod, (proj2 (Z.eqb_neq _ _)) by lia. cbn [orb negb Z.eqb].
  rewrite chunks_encoded, visit_encoded_all by (done || unfold len in *; lia).
  destruct (visit_all visitor b st); osimpl; auto.
Qed.
End Spool.

(** ** The allow-list is a list of CIDR blocks *)
Lemma infrastructure_blocks ip :
  bytes_ok 4 ip →
  is_infrastructure_allowlisted_v4 ip = in_cidrs (github_cidrs ++ [(8, [127; 0; 0; 0])]) ip.
Proof.
  intros Hip. unfold in_cidrs. rewrite existsb_app. fold (in_cidrs github_cidrs ip).
  rewrite <-is_github_ipv4_blocks by done.
  pose proof Hip as [Hl Hb]. destruct ip as [|a [|b [|c [|d []]]]]; try discriminate Hl.
  rewrite !Forall_cons in Hb. destruct Hb as (Ha & Hb' & Hc & Hd & _).
  unfold is_infrastructure_allowlisted_v4, is_github_ipv4, octet. cbn [nth existsb fst snd].
  rewrite octets_match_cons_ge by (rewrite ?Forall_cons; done || (unfold len; simpl; lia)).
  change (8 - 8) with 0. rewrite (octets_match_cons_le 0) by
    (rewrite ?Forall_cons; done || (unfold len; simpl; lia)).
  rewrite (all_bytes_eqb (λ b, Z.shiftr 0 (8 - 0) =? Z.shiftr b (8 - 0)) (λ _, true) b
    eq_refl Hb' : (Z.shiftr 0 (8 - 0) =? Z.shiftr b (8 - 0)) = _), andb_true_r, orb_false_r.
  rewrite (Z.eqb_sym 127 a).
  rewrite (all_bytes_eqb (λ c, (112 <=? c) && (c <=? 127)) (λ c, Z.land c 0xF0 =? 112) c
    eq_refl Hc : (112 <=? c) && (c <=? 127) = _).
  rewrite (all_bytes_eqb (λ c, (252 <=? c) && (c <=? 255)) (λ c, Z.land c 0xFC =? 252) c
    eq_refl Hc : (252 <=? c) && (c <=? 255) = _).
  rewrite (all_bytes_eqb (λ c, (108 <=? c) && (c <=? 111)) (λ c, Z.land c 0xFC =? 108) c
    eq_refl Hc : (108 <=? c) && (c <=? 111) = _).
  rewrite (all_bytes_eqb (λ c, (64 <=? c) && (c <=? 79)) (λ c, Z.land c 0xF0 =? 64) c
    eq_refl Hc : (64 <=? c) && (c <=? 79) = _).
  rewrite (all_bytes_eqb (λ c, (22 <=? c) && (c <=? 23)) (λ c, (c =? 22) || (c =? 23)) c
    eq_refl Hc : (22 <=? c) && (c <=? 23) = _).
  by rewrite !orb_assoc.
Qed.

(** ** Theorems *)

(** C12 (functional). Preparing rules from a data set in memory never fails: for
    every target the rule set holds the DROP rule of the first entry that is
    routed to it (full-length networks to the exact tables), and none for
    infrastructure targets; no network appears twice; and the report's counters
    are the sizes of the tables and add up to the number of entries. *)
Theorem prepare_rules_first_entry_wins {S} `{!ContextStore S} (ds : FireholDataSet S) :
  ds_stored_entries ds = None →
  ∃ rules report, try_prepare_rules ds = Ok (rules, report) ∧
    (∀ t, rule_of rules t = first_rule (ds_entries ds) t) ∧
    NoDup (lpm_rules (rs_lpm_v4 rules)).*1 ∧ NoDup (lpm_rules (rs_lpm_v6 rules)).*1 ∧
    rs_total_rules rules = rs_count rules ∧ report_total_rules report = rs_count rules ∧
    rs_total_rules rules + rs_skipped_rules rules + fr_allowlisted_skipped report =
      len (ds_entries ds).
Proof.
  intros Hm. destruct (try_prepare_memory ds Hm) as (p & -> & [Hr _ _ [N4 N6] HC]).
  eexists _, _. split; [done|]. unfold prepare_finish; cbn [rs_lpm_v4 rs_lpm_v6 rs_total_rules
    rs_skipped_rules]. split; [exact Hr|]. split; [done|]. split; [done|]. split; [done|].
  destruct HC as (C1 & C2 & C3 & C4 & C5).
  assert (report_total_rules (pr_report p) = rs_count (pr_rules p)) as Ht
    by (unfold report_total_rules, rs_count; lia).
  split; [exact Ht|lia].
Qed.

(** ** Witnesses *)
Definition demo_dataset (stored : option spool) (entries : list FireholEntry)
    : FireholDataSet MemStore :=
  mkDataSet entries stored (registry_new (S := MemStore)) 1 0 0 0 0 0.
Definition demo_imports : list FireholEntry :=
  [mkEntry (TExactV4 [1; 2; 3; 4]) 1 1 2; mkEntry (TCidrV4 32 [1; 2; 3; 4]) 2 1 3;
   mkEntry (TExactV4 [140; 82; 121; 3]) 3 1 4; mkEntry (TCidrV4 8 [10; 0; 0; 0]) 4 1 5].

Lemma prepare_rules_first_entry_wins_witness :
  ∃ rules report, try_prepare_rules (demo_dataset None demo_imports) = Ok (rules, report) ∧
    rule_of rules (TExactV4 [1; 2; 3; 4]) = Some (rule_drop 1) ∧
    rule_of rules (TExactV4 [140; 82; 121; 3]) = None ∧
    rs_total_rules rules + rs_skipped_rules rules + fr_allowlisted_skipped report = 4.
Proof.
  destruct (prepare_rules_first_entry_wins (demo_dataset None demo_imports) eq_refl)
    as (rules & report & Hp & Hr & _ & _ & _ & _ & Hc).
  exists rules, report. rewrite !Hr. split; [exact Hp|]. split; [vm_compute; reflexivity|].
  split; [vm_compute; reflexivity|exact Hc].
Defined.

