(* ===== verification/Pipeline.v ===== *)
(** * The parallel import ([parse_directory_impl] of [src/firehol/parser.rs])

    Worker threads take files from a shared counter, read them line by line and
    hand full batches to a bounded channel; the coordinator numbers the entries
    in the order of arrival, joins the workers and builds the registry. The
    threads are a step relation: a step is what one thread does between two
    accesses to shared state (file counter, metadata counter, abort flag,
    channel). This file models the import that keeps its entries in memory. *)
From stdpp Require Import base numbers list gmap fin_maps strings sorting relations.
From Stdlib Require Import ZArith Lia.
From S2P Require Import Prelude Net BpfMaps Str Lines Cidr Entry Metadata Attribution Parser Import.
From S2P Require Import FireholSync.

Local Open Scope Z_scope.

(** A list file as [visit_file_lines] lends it: lines, then the end or a read error. *)
Record list_file : Type := mkListFile {
  lf_name : list Z;
  lf_lines : list (list Z);
  lf_error : bool;
  lf_bytes : Z;
}.

(** ** Threads: at the head of the loop, past the test of the abort flag, with a file in
    hand and no metadata identifier for it yet, reading it, at the last flush, over *)
Inductive phase : Type :=
| Idle
| Claiming
| Opening (f : list_file)
| Reading (f : list_file) (rest : list (list Z)) (n : Z)
| Closing
| Finished
| Stopped (e : FireholParseError).

(** A worker: its buffers and the metadata in force ([fp_sent] holds the batches
    it is about to send), and its counters. *)
Record worker : Type := mkWorker {
  wk_phase : phase;
  wk_state : file_parse;
  wk_files : Z;
  wk_bytes : Z;
}.

(** [pl_consume]: the coordinator's loop is receiving, or ended and perhaps failed. *)
Record pipeline : Type := mkPipeline {
  pl_file_index : nat;
  pl_abort : bool;
  pl_next_metadata_id : Z;
  pl_channel : list (list FireholEntry);
  pl_workers : list worker;
  pl_sequence : Z;
  pl_entries : list FireholEntry;
  pl_consume : option (option FireholParseError);
}.

Definition sending (w : worker) : bool := negb (bool_decide (fp_sent (wk_state w) = [])).
Definition ended (w : worker) : bool :=
  match wk_phase w with Finished | Stopped _ => true | _ => false end.

Definition set_outbox (st : file_parse) (sent : list (list FireholEntry)) : file_parse :=
  mkParse (fp_meta st) (fp_emitted st) (fp_next_id st) (fp_entries st) (fp_metadata st) sent.
Definition set_next_id (st : file_parse) (next : Z) : file_parse :=
  mkParse (fp_meta st) (fp_emitted st) next (fp_entries st) (fp_metadata st) (fp_sent st).
(** The start of [parse_single_file], on the worker's buffers. *)
Definition start_file (st : file_parse) (file : list Z) (id : Z) : file_parse :=
  mkParse (ActiveFileMetadata_new file id) false (wrap_u32 (id + 1)) (fp_entries st)
    (fp_metadata st) (fp_sent st).
(** The worker's last [flush]. *)
Definition flush_rest (st : file_parse) : file_parse :=
  match fp_entries st with
  | [] => st
  | full => mkParse (fp_meta st) (fp_emitted st) (fp_next_id st) [] (fp_metadata st)
              (fp_sent st ++ [full])
  end.

Definition worker_new : worker :=
  mkWorker Idle (mkParse (ActiveFileMetadata_new [] 0) true 0 [] [] []) 0 0.
Definition pipeline_new (num_workers : nat) : pipeline :=
  mkPipeline 0 false 1 [] (replicate num_workers worker_new) 0 [] None.

(** Entries are numbered in publication order. *)
Definition number_entries (sequence : Z) (batch : list FireholEntry) : list FireholEntry :=
  imap (λ offset e, mkEntry (fe_target e) (sequence + Z.of_nat offset + 1) (fe_metadata_id e)
                      (fe_line e)) batch.

Definition with_worker (s : pipeline) (i : nat) (w : worker) : pipeline :=
  mkPipeline (pl_file_index s) (pl_abort s) (pl_next_metadata_id s) (pl_channel s)
    (<[i := w]> (pl_workers s)) (pl_sequence s) (pl_entries s) (pl_consume s).
Definition set_shared (s : pipeline) (index : nat) (abort : bool) (next : Z) : pipeline :=
  mkPipeline index abort next (pl_channel s) (pl_workers s) (pl_sequence s) (pl_entries s)
    (pl_consume s).
Definition set_channel (s : pipeline) (ch : list (list FireholEntry)) : pipeline :=
  mkPipeline (pl_file_index s) (pl_abort s) (pl_next_metadata_id s) ch (pl_workers s)
    (pl_sequence s) (pl_entries s) (pl_consume s).

Section Steps.
Context {N4 N6 : Type} `{!IpNet 4 N4} `{!IpNet 16 N6} `{!IpNetText N4 N6}.
Context `{!Lowercase} `{!Chrono}.
Context (ignore_ips : list IpAddr) (files : list list_file).

(** What a worker that is not waiting to send does next. *)
Definition worker_step (s : pipeline) (w : worker) : option (pipeline * worker) :=
  match wk_phase w with
  | Idle =>
      if pl_abort s then
        Some (s, mkWorker Closing (flush_rest (wk_state w)) (wk_files w) (wk_bytes w))
      else Some (s, mkWorker Claiming (wk_state w) (wk_files w) (wk_bytes w))
  | Claiming =>
      Some (set_shared s (S (pl_file_index s)) (pl_abort s) (pl_next_metadata_id s),
        match files !! pl_file_index s with
        | None => mkWorker Closing (flush_rest (wk_state w)) (wk_files w) (wk_bytes w)
        | Some f => mkWorker (Opening f) (wk_state w) (wk_files w) (wk_bytes w)
        end)
  | Opening f =>
      let id := pl_next_metadata_id s in
      Some (set_shared s (pl_file_index s) (pl_abort s) (wrap_u32 (id + 1)),
            mkWorker (Reading f (lf_lines f) 0) (start_file (wk_state w) (lf_name f) id)
              (wk_files w) (wk_bytes w))
  | Reading f (line :: rest) n =>
      match parse_file_line (N4 := N4) (N6 := N6) writing ignore_ips line (n + 1)
              (set_next_id (wk_state w) (pl_next_metadata_id s)) with
      | Ok st =>
          Some (set_shared s (pl_file_index s) (pl_abort s) (fp_next_id st),
                mkWorker (Reading f rest (n + 1)) st (wk_files w) (wk_bytes w))
      | Err e =>
          Some (set_shared s (pl_file_index s) true (pl_next_metadata_id s),
                mkWorker (Stopped e) (wk_state w) (wk_files w) (wk_bytes w))
      | Fault => None
      end
  | Reading f [] n =>
      if lf_error f then
        Some (set_shared s (pl_file_index s) true (pl_next_metadata_id s),
              mkWorker (Stopped EIo) (wk_state w) (wk_files w) (wk_bytes w))
      else
        Some (s, mkWorker Idle (emit_metadata (wk_state w)) (wk_files w + 1)
                   (wk_bytes w + lf_bytes f))
  | Closing => Some (s, mkWorker Finished (wk_state w) (wk_files w) (wk_bytes w))
  | Finished | Stopped _ => None
  end.

(** The error of a send on a closed channel; while a file is read it also sets
    the abort flag. *)
Definition send_failed (s : pipeline) (w : worker) : pipeline * worker :=
  (set_shared s (pl_file_index s)
     (match wk_phase w with Reading _ _ _ => true | _ => pl_abort s end) (pl_next_metadata_id s),
   mkWorker (Stopped EWorkerPanic) (set_outbox (wk_state w) []) (wk_files w) (wk_bytes w)).

(** The coordinator on one received batch. *)
Definition receive (s : pipeline) (batch : list FireholEntry) (rest : list (list FireholEntry))
    : pipeline :=
  if pl_sequence s + len batch <? 2 ^ 32 then
    mkPipeline (pl_file_index s) (pl_abort s) (pl_next_metadata_id s) rest (pl_workers s)
      (pl_sequence s + len batch) (pl_entries s ++ number_entries (pl_sequence s) batch) None
  else
    mkPipeline (pl_file_index s) true (pl_next_metadata_id s) [] (pl_workers s) (pl_sequence s)
      (pl_entries s) (Some (Some EWorkerPanic)).

(** A move of one worker: a local step, a send, or a send on a closed channel. *)
Inductive worker_move : pipeline → pipeline → Prop :=
| StepWorker s i w s' w' :
    pl_workers s !! i = Some w → sending w = false → worker_step s w = Some (s', w') →
    worker_move s (with_worker s' i w')
| StepSend s i w batch sent :
    pl_workers s !! i = Some w → fp_sent (wk_state w) = batch :: sent →
    pl_consume s = None → (length (pl_channel s) < length (pl_workers s))%nat →
    worker_move s (with_worker (set_channel s (pl_channel s ++ [batch])) i
              (mkWorker (wk_phase w) (set_outbox (wk_state w) sent) (wk_files w) (wk_bytes w)))
| StepSendFailed s i w :
    pl_workers s !! i = Some w → sending w = true → is_Some (pl_consume s) →
    worker_move s (with_worker (send_failed s w).1 i (send_failed s w).2).

(** The coordinator's loop ends when the channel is empty and every sender gone. *)
Definition consumed (s : pipeline) (r : option FireholParseError) : pipeline :=
  mkPipeline (pl_file_index s) (pl_abort s) (pl_next_metadata_id s) [] (pl_workers s)
    (pl_sequence s) (pl_entries s) (Some r).

Inductive step : pipeline → pipeline → Prop :=
| StepThread s s' : worker_move s s' → step s s'
| StepReceive s batch rest :
    pl_consume s = None → pl_channel s = batch :: rest → step s (receive s batch rest)
| StepConsumed s :
    pl_consume s = None → pl_channel s = [] → forallb ended (pl_workers s) = true →
    step s (consumed s None).

(** Both the coordinator's loop and the workers have ended. *)
Definition joined (s : pipeline) : Prop :=
  is_Some (pl_consume s) ∧ forallb ended (pl_workers s) = true.

(** Joining: the coordinator's failure, else the first failed worker's. *)
Definition worker_failure (w : worker) : option FireholParseError :=
  match wk_phase w with Stopped e => Some e | _ => None end.
Definition failure (s : pipeline) : option FireholParseError :=
  match pl_consume s with
  | Some (Some e) => Some e
  | _ => head (omap worker_failure (pl_workers s))
  end.
(** A file read to its end: the worker's steps compute [parse_single_file]. *)
Lemma single_file_as_lines file evs content text next_id entries metadata sent :
  Forall ip_ok ignore_ips → Failed ∉ evs → from_utf8 content = Some text →
  parse_single_file (N4 := N4) (N6 := N6) writing ignore_ips file evs content next_id entries
    metadata sent =
    '(_, st) ← visit_lines (parse_file_line (N4 := N4) (N6 := N6) writing ignore_ips)
      (split_terminator newline text) 0
      (mkParse (ActiveFileMetadata_new file next_id) false (wrap_u32 (next_id + 1)) entries
         metadata sent);
    mret (len content, emit_metadata st).
Proof.
  intros Hok Hev Ht. unfold parse_single_file, visit_file_lines.
  pose proof (visit_loop_spec EIo (parse_file_line (N4 := N4) (N6 := N6) writing ignore_ips)
    (on_line_no_fault (N4 := N4) (N6 := N6) ignore_ips Hok)
    (S (length evs + length content)) evs content [] (1024 * 1024) 0 0
    (mkParse (ActiveFileMetadata_new file next_id) false (wrap_u32 (next_id + 1)) entries
         metadata sent) Hev) as Hv.
  unfold visits in Hv. cbn [app] in Hv. rewrite Ht in Hv. rewrite Hv by (done || lia).
  destruct (visit_lines _ _ _ _) as [[n st]| |]; osimpl; [by rewrite Z.add_0_l|done..].
Qed.
End Steps.

(** ** A scheduler: workers before the coordinator, in order; for executing the model *)
Section Scheduler.
Context {N4 N6 : Type} `{!IpNet 4 N4} `{!IpNet 16 N6} `{!IpNetText N4 N6}.
Context `{!Lowercase} `{!Chrono}.
Context (ignore_ips : list IpAddr) (files : list list_file).

Definition move_worker (s : pipeline) (i : nat) (w : worker) : option pipeline :=
  match fp_sent (wk_state w) with
  | [] => '(s', w') ← worker_step (N4 := N4) (N6 := N6) ignore_ips files s w; Some (with_worker s' i w')
  | batch :: sent =>
      match pl_consume s with
      | Some _ => Some (with_worker (send_failed s w).1 i (send_failed s w).2)
      | None =>
          if (length (pl_channel s) <? length (pl_workers s))%nat then
            Some (with_worker (set_channel s (pl_channel s ++ [batch])) i
              (mkWorker (wk_phase w) (set_outbox (wk_state w) sent) (wk_files w) (wk_bytes w)))
          else None
      end
  end.
Fixpoint move_first (s : pipeline) (i : nat) (ws : list worker) : option pipeline :=
  match ws with
  | [] => None
  | w :: rest =>
      match move_worker s i w with Some s' => Some s' | None => move_first s (S i) rest end
  end.
Definition next_state (s : pipeline) : option pipeline :=
  match move_first s 0 (pl_workers s), pl_consume s, pl_channel s with
  | Some s', _, _ => Some s'
  | None, None, batch :: rest => Some (receive s batch rest)
  | None, None, [] =>
      if forallb ended (pl_workers s) then
        Some (consumed s None)
      else None
  | None, Some _, _ => None
  end.
Fixpoint run (fuel : nat) (s : pipeline) : pipeline :=
  match fuel with
  | O => s
  | S fuel' => match next_state s with Some s' => run fuel' s' | None => s end
  end.

Lemma move_worker_step s i w s' :
  pl_workers s !! i = Some w → move_worker s i w = Some s' →
  worker_move (N4 := N4) (N6 := N6) ignore_ips files s s'.
Proof.
  intros Hi. unfold move_worker. destruct (fp_sent (wk_state w)) as [|b sent] eqn:Hs.
  - destruct (worker_step _ _ _ _) as [[s1 w1]|] eqn:Hst; intros [= <-].
    eapply StepWorker; [done| |done]. unfold sending. by rewrite Hs.
  - destruct (pl_consume s) eqn:Hc.
    + intros [= <-]. apply (StepSendFailed _ _ s i w); [done| |by rewrite Hc].
      unfold sending. by rewrite Hs.
    + destruct (Nat.ltb_spec (length (pl_channel s)) (length (pl_workers s))); intros [= <-].
      by apply StepSend.
Qed.

Lemma move_first_step s ws : ∀ i s',
  (∀ j w, ws !! j = Some w → pl_workers s !! (i + j)%nat = Some w) →
  move_first s i ws = Some s' → worker_move (N4 := N4) (N6 := N6) ignore_ips files s s'.
Proof.
  induction ws as [|w ws IH]; intros i s' Hws; [done|]. cbn [move_first].
  destruct (move_worker s i w) eqn:Hm.
  - intros [= <-]. eapply move_worker_step; [|done]. rewrite <-(Nat.add_0_r i). by apply Hws.
  - apply IH. intros j x Hj. rewrite Nat.add_succ_comm. by apply Hws.
Qed.

Lemma run_steps fuel : ∀ s, rtc (step (N4 := N4) (N6 := N6) ignore_ips files) s (run fuel s).
Proof.
  induction fuel as [|fuel IH]; intros s; [done|]. cbn [run].
  destruct (next_state s) as [s'|] eqn:Hn; [|done]. eapply rtc_l; [|apply IH]. unfold next_state in Hn.
  destruct (move_first s 0 (pl_workers s)) as [s1|] eqn:Hm.
  { injection Hn as <-. apply StepThread. by eapply move_first_step; [|exact Hm]. }
  destruct (pl_consume s) eqn:Hc; [done|]. destruct (pl_channel s) as [|b rest] eqn:Hch.
  - destruct (forallb ended _) eqn:He; [|done]. injection Hn as <-. by apply StepConsumed.
  - injection Hn as <-. by apply StepReceive.
Qed.
End Scheduler.

(** ** After the join: registry, indexes and counters *)
Section Finish.
Context {S : Type} `{!ContextStore S} `{!HashOrder}.
Implicit Type r : FireholMetadataRegistry S.

Fixpoint register_all (metadata : list FireholMetadata) r
    : outcome FireholParseError (FireholMetadataRegistry S) :=
  match metadata with
  | [] => Ok r
  | m :: rest =>
      match try_register_metadata r m with
      | Ok (r', _) => register_all rest r'
      | _ => Err ECache
      end
  end.

Definition register_entry r (e : FireholEntry) : FireholMetadataRegistry S :=
  register_rule r (mkRuleInfo (fe_rule_id e) (fe_metadata_id e)
    (default Other (category_for r (fe_metadata_id e))) (fe_line e)).

(** The slot of [counts] an entry belongs to. *)
Definition count_kind (k : nat) (entries : list FireholEntry) : Z :=
  len (filter (λ e, match fe_target e with
    | TExactV4 _ => 0 | TExactV6 _ => 1 | TCidrV4 _ _ => 2 | TCidrV6 _ _ => 3 end%nat = k) entries).

Definition build_dataset (metadata : list FireholMetadata) (entries : list FireholEntry)
    (total_files total_bytes : Z) : outcome FireholParseError (FireholDataSet S) :=
  registry ← register_all metadata registry_new;
  let registry := fold_left register_entry entries registry in
  let registry := build_ip_index (build_rule_block_index registry entries) entries in
  mret (mkDataSet entries None registry total_files total_bytes (count_kind 0 entries)
    (count_kind 1 entries) (count_kind 2 entries) (count_kind 3 entries)).

Definition sum_of (f : worker → Z) (ws : list worker) : Z := fold_right (λ w n, f w + n) 0 ws.

(** What the import returns once every thread has been joined. *)
Definition import_result (s : pipeline) : outcome FireholParseError (FireholDataSet S) :=
  match failure s with
  | Some e => Err e
  | None =>
      build_dataset (pl_workers s ≫= λ w, fp_metadata (wk_state w)) (pl_entries s)
        (sum_of wk_files (pl_workers s)) (sum_of wk_bytes (pl_workers s))
  end.
End Finish.

(** ** Every execution ends *)
Section Termination.
Context {N4 N6 : Type} `{!IpNet 4 N4} `{!IpNet 16 N6} `{!IpNetText N4 N6}.
Context {low : Lowercase} {chrono : Chrono}.
Context (ignore_ips : list IpAddr) (files : list list_file).
Abbreviation steps := (step (N4 := N4) (N6 := N6) ignore_ips files).

Definition phase_weight (p : phase) : nat :=
  match p with
  | Idle => 3 | Claiming => 2 | Opening f => 5 + length (lf_lines f)
  | Reading _ rest _ => 4 + length rest | Closing => 1 | Finished | Stopped _ => 0
  end.
Definition file_weight (f : list_file) : nat := 4 + length (lf_lines f).
Abbreviation total := sum_list_with.
(** Work left, batches to send, batches to receive. *)
Definition work (s : pipeline) : nat :=
  total (phase_weight ∘ wk_phase) (pl_workers s) +
  total file_weight (drop (pl_file_index s) files).
Definition outgoing (s : pipeline) : nat :=
  total (λ w, length (fp_sent (wk_state w))) (pl_workers s).
Definition incoming (s : pipeline) : nat :=
  length (pl_channel s) + match pl_consume s with None => 1 | Some _ => 0 end.

Lemma total_insert {A} (f : A → nat) l i x y :
  l !! i = Some x → (total f (<[i := y]> l) + f x = total f l + f y)%nat.
Proof.
  revert i.
  induction l as [|z l IH]; intros [|i] Hi; simpl in *; simplify_eq; [lia|].
  specialize (IH i Hi). lia.
Qed.

Lemma worker_step_work s w s' w' :
  worker_step (N4 := N4) (N6 := N6) ignore_ips files s w = Some (s', w') →
  pl_workers s' = pl_workers s ∧ pl_consume s' = pl_consume s ∧
  (phase_weight (wk_phase w') + total file_weight (drop (pl_file_index s') files) <
   phase_weight (wk_phase w) + total file_weight (drop (pl_file_index s) files))%nat.
Proof.
  unfold worker_step. destruct (wk_phase w) as [| |f|f [|line rest] n| | |e]; intros H; simplify_eq.
  - destruct (pl_abort s); simplify_eq; split_and!; [done|done|cbn; lia|done|done|cbn; lia].
  - split_and!; [done|done|]. destruct (files !! pl_file_index s) as [f|] eqn:E; cbn.
    + rewrite (drop_S _ _ _ E). cbn [sum_list_with]. unfold file_weight. lia.
    + apply lookup_ge_None in E. rewrite !drop_ge by lia. cbn. lia.
  - split_and!; [done|done|cbn; lia].
  - destruct (lf_error f); simplify_eq; (split_and!; [done|done|cbn; lia]).
  - destruct (parse_file_line _ _ _ _ _); simplify_eq; (split_and!; [done|done|cbn; lia]).
  - split_and!; [done|done|cbn; lia].
Qed.

Lemma step_decreases s s' :
  steps s s' →
  (work s' < work s ∨ work s' ≤ work s ∧
    (outgoing s' < outgoing s ∨ outgoing s' ≤ outgoing s ∧ incoming s' < incoming s))%nat.
Proof.
  intros [? ? [? i w s1 w1 Hw Hs Hst | ? i w b sent Hw Hs Hc Hl | ? i w Hw Hs Hc]
    | ? b rest Hc Hch | ? Hc Hch He].
  - left. destruct (worker_step_work _ _ _ _ Hst) as (Hws & _ & Hlt). unfold work. cbn.
    rewrite <-Hws in Hw. pose proof (total_insert (phase_weight ∘ wk_phase) _ _ _ w1 Hw) as Ht.
    rewrite Hws in Ht |- *. simpl in Ht. lia.
  - right. unfold work, outgoing. cbn.
    pose proof (total_insert (phase_weight ∘ wk_phase) _ _ _
      (mkWorker (wk_phase w) (set_outbox (wk_state w) sent) (wk_files w) (wk_bytes w)) Hw) as H1.
    pose proof (total_insert (λ w, length (fp_sent (wk_state w))) _ _ _
      (mkWorker (wk_phase w) (set_outbox (wk_state w) sent) (wk_files w) (wk_bytes w)) Hw) as H2.
    cbn in H1, H2. rewrite Hs in H2. cbn in H2. lia.
  - right. unfold work, outgoing, send_failed. cbn.
    pose proof (total_insert (phase_weight ∘ wk_phase) _ _ _ (send_failed s0 w).2 Hw) as H1.
    pose proof (total_insert (λ w, length (fp_sent (wk_state w))) _ _ _ (send_failed s0 w).2 Hw) as H2.
    cbn in H1, H2. unfold sending in Hs. destruct (fp_sent (wk_state w)); [done|]. cbn in H2. lia.
  - right. unfold receive, work, outgoing, incoming. rewrite Hc, Hch.
    destruct (_ <? _); cbn; lia.
  - right. unfold work, outgoing, incoming. rewrite Hc, Hch. cbn. lia.
Qed.

(** Lexicographic descent: batches to send below work left, batches to receive
    below both. *)
Lemma steps_terminate_below a : ∀ b c s,
  (work s < a ∨ work s ≤ a ∧ (outgoing s < b ∨ outgoing s ≤ b ∧ incoming s < c))%nat → sn steps s.
Proof.
  induction (lt_wf a) as [a _ IHa]. intros b. induction (lt_wf b) as [b _ IHb]. intros c.
  induction (lt_wf c) as [c _ IHc]. intros s [Hs|[Ha [Hs|[Hb Hs]]]].
  - apply (IHa (work s) Hs (S (outgoing s)) 0%nat). lia.
  - apply (IHb (outgoing s) Hs (S (incoming s))). lia.
  - constructor. intros s' Hst. apply (IHc (incoming s) Hs).
    pose proof (step_decreases _ _ Hst). lia.
Qed.
Lemma steps_terminate s : sn steps s.
Proof. apply (steps_terminate_below (S (work s)) 0 0). lia. Qed.

(** No deadlock: a full channel is always drained, a closed one rejects. *)
Lemma steps_progress s :
  Forall ip_ok ignore_ips → joined s ∨ ∃ s', steps s s'.
Proof.
  intros Hok. destruct (forallb ended (pl_workers s)) eqn:He.
  { destruct (pl_consume s) as [r|] eqn:Hc; [left; split; [by rewrite Hc|done]|right].
    destruct (pl_channel s) as [|b rest] eqn:Hch; [by eexists; apply StepConsumed|].
    by eexists; eapply StepReceive. }
  right. assert (¬ Forall ended (pl_workers s)) as Hx
    by (intros Hall%forallb_True; rewrite He in Hall; done).
  apply not_Forall_Exists in Hx; [|intros w; apply _].
  apply Exists_exists in Hx as (w & [i Hi]%list_elem_of_lookup & Hw).
  destruct (sending w) eqn:Hs.
  - destruct (pl_consume s) as [r|] eqn:Hc.
    { eexists. eapply StepThread, StepSendFailed; [done|done|by rewrite Hc]. }
    destruct (pl_channel s) as [|b rest] eqn:Hch; [|by eexists; eapply StepReceive].
    unfold sending in Hs. destruct (fp_sent (wk_state w)) as [|b sent] eqn:Hsent; [done|].
    eexists. eapply StepThread, StepSend; [done..|]. rewrite Hch. apply lookup_lt_Some in Hi. simpl. lia.
  - assert (∃ s' w', worker_step (N4 := N4) (N6 := N6) ignore_ips files s w = Some (s', w'))
      as (s' & w' & E); [|by eexists; eapply StepThread, StepWorker].
    revert Hw. unfold worker_step, ended, compose.
    destruct (wk_phase w) as [| |f|f [|line rest] n| | |e]; intros Hw;
      [|by do 2 eexists|by do 2 eexists|..|by do 2 eexists|by destruct Hw|by destruct Hw].
    + destruct (pl_abort s); by eauto.
    + destruct (lf_error f); eauto.
    + pose proof (on_line_no_fault (N4 := N4) (N6 := N6) ignore_ips Hok line (n + 1)
        (set_next_id (wk_state w) (pl_next_metadata_id s))) as Hnf.
      destruct (parse_file_line _ _ _ _ _); [by eauto..|done].
Qed.

Lemma steps_reach_join s : Forall ip_ok ignore_ips → ∃ s', rtc steps s s' ∧ joined s'.
Proof.
  intros Hok. induction (steps_terminate s) as [s _ IH].
  destruct (steps_progress s Hok) as [Hj|[s1 H1]]; [by exists s|].
  destruct (IH s1 H1) as (s' & Hr & Hj). exists s'. split; [by eapply rtc_l|done].
Qed.
End Termination.

(** ** Theorem *)

(** C10 (liveness). However the threads are scheduled, the import ends: no infinite
    execution exists, no reachable state is a deadlock (the bounded channel
    included), and from every state the join is reached. *)
Theorem import_always_ends {N4 N6 : Type} `{!IpNet 4 N4} `{!IpNet 16 N6} `{!IpNetText N4 N6}
    `{!Lowercase} `{!Chrono} ignore_ips files s :
  Forall ip_ok ignore_ips →
  sn (step (N4 := N4) (N6 := N6) ignore_ips files) s ∧
  (joined s ∨ ∃ s', step (N4 := N4) (N6 := N6) ignore_ips files s s') ∧
  ∃ s', rtc (step (N4 := N4) (N6 := N6) ignore_ips files) s s' ∧ joined s'.
Proof.
  intros Hok. split; [apply steps_terminate|].
  split; [by apply steps_progress|by apply steps_reach_join].
Qed.

(** ** Witness *)
#[local] Existing Instance demo_lower.
#[local] Existing Instance demo_chrono.
Definition demo_list_files : list list_file :=
  [mkListFile (lit "a.netset") (split_terminator newline demo_list) false 64;
   mkListFile (lit "b.ipset") [lit "198.51.100.7"] false 13].

Lemma import_always_ends_witness :
  ∃ s', rtc (step (N4 := Net 4) (N6 := Net 16) demo_ignore demo_list_files) (pipeline_new 2) s' ∧
    joined s'.
Proof.
  destruct (import_always_ends (N4 := Net 4) (N6 := Net 16) demo_ignore demo_list_files
    (pipeline_new 2)) as (_ & _ & H); [by_decide|exact H].
Defined.
