(* ===== verification/Schedule.v ===== *)
(** * Every schedule imports every line

    The accounts of the parallel import ([Pipeline]): the address lines still to
    be read and the entries produced so far always add up to the files, and
    metadata identifiers are never reused. When the threads are joined, the data
    set holds exactly the entries of the files, whatever the interleaving. *)
From stdpp Require Import base numbers list gmap fin_maps strings sorting relations.
From Stdlib Require Import ZArith Lia.
From S2P Require Import Prelude Net BpfMaps Str Lines Cidr Entry Metadata Attribution Parser Import.
From S2P Require Import FireholSync Pipeline.

Local Open Scope Z_scope.

(** ** Accounting: no line is lost or read twice *)
Section Account.
Context {N4 N6 : Type} `{!IpNet 4 N4} `{!IpNet 16 N6} `{!IpNetText N4 N6}.
Context {low : Lowercase} {chrono : Chrono}.
Context (ignore_ips : list IpAddr) (files : list list_file).
Abbreviation steps := (step (N4 := N4) (N6 := N6) ignore_ips files).
Abbreviation targets_of := (line_targets (N4 := N4) (N6 := N6) ignore_ips).
Abbreviation on_line := (parse_file_line (N4 := N4) (N6 := N6) writing ignore_ips).

(** An address line (file, number, token, category) that is still to be read, or
    a read error ([None]) that is still to come. *)
Definition pending : Type := list Z * Z * option (list Z) * FireholCategory.
Definition tokens (file : list Z) (ds : list (Z * list Z * FireholCategory)) : list pending :=
  (λ d, (file, d.1.1, Some d.1.2, d.2)) <$> ds.
Definition read_error (f : list_file) : list pending :=
  if lf_error f then [(lf_name f, 0, None, Other)] else [].
Definition file_pending (f : list_file) : list pending :=
  tokens (lf_name f) (data_lines Other (lf_lines f) 0) ++ read_error f.
Definition worker_pending (w : worker) : list pending :=
  match wk_phase w with
  | Opening f => file_pending f
  | Reading f rest n =>
      tokens (lf_name f) (data_lines (am_category (fp_meta (wk_state w))) rest n) ++ read_error f
  | _ => []
  end.
Definition remaining (s : pipeline) : list pending :=
  (pl_workers s ≫= worker_pending) ++ (drop (pl_file_index s) files ≫= file_pending).

(** What an address line contributes: file, target, line number, category. *)
Definition item : Type := list Z * FireholIpTarget * Z * FireholCategory.
Definition items_of (p : pending) : list item :=
  match p with
  | (file, n, Some token, c) =>
      match targets_of token with Ok ts => (λ t, (file, t, n, c)) <$> ts | _ => [] end
  | _ => []
  end.
Definition valid (p : pending) : bool :=
  match p.1.2 with
  | Some token => match targets_of token with Ok _ => true | _ => false end
  | None => false
  end.

(** An entry stands for an item when its metadata record names file and category. *)
Definition entry_of (metadata : list FireholMetadata) (ei : FireholEntry * item) : Prop :=
  let '(e, (file, t, n, c)) := ei in
  fe_target e = t ∧ fe_line e = wrap_u32 n ∧
  ∃ m, m ∈ metadata ∧ md_id m = fe_metadata_id e ∧ md_file_name m = file ∧ md_category m = c.
Definition unnumbered (e : FireholEntry) : FireholEntry :=
  mkEntry (fe_target e) 0 (fe_metadata_id e) (fe_line e).

Definition metadata_of (s : pipeline) : list FireholMetadata :=
  pl_workers s ≫= λ w, fp_metadata (wk_state w).
(** All entries produced so far, wherever they are. *)
Definition flow (s : pipeline) : list FireholEntry :=
  unnumbered <$> pl_entries s ++ mjoin (pl_channel s) ++
    (pl_workers s ≫= λ w, all_entries (wk_state w)).

(** Metadata identifiers in use: recorded, or allocated for the file in hand. *)
Definition state_ids (st : file_parse) : list Z :=
  (md_id <$> fp_metadata st) ++ (if fp_emitted st then [] else [am_current_metadata_id (fp_meta st)]).
Definition ids (s : pipeline) : list Z := pl_workers s ≫= λ w, state_ids (wk_state w).
(** Identifiers that may still be allocated: one per file and one per line. *)
Definition file_budget (f : list_file) : nat := 1 + length (lf_lines f).
Definition worker_budget (w : worker) : nat :=
  match wk_phase w with Opening f => file_budget f | Reading _ rest _ => length rest | _ => 0 end.
Definition budget (s : pipeline) : nat :=
  sum_list_with worker_budget (pl_workers s) +
  sum_list_with file_budget (drop (pl_file_index s) files).

Definition worker_ok (index : nat) (next : Z) (w : worker) : Prop :=
  let st := wk_state w in
  match wk_phase w with
  | Idle | Claiming | Opening _ =>
      fp_emitted st = true ∧ fp_sent st = [] ∧ (length (fp_entries st) < WORKER_BATCH_SIZE)%nat
  | Reading f rest n =>
      parse_inv (lf_name f) (all_entries st) (set_next_id st next) [] (am_category (fp_meta st))
  | Closing => fp_emitted st = true ∧ fp_entries st = [] ∧ (length files ≤ index)%nat
  | Finished =>
      fp_emitted st = true ∧ fp_entries st = [] ∧ fp_sent st = [] ∧ (length files ≤ index)%nat
  | Stopped _ => False
  end.

Record account (s : pipeline) : Prop := {
  ac_lines : ∃ done acct,
    done ++ remaining s ≡ₚ files ≫= file_pending ∧ Forall valid done ∧
    acct.*1 ≡ₚ flow s ∧ acct.*2 ≡ₚ done ≫= items_of ∧ Forall (entry_of (metadata_of s)) acct;
  ac_ids : NoDup (ids s) ∧ Forall (λ i, 1 <= i < pl_next_metadata_id s) (ids s);
  ac_budget : 1 <= pl_next_metadata_id s ∧
    pl_next_metadata_id s + Z.of_nat (budget s) <= 1 + Z.of_nat (sum_list_with file_budget files);
  ac_workers : Forall (worker_ok (pl_file_index s) (pl_next_metadata_id s)) (pl_workers s);
  ac_sequence : pl_sequence s = len (pl_entries s) ∧ pl_sequence s < 2 ^ 32 ∧
    fe_rule_id <$> pl_entries s = seqZ 1 (len (pl_entries s));
  ac_abort : pl_abort s = false;
  ac_consume : is_Some (pl_consume s) →
    pl_consume s = Some None ∧ pl_channel s = [] ∧ forallb ended (pl_workers s) = true;
}.

(** The worker that moves, and the others. *)
Lemma worker_split (ws : list worker) i w :
  ws !! i = Some w → ∃ others, ws ≡ₚ w :: others ∧ ∀ w', <[i := w']> ws ≡ₚ w' :: others.
Proof.
  revert i. induction ws as [|x ws IH]; intros [|i] Hi; simpl in *; simplify_eq; [by exists ws|].
  destruct (IH i Hi) as (others & H1 & H2). exists (x :: others). split.
  - rewrite H1. apply Permutation_swap.
  - intros w'. rewrite H2. apply Permutation_swap.
Qed.

(** A line of a file moves identifiers only by allocating the next one, and only
    adds metadata. *)
Lemma apply_comment_ids key val st :
  (state_ids (apply_comment key val st) = state_ids st ∧
     fp_next_id (apply_comment key val st) = fp_next_id st ∨
   state_ids (apply_comment key val st) = state_ids st ++ [fp_next_id st] ∧
     fp_next_id (apply_comment key val st) = wrap_u32 (fp_next_id st + 1)) ∧
  fp_metadata (apply_comment key val st) = fp_metadata st.
Proof.
  unfold apply_comment, state_ids. case_bool_decide.
  - destruct (negb _), (fp_emitted st) eqn:He; cbn; rewrite ?He, ?app_nil_r; auto.
  - repeat (case_bool_decide; [by cbn; auto|]). auto.
Qed.

Lemma push_targets_ids n ts : ∀ st st',
  push_targets writing n ts st = Ok st' →
  state_ids st' = state_ids st ∧ fp_next_id st' = fp_next_id st ∧ fp_metadata st' = fp_metadata st.
Proof.
  induction ts as [|t ts IH]; intros st st'; cbn [push_targets]; [by intros [= <-]|].
  destruct (_ <=? _)%nat.
  - unfold flush. cbn [fp_entries]. destruct (fp_entries st ++ _); osimpl;
      intros (-> & -> & ->)%IH; done.
  - osimpl. by intros (-> & -> & ->)%IH.
Qed.

Lemma emit_ids st :
  state_ids (emit_metadata st) = state_ids st ∧ fp_next_id (emit_metadata st) = fp_next_id st ∧
  fp_metadata st ⊆ fp_metadata (emit_metadata st) ∧ fp_emitted (emit_metadata st) = true ∧
  all_entries (emit_metadata st) = all_entries st.
Proof.
  unfold emit_metadata, state_ids. destruct (fp_emitted st) eqn:He; [by rewrite He|].
  cbn. rewrite fmap_app, <-app_assoc. split_and!; [done..|set_solver|done|done].
Qed.

Lemma on_line_ids line n st st' :
  on_line line n st = Ok st' →
  (state_ids st' = state_ids st ∧ fp_next_id st' = fp_next_id st ∨
   state_ids st' = state_ids st ++ [fp_next_id st] ∧ fp_next_id st' = wrap_u32 (fp_next_id st + 1)) ∧
  fp_metadata st ⊆ fp_metadata st'.
Proof.
  unfold parse_file_line. intros H. destruct (_ =? 0) in H; [by simplify_eq; auto|].
  destruct (strip_prefix 35 (trim line)) as [stripped|].
  - destruct (comment_field stripped) as [[key val]|]; simplify_eq; [|auto].
    destruct (apply_comment_ids key val st) as [Hi ->]. auto.
  - destruct (_ =? 0) in H; [by simplify_eq; auto|].
    destruct (targets_of _) as [ts| |] in H; [|done..].
    destruct (push_targets_ids _ _ _ _ H) as (-> & -> & ->).
    destruct (emit_ids st) as (-> & -> & ? & _). auto.
Qed.

Lemma parse_inv_next file base st next next' acc c :
  next <= next' → parse_inv file base (set_next_id st next) acc c →
  parse_inv file base (set_next_id st next') acc c.
Proof.
  intros Hle [? ? ? ? ? ? Hn]. constructor; try done.
  eapply Forall_impl; [exact Hn|]. cbn. lia.
Qed.

Lemma worker_ok_mono index index' next next' w :
  (index ≤ index')%nat → next <= next' → worker_ok index next w → worker_ok index' next' w.
Proof.
  intros Hi Hn. unfold worker_ok.
  destruct (wk_phase w); [done|done|done|by apply parse_inv_next|naive_solver lia..].
Qed.

Lemma entry_of_mono md md' acct :
  md ⊆ md' → Forall (entry_of md) acct → Forall (entry_of md') acct.
Proof.
  intros Hsub Hf. eapply Forall_impl; [exact Hf|].
  intros [e [[[file t] n] c]] (? & ? & m & Hm & ?). split_and!; [done..|]. exists m.
  split; [by apply Hsub|done].
Qed.

(** What the moving worker changes, next to what the others hold. *)
Lemma perm_frame {A} (d nd p o r p' r' : list A) :
  p ++ r ≡ₚ nd ++ p' ++ r' → (d ++ nd) ++ (p' ++ o) ++ r' ≡ₚ d ++ (p ++ o) ++ r.
Proof.
  intros H. rewrite <-!app_assoc. f_equiv. rewrite !(Permutation_app_comm o).
  by rewrite (app_assoc p), H, <-!app_assoc.
Qed.

(** One worker moves, perhaps taking a file or filling the channel: it hands
    over the lines [ndone], which become the entries [nacct]. *)
Lemma account_move s s' w w' others ndone nacct :
  account s → pl_workers s ≡ₚ w :: others → pl_workers s' ≡ₚ w' :: others →
  pl_consume s = None → pl_consume s' = None → pl_abort s' = false →
  pl_sequence s' = pl_sequence s → pl_entries s' = pl_entries s →
  worker_pending w ++ (drop (pl_file_index s) files ≫= file_pending) ≡ₚ
    ndone ++ worker_pending w' ++ (drop (pl_file_index s') files ≫= file_pending) →
  Forall valid ndone → nacct.*2 ≡ₚ ndone ≫= items_of →
  nacct.*1 ++ (unnumbered <$> mjoin (pl_channel s) ++ all_entries (wk_state w)) ≡ₚ
    unnumbered <$> mjoin (pl_channel s') ++ all_entries (wk_state w') →
  Forall (entry_of (fp_metadata (wk_state w'))) nacct →
  fp_metadata (wk_state w) ⊆ fp_metadata (wk_state w') →
  (state_ids (wk_state w') = state_ids (wk_state w) ∧
     pl_next_metadata_id s' = pl_next_metadata_id s ∨
   state_ids (wk_state w') = state_ids (wk_state w) ++ [pl_next_metadata_id s] ∧
     pl_next_metadata_id s' = pl_next_metadata_id s + 1) →
  pl_next_metadata_id s' + Z.of_nat (worker_budget w' +
    sum_list_with file_budget (drop (pl_file_index s') files)) <=
  pl_next_metadata_id s + Z.of_nat (worker_budget w +
    sum_list_with file_budget (drop (pl_file_index s) files)) →
  (pl_file_index s ≤ pl_file_index s')%nat →
  worker_ok (pl_file_index s') (pl_next_metadata_id s') w' → account s'.
Proof.
  intros [(done & acct & Hl & Hv & H1 & H2 & He) [Hnd Hlt] [Hn1 Hn2] Hws Hseq _ _] Hw Hw' Hc Hc' Hab
    Hsq Hen Hpend Hvn Hitems Hflow Hent Hmd Hids Hbud Hidx Hok.
  assert (Hb : ∀ B (f : worker → list B), pl_workers s ≫= f ≡ₚ f w ++ (others ≫= f))
    by (intros B f; by rewrite Hw).
  assert (Hb' : ∀ B (f : worker → list B), pl_workers s' ≫= f ≡ₚ f w' ++ (others ≫= f))
    by (intros B f; by rewrite Hw').
  unfold remaining, flow, metadata_of, ids, budget in *.
  rewrite Hb in Hl, H1, Hnd, Hlt. rewrite Hw in Hws, Hn2. cbn [sum_list_with] in *.
  constructor.
  - exists (done ++ ndone), (nacct ++ acct). unfold remaining, flow, metadata_of. split_and!.
    + rewrite <-Hl, Hb'. by apply perm_frame.
    + by apply Forall_app.
    + rewrite Hb', Hen, fmap_app, H1, !fmap_app. rewrite !fmap_app in Hflow.
      rewrite (Permutation_app_comm nacct.*1), <-!app_assoc. f_equiv.
      rewrite (app_assoc (unnumbered <$> mjoin (pl_channel s'))), <-Hflow.
      rewrite (Permutation_app_comm nacct.*1), <-!app_assoc. do 2 f_equiv.
      apply Permutation_app_comm.
    + rewrite fmap_app, bind_app, Hitems, H2. apply Permutation_app_comm.
    + apply Forall_app. split; (eapply entry_of_mono; [|done]); intros m Hm.
      * rewrite Hb'. apply elem_of_app. by left.
      * rewrite Hb in Hm. rewrite Hb'. apply elem_of_app in Hm as [Hm|Hm]; apply elem_of_app; auto.
  - unfold ids. rewrite Hb'. destruct Hids as [[-> ->]|[-> ->]]; [done|]. rewrite <-app_assoc.
    rewrite (Permutation_app_comm [_]), app_assoc. split.
    + apply NoDup_app. split_and!; [done| |apply NoDup_singleton].
      intros i Hi ->%list_elem_of_singleton. rewrite Forall_forall in Hlt.
      specialize (Hlt _ Hi). simpl in Hlt. lia.
    + apply Forall_app. split; [eapply Forall_impl; [done|]; simpl; lia|].
      constructor; [lia|done].
  - unfold budget. rewrite Hw'. cbn [sum_list_with]. destruct Hids as [[_ ?]|[_ ?]]; lia.
  - rewrite Hw'. apply Forall_cons in Hws as [_ Hws]. constructor; [done|].
    eapply Forall_impl; [done|]. intros x Hx.
    eapply worker_ok_mono; [done| |exact Hx]. destruct Hids as [[_ ?]|[_ ?]]; lia.
  - by rewrite Hsq, Hen.
  - done.
  - rewrite Hc'. by intros [].
Qed.

(** What the accounts say about one worker. *)
Lemma account_worker s w others :
  account s → pl_workers s ≡ₚ w :: others →
  worker_ok (pl_file_index s) (pl_next_metadata_id s) w ∧
  NoDup (state_ids (wk_state w)) ∧ Forall (λ i, i < pl_next_metadata_id s) (state_ids (wk_state w)) ∧
  1 <= pl_next_metadata_id s ∧
  pl_next_metadata_id s + Z.of_nat (worker_budget w +
    sum_list_with file_budget (drop (pl_file_index s) files)) <=
    1 + Z.of_nat (sum_list_with file_budget files).
Proof.
  intros [_ [Hnd Hlt] [Hn1 Hn2] Hws _ _ _] Hw. unfold ids, budget in *.
  assert (Hb : pl_workers s ≫= (λ w, state_ids (wk_state w)) ≡ₚ
    state_ids (wk_state w) ++ (others ≫= λ w, state_ids (wk_state w))) by (by rewrite Hw).
  rewrite Hb in Hnd, Hlt. rewrite Hw in Hws, Hn2. cbn [sum_list_with] in Hn2.
  apply Forall_cons in Hws as [Hok _]. apply NoDup_app in Hnd as [Hnd _].
  apply Forall_app in Hlt as [Hlt _]. split_and!; [done|done| |done|lia].
  eapply Forall_impl; [exact Hlt|]. cbn. lia.
Qed.

Lemma flush_rest_entries st :
  all_entries (flush_rest st) = all_entries st ∧ fp_entries (flush_rest st) = [] ∧
  fp_emitted (flush_rest st) = fp_emitted st ∧ fp_metadata (flush_rest st) = fp_metadata st ∧
  state_ids (flush_rest st) = state_ids st.
Proof.
  unfold flush_rest. destruct (fp_entries st) eqn:E; [done|].
  unfold all_entries. cbn [fp_entries fp_sent fp_emitted fp_metadata].
  rewrite join_app, E, app_nil_r. simpl. by rewrite app_nil_r.
Qed.

Lemma state_ids_next st next : state_ids (set_next_id st next) = state_ids st.
Proof. done. Qed.

Lemma parse_inv_rebase file base st acc c :
  parse_inv file base st acc c →
  parse_inv file (all_entries st) (set_next_id st (fp_next_id st)) [] (am_category (fp_meta st)).
Proof.
  intros [? Hc ? ? ? ? ?]. subst c. constructor; try done. exists []. by rewrite app_nil_r.
Qed.

(** Entries of one line, as accounts. *)
Lemma produced_accounts file md new ts n c :
  Forall2 (produced file md) new ((λ t, (t, n, c)) <$> ts) →
  let nacct := zip new ((λ t, (file, t, n, c)) <$> ts) in
  nacct.*1 = unnumbered <$> new ∧ nacct.*2 = (λ t, (file, t, n, c)) <$> ts ∧
  Forall (entry_of md) nacct.
Proof.
  revert new. induction ts as [|t ts IH]; intros new Hf; inversion_clear Hf as [|e ? new' ? He Hf'];
    [done|].
  destruct (IH _ Hf') as (H1 & H2 & H3). destruct He as (Ht & Hl & Hr & Hm).
  rewrite !fmap_cons. cbn [zip zip_with]. rewrite !fmap_cons. split_and!.
  - f_equal; [|exact H1]. unfold unnumbered. rewrite <-Hr. by destruct e.
  - f_equal. exact H2.
  - constructor; [|exact H3]. done.
Qed.

Hypothesis ignored_ok : Forall ip_ok ignore_ips.
Hypothesis ids_fit : 1 + Z.of_nat (sum_list_with file_budget files) < 2 ^ 32.

(** A worker takes the next file from the shared counter. *)
Lemma account_claim s i w f :
  account s → pl_workers s !! i = Some w → wk_phase w = Claiming → pl_consume s = None →
  files !! pl_file_index s = Some f →
  account (with_worker (set_shared s (S (pl_file_index s)) false (pl_next_metadata_id s)) i
    (mkWorker (Opening f) (wk_state w) (wk_files w) (wk_bytes w))).
Proof using Type.
  clear ignored_ok ids_fit. intros Ha Hi Hp Hc Hf. destruct (worker_split _ _ _ Hi) as (others & Hw & Hw').
  destruct (account_worker s w others Ha Hw) as (Hok & _ & _ & Hn & Hb).
  unfold worker_ok in Hok. rewrite Hp in Hok.
  eapply (account_move s _ w _ others [] []);
    [exact Ha|exact Hw|apply Hw'|exact Hc|exact Hc|done..| |constructor|done|done|constructor|done|by left| | |exact Hok].
  - unfold worker_pending. cbn [wk_phase with_worker set_shared pl_file_index app].
    by rewrite (drop_S _ _ _ Hf), Hp.
  - unfold worker_budget. cbn [wk_phase with_worker set_shared pl_file_index pl_next_metadata_id].
    rewrite (drop_S _ _ _ Hf), Hp. cbn [sum_list_with]. lia.
  - cbn. lia.
Qed.

(** It allocates the file's first metadata identifier. *)
Lemma account_open s i w f :
  account s → pl_workers s !! i = Some w → wk_phase w = Opening f → pl_consume s = None →
  account (with_worker (set_shared s (pl_file_index s) false (wrap_u32 (pl_next_metadata_id s + 1))) i
    (mkWorker (Reading f (lf_lines f) 0)
      (start_file (wk_state w) (lf_name f) (pl_next_metadata_id s)) (wk_files w) (wk_bytes w))).
Proof using ids_fit.
  intros Ha Hi Hp Hc. destruct (worker_split _ _ _ Hi) as (others & Hw & Hw').
  destruct (account_worker s w others Ha Hw) as (Hok & Hnd & Hlt & Hn & Hb).
  unfold worker_ok in Hok. unfold worker_budget in Hb. rewrite Hp in Hok, Hb.
  destruct Hok as (Hem & Hsent & Hlen).
  unfold state_ids in Hnd, Hlt. rewrite Hem, app_nil_r in Hnd, Hlt.
  assert (Hwrap : wrap_u32 (pl_next_metadata_id s + 1) = pl_next_metadata_id s + 1).
  { apply wrap_small. unfold in_width, file_budget in *. lia. }
  eapply (account_move s _ w _ others [] []);
    [exact Ha|exact Hw|apply Hw'|exact Hc|exact Hc|done..| |constructor|done|done|constructor|done| | |done|].
  - unfold worker_pending. by rewrite Hp.
  - right. unfold state_ids. cbn. rewrite Hem, app_nil_r. done.
  - unfold worker_budget. cbn [with_worker set_shared pl_next_metadata_id pl_file_index wk_phase].
    rewrite Hp, Hwrap. unfold file_budget at 2. lia.
  - unfold worker_ok. cbn [wk_phase wk_state with_worker set_shared pl_next_metadata_id].
    rewrite Forall_fmap in Hlt.
    apply (parse_start_inv (lf_name f) (pl_next_metadata_id s) (fp_entries (wk_state w))
      (fp_metadata (wk_state w)) (fp_sent (wk_state w))); [|done|done|done|by rewrite Hsent].
    rewrite <-Hwrap. by apply wrap_in_width.
Qed.

(** A line read without error: the address line it was, if any, and its entries. *)
Lemma line_account file base st0 line rest n c st :
  parse_inv file base st0 [] c → fp_next_id st0 + 1 < 2 ^ 32 → 0 <= fp_next_id st0 →
  on_line line (n + 1) st0 = Ok st →
  ∃ ndone nacct new,
    tokens file (data_lines c (line :: rest) n) =
      ndone ++ tokens file (data_lines (am_category (fp_meta st)) rest (n + 1)) ∧
    Forall valid ndone ∧ nacct.*2 = ndone ≫= items_of ∧ nacct.*1 = unnumbered <$> new ∧
    all_entries st = base ++ new ∧ Forall (entry_of (fp_metadata st)) nacct ∧
    parse_inv file (all_entries st) (set_next_id st (fp_next_id st)) [] (am_category (fp_meta st)).
Proof using ignored_ok.
  intros Hinv Hn H0 Hst.
  pose proof (file_line_inv (N4 := N4) (N6 := N6) ignore_ips ignored_ok file base line (n + 1) st0
    [] c Hinv Hn H0) as Hl.
  cbn [data_lines]. destruct (classify_line line) as [|c'|token];
    [| |destruct (targets_of token) as [ts| |] eqn:Et; [|by rewrite Hl in Hst..]];
    destruct Hl as (st' & E & Hi' & _); rewrite Hst in E; injection E as <-;
    pose proof (parse_inv_rebase _ _ _ _ _ Hi') as Hr;
    destruct Hi' as [_ Hcat (new & Hall & Hnew) _ _ _ _]; rewrite Hcat in *; cbn [app] in Hnew.
  1,2: apply Forall2_nil_inv_r in Hnew as ->; exists [], [], []; by split_and!.
  destruct (produced_accounts _ _ _ _ _ _ Hnew) as (H1 & H2 & H3).
  exists [(file, n + 1, Some token, c)], (zip new ((λ t, (file, t, n + 1, c)) <$> ts)), new.
  split_and!; try done.
  - repeat constructor. unfold valid. cbn. by rewrite Et.
  - etrans; [exact H2|]. cbn. by rewrite Et, app_nil_r.
Qed.

(** A worker reads a line. *)
Lemma account_line s i w f line rest n st :
  account s → pl_workers s !! i = Some w → wk_phase w = Reading f (line :: rest) n →
  pl_consume s = None →
  on_line line (n + 1) (set_next_id (wk_state w) (pl_next_metadata_id s)) = Ok st →
  account (with_worker (set_shared s (pl_file_index s) (pl_abort s) (fp_next_id st)) i
    (mkWorker (Reading f rest (n + 1)) st (wk_files w) (wk_bytes w))).
Proof using ids_fit ignored_ok.
  intros Ha Hi Hp Hc Hst. destruct (worker_split _ _ _ Hi) as (others & Hw & Hw').
  destruct (account_worker s w others Ha Hw) as (Hok & Hnd & Hlt & Hn & Hb).
  unfold worker_ok in Hok. unfold worker_budget in Hb. rewrite Hp in Hok, Hb. cbn [length] in Hb.
  set (st0 := set_next_id (wk_state w) (pl_next_metadata_id s)) in *.
  destruct (line_account _ _ st0 line rest n _ st Hok ltac:(cbn; lia) ltac:(cbn; lia) Hst)
    as (ndone & nacct & new & Hd & Hv & H2 & H1 & Hall & Hent & Hinv).
  destruct (on_line_ids _ _ _ _ Hst) as [Hids Hmd].
  change (fp_next_id st0) with (pl_next_metadata_id s) in Hids.
  rewrite wrap_small in Hids by (unfold in_width; lia).
  eapply (account_move s _ w _ others ndone nacct);
    [exact Ha|exact Hw|apply Hw'|exact Hc|exact Hc|by apply Ha|done..| |exact Hv|by rewrite H2| |
     exact Hent|exact Hmd|exact Hids| |done|exact Hinv].
  - unfold worker_pending. rewrite Hp. cbn [wk_phase wk_state with_worker set_shared pl_file_index].
    by rewrite Hd, <-!app_assoc.
  - cbn [wk_state with_worker set_shared pl_channel]. rewrite Hall, H1, !fmap_app.
    rewrite (Permutation_app_comm (unnumbered <$> new)), <-!app_assoc. done.
  - unfold worker_budget. rewrite Hp. cbn [wk_phase with_worker set_shared pl_file_index
      pl_next_metadata_id length]. destruct Hids as [[_ ->]|[_ ->]]; lia.
Qed.

(** A worker moves without reading: it ends a file, closes, or has sent a batch. *)
Lemma account_quiet s s' i w w' :
  account s → pl_workers s !! i = Some w → pl_workers s' = <[i := w']> (pl_workers s) →
  pl_consume s = None → pl_consume s' = None → pl_abort s' = pl_abort s →
  pl_sequence s' = pl_sequence s → pl_entries s' = pl_entries s →
  pl_next_metadata_id s' = pl_next_metadata_id s → (pl_file_index s ≤ pl_file_index s')%nat →
  drop (pl_file_index s') files = drop (pl_file_index s) files →
  worker_pending w' = worker_pending w → worker_budget w' = worker_budget w →
  mjoin (pl_channel s') ++ all_entries (wk_state w') ≡ₚ
    mjoin (pl_channel s) ++ all_entries (wk_state w) →
  fp_metadata (wk_state w) ⊆ fp_metadata (wk_state w') →
  state_ids (wk_state w') = state_ids (wk_state w) →
  worker_ok (pl_file_index s') (pl_next_metadata_id s) w' → account s'.
Proof.
  intros Ha Hi Hws Hc Hc' Hab Hsq Hen Hnx Hix Hdr Hp Hb Hfl Hmd Hids Hok.
  destruct (worker_split _ _ _ Hi) as (others & Hw & Hw').
  eapply (account_move s s' w w' others [] []);
    [exact Ha|exact Hw|by rewrite Hws|done|done|rewrite Hab; by apply Ha|done|done| |constructor|done| |
     constructor|done|by left| |done|by rewrite Hnx].
  - by rewrite Hdr, Hp.
  - by rewrite Hfl.
  - by rewrite Hdr, Hb, Hnx.
Qed.

Lemma number_unnumber q batch : unnumbered <$> number_entries q batch = unnumbered <$> batch.
Proof. unfold number_entries. rewrite fmap_imap. apply (imap_const unnumbered). Qed.
Lemma number_ids q batch : fe_rule_id <$> number_entries q batch = seqZ (q + 1) (len batch).
Proof.
  unfold number_entries, len. rewrite fmap_imap. revert q.
  induction batch as [|e batch IH]; intros q; [done|]. rewrite imap_cons. cbn [length].
  rewrite seqZ_cons by lia. f_equal; [cbn; lia|].
  replace (Z.pred _) with (Z.of_nat (length batch)) by lia.
  replace (Z.succ (q + 1)) with (q + 1 + 1) by lia. rewrite <-(IH (q + 1)).
  apply imap_ext. intros j x _. cbn. lia.
Qed.

(** The coordinator numbers a batch. *)
Lemma account_receive s batch rest :
  account s → pl_consume s = None → pl_channel s = batch :: rest →
  pl_sequence s + len batch < 2 ^ 32 → account (receive s batch rest).
Proof.
  intros [(done & acct & Hl & Hv & H1 & H2 & He) Hids Hbud Hws (Hs1 & _ & Hs2) Hab Hcs] Hc Hch Hlt.
  unfold receive. rewrite (proj2 (Z.ltb_lt _ _) Hlt). constructor; try done.
  - exists done, acct. split_and!; [done..|rewrite H1|done|done]. unfold flow.
    cbn [pl_entries pl_channel pl_workers]. rewrite Hch. cbn [mjoin list_join].
    rewrite !fmap_app, number_unnumber, <-!app_assoc. done.
  - cbn [pl_sequence pl_entries]. assert (Hn : len (pl_entries s ++ number_entries (pl_sequence s) batch)
      = pl_sequence s + len batch).
    { unfold len, number_entries in *. rewrite length_app, length_imap. lia. }
    split; [by rewrite Hn|]. split; [done|]. rewrite Hn, fmap_app, Hs2, number_ids, Hs1.
    by rewrite (Z.add_comm _ 1), <-seqZ_app by (unfold len; lia).
  - cbn. by intros [].
Qed.

Lemma failure_None s :
  failure s = None ↔ (∀ e, pl_consume s ≠ Some (Some e)) ∧
    ∀ i w e, pl_workers s !! i = Some w → wk_phase w ≠ Stopped e.
Proof.
  unfold failure. split.
  - intros Hf. assert (Hc : ∀ e, pl_consume s ≠ Some (Some e))
      by (intros e He; by rewrite He in Hf). split; [done|].
    assert (Hh : omap worker_failure (pl_workers s) = []).
    { destruct (pl_consume s) as [[e|]|]; [by destruct (Hc e)| |];
        by destruct (omap worker_failure (pl_workers s)). }
    intros i w e Hi%list_elem_of_lookup_2 Hp.
    assert (e ∈ omap worker_failure (pl_workers s)) as Hin
      by (apply list_elem_of_omap; exists w; unfold worker_failure; by rewrite Hp).
    rewrite Hh in Hin. by apply not_elem_of_nil in Hin.
  - intros [Hc Hw]. destruct (pl_consume s) as [[e|]|]; [by destruct (Hc e)| |];
      (destruct (omap worker_failure (pl_workers s)) as [|e l] eqn:E; [done|]);
      assert (e ∈ omap worker_failure (pl_workers s)) as Hin by (rewrite E; by left);
      apply list_elem_of_omap in Hin as (w & [i Hi]%list_elem_of_lookup & Hf);
      unfold worker_failure in Hf; destruct (wk_phase w) eqn:Ep; try done; by destruct (Hw i w e0 Hi).
Qed.

Lemma with_worker_failure s i w e :
  (i < length (pl_workers s))%nat → wk_phase w = Stopped e → failure (with_worker s i w) ≠ None.
Proof.
  intros Hi Hp [_ Hf]%failure_None. apply (Hf i w e); [|done].
  cbn. by apply list_lookup_insert_eq.
Qed.

Lemma not_ended_receiving s i w :
  account s → pl_workers s !! i = Some w → ended w = false → pl_consume s = None.
Proof.
  intros Ha Hi He. destruct (pl_consume s) as [r|] eqn:Hc; [|done].
  destruct (ac_consume s Ha) as (_ & _ & Hall); [by rewrite Hc|].
  rewrite forallb_forall in Hall. rewrite Hall in He; [done|].
  apply list_elem_of_In. by eapply list_elem_of_lookup_2.
Qed.

Lemma worker_step_account s i w s1 w1 :
  account s → pl_workers s !! i = Some w → sending w = false →
  worker_step (N4 := N4) (N6 := N6) ignore_ips files s w = Some (s1, w1) →
  failure (with_worker s1 i w1) = None → account (with_worker s1 i w1).
Proof using ids_fit ignored_ok.
  intros Ha Hi Hs Hst Hf.
  assert (Hen : ended w = false) by (unfold worker_step, ended in *; by destruct (wk_phase w)).
  pose proof (not_ended_receiving s i w Ha Hi Hen) as Hc. pose proof (ac_abort s Ha) as Hab.
  pose proof (ac_workers s Ha) as Hok. rewrite Forall_lookup in Hok. specialize (Hok i w Hi).
  assert (Hlt : (i < length (pl_workers s))%nat) by (by eapply lookup_lt_Some).
  assert (Hsent : fp_sent (wk_state w) = []).
  { unfold sending in Hs. case_bool_decide; done. }
  unfold worker_step in Hst. unfold worker_ok in Hok.
  destruct (wk_phase w) as [| |f|f [|line rest] n| | |e] eqn:Hp; [| | | | | |done|done].
  - rewrite Hab in Hst. injection Hst as <- <-. eapply (account_quiet s _ i w); try done.
    + unfold worker_pending. by rewrite Hp.
    + unfold worker_budget. by rewrite Hp.
  - rewrite Hab in Hst. destruct Hok as (Hem & _ & Hlen). injection Hst as <- <-.
    destruct (files !! pl_file_index s) as [f|] eqn:Ef.
    + exact (account_claim s i w f Ha Hi Hp Hc Ef).
    + apply lookup_ge_None in Ef. destruct (flush_rest_entries (wk_state w)) as (Hfl & H0 & He & Hm & Hids).
      eapply (account_quiet s _ i w); try done; cbn [pl_file_index with_worker set_shared].
      * lia.
      * by rewrite !drop_ge by lia.
      * unfold worker_pending. by rewrite Hp.
      * unfold worker_budget. by rewrite Hp.
      * cbn. by rewrite Hfl.
      * cbn. by rewrite Hm.
      * unfold worker_ok. cbn. rewrite He, H0, Hem. split_and!; [done|done|lia].
  - rewrite Hab in Hst. injection Hst as <- <-. exact (account_open s i w f Ha Hi Hp Hc).
  - destruct (lf_error f) eqn:Hle; injection Hst as <- <-.
    { by eapply with_worker_failure in Hf. }
    destruct (emit_ids (wk_state w)) as (Hids & _ & Hmd & Hem & Hall).
    eapply (account_quiet s _ i w); try done.
    + unfold worker_pending, read_error. by rewrite Hp, Hle.
    + unfold worker_budget. by rewrite Hp.
    + cbn. by rewrite Hall.
    + split; [exact Hem|]. destruct Hok as [_ _ _ [Hl _] _ _ _]. cbn [wk_state].
      unfold emit_metadata. destruct (fp_emitted (wk_state w)); (split; [exact Hsent|exact Hl]).
  - destruct (parse_file_line _ _ _ _ _) as [st|e|] eqn:Hl; [|..|done]; injection Hst as <- <-.
    + exact (account_line s i w f line rest n st Ha Hi Hp Hc Hl).
    + by eapply with_worker_failure in Hf.
  - injection Hst as <- <-. destruct Hok as (Hem & He & Hx).
    eapply (account_quiet s _ i w); try done.
    + unfold worker_pending. by rewrite Hp.
    + unfold worker_budget. by rewrite Hp.
Qed.

(** Every step that does not fail keeps the accounts. *)
Lemma step_account s s' : account s → steps s s' → failure s' = None → account s'.
Proof using ids_fit ignored_ok.
  intros Ha Hst Hf.
  destruct Hst as [? ? [s i w s1 w1 Hi Hs Hst|s i w b sent Hi Hs Hc Hl|s i w Hi Hs Hc]
    |s b rest Hc Hch|s Hc Hch He].
  - by eapply worker_step_account.
  - pose proof (ac_workers s Ha) as Hok. rewrite Forall_lookup in Hok. specialize (Hok i w Hi).
    eapply (account_quiet s _ i w); try done.
    + cbn. unfold all_entries. cbn. rewrite Hs, join_app. simpl. by rewrite app_nil_r, <-!app_assoc.
    + unfold worker_ok in *. cbn. destruct (wk_phase w) as [| |f|f r n| | |e].
      1-3: destruct Hok as (_ & E & _); by rewrite E in Hs.
      * destruct Hok as [? ? ? [? Hfull] ? ? ?]. constructor; try done.
        -- exists []. by rewrite app_nil_r.
        -- split; [done|]. cbn. cbn in Hfull. rewrite Hs in Hfull. by inversion Hfull.
      * done.
      * destruct Hok as (_ & _ & E & _). by rewrite E in Hs.
      * done.
  - apply lookup_lt_Some in Hi.
    by eapply with_worker_failure in Hf.
  - destruct (Z.ltb_spec (pl_sequence s + len b) (2 ^ 32)) as [Hlt|Hge]; [by apply account_receive|].
    unfold receive in Hf. by rewrite (proj2 (Z.ltb_ge _ _) Hge) in Hf.
  - destruct Ha as [(done & acct & Hx) ? ? ? ? ? ?]. constructor; try done.
    exists done, acct. unfold flow in *. cbn. by rewrite Hch in Hx.
Qed.
(** ** From the first step to the join *)
Lemma step_failure s s' : steps s s' → failure s' = None → failure s = None.
Proof using Type.
  clear ignored_ok ids_fit. intros Hst [Hc Hw]%failure_None. apply failure_None.
  destruct Hst as [? ? [s i w s1 w1 Hi Hs Hst|s i w b sent Hi Hs Hc' Hl|s i w Hi Hs Hc']
    |s b rest Hc' Hch|s Hc' Hch He].
  - destruct (worker_step_work _ _ _ _ _ _ Hst) as (Hws & Hcs & _). cbn in Hc, Hw.
    rewrite Hws in Hw. rewrite Hcs in Hc. split; [exact Hc|]. intros j x e Hj Hx. destruct (decide (j = i)) as [->|Hne].
    + rewrite Hi in Hj. injection Hj as <-. unfold worker_step in Hst. by rewrite Hx in Hst.
    + apply (Hw j x e); [by rewrite list_lookup_insert_ne|done].
  - split; [by rewrite Hc'|]. intros j x e Hj Hx. destruct (decide (j = i)) as [->|Hne].
    + rewrite Hi in Hj. injection Hj as <-. apply (Hw i (mkWorker (wk_phase w)
        (set_outbox (wk_state w) sent) (wk_files w) (wk_bytes w)) e); [|exact Hx].
      cbn. apply list_lookup_insert_eq. by eapply lookup_lt_Some.
    + apply (Hw j x e); [cbn; by rewrite list_lookup_insert_ne|done].
  - exfalso. apply (Hw i (send_failed s w).2 EWorkerPanic); [|done]. cbn. apply list_lookup_insert_eq. by eapply lookup_lt_Some.
  - split; [by rewrite Hc'|]. unfold receive in Hw. by destruct (_ <? _).
  - split; [by rewrite Hc'|done].
Qed.

Lemma account_new num_workers : account (pipeline_new num_workers).
Proof using ids_fit.
  assert (Hb : ∀ B (f : worker → list B), f worker_new = [] →
    replicate num_workers worker_new ≫= f = []).
  { intros B f Hf. induction num_workers as [|k IH]; [done|].
    change (f worker_new ++ (replicate k worker_new ≫= f) = []). by rewrite Hf, IH. }
  constructor; cbn [pipeline_new pl_next_metadata_id pl_file_index pl_workers pl_sequence pl_entries
    pl_abort pl_consume]; unfold remaining, flow, ids, budget; cbn [pl_workers pl_file_index pl_entries
    pl_channel pipeline_new].
  - exists [], []. rewrite drop_0, !Hb by done. done.
  - rewrite Hb by done. split; constructor.
  - rewrite drop_0. split; [lia|]. assert (sum_list_with worker_budget
      (replicate num_workers worker_new) = 0%nat) as ->; [|lia].
    clear Hb. induction num_workers as [|k IH]; [done|exact IH].
  - apply Forall_replicate. split; [done|]. split; [done|]. by_decide.
  - done.
  - done.
  - by intros [].
Qed.

Lemma reachable_account num_workers s :
  rtc steps (pipeline_new num_workers) s → failure s = None → account s.
Proof using ids_fit ignored_ok.
  revert s. apply (rtc_ind_r (λ s, failure s = None → account s)); [intros _; apply account_new|].
  intros s s' _ Hst IH Hf. eapply step_account; [|done..]. by eapply IH, step_failure.
Qed.

(** Files without errors are imported without failure. *)
Lemma valid_line s i w f line rest n token :
  account s → pl_workers s !! i = Some w → wk_phase w = Reading f (line :: rest) n →
  Forall valid (files ≫= file_pending) → classify_line line = TokenLine token →
  ∃ ts, targets_of token = Ok ts.
Proof using Type.
  clear ignored_ok ids_fit. intros Ha Hi Hp Hv Hl. destruct (ac_lines s Ha) as (done & acct & Hd & _).
  rewrite <-Hd, Forall_app in Hv. destruct Hv as [_ Hv]. rewrite Forall_forall in Hv.
  specialize (Hv (lf_name f, n + 1, Some token, am_category (fp_meta (wk_state w)))).
  unfold valid in Hv. cbn in Hv. destruct (targets_of token) as [ts| |]; [by exists ts|..].
  all: destruct Hv; unfold remaining; apply elem_of_app; left; apply list_elem_of_bind; exists w.
  all: split; [unfold worker_pending; rewrite Hp; cbn [data_lines]; rewrite Hl; by left|].
  all: by eapply list_elem_of_lookup_2.
Qed.

Lemma valid_read s i w f n :
  account s → pl_workers s !! i = Some w → wk_phase w = Reading f [] n →
  Forall valid (files ≫= file_pending) → lf_error f = false.
Proof using Type.
  clear ignored_ok ids_fit. intros Ha Hi Hp Hv. destruct (lf_error f) eqn:Hf; [|done].
  destruct (ac_lines s Ha) as (done & acct & Hd & _).
  rewrite <-Hd, Forall_app in Hv. destruct Hv as [_ Hv]. rewrite Forall_forall in Hv.
  destruct (Hv (lf_name f, 0, None, Other)). unfold remaining. apply elem_of_app. left.
  apply list_elem_of_bind. exists w. split; [|by eapply list_elem_of_lookup_2].
  unfold worker_pending, read_error. rewrite Hp, Hf. by left.
Qed.
Lemma valid_line_read s i w f line rest n :
  account s → pl_workers s !! i = Some w → wk_phase w = Reading f (line :: rest) n →
  Forall valid (files ≫= file_pending) →
  ∃ st, on_line line (n + 1) (set_next_id (wk_state w) (pl_next_metadata_id s)) = Ok st.
Proof using ids_fit ignored_ok.
  intros Ha Hi Hp Hv. destruct (worker_split _ _ _ Hi) as (others & Hw & _).
  destruct (account_worker s w others Ha Hw) as (Hok & _ & _ & Hn & Hb).
  unfold worker_ok in Hok. unfold worker_budget in Hb. rewrite Hp in Hok, Hb. cbn [length] in Hb.
  pose proof (file_line_inv (N4 := N4) (N6 := N6) ignore_ips ignored_ok _ _ line (n + 1) _ _ _ Hok
    ltac:(cbn; lia) ltac:(cbn; lia)) as Hl.
  destruct (classify_line line) as [|c'|token] eqn:Hc; [naive_solver..|].
  destruct (valid_line s i w f line rest n token Ha Hi Hp Hv Hc) as [ts Hts].
  rewrite Hts in Hl. naive_solver.
Qed.

Lemma sequence_fits s batch rest :
  account s → pl_channel s = batch :: rest →
  pl_sequence s + len batch <= Z.of_nat (length ((files ≫= file_pending) ≫= items_of)).
Proof using Type.
  clear ignored_ok ids_fit. intros Ha Hch. destruct (ac_lines s Ha) as (done & acct & Hd & _ & H1 & H2 & _).
  destruct (ac_sequence s Ha) as [-> _].
  assert (Hp : (files ≫= file_pending) ≫= items_of ≡ₚ (done ≫= items_of) ++ (remaining s ≫= items_of))
    by (by rewrite <-Hd, bind_app).
  rewrite Hp, length_app, <-H2, length_fmap, <-(length_fmap fst), H1. unfold flow, len.
  rewrite length_fmap, !length_app, Hch. cbn [mjoin list_join]. rewrite length_app. lia.
Qed.

Lemma valid_step s s' :
  Forall valid (files ≫= file_pending) →
  Z.of_nat (length ((files ≫= file_pending) ≫= items_of)) < 2 ^ 32 →
  account s → failure s = None → steps s s' → failure s' = None.
Proof using ids_fit ignored_ok.
  intros Hv Hfit Ha [Hc Hw]%failure_None Hst. apply failure_None.
  destruct Hst as [? ? [s i w s1 w1 Hi Hs Hst|s i w b sent Hi Hs Hc' Hl|s i w Hi Hs Hc']
    |s b rest Hc' Hch|s Hc' Hch He].
  - destruct (worker_step_work _ _ _ _ _ _ Hst) as (Hws & Hcs & _). cbn. rewrite Hcs, Hws.
    split; [done|]. intros j x e Hj Hx. destruct (decide (j = i)) as [->|Hne];
      [|by apply (Hw j x e); [rewrite list_lookup_insert_ne in Hj|]].
    rewrite list_lookup_insert_eq in Hj by (by eapply lookup_lt_Some). injection Hj as <-.
    unfold worker_step in Hst. destruct (wk_phase w) as [| |f|f [|line r] n| | |e'] eqn:Hp; try done.
    + by repeat (case_match; simplify_eq).
    + by repeat (case_match; simplify_eq).
    + by injection Hst as <- <-.
    + rewrite (valid_read s i w f n Ha Hi Hp Hv) in Hst. by injection Hst as <- <-.
    + destruct (valid_line_read s i w f line r n Ha Hi Hp Hv) as [st E]. rewrite E in Hst.
      by injection Hst as <- <-.
    + by injection Hst as <- <-.
  - split; [cbn; by rewrite Hc'|]. intros j x e Hj Hx. cbn in Hj. destruct (decide (j = i)) as [->|Hne].
    + rewrite list_lookup_insert_eq in Hj by (by eapply lookup_lt_Some). injection Hj as <-.
      by apply (Hw i w e).
    + apply (Hw j x e); [by rewrite list_lookup_insert_ne in Hj|done].
  - exfalso. destruct (ended w) eqn:He.
    + pose proof (ac_workers s Ha) as Hok. rewrite Forall_lookup in Hok. specialize (Hok i w Hi).
      unfold worker_ok, ended, sending in *. destruct (wk_phase w); try done.
      destruct Hok as (_ & _ & E & _). by rewrite E in Hs.
    + rewrite (not_ended_receiving s i w Ha Hi He) in Hc'. by destruct Hc'.
  - pose proof (sequence_fits s b rest Ha Hch). unfold receive.
    rewrite (proj2 (Z.ltb_lt _ _)) by lia. done.
  - done.
Qed.

Lemma reachable_valid num_workers s :
  Forall valid (files ≫= file_pending) →
  Z.of_nat (length ((files ≫= file_pending) ≫= items_of)) < 2 ^ 32 →
  rtc steps (pipeline_new num_workers) s → failure s = None.
Proof using ids_fit ignored_ok.
  intros Hv Hfit. revert s. apply (rtc_ind_r (λ s, failure s = None)).
  - apply failure_None. split; [done|]. intros i w e [-> _]%lookup_replicate. done.
  - intros s s' Hr Hst IH. eapply valid_step; [done..|by eapply reachable_account|done|done].
Qed.

Lemma reachable_workers num_workers s :
  rtc steps (pipeline_new num_workers) s → length (pl_workers s) = num_workers.
Proof using Type.
  clear ignored_ok ids_fit. revert s. apply (rtc_ind_r (λ s, length (pl_workers s) = num_workers)).
  - apply length_replicate.
  - intros s s' _ Hst <-. destruct Hst as [? ? [s i w s1 w1 Hi Hs Hst|? ? ? ? ? Hi|? ? ? Hi]|s b rest Hc Hch|];
      cbn; rewrite ?length_insert; try done.
    + by destruct (worker_step_work _ _ _ _ _ _ Hst) as (-> & _).
    + unfold receive. by destruct (_ <? _).
Qed.

(** The published entries are within the ranges of their fields. *)
Lemma account_entries_ok s : account s → Forall fe_ok (pl_entries s).
Proof using ids_fit.
  intros Ha. destruct (ac_lines s Ha) as (done & acct & _ & _ & H1 & H2 & H3).
  destruct (ac_sequence s Ha) as (Hsq & Hlt & Hrid). destruct (ac_ids s Ha) as [_ Hids].
  destruct (ac_budget s Ha) as [_ Hbud]. apply Forall_forall. intros e He.
  assert (Hin : unnumbered e ∈ acct.*1).
  { rewrite H1. unfold flow. rewrite fmap_app. apply elem_of_app. left. by apply list_elem_of_fmap_2. }
  apply list_elem_of_fmap in Hin as ([e' [[[file t] n] c]] & Hu & Hin). cbn in Hu. subst e'.
  rewrite Forall_forall in H3. destruct (H3 _ Hin) as (Ht & Hl & m & Hm & Hid & _). cbn in Ht, Hl, Hid.
  assert (Hit : (file, t, n, c) ∈ done ≫= items_of).
  { rewrite <-H2. apply list_elem_of_fmap. by exists (unnumbered e, (file, t, n, c)). }
  apply list_elem_of_bind in Hit as ([[[f' n'] [token|]] c'] & Hx & _); [|by apply not_elem_of_nil in Hx].
  cbn in Hx. destruct (targets_of token) as [ts| |] eqn:Et; [|by apply not_elem_of_nil in Hx..].
  apply list_elem_of_fmap in Hx as (t' & [= -> <- -> ->] & Ht').
  apply line_targets_ok in Et. rewrite Forall_forall in Et.
  assert (Hr : fe_rule_id e ∈ seqZ 1 (len (pl_entries s))).
  { rewrite <-Hrid. by apply list_elem_of_fmap_2. }
  apply elem_of_seqZ in Hr.
  assert (Hmid : 1 <= fe_metadata_id e < pl_next_metadata_id s).
  { rewrite Forall_forall in Hids. rewrite <-Hid. apply Hids. unfold ids, metadata_of in *.
    apply list_elem_of_bind in Hm as (w & Hm & Hw). apply list_elem_of_bind. exists w. split; [|done].
    unfold state_ids. apply elem_of_app. left. by apply list_elem_of_fmap_2. }
  split_and!.
  - rewrite Ht. auto.
  - unfold in_width. lia.
  - unfold in_width. lia.
  - rewrite Hl. by apply wrap_in_width.
Qed.

Lemma account_entry_metadata s e :
  account s → e ∈ pl_entries s → ∃ m, m ∈ metadata_of s ∧ md_id m = fe_metadata_id e.
Proof using Type.
  clear ignored_ok ids_fit. intros Ha He. destruct (ac_lines s Ha) as (done & acct & _ & _ & H1 & _ & H3).
  assert (Hin : unnumbered e ∈ acct.*1).
  { rewrite H1. unfold flow. rewrite fmap_app. apply elem_of_app. left. by apply list_elem_of_fmap_2. }
  apply list_elem_of_fmap in Hin as ([e' [[[file t] n] c]] & Hu & Hin). cbn in Hu. subst e'.
  rewrite Forall_forall in H3. destruct (H3 _ Hin) as (_ & _ & m & Hm & Hid & _). eauto.
Qed.

(** When all threads have ended without failure, every line has become entries. *)
Lemma joined_complete s :
  account s → joined s → failure s = None → pl_workers s ≠ [] →
  Forall valid (files ≫= file_pending) ∧
  ∃ acct, acct.*1 ≡ₚ unnumbered <$> pl_entries s ∧
    acct.*2 ≡ₚ (files ≫= file_pending) ≫= items_of ∧ Forall (entry_of (metadata_of s)) acct.
Proof using Type.
  clear ignored_ok ids_fit. intros Ha [Hc He] [_ Hw]%failure_None Hne.
  destruct (ac_consume s Ha Hc) as (_ & Hch & _).
  assert (Hfin : Forall (λ w, worker_pending w = [] ∧ all_entries (wk_state w) = [] ∧
    (length files ≤ pl_file_index s)%nat) (pl_workers s)).
  { apply Forall_lookup. intros i w Hi. pose proof (ac_workers s Ha) as Hok.
    rewrite Forall_lookup in Hok. specialize (Hok i w Hi).
    rewrite forallb_forall in He. specialize (He w ltac:(by eapply list_elem_of_In, list_elem_of_lookup_2)).
    unfold worker_ok, ended, worker_pending, all_entries in *. destruct (wk_phase w); try done.
    destruct Hok as (_ & -> & -> & ?). done. }
  assert (Hb : ∀ B (f : worker → list B), Forall (λ w, f w = []) (pl_workers s) →
    pl_workers s ≫= f = []).
  { intros B f. clear. induction 1 as [|w ws Hf _ IH]; [done|].
    change (f w ++ (ws ≫= f) = []). by rewrite Hf, IH. }
  destruct (ac_lines s Ha) as (done & acct & Hd & Hv & H1 & H2 & H3).
  assert (Hrem : remaining s = []).
  { unfold remaining. rewrite Hb by (eapply Forall_impl; [exact Hfin|naive_solver]).
    destruct (pl_workers s) as [|w ws]; [done|]. apply Forall_cons in Hfin as [(_ & _ & Hlen) _].
    by rewrite drop_ge. }
  rewrite Hrem, app_nil_r in Hd. split; [by rewrite <-Hd|]. exists acct.
  split_and!; [|by rewrite <-Hd|done].
  rewrite H1. unfold flow. rewrite Hch, Hb by (eapply Forall_impl; [exact Hfin|naive_solver]).
  cbn. by rewrite app_nil_r.
Qed.
End Account.

(** ** The registry built after the join *)
Section Registry.
Context {S : Type} `{!ContextStore S} `{!HashOrder}.
Implicit Type r : FireholMetadataRegistry S.

(** Same metadata, in memory. *)
Definition same_metadata r r' : Prop :=
  rg_cache r' = rg_cache r ∧ rg_metadata_by_id r' = rg_metadata_by_id r.

Lemma fold_same_metadata {A} (f : FireholMetadataRegistry S → A → FireholMetadataRegistry S) l :
  (∀ r a, same_metadata r (f r a)) → ∀ r, same_metadata r (fold_left f l r).
Proof.
  intros Hf. induction l as [|a l IH]; intros r; [done|]. cbn [fold_left].
  unfold same_metadata. destruct (IH (f r a)) as [-> ->]. apply Hf.
Qed.

Lemma register_entry_same r e : same_metadata r (register_entry r e).
Proof.
  unfold register_entry, register_rule.
  repeat (case_match || destruct (file_name_for _ _)); simplify_eq; done.
Qed.
Lemma index_insert_same r t cx : same_metadata r (index_insert r t cx).
Proof. unfold index_insert. by destruct t. Qed.
Lemma block_index_same r entries : same_metadata r (build_rule_block_index r entries).
Proof.
  unfold build_rule_block_index. destruct (rg_cache r) eqn:Hc; [done|].
  apply (fold_same_metadata (λ r '(_, rule_ids), _)). intros r' [t ids]. by destruct (_ <=? _)%nat.
Qed.
Lemma ip_index_same r entries :
  rg_cache r = None → same_metadata r (build_ip_index r entries).
Proof.
  intros Hc. unfold build_ip_index. rewrite Hc. unfold build_ip_index_ram.
  destruct (fold_left _ _ _) as [files cats].
  eassert (Hx : same_metadata (clear_index r) _); [|destruct Hx as [H1 H2]; split; [exact H1|exact H2]].
  apply (fold_same_metadata (λ r '(target, fs), _)). intros r' [t fs]. apply index_insert_same.
Qed.

Lemma register_all_ok metadata : ∀ r,
  rg_cache r = None → NoDup (md_id <$> metadata) →
  ∃ r', register_all metadata r = Ok r' ∧ rg_cache r' = None ∧
    ∀ m, m ∈ metadata → rg_metadata_by_id r' !! md_id m = Some m.
Proof.
  assert (Hkeep : ∀ metadata r r' id x,
    register_all metadata r = Ok r' → rg_cache r = None → id ∉ md_id <$> metadata →
    rg_metadata_by_id r !! id = Some x → rg_metadata_by_id r' !! id = Some x).
  { clear metadata. induction metadata as [|m metadata IH]; intros r r' id x; cbn [register_all].
    { by intros [= <-]. }
    unfold try_register_metadata. intros Hreg Hc Hn Hx. rewrite Hc in Hreg. rewrite fmap_cons in Hn.
    eapply (IH _ r' id x Hreg); [done|set_solver|]. cbn. rewrite lookup_insert_ne by set_solver. done. }
  induction metadata as [|m metadata IH]; intros r Hc Hnd.
  { exists r. split_and!; [done..|]. intros m Hm. by apply not_elem_of_nil in Hm. }
  rewrite fmap_cons in Hnd. apply NoDup_cons in Hnd as [Hnin Hnd]. cbn [register_all].
  unfold try_register_metadata at 1. rewrite Hc.
  edestruct (IH (set_metadata r None (rg_metadata_light r) (<[md_id m := m]> (rg_metadata_by_id r))))
    as (r' & Hr & Hc' & Hm); [done|done|].
  exists r'. split_and!; [exact Hr|exact Hc'|]. intros x [->|Hx]%elem_of_cons; [|by apply Hm].
  eapply (Hkeep metadata _ r' (md_id m) m Hr); [done|done|]. cbn. apply lookup_insert_eq.
Qed.

(** The counters of the registry, and what they are after the entries [E]. *)
Definition counters r : gmap FireholCategory nat * gmap (list Z) nat :=
  (rg_category_counts r, rg_blocklist_counts r).
Definition counted r (E : list FireholEntry) : Prop :=
  (∀ c, rg_category_counts r !! c = add_count None (tally (λ e, category_for r (fe_metadata_id e)) c E)) ∧
  ∀ f, rg_blocklist_counts r !! f = add_count None (tally (λ e, file_name_for r (fe_metadata_id e)) f E).
Definition dataset_counts (ds : FireholDataSet S) (E : list FireholEntry) : Prop :=
  ds_exact_v4_count ds = count_kind 0 E ∧ ds_exact_v6_count ds = count_kind 1 E ∧
  ds_lpm_v4_count ds = count_kind 2 E ∧ ds_lpm_v6_count ds = count_kind 3 E ∧
  counted (ds_registry ds) E.

Lemma fold_same_counters {A} (f : FireholMetadataRegistry S → A → FireholMetadataRegistry S) l :
  (∀ r a, counters (f r a) = counters r) → ∀ r, counters (fold_left f l r) = counters r.
Proof. intros Hf. induction l as [|a l IH]; intros r; [done|]. cbn [fold_left]. by rewrite IH, Hf. Qed.

Lemma register_all_counters metadata : ∀ r r',
  register_all metadata r = Ok r' → counters r' = counters r.
Proof.
  induction metadata as [|m metadata IH]; intros r r'; cbn [register_all]; [by intros [= <-]|].
  unfold try_register_metadata. destruct (rg_cache r) as [cache|]; [|intros E; by rewrite (IH _ _ E)].
  destruct (put_metadata cache _ m); [|done]. intros E. by rewrite (IH _ _ E).
Qed.

Lemma index_counters r entries :
  rg_cache r = None →
  counters (build_ip_index (build_rule_block_index r entries) entries) = counters r.
Proof.
  intros Hc. destruct (block_index_same r entries) as [Hc' _]. unfold build_ip_index. rewrite Hc', Hc.
  unfold build_ip_index_ram. destruct (fold_left _ _ _) as [files cats].
  transitivity (counters (clear_index (build_rule_block_index r entries))).
  { apply (fold_same_counters (λ r '(target, fs), _)). intros r' [t fs]. unfold index_insert. by destruct t. }
  unfold build_rule_block_index. rewrite Hc.
  apply (fold_same_counters (λ r '(_, rule_ids), _)). intros r' [t ids]. by destruct (_ <=? _)%nat.
Qed.

(** Registering an entry counts it for its category and file. *)
Lemma register_entry_facts r e :
  category_for (register_entry r e) = category_for r ∧
  file_name_for (register_entry r e) = file_name_for r ∧
  rg_category_counts (register_entry r e) =
    bump (rg_category_counts r) (default Other (category_for r (fe_metadata_id e))) 1 ∧
  rg_blocklist_counts (register_entry r e) =
    match file_name_for r (fe_metadata_id e) with
    | Some name => bump (rg_blocklist_counts r) name 1 | None => rg_blocklist_counts r end.
Proof.
  unfold register_entry, register_rule, category_for, file_name_for. cbn [ri_metadata_id ri_category].
  by destruct (rg_cache r) eqn:Hc; cbn; rewrite ?Hc.
Qed.

Lemma register_entries_count E : ∀ r,
  (∀ c, rg_category_counts (fold_left register_entry E r) !! c = add_count (rg_category_counts r !! c)
     (tally (λ e, Some (default Other (category_for r (fe_metadata_id e)))) c E)) ∧
  (∀ f, rg_blocklist_counts (fold_left register_entry E r) !! f = add_count (rg_blocklist_counts r !! f)
     (tally (λ e, file_name_for r (fe_metadata_id e)) f E)).
Proof.
  induction E as [|e E IH]; intros r; [done|]. cbn [fold_left].
  destruct (IH (register_entry r e)) as [H1 H2]. destruct (register_entry_facts r e) as (Hc & Hf & Hcs & Hbs).
  split; intros k; [rewrite H1, Hc, Hcs|rewrite H2, Hf, Hbs]; rewrite tally_cons, <-add_count_add; f_equal.
  - rewrite lookup_bump by lia. by repeat case_decide; simplify_eq.
  - destruct (file_name_for r _) as [name|]; [rewrite lookup_bump by lia|]; by repeat case_decide; simplify_eq.
Qed.

(** Building the data set in memory succeeds and keeps the metadata. *)
Lemma build_dataset_ok metadata entries nf nb :
  NoDup (md_id <$> metadata) →
  ∃ ds, build_dataset (S := S) metadata entries nf nb = Ok ds ∧ ds_entries ds = entries ∧
    ds_stored_entries ds = None ∧ rg_cache (ds_registry ds) = None ∧
    (∀ m, m ∈ metadata → file_name_for (ds_registry ds) (md_id m) = Some (md_file_name m) ∧
      category_for (ds_registry ds) (md_id m) = Some (md_category m)) ∧
    ∃ r, ds_registry ds = build_ip_index r entries ∧ rg_cache r = None ∧
      file_name_for r = file_name_for (ds_registry ds) ∧
    ((∀ e, e ∈ entries → ∃ m, m ∈ metadata ∧ md_id m = fe_metadata_id e) → dataset_counts ds entries).
Proof.
  intros Hnd. destruct (register_all_ok metadata registry_new eq_refl Hnd) as (r0 & Hr & Hc & Hm).
  unfold build_dataset. rewrite Hr. osimpl. eexists. split; [done|]. cbn [ds_entries ds_stored_entries
    ds_registry]. set (r1 := fold_left register_entry entries r0).
  set (r2 := build_rule_block_index r1 entries).
  destruct (fold_same_metadata register_entry entries register_entry_same r0) as [C1 M1].
  destruct (block_index_same r1 entries) as [C2 M2]. fold r1 r2 in C1, M1, C2, M2.
  destruct (ip_index_same r2 entries) as [C3 M3]; [congruence|].
  assert (Hn : rg_cache (build_ip_index r2 entries) = None) by congruence.
  split_and!; [done|done|done| |].
  - intros m Hin. unfold file_name_for, category_for. rewrite Hn, M3, M2, M1, Hm by done. done.
  - exists r2. split_and!; [done|congruence| |].
    { unfold file_name_for. rewrite Hn, M3.
      by replace (rg_cache r2) with (None : option S) by congruence. }
    intros Hall. do 4 (split; [done|]). cbn [ds_registry].
    assert (Hcnt : counters (build_ip_index r2 entries) = counters r1) by (apply index_counters; congruence).
    assert (Hcf : category_for (build_ip_index r2 entries) = category_for r0).
    { unfold category_for. by rewrite Hn, Hc, M3, M2, M1. }
    assert (Hff : file_name_for (build_ip_index r2 entries) = file_name_for r0).
    { unfold file_name_for. by rewrite Hn, Hc, M3, M2, M1. }
    apply register_all_counters in Hr. injection Hr as Hr1 Hr2. injection Hcnt as Hcnt1 Hcnt2.
    destruct (register_entries_count entries r0) as [T1 T2].
    unfold counted. rewrite Hcnt1, Hcnt2, Hcf, Hff. split; intros k; unfold r1; rewrite ?T1, ?T2, ?Hr1, ?Hr2;
      [|done]. f_equal. apply tally_ext. intros e He. destruct (Hall e He) as (m & Hin & <-).
    unfold category_for. by rewrite Hc, Hm.
Qed.
End Registry.

(** ** Theorem *)
Section Claim.
Context {N4 N6 : Type} `{!IpNet 4 N4} `{!IpNet 16 N6} `{!IpNetText N4 N6}.
Context {low : Lowercase} {chrono : Chrono} {S : Type} `{!ContextStore S} `{!HashOrder}.
Context (ignore_ips : list IpAddr) (files : list list_file).

(** The address lines and read errors of the files, and what the lines contribute. *)
Abbreviation lines := (files ≫= file_pending).
Abbreviation items := (lines ≫= items_of (N4 := N4) (N6 := N6) ignore_ips).

(** An entry of the data set and the item it stands for. *)
Definition matches (r : FireholMetadataRegistry S) (e : FireholEntry) (i : item) : Prop :=
  let '(file, t, n, c) := i in
  fe_target e = t ∧ fe_line e = wrap_u32 n ∧
  file_name_for r (fe_metadata_id e) = Some file ∧ category_for r (fe_metadata_id e) = Some c.

Lemma metadata_ids_sublist (ws : list worker) :
  md_id <$> (ws ≫= λ w, fp_metadata (wk_state w)) `sublist_of`
    ws ≫= λ w, state_ids (wk_state w).
Proof.
  induction ws as [|w ws IH]; [done|]. rewrite !bind_cons, fmap_app.
  apply sublist_app; [by apply sublist_inserts_r|done].
Qed.

Lemma metadata_NoDup s :
  account (N4 := N4) (N6 := N6) ignore_ips files s → NoDup (md_id <$> metadata_of s).
Proof.
  intros Ha. destruct (ac_ids _ _ s Ha) as [Hnd _]. eapply sublist_NoDup; [done|].
  apply metadata_ids_sublist.
Qed.

(** Once joined, the entries are the items, for a registry that knows the metadata. *)
Lemma entries_match s r :
  account (N4 := N4) (N6 := N6) ignore_ips files s → joined s → failure s = None →
  pl_workers s ≠ [] →
  (∀ m, m ∈ metadata_of s → file_name_for r (md_id m) = Some (md_file_name m) ∧
     category_for r (md_id m) = Some (md_category m)) →
  ∃ xs, xs ≡ₚ items ∧ Forall2 (matches r) (pl_entries s) xs.
Proof.
  intros Ha Hj Hf Hne Hm. destruct (joined_complete _ _ s Ha Hj Hf Hne) as (_ & acct & H1 & H2 & H3).
  symmetry in H1. destruct (Permutation_map_inv fst acct H1) as (acct' & Hfst & Hp).
  exists acct'.*2. split; [by rewrite <-Hp|]. rewrite Hp in H3. clear -Hfst H3 Hm. revert acct' Hfst H3.
  induction (pl_entries s) as [|e es IH]; intros [|[x [[[file t] n] c]] acct'] Hfst H3; try done.
  rewrite fmap_cons in Hfst. cbn [map fst] in Hfst. injection Hfst as Hx Hfst.
  apply Forall_cons in H3 as [(Ht & Hl & m & Hin & Hid & Hfile & Hc) H3].
  rewrite fmap_cons. constructor; [|by apply IH]. destruct (Hm m Hin) as [Hm1 Hm2].
  unfold matches. subst x. cbn in Ht, Hl, Hid. rewrite <-Hid, Hm1, Hm2. cbn.
  split_and!; congruence.
Qed.

Lemma joined_result s :
  account (N4 := N4) (N6 := N6) ignore_ips files s → joined s → failure s = None →
  pl_workers s ≠ [] →
  ∃ ds xs, import_result (S := S) s = Ok ds ∧ ds_stored_entries ds = None ∧
    fe_rule_id <$> ds_entries ds = seqZ 1 (len (ds_entries ds)) ∧
    xs ≡ₚ items ∧ Forall2 (matches (ds_registry ds)) (ds_entries ds) xs ∧
    dataset_counts ds (ds_entries ds) ∧
    ∃ r, ds_registry ds = build_ip_index r (ds_entries ds) ∧ rg_cache r = None ∧
      file_name_for r = file_name_for (ds_registry ds).
Proof.
  intros Ha Hj Hf Hne. pose proof (metadata_NoDup s Ha) as Hnd.
  destruct (build_dataset_ok (S := S) (metadata_of s) (pl_entries s) (sum_of wk_files (pl_workers s))
    (sum_of wk_bytes (pl_workers s)) Hnd) as (ds & Hb & He & Hst & _ & Hm & r & Hr1 & Hr2 & Hr3 & Hcount).
  destruct (entries_match s (ds_registry ds) Ha Hj Hf Hne Hm) as (xs & Hxs & Hall).
  exists ds, xs. rewrite He. split_and!; [|done|by destruct (ac_sequence _ _ s Ha) as (_ & _ & ?)|done..| |].
  - unfold import_result. rewrite Hf. exact Hb.
  - apply Hcount. intros e Hin. by apply (account_entry_metadata ignore_ips files).
  - by exists r.
Qed.

(** C7 (functional). The parallel import, over every schedule of its worker threads
    and coordinator. If every address line of the files is valid and no read
    fails, it succeeds: the entries are, up to order, exactly the targets of the
    address lines, numbered 1, 2, .. in publication order, and each resolves to
    the file, line and category it came from. If one line is invalid or one read
    fails, the whole import fails. *)
Theorem every_schedule_imports_every_line num_workers s :
  Forall ip_ok ignore_ips → (0 < num_workers)%nat →
  1 + Z.of_nat (sum_list_with file_budget files) < 2 ^ 32 → Z.of_nat (length items) < 2 ^ 32 →
  rtc (step (N4 := N4) (N6 := N6) ignore_ips files) (pipeline_new num_workers) s → joined s →
  if forallb (valid (N4 := N4) (N6 := N6) ignore_ips) lines then
    ∃ ds xs, import_result (S := S) s = Ok ds ∧ ds_stored_entries ds = None ∧
      fe_rule_id <$> ds_entries ds = seqZ 1 (len (ds_entries ds)) ∧
      xs ≡ₚ items ∧ Forall2 (matches (ds_registry ds)) (ds_entries ds) xs
  else ∃ e, import_result (S := S) s = Err e.
Proof.
  intros Hok Hnw Hfit Hlen Hr Hj.
  assert (Hws : pl_workers s ≠ []).
  { intros E. assert (Hl : length (pl_workers s) = num_workers); [|by rewrite E in Hl; simpl in Hl; lia].
    by eapply reachable_workers. }
  destruct (forallb _ lines) eqn:Hv.
  - assert (Hall : Forall (valid (N4 := N4) (N6 := N6) ignore_ips) lines)
      by (apply forallb_True; by rewrite Hv).
    pose proof (reachable_valid ignore_ips files Hok Hfit num_workers s Hall Hlen Hr) as Hf.
    destruct (joined_result s) as (ds & xs & ? & ? & ? & ? & ? & _);
      [by eapply reachable_account|done..|]. by exists ds, xs.
  - destruct (failure s) as [e|] eqn:Hf; [exists e; unfold import_result; by rewrite Hf|].
    exfalso. destruct (joined_complete ignore_ips files s) as [Hall _];
      [by eapply reachable_account|done..|]. apply forallb_True in Hall. by rewrite Hv in Hall.
Qed.
End Claim.

(** ** Witness *)
#[local] Existing Instance demo_lower.
#[local] Existing Instance demo_chrono.
#[local] Existing Instance canonical_order.

Lemma every_schedule_imports_every_line_witness :
  ∃ s ds, rtc (step (N4 := Net 4) (N6 := Net 16) demo_ignore demo_list_files) (pipeline_new 2) s ∧
    joined s ∧ import_result (S := MemStore) s = Ok ds ∧ length (ds_entries ds) = 26%nat.
Proof.
  destruct (steps_reach_join (N4 := Net 4) (N6 := Net 16) demo_ignore demo_list_files
    (pipeline_new 2)) as (s & Hr & Hj); [by_decide|].
  assert (Hv : forallb (valid (N4 := Net 4) (N6 := Net 16) demo_ignore)
    (demo_list_files ≫= file_pending) = true) by (vm_compute; reflexivity).
  pose proof (every_schedule_imports_every_line (N4 := Net 4) (N6 := Net 16) (S := MemStore) demo_ignore
    demo_list_files 2 s ltac:(by_decide) ltac:(lia) ltac:(by_decide) ltac:(by_decide) Hr Hj) as H.
  rewrite Hv in H. destruct H as (ds & xs & Hi & _ & _ & Hp & Hf).
  exists s, ds. split; [exact Hr|]. split; [exact Hj|]. split; [exact Hi|].
  rewrite (Forall2_length _ _ _ Hf), Hp. vm_compute. reflexivity.
Defined.
