(* ===== verification/Spool.v ===== *)
(** * The import through the disk cache ([parse_directory_impl] with a cache)

    With a cache, the coordinator writes every received batch through the bulk
    writer (contributions, and with [spool] the encoded entries) instead of only
    keeping it in memory, and the registry is built from what is on disk. The
    worker threads are those of [Pipeline]; the file shows that the cached import
    simulates the import in memory, whatever the schedule and the batch limit, so
    that both yield the same rules and the same attributions. *)
From stdpp Require Import base numbers list gmap fin_maps strings sorting relations.
From Stdlib Require Import ZArith Lia.
From S2P Require Import Prelude Net BpfMaps Str Lines Cidr Entry Metadata Attribution Cache Parser.
From S2P Require Import Import FireholSync Pipeline Schedule.

Local Open Scope Z_scope.

(** ** The coordinator with a cache *)
Section Cached.
Context {N4 N6 : Type} `{!IpNet 4 N4} `{!IpNet 16 N6} `{!IpNetText N4 N6}.
Context {low : Lowercase} {chrono : Chrono} {DB : Type} `{!RocksDb DB}.
Context (ignore_ips : list IpAddr) (files : list list_file) (spool : bool).

Record cached_import : Type := mkCached {
  ci_threads : pipeline; ci_cache : CacheRocksDb DB; ci_writer : BulkWriter }.
Implicit Type c : cached_import.

(** One budget for the whole import, from the total size of the files. *)
Definition batch_limit (total_file_size : Z) : Z :=
  Z.min (Z.min (total_file_size * 8) (2 ^ 64 - 1)) MAX_IMPORT_BATCH_BYTES.
Definition cached_new (cache : CacheRocksDb DB) (total_file_size : Z) (num_workers : nat)
    : cached_import :=
  mkCached (pipeline_new num_workers) cache (BulkWriter_new (batch_limit total_file_size)).

(** The coordinator's closure returns an error: abort, and the receiver is dropped. *)
Definition stop (s : pipeline) (e : FireholParseError) : pipeline :=
  mkPipeline (pl_file_index s) true (pl_next_metadata_id s) [] (pl_workers s) (pl_sequence s)
    (pl_entries s) (Some (Some e)).
Definition stop_cached c (e : FireholParseError) : cached_import :=
  mkCached (stop (ci_threads c) e) (ci_cache c) (ci_writer c).

Definition receive_cached c (batch : list FireholEntry) (rest : list (list FireholEntry))
    : cached_import :=
  let s := ci_threads c in
  if pl_sequence s + len batch <? 2 ^ 32 then
    let entries := number_entries (pl_sequence s) batch in
    match bw_entries (ci_cache c) (ci_writer c) entries (pl_sequence s) spool with
    | Ok (cache, writer) =>
        mkCached (mkPipeline (pl_file_index s) (pl_abort s) (pl_next_metadata_id s) rest
          (pl_workers s) (pl_sequence s + len batch)
          (if spool then pl_entries s else pl_entries s ++ entries) None) cache writer
    | _ => stop_cached c ECache
    end
  else stop_cached c EWorkerPanic.

Definition consume_end c : cached_import :=
  match commit (ci_cache c) (ci_writer c) with
  | Ok (cache, writer) => mkCached (consumed (ci_threads c) None) cache writer
  | _ => stop_cached c ECache
  end.

Inductive cached_step : cached_import → cached_import → Prop :=
| CachedThread c s' :
    worker_move (N4 := N4) (N6 := N6) ignore_ips files (ci_threads c) s' →
    cached_step c (mkCached s' (ci_cache c) (ci_writer c))
| CachedReceive c batch rest :
    pl_consume (ci_threads c) = None → pl_channel (ci_threads c) = batch :: rest →
    cached_step c (receive_cached c batch rest)
| CachedConsumed c :
    pl_consume (ci_threads c) = None → pl_channel (ci_threads c) = [] →
    forallb ended (pl_workers (ci_threads c)) = true → cached_step c (consume_end c).
End Cached.
Arguments cached_import : clear implicits.

(** ** After the join *)
Section CachedFinish.
Context {DB : Type} `{!RocksDb DB} `{!Rkyv FireholMetadata} `{!Rkyv RuleBlockContext}.
Context (spool : bool).
Abbreviation registry := (FireholMetadataRegistry (CacheRocksDb DB)).

(** The values of the entries family, as [visit_values] lends them. *)
Definition spool_of (cache : CacheRocksDb DB) : FireholSync.spool :=
  let '(pairs, status) := db_cursor (cr_db cache) ENTRIES in mkSpool pairs.*2 (negb status).
Definition stored_entries (cache : CacheRocksDb DB) : option FireholSync.spool :=
  if spool then Some (spool_of cache) else None.

(** The slot of [counts] an entry belongs to. *)
Definition kind_of (e : FireholEntry) : nat :=
  match fe_target e with TExactV4 _ => 0 | TExactV6 _ => 1 | TCidrV4 _ _ => 2 | TCidrV6 _ _ => 3 end.

(** One visited entry; [metadata_counts\[id\] += 1] panics out of range. *)
Definition visit_cached (e : FireholEntry) (st : registry * list nat * list Z)
    : outcome SpoolError (registry * list nat * list Z) :=
  let '(r, metadata_counts, counts) := st in
  let id := Z.to_nat (fe_metadata_id e) in
  if (id <? length metadata_counts)%nat then
    Ok (register_cached_entry r e, alter Datatypes.S id metadata_counts,
        alter (Z.add 1) (kind_of e) counts)
  else Fault.

Fixpoint count_all (r : registry) (id : Z) (metadata_counts : list nat) : registry :=
  match metadata_counts with
  | [] => r
  | count :: rest =>
      count_all (if (0 <? count)%nat then count_cached_metadata r id count else r) (id + 1) rest
  end.

(** [?] turns a cache error into the parser's. *)
Definition as_parse_error {E A} (m : outcome E A) : outcome FireholParseError A :=
  match m with Ok a => Ok a | Err _ => Err ECache | Fault => Fault end.

Definition finish_cache (r : registry) : outcome unit registry :=
  match rg_cache r with
  | None => Fault
  | Some cache =>
      cache ← clear_contributions cache; cache ← flush_import cache; mret (set_cache r cache)
  end.

Definition cached_result (c : cached_import DB) : outcome FireholParseError
    (FireholDataSet (CacheRocksDb DB)) :=
  let s := ci_threads c in
  match failure s with
  | Some e => Err e
  | None =>
      r ← register_all (pl_workers s ≫= λ w, fp_metadata (wk_state w)) (with_cache (ci_cache c));
      let total_files := sum_of wk_files (pl_workers s) in
      let total_bytes := sum_of wk_bytes (pl_workers s) in
      let dataset r counts := mkDataSet (pl_entries s)
        (stored_entries (default (ci_cache c) (rg_cache r))) r total_files total_bytes
        (nth 0 counts 0) (nth 1 counts 0) (nth 2 counts 0) (nth 3 counts 0) in
      '(r, metadata_counts, counts) ← as_parse_error (visit_entries visit_cached
        (dataset r []) (r, replicate (Z.to_nat (pl_next_metadata_id s)) 0%nat, [0; 0; 0; 0]));
      let r := count_all r 0 metadata_counts in
      '(r, _) ← as_parse_error (finish_contexts r (ci_writer c));
      r ← as_parse_error (finish_cache r);
      mret (dataset r counts)
  end.
End CachedFinish.

(** ** The cached import simulates the import in memory *)

(** Workers do not look at the published entries. *)
Definition with_entries (s : pipeline) (es : list FireholEntry) : pipeline :=
  mkPipeline (pl_file_index s) (pl_abort s) (pl_next_metadata_id s) (pl_channel s) (pl_workers s)
    (pl_sequence s) es (pl_consume s).

(** The writes of the received blocks. *)
Fixpoint blocks_ops (spool : bool) (sequence : Z) (blocks : list (list FireholEntry))
    : list write_op :=
  match blocks with
  | [] => []
  | b :: rest => entries_ops b sequence spool ++ blocks_ops spool (sequence + len b) rest
  end.

Lemma blocks_ops_snoc spool b blocks : ∀ sequence,
  blocks_ops spool sequence (blocks ++ [b]) =
  blocks_ops spool sequence blocks ++ entries_ops b (sequence + len (mjoin blocks)) spool.
Proof.
  induction blocks as [|x blocks IH]; intros sequence; cbn [blocks_ops app].
  { cbn. by rewrite app_nil_r, Z.add_0_r. }
  rewrite IH, <-app_assoc. do 2 f_equal. change (mjoin (x :: blocks)) with (x ++ mjoin blocks).
  unfold len. rewrite length_app. f_equal. lia.
Qed.

Section Simulation.
Context {N4 N6 : Type} `{!IpNet 4 N4} `{!IpNet 16 N6} `{!IpNetText N4 N6}.
Context {low : Lowercase} {chrono : Chrono} {DB : Type} `{!RocksDb DB} `{!RocksDbLaws DB}.
Context (ignore_ips : list IpAddr) (files : list list_file) (spool : bool) (F0 : families).
Implicit Types (c : cached_import DB) (s : pipeline).
Abbreviation move := (worker_move (N4 := N4) (N6 := N6) ignore_ips files).
Abbreviation steps := (step (N4 := N4) (N6 := N6) ignore_ips files).
Abbreviation csteps := (cached_step (N4 := N4) (N6 := N6) ignore_ips files spool).

Lemma worker_step_entries s es w :
  worker_step (N4 := N4) (N6 := N6) ignore_ips files (with_entries s es) w =
  prod_map (λ s', with_entries s' es) id <$>
    worker_step (N4 := N4) (N6 := N6) ignore_ips files s w.
Proof.
  unfold worker_step. cbn [with_entries pl_abort pl_file_index pl_next_metadata_id].
  destruct (wk_phase w) as [| |f|f [|line rest] n| | |e]; [|done|done|..|done|done|done].
  - by destruct (pl_abort s).
  - by destruct (lf_error f).
  - by destruct (parse_file_line _ _ _ _ _).
Qed.

Lemma worker_step_keeps s w s' w' :
  worker_step (N4 := N4) (N6 := N6) ignore_ips files s w = Some (s', w') →
  pl_entries s' = pl_entries s ∧ pl_channel s' = pl_channel s ∧ pl_consume s' = pl_consume s ∧
  pl_workers s' = pl_workers s.
Proof.
  unfold worker_step. destruct (wk_phase w) as [| |f|f [|line rest] n| | |e]; intros H;
    simplify_eq/=; repeat (case_match; simplify_eq/=); done.
Qed.

Lemma move_entries s es s' : move s s' → move (with_entries s es) (with_entries s' es).
Proof.
  intros [s0 i w s1 w1 Hi Hs Hst|s0 i w b sent Hi Hs Hc Hl|s0 i w Hi Hs Hc].
  - apply (StepWorker _ _ (with_entries s0 es) i w (with_entries s1 es) w1); [done|done|].
    by rewrite worker_step_entries, Hst.
  - by apply (StepSend _ _ (with_entries s0 es) i w b sent).
  - by apply (StepSendFailed _ _ (with_entries s0 es) i w).
Qed.

Lemma move_keeps s s' : move s s' → pl_entries s' = pl_entries s ∧ pl_consume s' = pl_consume s.
Proof.
  intros [s0 i w s1 w1 Hi Hs Hst|s0 i w b sent Hi Hs Hc Hl|s0 i w Hi Hs Hc]; [|done|done].
  cbn. by destruct (worker_step_keeps _ _ _ _ Hst) as (-> & _ & -> & _).
Qed.

(** The cached import in state [c] has done what the import in memory has done in
    state [s]: the same threads, and the published entries on their way to disk. *)
Definition simulates c s : Prop :=
  ci_threads c = with_entries s (if spool then [] else pl_entries s) ∧
  pl_sequence s = len (pl_entries s) ∧
  (pl_consume s = Some None → bw_batch (ci_writer c) = []) ∧
  ∃ blocks, pl_entries s = mjoin blocks ∧ Forall (λ b, b ≠ []) blocks ∧
    view (ci_cache c) (ci_writer c) = apply_ops F0 (blocks_ops spool 0 blocks).

(** The disk failed the coordinator. *)
Definition disk_failed c : Prop := pl_consume (ci_threads c) = Some (Some ECache).

(** Batches on their way are not empty. *)
Definition full_batches s : Prop :=
  Forall (λ b, b ≠ []) (pl_channel s) ∧
  Forall (λ w, Forall (λ b, b ≠ []) (fp_sent (wk_state w))) (pl_workers s).

Lemma move_sequence s s' : move s s' → pl_sequence s' = pl_sequence s.
Proof.
  intros [s0 i w s1 w1 Hi Hs Hst|s0 i w b sent Hi Hs Hc Hl|s0 i w Hi Hs Hc]; [|done|done].
  unfold worker_step in Hst. cbn. destruct (wk_phase w) as [| |f|f [|line rest] n| | |e];
    simplify_eq/=; repeat (case_match; simplify_eq/=); done.
Qed.

Lemma simulation c c' s :
  simulates c s → full_batches s → csteps c c' →
  (∃ s', steps s s' ∧ simulates c' s') ∨ disk_failed c'.
Proof.
  intros (Ht & Hsq & Hbt & blocks & Hb & Hne & Hv) [Hch _] Hst.
  destruct Hst as [c s1 Hm|c batch rest Hc Hch'|c Hc Hch' He].
  - left. rewrite Ht in Hm. pose proof (move_keeps _ _ Hm) as [He Hcs].
    pose proof (move_sequence _ _ Hm) as Hs1. apply (move_entries _ (pl_entries s)) in Hm.
    replace (with_entries (with_entries s _) (pl_entries s)) with s in Hm by (by destruct s).
    exists (with_entries s1 (pl_entries s)). split; [by apply StepThread|]. split_and!.
    + cbn. cbn in He. rewrite <-He. by destruct s1.
    + cbn. by rewrite Hs1.
    + cbn. by rewrite Hcs.
    + exists blocks. done.
  - rewrite Ht in Hc, Hch'. cbn in Hc, Hch'. unfold receive_cached. rewrite Ht.
    cbn [with_entries pl_sequence pl_file_index pl_abort pl_next_metadata_id pl_workers pl_entries].
    destruct (pl_sequence s + len batch <? 2 ^ 32) eqn:Hfit.
    2: { left. exists (receive s batch rest). split; [by apply StepReceive|]. unfold receive.
         rewrite Hfit. split_and!; [cbn; by rewrite Ht|done|done|by exists blocks]. }
    destruct (bw_entries _ _ _ _ _) as [[cache writer]| |] eqn:Hw; [|by right..].
    left. exists (receive s batch rest). split; [by apply StepReceive|].
    apply bw_entries_view in Hw as (Hw & _). unfold receive. rewrite Hfit.
    assert (Hlb : len (number_entries (pl_sequence s) batch) = len batch).
    { unfold len, number_entries. by rewrite length_imap. }
    split_and!.
    + cbn. by destruct spool.
    + cbn. unfold len in *. rewrite length_app. lia.
    + done.
    + exists (blocks ++ [number_entries (pl_sequence s) batch]). cbn. split_and!.
      * rewrite Hb, join_app. cbn. by rewrite app_nil_r.
      * apply Forall_app. split; [done|]. constructor; [|done]. rewrite Hch' in Hch.
        apply Forall_cons in Hch as [Hch _]. by destruct batch.
      * rewrite blocks_ops_snoc, apply_ops_app, <-Hv, Hw, <-Hb, <-Hsq. done.
  - unfold consume_end. destruct (commit _ _) as [[cache writer]| |] eqn:Hw; [|by right..].
    left. apply commit_view in Hw as (Hw & Hw0 & _). rewrite Ht in Hc, Hch', He. cbn in Hc, Hch', He.
    exists (consumed s None). split; [by apply StepConsumed|]. split_and!.
    + cbn. by rewrite Ht.
    + done.
    + done.
    + exists blocks. cbn. by rewrite Hw.
Qed.

(** *** No empty batch is ever sent *)
Abbreviation full := (Forall (λ b : list FireholEntry, b ≠ [])).

Lemma push_targets_full n ts : ∀ st st',
  push_targets writing n ts st = Ok st' → full (fp_sent st) → full (fp_sent st').
Proof.
  induction ts as [|t ts IH]; intros st st'; cbn [push_targets]; [by intros [= <-]|].
  destruct (_ <=? _)%nat.
  - unfold flush. cbn [fp_entries fp_sent].
    destruct (fp_entries st ++ _) as [|e l]; osimpl; intros H Hf; apply IH in H; [done|done|done|].
    cbn [fp_sent]. apply Forall_app. by repeat constructor.
  - osimpl. intros H Hf. by apply IH in H.
Qed.

Lemma on_line_full line n st st' :
  parse_file_line (N4 := N4) (N6 := N6) writing ignore_ips line n st = Ok st' →
  full (fp_sent st) → full (fp_sent st').
Proof.
  unfold parse_file_line. intros H Hf. destruct (_ =? 0) in H; [by simplify_eq|].
  destruct (strip_prefix 35 (trim line)) as [stripped|].
  - destruct (comment_field stripped) as [[key val]|]; simplify_eq; [|done].
    unfold apply_comment. by repeat case_bool_decide.
  - destruct (_ =? 0) in H; [by simplify_eq|].
    destruct (line_targets _ _) as [ts| |] in H; [|done..].
    eapply push_targets_full; [exact H|]. unfold emit_metadata. by destruct (fp_emitted st).
Qed.

Lemma worker_step_full s w s' w' :
  worker_step (N4 := N4) (N6 := N6) ignore_ips files s w = Some (s', w') →
  full (fp_sent (wk_state w)) → full (fp_sent (wk_state w')).
Proof.
  assert (Hr : ∀ st, full (fp_sent st) → full (fp_sent (flush_rest st))).
  { intros st Hf. unfold flush_rest. destruct (fp_entries st) eqn:E; [done|]. cbn.
    apply Forall_app. by repeat constructor. }
  unfold worker_step. intros H Hf. destruct (wk_phase w) as [| |f|f [|line rest] n| | |e]; simplify_eq/=.
  - repeat (case_match; simplify_eq/=); auto.
  - repeat (case_match; simplify_eq/=); auto.
  - done.
  - destruct (lf_error f); simplify_eq/=; [done|]. unfold emit_metadata. by destruct (fp_emitted _).
  - destruct (parse_file_line _ _ _ _ _) eqn:E; simplify_eq/=; [|done].
    by apply on_line_full in E.
  - done.
Qed.

Lemma full_batches_step s s' : full_batches s → steps s s' → full_batches s'.
Proof.
  intros [Hc Hw] Hst.
  destruct Hst as [? ? [s i w s1 w1 Hi Hs Hst|s i w b sent Hi Hs Hc' Hl|s i w Hi Hs Hc']
    |s b rest Hc' Hch|s Hc' Hch He]; unfold full_batches; cbn.
  - pose proof (worker_step_full _ _ _ _ Hst) as Hf.
    destruct (worker_step_keeps _ _ _ _ Hst) as (_ & -> & _ & ->). split; [done|].
    apply Forall_insert; [done|]. apply Hf. exact (Forall_lookup_1 _ _ _ _ Hw Hi).
  - assert (Hf : full (fp_sent (wk_state w))) by exact (Forall_lookup_1 _ _ _ _ Hw Hi).
    rewrite Hs in Hf. apply Forall_cons in Hf as [Hb Hf]. split.
    + apply Forall_app. by repeat constructor.
    + by apply Forall_insert.
  - split; [done|]. apply Forall_insert; [done|]. constructor.
  - rewrite Hch in Hc. apply Forall_cons in Hc as [_ Hc]. unfold receive.
    destruct (_ <? _); cbn; [done|]. by split; [constructor|].
  - by split; [constructor|].
Qed.

(** *** From the first step *)
Lemma disk_failed_step c c' : disk_failed c → csteps c c' → disk_failed c'.
Proof.
  unfold disk_failed. intros He Hst.
  destruct Hst as [c s1 Hm|c batch rest Hc _|c Hc _ _]; [|congruence..].
  cbn. apply move_keeps in Hm as [_ ->]. done.
Qed.

Lemma simulation_start cache total num_workers :
  db_families (cr_db cache) = F0 →
  simulates (cached_new cache total num_workers) (pipeline_new num_workers) ∧
  full_batches (pipeline_new num_workers).
Proof.
  intros HF. split; [split_and!|split].
  - cbn. by destruct spool.
  - done.
  - done.
  - exists []. cbn. by rewrite <-HF.
  - constructor.
  - by apply Forall_replicate.
Qed.

Lemma simulation_reachable cache total num_workers c :
  db_families (cr_db cache) = F0 → rtc csteps (cached_new cache total num_workers) c →
  disk_failed c ∨ ∃ s, rtc steps (pipeline_new num_workers) s ∧ simulates c s ∧ full_batches s.
Proof.
  intros HF. revert c. apply (rtc_ind_r (λ c, disk_failed c ∨ ∃ s,
    rtc steps (pipeline_new num_workers) s ∧ simulates c s ∧ full_batches s)).
  - right. exists (pipeline_new num_workers). by destruct (simulation_start cache total num_workers HF).
  - intros c c' _ Hst [Hf|(s & Hr & Hs & Hb)]; [left; by eapply disk_failed_step|].
    destruct (simulation c c' s Hs Hb Hst) as [(s' & Hs1 & Hs')|Hf]; [right|by left].
    exists s'. split; [by eapply rtc_r|]. split; [done|by eapply full_batches_step].
Qed.
End Simulation.

(** ** What is on disk *)
Fixpoint block_pairs (sequence : Z) (blocks : list (list FireholEntry)) : list (list Z * list Z) :=
  match blocks with
  | [] => []
  | b :: rest => (to_be_bytes 8 sequence, encode_block b) :: block_pairs (sequence + len b) rest
  end.

Lemma block_pairs_snd blocks : ∀ sequence, (block_pairs sequence blocks).*2 = encode_block <$> blocks.
Proof. induction blocks as [|b blocks IH]; intros sequence; [done|]. cbn. by rewrite IH. Qed.

Lemma block_pairs_keys blocks : ∀ sequence key value,
  (key, value) ∈ block_pairs sequence blocks → ∃ n, key = to_be_bytes 8 n ∧
    sequence <= n <= sequence + len (mjoin blocks).
Proof.
  induction blocks as [|b blocks IH]; intros sequence key value; cbn [block_pairs].
  { by intros ?%not_elem_of_nil. }
  assert (Hl : len (mjoin (b :: blocks)) = len b + len (mjoin blocks)).
  { unfold len. change (mjoin (b :: blocks)) with (b ++ mjoin blocks). rewrite length_app. lia. }
  pose proof (len_nonneg b). pose proof (len_nonneg (mjoin blocks)).
  intros [[= -> ->]|H']%elem_of_cons; [exists sequence; split; [done|lia]|].
  apply IH in H' as (n & -> & ?). exists n. split; [done|lia].
Qed.

Lemma block_pairs_sorted blocks : ∀ sequence,
  0 <= sequence → sequence + len (mjoin blocks) < 2 ^ 64 → Forall (λ b, b ≠ []) blocks →
  StronglySorted bytes_lt (block_pairs sequence blocks).*1.
Proof.
  induction blocks as [|b blocks IH]; intros sequence H0 Hlen Hne; [constructor|].
  apply Forall_cons in Hne as [Hb Hne]. cbn [block_pairs]. rewrite fmap_cons. cbn [fst].
  assert (0 < len b) by (unfold len; destruct b; [done|simpl; lia]).
  assert (Hl : len (mjoin (b :: blocks)) = len b + len (mjoin blocks)).
  { unfold len. change (mjoin (b :: blocks)) with (b ++ mjoin blocks). rewrite length_app. lia. }
  constructor; [apply IH; [lia|lia|done]|].
  apply Forall_fmap, Forall_forall. intros [key value] (n & -> & Hn)%block_pairs_keys. cbn.
  unfold bytes_lt. rewrite bytes_ltb_be by (rewrite ?length_to_be_bytes; done || apply to_be_bytes_ok).
  rewrite !from_to_be_bytes_id by (unfold in_width; lia). apply Z.ltb_lt. lia.
Qed.

Lemma contributions_elsewhere name b : ∀ sequence m,
  name ≠ CONTRIBUTIONS → fold_left (apply_on name) (contributions_of sequence b) m = m.
Proof.
  induction b as [|e b IH] using rev_ind; intros sequence m Hne; [done|].
  unfold contributions_of. rewrite imap_app, fold_left_app. fold (contributions_of sequence b).
  rewrite IH by done. cbn. by rewrite decide_False by done.
Qed.

Lemma blocks_on_entries blocks : ∀ sequence m,
  fold_left (apply_on ENTRIES) (blocks_ops true sequence blocks) m =
  fold_left (apply_on ENTRIES) ((λ kb, WPut ENTRIES kb.1 kb.2) <$> block_pairs sequence blocks) m.
Proof.
  induction blocks as [|b blocks IH]; intros sequence m; cbn [blocks_ops block_pairs]; [done|].
  unfold entries_ops. rewrite !fold_left_app, contributions_elsewhere by done.
  cbn [fmap list_fmap fold_left]. apply IH.
Qed.

Lemma blocks_on_contributions spool blocks : ∀ E m,
  holds_contributions m E → Forall fe_ok (E ++ mjoin blocks) → len (E ++ mjoin blocks) <= 2 ^ 64 →
  holds_contributions (fold_left (apply_on CONTRIBUTIONS) (blocks_ops spool (len E) blocks) m)
    (E ++ mjoin blocks).
Proof.
  induction blocks as [|b blocks IH]; intros E m Hh Hok Hlen; cbn [blocks_ops].
  { cbn in *. by rewrite app_nil_r. }
  change (mjoin (b :: blocks)) with (b ++ mjoin blocks) in *. rewrite (assoc_L (++)) in *.
  unfold entries_ops. rewrite !fold_left_app.
  replace (len E + len b) with (len (E ++ b)) by (unfold len; rewrite length_app; lia).
  apply IH; [|done|done].
  assert (Hsp : ∀ m', fold_left (apply_on CONTRIBUTIONS)
    (if spool then [WPut ENTRIES (to_be_bytes 8 (len E)) (mjoin (encode <$> b))] else []) m' = m')
    by (intros m'; by destruct spool). rewrite Hsp.
  apply holds_contributions_app; [done| |].
  - by apply Forall_app in Hok as [? _].
  - unfold len in *. rewrite !length_app in *. lia.
Qed.

Lemma blocks_elsewhere spool name blocks : ∀ sequence m,
  name ≠ CONTRIBUTIONS → name ≠ ENTRIES →
  fold_left (apply_on name) (blocks_ops spool sequence blocks) m = m.
Proof.
  induction blocks as [|b blocks IH]; intros sequence m Hc He; cbn [blocks_ops]; [done|].
  unfold entries_ops. rewrite !fold_left_app, contributions_elsewhere by done.
  destruct spool; cbn [fold_left apply_on]; rewrite ?decide_False by done; by apply IH.
Qed.

(** ** The registry built from disk *)
Section Result.
Context {DB : Type} `{!RocksDb DB} `{!RocksDbLaws DB} `{!RocksDbReads DB}.
Context `{!Rkyv FireholMetadata} `{!Rkyv RuleBlockContext}.
Context `{!RkyvLaws FireholMetadata} `{!RkyvLaws RuleBlockContext}.
Implicit Types (r : FireholMetadataRegistry (CacheRocksDb DB)) (cache : CacheRocksDb DB).

Lemma register_all_cached ms : ∀ r r' cache,
  register_all ms r = Ok r' → rg_cache r = Some cache → cache_ok cache → NoDup (md_id <$> ms) →
  ∃ cache', rg_cache r' = Some cache' ∧ cache_ok cache' ∧
    (∀ n, n ∈ names → n ≠ METADATA → family_of cache' n = family_of cache n) ∧
    (∀ id, id ∉ md_id <$> ms → rg_metadata_light r' !! id = rg_metadata_light r !! id) ∧
    ∀ m, m ∈ ms → rg_metadata_light r' !! md_id m = Some (md_category m, md_file_name m).
Proof.
  induction ms as [|m ms IH]; intros r r' cache; cbn [register_all].
  { intros [= <-] Hc Hok _. exists cache. split_and!; [done..|]. by intros m ?%not_elem_of_nil. }
  unfold try_register_metadata. intros Hr Hc Hok Hnd. rewrite Hc in Hr.
  rewrite fmap_cons in Hnd. apply NoDup_cons in Hnd as [Hnin Hnd].
  destruct (put_metadata cache _ m) as [c1|] eqn:Hp; [|done].
  destruct (put_metadata_effect _ _ _ _ Hok Hp) as (Hok1 & _ & Hn1).
  apply (IH _ _ c1) in Hr as (c2 & Hc2 & Hok2 & Hn2 & Hout & Hin); [|done..].
  exists c2. split; [done|]. split; [done|]. split; [|split].
  - intros n Hn Hne. by rewrite Hn2, Hn1.
  - intros id Hid. rewrite fmap_cons in Hid. rewrite Hout by set_solver. cbn.
    by rewrite lookup_insert_ne by set_solver.
  - intros x [->|Hx]%elem_of_cons; [|by apply Hin].
    rewrite Hout by done. cbn. apply lookup_insert_eq.
Qed.

(** Visiting entries changes neither metadata nor cache, and counts by kind. *)
Lemma visit_cached_keeps E : ∀ r r' mc mc' ks ks',
  visit_all visit_cached E (r, mc, ks) = Ok (r', mc', ks') →
  rg_cache r' = rg_cache r ∧ rg_metadata_light r' = rg_metadata_light r ∧ length ks' = length ks ∧
  ∀ k, (k < length ks)%nat → nth k ks' 0 = nth k ks 0 + count_kind k E.
Proof.
  induction E as [|e E IH]; intros r r' mc mc' ks ks'; cbn [visit_all].
  { intros [= -> _ ->]. split_and!; [done..|]. intros k _.
    replace (count_kind k []) with 0 by done. lia. }
  destruct (visit_cached e (r, mc, ks)) as [[[r1 mc1] ks1]| |] eqn:Hv; [|done..]. osimpl.
  unfold visit_cached in Hv. destruct (_ <? _)%nat in Hv; [|done]. injection Hv as <- <- <-.
  intros (-> & -> & Hl & Hk)%IH. rewrite length_alter in Hl, Hk. split_and!; [done..|].
  intros k Hlt. rewrite Hk by done. unfold count_kind. rewrite filter_cons. fold (kind_of e).
  assert (Ha : nth k (alter (Z.add 1) (kind_of e) ks) 0 =
    if decide (kind_of e = k) then 1 + nth k ks 0 else nth k ks 0).
  { rewrite !nth_lookup, list_lookup_alter. destruct (lookup_lt_is_Some_2 ks k Hlt) as [x Hx].
    case_decide; subst; by rewrite Hx. }
  rewrite Ha. case_decide; [|lia]. unfold len. cbn [length]. lia.
Qed.

Lemma count_all_keeps mc : ∀ r id,
  rg_cache (count_all r id mc) = rg_cache r ∧
  rg_metadata_light (count_all r id mc) = rg_metadata_light r.
Proof.
  induction mc as [|n mc IH]; intros r id; cbn [count_all]; [done|].
  destruct (IH (if (0 <? n)%nat then count_cached_metadata r id n else r) (id + 1)) as [-> ->].
  destruct (0 <? n)%nat; [|done]. unfold count_cached_metadata. by destruct (_ !! _) as [[]|].
Qed.

(** The counters of the metadata whose [g] is [k]. *)
Fixpoint weighted {K} `{EqDecision K} (g : Z → option K) (k : K) (id : Z) (metadata_counts : list nat) : nat :=
  match metadata_counts with
  | [] => 0%nat
  | n :: rest => ((if decide (g id = Some k) then n else 0) + weighted g k (id + 1)%Z rest)%nat
  end.

Lemma weighted_alter {K} `{EqDecision K} (g : Z → option K) k mc : ∀ id i,
  (i < length mc)%nat →
  weighted g k id (alter Datatypes.S i mc) =
    ((if decide (g (id + Z.of_nat i)%Z = Some k) then 1 else 0) + weighted g k id mc)%nat.
Proof.
  induction mc as [|n mc IH]; intros id [|i] Hi; cbn [length] in Hi; [lia..| |].
  - cbn. rewrite Z.add_0_r. case_decide; lia.
  - change (alter Datatypes.S (Datatypes.S i) (n :: mc)) with (n :: alter Datatypes.S i mc).
    cbn [weighted]. rewrite IH by lia.
    replace (id + 1 + Z.of_nat i) with (id + Z.of_nat (Datatypes.S i)) by lia. lia.
Qed.

Lemma weighted_zeros {K} `{EqDecision K} (g : Z → option K) k n : ∀ id, weighted g k id (replicate n 0%nat) = 0%nat.
Proof. induction n as [|n IH]; intros id; [done|]. cbn. rewrite IH. by case_decide. Qed.

Lemma fe_ok_ids E : Forall fe_ok E → Forall (λ e, 0 <= fe_metadata_id e) E.
Proof. intros He. eapply Forall_impl; [exact He|]. intros e (_ & _ & [? _] & _). done. Qed.

Lemma visit_cached_counters E : ∀ r r' mc mc' ks ks',
  Forall (λ e, 0 <= fe_metadata_id e) E →
  visit_all visit_cached E (r, mc, ks) = Ok (r', mc', ks') →
  counters r' = counters r ∧ ∀ K `{EqDecision K} (g : Z → option K) k,
    weighted g k 0 mc' = (weighted g k 0 mc + tally (λ e, g (fe_metadata_id e)) k E)%nat.
Proof.
  induction E as [|e E IH]; intros r r' mc mc' ks ks' Hid; cbn [visit_all].
  { intros [= -> -> ->]. split; [done|]. intros. by rewrite Nat.add_0_r. }
  apply Forall_cons in Hid as [He Hid].
  destruct (visit_cached e (r, mc, ks)) as [[[r1 mc1] ks1]| |] eqn:Hv; [|done..]. osimpl.
  unfold visit_cached in Hv.
  destruct (Nat.ltb_spec (Z.to_nat (fe_metadata_id e)) (length mc)) as [Hlt|] in Hv; [|done].
  injection Hv as <- <- <-.
  intros [-> Hw]%IH; [|done]. split; [done|]. intros K ? g k.
  rewrite Hw, weighted_alter, tally_cons, Z.add_0_l, Z2Nat.id by lia. lia.
Qed.

Lemma count_all_counters mc : ∀ r id,
  (∀ c, rg_category_counts (count_all r id mc) !! c = add_count (rg_category_counts r !! c)
     (weighted (λ i, fst <$> rg_metadata_light r !! i) c id mc)) ∧
  (∀ f, rg_blocklist_counts (count_all r id mc) !! f = add_count (rg_blocklist_counts r !! f)
     (weighted (λ i, snd <$> rg_metadata_light r !! i) f id mc)).
Proof.
  induction mc as [|n mc IH]; intros r id; [done|]. cbn [count_all].
  set (r1 := if (0 <? n)%nat then count_cached_metadata r id n else r).
  assert (rg_metadata_light r1 = rg_metadata_light r) as Hl.
  { unfold r1, count_cached_metadata. destruct (_ <? _)%nat; [|done]. by destruct (_ !! _) as [[]|]. }
  assert ((∀ c, rg_category_counts r1 !! c = add_count (rg_category_counts r !! c)
      (if decide (fst <$> rg_metadata_light r !! id = Some c) then n else 0%nat)) ∧
    (∀ f, rg_blocklist_counts r1 !! f = add_count (rg_blocklist_counts r !! f)
      (if decide (snd <$> rg_metadata_light r !! id = Some f) then n else 0%nat))) as [Hc Hf].
  { unfold r1, count_cached_metadata. destruct (Nat.ltb_spec 0 n).
    - destruct (rg_metadata_light r !! id) as [[cat file]|]; [|done]. cbn.
      split; intros k; rewrite lookup_bump by done; by repeat case_decide; simplify_eq.
    - assert (n = 0%nat) as -> by lia. split; intros k; by case_decide. }
  destruct (IH r1 (id + 1)) as [H1 H2]. rewrite Hl in H1, H2.
  split; intros k; [rewrite H1, Hc|rewrite H2, Hf]; by rewrite add_count_add.
Qed.

Lemma finish_cache_spec r r' cache :
  finish_cache r = Ok r' → rg_cache r = Some cache → cache_ok cache →
  ∃ cache', r' = set_cache r cache' ∧ cache_ok cache' ∧
    ∀ n, n ∈ names → n ≠ CONTRIBUTIONS → family_of cache' n = family_of cache n.
Proof.
  unfold finish_cache. intros Hf Hc Hok. rewrite Hc in Hf.
  apply outcome_bind_Ok in Hf as (c1 & H1 & (c2 & H2 & [= <-])%outcome_bind_Ok).
  unfold clear_contributions in H1. apply outcome_bind_Ok in H1 as ([] & _ & H1).
  destruct (db_delete_range _ _ _ _) as [db1|] eqn:Hd; [|done]. injection H1 as <-.
  unfold flush_import in H2. repeat apply outcome_bind_Ok in H2 as ([] & _ & H2).
  destruct (db_flush _) as [db2|] eqn:Hfl; [|done]. injection H2 as <-. cbn in Hfl.
  assert (HF : db_families db2 = alter (filter (λ kv : list Z * list Z,
      in_range (replicate 26 0) (replicate 26 255) kv.1 = false)) CONTRIBUTIONS
      (db_families (cr_db cache))).
  { rewrite (db_flush_spec _ _ Hfl). exact (db_delete_range_spec _ _ _ _ _ Hd). }
  assert (Hn : ∀ n, n ≠ CONTRIBUTIONS →
    family_of (set_db (set_db cache db1) db2) n = family_of cache n).
  { intros n Hne. unfold family_of. cbn. by rewrite HF, lookup_alter_ne. }
  exists (set_db (set_db cache db1) db2). split; [done|]. split; [|auto].
  destruct Hok as (Hs & Hm & Hr). split_and!.
  - eapply Forall_impl; [exact Hs|]. cbn. intros n Hx. rewrite HF.
    destruct (decide (n = CONTRIBUTIONS)) as [->|]; [|by rewrite lookup_alter_ne].
    by rewrite lookup_alter_eq, fmap_is_Some.
  - by rewrite Hn.
  - by rewrite Hn.
Qed.

(** *** Reading the spool back *)
Lemma spool_of_blocks cache blocks :
  cache_ok cache → Forall (λ b, b ≠ []) blocks → len (mjoin blocks) < 2 ^ 64 →
  (∀ key value, family_of cache ENTRIES !! key = Some value ↔ (key, value) ∈ block_pairs 0 blocks) →
  spool_of cache = mkSpool (encode_block <$> blocks) false.
Proof.
  intros Hok Hne Hlen Hin. unfold spool_of.
  pose proof (cursor_unique (cr_db cache) ENTRIES _ (block_pairs 0 blocks)
    (cache_ok_family cache ENTRIES Hok ltac:(set_solver)) (db_cursor_status _ _)
    (block_pairs_sorted blocks 0 ltac:(lia) ltac:(lia) Hne) Hin) as Hc.
  pose proof (db_cursor_status (cr_db cache) ENTRIES) as Hs.
  destruct (db_cursor (cr_db cache) ENTRIES) as [pairs status]. cbn in Hc, Hs. subst.
  by rewrite block_pairs_snd.
Qed.

(** *** The sources of a merged context *)
Lemma context_fold_sources r es : ∀ cx,
  context_wf cx → context_wf (fold_left (context_step r) es cx) ∧
  ∀ fl, fl ∈ sources (fold_left (context_step r) es cx) ↔ fl ∈ sources cx ∨
    ∃ e, e ∈ es ∧ snd <$> rg_metadata_light r !! fe_metadata_id e = Some fl.1 ∧ fe_line e = fl.2.
Proof.
  induction es as [|e es IH]; intros cx Hw; cbn [fold_left]; [split; [done|set_solver]|].
  unfold context_step at 2 4. destruct (rg_metadata_light r !! fe_metadata_id e) as [[c f]|] eqn:Hl.
  - destruct (IH _ (add_source_wf cx f (fe_line e) c Hw)) as [Hw' Hs]. split; [done|].
    intros [f' l']. rewrite Hs, add_source_sources by done.
    setoid_rewrite elem_of_cons. split.
    + intros [[?|[= -> ->]]|(x & ? & ?)]; [by left|right; exists e|right; exists x].
      * rewrite Hl. cbn. auto.
      * auto.
    + intros [?|(x & [->|?] & Hx)]; [auto| |eauto]. rewrite Hl in Hx. cbn in Hx.
      left. right. destruct Hx as [[= ->] ->]. done.
  - destruct (IH cx Hw) as [Hw' Hs]. split; [done|]. intros fl. rewrite Hs.
    setoid_rewrite elem_of_cons. split; [intros [?|(x & ? & ?)]; eauto|].
    intros [?|(x & [->|?] & Hx & ?)]; [auto| |eauto]. by rewrite Hl in Hx.
Qed.

Lemma context_of_contributed r E t fl :
  fl ∈ sources (context_of r (entries_for t E)) ↔
  contributed (λ id, snd <$> rg_metadata_light r !! id) E t fl.
Proof.
  unfold context_of. destruct (context_fold_sources r (entries_for t E) RuleBlockContext_default)
    as [_ Hs]; [done|]. rewrite Hs. unfold contributed. split.
  - intros [?%not_elem_of_nil|(e & [Ht He]%list_elem_of_filter & ?)]; [done|]. naive_solver.
  - intros (e & He & Ht & ?). right. exists e. split; [by apply list_elem_of_filter|done].
Qed.
End Result.

(** ** Without I/O errors *)
Class RocksDbTotal (DB : Type) `{RocksDb DB} : Prop := {
  db_write_total wal db ops : is_Some (db_write wal db ops);
  db_delete_range_total db name lo hi : is_Some (db_delete_range db name lo hi);
  db_flush_total db : is_Some (db_flush db);
}.
Class RkyvTotal (A : Type) `{Rkyv A} : Prop := to_bytes_total (a : A) : is_Some (to_bytes a).

Section Total.
Context {DB : Type} `{!RocksDb DB} `{!RocksDbLaws DB} `{!RocksDbReads DB} `{!RocksDbTotal DB}.
Context `{!Rkyv FireholMetadata} `{!Rkyv RuleBlockContext}.
Context `{!RkyvLaws FireholMetadata} `{!RkyvLaws RuleBlockContext}.
Context `{!RkyvTotal FireholMetadata} `{!RkyvTotal RuleBlockContext}.
Implicit Types (self cache : CacheRocksDb DB) (w : BulkWriter).
Implicit Types (r : FireholMetadataRegistry (CacheRocksDb DB)).

Definition present self : Prop := Forall (λ n, is_Some (db_families (cr_db self) !! n)) names.
Lemma present_cf self n : present self → n ∈ names → cf self n = Ok tt.
Proof. intros Hp Hn. apply cf_ok. by apply (proj1 (Forall_forall _ _) Hp). Qed.

Lemma commit_total self w :
  present self → ∃ self' w', commit self w = Ok (self', w') ∧ present self'.
Proof.
  intros Hp. unfold commit. case_bool_decide; [by exists self, w|].
  destruct (db_write_total (negb (cr_temporary self)) (cr_db self) (bw_batch w)) as [db Hw].
  rewrite Hw. eexists _, _. split; [done|]. eapply Forall_impl; [exact Hp|].
  intros n [m Hm]. cbn. rewrite (db_write_spec _ _ _ _ Hw), apply_ops_lookup, Hm. by eexists.
Qed.
Lemma commit_if_full_total self w :
  present self → ∃ self' w', commit_if_full self w = Ok (self', w') ∧ present self'.
Proof. intros Hp. unfold commit_if_full. destruct (_ <=? _); [by apply commit_total|eauto]. Qed.

Lemma bw_put_total self w name key value :
  present self → name ∈ names →
  ∃ self' w', bw_put self w name key value = Ok (self', w') ∧ present self'.
Proof.
  intros Hp Hn. unfold bw_put. rewrite present_cf by done. by apply commit_if_full_total.
Qed.
Lemma bw_entries_total self w entries sequence spool :
  present self → ∃ self' w', bw_entries self w entries sequence spool = Ok (self', w') ∧ present self'.
Proof.
  intros Hp. unfold bw_entries. rewrite (present_cf self CONTRIBUTIONS) by (done || set_solver). osimpl.
  destruct spool; [rewrite (present_cf self ENTRIES) by (done || set_solver)|]; by apply commit_if_full_total.
Qed.

Lemma emit_total (st : context_scan DB) :
  present (sn_cache st) → ∃ st', emit st = Ok st' ∧ present (sn_cache st').
Proof.
  intros Hp. unfold emit. destruct (to_bytes_total (sn_context st)) as [buf ->]. cbn [io]. osimpl.
  destruct (bw_put_total (sn_cache st) (sn_writer st) RULE_CONTEXT (sn_current st) buf)
    as (c & w & -> & Hc); [done|set_solver|]. eexists. split; [done|done].
Qed.

Lemma contribute_total r n e (st : context_scan DB) :
  fe_ok e → is_Some (rg_metadata_light r !! fe_metadata_id e) → present (sn_cache st) →
  ∃ st', contribute r (contribution_key n e) (contribution_value e) st = Ok st' ∧ present (sn_cache st').
Proof.
  intros He [[c f] Hl] Hp. destruct (contribution_read n e He) as (Hr & Ht & Hm & Hli).
  unfold contribute. rewrite Hr, Ht, Hm, Hli, Hl. cbn [negb].
  assert (∃ st1, enter_target (context_key (fe_target e)) st = Ok st1 ∧ present (sn_cache st1))
    as (st1 & -> & Hp1); [|by eexists].
  unfold enter_target. case_bool_decide; [by eauto|]. case_bool_decide; osimpl; [by eexists|].
  destruct (emit_total st Hp) as (st1 & -> & Hp1). by eexists.
Qed.

Lemma scan_total r cs : ∀ st : context_scan DB,
  Forall (λ ne, fe_ok ne.2 ∧ is_Some (rg_metadata_light r !! fe_metadata_id ne.2)) cs →
  present (sn_cache st) →
  ∃ st', visit_cursor (contribute r)
    ((λ ne, (contribution_key ne.1 ne.2, contribution_value ne.2)) <$> cs) st = Ok st' ∧
    present (sn_cache st').
Proof.
  induction cs as [|[n e] cs IH]; intros st Hcs Hp; cbn [fmap list_fmap visit_cursor]; [by eauto|].
  apply Forall_cons in Hcs as [[He Hl] Hcs]. cbn [fst snd].
  destruct (contribute_total r n e st He Hl Hp) as (st1 & -> & Hp1). osimpl. by apply IH.
Qed.

Lemma finish_contexts_total r cache w E :
  rg_cache r = Some cache → cache_ok cache →
  holds_contributions (family_of cache CONTRIBUTIONS) E → Forall fe_ok E → len E < 2 ^ 64 →
  (∀ e, e ∈ E → is_Some (rg_metadata_light r !! fe_metadata_id e)) →
  ∃ r' w', finish_contexts r w = Ok (r', w').
Proof.
  intros Hc Hok Hh HE Hlen Hl. pose proof Hok as (Hp & _).
  destruct (cursor_contributions (cr_db cache) _ E (cache_ok_family cache CONTRIBUTIONS Hok
    ltac:(set_solver)) Hh HE Hlen (db_cursor_status _ _)) as (cs & Hcs & Hfe & _ & Hfor).
  unfold finish_contexts, build_ordered_contexts, visit_pairs. rewrite Hc.
  rewrite (present_cf cache) by (done || set_solver). osimpl.
  pose proof (db_cursor_status (cr_db cache) CONTRIBUTIONS) as Hs.
  destruct (db_cursor (cr_db cache) CONTRIBUTIONS) as [pairs status]. cbn in Hcs, Hs. subst.
  destruct (scan_total r cs (mkScan [] RuleBlockContext_default cache w)) as (st & -> & Hp1); [|done|].
  { apply Forall_forall. intros [n e] Hin. rewrite Forall_forall in Hfe.
    assert (He : e ∈ cs.*2) by (by apply (list_elem_of_fmap_2' snd cs (n, e))). split; [by apply Hfe|].
    apply Hl. assert (Hx : e ∈ entries_for (fe_target e) cs.*2) by (by apply list_elem_of_filter).
    rewrite Hfor in Hx. by apply list_elem_of_filter in Hx as [_ ?]. }
  osimpl. assert (∃ st', (if bool_decide (sn_current st = []) then mret st else emit st) = Ok st' ∧
    present (sn_cache st')) as (st' & -> & Hp2).
  { case_bool_decide; [by eauto|by apply emit_total]. }
  osimpl. cbn [set_cache set_metadata rg_cache].
  destruct (commit_total (sn_cache st') (sn_writer st') Hp2) as (c' & w' & -> & _). by eexists _, _.
Qed.

Lemma register_all_total ms : ∀ r cache,
  rg_cache r = Some cache → cache_ok cache → ∃ r', register_all ms r = Ok r'.
Proof.
  induction ms as [|m ms IH]; intros r cache Hc Hok; cbn [register_all]; [by eauto|].
  unfold try_register_metadata. rewrite Hc.
  assert (∃ c1, put_metadata cache (metadata_key (md_id m)) m = Some c1) as [c1 Hp].
  { cbn. destruct (to_bytes_total m) as [buf ->]. cbn. unfold cache_put.
    rewrite (present_cf cache) by (apply Hok || set_solver). osimpl.
    destruct (db_write_total true (cr_db cache) [WPut METADATA (metadata_key (md_id m)) buf]) as [db ->].
    by eexists. }
  rewrite Hp. destruct (put_metadata_effect _ _ _ _ Hok Hp) as (Hok1 & _). by eapply IH.
Qed.

Lemma visit_cached_total E : ∀ r mc ks,
  (∀ e, e ∈ E → (Z.to_nat (fe_metadata_id e) < length mc)%nat) →
  ∃ st, visit_all visit_cached E (r, mc, ks) = Ok st.
Proof.
  induction E as [|e E IH]; intros r mc ks Hid; cbn [visit_all]; [by eauto|].
  assert (Hv : visit_cached e (r, mc, ks) = Ok (register_cached_entry r e,
    alter Datatypes.S (Z.to_nat (fe_metadata_id e)) mc, alter (Z.add 1) (kind_of e) ks)).
  { unfold visit_cached. by rewrite (proj2 (Nat.ltb_lt _ _)) by (apply Hid; set_solver). }
  rewrite Hv. osimpl. apply IH. intros x Hx. rewrite length_alter. apply Hid. set_solver.
Qed.

Lemma finish_cache_total r cache :
  rg_cache r = Some cache → cache_ok cache → ∃ r', finish_cache r = Ok r'.
Proof.
  intros Hc (Hp & _). unfold finish_cache, clear_contributions. rewrite Hc.
  rewrite present_cf by (done || set_solver). osimpl.
  destruct (db_delete_range_total (cr_db cache) CONTRIBUTIONS (replicate 26 0) (replicate 26 255))
    as [db Hd]. rewrite Hd. cbn [io]. osimpl. unfold flush_import.
  assert (Hp' : present (set_db cache db)).
  { eapply Forall_impl; [exact Hp|]. intros n Hx. cbn. rewrite (db_delete_range_spec _ _ _ _ _ Hd).
    destruct (decide (n = CONTRIBUTIONS)) as [->|]; [|by rewrite lookup_alter_ne].
    by rewrite lookup_alter_eq, fmap_is_Some. }
  rewrite !present_cf by (done || set_solver). osimpl. cbn [cr_db set_db].
  destruct (db_flush_total db) as [db' ->]. by eexists.
Qed.
End Total.

(** ** Refinement *)
Definition fresh_families : families :=
  list_to_map ((., ∅) <$> [METADATA; RULE_CONTEXT; ENTRIES; CONTRIBUTIONS]).

Section Refinement.
Context {N4 N6 : Type} `{!IpNet 4 N4} `{!IpNet 16 N6} `{!IpNetText N4 N6}.
Context {low : Lowercase} {chrono : Chrono} `{!HashOrder}.
Context {DB : Type} `{!RocksDb DB} `{!RocksDbLaws DB} `{!RocksDbReads DB}.
Context `{!Rkyv FireholMetadata} `{!Rkyv RuleBlockContext}.
Context `{!RkyvLaws FireholMetadata} `{!RkyvLaws RuleBlockContext}.
Context (ignore_ips : list IpAddr) (files : list list_file) (spool : bool).
Implicit Types (c : cached_import DB) (s : pipeline).

(** The entries family holds the blocks, when the import spools. *)
Definition spooled (cache : CacheRocksDb DB) (blocks : list (list FireholEntry)) : Prop :=
  spool = true → ∀ key value,
    family_of cache ENTRIES !! key = Some value ↔ (key, value) ∈ block_pairs 0 blocks.

Lemma joined_disk c s :
  simulates spool fresh_families c s → pl_consume s = Some None →
  Forall fe_ok (pl_entries s) → len (pl_entries s) < 2 ^ 64 →
  cache_ok (ci_cache c) ∧ bw_batch (ci_writer c) = [] ∧ family_of (ci_cache c) RULE_CONTEXT = ∅ ∧
  holds_contributions (family_of (ci_cache c) CONTRIBUTIONS) (pl_entries s) ∧
  ∃ blocks, pl_entries s = mjoin blocks ∧ Forall (λ b, b ≠ []) blocks ∧ spooled (ci_cache c) blocks.
Proof.
  intros (Ht & _ & Hbt & blocks & Hb & Hne & Hv) Hc Hok Hlen. specialize (Hbt Hc).
  unfold view in Hv. rewrite Hbt in Hv. cbn [apply_ops fold_left] in Hv.
  assert (Hfam : ∀ n, n ∈ names → db_families (cr_db (ci_cache c)) !! n =
    Some (fold_left (apply_on n) (blocks_ops spool 0 blocks) ∅)).
  { intros n Hn. rewrite Hv, apply_ops_lookup.
    assert (Hf : fresh_families !! n = Some ∅); [|by rewrite Hf].
    unfold names in Hn. rewrite !elem_of_cons, elem_of_nil in Hn. by destruct Hn as [->|[->|[->|[->|[]]]]]. }
  assert (Hof : ∀ n, n ∈ names → family_of (ci_cache c) n =
    fold_left (apply_on n) (blocks_ops spool 0 blocks) ∅).
  { intros n Hn. unfold family_of. by rewrite Hfam. }
  split_and!.
  - split_and!.
    + apply Forall_forall. intros n Hn. rewrite Hfam by done. by eexists.
    + rewrite Hof, blocks_elsewhere by (done || set_solver). apply map_Forall_empty.
    + rewrite Hof, blocks_elsewhere by (done || set_solver). apply map_Forall_empty.
  - done.
  - by rewrite Hof, blocks_elsewhere by (done || set_solver).
  - rewrite Hof by set_solver. rewrite Hb in Hok, Hlen |- *.
    apply (blocks_on_contributions spool blocks []); [|done|cbn; lia].
    intros key value. rewrite lookup_empty. split; [done|]. by intros (i & e & Hi & _).
  - exists blocks. split; [done|]. split; [done|]. intros Hsp key value.
    rewrite Hof by set_solver. rewrite Hsp, blocks_on_entries, apply_on_puts, (right_id_L ∅ (∪)).
    assert (Hid : (λ x : list Z * list Z, (x.1, x.2)) <$> block_pairs 0 blocks = block_pairs 0 blocks).
    { rewrite <-(list_fmap_id (block_pairs 0 blocks)) at 2. apply list_fmap_ext. by intros ? []. }
    rewrite Hid, <-elem_of_reverse. rewrite Hb in Hlen. symmetry. apply elem_of_list_to_map.
    rewrite fmap_reverse, reverse_Permutation.
    eapply StronglySorted_NoDup; [|apply block_pairs_sorted; [lia|lia|done]].
    intros x Hx. unfold bytes_lt in Hx. by rewrite bytes_ltb_irrefl in Hx.
Qed.

Lemma visit_stored cache blocks entries St (visitor : FireholEntry → St → outcome SpoolError St) st
    (r : FireholMetadataRegistry (CacheRocksDb DB)) nf nb k0 k1 k2 k3 :
  cache_ok cache → spooled cache blocks → Forall (λ b, b ≠ []) blocks →
  Forall fe_ok (mjoin blocks) → len (mjoin blocks) < 2 ^ 64 →
  (spool = false → entries = mjoin blocks) →
  visit_entries visitor (mkDataSet entries (stored_entries spool cache) r nf nb k0 k1 k2 k3) st =
  visit_all visitor (mjoin blocks) st.
Proof.
  intros Hok Hsp Hne Hfe Hlen He. unfold visit_entries, stored_entries. cbn [ds_stored_entries ds_entries].
  unfold spooled in Hsp. destruct spool; [|by rewrite He].
  rewrite (spool_of_blocks cache blocks) by auto. cbn [sp_values sp_failed].
  apply visit_blocks_all. apply Forall_forall. intros b Hin. rewrite Forall_forall in Hne. rewrite Forall_forall in Hfe.
  split; [by apply Hne|]. apply Forall_forall. intros e He'. apply Hfe, list_elem_of_join. eauto.
Qed.

Lemma count_kinds_total E : count_kind 0 E + count_kind 1 E + (count_kind 2 E + count_kind 3 E) = len E.
Proof.
  unfold count_kind, len. induction E as [|e E IH]; [done|]. rewrite !filter_cons.
  destruct (fe_target e); cbn [decide decide_rel Nat.eq_dec]; repeat case_decide; try done;
    cbn [length]; lia.
Qed.

(** What the cached import returns, next to the entries it published. *)
Lemma cached_result_spec c s ds :
  simulates spool fresh_families c s → pl_consume s = Some None → failure s = None →
  account (N4 := N4) (N6 := N6) ignore_ips files s →
  Forall fe_ok (pl_entries s) → len (pl_entries s) < 2 ^ 64 →
  cached_result spool c = Ok ds →
  (∀ St (visitor : FireholEntry → St → outcome SpoolError St) st,
     visit_entries visitor ds st = visit_all visitor (pl_entries s) st) ∧
  total_entries ds = len (pl_entries s) ∧
  (∀ m, m ∈ metadata_of s → rg_metadata_light (ds_registry ds) !! md_id m =
     Some (md_category m, md_file_name m)) ∧
  dataset_counts ds (pl_entries s) ∧
  ∃ cache, rg_cache (ds_registry ds) = Some cache ∧ cache_ok cache ∧
    ∀ t, target_ok t → st_contexts cache !! context_key t =
      if decide (t ∈ fe_target <$> pl_entries s)
      then Some (context_of (ds_registry ds) (entries_for t (pl_entries s))) else None.
Proof.
  intros Hsim Hc Hf Ha Hok Hlen Hres.
  destruct (joined_disk c s Hsim Hc Hok Hlen) as (Hok0 & Hbt & Hrc & Hh & blocks & Hb & Hne & Hsp).
  destruct Hsim as (Ht & _). unfold cached_result in Hres. rewrite Ht in Hres.
  change (failure (with_entries s _)) with (failure s) in Hres. rewrite Hf in Hres.
  cbn [pl_workers with_entries pl_entries pl_next_metadata_id] in Hres.
  apply outcome_bind_Ok in Hres as (r1 & Hr1 & Hres).
  pose proof (register_all_counters _ _ _ Hr1) as Hr0.
  apply (register_all_cached _ _ _ (ci_cache c)) in Hr1
    as (c1 & Hc1 & Hok1 & Hn1 & _ & Hm1); [|done|done|by eapply metadata_NoDup].
  rewrite Hc1 in Hres. cbn [default] in Hres.
  apply outcome_bind_Ok in Hres as ([[r2 mc] ks] & Hvis & Hres).
  assert (Hsp1 : spooled c1 blocks) by (intros E; rewrite Hn1 by set_solver; by apply Hsp).
  assert (Hkeep : spool = false → (if spool then [] else pl_entries s) = mjoin blocks)
    by (intros ->; done).
  rewrite Hb in Hok, Hlen, Hh |- *.
  rewrite (visit_stored c1 blocks) in Hvis by done.
  destruct (visit_all visit_cached (mjoin blocks) _) as [[[r2' mc'] ks']| |] eqn:Hv; [|done..].
  injection Hvis as -> -> ->.
  destruct (visit_cached_counters (mjoin blocks) _ _ _ _ _ _ (fe_ok_ids _ Hok) Hv) as [Hcn2 Hw].
  apply visit_cached_keeps in Hv as (Hc2 & Hl2 & Hks & Hk).
  destruct (count_all_counters mc r2 0) as [Hcc Hcb].
  destruct (count_all_keeps mc r2 0) as [Hc3 Hl3]. set (r3 := count_all r2 0 mc) in *.
  apply outcome_bind_Ok in Hres as ([r4 w4] & Hfc & Hres).
  destruct (finish_contexts r3 (ci_writer c)) as [[r4' w4']| |] eqn:Hfin; [|done..].
  injection Hfc as -> ->.
  apply (finish_contexts_spec r3 c1 _ (mjoin blocks)) in Hfin
    as (c4 & -> & Hok4 & _ & Hn4 & Hst4); [|done|congruence|done| | |done|done].
  2: { by rewrite Hn1 by set_solver. }
  2: { by rewrite Hn1 by set_solver. }
  apply outcome_bind_Ok in Hres as (r5 & Hr5 & [= <-]).
  destruct (finish_cache (set_cache r3 c4)) as [r5'| |] eqn:Hfx; [|done..]. injection Hr5 as ->.
  apply (finish_cache_spec _ _ c4) in Hfx as (c5 & -> & Hok5 & Hn5); [|done|done].
  assert (Hsp5 : spooled c5 blocks).
  { intros E. rewrite Hn5, Hn4 by set_solver. by apply Hsp1. }
  cbn [set_cache set_metadata rg_cache default]. split_and!.
  - intros St visitor st. by apply visit_stored.
  - unfold total_entries, stored_entries. cbn. destruct spool; [|by rewrite Hkeep].
    unfold total_hashmap_entries, total_lpm_entries. cbn.
    rewrite !Hk by (cbn; lia). cbn [nth]. rewrite <-count_kinds_total. lia.
  - intros m Hm. cbn. rewrite Hl3, Hl2. by apply Hm1.
  - unfold dataset_counts. cbn. do 4 (split; [by rewrite Hk by (cbn; lia)|]).
    rewrite Hr0 in Hcn2. injection Hcn2 as Hcn2 Hbn2. unfold counted, category_for, file_name_for. cbn.
    split; intros k; [rewrite Hcc, Hcn2|rewrite Hcb, Hbn2]; rewrite lookup_empty;
      f_equal; rewrite Hl3, Hw, weighted_zeros; done.
  - exists c5. split; [done|]. split; [done|]. intros t Htt. cbn.
    rewrite (Hn5 RULE_CONTEXT) by set_solver. rewrite Hst4 by done. done.
Qed.

(** The data sets of both imports give the same rules and the same attribution of
    IPv4 addresses. *)
Definition same_import {S : Type} `{!ContextStore S} (ds : FireholDataSet (CacheRocksDb DB))
    (ds' : FireholDataSet S) : Prop :=
  try_prepare_rules ds = try_prepare_rules ds' ∧ total_entries ds = total_entries ds' ∧
  ∀ ip fl, bytes_ok 4 ip →
    listed (lookup_addr (ds_registry ds) (V4 ip)) fl ↔ listed (lookup_addr (ds_registry ds') (V4 ip)) fl.

Lemma contributed_agree f g E t fl :
  (∀ e, e ∈ E → f (fe_metadata_id e) = g (fe_metadata_id e)) →
  contributed f E t fl ↔ contributed g E t fl.
Proof.
  intros Hfg. unfold contributed.
  split; intros (e & He & ? & Hn & ?); exists e; [rewrite <-Hfg by done|rewrite Hfg by done]; done.
Qed.

(** What the disk cache holds after an import is what the telemetry consumer asks for. *)
Lemma cached_result_holds c s ds :
  simulates spool fresh_families c s → pl_consume s = Some None → failure s = None →
  account (N4 := N4) (N6 := N6) ignore_ips files s →
  Forall fe_ok (pl_entries s) → len (pl_entries s) < 2 ^ 64 →
  cached_result spool c = Ok ds →
  ∃ cache, rg_cache (ds_registry ds) = Some cache ∧
    holds_contexts (ds_registry ds) cache (pl_entries s).
Proof.
  intros Hsim Hc Hf Ha Hok Hlen Hres.
  destruct (cached_result_spec c s ds Hsim Hc Hf Ha Hok Hlen Hres) as (_ & _ & _ & _ & cache & Hrc & Hco & Hst).
  exists cache. split; [done|]. split; [exact Hco|]. intros t Ht. unfold stored, file_name_for.
  rewrite Hst, Hrc by done. case_decide as Hin; cbn.
  - split; [|intros fl; apply context_of_contributed]. by apply context_fold_sources.
  - split; [done|]. intros fl. split; [by intros ?%elem_of_nil|].
    intros (e & He & <- & _). destruct Hin. apply list_elem_of_fmap. eauto.
Qed.

Lemma cached_attribution c s ds ip fl :
  simulates spool fresh_families c s → pl_consume s = Some None → failure s = None →
  account (N4 := N4) (N6 := N6) ignore_ips files s →
  Forall fe_ok (pl_entries s) → len (pl_entries s) < 2 ^ 64 →
  cached_result spool c = Ok ds → bytes_ok 4 ip →
  listed (lookup_addr (ds_registry ds) (V4 ip)) fl ↔
  ∃ t, target_covers t (V4 ip) ∧ contributed
    (λ id, snd <$> rg_metadata_light (ds_registry ds) !! id) (pl_entries s) t fl.
Proof.
  intros Hsim Hc Hf Ha Hok Hlen Hres Hip.
  destruct (cached_result_holds c s ds Hsim Hc Hf Ha Hok Hlen Hres) as (cache & Hrc & Hst).
  rewrite (held_attribution_v4 (ds_registry ds) cache (pl_entries s)); [|done..| |done].
  - unfold file_name_for. by rewrite Hrc.
  - intros e He. rewrite Forall_forall in Hok. by apply Hok.
Qed.

Lemma results_agree {S : Type} `{!ContextStore S} c s ds :
  simulates spool fresh_families c s → pl_consume s = Some None → failure s = None →
  account (N4 := N4) (N6 := N6) ignore_ips files s →
  Forall fe_ok (pl_entries s) → len (pl_entries s) < 2 ^ 64 →
  cached_result spool c = Ok ds →
  ∃ ds' : FireholDataSet S, import_result s = Ok ds' ∧ same_import ds ds'.
Proof.
  intros Hsim Hc Hf Ha Hok Hlen Hres.
  destruct (cached_result_spec c s ds Hsim Hc Hf Ha Hok Hlen Hres) as (Hvis & Htot & Hmd & _).
  destruct (build_dataset_ok (S := S) (metadata_of s) (pl_entries s) (sum_of wk_files (pl_workers s))
    (sum_of wk_bytes (pl_workers s)) (metadata_NoDup _ _ s Ha))
    as (ds' & Hb & He & Hst & _ & Hm & r & Hr & Hrc & Hname & _).
  exists ds'. split; [unfold import_result; by rewrite Hf|]. split_and!.
  - unfold try_prepare_rules. rewrite Hvis. unfold visit_entries. by rewrite Hst, He.
  - rewrite Htot. unfold total_entries. by rewrite Hst, He.
  - intros ip fl Hip. rewrite (cached_attribution c s) by done. rewrite Hr.
    rewrite (ram_attribution r (pl_entries s) (V4 ip)); [|done| |done].
    2: { intros e Hin. rewrite Forall_forall in Hok. by apply Hok. }
    rewrite Hname. setoid_rewrite (contributed_agree _ (file_name_for (ds_registry ds'))); [done|].
    intros e Hin. destruct (account_entry_metadata _ _ s e Ha Hin) as (m & Hmm & Hid).
    rewrite <-Hid, Hmd by done. destruct (Hm m Hmm) as [-> _]. done.
Qed.

Context (num_workers : nat) (total_file_size : Z) (generation : CacheRocksDb DB).
Hypothesis ignored_ok : Forall ip_ok ignore_ips.
Hypothesis some_worker : (0 < num_workers)%nat.
Hypothesis ids_fit : 1 + Z.of_nat (sum_list_with file_budget files) < 2 ^ 32.
Hypothesis fresh : import_generation = Ok generation.
Abbreviation steps := (step (N4 := N4) (N6 := N6) ignore_ips files).
Abbreviation csteps := (cached_step (N4 := N4) (N6 := N6) ignore_ips files spool).
Abbreviation start := (cached_new generation total_file_size num_workers).

Lemma generation_fresh : db_families (cr_db generation) = fresh_families.
Proof using RocksDbLaws0 fresh.
  unfold import_generation, cache_open in fresh.
  destruct db_open_new as [db|] eqn:Hd; [|done]. injection fresh as <-.
  exact (db_open_new_spec _ Hd).
Qed.

(** A finished cached import that did not fail has a counterpart in memory. *)
Lemma joined_counterpart c :
  rtc csteps start c → joined (ci_threads c) → failure (ci_threads c) = None →
  ∃ s, rtc steps (pipeline_new num_workers) s ∧ joined s ∧ simulates spool fresh_families c s ∧
    failure s = None ∧ pl_consume s = Some None ∧
    account (N4 := N4) (N6 := N6) ignore_ips files s ∧
    Forall fe_ok (pl_entries s) ∧ len (pl_entries s) < 2 ^ 64.
Proof using All.
  intros Hr Hj Hf.
  destruct (simulation_reachable ignore_ips files spool fresh_families generation total_file_size
    num_workers c generation_fresh Hr) as [Hd|(s & Hrs & Hsim & _)].
  { unfold disk_failed in Hd. unfold failure in Hf. by rewrite Hd in Hf. }
  pose proof Hsim as (Ht & Hsq & _). rewrite Ht in Hj, Hf.
  change (failure s = None) in Hf. change (joined s) in Hj.
  assert (Ha : account (N4 := N4) (N6 := N6) ignore_ips files s) by (by eapply reachable_account).
  exists s. split_and!; [done..| | | |].
  - destruct (ac_consume _ _ s Ha) as [? _]; [apply Hj|done].
  - done.
  - by eapply account_entries_ok.
  - destruct (ac_sequence _ _ s Ha) as (? & ? & _). lia.
Qed.

Lemma cached_counterpart {S : Type} `{!ContextStore S} c ds :
  rtc csteps start c → joined (ci_threads c) → cached_result spool c = Ok ds →
  ∃ s (ds' : FireholDataSet S), rtc steps (pipeline_new num_workers) s ∧ joined s ∧
    import_result s = Ok ds' ∧ same_import ds ds'.
Proof using All.
  intros Hr Hj Hres. assert (Hf : failure (ci_threads c) = None).
  { unfold cached_result in Hres. by destruct (failure (ci_threads c)). }
  destruct (joined_counterpart c Hr Hj Hf) as (s & Hrs & Hjs & Hsim & Hfs & Hcs & Ha & Hok & Hlen).
  destruct (results_agree (S := S) c s ds Hsim Hcs Hfs Ha Hok Hlen Hres) as (ds' & Hi & Hsame).
  by exists s, ds'.
Qed.

Context `{!RocksDbTotal DB} `{!RkyvTotal FireholMetadata} `{!RkyvTotal RuleBlockContext}.

Lemma no_disk_failure c : rtc csteps start c → present (ci_cache c) ∧ ¬ disk_failed c.
Proof using All.
  revert c. apply (rtc_ind_r (λ c, present (ci_cache c) ∧ ¬ disk_failed c)).
  - split; [|done]. apply Forall_forall. intros n Hn. cbn. rewrite generation_fresh.
    unfold names in Hn. rewrite !elem_of_cons, elem_of_nil in Hn.
    destruct Hn as [->|[->|[->|[->|[]]]]]; by eexists.
  - intros c c' _ Hst [Hp Hd]. destruct Hst as [c s1 Hm|c batch rest Hc _|c Hc _ _].
    + split; [done|]. unfold disk_failed. cbn. by destruct (move_keeps _ _ _ _ Hm) as [_ ->].
    + unfold receive_cached. destruct (_ <? _); [|done].
      destruct (bw_entries_total (ci_cache c) (ci_writer c)
        (number_entries (pl_sequence (ci_threads c)) batch) (pl_sequence (ci_threads c)) spool Hp)
        as (c' & w' & -> & Hp'). done.
    + unfold consume_end. destruct (commit_total (ci_cache c) (ci_writer c) Hp) as (c' & w' & -> & Hp').
      done.
Qed.

(** Without I/O errors an import that did not fail yields a data set. *)
Lemma cached_result_total c s :
  simulates spool fresh_families c s → pl_consume s = Some None → failure s = None →
  account (N4 := N4) (N6 := N6) ignore_ips files s →
  Forall fe_ok (pl_entries s) → len (pl_entries s) < 2 ^ 64 →
  ∃ ds, cached_result spool c = Ok ds.
Proof using All.
  intros Hsim Hc Hf Ha Hok Hlen.
  destruct (joined_disk c s Hsim Hc Hok Hlen) as (Hok0 & Hbt & Hrc & Hh & blocks & Hb & Hne & Hsp).
  destruct Hsim as (Ht & _). unfold cached_result. rewrite Ht.
  change (failure (with_entries s _)) with (failure s). rewrite Hf.
  cbn [pl_workers with_entries pl_entries pl_next_metadata_id].
  destruct (register_all_total (pl_workers s ≫= λ w, fp_metadata (wk_state w))
    (with_cache (ci_cache c)) (ci_cache c)) as [r1 Hr1]; [done..|]. rewrite Hr1. osimpl.
  apply (register_all_cached _ _ _ (ci_cache c)) in Hr1
    as (c1 & Hc1 & Hok1 & Hn1 & _ & Hm1); [|done|done|by eapply metadata_NoDup].
  rewrite Hc1. cbn [default].
  assert (Hsp1 : spooled c1 blocks) by (intros E; rewrite Hn1 by set_solver; by apply Hsp).
  rewrite (visit_stored c1 blocks); [|done..| | |]; [|by rewrite <-Hb|by rewrite <-Hb|by intros ->].
  rewrite <-Hb. destruct (visit_cached_total (pl_entries s) r1
    (replicate (Z.to_nat (pl_next_metadata_id s)) 0%nat) [0; 0; 0; 0]) as ([[r2 mc] ks] & Hv).
  { intros e He. rewrite length_replicate. destruct (account_entry_metadata _ _ s e Ha He) as (m & Hm & <-).
    destruct (ac_ids _ _ s Ha) as [_ Hids]. rewrite Forall_forall in Hids.
    assert (1 <= md_id m < pl_next_metadata_id s); [|lia]. apply Hids.
    eapply elem_of_sublist; [|apply (metadata_ids_sublist (pl_workers s))].
    by apply list_elem_of_fmap_2. }
  rewrite Hv. apply visit_cached_keeps in Hv as (Hc2 & Hl2 & _). cbn [as_parse_error]. osimpl.
  destruct (count_all_keeps mc r2 0) as [Hc3 Hl3].
  assert (Hc3' : rg_cache (count_all r2 0 mc) = Some c1) by congruence.
  destruct (finish_contexts_total (count_all r2 0 mc) c1 (ci_writer c) (pl_entries s)) as (r4 & w4 & Hf4);
    [done|done|by rewrite Hn1 by set_solver|done|done| |].
  { intros e He. destruct (account_entry_metadata _ _ s e Ha He) as (m & Hm & <-).
    rewrite Hl3, Hl2, Hm1 by done. by eexists. }
  rewrite Hf4. cbn [as_parse_error]. osimpl.
  apply (finish_contexts_spec (count_all r2 0 mc) c1 _ (pl_entries s)) in Hf4
    as (c4 & -> & Hok4 & _); [|done|done|done| | |done|done].
  2, 3: by rewrite Hn1 by set_solver.
  destruct (finish_cache_total (set_cache (count_all r2 0 mc) c4) c4) as [r5 ->]; [done..|].
  cbn [as_parse_error]. osimpl. by eexists.
Qed.
End Refinement.

(** ** Theorems *)
Section Claims.
Context {N4 N6 : Type} `{!IpNet 4 N4} `{!IpNet 16 N6} `{!IpNetText N4 N6}.
Context {low : Lowercase} {chrono : Chrono} `{!HashOrder} {S : Type} `{!ContextStore S}.
Context {DB : Type} `{!RocksDb DB} `{!RocksDbLaws DB} `{!RocksDbReads DB}.
Context `{!Rkyv FireholMetadata} `{!Rkyv RuleBlockContext}.
Context `{!RkyvLaws FireholMetadata} `{!RkyvLaws RuleBlockContext}.
Context (ignore_ips : list IpAddr) (files : list list_file) (spool : bool).
Context (num_workers : nat) (total_file_size : Z) (generation : CacheRocksDb DB).

(** C9 (refinement). The import through the disk cache refines the import in memory:
    whatever the schedule, the batch limit and the writes that fail, as long as reads of
    the database do not fail, a cached import that returns a data set corresponds to an
    import in memory of the same files, which returns one too, with the same prepared
    rules and report, the same number of entries, and the same files and lines for every
    IPv4 address. *)
Theorem cached_import_refines_memory (c : cached_import DB) ds :
  Forall ip_ok ignore_ips → (0 < num_workers)%nat →
  1 + Z.of_nat (sum_list_with file_budget files) < 2 ^ 32 → import_generation = Ok generation →
  rtc (cached_step (N4 := N4) (N6 := N6) ignore_ips files spool)
    (cached_new generation total_file_size num_workers) c →
  joined (ci_threads c) → cached_result spool c = Ok ds →
  ∃ s (ds' : FireholDataSet S),
    rtc (step (N4 := N4) (N6 := N6) ignore_ips files) (pipeline_new num_workers) s ∧ joined s ∧
    import_result s = Ok ds' ∧ same_import ds ds'.
Proof.
  intros Hign Hnw Hfit Hg Hr Hj Hres. by eapply cached_counterpart.
Qed.

(** C8 (equivalence). When the disk does not fail, the cached import succeeds and fails
    exactly as an import in memory does: every finished schedule corresponds to a
    finished import in memory, with the same error, or with data sets that give the
    same rules and attributions. *)
Theorem cached_import_equals_memory `{!RocksDbTotal DB} `{!RkyvTotal FireholMetadata}
    `{!RkyvTotal RuleBlockContext} (c : cached_import DB) :
  Forall ip_ok ignore_ips → (0 < num_workers)%nat →
  1 + Z.of_nat (sum_list_with file_budget files) < 2 ^ 32 → import_generation = Ok generation →
  rtc (cached_step (N4 := N4) (N6 := N6) ignore_ips files spool)
    (cached_new generation total_file_size num_workers) c →
  joined (ci_threads c) →
  ∃ s, rtc (step (N4 := N4) (N6 := N6) ignore_ips files) (pipeline_new num_workers) s ∧ joined s ∧
    match import_result (S := S) s with
    | Ok ds' => ∃ ds, cached_result spool c = Ok ds ∧ same_import ds ds'
    | Err e => cached_result spool c = Err e
    | Fault => False
    end.
Proof.
  intros Hign Hnw Hfit Hg Hr Hj. destruct (failure (ci_threads c)) as [e|] eqn:Hf.
  - destruct (simulation_reachable ignore_ips files spool fresh_families generation total_file_size
      num_workers c (generation_fresh generation Hg) Hr) as [Hd|(s & Hrs & Hsim & _)].
    { by destruct (no_disk_failure ignore_ips files spool num_workers total_file_size generation
        Hign Hnw Hfit Hg c Hr). }
    destruct Hsim as (Ht & _). exists s. split; [done|]. rewrite Ht in Hj. split; [exact Hj|].
    assert (Hfs : failure s = Some e) by (by rewrite Ht in Hf).
    unfold import_result, cached_result. by rewrite Hf, Hfs.
  - destruct (joined_counterpart ignore_ips files spool num_workers total_file_size generation
      Hign Hnw Hfit Hg c Hr Hj Hf) as (s & Hrs & Hjs & Hsim & Hfs & Hcs & Ha & Hok & Hlen).
    destruct (cached_result_total ignore_ips files spool num_workers total_file_size generation
      Hign Hnw Hfit Hg c s Hsim Hcs Hfs Ha Hok Hlen) as [ds Hres].
    destruct (results_agree (S := S) ignore_ips files spool c s ds Hsim Hcs Hfs Ha Hok Hlen Hres)
      as (ds' & Hi & Hsame). exists s. split; [done|]. split; [done|]. rewrite Hi. by exists ds.
Qed.
End Claims.

(** ** A scheduler for the cached import, and witnesses *)
Section CachedScheduler.
Context {N4 N6 : Type} `{!IpNet 4 N4} `{!IpNet 16 N6} `{!IpNetText N4 N6}.
Context {low : Lowercase} {chrono : Chrono} {DB : Type} `{!RocksDb DB}.
Context (ignore_ips : list IpAddr) (files : list list_file) (spool : bool).

Definition next_cached (c : cached_import DB) : option (cached_import DB) :=
  let s := ci_threads c in
  match move_first (N4 := N4) (N6 := N6) ignore_ips files s 0 (pl_workers s), pl_consume s,
        pl_channel s with
  | Some s', _, _ => Some (mkCached s' (ci_cache c) (ci_writer c))
  | None, None, batch :: rest => Some (receive_cached spool c batch rest)
  | None, None, [] => if forallb ended (pl_workers s) then Some (consume_end c) else None
  | None, Some _, _ => None
  end.
Fixpoint run_cached (fuel : nat) (c : cached_import DB) : cached_import DB :=
  match fuel with
  | O => c
  | Datatypes.S fuel' => match next_cached c with Some c' => run_cached fuel' c' | None => c end
  end.

Lemma run_cached_steps fuel : ∀ c,
  rtc (cached_step (N4 := N4) (N6 := N6) ignore_ips files spool) c (run_cached fuel c).
Proof.
  induction fuel as [|fuel IH]; intros c; [done|]. cbn [run_cached].
  destruct (next_cached c) as [c'|] eqn:Hn; [|done]. eapply rtc_l; [|apply IH]. unfold next_cached in Hn.
  destruct (move_first _ _ _ _ _) as [s1|] eqn:Hm.
  { injection Hn as <-. apply CachedThread. by eapply move_first_step; [|exact Hm]. }
  destruct (pl_consume _) eqn:Hc; [done|]. destruct (pl_channel _) as [|b rest] eqn:Hch.
  - destruct (forallb ended _) eqn:He; [|done]. injection Hn as <-. by apply CachedConsumed.
  - injection Hn as <-. by apply CachedReceive.
Qed.
End CachedScheduler.

#[local] Existing Instance demo_lower.
#[local] Existing Instance demo_chrono.
#[local] Existing Instance canonical_order.
#[local] Existing Instance demo_rkyv.
#[local] Existing Instance demo_rkyv_laws.
#[local] Instance demo_rkyv_total (A : Type) `{Countable A} : RkyvTotal A.
Proof. intros a. by eexists. Qed.
#[global] Instance MemDb_total : RocksDbTotal MemDb.
Proof. split; intros; by eexists. Qed.

Definition demo_generation : CacheRocksDb MemDb := from_ok (mkCache ∅ true) import_generation.
Definition demo_cached : cached_import MemDb :=
  run_cached (N4 := Net 4) (N6 := Net 16) demo_ignore demo_list_files true 90
    (cached_new demo_generation 77 2).
Definition demo_spooled : FireholDataSet (CacheRocksDb MemDb) :=
  from_ok (mkDataSet [] None registry_new 0 0 0 0 0 0) (cached_result true demo_cached).

Lemma demo_cached_joined : joined (ci_threads demo_cached).
Proof. split; vm_compute; [by eexists|reflexivity]. Qed.

Lemma cached_import_refines_memory_witness :
  ∃ s (ds' : FireholDataSet MemStore),
    rtc (step (N4 := Net 4) (N6 := Net 16) demo_ignore demo_list_files) (pipeline_new 2) s ∧
    joined s ∧ import_result s = Ok ds' ∧ same_import demo_spooled ds'.
Proof.
  apply (cached_import_refines_memory (N4 := Net 4) (N6 := Net 16) demo_ignore demo_list_files true 2 77
    demo_generation demo_cached demo_spooled);
    [by_decide|lia|by_decide|reflexivity|apply run_cached_steps|apply demo_cached_joined|].
  apply from_ok_eq. vm_compute. reflexivity.
Defined.

Lemma cached_import_equals_memory_witness :
  ∃ s, rtc (step (N4 := Net 4) (N6 := Net 16) demo_ignore demo_list_files) (pipeline_new 2) s ∧
    joined s ∧
    match import_result (S := MemStore) s with
    | Ok ds' => ∃ ds, cached_result true demo_cached = Ok ds ∧ same_import ds ds'
    | Err e => cached_result true demo_cached = Err e
    | Fault => False
    end.
Proof.
  apply (cached_import_equals_memory (N4 := Net 4) (N6 := Net 16) demo_ignore demo_list_files true 2 77
    demo_generation demo_cached);
    [by_decide|lia|by_decide|reflexivity|apply run_cached_steps|apply demo_cached_joined].
Defined.
