(* ===== verification/EndToEnd.v ===== *)
(** * From rule sources to verdicts

    The components put together: static rules from the loader and FireHOL rules
    from an import, installed by the map manager in any order and any number of
    times, and enforced by the XDP program on the maps they share. *)
From stdpp Require Import base numbers list gmap fin_maps strings sorting relations.
From Stdlib Require Import ZArith Lia.
From S2P Require Import Prelude Net Common BpfMaps Str Cidr Entry Metadata Attribution.
From S2P Require Import Lines Parser Import Loader MapManager Wire Xdp FireholSync Pipeline Schedule.
From S2P Require Import Cache Spool.

Local Open Scope Z_scope.

(** ** Addresses and rule sets *)

(** The source address of a classified packet. *)
Definition src_ip (p : ParsedPacket) : IpAddr :=
  if pp_ip_version p =? 4 then V4 (src_key p) else V6 (src_key p).

(** A rule set names an address. *)
Definition blocks (r : ParsedRuleSet) (ip : IpAddr) : Prop :=
  ∃ t, is_Some (rule_of r t) ∧ target_covers t ip.

(** Every rule drops and has a well-formed key. *)
Definition rules_drop (r : ParsedRuleSet) : Prop :=
  ∀ t v, rule_of r t = Some v → rv_action v = ACTION_DROP ∧ target_ok t.

Lemma no_rules_drop : rules_drop ParsedRuleSet_new.
Proof. intros [o|o|q o|q o] v Hv; simpl in Hv; by rewrite ?lookup_empty in Hv. Qed.

Lemma no_rules_block ip : ¬ blocks ParsedRuleSet_new ip.
Proof. intros ([o|o|q o|q o] & [v Hv] & _); simpl in Hv; by rewrite ?lookup_empty in Hv. Qed.

(** Rules for addresses that others do not block share no key with them. *)
Lemma unblocked_disjoint (a b : ParsedRuleSet) :
  (∀ t v, rule_of a t = Some v → ∃ ip, target_covers t ip ∧ ¬ blocks b ip) →
  tables_disjoint (tables_of a) (tables_of b).
Proof.
  intros Ha.
  assert (∀ t v w, rule_of a t = Some v → rule_of b t = Some w → False) as Hno.
  { intros t v w Hv Hw. destruct (Ha t v Hv) as (ip & Hc & Hn). apply Hn. exists t. by split; [eexists|]. }
  split_and!; apply map_disjoint_spec; intros k v w Hv Hw.
  - by apply (Hno (TExactV4 k) v w).
  - by apply (Hno (TExactV6 k) v w).
  - destruct k as [p o]. by apply (Hno (TCidrV4 p o) v w).
  - destruct k as [p o]. by apply (Hno (TCidrV6 p o) v w).
Qed.

Lemma network_src_ok data et off p :
  Forall byte_ok data → 0 <= off → network_view data et off = IpPacket p → ip_ok (src_ip p).
Proof.
  intros Hb Ho. unfold network_view, ipv4_view, ipv6_view, src_ip, src_key.
  destruct (et =? ETH_P_IP); [|destruct (et =? ETH_P_IPV6); [|done]].
  - destruct (Z.leb_spec (off + 20) (len data)); [|done]. destruct (_ && _); [|done]. intros [= <-].
    destruct (slice_ok data (off + 12) 4) as [Hl Hs]; [done|unfold len in *; lia..|].
    cbn [pp_ip_version pp_src_ip Z.eqb Pos.eqb]. unfold pad16. by rewrite take_app_length'.
  - destruct (Z.leb_spec (off + 40) (len data)); [|done]. intros [= <-].
    apply (slice_ok data (off + 8) 16); [done|unfold len in *; lia..].
Qed.
Lemma view_src_ok data p :
  Forall byte_ok data → frame_view data = IpPacket p → ip_ok (src_ip p).
Proof.
  intros Hb. unfold frame_view. destruct (_ <? 14); [done|].
  destruct (is_vlan _); [destruct (_ <? 18); [done|]|]; by apply network_src_ok.
Qed.

(** ** What the loader and the import produce *)
Lemma loaded_rules_drop {N4 N6 : Type} `{!IpNet 4 N4} `{!IpNet 16 N6} `{!IpNetText N4 N6}
    paths rules meta :
  total_lines paths < 2 ^ 32 - STATIC_RULE_BASE →
  load_from_paths_with_meta paths = Ok (rules, meta) → rules_drop rules.
Proof.
  intros Hb Hl t v Ht.
  assert (∃ e, entry_in e rules ∧ entry_val e = v ∧
    (entry_ok e → target_ok t)) as (e & He & Hv & Hok).
  { assert (Hmap : ∀ (l : list (Z * list Z * RuleValue)) k,
      rules_map (lpm_rules l) !! k = Some v → (k, v) ∈ l).
    { intros l k Hk%elem_of_list_to_map_2. by apply elem_of_reverse. }
    destruct t as [o|o|q o|q o]; simpl in Ht.
    - by exists (ExactV4 o v).
    - by exists (ExactV6 o v).
    - exists (LpmV4 q o v). split; [by apply Hmap|]. split; [done|]. by intros [? _].
    - exists (LpmV6 q o v). split; [by apply Hmap|]. split; [done|]. by intros [? _]. }
  destruct (loaded_entries paths rules meta e Hb Hl He) as (_ & Hk & Hval & _).
  split; [by rewrite <-Hv, Hval|auto].
Qed.

Lemma route_covers t ip :
  target_ok t → ip_ok ip → target_covers (route t) ip ↔ target_covers t ip.
Proof.
  intros Ht Hip. destruct t as [o|o|q o|q o]; cbn [route]; [done..| |].
  - destruct (Z.eqb_spec q 32) as [->|]; [|done]. destruct ip as [b|b]; [|done].
    destruct Ht as (_ & [Hl Hb] & _), Hip as [Hl' Hb']. cbn. simpl in Hl, Hb.
    unfold octets_match. rewrite Hl, prefix_eqb_full, Z.eqb_eq by (apply octets_in_width; done).
    split; [by intros ->|]. intros. apply from_be_bytes_inj; [done..|congruence|done].
  - destruct (Z.eqb_spec q 128) as [->|]; [|done]. destruct ip as [b|b]; [done|].
    destruct Ht as (_ & [Hl Hb] & _), Hip as [Hl' Hb']. cbn. simpl in Hl, Hb.
    unfold octets_match. rewrite Hl, prefix_eqb_full, Z.eqb_eq by (apply octets_in_width; done).
    split; [by intros ->|]. intros. apply from_be_bytes_inj; [done..|congruence|done].
Qed.

Lemma route_ok t : target_ok t → target_ok (route t).
Proof.
  destruct t as [o|o|q o|q o]; cbn [route]; [done..| |];
    (destruct (q =? _); [|done]); by intros (_ & ? & _).
Qed.

(** An imported entry that is not infrastructure. *)
Definition imported (entries : list FireholEntry) (ip : IpAddr) : Prop :=
  ∃ e, e ∈ entries ∧ allowlisted (route (fe_target e)) = false ∧ target_covers (fe_target e) ip.

Lemma first_rule_Some entries t v :
  first_rule entries t = Some v →
  allowlisted t = false ∧ ∃ e, e ∈ entries ∧ route (fe_target e) = t ∧ v = rule_drop (fe_rule_id e).
Proof.
  unfold first_rule. destruct (allowlisted t); [done|]. intros Hv. split; [done|].
  destruct (filter _ entries) as [|e l] eqn:Hf; [done|]. injection Hv as <-.
  assert (e ∈ filter (λ e, route (fe_target e) = t) entries) as Hin by (rewrite Hf; by left).
  apply list_elem_of_filter in Hin as [? ?]. eauto.
Qed.

Lemma first_rule_is_Some entries e :
  e ∈ entries → allowlisted (route (fe_target e)) = false →
  is_Some (first_rule entries (route (fe_target e))).
Proof.
  intros He Ha. unfold first_rule. rewrite Ha.
  assert (e ∈ filter (λ e', route (fe_target e') = route (fe_target e)) entries) as Hin
    by (by apply list_elem_of_filter).
  destruct (filter _ entries); [by apply not_elem_of_nil in Hin|]. by eexists.
Qed.

Section Imported.
Context (rules : ParsedRuleSet) (entries : list FireholEntry).
Hypothesis entries_ok : ∀ e, e ∈ entries → target_ok (fe_target e).
Hypothesis rules_first : ∀ t, rule_of rules t = first_rule entries t.

Lemma imported_rules_drop : rules_drop rules.
Proof using entries_ok rules_first.
  intros t v. rewrite rules_first. intros (_ & e & He & <- & ->)%first_rule_Some.
  split; [done|]. by apply route_ok, entries_ok.
Qed.

Lemma imported_blocks ip : ip_ok ip → blocks rules ip ↔ imported entries ip.
Proof using entries_ok rules_first.
  intros Hip. split.
  - intros (t & [v Hv] & Hc). rewrite rules_first in Hv.
    apply first_rule_Some in Hv as (Ha & e & He & <- & _).
    exists e. split_and!; [done..|]. apply (route_covers (fe_target e)); auto.
  - intros (e & He & Ha & Hc). exists (route (fe_target e)).
    rewrite rules_first. split; [by apply first_rule_is_Some|].
    apply route_covers; [by apply entries_ok|done..].
Qed.
End Imported.

(** ** Verdicts *)

(** The tables of a rule set, for one address. *)
Lemma blocks_v4 r o :
  blocks r (V4 o) ↔ is_Some (rs_exact_v4 r !! o) ∨
    ∃ q net v, covers (rules_map (lpm_rules (rs_lpm_v4 r))) o q net v.
Proof.
  unfold blocks, covers. split.
  - intros ([a|a|q a|q a] & [v Hv] & Hc); simpl in *; try done; [subst; eauto|right; eauto].
  - intros [Hs|(q & net & v & Hv & Hc)]; [by exists (TExactV4 o)|]. exists (TCidrV4 q net). eauto.
Qed.

Lemma blocks_v6 r o :
  blocks r (V6 o) ↔ is_Some (rs_exact_v6 r !! o) ∨
    ∃ q net v, covers (rules_map (lpm_rules (rs_lpm_v6 r))) o q net v.
Proof.
  unfold blocks, covers. split.
  - intros ([a|a|q a|q a] & [v Hv] & Hc); simpl in *; try done; [subst; eauto|right; eauto].
  - intros [Hs|(q & net & v & Hv & Hc)]; [by exists (TExactV6 o)|]. exists (TCidrV6 q net). eauto.
Qed.

(** One family of the lookup: exact first, then the longest prefix, over the
    union of two rule sets of which every rule satisfies [P]. *)
Lemma lookup_union (n : nat) (S F : gmap (list Z) RuleValue) (SL FL : gmap (Z * list Z) RuleValue)
    (P : RuleValue → Prop) o :
  bytes_ok n o → S ##ₘ F → SL ##ₘ FL →
  (∀ a v, S !! a = Some v ∨ F !! a = Some v → P v) →
  (∀ k v, SL !! k = Some v ∨ FL !! k = Some v → P v ∧ lpm_key_ok n k) →
  match (S ∪ F) !! o, lpm_lookup n (SL ∪ FL) o with
  | Some v, _ | None, Some v => P v ∧
      ((is_Some (S !! o) ∨ ∃ q net v, covers SL o q net v) ∨
       (is_Some (F !! o) ∨ ∃ q net v, covers FL o q net v))
  | None, None =>
      ¬ ((is_Some (S !! o) ∨ ∃ q net v, covers SL o q net v) ∨
         (is_Some (F !! o) ∨ ∃ q net v, covers FL o q net v))
  end.
Proof.
  intros Ho HD HLD HP HK.
  assert (HKU : ∀ k, is_Some ((SL ∪ FL) !! k) → lpm_key_ok n k).
  { intros k [v Hv]. apply lookup_union_Some in Hv; [|done]. by eapply HK. }
  pose proof (lpm_lookup_spec n (SL ∪ FL) o HKU Ho) as HL.
  assert (Hcov : ∀ q net v, covers (SL ∪ FL) o q net v ↔ covers SL o q net v ∨ covers FL o q net v).
  { intros q net v. unfold covers. rewrite lookup_union_Some by done. tauto. }
  destruct ((S ∪ F) !! o) as [v|] eqn:Hx.
  { apply lookup_union_Some in Hx; [|done]. split; [eauto|]. unfold is_Some. destruct Hx; eauto. }
  apply lookup_union_None in Hx as [HS HF]. destruct (lpm_lookup n (SL ∪ FL) o) as [v|].
  - destruct HL as (q & net & Hc & _). apply Hcov in Hc. split.
    + destruct Hc as [[Hk _]|[Hk _]]; eapply HK; eauto.
    + destruct Hc; eauto 10.
  - rewrite HS, HF. setoid_rewrite Hcov in HL.
    intros [[[? [=]]|(q & net & v & Hc)]|[[? [=]]|(q & net & v & Hc)]]; eapply HL; eauto.
Qed.

Section System.
Context {H4 H6 L4 L6 RB : Type}.
Context `{!BpfMap H4 (list Z) RuleValue} `{!HashGet H4 (list Z) RuleValue}.
Context `{!BpfMap H6 (list Z) RuleValue} `{!HashGet H6 (list Z) RuleValue}.
Context `{!BpfMap L4 (Z * list Z) RuleValue} `{!LpmGet 4 L4 RuleValue}.
Context `{!BpfMap L6 (Z * list Z) RuleValue} `{!LpmGet 16 L6 RuleValue}.
Context `{!BpfMapLaws H4 (list Z) RuleValue} `{!BpfMapLaws H6 (list Z) RuleValue}.
Context `{!BpfMapLaws L4 (Z * list Z) RuleValue} `{!BpfMapLaws L6 (Z * list Z) RuleValue}.
Context `{!RingBuffer RB} `{!HashOrder}.

(** The program and the manager see the same four maps. *)
Definition shared_maps (manager : MapManager H4 H6 L4 L6) (k : kernel H4 H6 L4 L6 RB) : Prop :=
  IPV4_EXACT_MAP k = mm_ipv4_exact manager ∧ IPV6_EXACT_MAP k = mm_ipv6_exact manager ∧
  IPV4_LPM_MAP k = mm_ipv4_lpm manager ∧ IPV6_LPM_MAP k = mm_ipv6_lpm manager.

(** The rule found for a packet drops, and one is found exactly when one of the
    rule sets names the source. *)
Lemma lookup_rule_blocks manager k (static firehol : ParsedRuleSet) p :
  manager_rel manager (tables_of static) (tables_of firehol) → shared_maps manager k →
  rules_drop static → rules_drop firehol → ip_ok (src_ip p) →
  match lookup_rule k p with
  | Some (r, _) => rv_action r = ACTION_DROP ∧ (blocks static (src_ip p) ∨ blocks firehol (src_ip p))
  | None => ¬ (blocks static (src_ip p) ∨ blocks firehol (src_ip p))
  end.
Proof.
  intros ((C4 & D4 & _) & (C6 & D6 & _) & (CL4 & DL4 & _) & (CL6 & DL6 & _)) (M4 & M6 & ML4 & ML6)
    HS HF Hip.
  unfold lookup_rule, src_ip in *. rewrite M4, M6, ML4, ML6, C4, C6, CL4, CL6.
  destruct (pp_ip_version p =? 4); cbn in Hip.
  - assert (HL := lookup_union 4 _ _ _ _ (λ v, rv_action v = ACTION_DROP) (src_key p) Hip D4 DL4).
    cbn [tables_of t_exact_v4 t_lpm_v4] in HL |- *.
    lapply HL; [clear HL; intros HL; lapply HL; [clear HL; intros HL|]|].
    + destruct (_ !! src_key p); [|destruct (lpm_lookup 4 _ _)]; rewrite !blocks_v4; exact HL.
    + intros [q a] v [Hv|Hv]; [apply (HS (TCidrV4 q a) v Hv)|apply (HF (TCidrV4 q a) v Hv)].
    + intros a v [Hv|Hv]; [apply (HS (TExactV4 a) v Hv)|apply (HF (TExactV4 a) v Hv)].
  - assert (HL := lookup_union 16 _ _ _ _ (λ v, rv_action v = ACTION_DROP) (src_key p) Hip D6 DL6).
    cbn [tables_of t_exact_v6 t_lpm_v6] in HL |- *.
    lapply HL; [clear HL; intros HL; lapply HL; [clear HL; intros HL|]|].
    + destruct (_ !! src_key p); [|destruct (lpm_lookup 16 _ _)]; rewrite !blocks_v6; exact HL.
    + intros [q a] v [Hv|Hv]; [apply (HS (TCidrV6 q a) v Hv)|apply (HF (TCidrV6 q a) v Hv)].
    + intros a v [Hv|Hv]; [apply (HS (TExactV6 a) v Hv)|apply (HF (TExactV6 a) v Hv)].
Qed.

(** A frame that is dropped is an IP packet, not exempt, whose source is named. *)
Lemma dropped_iff manager k static firehol ctx :
  manager_rel manager (tables_of static) (tables_of firehol) → shared_maps manager k →
  rules_drop static → rules_drop firehol → ctx_ok ctx →
  (firewall ctx k).1 = Ok XDP_DROP ↔
    ∃ p, frame_view (ctx_bytes ctx) = IpPacket p ∧ bypass p = false ∧
      (blocks static (src_ip p) ∨ blocks firehol (src_ip p)).
Proof.
  intros HM HK HS HF Hc. pose proof Hc as (_ & _ & _ & Hb). rewrite firewall_view by done.
  unfold enforce_frame. cbn [fst].
  destruct (frame_view (ctx_bytes ctx)) as [| |p] eqn:Hv; cbn [fst].
  1,2: split; [done|by intros (? & ? & _)].
  pose proof (lookup_rule_blocks manager k static firehol p HM HK HS HF (view_src_ok _ p Hb Hv)) as HL.
  trans (bypass p = false ∧ (blocks static (src_ip p) ∨ blocks firehol (src_ip p))).
  2: { split; [by exists p|]. by intros (? & [= <-] & ?). }
  unfold enforce, drop_rule.
  destruct (bypass p); [simpl; split; [done|by intros [? _]]|].
  destruct (lookup_rule k p) as [[r mt]|].
  - destruct HL as [-> HL]. cbn [Z.eqb ACTION_DROP Pos.eqb].
    destruct (rb_output _ _); simpl; tauto.
  - simpl. split; [done|by intros [_ ?]].
Qed.

(** The same where the classifying library has read the frame. *)
Lemma classified_dropped_iff manager k static firehol ctx p :
  manager_rel manager (tables_of static) (tables_of firehol) → shared_maps manager k →
  rules_drop static → rules_drop firehol →
  ctx_ok ctx → one_tag (ctx_bytes ctx) = true → classify_packet (ctx_bytes ctx) = Ok p →
  (firewall ctx k).1 = Ok XDP_DROP ↔
    bypass p = false ∧ (blocks static (src_ip p) ∨ blocks firehol (src_ip p)).
Proof.
  intros HM HK HS HF Hc Hone Hp. pose proof Hc as (_ & _ & _ & Hb).
  rewrite (dropped_iff manager k static firehol) by done.
  rewrite (classify_view _ p) by (done || by apply ctx_len). split; [by intros (? & [= <-] & ?)|by exists p].
Qed.
End System.

(** ** The imported data set and the files it came from *)
Section Feed.
Context {N4 N6 : Type} `{!IpNet 4 N4} `{!IpNet 16 N6} `{!IpNetText N4 N6}.
Context {low : Lowercase} {chrono : Chrono} {S : Type} `{!ContextStore S} `{!HashOrder}.
Context (ignore_ips : list IpAddr) (files : list list_file).

(** An address line of a list file names the address: one of the targets left of
    its token, once the ignored addresses are taken out, covers it and is not
    infrastructure. *)
Definition named_in_lists (ip : IpAddr) : Prop :=
  ∃ f n token c ts t, f ∈ files ∧ (n, token, c) ∈ data_lines Other (lf_lines f) 0 ∧
    line_targets (N4 := N4) (N6 := N6) ignore_ips token = Ok ts ∧ t ∈ ts ∧
    allowlisted (route t) = false ∧ target_covers t ip.

Lemma elem_of_items x :
  x ∈ (files ≫= file_pending) ≫= items_of (N4 := N4) (N6 := N6) ignore_ips ↔
  ∃ f n token c ts t, f ∈ files ∧ (n, token, c) ∈ data_lines Other (lf_lines f) 0 ∧
    line_targets (N4 := N4) (N6 := N6) ignore_ips token = Ok ts ∧ t ∈ ts ∧ x = (lf_name f, t, n, c).
Proof.
  rewrite list_elem_of_bind. split.
  - intros (p & Hx & (f & Hp & Hf)%list_elem_of_bind). unfold file_pending in Hp.
    apply elem_of_app in Hp as [([[n token] c] & -> & Hin)%list_elem_of_fmap|Hp].
    + cbn in Hx. destruct (line_targets ignore_ips token) as [ts| |] eqn:Et;
        [|by apply not_elem_of_nil in Hx..].
      apply list_elem_of_fmap in Hx as (t & -> & Ht). by exists f, n, token, c, ts, t.
    + unfold read_error in Hp. destruct (lf_error f); [|by apply not_elem_of_nil in Hp].
      apply list_elem_of_singleton in Hp as ->. by apply not_elem_of_nil in Hx.
  - intros (f & n & token & c & ts & t & Hf & Hin & Et & Ht & ->).
    exists (lf_name f, n, Some token, c). split.
    + cbn. rewrite Et. apply list_elem_of_fmap. eauto.
    + apply list_elem_of_bind. exists f. split; [|done]. apply elem_of_app. left.
      apply list_elem_of_fmap. by exists (n, token, c).
Qed.

Lemma import_names num_workers s ds :
  Forall ip_ok ignore_ips → (0 < num_workers)%nat →
  1 + Z.of_nat (sum_list_with file_budget files) < 2 ^ 32 →
  rtc (step (N4 := N4) (N6 := N6) ignore_ips files) (pipeline_new num_workers) s → joined s →
  import_result (S := S) s = Ok ds →
  ds_stored_entries ds = None ∧ (∀ e, e ∈ ds_entries ds → target_ok (fe_target e)) ∧
  ∀ ip, imported (ds_entries ds) ip ↔ named_in_lists ip.
Proof.
  intros Hok Hnw Hfit Hr Hj Hi.
  assert (Hf : failure s = None) by (unfold import_result in Hi; by destruct (failure s)).
  destruct (joined_result (N4 := N4) (N6 := N6) (S := S) ignore_ips files s)
    as (ds' & xs & Hi' & Hst & _ & Hp & Hm & _); [by eapply reachable_account|done|done| |].
  { intros E. pose proof (reachable_workers _ _ _ _ Hr) as Hl. rewrite E in Hl. simpl in Hl. lia. }
  rewrite Hi in Hi'. injection Hi' as <-.
  assert (He : ∀ t, (∃ e, e ∈ ds_entries ds ∧ fe_target e = t) ↔
    ∃ f n token c ts, f ∈ files ∧ (n, token, c) ∈ data_lines Other (lf_lines f) 0 ∧
      line_targets (N4 := N4) (N6 := N6) ignore_ips token = Ok ts ∧ t ∈ ts).
  { intros t. split.
    - intros (e & [i He]%list_elem_of_lookup & Ht).
      destruct (Forall2_lookup_l _ _ _ _ _ Hm He) as ([[[file t'] n] c] & Hx & Ht' & _).
      apply list_elem_of_lookup_2 in Hx. rewrite Hp in Hx.
      apply elem_of_items in Hx as (f & n' & token & c' & ts & t'' & ? & ? & ? & ? & [= -> -> -> ->]).
      subst. eauto 10.
    - intros (f & n & token & c & ts & Hf' & Hin & Et & Ht).
      assert (Hx : (lf_name f, t, n, c) ∈ xs) by (rewrite Hp; apply elem_of_items; eauto 12).
      apply list_elem_of_lookup in Hx as [i Hx].
      destruct (Forall2_lookup_r _ _ _ _ _ Hm Hx) as (e & He & Ht' & _).
      exists e. split; [by eapply list_elem_of_lookup_2|done]. }
  split_and!; [done| |].
  - intros e Hin. destruct (proj1 (He (fe_target e))) as (f & n & token & c & ts & _ & _ & Et & Ht);
      [eauto|]. apply line_targets_ok in Et. rewrite Forall_forall in Et. auto.
  - intros ip. unfold imported, named_in_lists. split.
    + intros (e & Hin & Ha & Hc). destruct (proj1 (He (fe_target e))) as (f & n & token & c & ts & Hx);
        [eauto|]. exists f, n, token, c, ts, (fe_target e). tauto.
    + intros (f & n & token & c & ts & t & ? & ? & ? & ? & Ha & Hc).
      destruct (proj2 (He t)) as (e & Hin & <-); [eauto 10|]. by exists e.
Qed.
End Feed.

(** The rules a finished import of the list files prepares: kept in memory, or
    through the disk cache, spooled or not, under any schedule. *)
Section Prepared.
Context {N4 N6 : Type} `{!IpNet 4 N4} `{!IpNet 16 N6} `{!IpNetText N4 N6}.
Context {low : Lowercase} {chrono : Chrono} {S DB : Type} `{!ContextStore S} `{!HashOrder}.
Context `{!RocksDb DB} `{!Rkyv FireholMetadata} `{!Rkyv RuleBlockContext}.
Context (ignore_ips : list IpAddr) (files : list list_file) (num_workers : nat).

Inductive prepared : ParsedRuleSet → Prop :=
| PreparedInMemory s (ds : FireholDataSet S) rules report :
    rtc (step (N4 := N4) (N6 := N6) ignore_ips files) (pipeline_new num_workers) s → joined s →
    import_result s = Ok ds → try_prepare_rules ds = Ok (rules, report) → prepared rules
| PreparedFromDisk spool total_file_size (generation : CacheRocksDb DB) c ds rules report :
    import_generation = Ok generation →
    rtc (cached_step (N4 := N4) (N6 := N6) ignore_ips files spool)
      (cached_new generation total_file_size num_workers) c →
    joined (ci_threads c) → cached_result spool c = Ok ds →
    try_prepare_rules ds = Ok (rules, report) → prepared rules.

(** They are the rules of the address lines. *)
Lemma prepared_blocks `{!RocksDbLaws DB} `{!RocksDbReads DB}
    `{!RkyvLaws FireholMetadata} `{!RkyvLaws RuleBlockContext} rules :
  Forall ip_ok ignore_ips → (0 < num_workers)%nat →
  1 + Z.of_nat (sum_list_with file_budget files) < 2 ^ 32 → prepared rules →
  rules_drop rules ∧
  ∀ ip, ip_ok ip → blocks rules ip ↔ named_in_lists (N4 := N4) (N6 := N6) ignore_ips files ip.
Proof.
  intros Hign Hnw Hfit Hp.
  assert (∃ s (ds : FireholDataSet S) report,
    rtc (step (N4 := N4) (N6 := N6) ignore_ips files) (pipeline_new num_workers) s ∧ joined s ∧
    import_result s = Ok ds ∧ try_prepare_rules ds = Ok (rules, report))
    as (s & ds & report & Hr & Hj & Hi & Hprep).
  { destruct Hp as [s ds rules report ? ? ? ?|spool total gen c ds rules report Hg Hr Hj Hres Hprep];
      [by exists s, ds, report|].
    destruct (cached_counterpart (S := S) ignore_ips files spool num_workers total gen Hign Hnw Hfit Hg
      c ds Hr Hj Hres) as (s & ds' & ? & ? & ? & Hsame & _). exists s, ds', report.
    by rewrite <-Hsame. }
  destruct (import_names ignore_ips files num_workers s ds Hign Hnw Hfit Hr Hj Hi) as (Hm & Hok & Hn).
  destruct (try_prepare_memory ds Hm) as (pr & Hpr & Hinv). rewrite Hprep in Hpr.
  injection Hpr as -> _.
  assert (Hfirst : ∀ t, rule_of (prepare_finish pr).1 t = first_rule (ds_entries ds) t)
    by apply Hinv.
  split; [by apply (imported_rules_drop _ (ds_entries ds))|]. intros ip Hip.
  by rewrite <-Hn, <-(imported_blocks (prepare_finish pr).1 (ds_entries ds) Hok Hfirst).
Qed.
End Prepared.

(** C1 (refinement). The whole system, from the text of the rule files and list
    files to the verdict on a frame. Static rules come from rule files of fewer lines
    than static identifiers, FireHOL rules from the parallel import of list files of
    fewer lines than identifiers, in memory or through a disk cache that can be read
    back, under any schedule. The manager has installed both by any sequence of
    synchronisations, each of which found room for every rule, and no key is named by a
    static and a FireHOL rule at once; the XDP program runs on the manager's maps. Then,
    for every frame, the program drops it exactly when it is an IP packet behind at most
    one VLAN tag, not management traffic, whose source address is named by a static rule
    or by an address line of a list file that is neither ignored nor infrastructure. In
    particular a packet behind two tags passes, whatever its source. *)
Theorem packet_dropped_iff_source_listed {H4 H6 L4 L6 RB S DB N4 N6 : Type}
    `{!BpfMap H4 (list Z) RuleValue} `{!HashGet H4 (list Z) RuleValue}
    `{!BpfMap H6 (list Z) RuleValue} `{!HashGet H6 (list Z) RuleValue}
    `{!BpfMap L4 (Z * list Z) RuleValue} `{!LpmGet 4 L4 RuleValue}
    `{!BpfMap L6 (Z * list Z) RuleValue} `{!LpmGet 16 L6 RuleValue}
    `{!BpfMapLaws H4 (list Z) RuleValue} `{!BpfMapLaws H6 (list Z) RuleValue}
    `{!BpfMapLaws L4 (Z * list Z) RuleValue} `{!BpfMapLaws L6 (Z * list Z) RuleValue}
    `{!RingBuffer RB} `{!HashOrder} `{!ContextStore S} {low : Lowercase} {chrono : Chrono}
    `{!IpNet 4 N4} `{!IpNet 16 N6} `{!IpNetText N4 N6}
    `{!RocksDb DB} `{!RocksDbLaws DB} `{!RocksDbReads DB}
    `{!Rkyv FireholMetadata} `{!Rkyv RuleBlockContext}
    `{!RkyvLaws FireholMetadata} `{!RkyvLaws RuleBlockContext}
    paths static meta ignore_ips files num_workers firehol
    (manager : MapManager H4 H6 L4 L6) (k : kernel H4 H6 L4 L6 RB) ctx :
  total_lines paths < 2 ^ 32 - STATIC_RULE_BASE →
  load_from_paths_with_meta (N4 := N4) (N6 := N6) paths = Ok (static, meta) →
  Forall ip_ok ignore_ips → (0 < num_workers)%nat →
  1 + Z.of_nat (sum_list_with file_budget files) < 2 ^ 32 →
  prepared (N4 := N4) (N6 := N6) (S := S) (DB := DB) ignore_ips files num_workers firehol →
  reachable manager (tables_of static) (tables_of firehol) → shared_maps manager k →
  ctx_ok ctx →
  (firewall ctx k).1 = Ok XDP_DROP ↔
    ∃ p, frame_view (ctx_bytes ctx) = IpPacket p ∧ bypass p = false ∧
      (blocks static (src_ip p) ∨ named_in_lists (N4 := N4) (N6 := N6) ignore_ips files (src_ip p)).
Proof.
  intros Hb Hload Hign Hnw Hfit Hprep Hreach Hshared Hc. pose proof Hc as (_ & _ & _ & Hbytes).
  destruct (prepared_blocks ignore_ips files num_workers firehol Hign Hnw Hfit Hprep) as [Hdrop Hn].
  rewrite (dropped_iff manager k static firehol);
    [|by apply reachable_rel|done|by eapply loaded_rules_drop|done|done].
  split; intros (p & Hv & Hby & Hl); exists p; (split_and!; [done..|]);
    by rewrite (Hn _ (view_src_ok _ p Hbytes Hv)) in *.
Qed.

(** ** Witness: two static rule files, an import of a list file, and a TCP segment
    from 198.51.100.77. *)
#[local] Existing Instance canonical_order.

#[local] Existing Instance demo_lower.
#[local] Existing Instance demo_rkyv.
#[local] Existing Instance demo_rkyv_laws.
#[local] Existing Instance demo_chrono.

Definition demo_lists : list list_file :=
  [mkListFile (lit "x.netset") [lit "# Category: attacks"; lit "9.9.9.9"; lit "198.51.100.0/24"]
     false 64].
Definition demo_import : cached_import MemDb :=
  run_cached (N4 := Net 4) (N6 := Net 16) demo_ignore demo_lists true 30
    (cached_new demo_generation 64 1).
Definition demo_feed : FireholDataSet (CacheRocksDb MemDb) :=
  from_ok (mkDataSet [] None registry_new 0 0 0 0 0 0) (cached_result true demo_import).
Definition demo_rules : ParsedRuleSet :=
  match load_from_paths_with_meta (N4 := Net 4) (N6 := Net 16) demo_files with
  | Ok (r, _) => r | _ => ParsedRuleSet_new end.
Definition demo_feed_rules : ParsedRuleSet :=
  match try_prepare_rules demo_feed with Ok (r, _) => r | _ => ParsedRuleSet_new end.

Lemma demo_prepared : prepared (N4 := Net 4) (N6 := Net 16) (S := MemStore) (DB := MemDb) demo_ignore
  demo_lists 1 demo_feed_rules.
Proof.
  eapply (PreparedFromDisk _ _ _ true 64 demo_generation demo_import demo_feed);
    [reflexivity|apply run_cached_steps| | |vm_compute; reflexivity].
  - split; vm_compute; [by eexists|reflexivity].
  - apply from_ok_eq. vm_compute. reflexivity.
Qed.
Definition demo_installed : MapManager (CapMap (list Z) RuleValue) (CapMap (list Z) RuleValue)
    (Trie 4 RuleValue) (Trie 16 RuleValue) :=
  (sync_firehol_rules (sync_rules demo_manager demo_rules).1 demo_feed_rules).1.
Definition demo_live : kernel (CapMap (list Z) RuleValue) (CapMap (list Z) RuleValue)
    (Trie 4 RuleValue) (Trie 16 RuleValue) BoundedQueue :=
  mkKernel (mm_ipv4_exact demo_installed) (mm_ipv6_exact demo_installed)
    (mm_ipv4_lpm demo_installed) (mm_ipv6_lpm demo_installed) (EVENTS demo_kernel)
    [FirewallStats_default].

Lemma demo_reachable : reachable demo_installed (tables_of demo_rules) (tables_of demo_feed_rules).
Proof.
  apply (reach_firehol _ _ no_tables).
  - apply (reach_static _ no_tables no_tables).
    + by apply reach_new.
    + split_and!; by_decide.
    + split_and!; apply map_disjoint_empty_r.
    + split_and!; vm_compute; reflexivity.
  - split_and!; by_decide.
  - split_and!; by_decide.
  - split_and!; vm_compute; reflexivity.
Qed.

Lemma packet_dropped_iff_source_listed_witness :
  (firewall (demo_ctx (demo_tcp [198; 51; 100; 77] 4660)) demo_live).1 = Ok XDP_DROP.
Proof.
  eapply (packet_dropped_iff_source_listed (N4 := Net 4) (N6 := Net 16) demo_files demo_rules _
    demo_ignore demo_lists 1 demo_feed_rules demo_installed demo_live);
    [by_decide|vm_compute; reflexivity|by_decide|lia|by_decide|exact demo_prepared|
     exact demo_reachable|split_and!; reflexivity|by_decide|].
  - eexists. split; [vm_compute; reflexivity|]. split; [vm_compute; reflexivity|]. right.
    exists (mkListFile (lit "x.netset") [lit "# Category: attacks"; lit "9.9.9.9";
      lit "198.51.100.0/24"] false 64), 3, (lit "198.51.100.0/24"), Attacks,
      [TCidrV4 24 [198; 51; 100; 0]], (TCidrV4 24 [198; 51; 100; 0]).
    split_and!; [apply list_elem_of_here| |vm_compute; reflexivity| | |].
    + apply list_elem_of_lookup. exists 1%nat. vm_compute. reflexivity.
    + apply list_elem_of_here.
    + vm_compute. reflexivity.
    + by_decide.
Defined.
