(* ===== verification/Git.v ===== *)
(** * The FireHOL git checkout ([src/firehol/git_repository.rs])

    libgit2, the file system and the network are the interface [Git2]: a state [W]
    of the machine (the checkout and the remote) and the calls the code makes. The
    laws in [Git2Laws] say what a hard reset and a clone leave in the checkout and
    which calls leave it alone; any call may fail. Sleeping between attempts,
    durations and log lines are not modelled; the clock is an argument. *)
From stdpp Require Import base numbers list gmap fin_maps strings sorting.
From Stdlib Require Import ZArith Lia.
From S2P Require Import Prelude Str.

Local Open Scope Z_scope.

Definition FIREHOL_DEFAULT_GIT_URL : list Z := lit "https://github.com/firehol/blocklist-ipsets".
Definition FIREHOL_DEFAULT_BRANCH : list Z := lit "master".

(** Status and errors; commits are named by their hexadecimal text. *)
Inductive SyncStatus : Type :=
| Cloned (commit_oid : list Z) (commit_time : Z)
| Updated (commit_oid : list Z) (commit_time : Z)
| UpToDate (commit_oid : list Z) (commit_time : Z).

Inductive GitRepoError : Type :=
| GitError
| GitIo
| RemoteUrlMismatch (expected actual : list Z)
| MissingHead
| Corrupted.

(** What [repo.head()] gives: the reference's target and the commit it peels to. *)
Record HeadRef : Type := mkHead { head_target : option (list Z); head_commit : option (list Z * Z) }.

(** ** libgit2 and the file system, at the configured path *)
Class Git2 (W : Type) : Type := {
  create_parent : W → outcome unit unit * W;
  dot_git_exists : W → bool;
  path_exists : W → bool;
  repo_opens : W → bool;
  remove_dir_all : W → W;
  (** [RepoBuilder::clone]; the flag asks for depth one. *)
  git_clone : list Z → list Z → bool → W → outcome unit unit * W;
  repo_head : W → option HeadRef;
  (** [find_remote("origin")], then its URL. *)
  origin_url : W → outcome unit (option (list Z));
  (** [connect_auth], then the advertised references, [None] when listing fails. *)
  remote_connect : W → outcome unit (option (list (list Z * list Z))) * W;
  remote_fetch : list Z → bool → W → outcome unit unit * W;
  (** [find_reference("refs/remotes/origin/..")] and [peel_to_commit]. *)
  tracked_commit : list Z → W → outcome unit (list Z * Z);
  hard_reset : list Z → W → outcome unit unit * W;
}.

(** The checked-out files, of type [F], and the files of a commit. [no_untracked]: the
    checkout holds no file besides those of the commit HEAD names, though some of these
    may be modified or missing. *)
Class Git2Laws (W F : Type) `{!Git2 W} : Type := {
  checkout : W → F;
  files_at : list Z → F;
  no_untracked : W → Prop;
  (** A hard reset that succeeds puts HEAD at the commit. It restores and removes the
      files git knows of, and leaves others alone. *)
  hard_reset_ok oid w w' : hard_reset oid w = (Ok (), w') →
    head_target <$> repo_head w' = Some (Some oid) ∧
    (no_untracked w → checkout w' = files_at oid ∧ no_untracked w');
  (** A clone that succeeds checks out the commit HEAD names, and nothing else. *)
  clone_ok url branch shallow w w' : git_clone url branch shallow w = (Ok (), w') →
    no_untracked w' ∧ ∀ h, repo_head w' = Some h →
      (∀ c, head_target h = Some c → checkout w' = files_at c) ∧
      (∀ c t, head_commit h = Some (c, t) → head_target h = Some c);
  (** Connecting, fetching and creating the parent directory leave the checkout. *)
  connect_keeps w r w' : remote_connect w = (r, w') →
    checkout w' = checkout w ∧ repo_head w' = repo_head w ∧ (no_untracked w' ↔ no_untracked w);
  fetch_keeps branch shallow w r w' : remote_fetch branch shallow w = (r, w') →
    checkout w' = checkout w ∧ repo_head w' = repo_head w ∧ (no_untracked w' ↔ no_untracked w);
  create_parent_keeps w r w' : create_parent w = (r, w') →
    checkout w' = checkout w ∧ repo_head w' = repo_head w ∧ dot_git_exists w' = dot_git_exists w ∧
    repo_opens w' = repo_opens w ∧ (no_untracked w' ↔ no_untracked w);
}.

(** ** State: the manager and its git metrics *)
Record FireholGitRepository : Type := mkGit {
  gr_open : bool;
  gr_last_commit_time : Z;
  gr_last_commit_oid : option (list Z);
}.
Definition FireholGitRepository_new : FireholGitRepository := mkGit false 0 None.

Record GitMetrics : Type := mkGitMetrics {
  git_clones_total : Z;
  git_fetches_total : Z;
  git_up_to_date_total : Z;
  git_errors_total : Z;
  git_last_sync_timestamp : Z;
  git_last_commit_timestamp : Z;
}.
Definition inc_clones (m : GitMetrics) : GitMetrics :=
  let '(mkGitMetrics c f u e s t) := m in mkGitMetrics (wrap_u64 (c + 1)) f u e s t.
Definition inc_fetches (m : GitMetrics) : GitMetrics :=
  let '(mkGitMetrics c f u e s t) := m in mkGitMetrics c (wrap_u64 (f + 1)) u e s t.
Definition inc_up_to_date (m : GitMetrics) : GitMetrics :=
  let '(mkGitMetrics c f u e s t) := m in mkGitMetrics c f (wrap_u64 (u + 1)) e s t.
Definition inc_errors (m : GitMetrics) : GitMetrics :=
  let '(mkGitMetrics c f u e s t) := m in mkGitMetrics c f u (wrap_u64 (e + 1)) s t.
Definition set_last_sync (now : Z) (m : GitMetrics) : GitMetrics :=
  let '(mkGitMetrics c f u e s t) := m in mkGitMetrics c f u e now t.
Definition set_last_commit (time : Z) (m : GitMetrics) : GitMetrics :=
  let '(mkGitMetrics c f u e s t) := m in mkGitMetrics c f u e s time.

(** [if let Some(m) = metrics { .. }]. *)
Definition on_metrics (f : GitMetrics → GitMetrics) (m : option GitMetrics) : option GitMetrics :=
  f <$> m.

Section Repository.
Context {W : Type} `{!Git2 W}.

(** The three things an operation changes. *)
Record git_state : Type := mkGitState {
  gs_repo : FireholGitRepository;
  gs_world : W;
  gs_metrics : option GitMetrics;
}.
Definition with_world (s : git_state) (w : W) : git_state := mkGitState (gs_repo s) w (gs_metrics s).
Definition with_metrics (s : git_state) (f : GitMetrics → GitMetrics) : git_state :=
  mkGitState (gs_repo s) (gs_world s) (on_metrics f (gs_metrics s)).
Definition with_repo (s : git_state) (r : FireholGitRepository) : git_state :=
  mkGitState r (gs_world s) (gs_metrics s).

Definition exists_at (w : W) : bool := dot_git_exists w && repo_opens w.

(** [repo_url.starts_with("http")]. *)
Definition is_http (url : list Z) : bool := bool_decide (take 4 url = lit "http").

(** The retry loops: at most [attempts] calls, the last error is kept. *)
Fixpoint retry {A} (attempts : nat) (op : W → outcome unit A * W) (w : W) : outcome unit A * W :=
  match attempts with
  | O => (Err (), w)
  | S O => op w
  | S n => match op w with
           | (Err _, w') => retry n op w'
           | r => r
           end
  end.
Definition MAX_RETRIES : nat := 3.

Definition shallow_clone (repo_url default_branch : list Z) (s : git_state)
    : outcome GitRepoError SyncStatus * git_state :=
  let s := if path_exists (gs_world s) then with_world s (remove_dir_all (gs_world s)) else s in
  match git_clone repo_url default_branch (is_http repo_url) (gs_world s) with
  | (Err _, w) => (Err GitError, with_metrics (with_world s w) inc_errors)
  | (Fault, w) => (Fault, with_world s w)
  | (Ok _, w) =>
      let '(commit_oid, commit_time) :=
        match repo_head w with
        | Some h => match head_commit h with Some c => c | None => ([], 0) end
        | None => ([], 0)
        end in
      let s := with_repo (with_world s w) (mkGit true commit_time (Some commit_oid)) in
      (Ok (Cloned commit_oid commit_time), with_metrics s (set_last_commit commit_time))
  end.

(** The loop over the advertised heads: only the first of the branch counts. *)
Fixpoint advertised (target : list Z) (heads : list (list Z * list Z)) : option (list Z) :=
  match heads with
  | [] => None
  | (name, oid) :: heads => if bool_decide (name = target) then Some oid else advertised target heads
  end.

Definition fetch_and_reset (repo_url default_branch : list Z) (s : git_state)
    : outcome GitRepoError SyncStatus * git_state :=
  if negb (gr_open (gs_repo s)) then (Err Corrupted, s) else
  match origin_url (gs_world s) with
  | Err _ => (Err GitError, s)
  | Fault => (Fault, s)
  | Ok url =>
  let origin := default [] url in
  if negb (bool_decide (origin = repo_url)) then (Err (RemoteUrlMismatch repo_url origin), s) else
  let local_oid := h ← repo_head (gs_world s); head_target h in
  let local_time :=
    default 0 (snd <$> (h ← repo_head (gs_world s); head_commit h)) in
  match retry MAX_RETRIES remote_connect (gs_world s) with
  | (Err _, w) => (Err GitError, with_metrics (with_world s w) inc_errors)
  | (Fault, w) => (Fault, with_world s w)
  | (Ok list, w) =>
  let s := with_world s w in
  let needs_fetch :=
    match list ≫= advertised (lit "refs/heads/" ++ default_branch), local_oid with
    | Some oid, Some loc => negb (bool_decide (loc = oid))
    | _, _ => true
    end in
  if negb needs_fetch then
    let local := default [] local_oid in
    let s := with_metrics s inc_up_to_date in
    (Ok (UpToDate local local_time),
     with_repo s (mkGit (gr_open (gs_repo s)) local_time (Some local)))
  else
  match retry MAX_RETRIES (remote_fetch default_branch (is_http repo_url)) (gs_world s) with
  | (Err _, w) => (Err GitError, with_metrics (with_world s w) inc_errors)
  | (Fault, w) => (Fault, with_world s w)
  | (Ok _, w) =>
  let s := with_metrics (with_world s w) inc_fetches in
  match tracked_commit default_branch (gs_world s) with
  | Err _ => (Err GitError, s)
  | Fault => (Fault, s)
  | Ok (remote_oid, remote_time) =>
  match hard_reset remote_oid (gs_world s) with
  | (Err _, w) => (Err GitError, with_world s w)
  | (Fault, w) => (Fault, with_world s w)
  | (Ok _, w) =>
      let s := with_world s w in
      let s := with_repo s (mkGit (gr_open (gs_repo s)) remote_time (Some remote_oid)) in
      (Ok (Updated remote_oid remote_time), with_metrics s (set_last_commit remote_time))
  end end end end end.

(** [now] is the clock when the sync ends. *)
Definition synchronize (repo_url default_branch : list Z) (now : Z) (s : git_state)
    : outcome GitRepoError SyncStatus * git_state :=
  match create_parent (gs_world s) with
  | (Err _, w) => (Err GitIo, with_world s w)
  | (Fault, w) => (Fault, with_world s w)
  | (Ok _, w) =>
  let s := with_world s w in
  if negb (exists_at (gs_world s)) then
    match shallow_clone repo_url default_branch s with
    | (Ok status, s) =>
        (Ok status, with_metrics (with_metrics s inc_clones) (set_last_sync now))
    | r => r
    end
  else
    (* [Repository::open] once more: it opened in [exists_at]. *)
    let s := with_repo s (mkGit true (gr_last_commit_time (gs_repo s)) (gr_last_commit_oid (gs_repo s))) in
    match fetch_and_reset repo_url default_branch s with
    | (Ok status, s) => (Ok status, with_metrics s (set_last_sync now))
    | (Err e, s) => (Err e, with_metrics s inc_errors)
    | (Fault, s) => (Fault, s)
    end
  end.

Definition prepare_repository (repo_url default_branch : list Z) (now : Z) (s : git_state)
    : outcome GitRepoError unit * git_state :=
  let '(r, s) := synchronize repo_url default_branch now s in (const () <$> r, s).
Definition execute_sync (repo_url default_branch : list Z) (now : Z) (s : git_state)
    : outcome GitRepoError SyncStatus * git_state := synchronize repo_url default_branch now s.

(** [true] when a clone was made; a failed clone is not counted here. *)
Definition ensure_repository (repo_url default_branch : list Z) (s : git_state)
    : outcome GitRepoError bool * git_state :=
  if exists_at (gs_world s) then
    (Ok false,
     with_repo s (mkGit true (gr_last_commit_time (gs_repo s)) (gr_last_commit_oid (gs_repo s))))
  else
    let s := if path_exists (gs_world s) then with_world s (remove_dir_all (gs_world s)) else s in
    match git_clone repo_url default_branch (is_http repo_url) (gs_world s) with
    | (Err _, w) => (Err GitError, with_world s w)
    | (Fault, w) => (Fault, with_world s w)
    | (Ok _, w) =>
        let s := with_metrics (with_world s w) inc_clones in
        (Ok true, with_repo s (mkGit true (gr_last_commit_time (gs_repo s))
                                          (gr_last_commit_oid (gs_repo s))))
    end.

(** ** The checkout is that of the reported commit *)

Definition status_oid (st : SyncStatus) : list Z :=
  match st with Cloned c _ | Updated c _ | UpToDate c _ => c end.

Lemma retry_keeps {A} (R : W → W → Prop) (op : W → outcome unit A * W) n w r w' :
  PreOrder R → (∀ w r w', op w = (r, w') → R w w') → retry n op w = (r, w') → R w w'.
Proof.
  intros HR Hop. revert w. induction n as [|n IH]; intros w E; [by injection E as <- <-|].
  destruct n as [|n]; [by eapply Hop|]. cbn [retry] in E.
  destruct (op w) as [[a|e|] w1] eqn:E1; [by injection E as <- <-; eapply Hop| |by injection E as <- <-; eapply Hop].
  trans w1; [by eapply Hop|by apply IH].
Qed.

(** A retried operation that succeeds once within the attempts succeeds. *)
Lemma retry_succeeds {A} (op : W → outcome unit A * W) n : ∀ w,
  (∀ w, (op w).1 ≠ Fault) →
  match retry (S n) op w with
  | (Ok _, _) => True
  | (Err _, _) => ∃ ws, length ws = S n ∧ Forall (λ w, ∃ e, (op w).1 = Err e) ws
  | (Fault, _) => False
  end.
Proof.
  induction n as [|n IH]; intros w Hf; cbn [retry].
  - specialize (Hf w). destruct (op w) as [[a|e|] w'] eqn:E; [done| |done].
    exists [w]. split; [done|]. apply Forall_singleton. rewrite E. by exists e.
  - pose proof (Hf w) as Hw. destruct (op w) as [[a|e|] w'] eqn:E; [done| |done].
    specialize (IH w' Hf). cbn [retry] in IH. destruct (match n with O => _ | S _ => _ end) as [[a'|e'|] w2]; try done.
    destruct IH as (ws & Hl & Hws). exists (w :: ws). split; [simpl; lia|]. constructor; [|done].
    rewrite E. by exists e.
Qed.

Context {F : Type} `{!Git2Laws W F}.

(** The files of the checkout are those of the commit HEAD names. *)
Definition clean (w : W) : Prop :=
  (∀ h c, repo_head w = Some h → head_target h = Some c → checkout (F := F) w = files_at c) ∧
  no_untracked w.

(** Two machines with the same checkout. *)
Definition same_checkout (w w' : W) : Prop :=
  checkout (F := F) w' = checkout w ∧ repo_head w' = repo_head w ∧ (no_untracked w' ↔ no_untracked w).
#[global] Instance same_checkout_preorder : PreOrder same_checkout.
Proof.
  split; [by intros w|]. intros w1 w2 w3 (C1 & H1 & N1) (C2 & H2 & N2).
  split_and!; [by rewrite C2|by rewrite H2|by rewrite N2].
Qed.
Lemma same_checkout_clean w w' : same_checkout w w' → clean w → clean w'.
Proof. intros (C & H & N) [Hf Hn]. unfold clean. rewrite C, H. split; [done|by apply N]. Qed.

Lemma connect_same n w r w' : retry n remote_connect w = (r, w') → same_checkout w w'.
Proof. apply retry_keeps; [apply _|]. apply connect_keeps. Qed.
Lemma fetch_same branch shallow n w r w' :
  retry n (remote_fetch branch shallow) w = (r, w') → same_checkout w w'.
Proof. apply retry_keeps; [apply _|]. apply fetch_keeps. Qed.

(** What a synchronisation that succeeds leaves in the checkout, by its status. *)
Definition left_behind (w : W) (st : SyncStatus) (w' : W) : Prop :=
  match st with
  | Cloned c _ => clean w' ∧ (c ≠ [] → checkout (F := F) w' = files_at c)
  | Updated c _ => no_untracked w → clean w' ∧ checkout (F := F) w' = files_at c
  | UpToDate c _ =>
      same_checkout w w' ∧ (∃ h, repo_head w = Some h ∧ head_target h = Some c)
  end.

Lemma shallow_clone_checkout url branch s st s' :
  shallow_clone url branch s = (Ok st, s') → left_behind (gs_world s) st (gs_world s').
Proof.
  unfold shallow_clone. set (s0 := if path_exists _ then _ else _).
  destruct (git_clone _ _ _ _) as [[[]|e|] w] eqn:E; [|done..].
  destruct (clone_ok _ _ _ _ _ E) as [Hn Hc]. destruct (repo_head w) as [h|] eqn:Hh.
  - destruct (Hc h eq_refl) as [Ht Hco].
    assert (clean w) as Hclean
      by (split; [intros h' c Hh'; rewrite Hh in Hh'; injection Hh' as <-; auto|done]).
    destruct (head_commit h) as [[c t]|] eqn:Hhc; intros [= <- <-]; cbn; (split; [done|]); [|done].
    intros _. by eapply Ht, Hco.
  - intros [= <- <-]. cbn. split; [|done]. split; [|done]. intros h c Hh'. by rewrite Hh in Hh'.
Qed.

Lemma fetch_and_reset_checkout url branch s st s' :
  fetch_and_reset url branch s = (Ok st, s') → left_behind (gs_world s) st (gs_world s').
Proof.
  unfold fetch_and_reset. destruct (negb _); [done|].
  destruct (origin_url _) as [url'|e|]; [|done..]. destruct (negb _); [done|].
  destruct (retry _ remote_connect _) as [[heads|e|] w1] eqn:E1; [|done..].
  apply connect_same in E1. destruct (negb _) eqn:Hneed.
  { intros [= <- <-]. cbn [gs_world with_metrics with_repo with_world left_behind]. split; [done|].
    apply negb_true_iff in Hneed. destruct (heads ≫= _) as [oid|]; [|done].
    destruct (repo_head (gs_world s)) as [h|]; [|done]. exists h. split; [done|]. simpl in Hneed |- *.
    by destruct (head_target h). }
  destruct (retry _ (remote_fetch _ _) _) as [[[]|e|] w2] eqn:E2; [|done..]. apply fetch_same in E2.
  destruct (tracked_commit _ _) as [[oid time]|e|]; [|done..].
  destruct (hard_reset _ _) as [[[]|e|] w3] eqn:E3; [|done..].
  apply hard_reset_ok in E3 as [Hh3 Hr3].
  intros [= <- <-]. cbn [gs_world with_metrics with_repo with_world left_behind]. intros Hn.
  cbn [gs_world with_metrics with_world] in *. destruct Hr3 as [Hc3 Hn3]; [by apply E2, E1|].
  split; [|done]. split; [|done]. intros h c Hh Ht. rewrite Hh in Hh3. simpl in Hh3.
  rewrite Ht in Hh3. by injection Hh3 as ->.
Qed.

Lemma synchronize_left url branch now s st s' :
  synchronize url branch now s = (Ok st, s') → left_behind (gs_world s) st (gs_world s').
Proof.
  unfold synchronize. destruct (create_parent _) as [[[]|e|] w] eqn:E; [|done..].
  assert (same_checkout (gs_world s) w) as Hs
    by (destruct (create_parent_keeps _ _ _ E) as (? & ? & _ & _ & ?); done).
  assert (∀ w', left_behind w st w' → left_behind (gs_world s) st w') as Hl.
  { intros w'. destruct st as [c t|c t|c t]; cbn [left_behind]; [done| |].
    - intros H Hn. apply H. by apply Hs.
    - intros [Hw Hh]. split; [by trans w|]. destruct Hs as (_ & Hr & _). by rewrite Hr in Hh. }
  destruct (negb (exists_at _)).
  - destruct (shallow_clone _ _ _) as [[st1|e|] s1] eqn:E1; [|done..]. intros [= <- <-].
    by apply shallow_clone_checkout in E1; apply Hl.
  - destruct (fetch_and_reset _ _ _) as [[st1|e|] s1] eqn:E1; [|done..]. intros [= <- <-].
    by apply fetch_and_reset_checkout in E1; apply Hl.
Qed.

(** From a clean checkout, the files are those of the reported commit. *)
Lemma synchronize_checkout url branch now s st s' :
  clean (gs_world s) → synchronize url branch now s = (Ok st, s') →
  clean (gs_world s') ∧ (status_oid st ≠ [] → checkout (F := F) (gs_world s') = files_at (status_oid st)).
Proof.
  intros Hclean E%synchronize_left. destruct st as [c t|c t|c t]; cbn [left_behind status_oid] in *; [done| |].
  - destruct E as [? ?]; [apply Hclean|done].
  - destruct E as [Hs (h & Hh & Ht)]. split; [by eapply same_checkout_clean|]. intros _.
    destruct Hs as [-> _]. by eapply Hclean.
Qed.
End Repository.

(** C16 (functional). A synchronisation that succeeds leaves the following. After a
    clone: the checkout holds the files of the commit it reports and no others (a HEAD
    that cannot be read is reported as the empty name). After an update: the same,
    provided that the checkout held no untracked file before, which a hard reset leaves
    where it is; files that had been modified are restored. When there was nothing new:
    the checkout is untouched and the commit reported is the one HEAD names, so the files
    are those of this commit if they were before; a local change stays. The manager
    remembers the commit it reports; the sync time is recorded, exactly one of the clone,
    fetch and up-to-date counters has advanced and the error counter has not. *)
Theorem synchronize_checks_out_reported_commit {W F} `{!Git2 W} `{!Git2Laws W F}
    url branch now r w c f u e sync time st s' :
  synchronize url branch now (mkGitState r w (Some (mkGitMetrics c f u e sync time))) = (Ok st, s') →
  left_behind (F := F) w st (gs_world s') ∧
  (clean (F := F) w → status_oid st ≠ [] → checkout (F := F) (gs_world s') = files_at (status_oid st)) ∧
  gr_last_commit_oid (gs_repo s') = Some (status_oid st) ∧ gr_open (gs_repo s') = true ∧
  gs_metrics s' = Some match st with
    | Cloned _ t => mkGitMetrics (wrap_u64 (c + 1)) f u e now t
    | Updated _ t => mkGitMetrics c (wrap_u64 (f + 1)) u e now t
    | UpToDate _ _ => mkGitMetrics c f (wrap_u64 (u + 1)) e now time
    end.
Proof.
  intros E. split; [by eapply (synchronize_left (F := F)) in E|].
  split; [intros Hc; by eapply (synchronize_checkout (F := F)) in E as [_ ?]|].
  revert E. unfold synchronize. cbn [gs_world].
  destruct (create_parent w) as [[[]|?|] w1]; [|done..]. destruct (negb (exists_at _)).
  - unfold shallow_clone. set (s0 := if path_exists _ then _ else _).
    assert (gs_metrics s0 = Some (mkGitMetrics c f u e sync time)) as Hm
      by (unfold s0; by destruct (path_exists _)).
    destruct (git_clone _ _ _ _) as [[[]|?|] w2]; [|done..].
    destruct (match repo_head w2 with Some h => _ | None => _ end) as [oid t].
    intros [= <- <-]. cbn. by rewrite Hm.
  - unfold fetch_and_reset. cbn [gs_world gs_repo with_world with_repo gr_open negb gs_metrics].
    destruct (origin_url w1) as [o|?|]; [|done..]. destruct (negb _); [done|].
    destruct (retry _ remote_connect _) as [[heads|?|] w2]; [|done..].
    destruct (negb _); [by intros [= <- <-]|].
    destruct (retry _ (remote_fetch _ _) _) as [[[]|?|] w3]; [|done..].
    cbn [gs_world with_metrics]. destruct (tracked_commit _ _) as [[oid t]|?|]; [|done..].
    destruct (hard_reset _ _) as [[[]|?|] w4]; [|done..]. by intros [= <- <-].
Qed.

(** A lost connection is counted as two errors: once where the third
    attempt gives up and once more where the synchronisation returns; the checkout and
    the remembered commit stay. *)
Theorem lost_connection_counted_twice {W F} `{!Git2 W} `{!Git2Laws W F}
    url branch now r w w1 w2 c f u e sync time :
  create_parent w = (Ok (), w1) → exists_at w1 = true → origin_url w1 = Ok (Some url) →
  retry MAX_RETRIES remote_connect w1 = (Err (), w2) → e + 2 < 2 ^ 64 → 0 <= e →
  ∃ s', synchronize url branch now (mkGitState r w (Some (mkGitMetrics c f u e sync time)))
      = (Err GitError, s') ∧
    gs_metrics s' = Some (mkGitMetrics c f u (e + 2) sync time) ∧
    checkout (F := F) (gs_world s') = checkout w ∧
    gr_last_commit_oid (gs_repo s') = gr_last_commit_oid r.
Proof.
  intros Hp Hex Ho Hr He He0. unfold synchronize. cbn [gs_world]. rewrite Hp. cbn [gs_world with_world].
  rewrite Hex. cbn [negb]. unfold fetch_and_reset. cbn [gs_world gs_repo with_world with_repo gr_open negb].
  rewrite Ho. cbn [default]. rewrite bool_decide_eq_true_2 by done. cbn [negb]. rewrite Hr.
  eexists. split; [done|]. cbn. unfold wrap_u64, wrap.
  rewrite !Z.mod_small by (rewrite ?Z.mod_small; lia).
  split_and!; [do 2 f_equal; lia| |done].
  destruct (connect_same (F := F) _ _ _ _ Hr) as [-> _].
  by destruct (create_parent_keeps _ _ _ Hp) as [-> _].
Qed.

(** ** A machine with one remote branch *)
Record SimRepo : Type := mkSim {
  sim_local : option (list Z);
  sim_remote : list Z;
  sim_tracked : list Z;
  sim_online : bool;
}.
Definition sim_reply {A} (w : SimRepo) (a : A) : outcome unit A :=
  if sim_online w then Ok a else Err ().

#[local] Instance sim_git : Git2 SimRepo := {|
  create_parent w := (Ok (), w);
  dot_git_exists w := bool_decide (is_Some (sim_local w));
  path_exists w := bool_decide (is_Some (sim_local w));
  repo_opens w := true;
  remove_dir_all w := mkSim None (sim_remote w) (sim_tracked w) (sim_online w);
  git_clone _ _ _ w :=
    (sim_reply w (), if sim_online w then mkSim (Some (sim_remote w)) (sim_remote w) (sim_remote w) true
                     else w);
  repo_head w := (λ c, mkHead (Some c) (Some (c, 0))) <$> sim_local w;
  origin_url w := Ok (Some FIREHOL_DEFAULT_GIT_URL);
  remote_connect w :=
    (sim_reply w (Some [(lit "refs/heads/" ++ FIREHOL_DEFAULT_BRANCH, sim_remote w)]), w);
  remote_fetch _ _ w :=
    (sim_reply w (), mkSim (sim_local w) (sim_remote w) (sim_remote w) (sim_online w));
  tracked_commit _ w := Ok (sim_tracked w, 0);
  hard_reset c w := (Ok (), mkSim (Some c) (sim_remote w) (sim_tracked w) (sim_online w));
|}.

#[local] Instance sim_laws {F} (files : list Z → F) (none : F) : Git2Laws SimRepo F.
Proof.
  refine {| checkout w := from_option files none (sim_local w); files_at := files; no_untracked _ := True |}.
  - by intros oid w w' [= <-].
  - intros url branch shallow w w'. cbn. unfold sim_reply. destruct (sim_online w); [|done].
    intros [= <-]. split; [done|]. intros h [= <-]. cbn. split; [by intros c [= <-]|by intros c t [= <- _]].
  - by intros w r w' [= _ <-].
  - by intros branch shallow w r w' [= _ <-].
  - by intros w r w' [= _ <-].
Defined.

Lemma synchronize_checks_out_reported_commit_witness :
  gr_last_commit_oid (gs_repo (snd (synchronize FIREHOL_DEFAULT_GIT_URL FIREHOL_DEFAULT_BRANCH 5
    (mkGitState FireholGitRepository_new (mkSim (Some (lit "a1")) (lit "b2") [] true)
       (Some (mkGitMetrics 1 0 0 0 0 0)))))) = Some (lit "b2").
Proof.
  apply (synchronize_checks_out_reported_commit (F := list Z) (W := SimRepo)
    (Git2Laws0 := sim_laws id []) FIREHOL_DEFAULT_GIT_URL FIREHOL_DEFAULT_BRANCH 5
    FireholGitRepository_new (mkSim (Some (lit "a1")) (lit "b2") [] true) 1 0 0 0 0 0
    (Updated (lit "b2") 0)).
  reflexivity.
Defined.

Lemma lost_connection_counted_twice_witness :
  ∃ s', synchronize FIREHOL_DEFAULT_GIT_URL FIREHOL_DEFAULT_BRANCH 5
    (mkGitState FireholGitRepository_new (mkSim (Some (lit "a1")) (lit "b2") [] false)
       (Some (mkGitMetrics 1 0 0 0 0 0))) = (Err GitError, s') ∧
    gs_metrics s' = Some (mkGitMetrics 1 0 0 2 0 0).
Proof.
  destruct (lost_connection_counted_twice (F := list Z) (W := SimRepo)
    (Git2Laws0 := sim_laws id []) FIREHOL_DEFAULT_GIT_URL FIREHOL_DEFAULT_BRANCH 5
    FireholGitRepository_new (mkSim (Some (lit "a1")) (lit "b2") [] false)
    (mkSim (Some (lit "a1")) (lit "b2") [] false) (mkSim (Some (lit "a1")) (lit "b2") [] false)
    1 0 0 0 0 0) as (s' & ? & ? & _); [reflexivity..|lia|lia|]. by exists s'.
Defined.
