(* ===== verification/Directory.v ===== *)
(** * Importing a directory ([FireholParser::parse_directory*], [discover_files])

    The entry points of the import around the pipeline of [Pipeline] and [Spool]:
    which files of a directory are list files, in which order the workers take
    them, how many workers there are, and what the import returns. The outcome
    depends on the schedule of the threads, so the import is a relation. *)
From stdpp Require Import base numbers list gmap fin_maps strings sorting relations.
From Stdlib Require Import ZArith Lia.
From S2P Require Import Prelude Net Common BpfMaps Str Cidr Entry Metadata Cache Import FireholSync.
From S2P Require Import Loader Pipeline Schedule Spool EndToEnd.

Local Open Scope Z_scope.

(** ** Directories *)

(** An entry of [std::fs::read_dir]: unreadable, or a path that may be a regular
    file, with its extension when it is UTF-8, its size, and what reading it gives. *)
Inductive dir_entry : Type :=
| UnreadableEntry
| DirEntry (is_file : bool) (extension : option (list Z)) (size : Z) (file : list_file).

(** [dir_listing] is [None] when [read_dir] fails. *)
Record directory : Type := mkDirectory {
  dir_is_dir : bool;
  dir_listing : option (list dir_entry);
}.

Definition is_list_extension (ext : list Z) : bool :=
  bool_decide (ext = lit "ipset") || bool_decide (ext = lit "netset").

(** The loop over the entries, with the files found so far. *)
Fixpoint discover_loop (entries : list dir_entry) (files : list (list_file * Z))
    : outcome FireholParseError (list (list_file * Z)) :=
  match entries with
  | [] => Ok files
  | UnreadableEntry :: _ => Err EIo
  | DirEntry is_file extension size file :: rest =>
      if is_file then
        match extension with
        | Some ext => if is_list_extension ext then discover_loop rest (files ++ [(file, size)])
                      else discover_loop rest files
        | None => discover_loop rest files
        end
      else discover_loop rest files
  end.
Definition discover_files (dir : directory) : outcome FireholParseError (list (list_file * Z)) :=
  match dir_listing dir with
  | None => Err EIo
  | Some entries => discover_loop entries []
  end.

(** [files.sort_unstable_by_key(|a| Reverse(a.1))]: some permutation, largest first. *)
Definition sorted_by_size (files sorted : list (list_file * Z)) : Prop :=
  sorted ≡ₚ files ∧ StronglySorted (λ a b, b.2 <= a.2) sorted.

Definition total_file_size (files : list (list_file * Z)) : Z :=
  wrap_u64 (foldr (λ f acc, f.2 + acc) 0 files).
(** [num_cpus.min(file_count).max(1)]. *)
Definition num_workers_for (num_cpus file_count : nat) : nat := Nat.max (Nat.min num_cpus file_count) 1.

Definition FireholDataSet_default {S : Type} `{!ContextStore S} : FireholDataSet S :=
  mkDataSet [] None registry_new 0 0 0 0 0 0.

Section Parse.
Context {N4 N6 : Type} `{!IpNet 4 N4} `{!IpNet 16 N6} `{!IpNetText N4 N6}.
Context {low : Lowercase} {chrono : Chrono} {DB : Type} `{!HashOrder}.
Context `{!RocksDb DB} `{!Rkyv FireholMetadata} `{!Rkyv RuleBlockContext}.
Abbreviation dataset := (FireholDataSet (CacheRocksDb DB)).
Context (num_cpus : nat).

(** [parse_directory_impl]: [cached] when a cache is configured. *)
Inductive parse_directory_impl (ignore_ips : list IpAddr) (cached spool : bool) (dir : directory)
    : outcome FireholParseError dataset → Prop :=
| ParseNoGeneration e :
    cached = true → import_generation (DB := DB) = Err e →
    parse_directory_impl ignore_ips cached spool dir (Err ECache)
| ParseNotDirectory :
    (cached = true → is_ok (import_generation (DB := DB)) = true) → dir_is_dir dir = false →
    parse_directory_impl ignore_ips cached spool dir (Err EInvalidDirectory)
| ParseUnlisted e :
    (cached = true → is_ok (import_generation (DB := DB)) = true) → dir_is_dir dir = true →
    discover_files dir = Err e → parse_directory_impl ignore_ips cached spool dir (Err e)
| ParseNoFiles :
    (cached = true → is_ok (import_generation (DB := DB)) = true) → dir_is_dir dir = true →
    discover_files dir = Ok [] →
    parse_directory_impl ignore_ips cached spool dir (Ok FireholDataSet_default)
| ParseInMemory found files s :
    cached = false → dir_is_dir dir = true → discover_files dir = Ok found → found ≠ [] →
    sorted_by_size found files →
    rtc (step (N4 := N4) (N6 := N6) ignore_ips files.*1)
      (pipeline_new (num_workers_for num_cpus (length files))) s → joined s →
    parse_directory_impl ignore_ips cached spool dir (import_result s)
| ParseCached found files generation c :
    cached = true → import_generation (DB := DB) = Ok generation →
    dir_is_dir dir = true → discover_files dir = Ok found → found ≠ [] →
    sorted_by_size found files →
    rtc (cached_step (N4 := N4) (N6 := N6) ignore_ips files.*1 spool)
      (cached_new generation (total_file_size files)
         (num_workers_for num_cpus (length files))) c → joined (ci_threads c) →
    parse_directory_impl ignore_ips cached spool dir (cached_result spool c).

Definition parse_directory_with_ignore_cached ignore_ips (cached : bool) :=
  parse_directory_impl ignore_ips cached false.
Definition parse_directory_with_ignore ignore_ips := parse_directory_with_ignore_cached ignore_ips false.
Definition parse_directory_cached (cached : bool) := parse_directory_with_ignore_cached [] cached.
Definition parse_directory := parse_directory_with_ignore [].
Definition parse_directory_spooled ignore_ips (cached : bool) :=
  parse_directory_impl ignore_ips cached true.
End Parse.

(** ** Reference: the list files of a directory *)
Definition list_file_of (e : dir_entry) : list list_file :=
  match e with
  | DirEntry true (Some ext) _ file => if is_list_extension ext then [file] else []
  | _ => []
  end.
Definition list_files (dir : directory) : list list_file :=
  default [] (dir_listing dir) ≫= list_file_of.

(** Fewer than 2^32 lines and files, so that no identifier wraps. *)
Definition directory_fits (dir : directory) : Prop :=
  1 + Z.of_nat (sum_list_with file_budget (list_files dir)) < 2 ^ 32.

Lemma discover_loop_ok entries : ∀ files found,
  discover_loop entries files = Ok found → found.*1 = files.*1 ++ (entries ≫= list_file_of).
Proof.
  induction entries as [|[|is_file ext size file] rest IH]; intros files found E; simpl in E;
    [injection E as <-; by rewrite app_nil_r|done|].
  destruct is_file; [|by apply IH]. destruct ext as [ext|]; [|by apply IH]. simpl.
  destruct (is_list_extension ext); [|by apply IH].
  apply IH in E. by rewrite E, fmap_app, <-app_assoc.
Qed.

Lemma discover_files_ok dir found :
  discover_files dir = Ok found → found.*1 = list_files dir.
Proof.
  unfold discover_files, list_files. destruct (dir_listing dir) as [entries|]; [|done].
  intros E. by apply discover_loop_ok in E.
Qed.

Lemma sum_budget_perm (l l' : list list_file) :
  l ≡ₚ l' → sum_list_with file_budget l = sum_list_with file_budget l'.
Proof. induction 1; simpl; lia. Qed.

Section Listed.
Context {N4 N6 : Type} `{!IpNet 4 N4} `{!IpNet 16 N6} `{!IpNetText N4 N6}.
Context {low : Lowercase} {chrono : Chrono} {DB : Type} `{!HashOrder}.
Context `{!RocksDb DB} `{!Rkyv FireholMetadata} `{!Rkyv RuleBlockContext}.
Context `{!RocksDbLaws DB} `{!RocksDbReads DB}.
Context `{!RkyvLaws FireholMetadata} `{!RkyvLaws RuleBlockContext}.
Context (num_cpus : nat) (ignore_ips : list IpAddr) (cached : bool).
Hypothesis ignore_ok : Forall ip_ok ignore_ips.

Lemma named_in_lists_perm files files' ip :
  files ≡ₚ files' →
  named_in_lists (N4 := N4) (N6 := N6) ignore_ips files ip →
  named_in_lists (N4 := N4) (N6 := N6) ignore_ips files' ip.
Proof.
  intros Hp (f & n & token & c & ts & t & Hf & Hrest). exists f, n, token, c, ts, t. by rewrite <-Hp.
Qed.

(** What an import of a directory that returns a non-empty data set prepares. *)
Lemma parsed_rules dir spool (ds : FireholDataSet (CacheRocksDb DB)) rules report :
  directory_fits dir →
  parse_directory_impl (N4 := N4) (N6 := N6) num_cpus ignore_ips cached spool dir (Ok ds) →
  ds_is_empty ds = false → try_prepare_rules ds = Ok (rules, report) →
  rules_drop rules ∧ ∀ ip, ip_ok ip →
    blocks rules ip ↔ named_in_lists (N4 := N4) (N6 := N6) ignore_ips (list_files dir) ip.
Proof using All.
  intros Hfit Hparse Hne Hprep.
  assert (∃ files nw, files ≡ₚ list_files dir ∧ (0 < nw)%nat ∧
    prepared (N4 := N4) (N6 := N6) (S := CacheRocksDb DB) (DB := DB) ignore_ips files nw rules)
    as (files & nw & Hp & Hnw & Hprepared).
  { remember (Ok ds) as r eqn:Hr. destruct Hparse as [| | | |found files s Hc Hd Hf Hn [Hperm _] Hrun Hj|
      found files gen c Hc Hg Hd Hf Hn [Hperm _] Hrun Hj]; try discriminate Hr.
    - injection Hr as <-. discriminate Hne.
    - exists files.*1, (num_workers_for num_cpus (length files)). split_and!.
      + by rewrite Hperm, (discover_files_ok _ _ Hf).
      + unfold num_workers_for. lia.
      + by eapply (PreparedInMemory _ _ _ s ds).
    - exists files.*1, (num_workers_for num_cpus (length files)). split_and!.
      + by rewrite Hperm, (discover_files_ok _ _ Hf).
      + unfold num_workers_for. lia.
      + by eapply (PreparedFromDisk _ _ _ spool _ gen c ds). }
  destruct (prepared_blocks (S := CacheRocksDb DB) (DB := DB) ignore_ips files nw rules ignore_ok Hnw)
    as [Hdrop Hblocks]; [|done|].
  { unfold directory_fits in Hfit. by rewrite (sum_budget_perm _ _ Hp). }
  split; [done|]. intros ip Hip. rewrite (Hblocks ip Hip).
  split; apply named_in_lists_perm; [done|by symmetry].
Qed.
End Listed.
