(* ===== verification/Blocklist.v ===== *)
(** * The blocklist manager and its scheduler ([src/firehol/blocklist.rs],
    [src/firehol/scheduler.rs])

    One update: synchronise the checkout, import it, prepare the rules, load them
    into the maps and activate the registry; the cron job around it with its lock
    and counters. The files are a [directory], the import is the argument [parse]
    (which data set a directory gives depends on the threads; [Directory] relates
    the two), the clock is an argument. Log lines are not modelled. *)
From stdpp Require Import base numbers list gmap fin_maps strings sorting relations.
From Stdlib Require Import ZArith Lia.
From S2P Require Import Prelude Net Common BpfMaps Str Cidr Entry Metadata Cache Import FireholSync.
From S2P Require Import Loader MapManager Wire Xdp Pipeline Schedule Spool EndToEnd Git Directory.

Local Open Scope Z_scope.

Record FireholConfig : Type := mkFireholConfig {
  fc_repo_url : list Z;
  fc_default_branch : list Z;
  fc_enabled : bool;
  fc_ignore_ips : list IpAddr;
}.

(** [FirewallError] as the update returns it. *)
Inductive update_error : Type :=
| GitSyncFailed (e : GitRepoError)
| ParsingFailed (e : FireholParseError)
| NoEntries
| PrepareFailed (e : SpoolError)
| CacheFailed.

Section Blocklist.
Context {W DB : Type} `{!Git2 W} `{!Git2Laws W directory}.
Context `{!RocksDb DB} `{!Rkyv FireholMetadata} `{!Rkyv RuleBlockContext}.
Context {H4 H6 L4 L6 : Type}.
Context `{!BpfMap H4 (list Z) RuleValue} `{!BpfMap H6 (list Z) RuleValue}.
Context `{!BpfMap L4 (Z * list Z) RuleValue} `{!BpfMap L6 (Z * list Z) RuleValue}.
Context `{!HashOrder}.
Abbreviation store := (CacheRocksDb DB).
Abbreviation registry := (FireholMetadataRegistry store).
Abbreviation manager := (MapManager H4 H6 L4 L6).

(** [bl_git] holds the git manager, the machine's checkout and the git metrics. *)
Record FireholBlockList : Type := mkBlocklist {
  bl_git : git_state (W := W);
  bl_active_registry : registry;
  bl_last_loaded_commit : option (list Z);
  bl_last_loaded_commit_time : option Z;
}.
Implicit Type self : FireholBlockList.

Definition blocklist_new (w : W) (m : option GitMetrics) : FireholBlockList :=
  mkBlocklist (mkGitState FireholGitRepository_new w m) registry_new None None.

Definition has_active_rules self : bool := negb (registry_is_empty (bl_active_registry self)).

(** [FireholBlockList::resolve_rule]. *)
Definition bl_resolve_rule self (rule_id : Z) : option (Z * RuleBlockEntry) :=
  (λ r, (rule_id, r)) <$> resolve_rule (bl_active_registry self) rule_id.

Definition set_git self (g : git_state (W := W)) : FireholBlockList :=
  mkBlocklist g (bl_active_registry self) (bl_last_loaded_commit self)
    (bl_last_loaded_commit_time self).

(** [if let Some(cache) = dataset.stored_entries.take() { cache.clear_entries()? }]: the
    spool is in the cache of the data set's registry. *)
Definition release_spool (ds : FireholDataSet store) : outcome update_error registry :=
  match ds_stored_entries ds, rg_cache (ds_registry ds) with
  | Some _, Some cache =>
      match clear_entries cache with
      | Ok cache' => Ok (set_cache (ds_registry ds) cache')
      | Err _ => Err CacheFailed
      | Fault => Fault
      end
  | _, _ => Ok (ds_registry ds)
  end.

(** Steps 3 to 8, once the checkout is at [commit_oid]. *)
Definition load_checkout self (parse : directory → outcome FireholParseError (FireholDataSet store))
    (mgr : option manager) (commit_oid : list Z) (commit_time : Z)
    : outcome update_error FireholSyncReport * option manager * FireholBlockList :=
  match parse (checkout (gs_world (bl_git self))) with
  | Err e => (Err (ParsingFailed e), mgr, self)
  | Fault => (Fault, mgr, self)
  | Ok dataset =>
  if ds_is_empty dataset then (Err NoEntries, mgr, self) else
  match try_prepare_rules dataset with
  | Err e => (Err (PrepareFailed e), mgr, self)
  | Fault => (Fault, mgr, self)
  | Ok (prepared_rules, report_draft) =>
  match release_spool dataset with
  | Err e => (Err e, mgr, self)
  | Fault => (Fault, mgr, self)
  | Ok registry =>
      let '(mgr', report) :=
        match mgr with
        | Some m => let '(m', report) := load_into_maps m prepared_rules report_draft in
                    (Some m', report)
        | None => (None, report_draft)
        end in
      (Ok report, mgr',
       mkBlocklist (bl_git self) registry (Some commit_oid) (Some commit_time))
  end end end.

Definition synchronize_and_load_internal (config : FireholConfig)
    (parse : directory → outcome FireholParseError (FireholDataSet store)) (now : Z)
    (mgr : option manager) (is_startup : bool) self
    : outcome update_error FireholSyncReport * option manager * FireholBlockList :=
  let '(status, git) :=
    synchronize (fc_repo_url config) (fc_default_branch config) now (bl_git self) in
  let self := set_git self git in
  match status with
  | Err e => (Err (GitSyncFailed e), mgr, self)
  | Fault => (Fault, mgr, self)
  | Ok (Cloned commit_oid commit_time) | Ok (Updated commit_oid commit_time) =>
      load_checkout self parse mgr commit_oid commit_time
  | Ok (UpToDate commit_oid commit_time) =>
      if negb is_startup && bool_decide (bl_last_loaded_commit self = Some commit_oid) &&
         has_active_rules self
      then (Ok FireholSyncReport_default, mgr, self)
      else load_checkout self parse mgr commit_oid commit_time
  end.

Definition startup_initialize config parse now (m : manager) self :=
  synchronize_and_load_internal config parse now (Some m) true self.
Definition synchronize_and_load config parse now (m : manager) self :=
  synchronize_and_load_internal config parse now (Some m) false self.

(** [Ok None] when the update was skipped. *)
Definition reload_if_updated config parse now (m : manager) self
    : outcome update_error (option FireholSyncReport) * option manager * FireholBlockList :=
  let '(r, m', self') := synchronize_and_load config parse now m self in
  (match r with
   | Ok report => Ok (if (report_total_rules report =? 0) && has_active_rules self'
                      then None else Some report)
   | Err e => Err e
   | Fault => Fault
   end, m', self').

(** ** The scheduled job *)
Inductive FireholSyncOutcome : Type :=
| SyncUpdated (report : FireholSyncReport)
| SyncUpToDate (commit_oid : list Z)
| SkippedAlreadyRunning.

(** The metrics the job keeps; [cm_map_entries] are the four gauges of installed
    entries and [cm_sync_errors] the error counter of the failing update. *)
Record CronMetrics : Type := mkCron {
  cron_skipped_total : Z;
  cron_last_run_timestamp_seconds : Z;
  cron_executions_total : Z;
  cron_no_change_total : Z;
  cron_last_error : Z;
  cron_success_total : Z;
  cron_last_success_timestamp_seconds : Z;
  cron_failures_total : Z;
  cm_map_entries : Z * Z * Z * Z;
  cm_sync_errors : Z;
}.
Definition count_skipped (m : CronMetrics) : CronMetrics :=
  let '(mkCron sk lr ex nc le su ls fa me se) := m in
  mkCron (wrap_u64 (sk + 1)) lr ex nc le su ls fa me se.
Definition count_execution (now : Z) (m : CronMetrics) : CronMetrics :=
  let '(mkCron sk lr ex nc le su ls fa me se) := m in
  mkCron sk now (wrap_u64 (ex + 1)) nc le su ls fa me se.
Definition count_no_change (m : CronMetrics) : CronMetrics :=
  let '(mkCron sk lr ex nc le su ls fa me se) := m in
  mkCron sk lr ex (wrap_u64 (nc + 1)) 0 su ls fa me se.
Definition count_success (is_startup : bool) (now : Z) (r : FireholSyncReport) (m : CronMetrics)
    : CronMetrics :=
  let '(mkCron sk lr ex nc le su ls fa me se) := m in
  mkCron sk lr ex nc 0 (if is_startup then su else wrap_u64 (su + 1)) now fa
    (fr_exact_v4_count r, fr_exact_v6_count r, fr_lpm_v4_count r, fr_lpm_v6_count r) se.
Definition count_failure (is_startup : bool) (m : CronMetrics) : CronMetrics :=
  let '(mkCron sk lr ex nc le su ls fa me se) := m in
  mkCron sk lr ex nc 1 su ls (if is_startup then fa else wrap_u64 (fa + 1)) me (wrap_u64 (se + 1)).

(** The job; [locked] when another synchronisation holds the lock, which start-up
    waits for and the cron job does not. *)
Definition execute_firehol_sync (config : FireholConfig)
    (parse : directory → outcome FireholParseError (FireholDataSet store)) (now : Z)
    (locked is_startup : bool) (mgr : option manager) (metrics : option CronMetrics) self
    : outcome update_error FireholSyncOutcome * option manager * option CronMetrics
      * FireholBlockList :=
  if locked && negb is_startup then
    (Ok SkippedAlreadyRunning, mgr, count_skipped <$> metrics, self)
  else
  let metrics := if is_startup then metrics else count_execution now <$> metrics in
  let '(result, mgr', self') :=
    synchronize_and_load_internal config parse now mgr is_startup self in
  match result with
  | Ok report =>
      if (report_total_rules report =? 0) && has_active_rules self' then
        (Ok (SyncUpToDate (default (lit "unknown") (bl_last_loaded_commit self'))), mgr',
         count_no_change <$> metrics, self')
      else
        (Ok (SyncUpdated report), mgr', count_success is_startup now report <$> metrics, self')
  | Err e => (Err e, mgr', count_failure is_startup <$> metrics, self')
  | Fault => (Fault, mgr', metrics, self')
  end.

(** ** What one update does *)

(** The rules and the registry an update loads from a directory. *)
Definition loads (parse : directory → outcome FireholParseError (FireholDataSet store))
    (dir : directory) (ds : FireholDataSet store) (rules : ParsedRuleSet)
    (report : FireholSyncReport) (r : registry) : Prop :=
  parse dir = Ok ds ∧ ds_is_empty ds = false ∧ try_prepare_rules ds = Ok (rules, report) ∧
  release_spool ds = Ok r.

(** An update either keeps maps, registry and commit, or replaces all three by what
    the checkout it left behind gives. *)
Lemma load_checkout_cases self parse mgr c t res mgr' self' :
  load_checkout self parse mgr c t = (res, mgr', self') →
  bl_git self' = bl_git self ∧
  ((is_ok res = false ∧ mgr' = mgr ∧ self' = self) ∨
   ∃ ds rules report r, loads parse (checkout (gs_world (bl_git self))) ds rules report r ∧
     is_ok res = true ∧ bl_active_registry self' = r ∧ bl_last_loaded_commit self' = Some c ∧
     mgr' = (λ m, (sync_firehol_rules m rules).1) <$> mgr).
Proof.
  unfold load_checkout, loads. destruct (parse _) as [ds|e|] eqn:Hp.
  2-3: intros [= <- <- <-]; by (split; [|left]).
  destruct (ds_is_empty ds) eqn:He; [intros [= <- <- <-]; by (split; [|left])|].
  destruct (try_prepare_rules ds) as [[rules report]|e|] eqn:Ht.
  2-3: intros [= <- <- <-]; by (split; [|left]).
  destruct (release_spool ds) as [r|e|] eqn:Hr.
  2-3: intros [= <- <- <-]; by (split; [|left]).
  destruct mgr as [m|].
  - unfold load_into_maps. destruct (sync_firehol_rules m rules) as [m' rep] eqn:Hs.
    intros [= <- <- <-]. split; [done|]. right. exists ds, rules, report, r.
    split_and!; try done. simpl. by rewrite Hs.
  - intros [= <- <- <-]. split; [done|]. right. exists ds, rules, report, r. by split_and!.
Qed.

(** The maps, registry and commit after an update, relative to those before. *)
Definition replaced_or_kept (parse : directory → outcome FireholParseError (FireholDataSet store))
    (mgr : option manager) self (res : outcome update_error FireholSyncReport)
    (mgr' : option manager) (self' : FireholBlockList) : Prop :=
  (mgr' = mgr ∧ bl_active_registry self' = bl_active_registry self ∧
   bl_last_loaded_commit self' = bl_last_loaded_commit self) ∨
  ∃ c dir ds rules report r, loads parse dir ds rules report r ∧ is_ok res = true ∧
    (c ≠ [] → dir = files_at c) ∧ dir = checkout (gs_world (bl_git self')) ∧
    bl_active_registry self' = r ∧ bl_last_loaded_commit self' = Some c ∧
    mgr' = (λ m, (sync_firehol_rules m rules).1) <$> mgr.

Lemma loaded_update parse mgr self git c t res mgr' self' :
  clean (F := directory) (gs_world git) →
  (c ≠ [] → checkout (F := directory) (gs_world git) = files_at c) →
  load_checkout (set_git self git) parse mgr c t = (res, mgr', self') →
  clean (F := directory) (gs_world (bl_git self')) ∧ replaced_or_kept parse mgr self res mgr' self'.
Proof.
  intros Hclean Hfiles E.
  destruct (load_checkout_cases _ _ _ _ _ _ _ _ E) as [Hg [(_ & -> & ->)|
    (ds & rules & report & r & Hl & Hok & Hr & Hc & Hm)]].
  - split; [done|]. by left.
  - rewrite Hg in *. split; [done|]. right. exists c, (checkout (gs_world git)), ds, rules, report, r.
    rewrite Hg. by split_and!.
Qed.

Lemma update_cases config parse now mgr is_startup self res mgr' self' :
  clean (F := directory) (gs_world (bl_git self)) →
  synchronize_and_load_internal config parse now mgr is_startup self = (res, mgr', self') →
  ((∀ e, res ≠ Err (GitSyncFailed e)) → res ≠ Fault →
     clean (F := directory) (gs_world (bl_git self'))) ∧
  replaced_or_kept parse mgr self res mgr' self'.
Proof.
  intros Hclean. unfold synchronize_and_load_internal.
  destruct (synchronize _ _ _ _) as [[status|e|] git] eqn:Hsync; cycle 1.
  { intros [= <- <- <-]. split; [intros Hne _; by destruct (Hne e)|by left]. }
  { intros [= <- <- <-]. split; [done|by left]. }
  destruct (synchronize_checkout (F := directory) _ _ _ _ _ _ Hclean Hsync) as [Hc Hf].
  destruct status as [c t|c t|c t]; cbn [status_oid] in Hf.
  1-2: intros E; apply loaded_update in E as [? ?]; by auto.
  destruct (_ && _); [intros [= <- <- <-]; split; [done|by left]|].
  intros E. apply loaded_update in E as [? ?]; by auto.
Qed.

(** ** The life of the daemon *)
Context {N4 N6 : Type} `{!IpNet 4 N4} `{!IpNet 16 N6} `{!IpNetText N4 N6}.
Context {low : Lowercase} {chrono : Chrono}.
Context (config : FireholConfig) (cached : bool) (num_cpus : nat).

(** The import argument gives what the threads can produce from the directory. *)
Definition import_possible (parse : directory → outcome FireholParseError (FireholDataSet store))
    (dir : directory) : Prop :=
  parse_directory_spooled (N4 := N4) (N6 := N6) num_cpus (fc_ignore_ips config) cached dir (parse dir).

(** Loading the rules of a directory succeeds in full: the keys are well-formed, none
    is a static one, and the kernel takes them all. *)
Definition load_complete parse (m : manager) (S : tables) (dir : directory) : Prop :=
  directory_fits dir ∧ ∀ ds rules report r, loads parse dir ds rules report r →
    rule_set_ok (H4 := H4) (H6 := H6) (L4 := L4) (L6 := L6) rules ∧ tables_disjoint S (tables_of rules) ∧
    complete rules (sync_firehol_rules m rules).2.

(** The FireHOL rules in force: those of the checkout of the commit loaded last. *)
Inductive in_force : FireholBlockList → ParsedRuleSet → Prop :=
| force_none bl :
    bl_last_loaded_commit bl = None → bl_active_registry bl = registry_new →
    in_force bl ParsedRuleSet_new
| force_loaded bl parse c dir ds rules report r :
    bl_last_loaded_commit bl = Some c → bl_active_registry bl = r →
    import_possible parse dir → directory_fits dir → (c ≠ [] → dir = files_at c) →
    loads parse dir ds rules report r → in_force bl rules.

(** Static reloads and updates, in any order and number, from empty maps. Between
    them the machine may change (new commits on the remote, the network) as long as
    the checkout stays whole. An update may fail anywhere; a git call that fails
    leaves the checkout whole. *)
Inductive lifetime : FireholBlockList → manager → ParsedRuleSet → Prop :=
| life_start w metrics m :
    clean (F := directory) w → reachable m no_tables no_tables →
    lifetime (blocklist_new w metrics) m ParsedRuleSet_new
| life_world bl m static w :
    lifetime bl m static → clean (F := directory) w →
    lifetime (set_git bl (with_world (bl_git bl) w)) m static
| life_static bl m static rules :
    lifetime bl m static → rule_set_ok (H4 := H4) (H6 := H6) (L4 := L4) (L6 := L6) rules →
    (∀ firehol, in_force bl firehol → tables_disjoint (tables_of rules) (tables_of firehol)) →
    complete rules (sync_rules m rules).2 →
    lifetime bl (sync_rules m rules).1 rules
| life_update bl m static parse now is_startup locked metrics metrics' result m' bl' :
    lifetime bl m static → import_possible parse (checkout (gs_world (bl_git bl'))) →
    execute_firehol_sync config parse now locked is_startup (Some m) metrics bl
      = (result, Some m', metrics', bl') →
    load_complete parse m (tables_of static) (checkout (gs_world (bl_git bl'))) →
    (∀ e, result = Err (GitSyncFailed e) → clean (F := directory) (gs_world (bl_git bl'))) →
    result ≠ Fault →
    lifetime bl' m' static.

Lemma execute_update parse now locked is_startup m metrics bl result m' metrics' bl' :
  execute_firehol_sync config parse now locked is_startup (Some m) metrics bl
    = (result, m', metrics', bl') →
  (m' = Some m ∧ bl' = bl ∧ result = Ok SkippedAlreadyRunning) ∨
  ∃ res, synchronize_and_load_internal config parse now (Some m) is_startup bl = (res, m', bl') ∧
    match result with
    | Ok _ => is_ok res = true | Err e => res = Err e | Fault => res = Fault end.
Proof.
  unfold execute_firehol_sync. destruct (locked && _); [intros [= <- <- <- <-]; by left|].
  destruct (synchronize_and_load_internal _ _ _ _ _ _) as [[res m1] bl1].
  intros E. right. exists res. destruct res as [report|e|]; [|by injection E as <- <- <- <-..].
  destruct (_ && _); by injection E as <- <- <- <-.
Qed.

Lemma load_checkout_has_maps self parse m cm t : is_Some (load_checkout self parse (Some m) cm t).1.2.
Proof.
  destruct (load_checkout self parse (Some m) cm t) as [[res mgr'] self'] eqn:E.
  apply load_checkout_cases in E as [_ [(_ & -> & _)|(? & ? & ? & ? & _ & _ & _ & _ & ->)]]; by eexists.
Qed.

Lemma execute_has_maps parse now locked is_startup m metrics bl result m' metrics' bl' :
  execute_firehol_sync config parse now locked is_startup (Some m) metrics bl
    = (result, m', metrics', bl') → is_Some m'.
Proof.
  intros E. destruct (execute_update _ _ _ _ _ _ _ _ _ _ _ E) as [(-> & _)|(res & Hres & _)]; [by eexists|].
  revert Hres. unfold synchronize_and_load_internal.
  destruct (synchronize _ _ _ _) as [[status|e|] git]; [|by intros [= _ <- _]..].
  destruct status as [cm t|cm t|cm t]; [| |destruct (_ && _); [by intros [= _ <- _]|]];
    intros Hl; pose proof (load_checkout_has_maps (set_git bl git) parse m cm t) as Hs; by rewrite Hl in Hs.
Qed.

(** A commit once recorded is only replaced by another, and start-up records one
    unless it fails. *)
Lemma load_checkout_commit self parse mgr cm t res mgr' self' :
  load_checkout self parse mgr cm t = (res, mgr', self') →
  (is_ok res = true → is_Some (bl_last_loaded_commit self')) ∧
  (is_Some (bl_last_loaded_commit self) → is_Some (bl_last_loaded_commit self')).
Proof.
  intros E. apply load_checkout_cases in E as [_ [(Hr & _ & ->)|(? & ? & ? & ? & _ & _ & _ & -> & _)]].
  - by rewrite Hr.
  - split; by eexists.
Qed.

Lemma execute_commit parse now locked is_startup mgr metrics bl result m' metrics' bl' :
  execute_firehol_sync config parse now locked is_startup mgr metrics bl
    = (result, m', metrics', bl') →
  (is_startup = true → is_ok result = true → is_Some (bl_last_loaded_commit bl')) ∧
  (is_Some (bl_last_loaded_commit bl) → is_Some (bl_last_loaded_commit bl')).
Proof.
  unfold execute_firehol_sync.
  destruct (locked && negb is_startup) eqn:Hl; [intros [= <- <- <- <-]; split; [|done]|].
  { intros ->. by rewrite andb_false_r in Hl. }
  destruct (synchronize_and_load_internal _ _ _ _ _ _) as [[res m1] bl1] eqn:E. intros Hout. clear Hl.
  assert (bl' = bl1 ∧ is_ok res = is_ok result) as [-> <-].
  { destruct res as [report|e|]; [destruct (_ && _)| |]; by injection Hout as <- <- <- <-. }
  clear Hout. revert E. unfold synchronize_and_load_internal.
  destruct (synchronize _ _ _ _) as [[status|e|] git]; [|by intros [= <- <- <-]..].
  destruct status as [cm t|cm t|cm t].
  1-2: intros [? ?]%load_checkout_commit; by split; auto.
  destruct (negb is_startup && _ && _) eqn:Hskip.
  - intros [= <- <- <-]. split; [|done]. intros ->. done.
  - intros [? ?]%load_checkout_commit. by split; auto.
Qed.

Context `{!BpfMapLaws H4 (list Z) RuleValue} `{!BpfMapLaws H6 (list Z) RuleValue}.
Context `{!BpfMapLaws L4 (Z * list Z) RuleValue} `{!BpfMapLaws L6 (Z * list Z) RuleValue}.

Lemma in_force_kept bl bl' firehol :
  bl_active_registry bl' = bl_active_registry bl →
  bl_last_loaded_commit bl' = bl_last_loaded_commit bl → in_force bl firehol → in_force bl' firehol.
Proof.
  intros Hr Hc Hf. destruct Hf as [bl Hn Hr0|bl parse c dir ds rules report r Hn Hr0 ? ? ? ?].
  - apply force_none; congruence.
  - by eapply (force_loaded _ parse c dir ds rules report r); [congruence..| | | |].
Qed.

Lemma lifetime_inv bl m static :
  lifetime bl m static →
  clean (F := directory) (gs_world (bl_git bl)) ∧
  ∃ firehol, in_force bl firehol ∧ reachable m (tables_of static) (tables_of firehol).
Proof.
  induction 1 as [w metrics m Hclean Hr|bl m static w _ [_ (firehol & Hf & Hr)] Hclean|bl m static rules _ [Hclean (firehol & Hf & Hr)] Hok Hd Hcomp|
    bl m static parse now is_startup locked metrics metrics' result m' bl' _ [Hclean (firehol & Hf & Hr)]
      Hparse E Hload Hgit Hfault].
  - split; [done|]. exists ParsedRuleSet_new. split; [by apply force_none|done].
  - split; [done|]. exists firehol. split; [by apply (in_force_kept bl)|done].
  - split; [done|]. exists firehol. split; [done|]. eapply reach_static; eauto.
  - destruct (execute_update _ _ _ _ _ _ _ _ _ _ _ E) as [([= ->] & -> & ->)|(res & Hres & Hout)].
    { split; [done|]. by exists firehol. }
    destruct (update_cases _ _ _ _ _ _ _ _ _ Hclean Hres) as [Hc Hcases].
    split.
    { destruct result as [o|e|]; [|subst res|done].
      - apply Hc; [by intros e ->|by intros ->].
      - destruct e as [e| | | |]; [by eapply Hgit|by apply Hc..]. }
    destruct Hcases as [([= ->] & Hreg & Hcommit)|
      (c & dir & ds & rules & report & r & Hl & _ & Hdir & Hdir' & Hreg & Hcommit & [= ->])].
    + exists firehol. split; [by eapply in_force_kept|done].
    + exists rules. destruct Hload as [Hfit Hload]. rewrite <-Hdir' in *.
      destruct (Hload _ _ _ _ Hl) as (? & ? & ?). split; [|by eapply reach_firehol].
      by eapply (force_loaded _ parse c dir ds).
Qed.

(** What an import argument gives for a directory. *)
Lemma in_force_rules bl firehol `{!RocksDbLaws DB} `{!RocksDbReads DB}
    `{!RkyvLaws FireholMetadata} `{!RkyvLaws RuleBlockContext} :
  Forall ip_ok (fc_ignore_ips config) → bl_last_loaded_commit bl ≠ Some [] → in_force bl firehol →
  rules_drop firehol ∧ ∀ ip, ip_ok ip → blocks firehol ip ↔
    match bl_last_loaded_commit bl with
    | None => False
    | Some c => named_in_lists (N4 := N4) (N6 := N6) (fc_ignore_ips config) (list_files (files_at c)) ip
    end.
Proof.
  intros Hign Hne Hf.
  destruct Hf as [bl Hn _|bl parse c dir ds rules report r Hn _ Hparse Hfit Hdir (Hp & He & Ht & _)].
  - rewrite Hn. split; [apply no_rules_drop|]. intros ip _. split; [|done]. apply no_rules_block.
  - rewrite Hn in *. rewrite <-(Hdir ltac:(congruence)).
    unfold import_possible in Hparse. rewrite Hp in Hparse. by eapply parsed_rules.
Qed.

End Blocklist.

(** ** Claims *)
Section Claims.
Context {W DB H4 H6 L4 L6 RB N4 N6 : Type} `{!Git2 W} `{!Git2Laws W directory}.
Context `{!RocksDb DB} `{!Rkyv FireholMetadata} `{!Rkyv RuleBlockContext}.
Context `{!BpfMap H4 (list Z) RuleValue} `{!BpfMap H6 (list Z) RuleValue}.
Context `{!BpfMap L4 (Z * list Z) RuleValue} `{!BpfMap L6 (Z * list Z) RuleValue}.
Context `{!HashOrder}.
Implicit Type parse : directory → outcome FireholParseError (FireholDataSet (CacheRocksDb DB)).
Implicit Type mgr : option (MapManager H4 H6 L4 L6).
Implicit Type bl : FireholBlockList (W := W) (DB := DB).

(** The daemon over its whole life: any sequence of static reloads
    and FireHOL jobs (at start-up or scheduled, some of them failing in git, in the
    parser or in the cache, some skipped because another one runs), whichever way the
    import threads are scheduled and with or without the disk cache. A frame is dropped
    exactly when it is an IP packet behind at most one VLAN tag, not management traffic,
    whose source is named by the current static rules or by an address line of the list
    files of the commit recorded as loaded last. *)
Theorem lifetime_verdicts
    `{!HashGet H4 (list Z) RuleValue} `{!HashGet H6 (list Z) RuleValue}
    `{!LpmGet 4 L4 RuleValue} `{!LpmGet 16 L6 RuleValue} `{!RingBuffer RB}
    `{!BpfMapLaws H4 (list Z) RuleValue} `{!BpfMapLaws H6 (list Z) RuleValue}
    `{!BpfMapLaws L4 (Z * list Z) RuleValue} `{!BpfMapLaws L6 (Z * list Z) RuleValue}
    `{!IpNet 4 N4} `{!IpNet 16 N6} `{!IpNetText N4 N6} {low : Lowercase} {chrono : Chrono}
    `{!RocksDbLaws DB} `{!RocksDbReads DB} `{!RkyvLaws FireholMetadata} `{!RkyvLaws RuleBlockContext}
    config cached num_cpus bl m static (k : kernel H4 H6 L4 L6 RB) ctx :
  Forall ip_ok (fc_ignore_ips config) →
  lifetime (N4 := N4) (N6 := N6) config cached num_cpus bl m static → rules_drop static →
  bl_last_loaded_commit bl ≠ Some [] → shared_maps m k →
  ctx_ok ctx →
  (firewall ctx k).1 = Ok XDP_DROP ↔
    ∃ p, frame_view (ctx_bytes ctx) = IpPacket p ∧ bypass p = false ∧ (blocks static (src_ip p) ∨
      match bl_last_loaded_commit bl with
      | None => False
      | Some c => named_in_lists (N4 := N4) (N6 := N6) (fc_ignore_ips config)
                    (list_files (files_at c)) (src_ip p)
      end).
Proof.
  intros Hign Hlife Hstatic Hne Hshared Hc. pose proof Hc as (_ & _ & _ & Hb).
  destruct (lifetime_inv _ _ _ _ _ _ Hlife) as [_ (firehol & Hf & Hreach)].
  destruct (in_force_rules _ _ _ _ _ Hign Hne Hf) as [Hdrop Hn].
  rewrite (dropped_iff m k static firehol) by (done || by apply reachable_rel).
  split; intros (p & Hv & Hby & Hl); exists p; (split_and!; [done..|]);
    by rewrite (Hn _ (view_src_ok _ p Hb Hv)) in *.
Qed.

(** C15 (error). A job that fails, in git, in the parser, on an empty import, in the
    preparation or in the cache, leaves the kernel maps, the active registry and the
    recorded commit exactly as they were, and is counted as a failure. *)
Theorem failed_job_keeps_rules config parse now locked is_startup mgr metrics bl e mgr' metrics' bl' :
  execute_firehol_sync config parse now locked is_startup mgr metrics bl
    = (Err e, mgr', metrics', bl') →
  mgr' = mgr ∧ bl_active_registry bl' = bl_active_registry bl ∧
  bl_last_loaded_commit bl' = bl_last_loaded_commit bl ∧
  bl_last_loaded_commit_time bl' = bl_last_loaded_commit_time bl ∧
  metrics' = count_failure is_startup <$>
    (if is_startup then metrics else count_execution now <$> metrics).
Proof.
  unfold execute_firehol_sync. destruct (locked && _); [done|].
  destruct (synchronize_and_load_internal _ _ _ _ _ _) as [[res m1] bl1] eqn:E.
  destruct res as [report|e'|]; [by destruct (_ && _)| |done]. intros [= -> <- <- <-].
  assert (is_ok (E := update_error) (A := FireholSyncReport) (Err e) = false) as Hno by done.
  revert E Hno. unfold synchronize_and_load_internal.
  destruct (synchronize _ _ _ _) as [[[c t|c t|c t]|e'|] git]; [| | |by intros [= <- <- <-]|done].
  1-2: intros (_ & [(_ & -> & ->)|(? & ? & ? & ? & _ & [=] & _)])%load_checkout_cases _; by split_and!.
  destruct (_ && _); [done|].
  intros (_ & [(_ & -> & ->)|(? & ? & ? & ? & _ & [=] & _)])%load_checkout_cases _; by split_and!.
Qed.

(** What the job calls up to date need not be: when a new commit's
    lists name infrastructure addresses only, the job replaces the FireHOL rules by
    none, yet reports the repository as unchanged, counts no success and leaves the
    map-entry gauges at the old rules. *)
Theorem emptying_update_reported_unchanged config parse now locked (m : MapManager H4 H6 L4 L6)
    metrics bl git c t ds rules report r :
  locked = false →
  synchronize (fc_repo_url config) (fc_default_branch config) now (bl_git bl)
    = (Ok (Updated c t), git) →
  loads parse (checkout (gs_world git)) ds rules report r →
  report_total_rules report = 0 → registry_is_empty r = false →
  ∃ bl', execute_firehol_sync config parse now locked false (Some m) (Some metrics) bl
    = (Ok (SyncUpToDate c), Some (sync_firehol_rules m rules).1,
       Some (count_no_change (count_execution now metrics)), bl') ∧
    bl_active_registry bl' = r ∧ bl_last_loaded_commit bl' = Some c ∧
    cm_map_entries (count_no_change (count_execution now metrics)) = cm_map_entries metrics.
Proof.
  intros -> Hs (Hp & He & Ht & Hr) Hz Hne.
  unfold execute_firehol_sync, synchronize_and_load_internal. rewrite Hs. cbn [andb negb].
  unfold load_checkout. cbn [set_git bl_git]. rewrite Hp, He, Ht, Hr.
  unfold load_into_maps. destruct (sync_firehol_rules m rules) as [m' rep] eqn:Hsync.
  assert (report_total_rules (mkSyncReport rep (fr_exact_v4_count report) (fr_exact_v6_count report)
     (fr_lpm_v4_count report) (fr_lpm_v6_count report) (fr_duplicates_deduped report)
     (fr_allowlisted_skipped report)) = 0) as -> by exact Hz.
  unfold has_active_rules. cbn [bl_active_registry]. rewrite Hne. cbn [andb negb Z.eqb].
  eexists. split_and!; [done..|]. by destruct metrics.
Qed.
End Claims.

(** ** Witness: a daemon that loads its static files, clones the repository at commit
    a1, fails to reach it once, and then follows it to commit b2, whose only list names
    an infrastructure address. *)
#[local] Existing Instance canonical_order.
#[local] Existing Instance demo_lower.
#[local] Existing Instance demo_rkyv.
#[local] Existing Instance demo_rkyv_laws.
#[local] Existing Instance demo_chrono.
#[local] Existing Instance sim_git.

Definition demo_list (name : list Z) (ext : list Z) (lines : list (list Z)) : dir_entry :=
  DirEntry true (Some ext) 64 (mkListFile name lines false 64).
Definition demo_files_at (c : list Z) : directory :=
  mkDirectory true (Some
    (if bool_decide (c = lit "a1") then
       [DirEntry true (Some (lit "md")) 9 (mkListFile (lit "README.md") [lit "text"] false 9);
        demo_list (lit "x.netset") (lit "netset") [lit "# Category: attacks"; lit "198.51.100.0/24"]]
     else [demo_list (lit "y.ipset") (lit "ipset") [lit "140.82.112.1"]])).
#[local] Instance demo_git_laws : Git2Laws SimRepo directory :=
  sim_laws demo_files_at (mkDirectory false None).

Definition demo_parse (dir : directory)
    : outcome FireholParseError (FireholDataSet (CacheRocksDb MemDb)) :=
  match discover_files dir with
  | Ok found => import_result (run (N4 := Net 4) (N6 := Net 16) demo_ignore found.*1 30
                  (pipeline_new (num_workers_for 2 (length found))))
  | _ => Err EIo
  end.
Definition demo_config : FireholConfig :=
  mkFireholConfig FIREHOL_DEFAULT_GIT_URL FIREHOL_DEFAULT_BRANCH true demo_ignore.
Abbreviation demo_maps := (MapManager (CapMap (list Z) RuleValue) (CapMap (list Z) RuleValue)
  (Trie 4 RuleValue) (Trie 16 RuleValue)).
Abbreviation demo_daemon := (FireholBlockList (W := SimRepo) (DB := MemDb)).

(** One job, at start-up or scheduled. *)
Definition demo_job (is_startup : bool) (m : demo_maps) (bl : demo_daemon) :=
  execute_firehol_sync demo_config demo_parse 7 false is_startup (Some m) None bl.
Definition move_remote (c : list Z) (online : bool) (bl : demo_daemon) : demo_daemon :=
  set_git bl (with_world (bl_git bl)
    (mkSim (sim_local (gs_world (bl_git bl))) c (sim_tracked (gs_world (bl_git bl))) online)).

Definition demo_statics : demo_maps := (sync_rules demo_manager demo_rules).1.
Definition demo_fresh : demo_daemon := blocklist_new (mkSim None (lit "a1") [] true) None.
Definition demo_started := demo_job true demo_statics demo_fresh.
Definition demo_started_maps : demo_maps := default demo_manager demo_started.1.1.2.
Lemma demo_clean w :
  clean (F := directory) (W := SimRepo) w.
Proof. split; [|done]. intros h c. unfold repo_head. cbn. destruct (sim_local w) as [c'|]; [|done]. by intros [= <-] [= <-]. Qed.

Lemma demo_import_possible c :
  import_possible (N4 := Net 4) (N6 := Net 16) demo_config false 2 demo_parse (demo_files_at c).
Proof.
  unfold import_possible, parse_directory_spooled, demo_parse.
  destruct (discover_files (demo_files_at c)) as [found|e|] eqn:Hd.
  2-3: exfalso; revert Hd; unfold demo_files_at; by destruct (bool_decide _).
  apply (ParseInMemory _ _ _ _ _ found found); try done.
  - intros ->. revert Hd. unfold demo_files_at. by destruct (bool_decide _).
  - split; [done|]. revert Hd. unfold demo_files_at.
    destruct (bool_decide _); intros [= <-]; repeat constructor.
  - apply run_steps.
  - revert Hd. unfold demo_files_at.
    destruct (bool_decide _); intros [= <-]; split; vm_compute; [by eexists|reflexivity|by eexists|reflexivity].
Qed.

Definition demo_rules_at (c : list Z) : ParsedRuleSet :=
  match demo_parse (demo_files_at c) with
  | Ok ds => match try_prepare_rules ds with Ok (rules, _) => rules | _ => ParsedRuleSet_new end
  | _ => ParsedRuleSet_new
  end.
Lemma demo_loads c ds rules report r :
  loads demo_parse (demo_files_at c) ds rules report r → rules = demo_rules_at c.
Proof. intros (Hp & _ & Ht & _). unfold demo_rules_at. by rewrite Hp, Ht. Qed.

Lemma demo_load_complete (m : demo_maps) :
  complete (demo_rules_at (lit "a1")) (sync_firehol_rules m (demo_rules_at (lit "a1"))).2 →
  load_complete demo_parse m (tables_of demo_rules) (demo_files_at (lit "a1")).
Proof.
  intros Hc. split; [by_decide|]. intros ds rules report r ->%demo_loads.
  split_and!; [split_and!; by_decide..|exact Hc].
Qed.

Definition demo_offline : demo_daemon := move_remote (lit "b2") false demo_started.2.
Definition demo_failed := demo_job false demo_started_maps demo_offline.
Definition demo_failed_maps : demo_maps := default demo_manager demo_failed.1.1.2.

Abbreviation demo_life := (lifetime (N4 := Net 4) (N6 := Net 16) demo_config false 2).
Lemma demo_life_started : demo_life demo_started.2 demo_started_maps demo_rules.
Proof.
  assert (Hdir : checkout (gs_world (bl_git demo_started.2)) = demo_files_at (lit "a1"))
    by (vm_compute; reflexivity).
  eapply (life_update _ _ _ demo_fresh demo_statics demo_rules demo_parse 7 true false None
    demo_started.1.2 demo_started.1.1.1).
  - apply (life_static _ _ _ _ demo_manager ParsedRuleSet_new).
    + apply life_start; [apply demo_clean|]. by apply reach_new.
    + split_and!; by_decide.
    + intros firehol Hf. inversion Hf; [|done]. split_and!; apply map_disjoint_empty_r.
    + split_and!; vm_compute; reflexivity.
  - rewrite Hdir. apply demo_import_possible.
  - vm_compute. reflexivity.
  - rewrite Hdir. apply demo_load_complete. split_and!; vm_compute; reflexivity.
  - intros e _. apply demo_clean.
  - vm_compute. discriminate.
Qed.

Lemma demo_life_failed : demo_life demo_failed.2 demo_failed_maps demo_rules.
Proof.
  assert (Hdir : checkout (gs_world (bl_git demo_failed.2)) = demo_files_at (lit "a1"))
    by (vm_compute; reflexivity).
  eapply (life_update _ _ _ demo_offline demo_started_maps demo_rules demo_parse 7 false false None
    demo_failed.1.2 demo_failed.1.1.1).
  - apply life_world; [apply demo_life_started|apply demo_clean].
  - rewrite Hdir. apply demo_import_possible.
  - vm_compute. reflexivity.
  - rewrite Hdir. apply demo_load_complete. split_and!; vm_compute; reflexivity.
  - intros e _. apply demo_clean.
  - vm_compute. discriminate.
Qed.

(** The program on the manager's maps. *)
Definition demo_kernel_on (m : demo_maps) : kernel (CapMap (list Z) RuleValue)
    (CapMap (list Z) RuleValue) (Trie 4 RuleValue) (Trie 16 RuleValue) BoundedQueue :=
  mkKernel (mm_ipv4_exact m) (mm_ipv6_exact m) (mm_ipv4_lpm m) (mm_ipv6_lpm m) (EVENTS demo_kernel)
    [FirewallStats_default].
Lemma demo_shared m : shared_maps m (demo_kernel_on m).
Proof. by split_and!. Qed.
Definition demo_guarding := demo_kernel_on demo_failed_maps.

Lemma demo_rules_drop : rules_drop demo_rules.
Proof.
  eapply (loaded_rules_drop (N4 := Net 4) (N6 := Net 16) demo_files); [by_decide|].
  vm_compute. reflexivity.
Qed.

Lemma lifetime_verdicts_witness :
  (firewall (demo_ctx (demo_tcp [198; 51; 100; 77] 4660)) demo_guarding).1 = Ok XDP_DROP.
Proof.
  eapply (lifetime_verdicts (N4 := Net 4) (N6 := Net 16) demo_config false 2 demo_failed.2
    demo_failed_maps demo_rules demo_guarding);
    [by_decide|exact demo_life_failed|exact demo_rules_drop|vm_compute; discriminate|
     apply demo_shared|by_decide|].
  eexists. split; [vm_compute; reflexivity|]. split; [vm_compute; reflexivity|]. right.
  assert (bl_last_loaded_commit demo_failed.2 = Some (lit "a1")) as -> by (vm_compute; reflexivity).
  exists (mkListFile (lit "x.netset") [lit "# Category: attacks"; lit "198.51.100.0/24"] false 64), 2,
    (lit "198.51.100.0/24"), Attacks, [TCidrV4 24 [198; 51; 100; 0]], (TCidrV4 24 [198; 51; 100; 0]).
  split_and!; [apply list_elem_of_here| |vm_compute; reflexivity|apply list_elem_of_here|
    vm_compute; reflexivity|by_decide].
  apply list_elem_of_lookup. exists 0%nat. vm_compute. reflexivity.
Defined.

Lemma failed_job_keeps_rules_witness : demo_failed.1.1.2 = Some demo_started_maps.
Proof.
  apply (failed_job_keeps_rules demo_config demo_parse 7 false false (Some demo_started_maps) None
    demo_offline (GitSyncFailed GitError) demo_failed.1.1.2 None demo_failed.2).
  vm_compute. reflexivity.
Defined.

Definition demo_metrics : CronMetrics := mkCron 0 0 0 0 0 0 0 0 (0, 0, 1, 0) 0.
Definition demo_emptied := demo_job false demo_started_maps (move_remote (lit "b2") true demo_started.2).
Lemma emptying_update_reported_unchanged_witness :
  lpm_get (n := 4) (mm_ipv4_lpm demo_started_maps) (32, [198; 51; 100; 77]) ≠ None ∧
  lpm_get (n := 4) (mm_ipv4_lpm (default demo_manager demo_emptied.1.1.2)) (32, [198; 51; 100; 77]) = None ∧
  ∃ maps bl', execute_firehol_sync demo_config demo_parse 7 false false (Some demo_started_maps)
    (Some demo_metrics) (move_remote (lit "b2") true demo_started.2)
    = (Ok (SyncUpToDate (lit "b2")), maps,
       Some (count_no_change (count_execution 7 demo_metrics)), bl').
Proof.
  split_and!; [vm_compute; discriminate|vm_compute; reflexivity|].
  pose (dir := demo_files_at (lit "b2")).
  pose (ds := from_ok FireholDataSet_default (demo_parse dir)).
  pose (prep := from_ok (ParsedRuleSet_new, FireholSyncReport_default) (try_prepare_rules ds)).
  pose (reg := from_ok registry_new (release_spool ds)).
  destruct (emptying_update_reported_unchanged (L4 := Trie 4 RuleValue) (L6 := Trie 16 RuleValue) demo_config demo_parse 7 false demo_started_maps
    demo_metrics (move_remote (lit "b2") true demo_started.2) (bl_git demo_emptied.2) (lit "b2") 0
    ds prep.1 prep.2 reg) as (bl' & Hjob & _).
  - reflexivity.
  - vm_compute. reflexivity.
  - split_and!; [apply from_ok_eq; vm_compute; reflexivity|vm_compute; reflexivity| |
      apply from_ok_eq; vm_compute; reflexivity].
    rewrite <-surjective_pairing. apply from_ok_eq. vm_compute. reflexivity.
  - vm_compute. reflexivity.
  - vm_compute. reflexivity.
  - eexists _, bl'. exact Hjob.
Defined.
