(* ===== verification/Console.v ===== *)
(** * Console text ([src/console.rs]; number formatting of [scripts/common/src/stats.rs])

    Colours behind the [pretty_console] crate, integers with thousand separators, and
    floating-point numbers. A [f64] is a [spec_float] of 53 bits with exponent bound
    1024, the Standard Library's executable IEEE 754, so its products are the rounded
    ones the machine computes. *)
From stdpp Require Import base numbers list gmap fin_maps strings sorting.
From Stdlib Require Import ZArith Lia SpecFloat.
From S2P Require Import Prelude Net Str Fmt Metadata.

Local Open Scope Z_scope.

(** ** Colours *)

(** [pretty_console::Console]: a text and the attributes asked for; how they are
    rendered is the crate's. *)
Inductive attribute : Type :=
| ABold | AGreen | ARed | AYellow | ACyan | ABlue | AMagenta | ABrightWhite.
Record Console : Type := mkConsole { con_text : list Z; con_attributes : list attribute }.
Class PrettyConsole : Type := {
  render : list attribute → list Z → list Z;
  (** Without attributes nothing is added. *)
  render_plain t : render [] t = t;
}.
Definition show `{!PrettyConsole} (c : Console) : list Z := render (con_attributes c) (con_text c).

(** A console with escape sequences. *)
Definition ansi_code (a : attribute) : list Z :=
  match a with
  | ABold => lit "1" | AGreen => lit "32" | ARed => lit "31" | AYellow => lit "33" | ACyan => lit "36"
  | ABlue => lit "34" | AMagenta => lit "35" | ABrightWhite => lit "97"
  end.
Definition ansi_console : PrettyConsole := {|
  render l t := match l with [] => t | _ => (l ≫= λ a, [27; 91] ++ ansi_code a ++ [109]) ++ t ++ [27; 91; 48; 109] end;
  render_plain t := eq_refl;
|}.

(** [std::env::var], [None] when unset or not Unicode. *)
Definition environment : Type := list Z → option (list Z).

(** Whether a variable asks for no colour. *)
Definition disables_color {low : Lowercase} (env : environment) (var : list Z) : bool :=
  match env var with
  | Some v => negb (len v =? 0) && negb (bool_decide (v = lit "0")) &&
              negb (bool_decide (to_lowercase v = lit "false"))
  | None => false
  end.

(** [NO_COLOR] is the atomic flag; every function reads it. *)
Definition is_env_no_color {low : Lowercase} (env : environment) : bool :=
  disables_color env (lit "NO_COLOR") || disables_color env (lit "FIREWALL_NO_COLOR").
Definition init_color {low : Lowercase} (cli_no_color : bool) (env : environment) : bool :=
  cli_no_color || is_env_no_color env.

(** The traffic tools look at other variables. *)
Definition tools_is_env_no_color {low : Lowercase} (env : environment) : bool :=
  disables_color env (lit "NO_COLOR") || disables_color env (lit "BENCHMARK_NO_COLOR") ||
  disables_color env (lit "TEST_TRAFFIC_NO_COLOR").
Definition tools_init_color {low : Lowercase} (cli_no_color : bool) (env : environment) : bool :=
  cli_no_color || tools_is_env_no_color env.

Section Colours.
Context (no_color : bool).
Definition styled (attributes : list attribute) (text : list Z) : Console :=
  if no_color then mkConsole text [] else mkConsole text attributes.
Definition bold := styled [ABold].
Definition green := styled [AGreen].
Definition green_bold := styled [AGreen; ABold].
Definition red := styled [ARed].
Definition red_bold := styled [ARed; ABold].
Definition yellow := styled [AYellow].
Definition yellow_bold := styled [AYellow; ABold].
Definition cyan := styled [ACyan].
Definition cyan_bold := styled [ACyan; ABold].
Definition blue := styled [ABlue].
Definition blue_bold := styled [ABlue; ABold].
Definition magenta := styled [AMagenta].
Definition magenta_bold := styled [AMagenta; ABold].
Definition white_bold := styled [ABrightWhite; ABold].

(** The traffic tools style text with functions of their own and a flag of their own. *)
Definition tools_bold := styled [ABold].
Definition tools_green := styled [AGreen].
Definition tools_green_bold := styled [AGreen; ABold].
Definition tools_red := styled [ARed].
Definition tools_red_bold := styled [ARed; ABold].
Definition tools_yellow := styled [AYellow].
Definition tools_yellow_bold := styled [AYellow; ABold].
Definition tools_cyan := styled [ACyan].
Definition tools_cyan_bold := styled [ACyan; ABold].
Definition tools_blue := styled [ABlue].
Definition tools_blue_bold := styled [ABlue; ABold].
Definition tools_magenta := styled [AMagenta].
Definition tools_magenta_bold := styled [AMagenta; ABold].
Definition tools_white_bold := styled [ABrightWhite; ABold].
End Colours.

Lemma styled_plain `{!PrettyConsole} attributes text : show (styled true attributes text) = text.
Proof. apply render_plain. Qed.

(** ** Integers *)

(** [while n > 0], with the parts found so far; a [u64] has at most seven. *)
Fixpoint spaced_loop (fuel : nat) (n : Z) (parts : list (list Z)) : list (list Z) :=
  match fuel with
  | O => parts
  | S fuel' =>
      if 0 <? n then
        let rem := n mod 1000 in
        let n := n / 1000 in
        spaced_loop fuel' n
          (parts ++ [if 0 <? n then pad_zeros 3 (decimal rem) else decimal rem])
      else parts
  end.
Definition format_int_with_spaces (n : Z) : list Z :=
  if n =? 0 then lit "0" else join_with 32 (reverse (spaced_loop 7 n [])).

(** [n] is an [i64]. *)
Definition format_signed_with_spaces (n : Z) : list Z :=
  if n <? 0 then lit "-" ++ format_int_with_spaces (Z.abs n) else format_int_with_spaces n.

(** ** Floating-point numbers *)
Abbreviation f64 := spec_float.
Definition f64_mul : f64 → f64 → f64 := SFmul 53 1024.
Definition f64_sub : f64 → f64 → f64 := SFsub 53 1024.
Definition f64_of_Z (z : Z) : f64 := binary_normalize 53 1024 z 0 false.

Definition f64_add : f64 → f64 → f64 := SFadd 53 1024.
Definition f64_div : f64 → f64 → f64 := SFdiv 53 1024.
(** [Duration::as_secs_f64], of nanoseconds. *)
Definition as_secs_f64 (ns : Z) : f64 :=
  f64_add (f64_of_Z (ns / 10 ^ 9)) (f64_div (f64_of_Z (ns mod 10 ^ 9)) (f64_of_Z (10 ^ 9))).

Definition is_nan (x : f64) : bool := match x with S754_nan => true | _ => false end.
Definition is_infinite (x : f64) : bool := match x with S754_infinity _ => true | _ => false end.
Definition is_negative (x : f64) : bool := SFltb x (S754_zero false).

(** The integer part of [m * 2^e]. *)
Definition floor_scaled (m e : Z) : Z := if 0 <=? e then m * 2 ^ e else m / 2 ^ (- e).
Definition f64_trunc (x : f64) : f64 :=
  match x with
  | S754_finite s m e => binary_normalize 53 1024 (cond_Zopp s (floor_scaled (Zpos m) e)) 0 s
  | _ => x
  end.
Definition f64_fract (x : f64) : f64 := f64_sub x (f64_trunc x).
(** Halves away from zero. *)
Definition f64_round (x : f64) : f64 :=
  match x with
  | S754_finite s m e =>
      let z := if 0 <=? e then Zpos m * 2 ^ e else (2 * Zpos m + 2 ^ (- e)) / 2 ^ (1 - e) in
      binary_normalize 53 1024 (cond_Zopp s z) 0 s
  | _ => x
  end.
(** [x as u64]: saturating. *)
Definition f64_as_u64 (x : f64) : Z :=
  match x with
  | S754_finite false m e => Z.min (floor_scaled (Zpos m) e) (2 ^ 64 - 1)
  | S754_infinity false => 2 ^ 64 - 1
  | _ => 0
  end.
(** [10f64.powi(d)]: exact up to [10^22]. *)
Definition pow10 (d : nat) : f64 := f64_of_Z (10 ^ Z.of_nat d).

(** [f64::max]: a NaN loses. *)
Definition f64_max (x y : f64) : f64 :=
  if is_nan x then y else if is_nan y then x else if SFltb x y then y else x.

(** [format!("{x}")] of the values that are not finite. *)
Definition show_not_finite (x : f64) : list Z :=
  match x with
  | S754_infinity false => lit "inf"
  | S754_infinity true => lit "-inf"
  | _ => lit "NaN"
  end.

(** [format_float_with_spaces] of the daemon. *)
Definition format_float_with_spaces (val : f64) (decimals : nat) : list Z :=
  if is_nan val || is_infinite val then show_not_finite val else
  let sign := if is_negative val then lit "-" else [] in
  let abs_val := SFabs val in
  let int_part := f64_as_u64 (f64_trunc abs_val) in
  let formatted_int := format_int_with_spaces int_part in
  match decimals with
  | O => sign ++ formatted_int
  | _ =>
      let pow := pow10 decimals in
      let frac_part := f64_as_u64 (f64_round (f64_mul (f64_fract abs_val) pow)) mod f64_as_u64 pow in
      sign ++ formatted_int ++ lit "." ++ pad_zeros decimals (decimal frac_part)
  end.

(** [{:.d}] of a value that is not negative: the exact decimal expansion, halves to
    even. *)
Definition round_half_even (n d : Z) : Z :=
  let q := n / d in
  let r := 2 * (n mod d) in
  if (d <? r) || ((r =? d) && Z.odd q) then q + 1 else q.
Definition scaled (d : nat) (x : f64) : Z :=
  match x with
  | S754_finite _ m e =>
      if 0 <=? e then Zpos m * 2 ^ e * 10 ^ Z.of_nat d
      else round_half_even (Zpos m * 10 ^ Z.of_nat d) (2 ^ (- e))
  | _ => 0
  end.
Definition decimal_any (n : Z) : list Z := to_radix (S (Z.to_nat (Z.log2 n))) 10 n.
Definition fixed (d : nat) (x : f64) : list Z :=
  let q := scaled d x in
  decimal_any (q / 10 ^ Z.of_nat d) ++ lit "." ++ pad_zeros d (decimal_any (q mod 10 ^ Z.of_nat d)).

(** [format_float_with_spaces] of the traffic tools: the fraction is printed on its
    own and its [0.] stripped. *)
Definition tools_format_float_with_spaces (val : f64) (decimals : nat) : list Z :=
  if is_nan val || is_infinite val then show_not_finite val else
  let int_part := f64_as_u64 (SFabs (f64_trunc val)) in
  let sign := if is_negative val then lit "-" else [] in
  let formatted_int := format_int_with_spaces int_part in
  match decimals with
  | O => sign ++ formatted_int
  | _ =>
      let frac_str := fixed decimals (SFabs (f64_fract val)) in
      let frac_part := if starts_with (lit "0.") frac_str then drop 2 frac_str else frac_str in
      sign ++ formatted_int ++ lit "." ++ frac_part
  end.

(** The daemon's [SpacedNumber]: the number types it prints. *)
Class SpacedNumber (T : Type) : Type := format_spaced : T → list Z.
Inductive unsigned : Type := Unsigned (n : Z).
Inductive signed : Type := Signed (n : Z).
#[global] Instance spaced_unsigned : SpacedNumber unsigned := λ '(Unsigned n), format_int_with_spaces n.
#[global] Instance spaced_signed : SpacedNumber signed := λ '(Signed n), format_signed_with_spaces n.
#[global] Instance spaced_f64 : SpacedNumber f64 := λ x, format_float_with_spaces x 2.
Definition bold_num {T} `{!SpacedNumber T} (no_color : bool) (n : T) : Console :=
  bold no_color (format_spaced n).

(** [m / 10^k], correctly rounded: a literal such as [1.999]. *)
Definition f64_lit (m : Z) (k : nat) : f64 := SFdiv 53 1024 (f64_of_Z m) (f64_of_Z (10 ^ Z.of_nat k)).

Example console_numbers :
  format_int_with_spaces 3556586 = lit "3 556 586" ∧
  format_int_with_spaces 1000000 = lit "1 000 000" ∧
  format_int_with_spaces (2 ^ 64 - 1) = lit "18 446 744 073 709 551 615" ∧
  format_signed_with_spaces (-1234567) = lit "-1 234 567" ∧
  format_float_with_spaces (f64_lit 131010006 2) 2 = lit "1 310 100.06" ∧
  format_float_with_spaces (f64_lit (-25) 1) 0 = lit "-2" ∧
  tools_format_float_with_spaces (f64_lit 131010006 2) 2 = lit "1 310 100.06".
Proof. vm_compute. done. Qed.

(** ** Printed integers read back *)

Lemma spaced_loop_app fuel : ∀ n parts, spaced_loop fuel n parts = parts ++ spaced_loop fuel n [].
Proof.
  induction fuel as [|fuel IH]; intros n parts; cbn [spaced_loop]; [by rewrite app_nil_r|].
  destruct (0 <? n); [|by rewrite app_nil_r].
  rewrite IH, (IH _ ([] ++ _)). by rewrite app_nil_l, app_assoc.
Qed.

(** The value of groups, most significant first. *)
Definition groups_value (l : list (list Z)) : Z := fold_left (λ acc p, acc * 1000 + digits_value p) l 0.

(** A group of [w] digits, and a leading group. *)
Definition group (p : list Z) : Prop := length p = 3%nat ∧ Forall (λ c, 48 <= c <= 57) p.
Definition leading_group (p : list Z) : Prop :=
  (0 < length p <= 3)%nat ∧ Forall (λ c, 48 <= c <= 57) p ∧ head p ≠ Some 48.

Lemma decimal_group n : 0 <= n < 1000 → group (pad_zeros 3 (decimal n)).
Proof.
  intros Hn. assert (length (decimal n) <= 3)%nat by (apply (to_radix_length 20 3); lia).
  split; [unfold pad_zeros; rewrite length_app, length_replicate; lia|].
  apply Forall_app. split; [apply Forall_replicate; lia|]. apply to_radix_digits; lia.
Qed.

Lemma decimal_value n : 0 <= n < 2 ^ 64 → digits_value (decimal n) = n.
Proof. intros Hn. apply to_radix_value. change (10 ^ Z.of_nat 20) with 100000000000000000000. lia. Qed.

Lemma decimal_leading n : 0 < n < 1000 → leading_group (decimal n).
Proof.
  intros Hn. assert (length (decimal n) <= 3)%nat by (apply (to_radix_length 20 3); lia).
  destruct (to_radix_head 20 n) as (c & s & Heq & Hc).
  { change (10 ^ Z.of_nat 20) with 100000000000000000000. lia. }
  unfold decimal in *. split; [rewrite Heq in H |- *; cbn [length] in *; lia|].
  split; [apply to_radix_digits; lia|]. rewrite Heq. by intros [=].
Qed.

Lemma spaced_groups fuel : ∀ n, 0 < n < 1000 ^ Z.of_nat fuel →
  ∃ g gs, reverse (spaced_loop fuel n []) = g :: gs ∧ leading_group g ∧ Forall group gs ∧
    groups_value (g :: gs) = n.
Proof.
  induction fuel as [|fuel IH]; intros n Hn; [change (1000 ^ Z.of_nat 0) with 1 in Hn; lia|].
  cbn [spaced_loop]. rewrite (proj2 (Z.ltb_lt 0 n)) by lia. rewrite app_nil_l.
  pose proof (Z.mod_pos_bound n 1000 ltac:(lia)). pose proof (Z.div_mod n 1000 ltac:(lia)).
  rewrite Nat2Z.inj_succ, Z.pow_succ_r in Hn by lia.
  rewrite spaced_loop_app, reverse_app, reverse_singleton. case_Z.
  - destruct (IH (n / 1000)) as (g & gs & -> & Hg & Hgs & Hv); [split; [done|apply Z.div_lt_upper_bound; lia]|].
    exists g, (gs ++ [pad_zeros 3 (decimal (n mod 1000))]). split_and!; [done..| |].
    + apply Forall_app. split; [done|]. apply Forall_singleton. by apply decimal_group.
    + unfold groups_value in *. rewrite app_comm_cons, fold_left_app, Hv. cbn [fold_left].
      rewrite pad_zeros_value, decimal_value by lia. lia.
  - assert (n / 1000 = 0) as Hz by (pose proof (Z.div_pos n 1000); lia). rewrite Hz.
    assert (spaced_loop fuel 0 [] = []) as -> by (by destruct fuel).
    exists (decimal (n mod 1000)), []. split_and!; [done|apply decimal_leading; lia|done|].
    unfold groups_value. cbn [fold_left]. rewrite decimal_value; lia.
Qed.

(** The text of a [u64] consists of groups of three digits separated by single
    spaces, the first one shorter and without leading zero, and the groups read back
    as the number. *)
Lemma spaced_int_reads_back n :
  0 < n < 2 ^ 64 →
  ∃ g gs, split 32 (format_int_with_spaces n) = g :: gs ∧ leading_group g ∧ Forall group gs ∧
    groups_value (g :: gs) = n.
Proof.
  intros Hn. unfold format_int_with_spaces. rewrite (proj2 (Z.eqb_neq n 0)) by lia.
  destruct (spaced_groups 7 n) as (g & gs & -> & Hg & Hgs & Hv).
  { change (1000 ^ Z.of_nat 7) with 1000000000000000000000. lia. }
  exists g, gs. split_and!; [|done..]. apply split_join; [done|].
  assert (∀ p, Forall (λ c, 48 <= c <= 57) p → (32 : Z) ∉ p) as Hno
    by (intros p Hp Hin; rewrite Forall_forall in Hp; specialize (Hp 32 Hin); lia).
  constructor; [apply Hno, Hg|]. eapply Forall_impl; [exact Hgs|]. intros p [_ Hp]. by apply Hno.
Qed.

(** ** A fraction that rounds up to one

    Neither version carries into the integer part: the daemon prints 1.999 as 1.00,
    the traffic tools as 1.1.00. *)
Lemma rounded_fraction_lost :
  format_float_with_spaces (f64_lit 1999 3) 2 = lit "1.00" ∧
  tools_format_float_with_spaces (f64_lit 1999 3) 2 = lit "1.1.00" ∧
  tools_format_float_with_spaces (f64_lit 999996 6) 2 = lit "0.1.00".
Proof. vm_compute. done. Qed.

(** What the traffic tools print, for a fraction whose decimals are [q]: [d] digits
    after the point, unless the fraction rounds to one. *)
Lemma tools_float_text val d (q := scaled (S d) (SFabs (f64_fract val))) :
  is_nan val = false → is_infinite val = false →
  0 <= q < 10 ^ Z.of_nat (S d) ∨ q = 10 ^ Z.of_nat (S d) →
  tools_format_float_with_spaces val (S d) =
    (if is_negative val then lit "-" else []) ++
    format_int_with_spaces (f64_as_u64 (SFabs (f64_trunc val))) ++ lit "." ++
    (if q <? 10 ^ Z.of_nat (S d) then pad_zeros (S d) (decimal_any q)
     else lit "1." ++ replicate (S d) 48).
Proof.
  intros Hn Hi Hq. unfold tools_format_float_with_spaces. rewrite Hn, Hi. cbn [orb].
  do 3 f_equal. unfold fixed. fold q. assert (0 < 10 ^ Z.of_nat (S d)) by lia. case_Z.
  - rewrite Z.div_small, Z.mod_small by lia. change (decimal_any 0) with (lit "0").
    reflexivity.
  - assert (q = 10 ^ Z.of_nat (S d)) as -> by lia. rewrite Z.div_same, Z.mod_same by lia.
    change (decimal_any 1) with (lit "1"). change (decimal_any 0) with (lit "0").
    assert (pad_zeros (S d) (lit "0") = replicate (S d) 48) as ->; [|reflexivity].
    unfold pad_zeros. simpl. rewrite Nat.sub_0_r. change (lit "0") with [48].
    by rewrite <-replicate_cons_app.
Qed.
