(* ===== verification/Doubles.v ===== *)
(** * Rounding of doubles

    [Console] takes the double-precision operations from the Standard Library's
    [SpecFloat]. This file bounds what rounding does to an integer converted with
    [f64_of_Z], to a quotient, and to a number of seconds turned into nanoseconds: a
    result is the exact value up to one unit in its last place. *)
From stdpp Require Import base numbers list.
From Stdlib Require Import ZArith Lia SpecFloat.
From S2P Require Import Prelude Console.

Local Open Scope Z_scope.

(** A mantissa of exactly 53 bits. *)
Definition normal (m : positive) : Prop := 2 ^ 52 <= Zpos m < 2 ^ 53.

(** ** Digits and shifts *)
Lemma digits_bound m : 2 ^ (Zpos (digits2_pos m) - 1) <= Zpos m < 2 ^ Zpos (digits2_pos m).
Proof.
  induction m as [m IH|m IH|]; cbn [digits2_pos]; [..|by_decide].
  all: rewrite Pos2Z.inj_succ, Z.pow_succ_r by lia.
  all: replace (Z.succ (Zpos (digits2_pos m)) - 1) with (Z.succ (Zpos (digits2_pos m) - 1)) by lia.
  all: rewrite Z.pow_succ_r by lia; lia.
Qed.
Lemma digits_unique m d : 2 ^ (d - 1) <= Zpos m < 2 ^ d → Zpos (digits2_pos m) = d.
Proof.
  intros [H1 H2]. pose proof (digits_bound m) as [B1 B2].
  destruct (Z.lt_trichotomy (Zpos (digits2_pos m)) d) as [H|[H|H]]; [|done|].
  - assert (2 ^ Zpos (digits2_pos m) <= 2 ^ (d - 1)) by (apply Z.pow_le_mono_r; lia). lia.
  - assert (2 ^ d <= 2 ^ (Zpos (digits2_pos m) - 1)) by (apply Z.pow_le_mono_r; lia). lia.
Qed.
Lemma normal_digits m : normal m ↔ Zpos (digits2_pos m) = 53.
Proof.
  split; [apply (digits_unique m 53)|]. intros H. pose proof (digits_bound m) as B. by rewrite H in B.
Qed.

Lemma shr_1_half mrs : 0 <= shr_m mrs → shr_m (shr_1 mrs) = shr_m mrs / 2.
Proof.
  destruct mrs as [[|[p|p|]|p] r s]; cbn [shr_m]; intros H; try done.
  - cbn. rewrite Pos2Z.inj_xI. apply (Z.div_unique_pos _ _ _ 1); lia.
  - cbn. rewrite Pos2Z.inj_xO. apply (Z.div_unique_pos _ _ _ 0); lia.
Qed.
Lemma div_pow_div a b c : 0 <= b → 0 <= c → a / 2 ^ b / 2 ^ c = a / 2 ^ (b + c).
Proof. intros. rewrite Z.div_div, Z.pow_add_r by lia. done. Qed.
Lemma iter_shr p : ∀ mrs, 0 <= shr_m mrs → shr_m (iter_pos shr_1 p mrs) = shr_m mrs / 2 ^ Zpos p.
Proof.
  assert (∀ a k, 0 <= a → 0 <= a / 2 ^ Zpos k) as Hnn by (intros; by apply Z.div_pos; [|lia]).
  induction p as [p IH|p IH|]; intros mrs H; cbn [iter_pos]; [..|by apply shr_1_half].
  - pose proof (shr_1_half mrs H) as H1. change 2 with (2 ^ 1) in H1.
    assert (0 <= shr_m (shr_1 mrs)) as H0 by (rewrite H1; by apply Hnn).
    rewrite (IH (iter_pos _ _ _)) by (rewrite IH by done; by apply Hnn).
    rewrite IH, H1, !div_pow_div by (done || lia). do 2 f_equal. lia.
  - rewrite (IH (iter_pos _ _ _)) by (rewrite IH by done; by apply Hnn).
    rewrite IH, div_pow_div by (done || lia). do 2 f_equal. lia.
Qed.
Lemma shr_spec mrs e n :
  0 <= shr_m mrs → 0 <= n → shr_m (shr mrs e n).1 = shr_m mrs / 2 ^ n ∧ (shr mrs e n).2 = e + n.
Proof.
  intros Hm Hn. destruct n as [|p|p]; [|by rewrite <-iter_shr|done]. cbn. by rewrite Z.div_1_r, Z.add_0_r.
Qed.

Lemma shr_fexp_spec m e l (n := Zpos (digits2_pos m) - 53) :
  0 <= n → -1000 <= e →
  shr_m (shr_fexp 53 1024 (Zpos m) e l).1 = Zpos m / 2 ^ n ∧ (shr_fexp 53 1024 (Zpos m) e l).2 = e + n.
Proof.
  intros Hn He. unfold shr_fexp, fexp, emin, Zdigits2.
  replace (Z.max _ _ - e) with n by lia.
  assert (shr_m (shr_record_of_loc (Zpos m) l) = Zpos m) as Hm by (by destruct l as [|[]]).
  pose proof (shr_spec (shr_record_of_loc (Zpos m) l) e n) as Hs. rewrite Hm in Hs. by apply Hs.
Qed.

Lemma even_step m l : round_nearest_even m l = m ∨ round_nearest_even m l = m + 1.
Proof. destruct l as [|[]]; cbn [round_nearest_even]; [| destruct (Z.even m)| |]; by auto. Qed.

(** The mantissa of a rounded value, at the exponent of its last place: the exact one
    rounded down, or the next. *)
Lemma round_aux_spec m e l (n := Zpos (digits2_pos m) - 53) :
  0 <= n → -1000 <= e → e + n <= 900 →
  ∃ m' e' q, binary_round_aux 53 1024 false (Zpos m) e l = S754_finite false m' e' ∧ normal m' ∧
    (q = Zpos m / 2 ^ n ∨ q = Zpos m / 2 ^ n + 1) ∧ 
    ((e' = e + n ∧ Zpos m' = q) ∨ (e' = e + n + 1 ∧ 2 * Zpos m' = q)).
Proof.
  intros Hn He Hhi. unfold binary_round_aux. destruct (shr_fexp_spec m e l Hn He) as [Hm He1]. fold n in Hm, He1.
  destruct (shr_fexp 53 1024 (Zpos m) e l) as [mrs e1]. cbn [fst snd] in Hm, He1. subst e1.
  assert (2 ^ 52 <= shr_m mrs < 2 ^ 53) as Hb.
  { rewrite Hm. pose proof (digits_bound m) as [B1 B2].
    replace (Zpos (digits2_pos m)) with (53 + n) in B1, B2 by lia.
    replace (53 + n - 1) with (52 + n) in B1 by lia. rewrite Z.pow_add_r in B1, B2 by lia.
    split; [apply Z.div_le_lower_bound; lia|apply Z.div_lt_upper_bound; lia]. }
  set (q := round_nearest_even (shr_m mrs) (loc_of_shr_record mrs)).
  assert (q = shr_m mrs ∨ q = shr_m mrs + 1) as Hq by apply even_step. rewrite Hm in Hq.
  assert (2 ^ 52 <= q <= 2 ^ 53) as Hqb by (rewrite Hm in Hb; lia).
  destruct q as [|qp|qp]; [lia| |lia].
  destruct (decide (Zpos qp = 2 ^ 53)) as [H53|H53].
  - assert (Zpos (digits2_pos qp) = 54) as Hd by (apply digits_unique; lia).
    destruct (shr_fexp_spec qp (e + n) loc_Exact) as [Hm2 He2]; [lia..|].
    destruct (shr_fexp 53 1024 (Zpos qp) (e + n) loc_Exact) as [mrs2 e2]. cbn [fst snd] in Hm2, He2.
    rewrite Hd in Hm2, He2. rewrite Hm2, H53. change (2 ^ 53 / 2 ^ (54 - 53)) with (Zpos (2 ^ 52)).
    cbn [Z.leb]. assert (e2 <=? 1024 - 53 = true) as -> by (apply Z.leb_le; lia).
    exists (2 ^ 52)%positive, e2, (Zpos qp). split_and!; [done|by_decide|done|right; lia].
  - assert (Zpos (digits2_pos qp) = 53) as Hd by (apply digits_unique; lia).
    destruct (shr_fexp_spec qp (e + n) loc_Exact) as [Hm2 He2]; [lia..|].
    destruct (shr_fexp 53 1024 (Zpos qp) (e + n) loc_Exact) as [mrs2 e2]. cbn [fst snd] in Hm2, He2.
    rewrite Hd in Hm2, He2. change (2 ^ (53 - 53)) with 1 in Hm2. rewrite Z.div_1_r in Hm2. rewrite Hm2.
    assert (e2 <=? 1024 - 53 = true) as -> by (apply Z.leb_le; lia).
    exists qp, e2, (Zpos qp). split_and!; [done|unfold normal; lia|done|left; lia].
Qed.

(** ** An integer of up to 64 bits as a double *)
Lemma iter_xO m k : Zpos (Pos.iter xO m k) = Zpos m * 2 ^ Zpos k.
Proof.
  induction k as [|k IH] using Pos.peano_ind; [cbn; lia|].
  rewrite Pos.iter_succ, Pos2Z.inj_xO, IH, Pos2Z.inj_succ, Z.pow_succ_r by lia. lia.
Qed.

(** Before rounding, the mantissa has at least 53 digits; rounding is then done at the
    exponent of the integer's own last place. *)
Lemma f64_of_pos p (b := Zpos (digits2_pos p) - 53) :
  b <= 64 →
  ∃ m e q, f64_of_Z (Zpos p) = S754_finite false m e ∧ normal m ∧
    Z.abs (q * 2 ^ (b + 53) - Zpos p * 2 ^ 53) <= 2 ^ (b + 53) ∧
    ((e = b ∧ Zpos m = q) ∨ (e = b + 1 ∧ 2 * Zpos m = q)).
Proof.
  intros Hb. unfold f64_of_Z, binary_normalize, binary_round, fexp, emin. rewrite Z.add_0_r.
  replace (Z.max _ _) with b by lia. unfold shl_align. rewrite Z.sub_0_r.
  pose proof (digits_bound p) as [B1 B2]. destruct b as [|k|k] eqn:Eb.
  - destruct (round_aux_spec p 0 loc_Exact) as (m & e & q & E & Hm & Hq & He); [lia..|].
    exists m, e, q. fold b in Hq, He. rewrite Eb in Hq, He. change (2 ^ 0) with 1 in Hq. rewrite Z.div_1_r in Hq.
    split_and!; [exact E|done|lia|lia].
  - destruct (round_aux_spec p 0 loc_Exact) as (m & e & q & E & Hm & Hq & He); [lia..|].
    exists m, e, q. fold b in Hq, He. rewrite Eb in Hq, He. split_and!; [exact E|done| |lia].
    rewrite Z.pow_add_r by lia.
    pose proof (Z.div_mod (Zpos p) (2 ^ Zpos k) ltac:(lia)). pose proof (Z.mod_pos_bound (Zpos p) (2 ^ Zpos k) ltac:(lia)).
    set (x := 2 ^ Zpos k) in *. destruct Hq as [-> | ->]; nia.
  - set (p' := Pos.iter xO p k). assert (Zpos p' = Zpos p * 2 ^ Zpos k) as Hp' by apply iter_xO.
    assert (Zpos (digits2_pos p') = 53) as Hd.
    { apply digits_unique. rewrite Hp'. replace 53 with (Zpos (digits2_pos p) + Zpos k) by lia.
      replace (Zpos (digits2_pos p) + Zpos k - 1) with (Zpos (digits2_pos p) - 1 + Zpos k) by lia.
      rewrite !Z.pow_add_r by lia. split; [apply Z.mul_le_mono_nonneg_r|apply Z.mul_lt_mono_pos_r]; lia. }
    destruct (round_aux_spec p' (Zneg k) loc_Exact) as (m & e & q & E & Hm & Hq & He); [lia..|].
    rewrite Hd in Hq, He. change (2 ^ (53 - 53)) with 1 in Hq. rewrite Z.div_1_r in Hq.
    exists m, e, q. split_and!; [exact E|done| |lia].
    replace (2 ^ 53) with (2 ^ Zpos k * 2 ^ (Zneg k + 53)) by (rewrite <-Z.pow_add_r by lia; f_equal; lia).
    rewrite Hp' in Hq. set (x := 2 ^ (Zneg k + 53)). assert (0 < x) by (apply Z.pow_pos_nonneg; lia).
    destruct Hq as [-> | ->]; nia.
Qed.

Lemma f64_of_Z_spec z :
  0 < z < 2 ^ 64 →
  ∃ m e, f64_of_Z z = S754_finite false m e ∧ normal m ∧ -52 <= e <= 12 ∧
    2 ^ (e + 53) <= 4 * z ∧ Z.abs (Zpos m * 2 ^ (e + 53) - z * 2 ^ 53) <= 2 ^ (e + 53).
Proof.
  intros Hz. destruct z as [|p|p]; [lia| |lia]. pose proof (digits_bound p) as [B1 B2].
  assert (1 <= Zpos (digits2_pos p) <= 64) as Hd.
  { split; [lia|]. destruct (Z.le_gt_cases (Zpos (digits2_pos p)) 64); [done|].
    assert (2 ^ 64 <= 2 ^ (Zpos (digits2_pos p) - 1)) by (apply Z.pow_le_mono_r; lia). lia. }
  destruct (f64_of_pos p) as (m & e & q & E & Hm & Hq & He); [lia|].
  set (d := Zpos (digits2_pos p)) in *. replace (d - 53 + 53) with d in Hq by lia.
  assert (2 ^ d = 2 * 2 ^ (d - 1)) as Hpow by (rewrite <-Z.pow_succ_r by lia; f_equal; lia).
  exists m, e. split; [exact E|]. split; [done|]. split; [lia|].
  destruct He as [[-> Hmq]|[-> Hmq]].
  - replace (d - 53 + 53) with d by lia. rewrite Hmq. split; [lia|done].
  - replace (d - 53 + 1 + 53) with (d + 1) by lia. rewrite Z.pow_add_r, Z.pow_1_r by lia.
    replace (Zpos m * (2 ^ d * 2)) with (q * 2 ^ d) by lia. split; lia.
Qed.

(** ** Quotients *)
Lemma f64_div_spec mx ex my ey :
  normal mx → normal my → -100 <= ex <= 100 → -100 <= ey <= 100 →
  ∃ m e n q, f64_div (S754_finite false mx ex) (S754_finite false my ey) = S754_finite false m e ∧ normal m ∧
    0 <= n <= 1 ∧ (q - 1) * (Zpos my * 2 ^ n) <= Zpos mx * 2 ^ 53 < (q + 1) * (Zpos my * 2 ^ n) ∧
    ((e = ex - ey - 53 + n ∧ Zpos m = q) ∨ (e = ex - ey - 53 + n + 1 ∧ 2 * Zpos m = q)).
Proof.
  intros Hx Hy Hex Hey. unfold f64_div, SFdiv, SFdiv_core_binary, fexp, emin, Zdigits2. cbn [xorb].
  rewrite (proj1 (normal_digits mx) Hx), (proj1 (normal_digits my) Hy).
  replace (Z.min _ _) with (ex - ey - 53) by lia. replace (ex - ey - (ex - ey - 53)) with 53 by lia.
  cbv iota zeta. rewrite Z.shiftl_mul_pow2 by lia.
  pose proof (Z.div_mod (Zpos mx * 2 ^ 53) (Zpos my) ltac:(lia)) as Hdm.
  pose proof (Z.mod_pos_bound (Zpos mx * 2 ^ 53) (Zpos my) ltac:(lia)) as Hmb.
  unfold Z.div, Z.modulo in Hdm, Hmb.
  destruct (Z.div_eucl (Zpos mx * 2 ^ 53) (Zpos my)) as [Q r] eqn:E. unfold normal in Hx, Hy.
  assert (2 ^ 52 <= Q < 2 ^ 54) as HQ by nia. destruct Q as [|p|p]; [lia| |lia].
  pose proof (digits_bound p) as [B1 B2].
  assert (53 <= Zpos (digits2_pos p) <= 54) as Hd.
  { split.
    - destruct (Z.le_gt_cases 53 (Zpos (digits2_pos p))); [done|].
      assert (2 ^ Zpos (digits2_pos p) <= 2 ^ 52) by (apply Z.pow_le_mono_r; lia). lia.
    - destruct (Z.le_gt_cases (Zpos (digits2_pos p)) 54); [done|].
      assert (2 ^ 54 <= 2 ^ (Zpos (digits2_pos p) - 1)) by (apply Z.pow_le_mono_r; lia). lia. }
  destruct (round_aux_spec p (ex - ey - 53) (new_location (Zpos my) r)) as (m & e & q & Er & Hm & Hq & He); [lia..|].
  exists m, e, (Zpos (digits2_pos p) - 53), q. split; [exact Er|]. split; [done|]. split; [lia|]. split; [|exact He].
  assert (Zpos (digits2_pos p) - 53 = 0 ∨ Zpos (digits2_pos p) - 53 = 1) as [Hn|Hn] by lia; rewrite Hn in *.
  - change (2 ^ 0) with 1 in *. rewrite Z.div_1_r in Hq. destruct Hq as [-> | ->]; lia.
  - change (2 ^ 1) with 2 in *. pose proof (Z.div_mod (Zpos p) 2 ltac:(lia)). pose proof (Z.mod_pos_bound (Zpos p) 2 ltac:(lia)).
    destruct Hq as [-> | ->]; nia.
Qed.

(** ** Nanoseconds *)
Lemma round_half_even_near n d : 0 < d → 2 * Z.abs (round_half_even n d * d - n) <= d.
Proof.
  intros Hd. unfold round_half_even. pose proof (Z.div_mod n d ltac:(lia)). pose proof (Z.mod_pos_bound n d Hd).
  destruct (Z.ltb_spec d (2 * (n mod d))) as [H1|H1]; cbn [orb]; [lia|].
  destruct (Z.eqb_spec (2 * (n mod d)) d) as [H2|H2]; cbn [andb]; [destruct (Z.odd _)|]; lia.
Qed.
Lemma scaled_near k m e :
  e < 0 → 2 * Z.abs (scaled k (S754_finite false m e) * 2 ^ (- e) - Zpos m * 10 ^ Z.of_nat k) <= 2 ^ (- e).
Proof.
  intros He. cbn [scaled]. rewrite (proj2 (Z.leb_gt 0 e)) by done.
  apply round_half_even_near. apply Z.pow_pos_nonneg; lia.
Qed.

Lemma scaled_nonneg k m e : 0 <= scaled k (S754_finite false m e).
Proof.
  cbn [scaled]. destruct (Z.leb_spec 0 e); [assert (0 < 2 ^ e) by (apply Z.pow_pos_nonneg; lia); nia|].
  assert (0 <= Zpos m * 10 ^ Z.of_nat k / 2 ^ (- e)) by (apply Z.div_pos; [nia|apply Z.pow_pos_nonneg; lia]).
  unfold round_half_even. destruct (_ || _); lia.
Qed.

(** The arithmetic of [fifty_nanos]: [w] is the divisor as rounded, [d] a unit of the
    quotient's last place, both scaled. *)
Lemma nanos_bound t z w p d :
  0 <= t → 0 < z → p <= 4 * z → Z.abs (w - z * 2 ^ 53) <= p → 0 <= d <= 2 ^ 54 →
  50 * 10 ^ 9 * 2 ^ 100 - d * 10 ^ 9 <= (2 * t + 1) * 2 ^ 46 * w →
  (2 * t - 1) * 2 ^ 46 * w <= 50 * 10 ^ 9 * 2 ^ 100 + d * 10 ^ 9 →
  50 * 10 ^ 9 <= (t + 1) * z ∧ (t - 1) * z <= 50 * 10 ^ 9.
Proof.
  intros Ht Hz Hp Hw Hd Hlo Hhi.
  assert (t * p <= 4 * (t * z)) by nia. assert (t * (w - z * 2 ^ 53) <= t * p) by (apply Z.mul_le_mono_nonneg_l; lia).
  assert (- (t * p) <= t * (w - z * 2 ^ 53)) by (rewrite <-Z.mul_opp_r; apply Z.mul_le_mono_nonneg_l; lia).
  assert (t * w = t * (w - z * 2 ^ 53) + 2 ^ 53 * (t * z)) as Htw by lia.
  assert ((2 * t + 1) * 2 ^ 46 * w = 2 ^ 46 * (2 * (t * w) + w)) as E1 by lia.
  assert ((2 * t - 1) * 2 ^ 46 * w = 2 ^ 46 * (2 * (t * w) - w)) as E2 by lia.
  rewrite E1 in Hlo. rewrite E2 in Hhi. clear E1 E2. rewrite Htw in Hlo, Hhi. clear Htw.
  rewrite Z.mul_add_distr_r, Z.mul_sub_distr_r, !Z.mul_1_l.
  set (x := t * z) in *. set (y := t * p) in *. set (v := t * (w - z * 2 ^ 53)) in *. clearbody x y v. lia.
Qed.

Lemma fifty_exact : f64_of_Z 50 = S754_finite false (50 * 2 ^ 47) (-47).
Proof. by_decide. Qed.

(** Fifty, divided as doubles by an integer of up to 64 bits and rounded to nanoseconds:
    within one nanosecond of the exact quotient. *)
Lemma fifty_nanos z (t := scaled 9 (f64_div (f64_of_Z 50) (f64_of_Z z))) :
  0 < z < 2 ^ 64 → 50 * 10 ^ 9 <= (t + 1) * z ∧ (t - 1) * z <= 50 * 10 ^ 9.
Proof.
  intros Hz. destruct (f64_of_Z_spec z Hz) as (my & ey & Ey & Hy & Hey & Hp & Hw).
  assert (normal (50 * 2 ^ 47)) as Hx by (unfold normal; lia).
  destruct (f64_div_spec (50 * 2 ^ 47) (-47) my ey Hx Hy) as (m & e & n & q & E & Hm & Hn & Hq & He); [lia..|].
  set (k := 100 + ey - n). assert (0 <= t ∧ 2 * Z.abs (t * 2 ^ k - q * 10 ^ 9) <= 2 ^ k) as [Ht Hk].
  { unfold t. rewrite fifty_exact, Ey, E. split; [apply scaled_nonneg|].
    pose proof (scaled_near 9 m e ltac:(lia)) as Hs. change (Z.of_nat 9) with 9 in Hs.
    destruct He as [[-> <-]|[-> <-]].
    - by replace (- (-47 - ey - 53 + n)) with k in Hs by lia.
    - replace (- (-47 - ey - 53 + n + 1)) with (k - 1) in Hs by lia.
      assert (2 ^ k = 2 * 2 ^ (k - 1)) as -> by (rewrite <-Z.pow_succ_r by lia; f_equal; lia). lia. }
  set (d := Zpos my * 2 ^ n) in *.
  assert (0 < d <= 2 ^ 54) as Hd.
  { unfold d, normal in *. assert (n = 0 ∨ n = 1) as [-> | ->] by lia; lia. }
  assert (2 ^ k * d = 2 ^ 47 * (Zpos my * 2 ^ (ey + 53))) as Hkd.
  { unfold d. transitivity (Zpos my * (2 ^ k * 2 ^ n)); [lia|]. transitivity (Zpos my * (2 ^ 47 * 2 ^ (ey + 53))); [|lia].
    rewrite <-!Z.pow_add_r by lia. do 2 f_equal. lia. }
  assert (2 * Z.abs (t * (2 ^ k * d) - q * d * 10 ^ 9) <= 2 ^ k * d) as Hkd2 by nia.
  rewrite Hkd in Hkd2. clear Hkd Hk.
  apply (nanos_bound t z (Zpos my * 2 ^ (ey + 53)) (2 ^ (ey + 53)) d); [done|lia|done|done|lia|..];
    set (w := Zpos my * 2 ^ (ey + 53)) in *; clearbody w d;
    replace (Zpos (50 * 2 ^ 47) * 2 ^ 53) with (50 * 2 ^ 100) in Hq by reflexivity; lia.
Qed.
