(* ===== verification/TopN.v ===== *)
(** * Top-N blocked addresses ([src/top_n.rs])

    Per-address statistics of blocked traffic with a bounded table, the ranking,
    and the export of the best [capacity] addresses to Prometheus counters, whose
    series are removed when an address leaves the ranking. *)
From stdpp Require Import base numbers list gmap fin_maps strings sorting.
From Stdlib Require Import ZArith Lia.
From S2P Require Import Prelude Net BpfMaps Str Fmt.

Local Open Scope Z_scope.

(** ** [impl Display for IpAddr] *)
Definition ipv4_to_string (o : list Z) : list Z := join_with 46 (to_radix 3 10 <$> o).

Fixpoint segments (o : list Z) : list Z :=
  match o with a :: b :: rest => a * 256 + b :: segments rest | _ => [] end.
(** The first longest run of zero segments, as [(start, length)]. *)
Fixpoint longest_zeros (l : list Z) (i : nat) (cur best : nat * nat) : nat * nat :=
  match l with
  | [] => best
  | s :: rest =>
      if s =? 0 then
        let cur' := if (cur.2 =? 0)%nat then (i, 1%nat) else (cur.1, S cur.2) in
        longest_zeros rest (S i) cur' (if (best.2 <? cur'.2)%nat then cur' else best)
      else longest_zeros rest (S i) (0, 0)%nat best
  end.
Definition hextets (l : list Z) : list Z := join_with 58 (to_radix 4 16 <$> l).
Definition ipv6_to_string (o : list Z) : list Z :=
  let s := segments o in
  if bool_decide (take 6 s = [0; 0; 0; 0; 0; 0xFFFF]) then
    lit "::ffff:" ++ ipv4_to_string (drop 12 o)
  else
    let '(start, n) := longest_zeros s 0 (0, 0)%nat (0, 0)%nat in
    if (1 <? n)%nat then hextets (take start s) ++ lit "::" ++ hextets (drop (start + n) s)
    else hextets s.
Definition ip_to_string (ip : IpAddr) : list Z :=
  match ip with V4 o => ipv4_to_string o | V6 o => ipv6_to_string o end.

Example ip_strings :
  ip_to_string (V4 [192; 168; 0; 254]) = lit "192.168.0.254" ∧
  ip_to_string (V6 (0x20 :: 1 :: 0xd :: 0xb8 :: replicate 11 0 ++ [1])) = lit "2001:db8::1" ∧
  ip_to_string (V6 (replicate 16 0)) = lit "::" ∧
  ip_to_string (V6 (replicate 10 0 ++ [255; 255; 1; 2; 3; 4])) = lit "::ffff:1.2.3.4".
Proof. vm_compute. done. Qed.

(** ** Protocols *)
Inductive BlockedProtocol : Type := Tcp | Udp | Icmp | Icmpv6 | OtherProtocol.
#[global] Instance BlockedProtocol_eq_dec : EqDecision BlockedProtocol.
Proof. solve_decision. Defined.
Definition protocol_str (p : BlockedProtocol) : list Z :=
  match p with
  | Tcp => lit "tcp" | Udp => lit "udp" | Icmp => lit "icmp" | Icmpv6 => lit "icmpv6"
  | OtherProtocol => lit "other"
  end.
Definition protocol_from_u8 (proto : Z) : BlockedProtocol :=
  if proto =? 6 then Tcp else if proto =? 17 then Udp else if proto =? 1 then Icmp
  else if proto =? 58 then Icmpv6 else OtherProtocol.
Definition to_ascii_lowercase (s : list Z) : list Z :=
  (λ c, if (65 <=? c) && (c <=? 90) then c + 32 else c) <$> s.
Definition from_str_loose (s : list Z) : BlockedProtocol :=
  let l := to_ascii_lowercase s in
  if bool_decide (l = lit "tcp") then Tcp
  else if bool_decide (l = lit "udp") then Udp
  else if bool_decide (l = lit "icmp") then Icmp
  else if bool_decide (l = lit "icmpv6") || bool_decide (l = lit "icmp6") then Icmpv6
  else OtherProtocol.
Definition ALL : list BlockedProtocol := [Tcp; Udp; Icmp; Icmpv6; OtherProtocol].

(** ** Statistics of one address. The [u64] counters wrap in release builds. *)
Record BlockedIpStats : Type := mkStats {
  bs_ip : IpAddr;
  total_packets : Z; total_bytes : Z;
  tcp_packets : Z; udp_packets : Z; icmp_packets : Z; icmpv6_packets : Z; other_packets : Z;
  tcp_bytes : Z; udp_bytes : Z; icmp_bytes : Z; icmpv6_bytes : Z; other_bytes : Z;
}.
Definition BlockedIpStats_new (ip : IpAddr) : BlockedIpStats :=
  mkStats ip 0 0 0 0 0 0 0 0 0 0 0 0.

Definition record_packet (s : BlockedIpStats) (protocol : BlockedProtocol) (bytes : Z)
    : BlockedIpStats :=
  let add p n d := if bool_decide (protocol = p) then wrap_u64 (n + d) else n in
  mkStats (bs_ip s) (wrap_u64 (total_packets s + 1)) (wrap_u64 (total_bytes s + bytes))
    (add Tcp (tcp_packets s) 1) (add Udp (udp_packets s) 1) (add Icmp (icmp_packets s) 1)
    (add Icmpv6 (icmpv6_packets s) 1) (add OtherProtocol (other_packets s) 1)
    (add Tcp (tcp_bytes s) bytes) (add Udp (udp_bytes s) bytes) (add Icmp (icmp_bytes s) bytes)
    (add Icmpv6 (icmpv6_bytes s) bytes) (add OtherProtocol (other_bytes s) bytes).
Definition packets_for_protocol (s : BlockedIpStats) (p : BlockedProtocol) : Z :=
  match p with
  | Tcp => tcp_packets s | Udp => udp_packets s | Icmp => icmp_packets s
  | Icmpv6 => icmpv6_packets s | OtherProtocol => other_packets s
  end.
Definition bytes_for_protocol (s : BlockedIpStats) (p : BlockedProtocol) : Z :=
  match p with
  | Tcp => tcp_bytes s | Udp => udp_bytes s | Icmp => icmp_bytes s
  | Icmpv6 => icmpv6_bytes s | OtherProtocol => other_bytes s
  end.

(** ** Ranking *)
Inductive RankingCriterion : Type := ByPackets | ByBytes.

(** [a] is not ordered after [b]: descending in the first two keys, ascending in
    the address. *)
Definition desc_then (x y : Z) (rest : bool) : bool := (y <? x) || ((y =? x) && rest).
Definition rank_leb (c : RankingCriterion) (a b : BlockedIpStats) : bool :=
  match c with
  | ByPackets => desc_then (total_packets a) (total_packets b)
      (desc_then (total_bytes a) (total_bytes b) (ip_leb (bs_ip a) (bs_ip b)))
  | ByBytes => desc_then (total_bytes a) (total_bytes b)
      (desc_then (total_packets a) (total_packets b) (ip_leb (bs_ip a) (bs_ip b)))
  end.
Definition rank_le (c : RankingCriterion) (a b : BlockedIpStats) : Prop := rank_leb c a b = true.
#[global] Instance rank_le_dec c a b : Decision (rank_le c a b).
Proof. unfold rank_le. apply _. Defined.

(** [entries.sort_by(..)]. *)
Definition sort_entries (c : RankingCriterion) (l : list BlockedIpStats) : list BlockedIpStats :=
  merge_sort (rank_le c) l.

(** ** Prometheus counters (interface): [with_label_values], [inc_by] and
    [remove_label_values] of [IntCounterVec]. *)
Class CounterVec (V : Type) : Type := {
  cv_series : V → gmap (list (list Z)) Z;
  cv_touch : V → list (list Z) → V;
  cv_inc_by : V → list (list Z) → Z → V;
  cv_remove : V → list (list Z) → V;
  cv_touch_spec v l : cv_series (cv_touch v l) = <[l := default 0 (cv_series v !! l)]> (cv_series v);
  cv_inc_by_spec v l d :
    cv_series (cv_inc_by v l d) = <[l := wrap_u64 (default 0 (cv_series v !! l) + d)]> (cv_series v);
  cv_remove_spec v l : cv_series (cv_remove v l) = delete l (cv_series v);
}.

(** ** The manager. The maps of last exported values are keyed by the label
    values, [[ip; protocol]] or [[ip]]. *)
Abbreviation last_values := (gmap (list (list Z)) Z).
Record BlockedIpTopN : Type := mkTopN {
  tn_capacity : Z;
  tn_criterion : RankingCriterion;
  tn_stats : gmap IpAddr BlockedIpStats;
  tn_currently_exported : gset (list Z);
  tn_last_packets : last_values;
  tn_last_bytes : last_values;
  tn_last_total_packets : last_values;
  tn_last_total_bytes : last_values;
  tn_max_tracked_ips : Z;
}.
Definition BlockedIpTopN_new (capacity : Z) (criterion : RankingCriterion) : BlockedIpTopN :=
  mkTopN capacity criterion ∅ ∅ ∅ ∅ ∅ ∅ 10000.
Definition BlockedIpTopN_default : BlockedIpTopN := BlockedIpTopN_new 100 ByPackets.

Definition set_tn_stats (t : BlockedIpTopN) (stats : gmap IpAddr BlockedIpStats) : BlockedIpTopN :=
  mkTopN (tn_capacity t) (tn_criterion t) stats (tn_currently_exported t) (tn_last_packets t)
    (tn_last_bytes t) (tn_last_total_packets t) (tn_last_total_bytes t) (tn_max_tracked_ips t).
Definition set_criterion (t : BlockedIpTopN) (c : RankingCriterion) : BlockedIpTopN :=
  mkTopN (tn_capacity t) c (tn_stats t) (tn_currently_exported t) (tn_last_packets t)
    (tn_last_bytes t) (tn_last_total_packets t) (tn_last_total_bytes t) (tn_max_tracked_ips t).
Definition topn_get_stats (t : BlockedIpTopN) (ip : IpAddr) : option BlockedIpStats :=
  tn_stats t !! ip.
Definition tracked_count (t : BlockedIpTopN) : Z := Z.of_nat (size (tn_stats t)).

Section TopN.
Context `{!HashOrder}.

Definition sorted_stats (t : BlockedIpTopN) : list BlockedIpStats :=
  sort_entries (tn_criterion t) (map_iter (tn_stats t)).*2.
Definition top_n_stats (t : BlockedIpTopN) : list BlockedIpStats :=
  take (Z.to_nat (tn_capacity t)) (sorted_stats t).

Definition prune_low_volume_entries (t : BlockedIpTopN) : BlockedIpTopN :=
  let keep_count := tn_max_tracked_ips t / 2 in
  let retain_set : gset IpAddr :=
    list_to_set (bs_ip <$> take (Z.to_nat keep_count) (sorted_stats t)) in
  set_tn_stats t (filter (λ kv, kv.1 ∈ retain_set) (tn_stats t)).

Definition record_event (t : BlockedIpTopN) (ip : IpAddr) (protocol : BlockedProtocol) (bytes : Z)
    : BlockedIpTopN :=
  let s := default (BlockedIpStats_new ip) (tn_stats t !! ip) in
  let t' := set_tn_stats t (<[ip := record_packet s protocol bytes]> (tn_stats t)) in
  if tn_max_tracked_ips t' <? tracked_count t' then prune_low_volume_entries t' else t'.

(** ** Export *)
Section Sync.
Context {V : Type} `{!CounterVec V}.

(** A vector and the map of what was exported to it last. *)
Abbreviation mirror := (V * last_values)%type.
(** [last.entry(key).or_insert(0)], then the increment or the creation at zero. *)
Definition export_counter (m : mirror) (l : list (list Z)) (cur : Z) : mirror :=
  let last := default 0 (m.2 !! l) in
  let lasts := <[l := last]> m.2 in
  if last <? cur then (cv_inc_by m.1 l (cur - last), <[l := cur]> lasts)
  else if (last =? 0) && (cur =? 0) then (cv_touch m.1 l, lasts)
  else (m.1, lasts).
Definition drop_counter (m : mirror) (l : list (list Z)) : mirror :=
  (cv_remove m.1 l, delete l m.2).

Record mirrors : Type := mkMirrors {
  mi_packets : mirror; mi_bytes : mirror; mi_total_packets : mirror; mi_total_bytes : mirror }.

Definition evict_ip (m : mirrors) (old_ip : list Z) : mirrors :=
  let m' := fold_left (λ m p,
    mkMirrors (drop_counter (mi_packets m) [old_ip; protocol_str p])
      (drop_counter (mi_bytes m) [old_ip; protocol_str p])
      (mi_total_packets m) (mi_total_bytes m)) ALL m in
  mkMirrors (mi_packets m') (mi_bytes m') (drop_counter (mi_total_packets m') [old_ip])
    (drop_counter (mi_total_bytes m') [old_ip]).

Definition export_stat (m : mirrors) (s : BlockedIpStats) : mirrors :=
  let ip := ip_to_string (bs_ip s) in
  let m' := fold_left (λ m p,
    mkMirrors (export_counter (mi_packets m) [ip; protocol_str p] (packets_for_protocol s p))
      (export_counter (mi_bytes m) [ip; protocol_str p] (bytes_for_protocol s p))
      (mi_total_packets m) (mi_total_bytes m)) ALL m in
  mkMirrors (mi_packets m') (mi_bytes m')
    (export_counter (mi_total_packets m') [ip] (total_packets s))
    (export_counter (mi_total_bytes m') [ip] (total_bytes s)).

Record metric_vecs : Type := mkVecs {
  packets_vec : V; bytes_vec : V; total_packets_vec : V; total_bytes_vec : V; count_gauge : Z }.

Definition sync_to_metrics (t : BlockedIpTopN) (v : metric_vecs) : BlockedIpTopN * metric_vecs :=
  let top_stats := top_n_stats t in
  let new_top_ips : gset (list Z) := list_to_set (ip_to_string ∘ bs_ip <$> top_stats) in
  let evicted_ips := set_iter (tn_currently_exported t ∖ new_top_ips) in
  let m := mkMirrors (packets_vec v, tn_last_packets t) (bytes_vec v, tn_last_bytes t)
    (total_packets_vec v, tn_last_total_packets t) (total_bytes_vec v, tn_last_total_bytes t) in
  let m1 := fold_left evict_ip evicted_ips m in
  let m2 := fold_left export_stat top_stats m1 in
  (mkTopN (tn_capacity t) (tn_criterion t) (tn_stats t) new_top_ips (mi_packets m2).2
     (mi_bytes m2).2 (mi_total_packets m2).2 (mi_total_bytes m2).2 (tn_max_tracked_ips t),
   mkVecs (mi_packets m2).1 (mi_bytes m2).1 (mi_total_packets m2).1 (mi_total_bytes m2).1
     (Z.of_nat (size new_top_ips))).
End Sync.
End TopN.

(** ** The ranking is a total order on addresses with their counters *)
Lemma rank_total c : Total (rank_le c).
Proof.
  intros a b. unfold rank_le, rank_leb, desc_then.
  pose proof (ip_leb_total (bs_ip a) (bs_ip b)) as Hip. destruct c; case_Z; simpl; auto;
    destruct Hip as [Hi|Hi]; rewrite ?Hi; auto.
Qed.
Lemma rank_trans c : Transitive (rank_le c).
Proof.
  intros a b d. unfold rank_le, rank_leb, desc_then.
  pose proof (ip_leb_trans (bs_ip a) (bs_ip b) (bs_ip d)) as Hip.
  destruct c; case_Z; simpl; auto; try done.
Qed.
Lemma rank_antisym c a b : rank_le c a b → rank_le c b a → bs_ip a = bs_ip b.
Proof.
  unfold rank_le, rank_leb, desc_then. pose proof (ip_leb_antisym (bs_ip a) (bs_ip b)) as Hip.
  destruct c; case_Z; simpl; auto; try done.
Qed.
#[global] Existing Instances rank_total rank_trans.

(** Statistics are filed under their own address. *)
Definition keyed (m : gmap IpAddr BlockedIpStats) : Prop := ∀ ip s, m !! ip = Some s → bs_ip s = ip.

Section Ranking.
Context `{!HashOrder}.
Implicit Type t : BlockedIpTopN.

Lemma elem_of_sorted t s :
  keyed (tn_stats t) → s ∈ sorted_stats t ↔ tn_stats t !! bs_ip s = Some s.
Proof.
  intros Hk. unfold sorted_stats, sort_entries.
  rewrite merge_sort_Permutation, map_iter_perm, list_elem_of_fmap. split.
  - intros ([ip s'] & -> & Hin%elem_of_map_to_list). simpl. by rewrite (Hk _ _ Hin).
  - intros Hs. exists (bs_ip s, s). by rewrite elem_of_map_to_list.
Qed.

Lemma sorted_NoDup t : keyed (tn_stats t) → NoDup (bs_ip <$> sorted_stats t).
Proof.
  intros Hk. unfold sorted_stats, sort_entries. rewrite merge_sort_Permutation, map_iter_perm.
  assert (bs_ip <$> (map_to_list (tn_stats t)).*2 = (map_to_list (tn_stats t)).*1) as ->.
  { rewrite <-list_fmap_compose. apply list_fmap_ext. intros i [ip s] Hi. simpl.
    apply Hk, elem_of_map_to_list. by eapply list_elem_of_lookup_2. }
  apply NoDup_fst_map_to_list.
Qed.

Lemma sorted_length t : length (sorted_stats t) = size (tn_stats t).
Proof.
  unfold sorted_stats, sort_entries. rewrite merge_sort_Permutation, length_fmap, map_iter_perm.
  apply length_map_to_list.
Qed.

Lemma sorted_strongly t : StronglySorted (rank_le (tn_criterion t)) (sorted_stats t).
Proof. apply StronglySorted_merge_sort; apply _. Qed.

Lemma top_spec t n :
  keyed (tn_stats t) →
  let top := take n (sorted_stats t) in
  length top = (n `min` size (tn_stats t))%nat ∧ NoDup (bs_ip <$> top) ∧
  StronglySorted (rank_le (tn_criterion t)) top ∧
  (∀ s, s ∈ top → tn_stats t !! bs_ip s = Some s) ∧
  (∀ ip s' s, tn_stats t !! ip = Some s' → s' ∉ top → s ∈ top → rank_le (tn_criterion t) s s').
Proof.
  intros Hk top. pose proof (sorted_strongly t) as Hs. pose proof (sorted_NoDup t Hk) as Hnd.
  rewrite <-(take_drop n (sorted_stats t)) in Hs, Hnd. apply StronglySorted_app in Hs as (Hlt & Ht & _).
  rewrite fmap_app in Hnd. apply NoDup_app in Hnd as (Hnd & _ & _).
  split_and!; [|done|done|..].
  - unfold top. by rewrite length_take, sorted_length.
  - intros s Hin. apply elem_of_sorted; [done|]. by eapply elem_of_take in Hin as (? & ?%list_elem_of_lookup_2 & _).
  - intros ip s' s Hs' Hno Hin. apply Hlt; [done|].
    rewrite <-(Hk _ _ Hs') in Hs'. apply elem_of_sorted in Hs'; [|done].
    rewrite <-(take_drop n (sorted_stats t)) in Hs'. by apply elem_of_app in Hs' as [?|?].
Qed.
End Ranking.

(** The order of the hash table does not show. *)
Lemma sorted_order_independent (o1 o2 : HashOrder) (t : BlockedIpTopN) :
  keyed (tn_stats t) → @sorted_stats o1 t = @sorted_stats o2 t.
Proof.
  intros Hk. eapply (StronglySorted_unique_strong (rank_le (tn_criterion t))).
  - intros a b Ha Hb H1 H2. apply elem_of_sorted in Ha, Hb; [|done..].
    rewrite (rank_antisym _ _ _ H1 H2) in Ha. congruence.
  - apply (@sorted_strongly o1).
  - apply (@sorted_strongly o2).
  - unfold sorted_stats, sort_entries. by rewrite !merge_sort_Permutation, !map_iter_perm.
Qed.

(** ** Recording events *)
Abbreviation event := (IpAddr * BlockedProtocol * Z)%type.

(** Sums that wrap. *)
Definition packets_sum (s : BlockedIpStats) : Z :=
  tcp_packets s + udp_packets s + icmp_packets s + icmpv6_packets s + other_packets s.
Definition bytes_sum (s : BlockedIpStats) : Z :=
  tcp_bytes s + udp_bytes s + icmp_bytes s + icmpv6_bytes s + other_bytes s.
Definition balanced (s : BlockedIpStats) : Prop :=
  total_packets s = wrap_u64 (packets_sum s) ∧ total_bytes s = wrap_u64 (bytes_sum s).

(** A sum with one wrapped summand, wrapped again. *)
Ltac wrap_inner :=
  match goal with
  | |- _ = wrap 64 ?e =>
      match e with
      | context [wrap 64 ?x] =>
          replace e with (wrap 64 x + (e - wrap 64 x)) by lia; rewrite wrap_add_l; f_equal; lia
      end
  end.

Lemma record_packet_balanced s p b : balanced s → balanced (record_packet s p b).
Proof.
  intros [Hp Hb]. unfold balanced, packets_sum, bytes_sum, record_packet in *.
  destruct p; cbn [total_packets total_bytes tcp_packets udp_packets icmp_packets icmpv6_packets
    other_packets tcp_bytes udp_bytes icmp_bytes icmpv6_bytes other_bytes];
    rewrite Hp, Hb, !wrap_add_l; repeat (case_bool_decide; try done); split; wrap_inner.
Qed.

Lemma list_to_set_size_le {A} `{Countable A} (l : list A) :
  (size (list_to_set l : gset A) <= length l)%nat.
Proof.
  induction l as [|x l IH]; [by rewrite list_to_set_nil, size_empty|].
  rewrite list_to_set_cons. cbn [length].
  pose proof (size_union_alt ({[x]} : gset A) (list_to_set l)) as Hu.
  rewrite size_singleton in Hu.
  pose proof (subseteq_size (list_to_set l ∖ {[x]} : gset A) (list_to_set l) ltac:(set_solver)). lia.
Qed.

Section Events.
Context `{!HashOrder}.
Implicit Type t : BlockedIpTopN.

Definition run_events (t : BlockedIpTopN) (evs : list event) : BlockedIpTopN :=
  fold_left (λ t e, record_event t e.1.1 e.1.2 e.2) evs t.

Record topn_inv t : Prop := {
  ti_keyed : keyed (tn_stats t);
  ti_balanced : map_Forall (λ _ s, balanced s) (tn_stats t);
  ti_bounded : tracked_count t <= tn_max_tracked_ips t;
}.

Lemma keyed_insert m ip s : keyed m → bs_ip s = ip → keyed (<[ip := s]> m).
Proof. intros Hk Hs ip' s'. rewrite lookup_insert_Some. naive_solver. Qed.

Lemma prune_bounded t :
  0 <= tn_max_tracked_ips t →
  tracked_count (prune_low_volume_entries t) <= tn_max_tracked_ips t / 2.
Proof.
  intros H0. unfold prune_low_volume_entries, tracked_count. cbn [set_tn_stats tn_stats].
  set (kept := take _ (sorted_stats t)).
  rewrite <-size_dom.
  assert (dom (filter (λ kv : IpAddr * BlockedIpStats,
    kv.1 ∈ (list_to_set (bs_ip <$> kept) : gset IpAddr)) (tn_stats t)) ⊆
    (list_to_set (bs_ip <$> kept) : gset IpAddr)) as Hsub.
  { intros ip (s & Hs)%elem_of_dom. by apply map_lookup_filter_Some in Hs as [_ ?]. }
  apply subseteq_size in Hsub.
  pose proof (list_to_set_size_le (bs_ip <$> kept)) as Hl.
  rewrite length_fmap in Hl. unfold kept in Hl at 2. rewrite length_take in Hl.
  pose proof (Z.div_pos (tn_max_tracked_ips t) 2 H0 ltac:(lia)). lia.
Qed.

Lemma record_event_inv t ip p b :
  topn_inv t → 0 <= tn_max_tracked_ips t → topn_inv (record_event t ip p b).
Proof.
  intros [Hk Hbal Hn] H0. unfold record_event.
  set (s := default (BlockedIpStats_new ip) (tn_stats t !! ip)).
  set (t' := set_tn_stats t _).
  assert (bs_ip s = ip ∧ balanced s) as [Hs Hb].
  { unfold s. destruct (tn_stats t !! ip) eqn:E; simpl; [|done]. eauto. }
  assert (Hk' : keyed (tn_stats t')) by (by apply keyed_insert).
  assert (Hb' : map_Forall (λ _ s, balanced s) (tn_stats t'))
    by (by apply map_Forall_insert_2; [apply record_packet_balanced|]).
  destruct (Z.ltb_spec (tn_max_tracked_ips t') (tracked_count t')); [|by constructor].
  constructor.
  - intros ip' s' [? _]%map_lookup_filter_Some. eauto.
  - intros ip' s' [? _]%map_lookup_filter_Some. eauto.
  - etrans; [by apply prune_bounded|]. cbn. apply Z.div_le_upper_bound; lia.
Qed.

Lemma run_events_inv evs : ∀ t,
  topn_inv t → 0 <= tn_max_tracked_ips t → topn_inv (run_events t evs).
Proof.
  induction evs as [|e evs IH]; intros t Ht H0; [done|]. apply IH; [by apply record_event_inv|].
  unfold record_event. by destruct (_ <? _).
Qed.

Lemma run_events_max evs : ∀ t, tn_max_tracked_ips (run_events t evs) = tn_max_tracked_ips t.
Proof.
  induction evs as [|e evs IH]; intros t; [done|]. etrans; [apply IH|].
  unfold record_event. by destruct (_ <? _).
Qed.

Lemma topn_inv_new capacity criterion : topn_inv (BlockedIpTopN_new capacity criterion).
Proof.
  constructor; cbn [BlockedIpTopN_new tn_stats].
  - intros ip s Hs. by rewrite lookup_empty in Hs.
  - apply map_Forall_empty.
  - done.
Qed.

(** ** Without pruning the counters are exact *)
Definition events_of (evs : list event) (ip : IpAddr) : list event := filter (λ e, e.1.1 = ip) evs.
Definition recorded (l : list event) (s : BlockedIpStats) : BlockedIpStats :=
  fold_left (λ s e, record_packet s e.1.2 e.2) l s.
Definition addresses (evs : list event) : gset IpAddr := list_to_set ((λ e, e.1.1) <$> evs).

Lemma run_events_snoc t evs e :
  run_events t (evs ++ [e]) = record_event (run_events t evs) e.1.1 e.1.2 e.2.
Proof. unfold run_events. by rewrite fold_left_app. Qed.

Lemma addresses_snoc evs e : addresses (evs ++ [e]) = addresses evs ∪ {[e.1.1]}.
Proof. unfold addresses. rewrite fmap_app, list_to_set_app_L. set_solver. Qed.

Lemma events_of_snoc evs e ip :
  events_of (evs ++ [e]) ip = events_of evs ip ++ (if decide (e.1.1 = ip) then [e] else []).
Proof. unfold events_of. rewrite filter_app, filter_cons, filter_nil. by case_decide. Qed.

Lemma run_events_recorded t evs :
  tn_stats t = ∅ → Z.of_nat (size (addresses evs)) <= tn_max_tracked_ips t →
  dom (tn_stats (run_events t evs)) = addresses evs ∧
  tn_max_tracked_ips (run_events t evs) = tn_max_tracked_ips t ∧
  ∀ ip, tn_stats (run_events t evs) !! ip =
    if decide (ip ∈ addresses evs) then Some (recorded (events_of evs ip) (BlockedIpStats_new ip))
    else None.
Proof.
  intros H0. induction evs as [|e evs IH] using rev_ind; intros Hb.
  { cbn. rewrite H0. split_and!; [set_solver|done|]. intros ip. by rewrite lookup_empty. }
  rewrite addresses_snoc in *. rewrite run_events_snoc.
  pose proof (subseteq_size (addresses evs) (addresses evs ∪ {[e.1.1]}) ltac:(set_solver)).
  destruct (IH ltac:(lia)) as (Hdom & Hmax & Hst). unfold record_event.
  set (t' := set_tn_stats _ _).
  assert (dom (tn_stats t') = addresses evs ∪ {[e.1.1]}) as Hdom'.
  { unfold t'. cbn [set_tn_stats tn_stats]. rewrite dom_insert_L, Hdom. set_solver. }
  assert ((tn_max_tracked_ips t' <? tracked_count t') = false) as ->.
  { apply Z.ltb_ge. unfold tracked_count. rewrite <-size_dom, Hdom'. cbn. lia. }
  split_and!; [done|done|]. intros ip. unfold t'. cbn [set_tn_stats tn_stats].
  rewrite events_of_snoc, (Hst e.1.1).
  destruct (decide (e.1.1 = ip)) as [<-|Hne].
  - rewrite lookup_insert_eq. rewrite (decide_True (P := _ ∈ addresses evs ∪ _)) by set_solver.
    f_equal. unfold recorded. rewrite fold_left_app. cbn [fold_left]. f_equal.
    case_decide as Hin; [done|].
    assert (events_of evs e.1.1 = []) as ->; [|done].
    apply elem_of_nil_inv. intros x [Hx Hxin]%list_elem_of_filter. apply Hin.
    unfold addresses. rewrite elem_of_list_to_set, list_elem_of_fmap. eauto.
  - rewrite lookup_insert_ne, Hst, app_nil_r by done. repeat case_decide; set_solver.
Qed.

(** What recording a list of packets counts. *)
Definition sum_bytes (l : list event) : Z := fold_right (λ e n, e.2 + n) 0 l.
Definition with_protocol (p : BlockedProtocol) (l : list event) : list event :=
  filter (λ e, e.1.2 = p) l.

Lemma record_packet_protocol s q b p :
  packets_for_protocol (record_packet s q b) p =
    (if decide (q = p) then wrap_u64 (packets_for_protocol s p + 1) else packets_for_protocol s p) ∧
  bytes_for_protocol (record_packet s q b) p =
    (if decide (q = p) then wrap_u64 (bytes_for_protocol s p + b) else bytes_for_protocol s p).
Proof. by destruct p, q. Qed.

Lemma recorded_counts l : ∀ s,
  in_width 64 (total_packets s) → in_width 64 (total_bytes s) →
  (∀ p, in_width 64 (packets_for_protocol s p) ∧ in_width 64 (bytes_for_protocol s p)) →
  total_packets (recorded l s) = wrap_u64 (total_packets s + len l) ∧
  total_bytes (recorded l s) = wrap_u64 (total_bytes s + sum_bytes l) ∧
  ∀ p, packets_for_protocol (recorded l s) p =
         wrap_u64 (packets_for_protocol s p + len (with_protocol p l)) ∧
       bytes_for_protocol (recorded l s) p =
         wrap_u64 (bytes_for_protocol s p + sum_bytes (with_protocol p l)).
Proof.
  induction l as [|[[ip q] b] l IH]; intros s Hp Hb Hall.
  { cbn. rewrite !Z.add_0_r, !wrap_small by done. split_and!; [done..|].
    intros p. destruct (Hall p). by rewrite !Z.add_0_r, !wrap_small. }
  destruct (IH (record_packet s q b)) as (IHp & IHb & IHq).
  { by apply wrap_in_width. }
  { by apply wrap_in_width. }
  { intros p. destruct (record_packet_protocol s q b p) as [-> ->].
    case_decide; [split; by apply wrap_in_width|apply Hall]. }
  change (recorded ((ip, q, b) :: l) s) with (recorded l (record_packet s q b)).
  rewrite IHp, IHb. split_and!.
  - cbn [record_packet total_packets]. rewrite wrap_add_l. f_equal. unfold len. cbn [length]. lia.
  - cbn [record_packet total_bytes]. rewrite wrap_add_l. f_equal.
    change (sum_bytes ((ip, q, b) :: l)) with (b + sum_bytes l). lia.
  - intros p. destruct (IHq p) as [-> ->]. destruct (record_packet_protocol s q b p) as [-> ->].
    unfold with_protocol. rewrite filter_cons. cbn [fst snd]. case_decide; [|done].
    rewrite !wrap_add_l. unfold len. cbn [length]. split; f_equal; [lia|].
    match goal with |- context [sum_bytes (?x :: ?r)] =>
      change (sum_bytes (x :: r)) with (b + sum_bytes r) end. lia.
Qed.
End Events.

(** ** Exported series *)
Definition ip_labels (ip : list Z) : list (list (list Z)) := (λ p, [ip; protocol_str p]) <$> ALL.
Definition total_labels (ip : list Z) : list (list (list Z)) := [[ip]].
Definition packet_values (s : BlockedIpStats) : list (list (list Z) * Z) :=
  (λ p, ([ip_to_string (bs_ip s); protocol_str p], packets_for_protocol s p)) <$> ALL.
Definition byte_values (s : BlockedIpStats) : list (list (list Z) * Z) :=
  (λ p, ([ip_to_string (bs_ip s); protocol_str p], bytes_for_protocol s p)) <$> ALL.
Definition total_packet_values (s : BlockedIpStats) : list (list (list Z) * Z) :=
  [([ip_to_string (bs_ip s)], total_packets s)].
Definition total_byte_values (s : BlockedIpStats) : list (list (list Z) * Z) :=
  [([ip_to_string (bs_ip s)], total_bytes s)].

Section Mirror.
Context {V : Type} `{!CounterVec V}.
Implicit Types (m : V * last_values) (l : list (list Z)).

Definition mirrored m : Prop := cv_series m.1 = m.2.

Lemma export_counter_spec m l cur :
  mirrored m → in_width 64 cur →
  mirrored (export_counter m l cur) ∧
  (export_counter m l cur).2 = <[l := Z.max (default 0 (m.2 !! l)) cur]> m.2.
Proof.
  unfold mirrored. intros Hm Hc. unfold export_counter.
  destruct (Z.ltb_spec (default 0 (m.2 !! l)) cur) as [Hlt|Hge].
  - cbn [fst snd]. rewrite cv_inc_by_spec, Hm, insert_insert_eq, Z.max_r by lia.
    replace (default 0 (m.2 !! l) + (cur - default 0 (m.2 !! l))) with cur by lia.
    by rewrite wrap_small.
  - rewrite Z.max_l by lia. destruct (_ && _) eqn:E; cbn [fst snd].
    + by rewrite cv_touch_spec, Hm.
    + split; [|done]. rewrite Hm. symmetry. apply insert_id.
      destruct (m.2 !! l) eqn:El; simpl in *; [done|].
      destruct Hc. assert (cur = 0) as -> by lia. done.
Qed.

Lemma drop_counter_spec m l :
  mirrored m → mirrored (drop_counter m l) ∧ (drop_counter m l).2 = delete l m.2.
Proof. unfold mirrored, drop_counter. intros Hm. simpl. by rewrite cv_remove_spec, Hm. Qed.

Lemma export_all_spec L : ∀ m,
  mirrored m → Forall (λ lc, in_width 64 lc.2) L → NoDup L.*1 →
  let m' := fold_left (λ m lc, export_counter m lc.1 lc.2) L m in
  mirrored m' ∧
  (∀ l c, (l, c) ∈ L → m'.2 !! l = Some (Z.max (default 0 (m.2 !! l)) c)) ∧
  (∀ l, l ∉ L.*1 → m'.2 !! l = m.2 !! l).
Proof.
  induction L as [|[l0 c0] L IH]; intros m Hm Hw Hnd.
  { split_and!; [done|set_solver|done]. }
  inversion_clear Hw as [|?? Hc Hw']. apply NoDup_cons in Hnd as [Hni Hnd].
  destruct (export_counter_spec m l0 c0 Hm Hc) as [Hm1 H1].
  destruct (IH _ Hm1 Hw' Hnd) as (Hm' & Hin & Hout). cbn [fold_left fst snd].
  split_and!; [exact Hm'|..].
  - intros l c [[= -> ->]|Hl]%elem_of_cons.
    + rewrite Hout, H1 by done. apply lookup_insert_eq.
    + rewrite (Hin l c Hl), H1, lookup_insert_ne; [done|]. intros ->. apply Hni.
      apply list_elem_of_fmap. by exists (l, c).
  - intros l [Hne Hl]%not_elem_of_cons. rewrite Hout, H1 by done. by rewrite lookup_insert_ne.
Qed.

Lemma drop_all_spec L : ∀ m,
  mirrored m →
  let m' := fold_left drop_counter L m in
  mirrored m' ∧ ∀ l, m'.2 !! l = if decide (l ∈ L) then None else m.2 !! l.
Proof.
  induction L as [|l0 L IH]; intros m Hm; [by split|].
  destruct (drop_counter_spec m l0 Hm) as [Hm1 H1]. destruct (IH _ Hm1) as [Hm' Hl].
  split; [exact Hm'|]. intros l. cbn [fold_left]. rewrite Hl, H1.
  destruct (decide (l = l0)) as [->|].
  - rewrite lookup_delete_eq, (decide_True (P := l0 ∈ l0 :: L)) by set_solver. by case_decide.
  - rewrite lookup_delete_ne by done. repeat case_decide; set_solver.
Qed.

(** The series after a synchronisation: one for every label and value of [L], the
    counter being raised to the value, and no other. *)
Definition exported_exactly (old new : gmap (list (list Z)) Z) (L : list (list (list Z) * Z)) : Prop :=
  ∀ l x, new !! l = Some x ↔ ∃ c, (l, c) ∈ L ∧ x = Z.max (default 0 (old !! l)) c.

(** Every label kept belongs to an exported address. *)
Definition labelled (labels : list Z → list (list (list Z))) (exported : gset (list Z))
    (last : gmap (list (list Z)) Z) : Prop :=
  ∀ l, is_Some (last !! l) → ∃ ip, ip ∈ exported ∧ l ∈ labels ip.

(** One metric of the synchronisation. *)
Lemma sync_metric (labels : list Z → list (list (list Z)))
    (values : BlockedIpStats → list (list (list Z) * Z)) (exported : gset (list Z))
    (evicted : list (list Z)) (top : list BlockedIpStats) m :
  (∀ s, (values s).*1 = labels (ip_to_string (bs_ip s))) →
  (∀ ip ip' l, l ∈ labels ip → l ∈ labels ip' → ip = ip') →
  mirrored m → labelled labels exported m.2 →
  (∀ ip, ip ∈ evicted ↔ ip ∈ exported ∧ ip ∉ ip_to_string ∘ bs_ip <$> top) →
  Forall (λ lc, in_width 64 lc.2) (top ≫= values) → NoDup (top ≫= values).*1 →
  let m1 := fold_left drop_counter (evicted ≫= labels) m in
  let m2 := fold_left (λ m lc, export_counter m lc.1 lc.2) (top ≫= values) m1 in
  mirrored m2 ∧ exported_exactly (cv_series m.1) (cv_series m2.1) (top ≫= values) ∧
  labelled labels (list_to_set (ip_to_string ∘ bs_ip <$> top)) m2.2.
Proof.
  intros Hval Hinj Hm Hlab Hev Hw Hnd m1 m2.
  destruct (drop_all_spec (evicted ≫= labels) m Hm) as [Hm1 H1].
  destruct (export_all_spec (top ≫= values) m1 Hm1 Hw Hnd) as (Hm2 & Hin & Hout).
  fold m1 in H1. fold m2 in Hm2, Hin, Hout.
  assert (Hlabel : ∀ l, l ∈ (top ≫= values).*1 ↔ ∃ s, s ∈ top ∧ l ∈ labels (ip_to_string (bs_ip s))).
  { intros l. rewrite list_elem_of_fmap. setoid_rewrite list_elem_of_bind. setoid_rewrite <-Hval.
    setoid_rewrite list_elem_of_fmap. naive_solver. }
  assert (Hkeep : ∀ l, l ∈ (top ≫= values).*1 → m1.2 !! l = m.2 !! l).
  { intros l (s & Hs & Hl)%Hlabel. rewrite H1. case_decide as Hd; [|done]. exfalso.
    apply list_elem_of_bind in Hd as (ip & Hl' & Hip). apply Hev in Hip as [_ Hno].
    apply Hno. rewrite (Hinj _ _ _ Hl' Hl). apply list_elem_of_fmap. by exists s. }
  assert (Hgone : ∀ l, l ∉ (top ≫= values).*1 → m2.2 !! l = None).
  { intros l Hl. rewrite Hout, H1 by done. case_decide as Hd; [done|].
    apply eq_None_not_Some. intros (ip & Hip & Hlip)%Hlab.
    destruct (decide (ip ∈ ip_to_string ∘ bs_ip <$> top)) as [Ht|Ht].
    - apply list_elem_of_fmap in Ht as (s & -> & Hs). apply Hl, Hlabel. by exists s.
    - apply Hd, list_elem_of_bind. exists ip. split; [done|]. by apply Hev. }
  split_and!; [done|..].
  - unfold mirrored in *. intros l x. rewrite Hm, Hm2. split.
    + intros Hx. destruct (decide (l ∈ (top ≫= values).*1)) as [Hl|Hl]; [|by rewrite Hgone in Hx].
      pose proof Hl as ([l' c] & E & Hc)%list_elem_of_fmap. simpl in E. subst l'.
      exists c. split; [done|].
      rewrite (Hin _ _ Hc), Hkeep in Hx by done. by injection Hx.
    + intros (c & Hc & ->). rewrite (Hin _ _ Hc), Hkeep; [done|].
      apply list_elem_of_fmap. by exists (l, c).
  - intros l Hl. destruct (decide (l ∈ (top ≫= values).*1)) as [Ht|Ht].
    + apply Hlabel in Ht as (s & Hs & Hls). exists (ip_to_string (bs_ip s)).
      split; [|done]. apply elem_of_list_to_set, list_elem_of_fmap. by exists s.
    + rewrite Hgone in Hl by done. by destruct Hl.
Qed.
End Mirror.

Section SyncProofs.
Context `{!HashOrder} {V : Type} `{!CounterVec V}.
Implicit Types (t : BlockedIpTopN) (v : metric_vecs (V := V)).

(** The loop over the protocols treats the two vectors separately. *)
Lemma fold_mirrors {A} (f g : V * last_values → A → V * last_values) l : ∀ m : mirrors (V := V),
  fold_left (λ m p, mkMirrors (f (mi_packets m) p) (g (mi_bytes m) p) (mi_total_packets m)
    (mi_total_bytes m)) l m =
  mkMirrors (fold_left f l (mi_packets m)) (fold_left g l (mi_bytes m)) (mi_total_packets m)
    (mi_total_bytes m).
Proof. induction l as [|x l IH]; intros m; [by destruct m|]. cbn [fold_left]. by rewrite IH. Qed.

Lemma fold_left_fmap {A B C} (f : C → B → C) (h : A → B) l : ∀ c,
  fold_left f (h <$> l) c = fold_left (λ c x, f c (h x)) l c.
Proof. induction l as [|x l IH]; intros c; [done|]. apply IH. Qed.

Lemma evict_fold evicted : ∀ m : mirrors (V := V),
  let m' := fold_left evict_ip evicted m in
  mi_packets m' = fold_left drop_counter (evicted ≫= ip_labels) (mi_packets m) ∧
  mi_bytes m' = fold_left drop_counter (evicted ≫= ip_labels) (mi_bytes m) ∧
  mi_total_packets m' = fold_left drop_counter (evicted ≫= total_labels) (mi_total_packets m) ∧
  mi_total_bytes m' = fold_left drop_counter (evicted ≫= total_labels) (mi_total_bytes m).
Proof.
  induction evicted as [|ip evicted IH]; intros m; [done|]. cbv zeta.
  rewrite !bind_cons, !fold_left_app. cbn [fold_left].
  destruct (IH (evict_ip m ip)) as (-> & -> & -> & ->). unfold evict_ip.
  rewrite (fold_mirrors (λ x p, drop_counter x [ip; protocol_str p])
    (λ x p, drop_counter x [ip; protocol_str p])).
  change (ip_labels ip) with ((λ p, [ip; protocol_str p]) <$> ALL). by rewrite !fold_left_fmap.
Qed.

Lemma export_fold top : ∀ m : mirrors (V := V),
  let m' := fold_left export_stat top m in
  let go := fold_left (λ m lc, export_counter m lc.1 lc.2) in
  mi_packets m' = go (top ≫= packet_values) (mi_packets m) ∧
  mi_bytes m' = go (top ≫= byte_values) (mi_bytes m) ∧
  mi_total_packets m' = go (top ≫= total_packet_values) (mi_total_packets m) ∧
  mi_total_bytes m' = go (top ≫= total_byte_values) (mi_total_bytes m).
Proof.
  induction top as [|s top IH]; intros m; [done|]. cbv zeta.
  rewrite !bind_cons, !fold_left_app. cbn [fold_left].
  destruct (IH (export_stat m s)) as (-> & -> & -> & ->). unfold export_stat.
  set (ip := ip_to_string (bs_ip s)).
  rewrite (fold_mirrors (λ x p, export_counter x [ip; protocol_str p] (packets_for_protocol s p))
    (λ x p, export_counter x [ip; protocol_str p] (bytes_for_protocol s p))).
  change (packet_values s) with ((λ p, ([ip; protocol_str p], packets_for_protocol s p)) <$> ALL).
  change (byte_values s) with ((λ p, ([ip; protocol_str p], bytes_for_protocol s p)) <$> ALL).
  by rewrite !fold_left_fmap.
Qed.

(** The vectors show what was exported last, for the exported addresses. *)
Record export_inv t v : Prop := {
  ei_packets : mirrored (packets_vec v, tn_last_packets t);
  ei_bytes : mirrored (bytes_vec v, tn_last_bytes t);
  ei_total_packets : mirrored (total_packets_vec v, tn_last_total_packets t);
  ei_total_bytes : mirrored (total_bytes_vec v, tn_last_total_bytes t);
  ei_labels : labelled ip_labels (tn_currently_exported t) (tn_last_packets t) ∧
    labelled ip_labels (tn_currently_exported t) (tn_last_bytes t) ∧
    labelled total_labels (tn_currently_exported t) (tn_last_total_packets t) ∧
    labelled total_labels (tn_currently_exported t) (tn_last_total_bytes t);
}.

(** The counters of the table are [u64] values. *)
Definition counters_ok (s : BlockedIpStats) : Prop :=
  in_width 64 (total_packets s) ∧ in_width 64 (total_bytes s) ∧
  ∀ p, in_width 64 (packets_for_protocol s p) ∧ in_width 64 (bytes_for_protocol s p).

Lemma ip_labels_inj ip ip' l : l ∈ ip_labels ip → l ∈ ip_labels ip' → ip = ip'.
Proof. unfold ip_labels. intros (p & -> & _)%list_elem_of_fmap (p' & [= ->] & _)%list_elem_of_fmap. done. Qed.
Lemma total_labels_inj ip ip' l : l ∈ total_labels ip → l ∈ total_labels ip' → ip = ip'.
Proof. unfold total_labels. intros ->%list_elem_of_singleton [= ->]%list_elem_of_singleton. done. Qed.

Lemma labels_NoDup (values : BlockedIpStats → list (list (list Z) * Z))
    (labels : list Z → list (list (list Z))) top :
  (∀ s, (values s).*1 = labels (ip_to_string (bs_ip s))) →
  (∀ ip ip' l, l ∈ labels ip → l ∈ labels ip' → ip = ip') → (∀ ip, NoDup (labels ip)) →
  NoDup (ip_to_string ∘ bs_ip <$> top) → NoDup (top ≫= values).*1.
Proof.
  intros Hv Hinj Hnd. induction top as [|s top IH]; [intros; constructor|].
  rewrite fmap_cons, bind_cons, fmap_app. intros [Hs Ht]%NoDup_cons. apply NoDup_app.
  split_and!; [by rewrite Hv|..|by apply IH].
  intros l Hl ([l' c] & E & (s' & Hc & Hs')%list_elem_of_bind)%list_elem_of_fmap.
  simpl in E. subst l'. apply Hs. rewrite Hv in Hl.
  assert (l ∈ labels (ip_to_string (bs_ip s'))) as Hl'.
  { rewrite <-Hv. apply list_elem_of_fmap. by exists (l, c). }
  apply list_elem_of_fmap. exists s'. split; [|done]. exact (Hinj _ _ _ Hl Hl').
Qed.

Lemma values_in_width top :
  Forall counters_ok top →
  Forall (λ lc, in_width 64 lc.2) (top ≫= packet_values) ∧
  Forall (λ lc, in_width 64 lc.2) (top ≫= byte_values) ∧
  Forall (λ lc, in_width 64 lc.2) (top ≫= total_packet_values) ∧
  Forall (λ lc, in_width 64 lc.2) (top ≫= total_byte_values).
Proof.
  intros Hc. rewrite Forall_forall in Hc.
  split_and!; apply Forall_forall; intros lc (s & Hlc & Hs)%list_elem_of_bind;
    destruct (Hc s Hs) as (Hp & Hb & Hall).
  - apply list_elem_of_fmap in Hlc as (p & -> & _). apply (Hall p).
  - apply list_elem_of_fmap in Hlc as (p & -> & _). apply (Hall p).
  - by apply list_elem_of_singleton in Hlc as ->.
  - by apply list_elem_of_singleton in Hlc as ->.
Qed.

Lemma sync_spec t v :
  export_inv t v → Forall counters_ok (top_n_stats t) →
  NoDup (ip_to_string ∘ bs_ip <$> top_n_stats t) →
  let '(t', v') := sync_to_metrics t v in
  export_inv t' v' ∧
  tn_currently_exported t' = list_to_set (ip_to_string ∘ bs_ip <$> top_n_stats t) ∧
  count_gauge v' = len (top_n_stats t) ∧
  exported_exactly (cv_series (packets_vec v)) (cv_series (packets_vec v'))
    (top_n_stats t ≫= packet_values) ∧
  exported_exactly (cv_series (bytes_vec v)) (cv_series (bytes_vec v'))
    (top_n_stats t ≫= byte_values) ∧
  exported_exactly (cv_series (total_packets_vec v)) (cv_series (total_packets_vec v'))
    (top_n_stats t ≫= total_packet_values) ∧
  exported_exactly (cv_series (total_bytes_vec v)) (cv_series (total_bytes_vec v'))
    (top_n_stats t ≫= total_byte_values).
Proof.
  intros [M1 M2 M3 M4 (L1 & L2 & L3 & L4)] Hc Hnd. unfold sync_to_metrics.
  set (top := top_n_stats t) in *. set (new := list_to_set (ip_to_string ∘ bs_ip <$> top)).
  set (evicted := set_iter _). set (m := mkMirrors _ _ _ _).
  assert (Hev : ∀ ip, ip ∈ evicted ↔
    ip ∈ tn_currently_exported t ∧ ip ∉ ip_to_string ∘ bs_ip <$> top).
  { intros ip. unfold evicted. rewrite set_iter_perm, elem_of_elements, elem_of_difference.
    unfold new. by rewrite elem_of_list_to_set. }
  assert (Hu : ∀ ip, NoDup (ip_labels ip) ∧ NoDup (total_labels ip)).
  { intros ip. split; [|apply NoDup_singleton]. apply NoDup_fmap_2; [|by_decide].
    intros [] [] [=]; done. }
  destruct (values_in_width top Hc) as (W1 & W2 & W3 & W4).
  destruct (evict_fold evicted m) as (E1 & E2 & E3 & E4).
  destruct (export_fold top (fold_left evict_ip evicted m)) as (X1 & X2 & X3 & X4).
  rewrite E1 in X1. rewrite E2 in X2. rewrite E3 in X3. rewrite E4 in X4.
  cbv zeta. cbn [packets_vec bytes_vec total_packets_vec total_bytes_vec count_gauge
    tn_currently_exported]. rewrite X1, X2, X3, X4.
  assert (Hl : ∀ s : BlockedIpStats, (packet_values s).*1 = ip_labels (ip_to_string (bs_ip s)) ∧
    (byte_values s).*1 = ip_labels (ip_to_string (bs_ip s)) ∧
    (total_packet_values s).*1 = total_labels (ip_to_string (bs_ip s)) ∧
    (total_byte_values s).*1 = total_labels (ip_to_string (bs_ip s))) by done.
  pose proof (sync_metric ip_labels packet_values _ evicted top (mi_packets m)
    (λ s, proj1 (Hl s)) ip_labels_inj M1 L1 Hev W1 (labels_NoDup _ _ _ (λ s, proj1 (Hl s))
      ip_labels_inj (λ ip, proj1 (Hu ip)) Hnd)) as (S1 & S1' & S1'').
  pose proof (sync_metric ip_labels byte_values _ evicted top (mi_bytes m)
    (λ s, proj1 (proj2 (Hl s))) ip_labels_inj M2 L2 Hev W2 (labels_NoDup _ _ _
      (λ s, proj1 (proj2 (Hl s))) ip_labels_inj (λ ip, proj1 (Hu ip)) Hnd)) as (S2 & S2' & S2'').
  pose proof (sync_metric total_labels total_packet_values _ evicted top (mi_total_packets m)
    (λ s, proj1 (proj2 (proj2 (Hl s)))) total_labels_inj M3 L3 Hev W3 (labels_NoDup _ _ _
      (λ s, proj1 (proj2 (proj2 (Hl s)))) total_labels_inj (λ ip, proj2 (Hu ip)) Hnd))
    as (S3 & S3' & S3'').
  pose proof (sync_metric total_labels total_byte_values _ evicted top (mi_total_bytes m)
    (λ s, proj2 (proj2 (proj2 (Hl s)))) total_labels_inj M4 L4 Hev W4 (labels_NoDup _ _ _
      (λ s, proj2 (proj2 (proj2 (Hl s)))) total_labels_inj (λ ip, proj2 (Hu ip)) Hnd))
    as (S4 & S4' & S4'').
  split; [constructor; done|]. split; [done|]. split; [|done].
  unfold new, len. by rewrite size_list_to_set, length_fmap.
Qed.
End SyncProofs.

(** ** Theorems *)

(** The exported ranking: at most [capacity] distinct addresses,
    sorted by the criterion, each with its current counters, and no tracked
    address outside it ranks before one inside; the result does not depend on
    the iteration order of the hash table. *)
Theorem top_n_stats_are_the_best (o1 o2 : HashOrder) (t : BlockedIpTopN) :
  keyed (tn_stats t) →
  let top := @top_n_stats o1 t in
  top = @top_n_stats o2 t ∧
  length top = (Z.to_nat (tn_capacity t) `min` size (tn_stats t))%nat ∧ NoDup (bs_ip <$> top) ∧
  StronglySorted (rank_le (tn_criterion t)) top ∧
  (∀ s, s ∈ top → tn_stats t !! bs_ip s = Some s) ∧
  (∀ ip s' s, tn_stats t !! ip = Some s' → s' ∉ top → s ∈ top → rank_le (tn_criterion t) s s').
Proof.
  intros Hk top. split.
  - unfold top, top_n_stats. by rewrite (sorted_order_independent o1 o2).
  - by apply (@top_spec o1).
Qed.

(** C34 (invariant). Whatever events arrive, the table stays within its bound, every
    record is filed under its own address, and the totals of each address are the
    sums of its per-protocol counters modulo 2^64. *)
Theorem tracked_addresses_bounded `{!HashOrder} capacity criterion evs :
  topn_inv (run_events (BlockedIpTopN_new capacity criterion) evs) ∧
  tracked_count (run_events (BlockedIpTopN_new capacity criterion) evs) <= 10000.
Proof.
  assert (Hi : topn_inv (run_events (BlockedIpTopN_new capacity criterion) evs))
    by (apply run_events_inv; [apply topn_inv_new|done]).
  split; [exact Hi|]. destruct Hi as [_ _ Hb]. by rewrite run_events_max in Hb.
Qed.

(** As long as no more addresses appear than the table tracks, the
    table holds exactly the addresses of the events, each with the number of its
    packets and bytes, in total and per protocol, modulo 2^64. *)
Theorem recorded_counters_exact `{!HashOrder} capacity criterion evs :
  Z.of_nat (size (addresses evs)) <= 10000 →
  let t := run_events (BlockedIpTopN_new capacity criterion) evs in
  dom (tn_stats t) = addresses evs ∧
  ∀ ip s, topn_get_stats t ip = Some s →
    total_packets s = wrap_u64 (len (events_of evs ip)) ∧
    total_bytes s = wrap_u64 (sum_bytes (events_of evs ip)) ∧
    ∀ p, packets_for_protocol s p = wrap_u64 (len (with_protocol p (events_of evs ip))) ∧
         bytes_for_protocol s p = wrap_u64 (sum_bytes (with_protocol p (events_of evs ip))).
Proof.
  intros Hb t.
  destruct (run_events_recorded (BlockedIpTopN_new capacity criterion) evs eq_refl Hb)
    as (Hdom & _ & Hst). fold t in Hdom, Hst. split; [exact Hdom|]. intros ip s Hs.
  unfold topn_get_stats in Hs. rewrite Hst in Hs. case_decide; [|done]. injection Hs as <-.
  destruct (recorded_counts (events_of evs ip) (BlockedIpStats_new ip)) as (-> & -> & Hp);
    [by_decide..|by intros []; by_decide|].
  split_and!; [done..|]. intros p. destruct (Hp p) as [-> ->]. by destruct p.
Qed.

(** C33 (functional). Synchronising the ranking with Prometheus: afterwards the four
    counter vectors hold one series for every label of the ranked addresses and
    no other (so at most 5 * capacity per-protocol series), each raised to the
    current count and never lowered; the gauge is the number of ranked addresses,
    and the record of what was exported stays equal to the vectors. *)
Theorem sync_exports_exactly_the_ranking `{!HashOrder} {V : Type} `{!CounterVec V}
    (t : BlockedIpTopN) (v : metric_vecs (V := V)) :
  export_inv t v → Forall counters_ok (top_n_stats t) →
  NoDup (ip_to_string ∘ bs_ip <$> top_n_stats t) →
  let '(t', v') := sync_to_metrics t v in
  export_inv t' v' ∧
  tn_currently_exported t' = list_to_set (ip_to_string ∘ bs_ip <$> top_n_stats t) ∧
  count_gauge v' = len (top_n_stats t) ∧
  exported_exactly (cv_series (packets_vec v)) (cv_series (packets_vec v'))
    (top_n_stats t ≫= packet_values) ∧
  exported_exactly (cv_series (bytes_vec v)) (cv_series (bytes_vec v'))
    (top_n_stats t ≫= byte_values) ∧
  exported_exactly (cv_series (total_packets_vec v)) (cv_series (total_packets_vec v'))
    (top_n_stats t ≫= total_packet_values) ∧
  exported_exactly (cv_series (total_bytes_vec v)) (cv_series (total_bytes_vec v'))
    (top_n_stats t ≫= total_byte_values).
Proof. apply sync_spec. Qed.

(** ** Witnesses: a counter vector in memory and three blocked packets *)
#[global] Program Instance map_counter_vec : CounterVec (gmap (list (list Z)) Z) := {|
  cv_series v := v;
  cv_touch v l := <[l := default 0 (v !! l)]> v;
  cv_inc_by v l d := <[l := wrap_u64 (default 0 (v !! l) + d)]> v;
  cv_remove v l := delete l v;
|}.
Next Obligation. done. Qed.
Next Obligation. done. Qed.
Next Obligation. done. Qed.

#[local] Existing Instance canonical_order.
Definition demo_events : list event :=
  [(V4 [1; 2; 3; 4], Tcp, 60); (V4 [5; 6; 7; 8], Udp, 100); (V4 [1; 2; 3; 4], Icmp, 84)].
Definition demo_topn : BlockedIpTopN := run_events (BlockedIpTopN_new 1 ByPackets) demo_events.
Definition demo_vecs : metric_vecs (V := gmap (list (list Z)) Z) := mkVecs ∅ ∅ ∅ ∅ 0.

Lemma top_n_stats_are_the_best_witness :
  (bs_ip <$> top_n_stats demo_topn) = [V4 [1; 2; 3; 4]] ∧
  StronglySorted (rank_le ByPackets) (top_n_stats demo_topn).
Proof.
  split; [vm_compute; reflexivity|].
  destruct (top_n_stats_are_the_best canonical_order canonical_order demo_topn)
    as (_ & _ & _ & Hs & _); [|exact Hs].
  intros ip s Hs. apply (map_Forall_lookup_1 (λ ip s, bs_ip s = ip) (tn_stats demo_topn));
    [by_decide|exact Hs].
Defined.

Lemma recorded_counters_exact_witness :
  ∃ s, tn_stats demo_topn !! V4 [1; 2; 3; 4] = Some s ∧ total_packets s = 2 ∧
    total_bytes s = 144.
Proof.
  destruct (recorded_counters_exact 1 ByPackets demo_events) as [Hdom Hc]; [by_decide|].
  assert (V4 [1; 2; 3; 4] ∈ dom (tn_stats demo_topn)) as [s Hs]%elem_of_dom
    by (unfold demo_topn; rewrite Hdom; by_decide).
  exists s. destruct (Hc _ _ Hs) as (Hp & Hb & _). split; [exact Hs|]. split; [exact Hp|exact Hb].
Defined.

Lemma sync_exports_exactly_the_ranking_witness :
  count_gauge (sync_to_metrics demo_topn demo_vecs).2 = 1 ∧
  cv_series (packets_vec (sync_to_metrics demo_topn demo_vecs).2) !! [lit "1.2.3.4"; lit "icmp"]
    = Some 1.
Proof.
  pose proof (sync_exports_exactly_the_ranking demo_topn demo_vecs) as H.
  destruct (sync_to_metrics demo_topn demo_vecs) as [t' v'].
  destruct H as (_ & _ & Hg & Hp & _).
  - constructor; [by_decide..|]. split_and!; intros l Hl; vm_compute in Hl; by destruct Hl.
  - apply Forall_forall. intros s Hs. 
    assert (top_n_stats demo_topn = [mkStats (V4 [1; 2; 3; 4]) 2 144 1 0 1 0 0 60 0 84 0 0]) as E
      by (vm_compute; reflexivity).
    rewrite E in Hs. apply list_elem_of_singleton in Hs as ->. split; [by_decide|].
    split; [by_decide|]. intros []; by_decide.
  - by_decide.
  - split; [exact Hg|]. apply Hp. exists 1. split; by_decide.
Defined.
