(* ===== verification/RingBuf.v ===== *)
(** * The telemetry consumer ([src/ringbuf.rs], with [record_*] of [src/metrics.rs])

    One readiness batch: drain the ring buffer, reinterpret each record as the
    event the kernel wrote, count it, and log it with every rule source that
    explains the drop. *)
From stdpp Require Import base numbers list gmap fin_maps strings sorting.
From Stdlib Require Import ZArith Lia.
From S2P Require Import Prelude Net Common BpfMaps Str Entry Metadata Attribution Loader TopN.

Local Open Scope Z_scope.

(** ** [merge_into] *)

(** [files.iter().enumerate()] with [lines.get(i).copied().unwrap_or_default()]. *)
Definition file_lines (cx : RuleBlockContext) : list (list Z * Z) :=
  imap (λ i f, (f, default 0 (cx_lines cx !! i))) (cx_files cx).

Definition merge_source (dst : RuleBlockContext) (fl : list Z * Z) : RuleBlockContext :=
  if bool_decide (fl ∈ file_lines dst) then dst
  else mkContext (cx_files dst ++ [fl.1]) (cx_lines dst ++ [fl.2]) (cx_categories dst).
Definition merge_category (dst : RuleBlockContext) (c : FireholCategory) : RuleBlockContext :=
  if bool_decide (c ∈ cx_categories dst) then dst
  else mkContext (cx_files dst) (cx_lines dst) (cx_categories dst ++ [c]).
Definition merge_into (dst src : RuleBlockContext) : RuleBlockContext :=
  fold_left merge_category (cx_categories src) (fold_left merge_source (file_lines src) dst).

(** ** Metrics *)
Definition name_label (s : String.string) : list Z := lit s.
Definition drop_label : list (list Z) := [lit "drop"].

Section Consumer.
Context {V : Type} `{!CounterVec V} {S : Type} `{!ContextStore S} `{!HashOrder}.
Context {R : Type} `{!RingBuffer R}.

Record telemetry : Type := mkTelemetry {
  tm_packets_total : V;
  tm_packets_blocked_total : V;
  tm_bytes_total : V;
  tm_ringbuf_events_total : Z;
  tm_errors_total : V;
  tm_top_blocked_ips : BlockedIpTopN;
  tm_firehol_packets : V;
  tm_firehol_bytes : V;
}.

Definition record_ringbuf_event (m : telemetry) : telemetry :=
  mkTelemetry (tm_packets_total m) (tm_packets_blocked_total m) (tm_bytes_total m)
    (wrap_u64 (tm_ringbuf_events_total m + 1)) (tm_errors_total m) (tm_top_blocked_ips m)
    (tm_firehol_packets m) (tm_firehol_bytes m).
Definition record_error (m : telemetry) (error_type : list Z) : telemetry :=
  mkTelemetry (tm_packets_total m) (tm_packets_blocked_total m) (tm_bytes_total m)
    (tm_ringbuf_events_total m) (cv_inc_by (tm_errors_total m) [error_type] 1)
    (tm_top_blocked_ips m) (tm_firehol_packets m) (tm_firehol_bytes m).
Definition record_blocked_packet (m : telemetry) (proto match_type : list Z) (byte_len : Z)
    : telemetry :=
  mkTelemetry (cv_inc_by (tm_packets_total m) drop_label 1)
    (cv_inc_by (tm_packets_blocked_total m) [proto; match_type] 1)
    (cv_inc_by (tm_bytes_total m) drop_label byte_len)
    (tm_ringbuf_events_total m) (tm_errors_total m) (tm_top_blocked_ips m)
    (tm_firehol_packets m) (tm_firehol_bytes m).
Definition record_blocked_ip (m : telemetry) (ip : IpAddr) (protocol : BlockedProtocol) (bytes : Z)
    : telemetry :=
  mkTelemetry (tm_packets_total m) (tm_packets_blocked_total m) (tm_bytes_total m)
    (tm_ringbuf_events_total m) (tm_errors_total m)
    (record_event (tm_top_blocked_ips m) ip protocol bytes)
    (tm_firehol_packets m) (tm_firehol_bytes m).
Definition record_drop (m : telemetry) (category protocol : list Z) (bytes : Z) : telemetry :=
  mkTelemetry (tm_packets_total m) (tm_packets_blocked_total m) (tm_bytes_total m)
    (tm_ringbuf_events_total m) (tm_errors_total m) (tm_top_blocked_ips m)
    (cv_inc_by (tm_firehol_packets m) [category; protocol] 1)
    (cv_inc_by (tm_firehol_bytes m) [category] bytes).

(** ** The consumer: its configuration, its metrics and what it logged *)
Record consumer : Type := mkConsumer {
  cn_registry : option (FireholMetadataRegistry S);
  cn_static : option StaticRuleRegistry;
  cn_log_drops : bool;
  cn_metrics : option telemetry;
  cn_log : list (PacketLogEvent * RuleBlockContext);
}.
Definition set_metrics (c : consumer) (m : option telemetry) : consumer :=
  mkConsumer (cn_registry c) (cn_static c) (cn_log_drops c) m (cn_log c).

(** The rule that won, resolved in the FireHOL name space, else in the static one. *)
Definition winning (c : consumer) (rule_id : Z) : option RuleBlockContext :=
  match cn_registry c ≫= λ r, resolve_rule_block r rule_id with
  | Some w => Some w
  | None =>
      s ← cn_static c; info ← registry_get s rule_id;
      Some (mkContext [si_file info] [si_line info] [])
  end.

(** The context that is logged: the winner's, and those of every FireHOL target
    that contains the source address. *)
Definition log_context (c : consumer) (event : PacketLogEvent) : RuleBlockContext :=
  let block := match winning c (ev_rule_id event) with
    | Some w => merge_into RuleBlockContext_default w | None => RuleBlockContext_default end in
  match cn_registry c with
  | Some r =>
      let src := match src_addr event with V4 o => o | V6 o => o end in
      fold_left merge_into (lookup_ip r (ev_ip_version event) src) block
  | None => block
  end.

(** The metrics of one event. *)
Definition count_event (c : consumer) (event : PacketLogEvent) (m : telemetry) : telemetry :=
  let m := record_blocked_packet m (name_label (protocol_name event))
    (name_label (match_type_name event)) (ev_packet_len event) in
  let m := record_blocked_ip m (src_addr event) (protocol_from_u8 (ev_protocol event))
    (ev_packet_len event) in
  match cn_registry c ≫= λ r, resolve_rule r (ev_rule_id event) with
  | Some info =>
      record_drop m (as_str (be_category info)) (name_label (protocol_name event))
        (ev_packet_len event)
  | None => m
  end.

(** The body of [while let Some(item) = ring_buf.next()]. *)
Definition consume_item (c : consumer) (item : list Z) : consumer :=
  let c := set_metrics c (record_ringbuf_event <$> cn_metrics c) in
  if negb (len item =? EVENT_SIZE) then
    set_metrics c ((λ m, record_error m (lit "ringbuf_malformed")) <$> cn_metrics c)
  else
    let event := event_of_bytes item in
    let c := set_metrics c (count_event c event <$> cn_metrics c) in
    if cn_log_drops c then
      mkConsumer (cn_registry c) (cn_static c) (cn_log_drops c) (cn_metrics c)
        (cn_log c ++ [(event, log_context c event)])
    else c.

Fixpoint drain (fuel : nat) (r : R) (c : consumer) : R * consumer :=
  match fuel, rb_next r with
  | Datatypes.S fuel', Some (item, r') => drain fuel' r' (consume_item c item)
  | _, _ => (r, c)
  end.
(** Until [next] returns nothing. *)
Definition drain_batch (r : R) (c : consumer) : R * consumer := drain (length (rb_queue r)) r c.
End Consumer.

(** ** Merging unites the sources *)
Lemma file_lines_wf cx : context_wf cx → file_lines cx = sources cx.
Proof.
  unfold context_wf, file_lines, sources. destruct cx as [fs ls cs]; cbn [cx_files cx_lines].
  revert ls. induction fs as [|f fs IH]; intros [|l ls] Hl; try done.
  rewrite imap_cons. cbn [lookup list_lookup default id zip zip_with]. f_equal.
  rewrite <-(IH ls) by (simpl in Hl; lia). done.
Qed.

Lemma merge_source_spec dst fl x :
  context_wf dst →
  context_wf (merge_source dst fl) ∧ (x ∈ sources (merge_source dst fl) ↔ x ∈ sources dst ∨ x = fl).
Proof.
  intros Hw. unfold merge_source. rewrite file_lines_wf by done. case_bool_decide.
  - split; [done|]. split; [tauto|]. by intros [?| ->].
  - unfold context_wf, sources in *. cbn [cx_files cx_lines]. rewrite !length_app, Hw. split; [done|].
    rewrite zip_with_app by done. destruct fl. set_solver.
Qed.

Lemma merge_sources_spec l : ∀ dst,
  context_wf dst →
  context_wf (fold_left merge_source l dst) ∧
  ∀ x, x ∈ sources (fold_left merge_source l dst) ↔ x ∈ sources dst ∨ x ∈ l.
Proof.
  induction l as [|fl l IH]; intros dst Hw; [split; [done|set_solver]|].
  destruct (merge_source_spec dst fl fl Hw) as [Hw1 _]. destruct (IH _ Hw1) as [Hw2 Hx].
  split; [exact Hw2|]. intros x. cbn [fold_left]. rewrite Hx.
  rewrite (proj2 (merge_source_spec dst fl x Hw)), elem_of_cons. tauto.
Qed.

Lemma merge_categories_spec l : ∀ dst,
  context_wf dst → context_wf (fold_left merge_category l dst) ∧
  sources (fold_left merge_category l dst) = sources dst.
Proof.
  induction l as [|c l IH]; intros dst Hw; [done|]. cbn [fold_left].
  assert (context_wf (merge_category dst c) ∧ sources (merge_category dst c) = sources dst)
    as [Hw1 H1] by (unfold merge_category; by case_bool_decide).
  rewrite <-H1. by apply IH.
Qed.

Lemma merge_into_spec dst src :
  context_wf dst → context_wf (merge_into dst src) ∧
  ∀ x, x ∈ sources (merge_into dst src) ↔ x ∈ sources dst ∨ x ∈ file_lines src.
Proof.
  intros Hw. unfold merge_into. destruct (merge_sources_spec (file_lines src) dst Hw) as [Hw1 H1].
  destruct (merge_categories_spec (cx_categories src) _ Hw1) as [Hw2 ->]. done.
Qed.

Lemma merge_all_spec cxs : ∀ dst,
  context_wf dst → Forall context_wf cxs →
  ∀ x, x ∈ sources (fold_left merge_into cxs dst) ↔ x ∈ sources dst ∨ listed cxs x.
Proof.
  induction cxs as [|cx cxs IH]; intros dst Hw Hws x.
  { unfold listed. set_solver. }
  inversion_clear Hws as [|?? Hcx Hws']. destruct (merge_into_spec dst cx Hw) as [Hw1 H1].
  cbn [fold_left]. rewrite (IH _ Hw1 Hws'), H1, file_lines_wf by done.
  unfold listed. setoid_rewrite elem_of_cons. naive_solver.
Qed.

(** ** Draining *)
Section ConsumerProofs.
Context {V : Type} `{!CounterVec V} {S : Type} `{!ContextStore S} `{!HashOrder}.
Context {R : Type} `{!RingBuffer R}.
Implicit Types (c : consumer (V := V) (S := S)) (m : telemetry (V := V)).

Lemma drain_spec fuel : ∀ (r : R) c,
  length (rb_queue r) = fuel →
  ∃ r', drain fuel r c = (r', fold_left consume_item (rb_queue r) c) ∧ rb_queue r' = [].
Proof.
  induction fuel as [|fuel IH]; intros r c Hl.
  { exists r. destruct (rb_queue r) eqn:E; [|done]. split; [|done]. cbn. by destruct (rb_next r) as [[]|]. }
  pose proof (rb_next_spec r) as Hn. cbn [drain]. destruct (rb_next r) as [[item r1]|].
  - rewrite Hn in Hl |- *. simpl in Hl. destruct (IH r1 (consume_item c item)) as (r' & -> & Hr');
      [lia|]. by exists r'.
  - by rewrite Hn in Hl.
Qed.

Lemma consume_event c e :
  event_ok e →
  let c1 := set_metrics c (record_ringbuf_event <$> cn_metrics c) in
  let c2 := set_metrics c1 (count_event c1 e <$> cn_metrics c1) in
  consume_item c (event_to_bytes e) =
    if cn_log_drops c then
      mkConsumer (cn_registry c) (cn_static c) (cn_log_drops c) (cn_metrics c2)
        (cn_log c ++ [(e, log_context c2 e)])
    else c2.
Proof.
  intros He c1 c2. unfold consume_item. destruct (event_bytes_roundtrip e He) as [Hl Hb].
  unfold len. rewrite Hl, Hb, Z.eqb_refl. done.
Qed.

(** What one event adds to the metrics. *)
Definition counted_once c e m m' : Prop :=
  tm_ringbuf_events_total m' = wrap_u64 (tm_ringbuf_events_total m + 1) ∧
  cv_series (tm_packets_total m') =
    <[drop_label := wrap_u64 (default 0 (cv_series (tm_packets_total m) !! drop_label) + 1)]>
      (cv_series (tm_packets_total m)) ∧
  cv_series (tm_bytes_total m') =
    <[drop_label := wrap_u64 (default 0 (cv_series (tm_bytes_total m) !! drop_label) +
        ev_packet_len e)]> (cv_series (tm_bytes_total m)) ∧
  tm_top_blocked_ips m' = record_event (tm_top_blocked_ips m) (src_addr e)
    (protocol_from_u8 (ev_protocol e)) (ev_packet_len e) ∧
  tm_errors_total m' = tm_errors_total m.

Lemma consume_event_metrics c e m :
  event_ok e → cn_metrics c = Some m →
  ∃ m', cn_metrics (consume_item c (event_to_bytes e)) = Some m' ∧ counted_once c e m m' ∧
    (cn_log (consume_item c (event_to_bytes e))).*1 =
      (cn_log c).*1 ++ (if cn_log_drops c then [e] else []) ∧
    cn_log_drops (consume_item c (event_to_bytes e)) = cn_log_drops c.
Proof.
  intros He Hm. rewrite consume_event by done. rewrite Hm. cbn [fmap option_fmap option_map
    cn_metrics set_metrics].
  set (c1 := set_metrics c _). set (m' := count_event c1 e (record_ringbuf_event m)).
  assert (counted_once c e m m') as Hc.
  { unfold m', count_event. destruct (_ ≫= _) as [info|];
      (split_and!; [done|apply cv_inc_by_spec|apply cv_inc_by_spec|done|done]). }
  destruct (cn_log_drops c) eqn:Hd; eexists; (split; [done|]); (split; [exact Hc|]).
  - cbn [cn_log cn_log_drops]. by rewrite fmap_app.
  - unfold c1. cbn [set_metrics cn_log cn_log_drops]. by rewrite app_nil_r.
Qed.

(** The sequence of events as the ranking sees it. *)
Definition top_event (e : PacketLogEvent) : IpAddr * BlockedProtocol * Z :=
  (src_addr e, protocol_from_u8 (ev_protocol e), ev_packet_len e).
Definition packet_bytes (evs : list PacketLogEvent) : Z :=
  fold_right (λ e n, ev_packet_len e + n) 0 evs.

(** The metrics after counting [evs]. *)
Definition counted_all (evs : list PacketLogEvent) m m' : Prop :=
  tm_ringbuf_events_total m' = wrap_u64 (tm_ringbuf_events_total m + len evs) ∧
  default 0 (cv_series (tm_packets_total m') !! drop_label) =
    wrap_u64 (default 0 (cv_series (tm_packets_total m) !! drop_label) + len evs) ∧
  default 0 (cv_series (tm_bytes_total m') !! drop_label) =
    wrap_u64 (default 0 (cv_series (tm_bytes_total m) !! drop_label) + packet_bytes evs) ∧
  tm_top_blocked_ips m' = run_events (tm_top_blocked_ips m) (top_event <$> evs) ∧
  tm_errors_total m' = tm_errors_total m.

Definition counters_u64 m : Prop :=
  in_width 64 (tm_ringbuf_events_total m) ∧
  in_width 64 (default 0 (cv_series (tm_packets_total m) !! drop_label)) ∧
  in_width 64 (default 0 (cv_series (tm_bytes_total m) !! drop_label)).

Lemma counted_cons c e evs m m1 m' :
  counted_once c e m m1 → counted_all evs m1 m' → counted_all (e :: evs) m m'.
Proof.
  intros (C1 & C2 & C3 & C4 & C5) (E1 & E2 & E3 & E4 & E5).
  rewrite C2, lookup_insert_eq in E2. rewrite C3, lookup_insert_eq in E3. cbn [from_option id] in E2, E3.
  split_and!.
  - rewrite E1, C1, wrap_add_l. f_equal. unfold len. cbn [length]. lia.
  - rewrite E2, wrap_add_l. f_equal. unfold len. cbn [length]. lia.
  - rewrite E3, wrap_add_l. f_equal.
    change (packet_bytes (e :: evs)) with (ev_packet_len e + packet_bytes evs). lia.
  - rewrite E4, C4. done.
  - congruence.
Qed.

Lemma counted_once_u64 c e m m1 : counted_once c e m m1 → counters_u64 m1.
Proof.
  intros (C1 & C2 & C3 & _). unfold counters_u64.
  rewrite C1, C2, C3, !lookup_insert_eq. split_and!; by apply wrap_in_width.
Qed.

Lemma counted_none m : counters_u64 m → counted_all [] m m.
Proof.
  intros (W1 & W2 & W3). unfold counted_all, packet_bytes, len. cbn. by rewrite !Z.add_0_r, !wrap_small.
Qed.

Lemma consume_all evs : ∀ c m,
  Forall event_ok evs → cn_metrics c = Some m → counters_u64 m →
  let c' := fold_left consume_item (event_to_bytes <$> evs) c in
  ∃ m', cn_metrics c' = Some m' ∧ counted_all evs m m' ∧
    (cn_log c').*1 = (cn_log c).*1 ++ (if cn_log_drops c then evs else []).
Proof.
  induction evs as [|e evs IH]; intros c m Hok Hm Hw.
  { exists m. split_and!; [done|by apply counted_none|by destruct (cn_log_drops c); rewrite app_nil_r]. }
  inversion_clear Hok as [|?? He Hok'].
  destruct (consume_event_metrics c e m He Hm) as (m1 & Hm1 & Hc1 & Hlog & Hld).
  destruct (IH _ m1 Hok' Hm1) as (m' & Hm' & Hc' & Hlog'); [by eapply counted_once_u64|].
  rewrite fmap_cons. cbn [fold_left]. exists m'. split; [exact Hm'|]. split; [by eapply counted_cons|].
  rewrite Hlog', Hlog, Hld, <-app_assoc. by destruct (cn_log_drops c).
Qed.

(** The sources a logged drop names. *)
Lemma log_context_sources c (r : FireholMetadataRegistry S) e x :
  cn_registry c = Some r → Forall context_wf (lookup_addr r (src_addr e)) →
  ev_ip_version e = 4 ∨ ev_ip_version e = 6 →
  x ∈ sources (log_context c e) ↔
    (∃ w, winning c (ev_rule_id e) = Some w ∧ x ∈ file_lines w) ∨
    listed (lookup_addr r (src_addr e)) x.
Proof.
  intros Hr Hw Hv. unfold log_context. rewrite Hr.
  assert (lookup_ip r (ev_ip_version e) (match src_addr e with V4 o => o | V6 o => o end) =
    lookup_addr r (src_addr e)) as ->.
  { unfold src_addr. by destruct Hv as [-> | ->]. }
  assert (Hd : context_wf RuleBlockContext_default) by done.
  destruct (winning c (ev_rule_id e)) as [w|].
  - destruct (merge_into_spec RuleBlockContext_default w Hd) as [Hwf Hx].
    rewrite merge_all_spec, Hx by done. set_solver.
  - rewrite merge_all_spec by done. set_solver.
Qed.
End ConsumerProofs.

(** ** Theorems *)
Section Claims.
Context {V : Type} `{!CounterVec V} {S : Type} `{!ContextStore S} `{!HashOrder}.
Context {R : Type} `{!RingBuffer R}.
Implicit Types (c : consumer (V := V) (S := S)) (m : telemetry (V := V)).

(** One readiness batch over records the kernel wrote: the ring
    buffer is empty afterwards, every record is reinterpreted as the event it
    was, in order, none counts as an error; the event counter, the drop counter
    and the byte counter grow by the number and the size of the packets, the
    ranking records one packet per event, and the log holds exactly these events
    when logging is on. *)
Theorem drain_consumes_every_event (r : R) c m evs :
  rb_queue r = event_to_bytes <$> evs → Forall event_ok evs → cn_metrics c = Some m →
  counters_u64 m →
  ∃ r' c' m', drain_batch r c = (r', c') ∧ rb_queue r' = [] ∧ cn_metrics c' = Some m' ∧
    counted_all evs m m' ∧
    (cn_log c').*1 = (cn_log c).*1 ++ (if cn_log_drops c then evs else []).
Proof.
  intros Hq Hok Hm Hw. destruct (drain_spec _ r c eq_refl) as (r' & Hd & Hr').
  destruct (consume_all evs c m Hok Hm Hw) as (m' & Hm' & Hc & Hl). rewrite Hq in Hd.
  exists r', (fold_left consume_item (event_to_bytes <$> evs) c), m'. split; [|done].
  unfold drain_batch. by rewrite Hq in *.
Qed.

(** What the consumer's registry knows of the imported entries: their index in memory;
    or, with the disk cache, their contexts in the store, which is asked for an IPv4
    address. *)
Definition indexed (reg : FireholMetadataRegistry S) entries (ip : IpAddr) : Prop :=
  (∃ reg0, rg_cache reg0 = None ∧ reg = build_ip_index reg0 entries) ∨
  (∃ s o, rg_cache reg = Some s ∧ holds_contexts reg s entries ∧ ip = V4 o).

Lemma indexed_lookup `{!ContextStoreLaws S} reg entries ip :
  indexed reg entries ip → (∀ x, x ∈ entries → target_ok (fe_target x)) → ip_ok ip →
  Forall context_wf (lookup_addr reg ip) ∧
  ∀ fl, listed (lookup_addr reg ip) fl ↔
    ∃ t, target_covers t ip ∧ contributed (file_name_for reg) entries t fl.
Proof.
  intros [(reg0 & Hc & ->)|(s & o & Hc & Hs & ->)] Hok Hip.
  - split; [by apply ram_contexts_wf|]. intros fl. by rewrite ram_attribution, build_ip_index_names.
  - split; [by eapply held_contexts_wf|]. intros fl. by apply (held_attribution_v4 reg s).
Qed.

(** C29 (functional). The log line of a drop names a file and line exactly when the
    winning rule does, or when an imported entry from there covers the source address:
    for both families when the registry is in memory, and for an IPv4 source when the
    disk cache holds the contexts of the import. For an IPv6 source looked up in the
    disk cache this is not so ([cached_lookup_ipv6_misses]). *)
Theorem logged_sources_explain_the_drop `{!ContextStoreLaws S} c (reg : FireholMetadataRegistry S)
    entries e fl :
  cn_registry c = Some reg → indexed reg entries (src_addr e) →
  (∀ x, x ∈ entries → target_ok (fe_target x)) → ip_ok (src_addr e) →
  ev_ip_version e = 4 ∨ ev_ip_version e = 6 →
  fl ∈ sources (log_context c e) ↔
    (∃ w, winning c (ev_rule_id e) = Some w ∧ fl ∈ file_lines w) ∨
    ∃ t, target_covers t (src_addr e) ∧ contributed (file_name_for reg) entries t fl.
Proof.
  intros Hr Hi Hok Hip Hv. destruct (indexed_lookup reg entries (src_addr e) Hi Hok Hip) as [Hw Hl].
  by rewrite (log_context_sources c reg e fl Hr Hw Hv), Hl.
Qed.
End Claims.

(** ** Witnesses *)
#[local] Existing Instance canonical_order.
Abbreviation demo_vec := (gmap (list (list Z)) Z).
Definition demo_telemetry : telemetry (V := demo_vec) :=
  mkTelemetry ∅ ∅ ∅ 0 ∅ (BlockedIpTopN_new 100 ByPackets) ∅ ∅.
Definition demo_consumer : consumer (V := demo_vec) (S := MemStore) :=
  mkConsumer (Some (build_ip_index demo_ram demo_entries)) None true (Some demo_telemetry) [].
Definition demo_drop : PacketLogEvent :=
  mkEvent 5 ([10; 1; 2; 3] ++ replicate 12 0) ([192; 168; 0; 1] ++ replicate 12 0) 1 60 2 4660 443
    6 4 ACTION_DROP MATCH_LPM_TRIE (replicate 4 0).
Definition demo_queue : BoundedQueue := mkQueue 8 [event_to_bytes demo_drop; event_to_bytes demo_drop].
#[local] Instance event_ok_dec e : Decision (event_ok e).
Proof. unfold event_ok. apply _. Defined.

Lemma drain_consumes_every_event_witness :
  ∃ r' c' m', drain_batch demo_queue demo_consumer = (r', c') ∧ rb_queue r' = [] ∧
    cn_metrics c' = Some m' ∧ tm_ringbuf_events_total m' = 2 ∧
    (cn_log c').*1 = [demo_drop; demo_drop].
Proof.
  destruct (drain_consumes_every_event demo_queue demo_consumer demo_telemetry [demo_drop; demo_drop])
    as (r' & c' & m' & Hd & Hr & Hm & (H1 & _) & Hl); [reflexivity|by_decide|reflexivity|by_decide|].
  exists r', c', m'. split; [exact Hd|]. split; [exact Hr|]. split; [exact Hm|].
  split; [exact H1|exact Hl].
Defined.

Definition demo_cached_consumer : consumer (V := demo_vec) (S := MemStore) :=
  mkConsumer (Some (build_ip_index demo_disk demo_entries)) None true (Some demo_telemetry) [].

(** In memory and from the disk cache. *)
Lemma logged_sources_explain_the_drop_witness :
  (lit "dshield.netset", 5) ∈ sources (log_context demo_consumer demo_drop) ∧
  (lit "dshield.netset", 5) ∈ sources (log_context demo_cached_consumer demo_drop).
Proof.
  split.
  - apply (logged_sources_explain_the_drop demo_consumer (build_ip_index demo_ram demo_entries) demo_entries);
      [reflexivity|left; by exists demo_ram|apply demo_entries_ok|by_decide|by left|].
    right. exists (TCidrV4 8 [10; 0; 0; 0]). split; [by_decide|].
    exists (mkEntry (TCidrV4 8 [10; 0; 0; 0]) 1 1 5). split; [by left|]. by_decide.
  - destruct (build_ip_index_holds ltac:(by eexists) demo_disk (default (mkStore ∅ ∅) (rg_cache demo_disk)) demo_entries)
      as (s & E & Hs); [reflexivity|done|reflexivity|apply demo_entries_ok|].
    apply (logged_sources_explain_the_drop demo_cached_consumer (build_ip_index demo_disk demo_entries)
      demo_entries); [reflexivity| |apply demo_entries_ok|by_decide|by left|].
    { right. rewrite E. exists s, [10; 1; 2; 3]. split; [reflexivity|]. split; [exact Hs|by_decide]. }
    right. exists (TCidrV4 8 [10; 0; 0; 0]). split; [by_decide|].
    exists (mkEntry (TCidrV4 8 [10; 0; 0; 0]) 1 1 5). split; [by left|]. by_decide.
Defined.
