(* ===== verification/LogText.v ===== *)
(** * The text of a logged drop ([log_event], [format_human_event] of [src/ringbuf.rs])

    In human mode a line naming every file and line that explains the drop; in JSON
    mode an object, whose printing is [serde_json]'s. The label of the rule sources is
    shown to be readable: it determines files and lines. *)
From stdpp Require Import base numbers list gmap fin_maps strings sorting.
From Stdlib Require Import ZArith Lia.
From S2P Require Import Prelude Net Common BpfMaps Str Fmt Lines Entry Metadata Attribution Loader Console TopN RingBuf.

Local Open Scope Z_scope.

(** The values the event object holds. *)
Inductive json : Type :=
| JNumber (n : Z)
| JString (s : list Z)
| JArray (l : list (list Z)).
(** [serde_json::Map]: sorted by key. *)
Abbreviation json_object := (gmap (list Z) json).

(** One file with its line, when known. *)
Definition show_source (fl : list Z * Z) : list Z :=
  if 0 <? fl.2 then fl.1 ++ lit ":" ++ decimal fl.2 else fl.1.

Definition event_json (event : PacketLogEvent) (block : option RuleBlockContext) : json_object :=
  let obj : json_object := list_to_map [
    (lit "timestamp_ns", JNumber (ev_timestamp_ns event));
    (lit "action", JString (name_label (action_name event)));
    (lit "ip_version", JNumber (ev_ip_version event));
    (lit "src_ip", JString (ip_to_string (src_addr event)));
    (lit "dst_ip", JString (ip_to_string (dst_addr event)));
    (lit "src_port", JNumber (ev_src_port event));
    (lit "dst_port", JNumber (ev_dst_port event));
    (lit "protocol", JString (name_label (protocol_name event)));
    (lit "rule_id", JNumber (ev_rule_id event));
    (lit "match_type", JString (name_label (match_type_name event)));
    (lit "packet_len", JNumber (ev_packet_len event));
    (lit "ifindex", JNumber (ev_ifindex event))] in
  match block with
  | Some block =>
      <[lit "categories" := JArray (as_str <$> cx_categories block)]>
        (<[lit "rule_files" := JArray (show_source <$> file_lines block)]> obj)
  | None => obj
  end.

(** The loop that pushes [", "] before every item but the first. *)
Fixpoint comma_list (items : list (list Z)) : list Z :=
  match items with
  | [] => []
  | [x] => x
  | x :: rest => x ++ lit ", " ++ comma_list rest
  end.
Definition rule_label (block : option RuleBlockContext) : list Z :=
  match block with
  | Some block => if bool_decide (cx_files block = []) then lit "-"
                  else comma_list (show_source <$> file_lines block)
  | None => lit "-"
  end.
Definition category_label (block : option RuleBlockContext) : list Z :=
  match block with
  | Some block => if bool_decide (cx_categories block = []) then lit "-"
                  else comma_list (as_str <$> cx_categories block)
  | None => lit "-"
  end.

(** [impl Display for PacketLogEvent]. *)
Definition event_display (event : PacketLogEvent) : list Z :=
  lit "[" ++ name_label (action_name event) ++ lit "] IPv" ++ decimal (ev_ip_version event) ++ lit " " ++
  ip_to_string (src_addr event) ++ lit ":" ++ decimal (ev_src_port event) ++ lit " -> " ++
  ip_to_string (dst_addr event) ++ lit ":" ++ decimal (ev_dst_port event) ++ lit " proto=" ++
  name_label (protocol_name event) ++ lit " rule_id=" ++ decimal (ev_rule_id event) ++ lit " len=" ++
  decimal (ev_packet_len event) ++ lit "B match='" ++ name_label (match_type_name event) ++
  lit "' ifindex=" ++ decimal (ev_ifindex event).

(** [FireholIpTarget::to_string_repr]. *)
Definition to_string_repr (t : FireholIpTarget) : list Z :=
  match t with
  | TExactV4 o => ip_to_string (V4 o)
  | TExactV6 o => ip_to_string (V6 o)
  | TCidrV4 p o => ip_to_string (V4 o) ++ lit "/" ++ decimal p
  | TCidrV6 p o => ip_to_string (V6 o) ++ lit "/" ++ decimal p
  end.

Section Log.
Context `{!PrettyConsole} (no_color : bool) (to_json : json_object → list Z).

Definition format_human_event (event : PacketLogEvent) (block : option RuleBlockContext) : list Z :=
  let b t := show (bold no_color t) in
  show (red_bold no_color (uni "🚫 [BLOCKED] " ++ name_label (action_name event))) ++
  uni " | 🌐 IPv" ++ b (decimal (ev_ip_version event)) ++ lit " " ++
  b (ip_to_string (src_addr event)) ++ lit ":" ++ b (decimal (ev_src_port event)) ++ lit " -> " ++
  b (ip_to_string (dst_addr event)) ++ lit ":" ++ b (decimal (ev_dst_port event)) ++
  uni " | 🔌 Proto: " ++
  b (pad_right 5 (name_label (protocol_name event))) ++
  uni " | 📋 Rule: " ++ b (rule_label block) ++
  uni " | 🏷️ Category: " ++ b (category_label block) ++
  uni " | 🎯 Match: " ++ b (pad_right 14 (name_label (match_type_name event))).

(** What reaches the console: a line of standard output, or a warning. *)
Inductive log_output : Type := Printed (line : list Z) | Warned (line : list Z).
Definition log_event (json_mode : bool) (event : PacketLogEvent) (block : option RuleBlockContext)
    : log_output :=
  if json_mode then Printed (to_json (event_json event block))
  else Warned (format_human_event event block).
End Log.

(** ** Reading the label back *)

(** Pieces between commas, each but the first after a space; a piece is split at its
    last colon. *)
Definition read_source (s : list Z) : list Z * Z :=
  match split_once 58 (reverse s) with
  | Some (line, file) => (reverse file, digits_value (reverse line))
  | None => (s, 0)
  end.

Lemma split_once_app c a b : c ∉ a → split_once c (a ++ c :: b) = Some (a, b).
Proof.
  induction a as [|x a IH]; intros Hc; cbn [app split_once]; [by rewrite Z.eqb_refl|].
  apply not_elem_of_cons in Hc as [Hx Hc]. rewrite (proj2 (Z.eqb_neq x c)) by congruence.
  by rewrite IH.
Qed.

Lemma read_show_source fl : 0 < fl.2 < 2 ^ 32 → read_source (show_source fl) = fl.
Proof.
  destruct fl as [f l]. cbn [snd]. intros Hl. unfold show_source, read_source. cbn [fst snd].
  rewrite (proj2 (Z.ltb_lt 0 l)) by lia. change (lit ":") with [58].
  rewrite !reverse_app, reverse_singleton. cbn [app]. rewrite <-app_assoc. cbn [app].
  rewrite split_once_app; cycle 1.
  { rewrite elem_of_reverse. intros Hin. pose proof (to_radix_digits 20 l ltac:(lia)) as Hd.
    rewrite Forall_forall in Hd. specialize (Hd _ Hin). lia. }
  rewrite !reverse_involutive. by rewrite decimal_value by lia.
Qed.

Lemma comma_list_join x rest :
  comma_list (x :: rest) = join_with 44 (x :: ((λ y, 32 :: y) <$> rest)).
Proof.
  revert x. induction rest as [|y rest IH]; intros x; [done|].
  change (comma_list (x :: y :: rest)) with (x ++ lit ", " ++ comma_list (y :: rest)).
  rewrite IH, fmap_cons.
  change (join_with 44 (x :: (32 :: y) :: ((λ y, 32 :: y) <$> rest)))
    with (x ++ 44 :: join_with 44 ((32 :: y) :: ((λ y, 32 :: y) <$> rest))).
  f_equal. change (lit ", ") with [44; 32]. cbn [app]. f_equal. by destruct rest.
Qed.

Definition read_label (s : list Z) : list (list Z * Z) :=
  match split 44 s with
  | p :: ps => read_source p :: (read_source ∘ drop 1 <$> ps)
  | [] => []
  end.

(** File names without a comma and known lines: the label determines the sources. *)
Lemma rule_label_reads_back block :
  cx_files block ≠ [] → Forall (λ fl, 44 ∉ fl.1 ∧ 0 < fl.2 < 2 ^ 32) (file_lines block) →
  read_label (rule_label (Some block)) = file_lines block.
Proof.
  intros Hne Hok. unfold rule_label. rewrite bool_decide_eq_false_2 by done.
  destruct (file_lines block) as [|fl fls] eqn:Hfl.
  { exfalso. apply Hne. apply length_zero_iff_nil.
    apply (f_equal length) in Hfl. unfold file_lines in Hfl. by rewrite length_imap in Hfl. }
  assert (Hcomma : ∀ fl : list Z * Z, 44 ∉ fl.1 → 0 < fl.2 < 2 ^ 32 → 44 ∉ show_source fl).
  { intros [f l] Hf Hl. cbn [fst snd] in *. unfold show_source. cbn [fst snd].
    rewrite (proj2 (Z.ltb_lt 0 l)) by lia. rewrite !elem_of_app. intros [?|[Hin|Hin]]; [done| |].
    - by apply list_elem_of_singleton in Hin.
    - pose proof (to_radix_digits 20 l ltac:(lia)) as Hd. rewrite Forall_forall in Hd.
      specialize (Hd _ Hin). lia. }
  inversion_clear Hok as [|?? [Hf Hl] Hfls].
  unfold read_label. rewrite fmap_cons, comma_list_join, split_join; [|done|].
  - rewrite read_show_source by done. f_equal. clear Hfl. induction Hfls as [|y ys [? ?] _ IH]; [done|].
    rewrite !fmap_cons, IH. f_equal. by apply read_show_source.
  - constructor; [by apply Hcomma|]. rewrite !Forall_fmap. eapply Forall_impl; [exact Hfls|].
    intros z [? ?]. cbn. rewrite not_elem_of_cons. split; [done|by apply Hcomma].
Qed.
