(* ===== verification/Telemetry.v ===== *)
(** * Metrics, the statistics reporter and the HTTP endpoint ([src/metrics.rs],
    [src/stats.rs])

    The collectors the daemon keeps besides those of the ring-buffer consumer: gauges
    of the map entries, accepted traffic copied from the kernel counters, and the
    ranking exported on every scrape; the reporter's tick; the requests the HTTP
    server answers, among them the switch of the drop log that the traffic tools use
    ([Server] has its accept loop, [Collectors] the registration). Latency histograms and the text encoder of Prometheus are not modelled. *)
From stdpp Require Import base numbers list gmap fin_maps strings sorting.
From Stdlib Require Import ZArith Lia SpecFloat.
From S2P Require Import Prelude Net Common BpfMaps Str Fmt Lines Metadata Console TopN RingBuf.
From S2P Require Import Wire Xdp.

Local Open Scope Z_scope.

(** [x as i64] and [i64] arithmetic. *)
Definition wrap_i64 (z : Z) : Z := let u := wrap 64 z in if u <? 2 ^ 63 then u else u - 2 ^ 64.

(** [resolve_git_ref]. *)
Definition resolve_git_ref (tag commit : option (list Z)) : list Z :=
  let usable o := match o with
    | Some t => let trimmed := trim t in if len trimmed =? 0 then None else Some trimmed
    | None => None
    end in
  match usable tag with
  | Some t => t
  | None => match usable commit with Some c => c | None => lit "unknown" end
  end.

Definition accept_label : list (list Z) := [lit "accept"].
Abbreviation gauges := (gmap (list (list Z)) Z).
Definition gauge (g : gauges) (l : list (list Z)) : Z := default 0 (g !! l).

Definition hashmap_v4 : list (list Z) := [lit "hashmap"; lit "ipv4"; lit "ip"].
Definition hashmap_v6 : list (list Z) := [lit "hashmap"; lit "ipv6"; lit "ip"].
Definition lpm_trie_v4 : list (list Z) := [lit "lpm_trie"; lit "ipv4"; lit "cidr"].
Definition lpm_trie_v6 : list (list Z) := [lit "lpm_trie"; lit "ipv6"; lit "cidr"].

Section Metrics.
Context {V : Type} `{!CounterVec V} `{!HashOrder}.

(** [pm_telemetry] holds the collectors of the consumer, with the ranking. *)
Record PrometheusMetrics : Type := mkPrometheus {
  pm_firewall_up : Z;
  pm_build_info : gauges;
  pm_telemetry : telemetry (V := V);
  pm_packets_accepted_total : Z;
  pm_rules_active : gauges;
  pm_rules_total : Z;
  pm_map_entries : gauges;
  pm_blocked : metric_vecs (V := V);
}.
Implicit Type m : PrometheusMetrics.

Definition set_telemetry m (t : telemetry (V := V)) : PrometheusMetrics :=
  mkPrometheus (pm_firewall_up m) (pm_build_info m) t (pm_packets_accepted_total m)
    (pm_rules_active m) (pm_rules_total m) (pm_map_entries m) (pm_blocked m).
Definition set_gauges m (active : gauges) (total : Z) (entries : gauges) : PrometheusMetrics :=
  mkPrometheus (pm_firewall_up m) (pm_build_info m) (pm_telemetry m) (pm_packets_accepted_total m)
    active total entries (pm_blocked m).
Definition set_up m (v : Z) : PrometheusMetrics :=
  mkPrometheus v (pm_build_info m) (pm_telemetry m) (pm_packets_accepted_total m)
    (pm_rules_active m) (pm_rules_total m) (pm_map_entries m) (pm_blocked m).

(** [with_git_ref]: [vec names] is a vector without series, for series with a value of
    each of these labels. *)
Definition with_git_ref (vec : list (list Z) → V) (version git_ref : list Z) : PrometheusMetrics :=
  let touch (v : V) (l : list (list (list Z))) := fold_left cv_touch l v in
  let action := vec [lit "action"] in
  let by_protocol := vec [lit "ip"; lit "protocol"] in
  let by_ip := vec [lit "ip"] in
  mkPrometheus 1 {[ [version; git_ref; lit "0.14.0"] := 1 ]}
    (mkTelemetry (touch action [accept_label; drop_label])
       (touch (vec [lit "protocol"; lit "match_type"])
          [[lit "TCP"; lit "Exact HashMap"]; [lit "UDP"; lit "Exact HashMap"];
           [lit "ICMP"; lit "Exact HashMap"]])
       (touch action [accept_label; drop_label]) 0
       (touch (vec [lit "error_type"]) [[lit "sync"]; [lit "ringbuf_poll"]])
       (BlockedIpTopN_new 100 ByPackets) (vec [lit "category"; lit "protocol"]) (vec [lit "category"]))
    0 (list_to_map ((λ l, ([l], 0)) <$> [lit "exact_v4"; lit "exact_v6"; lit "lpm_v4"; lit "lpm_v6"]))
    0 (list_to_map ((λ l, (l, 0)) <$> [lpm_trie_v4; lpm_trie_v6; hashmap_v4; hashmap_v6]))
    (mkVecs by_protocol by_protocol by_ip by_ip 0).

(** *** Accepted traffic *)
Definition inc_accepted m (packets bytes : Z) (count_packets count_bytes : bool) : PrometheusMetrics :=
  let t := pm_telemetry m in
  mkPrometheus (pm_firewall_up m) (pm_build_info m)
    (mkTelemetry
       (if count_packets then cv_inc_by (tm_packets_total t) accept_label packets else tm_packets_total t)
       (tm_packets_blocked_total t)
       (if count_bytes then cv_inc_by (tm_bytes_total t) accept_label bytes
        else cv_touch (tm_bytes_total t) accept_label)
       (tm_ringbuf_events_total t) (tm_errors_total t) (tm_top_blocked_ips t)
       (tm_firehol_packets t) (tm_firehol_bytes t))
    (if count_packets then wrap_u64 (pm_packets_accepted_total m + packets)
     else pm_packets_accepted_total m)
    (pm_rules_active m) (pm_rules_total m) (pm_map_entries m) (pm_blocked m).
Definition record_accepted_packet m (byte_len : Z) : PrometheusMetrics :=
  inc_accepted m 1 byte_len true true.
Definition record_passed_packet m (byte_len : Z) : PrometheusMetrics := record_accepted_packet m byte_len.

(** [with_label_values(["accept"]).get()]. *)
Definition accepted_bytes_total m : Z :=
  default 0 (cv_series (tm_bytes_total (pm_telemetry m)) !! accept_label).

Definition update_from_ebpf_stats m (stats : FirewallStats) : PrometheusMetrics :=
  let current_accepted := pm_packets_accepted_total m in
  let m := if current_accepted <? accepted_packets stats
           then inc_accepted m (accepted_packets stats - current_accepted) 0 true false else m in
  let current_accepted_bytes := accepted_bytes_total m in
  if current_accepted_bytes <? accepted_bytes stats
  then inc_accepted m 0 (accepted_bytes stats - current_accepted_bytes) false true
  else inc_accepted m 0 0 false false.

(** *** Gauges of the rules *)
Definition update_rules_count m (exact_v4 exact_v6 lpm_v4 lpm_v6 : Z) : PrometheusMetrics :=
  let total := wrap_u64 (exact_v4 + exact_v6 + lpm_v4 + lpm_v6) in
  set_gauges m
    (<[[lit "lpm_v6"] := wrap_i64 lpm_v6]> (<[[lit "lpm_v4"] := wrap_i64 lpm_v4]>
      (<[[lit "exact_v6"] := wrap_i64 exact_v6]> (<[[lit "exact_v4"] := wrap_i64 exact_v4]>
        (pm_rules_active m)))))
    (wrap_i64 total) (pm_map_entries m).
Definition update_map_entries m (exact_v4 exact_v6 lpm_v4 lpm_v6 : Z) : PrometheusMetrics :=
  let entries :=
    <[lpm_trie_v6 := wrap_i64 lpm_v6]> (<[lpm_trie_v4 := wrap_i64 lpm_v4]>
      (<[hashmap_v6 := wrap_i64 exact_v6]> (<[hashmap_v4 := wrap_i64 exact_v4]>
        (pm_map_entries m)))) in
  update_rules_count (set_gauges m (pm_rules_active m) (pm_rules_total m) entries)
    exact_v4 exact_v6 lpm_v4 lpm_v6.
Definition inc_map_entry m (labels : list (list Z)) : PrometheusMetrics :=
  set_gauges m (pm_rules_active m) (wrap_i64 (pm_rules_total m + 1))
    (<[labels := wrap_i64 (gauge (pm_map_entries m) labels + 1)]> (pm_map_entries m)).
Definition dec_map_entry m (labels : list (list Z)) : PrometheusMetrics :=
  set_gauges m (pm_rules_active m) (wrap_i64 (pm_rules_total m - 1))
    (<[labels := wrap_i64 (gauge (pm_map_entries m) labels - 1)]> (pm_map_entries m)).

Definition get_map_entries m (labels : list (list Z)) : Z := gauge (pm_map_entries m) labels.
Definition lpm_trie_entries m : Z := wrap_i64 (get_map_entries m lpm_trie_v4 + get_map_entries m lpm_trie_v6).
Definition hashmap_entries m : Z := wrap_i64 (get_map_entries m hashmap_v4 + get_map_entries m hashmap_v6).
Definition ipv4_entries m : Z := wrap_i64 (get_map_entries m hashmap_v4 + get_map_entries m lpm_trie_v4).
Definition ipv6_entries m : Z := wrap_i64 (get_map_entries m hashmap_v6 + get_map_entries m lpm_trie_v6).
Definition ipv4_ip_entries m : Z := get_map_entries m hashmap_v4.
Definition ipv6_ip_entries m : Z := get_map_entries m hashmap_v6.
Definition ipv4_cidr_entries m : Z := get_map_entries m lpm_trie_v4.
Definition ipv6_cidr_entries m : Z := get_map_entries m lpm_trie_v6.

(** *** The ranking *)
Definition set_ranking m (t : BlockedIpTopN) (v : metric_vecs (V := V)) : PrometheusMetrics :=
  let tm := pm_telemetry m in
  mkPrometheus (pm_firewall_up m) (pm_build_info m)
    (mkTelemetry (tm_packets_total tm) (tm_packets_blocked_total tm) (tm_bytes_total tm)
       (tm_ringbuf_events_total tm) (tm_errors_total tm) t (tm_firehol_packets tm)
       (tm_firehol_bytes tm))
    (pm_packets_accepted_total m) (pm_rules_active m) (pm_rules_total m) (pm_map_entries m) v.
Definition sync_top_blocked_ips m : PrometheusMetrics :=
  let '(t, v) := sync_to_metrics (tm_top_blocked_ips (pm_telemetry m)) (pm_blocked m) in
  set_ranking m t v.
(** The other accessors of the ranking, whose lock is never poisoned. *)
Definition set_top_n_criterion m (c : RankingCriterion) : PrometheusMetrics :=
  set_ranking m (set_criterion (tm_top_blocked_ips (pm_telemetry m)) c) (pm_blocked m).
Definition metrics_top_n_criterion m : RankingCriterion := tn_criterion (tm_top_blocked_ips (pm_telemetry m)).
Definition metrics_top_n_stats m : list BlockedIpStats := top_n_stats (tm_top_blocked_ips (pm_telemetry m)).
Definition tracked_blocked_ips_count m : Z := tracked_count (tm_top_blocked_ips (pm_telemetry m)).
Definition currently_exported_top_ips m : gset (list Z) := tn_currently_exported (tm_top_blocked_ips (pm_telemetry m)).
(** [text_of] is the text encoder: the error's message or the text. *)
Definition metrics_encode (text_of : PrometheusMetrics → list Z + list Z) m
    : (list Z + list Z) * PrometheusMetrics :=
  let m := sync_top_blocked_ips m in (text_of m, m).
End Metrics.

(** ** The reporter ([StatsReporter]) *)

Definition saturating_sub (a b : Z) : Z := Z.max 0 (a - b).

Record StatsReporter : Type := mkReporter {
  sr_interval_secs : Z;
  sr_last_log_time : Z;
  sr_last_stats : FirewallStats;
}.
Definition reporter_new (interval_secs now : Z) : StatsReporter :=
  mkReporter interval_secs now FirewallStats_default.
(** The ticker's period. *)
Definition sync_interval (interval_secs : Z) : Z :=
  if interval_secs =? 0 then 1 else Z.min interval_secs 1.

(** The counters of a log line: received and dropped packets and bytes, events. *)
Record deltas : Type := mkDeltas {
  delta_rx_pkts : Z; delta_rx_bytes : Z; delta_drop_pkts : Z; delta_drop_bytes : Z;
  delta_ringbuf : Z }.
Definition deltas_of (stats last_stats : FirewallStats) : deltas :=
  mkDeltas (saturating_sub (rx_packets stats) (rx_packets last_stats))
    (saturating_sub (rx_bytes stats) (rx_bytes last_stats))
    (saturating_sub (dropped_packets stats) (dropped_packets last_stats))
    (saturating_sub (dropped_bytes stats) (dropped_bytes last_stats))
    (saturating_sub (ringbuf_events stats) (ringbuf_events last_stats)).

Definition per_second (n : Z) (elapsed : f64) : f64 := f64_div (f64_of_Z n) elapsed.
Definition megabits (bytes : Z) (elapsed : f64) : f64 :=
  f64_div (f64_mul (f64_of_Z bytes) (f64_of_Z 8)) (f64_mul elapsed (f64_of_Z (10 ^ 6))).
Definition drop_percent (d : deltas) : f64 :=
  if 0 <? delta_rx_pkts d
  then f64_mul (f64_div (f64_of_Z (delta_drop_pkts d)) (f64_of_Z (delta_rx_pkts d))) (f64_of_Z 100)
  else f64_of_Z 0.

Definition stats_line `{!PrettyConsole} (no_color : bool) (d : deltas) (stats : FirewallStats)
    (elapsed : f64) : list Z :=
  let b t := show (bold no_color t) in
  uni "📊 [FIREWALL STATS] 📥 Ingress: " ++
  b (format_float_with_spaces (per_second (delta_rx_pkts d) elapsed) 0) ++ lit " pps (" ++
  format_float_with_spaces (megabits (delta_rx_bytes d) elapsed) 2 ++ lit " Mbps) | " ++
  show (red_bold no_color (uni "🚫 Dropped: " ++
    format_float_with_spaces (per_second (delta_drop_pkts d) elapsed) 0 ++ lit " pps (" ++
    format_float_with_spaces (megabits (delta_drop_bytes d) elapsed) 2 ++ lit " Mbps, " ++
    fixed 1 (drop_percent d) ++ lit "%)")) ++ lit " | " ++
  show (green_bold no_color (uni "✅ Accepted: " ++
    show (bold_num no_color (Unsigned (accepted_packets stats))) ++ lit " pkts")) ++ uni " | 📡 RingBuf: +" ++ show (bold_num no_color (Unsigned (delta_ringbuf d))) ++ lit " events".

(** One tick at time [now], in nanoseconds: the metrics are updated always, the log
    is written when the interval has passed. *)
Definition tick {V} `{!CounterVec V} (r : StatsReporter) (m : option (PrometheusMetrics (V := V)))
    (stats : FirewallStats) (now : Z)
    : StatsReporter * option (PrometheusMetrics (V := V)) * option (deltas * f64) :=
  let m := (λ m, update_from_ebpf_stats m stats) <$> m in
  let elapsed := as_secs_f64 (now - sr_last_log_time r) in
  if negb (sr_interval_secs r =? 0) && SFleb (as_secs_f64 (sr_interval_secs r * 10 ^ 9)) elapsed then
    (mkReporter (sr_interval_secs r) now stats, m, Some (deltas_of stats (sr_last_stats r), elapsed))
  else (r, m, None).

(** ** The HTTP endpoint ([MetricsServer]) *)

(** The request is the bytes of one read, at most 1024. [from_utf8_lossy] keeps ASCII
    bytes and gives other characters for the rest, so ASCII patterns are found in the
    text exactly where they are in the bytes. *)
Definition is_metrics_request (req : list Z) : bool :=
  starts_with (lit "GET /metrics") req || starts_with (lit "GET / ") req.
Definition is_health_request (req : list Z) : bool := starts_with (lit "GET /health") req.
Definition is_drop_logs_request (req : list Z) : bool :=
  starts_with (lit "POST /telemetry/drop-logs") req || starts_with (lit "GET /telemetry/drop-logs") req.
Definition requested_state (req : list Z) : bool :=
  negb (contains (lit "enabled=false") req) && negb (contains (lit "enable=false") req) &&
  negb (contains (lit "/disable") req) &&
  (contains (lit "enabled=true") req || contains (lit "enable=true") req || contains (lit "/enable") req).

Definition crlf : list Z := [13; 10].
Definition http_response (status content_type body : list Z) : list Z :=
  lit "HTTP/1.1 " ++ status ++ crlf ++
  (if bool_decide (content_type = []) then [] else lit "Content-Type: " ++ content_type ++ crlf) ++
  lit "Content-Length: " ++ decimal (len (as_bytes body)) ++ crlf ++ lit "Connection: close" ++ crlf ++
  crlf ++ body.
Definition show_bool (b : bool) : list Z := if b then lit "true" else lit "false".
(** [format!(r#"{{"drop_logs_enabled":{}}}"#, ..)]. *)
Definition state_body (b : bool) : list Z := 123 :: 34 :: lit "drop_logs_enabled" ++ 34 :: 58 :: show_bool b ++ [125].

(** The response, the metrics and the flag of the drop log, when one is attached. *)
Definition handle_request {V} `{!CounterVec V} `{!HashOrder}
    (text_of : PrometheusMetrics (V := V) → list Z + list Z) (req : list Z)
    (m : PrometheusMetrics (V := V)) (drop_flag : option bool)
    : list Z * PrometheusMetrics (V := V) * option bool :=
  if is_metrics_request req then
    let '(text, m) := metrics_encode text_of m in
    let body := match text with
      | inr body => body
      | inl e => lit "# Error gathering metrics: " ++ e ++ [10]
      end in
    (http_response (lit "200 OK") (lit "text/plain; version=0.0.4; charset=utf-8") body, m, drop_flag)
  else if is_health_request req then (http_response (lit "200 OK") [] (lit "OK"), m, drop_flag)
  else if is_drop_logs_request req then
    let new_state := requested_state req in
    (http_response (lit "200 OK") (lit "application/json") (state_body new_state), m,
     const new_state <$> drop_flag)
  else (http_response (lit "404 NOT FOUND") [] (lit "Not Found"), m, drop_flag).

(** The request of the traffic tools ([toggle_firewall_drop_logs] of
    [scripts/benchmark/src/main.rs], [verify_and_enable_firewall_drop_logs] of
    [scripts/test_traffic/src/main.rs]). *)
Definition toggle_request (target : list Z) (enable : bool) : list Z :=
  lit "POST /telemetry/drop-logs?enabled=" ++ show_bool enable ++ lit " HTTP/1.1" ++ crlf ++
  lit "Host: " ++ ipv4_to_string target ++ crlf ++ lit "Connection: close" ++ crlf ++ crlf.

(** ** The gauges of the rules agree *)

Lemma wrap_i64_mod z : wrap 64 (wrap_i64 z) = wrap 64 z.
Proof.
  unfold wrap_i64, wrap. pose proof (Z.mod_pos_bound z (2 ^ 64) ltac:(lia)). case_Z.
  - by rewrite Z.mod_mod by lia.
  - rewrite <-(Z.mod_add _ 1) by lia. replace (z mod 2 ^ 64 - 2 ^ 64 + 1 * 2 ^ 64) with (z mod 2 ^ 64) by lia.
    by rewrite Z.mod_mod by lia.
Qed.

Lemma wrap_i64_cong a b : wrap 64 a = wrap 64 b → wrap_i64 a = wrap_i64 b.
Proof. unfold wrap_i64. by intros ->. Qed.

Lemma wrap_cong_add w a a' b b' :
  0 <= w → wrap w a = wrap w a' → wrap w b = wrap w b' → wrap w (a + b) = wrap w (a' + b').
Proof. unfold wrap. intros Hw Ha Hb. rewrite Z.add_mod, Ha, Hb, <-Z.add_mod by lia. done. Qed.

Section Gauges.
Context {V : Type} `{!CounterVec V} `{!HashOrder}.
Implicit Type m : PrometheusMetrics (V := V).

(** The four kinds of entries, and the calls that move the gauges. *)
Definition map_kinds : list (list (list Z)) := [hashmap_v4; hashmap_v6; lpm_trie_v4; lpm_trie_v6].
Inductive gauge_call : Type :=
| CallUpdate (exact_v4 exact_v6 lpm_v4 lpm_v6 : Z)
| CallInc (kind : list (list Z))
| CallDec (kind : list (list Z)).
Definition call_gauge m (c : gauge_call) : PrometheusMetrics :=
  match c with
  | CallUpdate a b c d => update_map_entries m a b c d
  | CallInc k => inc_map_entry m k
  | CallDec k => dec_map_entry m k
  end.
Definition known_kind (c : gauge_call) : Prop :=
  match c with CallUpdate _ _ _ _ => True | CallInc k | CallDec k => k ∈ map_kinds end.

Definition gauge_sum (g : gauges) : Z :=
  gauge g hashmap_v4 + gauge g hashmap_v6 + gauge g lpm_trie_v4 + gauge g lpm_trie_v6.
Definition total_agrees m : Prop := pm_rules_total m = wrap_i64 (gauge_sum (pm_map_entries m)).

Lemma gauge_insert g k v k' : gauge (<[k := v]> g) k' = if decide (k = k') then v else gauge g k'.
Proof. unfold gauge. destruct (decide (k = k')) as [->|Hne]; by simpl_map. Qed.

Lemma gauge_sum_insert g k v : k ∈ map_kinds →
  gauge_sum (<[k := v]> g) = gauge_sum g - gauge g k + v.
Proof.
  intros Hk. unfold gauge_sum. rewrite !gauge_insert.
  unfold map_kinds in Hk. rewrite !elem_of_cons, elem_of_nil in Hk.
  destruct Hk as [->|[->|[->|[->|[]]]]]; closed_decide; lia.
Qed.

Lemma call_total_agrees m c : known_kind c → total_agrees m → total_agrees (call_gauge m c).
Proof.
  intros Hc Hm. unfold total_agrees in *. destruct c as [a b c d|k|k]; cbn [call_gauge known_kind] in *.
  - unfold update_map_entries, update_rules_count. cbn [pm_rules_total set_gauges pm_map_entries].
    apply wrap_i64_cong. unfold gauge_sum. rewrite !gauge_insert. closed_decide.
    rewrite wrap_wrap by lia. repeat apply wrap_cong_add; by rewrite ?wrap_i64_mod.
  - unfold inc_map_entry. cbn [pm_rules_total set_gauges pm_map_entries]. apply wrap_i64_cong.
    rewrite gauge_sum_insert, Hm by done. set (g := gauge _ k).
    replace (gauge_sum (pm_map_entries m) - g + wrap_i64 (g + 1))
      with (gauge_sum (pm_map_entries m) + (wrap_i64 (g + 1) + - g)) by lia.
    apply wrap_cong_add; [lia|apply wrap_i64_mod|]. transitivity (wrap 64 (g + 1 + - g)).
    { f_equal. lia. }
    symmetry. apply wrap_cong_add; [lia|apply wrap_i64_mod|done].
  - unfold dec_map_entry. cbn [pm_rules_total set_gauges pm_map_entries]. apply wrap_i64_cong.
    rewrite gauge_sum_insert, Hm by done. set (g := gauge _ k).
    replace (gauge_sum (pm_map_entries m) - g + wrap_i64 (g - 1))
      with (gauge_sum (pm_map_entries m) + (wrap_i64 (g - 1) + - g)) by lia.
    replace (wrap_i64 (gauge_sum (pm_map_entries m)) - 1)
      with (wrap_i64 (gauge_sum (pm_map_entries m)) + -1) by lia.
    apply wrap_cong_add; [lia|apply wrap_i64_mod|]. transitivity (wrap 64 (g - 1 + - g)).
    { f_equal. lia. }
    symmetry. apply wrap_cong_add; [lia|apply wrap_i64_mod|done].
Qed.

(** However the gauges are moved, the total is the sum of the entries by map, and of
    the entries by IP version. *)
Lemma gauges_agree vec version git_ref calls m :
  Forall known_kind calls → m = fold_left call_gauge calls (with_git_ref vec version git_ref) →
  pm_rules_total m = wrap_i64 (hashmap_entries m + lpm_trie_entries m) ∧
  pm_rules_total m = wrap_i64 (ipv4_entries m + ipv6_entries m).
Proof.
  intros Hc ->. assert (total_agrees (fold_left call_gauge calls (with_git_ref vec version git_ref))) as Ht.
  { assert (total_agrees (with_git_ref vec version git_ref)) as Hnew by reflexivity. revert Hnew.
    generalize (with_git_ref vec version git_ref). induction Hc as [|c calls Hk _ IH]; intros m Hm; [done|].
    apply IH. by apply call_total_agrees. }
  set (m := fold_left _ _ _) in *. rewrite Ht.
  split; apply wrap_i64_cong; unfold hashmap_entries, lpm_trie_entries, ipv4_entries, ipv6_entries,
    get_map_entries, gauge_sum; set (a := gauge _ hashmap_v4); set (b := gauge _ hashmap_v6);
    set (c := gauge _ lpm_trie_v4); set (d := gauge _ lpm_trie_v6).
  - transitivity (wrap 64 ((a + b) + (c + d))); [f_equal; lia|].
    apply wrap_cong_add; by rewrite ?wrap_i64_mod.
  - transitivity (wrap 64 ((a + c) + (b + d))); [f_equal; lia|].
    apply wrap_cong_add; by rewrite ?wrap_i64_mod.
Qed.
End Gauges.

(** ** The switch of the drop log *)

Lemma ipv4_text_chars o : Forall byte_ok o → Forall (λ c, c = 46 ∨ 48 <= c <= 57) (ipv4_to_string o).
Proof.
  intros Ho. apply join_with_chars; [by left|]. apply Forall_fmap. eapply Forall_impl; [exact Ho|].
  intros b [Hb _]. eapply Forall_impl; [by apply to_radix_digits|]. intros c Hc. by right.
Qed.

(** Looking for a pattern in the tools' request is looking for it in its parts. *)
Lemma contains_request p pat target enable :
  Forall byte_ok target → 32 ∉ p :: pat → 13 ∉ p :: pat → 10 ∉ p :: pat → p ≠ 46 → ¬ 48 <= p <= 57 →
  contains (p :: pat) (toggle_request target enable) =
    contains (p :: pat) (lit "/telemetry/drop-logs?enabled=" ++ show_bool enable) ||
    (contains (p :: pat) (lit "POST") || contains (p :: pat) (lit "HTTP/1.1") ||
     contains (p :: pat) (lit "Host:") || contains (p :: pat) (lit "Connection:") ||
     contains (p :: pat) (lit "close")).
Proof.
  intros Ht H32 H13 H10 Hp Hd. unfold toggle_request, crlf.
  change (lit "POST /telemetry/drop-logs?enabled=") with (lit "POST" ++ 32 :: lit "/telemetry/drop-logs?enabled=").
  change (lit " HTTP/1.1") with (32 :: lit "HTTP/1.1").
  change (lit "Host: ") with (lit "Host:" ++ 32 :: []).
  change (lit "Connection: close") with (lit "Connection:" ++ 32 :: lit "close").
  replace (contains _ _) with (contains (p :: pat) (lit "POST" ++ 32 ::
    (lit "/telemetry/drop-logs?enabled=" ++ show_bool enable) ++ 32 :: lit "HTTP/1.1" ++ 13 :: [] ++
    10 :: lit "Host:" ++ 32 :: ipv4_to_string target ++ 13 :: [] ++ 10 :: lit "Connection:" ++ 32 ::
    lit "close" ++ 13 :: [] ++ 10 :: [] ++ 13 :: [] ++ 10 :: [])) by (f_equal; by rewrite <-!app_assoc).
  rewrite !contains_sep by done. rewrite (contains_absent p pat (ipv4_to_string target)); cycle 1.
  { intros Hin. pose proof (ipv4_text_chars target Ht) as Hc. rewrite Forall_forall in Hc.
    destruct (Hc p Hin); lia. }
  change (contains (p :: pat) []) with false.
  destruct (contains _ (lit "POST")), (contains _ (_ ++ show_bool _)), (contains _ (lit "HTTP/1.1")),
    (contains _ (lit "Host:")), (contains _ (lit "Connection:")), (contains _ (lit "close")); done.
Qed.

Lemma toggle_requests_state target enable :
  Forall byte_ok target → requested_state (toggle_request target enable) = enable.
Proof.
  intros Ht. unfold requested_state.
  change (lit "enabled=false") with (101 :: lit "nabled=false").
  change (lit "enable=false") with (101 :: lit "nable=false").
  change (lit "/disable") with (47 :: lit "disable").
  change (lit "enabled=true") with (101 :: lit "nabled=true").
  change (lit "enable=true") with (101 :: lit "nable=true").
  change (lit "/enable") with (47 :: lit "enable").
  rewrite !contains_request by (first [done | by_decide | lia]). destruct enable; vm_compute; done.
Qed.

Lemma toggle_request_fits target enable :
  bytes_ok 4 target → take 1024 (toggle_request target enable) = toggle_request target enable.
Proof.
  intros [Hl Ht]. apply take_ge. destruct target as [|a [|b [|c [|d []]]]]; try done.
  assert (Hd : ∀ x, byte_ok x → (length (to_radix 3 10 x) <= 3)%nat)
    by (intros x [? ?]; apply (to_radix_length 3 3); lia).
  rewrite !Forall_cons in Ht. destruct Ht as (Ha & Hb & Hc & He & _).
  apply Hd in Ha, Hb, Hc, He. unfold toggle_request, ipv4_to_string.
  cbn [fmap list_fmap join_with]. repeat progress (rewrite ?length_app; cbn [length]).
  unfold show_bool, crlf. destruct enable; cbn [length];
    repeat match goal with
    | |- context [length (lit ?s)] =>
        let n := eval vm_compute in (length (lit s)) in change (length (lit s)) with n
    end; lia.
Qed.

Section Endpoint.
Context {V : Type} `{!CounterVec V} `{!HashOrder}.
Context (text_of : PrometheusMetrics (V := V) → list Z + list Z).

(** A request without a state, as a browser would send it, turns the log off. *)
Lemma switch_without_state_disables m flag :
  (handle_request text_of (lit "GET /telemetry/drop-logs HTTP/1.1") m (Some flag)).2 = Some false.
Proof. reflexivity. Qed.

(** Requests for other paths leave the switch alone, and only scraping changes the
    metrics. *)
Lemma other_requests_keep_flag req m flag :
  is_drop_logs_request req = false → (handle_request text_of req m flag).2 = flag.
Proof.
  intros Hd. unfold handle_request. destruct (is_metrics_request req).
  - by destruct (metrics_encode text_of m).
  - destruct (is_health_request req); [done|]. by rewrite Hd.
Qed.

(** C31 (functional). The switch of the console drop log works end to end: the request
    that the benchmark and the test tool send, for any target address, arrives whole in
    the server's one read of 1024 bytes, is recognised, sets the flag to exactly the
    state asked for, leaves the metrics alone and is answered with that state; the
    ring-buffer consumer that shares the flag then logs an event if and only if logging
    was asked for. *)
Theorem drop_log_switch {S} `{!ContextStore S} m flag target enable
    (c : consumer (V := V) (S := S)) e :
  bytes_ok 4 target → event_ok e → cn_log_drops c = enable →
  handle_request text_of (take 1024 (toggle_request target enable)) m (Some flag) =
    (http_response (lit "200 OK") (lit "application/json") (state_body enable), m, Some enable) ∧
  (cn_log (consume_item c (event_to_bytes e))).*1 =
    (cn_log c).*1 ++ (if enable then [e] else []).
Proof.
  intros Ht He Hlog. split.
  - rewrite toggle_request_fits by done. unfold handle_request.
    assert (is_metrics_request (toggle_request target enable) = false) as -> by reflexivity.
    assert (is_health_request (toggle_request target enable) = false) as -> by reflexivity.
    assert (is_drop_logs_request (toggle_request target enable) = true) as -> by reflexivity.
    by rewrite toggle_requests_state by apply Ht.
  - destruct (event_bytes_roundtrip e He) as [Hlen Hback]. unfold consume_item, len.
    rewrite Hlen, Hback. cbn. rewrite Hlog. destruct enable; cbn; [by rewrite fmap_app|by rewrite app_nil_r].
Qed.
End Endpoint.

(** ** Accepted traffic is exported exactly *)
Section Accepted.
Context {V : Type} `{!CounterVec V}.
Implicit Type m : PrometheusMetrics (V := V).

Definition accepted_series m : Z := default 0 (cv_series (tm_packets_total (pm_telemetry m)) !! accept_label).

(** The three counters of accepted traffic, of which two count the same packets. *)
Record shows m (packets bytes : Z) : Prop := {
  shows_total : pm_packets_accepted_total m = packets;
  shows_series : accepted_series m = packets;
  shows_bytes : accepted_bytes_total m = bytes;
}.

Lemma inc_accepted_shows m p b dp db cp cb :
  shows m p b → 0 <= p → 0 <= b → 0 <= dp → 0 <= db → p + dp < 2 ^ 64 → b + db < 2 ^ 64 →
  shows (inc_accepted m dp db cp cb) (if cp then p + dp else p) (if cb then b + db else b).
Proof.
  intros [Ht Hs Hb] ? ? ? ? ? ?. unfold inc_accepted, accepted_series, accepted_bytes_total in *.
  constructor; cbn [pm_packets_accepted_total pm_telemetry tm_packets_total tm_bytes_total accepted_series accepted_bytes_total].
  - rewrite Ht. destruct cp; [apply wrap_small; lia|done].
  - unfold accepted_series. cbn [pm_telemetry tm_packets_total]. destruct cp; [|done].
    rewrite cv_inc_by_spec, lookup_insert_eq. cbn. rewrite Hs. apply wrap_small. lia.
  - unfold accepted_bytes_total. cbn [pm_telemetry tm_bytes_total]. destruct cb.
    + rewrite cv_inc_by_spec, lookup_insert_eq. cbn. rewrite Hb. apply wrap_small. lia.
    + rewrite cv_touch_spec, lookup_insert_eq. done.
Qed.

Lemma update_shows m p b stats :
  shows m p b → 0 <= p <= accepted_packets stats → 0 <= b <= accepted_bytes stats →
  accepted_packets stats < 2 ^ 64 → accepted_bytes stats < 2 ^ 64 →
  shows (update_from_ebpf_stats m stats) (accepted_packets stats) (accepted_bytes stats).
Proof.
  intros Hm Hp Hb Hps Hbs. unfold update_from_ebpf_stats. rewrite (shows_total _ _ _ Hm).
  set (m1 := if p <? _ then _ else m).
  assert (shows m1 (accepted_packets stats) b) as Hm1.
  { unfold m1. case_Z.
    - pose proof (inc_accepted_shows m p b (accepted_packets stats - p) 0 true false Hm) as Hi.
      cbv iota in Hi. replace (p + (accepted_packets stats - p)) with (accepted_packets stats) in Hi by lia.
      apply Hi; lia.
    - by replace (accepted_packets stats) with p by lia. }
  rewrite (shows_bytes _ _ _ Hm1). case_Z.
  - pose proof (inc_accepted_shows m1 (accepted_packets stats) b 0 (accepted_bytes stats - b) false true Hm1)
      as Hi. cbv iota in Hi. replace (b + (accepted_bytes stats - b)) with (accepted_bytes stats) in Hi by lia.
    apply Hi; lia.
  - replace (accepted_bytes stats) with b by lia.
    apply (inc_accepted_shows m1 (accepted_packets stats) b 0 0 false false Hm1); lia.
Qed.

Context {H4 H6 L4 L6 RB : Type}.
Context `{!BpfMap H4 (list Z) RuleValue} `{!HashGet H4 (list Z) RuleValue}.
Context `{!BpfMap H6 (list Z) RuleValue} `{!HashGet H6 (list Z) RuleValue}.
Context `{!BpfMap L4 (Z * list Z) RuleValue} `{!LpmGet 4 L4 RuleValue}.
Context `{!BpfMap L6 (Z * list Z) RuleValue} `{!LpmGet 16 L6 RuleValue}.
Context `{!RingBuffer RB}.
Implicit Type k : kernel H4 H6 L4 L6 RB.

(** Room for [n] more packets and [b] more bytes in the counters of accepted traffic. *)
Definition room (s : FirewallStats) (n b : Z) : Prop :=
  0 <= accepted_packets s ∧ 0 <= accepted_bytes s ∧
  accepted_packets s + n < 2 ^ 64 ∧ accepted_bytes s + b < 2 ^ 64.
Definition total_bytes_of (ctxs : list XdpContext) : Z := foldr (λ c acc, ctx_packet_len c + acc) 0 ctxs.

Lemma ctx_packet_len_nonneg ctx : 0 <= ctx_packet_len ctx.
Proof. apply (wrap_in_width 32 _ ltac:(lia)). Qed.
Lemma total_bytes_cons c ctxs : total_bytes_of (c :: ctxs) = ctx_packet_len c + total_bytes_of ctxs.
Proof. done. Qed.
Lemma total_bytes_nonneg ctxs : 0 <= total_bytes_of ctxs.
Proof.
  induction ctxs as [|c ctxs IH]; [done|]. rewrite total_bytes_cons. pose proof (ctx_packet_len_nonneg c). lia.
Qed.
Lemma total_bytes_app l l' : total_bytes_of (l ++ l') = total_bytes_of l + total_bytes_of l'.
Proof.
  induction l as [|c l IH]; [done|]. rewrite <-app_comm_cons, !total_bytes_cons, IH. lia.
Qed.

Lemma run_packets_grow ctxs : ∀ k s n b,
  Forall ctx_ok ctxs → STATS k = [s] → 0 <= n → 0 <= b →
  room s (len ctxs + n) (total_bytes_of ctxs + b) →
  ∃ s', STATS (run_packets ctxs k).2 = [s'] ∧ accepted_packets s <= accepted_packets s' ∧
    accepted_bytes s <= accepted_bytes s' ∧ room s' n b.
Proof.
  induction ctxs as [|ctx ctxs IH]; intros k s n b Hok Hs Hn Hb Hroom.
  { exists s. cbn in Hroom. split_and!; [done|lia..|]. done. }
  inversion_clear Hok as [|?? Hc Hok']. cbn [run_packets].
  pose proof (ctx_packet_len_nonneg ctx). pose proof (total_bytes_nonneg ctxs).
  assert (len (ctx :: ctxs) = 1 + len ctxs) as Hcons by (unfold len; cbn [length]; lia).
  rewrite Hcons, total_bytes_cons in Hroom.
  destruct (firewall_effect ctx k Hc) as (v & k1 & Hrun & Heff). rewrite Hrun.
  assert (∃ s1, STATS k1 = [s1] ∧ accepted_packets s <= accepted_packets s1 ∧
    accepted_bytes s <= accepted_bytes s1 ∧ room s1 (len ctxs + n) (total_bytes_of ctxs + b))
    as (s1 & Hs1 & Hp1 & Hb1 & Hroom1).
  { destruct Hroom as (? & ? & ? & ?). unfold room, len in *.
    destruct Heff as [| |e r _|e _]; cbn [STATS set_stats set_events]; unfold update_stats;
      rewrite ?Hs; cbn [lookup list_lookup insert list_insert]; eexists; (split; [done|]);
      unfold update_stats_entry; cbn [accepted_packets accepted_bytes];
      rewrite ?(wrap_small 64 (accepted_packets s + 1)), ?(wrap_small 64 (accepted_bytes s + _)) by lia; lia. }
  destruct (IH k1 s1 n b Hok' Hs1 Hn Hb Hroom1) as (s' & Hs' & Hp' & Hb' & Hr').
  exists s'. destruct (run_packets ctxs k1) as [vs k2]. split_and!; [done|lia|lia|done].
Qed.

Lemma run_packets_app l : ∀ l' k, (run_packets (l ++ l') k).2 = (run_packets l' (run_packets l k).2).2.
Proof.
  induction l as [|c l IH]; intros l' k; [done|]. rewrite <-app_comm_cons. cbn [run_packets].
  destruct (firewall c k) as [v k1]. specialize (IH l' k1).
  destruct (run_packets (l ++ l') k1), (run_packets l k1). exact IH.
Qed.

(** The data path and the reporter in turn: a batch of packets, then a tick that reads
    the kernel counters. *)
Fixpoint observe (rounds : list (list XdpContext * Z)) k (r : StatsReporter)
    (m : option (PrometheusMetrics (V := V))) : kernel H4 H6 L4 L6 RB * StatsReporter * option PrometheusMetrics :=
  match rounds with
  | [] => (k, r, m)
  | (ctxs, now) :: rest =>
      let k := (run_packets ctxs k).2 in
      let '(r, m, _) := tick r m (default FirewallStats_default (STATS k !! 0%nat)) now in
      observe rest k r m
  end.

Lemma observe_shows rounds : ∀ k s r m,
  Forall (λ x, Forall ctx_ok x.1) rounds → STATS k = [s] →
  room s (len (concat rounds.*1)) (total_bytes_of (concat rounds.*1)) →
  shows m (accepted_packets s) (accepted_bytes s) →
  ∃ k' s' r' m', observe rounds k r (Some m) = (k', r', Some m') ∧ STATS k' = [s'] ∧
    shows m' (accepted_packets s') (accepted_bytes s').
Proof.
  induction rounds as [|[ctxs now] rounds IH]; intros k s r m Hok Hs Hroom Hm.
  { exists k, s, r, m. by split_and!. }
  inversion_clear Hok as [|?? Hc Hok']. cbn [fst] in Hc.
  rewrite fmap_cons in Hroom. cbn [concat fst] in Hroom. set (rest := concat rounds.*1) in *.
  rewrite total_bytes_app in Hroom.
  destruct (run_packets_grow ctxs k s (len rest) (total_bytes_of rest)) as (s1 & Hs1 & Hp & Hb & Hroom1);
    [done|done|unfold len; lia|apply total_bytes_nonneg|unfold room, len in *; rewrite length_app in Hroom; lia|].
  cbn [observe]. unfold tick. cbn [fmap option_fmap option_map]. rewrite Hs1.
  cbn [lookup list_lookup default id].
  assert (shows (update_from_ebpf_stats m s1) (accepted_packets s1) (accepted_bytes s1)) as Hm1.
  { pose proof (total_bytes_nonneg rest). unfold room, len in *. eapply update_shows; [exact Hm|lia..]. }
  destruct (negb _ && _); by apply (IH _ s1).
Qed.

(** C30 (refinement). The exported counters of accepted traffic are the kernel's: whatever
    bytes arrive, in any batches between any number of ticks of the reporter, after the
    last tick the total, the accept series and the accepted bytes equal what the XDP
    program counted, as long as those counters do not wrap; no packet is counted twice
    or lost between ticks. *)
Theorem accepted_traffic_exported rounds k s r m :
  Forall (λ x, Forall ctx_ok x.1) rounds → STATS k = [s] →
  room s (len (concat rounds.*1)) (total_bytes_of (concat rounds.*1)) →
  shows m (accepted_packets s) (accepted_bytes s) →
  ∃ k' s' r' m', observe rounds k r (Some m) = (k', r', Some m') ∧ STATS k' = [s'] ∧
    k' = (run_packets (concat rounds.*1) k).2 ∧
    shows m' (accepted_packets s') (accepted_bytes s').
Proof.
  intros Hok Hs Hroom Hm.
  destruct (observe_shows rounds k s r m Hok Hs Hroom Hm) as (k' & s' & r' & m' & Ho & Hs' & Hm').
  exists k', s', r', m'. split_and!; [done..| |done]. clear -Ho.
  revert k r m Ho. induction rounds as [|[ctxs now] rounds IH]; intros k r m Ho.
  { by injection Ho as <- _ _. }
  cbn [observe] in Ho. unfold tick in Ho. cbn [fmap option_fmap option_map] in Ho.
  rewrite fmap_cons. cbn [concat fst]. rewrite run_packets_app.
  destruct (negb _ && _); by eapply IH.
Qed.
End Accepted.

(** ** The log lines cover the traffic once *)

(** The ticks of the reporter and the counters of the lines it logs. *)
Fixpoint ticks (r : StatsReporter) (l : list (FirewallStats * Z)) : StatsReporter * list deltas :=
  match l with
  | [] => (r, [])
  | (stats, now) :: l =>
      let '(r, _, line) := tick (V := gmap (list (list Z)) Z) r None stats now in
      let '(r', lines) := ticks r l in
      (r', match line with Some (d, _) => d :: lines | None => lines end)
  end.

Lemma ticks_telescope (f : FirewallStats → Z) (g : deltas → Z) l : ∀ r,
  (∀ a b, g (deltas_of a b) = saturating_sub (f a) (f b)) →
  StronglySorted (λ a b, f a <= f b) (sr_last_stats r :: l.*1) →
  foldr Z.add 0 (g <$> (ticks r l).2) = f (sr_last_stats (ticks r l).1) - f (sr_last_stats r).
Proof.
  intros r Hg. revert r. induction l as [|[stats now] l IH]; intros r Hs; [cbn; lia|].
  apply StronglySorted_inv in Hs as [Hs Hle]. rewrite fmap_cons in Hs, Hle. cbn [fst] in *.
  apply Forall_cons in Hle as [Hle Hle']. cbn [ticks]. unfold tick.
  destruct (negb _ && _).
  - specialize (IH (mkReporter (sr_interval_secs r) now stats) Hs).
    destruct (ticks _ l) as [r' lines]. cbn [fst snd] in *. rewrite fmap_cons. cbn [foldr].
    rewrite IH, Hg. cbn [sr_last_stats]. unfold saturating_sub. lia.
  - apply StronglySorted_inv in Hs as [Hs _].
    specialize (IH r ltac:(by constructor)). by destruct (ticks r l).
Qed.

(** ** Witnesses *)
#[local] Existing Instance canonical_order.
Definition demo_metrics : PrometheusMetrics (V := demo_vec) := with_git_ref (λ _, ∅) (lit "0.1.0") (lit "v1").

Lemma drop_log_switch_witness :
  (handle_request (λ _, inr []) (take 1024 (toggle_request [172; 28; 0; 2] true)) demo_metrics
     (Some false)).2 = Some true ∧
  (cn_log (consume_item demo_consumer (event_to_bytes demo_drop))).*1 = [demo_drop].
Proof.
  destruct (drop_log_switch (λ _, inr []) demo_metrics false [172; 28; 0; 2] true demo_consumer demo_drop)
    as [Hs Hc]; [by_decide|split_and!; by_decide|reflexivity|].
  split; [by rewrite Hs|exact Hc].
Defined.

Lemma accepted_traffic_exported_witness :
  ∃ k' s' r' m', observe [(demo_traffic, 10 ^ 9); (demo_traffic, 2 * 10 ^ 9)] demo_kernel
      (reporter_new 5 0) (Some demo_metrics) = (k', r', Some m') ∧ STATS k' = [s'] ∧
    accepted_packets s' = 4 ∧ pm_packets_accepted_total m' = 4.
Proof.
  destruct (accepted_traffic_exported [(demo_traffic, 10 ^ 9); (demo_traffic, 2 * 10 ^ 9)] demo_kernel
    FirewallStats_default (reporter_new 5 0) demo_metrics)
    as (k' & s' & r' & m' & Ho & Hs & Hk & Hm); [by_decide|reflexivity|by_decide|split; reflexivity|].
  exists k', s', r', m'. split; [exact Ho|]. split; [exact Hs|].
  assert (accepted_packets s' = 4) as Ha.
  { assert (default FirewallStats_default (head (STATS (run_packets
      (concat [(demo_traffic, 10 ^ 9); (demo_traffic, 2 * 10 ^ 9)].*1) demo_kernel).2)) = s') as <-
      by (rewrite <-Hk, Hs; reflexivity).
    vm_compute. reflexivity. }
  split; [exact Ha|]. rewrite <-Ha. apply Hm.
Defined.
