(* ===== verification/Server.v ===== *)
(** * The metrics server ([MetricsServer] of [src/metrics.rs])

    The accept loop with a task for every connection: each task reads once, answers and
    ends, in whatever order the reads return; after the shutdown signal nothing more is
    accepted, and the tasks that are left still answer. Handling one request, which never
    waits between its read and its write, is one step; writing the answer is left to the
    socket. *)
From stdpp Require Import base numbers list gmap fin_maps strings relations.
From Stdlib Require Import ZArith Lia.
From S2P Require Import Prelude Net Common BpfMaps Str Fmt Console TopN RingBuf Telemetry.

Local Open Scope Z_scope.

Section Server.
Context {V : Type} `{!CounterVec V} `{!HashOrder}.
Context (text_of : PrometheusMetrics (V := V) → list Z + list Z).
Abbreviation metrics_t := (PrometheusMetrics (V := V)).

Record MetricsServer : Type := mkMetricsServer {
  ms_metrics : metrics_t;
  ms_listen_addr : list Z;
  ms_drop_logs_enabled : option bool;
}.
Definition MetricsServer_new (metrics : metrics_t) (listen_addr : list Z) : MetricsServer :=
  mkMetricsServer metrics listen_addr None.
Definition with_drop_logs_flag (self : MetricsServer) (flag : bool) : MetricsServer :=
  mkMetricsServer (ms_metrics self) (ms_listen_addr self) (Some flag).

(** The loop while it runs: whether it still accepts, the connections whose task has not
    read yet, the number accepted so far, and the answers. *)
Record serving : Type := mkServing {
  sv_accepting : bool;
  sv_waiting : list nat;
  sv_accepted : nat;
  sv_metrics : metrics_t;
  sv_flag : option bool;
  sv_answers : list (nat * list Z);
}.
(** [run], once the address is bound. *)
Definition server_run (binds : bool) (self : MetricsServer) : option serving :=
  if binds then Some (mkServing true [] 0 (ms_metrics self) (ms_drop_logs_enabled self) []) else None.

(** What may happen next: a connection or a failed accept, the shutdown signal, a read of
    at most 1024 bytes by the task of a connection, a read that fails. *)
Inductive server_event : Type :=
| Accepted
| AcceptFailed
| ShutdownSignal
| Read (conn : nat) (req : list Z)
| ReadFailed (conn : nat).

Definition close_connection (s : serving) (conn : nat) : serving :=
  mkServing (sv_accepting s) (filter (.≠ conn) (sv_waiting s)) (sv_accepted s) (sv_metrics s)
    (sv_flag s) (sv_answers s).
Definition answer (s : serving) (conn : nat) (req : list Z) : serving :=
  let '(response, metrics, flag) := handle_request text_of req (sv_metrics s) (sv_flag s) in
  mkServing (sv_accepting s) (sv_waiting s) (sv_accepted s) metrics flag
    (sv_answers s ++ [(conn, response)]).

Inductive server_step : serving → server_event → serving → Prop :=
| step_accept s :
    sv_accepting s = true →
    server_step s Accepted
      (mkServing true (sv_waiting s ++ [sv_accepted s]) (S (sv_accepted s)) (sv_metrics s)
         (sv_flag s) (sv_answers s))
| step_accept_failed s :
    sv_accepting s = true → server_step s AcceptFailed s
| step_shutdown s :
    sv_accepting s = true →
    server_step s ShutdownSignal
      (mkServing false (sv_waiting s) (sv_accepted s) (sv_metrics s) (sv_flag s) (sv_answers s))
| step_read s conn req :
    conn ∈ sv_waiting s → len req <= 1024 →
    server_step s (Read conn req) (close_connection (answer s conn req) conn)
| step_read_failed s conn :
    conn ∈ sv_waiting s → server_step s (ReadFailed conn) (close_connection s conn).

Inductive server_trace : serving → list server_event → serving → Prop :=
| trace_nil s : server_trace s [] s
| trace_snoc s evs s' ev s'' :
    server_trace s evs s' → server_step s' ev s'' → server_trace s (evs ++ [ev]) s''.

(** ** What a trace serves *)
Definition reads_of (evs : list server_event) : list (nat * list Z) :=
  omap (λ ev, match ev with Read c req => Some (c, req) | _ => None end) evs.
Definition failed_reads (evs : list server_event) : list nat :=
  omap (λ ev, match ev with ReadFailed c => Some c | _ => None end) evs.
(** The requests handled one after the other by a server that does nothing else. *)
Fixpoint serve_in_turn (reqs : list (nat * list Z)) (m : metrics_t) (flag : option bool)
    : list (nat * list Z) * metrics_t * option bool :=
  match reqs with
  | [] => ([], m, flag)
  | (conn, req) :: rest =>
      let '(response, m, flag) := handle_request text_of req m flag in
      let '(answers, m, flag) := serve_in_turn rest m flag in
      ((conn, response) :: answers, m, flag)
  end.
(** The state the last drop-log request asks for. *)
Definition flag_after (reqs : list (nat * list Z)) (flag : bool) : bool :=
  fold_left (λ b cr, if negb (is_metrics_request cr.2) && negb (is_health_request cr.2) &&
                        is_drop_logs_request cr.2 then requested_state cr.2 else b) reqs flag.

Lemma serve_in_turn_app reqs conn req : ∀ m flag,
  serve_in_turn (reqs ++ [(conn, req)]) m flag =
    let '(answers, m, flag) := serve_in_turn reqs m flag in
    let '(response, m, flag) := handle_request text_of req m flag in
    (answers ++ [(conn, response)], m, flag).
Proof.
  induction reqs as [|[c r] rest IH]; intros m flag; cbn [app serve_in_turn].
  { by destruct (handle_request text_of req m flag) as [[? ?] ?]. }
  destruct (handle_request text_of r m flag) as [[response m1] flag1]. rewrite IH.
  destruct (serve_in_turn rest m1 flag1) as [[answers m2] flag2].
  by destruct (handle_request text_of req m2 flag2) as [[? ?] ?].
Qed.

(** Waiting and finished connections are those accepted, each in one place. *)
Record server_inv (s0 : serving) (evs : list server_event) (s : serving) : Prop := {
  inv_served : serve_in_turn (reads_of evs) (sv_metrics s0) (sv_flag s0) =
    (sv_answers s, sv_metrics s, sv_flag s);
  inv_connections : Permutation (sv_waiting s ++ (reads_of evs).*1 ++ failed_reads evs)
    (seq 0 (sv_accepted s));
}.

Lemma filter_out_one (conn : nat) l l' :
  NoDup (l ++ l') → conn ∈ l → Permutation (filter (.≠ conn) l ++ l' ++ [conn]) (l ++ l').
Proof.
  intros Hnd Hin. apply NoDup_app in Hnd as (Hnd & _ & _).
  apply list_elem_of_split in Hin as (a & b & ->).
  rewrite filter_app, filter_cons_False by (intros Hne; by apply Hne).
  apply NoDup_app in Hnd as (_ & Hd & [Hb _]%NoDup_cons).
  assert (∀ k : list nat, conn ∉ k → filter (.≠ conn) k = k) as Hkeep.
  { intros k. induction k as [|x k IH]; [done|]. intros [Hne Hk]%not_elem_of_cons.
    rewrite filter_cons_True by done. by rewrite IH. }
  rewrite !Hkeep; [|done|intros Ha; apply (Hd conn Ha); by left].
  rewrite <-!app_assoc. apply Permutation_app_head. cbn. rewrite !app_assoc.
  by rewrite Permutation_app_comm.
Qed.

Lemma server_trace_inv s0 evs s :
  sv_waiting s0 = [] → sv_accepted s0 = 0%nat → sv_answers s0 = [] →
  server_trace s0 evs s → server_inv s0 evs s.
Proof.
  intros Hw Ha Hs. induction 1 as [s|s evs s' ev s'' _ IH Hstep].
  { split; cbn; [by rewrite Hs|by rewrite Hw, Ha]. }
  destruct (IH Hw Ha Hs) as [Hserved Hconns]. clear IH.
  assert (Hnd : NoDup (sv_waiting s' ++ (reads_of evs).*1 ++ failed_reads evs))
    by (rewrite Hconns; apply NoDup_seq).
  unfold reads_of, failed_reads in *.
  inversion Hstep as [? Hacc|? Hacc|? Hacc|? conn req Hin Hlen|? conn Hin]; subst;
    (split; unfold reads_of, failed_reads; rewrite !omap_app; cbn [omap list_omap];
     rewrite ?app_nil_r, ?serve_in_turn_app, ?Hserved).
  - done.
  - cbn [sv_waiting sv_accepted]. rewrite seq_S, <-Hconns. solve_Permutation.
  - done.
  - done.
  - done.
  - done.
  - unfold close_connection, answer. by destruct (handle_request _ _ _ _) as [[? ?] ?].
  - assert (Hwait : sv_waiting (answer s' conn req) = sv_waiting s' ∧
      sv_accepted (answer s' conn req) = sv_accepted s').
    { unfold answer. by destruct (handle_request _ _ _ _) as [[? ?] ?]. }
    destruct Hwait as [Hwait Hn]. cbn [close_connection sv_waiting sv_accepted].
    rewrite Hwait, Hn, fmap_app, <-Hconns. cbn.
    rewrite <-(filter_out_one conn (sv_waiting s')) by done. solve_Permutation.
  - done.
  - cbn [close_connection sv_waiting sv_accepted]. rewrite <-Hconns.
    rewrite <-(filter_out_one conn (sv_waiting s')) by done. solve_Permutation.
Qed.

Lemma handle_request_flag req m b :
  let '(_, _, flag) := handle_request text_of req m (Some b) in
  flag = Some (flag_after [(0%nat, req)] b).
Proof.
  unfold flag_after, handle_request. cbn [fold_left snd].
  destruct (is_metrics_request req); cbn [negb andb].
  { by destruct (metrics_encode text_of m). }
  destruct (is_health_request req); cbn [negb andb]; [done|].
  by destruct (is_drop_logs_request req).
Qed.

Lemma serve_in_turn_flag reqs : ∀ m b,
  (serve_in_turn reqs m (Some b)).2 = Some (flag_after reqs b).
Proof.
  induction reqs as [|[conn req] rest IH]; intros m b; cbn [serve_in_turn]; [done|].
  pose proof (handle_request_flag req m b) as Hf.
  destruct (handle_request text_of req m (Some b)) as [[response m1] flag1]. subst flag1.
  specialize (IH m1 (flag_after [(0%nat, req)] b)).
  destruct (serve_in_turn rest m1 _) as [[answers m2] flag2]. cbn in *. rewrite IH. done.
Qed.

Lemma serve_in_turn_conns reqs : ∀ m flag, (serve_in_turn reqs m flag).1.1.*1 = reqs.*1.
Proof.
  induction reqs as [|[conn req] rest IH]; intros m flag; cbn [serve_in_turn]; [done|].
  destruct (handle_request text_of req m flag) as [[response m1] flag1].
  specialize (IH m1 flag1). destruct (serve_in_turn rest m1 flag1) as [[answers m2] flag2].
  cbn in *. by rewrite IH.
Qed.

(** However connections, reads, failures and the shutdown signal are interleaved: the
    answers, the metrics and the drop-log flag are those of the requests handled in the
    order their reads returned; every accepted connection is answered once, failed or
    still waits; the flag is what the last drop-log request asked for. *)
Theorem server_serves_in_read_order self (flag : bool) s0 evs s :
  server_run true (with_drop_logs_flag self flag) = Some s0 → server_trace s0 evs s →
  serve_in_turn (reads_of evs) (ms_metrics self) (Some flag) =
    (sv_answers s, sv_metrics s, sv_flag s) ∧
  sv_flag s = Some (flag_after (reads_of evs) flag) ∧
  Permutation (sv_waiting s ++ (sv_answers s).*1 ++ failed_reads evs) (seq 0 (sv_accepted s)).
Proof.
  intros [= <-] Htrace. apply server_trace_inv in Htrace as [Hs Hc]; [|done..].
  cbn in Hs. pose proof (serve_in_turn_flag (reads_of evs) (ms_metrics self) flag) as Hflag.
  rewrite Hs in Hflag. split; [done|]. split; [done|].
  pose proof (serve_in_turn_conns (reads_of evs) (ms_metrics self) (Some flag)) as Hconns.
  rewrite Hs in Hconns. cbn in Hconns. by rewrite Hconns.
Qed.

(** After the signal nothing is accepted, and every connection left can still be served. *)
Lemma no_accept_after_shutdown s ev s' :
  server_step s ev s' → sv_accepting s = false →
  sv_accepting s' = false ∧ sv_accepted s' = sv_accepted s.
Proof.
  inversion 1 as [? Hacc|? Hacc|? Hacc|? conn req|? conn]; subst; intros Hoff; try congruence.
  - unfold close_connection, answer. destruct (handle_request _ _ _ _) as [[? ?] ?]. by split.
  - by split.
Qed.
End Server.
