(* ===== verification/Blocked.v ===== *)
(** * Dropped packets from the kernel to the metrics

    The XDP program writes to the ring buffer while the consumer reads from it: packets,
    reads, reloads of the rules and changes of what the consumer looks up interleave in
    any order. What is exported is what was dropped, in order, but for the events the
    ring buffer had no room for. *)
From stdpp Require Import base numbers list gmap fin_maps strings sorting.
From Stdlib Require Import ZArith Lia.
From S2P Require Import Prelude Net Common BpfMaps Str Cidr Entry Metadata Attribution Loader Wire Xdp TopN RingBuf.

Local Open Scope Z_scope.

(** ** Fields of a classified packet *)
Record fields_ok (p : ParsedPacket) : Prop := {
  fo_src : bytes_ok 16 (pp_src_ip p);
  fo_dst : bytes_ok 16 (pp_dst_ip p);
  fo_ports : in_width 16 (pp_src_port p) ∧ in_width 16 (pp_dst_port p);
  fo_proto : in_width 8 (pp_protocol p);
  fo_version : in_width 8 (pp_ip_version p);
}.

Lemma pad16_ok a : bytes_ok 4 a → bytes_ok 16 (pad16 a).
Proof.
  intros [Hl Hb]. split; unfold pad16; [by rewrite length_app, Hl|]. apply Forall_app. split; [done|].
  by repeat constructor.
Qed.

Lemma byte_at_width b off :
  Forall byte_ok b → 0 <= off → off + 1 <= len b → in_width 8 (byte_at b off).
Proof.
  intros Hb Ho Hl. destruct (slice_ok b off 1 Hb Ho ltac:(lia) Hl) as [Hlen Hok].
  rewrite <-from_le_byte by done. destruct (slice b off 1) as [|x [|]]; try done.
  rewrite from_le_bytes_single. by inversion Hok.
Qed.

Lemma ports_width proto l4 : Forall byte_ok l4 → in_width 16 (l4_ports proto l4).1 ∧ in_width 16 (l4_ports proto l4).2.
Proof.
  intros Hb. unfold l4_ports. destruct (_ && _); [|done]. cbn [fst snd].
  assert (∀ l, Forall byte_ok l → (length l ≤ 2)%nat → in_width 16 (from_be_bytes l)) as Hw.
  { intros l Hl Hn. pose proof (from_be_bytes_bound l Hl) as [H0 Hlt]. split; [done|].
    assert (256 ^ Z.of_nat (length l) <= 256 ^ 2) by (apply Z.pow_le_mono_r; lia). lia. }
  split; apply Hw; [by apply Forall_take|rewrite length_take; lia|by apply Forall_take, Forall_drop|
    rewrite length_take; lia].
Qed.

Lemma ipv4_view_fields data off p :
  Forall byte_ok data → 0 <= off → ipv4_view data off = IpPacket p → fields_ok p.
Proof.
  intros Hb Ho. unfold ipv4_view. destruct (Z.leb_spec (off + 20) (len data)); [|done].
  destruct (_ && _); [|done]. intros [= <-]. split; cbn [pp_src_ip pp_dst_ip pp_src_port pp_dst_port
    pp_protocol pp_ip_version]; [| |by apply ports_width, Forall_drop|apply byte_at_width; [done|lia..]|done].
  all: apply pad16_ok, (slice_ok data _ 4); unfold len in *; [done|lia..].
Qed.
Lemma ipv6_view_fields data off p :
  Forall byte_ok data → 0 <= off → ipv6_view data off = IpPacket p → fields_ok p.
Proof.
  intros Hb Ho. unfold ipv6_view. destruct (Z.leb_spec (off + 40) (len data)); [|done].
  intros [= <-]. split; cbn [pp_src_ip pp_dst_ip pp_src_port pp_dst_port
    pp_protocol pp_ip_version]; [| |by apply ports_width, Forall_drop|apply byte_at_width; [done|lia..]|done].
  all: apply (slice_ok data _ 16); unfold len in *; [done|lia..].
Qed.
Lemma view_fields data p : Forall byte_ok data → frame_view data = IpPacket p → fields_ok p.
Proof.
  intros Hb. unfold frame_view. destruct (_ <? 14); [done|].
  assert (∀ et off, 0 <= off → network_view data et off = IpPacket p → fields_ok p) as Hn.
  { intros et off Ho. unfold network_view. destruct (_ =? _); [by apply ipv4_view_fields|].
    destruct (_ =? _); [by apply ipv6_view_fields|done]. }
  destruct (is_vlan _); [destruct (_ <? 18); [done|]|]; by apply Hn.
Qed.

(** ** Counters *)

(** The counters after [d] drops and [e] events, from the counters [s0]. *)
Record accounts (s0 : FirewallStats) (d e : Z) (s : FirewallStats) : Prop := {
  acc_packets : rx_packets s = wrap_u64 (accepted_packets s + dropped_packets s);
  acc_bytes : rx_bytes s = wrap_u64 (accepted_bytes s + dropped_bytes s);
  acc_drops : dropped_packets s = wrap_u64 (dropped_packets s0 + d);
  acc_events : ringbuf_events s = wrap_u64 (ringbuf_events s0 + e);
  acc_ringbuf_drops : ringbuf_drops s = ringbuf_drops s0;
}.

Lemma accounts_step s0 d e s n (dropped emitted : bool) :
  accounts s0 d e s →
  accounts s0 (d + Z.b2z dropped) (e + Z.b2z emitted) (update_stats_entry s n n dropped emitted).
Proof.
  intros [Hp Hy Hd He Hr]. unfold update_stats_entry.
  constructor; cbn [rx_packets rx_bytes dropped_packets dropped_bytes accepted_packets
    accepted_bytes ringbuf_events ringbuf_drops]; [..|done].
  - rewrite Hp. destruct dropped; rewrite ?(Z.add_comm _ (wrap _ _)), ?wrap_add_l; f_equal; lia.
  - rewrite Hy. destruct dropped; rewrite ?(Z.add_comm _ (wrap _ _)), ?wrap_add_l; f_equal; lia.
  - rewrite Hd. destruct dropped; simpl; rewrite ?wrap_add_l; f_equal; lia.
  - rewrite He. destruct emitted; simpl; rewrite ?wrap_add_l; f_equal; lia.
Qed.

(** ** The data path and the consumer, interleaved *)
Section Interleaved.
Context {H4 H6 L4 L6 RB : Type}.
Context `{!BpfMap H4 (list Z) RuleValue} `{!HashGet H4 (list Z) RuleValue}.
Context `{!BpfMap H6 (list Z) RuleValue} `{!HashGet H6 (list Z) RuleValue}.
Context `{!BpfMap L4 (Z * list Z) RuleValue} `{!LpmGet 4 L4 RuleValue}.
Context `{!BpfMap L6 (Z * list Z) RuleValue} `{!LpmGet 16 L6 RuleValue}.
Context `{!RingBuffer RB} {V : Type} `{!CounterVec V} {S : Type} `{!ContextStore S} `{!HashOrder}.
Abbreviation kernel := (kernel H4 H6 L4 L6 RB).
Implicit Types (k : kernel) (c : consumer (V := V) (S := S)) (m : telemetry (V := V)).

Inductive action : Type :=
(** The XDP program runs on a packet. *)
| Arrive (ctx : XdpContext)
(** The consumer takes the next record, if there is one. *)
| Take
(** Rules are changed in the maps. *)
| SetRules (v4 : H4) (v6 : H6) (l4 : L4) (l6 : L6)
(** Another registry, other static rules, the drop log switched. *)
| Reconfigure (registry : option (FireholMetadataRegistry S)) (static : option StaticRuleRegistry)
    (log_drops : bool).

Definition act (a : action) (st : kernel * consumer) : kernel * consumer :=
  let '(k, c) := st in
  match a with
  | Arrive ctx => ((firewall ctx k).2, c)
  | Take =>
      match rb_next (EVENTS k) with
      | Some (item, r) => (set_events k r, consume_item c item)
      | None => (k, c)
      end
  | SetRules v4 v6 l4 l6 => (mkKernel v4 v6 l4 l6 (EVENTS k) (STATS k), c)
  | Reconfigure registry static log_drops =>
      (k, mkConsumer registry static log_drops (cn_metrics c) (cn_log c))
  end.
Definition act_all (acts : list action) (st : kernel * consumer) : kernel * consumer :=
  fold_left (λ st a, act a st) acts st.

(** The event of the frame, when it is an IP packet that the policy drops. *)
Definition drop_of (ctx : XdpContext) k : list PacketLogEvent :=
  match frame_view (ctx_bytes ctx) with
  | IpPacket p => match drop_rule k p with Some (r, mt) => [drop_event ctx p r mt] | None => [] end
  | _ => []
  end.
(** All of them, in order, and those the ring buffer had room for. *)
Fixpoint dropped (acts : list action) (st : kernel * consumer) : list PacketLogEvent :=
  match acts with
  | [] => []
  | a :: rest => match a with Arrive ctx => drop_of ctx st.1 | _ => [] end ++ dropped rest (act a st)
  end.
Definition written_of (ctx : XdpContext) k : list PacketLogEvent :=
  filter (λ e, is_Some (rb_output (EVENTS k) (event_to_bytes e))) (drop_of ctx k).
Fixpoint written (acts : list action) (st : kernel * consumer) : list PacketLogEvent :=
  match acts with
  | [] => []
  | a :: rest => match a with Arrive ctx => written_of ctx st.1 | _ => [] end ++ written rest (act a st)
  end.

(** Any frame at all, and rules with identifiers of 32 bits. *)
Definition packet_ok (ctx : XdpContext) : Prop := ctx_ok ctx ∧ in_width 64 (ctx_ktime_ns ctx).
Definition ids_ok {M K} `{Countable K} `{!BpfMap M K RuleValue} (m : M) : Prop :=
  map_Forall (λ _ r, in_width 32 (rv_rule_id r)) (bm_contents m).
Definition rules_ids_ok k : Prop :=
  ids_ok (IPV4_EXACT_MAP k) ∧ ids_ok (IPV6_EXACT_MAP k) ∧ ids_ok (IPV4_LPM_MAP k) ∧ ids_ok (IPV6_LPM_MAP k).
Definition action_ok (a : action) : Prop :=
  match a with
  | Arrive ctx => packet_ok ctx
  | SetRules v4 v6 l4 l6 => ids_ok v4 ∧ ids_ok v6 ∧ ids_ok l4 ∧ ids_ok l6
  | _ => True
  end.
(** ** Events and packets *)
Lemma lpm_search_in {A} (n q : nat) (t : gmap (Z * list Z) A) addr v :
  lpm_search n q t addr = Some v → ∃ key, t !! key = Some v.
Proof.
  induction q as [|q IH]; cbn [lpm_search]; (case_match eqn:E; [intros [= <-]; by eexists|]); [done|exact IH].
Qed.

Lemma drop_rule_id k p r mt :
  rules_ids_ok k → drop_rule k p = Some (r, mt) → in_width 32 (rv_rule_id r) ∧ in_width 8 mt.
Proof.
  intros (I1 & I2 & I3 & I4). unfold drop_rule. destruct (bypass p); [done|].
  destruct (lookup_rule k p) as [[r' mt']|] eqn:Hl; [|done]. destruct (_ =? _); [|done]. intros [= -> ->].
  unfold lookup_rule in Hl. destruct (pp_ip_version p =? 4).
  - destruct (bm_contents (IPV4_EXACT_MAP k) !! _) as [x|] eqn:E.
    + injection Hl as -> <-. split; [exact (I1 _ _ E)|by_decide].
    + destruct (lpm_lookup _ _ _) as [x|] eqn:El; [|done]. injection Hl as -> <-.
      apply lpm_search_in in El as [key El]. split; [exact (I3 _ _ El)|by_decide].
  - destruct (bm_contents (IPV6_EXACT_MAP k) !! _) as [x|] eqn:E.
    + injection Hl as -> <-. split; [exact (I2 _ _ E)|by_decide].
    + destruct (lpm_lookup _ _ _) as [x|] eqn:El; [|done]. injection Hl as -> <-.
      apply lpm_search_in in El as [key El]. split; [exact (I4 _ _ El)|by_decide].
Qed.

Lemma drop_event_ok ctx p r mt :
  in_width 64 (ctx_ktime_ns ctx) → fields_ok p → in_width 32 (rv_rule_id r) → in_width 8 mt →
  event_ok (drop_event ctx p r mt).
Proof.
  intros Ht [Hs Hd [Hsp Hdp] Hp Hv] Hr Hm.
  split_and!; try done; try (by apply wrap_in_width); by_decide.
Qed.

(** What the arrival of an IP packet does to the ring buffer and the counters. *)
Lemma arrive_ip ctx k p s0 d w s :
  packet_ok ctx → rules_ids_ok k → STATS k = [s] → accounts s0 d w s → frame_view (ctx_bytes ctx) = IpPacket p →
  let dropped := match drop_rule k p with Some (r, mt) => [drop_event ctx p r mt] | None => [] end in
  let written := filter (λ e, is_Some (rb_output (EVENTS k) (event_to_bytes e))) dropped in
  let k' := (enforce ctx p k).2 in
  rules_ids_ok k' ∧ Forall event_ok written ∧
  rb_queue (EVENTS k') = rb_queue (EVENTS k) ++ (event_to_bytes <$> written) ∧
  ∃ s', STATS k' = [s'] ∧ accounts s0 (d + len dropped) (w + len written) s'.
Proof.
  intros [Hc Ht] Hids Hs Ha Hp. pose proof Hc as (_ & _ & _ & Hb). pose proof (view_fields _ p Hb Hp) as Hf.
  unfold enforce. set (n := wrap_u32 (pp_packet_len p)).
  destruct (drop_rule k p) as [[r mt]|] eqn:Hd; cbv zeta.
  - destruct (drop_rule_id k p r mt Hids Hd) as [Hr Hm]. set (e := drop_event ctx p r mt).
    assert (event_ok e) as He by by apply drop_event_ok.
    rewrite filter_cons, filter_nil. destruct (rb_output (EVENTS k) (event_to_bytes e)) as [ev|] eqn:Ho;
      cbn [snd set_stats set_events EVENTS STATS]; unfold update_stats; rewrite Hs.
    + rewrite decide_True by done. split; [exact Hids|]. split; [by constructor|].
      split; [by rewrite (rb_output_spec _ _ _ Ho)|]. eexists. split; [done|].
      exact (accounts_step s0 d w s n true true Ha).
    + rewrite decide_False by (by intros [? ?]). split; [exact Hids|]. split; [done|].
      split; [by rewrite app_nil_r|]. eexists. split; [done|].
      exact (accounts_step s0 d w s n true false Ha).
  - cbn [snd set_stats EVENTS STATS]. unfold update_stats. rewrite Hs, filter_nil, app_nil_r.
    split; [exact Hids|]. split; [done|]. split; [done|]. eexists. split; [done|].
    exact (accounts_step s0 d w s n false false Ha).
Qed.

(** The same for any frame. *)
Lemma arrive ctx k s0 d w s :
  packet_ok ctx → rules_ids_ok k → STATS k = [s] → accounts s0 d w s →
  let k' := (firewall ctx k).2 in
  rules_ids_ok k' ∧ Forall event_ok (written_of ctx k) ∧
  rb_queue (EVENTS k') = rb_queue (EVENTS k) ++ (event_to_bytes <$> written_of ctx k) ∧
  ∃ s', STATS k' = [s'] ∧ accounts s0 (d + len (drop_of ctx k)) (w + len (written_of ctx k)) s'.
Proof.
  intros [Hc Ht] Hids Hs Ha. cbv zeta. pose proof Hc as (_ & _ & _ & Hb). rewrite firewall_view by done.
  unfold enforce_frame, written_of, drop_of. cbn [snd].
  destruct (frame_view (ctx_bytes ctx)) as [| |p] eqn:Hp.
  - cbn [snd]. rewrite filter_nil, app_nil_r, !Z.add_0_r. split_and!; [done..|by exists s].
  - cbn [snd set_stats EVENTS STATS]. unfold update_stats. rewrite Hs, filter_nil, app_nil_r.
    split; [exact Hids|]. split; [done|]. split; [done|]. eexists. split; [done|].
    exact (accounts_step s0 d w s _ false false Ha).
  - by eapply (arrive_ip ctx k p s0 d w s).
Qed.

Lemma sublist_same_length {A} (l l' : list A) : l `sublist_of` l' → (length l' ≤ length l)%nat → l = l'.
Proof.
  induction 1 as [|x l l' _ IH|x l l' Hs _]; intros Hl; [done| |]; cbn [length] in Hl.
  - by rewrite IH by lia.
  - apply sublist_length in Hs. lia.
Qed.

Lemma written_sublist acts : ∀ st, written acts st `sublist_of` dropped acts st.
Proof.
  induction acts as [|a acts IH]; intros st; [done|]. cbn [written dropped].
  apply sublist_app; [|apply IH]. destruct a; try done. apply sublist_filter.
Qed.

(** What the consumer keeps of a state it has consumed [consumed] in. *)
Definition consumed_in c m (consumed : list PacketLogEvent) c' : Prop :=
  ∃ m' logged, cn_metrics c' = Some m' ∧ counted_all consumed m m' ∧
    (cn_log c').*1 = (cn_log c).*1 ++ logged ∧ logged `sublist_of` consumed.

Lemma consume_one c m e c' consumed :
  event_ok e → cn_metrics c = Some m →
  (∀ m1, cn_metrics (consume_item c (event_to_bytes e)) = Some m1 → counters_u64 m1 →
     consumed_in (consume_item c (event_to_bytes e)) m1 consumed c') →
  consumed_in c m (e :: consumed) c'.
Proof.
  intros He Hm IH. destruct (consume_event_metrics c e m He Hm) as (m1 & Hm1 & Hc1 & Hlog & _).
  destruct (IH m1 Hm1 (counted_once_u64 _ _ _ _ Hc1)) as (m' & logged & Hm' & Hc' & Hl & Hsub).
  exists m', ((if cn_log_drops c then [e] else []) ++ logged).
  split_and!; [done|by eapply counted_cons|by rewrite Hl, Hlog, <-app_assoc|].
  destruct (cn_log_drops c); [by apply sublist_skip|by apply sublist_cons].
Qed.

Lemma interleaved acts : ∀ k c m s0 d w s waiting,
  Forall action_ok acts → rules_ids_ok k → rb_queue (EVENTS k) = event_to_bytes <$> waiting →
  Forall event_ok waiting → cn_metrics c = Some m → counters_u64 m →
  STATS k = [s] → accounts s0 d w s →
  ∃ k' c' consumed waiting' s',
    act_all acts (k, c) = (k', c') ∧ rb_queue (EVENTS k') = event_to_bytes <$> waiting' ∧
    consumed ++ waiting' = waiting ++ written acts (k, c) ∧ consumed_in c m consumed c' ∧
    STATS k' = [s'] ∧
    accounts s0 (d + len (dropped acts (k, c))) (w + len (written acts (k, c))) s'.
Proof.
  unfold act_all. induction acts as [|a acts IH]; intros k c m s0 d w s waiting Hok Hids Hq Hev Hm Hu Hs Ha.
  { exists k, c, [], waiting, s. cbn [written dropped]. rewrite app_nil_r, !Z.add_0_r.
    split_and!; [done..| |done|done]. exists m, []. rewrite app_nil_r.
    split_and!; [done|by apply counted_none|done|done]. }
  apply Forall_cons in Hok as [Hact Hok]. cbn [fold_left written dropped].
  destruct a as [ctx| |v4 v6 l4 l6|registry static log_drops]; cbn [act fst action_ok] in *.
  - destruct (arrive ctx k s0 d w s Hact Hids Hs Ha) as (Hids' & Hev' & Hq' & s1 & Hs1 & Ha1).
    destruct (IH (firewall ctx k).2 c m s0 (d + len (drop_of ctx k)) (w + len (written_of ctx k)) s1
      (waiting ++ written_of ctx k) Hok Hids')
      as (k' & c' & consumed & waiting' & s' & E & Hqe & Hw & Hcon & Hs' & Ha');
      [by rewrite Hq', Hq, fmap_app|by apply Forall_app|done..|].
    exists k', c', consumed, waiting', s'. split_and!; [done|done|by rewrite Hw, <-app_assoc|done|done|].
    unfold len in *. rewrite !length_app, !Nat2Z.inj_add, !Z.add_assoc. exact Ha'.
  - pose proof (rb_next_spec (EVENTS k)) as Hn. destruct (rb_next (EVENTS k)) as [[item r]|].
    + rewrite Hq in Hn. destruct waiting as [|e waiting]; [done|]. rewrite fmap_cons in Hn.
      injection Hn as <- Hr. apply Forall_cons in Hev as [He Hev].
      destruct (consume_event_metrics c e m He Hm) as (m1 & Hm1 & Hc1 & _).
      destruct (IH (set_events k r) (consume_item c (event_to_bytes e)) m1 s0 d w s waiting Hok Hids)
        as (k' & c' & consumed & waiting' & s' & E & Hqe & Hw & Hcon & Hs' & Ha');
        [done..|by eapply counted_once_u64|done|done|].
      exists k', c', (e :: consumed), waiting', s'. split_and!; try done.
      * cbn [app]. by rewrite Hw.
      * apply consume_one; [done|done|]. intros m2 Hm2 _. rewrite Hm1 in Hm2. by injection Hm2 as <-.
    + destruct (IH k c m s0 d w s waiting) as (k' & c' & x & y & s' & ?); [done..|].
      by exists k', c', x, y, s'.
  - destruct (IH (mkKernel v4 v6 l4 l6 (EVENTS k) (STATS k)) c m s0 d w s waiting)
      as (k' & c' & x & y & s' & ?); [done..|]. by exists k', c', x, y, s'.
  - destruct (IH k (mkConsumer registry static log_drops (cn_metrics c) (cn_log c)) m s0 d w s waiting)
      as (k' & c' & x & y & s' & ?); [done..|]. by exists k', c', x, y, s'.
Qed.

End Interleaved.
Arguments action : clear implicits.

(** C6 (refinement). Dropped packets from the kernel to the metrics. Whatever the order in
    which packets arrive, records are read, rules change and the consumer is given other
    registries or its log is switched: the events read so far and those still waiting
    are, in order and each once, the events of the dropped packets that found room in
    the ring buffer. The exported counters, bytes and ranking are those of the events
    read; the log names a part of them. The kernel counts every dropped packet and every
    event written, so once the buffer is empty and the two counts agree, what is exported
    is exactly what was dropped. The frames may be of any kind: truncated, not IP, behind
    any number of tags. The run starts from an empty ring buffer and from counters of 64
    bits; rule identifiers have 32 bits; packets and reads are handled one at a time. *)
Theorem dropped_traffic_exported {H4 H6 L4 L6 RB : Type}
    `{!BpfMap H4 (list Z) RuleValue} `{!HashGet H4 (list Z) RuleValue}
    `{!BpfMap H6 (list Z) RuleValue} `{!HashGet H6 (list Z) RuleValue}
    `{!BpfMap L4 (Z * list Z) RuleValue} `{!LpmGet 4 L4 RuleValue}
    `{!BpfMap L6 (Z * list Z) RuleValue} `{!LpmGet 16 L6 RuleValue}
    `{!RingBuffer RB} {V : Type} `{!CounterVec V} {S : Type} `{!ContextStore S} `{!HashOrder}
    (acts : list (action H4 H6 L4 L6 S)) (k : kernel H4 H6 L4 L6 RB) (c : consumer (V := V) (S := S)) m s :
  Forall action_ok acts → rules_ids_ok k → rb_queue (EVENTS k) = [] → cn_metrics c = Some m →
  counters_u64 m → STATS k = [s] → accounts s 0 0 s →
  ∃ k' c' consumed waiting s',
    act_all acts (k, c) = (k', c') ∧ rb_queue (EVENTS k') = event_to_bytes <$> waiting ∧
    consumed ++ waiting = written acts (k, c) ∧
    written acts (k, c) `sublist_of` dropped acts (k, c) ∧
    consumed_in c m consumed c' ∧
    STATS k' = [s'] ∧ accounts s (len (dropped acts (k, c))) (len (written acts (k, c))) s' ∧
    (waiting = [] → len (written acts (k, c)) = len (dropped acts (k, c)) →
       consumed = dropped acts (k, c)).
Proof.
  intros Hok Hids Hq Hm Hu Hs Ha.
  destruct (interleaved acts k c m s 0 0 s [] Hok Hids Hq ltac:(done) Hm Hu Hs Ha)
    as (k' & c' & consumed & waiting & s' & E & Hqe & Hw & Hcon & Hs' & Ha').
  exists k', c', consumed, waiting, s'. pose proof (written_sublist acts (k, c)) as Hsub.
  split_and!; try done. intros -> Hlen. rewrite app_nil_r in Hw. rewrite Hw. cbn [app].
  apply sublist_same_length; [done|]. unfold len in Hlen. lia.
Qed.

(** ** Witness: packets and reads in turn, the drop log switched off in between *)
#[local] Existing Instance canonical_order.
Definition demo_acts : list (action (CapMap (list Z) RuleValue) (CapMap (list Z) RuleValue)
    (Trie 4 RuleValue) (Trie 16 RuleValue) MemStore) :=
  (demo_traffic ≫= λ ctx, [Arrive ctx; Take]) ++ [Reconfigure None None false] ++
  (Arrive <$> demo_traffic) ++ [Take; Take; Take].

#[local] Instance packet_ok_dec ctx : Decision (packet_ok ctx).
Proof. unfold packet_ok. apply _. Defined.
Lemma demo_acts_ok : Forall action_ok demo_acts.
Proof.
  assert (Forall packet_ok (demo_traffic)) as Hp by by_decide.
  unfold demo_acts. rewrite !Forall_app, Forall_bind, Forall_fmap.
  split_and!; [|by repeat constructor| |by repeat constructor]; eapply Forall_impl; try exact Hp.
  - intros ctx Hc. apply Forall_cons. split; [exact Hc|]. by apply Forall_singleton.
  - done.
Qed.
Lemma demo_kernel_ids : rules_ids_ok demo_kernel.
Proof. split_and!; unfold ids_ok; by_decide. Qed.

Lemma dropped_traffic_exported_witness :
  ∃ m' : telemetry (V := demo_vec),
    cn_metrics (act_all demo_acts (demo_kernel, demo_consumer)).2 = Some m' ∧
    tm_ringbuf_events_total m' = 4 ∧ len (dropped demo_acts (demo_kernel, demo_consumer)) = 4.
Proof.
  destruct (dropped_traffic_exported demo_acts demo_kernel demo_consumer demo_telemetry
    FirewallStats_default) as (k' & c' & consumed & waiting & s' & E & Hq & _ & _ &
    (m' & logged & Hm' & (Hc & _) & _) & _ & _ & Hall);
    [exact demo_acts_ok|exact demo_kernel_ids|reflexivity|reflexivity|split_and!; by_decide|reflexivity|by split|].
  assert (waiting = []) as ->.
  { assert (rb_queue (EVENTS (act_all demo_acts (demo_kernel, demo_consumer)).1) = []) as Hn
      by (vm_compute; reflexivity).
    rewrite E in Hn. cbn [fst] in Hn. rewrite Hq in Hn. by destruct waiting. }
  assert (len (dropped demo_acts (demo_kernel, demo_consumer)) = 4) as Hd by (vm_compute; reflexivity).
  assert (len (written demo_acts (demo_kernel, demo_consumer)) = 4) as Hw by (vm_compute; reflexivity).
  exists m'. rewrite E. split; [exact Hm'|]. split; [|exact Hd].
  rewrite Hc, Hall, Hd by congruence. reflexivity.
Defined.
