(* ===== verification/ImportGauges.v ===== *)
(** * The gauges of an import ([parse_directory_impl], [src/firehol/metrics.rs])

    What an import publishes about itself: durations and rates in doubles, and counts
    of the entries it loaded, by version, kind, category and list. Measured times are
    arguments. *)
From stdpp Require Import base numbers list gmap fin_maps strings sorting relations.
From Stdlib Require Import ZArith Lia SpecFloat.
From S2P Require Import Prelude Net Common BpfMaps Str Cidr Entry Metadata Cache Import FireholSync.
From S2P Require Import Pipeline Schedule Spool Directory Console Telemetry.

Local Open Scope Z_scope.

(** ** What is measured and what is published *)
Record FireholImportTiming : Type := mkTiming {
  read_seconds : f64;
  parse_seconds : f64;
  queue_wait_seconds : f64;
  transform_seconds : f64;
  rocksdb_write_seconds : f64;
  rocksdb_bytes : Z;
  pipeline_seconds : f64;
  total_seconds : f64;
}.

(** The collectors of [FireholMetrics] that an import sets, labels as lists. *)
Record ImportMetrics : Type := mkImportMetrics {
  im_stage_seconds : gmap (list (list Z)) f64;
  im_throughput_bytes_per_second : gmap (list (list Z)) f64;
  im_entries_per_second : f64;
  im_written_bytes : Z;
  im_files : Z;
  im_blocklists_total : Z;
  im_total_entries : Z;
  im_ipv4_total : Z;
  im_ipv6_total : Z;
  im_exact_total : Z;
  im_cidr_total : Z;
  im_hashmap_entries : Z;
  im_lpm_entries : Z;
  im_invalid_entries_total : Z;
  im_last_compile_timestamp : Z;
  im_loaded_bytes_total : Z;
  im_entries_by_category : gmap (list (list Z)) Z;
  im_entries_by_blocklist : gmap (list (list Z)) Z;
}.

Definition category_labels (c : FireholCategory) : list (list Z) := [as_str c; lit "ipv4"; lit "exact"].
Definition blocklist_labels (file : list Z) : list (list Z) := [file].

(** [f64::EPSILON], and a rate over a time that may be nought. *)
Definition f64_EPSILON : f64 := f64_div (f64_of_Z 1) (f64_of_Z (2 ^ 52)).
Definition rate_over (n : Z) (seconds : f64) : f64 := f64_div (f64_of_Z n) (f64_max seconds f64_EPSILON).

Definition stage_seconds (t : FireholImportTiming) : list (list Z * f64) :=
  [(lit "read", read_seconds t); (lit "parse", parse_seconds t); (lit "queue_wait", queue_wait_seconds t);
   (lit "transform", transform_seconds t); (lit "rocksdb_write", rocksdb_write_seconds t);
   (lit "pipeline", pipeline_seconds t); (lit "total", total_seconds t)].
Definition set_stages (g : gmap (list (list Z)) f64) (l : list (list Z * f64)) : gmap (list (list Z)) f64 :=
  fold_left (λ g '(stage, seconds), <[[stage] := seconds]> g) l g.

Section Record_import.
Context {S : Type} `{!ContextStore S} `{!HashOrder}.

(** [for (label, count) in &counts { gauge.with_label_values(..).set(count as i64) }]. *)
Definition set_counts {K} `{Countable K} (label : K → list (list Z)) (counts : gmap K nat)
    (g : gmap (list (list Z)) Z) : gmap (list (list Z)) Z :=
  fold_left (λ g '(k, n), <[label k := wrap_i64 (Z.of_nat n)]> g) (map_iter counts) g.

Definition record_import (m : ImportMetrics) (ds : FireholDataSet S) (timing : FireholImportTiming)
    (total_file_size now_unix : Z) : ImportMetrics :=
  let v4 := ds_exact_v4_count ds in let v6 := ds_exact_v6_count ds in
  let l4 := ds_lpm_v4_count ds in let l6 := ds_lpm_v6_count ds in
  let total_entries := v4 + v6 + l4 + l6 in
  let throughput := rate_over total_file_size (total_seconds timing) in
  let db_throughput := rate_over (rocksdb_bytes timing) (rocksdb_write_seconds timing) in
  mkImportMetrics
    (set_stages (im_stage_seconds m) (stage_seconds timing))
    (<[[lit "rocksdb"] := db_throughput]> (<[[lit "parsing"] := throughput]> (im_throughput_bytes_per_second m)))
    (rate_over total_entries (total_seconds timing))
    (wrap_i64 (rocksdb_bytes timing))
    (wrap_i64 (ds_total_files _ ds))
    (wrap_i64 (Z.of_nat (total_blocklists (ds_registry ds))))
    (wrap_i64 total_entries)
    (wrap_i64 (v4 + l4)) (wrap_i64 (v6 + l6)) (wrap_i64 (v4 + v6)) (wrap_i64 (l4 + l6))
    (wrap_i64 (v4 + v6)) (wrap_i64 (l4 + l6))
    (im_invalid_entries_total m)
    (wrap_i64 now_unix)
    (wrap_i64 total_file_size)
    (set_counts category_labels (rg_category_counts (ds_registry ds)) (im_entries_by_category m))
    (set_counts blocklist_labels (rg_blocklist_counts (ds_registry ds)) (im_entries_by_blocklist m)).

Definition inc_invalid_entries (m : ImportMetrics) : ImportMetrics :=
  mkImportMetrics (im_stage_seconds m) (im_throughput_bytes_per_second m) (im_entries_per_second m)
    (im_written_bytes m) (im_files m) (im_blocklists_total m) (im_total_entries m) (im_ipv4_total m)
    (im_ipv6_total m) (im_exact_total m) (im_cidr_total m) (im_hashmap_entries m) (im_lpm_entries m)
    (wrap_u64 (im_invalid_entries_total m + 1)) (im_last_compile_timestamp m) (im_loaded_bytes_total m)
    (im_entries_by_category m) (im_entries_by_blocklist m).

(** The metrics after the threads of an import have been joined as [s] and it returned
    [result]: a failure of the threads counts once, a later one not at all. *)
Definition import_metrics (m : ImportMetrics) (s : pipeline)
    (result : outcome FireholParseError (FireholDataSet S)) (timing : FireholImportTiming)
    (total_file_size now_unix : Z) : ImportMetrics :=
  match failure s, result with
  | Some _, _ => inc_invalid_entries m
  | None, Ok ds => record_import m ds timing total_file_size now_unix
  | None, _ => m
  end.
End Record_import.

(** ** What the counts are of *)
Definition item_target (i : item) : FireholIpTarget := i.1.1.2.
Definition item_file (i : item) : list Z := i.1.1.1.
Definition item_category (i : item) : FireholCategory := i.2.

(** A series after an import: the number of the items, or what it was when there are
    none. *)
Definition published (old : option Z) (n : nat) : option Z :=
  match n with O => old | _ => Some (Z.of_nat n) end.

(** The gauges count the items by what they are, by category and by list; series of
    categories and lists without items keep their values. *)
Record describes (xs : list item) (old new : ImportMetrics) : Prop := {
  ds_total : im_total_entries new = len xs;
  ds_ipv4 : im_ipv4_total new = len (filter (λ i, target_ip_version (item_target i) = 4) xs);
  ds_ipv6 : im_ipv6_total new = len (filter (λ i, target_ip_version (item_target i) = 6) xs);
  ds_exact : im_exact_total new = len (filter (λ i, target_is_exact (item_target i) = true) xs);
  ds_cidr : im_cidr_total new = len (filter (λ i, target_is_exact (item_target i) = false) xs);
  ds_tables : im_hashmap_entries new = im_exact_total new ∧ im_lpm_entries new = im_cidr_total new;
  ds_by_category c : im_entries_by_category new !! category_labels c =
    published (im_entries_by_category old !! category_labels c)
      (length (filter (λ i, item_category i = c) xs));
  ds_by_list f : im_entries_by_blocklist new !! blocklist_labels f =
    published (im_entries_by_blocklist old !! blocklist_labels f)
      (length (filter (λ i, item_file i = f) xs));
  ds_lists : im_blocklists_total new = Z.of_nat (size (list_to_set (item_file <$> xs) : gset (list Z)));
  ds_rest : im_invalid_entries_total new = im_invalid_entries_total old;
}.

#[global] Instance as_str_inj : Inj (=) (=) as_str.
Proof. intros [] [] E; first [reflexivity|vm_compute in E; discriminate E]. Qed.
#[global] Instance category_labels_inj : Inj (=) (=) category_labels.
Proof. intros c c' [=E]. by apply as_str_inj. Qed.
#[global] Instance blocklist_labels_inj : Inj (=) (=) blocklist_labels.
Proof. by intros f f' [=]. Qed.

(** ** The series *)
Lemma wrap_i64_small z : 0 <= z < 2 ^ 63 → wrap_i64 z = z.
Proof. intros Hz. unfold wrap_i64. rewrite wrap_small by lia. case_Z. Qed.

Section Series.
Context {K : Type} `{Countable K} (label : K → list (list Z)) `{!Inj (=) (=) label}.

Lemma fold_series l : ∀ (g : gmap (list (list Z)) Z) k,
  NoDup l.*1 →
  fold_left (λ g '(k, n), <[label k := wrap_i64 (Z.of_nat n)]> g) l g !! label k =
    match (list_to_map l : gmap K nat) !! k with
    | Some n => Some (wrap_i64 (Z.of_nat n)) | None => g !! label k end.
Proof.
  induction l as [|[k' n] l IH]; intros g k Hnd; [done|]. rewrite fmap_cons in Hnd.
  apply NoDup_cons in Hnd as [Hnin Hnd]. cbn [fold_left]. rewrite IH by done.
  rewrite list_to_map_cons. cbn [fst snd]. destruct (decide (k' = k)) as [->|Hne].
  - rewrite (not_elem_of_list_to_map_1 l k Hnin), !lookup_insert_eq. done.
  - rewrite (lookup_insert_ne _ k' k) by done. rewrite lookup_insert_ne; [done|].
    intros E. by apply Hne, (inj label).
Qed.

Lemma set_counts_lookup `{!HashOrder} (counts : gmap K nat) g k :
  set_counts label counts g !! label k =
    match counts !! k with Some n => Some (wrap_i64 (Z.of_nat n)) | None => g !! label k end.
Proof.
  unfold set_counts. pose proof (map_iter_perm counts) as Hp.
  assert (NoDup (map_iter counts).*1) as Hnd by (rewrite Hp; apply NoDup_fst_map_to_list).
  rewrite fold_series by done. by rewrite (list_to_map_proper _ _ Hnd Hp), list_to_map_to_list.
Qed.

Lemma published_count `{!HashOrder} (counts : gmap K nat) g k n :
  counts !! k = add_count None n → Z.of_nat n < 2 ^ 63 →
  set_counts label counts g !! label k = published (g !! label k) n.
Proof.
  intros Hk Hn. rewrite set_counts_lookup, Hk. destruct n; [done|]. cbn. rewrite wrap_i64_small; [done|lia].
Qed.
End Series.

(** ** Entries and items *)
Lemma Forall2_filter_length {A B} (R : A → B → Prop) (P : A → Prop) (Q : B → Prop)
    `{!∀ a, Decision (P a)} `{!∀ b, Decision (Q b)} l k :
  Forall2 R l k → (∀ a b, R a b → P a ↔ Q b) → length (filter P l) = length (filter Q k).
Proof.
  intros Hf HPQ. by eapply Forall2_length, Forall2_filter.
Qed.

Lemma count_kinds_by E :
  count_kind 0 E + count_kind 2 E = len (filter (λ e, target_ip_version (fe_target e) = 4) E) ∧
  count_kind 1 E + count_kind 3 E = len (filter (λ e, target_ip_version (fe_target e) = 6) E) ∧
  count_kind 0 E + count_kind 1 E = len (filter (λ e, target_is_exact (fe_target e) = true) E) ∧
  count_kind 2 E + count_kind 3 E = len (filter (λ e, target_is_exact (fe_target e) = false) E).
Proof.
  unfold count_kind, len. induction E as [|e E IH]; [done|]. rewrite !filter_cons.
  destruct (fe_target e); cbn [target_ip_version target_is_exact]; closed_decide; cbn [length]; lia.
Qed.

Section Describe.
Context {S : Type} `{!ContextStore S} `{!HashOrder}.
Implicit Types (ds : FireholDataSet S) (r : FireholMetadataRegistry S).

Lemma matches_counts r E xs k f c :
  Forall2 (matches r) E xs →
  tally (λ e, category_for r (fe_metadata_id e)) c E = length (filter (λ i, item_category i = c) xs) ∧
  tally (λ e, file_name_for r (fe_metadata_id e)) f E = length (filter (λ i, item_file i = f) xs) ∧
  (length (filter (λ e, target_ip_version (fe_target e) = k) E) =
     length (filter (λ i, target_ip_version (item_target i) = k) xs)) ∧
  ∀ b, length (filter (λ e, target_is_exact (fe_target e) = b) E) =
     length (filter (λ i, target_is_exact (item_target i) = b) xs).
Proof.
  intros Hf. unfold tally.
  split_and!; [| | |intros b]; apply (Forall2_filter_length _ _ _ _ _ Hf);
    intros e [[[file t] n] cat] (Ht & _ & Hfile & Hc); rewrite ?Hfile, ?Hc, ?Ht;
    unfold item_category, item_file, item_target; cbn; by split; congruence.
Qed.

Lemma total_blocklists_of r E xs :
  counted r E → Forall2 (matches r) E xs →
  total_blocklists r = size (list_to_set (item_file <$> xs) : gset (list Z)).
Proof.
  intros [_ Hb] Hf. unfold total_blocklists. rewrite <-size_dom. f_equal. apply set_eq. intros f.
  destruct (matches_counts r E xs 0 f Other Hf) as (_ & Hn & _).
  rewrite elem_of_dom, Hb, Hn, elem_of_list_to_set, list_elem_of_fmap. split.
  - intros [n Hs]. destruct (filter _ xs) as [|i l] eqn:El; [done|].
    assert (i ∈ filter (λ i, item_file i = f) xs) as Hi by (rewrite El; left).
    apply list_elem_of_filter in Hi as [<- Hi]. by exists i.
  - intros (i & -> & Hi).
    assert (i ∈ filter (λ j, item_file j = item_file i) xs) as Hin by (by apply list_elem_of_filter).
    destruct (filter _ xs); [by apply not_elem_of_nil in Hin|by eexists].
Qed.

Lemma size_files_le (l : list (list Z)) : (size (list_to_set l : gset (list Z)) ≤ length l)%nat.
Proof.
  induction l as [|f l IH]; [done|]. cbn [list_to_set length].
  pose proof (size_union_alt {[f]} (list_to_set l : gset (list Z))) as Hu. rewrite Hu, size_singleton.
  pose proof (subseteq_size (list_to_set l ∖ {[f]} : gset (list Z)) (list_to_set l) ltac:(set_solver)). lia.
Qed.

Lemma record_describes m ds E xs timing total_file_size now :
  dataset_counts ds E → Forall2 (matches (ds_registry ds)) E xs → len E < 2 ^ 32 →
  describes xs m (record_import m ds timing total_file_size now).
Proof.
  intros (H0 & H1 & H2 & H3 & Hcount) Hf Hlen. pose proof (Forall2_length _ _ _ Hf) as Hl. unfold len in Hlen.
  pose proof Hcount as [Hcats Hblocks]. destruct (count_kinds_by E) as (K4 & K6 & Ke & Kc).
  pose proof (count_kinds_total E) as Kt. unfold len in Kt.
  assert (Hm := λ k f c, matches_counts (ds_registry ds) E xs k f c Hf).
  assert (Hsmall : ∀ P `{!∀ i : item, Decision (P i)}, (length (filter P xs) ≤ length E)%nat)
    by (intros; rewrite Hl; apply length_filter).
  unfold len in *. split; cbn [record_import im_total_entries im_ipv4_total im_ipv6_total im_exact_total
    im_cidr_total im_hashmap_entries im_lpm_entries im_entries_by_category im_entries_by_blocklist
    im_blocklists_total im_invalid_entries_total].
  - rewrite H0, H1, H2, H3. rewrite <-Z.add_assoc, Kt, wrap_i64_small; [by rewrite Hl|lia].
  - destruct (Hm 4 [] Other) as (_ & _ & E4 & _). rewrite H0, H2, K4, E4, wrap_i64_small; [done|].
    specialize (Hsmall (λ i, target_ip_version (item_target i) = 4) _). lia.
  - destruct (Hm 6 [] Other) as (_ & _ & E6 & _). rewrite H1, H3, K6, E6, wrap_i64_small; [done|].
    specialize (Hsmall (λ i, target_ip_version (item_target i) = 6) _). lia.
  - destruct (Hm 0 [] Other) as (_ & _ & _ & Ex). rewrite H0, H1, Ke, Ex, wrap_i64_small; [done|].
    specialize (Hsmall (λ i, target_is_exact (item_target i) = true) _). lia.
  - destruct (Hm 0 [] Other) as (_ & _ & _ & Ex). rewrite H2, H3, Kc, Ex, wrap_i64_small; [done|].
    specialize (Hsmall (λ i, target_is_exact (item_target i) = false) _). lia.
  - done.
  - intros c. destruct (Hm 0 [] c) as (Hc & _). apply published_count; [apply _|by rewrite Hcats, Hc|].
    specialize (Hsmall (λ i, item_category i = c) _). lia.
  - intros f. destruct (Hm 0 f Other) as (_ & Hc & _). apply published_count; [apply _|by rewrite Hblocks, Hc|].
    specialize (Hsmall (λ i, item_file i = f) _). lia.
  - rewrite (total_blocklists_of _ E xs) by done. apply wrap_i64_small.
    pose proof (size_files_le (item_file <$> xs)) as Hs. rewrite length_fmap in Hs. lia.
  - done.
Qed.

(** The order of the items does not matter. *)
Lemma describes_perm xs ys old new : xs ≡ₚ ys → describes xs old new → describes ys old new.
Proof.
  intros Hp [D1 D2 D3 D4 D5 D6 D7 D8 D9 D10]. unfold len in *.
  split; unfold len; [by rewrite <-Hp|rewrite D2|rewrite D3|rewrite D4|rewrite D5|done|intros c; rewrite D7|
    intros f; rewrite D8|rewrite D9|done]; by rewrite Hp.
Qed.
End Describe.

(** ** Imports of a directory *)
Section Imported.
Context {N4 N6 : Type} `{!IpNet 4 N4} `{!IpNet 16 N6} `{!IpNetText N4 N6}.
Context {low : Lowercase} {chrono : Chrono} {DB : Type} `{!HashOrder}.
Context `{!RocksDb DB} `{!Rkyv FireholMetadata} `{!Rkyv RuleBlockContext}.
Abbreviation dataset := (FireholDataSet (CacheRocksDb DB)).
Context (num_cpus : nat) (ignore_ips : list IpAddr) (cached spool : bool) (dir : directory).

(** The runs of [parse_directory_impl] that start threads: how the threads ended, the
    size of the files and the result. *)
Inductive imported : pipeline → Z → outcome FireholParseError dataset → Prop :=
| ImportedInMemory found files s :
    cached = false → dir_is_dir dir = true → discover_files dir = Ok found → found ≠ [] →
    sorted_by_size found files →
    rtc (step (N4 := N4) (N6 := N6) ignore_ips files.*1)
      (pipeline_new (num_workers_for num_cpus (length files))) s → joined s →
    imported s (total_file_size files) (import_result s)
| ImportedFromDisk found files generation c :
    cached = true → import_generation (DB := DB) = Ok generation →
    dir_is_dir dir = true → discover_files dir = Ok found → found ≠ [] →
    sorted_by_size found files →
    rtc (cached_step (N4 := N4) (N6 := N6) ignore_ips files.*1 spool)
      (cached_new generation (total_file_size files)
         (num_workers_for num_cpus (length files))) c → joined (ci_threads c) →
    imported (ci_threads c) (total_file_size files) (cached_result spool c).

Lemma imported_parses s size result :
  imported s size result →
  parse_directory_impl (N4 := N4) (N6 := N6) num_cpus ignore_ips cached spool dir result.
Proof. intros []; [eapply ParseInMemory|eapply ParseCached]; done. Qed.

(** The targets of the address lines of the directory's list files. *)
Definition directory_items : list item :=
  (list_files dir ≫= file_pending) ≫= items_of (N4 := N4) (N6 := N6) ignore_ips.

Context `{!RocksDbLaws DB} `{!RocksDbReads DB}.
Context `{!RkyvLaws FireholMetadata} `{!RkyvLaws RuleBlockContext}.
Hypothesis ignore_ok : Forall ip_ok ignore_ips.
Hypothesis fits : directory_fits dir.

Lemma sorted_items found files :
  discover_files dir = Ok found → sorted_by_size found files →
  ((files.*1 ≫= file_pending) ≫= items_of (N4 := N4) (N6 := N6) ignore_ips) ≡ₚ directory_items ∧
  1 + Z.of_nat (sum_list_with file_budget files.*1) < 2 ^ 32.
Proof using fits.
  intros Hf [Hp _]. assert (files.*1 ≡ₚ list_files dir) as Hl by by rewrite Hp, (discover_files_ok _ _ Hf).
  split; [by rewrite Hl|]. by rewrite (sum_budget_perm _ _ Hl).
Qed.

Lemma import_result_entries (s : pipeline) (ds : dataset) :
  import_result s = Ok ds → failure s = None ∧ ds_entries ds = pl_entries s.
Proof using Type.
  unfold import_result. destruct (failure s); [done|]. unfold build_dataset.
  intros (r & _ & [= <-])%outcome_bind_Ok. done.
Qed.

Lemma imported_counts s size ds :
  imported s size (Ok ds) →
  failure s = None ∧ ∃ E xs, dataset_counts ds E ∧ xs ≡ₚ directory_items ∧
    Forall2 (matches (ds_registry ds)) E xs ∧ len E < 2 ^ 32.
Proof using All.
  intros Himp. remember (Ok ds) as result eqn:Hr.
  destruct Himp as [found files s Hc Hd Hf Hn Hsort Hrun Hj|found files gen c Hc Hg Hd Hf Hn Hsort Hrun Hj].
  - destruct (sorted_items found files Hf Hsort) as [Hitems Hfit].
    destruct (import_result_entries s ds Hr) as [Hfail He]. split; [done|].
    assert (Ha : account (N4 := N4) (N6 := N6) ignore_ips files.*1 s) by (by eapply reachable_account).
    destruct (joined_result (S := CacheRocksDb DB) ignore_ips files.*1 s Ha Hj Hfail)
      as (ds' & xs & Hi & _ & _ & Hxs & Hm & Hcount & _).
    { intros E. pose proof (reachable_workers _ _ _ _ Hrun) as Hl. rewrite E in Hl.
      unfold num_workers_for in Hl. simpl in Hl. lia. }
    rewrite Hr in Hi. injection Hi as <-. exists (ds_entries ds), xs.
    split_and!; [done|by rewrite Hxs|done|]. rewrite He.
    destruct (ac_sequence _ _ s Ha) as (<- & ? & _). done.
  - destruct (sorted_items found files Hf Hsort) as [Hitems Hfit].
    assert (Hfail : failure (ci_threads c) = None)
      by (unfold cached_result in Hr; by destruct (failure (ci_threads c))).
    split; [done|].
    destruct (joined_counterpart ignore_ips files.*1 spool (num_workers_for num_cpus (length files))
      (total_file_size files) gen ignore_ok ltac:(unfold num_workers_for; lia) Hfit Hg c Hrun Hj Hfail)
      as (s & Hrs & Hjs & Hsim & Hfs & Hcs & Ha & Hok & Hlen).
    destruct (cached_result_spec ignore_ips files.*1 spool c s ds Hsim Hcs Hfs Ha Hok Hlen Hr)
      as (_ & _ & Hmd & Hcount & cache & Hcache & _).
    destruct (entries_match ignore_ips files.*1 s (ds_registry ds) Ha Hjs Hfs) as (xs & Hxs & Hm).
    { intros E. pose proof (reachable_workers _ _ _ _ Hrs) as Hl. rewrite E in Hl.
      unfold num_workers_for in Hl. simpl in Hl. lia. }
    { intros m Hm. unfold file_name_for, category_for. by rewrite Hcache, Hmd. }
    exists (pl_entries s), xs. split_and!; [done|by rewrite Hxs|done|].
    destruct (ac_sequence _ _ s Ha) as (<- & ? & _). done.
Qed.
End Imported.

(** C14 (functional). After an import of a directory, in memory or through the disk cache,
    under any schedule of its threads and any iteration order of the hash maps, the
    gauges count the address lines of the list files, each line once for every target
    it stands for: in total, by version, by kind, by category and by list, with the
    number of lists that have any. Whatever was published before does not show, except
    that the series of a category or list without lines keeps its old value. *)
Theorem import_gauges_count_lines {N4 N6 : Type} `{!IpNet 4 N4} `{!IpNet 16 N6} `{!IpNetText N4 N6}
    {low : Lowercase} {chrono : Chrono} {DB : Type} `{!HashOrder}
    `{!RocksDb DB} `{!Rkyv FireholMetadata} `{!Rkyv RuleBlockContext}
    `{!RocksDbLaws DB} `{!RocksDbReads DB} `{!RkyvLaws FireholMetadata} `{!RkyvLaws RuleBlockContext}
    num_cpus ignore_ips cached spool dir s size (ds : FireholDataSet (CacheRocksDb DB)) m timing now :
  Forall ip_ok ignore_ips → directory_fits dir →
  imported (N4 := N4) (N6 := N6) num_cpus ignore_ips cached spool dir s size (Ok ds) →
  describes (directory_items (N4 := N4) (N6 := N6) ignore_ips dir) m
    (import_metrics m s (Ok ds) timing size now).
Proof.
  intros Hign Hfit Himp.
  destruct (imported_counts num_cpus ignore_ips cached spool dir Hign Hfit s size ds Himp)
    as (Hf & E & xs & Hcount & Hp & Hm & Hlen).
  unfold import_metrics. rewrite Hf. eapply describes_perm; [exact Hp|]. by apply (record_describes m ds E).
Qed.

(** ** Witness: two files through the disk cache *)
#[local] Existing Instance demo_lower.
#[local] Existing Instance demo_chrono.
#[local] Existing Instance canonical_order.
#[local] Existing Instance demo_rkyv.
#[local] Existing Instance demo_rkyv_laws.

Definition demo_directory : directory :=
  mkDirectory true (Some ((λ f, DirEntry true (Some (lit "ipset")) 10 f) <$> demo_list_files)).
Definition demo_found : list (list_file * Z) := (λ f, (f, 10)) <$> demo_list_files.
Definition demo_import : cached_import MemDb :=
  run_cached (N4 := Net 4) (N6 := Net 16) demo_ignore demo_list_files true 90
    (cached_new demo_generation (total_file_size demo_found) (num_workers_for 2 (length demo_found))).
Definition demo_dataset : FireholDataSet (CacheRocksDb MemDb) :=
  from_ok (mkDataSet [] None registry_new 0 0 0 0 0 0) (cached_result true demo_import).
Definition zero_timing : FireholImportTiming :=
  mkTiming (f64_of_Z 0) (f64_of_Z 0) (f64_of_Z 0) (f64_of_Z 0) (f64_of_Z 0) 0 (f64_of_Z 0) (f64_of_Z 0).
Definition no_metrics : ImportMetrics :=
  mkImportMetrics ∅ ∅ (f64_of_Z 0) 0 0 0 0 0 0 0 0 0 0 0 0 0 ∅ ∅.

Lemma demo_imported :
  imported (N4 := Net 4) (N6 := Net 16) 2 demo_ignore true true demo_directory (ci_threads demo_import)
    (total_file_size demo_found) (Ok demo_dataset).
Proof.
  replace (Ok demo_dataset) with (cached_result true demo_import)
    by (apply from_ok_eq; vm_compute; reflexivity).
  apply (ImportedFromDisk _ _ _ _ _ demo_found demo_found demo_generation demo_import);
    [done|reflexivity|done|vm_compute; reflexivity|done|split; [done|repeat constructor; done]| |].
  - apply run_cached_steps.
  - split; vm_compute; [by eexists|reflexivity].
Qed.

Lemma import_gauges_count_lines_witness :
  im_total_entries (import_metrics no_metrics (ci_threads demo_import) (Ok demo_dataset) zero_timing
    (total_file_size demo_found) 7) = 26.
Proof.
  rewrite (ds_total _ _ _ (import_gauges_count_lines (N4 := Net 4) (N6 := Net 16) 2 demo_ignore true true
    demo_directory (ci_threads demo_import) (total_file_size demo_found) demo_dataset no_metrics zero_timing 7
    ltac:(by_decide) ltac:(unfold directory_fits; by_decide) demo_imported)).
  vm_compute. reflexivity.
Defined.
