(* ===== verification/Collectors.v ===== *)
(** * The collectors ([PrometheusMetrics::with_git_ref], [FireholMetrics::new])

    Every metric family the daemon creates and registers, in the order of the code, with
    its kind, name, help text, label names and buckets; the constructors as sequences of
    the library's fallible calls. Vectors whose number of labels is watched show that no
    operation on the metrics ever passes the wrong number of label values, which would
    panic. The Prometheus library is an interface: what it accepts is what its
    documentation says of names, labels and buckets. *)
From stdpp Require Import base numbers list gmap fin_maps strings sorting relations.
From Stdlib Require Import ZArith Lia SpecFloat.
From S2P Require Import Prelude Net Common BpfMaps Str Fmt Metadata Attribution Loader Import FireholSync.
From S2P Require Import Pipeline Git Blocklist Console TopN RingBuf Telemetry ImportGauges.

Local Open Scope Z_scope.

(** ** Metric families *)
Inductive metric_kind : Type :=
| IntCounter | IntCounterVec | IntGauge | IntGaugeVec | Gauge | GaugeVec | Histogram.
Record collector : Type := mkCollector {
  co_kind : metric_kind;
  co_name : list Z;
  co_help : list Z;
  co_labels : list (list Z);
  co_buckets : list f64;
}.
#[global] Instance metric_kind_eq_dec : EqDecision metric_kind.
Proof. solve_decision. Defined.
#[global] Instance f64_eq_dec : EqDecision f64.
Proof. solve_decision. Defined.
#[global] Instance collector_eq_dec : EqDecision collector.
Proof. solve_decision. Defined.

Definition single (k : metric_kind) (name help : String.string) : collector :=
  mkCollector k (lit name) (lit help) [] [].
Definition vector (k : metric_kind) (name help : String.string) (labels : list (list Z)) : collector :=
  mkCollector k (lit name) (lit help) labels [].
Definition histogram (name help : String.string) (buckets : list f64) : collector :=
  mkCollector Histogram (lit name) (lit help) [] buckets.

(** *** [with_git_ref], section by section *)
Definition service_collectors : list collector :=
  [single IntGauge "firewall_up"
     "Indicates whether the eBPF firewall daemon is actively running (1) or stopped (0)";
   vector IntGaugeVec "firewall_build_info"
     "Firewall version, git reference, and build environment metadata"
     [lit "version"; lit "git_ref"; lit "aya_version"]].
Definition packet_collectors : list collector :=
  [vector IntCounterVec "firewall_packets_total"
     "Total number of ingress network packets processed by XDP hook"
     [lit "action"];
   vector IntCounterVec "firewall_packets_blocked_total"
     "Total number of blocked ingress packets by protocol and match type"
     [lit "protocol"; lit "match_type"];
   single IntCounter "firewall_packets_accepted_total"
     "Total number of ingress packets accepted through by XDP";
   vector IntCounterVec "firewall_bytes_total"
     "Total ingress network bytes processed by XDP hook"
     [lit "action"]].
Definition rule_collectors : list collector :=
  [vector IntGaugeVec "firewall_rules_active"
     "Number of active blocking rules loaded in eBPF kernel maps"
     [lit "map_type"];
   single IntGauge "firewall_rules_total"
     "Total number of active reputation blocklist rules across all maps"].
Definition map_entry_collectors : list collector :=
  [vector IntGaugeVec "firewall_map_entries"
     "Number of active elements currently loaded in eBPF maps by map, IP version, and entry type"
     [lit "map"; lit "ip_version"; lit "entry_type"]].
Definition diagnostic_collectors : list collector :=
  [single IntCounter "firewall_ringbuf_events_total"
     "Total security audit events consumed from eBPF Ring Buffer";
   vector IntCounterVec "firewall_errors_total"
     "Total count of operational errors encountered by the firewall daemon"
     [lit "error_type"]].
Definition latency_collectors : list collector :=
  [histogram "firewall_rule_sync_duration_seconds"
     "Duration of eBPF map synchronization operations in seconds"
     [f64_lit 1 4; f64_lit 5 4; f64_lit 1 3; f64_lit 5 3; f64_lit 1 2; f64_lit 5 2; f64_lit 1 1; f64_lit 5 1; f64_lit 1 0]].
Definition top_collectors : list collector :=
  [vector IntCounterVec "firewall_blocked_ip_packets"
     "Total blocked packets per IP address and protocol for the Top 100 blocked IPs"
     [lit "ip"; lit "protocol"];
   vector IntCounterVec "firewall_blocked_ip_bytes"
     "Total blocked traffic volume in bytes per IP address and protocol for the Top 100 blocked IPs"
     [lit "ip"; lit "protocol"];
   vector IntCounterVec "firewall_blocked_ip_total_packets"
     "Total blocked packets per IP address across all protocols for the Top 100 blocked IPs"
     [lit "ip"];
   vector IntCounterVec "firewall_blocked_ip_total_bytes"
     "Total blocked traffic volume in bytes per IP address across all protocols for the Top 100 blocked IPs"
     [lit "ip"];
   single IntGauge "firewall_top_blocked_ips_count"
     "Current number of high-risk IP addresses present in the Top 100 blocked list"].
(** *** [FireholMetrics::new], section by section *)
Definition git_collectors : list collector :=
  [single IntCounter "firewall_firehol_git_clones_total"
     "Total number of fresh shallow clone operations of the FireHOL repository";
   single IntCounter "firewall_firehol_git_fetches_total"
     "Total number of shallow fetch operations of the FireHOL repository";
   single IntCounter "firewall_firehol_git_up_to_date_total"
     "Total number of synchronizations where the repository was already up-to-date";
   single IntCounter "firewall_firehol_git_errors_total"
     "Total number of Git synchronization errors (network, filesystem, corruption)";
   histogram "firewall_firehol_git_clone_duration_seconds"
     "Duration in seconds of Git clone operations"
     [f64_lit 5 1; f64_lit 1 0; f64_lit 25 1; f64_lit 5 0; f64_lit 10 0; f64_lit 30 0; f64_lit 60 0];
   histogram "firewall_firehol_git_fetch_duration_seconds"
     "Duration in seconds of Git fetch operations"
     [f64_lit 1 1; f64_lit 25 2; f64_lit 5 1; f64_lit 1 0; f64_lit 25 1; f64_lit 5 0; f64_lit 10 0];
   histogram "firewall_firehol_git_sync_duration_seconds"
     "Total duration in seconds of FireHOL repository synchronization"
     [f64_lit 5 2; f64_lit 1 1; f64_lit 5 1; f64_lit 1 0; f64_lit 25 1; f64_lit 5 0; f64_lit 15 0; f64_lit 30 0];
   single IntGauge "firewall_firehol_git_last_sync_timestamp"
     "Unix timestamp of the last successful FireHOL synchronization";
   single IntGauge "firewall_firehol_git_last_commit_timestamp"
     "Unix timestamp of the latest synchronized Git commit"].
Definition import_collectors : list collector :=
  [histogram "firewall_firehol_parse_duration_seconds"
     "Total duration in seconds of parallel parsing of FireHOL blocklists"
     [f64_lit 1 2; f64_lit 5 2; f64_lit 1 1; f64_lit 25 2; f64_lit 5 1; f64_lit 1 0; f64_lit 25 1; f64_lit 5 0; f64_lit 10 0];
   vector GaugeVec "firewall_firehol_import_stage_seconds"
     "Last import stage seconds; read/parse/queue_wait are summed worker times, stages overlap"
     [lit "stage"];
   vector GaugeVec "firewall_firehol_import_throughput_bytes_per_second"
     "Last import throughput; parsing uses total wall time, rocksdb uses logical batch bytes / write time"
     [lit "kind"];
   single Gauge "firewall_firehol_import_entries_per_second"
     "Entries / total import wall time";
   single IntGauge "firewall_firehol_import_written_bytes"
     "Logical RocksDB batch bytes in last import, not physical disk bytes";
   single IntGauge "firewall_firehol_import_files"
     "Files processed in last successful import";
   histogram "firewall_firehol_map_load_duration_seconds"
     "Total duration in seconds of populating eBPF HashMaps and LPM Tries with FireHOL entries"
     [f64_lit 5 3; f64_lit 1 2; f64_lit 25 3; f64_lit 5 2; f64_lit 1 1; f64_lit 25 2; f64_lit 5 1; f64_lit 1 0; f64_lit 25 1; f64_lit 5 0];
   single IntGauge "firewall_firehol_blocklists_total"
     "Total number of unique FireHOL blocklists loaded";
   single IntGauge "firewall_firehol_total_entries"
     "Total number of active FireHOL IP and CIDR entries loaded into the firewall";
   single IntGauge "firewall_firehol_ipv4_total"
     "Total number of active IPv4 FireHOL entries (exact + CIDR)";
   single IntGauge "firewall_firehol_ipv6_total"
     "Total number of active IPv6 FireHOL entries (exact + CIDR)";
   single IntGauge "firewall_firehol_exact_total"
     "Total number of exact single-host IP entries loaded";
   single IntGauge "firewall_firehol_cidr_total"
     "Total number of CIDR subnet entries loaded";
   single IntGauge "firewall_firehol_hashmap_entries"
     "Total number of entries inserted into eBPF exact match HashMaps";
   single IntGauge "firewall_firehol_lpm_entries"
     "Total number of entries inserted into eBPF LPM Tries";
   single IntCounter "firewall_firehol_invalid_entries_total"
     "Total number of invalid IP or CIDR entries encountered";
   single IntGauge "firewall_firehol_last_compile_timestamp"
     "Unix timestamp of the last successful FireHOL rule compile and preparation";
   single IntGauge "firewall_firehol_loaded_bytes_total"
     "Total size in bytes of all processed FireHOL blocklist files"].
Definition category_collectors : list collector :=
  [vector IntGaugeVec "firewall_firehol_entries"
     "Number of active FireHOL entries partitioned by category, ip_version, and entry_type"
     [lit "category"; lit "ip_version"; lit "entry_type"];
   vector IntGaugeVec "firewall_firehol_blocklist_entries"
     "Number of active FireHOL entries partitioned by blocklist name"
     [lit "blocklist"];
   vector IntCounterVec "firewall_firehol_blocked_packets_total"
     "Total packets dropped by FireHOL rules partitioned by threat category and protocol"
     [lit "category"; lit "protocol"];
   vector IntCounterVec "firewall_firehol_blocked_bytes_total"
     "Total wire bytes dropped by FireHOL rules partitioned by threat category"
     [lit "category"]].
Definition cron_collectors : list collector :=
  [single IntCounter "firewall_firehol_cron_executions_total"
     "Total number of FireHOL cron scheduler job executions";
   single IntCounter "firewall_firehol_cron_success_total"
     "Total number of successful FireHOL updates triggered by cron";
   single IntCounter "firewall_firehol_cron_no_change_total"
     "Total number of FireHOL cron executions with no upstream changes";
   single IntCounter "firewall_firehol_cron_failures_total"
     "Total number of FireHOL cron synchronization failures";
   single IntGauge "firewall_firehol_cron_last_error"
     "Indicates whether the last FireHOL cron execution failed (1) or succeeded (0)";
   single IntCounter "firewall_firehol_cron_skipped_total"
     "Total number of FireHOL cron runs skipped because another sync was running";
   single Gauge "firewall_firehol_cron_last_duration_seconds"
     "Duration in seconds of the last FireHOL synchronization";
   single IntGauge "firewall_firehol_cron_last_success_timestamp_seconds"
     "Unix timestamp of the last successful FireHOL synchronization";
   single IntGauge "firewall_firehol_cron_last_run_timestamp_seconds"
     "Unix timestamp of the last FireHOL cron job launch"].

(** In the order of registration. *)
Definition firewall_collectors : list collector :=
  service_collectors ++ packet_collectors ++ rule_collectors ++ map_entry_collectors ++
  diagnostic_collectors ++ latency_collectors ++ top_collectors.
Definition firehol_collectors : list collector :=
  git_collectors ++ import_collectors ++ category_collectors ++ cron_collectors.

(** ** What the library accepts *)

(** [[a-zA-Z_:][a-zA-Z0-9_:]*] for names, the same without colons for labels. *)
Definition is_ascii_alphabetic (b : Z) : bool :=
  (65 <=? b) && (b <=? 90) || (97 <=? b) && (b <=? 122).
Definition name_valid (colon : bool) (s : list Z) : bool :=
  let start b := is_ascii_alphabetic b || (b =? 95) || (colon && (b =? 58)) in
  match s with
  | [] => false
  | b :: rest => start b && forallb (λ c, start c || is_ascii_digit c) rest
  end.
Fixpoint increasing (l : list f64) : bool :=
  match l with
  | a :: (b :: _) as rest => SFltb a b && increasing rest
  | _ => true
  end.
(** A help text, valid and distinct label names, increasing buckets, and no label for
    the bound of a bucket. *)
Definition collector_valid (c : collector) : bool :=
  name_valid true (co_name c) && negb (bool_decide (co_help c = [])) &&
  forallb (name_valid false) (co_labels c) && bool_decide (NoDup (co_labels c)) &&
  increasing (co_buckets c) && negb (bool_decide (lit "le" ∈ co_labels c)).

(** The library: [Registry::new], [with_opts] and [new] of the collectors, [register]. *)
Class Prometheus (R E : Type) : Type := {
  registry_empty : R;
  registered : R → list collector;
  collector_new : collector → outcome E collector;
  registry_register : R → collector → outcome E R;
}.
Class PrometheusLaws (R E : Type) `{!Prometheus R E} : Prop := {
  registry_empty_spec : registered (registry_empty (E := E)) = [];
  collector_new_valid c : collector_valid c = true → collector_new c = Ok c;
  register_fresh r c :
    collector_valid c = true → co_name c ∉ co_name <$> registered r →
    ∃ r', registry_register r c = Ok r' ∧ registered r' = registered r ++ [c];
  register_again r c : c ∈ registered r → ∃ e, registry_register r c = Err e;
}.

(** ** The constructors *)
Section Constructors.
Context {R E : Type} `{!Prometheus R E}.

(** [let c = ..?; registry.register(Box::new(c.clone()))?;] for each collector. *)
Fixpoint register_each (r : R) (cs : list collector) : outcome E R :=
  match cs with
  | [] => Ok r
  | c :: cs => c' ← collector_new c; r' ← registry_register r c'; register_each r' cs
  end.

(** The state of the FireHOL collectors, but for the two that the ring-buffer consumer
    counts in. *)
Definition ImportMetrics_new : ImportMetrics :=
  mkImportMetrics ∅ ∅ (f64_of_Z 0) 0 0 0 0 0 0 0 0 0 0 0 0 0 ∅ ∅.
Definition CronMetrics_new : CronMetrics := mkCron 0 0 0 0 0 0 0 0 (0, 0, 0, 0) 0.
Definition GitMetrics_new : GitMetrics := mkGitMetrics 0 0 0 0 0 0.
Definition FireholMetrics_new (r : R) : outcome E (R * (GitMetrics * CronMetrics * ImportMetrics)) :=
  r' ← register_each r firehol_collectors;
  Ok (r', (GitMetrics_new, CronMetrics_new, ImportMetrics_new)).

Context {V : Type} `{!CounterVec V}.
Record metrics_state : Type := mkMetricsState {
  ms_prometheus : PrometheusMetrics (V := V);
  ms_git : GitMetrics;
  ms_cron : CronMetrics;
  ms_import : ImportMetrics;
}.
(** [PrometheusMetrics::with_git_ref]; [vec] as for [with_git_ref] of [Telemetry]. *)
Definition metrics_new (vec : list (list Z) → V) (version git_ref : list Z)
    : outcome E (R * metrics_state) :=
  r ← register_each registry_empty firewall_collectors;
  '(r, (g, cr, im)) ← FireholMetrics_new r;
  Ok (r, mkMetricsState (with_git_ref vec version git_ref) g cr im).
End Constructors.
Arguments metrics_state : clear implicits.

(** ** Registration never fails *)
Section Registration.
Context {R E : Type} `{!Prometheus R E} `{!PrometheusLaws R E}.

Lemma register_each_ok cs : ∀ r : R,
  forallb collector_valid cs = true → NoDup (co_name <$> registered (E := E) r ++ cs) →
  ∃ r', register_each r cs = Ok (E := E) r' ∧ registered (E := E) r' = registered (E := E) r ++ cs.
Proof.
  induction cs as [|c cs IH]; intros r Hv Hn; [exists r; by rewrite app_nil_r|].
  cbn [forallb] in Hv. apply andb_true_iff in Hv as [Hc Hv].
  rewrite cons_middle, app_assoc in Hn. cbn [register_each].
  rewrite (collector_new_valid c Hc). osimpl.
  destruct (register_fresh r c Hc) as (r1 & -> & Hr1).
  { rewrite !fmap_app in Hn. apply NoDup_app in Hn as [Hn _]. apply NoDup_app in Hn as (_ & Hn & _).
    intros Hin. apply (Hn _ Hin). cbn. left. }
  osimpl. rewrite <-Hr1 in Hn. destruct (IH r1 Hv Hn) as (r' & -> & Hr').
  exists r'. split; [done|]. by rewrite Hr', Hr1, <-app_assoc.
Qed.

Lemma collectors_valid : forallb collector_valid (firewall_collectors ++ firehol_collectors) = true.
Proof. vm_compute. reflexivity. Qed.
Lemma collectors_distinct : NoDup (co_name <$> firewall_collectors ++ firehol_collectors).
Proof. by_decide. Qed.

Lemma metrics_new_ok {V} `{!CounterVec V} (vec : list (list Z) → V) version git_ref :
  ∃ r : R, metrics_new vec version git_ref = Ok (E := E)
      (r, mkMetricsState (with_git_ref vec version git_ref) GitMetrics_new CronMetrics_new ImportMetrics_new) ∧
    registered (E := E) r = firewall_collectors ++ firehol_collectors.
Proof.
  pose proof collectors_valid as Hv. rewrite forallb_app in Hv. apply andb_true_iff in Hv as [Hv1 Hv2].
  pose proof collectors_distinct as Hn.
  destruct (register_each_ok firewall_collectors registry_empty Hv1) as (r1 & H1 & Hr1).
  { rewrite registry_empty_spec. rewrite fmap_app in Hn. by apply NoDup_app in Hn as [Hn _]. }
  rewrite registry_empty_spec in Hr1. cbn [app] in Hr1.
  destruct (register_each_ok firehol_collectors r1 Hv2) as (r2 & H2 & Hr2); [by rewrite Hr1|].
  rewrite Hr1 in Hr2. exists r2. split; [|exact Hr2].
  unfold metrics_new, FireholMetrics_new. rewrite H1. osimpl. by rewrite H2.
Qed.

(** The constructor of the metrics always succeeds: all 57 families have
    valid names, labels, help texts and buckets and no two have one name, so every
    [?] of [with_git_ref] and [FireholMetrics::new] passes, in this order, and the
    registry holds exactly these families. The FireHOL collectors fit only once into a
    registry: registering them again is an error. *)
Theorem metrics_registration_succeeds {V} `{!CounterVec V} (vec : list (list Z) → V) version git_ref :
  ∃ (r : R) m, metrics_new vec version git_ref = Ok (E := E) (r, m) ∧
    registered (E := E) r = firewall_collectors ++ firehol_collectors ∧
    ms_prometheus m = Telemetry.with_git_ref vec version git_ref ∧
    ∃ e : E, FireholMetrics_new r = Err e.
Proof.
  destruct (metrics_new_ok vec version git_ref) as (r & Hnew & Hr).
  eexists r, _. split_and!; [exact Hnew|exact Hr|done|].
  assert (∃ c cs, firehol_collectors = c :: cs ∧ collector_valid c = true) as (c & cs & Hc & Hv)
    by (eexists _, _; split; [reflexivity|by_decide]).
  destruct (register_again r c) as [e He].
  { rewrite Hr, Hc, elem_of_app. right. left. }
  exists e. unfold FireholMetrics_new. rewrite Hc. cbn [register_each].
  rewrite (collector_new_valid c Hv). osimpl. by rewrite He.
Qed.
End Registration.

(** ** Watched vectors *)

(** A vector that remembers its label names and whether [with_label_values] was ever
    called with another number of values, which panics. *)
Record watched_vec : Type := mkWatched {
  wv_names : list (list Z);
  wv_series : gmap (list (list Z)) Z;
  wv_panicked : bool;
}.
Definition with_label_values (v : watched_vec) (l : list (list Z)) (f : Z → Z) : watched_vec :=
  mkWatched (wv_names v) (<[l := f (default 0 (wv_series v !! l))]> (wv_series v))
    (wv_panicked v || negb (bool_decide (length l = length (wv_names v)))).
#[global] Program Instance watched_counter_vec : CounterVec watched_vec := {|
  cv_series := wv_series;
  cv_touch v l := with_label_values v l (λ x, x);
  cv_inc_by v l d := with_label_values v l (λ x, wrap_u64 (x + d));
  cv_remove v l := mkWatched (wv_names v) (delete l (wv_series v)) (wv_panicked v);
|}.
Next Obligation. done. Qed.
Next Obligation. done. Qed.
Next Obligation. done. Qed.
Definition watched_new (names : list (list Z)) : watched_vec := mkWatched names ∅ false.

(** The labels a family was registered with. *)
Definition labels_of (name : String.string) : list (list Z) :=
  match list_find (λ c, co_name c = lit name) (firewall_collectors ++ firehol_collectors) with
  | Some (_, c) => co_labels c
  | None => []
  end.
Definition quiet (names : list (list Z)) (v : watched_vec) : Prop :=
  wv_names v = names ∧ wv_panicked v = false.
Definition keyed {A} (names : list (list Z)) (g : gmap (list (list Z)) A) : Prop :=
  map_Forall (λ l _, length l = length names) g.

Section Operations.
Context `{!HashOrder} {S T : Type} `{!ContextStore S} `{!ContextStore T}.
Abbreviation metrics := (metrics_state watched_vec).

(** What the tasks of the daemon do to the labelled metrics. *)
Inductive metrics_op : Type :=
(** The ring-buffer consumer handles one record, however it is configured. *)
| RecordOf (registry : option (FireholMetadataRegistry S)) (static : option StaticRuleRegistry)
    (log_drops : bool) (item : list Z)
| ErrorOf (error_type : list Z)
| AcceptedPacket (byte_len : Z)
| KernelStats (stats : FirewallStats)
| MapEntries (exact_v4 exact_v6 lpm_v4 lpm_v6 : Z)
| IncEntry (map ip_version entry_type : list Z)
| DecEntry (map ip_version entry_type : list Z)
| Criterion (c : RankingCriterion)
| RequestOf (text_of : PrometheusMetrics (V := watched_vec) → list Z + list Z) (req : list Z)
| ImportOf (s : pipeline) (result : outcome FireholParseError (FireholDataSet T))
    (timing : FireholImportTiming) (total_file_size now : Z)
| UpIs (v : Z).

Definition set_prometheus (m : metrics) (p : PrometheusMetrics (V := watched_vec)) : metrics :=
  mkMetricsState p (ms_git m) (ms_cron m) (ms_import m).
Definition metrics_step (m : metrics) (op : metrics_op) : metrics :=
  let p := ms_prometheus m in
  match op with
  | RecordOf registry static log_drops item =>
      let c := consume_item (mkConsumer registry static log_drops (Some (pm_telemetry p)) []) item in
      set_prometheus m (set_telemetry p (default (pm_telemetry p) (cn_metrics c)))
  | ErrorOf error_type => set_prometheus m (set_telemetry p (record_error (pm_telemetry p) error_type))
  | AcceptedPacket byte_len => set_prometheus m (record_accepted_packet p byte_len)
  | KernelStats stats => set_prometheus m (update_from_ebpf_stats p stats)
  | MapEntries a b c d => set_prometheus m (update_map_entries p a b c d)
  | IncEntry map v t => set_prometheus m (inc_map_entry p [map; v; t])
  | DecEntry map v t => set_prometheus m (dec_map_entry p [map; v; t])
  | Criterion c => set_prometheus m (set_top_n_criterion p c)
  | RequestOf text_of req => set_prometheus m (handle_request text_of req p None).1.2
  | ImportOf s result timing size now =>
      mkMetricsState p (ms_git m) (ms_cron m) (import_metrics (ms_import m) s result timing size now)
  | UpIs v => set_prometheus m (set_up p v)
  end.

(** No call had the wrong number of label values: in the vectors by their record, in the
    gauges, whose series stay, by the series. *)
Record telemetry_labelled (t : telemetry (V := watched_vec)) : Prop := {
  tl_packets : quiet (labels_of "firewall_packets_total") (tm_packets_total t);
  tl_blocked : quiet (labels_of "firewall_packets_blocked_total") (tm_packets_blocked_total t);
  tl_bytes : quiet (labels_of "firewall_bytes_total") (tm_bytes_total t);
  tl_errors : quiet (labels_of "firewall_errors_total") (tm_errors_total t);
  tl_firehol_packets : quiet (labels_of "firewall_firehol_blocked_packets_total") (tm_firehol_packets t);
  tl_firehol_bytes : quiet (labels_of "firewall_firehol_blocked_bytes_total") (tm_firehol_bytes t);
}.
Record vecs_labelled (v : metric_vecs (V := watched_vec)) : Prop := {
  vl_packets : quiet (labels_of "firewall_blocked_ip_packets") (packets_vec v);
  vl_bytes : quiet (labels_of "firewall_blocked_ip_bytes") (bytes_vec v);
  vl_total_packets : quiet (labels_of "firewall_blocked_ip_total_packets") (total_packets_vec v);
  vl_total_bytes : quiet (labels_of "firewall_blocked_ip_total_bytes") (total_bytes_vec v);
}.
Record import_labelled (im : ImportMetrics) : Prop := {
  il_stage : keyed (labels_of "firewall_firehol_import_stage_seconds") (im_stage_seconds im);
  il_throughput : keyed (labels_of "firewall_firehol_import_throughput_bytes_per_second")
    (im_throughput_bytes_per_second im);
  il_category : keyed (labels_of "firewall_firehol_entries") (im_entries_by_category im);
  il_blocklist : keyed (labels_of "firewall_firehol_blocklist_entries") (im_entries_by_blocklist im);
}.
Record labelled (p : PrometheusMetrics (V := watched_vec)) : Prop := {
  lb_telemetry : telemetry_labelled (pm_telemetry p);
  lb_vecs : vecs_labelled (pm_blocked p);
  lb_build : keyed (labels_of "firewall_build_info") (pm_build_info p);
  lb_rules : keyed (labels_of "firewall_rules_active") (pm_rules_active p);
  lb_entries : keyed (labels_of "firewall_map_entries") (pm_map_entries p);
}.
Definition well_labelled (m : metrics) : Prop :=
  labelled (ms_prometheus m) ∧ import_labelled (ms_import m).

Implicit Types (names l : list (list Z)).
#[local] Opaque labels_of.

(** The call's values are as many as the labels of the family. *)
Ltac by_arity :=
  lazymatch goal with
  | |- length ?l = length ?names =>
      let n := eval cbn [length] in (length l) in change (n = length names); vm_compute; reflexivity
  end.
Lemma quiet_call names v l f : length l = length names → quiet names v → quiet names (with_label_values v l f).
Proof.
  intros Hl [Hn Hp]. split; [done|]. cbn. rewrite Hp, Hn. by rewrite bool_decide_eq_true_2.
Qed.
Lemma keyed_names_insert {A} names l (x : A) g : length l = length names → keyed names g → keyed names (<[l := x]> g).
Proof. intros Hl Hg. by apply map_Forall_insert_2. Qed.
Lemma keyed_fold {A B} (names : list (list Z)) (f : gmap (list (list Z)) A → B → gmap (list (list Z)) A) (bs : list B) : ∀ g,
  (∀ g b, b ∈ bs → keyed names g → keyed names (f g b)) → keyed names g → keyed names (fold_left f bs g).
Proof.
  induction bs as [|b bs IH]; intros g Hf Hg; [done|]. cbn [fold_left].
  apply IH; [intros; apply Hf; [by right|done]|]. apply Hf; [by left|done].
Qed.

Ltac label_counts :=
  split; cbn in *; auto;
  repeat first [apply quiet_call; [by_arity|] | apply keyed_names_insert; [by_arity|]]; auto.

(** *** The exported ranking *)
Lemma export_quiet names (m : watched_vec * last_values) l cur :
  length l = length names → quiet names m.1 → quiet names (export_counter m l cur).1.
Proof.
  intros Hl Hm. unfold export_counter. destruct (_ <? _); [by apply quiet_call|].
  destruct (_ && _); [by apply quiet_call|done].
Qed.
Lemma drop_quiet names (m : watched_vec * last_values) l :
  quiet names m.1 → quiet names (drop_counter m l).1.
Proof. done. Qed.

Definition mirrors_labelled (m : mirrors (V := watched_vec)) : Prop :=
  vecs_labelled (mkVecs (mi_packets m).1 (mi_bytes m).1 (mi_total_packets m).1 (mi_total_bytes m).1 0).

Lemma fold_labelled {A} (f : mirrors (V := watched_vec) → A → mirrors) (xs : list A) : ∀ m,
  (∀ m a, mirrors_labelled m → mirrors_labelled (f m a)) → mirrors_labelled m →
  mirrors_labelled (fold_left f xs m).
Proof. induction xs as [|a xs IH]; intros m Hf Hm; [done|]. apply IH; [done|by apply Hf]. Qed.

Lemma export_stat_labelled m s : mirrors_labelled m → mirrors_labelled (export_stat m s).
Proof.
  intros Hm. unfold export_stat. generalize (ip_to_string (bs_ip s)). intros ip. cbv zeta.
  match goal with |- context [fold_left ?f ALL m] =>
    assert (mirrors_labelled (fold_left f ALL m)) as Hm';
      [apply fold_labelled; [|exact Hm]|generalize dependent (fold_left f ALL m)] end.
  - intros m0 p [H1 H2 H3 H4]. split; [by apply export_quiet; [by_arity|]..|done|done].
  - intros m' [H1 H2 H3 H4]. split; [done|done|by apply export_quiet; [by_arity|]..].
Qed.
Lemma evict_ip_labelled m ip : mirrors_labelled m → mirrors_labelled (evict_ip m ip).
Proof.
  intros Hm. unfold evict_ip. set (m' := fold_left _ _ _).
  assert (mirrors_labelled m') as [H1 H2 H3 H4]; [|by split].
  apply fold_labelled; [|exact Hm]. by intros m0 p [].
Qed.
Lemma sync_labelled t v : vecs_labelled v → vecs_labelled (sync_to_metrics t v).2.
Proof.
  intros [H1 H2 H3 H4]. unfold sync_to_metrics. cbn [snd]. set (m2 := fold_left export_stat _ _).
  assert (mirrors_labelled m2) as []; [|by split].
  apply fold_labelled; [apply export_stat_labelled|]. apply fold_labelled; [apply evict_ip_labelled|by split].
Qed.

(** *** The consumer *)
Lemma consume_labelled registry static log_drops t item :
  telemetry_labelled t →
  telemetry_labelled (default t (cn_metrics (consume_item (V := watched_vec) (S := S)
    (mkConsumer registry static log_drops (Some t) []) item))).
Proof.
  intros Ht. unfold consume_item. destruct (negb _).
  { destruct Ht. label_counts. }
  assert (∀ c e, telemetry_labelled (count_event (S := S) c e (record_ringbuf_event t))) as Hc.
  { intros c e. unfold count_event. destruct Ht, (_ ≫= _); split; cbn; auto; by apply quiet_call. }
  destruct log_drops; cbn; apply Hc.
Qed.

Lemma inc_accepted_labelled p n b cn cb : labelled p → labelled (inc_accepted p n b cn cb).
Proof. intros [[] ????]. split; try done. destruct cn, cb; label_counts. Qed.

Lemma update_rules_labelled p a b c d : labelled p → labelled (update_rules_count p a b c d).
Proof. intros []. label_counts. Qed.

Lemma request_labelled text_of req p flag :
  labelled p → labelled (handle_request text_of req p flag).1.2.
Proof.
  intros [Ht Hv ???]. unfold handle_request, metrics_encode, sync_top_blocked_ips.
  pose proof (sync_labelled (tm_top_blocked_ips (pm_telemetry p)) _ Hv) as Hs.
  destruct (is_metrics_request req).
  - destruct (sync_to_metrics _ _) as [t v]. split; try done. by destruct Ht.
  - by destruct (is_health_request req), (is_drop_logs_request req).
Qed.

Lemma import_step_labelled im s result timing size now :
  import_labelled im → import_labelled (import_metrics (S := T) im s result timing size now).
Proof.
  intros []. unfold import_metrics. destruct (failure s); [by split|]. destruct result; [|by split..].
  split; cbn [record_import im_stage_seconds im_throughput_bytes_per_second im_entries_by_category
    im_entries_by_blocklist].
  - apply keyed_fold; [|done]. intros g [] _ Hg. by apply keyed_names_insert; [by_arity|].
  - by repeat (apply keyed_names_insert; [by_arity|]).
  - apply keyed_fold; [|done]. intros g [] _ Hg. by apply keyed_names_insert; [by_arity|].
  - apply keyed_fold; [|done]. intros g [] _ Hg. by apply keyed_names_insert; [by_arity|].
Qed.

Lemma step_labelled m op : well_labelled m → well_labelled (metrics_step m op).
Proof.
  intros [Hp Hi].
  destruct op as [registry static log_drops item|e|n|stats|a b c d|x y z|x y z|c|text_of req|s result timing size now|v];
    cbn [metrics_step]; (split; [|first [done|by apply import_step_labelled]]);
    cbn [set_prometheus ms_prometheus]; pose proof Hp as [Ht Hv Hb Hr He].
  - split; try done. by apply consume_labelled.
  - split; try done. destruct Ht. label_counts.
  - by apply inc_accepted_labelled.
  - unfold update_from_ebpf_stats. repeat case_match; by repeat apply inc_accepted_labelled.
  - apply update_rules_labelled. label_counts.
  - label_counts.
  - label_counts.
  - split; try done. by destruct Ht.
  - by apply request_labelled.
  - done.
  - by split.
Qed.

Lemma new_labelled version git_ref : 
  well_labelled (mkMetricsState (with_git_ref watched_new version git_ref) GitMetrics_new CronMetrics_new ImportMetrics_new).
Proof.
  split; [|split; apply map_Forall_empty].
  split; [split; split; vm_compute; reflexivity|split; split; vm_compute; reflexivity| | |].
  - by apply keyed_names_insert; [by_arity|].
  - unfold keyed. by_decide.
  - unfold keyed. by_decide.
Qed.

End Operations.

(** C32 (invariant). The daemon's metrics never panic: a vector is given as many label
    values as its family was registered with, at its creation and by every operation of
    the tasks, in any number and order: records of the ring buffer of any size and
    content, errors of any kind, accepted packets, kernel counters, counts and changes of
    map entries, scrapes and other requests, changes of the ranking, and imports with
    any outcome. The creation itself succeeds, every [?] of it, and registers the 57
    families in order. *)
Theorem metrics_never_panic {R E} `{!Prometheus R E} `{!PrometheusLaws R E} `{!HashOrder} {S T : Type}
    `{!ContextStore S} `{!ContextStore T} version git_ref :
  ∃ (r : R) m, metrics_new watched_new version git_ref = Ok (E := E) (r, m) ∧
    registered (E := E) r = firewall_collectors ++ firehol_collectors ∧
    ∀ ops : list (metrics_op (S := S) (T := T)), well_labelled (fold_left metrics_step ops m).
Proof.
  destruct (metrics_new_ok (R := R) (E := E) watched_new version git_ref) as (r & Hnew & Hr).
  eexists r, _. split; [exact Hnew|]. split; [exact Hr|]. intros ops.
  pose proof (new_labelled version git_ref) as Hm. revert Hm. generalize (mkMetricsState
    (with_git_ref watched_new version git_ref) GitMetrics_new CronMetrics_new ImportMetrics_new).
  induction ops as [|op ops IH]; intros m Hm; [done|]. by apply IH, step_labelled.
Qed.

(** ** Witnesses: a registry that is the list of its families *)
#[local] Existing Instance canonical_order.
Definition list_register (r : list collector) (c : collector) : outcome (list Z) (list collector) :=
  if negb (collector_valid c) then Err (lit "invalid descriptor")
  else if bool_decide (co_name c ∈ co_name <$> r) then Err (lit "duplicate metrics collector registration attempted")
  else Ok (r ++ [c]).
#[local] Instance list_prometheus : Prometheus (list collector) (list Z) := {|
  registry_empty := [];
  registered r := r;
  collector_new c := if collector_valid c then Ok c else Err (lit "invalid descriptor");
  registry_register := list_register;
|}.
#[local] Instance list_prometheus_laws : PrometheusLaws (list collector) (list Z).
Proof.
  split; [done|by intros c Hc; cbn; rewrite Hc|intros r c Hc Hn|intros r c Hin]; cbn; unfold list_register.
  - rewrite Hc, bool_decide_eq_false_2 by done. by eexists.
  - destruct (collector_valid c); [|by eexists]. cbn [negb].
    rewrite bool_decide_eq_true_2; [by eexists|]. apply list_elem_of_fmap. by exists c.
Qed.

Lemma metrics_registration_succeeds_witness :
  ∃ (r : list collector) m,
    metrics_new (V := demo_vec) (λ _, ∅) (lit "0.1.0") (lit "v1") = Ok (E := list Z) (r, m) ∧
    length r = 57%nat.
Proof.
  destruct (metrics_registration_succeeds (R := list collector) (E := list Z) (V := demo_vec) (λ _, ∅)
    (lit "0.1.0") (lit "v1")) as (r & m & Hm & Hr & _).
  exists r, m. split; [exact Hm|]. change (registered r) with r in Hr. rewrite Hr. vm_compute. reflexivity.
Defined.

Lemma metrics_never_panic_witness :
  ∃ (r : list collector) m, metrics_new watched_new (lit "0.1.0") (lit "v1") = Ok (E := list Z) (r, m) ∧
    well_labelled (fold_left (metrics_step (S := MemStore) (T := MemStore))
      [RecordOf None None false (event_to_bytes demo_drop); RecordOf None None false [1];
       RequestOf (λ _, inr []) (lit "GET /metrics")] m).
Proof.
  destruct (metrics_never_panic (R := list collector) (E := list Z) (S := MemStore) (T := MemStore)
    (lit "0.1.0") (lit "v1")) as (r & m & Hm & _ & Hl).
  exists r, m. split; [exact Hm|]. apply Hl.
Defined.
