(* ===== verification/Build.v ===== *)
(** * Build scripts ([build.rs], [xtask/src/main.rs])

    The reference that is compiled into the daemon and exported as build information,
    and the commands of the build helper. Environment variables, the output of commands
    and the files of the repository are arguments. *)
From stdpp Require Import base numbers list strings sorting.
From Stdlib Require Import ZArith Lia.
From S2P Require Import Prelude Net Str Lines.

Local Open Scope Z_scope.

(** ** The reference ([build.rs]) *)

(** [be_var name]: a variable with a UTF-8 value. [be_git args]: whether a [git] command
    that could be started succeeded, with its output made valid UTF-8. [be_tags]: the
    names in [.git/refs/tags], unreadable entries left out. [be_file path]: a file with
    UTF-8 text. *)
Record BuildEnv : Type := mkBuildEnv {
  be_var : list Z → option (list Z);
  be_git : list (list Z) → option (bool * list Z);
  be_tags : option (list (list Z));
  be_file : list Z → option (list Z);
}.

Definition non_empty (s : list Z) : option (list Z) := if len s =? 0 then None else Some s.
Definition env_override (b : BuildEnv) (name : list Z) : option (list Z) :=
  val ← be_var b name; non_empty (trim val).
Definition git_output (b : BuildEnv) (args : list (list Z)) : option (list Z) :=
  match be_git b args with Some (true, stdout) => non_empty (trim stdout) | _ => None end.

(** [a.or_else(|| b)]. *)
Definition or_else {A} (a b : option A) : option A := match a with Some _ => a | None => b end.

(** The order of strings: that of their bytes, hence of their scalar values. *)
Fixpoint str_leb (a b : list Z) : bool :=
  match a, b with
  | [], _ => true
  | _ :: _, [] => false
  | x :: a', y :: b' => (x <? y) || ((x =? y) && str_leb a' b')
  end.
Definition str_le (a b : list Z) : Prop := str_leb a b = true.
#[global] Instance str_le_dec : RelDecision str_le.
Proof. intros a b. unfold str_le. apply _. Defined.
Definition last_tag (tags : list (list Z)) : option (list Z) :=
  tag ← last (merge_sort str_le tags);
  if len (trim tag) =? 0 then None else Some tag.

Definition get_git_tag (b : BuildEnv) : option (list Z) :=
  or_else (env_override b (lit "GIT_TAG"))
    (or_else (git_output b [lit "describe"; lit "--tags"; lit "--exact-match"])
       (or_else (git_output b [lit "describe"; lit "--tags"; lit "--abbrev=0"])
          (tags ← be_tags b; last_tag tags))).

(** [&s\[..n\]] of [n] bytes, a panic inside a character. *)
Fixpoint byte_prefix (n : Z) (s : list Z) : outcome unit (list Z) :=
  if n =? 0 then Ok []
  else match s with
       | [] => Fault
       | c :: s' =>
           let k := len (utf8_char c) in
           if k <=? n then rest ← byte_prefix (n - k) s'; mret (c :: rest) else Fault
       end.
Definition short_hash (h : list Z) : outcome unit (option (list Z)) :=
  if 7 <=? len (as_bytes h) then p ← byte_prefix 7 h; mret (Some p) else mret None.

Definition strip_str_prefix (pat s : list Z) : option (list Z) :=
  if starts_with pat s then Some (drop (length pat) s) else None.
(** [text.lines()]. *)
Definition text_lines (s : list Z) : list (list Z) :=
  (λ l, if ends_with [13] l then take (length l - 1) l else l) <$> split_terminator newline s.
(** [s.split_whitespace()], with the word read so far, reversed. *)
Fixpoint split_words (word s : list Z) : list (list Z) :=
  let flush := if len word =? 0 then [] else [reverse word] in
  match s with
  | [] => flush
  | c :: s' => if is_whitespace c then flush ++ split_words [] s' else split_words (c :: word) s'
  end.

(** The loop over [packed-refs]. *)
Fixpoint find_packed (name : list Z) (lines : list (list Z)) : outcome unit (option (list Z)) :=
  match lines with
  | [] => mret None
  | line :: rest =>
      match split_words [] line with
      | [h; ref] =>
          if bool_decide (ref = name) then
            found ← short_hash h;
            match found with Some _ => mret found | None => find_packed name rest end
          else find_packed name rest
      | _ => find_packed name rest
      end
  end.

Definition get_git_commit_from_fs (b : BuildEnv) : outcome unit (option (list Z)) :=
  match be_file b (lit ".git/HEAD") with
  | None => mret None
  | Some head_content =>
      let head := trim head_content in
      match strip_str_prefix (lit "ref: ") head with
      | Some ref_path =>
          let ref := trim ref_path in
          found ← match be_file b (lit ".git/" ++ ref) with
                  | Some hash => short_hash (trim hash) | None => mret None end;
          match found, be_file b (lit ".git/packed-refs") with
          | Some _, _ => mret found
          | None, Some packed => find_packed ref (text_lines packed)
          | None, None => mret None
          end
      | None => short_hash head
      end
  end.

Definition get_git_commit (b : BuildEnv) : outcome unit (option (list Z)) :=
  match or_else (env_override b (lit "GIT_COMMIT"))
          (or_else (git_output b [lit "rev-parse"; lit "--short"; lit "HEAD"])
             (git_output b [lit "log"; lit "-1"; lit "--format=%h"])) with
  | Some c => mret (Some c)
  | None => get_git_commit_from_fs b
  end.

(** The value of [FIREWALL_GIT_REF]. *)
Definition resolved_ref (b : BuildEnv) : outcome unit (list Z) :=
  match or_else (env_override b (lit "GIT_REF")) (get_git_tag b) with
  | Some r => mret r
  | None => c ← get_git_commit b; mret (default (lit "unknown") c)
  end.

(** ** The build helper ([xtask]) *)
Inductive Commands : Type :=
| BuildEbpf (release : bool)
| BuildAll (release : bool)
| RunDaemon (release : bool) (run_args : list (list Z)).
Inductive command_failure : Type := NotStarted | Failed_with (code : option Z).

(** How a [cargo] command ends: not started, or its success and exit code. *)
Abbreviation cargo := (list (list Z) → option (bool * option Z)).

(** A command and how it is judged; the commands run so far are kept. *)
Definition run_cargo (c : cargo) (args : list (list Z)) (log : list (list (list Z)))
    : list (list (list Z)) * option command_failure :=
  (log ++ [args],
   match c args with
   | None => Some NotStarted
   | Some (true, _) => None
   | Some (false, code) => Some (Failed_with code)
   end).
Definition release_flag (release : bool) : list (list Z) := if release then [lit "--release"] else [].
Definition ebpf_args (release : bool) : list (list Z) :=
  [lit "+nightly"; lit "build"; lit "--manifest-path=firewall-ebpf/Cargo.toml";
   lit "--target=bpfel-unknown-none"; lit "-Z"; lit "build-std=core"; lit "--target-dir=target"]
    ++ release_flag release.
Definition build_ebpf (c : cargo) (release : bool) := run_cargo c (ebpf_args release).
Definition build_userspace (c : cargo) (release : bool) :=
  run_cargo c ([lit "build"; lit "--package=firewall"] ++ release_flag release).
Definition run_userspace (c : cargo) (release : bool) (run_args : list (list Z)) :=
  run_cargo c ([lit "run"; lit "--package=firewall"] ++ release_flag release ++
    (if len run_args =? 0 then [] else [lit "--"] ++ run_args)).

(** [main]: [?] after each step. *)
Definition xtask (c : cargo) (command : Commands) : list (list (list Z)) * option command_failure :=
  match command with
  | BuildEbpf release => build_ebpf c release []
  | BuildAll release =>
      match build_ebpf c release [] with
      | (log, None) => build_userspace c release log
      | failed => failed
      end
  | RunDaemon release run_args =>
      match build_ebpf c release [] with
      | (log, None) => run_userspace c release run_args log
      | failed => failed
      end
  end.

(** The daemon is built or run only after its eBPF program has been built. *)
Lemma userspace_after_ebpf c command args :
  args ∈ (xtask c command).1 → ∃ release,
    (args = ebpf_args release ∧ head (xtask c command).1 = Some args) ∨
    (head (xtask c command).1 = Some (ebpf_args release) ∧ ∃ code, c (ebpf_args release) = Some (true, code)).
Proof.
  intros H. destruct command as [release|release|release run_args]; exists release; revert H;
    cbn [xtask]; unfold build_ebpf, build_userspace, run_userspace, run_cargo;
    destruct (c (ebpf_args release)) as [[[] code]|]; cbn [fst app head];
    rewrite ?elem_of_cons, ?elem_of_nil; naive_solver.
Qed.

Definition demo_env : BuildEnv :=
  mkBuildEnv (λ _, None) (λ _, None) None (λ path,
    if bool_decide (path = lit ".git/HEAD") then Some (lit "ref: refs/heads/main" ++ [10])
    else if bool_decide (path = lit ".git/packed-refs") then
      Some (lit "# pack-refs with: peeled" ++ [10] ++ lit "0123456789abcdef refs/heads/main" ++ [10])
    else None).
Example demo_ref : resolved_ref demo_env = Ok (lit "0123456").
Proof. vm_compute. reflexivity. Qed.
Example last_of_tags : last_tag [lit "v0.9"; lit "v0.10"] = Some (lit "v0.9").
Proof. vm_compute. reflexivity. Qed.
