(* ===== verification/XdpLoader.v ===== *)
(** * Loading and attaching the program ([src/xdp.rs]) and errors for the operator
    ([src/error.rs])

    The file system and the aya crate are arguments: which paths are files, whether
    reading, loading and attaching succeed. An error of a library is the text of its
    [Display] and of its chain of sources, as the messages use nothing else of it. *)
From stdpp Require Import base numbers list gmap fin_maps strings sorting.
From Stdlib Require Import ZArith Lia.
From S2P Require Import Prelude Net Common Str Fmt.

Local Open Scope Z_scope.

(** ** Errors *)

(** One error of a chain: its text, and whether it is an [io::Error] that denies
    permission ([PermissionDenied], [EPERM] or [EACCES]). *)
Record cause : Type := mkCause { ca_text : list Z; ca_denied : bool }.
(** A library's error: itself and the errors its [source] leads to. *)
Record library_error : Type := mkLibError { le_self : cause; le_sources : list cause }.

Inductive FirewallErrorKind : Type :=
| EbpfError (e : library_error)
| MapError (e : library_error)
| ProgramError (e : library_error)
| IoErrorKind (e : library_error)
| ParseErrorKind (line : Z) (reason : list Z)
| InterfaceError (msg : list Z)
| RingBufError (msg : list Z)
| ConfigError (msg : list Z)
| CacheError (msg : list Z).

(** [source], followed to the end. *)
Definition source_chain (e : FirewallErrorKind) : list cause :=
  match e with
  | EbpfError e | MapError e | ProgramError e | IoErrorKind e => le_self e :: le_sources e
  | _ => []
  end.

Definition base_msg (e : FirewallErrorKind) : list Z :=
  match e with
  | EbpfError e => lit "eBPF subsystem error: " ++ ca_text (le_self e)
  | MapError e => lit "eBPF map error: " ++ ca_text (le_self e)
  | ProgramError e => lit "eBPF program error: " ++ ca_text (le_self e)
  | IoErrorKind e => lit "IO error: " ++ ca_text (le_self e)
  | ParseErrorKind line reason => lit "Rule parse error on line " ++ decimal line ++ lit ": " ++ reason
  | InterfaceError msg => lit "Network interface error: " ++ msg
  | RingBufError msg => lit "Ring buffer error: " ++ msg
  | ConfigError msg => lit "Configuration error: " ++ msg
  | CacheError msg => lit "Cache (RocksDB) error: " ++ msg
  end.

(** The loop over the chain: the messages and whether permission was denied. *)
Definition known (messages : list (list Z)) (msg : list Z) : bool :=
  existsb (λ m, contains msg m || contains m msg) messages.
Definition collect_cause (acc : list (list Z) * bool) (c : cause) : list (list Z) * bool :=
  (if known acc.1 (ca_text c) then acc.1 else acc.1 ++ [ca_text c], acc.2 || ca_denied c).
Fixpoint join_text (sep : list Z) (l : list (list Z)) : list Z :=
  match l with
  | [] => []
  | [x] => x
  | x :: rest => x ++ sep ++ join_text sep rest
  end.
Definition privilege_hint : list Z :=
  lit ". Elevated root privileges required (try running with 'sudo' or check CAP_BPF/CAP_NET_ADMIN capabilities)".

(** [Display::fmt]. *)
Definition error_text (e : FirewallErrorKind) : list Z :=
  let '(messages, denied) := fold_left collect_cause (source_chain e) ([base_msg e], false) in
  let combined := join_text (lit ": ") messages in
  if denied || contains (lit "Operation not permitted") combined ||
     contains (lit "Permission denied") combined
  then if negb (contains (lit "sudo") combined) && negb (contains (lit "privilege") combined)
       then combined ++ privilege_hint else combined
  else combined.

Example error_texts :
  error_text (ConfigError (lit "no rules")) = lit "Configuration error: no rules" ∧
  error_text (ProgramError (mkLibError (mkCause (lit "load failed") false)
    [mkCause (lit "os error 1") true; mkCause (lit "os error 1") true])) =
    lit "eBPF program error: load failed: os error 1" ++ privilege_hint.
Proof. vm_compute. done. Qed.

(** *** No cause is lost *)

Lemma contains_app_r pat a b : contains pat b = true → contains pat (a ++ b) = true.
Proof.
  induction a as [|x a IH]; intros Hb; [done|]. cbn [app contains]. by rewrite IH, orb_true_r.
Qed.

Lemma starts_with_app pat s b : starts_with pat s = true → starts_with pat (s ++ b) = true.
Proof.
  revert s. induction pat as [|p pat IH]; intros s Hs; [done|].
  destruct s as [|x s]; [done|]. cbn [app starts_with] in *. bool_Z. subst.
  by rewrite Z.eqb_refl, IH.
Qed.

Lemma contains_app_l pat a b : contains pat a = true → contains pat (a ++ b) = true.
Proof.
  induction a as [|x a IH]; intros Ha.
  - cbn in Ha. rewrite orb_false_r in Ha. destruct pat; [|done]. by destruct b.
  - cbn [contains] in Ha. rewrite <-app_comm_cons. cbn [contains]. apply orb_true_iff in Ha as [Ha|Ha].
    + by rewrite app_comm_cons, starts_with_app.
    + by rewrite IH, orb_true_r.
Qed.

Lemma contains_self s : contains s s = true.
Proof.
  destruct s as [|x s]; [done|]. cbn [contains]. pose proof (starts_with_self (x :: s) []) as Hs.
  rewrite app_nil_r in Hs. by rewrite Hs.
Qed.

Lemma contains_join m sep l : m ∈ l → contains m (join_text sep l) = true.
Proof.
  induction l as [|x l IH]; intros Hm; [by apply elem_of_nil in Hm|].
  apply elem_of_cons in Hm as [->|Hm].
  - destruct l; [apply contains_self|]. apply contains_app_l, contains_self.
  - destruct l as [|y l]; [by apply elem_of_nil in Hm|].
    change (join_text sep (x :: y :: l)) with (x ++ sep ++ join_text sep (y :: l)).
    by apply contains_app_r, contains_app_r, IH.
Qed.

(** What was collected stays; a cause is then shown, or holds a message that is. *)
Definition told (messages : list (list Z)) (msg : list Z) : Prop :=
  ∃ m, m ∈ messages ∧ (contains msg m = true ∨ contains m msg = true).

Lemma collect_told chain : ∀ acc,
  (∀ m, m ∈ acc.1 → m ∈ (fold_left collect_cause chain acc).1) ∧
  (∀ c, c ∈ chain → told (fold_left collect_cause chain acc).1 (ca_text c)) ∧
  (fold_left collect_cause chain acc).2 = acc.2 || existsb ca_denied chain.
Proof.
  induction chain as [|c chain IH]; intros acc; cbn [fold_left existsb].
  { split_and!; [done|by intros c ?%elem_of_nil|by rewrite orb_false_r]. }
  destruct (IH (collect_cause acc c)) as (Hk & Ht & Hd).
  assert (Hc1 : (collect_cause acc c).1 =
    if known acc.1 (ca_text c) then acc.1 else acc.1 ++ [ca_text c]) by done.
  split_and!.
  - intros m Hm. apply Hk. rewrite Hc1. destruct (known acc.1 (ca_text c)); [done|]. apply elem_of_app. by left.
  - intros c' [->|Hc']%elem_of_cons; [|by apply Ht].
    rewrite Hc1 in Hk. destruct (known acc.1 (ca_text c)) eqn:Hkn.
    + unfold known in Hkn. apply existsb_exists in Hkn as (m & Hm & Ho).
      exists m. split; [by apply Hk, list_elem_of_In|]. by apply orb_true_iff in Ho.
    + exists (ca_text c). split; [apply Hk, elem_of_app; right; by left|]. left. apply contains_self.
  - rewrite Hd. cbn [collect_cause snd]. by rewrite orb_assoc.
Qed.

(** The operator sees the base message and, for every error of the chain, its text or
    a part of it that another message shows; the hint about privileges is appended
    whenever permission was denied and the text does not speak of privileges yet. *)
Lemma error_text_complete e :
  contains (base_msg e) (error_text e) = true ∧
  (∀ c, c ∈ source_chain e → ∃ m, contains m (error_text e) = true ∧
     (contains (ca_text c) m = true ∨ contains m (ca_text c) = true)) ∧
  (existsb ca_denied (source_chain e) = true →
     contains (lit "sudo") (error_text e) = true ∨ contains (lit "privilege") (error_text e) = true).
Proof.
  destruct (collect_told (source_chain e) ([base_msg e], false)) as (Hk & Ht & Hd).
  unfold error_text. destruct (fold_left _ _ _) as [messages denied] eqn:Hf. cbn [fst snd] in *.
  assert (Hin : ∀ m, m ∈ messages → contains m (join_text (lit ": ") messages) = true)
    by (intros m Hm; by apply contains_join).
  set (combined := join_text (lit ": ") messages) in *.
  match goal with |- contains _ ?x = true ∧ _ => set (out := x) end.
  assert (Hout : ∀ m, contains m combined = true → contains m out = true).
  { intros m Hm. unfold out. destruct (denied || _ || _); [|done].
    destruct (negb _ && _); [by apply contains_app_l|done]. }
  split_and!.
  - apply Hout, Hin, Hk. by left.
  - intros c Hc. destruct (Ht c Hc) as (m & Hm & Ho). exists m. split; [by apply Hout, Hin|done].
  - intros Hden. rewrite Hden in Hd. cbn in Hd. subst denied. unfold out. cbn [orb].
    destruct (contains (lit "sudo") combined) eqn:Hs; cbn [negb andb]; [by left|].
    destruct (contains (lit "privilege") combined) eqn:Hp; cbn [negb]; [by right|].
    left. apply contains_app_r. reflexivity.
Qed.

(** ** Locating, loading and attaching *)
Inductive XdpModeChoice : Type := Auto | Driver | Generic | Hardware.
(** [aya::programs::XdpMode]. *)
Inductive XdpMode : Type := ModeDriver | ModeSkb | ModeHardware.
#[global] Instance XdpMode_eq_dec : EqDecision XdpMode.
Proof. solve_decision. Defined.

(** The object aya loads: [Ebpf] with its program [firewall]. *)
Class Aya (A : Type) : Type := {
  ebpf_load : list (list Z * Z) → list Z → outcome library_error A;
  has_program : A → bool;
  program_try_into : A → outcome library_error unit;
  program_load : A → outcome library_error A;
  program_attach : list Z → XdpMode → A → outcome library_error unit * A;
}.

(** Failures of this module; the wording of the configuration errors is left out. *)
Inductive load_error : Type :=
| CustomPathMissing (path : list Z)
| BinaryNotFound
| ReadFailed (path : list Z) (e : library_error)
| LoadFailed (e : library_error)
| ProgramMissing
| ProgramFailed (e : library_error).

Section Loader.
Context {A : Type} `{!Aya A}.
Context (is_file : list Z → bool) (fs_read : list Z → outcome library_error (list Z)).

Definition candidate_paths : list (list Z) := lit <$> [
  "target/bpfel-unknown-none/release/firewall-ebpf";
  "target/bpfel-unknown-none/debug/firewall-ebpf";
  "/app/firewall-ebpf";
  "firewall-ebpf/target/bpfel-unknown-none/release/firewall-ebpf";
  "firewall-ebpf/target/bpfel-unknown-none/debug/firewall-ebpf";
  "../target/bpfel-unknown-none/release/firewall-ebpf";
  "../target/bpfel-unknown-none/debug/firewall-ebpf";
  "../firewall-ebpf/target/bpfel-unknown-none/release/firewall-ebpf";
  "../firewall-ebpf/target/bpfel-unknown-none/debug/firewall-ebpf";
  "./firewall-ebpf"]%string.
(** [exe_dir.join(..)] of the directory of the running executable. *)
Definition sibling_candidates (exe_dir : list Z) : list (list Z) :=
  (λ rel, exe_dir ++ lit "/" ++ lit rel) <$> [
    "../bpfel-unknown-none/release/firewall-ebpf";
    "../bpfel-unknown-none/debug/firewall-ebpf";
    "../../firewall-ebpf/target/bpfel-unknown-none/release/firewall-ebpf";
    "../../firewall-ebpf/target/bpfel-unknown-none/debug/firewall-ebpf"]%string.

Fixpoint first_file (paths : list (list Z)) : option (list Z) :=
  match paths with
  | [] => None
  | p :: rest => if is_file p then Some p else first_file rest
  end.

(** [env_path] is [FIREWALL_EBPF_PATH]; [exe_dir] the executable's directory, when it
    is known. *)
Definition locate_ebpf_binary (env_path exe_dir : option (list Z)) : outcome load_error (list Z) :=
  match p ← env_path; if is_file p then Some p else None with
  | Some p => Ok p
  | None =>
  match first_file candidate_paths with
  | Some p => Ok p
  | None =>
  match dir ← exe_dir; first_file (sibling_candidates dir) with
  | Some p => Ok p
  | None => Err BinaryNotFound
  end end end.

Definition map_sizes : list (list Z * Z) :=
  [(lit "IPV4_EXACT_MAP", MAX_IPV4_HASH_ENTRIES); (lit "IPV6_EXACT_MAP", MAX_IPV6_HASH_ENTRIES);
   (lit "IPV4_LPM_MAP", MAX_IPV4_LPM_ENTRIES); (lit "IPV6_LPM_MAP", MAX_IPV6_LPM_ENTRIES)].

(** [XdpFirewall]: the loaded object and the interface it is attached to. *)
Record XdpFirewall : Type := mkXdpFirewall { xf_ebpf : A; xf_iface : list Z }.

Definition xdp_load (custom_bpf_path env_path exe_dir : option (list Z)) : outcome load_error XdpFirewall :=
  bpf_path ← match custom_bpf_path with
             | Some p => if is_file p then Ok p else Err (CustomPathMissing p)
             | None => locate_ebpf_binary env_path exe_dir
             end;
  bytecode ← map_err (ReadFailed bpf_path) (fs_read bpf_path);
  ebpf ← map_err LoadFailed (ebpf_load map_sizes bytecode);
  if negb (has_program ebpf) then Err ProgramMissing else
  _ ← map_err ProgramFailed (program_try_into ebpf);
  ebpf ← map_err ProgramFailed (program_load ebpf);
  mret (mkXdpFirewall ebpf []).

Definition attach_mode (iface : list Z) (mode : XdpMode) (ebpf : A) : outcome load_error unit * A :=
  let '(r, ebpf) := program_attach iface mode ebpf in (map_err ProgramFailed r, ebpf).

Definition xdp_attach (iface : list Z) (mode_choice : XdpModeChoice) (fw : XdpFirewall)
    : outcome load_error unit * XdpFirewall :=
  let ebpf := xf_ebpf fw in
  if negb (has_program ebpf) then (Err ProgramMissing, fw) else
  match map_err ProgramFailed (program_try_into ebpf) with
  | Err e => (Err e, fw)
  | Fault => (Fault, fw)
  | Ok _ =>
      let '(r, ebpf) :=
        match mode_choice with
        | Driver => attach_mode iface ModeDriver ebpf
        | Generic => attach_mode iface ModeSkb ebpf
        | Hardware => attach_mode iface ModeHardware ebpf
        | Auto =>
            match program_attach iface ModeDriver ebpf with
            | (Ok _, ebpf) => (Ok (), ebpf)
            | (Err _, ebpf) => attach_mode iface ModeSkb ebpf
            | (Fault, ebpf) => (Fault, ebpf)
            end
        end in
      (r, mkXdpFirewall ebpf (match r with Ok _ => iface | _ => xf_iface fw end))
  end.

Definition load_and_attach (iface : list Z) (mode_choice : XdpModeChoice)
    (custom_bpf_path env_path exe_dir : option (list Z)) : outcome load_error XdpFirewall :=
  fw ← xdp_load custom_bpf_path env_path exe_dir;
  match xdp_attach iface mode_choice fw with
  | (Ok _, fw) => Ok fw
  | (Err e, _) => Err e
  | (Fault, _) => Fault
  end.

(** The binary is found when the variable or any candidate names a file, the variable
    first and the candidates in order. *)
Lemma first_file_spec paths :
  match first_file paths with
  | Some p => ∃ before after, paths = before ++ p :: after ∧ is_file p = true ∧
      Forall (λ q, is_file q = false) before
  | None => Forall (λ q, is_file q = false) paths
  end.
Proof.
  induction paths as [|p paths IH]; cbn [first_file]; [constructor|].
  destruct (is_file p) eqn:Hp; [by exists [], paths|].
  destruct (first_file paths) as [q|].
  - destruct IH as (before & after & -> & Hq & Hb). exists (p :: before), after.
    split_and!; [done..|by constructor].
  - by constructor.
Qed.

(** In automatic mode the program is attached when the driver or the generic mode
    takes it. *)
Lemma auto_attach_falls_back iface fw e ebpf :
  has_program (xf_ebpf fw) = true → program_try_into (xf_ebpf fw) = Ok () →
  program_attach iface ModeDriver (xf_ebpf fw) = (Err e, ebpf) →
  xdp_attach iface Auto fw =
    let '(r, ebpf') := program_attach iface ModeSkb ebpf in
    (map_err ProgramFailed r,
     mkXdpFirewall ebpf' (match r with Ok _ => iface | _ => xf_iface fw end)).
Proof.
  intros Hp Ht Ha. unfold xdp_attach, attach_mode. rewrite Hp, Ht, Ha. cbn [negb map_err].
  destruct (program_attach iface ModeSkb ebpf) as [[[]|e'|] ebpf']; done.
Qed.
End Loader.
