(* ===== verification/Daemon.v ===== *)
(** * The daemon ([src/main.rs], [src/config.rs])

    Start-up in the order of [main] and what the running tasks do to the state they
    share: rule files reloaded by the watcher, FireHOL jobs of the scheduler, ticks of
    the reporter, requests to the HTTP endpoint. Each task holds the lock of the maps
    while it changes them, so the tasks interleave at these steps. The outside world
    (files, git, the kernel's answers) is an argument of each step. Signals and the
    join of the tasks are in [Shutdown], the start-up lines in [Banner]. *)
From stdpp Require Import base numbers list gmap fin_maps strings sorting relations.
From Stdlib Require Import ZArith Lia.
From S2P Require Import Prelude Net Common BpfMaps Str Cidr Entry Metadata Cache Parser Import FireholSync.
From S2P Require Import Loader MapManager Wire Xdp Pipeline Schedule Spool EndToEnd Git Directory Blocklist.
From S2P Require Import TopN RingBuf Telemetry XdpLoader.

Local Open Scope Z_scope.

(** ** Configuration *)
Record Config : Type := mkConfig {
  cf_iface : list Z;
  cf_rules : list (list Z);
  cf_mode : XdpModeChoice;
  cf_watch : bool;
  cf_json : bool;
  cf_quiet : bool;
  cf_stats_interval : Z;
  cf_metrics_listen_addr : list Z;
  cf_no_metrics : bool;
  cf_bpf_path : option (list Z);
  cf_log_level : list Z;
  cf_firehol : bool;
  cf_no_firehol : bool;
  cf_firehol_dir : list Z;
  cf_firehol_url : list Z;
  cf_firehol_branch : list Z;
  cf_firehol_cache_dir : option (list Z);
  cf_no_color : bool;
  cf_firehol_cron : list Z;
  cf_no_cron : bool;
  cf_firehol_ignore_ip : list Z;
}.
(** The values of a command line without options and an empty environment. *)
Definition Config_default : Config :=
  mkConfig (lit "eth0")
    [lit "rules/blocklist.txt"; lit "rules/blocklist_v6.txt"; lit "rules/cidr_ranges.txt"]
    Auto false false false 5 (lit "0.0.0.0:9100") false None (lit "info") true false
    (lit "rules/firehol-blocklist-ipsets") (lit "https://github.com/firehol/blocklist-ipsets")
    (lit "master") (Some (lit "cache/firehol")) false (lit "0 0 * * * *") false [].
Definition is_firehol_enabled (c : Config) : bool := cf_firehol c && negb (cf_no_firehol c).
Definition is_cron_enabled (c : Config) : bool := is_firehol_enabled c && negb (cf_no_cron c).

(** The addresses never blocked: the option, else [FIREHOL_IGNORE_IP]. *)
Definition ignore_ips_of (c : Config) (env_ignore : option (list Z)) : list IpAddr :=
  if negb (len (cf_firehol_ignore_ip c) =? 0) then parse_ignore_ips (cf_firehol_ignore_ip c)
  else match env_ignore with Some val => parse_ignore_ips val | None => [] end.
Definition firehol_config (c : Config) (env_ignore : option (list Z)) : FireholConfig :=
  mkFireholConfig (cf_firehol_url c) (cf_firehol_branch c) (is_firehol_enabled c)
    (ignore_ips_of c env_ignore).

(** ** The watcher of the rule files *)

(** Kinds of [notify] events, as far as they are told apart. *)
Inductive event_kind : Type :=
| ModifyData | ModifyName | ModifyAny | ModifyOther | CreateEvent | RemoveEvent | AccessEvent | OtherEvent.
Definition is_content_change (k : event_kind) : bool :=
  match k with
  | ModifyData | ModifyName | ModifyAny | CreateEvent | RemoveEvent => true
  | _ => false
  end.

(** Path, modification time and size of each file; [stat] is [std::fs::metadata] with
    its modification time, when the platform has one. *)
Abbreviation fingerprint := (list (list Z * option Z * Z)).
Definition compute_fingerprint (stat : list Z → option (option Z * Z)) (paths : list (list Z)) : fingerprint :=
  (λ p, match stat p with Some (mtime, len) => (p, mtime, len) | None => (p, None, 0) end) <$> paths.

Section Daemon.
Context {W DB A : Type} `{!Git2 W} `{!Git2Laws W directory} `{!Aya A}.
Context `{!RocksDb DB} `{!Rkyv FireholMetadata} `{!Rkyv RuleBlockContext}.
Context {H4 H6 L4 L6 : Type}.
Context `{!BpfMap H4 (list Z) RuleValue} `{!BpfMap H6 (list Z) RuleValue}.
Context `{!BpfMap L4 (Z * list Z) RuleValue} `{!BpfMap L6 (Z * list Z) RuleValue}.
Context `{!HashOrder} {V : Type} `{!CounterVec V}.
Context {N4 N6 : Type} `{!IpNet 4 N4} `{!IpNet 16 N6} `{!IpNetText N4 N6}.
Abbreviation manager := (MapManager H4 H6 L4 L6).
Abbreviation blocklist := (FireholBlockList (W := W) (DB := DB)).
Abbreviation metrics_t := (PrometheusMetrics (V := V)).
Abbreviation import_t := (directory → outcome FireholParseError (FireholDataSet (CacheRocksDb DB))).

(** What the tasks share. *)
Record daemon : Type := mkDaemon {
  dm_maps : manager;
  dm_firehol : blocklist;
  dm_static_registry : StaticRuleRegistry;
  dm_metrics : option metrics_t;
  dm_cron : option CronMetrics;
  dm_drop_logs : bool;
  dm_fingerprint : fingerprint;
  dm_reporter : StatsReporter;
  dm_xdp : XdpFirewall (A := A);
}.
Implicit Type d : daemon.

Definition with_maps d (m : manager) : daemon :=
  mkDaemon m (dm_firehol d) (dm_static_registry d) (dm_metrics d) (dm_cron d) (dm_drop_logs d)
    (dm_fingerprint d) (dm_reporter d) (dm_xdp d).
Definition set_dm_metrics d (m : option metrics_t) : daemon :=
  mkDaemon (dm_maps d) (dm_firehol d) (dm_static_registry d) m (dm_cron d) (dm_drop_logs d)
    (dm_fingerprint d) (dm_reporter d) (dm_xdp d).
Definition set_firehol d (b : blocklist) : daemon :=
  mkDaemon (dm_maps d) b (dm_static_registry d) (dm_metrics d) (dm_cron d) (dm_drop_logs d)
    (dm_fingerprint d) (dm_reporter d) (dm_xdp d).
Definition set_static d (r : StaticRuleRegistry) : daemon :=
  mkDaemon (dm_maps d) (dm_firehol d) r (dm_metrics d) (dm_cron d) (dm_drop_logs d)
    (dm_fingerprint d) (dm_reporter d) (dm_xdp d).
Definition set_xdp d (fw : XdpFirewall (A := A)) : daemon :=
  mkDaemon (dm_maps d) (dm_firehol d) (dm_static_registry d) (dm_metrics d) (dm_cron d)
    (dm_drop_logs d) (dm_fingerprint d) (dm_reporter d) fw.
Definition set_fingerprint d (f : fingerprint) : daemon :=
  mkDaemon (dm_maps d) (dm_firehol d) (dm_static_registry d) (dm_metrics d) (dm_cron d)
    (dm_drop_logs d) f (dm_reporter d) (dm_xdp d).

Definition daemon_error (error : list Z) (m : metrics_t) : metrics_t :=
  set_telemetry m (record_error (pm_telemetry m) error).
(** [m.update_map_entries(mgr.total_exact_v4(), ..)]. *)
Definition count_maps (mgr : manager) (m : metrics_t) : metrics_t :=
  update_map_entries m (Z.of_nat (total_exact_v4 mgr)) (Z.of_nat (total_exact_v6 mgr))
    (Z.of_nat (total_lpm_v4 mgr)) (Z.of_nat (total_lpm_v6 mgr)).

(** Loading rule files and installing them, at start-up and by the watcher; [error]
    labels a failure. [sync_rules] itself does not fail. *)
Definition reload_static (files : list rule_file) (error : list Z) d : daemon :=
  match load_from_paths_with_meta (N4 := N4) (N6 := N6) files with
  | Ok (rules, static_meta) =>
      let d := set_static d (registry_set (dm_static_registry d) static_meta) in
      let mgr := (sync_rules (dm_maps d) rules).1 in
      set_dm_metrics (with_maps d mgr) (count_maps mgr <$> dm_metrics d)
  | _ => set_dm_metrics d (daemon_error error <$> dm_metrics d)
  end.

(** One FireHOL job. Of the metrics the job keeps, the gauges of the entries and the
    error counter are those of [PrometheusMetrics]. *)
Definition job_metrics (result : outcome update_error FireholSyncOutcome) (m : metrics_t) : metrics_t :=
  match result with
  | Ok (SyncUpdated report) =>
      update_map_entries m (fr_exact_v4_count report) (fr_exact_v6_count report)
        (fr_lpm_v4_count report) (fr_lpm_v6_count report)
  | Err _ => daemon_error (lit "firehol_sync_failed") m
  | _ => m
  end.
Definition firehol_job (fc : FireholConfig) (parse : import_t) (now : Z) (locked is_startup : bool) d
    : outcome update_error FireholSyncOutcome * daemon :=
  let '(result, mgr, cron, bl) :=
    execute_firehol_sync fc parse now locked is_startup (Some (dm_maps d)) (dm_cron d) (dm_firehol d) in
  (result,
   mkDaemon (default (dm_maps d) mgr) bl (dm_static_registry d) (job_metrics result <$> dm_metrics d)
     cron (dm_drop_logs d) (dm_fingerprint d) (dm_reporter d) (dm_xdp d)).

(** ** Start-up *)

(** What start-up finds: files and the kernel, which steps outside the daemon succeed,
    the state of the machine, the import of this run, the rule files and what [stat]
    says of them. [su_ringbuf] and [su_maps] take the maps out of the loaded object. *)
Record surroundings : Type := mkSurroundings {
  su_is_file : list Z → bool;
  su_fs_read : list Z → outcome library_error (list Z);
  su_env_path : option (list Z);
  su_exe_dir : option (list Z);
  su_metrics : option metrics_t;
  su_cache_opens : bool;
  su_ringbuf : A → bool;
  su_maps : A → option manager;
  su_world : W;
  su_git_metrics : option GitMetrics;
  su_cron : option CronMetrics;
  su_env_ignore : option (list Z);
  su_parse : import_t;
  su_now : Z;
  su_rules : list rule_file;
  su_stat : list Z → option (option Z * Z);
}.

Inductive exit_reason : Type :=
| EbpfLoadFailed (e : load_error) | RingbufInitFailed | MapManagerInitFailed
| FireholStartupFailed (e : update_error) | XdpAttachFailed (e : load_error) | Panicked.

(** Whether the import of this run uses a cache. *)
Definition uses_cache (c : Config) (su : surroundings) : bool :=
  is_firehol_enabled c && bool_decide (is_Some (cf_firehol_cache_dir c)) && su_cache_opens su.

(** The state before the first FireHOL job. *)
Definition boot (c : Config) (su : surroundings) (fw : XdpFirewall (A := A)) (mgr : manager) : daemon :=
  let metrics := if cf_no_metrics c then None else su_metrics su in
  mkDaemon mgr (blocklist_new (su_world su) (if metrics then su_git_metrics su else None))
    StaticRuleRegistry_new metrics (if metrics then su_cron su else None) (negb (cf_quiet c)) []
    (reporter_new (cf_stats_interval c) (su_now su)) fw.
Definition startup_job (c : Config) (su : surroundings) d :=
  firehol_job (firehol_config c (su_env_ignore su)) (su_parse su) (su_now su) false true d.
Definition load_static (c : Config) (su : surroundings) d : daemon :=
  if bool_decide (cf_rules c = []) then d else reload_static (su_rules su) (lit "rule_load") d.
Definition load_program (c : Config) (su : surroundings) : outcome load_error (XdpFirewall (A := A)) :=
  xdp_load (su_is_file su) (su_fs_read su) (cf_bpf_path c) (su_env_path su) (su_exe_dir su).
Definition attach_hook (c : Config) (su : surroundings) d : exit_reason + daemon :=
  match xdp_attach (cf_iface c) (cf_mode c) (dm_xdp d) with
  | (Ok _, fw) => inr (set_fingerprint (set_xdp d fw) (compute_fingerprint (su_stat su) (cf_rules c)))
  | (Err e, _) => inl (XdpAttachFailed e)
  | (Fault, _) => inl Panicked
  end.

Definition startup (c : Config) (su : surroundings) : exit_reason + daemon :=
  match load_program c su with
  | Err e => inl (EbpfLoadFailed e)
  | Fault => inl Panicked
  | Ok fw =>
      if negb (su_ringbuf su (xf_ebpf fw)) then inl RingbufInitFailed else
      match su_maps su (xf_ebpf fw) with
      | None => inl MapManagerInitFailed
      | Some mgr =>
          let d := boot c su fw mgr in
          if is_firehol_enabled c then
            match startup_job c su d with
            | (Ok _, d) => attach_hook c su (load_static c su d)
            | (Err e, _) => inl (FireholStartupFailed e)
            | (Fault, _) => inl Panicked
            end
          else attach_hook c su (load_static c su d)
      end
  end.

(** ** The running tasks *)
Inductive daemon_event : Type :=
(** A change in a watched directory, after the debounce: what the files are then. *)
| RuleFilesChanged (stat : list Z → option (option Z * Z)) (files : list rule_file)
(** The cron job; [locked] when another one still runs. *)
| CronJob (parse : import_t) (now : Z) (locked : bool)
(** The reporter, when it runs, reads the kernel counters. *)
| ReporterTick (stats : FirewallStats) (now : Z)
(** A request, with the outcome of the text encoder. *)
| HttpRequest (text_of : metrics_t → list Z + list Z) (req : list Z)
(** The machine changes: new commits upstream, the network. *)
| WorldChanged (w : W).

Definition daemon_step (c : Config) (fc : FireholConfig) d (ev : daemon_event) : daemon :=
  match ev with
  | RuleFilesChanged stat files =>
      let current := compute_fingerprint stat (cf_rules c) in
      if negb (cf_watch c) || bool_decide (current = dm_fingerprint d) then d
      else reload_static files (lit "watcher_parse") (set_fingerprint d current)
  | CronJob parse now locked =>
      if is_cron_enabled c then (firehol_job fc parse now locked false d).2 else d
  | ReporterTick stats now =>
      if negb (0 <? cf_stats_interval c) && negb (bool_decide (is_Some (dm_metrics d))) then d else
      let '(r, m, _) := tick (dm_reporter d) (dm_metrics d) stats now in
      mkDaemon (dm_maps d) (dm_firehol d) (dm_static_registry d) m (dm_cron d) (dm_drop_logs d)
        (dm_fingerprint d) r (dm_xdp d)
  | HttpRequest text_of req =>
      match dm_metrics d with
      | None => d
      | Some m =>
          let '(_, m, flag) := handle_request text_of (take 1024 req) m (Some (dm_drop_logs d)) in
          mkDaemon (dm_maps d) (dm_firehol d) (dm_static_registry d) (Some m) (dm_cron d)
            (default (dm_drop_logs d) flag) (dm_fingerprint d) (dm_reporter d) (dm_xdp d)
      end
  | WorldChanged w => set_firehol d (set_git (dm_firehol d) (with_world (bl_git (dm_firehol d)) w))
  end.

(** ** The maps the daemon keeps are those of a lifetime *)
Context `{!BpfMapLaws H4 (list Z) RuleValue} `{!BpfMapLaws H6 (list Z) RuleValue}.
Context `{!BpfMapLaws L4 (Z * list Z) RuleValue} `{!BpfMapLaws L6 (Z * list Z) RuleValue}.
Context {low : Lowercase} {chrono : Chrono} (num_cpus : nat).
Context (c : Config) (su : surroundings).
Abbreviation fc := (firehol_config c (su_env_ignore su)).
Abbreviation life := (lifetime (N4 := N4) (N6 := N6) fc (uses_cache c su) num_cpus).

(** Rule files that are installed in full: fewer lines than identifiers, keys the maps
    accept, none that FireHOL named, and room for all of them. *)
Definition reload_ok (files : list rule_file) d : Prop :=
  ∀ rules meta, load_from_paths_with_meta (N4 := N4) (N6 := N6) files = Ok (rules, meta) →
    total_lines files < 2 ^ 32 - STATIC_RULE_BASE ∧
    rule_set_ok (H4 := H4) (H6 := H6) (L4 := L4) (L6 := L6) rules ∧
    (∀ firehol, in_force (N4 := N4) (N6 := N6) fc (uses_cache c su) num_cpus (dm_firehol d) firehol →
       tables_disjoint (tables_of rules) (tables_of firehol)) ∧
    complete rules (sync_rules (dm_maps d) rules).2.

(** A job that ended without a panic: its import is one the threads can produce, a
    load it made went in fully, and a failing git call left the checkout whole. *)
Definition job_ok (parse : import_t) (static : ParsedRuleSet) d
    (r : outcome update_error FireholSyncOutcome * daemon) : Prop :=
  let dir := checkout (gs_world (bl_git (dm_firehol r.2))) in
  import_possible (N4 := N4) (N6 := N6) fc (uses_cache c su) num_cpus parse dir ∧
  load_complete parse (dm_maps d) (tables_of static) dir ∧
  (∀ e, r.1 = Err (GitSyncFailed e) → clean (F := directory) (gs_world (bl_git (dm_firehol r.2)))) ∧
  r.1 ≠ Fault.

Definition startup_ok : Prop :=
  ∀ fw mgr, load_program c su = Ok fw → su_maps su (xf_ebpf fw) = Some mgr →
    clean (F := directory) (su_world su) ∧ reachable mgr no_tables no_tables ∧
    let d := boot c su fw mgr in
    if is_firehol_enabled c then
      job_ok (su_parse su) ParsedRuleSet_new d (startup_job c su d) ∧
      (cf_rules c ≠ [] → reload_ok (su_rules su) (startup_job c su d).2)
    else cf_rules c ≠ [] → reload_ok (su_rules su) d.

Definition step_ok (static : ParsedRuleSet) d (ev : daemon_event) : Prop :=
  match ev with
  | RuleFilesChanged stat files => reload_ok files d
  | CronJob parse now locked => job_ok parse static d (firehol_job fc parse now locked false d)
  | WorldChanged w => clean (F := directory) w
  | _ => True
  end.

(** The static rules after an attempt to load files. *)
Definition static_after (files : list rule_file) (static : ParsedRuleSet) : ParsedRuleSet :=
  match load_from_paths_with_meta (N4 := N4) (N6 := N6) files with Ok (rules, _) => rules | _ => static end.
Definition static_of_step d (ev : daemon_event) (static : ParsedRuleSet) : ParsedRuleSet :=
  match ev with
  | RuleFilesChanged stat files =>
      if negb (cf_watch c) || bool_decide (compute_fingerprint stat (cf_rules c) = dm_fingerprint d)
      then static else static_after files static
  | _ => static
  end.

(** The daemon after a start-up that succeeded and any events, with the static rules
    last read. *)
Inductive live : daemon → ParsedRuleSet → Prop :=
| live_start d :
    startup c su = inr d → startup_ok →
    live d (if bool_decide (cf_rules c = []) then ParsedRuleSet_new
            else static_after (su_rules su) ParsedRuleSet_new)
| live_step d static ev :
    live d static → step_ok static d ev →
    live (daemon_step c fc d ev) (static_of_step d ev static).

(** What holds of the static rules: nothing yet, or what files gave. *)
Definition from_files (static : ParsedRuleSet) : Prop :=
  static = ParsedRuleSet_new ∨ ∃ files meta, total_lines files < 2 ^ 32 - STATIC_RULE_BASE ∧
    load_from_paths_with_meta (N4 := N4) (N6 := N6) files = Ok (static, meta).

Lemma job_life parse now locked is_startup d static r d' :
  life (dm_firehol d) (dm_maps d) static →
  firehol_job fc parse now locked is_startup d = (r, d') → job_ok parse static d (r, d') →
  life (dm_firehol d') (dm_maps d') static.
Proof.
  unfold firehol_job. intros Hl. destruct (execute_firehol_sync _ _ _ _ _ _ _ _) as [[[res mgr] cron] bl] eqn:E.
  intros [= <- <-] (Hp & Hload & Hgit & Hf). cbn [dm_firehol dm_maps fst snd] in *.
  destruct (execute_has_maps _ _ _ _ _ _ _ _ _ _ _ _ E) as [m' ->]. cbn [default].
  by eapply life_update.
Qed.

Lemma reload_life files error d static :
  life (dm_firehol d) (dm_maps d) static → reload_ok files d →
  life (dm_firehol (reload_static files error d)) (dm_maps (reload_static files error d))
    (static_after files static).
Proof.
  intros Hl Hok. unfold reload_static, static_after.
  destruct (load_from_paths_with_meta files) as [[rules meta]|e|] eqn:E; [|exact Hl..].
  destruct (Hok rules meta E) as (_ & Hr & Hd & Hc). cbn [dm_firehol dm_maps with_maps set_dm_metrics set_static].
  by eapply life_static.
Qed.

Lemma static_after_from files static d :
  from_files static → reload_ok files d → from_files (static_after files static).
Proof.
  intros Hs Hok. unfold static_after.
  destruct (load_from_paths_with_meta files) as [[rules meta]|e|] eqn:E; [|done..].
  right. exists files, meta. by destruct (Hok rules meta E) as (? & _).
Qed.

(** A start-up that succeeds went through all of its steps. *)
Lemma attach_hook_ok d1 d :
  attach_hook c su d1 = inr d →
  ∃ fw, xdp_attach (cf_iface c) (cf_mode c) (dm_xdp d1) = (Ok (), fw) ∧
    d = set_fingerprint (set_xdp d1 fw) (compute_fingerprint (su_stat su) (cf_rules c)).
Proof.
  unfold attach_hook. destruct (xdp_attach _ _ _) as [[[]|e|] fw]; [|done..]. intros [= <-]. by exists fw.
Qed.

Lemma startup_cases d :
  startup c su = inr d →
  ∃ fw mgr d1, load_program c su = Ok fw ∧ su_maps su (xf_ebpf fw) = Some mgr ∧
    (if is_firehol_enabled c then ∃ o, startup_job c su (boot c su fw mgr) = (Ok o, d1)
     else d1 = boot c su fw mgr) ∧
    attach_hook c su (load_static c su d1) = inr d.
Proof.
  unfold startup. destruct (load_program c su) as [fw|e|]; [|done..]. destruct (negb _); [done|].
  destruct (su_maps su (xf_ebpf fw)) as [mgr|] eqn:Hm; [|done]. intros Hs. exists fw, mgr.
  destruct (is_firehol_enabled c); [|by exists (boot c su fw mgr)].
  destruct (startup_job c su (boot c su fw mgr)) as [[o|e|] d1] eqn:E; [|done..].
  exists d1. by split_and!; [| |exists o|].
Qed.

Lemma live_life d static : live d static → life (dm_firehol d) (dm_maps d) static ∧ from_files static.
Proof.
  induction 1 as [d Hs Hok|d static ev _ [IH Hfrom] Hok].
  - destruct (startup_cases d Hs) as (fw & mgr & d1 & Hfw & Hm & Hd1 & Ha).
    destruct (Hok fw mgr Hfw Hm) as (Hcl & Hr & Hrest). cbv zeta in Hrest.
    assert (life (dm_firehol d1) (dm_maps d1) ParsedRuleSet_new ∧
      (cf_rules c ≠ [] → reload_ok (su_rules su) d1)) as [H1 Hrel].
    { assert (life (dm_firehol (boot c su fw mgr)) (dm_maps (boot c su fw mgr)) ParsedRuleSet_new)
        by by apply life_start.
      destruct (is_firehol_enabled c); [|by subst d1].
      destruct Hd1 as [o E]. rewrite E in Hrest. destruct Hrest as [Hjob Hrel]. split; [|done].
      by eapply job_life. }
    apply attach_hook_ok in Ha as (fw' & _ & ->).
    unfold load_static. case_bool_decide as Hnil; [split; [exact H1|by left]|].
    split; [by apply (reload_life _ _ d1), Hrel|]. eapply static_after_from; [by left|by apply Hrel].
  - destruct ev as [stat files|parse now locked|stats now|text_of req|w]; cbn [daemon_step static_of_step step_ok] in *.
    + destruct (negb _ || _); [done|]. split; [|by eapply static_after_from].
      by apply (reload_life files _ (set_fingerprint d _) static).
    + destruct (is_cron_enabled c); [|done]. destruct (firehol_job _ _ _ _ _ _) as [r d'] eqn:E.
      split; [|done]. by eapply job_life.
    + destruct (negb _ && _); [done|]. by destruct (tick _ _ _ _) as [[r m] line].
    + destruct (dm_metrics d) as [m|]; [|done]. by destruct (handle_request _ _ _ _) as [[resp m'] flag].
    + split; [|done]. by apply life_world.
Qed.

(** With FireHOL enabled, nothing runs before a commit was loaded. *)
Lemma live_commit d static :
  live d static → is_firehol_enabled c = true → is_Some (bl_last_loaded_commit (dm_firehol d)).
Proof.
  intros Hl He. induction Hl as [d Hs Hok|d static ev _ IH Hok].
  - destruct (startup_cases d Hs) as (fw & mgr & d1 & _ & _ & Hd1 & Ha). rewrite He in Hd1.
    assert (is_Some (bl_last_loaded_commit (dm_firehol d1))) as Hc1.
    { destruct Hd1 as [o E]. unfold startup_job, firehol_job in E.
      destruct (execute_firehol_sync _ _ _ _ _ _ _ _) as [[[r mgr'] cron] bl] eqn:Ex.
      injection E as -> <-. apply execute_commit in Ex as [Hc _]. by apply Hc. }
    apply attach_hook_ok in Ha as (fw' & _ & ->). cbn [dm_firehol set_fingerprint set_xdp].
    unfold load_static. case_bool_decide; [done|].
    unfold reload_static. by destruct (load_from_paths_with_meta _) as [[rules meta]|e|].
  - destruct ev as [stat files|parse now locked|stats now|text_of req|w]; cbn [daemon_step].
    + destruct (negb _ || _); [done|]. unfold reload_static.
      by destruct (load_from_paths_with_meta _) as [[rules meta]|e|].
    + destruct (is_cron_enabled c); [|done]. unfold firehol_job.
      destruct (execute_firehol_sync _ _ _ _ _ _ _ _) as [[[r mgr'] cron] bl] eqn:Ex.
      apply execute_commit in Ex as [_ Hc]. by apply Hc.
    + destruct (negb _ && _); [done|]. by destruct (tick _ _ _ _) as [[r m] line].
    + destruct (dm_metrics d) as [m|]; [|done]. by destruct (handle_request _ _ _ _) as [[resp m'] flag].
    + done.
Qed.

(** The program stays attached to the configured interface. *)
Lemma xdp_attach_iface (fw0 : XdpFirewall (A := A)) mode iface fw :
  xdp_attach iface mode fw0 = (Ok (), fw) → xf_iface fw = iface.
Proof.
  unfold xdp_attach. destruct (negb _); [done|]. destruct (map_err _ _) as [u|e|]; [|done..].
  destruct (match mode with Auto => _ | _ => _ end) as [[[]|e|] ebpf]; [|done..]. by intros [= <-].
Qed.

Lemma reload_xdp files error d : dm_xdp (reload_static files error d) = dm_xdp d.
Proof. unfold reload_static. by destruct (load_from_paths_with_meta _) as [[rules meta]|e|]. Qed.

Lemma live_attached d static : live d static → xf_iface (dm_xdp d) = cf_iface c.
Proof.
  induction 1 as [d Hs _|d static ev _ IH _].
  - destruct (startup_cases d Hs) as (fw & mgr & d1 & _ & _ & _ & Ha).
    apply attach_hook_ok in Ha as (fw' & Ha & ->). by eapply xdp_attach_iface.
  - rewrite <-IH. destruct ev as [stat files|parse now locked|stats now|text_of req|w]; cbn [daemon_step].
    + destruct (negb _ || _); [done|]. by rewrite reload_xdp.
    + destruct (is_cron_enabled c); [|done]. unfold firehol_job.
      by destruct (execute_firehol_sync _ _ _ _ _ _ _ _) as [[[r mgr'] cron] bl].
    + destruct (negb _ && _); [done|]. by destruct (tick _ _ _ _) as [[r m] line].
    + destruct (dm_metrics d) as [m|]; [|done]. by destruct (handle_request _ _ _ _) as [[resp m'] flag].
    + done.
Qed.
End Daemon.

(** C2 (refinement). The daemon as it runs: start-up in the order of [main], then any
    sequence of changed rule files, cron jobs (failing, skipped or not), ticks, HTTP
    requests and changes of the outside world. From the moment the hook is attached, a
    frame is dropped exactly when it is an IP packet behind at most one VLAN tag, not
    management traffic, whose source is named by the static rules last read or by an
    address line of the lists of the commit loaded last; when FireHOL is enabled there is
    such a commit, because start-up gives up before attaching when the first
    synchronisation fails; and the program is on the configured interface.

    This holds of a daemon whose maps were empty at the start and that meets, all along,
    the conditions of [startup_ok] and [step_ok]: every rule set it installs fits into
    the maps, and no key is named by static and FireHOL rules at once; the rule files and
    lists have fewer lines than there are identifiers; the checkout holds the files of
    its commit and no others at the start, after a change of the outside world and after
    a git call that failed; an import is one its threads can produce; the cache, when one
    is used, can be read back; no job panics; and HEAD could be read after a clone. *)
Theorem daemon_drops_listed_sources {W DB A H4 H6 L4 L6 RB V N4 N6 : Type}
    `{!Git2 W} `{!Git2Laws W directory} `{!Aya A} `{!HashOrder} `{!CounterVec V}
    `{!RocksDb DB} `{!Rkyv FireholMetadata} `{!Rkyv RuleBlockContext}
    `{!RocksDbLaws DB} `{!RocksDbReads DB} `{!RkyvLaws FireholMetadata} `{!RkyvLaws RuleBlockContext}
    `{!BpfMap H4 (list Z) RuleValue} `{!HashGet H4 (list Z) RuleValue}
    `{!BpfMap H6 (list Z) RuleValue} `{!HashGet H6 (list Z) RuleValue}
    `{!BpfMap L4 (Z * list Z) RuleValue} `{!LpmGet 4 L4 RuleValue}
    `{!BpfMap L6 (Z * list Z) RuleValue} `{!LpmGet 16 L6 RuleValue}
    `{!BpfMapLaws H4 (list Z) RuleValue} `{!BpfMapLaws H6 (list Z) RuleValue}
    `{!BpfMapLaws L4 (Z * list Z) RuleValue} `{!BpfMapLaws L6 (Z * list Z) RuleValue}
    `{!RingBuffer RB} `{!IpNet 4 N4} `{!IpNet 16 N6} `{!IpNetText N4 N6}
    {low : Lowercase} {chrono : Chrono} num_cpus
    (c : Config) (su : surroundings (W := W) (DB := DB) (A := A) (V := V)) d static
    (k : kernel H4 H6 L4 L6 RB) ctx :
  live (N4 := N4) (N6 := N6) num_cpus c su d static →
  Forall ip_ok (ignore_ips_of c (su_env_ignore su)) →
  bl_last_loaded_commit (dm_firehol d) ≠ Some [] → shared_maps (dm_maps d) k →
  ctx_ok ctx →
  ((firewall ctx k).1 = Ok XDP_DROP ↔
    ∃ p, frame_view (ctx_bytes ctx) = IpPacket p ∧ bypass p = false ∧ (blocks static (src_ip p) ∨
      match bl_last_loaded_commit (dm_firehol d) with
      | None => False
      | Some cm => named_in_lists (N4 := N4) (N6 := N6) (ignore_ips_of c (su_env_ignore su))
                    (list_files (files_at cm)) (src_ip p)
      end)) ∧
  (is_firehol_enabled c = true → is_Some (bl_last_loaded_commit (dm_firehol d))) ∧
  xf_iface (dm_xdp d) = cf_iface c.
Proof.
  intros Hl Hign Hne Hsh Hc.
  split; [|split; [by eapply live_commit|by eapply live_attached]].
  destruct (live_life num_cpus c su d static Hl) as [Hlife Hfrom].
  eapply (lifetime_verdicts (firehol_config c (su_env_ignore su)) (uses_cache c su) num_cpus); try done.
  destruct Hfrom as [->|(files & meta & Hb & Hload)]; [apply no_rules_drop|by eapply loaded_rules_drop].
Qed.

(** ** Witness: a daemon that clones the repository at commit a1, reads its rule files,
    attaches, and whose first cron job finds the remote out of reach. *)
#[local] Existing Instance canonical_order.
#[local] Existing Instance demo_lower.
#[local] Existing Instance demo_rkyv.
#[local] Existing Instance demo_rkyv_laws.
#[local] Existing Instance demo_chrono.
#[local] Existing Instance sim_git.
#[local] Existing Instance demo_git_laws.

(** A network card whose driver refuses the native mode: the object is the list of the
    interfaces the program was attached to. *)
#[local] Instance demo_aya : Aya (list (list Z * XdpMode)) := {|
  ebpf_load := λ _ _, Ok [];
  has_program := λ _, true;
  program_try_into := λ _, Ok ();
  program_load := λ a, Ok a;
  program_attach := λ iface mode a,
    if bool_decide (mode = ModeSkb) then (Ok (), (iface, mode) :: a)
    else (Err (mkLibError (mkCause (lit "Operation not supported") false) []), a);
|}.
Definition demo_cli : Config :=
  mkConfig (lit "eth0") [lit "cidr_ranges.txt"] Auto true false false 30 (lit "0.0.0.0:9100") false None
    (lit "info") true false (lit "rules") FIREHOL_DEFAULT_GIT_URL FIREHOL_DEFAULT_BRANCH None false
    (lit "0 0 * * * *") false (lit "10.0.0.1").
Abbreviation demo_su_t := (surroundings (W := SimRepo) (DB := MemDb) (A := list (list Z * XdpMode))
  (V := demo_vec) (H4 := CapMap (list Z) RuleValue) (H6 := CapMap (list Z) RuleValue)
  (L4 := Trie 4 RuleValue) (L6 := Trie 16 RuleValue)).
Definition demo_su : demo_su_t :=
  mkSurroundings (λ p, bool_decide (p = lit "/app/firewall-ebpf")) (λ _, Ok [127; 69; 76; 70]) None None
    (Some demo_metrics) true (λ _, true) (λ _, Some demo_manager) (mkSim None (lit "a1") [] true)
    None None None demo_parse 7 demo_files (λ _, Some (Some 1, 64)).
Definition demo_booted := boot demo_cli demo_su (mkXdpFirewall [] []) demo_manager.
Definition demo_up := match startup (N4 := Net 4) (N6 := Net 16) demo_cli demo_su with
  | inr d => d | inl _ => demo_booted end.
Abbreviation demo_fc := (firehol_config demo_cli None).
Definition demo_cut_off := daemon_step (N4 := Net 4) (N6 := Net 16) demo_cli demo_fc demo_up
  (WorldChanged (mkSim (Some (lit "a1")) (lit "b2") (lit "a1") false)).
Definition demo_after := daemon_step (N4 := Net 4) (N6 := Net 16) demo_cli demo_fc demo_cut_off
  (CronJob demo_parse 99 false).

Definition demo_file : list_file :=
  mkListFile (lit "x.netset") [lit "# Category: attacks"; lit "198.51.100.0/24"] false 64.

(** Its rule files share no key with what the lists of a1 give. *)
Lemma demo_named ip :
  named_in_lists (N4 := Net 4) (N6 := Net 16) demo_ignore (list_files (demo_files_at (lit "a1"))) ip →
  target_covers (TCidrV4 24 [198; 51; 100; 0]) ip.
Proof.
  intros (f & n & token & cat & ts & t & Hf & Hd & Hl & Ht & _ & Hc).
  assert (list_files (demo_files_at (lit "a1")) = [demo_file]) as E by (vm_compute; reflexivity).
  rewrite E in Hf. apply list_elem_of_singleton in Hf as ->. clear E.
  assert (data_lines Other (lf_lines demo_file) 0 = [(2, lit "198.51.100.0/24", Attacks)]) as E
    by (vm_compute; reflexivity).
  rewrite E in Hd. apply list_elem_of_singleton in Hd as [= -> -> ->].
  assert (ts = [TCidrV4 24 [198; 51; 100; 0]]) as -> by (vm_compute in Hl; congruence).
  by apply list_elem_of_singleton in Ht as ->.
Qed.

Lemma demo_static_addresses t v :
  rule_of demo_rules t = Some v →
  ∃ ip, ip_ok ip ∧ target_covers t ip ∧ ¬ target_covers (TCidrV4 24 [198; 51; 100; 0]) ip.
Proof.
  assert (map_Forall (λ o _, bytes_ok 4 o ∧ octets_match 24 [198; 51; 100; 0] o = false)
    (rs_exact_v4 demo_rules)) as H4 by by_decide.
  assert (map_Forall (λ o _, bytes_ok 16 o) (rs_exact_v6 demo_rules)) as H6 by by_decide.
  assert (map_Forall (λ k _, bytes_ok 4 k.2 ∧ octets_match k.1 k.2 k.2 = true ∧
    octets_match 24 [198; 51; 100; 0] k.2 = false)
    (rules_map (lpm_rules (rs_lpm_v4 demo_rules)))) as L4 by by_decide.
  assert (rules_map (lpm_rules (rs_lpm_v6 demo_rules)) = ∅) as L6 by (vm_compute; reflexivity).
  destruct t as [o|o|q o|q o]; intros Hv; cbn [rule_of] in Hv.
  - destruct (H4 _ _ Hv) as [Ho Hn]. exists (V4 o). cbn. by rewrite Hn.
  - exists (V6 o). split_and!; [exact (H6 _ _ Hv)|done|by intros []].
  - destruct (L4 _ _ Hv) as (Ho & Hm & Hn). exists (V4 o). cbn in *. by rewrite Hn.
  - by rewrite L6, lookup_empty in Hv.
Qed.

Lemma demo_no_conflict (bl : demo_daemon) firehol :
  bl_last_loaded_commit bl = Some (lit "a1") →
  in_force (N4 := Net 4) (N6 := Net 16) demo_fc false 2 bl firehol →
  tables_disjoint (tables_of demo_rules) (tables_of firehol).
Proof.
  intros Hc Hf.
  assert (Hign : Forall ip_ok (fc_ignore_ips demo_fc)) by by_decide.
  assert (Hne : bl_last_loaded_commit bl ≠ Some []) by (rewrite Hc; discriminate).
  destruct (in_force_rules _ _ _ bl firehol Hign Hne Hf) as [_ Hb].
  rewrite Hc in Hb. apply unblocked_disjoint. intros t v Hv.
  destruct (demo_static_addresses t v Hv) as (ip & Hip & Ht & Hn). exists ip. split; [done|].
  intros Hbl. apply Hn, demo_named. by apply (Hb ip Hip).
Qed.

Lemma demo_reload_ok : reload_ok (N4 := Net 4) (N6 := Net 16) 2 demo_cli demo_su (su_rules demo_su)
  (startup_job demo_cli demo_su (boot demo_cli demo_su (mkXdpFirewall [] []) demo_manager)).2.
Proof.
  intros rules meta Hl. cbn [su_rules demo_su] in *. assert (rules = demo_rules) as ->.
  { unfold demo_rules. by rewrite Hl. }
  split; [by_decide|]. split; [split_and!; by_decide|].
  split; [|split_and!; vm_compute; reflexivity].
  intros firehol Hf. eapply demo_no_conflict; [|exact Hf]. vm_compute. reflexivity.
Qed.

Lemma demo_job_ok d static now is_startup :
  checkout (gs_world (bl_git (dm_firehol (firehol_job demo_fc demo_parse now false is_startup d).2)))
    = demo_files_at (lit "a1") →
  tables_disjoint (tables_of static) (tables_of (demo_rules_at (lit "a1"))) →
  complete (demo_rules_at (lit "a1")) (sync_firehol_rules (dm_maps d) (demo_rules_at (lit "a1"))).2 →
  (firehol_job demo_fc demo_parse now false is_startup d).1 ≠ Fault →
  job_ok (N4 := Net 4) (N6 := Net 16) 2 demo_cli demo_su demo_parse static d
    (firehol_job demo_fc demo_parse now false is_startup d).
Proof.
  intros Hdir Hd Hc Hf. unfold job_ok. rewrite Hdir. split_and!; [apply demo_import_possible| |by intros e _; apply demo_clean|done].
  split; [by_decide|]. intros ds rules report r ->%demo_loads. split_and!; [split_and!; by_decide|done..].
Qed.

Lemma demo_starts : startup (N4 := Net 4) (N6 := Net 16) demo_cli demo_su = inr demo_up.
Proof.
  assert (match startup (N4 := Net 4) (N6 := Net 16) demo_cli demo_su with inr _ => true | inl _ => false end
    = true) as E by (vm_compute; reflexivity).
  unfold demo_up. destruct (startup demo_cli demo_su); done.
Qed.

Lemma demo_live_up : live (N4 := Net 4) (N6 := Net 16) 2 demo_cli demo_su demo_up demo_rules.
Proof.
  assert (demo_rules = if bool_decide (cf_rules demo_cli = []) then ParsedRuleSet_new
    else static_after (N4 := Net 4) (N6 := Net 16) (su_rules demo_su) ParsedRuleSet_new) as ->
    by (vm_compute; reflexivity).
  apply live_start; [exact demo_starts|].
  intros fw mgr [= <-] [= <-]. split; [exact (demo_clean (su_world demo_su))|]. split; [by apply reach_new|].
  split; [|intros _; exact demo_reload_ok].
  apply (demo_job_ok (boot demo_cli demo_su (mkXdpFirewall [] []) demo_manager) ParsedRuleSet_new 7 true);
    [vm_compute; reflexivity|split_and!; apply map_disjoint_empty_l|split_and!; vm_compute; reflexivity|
     vm_compute; discriminate].
Qed.

Lemma demo_live_daemon : live (N4 := Net 4) (N6 := Net 16) 2 demo_cli demo_su demo_after demo_rules.
Proof.
  apply (live_step _ _ _ demo_cut_off demo_rules (CronJob demo_parse 99 false)).
  - apply (live_step _ _ _ demo_up demo_rules (WorldChanged _)); [exact demo_live_up|apply demo_clean].
  - apply (demo_job_ok demo_cut_off demo_rules 99 false);
      [vm_compute; reflexivity|split_and!; by_decide|split_and!; vm_compute; reflexivity|
       vm_compute; discriminate].
Qed.

Lemma daemon_drops_listed_sources_witness :
  (firewall (demo_ctx (demo_tcp [198; 51; 100; 77] 4660)) (demo_kernel_on (dm_maps demo_after))).1 = Ok XDP_DROP.
Proof.
  edestruct (daemon_drops_listed_sources (N4 := Net 4) (N6 := Net 16) 2 demo_cli demo_su demo_after
    demo_rules (demo_kernel_on (dm_maps demo_after)) (demo_ctx (demo_tcp [198; 51; 100; 77] 4660)))
    as [Hdrop _];
    [exact demo_live_daemon|by_decide|vm_compute; discriminate|apply demo_shared|by_decide|].
  apply Hdrop. eexists. split; [vm_compute; reflexivity|]. split; [vm_compute; reflexivity|]. right.
  assert (bl_last_loaded_commit (dm_firehol demo_after) = Some (lit "a1")) as -> by (vm_compute; reflexivity).
  exists demo_file, 2, (lit "198.51.100.0/24"), Attacks, [TCidrV4 24 [198; 51; 100; 0]],
    (TCidrV4 24 [198; 51; 100; 0]).
  split_and!; [apply list_elem_of_here|apply list_elem_of_lookup; exists 0%nat; vm_compute; reflexivity|
    vm_compute; reflexivity|apply list_elem_of_here|vm_compute; reflexivity|by_decide].
Defined.
