(* ===== verification/Banner.v ===== *)
(** * What the daemon prints: the banner and the report of an import

    The lines [main] of [src/main.rs] logs before anything starts, and the text
    [parse_directory_impl] of [src/firehol/parser.rs] logs after an import. *)
From stdpp Require Import base numbers list gmap fin_maps strings.
From Stdlib Require Import ZArith Lia SpecFloat.
From S2P Require Import Prelude Net Str Fmt Lines Console XdpLoader Cache Spool ImportGauges Daemon.

Local Open Scope Z_scope.

(** ** Debug formatting *)

(** [char::escape_debug] inside a string; what is printable outside ASCII is in the
    standard library's tables. *)
Class DebugChars : Type := { debug_non_ascii : Z → list Z }.
Definition hex (n : Z) : list Z := to_radix 8 16 n.
Definition debug_char `{!DebugChars} (c : Z) : list Z :=
  if c =? 34 then [92; 34]
  else if c =? 92 then [92; 92]
  else if c =? 0 then [92; 48]
  else if c =? 9 then [92; 116]
  else if c =? 10 then [92; 110]
  else if c =? 13 then [92; 114]
  else if (32 <=? c) && (c <? 127) then [c]
  else if c <? 128 then [92; 117; 123] ++ hex c ++ [125]
  else debug_non_ascii c.
Definition debug_str `{!DebugChars} (s : list Z) : list Z := 34 :: (s ≫= debug_char) ++ [34].
Definition debug_list `{!DebugChars} (l : list (list Z)) : list Z :=
  lit "[" ++ join_text (lit ", ") (debug_str <$> l) ++ lit "]".
Definition debug_mode (m : XdpModeChoice) : list Z :=
  match m with
  | Auto => lit "Auto" | Driver => lit "Driver" | Generic => lit "Generic" | Hardware => lit "Hardware"
  end.

Section Text.
Context `{!PrettyConsole} `{!DebugChars} (no_color : bool).

(** ** The banner *)
Definition switched (on : bool) (enabled disabled : list Z) : list Z :=
  show (if on then green_bold no_color enabled else yellow no_color disabled).
Definition enabled_text : list Z := uni "Enabled 🟢".
Definition disabled_text : list Z := uni "Disabled ⚪".
Definition drop_logs_line (c : Config) : list Z :=
  uni "🤫 Drop Logs       : " ++
  show (if cf_quiet c then yellow no_color (uni "Disabled (Quiet mode) ⚪")
        else green_bold no_color enabled_text).
Definition endpoint_line (c : Config) : list Z :=
  uni "📈 Prometheus HTTP : " ++
  switched (negb (cf_no_metrics c))
    (lit "http://" ++ cf_metrics_listen_addr c ++ uni "/metrics 🟢") disabled_text.
Definition cron_line (c : Config) : list Z :=
  uni "⏰ FireHOL Cron    : " ++
  switched (is_cron_enabled c) (show (bold no_color (cf_firehol_cron c)) ++ uni " 🟢") disabled_text.
Definition firehol_lines (c : Config) : list (list Z) :=
  if is_firehol_enabled c then
    [uni "📁 FireHOL Repo    : " ++ show (bold no_color (debug_str (cf_firehol_dir c)));
     uni "🔗 FireHOL URL     : " ++ show (bold no_color (cf_firehol_url c)); cron_line c] ++
    (if len (cf_firehol_ignore_ip c) =? 0 then []
     else [uni "🚫 FireHOL Ignore  : [" ++ show (bold no_color (cf_firehol_ignore_ip c)) ++ uni "] 🟢"])
  else [].
Definition banner_rule (c : Z) : list Z := show (cyan_bold no_color (replicate 66 c)).
Definition banner (c : Config) : list (list Z) :=
  [banner_rule 61;
   show (cyan_bold no_color (uni "🛡️  High-Performance eBPF IP Reputation Firewall (Aya / XDP) 🦀"));
   banner_rule 61;
   uni "🔌 Interface       : " ++ show (bold no_color (cf_iface c));
   uni "⚙️  Attachment Mode : " ++ show (bold no_color (debug_mode (cf_mode c)));
   uni "📋 Rule Files      : " ++ show (bold no_color (debug_list (cf_rules c)));
   uni "👀 Hot-Reload      : " ++ switched (cf_watch c) enabled_text disabled_text;
   uni "📊 Stats Interval  : " ++ show (bold_num no_color (Unsigned (cf_stats_interval c))) ++ lit "s";
   uni "📄 JSON Output     : " ++ switched (cf_json c) enabled_text disabled_text;
   drop_logs_line c; endpoint_line c;
   uni "🌐 FireHOL Sync    : " ++
     switched (is_firehol_enabled c) (uni "Enabled 🟢 (Automatic Startup Initializer)") disabled_text] ++
  firehol_lines c ++ [banner_rule 45].

(** ** The report of an import *)
Definition report_line (icon : Console) (label value : list Z) : list Z :=
  show icon ++ lit " " ++ label ++ value.
Definition import_report (timing : FireholImportTiming) (files entries size workers limit : Z) : list Z :=
  let fs v d := show (bold no_color (format_float_with_spaces v d)) in
  let number n := show (bold_num no_color (Unsigned n)) in
  let mega := f64_of_Z (10 ^ 6) in
  let mebi := f64_of_Z 1048576 in
  let b := f64_of_Z (rocksdb_bytes timing) in
  [10] ++ join_text [10]
   [show (cyan_bold no_color (uni "📊")) ++ lit " " ++ show (blue_bold no_color (lit "FireHOL import performance"));
    report_line (blue no_color (uni "🗂️")) (lit "Files            : ") (number files);
    report_line (green no_color (uni "🛡️")) (lit "Entries          : ") (number entries);
    report_line (magenta no_color (uni "💾")) (lit "Input size       : ")
      (fs (f64_div (f64_of_Z size) mebi) 2%nat ++ lit " MiB (" ++ number size ++ lit " bytes)");
    report_line (cyan no_color (uni "⏱️")) (lit "Read time        : ")
      (fs (read_seconds timing) 3%nat ++ lit " s (summed workers)");
    report_line (cyan no_color (uni "⏱️")) (lit "Parse time       : ")
      (fs (parse_seconds timing) 3%nat ++ lit " s (summed workers, excl. queue wait)");
    report_line (yellow no_color (uni "⏳")) (lit "Queue wait time  : ")
      (fs (queue_wait_seconds timing) 3%nat ++ lit " s (summed workers)");
    report_line (cyan no_color (uni "🔀")) (lit "Pipeline time    : ")
      (fs (pipeline_seconds timing) 3%nat ++ lit " s (wall)");
    report_line (magenta no_color (uni "⚙️")) (lit "Transform time   : ")
      (fs (transform_seconds timing) 3%nat ++ lit " s (coordinator, incl. ordered scans)");
    report_line (blue no_color (uni "🗄️")) (lit "RocksDB write    : ")
      (fs (rocksdb_write_seconds timing) 3%nat ++ lit " s (writes + final flush)");
    report_line (green no_color (uni "📅")) (lit "Total time       : ")
      (fs (total_seconds timing) 3%nat ++ lit " s");
    report_line (green no_color (uni "🚀")) (lit "Parse throughput : ")
      (fs (f64_div (rate_over size (total_seconds timing)) mega) 2%nat ++ lit " MB/s");
    report_line (cyan no_color (uni "⚡")) (lit "Import speed     : ")
      (number (f64_as_u64 (f64_round (rate_over entries (total_seconds timing)))) ++
       lit " entries/s");
    report_line (blue no_color (uni "🗄️")) (lit "RocksDB thp      : ")
      (fs (f64_div (rate_over (rocksdb_bytes timing) (rocksdb_write_seconds timing)) mega) 2%nat ++
       lit " MB/s (logical batch bytes)");
    report_line (blue no_color (uni "🗄️")) (lit "RocksDB size     : ") (fs (f64_div b mega) 2%nat ++ lit " MB");
    report_line (yellow no_color (uni "🧵")) (lit "Workers          : ") (number workers);
    report_line (magenta no_color (uni "📦")) (lit "Batch budget     : ")
      (show (bold no_color (format_float_with_spaces
         (f64_div (f64_of_Z (Z.max limit (1024 * 1024))) mebi) 1%nat)) ++ lit " MiB")].
End Text.

(** The banner of the default configuration without colour, and a report. *)
#[local] Instance ascii_debug : DebugChars := {| debug_non_ascii c := [c] |}.
#[local] Existing Instance ansi_console.
Example default_banner :
  banner true Config_default =
  [replicate 66 61; uni "🛡️  High-Performance eBPF IP Reputation Firewall (Aya / XDP) 🦀"; replicate 66 61;
   uni "🔌 Interface       : eth0"; uni "⚙️  Attachment Mode : Auto";
   uni "📋 Rule Files      : [" ++ [34] ++ lit "rules/blocklist.txt" ++ [34] ++ lit ", " ++ [34] ++
     lit "rules/blocklist_v6.txt" ++ [34] ++ lit ", " ++ [34] ++ lit "rules/cidr_ranges.txt" ++ [34] ++ lit "]";
   uni "👀 Hot-Reload      : Disabled ⚪"; uni "📊 Stats Interval  : 5s"; uni "📄 JSON Output     : Disabled ⚪";
   uni "🤫 Drop Logs       : Enabled 🟢"; uni "📈 Prometheus HTTP : http://0.0.0.0:9100/metrics 🟢";
   uni "🌐 FireHOL Sync    : Enabled 🟢 (Automatic Startup Initializer)";
   uni "📁 FireHOL Repo    : " ++ [34] ++ lit "rules/firehol-blocklist-ipsets" ++ [34];
   uni "🔗 FireHOL URL     : https://github.com/firehol/blocklist-ipsets";
   uni "⏰ FireHOL Cron    : 0 0 * * * * 🟢"; replicate 66 45].
Proof. vm_compute. done. Qed.
Example small_report :
  let timing := mkTiming (f64_of_Z 1) (f64_of_Z 2) (f64_of_Z 0) (f64_of_Z 1) (f64_of_Z 0) 2000000
    (f64_of_Z 3) (f64_of_Z 4) in
  take 5 (split_terminator newline (import_report true timing 2 1000 2097152 8 (batch_limit 2097152))) =
  [[]; uni "📊 FireHOL import performance"; uni "🗂️ Files            : 2"; uni "🛡️ Entries          : 1 000";
   uni "💾 Input size       : 2.00 MiB (2 097 152 bytes)"].
Proof. vm_compute. done. Qed.
