(* ===== verification/Shutdown.v ===== *)
(** * The scheduler and the end of the daemon ([src/firehol/scheduler.rs], the second half
    of [main])

    The job scheduler as the daemon sets it up, starts it and stops it, over an interface
    of the cron library; then the tasks [main] spawns, each at its [select!] or in one of
    its branches, the lock of the maps that a running job holds, and [main] itself from
    the termination signal over the broadcast to the last join. The watch channel counts
    its versions; a task sees the broadcast when it is back at its [select!]. *)
From stdpp Require Import base numbers list gmap fin_maps strings sorting relations.
From Stdlib Require Import ZArith Lia.
From S2P Require Import Prelude Net Common BpfMaps Str Cidr Entry Metadata Cache Parser Import FireholSync.
From S2P Require Import Loader MapManager Wire Xdp Pipeline Schedule Spool EndToEnd Git Directory Blocklist.
From S2P Require Import TopN RingBuf Telemetry XdpLoader Daemon.

Local Open Scope Z_scope.

(** ** [FireholScheduler] *)

(** The cron library (interface): a scheduler, the jobs added to it with their cron
    expressions, and calls that can fail with a text. *)
Class CronLibrary (J Id : Type) : Type := {
  js_new : outcome (list Z) J;
  js_job_new : list Z → outcome (list Z) ();
  js_add : J → list Z → outcome (list Z) (J * Id);
  js_start : J → outcome (list Z) J;
  js_next_tick : J → Id → outcome (list Z) (option Z);
  js_shutdown : J → outcome (list Z) J;
  js_running : J → bool;
  js_start_spec j j' : js_start j = Ok j' → js_running j' = true;
  js_shutdown_spec j j' : js_shutdown j = Ok j' → js_running j' = false;
}.

Section Scheduler.
Context {J Id : Type} `{!CronLibrary J Id}.

Record FireholScheduler : Type := mkScheduler {
  fs_scheduler : J;
  fs_job_id : Id;
  fs_cron_expr : list Z;
}.
(** Errors are [FirewallError::Config] with a text. *)
Definition failed_to (what e : list Z) : list Z := lit "Failed to " ++ what ++ lit ": " ++ e.

Definition scheduler_new (cron_expr : list Z) : outcome (list Z) FireholScheduler :=
  scheduler ← map_err (failed_to (lit "initialize JobScheduler")) js_new;
  _ ← map_err (failed_to (lit "parse cron expression '" ++ cron_expr ++ lit "'")) (js_job_new cron_expr);
  '(scheduler, job_id) ← map_err (failed_to (lit "add job to scheduler")) (js_add scheduler cron_expr);
  Ok (mkScheduler scheduler job_id cron_expr).
Definition set_scheduler (s : FireholScheduler) (j : J) : FireholScheduler :=
  mkScheduler j (fs_job_id s) (fs_cron_expr s).
Definition scheduler_next_tick (s : FireholScheduler) : outcome (list Z) (option Z) :=
  map_err (failed_to (lit "query next tick")) (js_next_tick (fs_scheduler s) (fs_job_id s)).
(** The scheduler, and the time that is logged when it is known. *)
Definition scheduler_start (s : FireholScheduler) : outcome (list Z) (FireholScheduler * option Z) :=
  j ← map_err (failed_to (lit "start JobScheduler")) (js_start (fs_scheduler s));
  Ok (set_scheduler s j,
      match js_next_tick j (fs_job_id s) with Ok (Some next_time) => Some next_time | _ => None end).
Definition scheduler_shutdown (s : FireholScheduler) : outcome (list Z) FireholScheduler :=
  set_scheduler s <$> map_err (failed_to (lit "shutdown JobScheduler")) (js_shutdown (fs_scheduler s)).
Definition cron_expr (s : FireholScheduler) : list Z := fs_cron_expr s.

(** [main]: a scheduler that cannot be configured or started is logged and left out. *)
Definition firehol_scheduler (c : Config) : option FireholScheduler :=
  if is_cron_enabled c then
    match scheduler_new (cf_firehol_cron c) with
    | Ok sched => match scheduler_start sched with Ok (sched, _) => Some sched | _ => None end
    | _ => None
    end
  else None.
End Scheduler.
Arguments FireholScheduler : clear implicits.

(** ** The tasks *)
Inductive task : Type := RingbufTask | StatsTask | WatcherTask | MetricsTask.
#[global] Instance task_eq_dec : EqDecision task.
Proof. solve_decision. Defined.
(** The order in which [main] awaits them. *)
Definition await_order : list task := [RingbufTask; StatsTask; WatcherTask; MetricsTask].

Section Running.
Context {W DB A : Type} `{!Git2 W} `{!Git2Laws W directory} `{!Aya A}.
Context `{!RocksDb DB} `{!Rkyv FireholMetadata} `{!Rkyv RuleBlockContext}.
Context {H4 H6 L4 L6 : Type}.
Context `{!BpfMap H4 (list Z) RuleValue} `{!BpfMap H6 (list Z) RuleValue}.
Context `{!BpfMap L4 (Z * list Z) RuleValue} `{!BpfMap L6 (Z * list Z) RuleValue}.
Context `{!HashOrder} {V : Type} `{!CounterVec V}.
Context {N4 N6 : Type} `{!IpNet 4 N4} `{!IpNet 16 N6} `{!IpNetText N4 N6}.
Context {R : Type} `{!RingBuffer R} {J Id : Type} `{!CronLibrary J Id}.
Abbreviation daemon := (daemon (W := W) (DB := DB) (A := A) (H4 := H4) (H6 := H6) (L4 := L4) (L6 := L6) (V := V)).
Abbreviation daemon_event := (daemon_event (W := W) (DB := DB) (V := V)).
Abbreviation registry := (FireholMetadataRegistry (CacheRocksDb DB)).

(** Where a spawned task is: at its [select!], in the branch it took, or over. A branch
    of the reporter, of the watcher or of the metrics server is one step of the daemon;
    the consumer's drains the ring buffer with the registry it took for the batch.
    [main] is aborted when it cannot listen for signals. *)
Inductive task_state : Type :=
| AtSelect
| InBranch (ev : daemon_event)
| Draining (registry : option registry)
| Ended.

Inductive main_phase : Type :=
| WaitingForSignal
| SignalReceived
| MarkedDown
| Awaiting (handles : list task)
| Exited
| Aborted.

(** [sy_job] is the job that runs, with whether it holds the lock of the maps; a watch
    channel has had [sy_version] values sent. *)
Record system : Type := mkSystem {
  sy_daemon : daemon;
  sy_ring : R;
  sy_log : list (PacketLogEvent * RuleBlockContext);
  sy_tasks : task → option task_state;
  sy_requests : list (daemon_event);
  sy_scheduler : option (FireholScheduler J Id);
  sy_job : option (daemon_event * bool);
  sy_version : nat;
  sy_main : main_phase;
}.
Implicit Type s : system.

Definition set_task s (t : task) (st : task_state) : system :=
  mkSystem (sy_daemon s) (sy_ring s) (sy_log s)
    (λ t', if decide (t' = t) then Some st else sy_tasks s t') (sy_requests s) (sy_scheduler s)
    (sy_job s) (sy_version s) (sy_main s).
Definition set_daemon s (d : daemon) : system :=
  mkSystem d (sy_ring s) (sy_log s) (sy_tasks s) (sy_requests s) (sy_scheduler s) (sy_job s)
    (sy_version s) (sy_main s).
Definition set_ring s (r : R) : system :=
  mkSystem (sy_daemon s) r (sy_log s) (sy_tasks s) (sy_requests s) (sy_scheduler s) (sy_job s)
    (sy_version s) (sy_main s).
Definition set_requests s (l : list daemon_event) : system :=
  mkSystem (sy_daemon s) (sy_ring s) (sy_log s) (sy_tasks s) l (sy_scheduler s) (sy_job s)
    (sy_version s) (sy_main s).
Definition set_job s (job : option (daemon_event * bool)) : system :=
  mkSystem (sy_daemon s) (sy_ring s) (sy_log s) (sy_tasks s) (sy_requests s) (sy_scheduler s) job
    (sy_version s) (sy_main s).
Definition set_main s (m : main_phase) : system :=
  mkSystem (sy_daemon s) (sy_ring s) (sy_log s) (sy_tasks s) (sy_requests s) (sy_scheduler s)
    (sy_job s) (sy_version s) m.

(** The consumer takes one record, with the metrics and the log it shares. *)
Definition shared_consumer (reg : option registry) (d : daemon) (log : list (PacketLogEvent * RuleBlockContext)) :=
  mkConsumer reg (Some (dm_static_registry d)) (dm_drop_logs d) (pm_telemetry <$> dm_metrics d) log.
Definition take_record (reg : option registry) (item : list Z) (r : R) s : system :=
  let c := consume_item (shared_consumer reg (sy_daemon s) (sy_log s)) item in
  let metrics := (λ m, match cn_metrics c with Some t => set_telemetry m t | None => m end)
    <$> dm_metrics (sy_daemon s) in
  mkSystem (set_dm_metrics (sy_daemon s) metrics) r (cn_log c) (sy_tasks s) (sy_requests s)
    (sy_scheduler s) (sy_job s) (sy_version s) (sy_main s).

Definition spawned s (t : task) : bool := match sy_tasks s t with Some _ => true | None => false end.
(** [m.firewall_up.set(0)]. *)
Definition mark_down s : system :=
  set_main (set_daemon s (set_dm_metrics (sy_daemon s)
    ((λ m, set_up m 0) <$> dm_metrics (sy_daemon s)))) MarkedDown.
(** [shutdown_tx.send(true)], then the first handle. *)
Definition broadcast s : system :=
  mkSystem (sy_daemon s) (sy_ring s) (sy_log s) (sy_tasks s) (sy_requests s) (sy_scheduler s)
    (sy_job s) (S (sy_version s)) (Awaiting (filter (λ t, spawned s t = true) await_order)).
(** [sched.shutdown()], whose failure is logged. *)
Definition stop_scheduler s : system :=
  mkSystem (sy_daemon s) (sy_ring s) (sy_log s) (sy_tasks s) (sy_requests s)
    ((λ sched, from_ok sched (scheduler_shutdown sched)) <$> sy_scheduler s)
    (sy_job s) (sy_version s) Exited.

(** ** Steps: progress of the daemon, a branch another than the shutdown's that a
    [select!] takes, and what happens outside *)
Inductive label : Type := Progress | Choice | Outside.
#[global] Instance label_eq_dec : EqDecision label.
Proof. solve_decision. Defined.

Context (c : Config) (fc : FireholConfig).
Abbreviation dstep := (daemon_step (N4 := N4) (N6 := N6) c fc).

(** The registry of a batch, of the blocklist attached when FireHOL is enabled. *)
Definition batch_registry (d : daemon) : option registry :=
  if is_firehol_enabled c then Some (bl_active_registry (dm_firehol d)) else None.

(** Whether the branch takes the lock of the maps: every tick, and files that changed and
    can be loaded. *)
Definition takes_lock (d : daemon) (ev : daemon_event) : bool :=
  match ev with
  | ReporterTick _ _ => true
  | RuleFilesChanged stat files =>
      negb (bool_decide (compute_fingerprint stat (cf_rules c) = dm_fingerprint d)) &&
      is_ok (load_from_paths_with_meta (N4 := N4) (N6 := N6) files)
  | _ => false
  end.
Definition maps_locked s : bool := match sy_job s with Some (_, held) => held | None => false end.

Inductive sy_step : label → system → system → Prop :=
| SeeShutdown s t :
    sy_tasks s t = Some AtSelect → sy_version s ≠ O → sy_step Progress s (set_task s t Ended)
| RingReadable s :
    sy_tasks s RingbufTask = Some AtSelect →
    sy_step Choice s (set_task s RingbufTask (Draining (batch_registry (sy_daemon s))))
| RingPollError s :
    sy_tasks s RingbufTask = Some AtSelect →
    sy_step Choice s (set_daemon s (set_dm_metrics (sy_daemon s)
      (daemon_error (lit "ringbuf_poll") <$> dm_metrics (sy_daemon s))))
| DrainOne s reg item r :
    sy_tasks s RingbufTask = Some (Draining reg) → rb_next (sy_ring s) = Some (item, r) →
    sy_step Progress s (take_record reg item r s)
| Drained s reg :
    sy_tasks s RingbufTask = Some (Draining reg) → rb_next (sy_ring s) = None →
    sy_step Progress s (set_task s RingbufTask AtSelect)
| Ticked s stats now :
    sy_tasks s StatsTask = Some AtSelect →
    sy_step Choice s (set_task s StatsTask (InBranch (ReporterTick stats now)))
| FilesChanged s stat files :
    sy_tasks s WatcherTask = Some AtSelect →
    sy_step Choice s (set_task s WatcherTask (InBranch (RuleFilesChanged stat files)))
| BranchDone s t ev :
    sy_tasks s t = Some (InBranch ev) → takes_lock (sy_daemon s) ev && maps_locked s = false →
    sy_step Progress s (set_task (set_daemon s (dstep (sy_daemon s) ev)) t AtSelect)
| Accepted s text_of req :
    sy_tasks s MetricsTask = Some AtSelect →
    sy_step Choice s (set_requests s (sy_requests s ++ [HttpRequest text_of req]))
| AcceptFailed s : sy_tasks s MetricsTask = Some AtSelect → sy_step Choice s s
| RequestDone s ev rest :
    sy_requests s = ev :: rest →
    sy_step Progress s (set_requests (set_daemon s (dstep (sy_daemon s) ev)) rest)
| JobStarts s sched parse now :
    sy_scheduler s = Some sched → js_running (Id := Id) (fs_scheduler sched) = true → sy_job s = None →
    sy_step Outside s (set_job s (Some (CronJob parse now false, false)))
| JobSkipped s sched parse now :
    sy_scheduler s = Some sched → js_running (Id := Id) (fs_scheduler sched) = true → is_Some (sy_job s) →
    sy_step Outside s (set_daemon s (dstep (sy_daemon s) (CronJob parse now true)))
| JobLocks s ev : sy_job s = Some (ev, false) → sy_step Progress s (set_job s (Some (ev, true)))
| JobDone s ev held :
    sy_job s = Some (ev, held) → held = true ∨ dm_maps (dstep (sy_daemon s) ev) = dm_maps (sy_daemon s) →
    sy_step Progress s (set_job (set_daemon s (dstep (sy_daemon s) ev)) None)
| RecordArrives s item r :
    rb_output (sy_ring s) item = Some r → sy_step Outside s (set_ring s r)
| WorldMoves s w : sy_step Outside s (set_daemon s (dstep (sy_daemon s) (WorldChanged w)))
| Signal s : sy_main s = WaitingForSignal → sy_step Outside s (set_main s SignalReceived)
| SignalFailed s : sy_main s = WaitingForSignal → sy_step Outside s (set_main s Aborted)
| MarkDown s : sy_main s = SignalReceived → sy_step Progress s (mark_down s)
| Broadcast s : sy_main s = MarkedDown → sy_step Progress s (broadcast s)
| Joined s t handles :
    sy_main s = Awaiting (t :: handles) → sy_tasks s t = Some Ended →
    sy_step Progress s (set_main s (Awaiting handles))
| StopScheduler s : sy_main s = Awaiting [] → sy_step Progress s (stop_scheduler s).

(** Runs of the process, which ends with [main]. *)
Definition gone s : Prop := sy_main s = Exited ∨ sy_main s = Aborted.
Inductive sy_run : list label → system → system → Prop :=
| run_nil s : sy_run [] s s
| run_cons l ls s s1 s2 :
    ¬ gone s → sy_step l s s1 → sy_run ls s1 s2 → sy_run (l :: ls) s s2.

(** The tasks [main] spawns: the watcher ends at once when it cannot be created, the
    metrics server when it cannot bind its address; it is not spawned when its address
    does not parse. *)
Definition spawn_task (d : daemon) (watcher_created address_parses address_binds : bool) (t : task)
    : option task_state :=
  match t with
  | RingbufTask => Some AtSelect
  | StatsTask => if (0 <? cf_stats_interval c) || bool_decide (is_Some (dm_metrics d)) then Some AtSelect else None
  | WatcherTask => if cf_watch c then Some (if watcher_created then AtSelect else Ended) else None
  | MetricsTask =>
      if bool_decide (is_Some (dm_metrics d)) && address_parses
      then Some (if address_binds then AtSelect else Ended) else None
  end.
Definition running (d : daemon) (ring : R) (watcher_created address_parses address_binds : bool) : system :=
  mkSystem d ring [] (spawn_task d watcher_created address_parses address_binds) []
    (firehol_scheduler c) None 0 WaitingForSignal.

(** ** A run is finite but for what the outside does *)
Definition task_work (st : option task_state) : nat :=
  match st with Some AtSelect => 1 | Some (InBranch _) | Some (Draining _) => 2 | _ => 0 end.
Definition main_work (m : main_phase) : nat :=
  match m with
  | WaitingForSignal | SignalReceived => 8
  | MarkedDown => 7
  | Awaiting handles => S (length handles)
  | Exited | Aborted => 0
  end.
Definition tasks_work (f : task → option task_state) : nat := sum_list_with (λ t, task_work (f t)) await_order.
Definition work s : nat :=
  main_work (sy_main s) + tasks_work (sy_tasks s) + length (rb_queue (sy_ring s)) + length (sy_requests s) +
  (match sy_job s with Some (_, held) => if held : bool then 1 else 2 | None => 0 end).

Lemma set_task_work (f : task → option task_state) t st st' :
  f t = Some st' →
  (tasks_work (λ t', if decide (t' = t) then Some st else f t') + task_work (Some st') =
   tasks_work f + task_work (Some st))%nat.
Proof.
  intros Ht. unfold tasks_work, await_order. cbn [sum_list_with].
  destruct t; rewrite Ht; repeat case_decide; try done; lia.
Qed.

Lemma rb_next_queue (r r' : R) item : rb_next r = Some (item, r') → rb_queue r = item :: rb_queue r'.
Proof. intros Hn. pose proof (rb_next_spec r) as Hs. by rewrite Hn in Hs. Qed.

Lemma step_work l s s' :
  sy_step l s s' →
  match l with Progress => S (work s') ≤ work s | _ => work s' ≤ 2 + work s end%nat.
Proof.
  unfold work. intros [].
  all: unfold mark_down, take_record, broadcast, stop_scheduler, set_main, set_job, set_requests, set_task,
    set_daemon, set_ring;
    cbn [sy_main sy_tasks sy_ring sy_requests sy_job].
  all: try match goal with
    | Ht : sy_tasks ?s ?t = Some ?st' |- context [if decide (_ = ?t) then Some ?st else _] =>
        pose proof (set_task_work (sy_tasks s) t st st' Ht); cbn [task_work] in * end.
  all: repeat match goal with
    | H : sy_main ?s = _ |- _ => rewrite H
    | H : sy_requests ?s = _ |- _ => rewrite H
    | H : sy_job ?s = _ |- _ => rewrite H
    | H : rb_next (sy_ring ?s) = Some _ |- _ => apply rb_next_queue in H; rewrite H
    | H : rb_output (sy_ring ?s) ?i = Some _ |- _ => apply rb_output_spec in H; rewrite H, length_app
    end.
  all: rewrite ?length_app; cbn [main_work length]; try lia.
  { destruct held; lia. }
  pose proof (length_filter (λ t, spawned s0 t = true) await_order) as Hl. unfold await_order in Hl at 2. cbn [length] in Hl. lia.
Qed.

Lemma run_length ls s s' :
  sy_run ls s s' → (length ls <= work s + 3 * length (filter (λ l, l ≠ Progress) ls))%nat.
Proof.
  induction 1 as [s|l ls s s1 s2 _ Hs _ IH]; [cbn; lia|]. apply step_work in Hs.
  rewrite filter_cons. cbn [length]. destruct l; case_decide; try done; cbn [length]; lia.
Qed.

(** ** What holds of the daemon until [main] ends *)
Definition up (d : daemon) : option Z := pm_firewall_up <$> dm_metrics d.

Lemma daemon_error_up e (m : option (PrometheusMetrics (V := V))) :
  pm_firewall_up <$> (daemon_error e <$> m) = pm_firewall_up <$> m.
Proof. by destruct m. Qed.
Lemma tick_up r (m : option (PrometheusMetrics (V := V))) stats now r' m' line :
  tick r m stats now = (r', m', line) → pm_firewall_up <$> m' = pm_firewall_up <$> m.
Proof.
  unfold tick. intros Ht.
  assert (m' = (λ m, update_from_ebpf_stats m stats) <$> m) as -> by (destruct (_ && _); congruence).
  destruct m as [m|]; [|done]. cbn. f_equal. unfold update_from_ebpf_stats. by repeat case_match.
Qed.
Lemma request_up text_of req (m : PrometheusMetrics (V := V)) flag resp m' flag' :
  handle_request text_of req m flag = (resp, m', flag') → pm_firewall_up m' = pm_firewall_up m.
Proof.
  unfold handle_request, metrics_encode, sync_top_blocked_ips. intros Hr.
  destruct (is_metrics_request req).
  - destruct (sync_to_metrics _ _) as [t v]. by destruct (text_of _); simplify_eq.
  - by destruct (is_health_request req), (is_drop_logs_request req); simplify_eq.
Qed.

Lemma reload_up files error (d : daemon) : up (reload_static (N4 := N4) (N6 := N6) files error d) = up d.
Proof.
  unfold reload_static, up. destruct (load_from_paths_with_meta files) as [[rules meta]|e|];
    cbn [set_dm_metrics with_maps set_static dm_metrics]; [by destruct (dm_metrics d)|apply daemon_error_up..].
Qed.

Lemma step_up d ev : up (dstep d ev) = up d.
Proof.
  unfold up. destruct ev as [stat files|parse now locked|stats now|text_of req|w]; cbn [daemon_step].
  - destruct (negb _ || _); [done|]. by apply reload_up.
  - destruct (is_cron_enabled c); [|done]. unfold firehol_job.
    destruct (execute_firehol_sync _ _ _ _ _ _ _ _) as [[[result mgr] cron] bl]. cbn [snd dm_metrics].
    destruct (dm_metrics d); [|done]. by destruct result as [[]| |].
  - destruct (negb _ && _); [done|]. destruct (tick _ _ _ _) as [[r m] line] eqn:Ht. by eapply tick_up.
  - destruct (dm_metrics d) as [m|] eqn:Hm; [|by rewrite Hm].
    destruct (handle_request _ _ _ _) as [[resp m'] flag] eqn:Hr. cbn. f_equal. by eapply request_up.
  - done.
Qed.

(** The joins that remain, once the broadcast was sent. *)
Definition joins (m : main_phase) : option (list task) :=
  match m with Awaiting handles => Some handles | Exited => Some [] | _ => None end.
Definition is_down (m : main_phase) : bool :=
  match m with MarkedDown | Awaiting _ | Exited => true | _ => false end.

Record shutdown_inv s : Prop := {
  iv_draining t reg : sy_tasks s t = Some (Draining reg) → t = RingbufTask;
  iv_up v : is_down (sy_main s) = true → up (sy_daemon s) = Some v → v = 0;
  iv_sent handles : joins (sy_main s) = Some handles →
    sy_version s ≠ O ∧ ∀ t, t ∈ handles → is_Some (sy_tasks s t);
  iv_ended handles t st :
    joins (sy_main s) = Some handles → sy_tasks s t = Some st → t ∈ handles ∨ st = Ended;
  iv_scheduler sched : sy_main s = Exited → sy_scheduler s = Some sched →
    js_running (Id := Id) (fs_scheduler sched) = false ∨ is_ok (scheduler_shutdown sched) = false;
}.

(** Steps that leave [main] and the tasks alone. *)
Lemma inv_shared s s' :
  shutdown_inv s → sy_tasks s' = sy_tasks s → sy_main s' = sy_main s → sy_version s' = sy_version s →
  sy_scheduler s' = sy_scheduler s → up (sy_daemon s') = up (sy_daemon s) → shutdown_inv s'.
Proof. intros [I1 I2 I3 I4 I5] Et Em Ev Es Eu. split; rewrite ?Et, ?Em, ?Ev, ?Es, ?Eu; auto. Qed.

(** A task moves on, or ends. *)
Lemma inv_task s t st st' :
  shutdown_inv s → sy_tasks s t = Some st' → st' ≠ Ended → (∀ reg, st = Draining reg → t = RingbufTask) →
  shutdown_inv (set_task s t st).
Proof.
  intros [I1 I2 I3 I4 I5] Ht Hne Hd. split; cbn [set_task sy_tasks sy_main sy_version sy_daemon sy_scheduler]; auto.
  - intros t' reg. case_decide as E; [|by apply I1]. rewrite E. intros [= ->]. by eapply Hd.
  - intros handles Hj. destruct (I3 handles Hj) as [Hv Hs]. split; [done|]. intros t' Hin.
    case_decide; [by eexists|by apply Hs].
  - intros handles t' st2 Hj. case_decide as E; [|by apply I4]. intros _. left. rewrite E.
    destruct (I4 handles t st' Hj Ht); [done|congruence].
Qed.

Lemma take_record_up reg item r s : up (sy_daemon (take_record reg item r s)) = up (sy_daemon s).
Proof.
  unfold take_record, up. cbn [sy_daemon set_dm_metrics dm_metrics].
  destruct (dm_metrics (sy_daemon s)); [|done]. cbn. by destruct (cn_metrics _).
Qed.

Lemma stop_scheduler_ok sched sched' :
  from_ok sched (scheduler_shutdown sched) = sched' →
  js_running (Id := Id) (fs_scheduler sched') = false ∨ is_ok (scheduler_shutdown sched') = false.
Proof.
  intros <-. destruct (scheduler_shutdown sched) as [x|e|] eqn:E; cbn [from_ok]; [left|right; by rewrite E..].
  unfold scheduler_shutdown in E. destruct (js_shutdown (fs_scheduler sched)) as [j|e|] eqn:Ej; [|done..].
  injection E as <-. by apply js_shutdown_spec in Ej.
Qed.

Lemma step_inv l s s' : ¬ gone s → sy_step l s s' → shutdown_inv s → shutdown_inv s'.
Proof.
  intros Hg Hs Hi. assert (¬ sy_main s = Exited) as Hx by (intros E; apply Hg; by left).
  destruct Hs as [s t Ht Hv|s Ht|s Ht|s reg item r Ht Hr|s reg Ht Hr|s stats now Ht
    |s stat files Ht|s t ev Ht Hj|s text_of req Ht|s Ht|s ev rest Hq|s sched parse now Hsc Hrun Hj
    |s sched parse now Hsc Hrun Hj|s ev Hj|s ev held Hj Hh|s item r Hr|s w|s Hm|s Hm|s Hm|s Hm|s t handles Hm Ht|s Hm].
  - by eapply inv_task.
  - by eapply inv_task.
  - apply (inv_shared s); try done. unfold up. cbn. apply daemon_error_up.
  - apply (inv_shared s); try done. apply take_record_up.
  - by eapply inv_task.
  - by eapply inv_task.
  - by eapply inv_task.
  - eapply (inv_task (set_daemon s _)); [|exact Ht|done|done]. apply (inv_shared s); try done. apply step_up.
  - by apply (inv_shared s).
  - done.
  - apply (inv_shared s); try done. apply step_up.
  - by apply (inv_shared s).
  - apply (inv_shared s); try done. apply step_up.
  - by apply (inv_shared s).
  - apply (inv_shared s); try done. apply step_up.
  - by apply (inv_shared s).
  - apply (inv_shared s); try done.
  - destruct Hi. by split.
  - destruct Hi. by split.
  - destruct Hi as [I1 I2 I3 I4 I5]. split; try done. intros v _. unfold up. cbn.
    destruct (dm_metrics (sy_daemon s)); cbn; congruence.
  - destruct Hi as [I1 I2 I3 I4 I5]. split; cbn [broadcast sy_tasks sy_main sy_version sy_daemon joins is_down]; try done.
    + intros v _. apply I2. by rewrite Hm.
    + intros handles [= <-]. split; [done|]. intros t [Hsp _]%list_elem_of_filter. unfold spawned in Hsp.
      by destruct (sy_tasks s t).
    + intros handles t st [= <-] Ht. left. apply list_elem_of_filter. unfold spawned. rewrite Ht.
      split; [done|]. unfold await_order. destruct t; set_solver.
  - destruct Hi as [I1 I2 I3 I4 I5]. rewrite Hm in *. cbn [joins is_down] in *.
    destruct (I3 _ eq_refl) as [Hv Hsp].
    split; cbn [set_main sy_tasks sy_main sy_version sy_daemon joins is_down]; try done.
    + intros hs [= <-]. split; [done|]. intros t' Hin. apply Hsp. by right.
    + intros hs t' st [= <-] Ht'. destruct (I4 _ t' st eq_refl Ht') as [[->|Hin]%elem_of_cons|]; auto.
      right. congruence.
  - destruct Hi as [I1 I2 I3 I4 I5]. rewrite Hm in *. cbn [joins is_down] in *.
    destruct (I3 _ eq_refl) as [Hv _].
    split; cbn [stop_scheduler sy_tasks sy_main sy_version sy_daemon sy_scheduler joins is_down]; try done.
    intros sched _. destruct (sy_scheduler s) as [sched0|]; [|done]. intros [= E]. by eapply stop_scheduler_ok.
Qed.

Lemma run_inv ls s s' : sy_run ls s s' → shutdown_inv s → shutdown_inv s'.
Proof. induction 1; [done|]. eauto using step_inv. Qed.

Lemma running_inv d ring wc ap ab : shutdown_inv (running d ring wc ap ab).
Proof.
  split; try done. cbn. intros [] reg; [done|..]; cbn; repeat case_match; congruence.
Qed.

(** After the signal the daemon can always go on by itself until [main] ends. *)
Lemma progress_possible s :
  shutdown_inv s → sy_main s ≠ WaitingForSignal → ¬ gone s → ∃ s', sy_step Progress s s'.
Proof.
  intros Hi Hw Hg. destruct (sy_main s) as [| | |[|t handles]| |] eqn:Hm; [done| | | | | |].
  - eexists. by apply MarkDown.
  - eexists. by apply Broadcast.
  - eexists. by apply StopScheduler.
  - destruct Hi as [I1 _ I3 _ _]. rewrite Hm in I3. destruct (I3 _ eq_refl) as [Hv Hsp].
    destruct (Hsp t) as [st Ht]; [left|]. destruct st as [|ev|reg|].
    + eexists. by eapply SeeShutdown.
    + destruct (takes_lock (sy_daemon s) ev && maps_locked s) eqn:Hl; [|eexists; by eapply BranchDone].
      apply andb_true_iff in Hl as [_ Hl]. unfold maps_locked in Hl.
      destruct (sy_job s) as [[job []]|] eqn:Hj; [|done..]. eexists. eapply JobDone; [exact Hj|by left].
    + pose proof (I1 _ _ Ht) as ->.
      destruct (rb_next (sy_ring s)) as [[item r]|] eqn:Hr; eexists; [by eapply DrainOne|by eapply Drained].
    + eexists. by eapply Joined.
  - destruct Hg. by left.
  - destruct Hg. by right.
Qed.

(** Nor does [main] wait for the signal again. *)
Lemma signalled_stays ls s s' :
  sy_run ls s s' → sy_main s ≠ WaitingForSignal → sy_main s ≠ Aborted →
  sy_main s' ≠ WaitingForSignal ∧ sy_main s' ≠ Aborted.
Proof.
  induction 1 as [s|l ls s s1 s2 Hg Hs _ IH]; [done|]. intros Hw Ha. apply IH.
  - destruct Hs; cbn; congruence.
  - destruct Hs; cbn; congruence.
Qed.

Lemma run_app ls1 ls2 s s1 s2 : sy_run ls1 s s1 → sy_run ls2 s1 s2 → sy_run (ls1 ++ ls2) s s2.
Proof. induction 1; [done|]. intros. econstructor; eauto. Qed.

(** By itself, the daemon ends within its work. *)
Lemma progress_ends n : ∀ s,
  (work s <= n)%nat → shutdown_inv s → sy_main s ≠ WaitingForSignal → sy_main s ≠ Aborted →
  ∃ k s', (k <= work s)%nat ∧ sy_run (replicate k Progress) s s' ∧ sy_main s' = Exited.
Proof.
  induction n as [|n IH]; intros s Hn Hi Hw Ha.
  all: assert (sy_main s = Exited ∨ sy_main s ≠ Exited) as [He|He] by (destruct (sy_main s); auto);
    [exists 0%nat, s; split_and!; [lia|constructor|done]|].
  all: assert (Hg : ¬ gone s) by (by intros [|]);
    destruct (progress_possible s Hi Hw Hg) as [s1 Hs]; pose proof (step_work _ _ _ Hs) as Hwork; cbn in Hwork.
  { lia. }
  assert (sy_run [Progress] s s1) as Hrun by (econstructor; [done|exact Hs|constructor]).
  destruct (signalled_stays _ _ _ Hrun Hw Ha) as [Hw1 Ha1].
  destruct (IH s1) as (k & s' & Hk & Hr & He'); [lia|by eapply step_inv|done|done|].
  exists (S k), s'. split_and!; [lia|by eapply (run_app [Progress])|done].
Qed.

(** While records keep coming, the loop that drains the ring buffer does not end, and the
    broadcast is not seen. *)
Lemma flood_delays_shutdown n : ∀ s reg item r,
  ¬ gone s → sy_tasks s RingbufTask = Some (Draining reg) →
  rb_output (sy_ring s) item = Some r → rb_next r = Some (item, sy_ring s) →
  ∃ s', sy_run (concat (replicate n [Outside; Progress])) s s' ∧ sy_main s' = sy_main s ∧
    sy_tasks s' RingbufTask = Some (Draining reg).
Proof.
  induction n as [|n IH]; intros s reg item r Hg Ht Ho Hn; [exists s; by split_and!; [constructor| |]|].
  set (s1 := set_ring s r). set (s2 := take_record reg item (sy_ring s) s1).
  destruct (IH s2 reg item r) as (s' & Hrun & Hm & Hs); [done..|].
  exists s'. split_and!; [|done|done]. cbn [replicate concat app].
  econstructor; [done|by eapply RecordArrives|]. econstructor; [done|by eapply (DrainOne s1)|exact Hrun].
Qed.
End Running.

(** C11 (liveness). A signal ends the daemon. After SIGINT or SIGTERM, wherever its tasks
    are, each in a branch of its [select!] or not, with a job of the scheduler running or
    not: whatever happened since, it can go on by itself, without waiting for traffic,
    files, requests or timers, and [main] returns within the work that is left; a run
    is at most as long as this work and three times the branches the [select!]s chose instead
    of the shutdown's and the events from outside, so it can go on for ever only if one
    of these does not cease. When [main] returns every task it spawned is over, the
    metrics show the firewall as down, and the scheduler is stopped unless stopping it
    failed. *)
Theorem shutdown_completes {W DB A : Type} `{!Git2 W} `{!Git2Laws W directory} `{!Aya A}
    `{!RocksDb DB} `{!Rkyv FireholMetadata} `{!Rkyv RuleBlockContext}
    {H4 H6 L4 L6 : Type}
    `{!BpfMap H4 (list Z) RuleValue} `{!BpfMap H6 (list Z) RuleValue}
    `{!BpfMap L4 (Z * list Z) RuleValue} `{!BpfMap L6 (Z * list Z) RuleValue}
    `{!HashOrder} {V : Type} `{!CounterVec V}
    {N4 N6 : Type} `{!IpNet 4 N4} `{!IpNet 16 N6} `{!IpNetText N4 N6}
    {R : Type} `{!RingBuffer R} {J Id : Type} `{!CronLibrary J Id}
    (c : Config) fc (d : daemon (W := W) (DB := DB) (A := A) (H4 := H4) (H6 := H6) (L4 := L4) (L6 := L6) (V := V))
    (ring : R) wc ap ab before s ls s' :
  sy_run (N4 := N4) (N6 := N6) c fc before (running (J := J) (Id := Id) c d ring wc ap ab) s →
  sy_main s = SignalReceived → sy_run (N4 := N4) (N6 := N6) c fc ls s s' →
  (length ls <= work s + 3 * length (filter (λ l, l ≠ Progress) ls))%nat ∧
  (∃ k s'', (k <= work s')%nat ∧ sy_run (N4 := N4) (N6 := N6) c fc (replicate k Progress) s' s'' ∧
     sy_main s'' = Exited) ∧
  (sy_main s' = Exited →
     (∀ t st, sy_tasks s' t = Some st → st = Ended) ∧
     (∀ v, up (sy_daemon s') = Some v → v = 0) ∧
     (∀ sched, sy_scheduler s' = Some sched →
        js_running (Id := Id) (fs_scheduler sched) = false ∨ is_ok (scheduler_shutdown sched) = false)).
Proof.
  intros Hbefore Hm Hrun.
  assert (shutdown_inv s') as Hi by (eapply run_inv; [exact Hrun|eapply run_inv; [exact Hbefore|apply running_inv]]).
  destruct (signalled_stays _ _ _ _ _ Hrun) as [Hw Ha]; [by rewrite Hm..|].
  split; [by eapply run_length|]. split; [by eapply progress_ends|].
  intros He. destruct Hi as [I1 I2 I3 I4 I5]. rewrite He in *. split_and!.
  - intros t st Ht. by destruct (I4 [] t st eq_refl Ht) as [?%elem_of_nil|].
  - intros v. by apply I2.
  - intros sched. by apply I5.
Qed.

(** A scheduler is there when the cron is enabled and the library took every step. *)
Lemma firehol_scheduler_started {J Id} `{!CronLibrary J Id} c (sched : FireholScheduler J Id) :
  firehol_scheduler c = Some sched →
  is_cron_enabled c = true ∧ js_job_new (J := J) (Id := Id) (cf_firehol_cron c) = Ok () ∧
  cron_expr sched = cf_firehol_cron c ∧ js_running (Id := Id) (fs_scheduler sched) = true.
Proof.
  unfold firehol_scheduler. destruct (is_cron_enabled c); [|done].
  destruct (scheduler_new _) as [s0| |] eqn:Hn; [|done..].
  destruct (scheduler_start s0) as [[s1 t]| |] eqn:Hs; [|done..]. intros [= ->].
  unfold scheduler_new in Hn. destruct js_new as [j| |]; [|done..]. cbn [map_err] in Hn.
  destruct (js_job_new _) as [[]| |]; [|done..]. cbn in Hn.
  destruct (js_add _ _) as [[j1 id]| |]; [|done..]. cbn in Hn. injection Hn as <-.
  unfold scheduler_start in Hs. cbn in Hs. destruct (js_start j1) as [j2| |] eqn:Hj; [|done..].
  injection Hs as <- _. split_and!; [done..|]. by apply js_start_spec in Hj.
Qed.

(** ** Witness: the running daemon of [Daemon], its signal, and a record that arrives *)
#[local] Existing Instance canonical_order.
#[local] Existing Instance demo_rkyv.
#[local] Existing Instance sim_git.
#[local] Existing Instance demo_git_laws.
#[local] Existing Instance demo_aya.
#[local] Instance demo_cron : CronLibrary bool () := {|
  js_new := Ok false;
  js_job_new e := if bool_decide (e = []) then Err (lit "empty") else Ok ();
  js_add j _ := Ok (j, ());
  js_start _ := Ok true;
  js_next_tick _ _ := Ok None;
  js_shutdown _ := Ok false;
  js_running j := j;
  js_start_spec _ _ := ltac:(by intros [= <-]);
  js_shutdown_spec _ _ := ltac:(by intros [= <-]);
|}.
Definition demo_system := running (J := bool) (Id := ()) (R := BoundedQueue) demo_cli demo_up (mkQueue 8 []) true true true.
Definition demo_signalled := set_main demo_system SignalReceived.
Definition demo_written := set_ring demo_signalled (mkQueue 8 [event_to_bytes demo_drop]).

Lemma shutdown_completes_witness :
  ∃ k s, (k <= work demo_written)%nat ∧
    sy_run (N4 := Net 4) (N6 := Net 16) demo_cli demo_fc (replicate k Progress) demo_written s ∧
    sy_main s = Exited.
Proof.
  destruct (shutdown_completes (N4 := Net 4) (N6 := Net 16) demo_cli demo_fc demo_up (mkQueue 8 []) true true true
    [Outside] demo_signalled [Outside] demo_written) as (_ & Hend & _); [| | |exact Hend].
  - econstructor; [by intros [|]|by apply Signal|constructor].
  - reflexivity.
  - econstructor; [by intros [|]|by apply (RecordArrives _ _ demo_signalled (event_to_bytes demo_drop))|constructor].
Defined.
