(* ===== verification/Packet.v ===== *)
(** * Packet builders of the traffic tools ([scripts/common/src/packet.rs])

    [PacketBuffer], the RFC 1071 checksum, and the functions that write IPv4
    packets into a caller's buffer. A buffer is a list of bytes; every store and
    [copy_from_slice] is bounds-checked and panics ([Fault]) as the slice code
    does. Additions on [u32] wrap as in a release build. *)
From stdpp Require Import base numbers list gmap fin_maps strings sorting.
From Stdlib Require Import ZArith Lia.
From S2P Require Import Prelude Net Common Wire.

Local Open Scope Z_scope.

Definition IPPROTO_ICMP : Z := 1.
Definition IPPROTO_TCP : Z := 6.
Definition IPPROTO_UDP : Z := 17.
Definition IPPROTO_TEST_OTHER : Z := 253.
Definition IPV4_HEADER_LEN : Z := 20.
Definition TCP_HEADER_LEN : Z := 20.
Definition UDP_HEADER_LEN : Z := 8.
Definition ICMP_HEADER_LEN : Z := 8.

(** ** [PacketBuffer] *)
Record PacketBuffer : Type := mkPacketBuffer { pb_data : list Z; pb_len : Z }.

Definition new_buffer : PacketBuffer := mkPacketBuffer (replicate 1500 0) 0.
(** [&self.data[..self.len]]. *)
Definition as_slice (b : PacketBuffer) : outcome unit (list Z) := read_at (pb_data b) 0 (pb_len b).
Definition is_empty (b : PacketBuffer) : bool := pb_len b =? 0.
(** [buffer_mut]: the callee's version of the bytes replaces them. *)
Definition buffer_mut (b : PacketBuffer) (data : list Z) : PacketBuffer :=
  mkPacketBuffer data (pb_len b).
Definition set_len (b : PacketBuffer) (n : Z) : PacketBuffer := mkPacketBuffer (pb_data b) n.

(** ** Stores into a slice *)

(** [buf[lo..hi].copy_from_slice(src)]: the range must lie in the buffer and have
    the length of the source. *)
Definition copy_from_slice (buf : list Z) (lo hi : Z) (src : list Z) : outcome unit (list Z) :=
  if (0 <=? lo) && (lo <=? hi) && (hi <=? len buf) && (hi - lo =? len src)
  then Ok (take (Z.to_nat lo) buf ++ src ++ drop (Z.to_nat hi) buf) else Fault.
(** [buf[i] = v]. *)
Definition store (buf : list Z) (i v : Z) : outcome unit (list Z) :=
  copy_from_slice buf i (i + 1) [v].

(** ** The Internet checksum *)

(** Both the [chunks_exact(2)] loop and the zero-padded remainder. *)
Fixpoint sum_words (sum : Z) (data : list Z) : Z :=
  match data with
  | [] => sum
  | [a] => wrap_u32 (sum + from_be_bytes [a; 0])
  | a :: b :: rest => sum_words (wrap_u32 (sum + from_be_bytes [a; b])) rest
  end.

(** [while (sum >> 16) > 0 { sum = (sum & 0xffff) + (sum >> 16); }]. *)
Fixpoint fold_carry (fuel : nat) (sum : Z) : outcome unit Z :=
  match fuel with
  | O => Fault
  | S fuel' =>
      if 0 <? Z.shiftr sum 16
      then fold_carry fuel' (Z.land sum 0xffff + Z.shiftr sum 16) else Ok sum
  end.
Definition CARRY_ROUNDS : nat := 3.

(** [!(sum as u16)]. *)
Definition not_u16 (sum : Z) : Z := 0xffff - wrap_u16 sum.

Definition internet_checksum (data : list Z) : outcome unit Z :=
  sum ← fold_carry CARRY_ROUNDS (sum_words 0 data);
  mret (not_u16 sum).

(** The addresses are arrays of four bytes: the indices are in range. *)
Definition pseudo_header_sum (src dst : list Z) (proto l4_len : Z) : Z :=
  let sum := wrap_u32 (0 + from_be_bytes (slice src 0 2)) in
  let sum := wrap_u32 (sum + from_be_bytes (slice src 2 2)) in
  let sum := wrap_u32 (sum + from_be_bytes (slice dst 0 2)) in
  let sum := wrap_u32 (sum + from_be_bytes (slice dst 2 2)) in
  let sum := wrap_u32 (sum + proto) in
  wrap_u32 (sum + l4_len).

Definition l4_checksum (src dst : list Z) (proto : Z) (l4_data : list Z) : outcome unit Z :=
  let sum := pseudo_header_sum src dst proto (wrap_u16 (len l4_data)) in
  sum ← fold_carry CARRY_ROUNDS (sum_words sum l4_data);
  let res := not_u16 sum in
  mret (if (res =? 0) && (proto =? IPPROTO_UDP) then 0xffff else res).

(** ** Builders: the number of bytes written and the buffer. *)
Definition write_ipv4_header (buf src_ip dst_ip : list Z) (proto identification payload_len : Z)
    : outcome unit (Z * list Z) :=
  let total_len := wrap_u16 (IPV4_HEADER_LEN + payload_len) in
  buf ← store buf 0 0x45;
  buf ← store buf 1 0x00;
  buf ← copy_from_slice buf 2 4 (to_be_bytes 2 total_len);
  buf ← copy_from_slice buf 4 6 (to_be_bytes 2 identification);
  buf ← copy_from_slice buf 6 8 (to_be_bytes 2 0x4000);
  buf ← store buf 8 64;
  buf ← store buf 9 proto;
  buf ← copy_from_slice buf 10 12 [0; 0];
  buf ← copy_from_slice buf 12 16 src_ip;
  buf ← copy_from_slice buf 16 20 dst_ip;
  header ← read_at buf 0 IPV4_HEADER_LEN;
  csum ← internet_checksum header;
  buf ← copy_from_slice buf 10 12 (to_be_bytes 2 csum);
  mret (IPV4_HEADER_LEN, buf).

(** [assert!(buf.len() >= total_len)]. *)
Definition assert_fits (buf : list Z) (total_len : Z) : outcome unit () :=
  if total_len <=? len buf then Ok () else Fault.
(** [if !payload.is_empty() { buf[lo..hi].copy_from_slice(payload) }]. *)
Definition copy_payload (buf : list Z) (lo hi : Z) (payload : list Z) : outcome unit (list Z) :=
  if len payload =? 0 then Ok buf else copy_from_slice buf lo hi payload.

Definition build_ipv4_tcp_syn (buf src_ip dst_ip : list Z) (src_port dst_port seq id : Z)
    (payload : list Z) : outcome unit (Z * list Z) :=
  let l4_len := TCP_HEADER_LEN + len payload in
  let total_len := IPV4_HEADER_LEN + l4_len in
  _ ← assert_fits buf total_len;
  let tcp_start := IPV4_HEADER_LEN in
  buf ← copy_from_slice buf tcp_start (tcp_start + 2) (to_be_bytes 2 src_port);
  buf ← copy_from_slice buf (tcp_start + 2) (tcp_start + 4) (to_be_bytes 2 dst_port);
  buf ← copy_from_slice buf (tcp_start + 4) (tcp_start + 8) (to_be_bytes 4 seq);
  buf ← copy_from_slice buf (tcp_start + 8) (tcp_start + 12) (to_be_bytes 4 0);
  buf ← store buf (tcp_start + 12) 0x50;
  buf ← store buf (tcp_start + 13) 0x02;
  buf ← copy_from_slice buf (tcp_start + 14) (tcp_start + 16) (to_be_bytes 2 64240);
  buf ← copy_from_slice buf (tcp_start + 16) (tcp_start + 18) [0; 0];
  buf ← copy_from_slice buf (tcp_start + 18) (tcp_start + 20) [0; 0];
  buf ← copy_payload buf (tcp_start + 20) total_len payload;
  segment ← read_at buf tcp_start (total_len - tcp_start);
  csum ← l4_checksum src_ip dst_ip IPPROTO_TCP segment;
  buf ← copy_from_slice buf (tcp_start + 16) (tcp_start + 18) (to_be_bytes 2 csum);
  '(_, buf) ← write_ipv4_header buf src_ip dst_ip IPPROTO_TCP id l4_len;
  mret (total_len, buf).

Definition build_ipv4_udp (buf src_ip dst_ip : list Z) (src_port dst_port id : Z)
    (payload : list Z) : outcome unit (Z * list Z) :=
  let udp_len := wrap_u16 (UDP_HEADER_LEN + len payload) in
  let total_len := IPV4_HEADER_LEN + udp_len in
  _ ← assert_fits buf total_len;
  let udp_start := IPV4_HEADER_LEN in
  buf ← copy_from_slice buf udp_start (udp_start + 2) (to_be_bytes 2 src_port);
  buf ← copy_from_slice buf (udp_start + 2) (udp_start + 4) (to_be_bytes 2 dst_port);
  buf ← copy_from_slice buf (udp_start + 4) (udp_start + 6) (to_be_bytes 2 udp_len);
  buf ← copy_from_slice buf (udp_start + 6) (udp_start + 8) [0; 0];
  buf ← copy_payload buf (udp_start + 8) total_len payload;
  segment ← read_at buf udp_start (total_len - udp_start);
  csum ← l4_checksum src_ip dst_ip IPPROTO_UDP segment;
  buf ← copy_from_slice buf (udp_start + 6) (udp_start + 8) (to_be_bytes 2 csum);
  '(_, buf) ← write_ipv4_header buf src_ip dst_ip IPPROTO_UDP id udp_len;
  mret (total_len, buf).

Definition build_ipv4_icmp_echo (buf src_ip dst_ip : list Z) (ident seq id : Z)
    (payload : list Z) : outcome unit (Z * list Z) :=
  let icmp_len := ICMP_HEADER_LEN + len payload in
  let total_len := IPV4_HEADER_LEN + icmp_len in
  _ ← assert_fits buf total_len;
  let icmp_start := IPV4_HEADER_LEN in
  buf ← store buf icmp_start 8;
  buf ← store buf (icmp_start + 1) 0;
  buf ← copy_from_slice buf (icmp_start + 2) (icmp_start + 4) [0; 0];
  buf ← copy_from_slice buf (icmp_start + 4) (icmp_start + 6) (to_be_bytes 2 ident);
  buf ← copy_from_slice buf (icmp_start + 6) (icmp_start + 8) (to_be_bytes 2 seq);
  buf ← copy_payload buf (icmp_start + 8) total_len payload;
  segment ← read_at buf icmp_start (total_len - icmp_start);
  csum ← internet_checksum segment;
  buf ← copy_from_slice buf (icmp_start + 2) (icmp_start + 4) (to_be_bytes 2 csum);
  '(_, buf) ← write_ipv4_header buf src_ip dst_ip IPPROTO_ICMP id icmp_len;
  mret (total_len, buf).

Definition build_ipv4_other (buf src_ip dst_ip : list Z) (proto id : Z) (payload : list Z)
    : outcome unit (Z * list Z) :=
  let total_len := IPV4_HEADER_LEN + len payload in
  _ ← assert_fits buf total_len;
  buf ← copy_payload buf IPV4_HEADER_LEN total_len payload;
  '(_, buf) ← write_ipv4_header buf src_ip dst_ip proto id (len payload);
  mret (total_len, buf).

(** The values the repository's unit tests pin down. *)
Example checksum_odd : internet_checksum [0x12; 0x34; 0x56] = Ok 0x97cb.
Proof. reflexivity. Qed.
Example checksum_udp_zero :
  l4_checksum [0; 0; 0; 0] [0; 0; 0; 0] IPPROTO_UDP [0xff; 0xec] = Ok 0xffff.
Proof. reflexivity. Qed.
Example checksum_tcp_small :
  l4_checksum [0; 0; 0; 0] [0; 0; 0; 0] IPPROTO_TCP [0xff; 0xec] = Ok 0x000b.
Proof. reflexivity. Qed.

(** ** RFC 1071, as a receiver states it *)

(** The sum of the big-endian 16-bit words, an odd byte padded with zero. *)
Fixpoint word_sum (data : list Z) : Z :=
  match data with
  | [] => 0
  | [a] => 256 * a
  | a :: b :: rest => 256 * a + b + word_sum rest
  end.

(** The one's complement sum is [0xffff], negative zero. *)
Definition rfc1071_valid (data : list Z) : Prop := 0 < word_sum data ∧ word_sum data mod 0xffff = 0.
#[global] Instance rfc1071_valid_dec data : Decision (rfc1071_valid data).
Proof. unfold rfc1071_valid. apply _. Defined.

(** The pseudo header of RFC 768 and RFC 793. *)
Definition pseudo_header (src dst : list Z) (proto l4_len : Z) : list Z :=
  src ++ dst ++ [0; proto] ++ to_be_bytes 2 l4_len.

Lemma pair_ind {A} (P : list A → Prop) :
  P [] → (∀ a, P [a]) → (∀ a b l, P l → P (a :: b :: l)) → ∀ l, P l.
Proof.
  intros H0 H1 H2. fix IH 1. intros [|a [|b l]]; [done|apply H1|apply H2, IH].
Qed.

Lemma word_sum_bound data :
  Forall byte_ok data → 0 <= 2 * word_sum data <= 0xffff * (len data + 1).
Proof.
  unfold len, byte_ok. induction data as [|a|a b l IH] using pair_ind; intros Hb;
    repeat (apply Forall_cons in Hb as [? Hb]); simpl word_sum; simpl length; [lia..|].
  specialize (IH Hb). lia.
Qed.

Lemma sum_words_eq data : ∀ s,
  Forall byte_ok data → 0 <= s → s + word_sum data < 2 ^ 32 →
  sum_words s data = s + word_sum data.
Proof.
  unfold byte_ok. induction data as [|a|a b l IH] using pair_ind; intros s Hb Hs Hlt;
    [simpl; lia|..]; repeat (apply Forall_cons in Hb as [? Hb]); cbn [sum_words word_sum] in *.
  - replace (from_be_bytes [a; 0]) with (256 * a) by (unfold from_be_bytes; simpl; lia).
    apply wrap_small. lia.
  - pose proof (word_sum_bound l Hb).
    replace (from_be_bytes [a; b]) with (256 * a + b) by (unfold from_be_bytes; simpl; lia).
    rewrite wrap_small, IH by (done || lia). lia.
Qed.

Lemma word_sum_app l1 l2 :
  Nat.even (length l1) = true → word_sum (l1 ++ l2) = word_sum l1 + word_sum l2.
Proof.
  induction l1 as [|a|a b l IH] using pair_ind; simpl; intros He; [done..|].
  rewrite IH by done. lia.
Qed.

Lemma word_sum_be2 c : in_width 16 c → word_sum (to_be_bytes 2 c) = c.
Proof.
  intros Hc. destruct (be2_split c Hc) as (a & b & -> & <-).
  unfold from_be_bytes. simpl. lia.
Qed.

(** A checksum field at an even offset contributes its value. *)
Lemma word_sum_field front c back :
  Nat.even (length front) = true → in_width 16 c →
  word_sum (front ++ to_be_bytes 2 c ++ back) = word_sum (front ++ [0; 0] ++ back) + c.
Proof.
  intros He Hc. rewrite !word_sum_app, word_sum_be2 by (done || apply length_to_be_bytes).
  simpl. lia.
Qed.

(** Three rounds end the carry loop on every [u32]; the value is the sum modulo
    [0xffff], in the representative that is zero only for a zero sum. *)
Lemma fold_carry_spec s :
  in_width 32 s →
  ∃ r, fold_carry CARRY_ROUNDS s = Ok r ∧ in_width 16 r ∧ r mod 0xffff = s mod 0xffff ∧
       (0 < s ↔ 0 < r).
Proof.
  assert (Hstep : ∀ z, 0 <= z → Z.land z 0xffff + Z.shiftr z 16 = z mod 65536 + z / 65536 ∧
    Z.shiftr z 16 = z / 65536 ∧ z = 65536 * (z / 65536) + z mod 65536 ∧
    0 <= z mod 65536 < 65536 ∧ 0 <= z / 65536).
  { intros z Hz. change 0xffff with (Z.ones 16). rewrite Z.land_ones, Z.shiftr_div_pow2 by lia.
    change (2 ^ 16) with 65536. pose proof (Z.div_mod z 65536).
    pose proof (Z.mod_pos_bound z 65536). pose proof (Z.div_pos z 65536). lia. }
  assert (Hmod : ∀ z, 0 <= z → (z mod 65536 + z / 65536) mod 0xffff = z mod 0xffff).
  { intros z Hz. destruct (Hstep z Hz) as (_ & _ & Hd & _).
    rewrite Hd at 3. replace (65536 * (z / 65536) + z mod 65536)
      with (z mod 65536 + z / 65536 + (z / 65536) * 0xffff) by lia.
    by rewrite Z.mod_add. }
  unfold in_width. intros Hs. change (2 ^ 32) with 4294967296 in Hs. change (2 ^ 16) with 65536.
  cbn [fold_carry CARRY_ROUNDS].
  destruct (Hstep s) as (E1 & S1 & D1 & M1 & Q1); [lia|]. rewrite E1, S1.
  destruct (Z.ltb_spec 0 (s / 65536)); [|eexists; split_and!; [done|lia..]].
  pose proof (Hmod s ltac:(lia)) as C1. set (s1 := s mod 65536 + s / 65536) in *.
  destruct (Hstep s1) as (E2 & S2 & D2 & M2 & Q2); [lia|]. rewrite E2, S2.
  destruct (Z.ltb_spec 0 (s1 / 65536)); [|eexists; split_and!; [done|lia..]].
  pose proof (Hmod s1 ltac:(lia)) as C2. set (s2 := s1 mod 65536 + s1 / 65536) in *.
  destruct (Hstep s2) as (E3 & S3 & D3 & M3 & Q3); [lia|]. rewrite S3.
  destruct (Z.ltb_spec 0 (s2 / 65536)); [lia|]. eexists; split_and!; [done|lia..].
Qed.

(** The complement of the folded sum makes the total a positive multiple of
    [0xffff]. *)
Lemma complement_completes s r :
  0 <= s → in_width 16 r → r mod 0xffff = s mod 0xffff → (0 < s ↔ 0 < r) →
  in_width 16 (not_u16 r) ∧ 0 < s + not_u16 r ∧ (s + not_u16 r) mod 0xffff = 0.
Proof.
  intros Hs Hr Hm Hp. unfold not_u16. rewrite wrap_small by apply Hr.
  unfold in_width in *. change (2 ^ 16) with 65536 in *. split_and!; [lia..| |].
  - lia.
  - replace (s + (0xffff - r)) with (s - r + 1 * 0xffff) by lia.
    rewrite Z.mod_add, Zminus_mod, Hm, Z.sub_diag by lia. done.
Qed.

Lemma internet_checksum_spec data :
  Forall byte_ok data → len data < 2 ^ 16 →
  ∃ c, internet_checksum data = Ok c ∧ in_width 16 c ∧
       0 < word_sum data + c ∧ (word_sum data + c) mod 0xffff = 0.
Proof.
  intros Hb Hl. pose proof (word_sum_bound data Hb). pose proof (len_nonneg data).
  unfold internet_checksum. rewrite sum_words_eq by (done || lia).
  destruct (fold_carry_spec (0 + word_sum data)) as (r & -> & Hr & Hm & Hp); [unfold in_width; lia|].
  osimpl. eexists; split; [done|]. apply complement_completes; (done || lia).
Qed.

Lemma pseudo_header_sum_eq src dst proto n :
  bytes_ok 4 src → bytes_ok 4 dst → byte_ok proto → in_width 16 n →
  pseudo_header_sum src dst proto n = word_sum (pseudo_header src dst proto n) ∧
  0 <= word_sum (pseudo_header src dst proto n) < 2 ^ 20.
Proof.
  intros [Hs Bs] [Hd Bd] Hp Hn. destruct (be2_split n Hn) as (a & b & E & F).
  pose proof (to_be_bytes_ok 2 n) as [_ Bn]. unfold pseudo_header. rewrite E in *.
  destruct src as [|s0 [|s1 [|s2 [|s3 []]]]]; try discriminate.
  destruct dst as [|d0 [|d1 [|d2 [|d3 []]]]]; try discriminate.
  repeat match goal with H : Forall _ (_ :: _) |- _ => apply Forall_cons in H as [? H] end.
  unfold byte_ok, pseudo_header_sum, slice in *. simpl. unfold from_be_bytes in *. simpl in *.
  repeat match goal with |- context [wrap 32 ?x] =>
    lazymatch x with context [wrap] => fail | _ => rewrite (wrap_small 32 x) by lia end end.
  lia.
Qed.

Lemma pseudo_header_even src dst proto n :
  bytes_ok 4 src → bytes_ok 4 dst → Nat.even (length (pseudo_header src dst proto n)) = true.
Proof.
  intros [Hs _] [Hd _]. unfold pseudo_header. rewrite !length_app, length_to_be_bytes, Hs, Hd. done.
Qed.

(** For TCP and UDP alike: the checksum completes pseudo header and segment; a
    UDP checksum is never zero. *)
Lemma l4_checksum_spec src dst proto seg :
  bytes_ok 4 src → bytes_ok 4 dst → byte_ok proto → Forall byte_ok seg → len seg < 2 ^ 16 →
  let total := word_sum (pseudo_header src dst proto (len seg) ++ seg) in
  ∃ c, l4_checksum src dst proto seg = Ok c ∧ in_width 16 c ∧
       0 < total + c ∧ (total + c) mod 0xffff = 0 ∧ (proto = IPPROTO_UDP → c ≠ 0).
Proof.
  intros Hs Hd Hp Hb Hl total. pose proof (word_sum_bound seg Hb). pose proof (len_nonneg seg).
  destruct (pseudo_header_sum_eq src dst proto (len seg)) as [Eq Hbd]; [done..|unfold in_width; lia|].
  assert (total = pseudo_header_sum src dst proto (len seg) + word_sum seg) as Ht.
  { unfold total. by rewrite word_sum_app, Eq by by apply pseudo_header_even. }
  unfold l4_checksum. rewrite wrap_small by lia.
  rewrite sum_words_eq by (done || lia). rewrite <-Ht.
  destruct (fold_carry_spec total) as (r & -> & Hr & Hm & Hpos); [unfold in_width; lia|].
  osimpl. destruct (complement_completes total r) as (Hw & Hgt & Hz); [lia|done..|].
  eexists; split; [done|].
  destruct (Z.eqb_spec (not_u16 r) 0) as [E0|], (Z.eqb_spec proto IPPROTO_UDP); cbn [andb].
  2-4: split_and!; (done || congruence).
  split_and!; [done|lia| |lia]. rewrite E0, Z.add_0_r in Hz.
  replace (total + 0xffff) with (total + 1 * 0xffff) by lia. by rewrite Z.mod_add.
Qed.

(** ** Stores that follow each other *)

Lemma copy_mid a old b lo hi src :
  lo = len a → hi = lo + len src → length old = length src →
  copy_from_slice (a ++ old ++ b) lo hi src = Ok (a ++ src ++ b).
Proof.
  intros -> -> Hl. unfold copy_from_slice, len in *. rewrite !length_app.
  destruct (Z.leb_spec 0 (Z.of_nat (length a))); [|lia].
  destruct (Z.leb_spec (Z.of_nat (length a)) (Z.of_nat (length a) + Z.of_nat (length src))); [|lia].
  case_Z. osimpl.
  rewrite Nat2Z.id, take_app_length. do 3 f_equal. rewrite app_assoc.
  apply drop_app_length'. rewrite length_app. lia.
Qed.

(** Writing right behind what was written before. *)
Lemma copy_next done rest lo hi src :
  lo = len done → hi = lo + len src → (length src <= length rest)%nat →
  copy_from_slice (done ++ rest) lo hi src = Ok ((done ++ src) ++ drop (length src) rest).
Proof.
  intros Hlo Hhi Hl. rewrite <-(take_drop (length src) rest) at 1.
  rewrite (copy_mid done _ _ lo hi src), <-app_assoc by (done || rewrite length_take; lia). done.
Qed.

Lemma store_next done rest i v :
  i = len done → (0 < length rest)%nat →
  store (done ++ rest) i v = Ok ((done ++ [v]) ++ drop 1 rest).
Proof. intros. unfold store. rewrite copy_next; [done..|simpl; lia]. Qed.

Lemma read_prefix (a b : list Z) n : n = len a → read_at (E := unit) (a ++ b) 0 n = Ok a.
Proof. intros ->. by apply (read_at_app_mid []). Qed.

(** Lengths and positions of buffers built by appending. *)
Ltac lens :=
  unfold len; repeat rewrite ?length_app, ?length_drop, ?length_to_be_bytes; simpl length; lia.

(** Runs a block of adjacent stores. *)
Ltac copies :=
  repeat first [ rewrite copy_next by lens; osimpl | rewrite store_next by lens; osimpl ].

(** The IPv4 header the builders write, with checksum field [csum]. *)
Definition ipv4_front (proto id total_len : Z) : list Z :=
  [0x45; 0x00] ++ to_be_bytes 2 total_len ++ to_be_bytes 2 id ++ to_be_bytes 2 0x4000 ++
  [64; proto].
Definition ipv4_header (src dst : list Z) (proto id total_len csum : Z) : list Z :=
  ipv4_front proto id total_len ++ to_be_bytes 2 csum ++ src ++ dst.

Lemma ipv4_header_length src dst proto id total csum :
  bytes_ok 4 src → bytes_ok 4 dst → length (ipv4_header src dst proto id total csum) = 20%nat.
Proof.
  intros [Hs _] [Hd _]. unfold ipv4_header, ipv4_front.
  rewrite !length_app, !length_to_be_bytes, Hs, Hd. done.
Qed.

Lemma ipv4_header_bytes src dst proto id total csum :
  bytes_ok 4 src → bytes_ok 4 dst → byte_ok proto →
  Forall byte_ok (ipv4_header src dst proto id total csum).
Proof.
  intros [_ Hs] [_ Hd] Hp. unfold ipv4_header, ipv4_front.
  rewrite !Forall_app, !Forall_cons, Forall_nil.
  split_and!; try apply to_be_bytes_ok; (done || unfold byte_ok in *; lia).
Qed.

Lemma write_ipv4_header_spec old seg rest src dst proto id :
  bytes_ok 4 src → bytes_ok 4 dst → byte_ok proto → length old = 20%nat → len seg < 2 ^ 16 - 20 →
  ∃ c, in_width 16 c ∧
    let header := ipv4_header src dst proto id (20 + len seg) c in
    write_ipv4_header (old ++ seg ++ rest) src dst proto id (len seg)
      = Ok (IPV4_HEADER_LEN, header ++ seg ++ rest) ∧ rfc1071_valid header.
Proof.
  intros Hs Hd Hp Hold Hseg. pose proof (len_nonneg seg).
  pose proof (ipv4_header_bytes src dst proto id (20 + len seg) 0 Hs Hd Hp) as Hb.
  pose proof (f_equal Z.of_nat (ipv4_header_length src dst proto id (20 + len seg) 0 Hs Hd)) as Hl.
  destruct (internet_checksum_spec _ Hb) as (c & Hc & Hw & Hpos & Hmod); [unfold len at 1; lia|].
  exists c. split; [done|]. intros header.
  assert (Hfield : word_sum header
    = word_sum (ipv4_header src dst proto id (20 + len seg) 0) + c).
  { unfold header, ipv4_header. rewrite !(word_sum_field _ _ (src ++ dst)) by done. lia. }
  split; [|unfold rfc1071_valid; by rewrite Hfield].
  unfold write_ipv4_header, IPV4_HEADER_LEN. rewrite wrap_small by lia.
  destruct Hs as [Hs _], Hd as [Hd _].
  change (old ++ seg ++ rest) with ([] ++ old ++ seg ++ rest). copies.
  rewrite !drop_drop, (drop_app_length' old) by lens.
  match goal with |- mbind _ (read_at ?b 0 20) = _ =>
    replace b with (ipv4_header src dst proto id (20 + len seg) 0 ++ seg ++ rest)
      by (unfold ipv4_header, ipv4_front; by rewrite <-!app_assoc) end.
  rewrite (read_prefix _ (seg ++ rest)) by (unfold len at 1; lia). osimpl. rewrite Hc. osimpl.
  unfold header, ipv4_header. rewrite <-!app_assoc.
  by rewrite (copy_mid _ (to_be_bytes 2 0)) by (done || apply length_to_be_bytes).
Qed.

Lemma copy_payload_next done rest lo hi payload :
  lo = len done → hi = lo + len payload → (length payload <= length rest)%nat →
  copy_payload (done ++ rest) lo hi payload
  = Ok ((done ++ payload) ++ drop (length payload) rest).
Proof.
  intros. unfold copy_payload. destruct (Z.eqb_spec (len payload) 0) as [E|].
  - destruct payload; [|unfold len in E; simpl in E; lia]. by rewrite app_nil_r.
  - by apply copy_next.
Qed.

(** ** The four kinds of packet *)

Inductive Probe : Type :=
| TcpSyn (src_port dst_port seq : Z)
| UdpDatagram (src_port dst_port : Z)
| IcmpEcho (ident seq : Z)
| OtherProto (proto : Z).

Definition probe_ok (p : Probe) : Prop :=
  match p with
  | TcpSyn sp dp seq => in_width 16 sp ∧ in_width 16 dp ∧ in_width 32 seq
  | UdpDatagram sp dp => in_width 16 sp ∧ in_width 16 dp
  | IcmpEcho ident seq => in_width 16 ident ∧ in_width 16 seq
  | OtherProto proto => byte_ok proto
  end.
#[global] Instance probe_ok_dec p : Decision (probe_ok p).
Proof. destruct p; apply _. Defined.

Definition probe_proto (p : Probe) : Z :=
  match p with
  | TcpSyn _ _ _ => IPPROTO_TCP
  | UdpDatagram _ _ => IPPROTO_UDP
  | IcmpEcho _ _ => IPPROTO_ICMP
  | OtherProto proto => proto
  end.

(** The builder of each kind. *)
Definition build (p : Probe) (buf src dst : list Z) (id : Z) (payload : list Z)
    : outcome unit (Z * list Z) :=
  match p with
  | TcpSyn sp dp seq => build_ipv4_tcp_syn buf src dst sp dp seq id payload
  | UdpDatagram sp dp => build_ipv4_udp buf src dst sp dp id payload
  | IcmpEcho ident seq => build_ipv4_icmp_echo buf src dst ident seq id payload
  | OtherProto proto => build_ipv4_other buf src dst proto id payload
  end.

(** The layer-4 segment before, and after, the checksum field. *)
Definition seg_front (p : Probe) (payload : list Z) : list Z :=
  match p with
  | TcpSyn sp dp seq =>
      to_be_bytes 2 sp ++ to_be_bytes 2 dp ++ to_be_bytes 4 seq ++ to_be_bytes 4 0 ++
      [0x50; 0x02] ++ to_be_bytes 2 64240
  | UdpDatagram sp dp =>
      to_be_bytes 2 sp ++ to_be_bytes 2 dp ++ to_be_bytes 2 (8 + len payload)
  | IcmpEcho _ _ => [8; 0]
  | OtherProto _ => []
  end.
Definition seg_back (p : Probe) (payload : list Z) : list Z :=
  match p with
  | TcpSyn _ _ _ => [0; 0] ++ payload
  | IcmpEcho ident seq => to_be_bytes 2 ident ++ to_be_bytes 2 seq ++ payload
  | _ => payload
  end.
Definition segment (p : Probe) (payload : list Z) (csum : Z) : list Z :=
  match p with
  | OtherProto _ => payload
  | _ => seg_front p payload ++ to_be_bytes 2 csum ++ seg_back p payload
  end.
Definition packet (p : Probe) (src dst : list Z) (id : Z) (payload : list Z) (hc c : Z) : list Z :=
  ipv4_header src dst (probe_proto p) id (20 + len (segment p payload c)) hc ++
  segment p payload c.

(** The receiver's check of the segment. *)
Definition l4_valid (p : Probe) (src dst seg : list Z) : Prop :=
  match p with
  | TcpSyn _ _ _ => rfc1071_valid (pseudo_header src dst IPPROTO_TCP (len seg) ++ seg)
  | UdpDatagram _ _ => rfc1071_valid (pseudo_header src dst IPPROTO_UDP (len seg) ++ seg)
  | IcmpEcho _ _ => rfc1071_valid seg
  | OtherProto _ => True
  end.

Definition probe_header (p : Probe) : Z :=
  match p with TcpSyn _ _ _ => 20 | UdpDatagram _ _ | IcmpEcho _ _ => 8 | OtherProto _ => 0 end.

Lemma segment_len p payload c : len (segment p payload c) = probe_header p + len payload.
Proof. destruct p; unfold segment, seg_front, seg_back, probe_header; lens. Qed.

Lemma segment_bytes p payload c :
  Forall byte_ok payload → Forall byte_ok (segment p payload c).
Proof.
  intros Hp. destruct p; unfold segment, seg_front, seg_back;
    rewrite ?Forall_app, ?Forall_cons, ?Forall_nil; split_and?;
    try apply to_be_bytes_ok; (done || unfold byte_ok; lia).
Qed.

Lemma segment_field p payload c pre :
  Nat.even (length pre) = true → in_width 16 c →
  (∀ proto, p ≠ OtherProto proto) →
  word_sum (pre ++ segment p payload c) = word_sum (pre ++ segment p payload 0) + c.
Proof.
  intros He Hc Hp.
  assert (∀ front back, Nat.even (length front) = true →
    word_sum (pre ++ front ++ to_be_bytes 2 c ++ back) =
    word_sum (pre ++ front ++ to_be_bytes 2 0 ++ back) + c) as Hf.
  { intros front back Hev. rewrite !(word_sum_app pre), !(word_sum_field front) by done. lia. }
  destruct p; try (apply Hf; unfold seg_front; by rewrite ?length_app, ?length_to_be_bytes).
  by destruct (Hp proto).
Qed.

(** The checksum field, once the segment is in place. *)
Lemma patch_segment p old payload rest c lo hi :
  length old = 20%nat → lo = 20 + len (seg_front p payload) → hi = lo + 2 →
  (∀ proto, p ≠ OtherProto proto) →
  copy_from_slice (old ++ segment p payload 0 ++ rest) lo hi (to_be_bytes 2 c)
  = Ok (old ++ segment p payload c ++ rest).
Proof.
  intros Hold -> -> Hp.
  assert (∀ z, old ++ segment p payload z ++ rest =
    (old ++ seg_front p payload) ++ to_be_bytes 2 z ++ seg_back p payload ++ rest) as Hz.
  { intros z. destruct p; try (unfold segment; by rewrite <-!app_assoc). by destruct (Hp proto). }
  rewrite !Hz. apply copy_mid; [lens|lens|by rewrite !length_to_be_bytes].
Qed.

(** What a builder leaves behind: the packet, then the rest of the buffer. *)
Definition built (p : Probe) (buf src dst : list Z) (id : Z) (payload : list Z) : Prop :=
  ∃ hc c, in_width 16 hc ∧ in_width 16 c ∧
    let seg := segment p payload c in
    build p buf src dst id payload
      = Ok (20 + len seg, packet p src dst id payload hc c ++ drop (Z.to_nat (20 + len seg)) buf) ∧
    rfc1071_valid (ipv4_header src dst (probe_proto p) id (20 + len seg) hc) ∧
    l4_valid p src dst seg ∧ (probe_proto p = IPPROTO_UDP → (∀ q, p ≠ OtherProto q) → c ≠ 0).

(** The packet fits the buffer and the 16-bit length field. *)
Definition fits (p : Probe) (buf payload : list Z) : Prop :=
  20 + probe_header p + len payload <= len buf ∧ 20 + probe_header p + len payload < 2 ^ 16.
#[global] Instance fits_dec p buf payload : Decision (fits p buf payload).
Proof. unfold fits. apply _. Defined.

Lemma fits_split p buf payload :
  fits p buf payload →
  ∃ old tail, buf = old ++ tail ∧ length old = 20%nat ∧
    Z.of_nat (length payload) + probe_header p <= Z.of_nat (length tail) ∧
    20 + probe_header p + Z.of_nat (length payload) < 2 ^ 16.
Proof.
  intros [Hb H16]. exists (take 20 buf), (drop 20 buf). rewrite take_drop, length_take, length_drop.
  unfold len in *. assert (0 <= probe_header p) by (by destruct p). split_and!; [done|lia..].
Qed.

Lemma assert_fits_ok buf n : n <= len buf → assert_fits buf n = Ok ().
Proof. intros. unfold assert_fits. by case_Z. Qed.

Section Builders.
Context (src dst payload : list Z) (id : Z).
Hypotheses (Hsrc : bytes_ok 4 src) (Hdst : bytes_ok 4 dst) (Hpayload : Forall byte_ok payload).

(** The header goes in front of a completed segment. *)
Lemma seal_packet p c old rest n :
  20 + probe_header p + len payload < 2 ^ 16 → probe_ok p → length old = 20%nat →
  n = len (segment p payload c) →
  ∃ hc, in_width 16 hc ∧
    write_ipv4_header (old ++ segment p payload c ++ rest) src dst (probe_proto p) id n
      = Ok (IPV4_HEADER_LEN, packet p src dst id payload hc c ++ rest) ∧
    rfc1071_valid (ipv4_header src dst (probe_proto p) id (20 + len (segment p payload c)) hc).
Proof.
  intros Hfit Hp Hold ->.
  destruct (write_ipv4_header_spec old (segment p payload c) rest src dst (probe_proto p) id)
    as (hc & Hw & E & V); [done..| |done|rewrite segment_len; lia|].
  { destruct p; (done || by_decide). }
  exists hc. split_and!; [apply Hw..| |done]. rewrite E. unfold packet. by rewrite <-app_assoc.
Qed.

(** A checksum function that completes the segment. *)
Definition completes (p : Probe) (checksum : list Z → outcome unit Z) : Prop :=
  ∃ c, checksum (segment p payload 0) = Ok c ∧ in_width 16 c ∧
    l4_valid p src dst (segment p payload c) ∧ (probe_proto p = IPPROTO_UDP → c ≠ 0).

Lemma l4_completes p :
  match p with TcpSyn _ _ _ | UdpDatagram _ _ => True | _ => False end →
  20 + probe_header p + len payload < 2 ^ 16 → probe_ok p →
  completes p (l4_checksum src dst (probe_proto p)).
Proof.
  intros Hk H16 Hp. assert (0 <= probe_header p) by (by destruct p).
  destruct (l4_checksum_spec src dst (probe_proto p) (segment p payload 0))
    as (c & Hc & Hw & Hpos & Hmod & Hu); [done..| | |rewrite segment_len; lia|].
  { destruct p; (done || by_decide). }
  { by apply segment_bytes. }
  exists c. split_and!; [done|apply Hw..| |done].
  assert (rfc1071_valid (pseudo_header src dst (probe_proto p) (len (segment p payload c)) ++
            segment p payload c)); [|by destruct p].
  unfold rfc1071_valid. rewrite segment_field by (by apply pseudo_header_even || by destruct p).
  rewrite !segment_len in *. done.
Qed.

Lemma icmp_completes ident seq :
  28 + len payload < 2 ^ 16 → completes (IcmpEcho ident seq) internet_checksum.
Proof.
  intros H16. set (p := IcmpEcho ident seq).
  destruct (internet_checksum_spec (segment p payload 0)) as (c & Hc & Hw & Hpos & Hmod);
    [by apply segment_bytes|rewrite segment_len; cbn [probe_header p]; lia|].
  exists c. split_and!; [done|apply Hw..| |done]. 
  pose proof (segment_field p payload c []) as Hf.
  change (rfc1071_valid ([] ++ segment p payload c)). unfold rfc1071_valid. by rewrite Hf.
Qed.

(** The common end of the builders with a checksum: sum the segment, store the
    sum, write the header. *)
Lemma finish_build p old tail checksum lo hi n m total :
  (∀ q, p ≠ OtherProto q) → completes p checksum → length old = 20%nat →
  20 + probe_header p + len payload < 2 ^ 16 → probe_ok p →
  lo = 20 + len (seg_front p payload) → hi = lo + 2 →
  n = probe_header p + len payload → m = n → total = 20 + n →
  let rest := drop (Z.to_nat (len (segment p payload 0))) tail in
  ∃ hc c, in_width 16 hc ∧ in_width 16 c ∧
    let seg := segment p payload c in
    (s ← read_at (old ++ segment p payload 0 ++ rest) 20 m;
     csum ← checksum s;
     b ← copy_from_slice (old ++ segment p payload 0 ++ rest) lo hi (to_be_bytes 2 csum);
     '(_, b) ← write_ipv4_header b src dst (probe_proto p) id n;
     mret (total, b))
      = Ok (20 + len seg,
            packet p src dst id payload hc c ++ drop (Z.to_nat (20 + len seg)) (old ++ tail)) ∧
    rfc1071_valid (ipv4_header src dst (probe_proto p) id (20 + len seg) hc) ∧
    l4_valid p src dst seg ∧ (probe_proto p = IPPROTO_UDP → (∀ q, p ≠ OtherProto q) → c ≠ 0).
Proof.
  intros Hno (c & Hc & Hw & Hv & Hu) Hold H16 Hp -> -> -> -> -> rest.
  assert (Hn : ∀ z, len (segment p payload z) = probe_header p + len payload) by apply segment_len.
  pose proof (len_nonneg payload). assert (0 <= probe_header p) by (by destruct p).
  destruct (seal_packet p c old rest (probe_header p + len payload)) as (hc & Hhw & E & V);
    [done..|by rewrite Hn|].
  exists hc, c. do 2 (split; [done|]). intros seg. split; [|split_and!; auto].
  rewrite (read_at_app_mid old) by (rewrite ?Hold, <-?(Hn 0); done).
  osimpl. rewrite Hc. osimpl. rewrite patch_segment by done. osimpl. rewrite E. osimpl.
  unfold rest, seg. rewrite !Hn. do 3 f_equal. rewrite drop_app_ge by (rewrite Hold; lia).
  f_equal. lia.
Qed.

(** The buffer after the stores, read as the unsummed segment between the old
    first 20 bytes and the untouched rest. *)
Ltac segment_written p old tail :=
  match goal with |- context [read_at ?b 20 _] =>
    replace b with (old ++ segment p payload 0 ++ drop (Z.to_nat (len (segment p payload 0))) tail)
      by (rewrite segment_len, !drop_drop;
          match goal with |- _ = _ ++ drop ?n tail =>
            replace n with (Z.to_nat (probe_header p + len payload))
              by (cbn [probe_header p]; lens) end;
          unfold segment, seg_front, seg_back; cbn [p]; by rewrite <-!app_assoc)
  end.

Lemma build_tcp_spec buf sp dp seq :
  fits (TcpSyn sp dp seq) buf payload → probe_ok (TcpSyn sp dp seq) →
  built (TcpSyn sp dp seq) buf src dst id payload.
Proof.
  intros (old & tail & -> & Hold & Hbuf & H16)%fits_split Hp. set (p := TcpSyn sp dp seq) in *.
  cbn [probe_header p] in Hbuf, H16.
  unfold built. cbn [build p]. unfold build_ipv4_tcp_syn, IPV4_HEADER_LEN, TCP_HEADER_LEN.
  rewrite assert_fits_ok by lens. osimpl. copies. rewrite copy_payload_next by lens. osimpl.
  segment_written p old tail. apply (finish_build p); [done|by apply l4_completes|done|..];
    (done || cbn [probe_header p]; lens).
Qed.

Lemma build_udp_spec buf sp dp :
  fits (UdpDatagram sp dp) buf payload → probe_ok (UdpDatagram sp dp) →
  built (UdpDatagram sp dp) buf src dst id payload.
Proof.
  intros (old & tail & -> & Hold & Hbuf & H16)%fits_split Hp. set (p := UdpDatagram sp dp) in *.
  cbn [probe_header p] in Hbuf, H16.
  unfold built. cbn [build p]. unfold build_ipv4_udp, IPV4_HEADER_LEN, UDP_HEADER_LEN.
  rewrite wrap_small by lens.
  rewrite assert_fits_ok by lens. osimpl. copies. rewrite copy_payload_next by lens. osimpl.
  segment_written p old tail. apply (finish_build p); [done|by apply l4_completes|done|..];
    (done || cbn [probe_header p]; lens).
Qed.

Lemma build_icmp_spec buf ident seq :
  fits (IcmpEcho ident seq) buf payload → probe_ok (IcmpEcho ident seq) →
  built (IcmpEcho ident seq) buf src dst id payload.
Proof.
  intros (old & tail & -> & Hold & Hbuf & H16)%fits_split Hp. set (p := IcmpEcho ident seq) in *.
  cbn [probe_header p] in Hbuf, H16.
  unfold built. cbn [build p]. unfold build_ipv4_icmp_echo, IPV4_HEADER_LEN, ICMP_HEADER_LEN.
  rewrite assert_fits_ok by lens. osimpl. copies. rewrite copy_payload_next by lens. osimpl.
  segment_written p old tail. apply (finish_build p); [done|by apply icmp_completes|done|..];
    (done || cbn [probe_header p]; lens).
Qed.

Lemma build_other_spec buf proto :
  fits (OtherProto proto) buf payload → probe_ok (OtherProto proto) →
  built (OtherProto proto) buf src dst id payload.
Proof.
  intros (old & tail & -> & Hold & Hbuf & H16)%fits_split Hp. set (p := OtherProto proto) in *.
  cbn [probe_header p] in Hbuf, H16.
  unfold built. cbn [build p]. unfold build_ipv4_other, IPV4_HEADER_LEN.
  rewrite assert_fits_ok by lens. osimpl. rewrite copy_payload_next by lens. osimpl.
  rewrite <-app_assoc.
  destruct (seal_packet p 0 old (drop (length payload) tail) (len payload))
    as (hc & Hhw & E & V); [done..|].
  exists hc, 0. split; [done|]. split; [done|]. split; [|split; [done|]; split; [done|]].
  - change (old ++ payload ++ ?r) with (old ++ segment p payload 0 ++ r).
    cbn [probe_proto p] in E. rewrite E. osimpl. do 3 f_equal.
    cbn [segment p]. rewrite drop_app_ge by (rewrite Hold; unfold len; lia).
    f_equal. unfold len. lia.
  - intros _ Hno. by destruct (Hno proto).
Qed.
End Builders.

Lemma build_spec p buf src dst id payload :
  bytes_ok 4 src → bytes_ok 4 dst → Forall byte_ok payload → fits p buf payload → probe_ok p →
  built p buf src dst id payload.
Proof.
  intros Hs Hd Hp Hf Hk.
  destruct p; eauto using build_tcp_spec, build_udp_spec, build_icmp_spec, build_other_spec.
Qed.

(** ** Reading a built packet back *)

(** The header as the XDP side's structure, multi-byte fields as loaded. *)
Definition header_record (p : Probe) (src dst : list Z) (id total_len hc : Z) : Ipv4Header :=
  mkIp4 0x45 0 (from_be 2 total_len) (from_be 2 id) (from_be 2 0x4000) 64 (probe_proto p)
    (from_be 2 hc) src dst.

Lemma to_le_from_be n z : to_le_bytes n (from_be n z) = to_be_bytes n z.
Proof.
  pose proof (to_le_bytes_ok n z) as [Hl Hb]. unfold from_be, to_le_bytes at 1.
  rewrite <-Hl at 1. rewrite to_from_be_bytes by done. apply reverse_involutive.
Qed.

Lemma header_record_bytes p src dst id total hc :
  Ipv4Header_bytes (header_record p src dst id total hc)
  = ipv4_header src dst (probe_proto p) id total hc.
Proof.
  unfold Ipv4Header_bytes, header_record, ipv4_header, ipv4_front.
  cbn [ip4_vhl ip4_tos ip4_tot_len ip4_id ip4_frag_off ip4_ttl ip4_protocol ip4_check
       ip4_src_addr ip4_dst_addr]. rewrite !to_le_from_be. by rewrite <-!app_assoc.
Qed.

Lemma probe_proto_byte p : probe_ok p → byte_ok (probe_proto p).
Proof. destruct p; (done || intros; by_decide). Qed.

Lemma header_record_ok p src dst id total hc :
  bytes_ok 4 src → bytes_ok 4 dst → probe_ok p →
  Ipv4Header_ok (header_record p src dst id total hc).
Proof.
  intros Hs Hd Hp. unfold Ipv4Header_ok, header_record; simpl.
  split_and!; try apply (from_be_width 2); try apply probe_proto_byte; (done || by_decide).
Qed.

(** The ports a probe carries. *)
Definition probe_ports (p : Probe) (payload : list Z) : Z * Z :=
  match p with
  | TcpSyn sp dp _ | UdpDatagram sp dp => (sp, dp)
  | IcmpEcho _ _ => (0, 0)
  | OtherProto proto => l4_ports proto payload
  end.

Lemma probe_ports_spec p payload c :
  probe_ok p → l4_ports (probe_proto p) (segment p payload c) = probe_ports p payload.
Proof.
  intros Hp. unfold l4_ports.
  destruct p as [sp dp seq|sp dp|ident seq|proto]; [| |done|done]; destruct Hp as [Hs Hd];
    [destruct Hd as [Hd _]|]; destruct (be2_split sp Hs) as (a & b & E & F),
      (be2_split dp Hd) as (a' & b' & E' & F');
    rewrite segment_len; unfold segment, seg_front; rewrite E, E'; cbn [probe_header];
    pose proof (len_nonneg payload); destruct (Z.leb_spec 4 (20 + len payload));
    try destruct (Z.leb_spec 4 (8 + len payload)); try lia; simpl; by rewrite F, F'.
Qed.

Lemma eth_frame_len dmac smac tags et l3 :
  frame_ok dmac smac tags et →
  len (eth_frame dmac smac tags et l3) = 14 + 4 * len tags + len l3.
Proof.
  intros ([Hm _] & [Hm' _] & _). unfold eth_frame.
  assert (length (mjoin (vlan_bytes <$> tags)) = 4 * length tags)%nat as Ht.
  { clear. induction tags as [|t tags IH]; [done|].
    change (mjoin (vlan_bytes <$> t :: tags)) with (vlan_bytes t ++ mjoin (vlan_bytes <$> tags)).
    unfold vlan_bytes at 1. rewrite !length_app, !length_to_be_bytes, IH. simpl. lia. }
  unfold len. rewrite !length_app, length_to_be_bytes, Hm, Hm', Ht. lia.
Qed.

Lemma packet_len p src dst id payload hc c :
  bytes_ok 4 src → bytes_ok 4 dst →
  len (packet p src dst id payload hc c) = 20 + probe_header p + len payload.
Proof.
  intros. rewrite <-Z.add_assoc, <-(segment_len p payload c). unfold packet, len at 1.
  rewrite length_app, ipv4_header_length by done. unfold len. lia.
Qed.

Lemma classify_packet_at p src dst id payload hc c dmac smac tags :
  bytes_ok 4 src → bytes_ok 4 dst → Forall byte_ok payload → probe_ok p →
  len payload < 2 ^ 16 → frame_ok dmac smac tags ETH_P_IP → (length tags <= 2)%nat →
  let frame := eth_frame dmac smac tags ETH_P_IP (packet p src dst id payload hc c) in
  classify_packet frame =
    Ok (mkParsed 4 (pad16 src) (pad16 dst) (probe_proto p) (probe_ports p payload).1
          (probe_ports p payload).2 (len frame) (34 + 4 * len tags)).
Proof.
  intros Hs Hd Hb Hp Hl Hf Ht frame.
  assert (Hlen : len frame < 2 ^ 63).
  { unfold frame. rewrite eth_frame_len, packet_len by done. unfold len in *.
    destruct p; cbn [probe_header]; lia. }
  destruct (classify_frame_l3 _ _ _ _ _ Hf Ht Hlen) as (eth & pre & E & Hpre & He).
  fold frame in E. rewrite E in *. unfold packet in *. rewrite <-header_record_bytes in *.
  change (?h ++ segment p payload c) with (h ++ [] ++ segment p payload c) in *.
  rewrite (classify_ipv4_at pre eth _ [] _ He); try done.
  - cbn [ip4_src_addr ip4_dst_addr ip4_protocol header_record].
    rewrite probe_ports_spec by done. do 2 f_equal. unfold len in *. simpl length. lia.
  - by apply header_record_ok.
  - by apply segment_bytes.
Qed.

Lemma copy_cases buf lo hi l :
  copy_from_slice buf lo hi l = Fault ∨ ∃ b, copy_from_slice buf lo hi l = Ok b.
Proof. unfold copy_from_slice. destruct (_ && _); eauto. Qed.

(** A payload whose UDP length does not fit 16 bits: the wrapped length no longer
    matches the payload, and the copy panics. *)
Lemma build_udp_wrapped buf src dst sp dp id payload :
  2 ^ 16 <= 8 + len payload → build_ipv4_udp buf src dst sp dp id payload = Fault.
Proof.
  intros Hl. unfold build_ipv4_udp, assert_fits, IPV4_HEADER_LEN, UDP_HEADER_LEN.
  destruct (_ <=? len buf); [|done]. osimpl.
  do 4 (match goal with |- context [copy_from_slice ?b ?lo ?hi ?l] =>
    destruct (copy_cases b lo hi l) as [->|[? ->]]; osimpl; [done|] end).
  unfold copy_payload, copy_from_slice.
  destruct (Z.eqb_spec (len payload) 0); [lia|].
  assert ((20 + wrap_u16 (8 + len payload) - (20 + 8) =? len payload) = false) as ->.
  { apply Z.eqb_neq. pose proof (wrap_in_width 16 (8 + len payload)). unfold in_width in *. lia. }
  by rewrite andb_false_r.
Qed.

Lemma build_small p buf src dst id payload :
  len buf < 20 + probe_header p + len payload → build p buf src dst id payload = Fault.
Proof.
  intros Hs. pose proof (len_nonneg payload).
  destruct p; cbn [build probe_header] in *;
    [unfold build_ipv4_tcp_syn| |unfold build_ipv4_icmp_echo|unfold build_ipv4_other].
  2: destruct (Z.lt_ge_cases (8 + len payload) (2 ^ 16)) as [Hl|Hl]; [|by apply build_udp_wrapped];
     unfold build_ipv4_udp.
  all: unfold assert_fits, IPV4_HEADER_LEN, TCP_HEADER_LEN, UDP_HEADER_LEN, ICMP_HEADER_LEN;
    try rewrite wrap_small by lia; by case_Z.
Qed.

(** A builder that returns wrote a whole packet. *)
Lemma build_inv p buf src dst id payload n out :
  bytes_ok 4 src → bytes_ok 4 dst → Forall byte_ok payload → probe_ok p →
  len payload < 2 ^ 16 - 40 → build p buf src dst id payload = Ok (n, out) →
  n = 20 + probe_header p + len payload ∧ n <= len buf ∧
  ∃ hc c, out = packet p src dst id payload hc c ++ drop (Z.to_nat n) buf.
Proof.
  intros Hs Hd Hb Hp Hl E.
  destruct (Z.lt_ge_cases (len buf) (20 + probe_header p + len payload)).
  { by rewrite build_small in E by lia. }
  destruct (build_spec p buf src dst id payload) as (hc & c & _ & _ & E' & _); [done..| |done|].
  { split; [done|]. destruct p; cbn [probe_header]; lia. }
  cbn zeta in E'. rewrite E, segment_len, Z.add_assoc in E'.
  assert (n = 20 + probe_header p + len payload) as -> by congruence.
  split_and!; [done|lia|]. exists hc, c. congruence.
Qed.

Lemma build_classify p buf src dst id payload n out dmac smac tags :
  bytes_ok 4 src → bytes_ok 4 dst → Forall byte_ok payload → probe_ok p →
  len payload < 2 ^ 16 - 40 → frame_ok dmac smac tags ETH_P_IP → (length tags <= 2)%nat →
  build p buf src dst id payload = Ok (n, out) →
  classify_packet (eth_frame dmac smac tags ETH_P_IP (take (Z.to_nat n) out)) =
    Ok (mkParsed 4 (pad16 src) (pad16 dst) (probe_proto p) (probe_ports p payload).1
          (probe_ports p payload).2 (14 + 4 * len tags + n) (34 + 4 * len tags)).
Proof.
  intros Hs Hd Hb Hp Hl Hf Ht E.
  destruct (build_inv _ _ _ _ _ _ _ _ Hs Hd Hb Hp Hl E) as (En & _ & hc & c & ->).
  pose proof (packet_len p src dst id payload hc c Hs Hd) as Hlp.
  rewrite take_app_length' by (unfold len in *; lia).
  rewrite classify_packet_at, eth_frame_len, Hlp by (done || lia). do 2 f_equal. lia.
Qed.

(** C26 (functional). Every builder, on every buffer: when the buffer is too small it
    panics before writing; otherwise it returns the length of the packet, leaves
    the bytes behind it alone, and what it wrote is an IPv4 header whose RFC 1071
    checksum verifies, followed by the segment, whose checksum verifies with the
    pseudo header (TCP, UDP) or alone (ICMP); a UDP checksum field is never zero,
    which would mean "no checksum". *)
Theorem built_packets_verify p buf src dst id payload :
  bytes_ok 4 src → bytes_ok 4 dst → Forall byte_ok payload → probe_ok p →
  len payload < 2 ^ 16 - 40 →
  if len buf <? 20 + probe_header p + len payload then build p buf src dst id payload = Fault
  else ∃ hc c,
    let seg := segment p payload c in
    let header := ipv4_header src dst (probe_proto p) id (20 + len seg) hc in
    in_width 16 hc ∧ in_width 16 c ∧ len seg = probe_header p + len payload ∧
    build p buf src dst id payload
      = Ok (20 + len seg, header ++ seg ++ drop (Z.to_nat (20 + len seg)) buf) ∧
    rfc1071_valid header ∧ l4_valid p src dst seg ∧
    match p with UdpDatagram _ _ => c ≠ 0 | _ => True end.
Proof.
  intros Hs Hd Hb Hp Hl. destruct (Z.ltb_spec (len buf) (20 + probe_header p + len payload)).
  { apply build_small. lia. }
  destruct (build_spec p buf src dst id payload) as (hc & c & Hw & Hc & E & V & L & U); [done..| |done|].
  { split; [done|]. destruct p; cbn [probe_header]; lia. }
  exists hc, c. cbn zeta. rewrite E. unfold packet. rewrite <-app_assoc.
  do 2 (split; [done|]). split; [apply segment_len|]. do 3 (split; [done|]).
  destruct p; try done. by apply U.
Qed.

Lemma built_packets_verify_witness :
  ∃ hc c, build (UdpDatagram 5353 53) (replicate 40 7) [10; 0; 0; 50] [172; 28; 0; 2] 2
            [81; 85; 69; 82; 89]
          = Ok (33, ipv4_header [10; 0; 0; 50] [172; 28; 0; 2] 17 2 33 hc ++
                    segment (UdpDatagram 5353 53) [81; 85; 69; 82; 89] c ++ replicate 7 7) ∧ c ≠ 0.
Proof.
  pose proof (built_packets_verify (UdpDatagram 5353 53) (replicate 40 7) [10; 0; 0; 50]
    [172; 28; 0; 2] 2 [81; 85; 69; 82; 89] ltac:(by_decide) ltac:(by_decide) ltac:(by_decide)
    ltac:(by_decide) ltac:(by_decide)) as (hc & c & _ & _ & _ & E & _ & _ & U).
  exists hc, c. split; [exact E|exact U].
Defined.

(** C27 (round trip). What a builder produced, put into an Ethernet frame with at most
    two VLAN tags, is classified by the firewall's parser as exactly what the tool
    meant to send: addresses, protocol and ports. *)
Theorem built_packets_classify p buf src dst id payload n out dmac smac tags :
  bytes_ok 4 src → bytes_ok 4 dst → Forall byte_ok payload → probe_ok p →
  len payload < 2 ^ 16 - 40 → frame_ok dmac smac tags ETH_P_IP → (length tags <= 2)%nat →
  build p buf src dst id payload = Ok (n, out) →
  classify_packet (eth_frame dmac smac tags ETH_P_IP (take (Z.to_nat n) out)) =
    Ok (mkParsed 4 (pad16 src) (pad16 dst) (probe_proto p) (probe_ports p payload).1
          (probe_ports p payload).2 (14 + 4 * len tags + n) (34 + 4 * len tags)).
Proof. apply build_classify. Qed.

Lemma built_packets_classify_witness :
  classify_packet (eth_frame [2; 0; 0; 0; 0; 1] [2; 0; 0; 0; 0; 2] [] ETH_P_IP
    (take 44 (from_ok (0, []) (build (TcpSyn 49152 80 12345) (replicate 64 0) [198; 51; 100; 14]
      [172; 28; 0; 2] 1 [68; 65; 84; 65])).2)) =
  Ok (mkParsed 4 (pad16 [198; 51; 100; 14]) (pad16 [172; 28; 0; 2]) 6 49152 80 58 34).
Proof.
  apply (built_packets_classify (TcpSyn 49152 80 12345) (replicate 64 0) [198; 51; 100; 14]
    [172; 28; 0; 2] 1 [68; 65; 84; 65] 44 _ [2; 0; 0; 0; 0; 1] [2; 0; 0; 0; 0; 2] []);
    [by_decide..|vm_compute; reflexivity].
Defined.
