(* ===== verification/Generator.v ===== *)
(** * Traffic generation ([scripts/common/src/generator.rs])

    The xorshift generator, the choice of a protocol, and the pool of source
    addresses that the rules block. *)
From stdpp Require Import base numbers list gmap fin_maps strings sorting.
From Stdlib Require Import ZArith Znumtheory Zpow_facts Lia.
From S2P Require Import Prelude Net Str Metadata.

Local Open Scope Z_scope.

(** ** Protocols *)
Inductive PacketProtocol : Type := PTcp | PUdp | PIcmp | PIcmpv6 | POther.
#[global] Instance PacketProtocol_eq_dec : EqDecision PacketProtocol.
Proof. solve_decision. Defined.

Definition proto_as_str (p : PacketProtocol) : list Z :=
  match p with
  | PTcp => lit "tcp" | PUdp => lit "udp" | PIcmp => lit "icmp"
  | PIcmpv6 => lit "icmpv6" | POther => lit "other"
  end.

Inductive ProtocolChoice : Type :=
| CMixed | CTcp | CUdp | CIcmp | CIcmpv6 | COther.
#[global] Instance ProtocolChoice_eq_dec : EqDecision ProtocolChoice.
Proof. solve_decision. Defined.

(** [ProtocolChoice::from_str]; the error carries the text it names. *)
Definition choice_from_str `{!Lowercase} (s : list Z) : outcome (list Z) ProtocolChoice :=
  let key := trim (to_lowercase s) in
  if decide (key = lit "mixed" ∨ key = lit "all") then Ok CMixed
  else if decide (key = lit "tcp") then Ok CTcp
  else if decide (key = lit "udp") then Ok CUdp
  else if decide (key = lit "icmp" ∨ key = lit "ping") then Ok CIcmp
  else if decide (key = lit "icmpv6" ∨ key = lit "ping6") then Ok CIcmpv6
  else if decide (key = lit "other" ∨ key = lit "raw") then Ok COther
  else Err s.

(** ** [FastPrng] *)
Definition DEFAULT_SEED : Z := 0x853c49e6748fea9b.
Record FastPrng : Type := mkPrng { prng_state : Z }.

Definition prng_new (seed : Z) : FastPrng :=
  mkPrng (if seed =? 0 then DEFAULT_SEED else seed).
Definition prng_default : FastPrng := prng_new DEFAULT_SEED.

(** The three shift-and-xor steps on a [u64]. *)
Definition xor_shr (x n : Z) : Z := Z.lxor x (Z.shiftr x n).
Definition xor_shl (x n : Z) : Z := Z.lxor x (wrap_u64 (Z.shiftl x n)).

Definition next_u64 (p : FastPrng) : Z * FastPrng :=
  let x := prng_state p in
  let x := xor_shr x 12 in
  let x := xor_shl x 25 in
  let x := xor_shr x 27 in
  (wrap_u64 (x * 0x2545f4914f6cdd1d), mkPrng x).
Definition next_u32 (p : FastPrng) : Z * FastPrng :=
  let '(x, p) := next_u64 p in (wrap_u32 (Z.shiftr x 32), p).
Definition next_u16 (p : FastPrng) : Z * FastPrng :=
  let '(x, p) := next_u64 p in (wrap_u16 (Z.shiftr x 48), p).

(** The remainder panics on a zero divisor, which is what [max - min + 1] wraps to
    on the full range (a debug build panics on the addition). *)
Definition gen_range (p : FastPrng) (min max : Z) : outcome unit (Z * FastPrng) :=
  if max <=? min then Ok (min, p) else
  let '(r, p) := next_u32 p in
  let span := wrap_u32 (wrap_u32 (max - min) + 1) in
  if span =? 0 then Fault else Ok (wrap_u32 (min + r mod span), p).

Definition select (c : ProtocolChoice) (p : FastPrng) : outcome unit (PacketProtocol * FastPrng) :=
  match c with
  | CTcp => Ok (PTcp, p)
  | CUdp => Ok (PUdp, p)
  | CIcmp => Ok (PIcmp, p)
  | CIcmpv6 => Ok (PIcmpv6, p)
  | COther => Ok (POther, p)
  | CMixed =>
      '(roll, p) ← gen_range p 0 99;
      mret (if roll <? 40 then PTcp else if roll <? 75 then PUdp
            else if roll <? 90 then PIcmp else if roll <? 95 then PIcmpv6 else POther, p)
  end.

(** ** [IpPool] *)
Definition EXACT_BLOCKED_IPV4 : list (list Z) :=
  [[198; 51; 100; 14]; [192; 0; 2; 1]; [203; 0; 113; 50]; [198; 51; 100; 200]; [192; 0; 2; 100]].
Definition LEGITIMATE_CONTAINER_IPV4 : list Z := [172; 28; 0; 10].
Definition DEFAULT_FIREWALL_IPV4 : list Z := [172; 28; 0; 2].

Record IpPool : Type := mkPool { pool_ips : list (list Z); pool_index : Z }.

(** [for &exact in &EXACT_BLOCKED_IPV4 { if ips.len() < count { ips.push(exact); } }]. *)
Definition push_exact (count : Z) (ips : list (list Z)) : list (list Z) :=
  fold_left (λ ips e, if len ips <? count then ips ++ [e] else ips) EXACT_BLOCKED_IPV4 ips.

(** The address of an offset into 10.0.0.0/8. *)
Definition offset_ip (current_offset : Z) : list Z :=
  [10; Z.land (Z.shiftr current_offset 16) 0xFF; Z.land (Z.shiftr current_offset 8) 0xFF;
   Z.max (Z.land current_offset 0xFF) 1].

(** [while ips.len() < count { .. }]. *)
Fixpoint fill_pool (fuel : nat) (count : Z) (ips : list (list Z)) (current_offset : Z)
    : outcome unit (list (list Z)) :=
  match fuel with
  | O => Fault
  | S fuel' =>
      if len ips <? count then
        let ip := offset_ip current_offset in
        let ips := if bool_decide (ip ∈ ips) then ips else ips ++ [ip] in
        fill_pool fuel' count ips (wrap_u32 (current_offset + 1))
      else Ok ips
  end.

Definition new_blocked_pool (fuel : nat) (count : Z) : outcome unit IpPool :=
  ips ← fill_pool fuel count (push_exact count []) 1;
  mret (mkPool ips 0).

Definition next_round_robin (pool : IpPool) : outcome unit (list Z * IpPool) :=
  ip ← idx (pool_ips pool) (pool_index pool);
  if len (pool_ips pool) =? 0 then Fault else
  mret (ip, mkPool (pool_ips pool) ((pool_index pool + 1) mod len (pool_ips pool))).

Definition next_random (pool : IpPool) (p : FastPrng) : outcome unit (list Z * FastPrng) :=
  let '(r, p) := next_u32 p in
  if len (pool_ips pool) =? 0 then Fault else
  ip ← idx (pool_ips pool) (r mod len (pool_ips pool));
  mret (ip, p).

(** The values of the repository's unit tests. *)
Example default_seed_state : prng_state prng_default = DEFAULT_SEED.
Proof. reflexivity. Qed.
Example small_pool : new_blocked_pool 20 7 = Ok (mkPool (EXACT_BLOCKED_IPV4 ++ [[10; 0; 0; 1]; [10; 0; 0; 2]]) 0).
Proof. vm_compute. reflexivity. Qed.

(** ** The generator's state is never zero *)

Definition prng_ok (p : FastPrng) : Prop := 0 < prng_state p < 2 ^ 64.
#[global] Instance prng_ok_dec p : Decision (prng_ok p).
Proof. unfold prng_ok. apply _. Defined.

Lemma lxor_width w a b :
  0 <= w → in_width w a → in_width w b → in_width w (Z.lxor a b).
Proof.
  unfold in_width. intros Hw Ha Hb.
  assert (Z.lxor a b = Z.land (Z.lxor a b) (Z.ones w)) as ->.
  { apply Z.bits_inj'. intros n Hn. rewrite Z.land_spec, Z.lxor_spec, Z.testbit_ones_nonneg by lia.
    destruct (Z.ltb_spec n w); [by rewrite andb_true_r|]. rewrite andb_false_r.
    assert (∀ z, 0 <= z < 2 ^ w → Z.testbit z n = false) as Hz.
    { intros z Hz. rewrite <-(Z.mod_small z (2 ^ w)) by done. by apply Z.mod_pow2_bits_high. }
    by rewrite !Hz. }
  rewrite Z.land_ones by done. apply Z.mod_pos_bound. lia.
Qed.

(** Either shift of a non-zero word, xored into it, leaves a non-zero word. *)
Lemma xor_shr_ok x n : 0 < x < 2 ^ 64 → 0 < n → 0 < xor_shr x n < 2 ^ 64.
Proof.
  intros Hx Hn. unfold xor_shr.
  assert (0 <= Z.shiftr x n < x) as Hs.
  { rewrite Z.shiftr_div_pow2 by lia. split; [apply Z.div_pos; lia|].
    apply Z.div_lt; [lia|]. apply Z.pow_gt_1; lia. }
  destruct (lxor_width 64 x (Z.shiftr x n)) as [H0 H1]; [lia|unfold in_width; lia..|].
  assert (Z.lxor x (Z.shiftr x n) ≠ 0) by (intros E%Z.lxor_eq; lia). lia.
Qed.

Lemma xor_shl_ok x n : 0 < x < 2 ^ 64 → 0 < n → 0 < xor_shl x n < 2 ^ 64.
Proof.
  intros Hx Hn. unfold xor_shl.
  destruct (lxor_width 64 x (wrap_u64 (Z.shiftl x n))) as [H0 H1];
    [lia|unfold in_width; lia|by apply wrap_in_width|].
  assert (Z.lxor x (wrap_u64 (Z.shiftl x n)) ≠ 0); [|lia].
  intros E%Z.lxor_eq. unfold wrap in E. rewrite Z.shiftl_mul_pow2 in E by lia.
  assert (2 ^ 64 | x * (2 ^ n - 1)) as Hd.
  { exists (x * 2 ^ n / 2 ^ 64). pose proof (Z.div_mod (x * 2 ^ n) (2 ^ 64)). lia. }
  assert (rel_prime (2 ^ 64) (2 ^ n - 1)) as Hr.
  { apply rel_prime_sym, rel_prime_Zpower_r; [lia|].
    replace n with (n - 1 + 1) by lia. rewrite Z.pow_add_r by lia.
    apply bezout_rel_prime. exists (-1) (2 ^ (n - 1)). lia. }
  rewrite Z.mul_comm in Hd. apply (Gauss _ _ _ Hd) in Hr. apply Z.divide_pos_le in Hr; lia.
Qed.

Lemma next_u64_ok p : prng_ok p → in_width 64 (next_u64 p).1 ∧ prng_ok (next_u64 p).2.
Proof.
  intros Hp. split; [by apply wrap_in_width|].
  unfold prng_ok, next_u64. cbn [snd prng_state].
  apply xor_shr_ok; [|lia]. apply xor_shl_ok; [|lia]. by apply xor_shr_ok.
Qed.

Lemma next_u32_ok p : prng_ok p → in_width 32 (next_u32 p).1 ∧ prng_ok (next_u32 p).2.
Proof.
  intros [_ Hp]%next_u64_ok. unfold next_u32. destruct (next_u64 p) as [x p'].
  split; [by apply wrap_in_width|done].
Qed.

Lemma prng_new_ok seed : in_width 64 seed → prng_ok (prng_new seed).
Proof.
  unfold prng_new, prng_ok, in_width. intros. destruct (Z.eqb_spec seed 0); [by_decide|simpl; lia].
Qed.

Lemma gen_range_ok p min max :
  prng_ok p → in_width 32 min → in_width 32 max → ¬ (min = 0 ∧ max = 2 ^ 32 - 1) →
  ∃ v p', gen_range p min max = Ok (v, p') ∧ prng_ok p' ∧ min <= v ∧ (v <= max ∨ v = min).
Proof.
  intros Hp Hmin Hmax Hfull. unfold gen_range, in_width in *.
  destruct (Z.leb_spec max min); [eexists _, _; split; [done|]; split_and!; [apply Hp..|lia|lia]|].
  destruct (next_u32_ok p Hp) as [Hr Hp']. destruct (next_u32 p) as [r p']. cbn [fst snd] in *.
  rewrite (wrap_small 32 (max - min)), wrap_small by lia.
  destruct (Z.eqb_spec (max - min + 1) 0); [lia|].
  pose proof (Z.mod_pos_bound r (max - min + 1)). rewrite wrap_small by lia.
  eexists _, _. split; [done|]. split; [done|]. lia.
Qed.

Lemma select_ok c p : prng_ok p → ∃ proto p', select c p = Ok (proto, p') ∧ prng_ok p'.
Proof.
  intros Hp. destruct c; try by (eexists _, _).
  destruct (gen_range_ok p 0 99 Hp) as (v & p' & E & Hp' & _); [by_decide..|lia|].
  unfold select. rewrite E. osimpl. eauto.
Qed.

(** ** The pool of blocked addresses *)

(** Linear arithmetic with quotients and remainders by constants. *)
Ltac divmod := Z.to_euclidean_division_equations; lia.

(** Offsets that name an address no smaller offset names. *)
Definition fresh (o : Z) : bool := (o =? 1) || negb (o mod 256 =? 1).
(** The pool when the loop reaches offset [o]. *)
Definition pool_upto (o : Z) : list (list Z) :=
  EXACT_BLOCKED_IPV4 ++ (offset_ip <$> filter (λ z, fresh z = true) (seqZ 1 (o - 1))).
Definition MAX_POOL : Z := 5 + 256 * 256 * 255.

Lemma offset_ip_eq o :
  0 <= o → offset_ip o = [10; o / 65536 mod 256; o / 256 mod 256; Z.max (o mod 256) 1].
Proof.
  intros. unfold offset_ip. change 0xFF with (Z.ones 8).
  rewrite !Z.land_ones, !Z.shiftr_div_pow2 by lia. done.
Qed.

Lemma byte_digits o : 0 <= o < 2 ^ 24 →
  o = 65536 * (o / 65536 mod 256) + 256 * (o / 256 mod 256) + o mod 256 ∧
  0 <= o / 65536 mod 256 < 256 ∧ 0 <= o / 256 mod 256 < 256 ∧ 0 <= o mod 256 < 256.
Proof. intros. divmod. Qed.

Lemma offset_ip_inj_lt o o' :
  1 <= o' < o → o < 2 ^ 24 → offset_ip o' = offset_ip o → fresh o = false.
Proof.
  intros Ho Hlt. rewrite !offset_ip_eq by lia. intros [= E1 E2 E3].
  pose proof (byte_digits o). pose proof (byte_digits o'). unfold fresh.
  rewrite orb_false_iff, negb_false_iff, Z.eqb_neq, Z.eqb_eq. lia.
Qed.

Lemma offset_ip_stale o :
  1 <= o → fresh o = false → 1 <= o - 1 ∧ offset_ip o = offset_ip (o - 1) ∧
  fresh (o - 1) = true ∧ fresh (o + 1) = true.
Proof.
  unfold fresh. rewrite orb_false_iff, negb_false_iff, Z.eqb_neq, Z.eqb_eq. intros Ho [H1 Hm].
  rewrite !offset_ip_eq by lia. rewrite !orb_true_iff, !negb_true_iff, !Z.eqb_neq.
  split_and!; [divmod| |right; divmod|right; divmod].
  assert (o / 65536 = (o - 1) / 65536) as -> by divmod.
  assert (o / 256 = (o - 1) / 256) as -> by divmod.
  by assert (Z.max (o mod 256) 1 = Z.max ((o - 1) mod 256) 1) as -> by divmod.
Qed.

Lemma elem_of_pool_upto ip o :
  ip ∈ pool_upto o ↔
  ip ∈ EXACT_BLOCKED_IPV4 ∨ ∃ o', 1 <= o' < o ∧ fresh o' = true ∧ ip = offset_ip o'.
Proof.
  unfold pool_upto. rewrite elem_of_app, list_elem_of_fmap. apply or_iff_compat_l.
  setoid_rewrite list_elem_of_filter. setoid_rewrite elem_of_seqZ. split.
  - intros (o' & -> & Hf & Ho). exists o'. split_and!; [lia..|done|done].
  - intros (o' & Ho & Hf & ->). exists o'. split_and!; [done..|lia|lia].
Qed.

Lemma offset_not_exact o : offset_ip o ∉ EXACT_BLOCKED_IPV4.
Proof.
  unfold offset_ip, EXACT_BLOCKED_IPV4. rewrite !not_elem_of_cons.
  split_and!; (by intros [=]) || apply not_elem_of_nil.
Qed.

(** An offset below [2^24] adds its address exactly when it is fresh. *)
Lemma pool_upto_member o :
  1 <= o < 2 ^ 24 → offset_ip o ∈ pool_upto o ↔ fresh o = false.
Proof.
  intros Ho. rewrite elem_of_pool_upto. split.
  - intros [He|(o' & Ho' & _ & E)]; [by apply offset_not_exact in He|].
    by apply (offset_ip_inj_lt o o'); [lia..|].
  - intros Hf. destruct (offset_ip_stale o) as (H1 & E & Hp & _); [lia|done|].
    right. exists (o - 1). split_and!; [lia..|done|done].
Qed.

Lemma pool_upto_succ o :
  1 <= o → pool_upto (o + 1) = pool_upto o ++ (if fresh o then [offset_ip o] else []).
Proof.
  intros Ho. unfold pool_upto. rewrite <-app_assoc. f_equal.
  replace (o + 1 - 1) with (o - 1 + 1) by lia.
  rewrite seqZ_app, filter_app, fmap_app by lia. f_equal.
  replace (1 + (o - 1)) with o by lia. change (seqZ o 1) with [Z.of_nat 0 + o].
  rewrite Z.add_0_l, filter_cons. destruct (decide (fresh o = true)) as [E|E]; rewrite ?E; [done|].
  apply not_true_iff_false in E. by rewrite E.
Qed.

Lemma pool_upto_step o :
  1 <= o < 2 ^ 24 →
  (if bool_decide (offset_ip o ∈ pool_upto o) then pool_upto o else pool_upto o ++ [offset_ip o])
  = pool_upto (o + 1).
Proof.
  intros Ho. rewrite pool_upto_succ by lia. pose proof (pool_upto_member o Ho).
  case_bool_decide as E; destruct (fresh o) eqn:F; rewrite ?app_nil_r; (done || naive_solver).
Qed.

Lemma pool_upto_len o :
  1 <= o → len (pool_upto o) = 5 + (o - 1 - (o + 254) / 256 + if 1 <? o then 1 else 0).
Proof.
  intros Ho. replace o with (1 + (o - 1)) by lia. generalize (Z.to_nat (o - 1)), (Z2Nat.id (o - 1)).
  intros k Hk. rewrite <-Hk by lia. clear. induction k as [|k IH]; [done|].
  replace (1 + Z.of_nat (S k)) with (1 + Z.of_nat k + 1) by lia.
  rewrite pool_upto_succ by lia. unfold len in *. rewrite length_app, Nat2Z.inj_add, IH.
  unfold fresh. case_Z; cbn [orb negb length]; divmod.
Qed.

Lemma pool_upto_NoDup o : 1 <= o <= 2 ^ 24 → NoDup (pool_upto o).
Proof.
  intros Ho. replace o with (1 + (o - 1)) in * by lia.
  generalize (Z.to_nat (o - 1)), (Z2Nat.id (o - 1)). intros k Hk. rewrite <-Hk in * by lia. clear Hk.
  induction k as [|k IH]; [by_decide|].
  replace (1 + Z.of_nat (S k)) with (1 + Z.of_nat k + 1) by lia.
  rewrite pool_upto_succ by lia. pose proof (pool_upto_member (1 + Z.of_nat k)).
  apply NoDup_app. split_and!; [apply IH; lia| |].
  - intros x Hx Hin. destruct (fresh _) eqn:F; [|by apply not_elem_of_nil in Hin].
    apply list_elem_of_singleton in Hin as ->. apply H in Hx; [congruence|lia].
  - destruct (fresh _); [apply NoDup_singleton|apply NoDup_nil_2].
Qed.

Lemma full_pool_len : len (pool_upto (2 ^ 24)) = MAX_POOL.
Proof. rewrite pool_upto_len by lia. vm_compute. reflexivity. Qed.

(** The loop ends, with [count] addresses, as long as there are that many. *)
Lemma fill_pool_ends fuel : ∀ o count,
  1 <= o <= 2 ^ 24 → len (pool_upto o) <= count <= MAX_POOL →
  2 * (count - len (pool_upto o)) + (if fresh o then 0 else 1) < Z.of_nat fuel →
  ∃ o', o <= o' <= 2 ^ 24 ∧ fill_pool fuel count (pool_upto o) o = Ok (pool_upto o') ∧
    len (pool_upto o') = count.
Proof.
  induction fuel as [|fuel IH]; intros o count Ho Hc Hf; [destruct (fresh o); lia|].
  cbn [fill_pool]. destruct (Z.ltb_spec (len (pool_upto o)) count); [|exists o; split_and!; (done || lia)].
  assert (o < 2 ^ 24) as Hlt.
  { destruct (Z.eq_dec o (2 ^ 24)) as [->|]; [|lia]. rewrite full_pool_len in *. lia. }
  rewrite pool_upto_step, wrap_small by lia.
  assert (len (pool_upto (o + 1)) = len (pool_upto o) + if fresh o then 1 else 0) as Hlen.
  { rewrite pool_upto_succ by lia. unfold len. rewrite length_app. destruct (fresh o); simpl; lia. }
  destruct (IH (o + 1) count) as (o' & Ho' & E & Hl); [lia| | |exists o'; split_and!; (done || lia)].
  - destruct (fresh o); lia.
  - destruct (fresh o) eqn:F; [destruct (fresh (o + 1)); lia|].
    destruct (offset_ip_stale o) as (_ & _ & _ & ->); [lia|done|]. lia.
Qed.

(** All addresses of 10.0.0.0/8 that do not end in zero are in the full pool. *)
Lemma full_pool_member o : 0 <= o → offset_ip o ∈ pool_upto (2 ^ 24).
Proof.
  intros Ho. assert (∃ o', 1 <= o' < 2 ^ 24 ∧ offset_ip o = offset_ip o') as (o' & Ho' & ->).
  { exists (Z.max 1 (o mod 2 ^ 24)). change (2 ^ 24) with 16777216. split; [divmod|].
    rewrite !offset_ip_eq by divmod.
    assert (o / 65536 mod 256 = Z.max 1 (o mod 16777216) / 65536 mod 256) as -> by divmod.
    assert (o / 256 mod 256 = Z.max 1 (o mod 16777216) / 256 mod 256) as -> by divmod.
    by assert (Z.max (o mod 256) 1 = Z.max (Z.max 1 (o mod 16777216) mod 256) 1) as -> by divmod. }
  apply elem_of_pool_upto. right. destruct (fresh o') eqn:F; [by exists o'|].
  destruct (offset_ip_stale o') as (H1 & E & Hf & _); [lia|done|].
  exists (o' - 1). split_and!; [lia..|done|done].
Qed.

Lemma fill_pool_stuck fuel : ∀ o count,
  0 <= o < 2 ^ 32 → MAX_POOL < count → fill_pool fuel count (pool_upto (2 ^ 24)) o = Fault.
Proof.
  induction fuel as [|fuel IH]; intros o count Ho Hc; [done|]. cbn [fill_pool].
  rewrite full_pool_len. destruct (Z.ltb_spec MAX_POOL count); [|lia].
  rewrite bool_decide_eq_true_2 by (apply full_pool_member; lia). apply IH; [|done].
  apply wrap_in_width. lia.
Qed.

Lemma fill_pool_never fuel : ∀ o count,
  1 <= o <= 2 ^ 24 → MAX_POOL < count → fill_pool fuel count (pool_upto o) o = Fault.
Proof.
  induction fuel as [|fuel IH]; intros o count Ho Hc; [done|].
  destruct (Z.eq_dec o (2 ^ 24)) as [->|]; [by apply fill_pool_stuck|]. cbn [fill_pool].
  destruct (Z.ltb_spec (len (pool_upto o)) count) as [_|H].
  - rewrite pool_upto_step, wrap_small by lia. apply IH; lia.
  - rewrite pool_upto_len in H by lia. unfold MAX_POOL in *.
    change (2 ^ 24) with 16777216 in *. destruct (1 <? o); divmod.
Qed.

(** A source the repository's rules block: listed, or in 10.0.0.0/8. *)
Definition blocked_source (ip : list Z) : Prop :=
  ip ∈ EXACT_BLOCKED_IPV4 ∨ (bytes_ok 4 ip ∧ head ip = Some 10).
#[global] Instance blocked_source_dec ip : Decision (blocked_source ip).
Proof. unfold blocked_source. apply _. Defined.

Lemma offset_ip_blocked o : 0 <= o → blocked_source (offset_ip o).
Proof.
  intros Ho. right. rewrite offset_ip_eq by done. split; [|done]. split; [done|].
  unfold byte_ok. rewrite !Forall_cons, Forall_nil. split_and!; (done || divmod).
Qed.

Lemma pool_upto_blocked o : Forall blocked_source (pool_upto o).
Proof.
  apply Forall_forall. intros ip [He|(o' & Ho & _ & ->)]%elem_of_pool_upto; [by left|].
  apply offset_ip_blocked. lia.
Qed.

Lemma push_exact_spec count :
  0 <= count → push_exact count [] = take (Z.to_nat count) EXACT_BLOCKED_IPV4.
Proof.
  intros Hc. destruct (Z.le_gt_cases 5 count).
  - rewrite take_ge by (simpl; lia).
    unfold push_exact, EXACT_BLOCKED_IPV4, len; cbn [fold_left app length].
    by repeat match goal with |- context [?a <? count] =>
      destruct (Z.ltb_spec a count); [|lia]; cbn [fold_left app length] end.
  - assert (count = 0 ∨ count = 1 ∨ count = 2 ∨ count = 3 ∨ count = 4) as Hcases by lia.
    by destruct Hcases as [->|[->|[->|[->| ->]]]].
Qed.

Lemma blocked_source_bytes ip : blocked_source ip → bytes_ok 4 ip.
Proof.
  intros [He|[Hb _]]; [|done]. revert ip He. apply Forall_forall. by_decide.
Qed.

(** Every call of the pool's constructor that returns, and when it does. *)
Lemma new_blocked_pool_ok fuel count :
  0 <= count <= MAX_POOL → 2 * count < Z.of_nat fuel →
  ∃ ips, new_blocked_pool fuel count = Ok (mkPool ips 0) ∧ len ips = count ∧ NoDup ips ∧
    Forall blocked_source ips ∧ take 5 ips = take (Z.to_nat count) EXACT_BLOCKED_IPV4.
Proof.
  intros Hc Hf. unfold new_blocked_pool. rewrite push_exact_spec by lia.
  destruct (Z.le_gt_cases 5 count).
  - rewrite take_ge by (simpl; lia). change EXACT_BLOCKED_IPV4 with (pool_upto 1).
    destruct (fill_pool_ends fuel 1 count) as (o & Ho & E & Hl); [lia| | |].
    + change (len (pool_upto 1)) with 5. lia.
    + change (len (pool_upto 1)) with 5. change (fresh 1) with true. lia.
    + rewrite E. osimpl. eexists. split_and!; [done..|by apply pool_upto_NoDup|apply pool_upto_blocked|done].
  - exists (take (Z.to_nat count) EXACT_BLOCKED_IPV4).
    assert (len (take (Z.to_nat count) EXACT_BLOCKED_IPV4) = count) as Hl.
    { unfold len. rewrite length_take. simpl. lia. }
    destruct fuel as [|fuel]; [lia|]. cbn [fill_pool]. rewrite Hl, Z.ltb_irrefl. osimpl.
    split_and!; [done..| | |].
    + apply sublist_NoDup with EXACT_BLOCKED_IPV4; [by_decide|apply sublist_take].
    + apply Forall_take. by_decide.
    + rewrite take_take. f_equal. lia.
Qed.

(** C28 (termination). [IpPool::new_blocked_pool(count)] returns exactly when [count]
    is at most 16,711,685, the five listed addresses and the addresses of
    10.0.0.0/8 whose last byte is not zero: then within [2 * count + 1] tests of the
    loop, with [count] distinct addresses, every one of them blocked by the
    repository's rules and the listed ones first. For any larger [count] the loop
    never ends: offsets past [2^24], and past the wrap-around of the [u32], name
    only addresses that are in the pool already. The reservation of memory for [count]
    addresses, which comes first, is taken to succeed. *)
Theorem blocked_pool_ends_iff count :
  0 <= count →
  if count <=? MAX_POOL then
    ∀ fuel, 2 * count < Z.of_nat fuel →
    ∃ ips, new_blocked_pool fuel count = Ok (mkPool ips 0) ∧ len ips = count ∧ NoDup ips ∧
      Forall blocked_source ips ∧ take 5 ips = take (Z.to_nat count) EXACT_BLOCKED_IPV4
  else ∀ fuel, new_blocked_pool fuel count = Fault.
Proof.
  intros Hc. destruct (Z.leb_spec count MAX_POOL); intros fuel.
  - intros. by apply new_blocked_pool_ok.
  - unfold new_blocked_pool. rewrite push_exact_spec, take_ge by (simpl; unfold MAX_POOL in *; lia).
    change EXACT_BLOCKED_IPV4 with (pool_upto 1). by rewrite fill_pool_never by lia.
Qed.

Lemma blocked_pool_ends_iff_witness :
  (∃ ips, new_blocked_pool 201 100 = Ok (mkPool ips 0) ∧ len ips = 100) ∧
  new_blocked_pool 300 20000000 = Fault.
Proof.
  split.
  - destruct (blocked_pool_ends_iff 100 ltac:(lia) 201%nat) as (ips & E & Hl & _); [lia|].
    exists ips. split; [exact E|exact Hl].
  - exact (blocked_pool_ends_iff 20000000 ltac:(lia) 300%nat).
Defined.

Lemma next_random_ok pool p :
  prng_ok p → 0 < len (pool_ips pool) →
  ∃ ip p', next_random pool p = Ok (ip, p') ∧ ip ∈ pool_ips pool ∧ prng_ok p'.
Proof.
  intros Hp Hl. unfold next_random. destruct (next_u32_ok p Hp) as [Hr Hp'].
  destruct (next_u32 p) as [r p']. cbn [fst snd] in *.
  destruct (Z.eqb_spec (len (pool_ips pool)) 0); [lia|].
  destruct (idx_ok (E := unit) (pool_ips pool) (r mod len (pool_ips pool))) as (ip & -> & Hip);
    [by apply Z.mod_pos_bound|].
  osimpl. exists ip, p'. split_and!; [done| |apply Hp'..].
  by eapply list_elem_of_lookup_2.
Qed.

(** A round of the pool: as many calls as it has addresses. *)
Fixpoint draw (n : nat) (pool : IpPool) : outcome unit (list (list Z) * IpPool) :=
  match n with
  | O => Ok ([], pool)
  | S n' => '(ip, pool) ← next_round_robin pool;
            '(ips, pool) ← draw n' pool; mret (ip :: ips, pool)
  end.

Lemma draw_S n pool :
  draw (S n) pool = '(ip, pool) ← next_round_robin pool;
                    '(ips, pool) ← draw n pool; mret (ip :: ips, pool).
Proof. done. Qed.

(** From any position, the calls up to the end give the rest in order and wrap. *)
Lemma draw_rest ips n : ∀ i,
  (S i + n = length ips)%nat →
  draw (S n) (mkPool ips (Z.of_nat i)) = Ok (drop i ips, mkPool ips 0).
Proof.
  induction n as [|n IH]; intros i Hi; rewrite draw_S;
    (destruct (lookup_lt_is_Some_2 ips i) as [ip Hip]; [lia|]);
    unfold next_round_robin, idx; cbn [pool_ips pool_index];
    (destruct (Z.ltb_spec (Z.of_nat i) 0); [lia|]); rewrite Nat2Z.id, Hip; osimpl;
    (destruct (Z.eqb_spec (len ips) 0); [unfold len in *; lia|]); osimpl;
    rewrite (drop_S _ _ _ Hip).
  - replace (Z.of_nat i + 1) with (len ips) by (unfold len; lia).
    by rewrite Z.mod_same, drop_ge by (done || lia).
  - rewrite Z.mod_small by (unfold len; lia).
    replace (Z.of_nat i + 1) with (Z.of_nat (S i)) by lia.
    rewrite (IH (S i)) by lia. done.
Qed.
