(* ===== verification/Bench.v ===== *)
(** * The benchmark tool ([scripts/benchmark/src/main.rs], [scripts/common/src/stats.rs])

    A worker thread of the benchmark: it draws a blocked source address, a protocol
    and ports, builds the packet in its buffer, hands it to the raw socket and keeps
    statistics, which are summed over the threads at the end. The clock and the stop
    flag only decide how many rounds a worker makes: the number of rounds is an
    argument. Rates, pacing and the report are in [Report]. *)
From stdpp Require Import base numbers list gmap fin_maps strings sorting.
From Stdlib Require Import ZArith Lia.
From S2P Require Import Prelude Net Common Str Wire Packet Generator.

Local Open Scope Z_scope.

(** ** [ThreadStats] *)
Record ThreadStats : Type := mkThreadStats {
  thread_id : Z;
  packets_sent : Z;
  bytes_sent : Z;
  tcp_packets : Z;
  udp_packets : Z;
  icmp_packets : Z;
  icmpv6_packets : Z;
  other_packets : Z;
  expected_dropped : Z;
  expected_accepted : Z;
  errors : Z;
}.

Definition ThreadStats_new (id : Z) : ThreadStats := mkThreadStats id 0 0 0 0 0 0 0 0 0 0.

(** [if dropped { expected_dropped += 1 } else { expected_accepted += 1 }]. *)
Definition record_expected (s : ThreadStats) (dropped : bool) : ThreadStats :=
  let '(mkThreadStats i p b t u ic i6 o ed ea e) := s in
  if dropped then mkThreadStats i p b t u ic i6 o (wrap_u64 (ed + 1)) ea e
  else mkThreadStats i p b t u ic i6 o ed (wrap_u64 (ea + 1)) e.

Definition record_tcp (s : ThreadStats) (bytes : Z) (dropped : bool) : ThreadStats :=
  let '(mkThreadStats i p b t u ic i6 o ed ea e) := s in
  record_expected (mkThreadStats i (wrap_u64 (p + 1)) (wrap_u64 (b + bytes)) (wrap_u64 (t + 1))
    u ic i6 o ed ea e) dropped.
Definition record_udp (s : ThreadStats) (bytes : Z) (dropped : bool) : ThreadStats :=
  let '(mkThreadStats i p b t u ic i6 o ed ea e) := s in
  record_expected (mkThreadStats i (wrap_u64 (p + 1)) (wrap_u64 (b + bytes)) t (wrap_u64 (u + 1))
    ic i6 o ed ea e) dropped.
Definition record_icmp (s : ThreadStats) (bytes : Z) (dropped : bool) : ThreadStats :=
  let '(mkThreadStats i p b t u ic i6 o ed ea e) := s in
  record_expected (mkThreadStats i (wrap_u64 (p + 1)) (wrap_u64 (b + bytes)) t u
    (wrap_u64 (ic + 1)) i6 o ed ea e) dropped.
Definition record_icmpv6 (s : ThreadStats) (bytes : Z) (dropped : bool) : ThreadStats :=
  let '(mkThreadStats i p b t u ic i6 o ed ea e) := s in
  record_expected (mkThreadStats i (wrap_u64 (p + 1)) (wrap_u64 (b + bytes)) t u ic
    (wrap_u64 (i6 + 1)) o ed ea e) dropped.
Definition record_other (s : ThreadStats) (bytes : Z) (dropped : bool) : ThreadStats :=
  let '(mkThreadStats i p b t u ic i6 o ed ea e) := s in
  record_expected (mkThreadStats i (wrap_u64 (p + 1)) (wrap_u64 (b + bytes)) t u ic i6
    (wrap_u64 (o + 1)) ed ea e) dropped.
Definition ThreadStats_record_error (s : ThreadStats) : ThreadStats :=
  let '(mkThreadStats i p b t u ic i6 o ed ea e) := s in
  mkThreadStats i p b t u ic i6 o ed ea (wrap_u64 (e + 1)).

(** ** [BenchmarkSummary::aggregate], the integer fields *)
Record BenchmarkSummary : Type := mkSummary {
  total_packets : Z; total_bytes : Z;
  sum_expected_dropped : Z; sum_expected_accepted : Z;
  sum_tcp : Z; sum_udp : Z; sum_icmp : Z; sum_icmpv6 : Z; sum_other : Z; sum_errors : Z;
  summary_threads : Z;
}.

Definition aggregate (threads : list ThreadStats) : BenchmarkSummary :=
  fold_left (λ a t,
    mkSummary (wrap_u64 (total_packets a + packets_sent t))
      (wrap_u64 (total_bytes a + bytes_sent t))
      (wrap_u64 (sum_expected_dropped a + expected_dropped t))
      (wrap_u64 (sum_expected_accepted a + expected_accepted t))
      (wrap_u64 (sum_tcp a + tcp_packets t)) (wrap_u64 (sum_udp a + udp_packets t))
      (wrap_u64 (sum_icmp a + icmp_packets t)) (wrap_u64 (sum_icmpv6 a + icmpv6_packets t))
      (wrap_u64 (sum_other a + other_packets t)) (wrap_u64 (sum_errors a + errors t))
      (summary_threads a))
    threads (mkSummary 0 0 0 0 0 0 0 0 0 0 (len threads)).

(** ** The worker *)

(** What the thread's closure captures; [sender] is whether the raw socket opened. *)
Record BenchConfig : Type := mkConfig {
  cfg_target : list Z;
  cfg_packet_size : Z;
  cfg_protocol : ProtocolChoice;
  cfg_pool : IpPool;
  cfg_sender : bool;
}.

(** [packet_size: args.packet_size.max(64)]. *)
Definition bench_config (target : list Z) (packet_size : Z) (protocol : ProtocolChoice)
    (pool : IpPool) (sender : bool) : BenchConfig :=
  mkConfig target (Z.max packet_size 64) protocol pool sender.

(** The thread's variables; [w_counted] is what it added to the shared counter. *)
Record Worker : Type := mkWorker {
  w_prng : FastPrng;
  w_buf : PacketBuffer;
  w_stats : ThreadStats;
  w_seq : Z;
  w_id : Z;
  w_batch : Z;
  w_counted : Z;
}.

Definition worker_start (tid : Z) : Worker :=
  mkWorker (prng_new (Z.lxor 0xdeadbeef12345678 (wrap_u64 (tid * 0x517cc1b727220a95))))
    new_buffer (ThreadStats_new tid) (wrap_u32 (tid * 100000)) (wrap_u16 (wrap_u16 tid * 1000)) 0 0.

(** [&payload_padding[..packet_size.saturating_sub(header_len).min(payload_padding.len())]],
    of a padding of [packet_size] bytes. *)
Definition pad_slice (packet_size header_len : Z) : list Z :=
  replicate (Z.to_nat (Z.min (Z.max 0 (packet_size - header_len)) packet_size)) 0x41.

(** The [match proto]: the length written, the buffer and the statistics. *)
Definition write_packet (cfg : BenchConfig) (proto : PacketProtocol) (src_ip : list Z)
    (src_port dst_port seq id : Z) (buf : list Z) (stats : ThreadStats)
    : outcome unit (Z * list Z * ThreadStats) :=
  let size := cfg_packet_size cfg in
  match proto with
  | PTcp =>
      '(n, buf) ← build_ipv4_tcp_syn buf src_ip (cfg_target cfg) src_port dst_port seq id
                    (pad_slice size (IPV4_HEADER_LEN + TCP_HEADER_LEN));
      mret (n, buf, record_tcp stats n true)
  | PUdp =>
      '(n, buf) ← build_ipv4_udp buf src_ip (cfg_target cfg) src_port dst_port id
                    (pad_slice size (IPV4_HEADER_LEN + UDP_HEADER_LEN));
      mret (n, buf, record_udp stats n true)
  | PIcmp =>
      '(n, buf) ← build_ipv4_icmp_echo buf src_ip (cfg_target cfg) id 1 id
                    (pad_slice size (IPV4_HEADER_LEN + ICMP_HEADER_LEN));
      mret (n, buf, record_icmp stats n true)
  | PIcmpv6 => mret (0, buf, record_icmpv6 stats size true)
  | POther =>
      '(n, buf) ← build_ipv4_other buf src_ip (cfg_target cfg) IPPROTO_TEST_OTHER id
                    (pad_slice size IPV4_HEADER_LEN);
      mret (n, buf, record_other stats n true)
  end.

(** One round of the loop: the packet handed to the socket, if any. *)
Definition bench_round (cfg : BenchConfig) (w : Worker) : outcome unit (option (list Z) * Worker) :=
  '(src_ip, prng) ← next_random (cfg_pool cfg) (w_prng w);
  '(proto, prng) ← select (cfg_protocol cfg) prng;
  let seq := wrap_u32 (w_seq w + 1) in
  let id := wrap_u16 (w_id w + 1) in
  '(sp, prng) ← gen_range prng 1024 65535;
  '(dp, prng) ← gen_range prng 1 1024;
  '(written_len, data, stats) ←
    write_packet cfg proto src_ip (wrap_u16 sp) (wrap_u16 dp) seq id (pb_data (w_buf w)) (w_stats w);
  let buf := buffer_mut (w_buf w) data in
  '(sent, buf) ←
    (if 0 <? written_len then
       let buf := set_len buf written_len in
       if cfg_sender cfg then bytes ← as_slice buf; mret (Some bytes, buf) else mret (None, buf)
     else mret (None, buf));
  let batch := wrap_u64 (w_batch w + 1) in
  let '(batch, counted) :=
    if 64 <=? batch then (0, wrap_u64 (w_counted w + batch)) else (batch, w_counted w) in
  mret (sent, mkWorker prng buf stats seq id batch counted).

(** [n] rounds, until the flag or the clock stops the worker: the packets sent. *)
Fixpoint bench_loop (n : nat) (cfg : BenchConfig) (w : Worker) : outcome unit (list (list Z) * Worker) :=
  match n with
  | O => mret ([], w)
  | S n' =>
      '(sent, w) ← bench_round cfg w;
      '(rest, w) ← bench_loop n' cfg w;
      mret (option_list sent ++ rest, w)
  end.

(** The whole thread: the rest of the batch is counted at the end. *)
Definition bench_thread (n : nat) (cfg : BenchConfig) (tid : Z)
    : outcome unit (list (list Z) * ThreadStats * Z) :=
  '(sent, w) ← bench_loop n cfg (worker_start tid);
  mret (sent, w_stats w,
        if 0 <? w_batch w then wrap_u64 (w_counted w + w_batch w) else w_counted w).

(** ** One round, in terms of the builders *)

(** The packet a protocol stands for; ICMPv6 is counted and not sent. *)
Definition probe_of (proto : PacketProtocol) (sp dp seq id : Z) : option Probe :=
  match proto with
  | PTcp => Some (TcpSyn sp dp seq)
  | PUdp => Some (UdpDatagram sp dp)
  | PIcmp => Some (IcmpEcho id 1)
  | PIcmpv6 => None
  | POther => Some (OtherProto IPPROTO_TEST_OTHER)
  end.
Definition record (proto : PacketProtocol) : ThreadStats → Z → bool → ThreadStats :=
  match proto with
  | PTcp => record_tcp | PUdp => record_udp | PIcmp => record_icmp
  | PIcmpv6 => record_icmpv6 | POther => record_other
  end.

Lemma write_packet_build cfg proto src sp dp seq id buf stats :
  write_packet cfg proto src sp dp seq id buf stats =
  match probe_of proto sp dp seq id with
  | Some p => '(n, buf) ← build p buf src (cfg_target cfg) id
                            (pad_slice (cfg_packet_size cfg) (20 + probe_header p));
              mret (n, buf, record proto stats n true)
  | None => Ok (0, buf, record proto stats (cfg_packet_size cfg) true)
  end.
Proof. by destruct proto. Qed.

(** A packet of [size] bytes from a pool address to the target, as the firewall's
    classifier reads it: never from a port that is exempt from the rules. *)
Definition attack_packet (cfg : BenchConfig) (bytes : list Z) : Prop :=
  len bytes = cfg_packet_size cfg ∧ Forall byte_ok bytes ∧
  ∃ src proto sp dp, src ∈ pool_ips (cfg_pool cfg) ∧ (sp = 0 ∨ 1024 <= sp) ∧
    ∀ dmac smac tags, frame_ok dmac smac tags ETH_P_IP → (length tags <= 2)%nat →
    classify_packet (eth_frame dmac smac tags ETH_P_IP bytes) =
      Ok (mkParsed 4 (pad16 src) (pad16 (cfg_target cfg)) proto sp dp
            (14 + 4 * len tags + len bytes) (34 + 4 * len tags)).

Definition config_ok (cfg : BenchConfig) : Prop :=
  bytes_ok 4 (cfg_target cfg) ∧ 64 <= cfg_packet_size cfg ∧
  Forall (bytes_ok 4) (pool_ips (cfg_pool cfg)) ∧ 0 < len (pool_ips (cfg_pool cfg)).
#[global] Instance config_ok_dec cfg : Decision (config_ok cfg).
Proof. unfold config_ok. apply _. Defined.

Lemma pad_slice_len size h : 0 <= h <= 40 → 64 <= size → len (pad_slice size h) = size - h.
Proof. intros. unfold len, pad_slice. rewrite length_replicate. lia. Qed.

Lemma pad_slice_bytes size h : Forall byte_ok (pad_slice size h).
Proof. unfold pad_slice. apply Forall_replicate. by_decide. Qed.

Lemma probe_of_ok proto sp dp seq id p :
  in_width 16 sp → in_width 16 dp → in_width 32 seq → in_width 16 id →
  probe_of proto sp dp seq id = Some p → probe_ok p ∧ 0 <= probe_header p <= 20.
Proof. intros. destruct proto; simplify_eq/=; unfold in_width, byte_ok, IPPROTO_TEST_OTHER in *; lia. Qed.

Lemma probe_of_ports proto sp dp seq id p payload :
  probe_of proto sp dp seq id = Some p → 1024 <= sp →
  (probe_ports p payload).1 = 0 ∨ 1024 <= (probe_ports p payload).1.
Proof.
  intros H Hs. destruct proto; try discriminate H; injection H as <-;
    [right; exact Hs|right; exact Hs|left; reflexivity|left; reflexivity].
Qed.

(** ** Statistics of one round *)

(** The counters after [n] rounds of [size] bytes, none of which wrapped. *)
Definition counts (n size : Z) (s : ThreadStats) : Prop :=
  packets_sent s = n ∧ bytes_sent s = n * size ∧ expected_dropped s = n ∧
  expected_accepted s = 0 ∧ errors s = 0 ∧
  0 <= tcp_packets s ∧ 0 <= udp_packets s ∧ 0 <= icmp_packets s ∧ 0 <= icmpv6_packets s ∧
  0 <= other_packets s ∧
  tcp_packets s + udp_packets s + icmp_packets s + icmpv6_packets s + other_packets s = n.

Lemma record_counts n size s proto :
  counts n size s → 0 <= n → 0 <= size → n + 1 < 2 ^ 64 → (n + 1) * size < 2 ^ 64 →
  counts (n + 1) size (record proto s size true) ∧
  icmpv6_packets (record proto s size true)
  = icmpv6_packets s + (if decide (proto = PIcmpv6) then 1 else 0).
Proof.
  intros (Hp & Hb & Hd & Ha & He & Ht & Hu & Hi & H6 & Ho & Hs) Hn Hsz Hlt Hlt'.
  destruct s as [i p b t u ic i6 o ed ea e]; simpl in *; subst.
  assert (0 <= (t + u + ic + i6 + o) * size) by nia.
  destruct proto; unfold counts; simpl; rewrite !wrap_small by lia; split_and!; (done || lia).
Qed.

(** ** The loop *)
Definition worker_ok (cfg : BenchConfig) (n : Z) (w : Worker) : Prop :=
  prng_ok (w_prng w) ∧ length (pb_data (w_buf w)) = 1500%nat ∧
  counts n (cfg_packet_size cfg) (w_stats w) ∧
  0 <= w_batch w < 64 ∧ 0 <= w_counted w ∧ w_counted w + w_batch w = n.

(** The packet a round hands to the socket, when it opened. *)
Definition sent_ok (cfg : BenchConfig) (icmpv6 : bool) (sent : option (list Z)) : Prop :=
  match sent with
  | Some bytes => icmpv6 = false ∧ cfg_sender cfg = true ∧ attack_packet cfg bytes
  | None => icmpv6 = true ∨ cfg_sender cfg = false
  end.

Lemma build_attack cfg proto src sp dp seq id buf p n data :
  config_ok cfg → cfg_packet_size cfg <= 1500 → src ∈ pool_ips (cfg_pool cfg) →
  in_width 16 sp → in_width 16 dp → in_width 32 seq → in_width 16 id → 1024 <= sp →
  probe_of proto sp dp seq id = Some p →
  build p buf src (cfg_target cfg) id (pad_slice (cfg_packet_size cfg) (20 + probe_header p))
    = Ok (n, data) →
  n = cfg_packet_size cfg ∧ length data = length buf ∧ len buf >= n ∧
  attack_packet cfg (take (Z.to_nat n) data).
Proof.
  intros (Ht & Hsz & Hpool & _) Hmax Hsrc Wsp Wdp Wseq Wid Hport Hp E.
  rewrite Forall_forall in Hpool. specialize (Hpool src Hsrc).
  destruct (probe_of_ok _ _ _ _ _ _ Wsp Wdp Wseq Wid Hp) as [Hok Hh].
  set (payload := pad_slice _ _) in *.
  assert (Hl : len payload = cfg_packet_size cfg - (20 + probe_header p)) by (apply pad_slice_len; lia).
  assert (Hb : Forall byte_ok payload) by apply pad_slice_bytes.
  assert (Hclass := λ dmac smac tags Hf Htg, build_classify p buf src (cfg_target cfg) id payload n data
    dmac smac tags Hpool Ht Hb Hok ltac:(lia) Hf Htg E).
  destruct (build_inv p buf src (cfg_target cfg) id payload n data) as (En & Hn & hc & c & Hdata);
    [done..|lia|done|].
  assert (Hpk : length (packet p src (cfg_target cfg) id payload hc c) = Z.to_nat n).
  { pose proof (packet_len p src (cfg_target cfg) id payload hc c Hpool Ht) as Hlp.
    unfold len in *. lia. }
  assert (Htake : take (Z.to_nat n) data = packet p src (cfg_target cfg) id payload hc c).
  { rewrite Hdata. by apply take_app_length'. }
  assert (len (take (Z.to_nat n) data) = n) as Hlt by (rewrite Htake; unfold len in *; lia).
  split_and!; [lia| |lia|].
  { rewrite Hdata, length_app, length_drop, Hpk. unfold len in *. lia. }
  unfold attack_packet. rewrite Hlt. split_and!; [lia| |].
  - rewrite Htake. unfold packet. apply Forall_app. split; [|by apply segment_bytes].
    by apply ipv4_header_bytes; [..|apply probe_proto_byte].
  - exists src, (probe_proto p), (probe_ports p payload).1, (probe_ports p payload).2.
    split_and!; [done|by eapply probe_of_ports|]. intros. by apply Hclass.
Qed.

(** The [match] on the protocol, when the packet fits the buffer. *)
Lemma write_packet_ok cfg proto src sp dp seq id buf stats :
  config_ok cfg → cfg_packet_size cfg <= 1500 → src ∈ pool_ips (cfg_pool cfg) →
  in_width 16 sp → in_width 16 dp → in_width 32 seq → in_width 16 id → 1024 <= sp →
  length buf = 1500%nat →
  ∃ data, length data = 1500%nat ∧
    if decide (proto = PIcmpv6) then
      write_packet cfg proto src sp dp seq id buf stats
        = Ok (0, data, record proto stats (cfg_packet_size cfg) true)
    else
      write_packet cfg proto src sp dp seq id buf stats
        = Ok (cfg_packet_size cfg, data, record proto stats (cfg_packet_size cfg) true) ∧
      attack_packet cfg (take (Z.to_nat (cfg_packet_size cfg)) data).
Proof.
  intros Hcfg Hmax Hsrc Wsp Wdp Wseq Wid Hport Hbuf. rewrite write_packet_build.
  destruct (probe_of proto sp dp seq id) as [p|] eqn:Hp.
  2: { exists buf. split; [done|]. by destruct proto. }
  pose proof Hcfg as (Ht & Hsz & Hpool & _). rewrite Forall_forall in Hpool.
  destruct (probe_of_ok _ _ _ _ _ _ Wsp Wdp Wseq Wid Hp) as [Hok Hh].
  set (payload := pad_slice _ _).
  assert (len payload = cfg_packet_size cfg - (20 + probe_header p)) by (apply pad_slice_len; lia).
  destruct (build_spec p buf src (cfg_target cfg) id payload) as (hc & c & _ & _ & E & _);
    [by apply Hpool|done|apply pad_slice_bytes|split; unfold len in *; lia|done|].
  cbn zeta in E. destruct (build_attack cfg proto src sp dp seq id buf p _ _ Hcfg Hmax Hsrc Wsp Wdp
    Wseq Wid Hport Hp E) as (En & Hlen & _ & Hatt).
  eexists. split; [etransitivity; [exact Hlen|exact Hbuf]|].
  destruct (decide (proto = PIcmpv6)) as [->|]; [discriminate Hp|].
  rewrite <-En at 3. split; [|exact Hatt]. rewrite E. osimpl. by rewrite En.
Qed.

(** The shared counter is fed in batches of 64. *)
Lemma batch_counted cfg n w prng buf stats seq id :
  prng_ok prng → length (pb_data buf) = 1500%nat → counts (n + 1) (cfg_packet_size cfg) stats →
  n + 1 < 2 ^ 64 → 0 <= w_batch w < 64 → 0 <= w_counted w → w_counted w + w_batch w = n →
  let '(batch, counted) :=
    if 64 <=? w_batch w + 1 then (0, wrap_u64 (w_counted w + (w_batch w + 1)))
    else (w_batch w + 1, w_counted w) in
  worker_ok cfg (n + 1) (mkWorker prng buf stats seq id batch counted).
Proof.
  intros Hp Hb Hs Hlt Hbatch Hc0 Hcounted. destruct (Z.leb_spec 64 (w_batch w + 1)); unfold worker_ok;
    cbn [w_prng w_buf w_stats w_batch w_counted]; rewrite ?wrap_small by lia;
    do 3 (split; [done|]); lia.
Qed.

Lemma bench_round_ok cfg n w :
  config_ok cfg → cfg_packet_size cfg <= 1500 → worker_ok cfg n w → 0 <= n →
  n + 1 < 2 ^ 64 → (n + 1) * cfg_packet_size cfg < 2 ^ 64 →
  ∃ sent w' icmpv6, bench_round cfg w = Ok (sent, w') ∧ worker_ok cfg (n + 1) w' ∧
    sent_ok cfg icmpv6 sent ∧
    icmpv6_packets (w_stats w') = icmpv6_packets (w_stats w) + (if icmpv6 then 1 else 0).
Proof.
  intros Hcfg Hmax (Hprng & Hbuf & Hcounts & Hbatch & Hc0 & Hcounted) Hn Hlt Hlt'.
  pose proof Hcfg as (_ & Hsz & _ & Hpool). unfold bench_round.
  destruct (next_random_ok (cfg_pool cfg) _ Hprng Hpool) as (src & p1 & -> & Hsrc & Hp1). osimpl.
  destruct (select_ok (cfg_protocol cfg) p1 Hp1) as (proto & p2 & -> & Hp2). osimpl.
  destruct (gen_range_ok p2 1024 65535 Hp2) as (sp & p3 & -> & Hp3 & Hsp); [by_decide..|lia|]. osimpl.
  destruct (gen_range_ok p3 1 1024 Hp3) as (dp & p4 & -> & Hp4 & Hdp); [by_decide..|lia|]. osimpl.
  rewrite (wrap_small 16 sp), (wrap_small 16 dp) by lia.
  destruct (write_packet_ok cfg proto src sp dp (wrap_u32 (w_seq w + 1)) (wrap_u16 (w_id w + 1))
    (pb_data (w_buf w)) (w_stats w)) as (data & Hdata & Hw);
    [done..|unfold in_width; lia|unfold in_width; lia|by apply wrap_in_width|by apply wrap_in_width|lia|done|].
  destruct (record_counts n (cfg_packet_size cfg) (w_stats w) proto Hcounts) as [Hcounts' H6]; [lia..|].
  rewrite (wrap_small 64 (w_batch w + 1)) by lia.
  pose proof (λ buf stats Hb Hs, batch_counted cfg n w p4 buf stats (wrap_u32 (w_seq w + 1))
    (wrap_u16 (w_id w + 1)) Hp4 Hb Hs ltac:(lia) Hbatch Hc0 Hcounted) as Hfin.
  destruct (if 64 <=? w_batch w + 1 then _ else _) as [batch counted].
  exists (if decide (proto = PIcmpv6) then None else
          if cfg_sender cfg then Some (take (Z.to_nat (cfg_packet_size cfg)) data) else None).
  destruct (decide (proto = PIcmpv6)); [|destruct Hw as [Hw Hatt]]; rewrite Hw; osimpl.
  - eexists _, true. split; [done|]. split; [by apply Hfin|]. split; [by left|done].
  - destruct (Z.ltb_spec 0 (cfg_packet_size cfg)); [|lia].
    unfold as_slice. cbn [set_len buffer_mut pb_data pb_len].
    rewrite read_at_ok by (unfold len in *; lia). eexists _, false.
    destruct (cfg_sender cfg) eqn:Hs; osimpl; (split; [done|]);
      (split; [by apply Hfin|]); (split; [|cbn [w_stats]; by rewrite H6]).
    + done.
    + by right.
Qed.

Lemma bench_loop_ok cfg k : ∀ n w,
  config_ok cfg → cfg_packet_size cfg <= 1500 → worker_ok cfg n w → 0 <= n →
  n + Z.of_nat k < 2 ^ 64 → (n + Z.of_nat k) * cfg_packet_size cfg < 2 ^ 64 →
  ∃ sent w', bench_loop k cfg w = Ok (sent, w') ∧ worker_ok cfg (n + Z.of_nat k) w' ∧
    Forall (attack_packet cfg) sent ∧
    len sent = if cfg_sender cfg
      then Z.of_nat k - (icmpv6_packets (w_stats w') - icmpv6_packets (w_stats w)) else 0.
Proof.
  induction k as [|k IH]; intros n w Hcfg Hmax Hw Hn Hlt Hlt'.
  { exists [], w. rewrite Z.add_0_r. split_and!; [done|apply Hw..|done|].
    destruct (cfg_sender cfg); unfold len; simpl; lia. }
  pose proof Hcfg as (_ & Hsz & _).
  destruct (bench_round_ok cfg n w) as (sent & w1 & i6 & E & Hw1 & Hs & H6); [done..|lia|nia|].
  destruct (IH (n + 1) w1) as (rest & w2 & E2 & Hw2 & Hrest & Hl); [done..|lia|lia|nia|].
  replace (n + Z.of_nat (S k)) with (n + 1 + Z.of_nat k) by lia.
  exists (option_list sent ++ rest), w2. cbn [bench_loop]. rewrite E. osimpl. rewrite E2. osimpl.
  split; [done|]. split; [done|]. split.
  - apply Forall_app. split; [|done]. destruct sent as [b|]; [|constructor].
    apply Forall_singleton. apply Hs.
  - unfold len in *. rewrite length_app, Nat2Z.inj_add, Hl, H6.
    destruct sent as [b|]; cbn [sent_ok] in Hs; destruct i6, (cfg_sender cfg) eqn:?;
      simpl length; lia || naive_solver.
Qed.

(** A packet larger than the buffer is never built: a run that returns sent none. *)
Lemma bench_round_oversized cfg w sent w' :
  1500 < cfg_packet_size cfg →
  length (pb_data (w_buf w)) = 1500%nat →
  bench_round cfg w = Ok (sent, w') →
  sent = None ∧ length (pb_data (w_buf w')) = 1500%nat.
Proof.
  intros Hsz Hbuf. unfold bench_round.
  intros ([src p1] & _ & E)%outcome_bind_Ok. apply outcome_bind_Ok in E as ([proto p2] & _ & E).
  apply outcome_bind_Ok in E as ([sp p3] & _ & E). apply outcome_bind_Ok in E as ([dp p4] & _ & E).
  apply outcome_bind_Ok in E as ([[n data] stats] & Hw & E).
  rewrite write_packet_build in Hw. destruct (probe_of _ _ _ _ _) as [p|] eqn:Hp.
  - assert (0 <= probe_header p <= 20) by (destruct proto; simplify_eq/=; lia).
    rewrite build_small in Hw; [done|]. rewrite pad_slice_len by lia. unfold len. lia.
  - injection Hw as <- <- <-. cbn [Z.ltb Z.compare] in E. osimpl in E.
    destruct (if 64 <=? _ then _ else _) as [batch counted]. by injection E as <- <-.
Qed.

Lemma bench_loop_oversized cfg k : ∀ w sent w',
  1500 < cfg_packet_size cfg → length (pb_data (w_buf w)) = 1500%nat →
  bench_loop k cfg w = Ok (sent, w') → sent = [].
Proof.
  induction k as [|k IH]; intros w sent w' Hsz Hbuf E; cbn [bench_loop] in E; [by injection E|].
  apply outcome_bind_Ok in E as ([s w1] & E1 & E). apply outcome_bind_Ok in E as ([r w2] & E2 & E).
  destruct (bench_round_oversized cfg w s w1 Hsz Hbuf E1) as [-> Hb].
  injection E as <- <-. simpl. by eapply IH.
Qed.

Lemma worker_start_ok cfg tid : in_width 64 tid → worker_ok cfg 0 (worker_start tid).
Proof.
  intros Ht. split; [|split; [apply length_replicate|]].
  - apply prng_new_ok, lxor_width; [lia|by_decide|apply wrap_in_width; lia].
  - unfold worker_start, counts, ThreadStats_new.
    cbn [w_stats w_batch w_counted packets_sent bytes_sent tcp_packets udp_packets icmp_packets
         icmpv6_packets other_packets expected_dropped expected_accepted errors]. lia.
Qed.

Lemma bench_pool_config fuel ip_count pool target size protocol sender :
  0 < ip_count <= MAX_POOL → 2 * ip_count < Z.of_nat fuel →
  new_blocked_pool fuel ip_count = Ok pool → bytes_ok 4 target →
  config_ok (bench_config target size protocol pool sender) ∧ Forall blocked_source (pool_ips pool).
Proof.
  intros Hc Hf E Ht. destruct (new_blocked_pool_ok fuel ip_count) as (ips & E' & Hl & _ & Hb & _); [lia..|].
  rewrite E in E'. injection E' as ->. unfold config_ok, bench_config; simpl.
  split_and!; [done|lia| |lia|done].
  eapply Forall_impl; [done|]. apply blocked_source_bytes.
Qed.

Lemma bench_thread_sends n cfg tid sent stats counted bytes :
  config_ok cfg → in_width 64 tid → Z.of_nat n * cfg_packet_size cfg < 2 ^ 64 →
  bench_thread n cfg tid = Ok (sent, stats, counted) → bytes ∈ sent → attack_packet cfg bytes.
Proof.
  intros Hcfg Htid Hn E Hin. unfold bench_thread in E.
  apply outcome_bind_Ok in E as ([s w] & E & [= <- _ _]).
  destruct (Z.le_gt_cases (cfg_packet_size cfg) 1500) as [Hsz|Hsz].
  - pose proof Hcfg as (_ & H64 & _).
    destruct (bench_loop_ok cfg n 0 (worker_start tid)) as (s' & w' & E' & _ & Hs & _);
      [done..|by apply worker_start_ok|lia|nia|done|].
    rewrite E in E'. injection E' as <- <-. by eapply Forall_forall.
  - eapply bench_loop_oversized in E; [|done|apply length_replicate].
    subst. by apply not_elem_of_nil in Hin.
Qed.

(** C24 (invariant). A benchmark thread, for any seed, protocol profile and number of
    rounds, with a pool of at least one and at most 16,711,685 addresses. When the
    packet size is at most the 1500 bytes of the buffer no round panics; the per-protocol counters
    add up to the rounds, the shared counter receives every round, batched or not,
    and every packet handed to the socket has the requested size, comes from an
    address of the pool, goes to the target, is read so by the firewall's parser
    and never has an exempt source port. The rounds that drew ICMPv6 are counted as
    sent and send nothing. When the size is above 1500 no packet is ever sent. *)
Theorem bench_thread_accounts n fuel ip_count pool target size protocol sender tid :
  0 < ip_count <= MAX_POOL → 2 * ip_count < Z.of_nat fuel →
  new_blocked_pool fuel ip_count = Ok pool → bytes_ok 4 target → in_width 64 tid →
  Z.of_nat n * Z.max size 64 < 2 ^ 64 →
  let cfg := bench_config target size protocol pool sender in
  if size <=? 1500 then
    ∃ sent stats, bench_thread n cfg tid = Ok (sent, stats, Z.of_nat n) ∧
      counts (Z.of_nat n) (Z.max size 64) stats ∧ Forall (attack_packet cfg) sent ∧
      len sent = if sender then Z.of_nat n - icmpv6_packets stats else 0
  else ∀ sent stats counted, bench_thread n cfg tid = Ok (sent, stats, counted) → sent = [].
Proof.
  intros Hc Hf Hpool Ht Htid Hn cfg.
  destruct (bench_pool_config fuel ip_count pool target size protocol sender) as [Hcfg _]; [done..|].
  destruct (Z.leb_spec size 1500).
  - destruct (bench_loop_ok cfg n 0 (worker_start tid)) as (sent & w & E & Hw & Hs & Hl);
      [done|cbn; lia|by apply worker_start_ok|lia|nia|done|].
    destruct Hw as (_ & _ & Hcounts & Hbatch & Hc0 & Hcnt). rewrite Z.add_0_l in *.
    exists sent, (w_stats w). unfold bench_thread. rewrite E. osimpl. split_and!; [|done|done|].
    + destruct (Z.ltb_spec 0 (w_batch w)); rewrite ?wrap_small by nia; do 2 f_equal; lia.
    + rewrite Hl. cbn. destruct sender; [|done]. lia.
  - intros sent stats counted E. unfold bench_thread in E.
    apply outcome_bind_Ok in E as ([s w] & E & [= <- _ _]).
    eapply bench_loop_oversized; [| |exact E]; [cbn; lia|apply length_replicate].
Qed.

Lemma bench_thread_accounts_witness :
  ∃ sent stats, bench_thread 3 (bench_config [172; 28; 0; 2] 64 CMixed
      (from_ok (mkPool [] 0) (new_blocked_pool 15 7)) true) 0 = Ok (sent, stats, 3) ∧ packets_sent stats = 3.
Proof.
  destruct (bench_thread_accounts 3 15 7 (from_ok (mkPool [] 0) (new_blocked_pool 15 7))
    [172; 28; 0; 2] 64 CMixed true 0 ltac:(by_decide) ltac:(lia)
    ltac:(vm_compute; reflexivity) ltac:(by_decide) ltac:(by_decide) ltac:(lia))
    as (sent & stats & E & Hc & _).
  exists sent, stats. split; [exact E|exact (proj1 Hc)].
Defined.
