(* ===== verification/Report.v ===== *)
(** * The benchmark around its workers ([scripts/benchmark/src/main.rs],
    [scripts/common/src/stats.rs])

    The command line's durations, the share of the rate each thread gets and the
    pacing of a thread, the sampler of the peak rate, the summary in doubles with its
    report, and what a run asks of the daemon's drop log. Clock readings are arguments;
    a [Duration] or [Instant] is its nanoseconds. *)
From stdpp Require Import base numbers list gmap fin_maps strings sorting.
From Stdlib Require Import ZArith Lia SpecFloat.
From S2P Require Import Prelude Net Common BpfMaps Str Fmt Lines Metadata Console Doubles TopN RingBuf Telemetry.
From S2P Require Import Cidr Entry Parser Import Wire Packet Generator Bench.

Local Open Scope Z_scope.

(** ** Durations on the command line *)
Inductive duration_error : Type :=
| EmptyDuration
| InvalidDuration (s : list Z) (e : int_error).
Definition drop_last (k : nat) (s : list Z) : list Z := take (length s - k) s.

(** In a release build the product with sixty wraps. *)
Definition parse_human_duration {low : Lowercase} (s : list Z) : outcome duration_error Z :=
  let trimmed := to_lowercase (trim s) in
  let number text := map_err (InvalidDuration s) (parse_u64 text) in
  if len trimmed =? 0 then Err EmptyDuration
  else if ends_with (lit "ms") trimmed then
    val ← number (drop_last 2 trimmed); mret (val * 10 ^ 6)
  else if ends_with (lit "s") trimmed then
    val ← number (drop_last 1 trimmed); mret (val * 10 ^ 9)
  else if ends_with (lit "m") trimmed then
    val ← number (drop_last 1 trimmed); mret (wrap_u64 (val * 60) * 10 ^ 9)
  else val ← number trimmed; mret (val * 10 ^ 9).

(** ** Arguments *)
Record BenchArgs : Type := mkBenchArgs {
  ba_duration : Z;
  ba_connections : Z;
  ba_target : list Z;
  ba_packet_size : Z;
  ba_threads : Z;
  ba_protocol : ProtocolChoice;
  ba_ip_count : Z;
  ba_rate : Z;
  ba_keep_drop_logs : bool;
  ba_no_color : bool;
}.
Definition BenchArgs_default : BenchArgs :=
  mkBenchArgs (30 * 10 ^ 9) 300 [172; 28; 0; 2] 64 0 CMixed 100 0 false false.
(** [parallelism] is [thread::available_parallelism], when known. *)
Definition num_threads (parallelism : option Z) (args : BenchArgs) : Z :=
  if ba_threads args =? 0 then default 4 parallelism else ba_threads args.
Definition per_thread_rate (rate threads : Z) : Z :=
  if 0 <? rate then Z.max (rate / threads) 1 else 0.

(** ** Pacing of one thread *)
Record pacer : Type := mkPacer { rate_interval_start : Z; rate_interval_packets : Z }.

(** [Duration::from_secs_f64] rounds to the nearest nanosecond. *)
Definition from_secs_f64 (x : f64) : Z := scaled 9 x.
Definition expected_time (packets rate : Z) : Z :=
  from_secs_f64 (f64_div (f64_of_Z packets) (f64_of_Z rate)).

(** After one packet: [now] is read for the elapsed time, [after] once more after the
    sleep, whose length is the second result. *)
Definition pace (rate : Z) (p : pacer) (now after : Z) : pacer * Z :=
  if 0 <? rate then
    let packets := wrap_u64 (rate_interval_packets p + 1) in
    if 50 <=? packets then
      let expected := expected_time packets rate in
      let elapsed := saturating_sub now (rate_interval_start p) in
      (mkPacer after 0, if elapsed <? expected then expected - elapsed else 0)
    else (mkPacer (rate_interval_start p) packets, 0)
  else (p, 0).

(** ** The sampler of the peak rate *)
Record sampler : Type := mkSampler { last_sample_time : Z; last_packets : Z; sampled_peak : Z }.

(** The loop of [compare_exchange_weak], which fails without cause [fails] times; no
    other thread writes the peak. *)
Fixpoint raise_peak (fails : nat) (prev current : Z) : Z :=
  if prev <? current then
    match fails with O => current | S fails' => raise_peak fails' prev current end
  else prev.
Definition sampled_pps (s : sampler) (now current_packets : Z) : Z :=
  f64_as_u64 (f64_div (f64_of_Z (saturating_sub current_packets (last_packets s)))
    (as_secs_f64 (now - last_sample_time s))).
Definition sample (s : sampler) (now current_packets : Z) (fails : nat) : sampler :=
  if SFltb (f64_lit 4 2) (as_secs_f64 (now - last_sample_time s)) then
    mkSampler now current_packets (raise_peak fails (sampled_peak s) (sampled_pps s now current_packets))
  else s.

(** ** The summary *)
Record Summary : Type := mkSummary {
  sm_duration : Z;
  sm_totals : BenchmarkSummary;
  sm_connections : Z;
  sm_unique_ips : Z;
  sm_avg_pps : f64;
  sm_peak_pps : f64;
  sm_throughput_mbps : f64;
  sm_throughput_gbps : f64;
  sm_cpu_user_secs : f64;
  sm_cpu_sys_secs : f64;
  sm_thread_breakdowns : list ThreadStats;
}.
Definition summarize (threads : list ThreadStats) (duration connections unique_ips : Z)
    (peak_pps cpu_user_secs cpu_sys_secs : f64) : Summary :=
  let totals := aggregate threads in
  let secs := f64_max (as_secs_f64 duration) (f64_lit 1 4) in
  let avg_pps := f64_div (f64_of_Z (total_packets totals)) secs in
  let total_bits := f64_mul (f64_of_Z (total_bytes totals)) (f64_of_Z 8) in
  let throughput_mbps := f64_div (f64_div total_bits secs) (f64_of_Z (10 ^ 6)) in
  mkSummary duration totals connections unique_ips avg_pps (f64_max peak_pps avg_pps) throughput_mbps
    (f64_div throughput_mbps (f64_of_Z 1000)) cpu_user_secs cpu_sys_secs threads.

Definition KIB : f64 := f64_of_Z 1024.
Definition MIB : f64 := f64_of_Z (1024 * 1024).
Definition GIB : f64 := f64_of_Z (1024 * 1024 * 1024).
Definition format_bytes (bytes : Z) : list Z :=
  let b := f64_of_Z bytes in
  let in_unit unit name := fixed 2 (f64_div b unit) ++ lit name ++ format_int_with_spaces bytes ++ lit " bytes)" in
  if SFleb GIB b then in_unit GIB " GiB ("%string
  else if SFleb MIB b then in_unit MIB " MiB ("%string
  else if SFleb KIB b then in_unit KIB " KiB ("%string
  else format_int_with_spaces bytes ++ lit " bytes".

Definition percent_of (count total : Z) : f64 :=
  if 0 <? total then f64_mul (f64_div (f64_of_Z count) (f64_of_Z total)) (f64_of_Z 100) else f64_of_Z 0.

Section Text.
Context `{!PrettyConsole} (no_color : bool).
Definition line (t : list Z) : list Z := t ++ [10].
Definition labelled_line (label : list Z) (value : Console) : list Z := line (label ++ show value).
Definition rule_of_text (s : String.string) : list Z := line (show (tools_cyan_bold no_color (uni s))).
Definition protocol_line (label : String.string) (count total : Z) : list Z :=
  labelled_line (uni label) (tools_bold no_color
    (format_int_with_spaces count ++ lit " (" ++ fixed 1 (percent_of count total) ++ lit "%)")).
Definition thread_line (t : ThreadStats) : list Z :=
  labelled_line (uni "   🧵 Thread #" ++ pad_zeros 2 (decimal (thread_id t)) ++ lit "                : ")
    (tools_bold no_color (format_int_with_spaces (packets_sent t) ++ lit " packets (" ++
       format_bytes (bytes_sent t) ++ lit ")")).

Definition format_report (s : Summary) : list Z :=
  let t := sm_totals s in
  let b := tools_bold no_color in
  rule_of_text "==========================================================" ++
  rule_of_text "          🚀 Benchmark completed successfully" ++
  rule_of_text "==========================================================" ++
  labelled_line (uni "⏱️ Duration                    : ") (b (fixed 2 (as_secs_f64 (sm_duration s)) ++ lit "s")) ++
  labelled_line (uni "📦 Packets sent                : ")
    (b (format_int_with_spaces (total_packets t) ++ lit " packets")) ++
  labelled_line (uni "🚫 Packets expected to be dropped : ")
    (tools_yellow_bold no_color (format_int_with_spaces (sum_expected_dropped t) ++ lit " packets (" ++
       fixed 1 (percent_of (sum_expected_dropped t) (total_packets t)) ++ lit "%)")) ++
  labelled_line (uni "📊 Packets per second (avg)    : ")
    (b (tools_format_float_with_spaces (sm_avg_pps s) 2 ++ lit " pps")) ++
  labelled_line (uni "📈 Packets per second (peak)   : ")
    (b (tools_format_float_with_spaces (sm_peak_pps s) 2 ++ lit " pps")) ++
  labelled_line (uni "💾 Total bytes sent            : ") (b (format_bytes (total_bytes t))) ++
  labelled_line (uni "🌐 Bandwidth / throughput      : ")
    (b (tools_format_float_with_spaces (sm_throughput_mbps s) 2 ++ lit " Mbit/s (" ++
        tools_format_float_with_spaces (sm_throughput_gbps s) 4 ++ lit " Gbit/s)")) ++
  labelled_line (uni "🔗 Number of connections       : ") (b (format_int_with_spaces (sm_connections s))) ++
  labelled_line (uni "🧵 Number of threads           : ") (b (format_int_with_spaces (summary_threads t))) ++
  labelled_line (uni "🌐 Unique attacker IPs tested  : ")
    (b (format_int_with_spaces (sm_unique_ips s) ++ lit " IPs")) ++
  rule_of_text "----------------------------------------------------------" ++
  rule_of_text "📡 Protocol Breakdown:" ++
  protocol_line "   📡 TCP packets              : " (sum_tcp t) (total_packets t) ++
  protocol_line "   📡 UDP packets              : " (sum_udp t) (total_packets t) ++
  protocol_line "   📡 ICMP packets             : " (sum_icmp t) (total_packets t) ++
  (if 0 <? sum_icmpv6 t
   then protocol_line "   📡 ICMPv6 packets           : " (sum_icmpv6 t) (total_packets t) else []) ++
  protocol_line "   📡 Other packets (raw IP)   : " (sum_other t) (total_packets t) ++
  labelled_line (uni "❌ Errors                      : ")
    ((if 0 <? sum_errors t then tools_red_bold no_color else b) (format_int_with_spaces (sum_errors t))) ++
  rule_of_text "----------------------------------------------------------" ++
  rule_of_text "🧵 Per-Thread Packet Distribution:" ++
  (sm_thread_breakdowns s ≫= thread_line) ++
  rule_of_text "----------------------------------------------------------" ++
  labelled_line (uni "⚙️ CPU Resource Consumption    : ")
    (b (lit "User: " ++ fixed 2 (sm_cpu_user_secs s) ++ lit "s | System: " ++ fixed 2 (sm_cpu_sys_secs s) ++
        lit "s (Total: " ++ fixed 2 (f64_add (sm_cpu_user_secs s) (sm_cpu_sys_secs s)) ++ lit "s)")) ++
  rule_of_text "==========================================================".
End Text.

(** ** A run *)

(** What the run sends to the daemon before and after the traffic. *)
Definition requests_before (args : BenchArgs) : list (list Z) :=
  if ba_keep_drop_logs args then [] else [toggle_request (ba_target args) false].
Definition requests_after (args : BenchArgs) : list (list Z) :=
  if ba_keep_drop_logs args then [] else [toggle_request (ba_target args) true].

(** The threads' results after [rounds id] rounds each; a thread that panicked is left
    out by the join. *)
Definition joined_stats (cfg : BenchConfig) (rounds : nat → nat) (threads : nat) : list ThreadStats :=
  omap (λ id, match bench_thread (rounds id) cfg (Z.of_nat id) with
              | Ok (_, stats, _) => Some stats
              | _ => None
              end) (seq 0 threads).
(** [pool] is the pool of blocked addresses, [sender] whether raw sockets open,
    [measured] the time and CPU seconds at the end. *)
Definition run_benchmark (args : BenchArgs) (parallelism : option Z) (pool : IpPool) (sender : bool)
    (rounds : nat → nat) (elapsed : Z) (peak : Z) (cpu_user cpu_sys : f64) : Summary :=
  let cfg := bench_config (ba_target args) (ba_packet_size args) (ba_protocol args) pool sender in
  summarize (joined_stats cfg rounds (Z.to_nat (num_threads parallelism args))) elapsed
    (ba_connections args) (ba_ip_count args) (f64_of_Z peak)
    (f64_max cpu_user (f64_of_Z 0)) (f64_max cpu_sys (f64_of_Z 0)).

Example report_numbers :
  format_bytes 500 = lit "500 bytes" ∧
  format_bytes 2048 = lit "2.00 KiB (2 048 bytes)" ∧
  format_bytes 1572864 = lit "1.50 MiB (1 572 864 bytes)" ∧
  format_bytes 1073741823 = lit "1024.00 MiB (1 073 741 823 bytes)" ∧
  fixed 1 (percent_of 1 3) = lit "33.3" ∧
  expected_time 50 1000 = 50000000 ∧ expected_time 50 3 = 16666666667.
Proof. vm_compute. done. Qed.

(** ** Durations read back *)

Lemma lowercase_ascii {low : Lowercase} s :
  Forall (λ c, 0 <= c < 65 ∨ 91 <= c < 128) s → to_lowercase s = s.
Proof.
  unfold to_lowercase. induction 1 as [|c s Hc _ IH]; [done|]. rewrite bind_cons, IH.
  destruct (Z.leb_spec 65 c), (Z.leb_spec c 90); cbn [andb]; try lia;
    rewrite (proj2 (Z.ltb_lt c 128)) by lia; done.
Qed.

Lemma to_lowercase_app {low : Lowercase} s t : to_lowercase (s ++ t) = to_lowercase s ++ to_lowercase t.
Proof. apply bind_app. Qed.

Lemma drop_last_app s t : drop_last (length t) (s ++ t) = s.
Proof. unfold drop_last. rewrite length_app, Nat.add_sub. apply take_app_length. Qed.

Lemma ends_with_snoc p c s d : ends_with (p ++ [c]) (s ++ [d]) = (c =? d) && ends_with p s.
Proof. unfold ends_with. by rewrite !reverse_app. Qed.

(** A number ends with a digit, so never with a unit. *)
Lemma decimal_ends c s n : 0 <= n → ¬ 48 <= c <= 57 → ends_with (s ++ [c]) (decimal n) = false.
Proof.
  intros Hn Hc. pose proof (to_radix_digits 20 n Hn) as Hd. apply Forall_reverse in Hd.
  unfold ends_with, decimal. rewrite reverse_app. destruct Hd as [|d r Hd _]; [done|].
  cbn. rewrite (proj2 (Z.eqb_neq _ _)) by lia. done.
Qed.

(** The units as written, in lower or upper case, with the nanoseconds of a number. *)
Definition duration_units : list (list Z * (Z → Z)) :=
  [([], λ n, n * 10 ^ 9); (lit "s", λ n, n * 10 ^ 9); (lit "S", λ n, n * 10 ^ 9);
   (lit "ms", λ n, n * 10 ^ 6); (lit "MS", λ n, n * 10 ^ 6); (lit "Ms", λ n, n * 10 ^ 6);
   (lit "mS", λ n, n * 10 ^ 6);
   (lit "m", λ n, wrap_u64 (n * 60) * 10 ^ 9); (lit "M", λ n, wrap_u64 (n * 60) * 10 ^ 9)].
Definition spaces (s : list Z) : Prop := Forall (λ c, is_whitespace c = true) s.

Lemma digit_not_space c : 48 <= c <= 57 → is_whitespace c = false.
Proof. intros Hc. unfold is_whitespace. case_Z. Qed.

Lemma decimal_head n : 0 <= n → ∃ c, head (decimal n) = Some c ∧ is_whitespace c = false.
Proof.
  intros Hn. pose proof (to_radix_digits 20 n Hn) as Hd. fold (decimal n) in Hd.
  destruct (decimal n) as [|c s] eqn:E.
  - unfold decimal in E. cbn [to_radix] in E. destruct (n <? 10); [done|]. by apply app_nil in E as [_ ?].
  - inversion_clear Hd. exists c. split; [done|]. by apply digit_not_space.
Qed.

Lemma unit_trimmed before after n u :
  0 <= n → spaces before → spaces after →
  Forall (λ c, is_whitespace c = false) u →
  trim (before ++ (decimal n ++ u) ++ after) = decimal n ++ u.
Proof.
  intros Hn Hb Ha Hu. destruct (decimal_head n Hn) as (c & Hc & Wc).
  assert (∃ d, last (decimal n ++ u) = Some d ∧ is_whitespace d = false) as (d & Hd & Wd).
  { destruct u as [|x u] using rev_ind.
    - rewrite app_nil_r. pose proof (to_radix_digits 20 n Hn) as Hd. fold (decimal n) in Hd.
      destruct (last (decimal n)) as [d|] eqn:E.
      + exists d. split; [done|]. apply digit_not_space. rewrite Forall_forall in Hd.
        by apply Hd, last_Some_elem_of.
      + apply last_None in E. by rewrite E in Hc.
    - exists x. rewrite app_assoc, last_snoc. split; [done|]. apply Forall_app in Hu as [_ Hu].
      by inversion Hu. }
  apply (trim_padded before after _ c d); try done. destruct (decimal n); [done|exact Hc].
Qed.

(** Durations of the benchmark's command line read back: a printed
    number of 64 bits with any of the units the tool knows (none or s for seconds, ms,
    m), in either case and surrounded by white space, is accepted and means that many
    nanoseconds; minutes beyond 2^64 seconds wrap. *)
Theorem duration_reads_back {low : Lowercase} before n u nanos after :
  0 <= n < 2 ^ 64 → (u, nanos) ∈ duration_units → spaces before → spaces after →
  parse_human_duration (before ++ (decimal n ++ u) ++ after) = Ok (nanos n).
Proof.
  intros Hn Hu Hb Ha. unfold parse_human_duration.
  rewrite unit_trimmed; [|lia|done|done|]; cycle 1.
  { unfold duration_units in Hu. rewrite !elem_of_cons, elem_of_nil in Hu.
    repeat destruct Hu as [[= -> ->]|Hu]; [..|done]; by_decide. }
  rewrite to_lowercase_app, (lowercase_ascii (decimal n)); cycle 1.
  { eapply Forall_impl; [apply (to_radix_digits 20); lia|]. intros c ?. cbn in *. lia. }
  destruct (decimal_head n ltac:(lia)) as (c0 & Hc0 & _).
  rewrite (proj2 (Z.eqb_neq _ 0)); cycle 1.
  { unfold len. rewrite length_app. destruct (decimal n); [done|]. cbn [length]. lia. }
  pose proof (parse_decimal n Hn) as Hp.
  assert (Hno := λ c s Hc, decimal_ends c s n ltac:(lia) Hc).
  assert (ends_with (lit "ms") (decimal n) = false ∧ ends_with (lit "s") (decimal n) = false ∧
    ends_with (lit "m") (decimal n) = false) as (Ems & Es & Em).
  { split_and!; [apply (Hno 115 [109])|apply (Hno 115 [])|apply (Hno 109 [])]; lia. }
  pose proof (drop_last_app (decimal n) (lit "s") : drop_last 1 _ = _) as D1.
  pose proof (drop_last_app (decimal n) (lit "ms") : drop_last 2 _ = _) as D2.
  pose proof (drop_last_app (decimal n) (lit "m") : drop_last 1 _ = _) as D3.
  assert (ends_with (lit "ms") (decimal n ++ lit "s") = false ∧ ends_with (lit "ms") (decimal n ++ lit "m") = false ∧
    ends_with (lit "s") (decimal n ++ lit "m") = false) as (E1 & E2 & E3).
  { split_and!; [|exact (ends_with_snoc (lit "m") 115 (decimal n) 109)|
      exact (ends_with_snoc [] 115 (decimal n) 109)].
    etransitivity; [exact (ends_with_snoc (lit "m") 115 (decimal n) 115)|exact Em]. }
  unfold duration_units in Hu. rewrite !elem_of_cons, elem_of_nil in Hu.
  destruct Hu as [[= -> ->]|[[= -> ->]|[[= -> ->]|[[= -> ->]|[[= -> ->]|[[= -> ->]|[[= -> ->]|[[= -> ->]|[[= -> ->]|[]]]]]]]]]];
    [change (to_lowercase []) with (@nil Z); rewrite app_nil_r, Ems, Es, Em; by rewrite Hp|..].
  1-2: change (to_lowercase _) with (lit "s"); rewrite E1, ends_with_app, D1; by rewrite Hp.
  1-4: change (to_lowercase _) with (lit "ms"); rewrite ends_with_app, D2; by rewrite Hp.
  1-2: change (to_lowercase _) with (lit "m"); rewrite E2, E3, ends_with_app, D3; by rewrite Hp.
Qed.

Lemma duration_reads_back_witness :
  parse_human_duration (low := demo_lower) (lit "  90M ") = Ok (5400 * 10 ^ 9).
Proof.
  exact (duration_reads_back (low := demo_lower) (lit "  ") 90 (lit "M") (λ n, wrap_u64 (n * 60) * 10 ^ 9)
    (lit " ") ltac:(lia) ltac:(unfold duration_units; rewrite !elem_of_cons; tauto) ltac:(by_decide)
    ltac:(by_decide)).
Defined.

(** ** Pacing *)

(** Clock readings of a thread's rounds, in order and with sleeps that last as long as
    asked, from the time [last] on. *)
Fixpoint clock_ok (rate : Z) (p : pacer) (last : Z) (clock : list (Z * Z)) : Prop :=
  match clock with
  | [] => True
  | (now, after) :: rest =>
      let '(p', sleep) := pace rate p now after in
      last <= now ∧ now + sleep <= after ∧ clock_ok rate p' after rest
  end.
Definition end_of (start : Z) (clock : list (Z * Z)) : Z := default start (snd <$> last clock).

Lemma end_of_cons start c clock : end_of start (c :: clock) = end_of c.2 clock.
Proof. unfold end_of. destruct clock as [|c' clock] using rev_ind; [done|]. by rewrite app_comm_cons, !last_snoc. Qed.

Lemma expected_time_nonneg rate : 0 <= expected_time 50 rate.
Proof. unfold expected_time, from_secs_f64. destruct (f64_div _ _); [..|apply scaled_nonneg]; by_decide. Qed.

Lemma paced_from rate p last clock :
  0 < rate → 0 <= rate_interval_packets p < 50 → rate_interval_start p <= last →
  clock_ok rate p last clock →
  expected_time 50 rate * ((rate_interval_packets p + len clock) / 50)
    <= end_of last clock - rate_interval_start p.
Proof.
  intros Hr. revert p last. induction clock as [|[now after] clock IH]; intros p last Hp Hs Hc.
  { unfold len. cbn [length end_of]. rewrite Z.add_0_r, Z.div_small by lia. unfold end_of. cbn. lia. }
  rewrite end_of_cons. cbn [snd]. unfold len in *. cbn [length clock_ok] in *.
  rewrite Nat2Z.inj_succ. set (n := Z.of_nat (length clock)) in *.
  unfold pace in Hc. rewrite (proj2 (Z.ltb_lt 0 rate)) in Hc by done.
  assert (wrap_u64 (rate_interval_packets p + 1) = rate_interval_packets p + 1) as Hw
    by (apply wrap_small; lia).
  rewrite Hw in Hc. pose proof (expected_time_nonneg rate) as HE.
  destruct (Z.leb_spec 50 (rate_interval_packets p + 1)).
  - replace (rate_interval_packets p) with 49 in * by lia. cbn [Z.add] in Hc.
    destruct Hc as (Hln & Hsl & Hc). specialize (IH (mkPacer after 0) after ltac:(cbn; lia) ltac:(cbn; lia) Hc).
    cbn [rate_interval_packets rate_interval_start] in IH. rewrite Z.add_0_l in IH.
    replace (49 + Z.succ n) with (n + 1 * 50) by lia. rewrite Z.div_add by lia.
    assert (expected_time 50 rate <= after - rate_interval_start p); [|nia].
    unfold saturating_sub in Hsl. change (49 + 1) with 50 in Hsl.
    destruct (Z.ltb_spec (Z.max 0 (now - rate_interval_start p)) (expected_time 50 rate)); lia.
  - destruct Hc as (Hln & Hsl & Hc). specialize (IH (mkPacer (rate_interval_start p) (rate_interval_packets p + 1)) after
      ltac:(cbn; lia) ltac:(cbn; lia) Hc).
    cbn [rate_interval_packets rate_interval_start] in IH.
    replace (rate_interval_packets p + Z.succ n) with (rate_interval_packets p + 1 + n) by lia. exact IH.
Qed.

(** The time of fifty packets, as the doubles give it, is the exact one to the nanosecond. *)
Lemma expected_time_near rate :
  0 < rate < 2 ^ 64 → 50 * 10 ^ 9 <= (expected_time 50 rate + 1) * rate ∧ (expected_time 50 rate - 1) * rate <= 50 * 10 ^ 9.
Proof. apply fifty_nanos. Qed.

Lemma paced_sleep rate p now after (sleep := (pace rate p now after).2) :
  0 < rate < 2 ^ 64 → 0 <= rate_interval_packets p < 50 →
  0 <= sleep ∧
  (0 < sleep → Z.abs ((saturating_sub now (rate_interval_start p) + sleep) * rate - 50 * 10 ^ 9) <= rate).
Proof.
  intros Hr Hp. unfold sleep, pace. rewrite (proj2 (Z.ltb_lt 0 rate)) by lia.
  unfold wrap_u64. rewrite Z.mod_small by lia. destruct (Z.leb_spec 50 (rate_interval_packets p + 1)); [|cbn; lia].
  replace (rate_interval_packets p + 1) with 50 by lia. cbn [snd].
  destruct (Z.ltb_spec (saturating_sub now (rate_interval_start p)) (expected_time 50 rate)); [|lia].
  split; [lia|]. intros _. pose proof (expected_time_near rate Hr). rewrite Z.add_sub_assoc, Z.add_simpl_l. lia.
Qed.

(** C25 (bounds). The benchmark's rate limit holds, in exact arithmetic although the
    pacing is computed in doubles. With a limit, after any number of packets and however
    the clock advances, provided that a sleep lasts as long as asked, a thread with rate
    [r] has for every fifty packets it sent spent fifty seconds divided by [r], less at
    most one nanosecond: so over any run it is at most one batch of fifty packets ahead
    of its rate, up to that rounding. Nor does it wait for longer than it has to: it
    sleeps only at the end of a batch, and then until fifty seconds divided by [r] after
    the batch's start, to the nanosecond. All threads together are allowed the limit, or
    one packet a second each when the limit is smaller than their number. *)
Theorem worker_rate_bounded rate threads start clock :
  0 < rate < 2 ^ 64 → 0 < threads →
  let r := per_thread_rate rate threads in
  clock_ok r (mkPacer start 0) start clock →
  let batches := len clock / 50 in
  50 * 10 ^ 9 * batches <= r * (end_of start clock - start + batches) ∧
  (∀ p now after, 0 <= rate_interval_packets p < 50 →
    let sleep := (pace r p now after).2 in
    0 <= sleep ∧ (0 < sleep → rate_interval_packets p = 49 ∧
      Z.abs (r * (saturating_sub now (rate_interval_start p) + sleep) - 50 * 10 ^ 9) <= r)) ∧
  0 < r ∧ r * threads <= Z.max rate threads.
Proof.
  intros Hrate Ht r Hc batches. assert (0 < r <= rate ∧ r * threads <= Z.max rate threads) as [Hr Hm].
  { unfold r, per_thread_rate. rewrite (proj2 (Z.ltb_lt 0 rate)) by lia.
    pose proof (Z.mul_div_le rate threads Ht). pose proof (Z.div_le_upper_bound rate threads rate Ht ltac:(nia)).
    split; [lia|]. nia. }
  split_and!; [|intros p now after Hp sleep|lia|done].
  - pose proof (paced_from r (mkPacer start 0) start clock ltac:(lia) ltac:(cbn; lia) ltac:(cbn; lia) Hc) as H.
    cbn [rate_interval_packets rate_interval_start] in H. rewrite Z.add_0_l in H. fold batches in H.
    destruct (expected_time_near r ltac:(lia)) as [Hlo _].
    assert (0 <= batches) by (apply Z.div_pos; [unfold len|]; lia). nia.
  - destruct (paced_sleep r p now after ltac:(lia) Hp) as [H0 Hs]. fold sleep in H0, Hs.
    split; [done|]. intros Hsl. split; [|rewrite (Z.mul_comm r); by apply Hs].
    destruct (decide (rate_interval_packets p = 49)) as [|Hne]; [done|].
    unfold sleep, pace, wrap_u64 in Hsl. rewrite (proj2 (Z.ltb_lt 0 r)), Z.mod_small in Hsl by lia.
    rewrite (proj2 (Z.leb_gt 50 _)) in Hsl by lia. cbn in Hsl. lia.
Qed.

(** A machine on which a packet takes [cost] nanoseconds. *)
Fixpoint simulated (rate cost : Z) (n : nat) (p : pacer) (now : Z) : list (Z * Z) :=
  match n with
  | O => []
  | S n' =>
      let sleep := (pace rate p (now + cost) 0).2 in
      let after := now + cost + sleep in
      (now + cost, after) :: simulated rate cost n' (pace rate p (now + cost) after).1 after
  end.
Lemma simulated_ok rate cost n : ∀ p now, 0 <= cost → clock_ok rate p now (simulated rate cost n p now).
Proof.
  induction n as [|n IH]; intros p now Hc; [done|]. cbn [simulated clock_ok].
  assert (∀ a b, (pace rate p (now + cost) a).2 = (pace rate p (now + cost) b).2) as Hs.
  { intros a b. unfold pace. by destruct (0 <? rate); [destruct (Z.leb _ _)|]. }
  set (after := now + cost + _). specialize (Hs 0 after).
  destruct (pace rate p (now + cost) after) as [p' sleep] eqn:E. cbn [fst snd] in *.
  split_and!; [lia|unfold after; lia|]. by apply IH.
Qed.

Lemma worker_rate_bounded_witness :
  50 * 10 ^ 9 * 3 <= 500 * (end_of 5 (simulated 500 1000 150 (mkPacer 5 0) 5) - 5 + 3) ∧
  (pace 500 (mkPacer 5 49) 100005 0).2 = 10 ^ 8 - 10 ^ 5.
Proof.
  destruct (worker_rate_bounded 1000 2 5 (simulated 500 1000 150 (mkPacer 5 0) 5)) as (H & _ & _);
    [lia|lia|by apply simulated_ok|].
  replace (len (simulated _ _ _ _ _) / 50) with 3 in H by (vm_compute; reflexivity).
  split; [exact H|vm_compute; reflexivity].
Defined.

(** ** The peak *)

Lemma raise_peak_max fails prev current : raise_peak fails prev current = Z.max prev current.
Proof. induction fails as [|fails IH]; cbn [raise_peak]; case_Z. Qed.

(** The peak is the best of the rates sampled, however often the exchange fails. *)
Lemma sampled_peak_max s now packets fails :
  sampled_peak (sample s now packets fails) =
    if SFltb (f64_lit 4 2) (as_secs_f64 (now - last_sample_time s))
    then Z.max (sampled_peak s) (sampled_pps s now packets) else sampled_peak s.
Proof. unfold sample. destruct (SFltb _ _); [apply raise_peak_max|done]. Qed.

(** ** The drop log after a run

    Whatever the daemon's switch was before, the benchmark leaves it on. *)
Lemma run_leaves_log_on {V} `{!CounterVec V} `{!HashOrder}
    (text_of : PrometheusMetrics (V := V) → list Z + list Z) m flag args :
  bytes_ok 4 (ba_target args) → ba_keep_drop_logs args = false →
  let serve '(m, flag) req := let '(_, m, flag) := handle_request text_of (take 1024 req) m flag in (m, flag) in
  (fold_left serve (requests_before args) (m, Some flag)).2 = Some false ∧
  (fold_left serve (requests_before args ++ requests_after args) (m, Some flag)).2 = Some true.
Proof.
  intros Ht Hk serve. unfold requests_before, requests_after. rewrite Hk. cbn [app fold_left].
  assert (∀ m flag enable, serve (m, Some flag) (toggle_request (ba_target args) enable) = (m, Some enable)) as Hs.
  { intros m' f enable. unfold serve. rewrite toggle_request_fits by done. unfold handle_request.
    change (is_metrics_request _) with false. change (is_health_request _) with false.
    change (is_drop_logs_request _) with true. cbn iota. by rewrite toggle_requests_state by apply Ht. }
  by rewrite !Hs.
Qed.
