(* ===== verification/Attack.v ===== *)
(** * The benchmark against the firewall

    The traffic the benchmark tool sends ([Bench]), received by the XDP program on
    maps that hold the repository's static rules: what the tool counts as expected
    to be dropped is dropped. *)
From stdpp Require Import base numbers list gmap fin_maps strings sorting.
From Stdlib Require Import ZArith Lia.
From S2P Require Import Prelude Net Common BpfMaps Str Cidr Entry Loader MapManager Wire Xdp.
From S2P Require Import FireholSync EndToEnd Packet Generator Bench.

Local Open Scope Z_scope.

(** The CIDR blocks of [rules/blocklist.txt] and [rules/cidr_ranges.txt] that the pool
    draws from. *)
Definition pool_cidrs : list FireholIpTarget :=
  [TCidrV4 24 [198; 51; 100; 0]; TCidrV4 26 [203; 0; 113; 0]; TCidrV4 25 [192; 0; 2; 0];
   TCidrV4 8 [10; 0; 0; 0]].

(** The rule set has them. *)
Definition has_pool_cidrs (rules : ParsedRuleSet) : Prop :=
  Forall (λ t, is_Some (rule_of rules t)) pool_cidrs.

Lemma octets_match_ten b c d :
  bytes_ok 4 [10; b; c; d] → octets_match 8 [10; 0; 0; 0] [10; b; c; d] = true.
Proof.
  intros [_ Hb]. rewrite !Forall_cons in Hb. destruct Hb as (_ & Hb & Hc & Hd & _).
  unfold byte_ok, octets_match, prefix_eqb in *. simpl length.
  rewrite !Z.shiftr_div_pow2 by lia. apply Z.eqb_eq.
  change (2 ^ (8 * Z.of_nat 4 - 8)) with 16777216. unfold from_be_bytes. cbn [fold_left]. divmod.
Qed.

(** Every address of the pool is in one of the blocks. *)
Lemma blocked_source_covered rules ip :
  has_pool_cidrs rules → blocked_source ip → blocks rules (V4 ip).
Proof.
  unfold has_pool_cidrs, pool_cidrs. rewrite !Forall_cons. intros (H24 & H26 & H25 & H8 & _).
  intros [He|[Hb Hh]].
  - unfold EXACT_BLOCKED_IPV4 in He. rewrite !elem_of_cons in He.
    destruct He as [->|[->|[->|[->|[->|He]]]]];
      [exists (TCidrV4 24 [198; 51; 100; 0])|exists (TCidrV4 25 [192; 0; 2; 0])|
       exists (TCidrV4 26 [203; 0; 113; 0])|exists (TCidrV4 24 [198; 51; 100; 0])|
       exists (TCidrV4 25 [192; 0; 2; 0])|by apply not_elem_of_nil in He];
      (split; [done|vm_compute; reflexivity]).
  - exists (TCidrV4 8 [10; 0; 0; 0]). split; [done|]. pose proof Hb as [Hl _].
    destruct ip as [|a [|b [|c [|d []]]]]; try discriminate Hl. injection Hh as ->.
    by apply octets_match_ten.
Qed.

Lemma one_tag_frame dmac smac tags bytes :
  frame_ok dmac smac tags ETH_P_IP → (length tags <= 1)%nat →
  len (eth_frame dmac smac tags ETH_P_IP bytes) < 2 ^ 63 →
  one_tag (eth_frame dmac smac tags ETH_P_IP bytes) = true.
Proof.
  intros Hf Ht Hl. destruct (parse_ethernet_frame dmac smac tags ETH_P_IP bytes) as [hdr E];
    [done|lia|done|].
  unfold one_tag. rewrite E. apply Z.leb_le. unfold len. lia.
Qed.

Section Attack.
Context {H4 H6 L4 L6 RB : Type}.
Context `{!BpfMap H4 (list Z) RuleValue} `{!HashGet H4 (list Z) RuleValue}.
Context `{!BpfMap H6 (list Z) RuleValue} `{!HashGet H6 (list Z) RuleValue}.
Context `{!BpfMap L4 (Z * list Z) RuleValue} `{!LpmGet 4 L4 RuleValue}.
Context `{!BpfMap L6 (Z * list Z) RuleValue} `{!LpmGet 16 L6 RuleValue}.
Context `{!BpfMapLaws H4 (list Z) RuleValue} `{!BpfMapLaws H6 (list Z) RuleValue}.
Context `{!BpfMapLaws L4 (Z * list Z) RuleValue} `{!BpfMapLaws L6 (Z * list Z) RuleValue}.
Context `{!RingBuffer RB} `{!HashOrder}.

(** An attack packet is dropped, by whatever rule covers its source. *)
Lemma attack_packet_dropped (manager : MapManager H4 H6 L4 L6) (k : kernel H4 H6 L4 L6 RB)
    static firehol cfg bytes ctx dmac smac tags :
  reachable manager (tables_of static) (tables_of firehol) → shared_maps manager k →
  rules_drop static → rules_drop firehol → has_pool_cidrs static →
  Forall blocked_source (pool_ips (cfg_pool cfg)) → attack_packet cfg bytes →
  ctx_ok ctx → ctx_bytes ctx = eth_frame dmac smac tags ETH_P_IP bytes →
  frame_ok dmac smac tags ETH_P_IP → (length tags <= 1)%nat →
  (firewall ctx k).1 = Ok XDP_DROP.
Proof.
  intros Hreach Hshared HS HF Hcidrs Hpool (_ & _ & src & proto & sp & dp & Hsrc & Hsp & Hclass)
    Hctx Hbytes Hframe Htags.
  rewrite Forall_forall in Hpool. specialize (Hpool src Hsrc).
  specialize (Hclass dmac smac tags Hframe ltac:(lia)). rewrite <-Hbytes in Hclass.
  assert (take 4 (pad16 src) = src) as Hkey.
  { destruct (blocked_source_bytes src Hpool) as [Hl _]. unfold pad16. by apply take_app_length'. }
  eapply (classified_dropped_iff manager k static firehol ctx); [by apply reachable_rel|done..| |exact Hclass|].
  - rewrite Hbytes. apply one_tag_frame; [done..|]. rewrite <-Hbytes. destruct Hctx; lia.
  - split; [|left; unfold src_ip, src_key; cbn [pp_ip_version pp_src_ip Z.eqb Pos.eqb];
              rewrite Hkey; by apply blocked_source_covered].
    unfold bypass. cbn [pp_ip_version pp_protocol pp_src_port].
    assert ((sp =? 53) = false) as -> by (apply Z.eqb_neq; lia).
    assert ((sp =? 443) = false) as -> by (apply Z.eqb_neq; lia).
    by rewrite !andb_false_r.
Qed.
End Attack.

(** C22 (safety). Every packet that a benchmark thread sends, whatever its seed, profile
    and number of rounds (of fewer than 2^64 bytes in all), is dropped by a firewall
    whose static rules, loaded from files of fewer lines than static identifiers, include
    the four CIDR blocks of the repository that the pool draws from, when it arrives in
    an Ethernet frame with at most one VLAN tag. Other static rules and FireHOL drop rules may be installed, by any
    sequence of synchronisations that each find room for every rule and that keep the
    keys of static and FireHOL rules disjoint; FireHOL lists that name one of the four
    blocks itself are therefore excluded. So the tool's [expected_dropped] counts no
    packet that was sent and let through by such a firewall. The pool has between one
    address and the largest number its constructor ends for. *)
Theorem benchmark_packets_dropped {H4 H6 L4 L6 RB N4 N6 : Type}
    `{!BpfMap H4 (list Z) RuleValue} `{!HashGet H4 (list Z) RuleValue}
    `{!BpfMap H6 (list Z) RuleValue} `{!HashGet H6 (list Z) RuleValue}
    `{!BpfMap L4 (Z * list Z) RuleValue} `{!LpmGet 4 L4 RuleValue}
    `{!BpfMap L6 (Z * list Z) RuleValue} `{!LpmGet 16 L6 RuleValue}
    `{!BpfMapLaws H4 (list Z) RuleValue} `{!BpfMapLaws H6 (list Z) RuleValue}
    `{!BpfMapLaws L4 (Z * list Z) RuleValue} `{!BpfMapLaws L6 (Z * list Z) RuleValue}
    `{!RingBuffer RB} `{!HashOrder} `{!IpNet 4 N4} `{!IpNet 16 N6} `{!IpNetText N4 N6}
    (manager : MapManager H4 H6 L4 L6) (k : kernel H4 H6 L4 L6 RB) paths static meta firehol
    n fuel ip_count pool target size protocol tid sent stats counted
    bytes ctx dmac smac tags :
  total_lines paths < 2 ^ 32 - STATIC_RULE_BASE →
  load_from_paths_with_meta (N4 := N4) (N6 := N6) paths = Ok (static, meta) →
  has_pool_cidrs static → rules_drop firehol →
  reachable manager (tables_of static) (tables_of firehol) → shared_maps manager k →
  0 < ip_count <= MAX_POOL → 2 * ip_count < Z.of_nat fuel →
  new_blocked_pool fuel ip_count = Ok pool → bytes_ok 4 target → in_width 64 tid →
  Z.of_nat n * Z.max size 64 < 2 ^ 64 →
  bench_thread n (bench_config target size protocol pool true) tid = Ok (sent, stats, counted) →
  bytes ∈ sent →
  ctx_ok ctx → ctx_bytes ctx = eth_frame dmac smac tags ETH_P_IP bytes →
  frame_ok dmac smac tags ETH_P_IP → (length tags <= 1)%nat →
  (firewall ctx k).1 = Ok XDP_DROP.
Proof.
  intros Hlines Hload Hcidrs HF Hreach Hshared Hc Hf Hpool Ht Htid Hn E Hin Hctx Hbytes Hframe Htags.
  destruct (bench_pool_config fuel ip_count pool target size protocol true) as [Hcfg Hb]; [done..|].
  eapply (attack_packet_dropped manager k static firehol (bench_config target size protocol pool true));
    try done; [by eapply loaded_rules_drop|].
  eapply bench_thread_sends; done.
Qed.

(** ** Witness: the IPv4 rule lines of [rules/], two rounds of a benchmark thread *)
#[local] Existing Instance canonical_order.

Definition repository_files : list rule_file :=
  [mkFile true true (lit "rules/blocklist.txt")
     [Some (lit "198.51.100.14       # Mirai Botnet scanner node");
      Some (lit "198.51.100.27       # SSH Brute-force attacker");
      Some (lit "203.0.113.42        # Cobalt Strike TeamServer");
      Some (lit "203.0.113.99        # Distributed Port Scanner");
      Some (lit "192.0.2.66          # Malicious Log4j payload injector");
      Some (lit "192.0.2.128         # Compromised relay proxy");
      Some (lit "198.51.100.0/24     # Documentation / Simulated Rogue AS Subnet");
      Some (lit "203.0.113.0/26      # Malicious Hosting Provider range");
      Some (lit "192.0.2.0/25        # Bulletproof VPS provider network");
      Some (lit "100.64.0.0/16       # Carrier-grade NAT rogue partition");
      Some (lit "127.0.0.100/32      # Loopback test attacker address");
      Some (lit "127.0.0.200         # Loopback test scanner address")];
   mkFile true true (lit "rules/cidr_ranges.txt")
     [Some (lit "10.0.0.0/8          # RFC 1918 Class A Private Network");
      Some (lit "# 172.16.0.0/12     # RFC 1918 Class B");
      Some (lit "192.168.0.0/16      # RFC 1918 Class C Private Network");
      Some (lit "169.254.0.0/16      # RFC 3927 Link-Local Network");
      Some (lit "224.0.0.0/4         # RFC 5771 Multicast Network (ingress drop)")]].

Definition repository_rules : ParsedRuleSet :=
  (from_ok (ParsedRuleSet_new, ∅)
     (load_from_paths_with_meta (N4 := Net 4) (N6 := Net 16) repository_files)).1.
Definition repository_manager : MapManager (CapMap (list Z) RuleValue) (CapMap (list Z) RuleValue)
    (Trie 4 RuleValue) (Trie 16 RuleValue) := (sync_rules demo_manager repository_rules).1.
Definition repository_kernel : kernel (CapMap (list Z) RuleValue) (CapMap (list Z) RuleValue)
    (Trie 4 RuleValue) (Trie 16 RuleValue) BoundedQueue :=
  mkKernel (mm_ipv4_exact repository_manager) (mm_ipv6_exact repository_manager)
    (mm_ipv4_lpm repository_manager) (mm_ipv6_lpm repository_manager) (EVENTS demo_kernel)
    [FirewallStats_default].

Lemma repository_reachable :
  reachable repository_manager (tables_of repository_rules) (tables_of ParsedRuleSet_new).
Proof.
  apply (reach_static _ no_tables no_tables).
  - by apply reach_new.
  - split_and!; by_decide.
  - split_and!; apply map_disjoint_empty_r.
  - split_and!; vm_compute; reflexivity.
Qed.

Definition bench_pool : IpPool := from_ok (mkPool [] 0) (new_blocked_pool 15 7).
Definition bench_sent : list (list Z) :=
  (from_ok ([], ThreadStats_new 0, 0)
     (bench_thread 2 (bench_config [172; 28; 0; 2] 64 CUdp bench_pool true) 0)).1.1.

Lemma benchmark_packets_dropped_witness :
  (firewall (demo_ctx (eth_frame (demo_mac 1) (demo_mac 2) [] ETH_P_IP (nth 1 bench_sent [])))
     repository_kernel).1 = Ok XDP_DROP.
Proof.
  eapply (benchmark_packets_dropped (N4 := Net 4) (N6 := Net 16) repository_manager repository_kernel
    repository_files repository_rules _ ParsedRuleSet_new 2 15 7 bench_pool [172; 28; 0; 2] 64 CUdp 0
    bench_sent _ _ (nth 1 bench_sent []) _ (demo_mac 1) (demo_mac 2) []);
    [by_decide|vm_compute; reflexivity| |exact no_rules_drop|exact repository_reachable|
     split_and!; reflexivity|by_decide|lia|vm_compute; reflexivity|by_decide|by_decide|lia|
     vm_compute; reflexivity| |by_decide|reflexivity|by_decide|simpl; lia].
  - unfold has_pool_cidrs. by_decide.
  - apply list_elem_of_lookup. exists 1%nat. vm_compute. reflexivity.
Defined.
