(* ===== verification/Probe.v ===== *)
(** * The traffic verification tool ([scripts/test_traffic/src/main.rs],
    [scripts/common/src/socket.rs])

    The tool is the sequence of what it does to the network; what the network and the
    operating system answer is an argument. Its lines of output are left out. *)
From stdpp Require Import base numbers list gmap fin_maps strings sorting.
From Stdlib Require Import ZArith Lia.
From S2P Require Import Prelude Net Common BpfMaps Str Fmt Cidr Entry Loader MapManager Wire Xdp.
From S2P Require Import FireholSync EndToEnd TopN RingBuf Telemetry Packet Generator Bench Attack.

Local Open Scope Z_scope.

(** ** What the tool does *)
Inductive effect : Type :=
| HttpPost (request : list Z)
| SendRaw (packet dst : list Z)
| SendUdp (src dst : list Z) (port : Z) (payload : list Z)
| Connect (dst : list Z) (port timeout : Z)
| Run (program : list Z) (args : list (list Z)).

(** How a connection attempt ends. *)
Inductive connect_result : Type := Connected | ConnectionRefused | TimedOut | OtherError.
Definition probe_tcp_connect (r : connect_result) : bool :=
  match r with Connected | ConnectionRefused => true | _ => false end.

(** The answers: the HTTP port accepts, raw sockets open, the pings and [ip] commands
    succeed, the TCP attempt, and whether a UDP socket binds to an address and takes a
    timeout. *)
Record answers : Type := mkAnswers {
  an_http : bool;
  an_raw : bool;
  an_ping : bool;
  an_connect : connect_result;
  an_alias : list Z → bool;
  an_udp_socket : list Z → bool;
}.

Definition send_udp_datagram (a : answers) (src_ip : option (list Z)) (dst : list Z) (port : Z)
    (payload : list Z) : list effect :=
  let bind_addr := default [0; 0; 0; 0] src_ip in
  if an_udp_socket a bind_addr then [SendUdp bind_addr dst port payload] else [].
Definition run_ping_check (src_ip : option (list Z)) (target : list Z) (count timeout_secs : Z) : effect :=
  Run (lit "ping")
    (match src_ip with Some src => [lit "-I"; ipv4_to_string src] | None => [] end ++
     [lit "-c"; decimal count; lit "-W"; decimal timeout_secs; ipv4_to_string target]).
Definition ip_alias (verb iface ip : list Z) : effect :=
  Run (lit "ip") [lit "addr"; verb; ipv4_to_string ip ++ lit "/32"; lit "dev"; iface].
Definition add_ip_alias (iface ip : list Z) : effect := ip_alias (lit "add") iface ip.
Definition del_ip_alias (iface ip : list Z) : effect := ip_alias (lit "del") iface ip.

(** [if let Some(ref sender) = raw_sender { build; set_len; send_to }]. *)
Definition raw_probe (sender : bool) (target : list Z) (p : Probe) (src : list Z) (id : Z)
    (payload : list Z) (buf : PacketBuffer) : outcome unit (list effect * PacketBuffer) :=
  if sender then
    '(n, data) ← build p (pb_data buf) src target id payload;
    let buf := set_len (buffer_mut buf data) n in
    bytes ← as_slice buf;
    mret ([SendRaw bytes target], buf)
  else mret ([], buf).

Record CliArgs : Type := mkCliArgs {
  ca_target : list Z;
  ca_interface : list Z;
  ca_timeout : Z;
  ca_no_color : bool;
}.
Definition CliArgs_default : CliArgs := mkCliArgs [172; 28; 0; 2] (lit "eth0") 2 false.

Definition blocked_exact : list Z := [198; 51; 100; 14].
Definition blocked_cidr : list Z := [10; 0; 0; 50].

Definition verify_and_enable_firewall_drop_logs (a : answers) (target : list Z) : list effect :=
  if an_http a then [HttpPost (toggle_request target true)] else [].

(** Part 1: traffic that should pass. The second result counts what is reported as
    accepted. *)
Definition legitimate_part (args : CliArgs) (a : answers) : outcome unit (list effect * Z) :=
  let target := ca_target args in
  let accepted := if an_ping a then 1 else 1 in
  let tcp_accepted := probe_tcp_connect (an_connect a) in
  '(syn, accepted) ←
    (if tcp_accepted then mret ([], accepted + 1)
     else '(syn, _) ← raw_probe (an_raw a) target (TcpSyn 49152 80 1001) LEGITIMATE_CONTAINER_IPV4 1 []
                        new_buffer;
          mret (syn, accepted + 1));
  mret ([run_ping_check None target 2 (wrap_u32 (ca_timeout args));
         Connect target 80 (Z.max (ca_timeout args) 1)] ++ syn ++
        send_udp_datagram a None target 53 (lit "HELLO_FIREWALL_LEGIT_UDP"),
        accepted + 1).

(** Parts 2 and 3: an alias for the source, then ICMP, TCP and UDP from it. *)
Definition exact_part (args : CliArgs) (a : answers) : outcome unit (list effect * Z) :=
  let target := ca_target args in
  let raw := raw_probe (an_raw a) target in
  '(icmp, _) ← raw (IcmpEcho 1234 1) blocked_exact 10 (lit "MALICIOUS_PING") new_buffer;
  '(syn80, buf) ← raw (TcpSyn 50001 80 2001) blocked_exact 20 [] new_buffer;
  '(syn443, _) ← raw (TcpSyn 50002 443 2002) blocked_exact 21 [] buf;
  '(udp, _) ← raw (UdpDatagram 53535 53) blocked_exact 30 (lit "MALICIOUS_DNS_AMPLIFICATION_ATTACK") new_buffer;
  mret ([add_ip_alias (ca_interface args) blocked_exact] ++ icmp ++
        [run_ping_check (Some blocked_exact) target 2 1] ++ syn80 ++ syn443 ++ udp ++
        send_udp_datagram a (Some blocked_exact) target 53 (lit "MALICIOUS_DNS_AMPLIFICATION_ATTACK") ++
        (if an_alias a blocked_exact then [del_ip_alias (ca_interface args) blocked_exact] else []),
        0 + 1 + 1 + 1).
Definition cidr_part (args : CliArgs) (a : answers) : outcome unit (list effect * Z) :=
  let target := ca_target args in
  let raw := raw_probe (an_raw a) target in
  '(icmp, _) ← raw (IcmpEcho 5678 1) blocked_cidr 40 (lit "CIDR_PING_ATTACK") new_buffer;
  '(syn, _) ← raw (TcpSyn 50003 22 3001) blocked_cidr 50 [] new_buffer;
  '(udp, _) ← raw (UdpDatagram 50004 514) blocked_cidr 60 (lit "MALICIOUS_SYSLOG_SPOOF") new_buffer;
  mret ([add_ip_alias (ca_interface args) blocked_cidr] ++ icmp ++
        [run_ping_check (Some blocked_cidr) target 2 1] ++ syn ++ udp ++
        send_udp_datagram a (Some blocked_cidr) target 514 (lit "MALICIOUS_SYSLOG_SPOOF") ++
        (if an_alias a blocked_cidr then [del_ip_alias (ca_interface args) blocked_cidr] else []),
        0 + 1 + 1 + 1).

(** The effects and what it returns: the numbers blocked and accepted. *)
Definition run_traffic_verification (args : CliArgs) (a : answers) : outcome unit (list effect * (Z * Z)) :=
  '(legit, accepted) ← legitimate_part args a;
  '(exact, blocked2) ← exact_part args a;
  '(cidr, blocked3) ← cidr_part args a;
  mret (verify_and_enable_firewall_drop_logs a (ca_target args) ++ legit ++ exact ++ cidr,
        (blocked2 + blocked3, accepted)).

(** The packets a run hands to the raw socket. *)
Definition raw_packets (effects : list effect) : list (list Z) :=
  omap (λ e, match e with SendRaw b _ => Some b | _ => None end) effects.

(** ** The packets *)

(** A packet as the firewall's classifier reads it. *)
Definition reads_as (src target : list Z) (p : Probe) (payload bytes : list Z) : Prop :=
  ∀ dmac smac tags, frame_ok dmac smac tags ETH_P_IP → (length tags <= 2)%nat →
  classify_packet (eth_frame dmac smac tags ETH_P_IP bytes) =
    Ok (mkParsed 4 (pad16 src) (pad16 target) (probe_proto p) (probe_ports p payload).1
          (probe_ports p payload).2 (14 + 4 * len tags + len bytes) (34 + 4 * len tags)).

(** A probe that fits is sent in one piece, and the buffer can be used again. *)
Lemma raw_probe_sends sender target p src id payload buf :
  bytes_ok 4 src → bytes_ok 4 target → Forall byte_ok payload → probe_ok p →
  length (pb_data buf) = 1500%nat → 20 + probe_header p + len payload <= 1500 →
  ∃ packets buf', raw_probe sender target p src id payload buf =
      Ok ((λ b, SendRaw b target) <$> packets, buf') ∧
    length (pb_data buf') = 1500%nat ∧ length packets = (if sender then 1 else 0)%nat ∧
    Forall (reads_as src target p payload) packets.
Proof.
  intros Hs Ht Hb Hp Hbuf Hfit. unfold raw_probe. destruct sender; [|by exists [], buf].
  assert (len (pb_data buf) = 1500) as Hl by (unfold len; lia).
  assert (0 <= probe_header p) as Hh by (by destruct p).
  assert (len payload < 2 ^ 16 - 40) as Hlp by lia.
  assert (fits p (pb_data buf) payload) as Hfits by (split; rewrite ?Hl; lia).
  destruct (build_spec p (pb_data buf) src target id payload Hs Ht Hb Hfits Hp) as (hc & c & _ & _ & E & _).
  cbv zeta in E. set (n := 20 + len (segment p payload c)) in *.
  set (pk := packet p src target id payload hc c) in *.
  assert (n = 20 + probe_header p + len payload) as Hn by (unfold n; rewrite segment_len; lia).
  assert (len pk = n) as Hpk by (unfold pk; rewrite packet_len by done; lia).
  pose proof (λ dmac smac tags Hf Hlt, build_classify p (pb_data buf) src target id payload n _
    dmac smac tags Hs Ht Hb Hp Hlp Hf Hlt E) as Hclass.
  assert (0 <= n <= 1500) as Hn' by (unfold len in *; lia).
  exists [pk], (set_len (buffer_mut buf (pk ++ drop (Z.to_nat n) (pb_data buf))) n).
  rewrite E. cbn [mbind outcome_bind]. unfold as_slice, set_len, buffer_mut. cbn [pb_data pb_len].
  pose proof (read_at_app_mid (E := unit) [] pk (drop (Z.to_nat n) (pb_data buf)) 0 n eq_refl
    ltac:(unfold len in *; lia)) as Hr.
  cbn [app] in Hr. rewrite Hr. split_and!; [done| |done|].
  - rewrite length_app, length_drop. unfold len in *. lia.
  - apply Forall_singleton. intros dmac smac tags Hf Hlt. specialize (Hclass dmac smac tags Hf Hlt).
    rewrite take_app_length' in Hclass by (unfold len in *; lia). by rewrite Hpk.
Qed.

Lemma raw_packets_app a b : raw_packets (a ++ b) = raw_packets a ++ raw_packets b.
Proof. apply omap_app. Qed.
Lemma raw_packets_sent packets target : raw_packets ((λ b, SendRaw b target) <$> packets) = packets.
Proof. unfold raw_packets. induction packets as [|b l IH]; [done|]. cbn. by rewrite IH. Qed.
Lemma raw_packets_udp a src dst port payload : raw_packets (send_udp_datagram a src dst port payload) = [].
Proof. unfold send_udp_datagram. by destruct (an_udp_socket a _). Qed.

(** From a source, with a port that is not exempt. *)
Definition probe_from (src target bytes : list Z) : Prop :=
  ∃ p payload, ((probe_ports p payload).1 = 0 ∨ 1024 <= (probe_ports p payload).1) ∧
    reads_as src target p payload bytes.

Lemma probes_from src target p payload packets :
  (probe_ports p payload).1 = 0 ∨ 1024 <= (probe_ports p payload).1 →
  Forall (reads_as src target p payload) packets → Forall (probe_from src target) packets.
Proof. intros Hp Hf. eapply Forall_impl; [exact Hf|]. intros b Hb. by exists p, payload. Qed.

(** Every part sends what it means to send and reports the same numbers whatever the
    answers are. *)
Ltac send_probe packets buf Hbuf Hlen Hread :=
  match goal with
  | |- context [raw_probe ?s ?t ?p ?src ?id ?payload ?b] =>
      destruct (raw_probe_sends s t p src id payload b) as (packets & buf & -> & Hbuf & Hlen & Hread);
        [by_decide|done|by_decide|by_decide|done|by_decide|]
  end; cbn [mbind outcome_bind].

Lemma legitimate_part_sends args a :
  bytes_ok 4 (ca_target args) →
  ∃ effects, legitimate_part args a = Ok (effects, 3) ∧
    Forall (probe_from LEGITIMATE_CONTAINER_IPV4 (ca_target args)) (raw_packets effects) ∧
    length (raw_packets effects) =
      if probe_tcp_connect (an_connect a) then 0%nat else if an_raw a then 1%nat else 0%nat.
Proof.
  intros Ht. unfold legitimate_part. destruct (probe_tcp_connect _).
  - eexists. cbn [mbind outcome_bind mret outcome_ret]. split; [by destruct (an_ping a)|].
    rewrite app_nil_l, raw_packets_app, raw_packets_udp. by split.
  - send_probe syn buf Hbuf Hlen Hread. eexists. cbn [mret outcome_ret]. split; [by destruct (an_ping a)|].
    rewrite !raw_packets_app, raw_packets_udp, raw_packets_sent, app_nil_r. split; [|exact Hlen].
    eapply probes_from; [|exact Hread]. by_decide.
Qed.

Lemma raw_packets_run (b : bool) program args : raw_packets (if b then [Run program args] else []) = [].
Proof. by destruct b. Qed.

Lemma exact_part_sends args a :
  bytes_ok 4 (ca_target args) →
  ∃ effects, exact_part args a = Ok (effects, 3) ∧
    Forall (probe_from blocked_exact (ca_target args)) (raw_packets effects) ∧
    length (raw_packets effects) = if an_raw a then 4%nat else 0%nat.
Proof.
  intros Ht. unfold exact_part. send_probe l1 b1 B1 L1 R1. send_probe l2 b2 B2 L2 R2.
  send_probe l3 b3 B3 L3 R3. send_probe l4 b4 B4 L4 R4. eexists. split; [reflexivity|].
  unfold del_ip_alias, ip_alias.
  rewrite !raw_packets_app, raw_packets_udp, raw_packets_run, !raw_packets_sent.
  apply probes_from in R1, R2, R3, R4; [|by_decide..]. split.
  - repeat (apply Forall_app; split); (done || constructor).
  - rewrite !length_app, L1, L2, L3, L4. by destruct (an_raw a).
Qed.

Lemma cidr_part_sends args a :
  bytes_ok 4 (ca_target args) →
  ∃ effects, cidr_part args a = Ok (effects, 3) ∧
    Forall (probe_from blocked_cidr (ca_target args)) (raw_packets effects) ∧
    length (raw_packets effects) = if an_raw a then 3%nat else 0%nat.
Proof.
  intros Ht. unfold cidr_part. send_probe l1 b1 B1 L1 R1. send_probe l2 b2 B2 L2 R2.
  send_probe l3 b3 B3 L3 R3. eexists. split; [reflexivity|].
  unfold del_ip_alias, ip_alias.
  rewrite !raw_packets_app, raw_packets_udp, raw_packets_run, !raw_packets_sent.
  apply probes_from in R1, R2, R3; [|by_decide..]. split.
  - repeat (apply Forall_app; split); (done || constructor).
  - rewrite !length_app, L1, L2, L3. by destruct (an_raw a).
Qed.

(** ** The packets at the firewall *)
Section Firewall.
Context {H4 H6 L4 L6 RB : Type}.
Context `{!BpfMap H4 (list Z) RuleValue} `{!HashGet H4 (list Z) RuleValue}.
Context `{!BpfMap H6 (list Z) RuleValue} `{!HashGet H6 (list Z) RuleValue}.
Context `{!BpfMap L4 (Z * list Z) RuleValue} `{!LpmGet 4 L4 RuleValue}.
Context `{!BpfMap L6 (Z * list Z) RuleValue} `{!LpmGet 16 L6 RuleValue}.
Context `{!BpfMapLaws H4 (list Z) RuleValue} `{!BpfMapLaws H6 (list Z) RuleValue}.
Context `{!BpfMapLaws L4 (Z * list Z) RuleValue} `{!BpfMapLaws L6 (Z * list Z) RuleValue}.
Context `{!RingBuffer RB} `{!HashOrder}.

(** The packet arrives in an Ethernet frame with at most one VLAN tag. *)
Definition arrives (ctx : XdpContext) (bytes : list Z) : Prop :=
  ctx_ok ctx ∧ ∃ dmac smac tags, ctx_bytes ctx = eth_frame dmac smac tags ETH_P_IP bytes ∧
    frame_ok dmac smac tags ETH_P_IP ∧ (length tags <= 1)%nat.

Lemma probe_dropped_iff (manager : MapManager H4 H6 L4 L6) (k : kernel H4 H6 L4 L6 RB)
    static firehol src target bytes ctx :
  reachable manager (tables_of static) (tables_of firehol) → shared_maps manager k →
  rules_drop static → rules_drop firehol → bytes_ok 4 src → probe_from src target bytes →
  arrives ctx bytes →
  (firewall ctx k).1 = Ok XDP_DROP ↔ blocks static (V4 src) ∨ blocks firehol (V4 src).
Proof.
  intros Hreach Hshared HS HF Hsrc (p & payload & Hport & Hread) (Hctx & dmac & smac & tags & Hb & Hf & Ht).
  specialize (Hread dmac smac tags Hf ltac:(lia)). rewrite <-Hb in Hread.
  assert (take 4 (pad16 src) = src) as Hkey by (destruct Hsrc as [Hl _]; by apply take_app_length').
  assert (one_tag (ctx_bytes ctx) = true) as Hone.
  { rewrite Hb. apply one_tag_frame; [done..|]. rewrite <-Hb. destruct Hctx; lia. }
  apply reachable_rel in Hreach.
  rewrite (classified_dropped_iff manager k static firehol ctx _ Hreach Hshared HS HF Hctx Hone Hread).
  unfold src_ip, src_key. cbn [pp_ip_version pp_src_ip Z.eqb Pos.eqb]. rewrite Hkey.
  split; [by intros [_ ?]|]. intros Hbl. split; [|done].
  unfold bypass. cbn [pp_ip_version pp_protocol pp_src_port].
  rewrite (proj2 (Z.eqb_neq _ 53)), (proj2 (Z.eqb_neq _ 443)) by lia. by rewrite !andb_false_r.
Qed.
End Firewall.

(** C23 (functional). The traffic verification tool against the firewall. Whatever the
    network and the system answer, a run ends and returns six blocked and three
    accepted, so its report says nothing about the firewall. With a raw socket it sends
    seven packets from its two blocked sources, and a firewall whose static rules
    include the repository's CIDR blocks drops each of them that arrives in a frame with
    at most one VLAN tag; the packet from the container's own address, sent when the TCP
    connection failed, is dropped exactly if a static or FireHOL rule covers that
    address. The firewall's rules all drop and were installed by any sequence of
    synchronisations that each find room for every rule and keep the keys of static and
    FireHOL rules disjoint, so that FireHOL names none of the repository's blocks. *)
Theorem verification_tool_verdicts {H4 H6 L4 L6 RB : Type}
    `{!BpfMap H4 (list Z) RuleValue} `{!HashGet H4 (list Z) RuleValue}
    `{!BpfMap H6 (list Z) RuleValue} `{!HashGet H6 (list Z) RuleValue}
    `{!BpfMap L4 (Z * list Z) RuleValue} `{!LpmGet 4 L4 RuleValue}
    `{!BpfMap L6 (Z * list Z) RuleValue} `{!LpmGet 16 L6 RuleValue}
    `{!BpfMapLaws H4 (list Z) RuleValue} `{!BpfMapLaws H6 (list Z) RuleValue}
    `{!BpfMapLaws L4 (Z * list Z) RuleValue} `{!BpfMapLaws L6 (Z * list Z) RuleValue}
    `{!RingBuffer RB} `{!HashOrder}
    (manager : MapManager H4 H6 L4 L6) (k : kernel H4 H6 L4 L6 RB) static firehol args a :
  reachable manager (tables_of static) (tables_of firehol) → shared_maps manager k →
  rules_drop static → rules_drop firehol → has_pool_cidrs static → bytes_ok 4 (ca_target args) →
  ∃ effects legit attacks,
    run_traffic_verification args a = Ok (effects, (6, 3)) ∧
    raw_packets effects = legit ++ attacks ∧
    length attacks = (if an_raw a then 7 else 0)%nat ∧
    (∀ bytes ctx, bytes ∈ attacks → arrives ctx bytes → (firewall ctx k).1 = Ok XDP_DROP) ∧
    (∀ bytes ctx, bytes ∈ legit → arrives ctx bytes →
       (firewall ctx k).1 = Ok XDP_DROP ↔
       blocks static (V4 LEGITIMATE_CONTAINER_IPV4) ∨ blocks firehol (V4 LEGITIMATE_CONTAINER_IPV4)).
Proof.
  intros Hreach Hshared HS HF Hcidrs Ht.
  destruct (legitimate_part_sends args a Ht) as (e1 & E1 & P1 & L1).
  destruct (exact_part_sends args a Ht) as (e2 & E2 & P2 & L2).
  destruct (cidr_part_sends args a Ht) as (e3 & E3 & P3 & L3).
  rewrite Forall_forall in P1, P2, P3.
  eexists _, (raw_packets e1), (raw_packets e2 ++ raw_packets e3).
  unfold run_traffic_verification. rewrite E1, E2, E3. split_and!; [reflexivity| | | |].
  - rewrite !raw_packets_app. unfold verify_and_enable_firewall_drop_logs. by destruct (an_http a).
  - rewrite length_app, L2, L3. by destruct (an_raw a).
  - intros bytes ctx Hin Harr. apply elem_of_app in Hin as [Hin|Hin].
    + apply (probe_dropped_iff manager k static firehol blocked_exact (ca_target args) bytes ctx);
        try done; [by_decide|by apply P2|].
      left. apply blocked_source_covered; [done|by_decide].
    + apply (probe_dropped_iff manager k static firehol blocked_cidr (ca_target args) bytes ctx);
        try done; [by_decide|by apply P3|].
      left. apply blocked_source_covered; [done|by_decide].
  - intros bytes ctx Hin Harr.
    refine (probe_dropped_iff manager k static firehol _ (ca_target args) bytes ctx Hreach Hshared HS HF
      _ (P1 _ Hin) Harr). by_decide.
Qed.

(** ** Witness: the repository's rules, a target out of reach *)
#[local] Existing Instance canonical_order.
Definition demo_answers : answers := mkAnswers false true false TimedOut (λ _, false) (λ _, true).

Lemma repository_rules_drop : rules_drop repository_rules.
Proof.
  eapply (loaded_rules_drop (N4 := Net 4) (N6 := Net 16) repository_files); [by_decide|].
  vm_compute. reflexivity.
Qed.

Lemma verification_tool_verdicts_witness :
  ∃ effects legit attacks, run_traffic_verification CliArgs_default demo_answers = Ok (effects, (6, 3)) ∧
    raw_packets effects = legit ++ attacks ∧ length attacks = 7%nat.
Proof.
  destruct (verification_tool_verdicts repository_manager repository_kernel repository_rules
    ParsedRuleSet_new CliArgs_default demo_answers) as (effects & legit & attacks & H1 & H2 & H3 & _);
    [exact repository_reachable|split_and!; reflexivity|exact repository_rules_drop|exact no_rules_drop|
     unfold has_pool_cidrs; by_decide|by_decide|].
  exists effects, legit, attacks. split; [exact H1|]. split; [exact H2|exact H3].
Defined.
