(* ===== verification/RawSocket.v ===== *)
(** * The raw socket of the traffic tools ([scripts/common/src/socket.rs])

    [RawSocketSender] over the C library: descriptors are numbers, [errno] is the error of
    the last call that failed. The sender owns exactly one descriptor from its creation to
    its drop, a failed creation owns none, and its error is the one of the call that failed
    and not of the [close] that follows. *)
From stdpp Require Import base numbers list gmap fin_sets.
From Stdlib Require Import ZArith Lia.
From S2P Require Import Prelude Net Packet.

Local Open Scope Z_scope.

(** ** The C library (interface) *)
Inductive socket_option : Type := HeaderIncluded (one : Z) | SendBuffer (bytes : Z).
Class Libc (K : Type) : Type := {
  open_fds : K → gset Z;
  errno : K → Z;
  libc_socket : K → Z * K;
  libc_setsockopt : Z → socket_option → K → Z * K;
  libc_close : Z → K → Z * K;
  libc_sendto : Z → list Z → list Z → K → Z * K;
  (** A new descriptor was not open. *)
  socket_spec k : let '(fd, k') := libc_socket k in
    if 0 <=? fd then fd ∉ open_fds k ∧ open_fds k' = {[fd]} ∪ open_fds k else open_fds k' = open_fds k;
  setsockopt_spec fd o k : open_fds (libc_setsockopt fd o k).2 = open_fds k;
  close_spec fd k : open_fds (libc_close fd k).2 = open_fds k ∖ {[fd]};
  sendto_spec fd packet dst k : open_fds (libc_sendto fd packet dst k).2 = open_fds k;
}.

Section Sender.
Context {K : Type} `{!Libc K}.

(** ** [RawSocketSender] *)
Record RawSocketSender : Type := mkSender { fd : Z }.

Definition sender_new (k : K) : outcome Z RawSocketSender * K :=
  let '(fd, k) := libc_socket k in
  if fd <? 0 then (Err (errno k), k) else
  let '(ret, k) := libc_setsockopt fd (HeaderIncluded 1) k in
  if ret <? 0 then
    let err := errno k in
    let '(_, k) := libc_close fd k in (Err err, k)
  else
    let '(_, k) := libc_setsockopt fd (SendBuffer (4 * 1024 * 1024)) k in
    (Ok (mkSender fd), k).

(** The address is the four octets in memory order. *)
Definition sender_send_to (s : RawSocketSender) (packet dst_ip : list Z) (k : K) : outcome Z Z * K :=
  let '(res, k) := libc_sendto (fd s) packet dst_ip k in
  if 0 <=? res then (Ok res, k) else (Err (errno k), k).

Definition as_raw_fd (s : RawSocketSender) : Z := fd s.

Definition sender_drop (s : RawSocketSender) (k : K) : K :=
  if 0 <=? fd s then (libc_close (fd s) k).2 else k.

(** A thread's use of a sender: it sends, then the sender is dropped. *)
Fixpoint send_all (s : RawSocketSender) (packets : list (list Z * list Z)) (k : K) : K :=
  match packets with
  | [] => k
  | (packet, dst_ip) :: rest => send_all s rest (sender_send_to s packet dst_ip k).2
  end.
Definition sender_session (packets : list (list Z * list Z)) (k : K) : K :=
  match sender_new k with
  | (Ok s, k) => sender_drop s (send_all s packets k)
  | (_, k) => k
  end.

(** ** Descriptors *)
Lemma sender_new_spec k :
  match sender_new k with
  | (Ok s, k') => 0 <= fd s ∧ fd s ∉ open_fds k ∧ open_fds k' = {[fd s]} ∪ open_fds k
  | (Err _, k') => open_fds k' = open_fds k
  | (Fault, _) => False
  end.
Proof.
  unfold sender_new. pose proof (socket_spec k) as Hs. destruct (libc_socket k) as [fd k1].
  destruct (Z.ltb_spec fd 0) as [Hfd|Hfd].
  { by rewrite (proj2 (Z.leb_gt 0 fd)) in Hs. }
  rewrite (proj2 (Z.leb_le 0 fd)) in Hs by done. destruct Hs as [Hnew Hopen].
  pose proof (setsockopt_spec fd (HeaderIncluded 1) k1) as Ho.
  destruct (libc_setsockopt fd (HeaderIncluded 1) k1) as [ret k2]. cbn in Ho.
  destruct (ret <? 0).
  - pose proof (close_spec fd k2) as Hc. destruct (libc_close fd k2) as [? k3]. cbn in *.
    rewrite Hc, Ho, Hopen. set_solver.
  - pose proof (setsockopt_spec fd (SendBuffer (4 * 1024 * 1024)) k2) as Hb.
    destruct (libc_setsockopt fd (SendBuffer _) k2) as [? k3]. cbn in *. rewrite Hb, Ho. done.
Qed.

Lemma send_all_open s packets : ∀ k, open_fds (send_all s packets k) = open_fds k.
Proof.
  induction packets as [|[packet dst] rest IH]; intros k; [done|]. cbn [send_all]. rewrite IH.
  unfold sender_send_to. pose proof (sendto_spec (fd s) packet dst k) as H.
  destruct (libc_sendto (fd s) packet dst k) as [res k']. by destruct (0 <=? res).
Qed.

(** Whatever is sent and whatever fails, a session leaves the descriptors of the process
    as it found them. *)
Theorem sender_session_leaks_nothing packets k :
  open_fds (sender_session packets k) = open_fds k.
Proof.
  unfold sender_session. pose proof (sender_new_spec k) as H.
  destruct (sender_new k) as [[s|e|] k1]; [|done..]. destruct H as (Hfd & Hnew & Hopen).
  unfold sender_drop. rewrite (proj2 (Z.leb_le 0 (fd s))) by done.
  rewrite close_spec, send_all_open, Hopen. set_solver.
Qed.

(** The error of a socket that was opened is that of the refused option, read before the
    descriptor is closed. *)
Lemma sender_new_error k fd k1 ret k2 :
  libc_socket k = (fd, k1) → 0 <= fd →
  libc_setsockopt fd (HeaderIncluded 1) k1 = (ret, k2) → ret < 0 →
  (sender_new k).1 = Err (errno k2).
Proof.
  unfold sender_new. intros -> Hfd Ho Hret. rewrite (proj2 (Z.ltb_ge fd 0)) by done.
  rewrite Ho, (proj2 (Z.ltb_lt ret 0)) by done. by destruct (libc_close fd k2).
Qed.
End Sender.

(** ** A C library with a table of descriptors and no privileges beyond raw sockets *)
Definition highest (X : gset Z) : Z := foldr Z.max 0 (elements X).
Lemma highest_above X x : x ∈ X → x <= highest X.
Proof.
  rewrite <-elem_of_elements. unfold highest. induction (elements X) as [|y l IH]; cbn.
  - by intros ?%elem_of_nil.
  - intros [->|Hx]%elem_of_cons; [lia|]. specialize (IH Hx). lia.
Qed.
Lemma highest_nonneg X : 0 <= highest X.
Proof. unfold highest. induction (elements X); cbn; lia. Qed.

Record fd_table : Type := mkTable { ft_open : gset Z; ft_errno : Z; ft_refuse_options : bool }.
#[local] Program Instance table_libc : Libc fd_table := {|
  open_fds := ft_open;
  errno := ft_errno;
  libc_socket k := let fd := 1 + highest (ft_open k) in
    (fd, mkTable ({[fd]} ∪ ft_open k) (ft_errno k) (ft_refuse_options k));
  libc_setsockopt _ _ k :=
    if ft_refuse_options k then (-1, mkTable (ft_open k) 1 true) else (0, k);
  libc_close fd k := (0, mkTable (ft_open k ∖ {[fd]}) 0 (ft_refuse_options k));
  libc_sendto _ packet _ k := (len packet, k);
|}.
Next Obligation.
  intros k. cbn. pose proof (highest_nonneg (ft_open k)) as H.
  rewrite (proj2 (Z.leb_le 0 _)) by lia. split; [|done]. intros Hin%highest_above. lia.
Qed.
Next Obligation. intros fd o k. cbn. by destruct (ft_refuse_options k). Qed.
Next Obligation. done. Qed.
Next Obligation. done. Qed.

Example sender_sessions :
  (sender_new (mkTable {[0; 1; 2]} 0 false)).1 = Ok (mkSender 3) ∧
  (sender_new (mkTable {[0; 1; 2]} 0 true)).1 = Err 1 ∧
  ft_open (sender_new (mkTable {[0; 1; 2]} 0 true)).2 = {[0; 1; 2]} ∧
  ft_open (sender_session [([1; 2], [10; 0; 0; 1])] (mkTable {[0; 1; 2]} 0 false)) = {[0; 1; 2]}.
Proof. vm_compute. done. Qed.
