(* ===== verification/Archived.v ===== *)
(** * Archived and serialized metadata ([src/firehol/metadata.rs])

    The zero-copy view of the records in the disk cache and the serde helpers of shared
    strings. The archived types are those [rkyv] derives: constructors and fields of the
    native types, with the crate's own string type; that an archive represents the value
    it was made from is the crate's documented behaviour ([RkyvAccess]). *)
From stdpp Require Import base numbers list gmap fin_maps strings.
From Stdlib Require Import ZArith.
From S2P Require Import Prelude Net BpfMaps Str Entry Metadata Cache.

Local Open Scope Z_scope.

(** ** Categories *)
(** [impl Display for FireholCategory] and [impl FromStr]. *)
Definition category_to_string (c : FireholCategory) : list Z := as_str c.
Definition category_from_str `{!Lowercase} (s : list Z) : outcome Empty_set FireholCategory :=
  Ok (parse_category s).

Inductive ArchivedFireholCategory : Type :=
| AAbuse | AAttacks | AMalware | ASpam | AProxy | ABotnet | AUnroutable | AAnonymizers | AOther.
Definition category_from_archived (c : ArchivedFireholCategory) : FireholCategory :=
  match c with
  | AAbuse => Abuse | AAttacks => Attacks | AMalware => Malware | ASpam => Spam | AProxy => Proxy
  | ABotnet => Botnet | AUnroutable => Unroutable | AAnonymizers => Anonymizers | AOther => Other
  end.
Definition archived_as_str (c : ArchivedFireholCategory) : list Z :=
  match c with
  | AAbuse => lit "abuse" | AAttacks => lit "attacks" | AMalware => lit "malware"
  | ASpam => lit "spam" | AProxy => lit "proxy" | ABotnet => lit "botnet"
  | AUnroutable => lit "unroutable" | AAnonymizers => lit "anonymizers" | AOther => lit "other"
  end.
Definition to_native (c : ArchivedFireholCategory) : FireholCategory := category_from_archived c.

(** ** Metadata and contexts *)
Section Archived.
Context {AStr : Type} (deref : AStr → list Z).

Record ArchivedFireholMetadata : Type := mkArchived {
  am_id : Z;
  am_category : ArchivedFireholCategory;
  am_source_url : option AStr;
  am_maintainer : option AStr;
  am_maintainer_url : option AStr;
  am_source_file_date : option AStr;
  am_file_name : AStr;
  am_version : option AStr;
  am_update_frequency : option AStr;
}.
Definition file_name_str (m : ArchivedFireholMetadata) : list Z := deref (am_file_name m).
Definition source_url_str (m : ArchivedFireholMetadata) : option (list Z) := deref <$> am_source_url m.
Definition maintainer_str (m : ArchivedFireholMetadata) : option (list Z) := deref <$> am_maintainer m.
Definition maintainer_url_str (m : ArchivedFireholMetadata) : option (list Z) :=
  deref <$> am_maintainer_url m.
Definition source_file_date_str (m : ArchivedFireholMetadata) : option (list Z) :=
  deref <$> am_source_file_date m.
Definition version_str (m : ArchivedFireholMetadata) : option (list Z) := deref <$> am_version m.
Definition update_frequency_str (m : ArchivedFireholMetadata) : option (list Z) :=
  deref <$> am_update_frequency m.

Record ArchivedRuleBlockContext : Type := mkArchivedContext {
  ac_files : list AStr; ac_lines : list Z; ac_categories : list ArchivedFireholCategory }.
Definition files_iter (c : ArchivedRuleBlockContext) : list (list Z) := deref <$> ac_files c.
Definition categories_iter (c : ArchivedRuleBlockContext) : list FireholCategory :=
  to_native <$> ac_categories c.

(** What the accessors see of an archive: the value it represents. *)
Definition viewed_metadata (m : ArchivedFireholMetadata) : FireholMetadata :=
  mkMetadata (am_id m) (to_native (am_category m)) (source_url_str m) (maintainer_str m)
    (maintainer_url_str m) (source_file_date_str m) (file_name_str m) (version_str m)
    (update_frequency_str m).
Definition viewed_context (c : ArchivedRuleBlockContext) : RuleBlockContext :=
  mkContext (files_iter c) (ac_lines c) (categories_iter c).

(** [rkyv::access]: bytes as an archive, in agreement with deserialization. *)
Class RkyvAccess `{!Rkyv FireholMetadata} `{!Rkyv RuleBlockContext} : Type := {
  access_metadata : list Z → option ArchivedFireholMetadata;
  access_context : list Z → option ArchivedRuleBlockContext;
  access_metadata_spec b m : from_bytes b = Some m →
    ∃ a, access_metadata b = Some a ∧ am_id a = md_id m ∧ to_native (am_category a) = md_category m ∧
      deref (am_file_name a) = md_file_name m ∧
      [deref <$> am_source_url a; deref <$> am_maintainer a; deref <$> am_maintainer_url a;
       deref <$> am_source_file_date a; deref <$> am_version a; deref <$> am_update_frequency a] =
      [md_source_url m; md_maintainer m; md_maintainer_url m; md_source_file_date m; md_version m;
       md_update_frequency m];
  access_context_spec b c : from_bytes b = Some c →
    ∃ a, access_context b = Some a ∧ deref <$> ac_files a = cx_files c ∧
      ac_lines a = cx_lines c ∧ to_native <$> ac_categories a = cx_categories c;
}.

Section Access.
Context {DB : Type} `{!RocksDb DB} `{!RocksDbLaws DB}.
Context `{!Rkyv FireholMetadata} `{!Rkyv RuleBlockContext}.
Context `{!RkyvLaws FireholMetadata} `{!RkyvLaws RuleBlockContext} `{!RkyvAccess}.
Implicit Type self : CacheRocksDb DB.

(** [CacheRocksDb::with_metadata] and [with_rule_context]: [f] reads the archive. *)
Definition with_archived_metadata {R} self (id : Z) (f : ArchivedFireholMetadata → R)
    : outcome unit (option R) :=
  pinned ← cache_get self METADATA (metadata_key id);
  match pinned with
  | None => Ok None
  | Some p => archived ← io (access_metadata p); mret (Some (f archived))
  end.
Definition with_archived_context {R} self (key : list Z) (f : ArchivedRuleBlockContext → R)
    : outcome unit (option R) :=
  pinned ← cache_get self RULE_CONTEXT key;
  match pinned with
  | None => Ok None
  | Some p => archived ← io (access_context p); mret (Some (f archived))
  end.

(** Reading in place and reading a copy agree. *)
Lemma archived_metadata_agrees self id m :
  cache_get_metadata self id = Ok (Some m) →
  with_archived_metadata self id viewed_metadata = Ok (Some m).
Proof.
  unfold cache_get_metadata, with_archived_metadata, deserialize_metadata.
  destruct (cache_get self METADATA (metadata_key id)) as [[p|]| |]; cbn; try done.
  destruct (from_bytes p) as [m'|] eqn:E; cbn; [intros [= ->]|done].
  destruct (access_metadata_spec p m E) as ([] & -> & ? & ? & ? & ?). cbn in *.
  destruct m. unfold viewed_metadata, source_url_str, maintainer_str, maintainer_url_str,
    source_file_date_str, version_str, update_frequency_str, file_name_str. cbn in *.
  by simplify_eq.
Qed.
Lemma archived_context_agrees self key c :
  cache_get_rule_context self key = Ok (Some c) →
  with_archived_context self key viewed_context = Ok (Some c).
Proof.
  unfold cache_get_rule_context, with_archived_context, deserialize_rule_context.
  destruct (cache_get self RULE_CONTEXT key) as [[p|]| |]; cbn; try done.
  destruct (from_bytes p) as [c'|] eqn:E; cbn; [intros [= ->]|done].
  destruct (access_context_spec p c E) as ([] & -> & ? & ? & ?). cbn in *.
  destruct c. unfold viewed_context, files_iter, categories_iter. cbn in *. by simplify_eq.
Qed.
End Access.
End Archived.
Arguments ArchivedFireholMetadata : clear implicits.
Arguments ArchivedRuleBlockContext : clear implicits.

Lemma archived_as_str_native c : archived_as_str c = as_str (to_native c).
Proof. by destruct c. Qed.

(** ** Shared strings through serde *)
Class SerdeStr (Doc : Type) : Type := {
  serialize_str : list Z → option Doc;
  serialize_none : option Doc;
  serialize_some : list Z → option Doc;
  deserialize_string : Doc → option (list Z);
  deserialize_option_string : Doc → option (option (list Z));
  serialize_str_read s d : serialize_str s = Some d → deserialize_string d = Some s;
  serialize_some_read s d : serialize_some s = Some d → deserialize_option_string d = Some (Some s);
  serialize_none_read d : serialize_none = Some d → deserialize_option_string d = Some None;
}.
Section Serde.
Context {Doc : Type} `{!SerdeStr Doc}.
Definition arc_str_serialize (arc : list Z) : option Doc := serialize_str arc.
Definition arc_str_deserialize (d : Doc) : option (list Z) :=
  s ← deserialize_string d; Some s.
Definition option_arc_str_serialize (opt : option (list Z)) : option Doc :=
  match opt with Some s => serialize_some s | None => serialize_none end.
Definition option_arc_str_deserialize (d : Doc) : option (option (list Z)) :=
  s ← deserialize_option_string d; Some s.

Lemma option_arc_str_roundtrip opt d :
  option_arc_str_serialize opt = Some d → option_arc_str_deserialize d = Some opt.
Proof.
  unfold option_arc_str_deserialize. destruct opt as [s|]; cbn; intros H.
  - by rewrite (serialize_some_read s d H).
  - by rewrite (serialize_none_read d H).
Qed.
End Serde.
