(* ===== verification/Checks.v ===== *)
(** * The repository's unit tests, as checks of the model

    A test function of the repository becomes the list of what it asserts, evaluated on
    the definitions of this development: the expected values are those of the source.
    An [expect] or [unwrap] that would panic is a check that fails. Parts of a test that
    exercise something outside the model (temporary files, memory maps, locks) are left
    out, and the files the tests write are given by their lines. *)
From stdpp Require Import base numbers list gmap fin_maps strings.
From Stdlib Require Import ZArith.
From S2P Require Import Prelude Net Str Cidr Metadata Parser Import.

Local Open Scope Z_scope.

Definition passes (checks : list bool) : bool := forallb id checks.
Definition expect {E A} (m : outcome E A) (k : A → list bool) : list bool :=
  match m with Ok a => k a | _ => [false] end.
Definition expect_some {A} (m : option A) (k : A → list bool) : list bool :=
  match m with Some a => k a | None => [false] end.
Definition is_err {E A} (m : outcome E A) : bool := match m with Err _ => true | _ => false end.
Definition is_none {A} (m : option A) : bool := match m with None => true | _ => false end.

Declare Scope checks_scope.
Delimit Scope checks_scope with checks.
Notation "a ≟ b" := (bool_decide (a = b)) (at level 70, no associativity) : checks_scope.

(** [buf[off..off + n].copy_from_slice(bytes)]. *)
Definition patch (off : nat) (bytes buf : list Z) : list Z :=
  take off buf ++ bytes ++ drop (off + length bytes) buf.
Definition zeroed (n : nat) : list Z := replicate n 0.
(** [parse::<IpAddr>().unwrap()]. *)
Definition address (s : String.string) : IpAddr := default (V4 []) (IpAddr_from_str (lit s)).
Definition octets_of (s : String.string) : list Z := match address s with V4 o | V6 o => o end.

(** ** Networks in text: the [ipnet] crate

    Its parser is the one of [std], with leading zeros in the decimal groups; an IPv6
    address is read as [std] reads it. *)
Fixpoint ipnet_octets (i todo : nat) : parser (list Z) := λ s,
  match todo with
  | O => Some ([], s)
  | S todo' =>
      '(v, s) ← read_separator 46 i (read_number 10 255 3 true) s;
      '(vs, s) ← ipnet_octets (S i) todo' s;
      Some (v :: vs, s)
  end.
Definition ipnet_parse (n : nat) (limit digits : Z) (addr : parser (list Z)) (s : list Z)
    : option (Net n) :=
  '(octets, s) ← addr (as_bytes s);
  '(_, s) ← read_given_char 47 s;
  p ← parse_with (read_number 10 limit digits true) s;
  nt_new (from_be_bytes octets) p.
Definition Ipv4Net_of (s : list Z) : option (Net 4) := ipnet_parse 4 32 2 (ipnet_octets 0 4) s.
Definition Ipv6Net_of (s : list Z) : option (Net 16) := ipnet_parse 16 128 3 read_ipv6_addr s.
#[global] Program Instance ipnet_text : IpNetText (Net 4) (Net 16) :=
  {| IpNet_from_str s :=
       if decide (47 ∈ s) then
         match Ipv4Net_of s with Some t => Some (NetV4 t) | None => NetV6 <$> Ipv6Net_of s end
       else None;
     Ipv6Net_from_str := Ipv6Net_of |}.
Next Obligation. intros s [t H]. by destruct (decide (47 ∈ s)). Qed.

(** [char::to_lowercase] of the characters the tests use, and no date format. *)
#[global] Instance checks_lowercase : Lowercase := demo_lower.
