(* ===== verification/TestsKernel.v ===== *)
(** * Unit tests of the kernel side

    The tests of [firewall-ebpf/src/lib.rs], [firewall-ebpf/src/main.rs] and
    [firewall-common/src/lib.rs]. *)
From stdpp Require Import base numbers list gmap fin_maps strings.
From Stdlib Require Import ZArith.
From S2P Require Import Prelude Net Common BpfMaps Str Fmt Wire Xdp Checks.
From S2P Require Import TopN RingBuf LogText.

Local Open Scope Z_scope.
Local Open Scope checks_scope.

(** ** [firewall-ebpf/src/lib.rs] *)
Definition build_raw_ipv4_tcp_packet (src_ip dst_ip : list Z) (sport dport : Z) : list Z :=
  let buf := zeroed 54 in
  let buf := patch 0 [0xaa; 0xbb; 0xcc; 0xdd; 0xee; 0xff] buf in
  let buf := patch 6 [0x11; 0x22; 0x33; 0x42; 0x55; 0x66] buf in
  let buf := patch 12 (to_be_bytes 2 0x0800) buf in
  let buf := patch 14 [0x45] buf in
  let buf := patch 15 [0x00] buf in
  let buf := patch 16 (to_be_bytes 2 40) buf in
  let buf := patch 23 [PROTO_TCP] buf in
  let buf := patch 26 src_ip buf in
  let buf := patch 30 dst_ip buf in
  let buf := patch 34 (to_be_bytes 2 sport) buf in
  let buf := patch 36 (to_be_bytes 2 dport) buf in
  let buf := patch 46 [0x50] buf in
  patch 47 [0x02] buf.
Definition build_raw_ipv4_udp_packet (src_ip dst_ip : list Z) (sport dport : Z) : list Z :=
  let buf := zeroed 42 in
  let buf := patch 12 (to_be_bytes 2 0x0800) buf in
  let buf := patch 14 [0x45] buf in
  let buf := patch 23 [PROTO_UDP] buf in
  let buf := patch 26 src_ip buf in
  let buf := patch 30 dst_ip buf in
  let buf := patch 34 (to_be_bytes 2 sport) buf in
  patch 36 (to_be_bytes 2 dport) buf.
Definition build_raw_vlan_8021q_packet : list Z :=
  let buf := zeroed 58 in
  let buf := patch 0 [0x00; 0x11; 0x22; 0x33; 0x44; 0x55] buf in
  let buf := patch 6 [0x66; 0x77; 0x88; 0x99; 0xaa; 0xbb] buf in
  let buf := patch 12 (to_be_bytes 2 0x8100) buf in
  let buf := patch 14 (to_be_bytes 2 100) buf in
  let buf := patch 16 (to_be_bytes 2 0x0800) buf in
  let buf := patch 18 [0x45] buf in
  let buf := patch 27 [PROTO_UDP] buf in
  let buf := patch 30 [192; 168; 1; 50] buf in
  let buf := patch 34 [10; 0; 0; 1] buf in
  let buf := patch 38 (to_be_bytes 2 5353) buf in
  patch 40 (to_be_bytes 2 53) buf.
Definition build_raw_ipv6_tcp_packet (src dst : list Z) (sport dport : Z) : list Z :=
  let buf := zeroed 74 in
  let buf := patch 12 (to_be_bytes 2 0x86DD) buf in
  let buf := patch 14 (to_be_bytes 4 0x60000000) buf in
  let buf := patch 18 (to_be_bytes 2 20) buf in
  let buf := patch 20 [PROTO_TCP] buf in
  let buf := patch 21 [64] buf in
  let buf := patch 22 src buf in
  let buf := patch 38 dst buf in
  let buf := patch 54 (to_be_bytes 2 sport) buf in
  patch 56 (to_be_bytes 2 dport) buf.

(** [2001:db8::] with a last byte. *)
Definition doc_v6 (last : Z) : list Z := [0x20; 0x01; 0x0d; 0xb8] ++ replicate 11 0 ++ [last].

Definition test_bounds_check_safety : list bool :=
  [check_bounds 100 0 50; check_bounds 100 50 50; negb (check_bounds 100 50 51);
   negb (check_bounds 100 101 1); negb (check_bounds 100 usize_max 1)].
Definition test_parse_ethernet_standard : list bool :=
  let packet := build_raw_ipv4_tcp_packet [192; 168; 1; 1] [10; 0; 0; 1] 1234 80 in
  expect (parse_ethernet packet) (λ '(eth, l3_offset, ether_type),
    [ether_type ≟ ETH_P_IP; l3_offset ≟ 14; eth_dst_mac eth ≟ [0xaa; 0xbb; 0xcc; 0xdd; 0xee; 0xff]]).
Definition test_parse_ethernet_vlan_8021q : list bool :=
  expect (parse_ethernet build_raw_vlan_8021q_packet) (λ '(_, l3_offset, ether_type),
    [ether_type ≟ ETH_P_IP; l3_offset ≟ 18]).
Definition test_parse_ethernet_qinq_double_vlan : list bool :=
  let buf := patch 12 (to_be_bytes 2 ETH_P_8021AD) (zeroed 62) in
  let buf := patch 16 (to_be_bytes 2 ETH_P_8021Q) buf in
  let buf := patch 20 (to_be_bytes 2 ETH_P_IP) buf in
  let buf := patch 22 [0x45] buf in
  expect (parse_ethernet buf) (λ '(_, l3_offset, ether_type), [ether_type ≟ ETH_P_IP; l3_offset ≟ 22]).
Definition test_parse_ethernet_truncated : list bool := [is_err (parse_ethernet (zeroed 13))].
Definition test_parse_ipv4_tcp : list bool :=
  let packet := build_raw_ipv4_tcp_packet [192; 168; 10; 20] [172; 28; 0; 2] 44321 443 in
  expect (parse_ipv4 packet 14) (λ '(ip_hdr, l4_offset),
    [ip4_src_addr ip_hdr ≟ [192; 168; 10; 20]; ip4_dst_addr ip_hdr ≟ [172; 28; 0; 2];
     ip4_protocol ip_hdr ≟ PROTO_TCP; l4_offset ≟ 34;
     extract_transport_ports packet l4_offset (ip4_protocol ip_hdr) ≟ Ok (44321, 443)]).
Definition test_parse_ipv4_udp : list bool :=
  let packet := build_raw_ipv4_udp_packet [10; 0; 0; 5] [10; 0; 0; 1] 5353 53 in
  expect (parse_ipv4 packet 14) (λ '(ip_hdr, l4_offset),
    [ip4_protocol ip_hdr ≟ PROTO_UDP;
     extract_transport_ports packet l4_offset (ip4_protocol ip_hdr) ≟ Ok (5353, 53)]).
Definition test_parse_ipv4_icmp : list bool :=
  let buf := patch 12 (to_be_bytes 2 ETH_P_IP) (zeroed 34) in
  let buf := patch 23 [PROTO_ICMP] (patch 14 [0x45] buf) in
  expect (parse_ipv4 buf 14) (λ '(ip_hdr, l4_offset),
    [ip4_protocol ip_hdr ≟ PROTO_ICMP;
     extract_transport_ports buf l4_offset (ip4_protocol ip_hdr) ≟ Ok (0, 0)]).
Definition test_parse_ipv4_options_ihl : list bool :=
  let buf := patch (14 + 24) [0x00] (patch 14 [0x46] (zeroed 60)) in
  expect (parse_ipv4 buf 14) (λ '(_, l4_offset), [l4_offset ≟ 14 + 24]).
Definition test_parse_ipv4_invalid_ihl_and_truncated : list bool :=
  [is_err (parse_ipv4 (patch 14 [0x44] (zeroed 40)) 14); is_err (parse_ipv4 (zeroed 25) 14)].
Definition test_parse_ipv6_tcp : list bool :=
  let packet := build_raw_ipv6_tcp_packet (doc_v6 1) (doc_v6 2) 8080 80 in
  expect (parse_ipv6 packet 14) (λ '(ip_hdr, l4_offset),
    [ip6_src_addr ip_hdr ≟ doc_v6 1; ip6_dst_addr ip_hdr ≟ doc_v6 2;
     ip6_next_header ip_hdr ≟ PROTO_TCP; l4_offset ≟ 54;
     extract_transport_ports packet l4_offset (ip6_next_header ip_hdr) ≟ Ok (8080, 80)]).
Definition test_parse_ipv6_invalid_version_and_truncated : list bool :=
  [is_err (parse_ipv6 (patch 14 (to_be_bytes 4 0x40000000) (zeroed 60)) 14);
   is_err (parse_ipv6 (zeroed 45) 14)].
Definition test_classify_packet_ipv6_e2e : list bool :=
  let src := doc_v6 0xcd in
  expect (classify_packet (build_raw_ipv6_tcp_packet src (doc_v6 0xab) 443 44321)) (λ parsed,
    [pp_ip_version parsed ≟ 6; pp_src_ip parsed ≟ src; pp_dst_ip parsed ≟ doc_v6 0xab;
     pp_protocol parsed ≟ PROTO_TCP; pp_src_port parsed ≟ 443; pp_dst_port parsed ≟ 44321;
     pp_l4_offset parsed ≟ 54; pp_packet_len parsed ≟ 74;
     simulate_exact_match parsed [] [src] ≟ (ACTION_DROP, MATCH_EXACT_HASH);
     simulate_exact_match parsed [] [] ≟ (ACTION_ACCEPT, MATCH_NONE)]).
Definition set_ip_version (p : ParsedPacket) (v : Z) : ParsedPacket :=
  mkParsed v (pp_src_ip p) (pp_dst_ip p) (pp_protocol p) (pp_src_port p) (pp_dst_port p)
    (pp_packet_len p) (pp_l4_offset p).
Definition test_classify_packet_unknown_ethertype_and_exact_v4_ignores_v6 : list bool :=
  expect (classify_packet (build_raw_ipv4_tcp_packet [198; 51; 100; 14] [172; 28; 0; 2] 55555 80)) (λ parsed,
    [(simulate_exact_match parsed [] [doc_v6 1]).1 ≟ ACTION_ACCEPT]) ++
  [is_err (classify_packet (patch 12 (to_be_bytes 2 0x0806) (zeroed 42)))] ++
  expect (classify_packet (build_raw_ipv4_tcp_packet [192; 0; 2; 1] [172; 28; 0; 2] 1 2)) (λ parsed_unknown,
    [(simulate_exact_match (set_ip_version parsed_unknown 99) [[192; 0; 2; 1]] []).1 ≟ ACTION_ACCEPT]).
Definition test_classify_packet_ipv6_udp_and_truncated_ipv4 : list bool :=
  let buf := patch 12 (to_be_bytes 2 0x86DD) (zeroed 74) in
  let buf := patch 14 (to_be_bytes 4 0x60000000) buf in
  let buf := patch 20 [PROTO_UDP] (patch 18 (to_be_bytes 2 8) buf) in
  let buf := patch 22 (doc_v6 0x1a) buf in
  let buf := patch 38 (replicate 15 0 ++ [2]) buf in
  let buf := patch 56 (to_be_bytes 2 53) (patch 54 (to_be_bytes 2 5353) buf) in
  expect (classify_packet buf) (λ parsed,
    [pp_ip_version parsed ≟ 6; pp_protocol parsed ≟ PROTO_UDP;
     (pp_src_port parsed, pp_dst_port parsed) ≟ (5353, 53)]).
Definition test_classify_packet_e2e : list bool :=
  let exact_blocklist := [[198; 51; 100; 14]; [10; 0; 0; 99]] in
  expect (classify_packet (build_raw_ipv4_tcp_packet [198; 51; 100; 14] [172; 28; 0; 2] 55555 80)) (λ parsed,
    [pp_ip_version parsed ≟ 4; take 4 (pp_src_ip parsed) ≟ [198; 51; 100; 14];
     take 4 (pp_dst_ip parsed) ≟ [172; 28; 0; 2]; pp_protocol parsed ≟ PROTO_TCP;
     pp_src_port parsed ≟ 55555; pp_dst_port parsed ≟ 80;
     simulate_exact_match parsed exact_blocklist [] ≟ (ACTION_DROP, MATCH_EXACT_HASH)]) ++
  expect (classify_packet (build_raw_ipv4_tcp_packet [172; 28; 0; 10] [172; 28; 0; 2] 12345 80)) (λ clean_parsed,
    [simulate_exact_match clean_parsed exact_blocklist [] ≟ (ACTION_ACCEPT, MATCH_NONE)]).

(** ** [firewall-ebpf/src/main.rs] *)
Definition test_is_github_ipv4_140_82_112_slash20 : list bool :=
  [is_github_ipv4 [140; 82; 112; 0]; is_github_ipv4 [140; 82; 121; 3]; is_github_ipv4 [140; 82; 121; 4];
   is_github_ipv4 [140; 82; 127; 255]; negb (is_github_ipv4 [140; 82; 111; 255]);
   negb (is_github_ipv4 [140; 82; 128; 0]); negb (is_github_ipv4 [140; 81; 112; 0])].
Definition test_is_github_ipv4_192_30_252_slash22 : list bool :=
  [is_github_ipv4 [192; 30; 252; 0]; is_github_ipv4 [192; 30; 252; 10]; is_github_ipv4 [192; 30; 255; 255];
   negb (is_github_ipv4 [192; 30; 251; 255]); negb (is_github_ipv4 [192; 31; 252; 0])].
Definition test_is_github_ipv4_185_199_108_slash22 : list bool :=
  [is_github_ipv4 [185; 199; 108; 0]; is_github_ipv4 [185; 199; 108; 153]; is_github_ipv4 [185; 199; 111; 255];
   negb (is_github_ipv4 [185; 199; 107; 255]); negb (is_github_ipv4 [185; 199; 112; 0])].
Definition test_is_github_ipv4_143_55_64_slash20 : list bool :=
  [is_github_ipv4 [143; 55; 64; 0]; is_github_ipv4 [143; 55; 79; 255]; negb (is_github_ipv4 [143; 55; 63; 255]);
   negb (is_github_ipv4 [143; 55; 80; 0]); negb (is_github_ipv4 [143; 56; 64; 0])].
Definition test_is_github_ipv4_azure_frontends : list bool :=
  [is_github_ipv4 [20; 201; 28; 151]; is_github_ipv4 [20; 205; 243; 166]; is_github_ipv4 [4; 237; 22; 1];
   is_github_ipv4 [4; 237; 23; 255]; negb (is_github_ipv4 [4; 237; 24; 0]);
   negb (is_github_ipv4 [20; 201; 28; 152]); negb (is_github_ipv4 [20; 205; 243; 167])].
Definition test_is_github_ipv4_unrelated_addresses : list bool :=
  [negb (is_github_ipv4 [8; 8; 8; 8]); negb (is_github_ipv4 [0; 0; 0; 0]);
   negb (is_github_ipv4 [255; 255; 255; 255]); negb (is_github_ipv4 [127; 0; 0; 1])].

(** [MockPacket]: its memory is mapped from this address on. *)
Definition mock_packet (bytes : list Z) : XdpContext :=
  mkCtx 0x10000000 (0x10000000 + len bytes) bytes 2 0.
Definition test_extract_ports_reads_unaligned_tcp_udp_ports : list bool :=
  let n := 64 in
  let ctx := mock_packet (patch 18 [0x01; 0xbb; 0x00; 0x35] (zeroed 64)) in
  [extract_ports ctx (14 + 4) PROTO_TCP ≟ Ok (443, 53); extract_ports ctx (14 + 4) PROTO_UDP ≟ Ok (443, 53);
   extract_ports ctx (14 + 4) 1 ≟ Ok (0, 0); extract_ports ctx n PROTO_TCP ≟ Ok (0, 0);
   extract_ports ctx (n - 2) PROTO_TCP ≟ Ok (0, 0)].
Definition test_ptr_at_bounds_checks_against_packet_end : list bool :=
  let ctx := mock_packet (replicate 64 0xAA) in
  [is_ok (ptr_at ctx 14 0); is_ok (ptr_at ctx 20 ETH_HDR_LEN); is_ok (ptr_at ctx 14 (64 - 14));
   is_err (ptr_at ctx 14 (64 - 14 + 1)); is_ok (ptr_at ctx 20 (64 - 20));
   is_err (ptr_at ctx 20 (64 - 20 + 1)); is_err (ptr_at ctx 20 64)].

(** ** [firewall-common/src/lib.rs] *)
Definition test_action_and_match_constants : list bool :=
  [ACTION_ACCEPT ≟ 0; ACTION_PASS ≟ ACTION_ACCEPT; ACTION_DROP ≟ 1;
   MATCH_NONE ≟ 0; MATCH_EXACT_HASH ≟ 1; MATCH_LPM_TRIE ≟ 2].
Definition test_protocol_and_map_constants : list bool :=
  [PROTO_ICMP ≟ 1; PROTO_TCP ≟ 6; PROTO_UDP ≟ 17; PROTO_ICMPV6 ≟ 58;
   MAX_IPV4_HASH_ENTRIES ≟ 4194304; MAX_IPV6_HASH_ENTRIES ≟ 262144; MAX_IPV4_LPM_ENTRIES ≟ 524288;
   MAX_IPV6_LPM_ENTRIES ≟ 65536; RING_BUF_SIZE_BYTES ≟ 524288].
Definition test_rule_value_constructors_and_defaults : list bool :=
  let drop_rule := rule_drop 42 in
  let accept_rule := rule_accept 100 in
  let def := RuleValue_default in
  [rv_rule_id drop_rule ≟ 42; rv_action drop_rule ≟ ACTION_DROP; rv_flags drop_rule ≟ 0;
   rv_pad drop_rule ≟ [0; 0]; rv_rule_id accept_rule ≟ 100; rv_action accept_rule ≟ ACTION_ACCEPT;
   rv_flags accept_rule ≟ 0; accept_rule ≟ rule_pass 100; rv_rule_id def ≟ 0; rv_action def ≟ 0].
Definition test_lpm_key_v4_constructors_and_hashing : list bool :=
  let key1 := LpmKeyV4_new 24 [192; 168; 1; 0] in
  let key2 := LpmKeyV4_from_u32 24 0xC0A80100 in
  [k4_prefixlen key1 ≟ k4_prefixlen key2; k4_data key1 ≟ k4_data key2; k4_prefixlen key1 ≟ 24;
   k4_data key1 ≟ [192; 168; 1; 0]].
Definition test_lpm_key_v6_constructors : list bool :=
  let key := LpmKeyV6_new 64 (doc_v6 1) in [k6_prefixlen key ≟ 64; k6_data key ≟ doc_v6 1].
(** Each byte of the encoding holds its position: the fields read from their offsets. *)
Definition test_packet_log_event_size_and_alignment : list bool :=
  let at_offset (off n : Z) := from_le_bytes (slice (Z.of_nat <$> seq 0 64) off n) in
  let event := event_of_bytes (Z.of_nat <$> seq 0 64) in
  [EVENT_SIZE ≟ 64; len (event_to_bytes PacketLogEvent_default) ≟ 64;
   ev_timestamp_ns event ≟ at_offset 0 8; head (ev_src_ip event) ≟ Some 8; head (ev_dst_ip event) ≟ Some 24;
   ev_rule_id event ≟ at_offset 40 4; ev_packet_len event ≟ at_offset 44 4; ev_ifindex event ≟ at_offset 48 4;
   ev_src_port event ≟ at_offset 52 2; ev_dst_port event ≟ at_offset 54 2; ev_protocol event ≟ 56;
   ev_ip_version event ≟ 57; ev_action event ≟ 58; ev_match_type event ≟ 59; head (ev_pad event) ≟ Some 60].
Definition test_packet_log_event_zero_copy_transmute : list bool :=
  let event := event_of_bytes (replicate 64 0x55) in
  [ev_rule_id event ≟ 0x55555555; ev_packet_len event ≟ 0x55555555].
Definition test_packet_log_event_display_and_helpers : list bool :=
  let event protocol version action match_type src dst :=
    mkEvent 1700000000000000000 src dst 15 64 2 12345 80 protocol version action match_type [0; 0; 0; 0] in
  let e4 := event PROTO_TCP 4 ACTION_DROP MATCH_EXACT_HASH
    ([192; 168; 1; 10] ++ zeroed 12) ([10; 0; 0; 1] ++ zeroed 12) in
  let e6 protocol action match_type := event protocol 6 action match_type (doc_v6 1) (doc_v6 2) in
  let display_str := event_display e4 in
  let e := e6 PROTO_UDP ACTION_ACCEPT MATCH_LPM_TRIE in
  [ip_to_string (src_addr e4) ≟ lit "192.168.1.10"; ip_to_string (dst_addr e4) ≟ lit "10.0.0.1";
   protocol_name e4 ≟ "TCP"%string; action_name e4 ≟ "DROP"%string;
   match_type_name e4 ≟ "Exact HashMap"%string;
   contains (lit "[DROP]") display_str; contains (lit "IPv4 192.168.1.10:12345 -> 10.0.0.1:80") display_str;
   contains (lit "proto=TCP") display_str; contains (lit "rule_id=15") display_str;
   contains (lit "match='Exact HashMap'") display_str;
   ip_to_string (src_addr e) ≟ lit "2001:db8::1"; ip_to_string (dst_addr e) ≟ lit "2001:db8::2";
   protocol_name e ≟ "UDP"%string; action_name e ≟ "ACCEPT"%string; match_type_name e ≟ "LPM Trie CIDR"%string;
   protocol_name (e6 PROTO_ICMP 0 0) ≟ "ICMP"%string; protocol_name (e6 PROTO_ICMPV6 0 0) ≟ "ICMPv6"%string;
   protocol_name (e6 255 0 0) ≟ "UNKNOWN"%string; action_name (e6 255 255 0) ≟ "OTHER"%string;
   match_type_name (e6 255 255 0) ≟ "None"%string].
Definition test_firewall_stats_wrapping_math : list bool :=
  let stats := FirewallStats_default in
  [rx_packets stats ≟ 0; rx_bytes stats ≟ 0; dropped_packets stats ≟ 0; accepted_packets stats ≟ 0;
   wrap_u64 (2 ^ 64 - 1 + 1) ≟ 0].

Lemma kernel_tests_pass :
  forallb passes
    [test_bounds_check_safety; test_parse_ethernet_standard; test_parse_ethernet_vlan_8021q;
     test_parse_ethernet_qinq_double_vlan; test_parse_ethernet_truncated; test_parse_ipv4_tcp;
     test_parse_ipv4_udp; test_parse_ipv4_icmp; test_parse_ipv4_options_ihl;
     test_parse_ipv4_invalid_ihl_and_truncated; test_parse_ipv6_tcp;
     test_parse_ipv6_invalid_version_and_truncated; test_classify_packet_ipv6_e2e;
     test_classify_packet_unknown_ethertype_and_exact_v4_ignores_v6;
     test_classify_packet_ipv6_udp_and_truncated_ipv4; test_classify_packet_e2e;
     test_is_github_ipv4_140_82_112_slash20; test_is_github_ipv4_192_30_252_slash22;
     test_is_github_ipv4_185_199_108_slash22; test_is_github_ipv4_143_55_64_slash20;
     test_is_github_ipv4_azure_frontends; test_is_github_ipv4_unrelated_addresses;
     test_extract_ports_reads_unaligned_tcp_udp_ports; test_ptr_at_bounds_checks_against_packet_end;
     test_action_and_match_constants; test_protocol_and_map_constants;
     test_rule_value_constructors_and_defaults; test_lpm_key_v4_constructors_and_hashing;
     test_lpm_key_v6_constructors; test_packet_log_event_size_and_alignment;
     test_packet_log_event_zero_copy_transmute; test_packet_log_event_display_and_helpers;
     test_firewall_stats_wrapping_math] = true.
Proof. vm_compute. reflexivity. Qed.
