(* ===== verification/TestsRules.v ===== *)
(** * Unit tests of the rule sources

    The tests of [src/loader.rs], [src/firehol/entry.rs] and [src/firehol/sync.rs]. *)
From stdpp Require Import base numbers list gmap fin_maps strings.
From Stdlib Require Import ZArith.
From S2P Require Import Prelude Net Common BpfMaps Str Fmt Lines Cidr Entry Metadata Attribution.
From S2P Require Import Parser Import Loader MapManager FireholSync Pipeline TopN LogText Checks.

Local Open Scope Z_scope.
Local Open Scope checks_scope.
#[local] Existing Instance canonical_order.

(** ** [src/loader.rs] *)
Definition parsed_line (s : String.string) (id : Z) (k : ParsedEntry → list bool) : list bool :=
  expect (parse_line (N4 := Net 4) (N6 := Net 16) (lit s) id) (λ o, expect_some o k).
Definition test_parse_ipv4_single : list bool :=
  parsed_line "192.0.2.1" 1 (λ entry, [entry ≟ ExactV4 [192; 0; 2; 1] (rule_drop 1)]).
Definition test_parse_ipv4_cidr_32_as_exact : list bool :=
  parsed_line "10.1.2.3/32" 2 (λ entry, [entry ≟ ExactV4 [10; 1; 2; 3] (rule_drop 2)]).
Definition test_parse_ipv4_cidr_subnet : list bool :=
  parsed_line "10.0.0.0/8" 3 (λ entry, [entry ≟ LpmV4 8 [10; 0; 0; 0] (rule_drop 3)]).
Definition test_parse_ipv6_single : list bool :=
  parsed_line "2001:db8::1" 4 (λ entry, [entry ≟ ExactV6 (octets_of "2001:db8::1") (rule_drop 4)]).
Definition test_parse_ipv6_cidr : list bool :=
  parsed_line "2001:db8::/32" 5 (λ entry, match entry with
    | LpmV6 prefix_len _ val => [prefix_len ≟ 32; rv_rule_id val ≟ 5] | _ => [false] end).
Definition test_parse_comments_and_whitespace : list bool :=
  parsed_line "   172.16.0.0/12  # Private RFC1918   " 6
    (λ entry, [entry ≟ LpmV4 12 [172; 16; 0; 0] (rule_drop 6)]).
Definition test_parsed_entry_rule_id : list bool :=
  [entry_rule_id (ExactV4 [1; 2; 3; 4] (rule_drop 10)) ≟ 10;
   entry_rule_id (ExactV6 (zeroed 16) (rule_drop 20)) ≟ 20;
   entry_rule_id (LpmV4 24 [10; 0; 0; 0] (rule_drop 30)) ≟ 30;
   entry_rule_id (LpmV6 64 (zeroed 16) (rule_drop 40)) ≟ 40].
Definition test_parse_ipv6_cidr_128_as_exact : list bool :=
  parsed_line "2001:db8::1/128" 44
    (λ entry, [entry ≟ ExactV6 (octets_of "2001:db8::1") (rule_drop 44)]).
Definition test_parsed_rule_set_operations : list bool :=
  let set1 := ParsedRuleSet_new in
  let set1' := mkRuleSet {[ [192; 168; 1; 1] := rule_drop 1 ]} ∅ [] [] 0 0 in
  let set2 := mkRuleSet ∅ {[ zeroed 16 := rule_drop 2 ]} [(24, [10; 0; 0; 0], rule_drop 3)]
    [(64, zeroed 16, rule_drop 4)] 0 2 in
  let merged := rs_merge set1' set2 in
  [rs_is_empty set1; rs_count set1 ≟ 0; negb (rs_is_empty set1'); rs_count set1' ≟ 1;
   rs_count merged ≟ 4; rs_total_rules merged ≟ 4; rs_skipped_rules merged ≟ 2].
Definition test_static_rule_registry : list bool :=
  let registry := StaticRuleRegistry_new in
  let id := STATIC_RULE_BASE + 1 in
  let registry' := registry_set registry {[ id := mkStaticInfo id (lit "test.txt") 10 ]} in
  is_none (registry_get registry 100) ::
  expect_some (registry_get registry' id) (λ info,
    [si_rule_id info ≟ id; si_file info ≟ lit "test.txt"; si_line info ≟ 10]).
Definition test_load_from_paths_with_duplicates_and_missing : list bool :=
  let tmp := mkFile true true (lit "rules.txt") (Some <$>
    [lit "192.168.1.1"; lit "192.168.1.1 # duplicate"; lit "2001:db8::1";
     lit "2001:db8::1 # duplicate v6"; lit "bad-line"; lit "# comment"; lit "   "]) in
  let missing := mkFile false false (lit "/path/that/does/not/exist/rules.txt") [] in
  expect (load_from_paths_with_meta (N4 := Net 4) (N6 := Net 16) [tmp; missing]) (λ '(rules, meta),
    [size (rs_exact_v4 rules) ≟ 1%nat; size (rs_exact_v6 rules) ≟ 1%nat;
     rs_skipped_rules rules ≟ 3; size meta ≟ 4%nat]) ++
  expect (load_file (N4 := Net 4) (N6 := Net 16) tmp) (λ single, [size (rs_exact_v4 single) ≟ 1%nat]) ++
  expect (load_from_paths (N4 := Net 4) (N6 := Net 16) [tmp])
    (λ paths_only, [size (rs_exact_v4 paths_only) ≟ 1%nat]).

(** ** [src/firehol/entry.rs] *)
Definition LOCALHOST_V6 : list Z := octets_of "::1".
Definition test_target_exact_v4 : list bool :=
  let target := TExactV4 [192; 0; 2; 1] in
  [target_is_exact target; target_ip_version target ≟ 4; target_entry_type target ≟ "exact"%string;
   target_prefix_len target ≟ 32; to_string_repr target ≟ lit "192.0.2.1";
   len (context_key target) ≟ 5; contains_ip target (V4 [192; 0; 2; 1]);
   negb (contains_ip target (V4 [192; 0; 2; 2])); negb (contains_ip target (V6 LOCALHOST_V6))].
Definition test_target_exact_v6 : list bool :=
  let ip := octets_of "2001:db8::1" in
  let target := TExactV6 ip in
  [target_is_exact target; target_ip_version target ≟ 6; target_entry_type target ≟ "exact"%string;
   target_prefix_len target ≟ 128; to_string_repr target ≟ lit "2001:db8::1";
   len (context_key target) ≟ 17; contains_ip target (V6 ip);
   negb (contains_ip target (V6 LOCALHOST_V6)); negb (contains_ip target (V4 [127; 0; 0; 1]))].
Definition test_target_cidr_v4 : list bool :=
  let target := TCidrV4 24 [192; 0; 2; 0] in
  [negb (target_is_exact target); target_ip_version target ≟ 4;
   target_entry_type target ≟ "cidr"%string; target_prefix_len target ≟ 24;
   to_string_repr target ≟ lit "192.0.2.0/24"; len (context_key target) ≟ 6;
   contains_ip target (V4 [192; 0; 2; 42]); negb (contains_ip target (V4 [192; 0; 3; 1]));
   negb (contains_ip target (V6 LOCALHOST_V6))].
Definition test_target_cidr_v6 : list bool :=
  let target := TCidrV6 48 (octets_of "2001:db8::") in
  [negb (target_is_exact target); target_ip_version target ≟ 6;
   target_entry_type target ≟ "cidr"%string; target_prefix_len target ≟ 48;
   to_string_repr target ≟ lit "2001:db8::/48"; len (context_key target) ≟ 18;
   contains_ip target (address "2001:db8:0:1::42"); negb (contains_ip target (address "2001:db9::1"));
   negb (contains_ip target (V4 [127; 0; 0; 1]))].
Definition test_firehol_entry_roundtrip_and_errors : list bool :=
  let entries := [mkEntry (TExactV4 [10; 0; 0; 1]) 100 200 15;
    mkEntry (TExactV6 (octets_of "2001:db8::cafe")) 101 201 25;
    mkEntry (TCidrV4 16 [172; 16; 0; 0]) 102 202 35;
    mkEntry (TCidrV6 64 (octets_of "2001:db8:ffff::")) 103 203 45] in
  (entries ≫= λ entry,
    [entry_is_exact entry ≟ target_is_exact (fe_target entry);
     entry_ip_version entry ≟ target_ip_version (fe_target entry);
     entry_entry_type entry ≟ target_entry_type (fe_target entry);
     entry_prefix_len entry ≟ target_prefix_len (fe_target entry); len (encode entry) ≟ 30] ++
    expect (decode (encode entry)) (λ decoded, [entry ≟ decoded])) ++
  [is_err (decode (zeroed 29)); is_err (decode (zeroed 31));
   is_err (decode (patch 0 [99] (zeroed 30))); is_err (decode (patch 0 [3; 33] (zeroed 30)));
   is_err (decode (patch 0 [4; 129] (zeroed 30)))].

(** ** [src/firehol/sync.rs] *)
Definition in_memory (entries : list FireholEntry) : FireholDataSet MemStore :=
  demo_dataset None entries.
Definition has {V} (m : gmap (list Z) V) (key : list Z) : bool := bool_decide (is_Some (m !! key)).
Definition test_prepare_rules_deduplication_and_classification : list bool :=
  let v6_bytes := replicate 16 1 in
  let dataset := in_memory
    [mkEntry (TExactV4 [10; 0; 0; 1]) 1 1 1; mkEntry (TExactV4 [10; 0; 0; 1]) 2 1 2;
     mkEntry (TCidrV4 32 [10; 0; 0; 2]) 3 1 3; mkEntry (TCidrV4 24 [192; 168; 1; 0]) 4 1 4;
     mkEntry (TCidrV6 128 v6_bytes) 5 1 5] in
  expect (prepare_rules dataset) (λ '(rules, report),
    [fr_duplicates_deduped report ≟ 1; fr_exact_v4_count report ≟ 2;
     size (rs_exact_v4 rules) ≟ 2%nat; has (rs_exact_v4 rules) [10; 0; 0; 1];
     has (rs_exact_v4 rules) [10; 0; 0; 2]; fr_lpm_v4_count report ≟ 1;
     length (rs_lpm_v4 rules) ≟ 1%nat; fr_exact_v6_count report ≟ 1;
     size (rs_exact_v6 rules) ≟ 1%nat; has (rs_exact_v6 rules) v6_bytes;
     report_total_rules report ≟ 4]).
Definition test_prepare_rules_github_allowlist : list bool :=
  let dataset := in_memory
    [mkEntry (TExactV4 [140; 82; 121; 4]) 1 1 1; mkEntry (TExactV4 [140; 82; 121; 3]) 2 1 2;
     mkEntry (TExactV4 [198; 51; 100; 25]) 3 1 3] in
  expect (prepare_rules dataset) (λ '(rules, report),
    [fr_allowlisted_skipped report ≟ 2; fr_exact_v4_count report ≟ 1;
     negb (has (rs_exact_v4 rules) [140; 82; 121; 4]);
     negb (has (rs_exact_v4 rules) [140; 82; 121; 3]); has (rs_exact_v4 rules) [198; 51; 100; 25]]).
Definition test_is_infrastructure_allowlisted_v4_all_cidrs : list bool :=
  let check := is_infrastructure_allowlisted_v4 in
  [check [140; 82; 112; 0]; check [140; 82; 127; 255]; negb (check [140; 82; 111; 255]);
   check [192; 30; 252; 0]; check [192; 30; 255; 255]; negb (check [192; 30; 251; 255]);
   check [185; 199; 108; 0]; check [185; 199; 111; 255]; negb (check [185; 199; 112; 0]);
   check [143; 55; 64; 0]; check [143; 55; 79; 255]; negb (check [143; 55; 80; 0]);
   check [20; 201; 28; 151]; check [20; 205; 243; 166]; check [4; 237; 22; 7];
   check [4; 237; 23; 9]; negb (check [4; 237; 24; 0]); check [127; 0; 0; 1];
   check [127; 255; 255; 254]; negb (check [198; 51; 100; 1])].
Definition test_is_infrastructure_cidr_allowlisted_v4 : list bool :=
  let check := is_infrastructure_cidr_allowlisted_v4 in
  [check 20 [140; 82; 112; 0]; check 22 [192; 30; 252; 0]; check 22 [185; 199; 108; 0];
   check 20 [143; 55; 64; 0]; negb (check 21 [140; 82; 112; 0]); negb (check 23 [192; 30; 252; 0]);
   negb (check 24 [185; 199; 108; 0]); negb (check 19 [143; 55; 64; 0]);
   negb (check 24 [192; 168; 0; 0])].
Definition test_prepare_rules_full_branch_matrix : list bool :=
  let v6 := [0x20; 0x01; 0x0d; 0xb8; 0; 0; 0; 0; 0; 0; 0; 0; 0; 0; 0; 0x9a] in
  let fd last := 0xfd :: replicate 14 0 ++ [last] in
  let targets := [TExactV6 v6; TExactV6 v6; TCidrV4 32 [140; 82; 121; 4];
    TCidrV4 32 [198; 51; 100; 10]; TCidrV4 32 [198; 51; 100; 10]; TCidrV4 20 [140; 82; 112; 0];
    TCidrV4 24 [192; 168; 1; 0]; TCidrV4 24 [192; 168; 1; 0]; TCidrV6 128 (fd 1); TCidrV6 128 (fd 1);
    TCidrV6 48 (fd 0); TCidrV6 48 (fd 0)] in
  let next id t := mkEntry t (Z.of_nat id + 1) 1 (Z.of_nat id + 1) in
  expect (prepare_rules (in_memory (imap next targets))) (λ '(rules, report),
    [fr_exact_v6_count report ≟ 2; fr_exact_v4_count report ≟ 1; fr_lpm_v4_count report ≟ 1;
     fr_lpm_v6_count report ≟ 1; fr_duplicates_deduped report ≟ 5;
     fr_allowlisted_skipped report ≟ 2; report_total_rules report ≟ 5;
     negb (has (rs_exact_v4 rules) [140; 82; 121; 4]); has (rs_exact_v4 rules) [198; 51; 100; 10]]).

Lemma rules_tests_pass :
  forallb passes
    [test_parse_ipv4_single; test_parse_ipv4_cidr_32_as_exact; test_parse_ipv4_cidr_subnet;
     test_parse_ipv6_single; test_parse_ipv6_cidr; test_parse_comments_and_whitespace;
     test_parsed_entry_rule_id; test_parse_ipv6_cidr_128_as_exact; test_parsed_rule_set_operations;
     test_static_rule_registry; test_load_from_paths_with_duplicates_and_missing;
     test_target_exact_v4; test_target_exact_v6; test_target_cidr_v4; test_target_cidr_v6;
     test_firehol_entry_roundtrip_and_errors; test_prepare_rules_deduplication_and_classification;
     test_prepare_rules_github_allowlist; test_is_infrastructure_allowlisted_v4_all_cidrs;
     test_is_infrastructure_cidr_allowlisted_v4; test_prepare_rules_full_branch_matrix] = true.
Proof. vm_compute. reflexivity. Qed.
