(* ===== verification/TestsImport.v ===== *)
(** * Unit tests of the FireHOL parser

    The tests of [src/firehol/parser.rs], the two that need a disk cache aside. A
    directory is given by its files, read by as many workers as there are files under
    the scheduler of [Pipeline]; what [writeln!] writes is a line. *)
From stdpp Require Import base numbers list gmap fin_maps strings sorting.
From Stdlib Require Import ZArith.
From S2P Require Import Prelude Net BpfMaps Str Fmt Lines Cidr Entry Metadata Attribution Parser.
From S2P Require Import Import FireholSync Pipeline TopN LogText Checks.

Local Open Scope Z_scope.
Local Open Scope checks_scope.
#[local] Existing Instance canonical_order.
#[local] Existing Instance demo_chrono.

(** ** [src/firehol/parser.rs] *)
Definition parsed (s : String.string) : option FireholIpTarget :=
  parse_ip_or_cidr (N4 := Net 4) (N6 := Net 16) (lit s).
Definition test_parse_ip_or_cidr : list bool :=
  let v6_addr := octets_of "2001:db8::1" in
  [parsed "192.0.2.1" ≟ Some (TExactV4 [192; 0; 2; 1]);
   parsed "192.0.2.1/32" ≟ Some (TExactV4 [192; 0; 2; 1]);
   parsed "198.51.100.0/24" ≟ Some (TCidrV4 24 [198; 51; 100; 0]);
   parsed "2001:db8::1" ≟ Some (TExactV6 v6_addr); parsed "2001:db8::1/128" ≟ Some (TExactV6 v6_addr);
   parsed "2001:db8::/32" ≟ Some (TCidrV6 32 (octets_of "2001:db8::"));
   parsed "999.999.999.999" ≟ None; parsed "192.168.1.1/33" ≟ None; parsed "not_an_ip" ≟ None].

(** [FireholParser::parse_directory_with_ignore]. *)
Definition text_file (name : String.string) (lines : list String.string) : list_file :=
  mkListFile (lit name) (lit <$> lines) false 0.
Definition imported_with_ignore (ignore_ips : list IpAddr) (files : list list_file)
    : outcome FireholParseError (FireholDataSet MemStore) :=
  let n := length files in
  import_result (run (N4 := Net 4) (N6 := Net 16) ignore_ips files 1000 (pipeline_new n)).
Definition imported := imported_with_ignore [].

Definition test_parse_directory_valid : list bool :=
  expect (imported
    [text_file "dshield.netset"
       ["# Maintainer: SANS DShield"; "# Category: attacks";
        "# Source File Date: Mon Sep 14 02:22:20 UTC 2026"; "192.0.2.1"; "198.51.100.0/24";
        "203.0.113.5/32"]%string;
     text_file "feodo.ipset"
       ["# Maintainer: Feodo Tracker"; "# Category: botnet"; "192.0.2.100"; "2001:db8::1"]%string])
    (λ dataset,
      [@ds_total_files _ _ dataset ≟ 2; total_entries dataset ≟ 5; ds_exact_v4_count dataset ≟ 3;
       ds_exact_v6_count dataset ≟ 1; ds_lpm_v4_count dataset ≟ 1; ds_lpm_v6_count dataset ≟ 0;
       total_blocklists (ds_registry dataset) ≟ 2%nat]).
Definition test_entry_line_numbers_match_physical_lines : list bool :=
  expect (imported
    [text_file "linecheck.netset"
       ["# Category: attacks"; ""; "192.0.2.1"; "# Maintainer: x"; "192.0.2.2";
        "192.0.2.3 # inline comment"; "198.51.100.0/24"]%string])
    (λ dataset,
      [(λ e, (to_string_repr (fe_target e), fe_line e)) <$> ds_entries dataset ≟
         [(lit "192.0.2.1", 3); (lit "192.0.2.2", 5); (lit "192.0.2.3", 6);
          (lit "198.51.100.0/24", 7)]]).
Definition test_strict_parsing_aborts_on_invalid_line : list bool :=
  match imported
    [text_file "malformed.ipset"
       ["# Category: malware"; "192.0.2.1"; "corrupted_ip_address_line"; "192.0.2.2"]%string] with
  | Err (EInvalidEntry line entry) => [line ≟ 3; entry ≟ lit "corrupted_ip_address_line"]
  | _ => [false]
  end.
Definition test_mid_file_category_change : list bool :=
  expect (imported
    [text_file "mixed.ipset"
       ["# Category: spam"; "192.0.2.1"; "# Category: botnet"; "192.0.2.2"]%string])
    (λ dataset,
      let rule i := default 0 (fe_rule_id <$> ds_entries dataset !! i) in
      (total_entries dataset ≟ 2) ::
      expect_some (resolve_rule (ds_registry dataset) (rule 0%nat)) (λ r1,
        expect_some (resolve_rule (ds_registry dataset) (rule 1%nat)) (λ r2,
          [be_category r1 ≟ Spam; be_category r2 ≟ Botnet]))).
Definition test_parse_ignore_ips_various_inputs : list bool :=
  let ignores s l := parse_ignore_ips (lit s) ≟ (address <$> l) in
  [ignores "192.168.1.1"%string ["192.168.1.1"%string];
   ignores "2001:db8::1"%string ["2001:db8::1"%string];
   ignores "192.168.1.1,10.0.0.1,2001:db8::1" ["192.168.1.1"; "10.0.0.1"; "2001:db8::1"];
   ignores "   172.28.0.3  ,   10.10.10.10   ,    fd00::1   "
     ["172.28.0.3"; "10.10.10.10"; "fd00::1"];
   ignores ", , 172.28.0.3 ,,, 1.1.1.1, " ["172.28.0.3"; "1.1.1.1"];
   ignores "192.168.1.1, invalid_ip, 2001:db8::2" ["192.168.1.1"; "2001:db8::2"]]%string.

(** A network as a test names it, and an address as an integer. *)
Definition net4 (s : String.string) (k : Net 4 → list bool) : list bool :=
  expect_some (Ipv4Net_of (lit s)) k.
Definition net6 (s : String.string) (k : Net 16 → list bool) : list bool :=
  expect_some (Ipv6Net_of (lit s)) k.
Definition ip_of (s : String.string) : Z := from_be_bytes (octets_of s).
Definition same_net {n} (a b : Net n) : bool :=
  (nt_addr a ≟ nt_addr b) && (nt_prefix a ≟ nt_prefix b).
Definition avoids {n} (target : Z) (subs : list (Net n)) : bool :=
  forallb (λ sub, negb (net_contains (n := n) sub target)) subs.
Definition only {n} (net : Net n) (subs : list (Net n)) : bool :=
  match subs with [sub] => same_net sub net | _ => false end.

Definition test_exclude_v4_from_cidr_punchout : list bool :=
  net4 "192.168.1.0/24" (λ net,
    expect (exclude_v4_from_cidr net (ip_of "10.0.0.1")) (λ subs, [only net subs])) ++
  net4 "192.168.1.5/32" (λ net32,
    expect (exclude_v4_from_cidr net32 (ip_of "192.168.1.5")) (λ subs, [length subs ≟ 0%nat])) ++
  net4 "192.168.1.0/30" (λ net30, net4 "192.168.1.0/31" (λ low, net4 "192.168.1.3/32" (λ high,
    expect (exclude_v4_from_cidr net30 (ip_of "192.168.1.2")) (λ subs,
      [length subs ≟ 2%nat; only low (take 1 subs); only high (drop 1 subs);
       avoids (ip_of "192.168.1.2") subs])))) ++
  net4 "172.16.0.0/12" (λ net12,
    expect (exclude_v4_from_cidr net12 (ip_of "172.28.0.3")) (λ subs12,
      [length subs12 ≟ 20%nat; avoids (ip_of "172.28.0.3") subs12])).
Definition test_exclude_v6_from_cidr_punchout : list bool :=
  net6 "2001:db8::/32" (λ net,
    expect (exclude_v6_from_cidr net (ip_of "2001:cafe::1")) (λ subs, [only net subs])) ++
  net6 "2001:db8::5/128" (λ net128,
    expect (exclude_v6_from_cidr net128 (ip_of "2001:db8::5")) (λ subs, [length subs ≟ 0%nat])) ++
  net6 "2001:db8::/120" (λ net120,
    expect (exclude_v6_from_cidr net120 (ip_of "2001:db8::5")) (λ subs120,
      [length subs120 ≟ 8%nat; avoids (ip_of "2001:db8::5") subs120])).
Definition test_parse_ip_or_cidr_with_ignore_exact_and_cidr : list bool :=
  let ignore_list := [address "172.28.0.3"; address "2001:db8::1"] in
  let parse s := parse_ip_or_cidr_with_ignore (N4 := Net 4) (N6 := Net 16) (lit s) ignore_list in
  let gives s targets := expect (parse s) (λ res, [res ≟ targets]) in
  gives "172.28.0.3"%string [] ++ gives "172.28.0.3/32"%string [] ++
  gives "2001:db8::1"%string [] ++ gives "2001:db8::1/128"%string [] ++
  gives "192.168.1.1"%string [TExactV4 [192; 168; 1; 1]] ++
  gives "172.28.0.0/30"%string [TCidrV4 31 [172; 28; 0; 0]; TExactV4 [172; 28; 0; 2]] ++
  expect (parse "2001:db8::/126"%string) (λ targets_v6, [length targets_v6 ≟ 2%nat]).
Definition test_parse_directory_with_ignore_prometheus_e2e : list bool :=
  expect (imported_with_ignore (parse_ignore_ips (lit " 172.28.0.3 "))
    [text_file "firehol_level1.netset"
       ["# Maintainer: FireHOL"; "# Category: attacks"; "172.16.0.0/12"; "192.0.2.1"]%string;
     text_file "bogon.ipset"
       ["# Maintainer: Bogons"; "# Category: other"; "172.28.0.3"; "10.0.0.1"]%string])
    (λ dataset,
      let prom_v4 := [172; 28; 0; 3] in
      ds_entries dataset ≫= λ entry, match fe_target entry with
        | TExactV4 octets => [negb (octets ≟ prom_v4)]
        | TCidrV4 prefix octets =>
            expect_some (nt_new (n := 4) (from_be_bytes octets) prefix) (λ net,
              [negb (net_contains (n := 4) net (from_be_bytes prom_v4))])
        | _ => []
        end).

(** The fast parser against the reference grammar; of the 256 leading octets and the 130
    prefix lengths the source tries, those where the number of digits changes. *)
Definition same_parse (token : list Z) : bool :=
  parse_ip_or_cidr (N4 := Net 4) (N6 := Net 16) token ≟
  match parse_ip_or_cidr_with_ignore (N4 := Net 4) (N6 := Net 16) token [] with
  | Ok v => head v | _ => None end.
Definition fast_address_parser_matches_reference_grammar : list bool :=
  let check := same_parse in
  ([0; 9; 10; 99; 100; 255] ≫= λ octet,
    check (decimal octet ++ lit ".2.3.4") ::
    ([0; 1; 9; 10; 31; 32; 33] ≫= λ prefix,
      [check (decimal octet ++ lit ".2.255.129/" ++ decimal prefix);
       check (pad_zeros 3 (decimal octet) ++ lit ".002.3.4/" ++ pad_zeros 2 (decimal prefix))])) ++
  ([0; 9; 10; 64; 99; 100; 127; 128; 129] ≫= λ prefix,
    [lit "2001:db8::abcd"; lit "::"; lit "::ffff:192.0.2.1"; lit "::ffff:192.000.002.001"] ≫= λ ip,
      [check (ip ++ lit "/" ++ decimal prefix); check (ip ++ lit "/" ++ pad_zeros 3 (decimal prefix));
       check ip]) ++
  (check <$> [[]; lit "1.2.3"; lit "1.2.3.4.5"; lit "256.1.2.3"; lit "1234.1.2.3"; lit "01.2.3.4";
     lit "1.2.3.4/"; lit "1.2.3.4/+1"; lit "1.2.3.4/001"; lit "1.2.3.4/33"; lit "1.2.3.4/1/2";
     lit " 1.2.3.4"; lit "1.2.3.4 "; lit "1.2.3.4/1" ++ [10]; uni "１.2.3.4"; lit "::1%eth0";
     lit "2001:::1"; lit "a.b.c.d"]).

(** A long line of two-byte characters, a carriage return and no final line end (the
    long line of the source fills its buffer of one mebibyte). *)
Definition boundary : list Z :=
  lit "#" ++ mjoin (replicate (Z.to_nat 1024) (utf8_char 233)) ++ [10] ++
  lit "# Category: malware" ++ [13; 10] ++ lit "192.0.2.1" ++ [13; 10; 10] ++ lit "2001:db8::1".
Definition chunk_reader_preserves_long_lines_utf8_crlf_and_final_line : list bool :=
  let collect line number lines := Ok (lines ++ [(number, line)]) in
  expect (visit_file_lines EIo collect [] boundary []) (λ '(bytes, lines),
    [bytes ≟ len boundary; length lines ≟ 5%nat;
     lines !! 2%nat ≟ Some (3, lit "192.0.2.1" ++ [13]); lines !! 4%nat ≟ Some (5, lit "2001:db8::1")]) ++
  expect (parse_single_file (N4 := Net 4) (N6 := Net 16) writing [] (lit "boundary.ipset") [] boundary
            1 [] [] []) (λ '(_, data), [fe_line <$> all_entries data ≟ [3; 5]]) ++
  [is_err (parse_single_file (N4 := Net 4) (N6 := Net 16) writing [] (lit "boundary.ipset") []
     (lit "192.0.2.1" ++ [10; 255]) 1 [] [] [])].

Lemma parser_tests_pass :
  forallb passes
    [test_parse_ip_or_cidr; test_parse_directory_valid; test_entry_line_numbers_match_physical_lines;
     test_strict_parsing_aborts_on_invalid_line; test_mid_file_category_change;
     test_parse_ignore_ips_various_inputs; test_exclude_v4_from_cidr_punchout;
     test_exclude_v6_from_cidr_punchout; test_parse_ip_or_cidr_with_ignore_exact_and_cidr;
     test_parse_directory_with_ignore_prometheus_e2e] = true.
Proof. vm_compute. reflexivity. Qed.
Lemma parser_grammar_test_passes :
  passes fast_address_parser_matches_reference_grammar = true.
Proof. vm_compute. reflexivity. Qed.
Lemma parser_reader_test_passes :
  passes chunk_reader_preserves_long_lines_utf8_crlf_and_final_line = true.
Proof. vm_compute. reflexivity. Qed.
