(* ===== verification/TestsMetadata.v ===== *)
(** * Unit tests of the metadata registry

    The tests of [src/firehol/metadata.rs] but for those of dates, whose formats are the
    [chrono] crate's, and of [Arc] identity and archives. The disk cache is the one in
    memory. *)
From stdpp Require Import base numbers list gmap fin_maps strings sorting.
From Stdlib Require Import ZArith.
From S2P Require Import Prelude Net BpfMaps Str Fmt Entry Metadata Attribution Cache Import Archived.
From S2P Require Import Checks.

Local Open Scope Z_scope.
Local Open Scope checks_scope.
#[local] Existing Instance canonical_order.
#[local] Existing Instance demo_rkyv.

Definition list_metadata (id : Z) (category : FireholCategory) (name : String.string)
    : FireholMetadata := mkMetadata id category None None None None (lit name) None None.

(** One record and one rule of the same id for each file. *)
Definition registered (files : list (Z * String.string * FireholCategory * Z))
    : FireholMetadataRegistry MemStore :=
  fold_left (λ reg '(meta_id, name, cat, line),
    register_rule (register_metadata reg (list_metadata meta_id cat name)).1
      (mkRuleInfo meta_id meta_id cat line)) files registry_new.
Definition block_is (reg : FireholMetadataRegistry MemStore) (rid : Z) (files : list String.string)
    (lines : list Z) (categories : list FireholCategory) : list bool :=
  expect_some (resolve_rule_block reg rid) (λ ctx,
    [cx_files ctx ≟ (lit <$> files); cx_lines ctx ≟ lines; cx_categories ctx ≟ categories]).

(** ** [src/firehol/metadata.rs] *)
Definition test_category_parsing : list bool :=
  (λ '(text, cat), parse_category (lit text) ≟ cat) <$>
  [("abuse", Abuse); ("attacks", Attacks); ("attack", Attacks); ("malware", Malware);
   ("spam", Spam); ("proxy", Proxy); ("botnet", Botnet); ("unroutable", Unroutable);
   ("anonymizers", Anonymizers); ("unknown_category", Other)]%string.
Definition test_category_roundtrip_id : list bool :=
  (λ cat, from_id (category_id cat) ≟ cat) <$>
  [Abuse; Attacks; Malware; Spam; Proxy; Botnet; Unroutable; Anonymizers; Other].
Definition test_registry_lookups : list bool :=
  let text s := Some (lit s) in
  let meta := mkMetadata 42 Attacks (text "https://example.com/dshield"%string)
    (text "SANS DShield"%string) (text "https://isc.sans.edu"%string)
    (text "2026-09-14T00:00:00Z"%string) (lit "dshield.netset") (text "1.0"%string)
    (text "1 day"%string) in
  let reg : FireholMetadataRegistry MemStore := (register_metadata registry_new meta).1 in
  let reg := register_rule reg (mkRuleInfo 101 42 Attacks 7) in
  [total_rules reg ≟ 1%nat; total_blocklists reg ≟ 1%nat] ++
  expect_some (resolve_rule reg 101) (λ rule,
    [be_category rule ≟ Attacks; be_metadata_id rule ≟ 42; be_line rule ≟ 7]) ++
  expect_some (resolve_metadata reg 42) (λ m,
    [md_file_name m ≟ lit "dshield.netset"; md_maintainer m ≟ text "SANS DShield"%string]).
Definition test_rule_block_grouping_shared_target : list bool :=
  let reg := registered [(0, "stopforumspam_180d.ipset"%string, Abuse, 11);
    (10, "blocklist_net_ua.ipset"%string, Other, 12);
    (20, "firehol_abusers_30d.netset"%string, Attacks, 13)] in
  let ip := TExactV4 [203; 0; 113; 9] in
  let reg := build_rule_block_index reg
    [mkEntry ip 0 0 11; mkEntry ip 10 10 12; mkEntry ip 20 20 13] in
  [0; 10; 20] ≫= λ rid, block_is reg rid
    ["stopforumspam_180d.ipset"; "blocklist_net_ua.ipset"; "firehol_abusers_30d.netset"]%string
    [11; 12; 13] [Abuse; Other; Attacks].
Definition test_rule_block_cidr_lines_point_to_matching_files : list bool :=
  let reg := registered [(1, "cidr_report_bogons.netset"%string, Proxy, 46);
    (2, "firehol_level1.netset"%string, Attacks, 2148);
    (3, "iblocklist_cidr_report_bogons.netset"%string, Proxy, 43);
    (4, "firehol_anonymous.netset"%string, Anonymizers, 45)] in
  let cidr := TCidrV4 16 [192; 168; 0; 0] in
  let reg := build_rule_block_index reg
    [mkEntry cidr 1 1 46; mkEntry cidr 2 2 2148; mkEntry cidr 3 3 43;
     mkEntry (TExactV4 [1; 0; 133; 100]) 4 4 45] in
  [1; 2; 3] ≫= λ rid, expect_some (resolve_rule_block reg rid) (λ ctx,
    [cx_files ctx ≟ (lit <$> ["cidr_report_bogons.netset"; "firehol_level1.netset";
       "iblocklist_cidr_report_bogons.netset"]%string);
     cx_lines ctx ≟ [46; 2148; 43];
     negb (bool_decide (lit "firehol_anonymous.netset" ∈ cx_files ctx))]).
Definition test_rule_block_grouping_dedups_and_separates_targets : list bool :=
  let reg : FireholMetadataRegistry MemStore :=
    (register_metadata registry_new (list_metadata 1 Spam "a.ipset")).1 in
  let reg := register_rule reg (mkRuleInfo 1 1 Spam 5) in
  let reg := register_rule reg (mkRuleInfo 2 1 Spam 5) in
  let reg := build_rule_block_index reg
    [mkEntry (TExactV4 [10; 0; 0; 1]) 1 1 5; mkEntry (TExactV4 [10; 0; 0; 1]) 2 1 5;
     mkEntry (TExactV4 [10; 0; 0; 2]) 2 1 5] in
  block_is reg 1 ["a.ipset"]%string [5] [Spam] ++
  [bool_decide (is_Some (resolve_rule_block reg 2))].
Definition test_build_ip_index_and_lookup : list bool :=
  let reg := registered [(1, "cidr_report_bogons.netset"%string, Proxy, 10);
    (2, "abusers.ipset"%string, Abuse, 20); (3, "exact_scan.ipset"%string, Attacks, 30)] in
  let reg := build_ip_index reg
    [mkEntry (TCidrV4 16 [192; 168; 0; 0]) 1 1 11; mkEntry (TCidrV4 16 [192; 168; 0; 0]) 2 2 21;
     mkEntry (TExactV4 [192; 168; 1; 254]) 3 3 31] in
  let names ip := list_to_set (C := gset (list Z)) (lookup_ip reg 4 ip ≫= cx_files) in
  let count ip := length (lookup_ip reg 4 ip ≫= cx_files) in
  let inside := [192; 168; 1; 254] in
  let only_cidr := [192; 168; 42; 1] in
  [names inside ≟ list_to_set (lit <$>
     ["abusers.ipset"; "cidr_report_bogons.netset"; "exact_scan.ipset"]%string);
   count inside ≟ 3%nat;
   names only_cidr ≟ list_to_set (lit <$> ["abusers.ipset"; "cidr_report_bogons.netset"]%string);
   count only_cidr ≟ 2%nat; lookup_ip reg 6 (zeroed 16) ≟ []].
Definition test_firehol_category_variants_as_str_and_archived : list bool :=
  [("abuse", Abuse, AAbuse); ("attacks", Attacks, AAttacks); ("malware", Malware, AMalware);
   ("spam", Spam, ASpam); ("proxy", Proxy, AProxy); ("botnet", Botnet, ABotnet);
   ("unroutable", Unroutable, AUnroutable); ("anonymizers", Anonymizers, AAnonymizers);
   ("other", Other, AOther)]%string ≫= λ '(text, cat, archived),
  [as_str cat ≟ lit text; category_to_string cat ≟ lit text; archived_as_str archived ≟ lit text;
   to_native archived ≟ cat; category_from_archived archived ≟ cat] ++
  expect (category_from_str (lit text)) (λ c, [c ≟ cat]).
Definition test_prefix_contains_edges : list bool :=
  let net := [192; 168; 10; 0] in
  let net6 := [0x20; 0x01; 0xdb; 0x8] ++ replicate 12 0 in
  let partial_same := [0x20; 0x01; 0xdb; 0x00] ++ replicate 12 0 in
  let partial_diff := [0x20; 0x01; 0x5b; 0x00] ++ replicate 12 0 in
  [prefix_contains_v4 0 net [8; 8; 8; 8]; prefix_contains_v4 32 net [192; 168; 10; 0];
   negb (prefix_contains_v4 32 net [192; 168; 10; 1]); prefix_contains_v4 24 net [192; 168; 10; 255];
   negb (prefix_contains_v4 24 net [192; 168; 11; 0]); prefix_contains_v6 20 net6 partial_same;
   negb (prefix_contains_v6 20 net6 partial_diff);
   prefix_contains_v6 0 net6 (0xfe :: 0x80 :: replicate 13 0 ++ [1]); prefix_contains_v6 128 net6 net6;
   negb (prefix_contains_v6 128 net6 partial_same)].
Definition test_rule_block_grouping_multi_line_multi_category : list bool :=
  let reg : FireholMetadataRegistry MemStore :=
    (register_metadata registry_new (list_metadata 1 Spam "spam.ipset")).1 in
  let reg := (register_metadata reg (list_metadata 2 Malware "malware.ipset")).1 in
  let reg := fold_left (λ reg '(rule_id, meta_id, line),
    register_rule reg (mkRuleInfo rule_id meta_id (if meta_id =? 1 then Spam else Malware) line))
    [(1, 1, 5); (2, 1, 7); (3, 2, 9)] reg in
  let ip := TExactV4 [203; 0; 113; 7] in
  let reg := build_rule_block_index reg [mkEntry ip 1 1 5; mkEntry ip 2 1 7; mkEntry ip 3 2 9] in
  block_is reg 3 ["spam.ipset"; "spam.ipset"; "malware.ipset"]%string [5; 7; 9] [Spam; Malware].
Definition test_firehol_registry_ipv6_and_helpers : list bool :=
  let reg : FireholMetadataRegistry MemStore := registry_new in
  let '(reg', meta_id) := register_metadata reg (list_metadata 1 Botnet "botnets_v6.netset") in
  let reg' := register_rule reg' (mkRuleInfo 1 meta_id Botnet 5) in
  let v6_net := [0x20; 0x01; 0xdb; 0x8] ++ replicate 12 0 in
  let v6_exact := [0x20; 0x01; 0xdb; 0x8] ++ replicate 11 0 ++ [1] in
  let indexed := build_ip_index reg'
    [mkEntry (TCidrV6 32 v6_net) 1 1 5; mkEntry (TExactV6 v6_exact) 2 1 6] in
  [registry_is_empty reg; total_rules reg ≟ 0%nat; total_blocklists reg ≟ 0%nat;
   negb (registry_is_empty reg'); total_rules reg' ≟ 1%nat; total_blocklists reg' ≟ 1%nat;
   negb (bool_decide (lookup_ip indexed 6 v6_exact = []));
   lookup_ip indexed 6 (0xfe :: 0x80 :: replicate 13 0 ++ [1]) ≟ [];
   bool_decide (is_Some (resolve_rule indexed 1)); bool_decide (is_Some (resolve_rule_block indexed 1));
   bool_decide (is_Some (resolve_metadata indexed 1))].

(** A registry over a cache that was just opened. *)
Definition cached_registry (k : FireholMetadataRegistry (CacheRocksDb MemDb) → list bool) : list bool :=
  expect (cache_open (DB := MemDb)) (λ cache, k (with_cache cache)).
Definition test_cache_mode_compact_rule_registration_paths : list bool :=
  cached_registry (λ reg,
    let reg := (register_metadata reg (list_metadata 10 Proxy "proxies.ipset")).1 in
    let reg := register_rule reg (mkRuleInfo 3 10 Proxy 9) in
    let reg' := register_cached_entry (build_rule_block_index reg [])
      (mkEntry (TExactV4 [10; 0; 0; 9]) 4 0 0) in
    expect_some (resolve_rule reg 3) (λ rule,
      [be_metadata_id rule ≟ 10; be_category rule ≟ Proxy; be_line rule ≟ 9]) ++
    [is_none (resolve_rule_block reg' 4)]).
Definition test_firehol_registry_with_rocksdb_cache : list bool :=
  cached_registry (λ reg,
    let meta := mkMetadata 10 Abuse (Some (lit "https://example.com/abuse"))
      (Some (lit "Maintainer")) None None (lit "abuse.ipset") None None in
    let reg := count_cached_metadata (register_metadata reg meta).1 10 5 in
    let entry := mkEntry (TExactV4 [10; 0; 0; 1]) 1 10 12 in
    let reg := register_cached_entry reg entry in
    expect_some (resolve_metadata reg 10) (λ m, [md_file_name m ≟ lit "abuse.ipset"]) ++
    expect_some (resolve_rule reg 1) (λ rule, [be_category rule ≟ Abuse]) ++
    [bool_decide (is_Some (resolve_rule_block reg 1));
     negb (bool_decide (lookup_ip (build_ip_index reg [entry]) 4 [10; 0; 0; 1] = []))]).

Lemma metadata_tests_pass :
  forallb passes
    [test_category_parsing; test_category_roundtrip_id; test_registry_lookups;
     test_rule_block_grouping_shared_target; test_rule_block_cidr_lines_point_to_matching_files;
     test_rule_block_grouping_dedups_and_separates_targets; test_build_ip_index_and_lookup;
     test_firehol_category_variants_as_str_and_archived; test_prefix_contains_edges;
     test_rule_block_grouping_multi_line_multi_category; test_firehol_registry_ipv6_and_helpers;
     test_cache_mode_compact_rule_registration_paths; test_firehol_registry_with_rocksdb_cache] = true.
Proof. vm_compute. reflexivity. Qed.
