(* ===== verification/TestsCache.v ===== *)
(** * Unit tests of the disk cache

    The tests of [src/cache_rocksdb.rs] on the database in memory and an encoding in place
    of [rkyv]; key estimates, unaligned archives and the reopened database are RocksDB's
    and [rkyv]'s. *)
From stdpp Require Import base numbers list gmap fin_maps strings sorting.
From Stdlib Require Import ZArith.
From S2P Require Import Prelude Net BpfMaps Str Fmt Entry Metadata Attribution Cache Checks.

Local Open Scope Z_scope.
Local Open Scope checks_scope.
#[local] Existing Instance canonical_order.
#[local] Existing Instance demo_rkyv.

(** ** [src/cache_rocksdb.rs] *)
Definition sample_metadata (id : Z) : FireholMetadata :=
  mkMetadata id Malware (Some (lit "https://example.com/feed")) (Some (lit "SANS"))
    (Some (lit "https://isc.sans.edu")) (Some (lit "2026-09-14T00:00:00+00:00"))
    (lit "dshield.netset") (Some (lit "1.2")) (Some (lit "1 day")).
Definition opened (k : CacheRocksDb MemDb → list bool) : list bool :=
  expect (cache_open (DB := MemDb)) k.

(** Bytes no archive has, as a truncated one. *)
Definition truncated : list Z := [255; 255].
Definition missing_and_corrupt_records_do_not_invoke_inspection_callbacks : list bool :=
  opened (λ db,
    let key := ctx_key_v6_lpm 64 (zeroed 16) in
    expect (cache_get_metadata db 99) (λ m, [m ≟ None]) ++
    expect (cache_get_rule_context db key) (λ c, [c ≟ None]) ++
    expect (with_metadata db 99 (λ _, ())) (λ r, [r ≟ None]) ++
    expect (with_rule_context db key (λ _, ())) (λ r, [r ≟ None]) ++
    expect (cache_put db METADATA (metadata_key 99) truncated) (λ db,
      expect (cache_put db RULE_CONTEXT key truncated) (λ db,
        [is_err (cache_get_metadata db 99); is_err (cache_get_rule_context db key);
         is_err (with_metadata db 99 (λ _, ())); is_err (with_rule_context db key (λ _, ()))]))).
Definition batch_writes_are_isolated_by_column_family_and_survive_reopen : list bool :=
  let key := lit "key" in
  opened (λ db,
    expect (batch_put db [] METADATA key (lit "metadata")) (λ batch,
    expect (batch_put db batch RULE_CONTEXT key (lit "context")) (λ batch,
    expect (cache_get db METADATA key) (λ before, [before ≟ None]) ++
    expect (apply_batch db batch) (λ db,
      expect (cache_get db METADATA key) (λ v, [v ≟ Some (lit "metadata")]) ++
      expect (cache_delete db METADATA key) (λ db,
      expect (cache_delete db METADATA (lit "missing")) (λ db,
      expect (cache_get db METADATA key) (λ v, [v ≟ None]) ++
      expect (flush_import db) (λ db,
        expect (cache_get db METADATA key) (λ v, [v ≟ None]) ++
        expect (cache_get db RULE_CONTEXT key) (λ v, [v ≟ Some (lit "context")])))))))).
Definition missing_column_family_returns_cache_error : list bool :=
  let db : CacheRocksDb MemDb := mkCache ∅ false in
  let key := lit "key" in
  [is_err (cache_get db METADATA key); is_err (cache_put db METADATA key (lit "value"));
   is_err (cache_delete db METADATA key); is_err (batch_put db [] METADATA key (lit "value"));
   is_err (visit_pairs db METADATA (λ _ _ n, Ok n) 0)].
Definition borrowed_context_inspection_preserves_all_sources : list bool :=
  opened (λ db,
    let key := ctx_key_v4_lpm 24 [192; 0; 2; 0] in
    let context := mkContext [lit "a.ipset"; lit "b.netset"] [3; 42] [Abuse; Botnet] in
    expect (cache_put_rule_context db key context) (λ db,
      expect (with_rule_context db key (λ archived, archived)) (λ inspected,
        expect_some inspected (λ archived,
          [cx_files archived !! 0%nat ≟ Some (lit "a.ipset");
           cx_files archived !! 1%nat ≟ Some (lit "b.netset");
           cx_lines archived ≟ [3; 42]; cx_categories archived ≟ [Abuse; Botnet];
           length (cx_files archived) ≟ 2%nat])))).
Definition test_metadata_roundtrip_via_rocksdb : list bool :=
  opened (λ db, let m := sample_metadata 7 in
    expect (cache_put_metadata db m) (λ db,
      expect (cache_get_metadata db 7) (λ o, expect_some o (λ back,
        [back ≟ m; md_category back ≟ Malware; md_file_name back ≟ lit "dshield.netset"])))).
Definition test_rule_context_roundtrip_via_rocksdb : list bool :=
  opened (λ db,
    let ctx := mkContext [lit "a.ipset"; lit "b.netset"] [10; 20] [Abuse; Botnet] in
    let key := ctx_key_v4_exact [203; 0; 113; 9] in
    expect (cache_put_rule_context db key ctx) (λ db,
      expect (cache_get_rule_context db key) (λ back, [back ≟ Some ctx]))).
(** A visitor that collects, and one that panics when it is called again after its error. *)
Definition borrowed_scan_orders_values_and_propagates_visitor_errors : list bool :=
  opened (λ db,
    expect (visit_values db ENTRIES (λ _ (_ : nat), Fault) 0%nat) (λ n, [n ≟ 0%nat]) ++
    expect (cache_put db ENTRIES (lit "b") (lit "second")) (λ db,
    expect (cache_put db ENTRIES (lit "a") (lit "first")) (λ db,
      expect (visit_values db ENTRIES (λ value values, Ok (values ++ [value])) []) (λ values,
        [values ≟ [lit "first"; lit "second"]]) ++
      [is_err (visit_values db ENTRIES
         (λ value (_ : nat), if bool_decide (value = lit "first") then Err () else Fault) 0%nat)]))).
Definition test_zero_copy_pinned_access : list bool :=
  opened (λ db, expect (cache_put_metadata db (sample_metadata 42)) (λ db,
    expect (with_metadata db 42 (λ archived, archived)) (λ inspected,
      expect_some inspected (λ archived,
        [md_id archived ≟ 42; md_file_name archived ≟ lit "dshield.netset";
         md_category archived ≟ Malware])))).
Definition test_key_encodings_are_unique_per_target_kind : list bool :=
  [negb (ctx_key_v4_exact [1; 2; 3; 4] ≟ ctx_key_v4_lpm 24 [1; 2; 3; 0]);
   head (ctx_key_v4_exact [1; 2; 3; 4]) ≟ Some TAG_V4_EXACT;
   head (ctx_key_v6_exact (zeroed 16)) ≟ Some TAG_V6_EXACT].
Definition test_bulk_writer_auto_commit_on_threshold : list bool :=
  opened (λ db,
    let value := zeroed 128 in
    let limited := mkWriter [] 64 0 in
    let entries := [mkEntry (TExactV4 [10; 0; 0; 1]) 1 1 5; mkEntry (TExactV4 [10; 0; 0; 2]) 2 1 6] in
    expect (bw_put db limited ENTRIES (lit "k1") value) (λ '(db, writer),
    expect (bw_put db writer ENTRIES (lit "k2") value) (λ '(db, writer),
      (0 <? bw_written_bytes writer) ::
      expect (commit db writer) (λ '(db, _),
      expect (bw_entries db limited entries 0 true) (λ '(db, writer2),
      expect (commit db writer2) (λ '(db, _),
        let F := db_families (cr_db db) in
        [(1 <=? size (default ∅ (F !! ENTRIES)))%nat;
         (2 <=? size (default ∅ (F !! CONTRIBUTIONS)))%nat])))))).

Lemma cache_tests_pass :
  forallb passes
    [missing_and_corrupt_records_do_not_invoke_inspection_callbacks;
     batch_writes_are_isolated_by_column_family_and_survive_reopen;
     missing_column_family_returns_cache_error; borrowed_context_inspection_preserves_all_sources;
     test_metadata_roundtrip_via_rocksdb; test_rule_context_roundtrip_via_rocksdb;
     borrowed_scan_orders_values_and_propagates_visitor_errors; test_zero_copy_pinned_access;
     test_key_encodings_are_unique_per_target_kind; test_bulk_writer_auto_commit_on_threshold] = true.
Proof. vm_compute. reflexivity. Qed.
