(* ===== verification/TestsTelemetry.v ===== *)
(** * Unit tests of the statistics, the logged text and the console

    The tests of [src/top_n.rs], [src/ringbuf.rs], [src/console.rs] and [src/config.rs], and
    those of [src/metrics.rs] and [src/error.rs] that need neither a socket nor an error of
    the operating system. Text is printed on an ANSI terminal; a connection of the HTTP tests
    is the request it sends. *)
From stdpp Require Import base numbers list gmap fin_maps strings sorting.
From Stdlib Require Import ZArith SpecFloat.
From S2P Require Import Prelude Net Common BpfMaps Str Fmt Lines Entry Metadata Attribution Loader.
From S2P Require Import Console TopN RingBuf LogText Telemetry Build Checks.

Local Open Scope Z_scope.
Local Open Scope checks_scope.
#[local] Existing Instance canonical_order.
#[local] Existing Instance ansi_console.

Definition has_text (line : list Z) (s : String.string) : bool := contains (uni s) line.

(** ** [src/top_n.rs] *)
Definition make_ip (last : Z) : IpAddr := V4 [192; 0; 2; last].
Definition make_ip_string (last : Z) : list Z := ip_to_string (make_ip last).
Definition record_times (n : nat) (ip : Z) (p : BlockedProtocol) (size : Z) (t : BlockedIpTopN)
    : BlockedIpTopN := Nat.iter n (λ t, record_event t (make_ip ip) p size) t.
Definition total_bytes_for (t : BlockedIpTopN) (ip : Z) : option Z :=
  total_bytes <$> topn_get_stats t (make_ip ip).

Definition test_blocked_protocol_from_u8_and_from_str : list bool :=
  ((λ '(raw, p), protocol_from_u8 raw ≟ p) <$>
    [(6, Tcp); (17, Udp); (1, Icmp); (58, Icmpv6); (47, OtherProtocol); (0xff, OtherProtocol)]) ++
  ((λ '(text, p), from_str_loose (lit text) ≟ p) <$>
    [("tcp", Tcp); ("UDP", Udp); ("IcMp", Icmp); ("icmpv6", Icmpv6); ("icmp6", Icmpv6);
     ("gre", OtherProtocol); ("", OtherProtocol)]%string).
Definition test_blocked_protocol_as_str_and_default_topn : list bool :=
  ((λ p, from_str_loose (protocol_str p) ≟ p) <$> ALL) ++
  ((λ raw, protocol_from_u8 raw ≟ OtherProtocol) <$> [0; 2; 3; 4; 5; 7; 47; 100; 255]) ++
  [protocol_str <$> ALL ≟ (lit <$> ["tcp"; "udp"; "icmp"; "icmpv6"; "other"]%string);
   tn_capacity BlockedIpTopN_default ≟ 100;
   match tn_criterion BlockedIpTopN_default with ByPackets => true | _ => false end;
   tracked_count BlockedIpTopN_default ≟ 0].
Definition ranking_switches_criterion_with_deterministic_ties : list bool :=
  let tracker := fold_left (λ t '(ip, sizes),
    fold_left (λ t size, record_event t (make_ip ip) Tcp size) sizes t)
    [(4, [10; 10]); (3, [20]); (2, [20]); (1, [100])] (BlockedIpTopN_new 4 ByPackets) in
  let ranked t := bs_ip <$> top_n_stats t in
  let by_bytes := set_criterion tracker ByBytes in
  [ranked tracker ≟ (make_ip <$> [4; 1; 2; 3]);
   match tn_criterion by_bytes with ByBytes => true | _ => false end;
   ranked by_bytes ≟ (make_ip <$> [1; 4; 2; 3]);
   total_packets <$> topn_get_stats by_bytes (make_ip 4) ≟ Some 2].
Definition with_max_tracked (t : BlockedIpTopN) (max : Z) : BlockedIpTopN :=
  mkTopN (tn_capacity t) (tn_criterion t) (tn_stats t) (tn_currently_exported t)
    (tn_last_packets t) (tn_last_bytes t) (tn_last_total_packets t) (tn_last_total_bytes t) max.
Definition cardinality_pruning_keeps_highest_ranked_ips : list bool :=
  [ByPackets; ByBytes] ≫= λ criterion,
    let tracker := record_times 3 1 Tcp 1 (with_max_tracked (BlockedIpTopN_new 2 criterion) 4) in
    let tracker := record_times 1 2 Udp 100 tracker in
    let tracker := record_times 1 4 OtherProtocol 0 (record_times 1 3 OtherProtocol 0 tracker) in
    let pruned := record_times 1 5 OtherProtocol 0 tracker in
    [tracked_count tracker ≟ 4; tracked_count pruned ≟ 2;
     bool_decide (is_Some (topn_get_stats pruned (make_ip 1)));
     bool_decide (is_Some (topn_get_stats pruned (make_ip 2)))] ++
    ((λ ip, is_none (topn_get_stats pruned (make_ip ip))) <$> [3; 4; 5]) ++
    [total_bytes_for (record_times 1 1 Tcp 7 pruned) 1 ≟ Some 10].
Definition zero_capacity_exports_no_ips_but_keeps_statistics : list bool :=
  let tracker := record_times 1 1 Udp 128 (BlockedIpTopN_new 0 ByBytes) in
  [tn_capacity tracker ≟ 0; length (top_n_stats tracker) ≟ 0%nat; tracked_count tracker ≟ 1;
   total_bytes_for tracker 1 ≟ Some 128].
Definition test_stats_record_protocols : list bool :=
  let stats := fold_left (λ s '(p, n), record_packet s p n)
    [(Tcp, 64); (Udp, 128); (Icmp, 32); (Icmpv6, 48); (OtherProtocol, 100)]
    (BlockedIpStats_new (make_ip 1)) in
  [total_packets stats ≟ 5; total_bytes stats ≟ 372; tcp_packets stats ≟ 1; tcp_bytes stats ≟ 64;
   udp_packets stats ≟ 1; udp_bytes stats ≟ 128; icmp_packets stats ≟ 1; icmp_bytes stats ≟ 32;
   icmpv6_packets stats ≟ 1; icmpv6_bytes stats ≟ 48; other_packets stats ≟ 1;
   other_bytes stats ≟ 100].

(** A tracker with the vectors it is exported to. *)
Definition exported : Type := BlockedIpTopN * metric_vecs (V := demo_vec).
Definition sync (x : exported) : exported := sync_to_metrics x.1 x.2.
Definition record_in (n : nat) (ip : Z) (p : BlockedProtocol) (size : Z) (x : exported) : exported :=
  (record_times n ip p size x.1, x.2).
Definition vec_get (v : demo_vec) (labels : list (list Z)) : Z := default 0 (v !! labels).
Definition exports (x : exported) (ip : Z) : bool :=
  bool_decide (make_ip_string ip ∈ tn_currently_exported x.1).
Definition repeated_metric_sync_exports_only_deltas_and_restores_evicted_series : list bool :=
  let ip := make_ip_string 1 in
  let x0 : exported := (BlockedIpTopN_new 1 ByPackets, mkVecs ∅ ∅ ∅ ∅ 0) in
  let x1 := sync (sync (record_in 1 1 Tcp 100 x0)) in
  let x2 := sync (record_in 1 1 Udp 200 x1) in
  let x3 := sync (record_in 3 2 Tcp 100 x2) in
  let x4 := sync (sync (record_in 2 1 Tcp 50 x3)) in
  let packets x p := vec_get (packets_vec x.2) [ip; lit p] in
  let bytes x p := vec_get (bytes_vec x.2) [ip; lit p] in
  let totals (x : exported) := (vec_get (total_packets_vec x.2) [ip], vec_get (total_bytes_vec x.2) [ip]) in
  [packets x1 "tcp"%string ≟ 1; bytes x1 "tcp"%string ≟ 100; totals x1 ≟ (1, 100);
   packets x2 "tcp"%string ≟ 1; packets x2 "udp"%string ≟ 1; bytes x2 "udp"%string ≟ 200;
   totals x2 ≟ (2, 300); negb (exports x3 1); count_gauge x4.2 ≟ 1; exports x4 1;
   packets x4 "tcp"%string ≟ 3; bytes x4 "tcp"%string ≟ 200; packets x4 "udp"%string ≟ 1;
   totals x4 ≟ (4, 400)].
Definition test_top_n_capacity_and_sorting : list bool :=
  let top_n := record_times 50 4 Tcp 100 (record_times 5 3 Icmp 100
    (record_times 25 2 Udp 100 (record_times 10 1 Tcp 100 (BlockedIpTopN_new 3 ByPackets)))) in
  [bs_ip <$> top_n_stats top_n ≟ (make_ip <$> [4; 2; 1])].
Definition test_eviction_from_prometheus_metrics : list bool :=
  let x0 : exported := (BlockedIpTopN_new 2 ByPackets, mkVecs ∅ ∅ ∅ ∅ 0) in
  let x1 := sync (record_in 1 2 Udp 200 (record_in 1 1 Tcp 100 x0)) in
  let x2 := sync (record_in 50 3 Icmp 100 x1) in
  let series (v : demo_vec) ip := existsb (λ kv : list (list Z) * Z, bool_decide (head kv.1 = Some ip))
    (map_to_list v) in
  let in_text ip := existsb (λ v, series v (make_ip_string ip))
    [packets_vec x2.2; bytes_vec x2.2; total_packets_vec x2.2; total_bytes_vec x2.2] in
  [count_gauge x1.2 ≟ 2; exports x1 1; exports x1 2; count_gauge x2.2 ≟ 2; negb (exports x2 1);
   exports x2 3; exports x2 2; negb (in_text 1); in_text 3].

(** ** [src/ringbuf.rs] *)
(** A colour sequence ends with the first character that is neither a digit nor a semicolon. *)
Fixpoint skip_code (s : list Z) : list Z :=
  match s with
  | n :: s' => if is_ascii_digit n || (n =? 59) then skip_code s' else s'
  | [] => []
  end.
Fixpoint strip_ansi_loop (fuel : nat) (s : list Z) : list Z :=
  match fuel, s with
  | S fuel', 27 :: 91 :: s' => strip_ansi_loop fuel' (skip_code s')
  | S fuel', c :: s' => c :: strip_ansi_loop fuel' s'
  | _, _ => []
  end.
Definition strip_ansi (s : list Z) : list Z := strip_ansi_loop (length s) s.
Definition sample_event : PacketLogEvent :=
  mkEvent 0 ([127; 0; 0; 1] ++ zeroed 12) ([127; 0; 0; 53] ++ zeroed 12) 0 81 1 56484 53 17 4 1 2
    (zeroed 4).
Definition human (e : PacketLogEvent) (block : option RuleBlockContext) : list Z :=
  format_human_event false e block.
(** [s.find(pat)]. *)
Fixpoint find_text (pat s : list Z) : option nat :=
  if starts_with pat s then Some 0%nat
  else match s with [] => None | _ :: s' => S <$> find_text pat s' end.
Definition in_order (pats : list String.string) (s : list Z) : bool :=
  match mapM (λ p, find_text (uni p) s) pats with
  | Some (a :: b :: c :: _) => (a <? b)%nat && (b <? c)%nat
  | _ => false
  end.

Definition test_format_human_event_renders_files_and_categories_together : list bool :=
  let block := mkContext
    [lit "stopforumspam_180d.ipset"; lit "blocklist_net_ua.ipset"; lit "firehol_abusers_30d.netset"]
    [100; 37; 42] [Abuse; Unroutable; Attacks] in
  let line := human sample_event (Some block) in
  [has_text line "stopforumspam_180d.ipset:100, blocklist_net_ua.ipset:37, firehol_abusers_30d.netset:42";
   has_text line "abuse, unroutable, attacks";
   in_order ["Rule:"; "🏷️ Category:"; "Match:"]%string line; negb (has_text line "#")].
Definition test_format_human_event_falls_back_without_context : list bool :=
  let line := human sample_event None in
  [has_text line "BLOCKED"; negb (has_text line "stopforumspam_180d.ipset");
   negb (has_text line "🏷️ Category: abuse")].
Definition test_merge_into_deduplication : list bool :=
  let dst := merge_into (mkContext [lit "f1.ipset"] [10] [Abuse])
    (mkContext [lit "f1.ipset"; lit "f2.ipset"] [10; 20] [Abuse; Attacks]) in
  [length (cx_files dst) ≟ 2%nat; length (cx_lines dst) ≟ 2%nat; length (cx_categories dst) ≟ 2%nat].
Definition test_format_human_event_ipv6_and_unknown_proto : list bool :=
  let e6 := mkEvent 0 (octets_of "2001:db8::1") (octets_of "2001:db8::2") 0 120 0 443 54321 99 6 1 1
    (zeroed 4) in
  let line := strip_ansi (human e6 None) in
  [has_text line "IPv6"; has_text line "2001:db8::1"; has_text line "2001:db8::2";
   has_text line "UNKNOWN"].
Definition test_format_human_event_empty_block_and_no_lines : list bool :=
  let line := strip_ansi (human sample_event (Some (mkContext [] [] []))) in
  let line2 := strip_ansi (human sample_event (Some (mkContext [lit "test.ipset"] [0] []))) in
  [has_text line "Rule: -"; has_text line "Category: -"; has_text line2 "Rule: test.ipset |";
   negb (has_text line2 "test.ipset:")].

(** ** [src/console.rs] *)
Definition styles : list ((bool → list Z → Console) * String.string) :=
  [(bold, "pertinent_text"); (green_bold, "important_green"); (red_bold, "important_red");
   (green, "g"); (red, "r"); (yellow, "y"); (yellow_bold, "yb"); (cyan, "c"); (cyan_bold, "cb");
   (blue, "bl"); (blue_bold, "blb"); (magenta, "m"); (magenta_bold, "mb"); (white_bold, "wb")]%string.
Definition test_console_styling_enabled_and_disabled : list bool :=
  styles ≫= λ '(style, text),
    let coloured := show (style false (lit text)) in
    let plain := show (style true (lit text)) in
    [contains [27; 91] coloured; has_text coloured text; plain ≟ lit text; negb (contains [27] plain)].
Definition test_format_int_with_spaces : list bool :=
  (λ '(n, text), format_int_with_spaces n ≟ lit text) <$>
  [(0, "0"); (5, "5"); (999, "999"); (1000, "1 000"); (193490, "193 490"); (3556586, "3 556 586");
   (4102771, "4 102 771")]%string.
Definition test_format_signed_with_spaces : list bool :=
  (λ '(n, text), format_signed_with_spaces n ≟ lit text) <$>
  [(0, "0"); (1234, "1 234"); (-1234567, "-1 234 567")]%string.
Definition test_format_float_with_spaces : list bool :=
  (λ '(x, d, text), format_float_with_spaces x d ≟ lit text) <$>
  [(S754_zero false, 2%nat, "0.00"); (f64_lit 123456 2, 2%nat, "1 234.56");
   (f64_lit (-123456) 2, 2%nat, "-1 234.56"); (f64_lit 355658612 2, 1%nat, "3 556 586.1");
   (f64_lit 123456 2, 0%nat, "1 234"); (S754_nan, 2%nat, "NaN");
   (S754_infinity false, 2%nat, "inf")]%string.
Definition test_spaced_number_trait_impls : list bool :=
  [format_spaced (Unsigned 1234) ≟ lit "1 234"; format_spaced (Unsigned 250) ≟ lit "250";
   format_spaced (Signed 123456) ≟ lit "123 456"; format_spaced (Signed (-123456)) ≟ lit "-123 456";
   format_spaced (f64_lit 123456 2) ≟ lit "1 234.56"].
Definition test_bold_num : list bool :=
  [has_text (show (bold_num false (Unsigned 3556586))) "3 556 586";
   format_spaced (Unsigned 3556586) ≟ lit "3 556 586";
   format_spaced (Signed (-1234567)) ≟ lit "-1 234 567"].
Definition only_set (var value : String.string) : environment :=
  λ name, if bool_decide (name = lit var) then Some (lit value) else None.
Definition test_init_color_flag_and_env : list bool :=
  [init_color true (λ _, None); negb (init_color false (λ _, None));
   init_color false (only_set "NO_COLOR" "1"); init_color false (only_set "FIREWALL_NO_COLOR" "true")].

(** ** [src/metrics.rs] *)
Definition test_resolve_git_ref_priority : list bool :=
  let text s := Some (lit s) in
  [resolve_git_ref (text "v1.0.0"%string) (text "abcdef1"%string) ≟ lit "v1.0.0";
   resolve_git_ref None (text "abcdef1"%string) ≟ lit "abcdef1";
   resolve_git_ref (text "   "%string) (text "abcdef1"%string) ≟ lit "abcdef1";
   resolve_git_ref None None ≟ lit "unknown";
   resolve_git_ref (text ""%string) (text ""%string) ≟ lit "unknown"].
Definition test_top_n_criterion_and_aux_metrics : list bool :=
  let ip := V4 [198; 51; 100; 14] in
  let block p n m := set_telemetry m (record_blocked_ip (pm_telemetry m) ip p n) in
  let metrics := sync_top_blocked_ips (block Udp 512 (block Tcp 1500 demo_metrics)) in
  let by_bytes := set_top_n_criterion metrics ByBytes in
  [match metrics_top_n_criterion demo_metrics with ByPackets => true | _ => false end;
   match metrics_top_n_criterion by_bytes with ByBytes => true | _ => false end;
   (λ s, (bs_ip s, total_packets s, total_bytes s)) <$> metrics_top_n_stats by_bytes ≟ [(ip, 2, 2012)];
   1 <=? tracked_blocked_ips_count by_bytes;
   negb (bool_decide (currently_exported_top_ips by_bytes = ∅))].

(** A request to a server with the flag attached: the response and the flag. *)
Definition served (req : list Z) (flag : bool) : list Z * bool :=
  let '(response, _, flag') := handle_request (λ _, inr (lit "firewall_up 1")) (take 1024 req)
    demo_metrics (Some flag) in (response, default flag flag').
Definition quoted_state (state : String.string) : list Z :=
  123 :: 34 :: lit "drop_logs_enabled" ++ 34 :: 58 :: lit state ++ [125].
Definition state_set (req : list Z) (flag : bool) (state : String.string) (expected : bool) : list bool :=
  let '(response, flag') := served req flag in
  [has_text response "HTTP/1.1 200 OK"; contains (quoted_state state) response; flag' ≟ expected].
Definition http_request (line : String.string) : list Z :=
  lit line ++ lit " HTTP/1.1" ++ crlf ++ lit "Host: localhost" ++ crlf ++ crlf.
Definition test_metrics_http_server_response : list bool :=
  let response := (served (http_request "GET /metrics") true).1 in
  [has_text response "HTTP/1.1 200 OK"; has_text response "firewall_up 1"].
Definition test_metrics_http_server_toggle_drop_logs : list bool :=
  let req line := lit line ++ lit " HTTP/1.1" ++ [10] ++ lit "Host: localhost" ++ [10; 10] in
  state_set (req "POST /telemetry/drop-logs?enabled=false"%string) true "false" false ++
  state_set (req "POST /telemetry/drop-logs?enabled=true"%string) false "true" true.
Definition test_metrics_http_server_health_and_toggle_variants : list bool :=
  let '(health, flag) := served (http_request "GET /health") true in
  [has_text health "HTTP/1.1 200 OK"; contains (crlf ++ crlf ++ lit "OK") health; flag] ++
  state_set (http_request "GET /telemetry/drop-logs/enable") true "true" true ++
  state_set (http_request "POST /telemetry/drop-logs?enable=false") true "false" false ++
  state_set (http_request "POST /telemetry/drop-logs?enable=true") false "true" true.

Lemma telemetry_tests_pass :
  forallb passes
    [test_blocked_protocol_from_u8_and_from_str; test_blocked_protocol_as_str_and_default_topn;
     ranking_switches_criterion_with_deterministic_ties; cardinality_pruning_keeps_highest_ranked_ips;
     zero_capacity_exports_no_ips_but_keeps_statistics; test_stats_record_protocols;
     repeated_metric_sync_exports_only_deltas_and_restores_evicted_series;
     test_top_n_capacity_and_sorting; test_eviction_from_prometheus_metrics;
     test_format_human_event_renders_files_and_categories_together;
     test_format_human_event_falls_back_without_context; test_merge_into_deduplication;
     test_format_human_event_ipv6_and_unknown_proto;
     test_format_human_event_empty_block_and_no_lines; test_console_styling_enabled_and_disabled;
     test_format_int_with_spaces; test_format_signed_with_spaces; test_format_float_with_spaces;
     test_spaced_number_trait_impls; test_bold_num; test_init_color_flag_and_env;
     test_resolve_git_ref_priority; test_top_n_criterion_and_aux_metrics;
     test_metrics_http_server_response; test_metrics_http_server_toggle_drop_logs;
     test_metrics_http_server_health_and_toggle_variants] = true.
Proof. vm_compute. reflexivity. Qed.
