(* ===== verification/TestsDaemon.v ===== *)
(** * Unit tests of errors, the program loader and the command line

    The tests of [src/error.rs], [src/xdp.rs], [src/main.rs] and [src/firehol/metrics.rs], and
    those of [src/config.rs] on the command line without options; an error of the operating
    system or of a library is its text and whether it denies permission. *)
From stdpp Require Import base numbers list gmap fin_maps strings sorting.
From Stdlib Require Import ZArith.
From S2P Require Import Prelude Net Common BpfMaps Str Fmt Lines Loader XdpLoader TopN RingBuf Telemetry.
From S2P Require Import Daemon Checks.

Local Open Scope Z_scope.
Local Open Scope checks_scope.

(** ** [src/error.rs] *)
Definition os_error (text : String.string) (denied : bool) (sources : list String.string)
    : library_error := mkLibError (mkCause (lit text) denied) ((λ s, mkCause (lit s) false) <$> sources).
Definition test_permission_denied_formatting : list bool :=
  let display_str := error_text (IoErrorKind (os_error "Operation not permitted (os error 1)" true [])) in
  let eacces := error_text (IoErrorKind (os_error "Permission denied (os error 13)" true [])) in
  let custom_perm := error_text (IoErrorKind (os_error "already mention sudo privileges" true [])) in
  let advice := lit "Elevated root privileges required" in
  [contains (lit "Operation not permitted") display_str; contains advice display_str;
   negb (contains (lit "Os {") display_str); contains advice eacces;
   negb (ends_with (lit "(try running with 'sudo' or check CAP_BPF/CAP_NET_ADMIN capabilities)")
           custom_perm)].
Definition test_custom_error_formatting : list bool :=
  [(ConfigError (lit "Invalid test value"), "Configuration error: Invalid test value");
   (InterfaceError (lit "eth999"), "Network interface error: eth999");
   (RingBufError (lit "Buffer full"), "Ring buffer error: Buffer full");
   (CacheError (lit "Corrupted record"), "Cache (RocksDB) error: Corrupted record");
   (ParseErrorKind 42 (lit "Bad IP"), "Rule parse error on line 42: Bad IP")]%string ≫= λ '(err, text),
  [error_text err ≟ lit text; bool_decide (length (source_chain err) = 0%nat)].
Definition test_aya_error_conversions_and_display : list bool :=
  let ebpf_err := EbpfError (os_error "no BTF parsed for object" false []) in
  let map_err := MapError (os_error "key not found" false []) in
  [error_text ebpf_err ≟ lit "eBPF subsystem error: no BTF parsed for object";
   negb (length (source_chain ebpf_err) =? 0)%nat;
   error_text map_err ≟ lit "eBPF map error: key not found"; negb (length (source_chain map_err) =? 0)%nat].
Definition test_error_chain_pushes_unique_source_messages : list bool :=
  let display_str := error_text (IoErrorKind (os_error "wrapper context" false ["deep root cause"%string])) in
  [contains (lit "IO error: wrapper context") display_str; contains (lit "deep root cause") display_str;
   negb (contains (lit "Elevated root privileges required") display_str)].

(** ** [src/config.rs] *)
Definition test_firehol_enabled_by_default : list bool :=
  [is_firehol_enabled Config_default; cf_firehol Config_default; negb (cf_no_firehol Config_default)].

(** ** [src/xdp.rs] *)
Definition test_locate_ebpf_binary_with_env : list bool :=
  let tmp := lit "/tmp/.tmpFile" in
  expect (locate_ebpf_binary (λ p, p ≟ tmp) (Some tmp) None) (λ path, [path ≟ tmp]).
(** No file exists, and nothing is loaded. *)
#[local] Instance no_aya : Aya unit := {|
  ebpf_load _ _ := Fault;
  has_program _ := false;
  program_try_into _ := Fault;
  program_load _ := Fault;
  program_attach _ _ a := (Fault, a);
|}.
Definition test_xdp_firewall_load_nonexistent_path : list bool :=
  let non_existent := lit "/non/existent/path/firewall-ebpf" in
  let is_file (_ : list Z) := false in
  let fs_read (_ : list Z) : outcome library_error (list Z) := Fault in
  [match xdp_load (A := unit) is_file fs_read (Some non_existent) None None with
   | Err (CustomPathMissing p) => p ≟ non_existent | _ => false end;
   is_err (load_and_attach (A := unit) is_file fs_read (lit "dummy_eth") Generic (Some non_existent)
     None None)].

(** ** [src/main.rs] *)
Definition test_compute_fingerprint : list bool :=
  let tmp := lit "/tmp/.tmpFile" in
  let stat p := if p ≟ tmp then Some (Some 1700000000, 0) else None in
  let fp := compute_fingerprint stat [tmp; lit "/non/existent/path"] in
  [length fp ≟ 2%nat] ++
  match fp with
  | [(_, mtime, _); (_, mtime', size)] =>
      [bool_decide (is_Some mtime); mtime' ≟ None; size ≟ 0]
  | _ => [false]
  end.

(** ** [src/firehol/metrics.rs] *)
Definition test_firehol_metrics_new_and_record_drop : list bool :=
  let metrics := record_drop (record_drop demo_telemetry (lit "malware") (lit "tcp") 1500)
    (lit "abuse") (lit "udp") 512 in
  let packets := tm_firehol_packets metrics in
  let bytes := tm_firehol_bytes metrics in
  [bool_decide (is_Some (packets !! [lit "abuse"; lit "udp"]));
   bool_decide (is_Some (packets !! [lit "malware"; lit "tcp"]));
   bytes !! [lit "malware"] ≟ Some 1500; bytes !! [lit "abuse"] ≟ Some 512; size bytes ≟ 2%nat].

Lemma daemon_tests_pass :
  forallb passes
    [test_permission_denied_formatting; test_custom_error_formatting;
     test_aya_error_conversions_and_display; test_error_chain_pushes_unique_source_messages;
     test_firehol_enabled_by_default; test_locate_ebpf_binary_with_env;
     test_xdp_firewall_load_nonexistent_path; test_compute_fingerprint;
     test_firehol_metrics_new_and_record_drop] = true.
Proof. vm_compute. reflexivity. Qed.
