(* ===== verification/TestsTools.v ===== *)
(** * Unit tests of the traffic tools

    The tests of [scripts/common/src/packet.rs], [generator.rs], [stats.rs] and [console.rs],
    and those of [scripts/benchmark/src/main.rs] and [scripts/test_traffic/src/main.rs] that do
    not parse a command line with options or open sockets; the statistics of ten thousand
    protocol draws are left out. *)
From stdpp Require Import base numbers list gmap fin_maps strings sorting.
From Stdlib Require Import ZArith SpecFloat.
From S2P Require Import Prelude Net Common BpfMaps Str Fmt Lines Metadata Import Console TopN Telemetry.
From S2P Require Import Wire Packet Generator Bench Report Probe Checks TestsTelemetry.

Local Open Scope Z_scope.
Local Open Scope checks_scope.
#[local] Existing Instance ansi_console.

(** ** [scripts/common/src/packet.rs] *)
Definition at_byte (buf : list Z) (i : nat) : option Z := buf !! i.
Definition bytes_at (buf : list Z) (i n : nat) : list Z := take n (drop i buf).
Definition test_rfc1071_checksum_simple : list bool :=
  let data := [0x45; 0x00; 0x00; 0x3c; 0x1c; 0x46; 0x40; 0x00; 0x40; 0x06] in
  expect (internet_checksum data) (λ csum, negb (csum ≟ 0) ::
    expect (internet_checksum (data ++ to_be_bytes 2 csum)) (λ full, [full ≟ 0])).
Definition test_build_ipv4_tcp_syn : list bool :=
  expect (build_ipv4_tcp_syn (zeroed 128) [198; 51; 100; 14] [172; 28; 0; 2] 49152 80 12345 1 (lit "DATA"))
    (λ '(n, buf),
      [n ≟ 44; at_byte buf 0 ≟ Some 0x45; at_byte buf 9 ≟ Some IPPROTO_TCP;
       bytes_at buf 12 4 ≟ [198; 51; 100; 14]; bytes_at buf 16 4 ≟ [172; 28; 0; 2];
       bytes_at buf 20 2 ≟ to_be_bytes 2 49152; bytes_at buf 22 2 ≟ to_be_bytes 2 80;
       at_byte buf 33 ≟ Some 0x02]).
Definition test_build_ipv4_udp : list bool :=
  expect (build_ipv4_udp (zeroed 128) [10; 0; 0; 50] [172; 28; 0; 2] 5353 53 2 (lit "QUERY"))
    (λ '(n, buf),
      [n ≟ 20 + 8 + 5; at_byte buf 9 ≟ Some IPPROTO_UDP; bytes_at buf 12 4 ≟ [10; 0; 0; 50];
       bytes_at buf 16 4 ≟ [172; 28; 0; 2]]).
Definition test_build_ipv4_icmp_echo : list bool :=
  expect (build_ipv4_icmp_echo (zeroed 128) [192; 0; 2; 1] [172; 28; 0; 2] 100 1 3 (lit "PING"))
    (λ '(n, buf), [n ≟ 20 + 8 + 4; at_byte buf 9 ≟ Some IPPROTO_ICMP; at_byte buf 20 ≟ Some 8]).
Definition test_build_ipv4_other : list bool :=
  expect (build_ipv4_other (zeroed 128) [198; 51; 100; 14] [172; 28; 0; 2] IPPROTO_TEST_OTHER 4
            (lit "CUSTOM_PAYLOAD"))
    (λ '(n, buf), [n ≟ 20 + 14; at_byte buf 9 ≟ Some IPPROTO_TEST_OTHER]).
Definition test_packet_buffer_methods : list bool :=
  let pb := new_buffer in
  let pb' := set_len (buffer_mut pb (patch 0 [0xAA] (pb_data pb))) 1 in
  [is_empty pb; pb_len pb ≟ 0; negb (is_empty pb'); pb_len pb' ≟ 1] ++
  expect (as_slice pb) (λ s, [length s ≟ 0%nat]) ++ expect (as_slice pb') (λ s, [s ≟ [0xAA]]).
Definition test_l4_checksum_odd_length_and_udp : list bool :=
  expect (l4_checksum [192; 168; 1; 1] [192; 168; 1; 2] IPPROTO_UDP [1; 2; 3]) (λ csum, [negb (csum ≟ 0)]).
Definition test_internet_checksum_odd_length : list bool :=
  expect (internet_checksum [0x12; 0x34; 0x56]) (λ csum, [csum ≟ 0x97cb]) ++
  expect (internet_checksum [0xfe]) (λ csum, [csum ≟ 0x01ff]).
Definition test_l4_checksum_udp_zero_translated_to_ffff : list bool :=
  expect (l4_checksum (zeroed 4) (zeroed 4) IPPROTO_UDP [0xff; 0xec]) (λ csum, [csum ≟ 0xffff]) ++
  expect (l4_checksum (zeroed 4) (zeroed 4) IPPROTO_TCP [0xff; 0xec]) (λ csum, [csum ≟ 0x000b]).

(** ** [scripts/common/src/generator.rs] *)
Fixpoint in_range_draws (n : nat) (min max : Z) (prng : FastPrng) : list bool :=
  match n with
  | O => []
  | S n' => expect (gen_range prng min max) (λ '(val, prng),
      ((min <=? val) && (val <=? max)) :: in_range_draws n' min max prng)
  end.
Definition test_fast_prng_distribution : list bool := in_range_draws 1000 10 50 (prng_new 42).
Definition test_packet_protocol_as_str : list bool :=
  (λ '(p, text), proto_as_str p ≟ lit text) <$>
  [(PTcp, "tcp"); (PUdp, "udp"); (PIcmp, "icmp"); (PIcmpv6, "icmpv6"); (POther, "other")]%string.
Definition test_fast_prng_default_and_next_u16 : list bool :=
  let '(a, default_prng) := next_u64 prng_default in
  let '(b, seeded_prng) := next_u64 (prng_new 0x853c49e6748fea9b) in
  let value := (next_u16 default_prng).1 in
  [a ≟ b; value <=? 0xffff; value ≟ wrap_u16 (Z.shiftr (next_u64 seeded_prng).1 48)].
Definition test_fast_prng_gen_range_edges : list bool :=
  expect (gen_range (prng_new 7) 5 5) (λ '(v, prng), (v ≟ 5) ::
    expect (gen_range prng 10 9) (λ '(v, prng), (v ≟ 10) :: in_range_draws 500 3 6 prng)).
Definition test_ip_pool_round_robin_wraparound : list bool :=
  expect (new_blocked_pool 8 2) (λ pool,
    [len (pool_ips pool) ≟ 2] ++
    expect (next_round_robin pool) (λ '(first, pool),
    expect (next_round_robin pool) (λ '(second, pool),
    expect (next_round_robin pool) (λ '(third, _), [third ≟ first; negb (first ≟ second)])))).
Definition test_protocol_choice_parsing : list bool :=
  ([("tcp", CTcp); ("UDP", CUdp); ("icmp", CIcmp); ("icmpv6", CIcmpv6); ("other", COther);
    ("mixed", CMixed)]%string ≫= λ '(text, choice),
      expect (choice_from_str (lit text)) (λ c, [c ≟ choice])) ++
  [is_err (choice_from_str (lit "invalid"))].
Definition test_ip_pool_generation_count : list bool :=
  expect (new_blocked_pool 200 100) (λ pool,
    [len (pool_ips pool) ≟ 100; bool_decide (NoDup (pool_ips pool))] ++
    ((λ exact, bool_decide (exact ∈ pool_ips pool)) <$> EXACT_BLOCKED_IPV4)).

(** ** [scripts/common/src/stats.rs] *)
Definition close_to (x y : f64) : bool := SFltb (SFabs (f64_sub x y)) (f64_lit 1 6).
Definition test_format_int_with_spaces__tools : list bool :=
  (λ '(n, text), format_int_with_spaces n ≟ lit text) <$>
  [(0, "0"); (9, "9"); (999, "999"); (1000, "1 000"); (45680888, "45 680 888"); (1000000, "1 000 000");
   (1234567890, "1 234 567 890")]%string.
Definition test_format_float_with_spaces__tools : list bool :=
  (λ '(x, d, text), tools_format_float_with_spaces x d ≟ lit text) <$>
  [(S754_zero false, 2%nat, "0.00"); (f64_lit 131010006 2, 2%nat, "1 310 100.06");
   (f64_lit 6708 4, 4%nat, "0.6708"); (f64_of_Z 1440204, 0%nat, "1 440 204")]%string.
Definition test_thread_stats_recording : list bool :=
  let t := record_other (record_icmp (record_udp (record_tcp (ThreadStats_new 0) 64 true) 128 true)
    32 false) 64 true in
  let t := ThreadStats_record_error t in
  [packets_sent t ≟ 4; bytes_sent t ≟ 288; tcp_packets t ≟ 1; udp_packets t ≟ 1; icmp_packets t ≟ 1;
   other_packets t ≟ 1; expected_dropped t ≟ 3; expected_accepted t ≟ 1; errors t ≟ 1].
Definition test_multithread_aggregation_and_throughput : list bool :=
  let t0 := record_tcp (record_tcp (ThreadStats_new 0) 100 true) 100 true in
  let t1 := record_icmp (record_udp (ThreadStats_new 1) 200 true) 100 false in
  let summary := summarize [t0; t1] (2 * 10 ^ 9) 50 10 (f64_of_Z 5) (f64_lit 1 1) (f64_lit 2 1) in
  let totals := sm_totals summary in
  let report := format_report false summary in
  [total_packets totals ≟ 4; total_bytes totals ≟ 500; sum_expected_dropped totals ≟ 3;
   sum_expected_accepted totals ≟ 1; summary_threads totals ≟ 2;
   sm_connections summary ≟ 50; sm_unique_ips summary ≟ 10;
   SFeqb (sm_avg_pps summary) (f64_of_Z 2); SFeqb (sm_peak_pps summary) (f64_of_Z 5);
   close_to (sm_throughput_mbps summary) (f64_lit 2 3);
   has_text report "🚀 Benchmark completed"; has_text report "TCP packets";
   has_text report "UDP packets"; has_text report "ICMP packets"; has_text report "4 packets"].
Definition test_stats_edge_cases_and_icmpv6 : list bool :=
  let t := ThreadStats_record_error (record_icmpv6 (ThreadStats_new 1) 64 true) in
  let rep := format_report false (summarize [t] (10 ^ 9) 1 1 (f64_of_Z 0) (f64_of_Z 0) (f64_of_Z 0)) in
  [icmpv6_packets t ≟ 1; errors t ≟ 1; has_text (format_bytes (1024 * 1024 * 1024 * 2)) "GiB";
   has_text (format_bytes (1024 * 1024 * 5)) "MiB"; has_text (format_bytes (1024 * 10)) "KiB";
   tools_format_float_with_spaces S754_nan 2 ≟ lit "NaN";
   tools_format_float_with_spaces (S754_infinity false) 2 ≟ lit "inf";
   tools_format_float_with_spaces (f64_lit (-425) 1) 1 ≟ lit "-42.5";
   has_text rep "ICMPv6 packets"; has_text rep "Errors"].
Definition test_accepted_counter_branches_and_zero_totals : list bool :=
  let t := record_other (record_icmpv6 (record_icmp (record_udp (record_tcp (ThreadStats_new 0)
    100 false) 200 false) 50 false) 75 false) 25 false in
  let empty_summary := summarize [] (10 ^ 9) 0 0 (f64_of_Z 0) (f64_of_Z 0) (f64_of_Z 0) in
  let report := format_report false empty_summary in
  [expected_accepted t ≟ 5; expected_dropped t ≟ 0; packets_sent t ≟ 5;
   total_packets (sm_totals empty_summary) ≟ 0; has_text report "0 packets";
   negb (has_text report "NaN"); negb (has_text report "inf")].

(** ** [scripts/common/src/console.rs] *)
Definition test_traffic_tools_console_styling : list bool :=
  [(tools_bold, "bold_val"); (tools_green_bold, "ok"); (tools_green, "g"); (tools_red, "r");
   (tools_red_bold, "rb"); (tools_yellow, "y"); (tools_yellow_bold, "yb"); (tools_cyan, "c");
   (tools_cyan_bold, "cb"); (tools_blue, "bl"); (tools_blue_bold, "blb"); (tools_magenta, "m");
   (tools_magenta_bold, "mb"); (tools_white_bold, "wb")]%string ≫= λ '(style, text),
    let coloured := show (style false (lit text)) in
    let plain := show (style true (lit text)) in
    [contains [27; 91] coloured; has_text coloured text; plain ≟ lit text; negb (contains [27] plain)].
Definition test_traffic_tools_env_vars : list bool :=
  [tools_init_color true (λ _, None); negb (tools_init_color false (λ _, None));
   tools_init_color false (only_set "BENCHMARK_NO_COLOR" "1");
   tools_init_color false (only_set "TEST_TRAFFIC_NO_COLOR" "true")].

(** ** [scripts/benchmark/src/main.rs] *)
Definition test_benchmark_cli_args_defaults : list bool :=
  let args := BenchArgs_default in
  [ba_duration args ≟ 30 * 10 ^ 9; ba_connections args ≟ 300; ba_target args ≟ [172; 28; 0; 2];
   ba_packet_size args ≟ 64; ba_threads args ≟ 0; ba_protocol args ≟ CMixed; ba_ip_count args ≟ 100;
   ba_rate args ≟ 0; negb (ba_no_color args)].
Definition test_parse_human_duration : list bool :=
  ([("30s", 30 * 10 ^ 9); ("1m", 60 * 10 ^ 9); ("500ms", 500 * 10 ^ 6); ("45", 45 * 10 ^ 9);
    ("  10ms  ", 10 * 10 ^ 6); ("2m", 120 * 10 ^ 9)]%string ≫= λ '(text, ns),
     expect (parse_human_duration (lit text)) (λ d, [d ≟ ns])) ++
  ((λ text, is_err (parse_human_duration (lit text))) <$> [""; "invalid"; "-1s"; "10xyz"]%string).

(** ** [scripts/test_traffic/src/main.rs] *)
Definition test_test_traffic_cli_args_defaults : list bool :=
  [ca_target CliArgs_default ≟ [172; 28; 0; 2]; ca_interface CliArgs_default ≟ lit "eth0";
   ca_timeout CliArgs_default ≟ 2; negb (ca_no_color CliArgs_default)].
(** The loopback interface answers pings and refuses the connection; no raw socket opens
    and no alias is added. *)
Definition test_run_traffic_verification_loopback : list bool :=
  let args := mkCliArgs [127; 0; 0; 1] (lit "lo") 1 true in
  let a := mkAnswers false false true ConnectionRefused (λ _, false) (λ _, true) in
  expect (run_traffic_verification args a) (λ '(_, (blocked, accepted)), [accepted ≟ 3; blocked ≟ 6]).

Lemma tools_tests_pass :
  forallb passes
    [test_rfc1071_checksum_simple; test_build_ipv4_tcp_syn; test_build_ipv4_udp;
     test_build_ipv4_icmp_echo; test_build_ipv4_other; test_packet_buffer_methods;
     test_l4_checksum_odd_length_and_udp; test_internet_checksum_odd_length;
     test_l4_checksum_udp_zero_translated_to_ffff; test_packet_protocol_as_str;
     test_fast_prng_default_and_next_u16; test_fast_prng_gen_range_edges;
     test_ip_pool_round_robin_wraparound; test_protocol_choice_parsing; test_ip_pool_generation_count;
     test_format_int_with_spaces__tools; test_format_float_with_spaces__tools;
     test_thread_stats_recording; test_multithread_aggregation_and_throughput;
     test_stats_edge_cases_and_icmpv6; test_accepted_counter_branches_and_zero_totals;
     test_traffic_tools_console_styling; test_traffic_tools_env_vars;
     test_benchmark_cli_args_defaults; test_parse_human_duration;
     test_test_traffic_cli_args_defaults; test_run_traffic_verification_loopback] = true.
Proof. vm_compute. reflexivity. Qed.
Lemma prng_distribution_test_passes : passes test_fast_prng_distribution = true.
Proof. vm_compute. reflexivity. Qed.
